(* ===== verification/_CoqProject ===== *)
-Q . S2P
Prelude.v
XdrStream.v
XdrIoq.v
XdrPrim.v
XdrSpec.v
Nfs3Types.v
Nfs3Msgs.v
Nfs3ArgSpecs.v
Nfs3ResSpecs.v
Posix.v
NfsUtils.v
Fsal.v
Nfs3Attr.v
Nfs3Dir.v
Nfs3Io.v
Nfs3Readdir.v
Nfs3Free.v
Dispatch.v
DemoFs.v
Properties.v
ProcProperties.v
Crc32c.v
IoqPos.v
RpcMsg.v
SvcAuth.v
City.v
CityHash.v
SvcVc.v
Svc.v
SvcProperties.v
Mount.v
SvcDg.v
Rbtree.v
RbtreeTree.v
RbtreeLogic.v
RbtreeInsert.v
RbtreeSearch.v
RbtreeRemove.v
RbtreeUnlink.v
RbtreeProps.v
WorkPool.v
WorkPoolInv.v
WorkPoolProps.v
Cache.v
LogText.v
LogState.v
LogFile.v
Log.v
LogLine.v
LogDemo.v
LogFileProps.v
LogProps.v
SvcReg.v
EvState.v
SvcXprt.v
SvcXprtProps.v
EvDemo.v
SvcXprtSteps.v
SvcRqst.v
EvRun.v
SvcRqstProps.v
SvcAccept.v
