(* ===== verification/Prelude.v ===== *)
(** * dnfs: the NFS version 3 server

    The daemon [dnfsd] serves NFS version 3 and the MOUNT protocol from a directory
    of the host.  The record of a call arrives over a connection in fragments
    ([svc_vc_recv]) or as a datagram ([svc_dg_rendezvous]); its header and credential are decoded and checked; the program,
    the version and the procedure choose an entry of a table; the XDR filter of the
    entry decodes the arguments into zeroed memory; the handler ([nfs3_*], [mnt_*])
    makes system calls on the path that is the file handle; the second filter encodes
    the result behind the header of the reply; and the reply is sent as a record
    ([svc_ioq_flushv]) or a datagram ([svc_dg_reply]).  All of this runs in the
    threads of a pool ([work_pool.c]).  WRITE and COMMIT go through a table of open files with share
    counters.  XDR, RPC and transports are those of libntirpc in [src/libntirpc].

    ** The files, from the bottom

    - [Prelude]: machine integers as [Z] with wrap-around, bytes, C strings,
      record update, and the state monad [ST] in which [None] means that the
      process ended (an abort or an exception nobody catches).
    - [XdrStream]: the XDR handle and accessors of [xdr.h], the memory stream of
      [xdr_mem.c], and the classes [XdrSource] and [XdrSink], which say what a stream
      promises to the filters; the memory stream is an instance.
    - [XdrIoq], [IoqPos]: the stream on queues of buffers of [xdr_ioq.c], a second
      instance of both classes; its positions, its invariant and the vectors
      for sending.
    - [XdrPrim]: the filters of [xdr_inline.h], [xdr.c], [xdr_reference.c] and the
      combinators the generated filters consist of.
    - [XdrSpec]: what a filter promises ([xdr_spec] for the bytes, [xdr_safe] for any
      input), with a rule per combinator.
    - [Nfs3Types], [Nfs3Msgs]: the structures of [include/nfs] and the filters of
      [src/nfs/nfs_xdr.cpp] and [src/nfs/nfs_*.cpp].
    - [Nfs3ArgSpecs], [Nfs3ResSpecs]: the bytes of arguments and results.
    - [Posix]: the system calls as the class [Posix] over an arbitrary state, the
      trace of the calls, the server's state ([world]), and the logic [runs]: a
      handler returns and its result and calls satisfy a condition, whatever the
      calls answer.
    - [NfsUtils]: the helpers of [src/nfs/nfs_utils.cpp] on attributes and handles.
    - [Fsal]: the share functions of [nfs_utils.cpp] and the table of
      [src/file/fsal_handle.cpp].
    - [Nfs3Attr], [Nfs3Dir], [Nfs3Io], [Nfs3Readdir]: the handlers of
      [src/nfs/nfs_*.cpp], a definition each, and their specifications.
    - [Nfs3Free]: the functions of the same files that free the results.
    - [Dispatch]: the table, [nfs_rpc_valid_NFS] and the part of
      [nfs_rpc_process_request] behind authentication, and the server as a
      transition system.
    - [DemoFs]: a small concrete file system, at which the theorems are applied.
    - [Properties], [ProcProperties]: the main theorems on the handlers.
    - [Crc32c], [City], [CityHash]: the checksums and hashes of [rpc_crc32.c],
      [city.c] and [src/utils/city_hash.cpp].
    - [RpcMsg]: calls and replies of [rpc_callmsg.c], [rpc_prot.c],
      [rpc_dplx_msg.c] and [auth_inline.h].
    - [SvcAuth]: [svc_auth_unix.c], [svc_auth_none.c], [svc_auth.c] and
      [src/dnfsd/dnfs_auth.cpp].
    - [SvcVc]: receiving and sending records, [svc_vc.c] and [svc_ioq.c].
    - [Svc], [SvcProperties]: the life of a request, [svc.c], [svc_vc.c] and
      [src/dnfsd/dnfs_ntirpc.cpp], over any stream and any transport that keeps the
      promise of the class [Transport]; the theorems on the service as a whole.
    - [Mount]: the MOUNT service of [src/mnt].
    - [SvcDg]: the datagram transport of [svc_dg.c], a second instance of
      [Transport], and the counting of references of [svc.h].
    - [Rbtree]: the red-black trees of [rbtree.c] on an explicit memory.  [RbtreeTree],
      [RbtreeLogic]: the trees a memory represents and a program logic for the loops
      on them.  [RbtreeInsert], [RbtreeSearch], [RbtreeRemove], [RbtreeUnlink]: the
      operations.  [RbtreeProps]: their refinement of a sorted list.
    - [WorkPool]: the pool of worker threads of [work_pool.c] as a transition system
      in which threads interleave.  [WorkPoolInv]: its invariant and its measure.
      [WorkPoolProps]: safety, progress and shutdown.
    - [Cache]: the cache of [include/cache/lru.h] and the buffers of
      [src/cache/bin_log.cpp].
    - [LogText], [LogState], [LogFile], [Log]: the logger of [src/log] with the helpers
      of [src/utils] it uses and its start in [src/dnfsd/dnfs_init.cpp]: text and tables;
      the objects, one store of log files that outputs share, and the class [LogHost] of
      the calls of the system; the files; messages, buffer, outputs and settings.
      [LogLine]: formats as text and keys, and the lines they become.  [LogDemo]: a small
      system.  [LogFileProps], [LogProps]: their properties.
    - [SvcReg]: the registry of programs of [svc.c].
    - [EvState]: the state of transports and event channels of libntirpc, the calls of
      the system they make as the class [EvHost], and references, locks and the freeing
      of a transport ([svc.h], [rpc_dplx_internal.h], [svc_vc.c]).  [SvcXprt]: the table
      of transports of [svc_xprt.c].  [SvcRqst]: the event channels and the loop on epoll
      of [svc_rqst.c].  [SvcXprtProps]: the invariant of the table.  [SvcXprtSteps]:
      the transition system in which threads look up, use and destroy transports.
      [EvRun]: rules to run the operations.  [SvcRqstProps]: events and their tasks.
      [SvcAccept]: the listener of [svc_vc.c].  [EvDemo]: a small system.

    ** What is shown

    - From bytes to bytes: a GETATTR call that arrives over a connection in any
      portions is delivered, decoded, authenticated, served and answered as RFC 5531
      and RFC 1813 say, in whatever portions the reply is taken from its fragment header
      on (a header that is itself split is sent again, which is a finding); so is one that
      arrives in a datagram, and so are the MOUNT procedures, and the handle MNT returns
      works in a following call.  The arguments of the procedures round-trip, and their
      results are encoded as prescribed.
    - Each handler: the calls it makes on every branch and the reply that follows
      from their answers; a mutating procedure makes exactly the change asked for or
      none, except where a finding says otherwise; procedures without MAKES_WRITE
      change nothing.
    - Shares: the counters refine the set of opens held, conflicts are decided
      exactly, opens held together never conflict.
    - The server: after any requests the table of open files is idle.  Any message at all,
      over a connection or in a datagram, either has no effect on the files, or its bytes
      are a call of a procedure of NFS version 3 with an accepted credential and the server
      does what that procedure does on the arguments in the bytes.
    - The libraries: an AUTH_SYS credential is accepted exactly when it is valid, the
      two ways in which RPC headers are coded agree, the queue of buffers is a
      stream like any other, the checksum is CRC-32C, and any calls on a red-black
      tree answer as the sorted list of its nodes in logarithmic time.
    - The threads: over all interleavings no entry of the pool is lost or served twice
      and none of its assertions fails, everything submitted is served, and a
      shutdown ends; transports are destroyed once, after their last reference.
    - Connections: over all interleavings of lookups, uses and destructions in which a thread
      destroys only what it refers to or what is in the table, the table has one transport
      per descriptor, counts of references are exact and nothing is freed while it is
      referred to (two places of the source do not keep to this; a run of one of them that
      uses a freed transport is given); an event starts at most one task for its transport, and
      the task leaves the transport waiting for the next event or out of the table; an
      accepted connection is listed, registered and refers to its listener.
    - Memory of results: what the handlers allocate, what is given back, what is lost.
    - The logger: which calls are recorded and with which text; that messages are printed in
      their order, with their fields in the place of the keys of the format, and none is
      lost when threads add some meanwhile, or repeated unless printing one throws; that
      rotated files are removed oldest first and no more of them are kept than the limit;
      and that each message uses up a descriptor.
      The LRU cache refines a list of values.
    - Failures: masked errors of WRITE, a COMMIT that never flushes, counters that
      leak, requests that end the process, headers of the PROXY protocol that break
      a connection, a refusal of epoll after which a transport is never freed,
      a failing [accept] after which a listener accepts nothing.

    ** Bounds and fuel

    Integers keep their width.  The walk over a [getdents64] buffer has its length as
    fuel and the loop over the directory [page_fuel], both proved sufficient for
    whole records; lists of entries are encoded up to a depth that is a parameter.
    Share counters are exact below 2^31 opens.  The loops over the buffers of a queue
    have the length of the queue and of the data as fuel; that writing does not end
    when a buffer cannot grow is a theorem.  The loops on red-black trees have twice the
    logarithm of the number of nodes as fuel, proved sufficient.  Splitting and replacing
    text has its length as fuel, and the logger may log three deep; both are proved enough.
    The walk over all transports, the shutdown of the table and the rounds of the event
    loop, which runs as long as the daemon, have a number of steps as a parameter; no
    theorem depends on it.

    ** What is not modelled

    Requests run one after the other: their locks are counters, and only the threads
    of the pool, those that use transports and those that log interleave.  The file system may change between
    requests.  The handlers do not call the modelled logger: its lines are no part of
    their replies.  Sockets and listeners are created outside of the model.  RPCSEC_GSS (it calls the GSS library), the client side of libntirpc, the configuration file (a YAML library), signals and
    shutdown are left out, as are classes that are declared and not used, smart pointers
    whose header does not compile, and the copy of the kernel server in
    [kernel-version], which is no part of the daemon.  What uninitialised memory holds, which
    bytes lie behind a block of the heap (a handle is read as a string without an end), how
    members of different layout share a union, and whether errors are logged (where the log
    call is undefined) are parameters. *)
From stdpp Require Export base list gmap countable numbers.
From Stdlib Require Export Strings.Byte ZArith Lia.

#[global] Set Default Proof Using "Type".
Open Scope Z_scope.

(** ** Automation of the development *)

Create HintDb dnfs discriminated.
Create Rewrite HintDb dnfs.

(** The constant an application starts with. *)
Ltac head_of t := lazymatch t with ?f _ => head_of f | _ => t end.

(** Case analysis on the scrutinee of every [match] or [if] in the goal. *)
Ltac split_matches :=
  repeat match goal with
         | |- context [match ?x with _ => _ end] =>
             first [ is_var x; destruct x | destruct x eqn:? ]; simplify_eq/=
         end.

(** The same for the hypothesis [H]. *)
Ltac split_matches_in H :=
  repeat match type of H with
         | context [match ?x with _ => _ end] =>
             first [ is_var x; destruct x | destruct x eqn:? ]; simplify_eq/=
         end.

(** ** Machine integers *)

(** A [w]-bit value is a [Z]; conversions wrap around as in C. *)
Definition u8 (z : Z) : Z := z mod 2 ^ 8.
Definition u16 (z : Z) : Z := z mod 2 ^ 16.
Definition u32 (z : Z) : Z := z mod 2 ^ 32.
Definition u64 (z : Z) : Z := z mod 2 ^ 64.
Definition i32 (z : Z) : Z := (z + 2 ^ 31) mod 2 ^ 32 - 2 ^ 31.
Definition i64 (z : Z) : Z := (z + 2 ^ 63) mod 2 ^ 64 - 2 ^ 63.

Definition is_u8 (z : Z) : Prop := 0 <= z < 2 ^ 8.
Definition is_u32 (z : Z) : Prop := 0 <= z < 2 ^ 32.
Definition is_u64 (z : Z) : Prop := 0 <= z < 2 ^ 64.
Definition is_i32 (z : Z) : Prop := - 2 ^ 31 <= z < 2 ^ 31.

(** A [bool_t] that the XDR layer produces is 0 or 1. *)
Definition is_bool (z : Z) : Prop := z = 0 \/ z = 1.

Ltac unfold_ints :=
  unfold u8, u16, u32, u64, i32, i64, is_u8, is_u32, is_u64, is_i32, is_bool in *.

(** Linear arithmetic with wrap-around. *)
Ltac zsolve := unfold_ints; Z.to_euclidean_division_equations; lia.

Lemma u32_small z : is_u32 z -> u32 z = z.
Proof. intros; apply Z.mod_small; assumption. Qed.
Lemma u64_small z : is_u64 z -> u64 z = z.
Proof. intros; apply Z.mod_small; assumption. Qed.
Lemma i32_small z : is_i32 z -> i32 z = z.
Proof. intros H; unfold i32; rewrite Z.mod_small; unfold is_i32 in H; lia. Qed.
Lemma u32_range z : is_u32 (u32 z).
Proof. apply Z.mod_pos_bound; lia. Qed.
Lemma u64_range z : is_u64 (u64 z).
Proof. apply Z.mod_pos_bound; lia. Qed.
Lemma i32_range z : is_i32 (i32 z).
Proof. unfold is_i32, i32. pose proof (Z.mod_pos_bound (z + 2 ^ 31) (2 ^ 32)). lia. Qed.
Lemma i32_u32 z : i32 (u32 z) = i32 z.
Proof. unfold i32, u32. f_equal. rewrite Zplus_mod_idemp_l. reflexivity. Qed.
Lemma u32_i32 z : u32 (i32 z) = u32 z.
Proof.
  unfold i32, u32. rewrite Zminus_mod_idemp_l. f_equal. lia.
Qed.
Lemma u32_idemp z : u32 (u32 z) = u32 z.
Proof. apply u32_small, u32_range. Qed.
Lemma is_bool_i32 z : is_bool z -> is_i32 z.
Proof. unfold is_bool, is_i32. lia. Qed.

Lemma land_range a m n : 0 <= n -> 0 <= m < 2 ^ n -> 0 <= Z.land a m < 2 ^ n.
Proof.
  intros Hn [Hm Hlt]. assert (Hp : 0 <= Z.land a m) by (apply Z.land_nonneg; lia). split; [done|].
  rewrite Z.bounded_iff_bits_nonneg in Hlt |- * by done. intros l Hl. by rewrite Z.land_spec, Hlt, andb_false_r.
Qed.

Lemma lxor_range a b n : 0 <= n -> 0 <= a < 2 ^ n -> 0 <= b < 2 ^ n -> 0 <= Z.lxor a b < 2 ^ n.
Proof.
  intros Hn [Ha Hla] [Hb Hlb]. assert (Hp : 0 <= Z.lxor a b) by (apply Z.lxor_nonneg; lia). split; [done|].
  rewrite Z.bounded_iff_bits_nonneg in * by done. intros l Hl. by rewrite Z.lxor_spec, Hla, Hlb.
Qed.

#[export] Hint Resolve u32_range u64_range i32_range is_bool_i32 : dnfs.
#[export] Hint Rewrite u32_i32 i32_u32 u32_idemp : dnfs.

(** ** Bytes *)

#[global] Instance byte_eq_dec : EqDecision byte := Byte.byte_eq_dec.

Definition byte_val (b : byte) : Z := Z.of_N (Byte.to_N b).

(** The byte holding the low eight bits of [z]. *)
Definition byte_of (z : Z) : byte :=
  match Byte.of_N (Z.to_N (u8 z)) with
  | Some b => b
  | None => x00
  end.

Lemma byte_val_range b : is_u8 (byte_val b).
Proof. unfold is_u8, byte_val. pose proof (Byte.to_N_bounded b). lia. Qed.

Lemma byte_val_of z : byte_val (byte_of z) = u8 z.
Proof.
  unfold byte_val, byte_of.
  assert (0 <= u8 z < 256) as Hr by (apply Z.mod_pos_bound; lia).
  destruct (Byte.of_N (Z.to_N (u8 z))) as [b|] eqn:E.
  - apply Byte.to_of_N in E. rewrite E. lia.
  - apply Byte.of_N_None_iff in E. lia.
Qed.

Lemma byte_val_inj b1 b2 : byte_val b1 = byte_val b2 -> b1 = b2.
Proof.
  unfold byte_val. intros H%N2Z.inj.
  pose proof (Byte.of_to_N b1). pose proof (Byte.of_to_N b2). congruence.
Qed.

Lemma byte_of_val b : byte_of (byte_val b) = b.
Proof.
  apply byte_val_inj. rewrite byte_val_of.
  apply Z.mod_small, byte_val_range.
Qed.

#[global] Instance byte_countable : Countable byte.
Proof.
  refine (inj_countable' byte_val byte_of byte_of_val).
Defined.

(** Big-endian 32-bit words ([htonl]/[ntohl] on the wire). *)
Definition be32 (z : Z) : list byte :=
  [byte_of (Z.shiftr z 24); byte_of (Z.shiftr z 16); byte_of (Z.shiftr z 8); byte_of z].

Definition be32_val (l : list byte) : Z :=
  match l with
  | [a; b; c; d] =>
      byte_val a * 2 ^ 24 + byte_val b * 2 ^ 16 + byte_val c * 2 ^ 8 + byte_val d
  | _ => 0
  end.

Lemma length_be32 z : length (be32 z) = 4%nat.
Proof. reflexivity. Qed.

Lemma be32_val_be32 z : be32_val (be32 z) = u32 z.
Proof.
  unfold be32, be32_val. rewrite !byte_val_of, !Z.shiftr_div_pow2 by lia. zsolve.
Qed.

Lemma be32_val_range l : is_u32 (be32_val l).
Proof.
  unfold be32_val. split_matches; try (unfold is_u32; lia).
  repeat match goal with b : byte |- _ =>
    lazymatch goal with
    | H : is_u8 (byte_val b) |- _ => fail
    | _ => pose proof (byte_val_range b)
    end end.
  unfold is_u8, is_u32 in *. lia.
Qed.

Lemma be32_of_val l : length l = 4%nat -> be32 (be32_val l) = l.
Proof.
  destruct l as [|a [|b [|c [|d [|]]]]]; try discriminate. intros _.
  unfold be32_val, be32. rewrite !Z.shiftr_div_pow2 by lia.
  pose proof (byte_val_range a). pose proof (byte_val_range b).
  pose proof (byte_val_range c). pose proof (byte_val_range d).
  repeat f_equal; apply byte_val_inj; rewrite byte_val_of; zsolve.
Qed.

Lemma be32_u32 z : be32 (u32 z) = be32 z.
Proof.
  rewrite <- (be32_of_val (be32 z)) by reflexivity. rewrite be32_val_be32. reflexivity.
Qed.

Lemma be32_i32 z : be32 (i32 z) = be32 z.
Proof. rewrite <- (be32_u32 (i32 z)), u32_i32. apply be32_u32. Qed.

#[export] Hint Rewrite be32_u32 be32_i32 be32_val_be32 : dnfs.

(** ** C strings *)

(** A C string is the part of a buffer before its first NUL. *)
Fixpoint cstr (l : list byte) : list byte :=
  match l with
  | [] => []
  | b :: l' => if decide (b = x00) then [] else b :: cstr l'
  end.

Definition strlen (l : list byte) : nat := length (cstr l).

Definition no_nul (l : list byte) : Prop := Forall (fun b => b <> x00) l.

Lemma cstr_no_nul l : no_nul (cstr l).
Proof.
  induction l as [|b l IH]; simpl; [constructor|].
  case_decide; constructor; assumption.
Qed.

Lemma cstr_app_nul l rest : no_nul l -> cstr (l ++ x00 :: rest) = l.
Proof.
  induction 1 as [|b l Hb Hl IH]; simpl; [reflexivity|].
  case_decide; [contradiction|]. f_equal. exact IH.
Qed.

Lemma cstr_id l : no_nul l -> cstr l = l.
Proof.
  induction 1 as [|b l Hb Hl IH]; simpl; [reflexivity|].
  case_decide; [contradiction|]. f_equal. exact IH.
Qed.

Lemma cstr_idemp l : cstr (cstr l) = cstr l.
Proof. apply cstr_id, cstr_no_nul. Qed.

Lemma cstr_length l : (length (cstr l) <= length l)%nat.
Proof.
  induction l as [|b l IH]; simpl; [lia|]. case_decide; simpl; lia.
Qed.

Lemma take_cstr l : take (strlen l) l = cstr l.
Proof.
  induction l as [|b l IH]; unfold strlen in *; simpl; [done|].
  case_decide; simpl; [done|]. by f_equal.
Qed.

#[export] Hint Resolve cstr_no_nul : dnfs.

(** ** Functional record update *)

(** [rec_eta] rebuilds a record from its projections. *)
Class RecEta (R : Type) := rec_eta : R -> R.

(** [upd proj f r] is [r] with [f] applied to the field [proj]; the instances
    are derived from the record's [RecEta] instance by abstracting [proj]. *)
Class Setter {R A : Type} (proj : R -> A) := upd : (A -> A) -> R -> R.
#[global] Arguments upd {R A} proj {Setter} f r /.

Ltac derive_setter :=
  match goal with
  | |- @Setter ?R ?A ?proj =>
      let e := constr:(_ : RecEta R) in
      let e := eval hnf in e in
      let p := eval pattern proj in e in
      match p with
      | ?s _ => exact (fun (f : A -> A) => s (fun r : R => f (proj r)))
      end
  end.
#[global] Hint Extern 1 (Setter _) => derive_setter : typeclass_instances.

Declare Scope dnfs_scope.
Delimit Scope dnfs_scope with dnfs.
Notation "r <| f := v |>" := (upd f (fun _ => v) r)
  (at level 1, left associativity, f at next level, v at level 200) : dnfs_scope.

(** ** State passing *)

(** Code that reads and changes a state [S] and can bring the process down:
    [None] is an [abort()] or an uncaught exception. *)
Definition ST (S A : Type) : Type := S -> option (A * S).
Definition ret {S A} (a : A) : ST S A := fun s => Some (a, s).
Definition abort {S A} : ST S A := fun s => None.
Definition bind {S A B} (m : ST S A) (k : A -> ST S B) : ST S B :=
  fun s => match m s with Some (a, s') => k a s' | None => None end.
Definition modify {S} (f : S -> S) : ST S unit := fun s => Some (tt, f s).
Definition gets {S A} (f : S -> A) : ST S A := fun s => Some (f s, s).

Notation "x <- m ;; k" := (bind m (fun x => k))
  (at level 100, m at next level, right associativity) : dnfs_scope.
Notation "'let!' p := m 'in' k" := (bind m (fun x => match x with p => k end))
  (at level 10, p pattern, m at level 200, k at level 200) : dnfs_scope.
Notation "m ;; k" := (bind m (fun _ => k))
  (at level 100, right associativity) : dnfs_scope.
