(* ===== verification/XdrStream.v ===== *)
(** * XDR streams (libntirpc [ntirpc/rpc/xdr.h], [src/xdr_mem.c])

    The XDR handle, the inline unit accessors of [xdr.h] and the memory stream
    of [xdr_mem.c].  A handle holds one contiguous buffer; pointers into it are
    offsets from [vio_base].  The operations vector [x_ops] is the class
    [xdr_ops], and what a stream promises to the filters that use it are the
    classes [XdrSource] (decoding) and [XdrSink] (encoding), which the memory
    stream implements. *)
From S2P Require Import Prelude.

Open Scope Z_scope.
Open Scope dnfs_scope.

(** ** The handle *)

Inductive xdr_op := XDR_ENCODE | XDR_DECODE | XDR_FREE.

#[global] Instance xdr_op_eq_dec : EqDecision xdr_op.
Proof. solve_decision. Defined.

Definition BYTES_PER_XDR_UNIT : nat := 4.
Definition XDR_TRUE : Z := 1.
Definition XDR_FALSE : Z := 0.

(** What the server hangs on [x_public]: [struct nfs_request_lookahead]. *)
Record nfs_request_lookahead := mk_lookahead {
  lk_flags : Z;
  lk_read : Z;
  lk_write : Z }.
#[global] Instance eta_lookahead : RecEta nfs_request_lookahead :=
  fun r => mk_lookahead (lk_flags r) (lk_read r) (lk_write r).

(** [XDR]: [x_priv] is what the stream implementation keeps beside the current
    buffer (nothing for a memory stream). *)
Record XDR (P : Type) := mkXDR {
  x_op : xdr_op;
  x_public : option nfs_request_lookahead;
  x_buf : list byte;
  x_data : nat;
  vio_head : nat;
  vio_tail : nat;
  vio_wrap : nat;
  x_priv : P }.
Arguments mkXDR {P}.
Arguments x_op {P}.
Arguments x_public {P}.
Arguments x_buf {P}.
Arguments x_data {P}.
Arguments vio_head {P}.
Arguments vio_tail {P}.
Arguments vio_wrap {P}.
Arguments x_priv {P}.
#[global] Instance eta_XDR P : RecEta (XDR P) :=
  fun r => mkXDR (x_op r) (x_public r) (x_buf r) (x_data r) (vio_head r) (vio_tail r)
                 (vio_wrap r) (x_priv r).

(** [memcpy] into the buffer at offset [off]. *)
Definition splice (off : nat) (bs buf : list byte) : list byte :=
  take off buf ++ bs ++ drop (off + length bs) buf.

(** The bytes at [off .. off + n). *)
Definition slice (off n : nat) (buf : list byte) : list byte := take n (drop off buf).

(** [struct xdr_ops], the operations the filters reach. *)
Class xdr_ops (P : Type) := {
  x_getunit : XDR P -> option Z * XDR P;
  x_putunit : XDR P -> Z -> bool * XDR P;
  x_getbytes : XDR P -> nat -> option (list byte) * XDR P;
  x_putbytes : XDR P -> list byte -> bool * XDR P }.

(** ** Inline accessors of [xdr.h] *)

Section Inline.
  Context {P : Type} `{xdr_ops P}.

Definition xdr_size_inline (xs : XDR P) : nat := vio_wrap xs - x_data xs.

Definition xdr_tail_update (xs : XDR P) : XDR P :=
  if decide (vio_tail xs < x_data xs)%nat then xs <| vio_tail := x_data xs |> else xs.

(** The fast path zero-extends, the slow path sign-extends. *)
Definition xdr_getlong (xs : XDR P) : option Z * XDR P :=
  let future := (x_data xs + 4)%nat in
  if decide (future <= vio_tail xs)%nat
  then (Some (be32_val (slice (x_data xs) 4 (x_buf xs))), xs <| x_data := future |>)
  else
    let '(b, xs') := x_getunit xs in
    (match b with Some u => Some (i32 u) | None => None end, xs').

Definition xdr_putlong (xs : XDR P) (l : Z) : bool * XDR P :=
  let future := (x_data xs + 4)%nat in
  if decide (future <= vio_wrap xs)%nat
  then (true, xs <| x_buf := splice (x_data xs) (be32 (i32 l)) (x_buf xs) |>
                 <| x_data := future |>)
  else x_putunit xs (u32 l).

Definition xdr_getuint32 (xs : XDR P) : option Z * XDR P :=
  let future := (x_data xs + 4)%nat in
  if decide (future <= vio_tail xs)%nat
  then (Some (be32_val (slice (x_data xs) 4 (x_buf xs))), xs <| x_data := future |>)
  else x_getunit xs.

Definition xdr_putuint32 (xs : XDR P) (v : Z) : bool * XDR P :=
  let future := (x_data xs + 4)%nat in
  if decide (future <= vio_wrap xs)%nat
  then (true, xs <| x_buf := splice (x_data xs) (be32 v) (x_buf xs) |>
                 <| x_data := future |>)
  else x_putunit xs v.

Definition xdr_getint32 (xs : XDR P) : option Z * XDR P :=
  let '(u, xs') := xdr_getuint32 xs in
  (match u with Some v => Some (i32 v) | None => None end, xs').

Definition xdr_putint32 (xs : XDR P) (v : Z) : bool * XDR P := xdr_putuint32 xs (u32 v).

Definition xdr_getenum (xs : XDR P) : option Z * XDR P := xdr_getint32 xs.

Definition xdr_putenum (xs : XDR P) (v : Z) : bool * XDR P := xdr_putint32 xs v.

Definition xdr_getbool (xs : XDR P) : option Z * XDR P :=
  let '(lv, xs') := xdr_getint32 xs in
  match lv with
  | None => (None, xs')
  | Some v => (Some (if decide (v = 0) then XDR_FALSE else XDR_TRUE), xs')
  end.

Definition xdr_putbool (xs : XDR P) (v : Z) : bool * XDR P :=
  xdr_putint32 xs (if decide (v = 0) then XDR_FALSE else XDR_TRUE).

(** [count] bytes of the current buffer at once; the result is the offset at
    which they start. *)
Definition xdr_inline_decode (xs : XDR P) (count : nat) : option nat * XDR P :=
  let buf := x_data xs in
  let future := (x_data xs + count)%nat in
  if decide (future <= vio_tail xs)%nat then (Some buf, xs <| x_data := future |>) else (None, xs).

Definition xdr_inline_encode (xs : XDR P) (count : nat) : option nat * XDR P :=
  let buf := x_data xs in
  let future := (x_data xs + count)%nat in
  if decide (future <= vio_wrap xs)%nat
  then (Some buf, xdr_tail_update (xs <| x_data := future |>)) else (None, xs).

End Inline.

(** ** The memory stream *)

(** [xdrmem_ncreate]: [aligned] is the test on the address; an unaligned buffer
    and an operation that is neither encode nor decode abort. *)
Definition xdrmem_ncreate (buf : list byte) (aligned : bool) (op : xdr_op) : option (XDR unit) :=
  let size := length buf in
  if negb aligned then None
  else
    match op with
    | XDR_ENCODE => Some (mkXDR op None buf 0 0 0 size tt)
    | XDR_DECODE => Some (mkXDR op None buf 0 0 size size tt)
    | XDR_FREE => None
    end.

Definition xdrmem_getunit (xs : XDR unit) : option Z * XDR unit := (None, xs).

Definition xdrmem_putunit (xs : XDR unit) (v : Z) : bool * XDR unit := (false, xs).

Definition xdrmem_getbytes (xs : XDR unit) (len : nat) : option (list byte) * XDR unit :=
  let future := (x_data xs + len)%nat in
  if decide (vio_tail xs < future)%nat then (None, xs)
  else (Some (slice (x_data xs) len (x_buf xs)), xs <| x_data := future |>).

Definition xdrmem_putbytes (xs : XDR unit) (addr : list byte) : bool * XDR unit :=
  let future := (x_data xs + length addr)%nat in
  if decide (vio_wrap xs < future)%nat then (false, xs)
  else (true, xs <| x_buf := splice (x_data xs) addr (x_buf xs) |> <| x_data := future |>).

Definition xdrmem_getpos (xs : XDR unit) : nat * XDR unit :=
  let xs := xdr_tail_update xs in ((x_data xs - vio_head xs)%nat, xs).

Definition xdrmem_setpos (xs : XDR unit) (pos : nat) : bool * XDR unit :=
  let future := (vio_head xs + pos)%nat in
  let xs := xdr_tail_update xs in
  if decide (vio_wrap xs < future)%nat then (false, xs) else (true, xs <| x_data := future |>).

#[global] Instance xdrmem_ops : xdr_ops unit := {|
  x_getunit := xdrmem_getunit;
  x_putunit := xdrmem_putunit;
  x_getbytes := xdrmem_getbytes;
  x_putbytes := xdrmem_putbytes |}.

(** ** What a stream promises to the filters *)

(** No stream operation changes the direction of the handle. *)
Definition stream_frame {P} (xs xs' : XDR P) : Prop := x_op xs' = x_op xs.

Class XdrSource (P : Type) `{xdr_ops P} := {
  src_ok : XDR P -> Prop;
  src_in : XDR P -> list byte;
  src_getuint32 : forall xs v rest,
    src_ok xs -> is_u32 v -> (length rest mod 4 = 0)%nat -> src_in xs = be32 v ++ rest ->
    exists xs', xdr_getuint32 xs = (Some v, xs') /\
      src_ok xs' /\ src_in xs' = rest /\ stream_frame xs xs';
  src_getlong : forall xs v rest,
    src_ok xs -> is_u32 v -> (length rest mod 4 = 0)%nat -> src_in xs = be32 v ++ rest ->
    exists l xs', xdr_getlong xs = (Some l, xs') /\ u32 l = v /\
      src_ok xs' /\ src_in xs' = rest /\ stream_frame xs xs';
  src_getbytes : forall xs bs rest,
    src_ok xs -> src_in xs = bs ++ rest -> bs <> [] ->
    exists xs', x_getbytes xs (length bs) = (Some bs, xs') /\
      src_ok xs' /\ src_in xs' = rest /\ stream_frame xs xs';
  src_getuint32_mono : forall xs r xs',
    src_ok xs -> xdr_getuint32 xs = (r, xs') ->
    src_ok xs' /\ (exists used, src_in xs = used ++ src_in xs') /\ stream_frame xs xs';
  src_getlong_mono : forall xs r xs',
    src_ok xs -> xdr_getlong xs = (r, xs') ->
    src_ok xs' /\ (exists used, src_in xs = used ++ src_in xs') /\ stream_frame xs xs';
  src_getbytes_mono : forall xs n r xs',
    src_ok xs -> x_getbytes xs n = (r, xs') ->
    src_ok xs' /\ (exists used, src_in xs = used ++ src_in xs') /\ stream_frame xs xs';
  src_inline : forall xs n buf xs',
    src_ok xs -> xdr_inline_decode xs n = (Some buf, xs') ->
    src_ok xs' /\ src_in xs = slice buf n (x_buf xs') ++ src_in xs' /\
    length (slice buf n (x_buf xs')) = n /\ stream_frame xs xs';
  src_public : forall xs v, src_ok xs ->
    src_ok (xs <| x_public := v |>) /\ src_in (xs <| x_public := v |>) = src_in xs;
  src_getuint32_sound : forall xs v xs', src_ok xs -> xdr_getuint32 xs = (Some v, xs') ->
    is_u32 v /\ src_in xs = be32 v ++ src_in xs';
  src_getbytes_sound : forall xs n bs xs', src_ok xs -> x_getbytes xs n = (Some bs, xs') ->
    length bs = n /\ src_in xs = bs ++ src_in xs';
  src_bounds : forall xs, src_ok xs -> (x_data xs <= vio_wrap xs <= length (x_buf xs))%nat }.

(** [emits xs xs' bs]: encoding appended [bs], and what fitted behind [bs]
    still fits.  Bytes reserved at once count as written with what the buffer
    holds in the end. *)
Class XdrSink (P : Type) `{xdr_ops P} := {
  snk_ok : XDR P -> Prop;
  snk_out : XDR P -> list byte;
  snk_fits : XDR P -> nat -> Prop;
  emits (xs xs' : XDR P) (bs : list byte) : Prop :=
    snk_ok xs' /\ snk_out xs' = snk_out xs ++ bs /\ stream_frame xs xs' /\
    forall n, snk_fits xs (length bs + n) -> snk_fits xs' n;
  snk_fits_le : forall xs n m, (m <= n)%nat -> snk_fits xs n -> snk_fits xs m;
  snk_putuint32 : forall xs v, snk_ok xs -> snk_fits xs 4 ->
    exists xs', xdr_putuint32 xs v = (true, xs') /\ emits xs xs' (be32 v);
  snk_putlong : forall xs v, snk_ok xs -> snk_fits xs 4 ->
    exists xs', xdr_putlong xs v = (true, xs') /\ emits xs xs' (be32 v);
  snk_putbytes : forall xs bs, snk_ok xs -> snk_fits xs (length bs) ->
    exists xs', x_putbytes xs bs = (true, xs') /\ emits xs xs' bs;
  snk_inline : forall xs n off xs' buf,
    snk_ok xs -> xdr_inline_encode xs n = (Some off, xs') ->
    length buf = length (x_buf xs') -> take off buf = take off (x_buf xs') ->
    (off + n <= length buf)%nat /\ emits xs (xs' <| x_buf := buf |>) (slice off n buf);
  snk_public : forall xs v, snk_ok xs -> emits xs (xs <| x_public := v |>) [] }.

(** ** The memory stream keeps these promises *)

Definition mem_ok (xs : XDR unit) : Prop :=
  (vio_head xs <= x_data xs <= vio_wrap xs)%nat /\ (vio_tail xs <= vio_wrap xs)%nat /\
  vio_wrap xs = length (x_buf xs).

Definition mem_in (xs : XDR unit) : list byte :=
  slice (x_data xs) (vio_tail xs - x_data xs) (x_buf xs).

Definition mem_out (xs : XDR unit) : list byte :=
  slice (vio_head xs) (x_data xs - vio_head xs) (x_buf xs).

Lemma slice_length off n buf : (off + n <= length buf)%nat -> length (slice off n buf) = n.
Proof. intros. unfold slice. rewrite length_take, length_drop. lia. Qed.

Lemma slice_split off n m buf :
  (off + n + m <= length buf)%nat -> slice off (n + m) buf = slice off n buf ++ slice (off + n) m buf.
Proof.
  intros. unfold slice. rewrite <- (take_take_drop (drop off buf) n m), drop_drop. reflexivity.
Qed.

Lemma splice_length off bs buf :
  (off + length bs <= length buf)%nat -> length (splice off bs buf) = length buf.
Proof. intros. unfold splice. rewrite !length_app, length_take, length_drop. lia. Qed.

Lemma slice_splice head off bs buf :
  (head <= off)%nat -> (off + length bs <= length buf)%nat ->
  slice head (off + length bs - head) (splice off bs buf) = slice head (off - head) buf ++ bs.
Proof.
  intros. unfold slice, splice.
  rewrite drop_app_le by (rewrite length_take; lia).
  rewrite take_app_ge by (rewrite length_drop, length_take; lia).
  rewrite length_drop, length_take.
  replace (off + length bs - head - (off `min` length buf - head))%nat with (length bs) by lia.
  rewrite take_app_length. f_equal.
  rewrite take_drop_commute. do 2 f_equal; lia.
Qed.

Lemma mem_getuint32 xs :
  mem_ok xs ->
  xdr_getuint32 xs =
    if decide (4 <= length (mem_in xs))%nat
    then (Some (be32_val (take 4 (mem_in xs))), xs <| x_data := (x_data xs + 4)%nat |>)
    else (None, xs).
Proof.
  intros [? [? ?]]. unfold xdr_getuint32, mem_in.
  destruct (decide (x_data xs <= vio_tail xs)%nat).
  - rewrite slice_length by lia. repeat case_decide; try lia; [|reflexivity].
    do 3 f_equal. unfold slice. rewrite take_take. f_equal; lia.
  - replace (vio_tail xs - x_data xs)%nat with 0%nat by lia. simpl.
    repeat case_decide; try lia. reflexivity.
Qed.

(** Advancing [x_data] by [n] delivers the first [n] bytes of the input. *)
Lemma mem_advance xs n :
  mem_ok xs -> (n <= length (mem_in xs))%nat ->
  let xs' := xs <| x_data := (x_data xs + n)%nat |> in
  mem_ok xs' /\ mem_in xs = take n (mem_in xs) ++ mem_in xs' /\ stream_frame xs xs'.
Proof.
  intros [? [? ?]] Hn. unfold mem_in, mem_ok in *.
  destruct (decide (x_data xs <= vio_tail xs)%nat);
    [|replace (vio_tail xs - x_data xs)%nat with 0%nat in * by lia; simpl in Hn].
  - rewrite slice_length in Hn by lia.
    split_and!; simpl; try lia.
    + replace (vio_tail xs - x_data xs)%nat with (n + (vio_tail xs - (x_data xs + n)))%nat at 1 2 by lia.
      rewrite slice_split by lia. f_equal.
      rewrite take_app_le by (rewrite slice_length; lia).
      rewrite take_ge; [done|rewrite slice_length; lia].
    + done.
  - assert (n = 0)%nat as -> by lia.
    split_and!; simpl; try lia; try done.
    rewrite Nat.add_0_r. replace (vio_tail xs - x_data xs)%nat with 0%nat by lia. reflexivity.
Qed.

(** Writing [bs] at [x_data]. *)
Lemma mem_write xs bs :
  mem_ok xs -> (x_data xs + length bs <= vio_wrap xs)%nat ->
  let xs' := xs <| x_buf := splice (x_data xs) bs (x_buf xs) |>
                <| x_data := (x_data xs + length bs)%nat |> in
  mem_ok xs' /\ mem_out xs' = mem_out xs ++ bs /\ stream_frame xs xs' /\
  forall n, (x_data xs + (length bs + n) <= vio_wrap xs)%nat -> (x_data xs' + n <= vio_wrap xs')%nat.
Proof.
  intros [? [? ?]] Hn; simpl. unfold mem_ok. split_and!; simpl; try lia; try done.
  - rewrite splice_length; lia.
  - unfold mem_out; simpl. apply slice_splice; lia.
Qed.

Lemma mem_advance_app xs bs rest :
  mem_ok xs -> mem_in xs = bs ++ rest ->
  let xs' := xs <| x_data := (x_data xs + length bs)%nat |> in
  mem_ok xs' /\ mem_in xs' = rest /\ stream_frame xs xs'.
Proof.
  intros Hok Hin. destruct (mem_advance xs (length bs)) as (? & Heq & ?); [done| |].
  { rewrite Hin, length_app. lia. }
  split_and!; [done| |done].
  rewrite Hin in Heq. rewrite take_app_length in Heq. by simplify_eq.
Qed.

Lemma mem_getlong xs :
  mem_ok xs ->
  xdr_getlong xs =
    if decide (4 <= length (mem_in xs))%nat
    then (Some (be32_val (take 4 (mem_in xs))), xs <| x_data := (x_data xs + 4)%nat |>)
    else (None, xs).
Proof.
  intros Hok. rewrite <- mem_getuint32 by done.
  unfold xdr_getlong, xdr_getuint32. by case_decide.
Qed.

Lemma mem_getbytes xs n :
  mem_ok xs -> (0 < n)%nat ->
  xdrmem_getbytes xs n =
    if decide (n <= length (mem_in xs))%nat
    then (Some (take n (mem_in xs)), xs <| x_data := (x_data xs + n)%nat |>)
    else (None, xs).
Proof.
  intros [? [? ?]] Hn. unfold xdrmem_getbytes, mem_in.
  destruct (decide (x_data xs <= vio_tail xs)%nat).
  - rewrite slice_length by lia. repeat case_decide; try lia; [reflexivity|].
    do 2 f_equal. unfold slice. rewrite take_take. f_equal; lia.
  - replace (vio_tail xs - x_data xs)%nat with 0%nat by lia. simpl.
    repeat case_decide; try lia. reflexivity.
Qed.

Lemma mem_mono {A} xs (r : option A) a xs' n :
  mem_ok xs ->
  (if decide (n <= length (mem_in xs))%nat
   then (a, xs <| x_data := (x_data xs + n)%nat |>) else (None, xs)) = (r, xs') ->
  mem_ok xs' /\ (exists used, mem_in xs = used ++ mem_in xs') /\ stream_frame xs xs'.
Proof.
  intros Hok H. case_decide; simplify_eq.
  - destruct (mem_advance xs n) as (? & ? & ?); eauto.
  - split_and!; [done|by exists []|done].
Qed.

Lemma mem_inline xs n off xs' :
  mem_ok xs -> xdr_inline_decode xs n = (Some off, xs') ->
  mem_ok xs' /\ mem_in xs = slice off n (x_buf xs') ++ mem_in xs' /\
  length (slice off n (x_buf xs')) = n /\ stream_frame xs xs'.
Proof.
  unfold xdr_inline_decode. intros Hok H. case_decide; [|done]. simplify_eq.
  pose proof Hok as (? & ? & ?).
  destruct (mem_advance xs n) as (? & Heq & ?); [done|unfold mem_in; rewrite slice_length; lia|].
  split_and!; [done| |rewrite slice_length; simpl; lia|done].
  rewrite Heq at 1. f_equal. unfold mem_in, slice. rewrite take_take. f_equal. lia.
Qed.

Lemma mem_inline_encode xs n off xs' buf :
  mem_ok xs -> xdr_inline_encode xs n = (Some off, xs') ->
  length buf = length (x_buf xs') -> take off buf = take off (x_buf xs') ->
  let xs'' := xs' <| x_buf := buf |> in
  (off + n <= length buf)%nat /\ mem_ok xs'' /\ mem_out xs'' = mem_out xs ++ slice off n buf /\
  x_op xs'' = x_op xs /\ vio_wrap xs'' = vio_wrap xs /\ x_data xs'' = (x_data xs + n)%nat.
Proof.
  unfold xdr_inline_encode, xdr_tail_update. intros (? & ? & ?) Hi. case_decide; [|done].
  assert (forall d h, (h <= d)%nat -> (d + n <= length buf)%nat -> forall b : list byte,
    take d buf = take d b -> slice h (d + n - h) buf = slice h (d - h) b ++ slice d n buf) as Hsl.
  { intros d h Hle Hb b Htk. replace (d + n - h)%nat with ((d - h) + n)%nat by lia.
    rewrite slice_split by lia. replace (h + (d - h))%nat with d by lia. f_equal.
    unfold slice. rewrite !take_drop_commute. replace (h + (d - h))%nat with d by lia. by rewrite Htk. }
  case_decide; simplify_eq/=; intros Hl Htk; unfold mem_ok, mem_out; simpl;
    (split_and!; [lia..| |done|done|done]); apply Hsl; try lia; done.
Qed.

#[global] Program Instance xdrmem_source : XdrSource unit := {|
  src_ok := mem_ok;
  src_in := mem_in |}.
Next Obligation.
  intros xs v rest Hok Hv _ Hin. rewrite mem_getuint32, Hin by done.
  destruct (mem_advance_app xs (be32 v) rest) as (? & ? & ?); [done..|].
  case_decide; [|simpl in *; lia]. eexists; split_and!; [|done..].
  change 4%nat with (length (be32 v)) at 1.
  rewrite take_app_length, be32_val_be32, u32_small by done. reflexivity.
Qed.
Next Obligation.
  intros xs v rest Hok Hv _ Hin. rewrite mem_getlong, Hin by done.
  destruct (mem_advance_app xs (be32 v) rest) as (? & ? & ?); [done..|].
  case_decide; [|simpl in *; lia]. eexists _, _; split_and!; [reflexivity| |done..].
  change 4%nat with (length (be32 v)).
  rewrite take_app_length, be32_val_be32, !u32_small by auto with dnfs. reflexivity.
Qed.
Next Obligation.
  intros xs bs rest Hok Hin Hne. simpl.
  destruct (mem_advance_app xs bs rest) as (? & ? & ?); [done..|].
  rewrite mem_getbytes, Hin by (done || (destruct bs; simpl; [done|lia])).
  rewrite take_app_length. case_decide; [eauto|].
  rewrite length_app in *. lia.
Qed.
Next Obligation.
  intros xs r xs' Hok. rewrite mem_getuint32 by done. by apply mem_mono.
Qed.
Next Obligation.
  intros xs r xs' Hok. rewrite mem_getlong by done. by apply mem_mono.
Qed.
Next Obligation.
  intros xs n r xs' Hok. destruct n as [|n]; simpl.
  - unfold xdrmem_getbytes. case_decide; intros; simplify_eq.
    + split_and!; [done|by exists []|done].
    + destruct (mem_advance xs 0) as (? & ? & ?); [done|lia|]. eauto.
  - rewrite mem_getbytes by (done || lia). by apply mem_mono.
Qed.
Next Obligation. intros xs n buf xs'. apply mem_inline. Qed.
Next Obligation. done. Qed.
Next Obligation.
  intros xs v xs' Hok. rewrite mem_getuint32 by done. case_decide as Hl; [|done]. intros [= <- <-].
  split; [apply be32_val_range|]. rewrite be32_of_val by (rewrite length_take; lia). by apply mem_advance.
Qed.
Next Obligation.
  intros xs n bs xs' Hok. simpl. destruct (decide (n = 0)%nat) as [->|Hn].
  - unfold xdrmem_getbytes. case_decide; [done|]. intros [= <- <-]. split; [done|]. apply (mem_advance xs 0); [done|lia].
  - rewrite mem_getbytes by (done || lia). case_decide; [|done]. intros [= <- <-].
    split; [rewrite length_take; lia|by apply mem_advance].
Qed.
Next Obligation. intros xs (? & ? & ?). lia. Qed.

Definition mem_fits (xs : XDR unit) (n : nat) : Prop := (x_data xs + n <= vio_wrap xs)%nat.

(** The head of a memory stream stays at its base. *)
Definition mem_snk_ok (xs : XDR unit) : Prop := mem_ok xs /\ vio_head xs = 0%nat.

Lemma mem_emits xs bs :
  mem_snk_ok xs -> mem_fits xs (length bs) ->
  let xs' := xs <| x_buf := splice (x_data xs) bs (x_buf xs) |> <| x_data := (x_data xs + length bs)%nat |> in
  mem_snk_ok xs' /\ mem_out xs' = mem_out xs ++ bs /\ stream_frame xs xs' /\
  forall n, mem_fits xs (length bs + n) -> mem_fits xs' n.
Proof. intros [Hok Hh] Hf. destruct (mem_write xs bs Hok Hf) as (? & ? & ? & ?). by split_and!. Qed.

#[global] Program Instance xdrmem_sink : XdrSink unit := {|
  snk_ok := mem_snk_ok;
  snk_out := mem_out;
  snk_fits := mem_fits |}.
Next Obligation. unfold mem_fits. lia. Qed.
Next Obligation.
  intros xs v Hok Hf. eexists; split; [|by apply (mem_emits xs (be32 v))].
  unfold xdr_putuint32, mem_fits in *. case_decide; [reflexivity|lia].
Qed.
Next Obligation.
  intros xs v Hok Hf. eexists; split; [|by apply (mem_emits xs (be32 v))].
  unfold xdr_putlong, mem_fits in *. case_decide; [by rewrite be32_i32|lia].
Qed.
Next Obligation.
  intros xs bs Hok Hf. eexists; split; [|by apply (mem_emits xs bs)].
  simpl. unfold xdrmem_putbytes, mem_fits in *. case_decide; [lia|reflexivity].
Qed.
Next Obligation.
  intros xs n off xs' buf [Hok Hh] Hi Hl Htk.
  destruct (mem_inline_encode xs n off xs' buf) as (? & ? & ? & ? & Hw & Hd); [done..|].
  split; [done|]. split_and!; [split; [done|]|done..|].
  { unfold xdr_inline_encode, xdr_tail_update in Hi. repeat case_decide; by simplify_eq. } intros m Hm. unfold mem_fits in *.
  rewrite slice_length in Hm by done. rewrite Hw, Hd. lia.
Qed.
Next Obligation.
  intros xs v Hok. split_and!; [done|by rewrite app_nil_r|done|done].
Qed.
