(* ===== verification/XdrIoq.v ===== *)
(** * XDR streams on I/O queues (libntirpc [src/xdr_ioq.c], [ntirpc/rpc/xdr_ioq.h])

    The stream a transport reads a request from and writes a reply to: a queue
    of buffers.  The handle of [XdrStream] holds the current buffer; [x_priv]
    holds the buffers before and behind it and the counters of the queue.  The
    C code keeps a copy of the current buffer's descriptor in the handle and
    changes both together, so the descriptor is modelled once.  The stream keeps
    the promises of [XdrSource] and [XdrSink]: whatever is proved of the filters
    on the memory stream holds on the queue. *)
From S2P Require Import Prelude XdrStream.

Open Scope Z_scope.
Open Scope dnfs_scope.

Definition UIO_FLAG_NONE : Z := 0x0000.
Definition UIO_FLAG_BUFQ : Z := 0x0001.
Definition UIO_FLAG_FREE : Z := 0x0002.
Definition UIO_FLAG_REALLOC : Z := 0x0010.
Definition UIO_FLAG_REFER : Z := 0x0020.
Definition IOQ_FLAG_NONE : Z := 0x0000.
Definition IOQ_FLAG_BALLOC : Z := 0x00040000.

(** ** The queue *)

(** [struct xdr_ioq_uv]: a buffer with its descriptor [v] (offsets from
    [vio_base]) and the flags of [u]. *)
Record xdr_ioq_uv := mk_uv {
  uv_buf : list byte;
  uv_head : nat;
  uv_tail : nat;
  uv_wrap : nat;
  uv_flags : Z }.
#[global] Instance eta_uv : RecEta xdr_ioq_uv :=
  fun r => mk_uv (uv_buf r) (uv_head r) (uv_tail r) (uv_wrap r) (uv_flags r).

(** [struct xdr_ioq] without the handle: the buffers before and behind the
    current one, the flags of the current one, and [struct xdr_ioq_uv_head].
    [ioq_heap] is what fresh memory of a given size holds. *)
Record xdr_ioq := mk_ioq {
  ioq_prev : list xdr_ioq_uv;
  ioq_next : list xdr_ioq_uv;
  ioq_uflags : Z;
  min_bsize : nat;
  max_bsize : nat;
  plength : nat;
  pcount : nat;
  qcount : nat;
  ioq_heap : nat -> list byte }.
#[global] Instance eta_ioq : RecEta xdr_ioq :=
  fun r => mk_ioq (ioq_prev r) (ioq_next r) (ioq_uflags r) (min_bsize r) (max_bsize r)
                  (plength r) (pcount r) (qcount r) (ioq_heap r).

Abbreviation IOQ := (XDR xdr_ioq).

Definition ioquv_length (uv : xdr_ioq_uv) : nat := uv_tail uv - uv_head uv.
Definition ioquv_more (uv : xdr_ioq_uv) : nat := uv_wrap uv - uv_tail uv.
Definition ioquv_size (uv : xdr_ioq_uv) : nat := uv_wrap uv.

(** The bytes in use. *)
Definition uv_data (uv : xdr_ioq_uv) : list byte := slice (uv_head uv) (ioquv_length uv) (uv_buf uv).

(** [IOQV(x_base)]. *)
Definition cur_uv (xs : IOQ) : xdr_ioq_uv :=
  mk_uv (x_buf xs) (vio_head xs) (vio_tail xs) (vio_wrap xs) (ioq_uflags (x_priv xs)).

Definition set_priv (f : xdr_ioq -> xdr_ioq) (xs : IOQ) : IOQ := xs <| x_priv := f (x_priv xs) |>.

(** ** Creating, advancing, appending *)

Definition xdr_ioq_uv_create (heap : nat -> list byte) (size : nat) (uio_flags : Z) : xdr_ioq_uv :=
  if decide (size = 0)%nat then mk_uv [] 0 0 0 uio_flags else mk_uv (heap size) 0 0 size uio_flags.

(** [xdr_ioq_uv_reset]: [uv] becomes the current buffer, [prev] and [next] being
    the buffers around it. *)
Definition xdr_ioq_uv_reset (xs : IOQ) (prev : list xdr_ioq_uv) (uv : xdr_ioq_uv) (next : list xdr_ioq_uv) : IOQ :=
  mkXDR (x_op xs) (x_public xs) (uv_buf uv) (uv_head uv) (uv_head uv) (uv_tail uv) (uv_wrap uv)
    ((x_priv xs) <| ioq_prev := prev |> <| ioq_next := next |> <| ioq_uflags := uv_flags uv |>).

Definition xdr_ioq_uv_update (xs : IOQ) (prev : list xdr_ioq_uv) (uv : xdr_ioq_uv) (next : list xdr_ioq_uv) : IOQ :=
  set_priv (fun q => q <| pcount := S (pcount q) |>) (xdr_ioq_uv_reset xs prev uv next).

(** [xdr_ioq_create]; with UIO_FLAG_BUFQ the queue starts without a buffer and
    [x_data] is NULL. *)
Definition xdr_ioq_create (heap : nat -> list byte) (min_bsize max_bsize : nat) (uio_flags : Z) : IOQ :=
  let q := mk_ioq [] [] UIO_FLAG_NONE min_bsize max_bsize 0 0 0 heap in
  let xs := mkXDR XDR_ENCODE None [] 0 0 0 0 q in
  if decide (Z.land uio_flags UIO_FLAG_BUFQ = 0)
  then xdr_ioq_uv_reset (set_priv (fun q => q <| qcount := 1%nat |>) xs) []
         (xdr_ioq_uv_create heap min_bsize uio_flags) []
  else xs.

(** [xdr_ioq_reset]: back to the first buffer, its data starting at [wh_pos]. *)
Definition xdr_ioq_reset (xs : IOQ) (wh_pos : nat) : IOQ :=
  match ioq_prev (x_priv xs) ++ cur_uv xs :: ioq_next (x_priv xs) with
  | [] => xs
  | uv :: rest =>
      let uv := if decide (ioquv_size uv <= wh_pos)%nat then uv else uv <| uv_head := wh_pos |> in
      xdr_ioq_uv_reset (set_priv (fun q => q <| plength := 0%nat |> <| pcount := 0%nat |>) xs) [] uv rest
  end.

(** [xdr_ioq_uv_advance]: counts the current buffer; the result is whether there
    is a next one. *)
Definition xdr_ioq_uv_advance (xs : IOQ) : option (xdr_ioq_uv * list xdr_ioq_uv) * IOQ :=
  let xs := xdr_tail_update xs in
  let xs := set_priv (fun q => q <| plength := (plength q + ioquv_length (cur_uv xs))%nat |>) xs in
  (match ioq_next (x_priv xs) with [] => None | uv :: next => Some (uv, next) end, xs).

(** The current buffer is left behind and [uv] entered. *)
Definition enter_uv (xs : IOQ) (uv : xdr_ioq_uv) (next : list xdr_ioq_uv) : IOQ :=
  xdr_ioq_uv_update xs (ioq_prev (x_priv xs) ++ [cur_uv xs]) uv next.

(** [uv] is inserted at the tail and entered. *)
Definition push_uv (xs : IOQ) (uv : xdr_ioq_uv) : IOQ :=
  xdr_ioq_uv_update (set_priv (fun q => q <| qcount := S (qcount q) |>) xs)
    (ioq_prev (x_priv xs) ++ cur_uv xs :: ioq_next (x_priv xs)) uv [].

(** [xdr_ioq_uv_append] of a queue without [uvq_fetch]; [None] is a NULL result. *)
Definition xdr_ioq_uv_append (xs : IOQ) (ioq_flags : Z) : option IOQ :=
  let q := x_priv xs in
  let uv := cur_uv xs in
  if decide (Z.land ioq_flags IOQ_FLAG_BALLOC <> 0) then
    if decide (Z.land (uv_flags uv) UIO_FLAG_REALLOC <> 0) then
      let size := ioquv_size uv in
      let delta := (vio_tail xs - x_data xs)%nat in
      let len := ioquv_length uv in
      if decide (max_bsize q <= size)%nat then None
      else
        let base := splice 0 (uv_data uv) (ioq_heap q (max_bsize q)) in
        Some (mkXDR (x_op xs) (x_public xs) base (len - delta) 0 len (max_bsize q)
                (q <| plength := (plength q - len)%nat |>))
    else Some (push_uv xs (xdr_ioq_uv_create (ioq_heap q) (min_bsize q) UIO_FLAG_FREE))
  else Some (push_uv xs (xdr_ioq_uv_create (ioq_heap q) 0 UIO_FLAG_NONE)).

(** ** The operations of the stream

    The loops have fuel; [None] means that the loop has not ended.  How much is
    enough is proved below. *)

Fixpoint getunit_loop (fuel : nat) (xs : IOQ) : option (option Z * IOQ) :=
  match fuel with
  | O => None
  | S fuel' =>
      let future := (x_data xs + 4)%nat in
      if decide (vio_tail xs < future)%nat then
        if decide (x_data xs <> vio_tail xs) then Some (None, xs)
        else
          match xdr_ioq_uv_advance xs with
          | (None, xs') => Some (None, xs')
          | (Some (uv, next), xs') => getunit_loop fuel' (enter_uv xs' uv next)
          end
      else Some (Some (be32_val (slice (x_data xs) 4 (x_buf xs))), xs <| x_data := future |>)
  end.

Definition xdr_ioq_getunit (xs : IOQ) : option Z * IOQ :=
  default (None, xs) (getunit_loop (S (length (ioq_next (x_priv xs)))) xs).

(** A NULL result of [xdr_ioq_uv_append] is not tested: the handle stays as it
    is and the loop goes on. *)
Definition next_or_append (xs : IOQ) : IOQ :=
  match xdr_ioq_uv_advance xs with
  | (None, xs') => default xs' (xdr_ioq_uv_append xs' IOQ_FLAG_BALLOC)
  | (Some (uv, next), xs') => enter_uv xs' uv next
  end.

Fixpoint putunit_loop (fuel : nat) (xs : IOQ) (v : Z) : option (bool * IOQ) :=
  match fuel with
  | O => None
  | S fuel' =>
      let future := (x_data xs + 4)%nat in
      if decide (vio_wrap xs < future)%nat then putunit_loop fuel' (next_or_append xs) v
      else Some (true, xs <| x_buf := splice (x_data xs) (be32 v) (x_buf xs) |> <| x_data := future |>)
  end.

Definition xdr_ioq_putunit (xs : IOQ) (v : Z) : bool * IOQ :=
  default (false, xs) (putunit_loop (length (ioq_next (x_priv xs)) + 2) xs v).

(** The bytes read so far are [acc]. *)
Fixpoint getbytes_loop (fuel : nat) (xs : IOQ) (len : nat) (acc : list byte) : option (option (list byte) * IOQ) :=
  match fuel with
  | O => None
  | S fuel' =>
      if decide (0 < len /\ pcount (x_priv xs) < qcount (x_priv xs))%nat then
        let delta := (vio_tail xs - x_data xs)%nat in
        let copy delta :=
          getbytes_loop fuel' (xs <| x_data := (x_data xs + delta)%nat |>) (len - delta)
            (acc ++ slice (x_data xs) delta (x_buf xs)) in
        if decide (len < delta)%nat then copy len
        else if decide (delta = 0)%nat then
          match xdr_ioq_uv_advance xs with
          | (None, xs') => Some (None, xs')
          | (Some (uv, next), xs') => getbytes_loop fuel' (enter_uv xs' uv next) len acc
          end
        else copy delta
      else Some (Some acc, xs)
  end.

Definition xdr_ioq_getbytes (xs : IOQ) (len : nat) : option (list byte) * IOQ :=
  default (None, xs) (getbytes_loop (2 * length (ioq_next (x_priv xs)) + 3) xs len []).

Fixpoint putbytes_loop (fuel : nat) (xs : IOQ) (addr : list byte) : option (bool * IOQ) :=
  match fuel with
  | O => None
  | S fuel' =>
      let len := length addr in
      if decide (0 < len)%nat then
        let delta := (vio_wrap xs - x_data xs)%nat in
        let copy delta :=
          putbytes_loop fuel'
            (xs <| x_buf := splice (x_data xs) (take delta addr) (x_buf xs) |>
                <| x_data := (x_data xs + delta)%nat |>) (drop delta addr) in
        if decide (len < delta)%nat then copy len
        else if decide (delta = 0)%nat then putbytes_loop fuel' (next_or_append xs) addr
        else copy delta
      else Some (true, xs)
  end.

Definition xdr_ioq_putbytes (xs : IOQ) (addr : list byte) : bool * IOQ :=
  default (false, xs) (putbytes_loop (2 * (length addr + length (ioq_next (x_priv xs))) + 2) xs addr).

#[global] Instance xdr_ioq_ops : xdr_ops xdr_ioq := {|
  x_getunit := xdr_ioq_getunit;
  x_putunit := xdr_ioq_putunit;
  x_getbytes := xdr_ioq_getbytes;
  x_putbytes := xdr_ioq_putbytes |}.

(** [xdr_ioq_newbuf]. *)
Definition xdr_ioq_newbuf (xs : IOQ) : bool * IOQ := (true, next_or_append xs).

(** ** Positions and vectors *)

Definition ioq_queue (xs : IOQ) : list xdr_ioq_uv :=
  ioq_prev (x_priv xs) ++ cur_uv xs :: ioq_next (x_priv xs).

(** A [u_int]. *)
Definition xdr_ioq_getpos (xs : IOQ) : Z * IOQ :=
  let xs := xdr_tail_update xs in
  (u32 (Z.of_nat (plength (x_priv xs) + (x_data xs - vio_head xs))), xs).

(** The loop of [xdr_ioq_setpos]: [prev] has been passed, [full] is the size of
    the buffer that was current. *)
Fixpoint setpos_loop (xs : IOQ) (full : nat) (prev uvs : list xdr_ioq_uv) (pos : nat) : bool * IOQ :=
  match uvs with
  | [] => (false, xs)
  | uv :: rest =>
      let len := ioquv_length uv in
      if decide ((pos < len)%nat \/ (rest = [] /\ pos <= full)%nat)
      then (true, (xdr_ioq_uv_reset xs prev uv rest) <| x_data := (uv_head uv + pos)%nat |>)
      else
        setpos_loop
          (set_priv (fun q => q <| plength := (plength q + len)%nat |> <| pcount := S (pcount q) |>) xs)
          full (prev ++ [uv]) rest (pos - len)
  end.

Definition xdr_ioq_setpos (xs : IOQ) (pos : nat) : bool * IOQ :=
  let xs := xdr_tail_update xs in
  let full := (vio_wrap xs - vio_head xs)%nat in
  let queue := ioq_queue xs in
  setpos_loop (set_priv (fun q => q <| plength := 0%nat |> <| pcount := 0%nat |>) xs) full [] queue pos.

(** The loop of [xdr_ioq_iovcount]. *)
Fixpoint iovcount_loop (uvs : list xdr_ioq_uv) (buffers : Z) (start datalen : nat) : Z * nat :=
  match uvs with
  | [] => (buffers, datalen)
  | uv :: rest =>
      let len := ioquv_length uv in
      let '(buffers, start) :=
        if decide (0 < buffers) then (buffers + 1, start)
        else if decide (start < len)%nat then (1, start)
        else (buffers, (start - len)%nat) in
      if decide (0 < buffers) then
        let buflen := (len - start)%nat in
        if decide (datalen <= buflen)%nat then (buffers, 0%nat)
        else iovcount_loop rest buffers 0 (datalen - buflen)
      else iovcount_loop rest buffers start datalen
  end.

Definition xdr_ioq_iovcount (xs : IOQ) (start datalen : nat) : Z :=
  let '(buffers, datalen) := iovcount_loop (ioq_queue (xdr_tail_update xs)) (-1) start datalen in
  if decide (datalen <> 0)%nat then -1 else buffers.

(** The loop of [xdr_ioq_fillbufs]; an entry of the vector is the buffer with the
    bounds of its part. *)
Fixpoint fillbufs_loop (uvs : list xdr_ioq_uv) (found : bool) (start datalen : nat) : bool * list xdr_ioq_uv * nat :=
  match uvs with
  | [] => (found, [], datalen)
  | uv :: rest =>
      let len := ioquv_length uv in
      let '(found, start) :=
        if found then (true, start)
        else if decide (start < len)%nat then (true, start) else (false, (start - len)%nat) in
      if found then
        let head := (uv_head uv + start)%nat in
        let vio_length := (len - start)%nat in
        if decide (datalen < vio_length)%nat then
          (true, [uv <| uv_head := head |> <| uv_tail := (head + datalen)%nat |>], 0%nat)
        else if decide (datalen = vio_length) then (true, [uv <| uv_head := head |>], 0%nat)
        else
          let '(found, vector, datalen) := fillbufs_loop rest true 0 (datalen - vio_length) in
          (found, uv <| uv_head := head |> :: vector, datalen)
      else fillbufs_loop rest false start datalen
  end.

Definition xdr_ioq_fillbufs (xs : IOQ) (start datalen : nat) : bool * list xdr_ioq_uv :=
  let '(found, vector, datalen) := fillbufs_loop (ioq_queue (xdr_tail_update xs)) false start datalen in
  (if decide (datalen <> 0)%nat then false else found, vector).

(** ** What the queue stands for *)

Definition uv_ok (uv : xdr_ioq_uv) : Prop :=
  (uv_head uv <= uv_tail uv <= uv_wrap uv)%nat /\ uv_wrap uv = length (uv_buf uv).

(** A queue being read.  A unit must not straddle two buffers, so the buffers to
    come hold whole units. *)
Definition ioq_src_ok (xs : IOQ) : Prop :=
  uv_ok (cur_uv xs) /\ (vio_head xs <= x_data xs <= vio_tail xs)%nat /\
  Forall (fun uv => uv_ok uv /\ ioquv_length uv mod 4 = 0)%nat (ioq_next (x_priv xs)) /\
  (pcount (x_priv xs) + length (ioq_next (x_priv xs)) < qcount (x_priv xs))%nat.

Definition ioq_in (xs : IOQ) : list byte :=
  slice (x_data xs) (vio_tail xs - x_data xs) (x_buf xs) ++ concat (map uv_data (ioq_next (x_priv xs))).

Lemma tail_update_src (xs : IOQ) : (x_data xs <= vio_tail xs)%nat -> xdr_tail_update xs = xs.
Proof. intros. unfold xdr_tail_update. by rewrite decide_False by lia. Qed.

Lemma advance_src xs :
  ioq_src_ok xs ->
  exists xs', xdr_ioq_uv_advance xs =
    (match ioq_next (x_priv xs) with [] => None | uv :: next => Some (uv, next) end, xs') /\
  ioq_src_ok xs' /\ ioq_in xs' = ioq_in xs /\ x_op xs' = x_op xs /\
  x_data xs' = x_data xs /\ vio_tail xs' = vio_tail xs /\
  ioq_next (x_priv xs') = ioq_next (x_priv xs) /\ pcount (x_priv xs') = pcount (x_priv xs) /\
  qcount (x_priv xs') = qcount (x_priv xs).
Proof.
  intros Hok. pose proof Hok as (_ & ? & _). unfold xdr_ioq_uv_advance.
  rewrite tail_update_src by lia. eexists. split; [reflexivity|]. split_and!; done.
Qed.

Lemma uv_data_length uv : uv_ok uv -> length (uv_data uv) = ioquv_length uv.
Proof.
  intros [? ?]. unfold uv_data, ioquv_length. rewrite slice_length; lia.
Qed.

(** Stepping from an exhausted buffer into the next one loses nothing. *)
Lemma enter_src xs uv next :
  ioq_src_ok xs -> x_data xs = vio_tail xs -> ioq_next (x_priv xs) = uv :: next ->
  let xs' := enter_uv xs uv next in
  ioq_src_ok xs' /\ ioq_in xs' = ioq_in xs /\ x_op xs' = x_op xs /\ ioq_next (x_priv xs') = next.
Proof.
  intros (Hcur & Hpos & Hnext & Hcnt) Hend Hn. rewrite Hn in *. apply List.Forall_cons_iff in Hnext as [[Huv Hm] Hnext].
  pose proof Huv as [? ?]. split_and!; [|unfold ioq_in at 2|done|done].
  - unfold ioq_src_ok, enter_uv, xdr_ioq_uv_update, uv_ok in *. simpl in *. split_and!; try done; lia.
  - rewrite Hend, Nat.sub_diag, Hn. reflexivity.
Qed.

Lemma ioq_in_length xs :
  ioq_src_ok xs -> (length (ioq_in xs) mod 4 = (vio_tail xs - x_data xs) mod 4)%nat.
Proof.
  intros ([? Hl] & ? & Hnext & _). unfold ioq_in.
  cbn [cur_uv uv_wrap uv_buf uv_head uv_tail] in *. rewrite length_app, slice_length by lia.
  assert (length (concat (map uv_data (ioq_next (x_priv xs)))) mod 4 = 0)%nat as Hm.
  { induction Hnext as [|uv l [Huv Hm] _ IH]; [done|]. cbn [map concat]. rewrite length_app, uv_data_length by done.
    rewrite Nat.Div0.add_mod, Hm, IH. done. }
  rewrite Nat.Div0.add_mod, Hm, Nat.add_0_r, Nat.Div0.mod_mod. done.
Qed.

(** Taking [n] bytes from the current buffer. *)
Lemma take_src xs n :
  ioq_src_ok xs -> (n <= vio_tail xs - x_data xs)%nat ->
  let xs' := xs <| x_data := (x_data xs + n)%nat |> in
  ioq_src_ok xs' /\ ioq_in xs = slice (x_data xs) n (x_buf xs) ++ ioq_in xs' /\ x_op xs' = x_op xs.
Proof.
  intros ([? Hl] & ? & Hnext & Hc) Hn. simpl in *. unfold ioq_src_ok, uv_ok, ioq_in; simpl.
  split_and!; try done; try lia. rewrite app_assoc. f_equal.
  replace (vio_tail xs - x_data xs)%nat with (n + (vio_tail xs - (x_data xs + n)))%nat by lia.
  rewrite slice_split by lia. done.
Qed.

(** ** Reading *)

(** A result of reading: [Some bs] are the next bytes of the stream, and without
    a result at most input has been given up. *)
Definition read_step (xs xs' : IOQ) (r : option (list byte)) : Prop :=
  ioq_src_ok xs' /\ x_op xs' = x_op xs /\
  match r with
  | Some bs => ioq_in xs = bs ++ ioq_in xs'
  | None => exists used, ioq_in xs = used ++ ioq_in xs'
  end.

Lemma getunit_loop_src fuel xs :
  ioq_src_ok xs -> (length (ioq_next (x_priv xs)) < fuel)%nat ->
  exists r xs', getunit_loop fuel xs = Some (be32_val <$> r, xs') /\ read_step xs xs' r /\
    match r with
    | Some bs => length bs = 4%nat
    | None => (length (ioq_in xs) mod 4 = 0)%nat -> ioq_in xs = []
    end.
Proof.
  revert xs. induction fuel as [|fuel IH]; intros xs Hok Hf; [lia|]. cbn [getunit_loop].
  pose proof Hok as ([? Hl] & ? & _); cbn [cur_uv uv_wrap uv_buf uv_head uv_tail] in *.
  case_decide; [case_decide as Hne|].
  - exists None, xs. split_and!; [done|split_and!; [done..|by exists []]|].
    intros Hm. rewrite ioq_in_length in Hm by done. rewrite Nat.mod_small in Hm by lia. lia.
  - destruct (advance_src xs Hok) as (xs' & -> & Hok' & Hin & Hop & Hd & Ht & Hn & Hp & Hq).
    destruct (ioq_next (x_priv xs)) as [|uv next] eqn:En.
    + exists None, xs'. split_and!; [done|split_and!; [done..|exists []; done]|].
      intros _. unfold ioq_in. by rewrite Hne, Nat.sub_diag, En.
    + destruct (enter_src xs' uv next) as (Hok2 & Hin2 & Hop2 & Hn2); [done|congruence|congruence|].
      destruct (IH (enter_uv xs' uv next) Hok2) as (r & xs2 & -> & (? & ? & Hr) & Hlen); [rewrite Hn2; simpl in *; lia|].
      exists r, xs2. unfold read_step. rewrite <- Hin, <- Hin2. split_and!; [done|done|congruence|done|done].
  - destruct (take_src xs 4 Hok) as (Hok' & Hin & Hop); [lia|].
    eexists (Some _), _. split_and!; [reflexivity|split_and!; [done..|exact Hin]|]. rewrite slice_length; lia.
Qed.

Lemma ioq_getuint32 xs :
  ioq_src_ok xs ->
  exists r xs', xdr_getuint32 xs = (be32_val <$> r, xs') /\ read_step xs xs' r /\
    match r with
    | Some bs => length bs = 4%nat
    | None => (length (ioq_in xs) mod 4 = 0)%nat -> ioq_in xs = []
    end.
Proof.
  intros Hok. destruct (getunit_loop_src (S (length (ioq_next (x_priv xs)))) xs Hok) as (r & xs' & Hg & H); [lia|].
  exists r, xs'. split; [|done]. unfold xdr_getuint32. case_decide.
  - cbn [getunit_loop] in Hg. rewrite decide_False in Hg by lia. congruence.
  - simpl. unfold xdr_ioq_getunit. by rewrite Hg.
Qed.

Lemma ioq_getlong xs :
  ioq_src_ok xs ->
  exists r l xs', xdr_getlong xs = (l, xs') /\ read_step xs xs' r /\
    match r with
    | Some bs => length bs = 4%nat /\ exists z, l = Some z /\ u32 z = be32_val bs
    | None => l = None /\ ((length (ioq_in xs) mod 4 = 0)%nat -> ioq_in xs = [])
    end.
Proof.
  intros Hok. destruct (ioq_getuint32 xs Hok) as (r & xs' & Hg & Hs & Hr).
  unfold xdr_getlong. unfold xdr_getuint32 in Hg. case_decide.
  - destruct r as [bs|]; [|discriminate]. injection Hg as Hv <-.
    eexists (Some bs), _, _. split_and!; [done|done|done|].
    eexists. split; [done|]. rewrite <- Hv. apply u32_small, be32_val_range.
  - rewrite Hg. destruct r as [bs|]; simpl.
    + eexists (Some bs), _, _. split_and!; [done|done|done|]. eexists. split; [done|].
      rewrite u32_i32. apply u32_small, be32_val_range.
    + by eexists None, _, _.
Qed.

Lemma getbytes_loop_src fuel xs len acc :
  ioq_src_ok xs ->
  (2 * length (ioq_next (x_priv xs)) + (if decide (x_data xs = vio_tail xs) then 2 else 3) <= fuel)%nat ->
  exists r xs', getbytes_loop fuel xs len acc = Some ((fun bs => acc ++ bs) <$> r, xs') /\ read_step xs xs' r /\
    match r with
    | Some bs => length bs = len
    | None => (length (ioq_in xs) < len)%nat
    end.
Proof.
  revert xs len acc. induction fuel as [|fuel IH]; intros xs len acc Hok Hf.
  { case_decide; lia. }
  assert ((2 * length (ioq_next (x_priv xs)) + 2 <= S fuel)%nat /\
    (x_data xs <> vio_tail xs -> (2 * length (ioq_next (x_priv xs)) + 3 <= S fuel)%nat)) as [Hf1 Hf2]
    by (case_decide; lia). clear Hf.
  cbn [getbytes_loop]. pose proof Hok as ([? Hl] & ? & _ & Hc); cbn [cur_uv uv_wrap uv_buf uv_head uv_tail] in *.
  case_decide as Hgo.
  2: { exists (Some []), xs. assert (len = 0)%nat as -> by lia. simpl. rewrite app_nil_r.
       split_and!; [done|split_and!; done|done]. }
  case_decide as Hlt; [|case_decide as Hz].
  - destruct (take_src xs len Hok) as (Hok' & Hin & Hop); [lia|].
    rewrite Nat.sub_diag. destruct fuel as [|fuel]; [lia|]. cbn [getbytes_loop]. rewrite decide_False by lia.
    eexists (Some _), _. split_and!; [reflexivity|split_and!; [done..|exact Hin]|]. rewrite slice_length; lia.
  - destruct (advance_src xs Hok) as (xs' & -> & Hok' & Hin & Hop & Hd & Ht & Hn & Hp & Hq).
    destruct (ioq_next (x_priv xs)) as [|uv next] eqn:En.
    + exists None, xs'. split_and!; [done|split_and!; [done..|exists []; done]|].
      unfold ioq_in. rewrite Hz, En. simpl. lia.
    + destruct (enter_src xs' uv next) as (Hok2 & Hin2 & Hop2 & Hn2); [done|lia|congruence|].
      destruct (IH (enter_uv xs' uv next) len acc Hok2) as (r & xs2 & -> & (? & ? & Hr) & Hlen).
      { rewrite Hn2. simpl in Hf1. case_decide; lia. }
      exists r, xs2. unfold read_step. rewrite <- Hin, <- Hin2. split_and!; [done|done|congruence|done|done].
  - destruct (take_src xs (vio_tail xs - x_data xs) Hok) as (Hok' & Hin & Hop); [lia|].
    destruct (IH _ (len - (vio_tail xs - x_data xs))%nat (acc ++ slice (x_data xs) (vio_tail xs - x_data xs) (x_buf xs)) Hok')
      as (r & xs2 & -> & (? & ? & Hr) & Hlen).
    { simpl. case_decide; lia. }
    set (b := slice (x_data xs) (vio_tail xs - x_data xs) (x_buf xs)) in *.
    assert (length b = vio_tail xs - x_data xs)%nat as Hb by (subst b; rewrite slice_length; lia).
    destruct r as [bs|]; simpl.
    + exists (Some (b ++ bs)), xs2. simpl. rewrite <- app_assoc. split_and!; [done| |rewrite length_app; lia].
      split_and!; [done|done|]. by rewrite Hin, Hr, app_assoc.
    + exists None, xs2. split_and!; [done| |rewrite Hin, length_app; lia]. split_and!; [done|done|].
      destruct Hr as [used Hu]. exists (b ++ used). by rewrite Hin, Hu, app_assoc.
Qed.

Lemma ioq_getbytes xs len :
  ioq_src_ok xs ->
  exists r xs', xdr_ioq_getbytes xs len = (r, xs') /\ read_step xs xs' r /\
    match r with Some bs => length bs = len | None => (length (ioq_in xs) < len)%nat end.
Proof.
  intros Hok. destruct (getbytes_loop_src (2 * length (ioq_next (x_priv xs)) + 3) xs len [] Hok)
    as (r & xs' & Hg & H); [case_decide; lia|].
  exists r, xs'. split; [|done]. unfold xdr_ioq_getbytes. rewrite Hg. by destruct r.
Qed.

Lemma ioq_inline xs n buf xs' :
  ioq_src_ok xs -> xdr_inline_decode xs n = (Some buf, xs') ->
  ioq_src_ok xs' /\ ioq_in xs = slice buf n (x_buf xs') ++ ioq_in xs' /\
  length (slice buf n (x_buf xs')) = n /\ stream_frame xs xs'.
Proof.
  unfold xdr_inline_decode. intros Hok Hi. case_decide; [|done]. simplify_eq.
  destruct (take_src xs n Hok) as (? & ? & ?); [lia|]. split_and!; [done..| |done].
  destruct Hok as ([? Hl] & ? & _); simpl in *. rewrite slice_length; lia.
Qed.

(** The four bytes that a unit was read from. *)
Lemma be32_front v rest bs tl :
  is_u32 v -> length bs = 4%nat -> be32 v ++ rest = bs ++ tl -> be32_val bs = v /\ tl = rest.
Proof.
  intros Hv Hl Heq. apply app_inj_1 in Heq as [<- ->]; [|done].
  by rewrite be32_val_be32, u32_small.
Qed.

Lemma be32_nonempty v rest : be32 v ++ rest <> [].
Proof. done. Qed.

Lemma be32_aligned v rest : (length rest mod 4 = 0)%nat -> (length (be32 v ++ rest) mod 4 = 0)%nat.
Proof. intros Hr. by rewrite length_app, Nat.Div0.add_mod, Hr. Qed.

Lemma read_step_mono xs xs' r :
  read_step xs xs' r -> ioq_src_ok xs' /\ (exists used, ioq_in xs = used ++ ioq_in xs') /\ stream_frame xs xs'.
Proof. intros (? & ? & Hr). split_and!; [done|destruct r; eauto|done]. Qed.

#[global] Program Instance xdr_ioq_source : XdrSource xdr_ioq := {|
  src_ok := ioq_src_ok;
  src_in := ioq_in |}.
Next Obligation.
  intros xs v rest Hok Hv Hm Hin. destruct (ioq_getuint32 xs Hok) as (r & xs' & -> & (? & ? & Hr) & Hl).
  rewrite Hin in *. destruct r as [bs|].
  - destruct (be32_front v rest bs (ioq_in xs')) as [<- ?]; [done..|]. by exists xs'.
  - exfalso. by apply (be32_nonempty v rest), Hl, be32_aligned.
Qed.
Next Obligation.
  intros xs v rest Hok Hv Hm Hin. destruct (ioq_getlong xs Hok) as (r & l & xs' & -> & (? & ? & Hr) & Hl).
  rewrite Hin in *. destruct r as [bs|].
  - destruct Hl as (Hl & z & -> & Hz). destruct (be32_front v rest bs (ioq_in xs')) as [<- ?]; [done..|].
    by exists z, xs'.
  - exfalso. destruct Hl as [_ Hl]. by apply (be32_nonempty v rest), Hl, be32_aligned.
Qed.
Next Obligation.
  intros xs bs rest Hok Hin _. simpl.
  destruct (ioq_getbytes xs (length bs) Hok) as (r & xs' & -> & (? & ? & Hr) & Hl). rewrite Hin in *.
  destruct r as [bs'|]; [|rewrite length_app in Hl; lia].
  apply app_inj_1 in Hr as [-> ?]; [|done]. by exists xs'.
Qed.
Next Obligation.
  intros xs r xs' Hok Hg. destruct (ioq_getuint32 xs Hok) as (r' & xs2 & Hg' & Hs & _).
  assert (xs2 = xs') as -> by congruence. by eapply read_step_mono.
Qed.
Next Obligation.
  intros xs r xs' Hok Hg. destruct (ioq_getlong xs Hok) as (r' & l & xs2 & Hg' & Hs & _).
  assert (xs2 = xs') as -> by congruence. by eapply read_step_mono.
Qed.
Next Obligation.
  intros xs n r xs' Hok Hg. destruct (ioq_getbytes xs n Hok) as (r' & xs2 & Hg' & Hs & _).
  simpl in Hg. assert (xs2 = xs') as -> by congruence. by eapply read_step_mono.
Qed.
Next Obligation. intros xs n buf xs'. apply ioq_inline. Qed.
Next Obligation. done. Qed.
Next Obligation.
  intros xs v xs' Hok Hg. destruct (ioq_getuint32 xs Hok) as (r & xs2 & Hg' & (_ & _ & Hr) & Hl). rewrite Hg in Hg'.
  destruct r as [bs|]; [|done]. injection Hg' as -> ->. split; [apply be32_val_range|]. by rewrite be32_of_val.
Qed.
Next Obligation.
  intros xs n bs xs' Hok Hg. destruct (ioq_getbytes xs n Hok) as (r & xs2 & Hg' & (_ & _ & Hr) & Hl). simpl in Hg.
  rewrite Hg in Hg'. by simplify_eq.
Qed.
Next Obligation. intros xs ([? Hl] & ? & _). cbn in *. lia. Qed.

(** ** Writing *)

(** The buffers before the current one are well formed and counted. *)
Definition ioq_counted (q : xdr_ioq) : Prop :=
  Forall uv_ok (ioq_prev q) /\ plength q = sum_list (map ioquv_length (ioq_prev q)) /\
  pcount q = length (ioq_prev q) /\ qcount q = S (length (ioq_prev q)).

(** A queue being filled: nothing lies behind the position, fresh buffers hold a
    unit, and the queue grows by buffers. *)
Definition ioq_snk_ok (xs : IOQ) : Prop :=
  (vio_head xs <= x_data xs <= vio_wrap xs)%nat /\ (vio_head xs <= vio_tail xs <= x_data xs)%nat /\
  vio_wrap xs = length (x_buf xs) /\ ioq_next (x_priv xs) = [] /\
  Z.land (ioq_uflags (x_priv xs)) UIO_FLAG_REALLOC = 0 /\ (4 <= min_bsize (x_priv xs))%nat /\
  (forall n, length (ioq_heap (x_priv xs) n) = n) /\ ioq_counted (x_priv xs).

Definition ioq_out (xs : IOQ) : list byte :=
  concat (map uv_data (ioq_prev (x_priv xs))) ++ slice (vio_head xs) (x_data xs - vio_head xs) (x_buf xs).

Lemma tail_update_snk xs :
  (vio_tail xs <= x_data xs)%nat -> xdr_tail_update xs = xs <| vio_tail := x_data xs |> :> IOQ.
Proof.
  intros Ht. unfold xdr_tail_update. case_decide; [done|].
  replace (x_data xs) with (vio_tail xs) by lia. by destruct xs.
Qed.

(** A full queue gets a fresh buffer and stands for the same bytes. *)
Lemma next_or_append_snk xs :
  ioq_snk_ok xs ->
  let xs' := next_or_append xs in
  ioq_snk_ok xs' /\ ioq_out xs' = ioq_out xs /\ x_op xs' = x_op xs /\
  x_data xs' = 0%nat /\ vio_wrap xs' = min_bsize (x_priv xs).
Proof.
  intros (? & ? & Hl & Hn & Hf & Hm & Hh & Hp & Hpl & Hpc & Hqc). unfold next_or_append, xdr_ioq_uv_advance.
  rewrite tail_update_snk by lia. cbn [x_priv set_priv ioq_next upd]. simpl. rewrite Hn.
  unfold xdr_ioq_uv_append. rewrite decide_True by done. simpl. rewrite (decide_False (P:=_ <> 0)) by (by rewrite Hf; intros []).
  simpl. unfold xdr_ioq_uv_create. rewrite decide_False by lia. unfold ioq_snk_ok, ioq_counted, ioq_out; simpl. rewrite Hn.
  split_and!; try lia; try done.
  - apply Forall_app. split; [done|]. constructor; [|constructor]. split; simpl; lia.
  - rewrite map_app, sum_list_with_app, Hpl. simpl. unfold ioquv_length. simpl. unfold sum_list, sum_list_with. simpl. lia.
  - rewrite length_app. simpl. lia.
  - rewrite length_app. simpl. lia.
  - rewrite map_app, concat_app; simpl. rewrite !app_nil_r. done.
Qed.

(** Writing into the current buffer. *)
Lemma write_snk xs bs :
  ioq_snk_ok xs -> (x_data xs + length bs <= vio_wrap xs)%nat ->
  let xs' := xs <| x_buf := splice (x_data xs) bs (x_buf xs) |> <| x_data := (x_data xs + length bs)%nat |> in
  ioq_snk_ok xs' /\ ioq_out xs' = ioq_out xs ++ bs /\ x_op xs' = x_op xs.
Proof.
  intros (? & ? & Hl & ? & ? & ? & ? & ?) Hfit. unfold ioq_snk_ok, ioq_out; simpl. split_and!; try lia; try done.
  - rewrite splice_length; lia.
  - rewrite <- app_assoc. f_equal. apply slice_splice; lia.
Qed.

Lemma putunit_loop_snk fuel xs v :
  ioq_snk_ok xs -> (2 <= fuel)%nat ->
  exists xs', putunit_loop fuel xs v = Some (true, xs') /\
    ioq_snk_ok xs' /\ ioq_out xs' = ioq_out xs ++ be32 v /\ x_op xs' = x_op xs.
Proof.
  intros Hok Hf. destruct fuel as [|[|fuel]]; try lia. cbn [putunit_loop]. case_decide.
  - destruct (next_or_append_snk xs Hok) as (Hok' & Ho & Hop & Hd & Hw).
    assert (4 <= min_bsize (x_priv xs))%nat by apply Hok. rewrite decide_False by lia.
    destruct (write_snk _ (be32 v) Hok') as (? & Ho' & ?); [simpl; lia|].
    eexists. split; [reflexivity|]. split_and!; [done|by rewrite <- Ho|by rewrite <- Hop].
  - destruct (write_snk xs (be32 v) Hok) as (? & ? & ?); [simpl; lia|]. eauto.
Qed.

Lemma putbytes_loop_snk fuel xs addr :
  ioq_snk_ok xs ->
  (2 * length addr + (if decide (x_data xs = vio_wrap xs) then 2 else 1) <= fuel)%nat ->
  exists xs', putbytes_loop fuel xs addr = Some (true, xs') /\
    ioq_snk_ok xs' /\ ioq_out xs' = ioq_out xs ++ addr /\ x_op xs' = x_op xs.
Proof.
  revert xs addr. induction fuel as [|fuel IH]; intros xs addr Hok Hf; [case_decide; lia|].
  assert ((2 * length addr + 1 <= S fuel)%nat /\
    (x_data xs = vio_wrap xs -> (2 * length addr + 2 <= S fuel)%nat)) as [Hf1 Hf2] by (case_decide; lia). clear Hf.
  cbn [putbytes_loop]. pose proof Hok as (? & ? & Hl & ?).
  destruct (decide (0 < length addr)%nat).
  2: { destruct addr; [|simpl in *; lia]. exists xs. by rewrite app_nil_r. }
  destruct (decide (length addr < vio_wrap xs - x_data xs)%nat).
  - destruct (write_snk xs addr Hok) as (Hok' & Ho & Hop); [lia|].
    rewrite take_ge, drop_ge by lia. destruct fuel; [lia|]. simpl. eauto.
  - destruct (decide (vio_wrap xs - x_data xs = 0)%nat).
    + destruct (next_or_append_snk xs Hok) as (Hok' & Ho & Hop & Hd & Hw).
      assert (4 <= min_bsize (x_priv xs))%nat by apply Hok.
      destruct (IH _ addr Hok') as (xs2 & -> & ? & Ho2 & ?); [case_decide; lia|].
      exists xs2. rewrite <- Ho. split_and!; [done..|congruence].
    + set (k := (vio_wrap xs - x_data xs)%nat) in *.
      assert (length (take k addr) = k) as Hk by (rewrite length_take; lia).
      destruct (write_snk xs (take k addr) Hok) as (Hok' & Ho & Hop); [lia|]. rewrite Hk in *.
      destruct (IH _ (drop k addr) Hok') as (xs2 & -> & ? & Ho2 & ?); [rewrite length_drop; case_decide; lia|].
      exists xs2. split_and!; [done|done| |congruence].
      by rewrite Ho2, Ho, <- app_assoc, take_drop.
Qed.

Lemma ioq_inline_encode xs n off xs' buf :
  ioq_snk_ok xs -> xdr_inline_encode xs n = (Some off, xs') ->
  length buf = length (x_buf xs') -> take off buf = take off (x_buf xs') ->
  let xs'' := xs' <| x_buf := buf |> in
  (off + n <= length buf)%nat /\ ioq_snk_ok xs'' /\ ioq_out xs'' = ioq_out xs ++ slice off n buf /\ x_op xs'' = x_op xs.
Proof.
  unfold xdr_inline_encode. intros (? & ? & Hw & Hrest) Hi. case_decide; [|done].
  rewrite tail_update_snk in Hi by (simpl; lia). simplify_eq/=. intros Hl Htk.
  unfold ioq_snk_ok, ioq_out; simpl. split_and!; try lia; try apply Hrest; [|done].
  rewrite <- app_assoc. f_equal.
  replace (x_data xs + n - vio_head xs)%nat with ((x_data xs - vio_head xs) + n)%nat by lia.
  rewrite slice_split by lia. replace (vio_head xs + (x_data xs - vio_head xs))%nat with (x_data xs) by lia. f_equal.
  unfold slice. rewrite !take_drop_commute. replace (vio_head xs + (x_data xs - vio_head xs))%nat with (x_data xs) by lia.
  by rewrite Htk.
Qed.

#[global] Program Instance xdr_ioq_sink : XdrSink xdr_ioq := {|
  snk_ok := ioq_snk_ok;
  snk_out := ioq_out;
  snk_fits := fun _ _ => True |}.
Next Obligation. done. Qed.
Next Obligation.
  intros xs v Hok _. unfold xdr_putuint32. case_decide.
  - eexists. split; [reflexivity|]. destruct (write_snk xs (be32 v) Hok) as (? & ? & ?); [simpl; lia|]. done.
  - destruct (putunit_loop_snk (length (ioq_next (x_priv xs)) + 2) xs v Hok) as (xs' & Hp & ? & ? & ?); [lia|].
    exists xs'. simpl. unfold xdr_ioq_putunit. by rewrite Hp.
Qed.
Next Obligation.
  intros xs v Hok _. unfold xdr_putlong. case_decide.
  - eexists. split; [reflexivity|]. rewrite be32_i32.
    destruct (write_snk xs (be32 v) Hok) as (? & ? & ?); [simpl; lia|]. done.
  - destruct (putunit_loop_snk (length (ioq_next (x_priv xs)) + 2) xs (u32 v) Hok) as (xs' & Hp & ? & ? & ?); [lia|].
    rewrite be32_u32 in *. exists xs'. simpl. unfold xdr_ioq_putunit. by rewrite Hp.
Qed.
Next Obligation.
  intros xs bs Hok _. simpl. unfold xdr_ioq_putbytes.
  destruct (putbytes_loop_snk (2 * (length bs + length (ioq_next (x_priv xs))) + 2) xs bs Hok)
    as (xs' & -> & ? & ? & ?); [case_decide; lia|]. by exists xs'.
Qed.
Next Obligation.
  intros xs n off xs' buf Hok Hi Hl Htk. destruct (ioq_inline_encode xs n off xs' buf) as (? & ? & ? & ?); [done..|].
  split; [done|]. split_and!; done.
Qed.
Next Obligation. intros xs v Hok. split_and!; [done|by rewrite app_nil_r|done|done]. Qed.
