(* ===== verification/XdrPrim.v ===== *)
(** * XDR filters (libntirpc [ntirpc/rpc/xdr_inline.h], [src/xdr.c],
    [src/xdr_reference.c])

    A filter [bool xdr_foo(XDR *xdrs, foo *objp)] is a function from the handle
    and the object to the returned flag, the handle and the object it leaves
    behind.  One filter serves the three directions of [x_op].  A [char *] is
    an [option (list byte)], [None] being NULL; the list is the whole buffer,
    the terminating NUL of a string included. *)
From S2P Require Import Prelude XdrStream.

Open Scope Z_scope.
Open Scope dnfs_scope.

Definition xdrproc (P A : Type) : Type := XDR P -> A -> bool * XDR P * A.

(** A counted byte array: [struct { u_int data_len; char *data_val; }]. *)
Record bytes_t := mk_bytes {
  data_len : Z;
  data_val : option (list byte) }.
#[global] Instance eta_bytes : RecEta bytes_t := fun r => mk_bytes (data_len r) (data_val r).

(** A counted array of [A]. *)
Record array_t (A : Type) := mk_array {
  arr_len : Z;
  arr_val : option (list A) }.
Arguments mk_array {A}.
Arguments arr_len {A}.
Arguments arr_val {A}.

(** ** How the generated filters are put together *)

Section Combinators.
  Context {P : Type}.

(** [xdr_foo(xdrs, &objp->f)]. *)
Definition xfield {A B} (f : A -> B) `{!Setter f} (p : xdrproc P B) : xdrproc P A :=
  fun xs a => let '(ok, xs', b) := p xs (f a) in (ok, xs', a <| f := b |>).

(** [if (!p) return false; q]. *)
Definition xseq {A} (p q : xdrproc P A) : xdrproc P A :=
  fun xs a => let '(ok, xs', a') := p xs a in if ok then q xs' a' else (false, xs', a').

(** [switch (objp->discriminant)]. *)
Definition xswitch {A} (f : A -> xdrproc P A) : xdrproc P A := fun xs a => f a xs a.

Definition xtrue {A} : xdrproc P A := fun xs a => (true, xs, a).
Definition xfalse {A} : xdrproc P A := fun xs a => (false, xs, a).

End Combinators.

Notation "p 'on' f" := (xfield f p) (at level 40, left associativity) : dnfs_scope.
Notation "p ;;; q" := (xseq p q) (at level 62, right associativity) : dnfs_scope.

(** ** Primitive filters *)

Section Prim.
  Context {P : Type} `{xdr_ops P}.

Definition xdr_void {A} : xdrproc P A := fun xs a => (true, xs, a).

Definition xdr_int : xdrproc P Z := fun xs ip =>
  match x_op xs with
  | XDR_ENCODE => let '(b, xs') := xdr_putlong xs ip in (b, xs', ip)
  | XDR_DECODE =>
      match xdr_getlong xs with
      | (None, xs') => (false, xs', ip)
      | (Some l, xs') => (true, xs', i32 l)
      end
  | XDR_FREE => (true, xs, ip)
  end.

Definition xdr_u_int : xdrproc P Z := fun xs up =>
  match x_op xs with
  | XDR_ENCODE => let '(b, xs') := xdr_putlong xs up in (b, xs', up)
  | XDR_DECODE =>
      match xdr_getlong xs with
      | (None, xs') => (false, xs', up)
      | (Some l, xs') => (true, xs', u32 l)
      end
  | XDR_FREE => (true, xs, up)
  end.

Definition xdr_uint64_t : xdrproc P Z := fun xs v =>
  match x_op xs with
  | XDR_ENCODE =>
      let u0 := Z.land (u32 (Z.shiftr v 32)) 0xffffffff in
      let u1 := Z.land (u32 v) 0xffffffff in
      let '(b, xs') := xdr_putuint32 xs u0 in
      if negb b then (false, xs', v)
      else let '(b', xs'') := xdr_putuint32 xs' u1 in (b', xs'', v)
  | XDR_DECODE =>
      match xdr_getuint32 xs with
      | (None, xs') => (false, xs', v)
      | (Some u0, xs') =>
          match xdr_getuint32 xs' with
          | (None, xs'') => (false, xs'', v)
          | (Some u1, xs'') => (true, xs'', Z.lor (u64 (Z.shiftl u0 32)) u1)
          end
      end
  | XDR_FREE => (true, xs, v)
  end.

Definition xdr_u_int64_t : xdrproc P Z := xdr_uint64_t.
Definition xdr_u_longlong_t : xdrproc P Z := xdr_u_int64_t.

Definition xdr_uint32_t : xdrproc P Z := fun xs v =>
  match x_op xs with
  | XDR_ENCODE => let '(b, xs') := xdr_putuint32 xs v in (b, xs', v)
  | XDR_DECODE =>
      match xdr_getuint32 xs with
      | (None, xs') => (false, xs', v)
      | (Some u, xs') => (true, xs', u)
      end
  | XDR_FREE => (true, xs, v)
  end.

Definition xdr_bool : xdrproc P Z := fun xs bp =>
  match x_op xs with
  | XDR_ENCODE => let '(b, xs') := xdr_putbool xs bp in (b, xs', bp)
  | XDR_DECODE =>
      match xdr_getbool xs with
      | (None, xs') => (false, xs', bp)
      | (Some u, xs') => (true, xs', u)
      end
  | XDR_FREE => (true, xs, bp)
  end.

Definition xdr_enum : xdrproc P Z := fun xs ep =>
  match x_op xs with
  | XDR_ENCODE => let '(b, xs') := xdr_putenum xs ep in (b, xs', ep)
  | XDR_DECODE =>
      match xdr_getenum xs with
      | (None, xs') => (false, xs', ep)
      | (Some u, xs') => (true, xs', u)
      end
  | XDR_FREE => (true, xs, ep)
  end.

(** [cp] is the target buffer; its first [cnt] bytes are overwritten once they
    have been read, whether or not the padding follows. *)
Definition xdr_opaque_decode (xs : XDR P) (cp : list byte) (cnt : nat)
  : bool * XDR P * list byte :=
  if decide (cnt = 0)%nat then (true, xs, cp)
  else
    match x_getbytes xs cnt with
    | (None, xs') => (false, xs', cp)
    | (Some bs, xs') =>
        let cp' := bs ++ drop cnt cp in
        let rndup := Nat.land cnt (BYTES_PER_XDR_UNIT - 1) in
        if decide (0 < rndup)%nat
        then match x_getbytes xs' (BYTES_PER_XDR_UNIT - rndup) with
             | (None, xs'') => (false, xs'', cp')
             | (Some _, xs'') => (true, xs'', cp')
             end
        else (true, xs', cp')
    end.

Definition xdr_opaque_encode (xs : XDR P) (cp : list byte) (cnt : nat) : bool * XDR P :=
  if decide (cnt = 0)%nat then (true, xs)
  else
    let '(b, xs') := x_putbytes xs (take cnt cp) in
    if negb b then (false, xs')
    else
      let rndup := Nat.land cnt (BYTES_PER_XDR_UNIT - 1) in
      if decide (0 < rndup)%nat
      then x_putbytes xs' (replicate (BYTES_PER_XDR_UNIT - rndup) x00)
      else (true, xs').

Definition xdr_opaque (cnt : nat) : xdrproc P (list byte) := fun xs cp =>
  match x_op xs with
  | XDR_DECODE => xdr_opaque_decode xs cp cnt
  | XDR_ENCODE => let '(b, xs') := xdr_opaque_encode xs cp cnt in (b, xs', cp)
  | XDR_FREE => (true, xs, cp)
  end.

(** A buffer that is allocated here starts empty: [xdr_opaque_decode] fills it. *)
Definition xdr_bytes_decode (maxsize : Z) : xdrproc P bytes_t := fun xs o =>
  match xdr_getuint32 xs with
  | (None, xs1) => (false, xs1, o)
  | (Some size, xs1) =>
      if decide (maxsize < size) then (false, xs1, o)
      else
        let o := o <| data_len := size |> in
        if decide (size = 0) then (true, xs1, o)
        else
          let sp := default [] (data_val o) in
          let '(ret, xs2, sp') := xdr_opaque_decode xs1 sp (Z.to_nat size) in
          if negb ret
          then (false, xs2, match data_val o with None => o | Some _ => o <| data_val := Some sp' |> end)
          else (true, xs2, o <| data_val := Some sp' |>)
  end.

Definition xdr_bytes_encode (maxsize : Z) : xdrproc P bytes_t := fun xs o =>
  let sp := default [] (data_val o) in
  let size := u32 (data_len o) in
  if decide (maxsize < data_len o) then (false, xs, o)
  else if decide (size < data_len o) then (false, xs, o)
  else
    let '(b, xs1) := xdr_putuint32 xs size in
    if negb b then (false, xs1, o)
    else let '(b', xs2) := xdr_opaque_encode xs1 sp (Z.to_nat size) in (b', xs2, o).

Definition xdr_bytes_free : xdrproc P bytes_t := fun xs o =>
  match data_val o with
  | Some _ => (true, xs, o <| data_val := None |>)
  | None => (true, xs, o)
  end.

Definition xdr_bytes (maxsize : Z) : xdrproc P bytes_t := fun xs o =>
  match x_op xs with
  | XDR_DECODE => xdr_bytes_decode maxsize xs o
  | XDR_ENCODE => xdr_bytes_encode maxsize xs o
  | XDR_FREE => xdr_bytes_free xs o
  end.

(** The wrap-around test compares two [uint32_t] values, as in the source. *)
Definition xdr_string_decode (maxsize : Z) : xdrproc P (option (list byte)) := fun xs cpp =>
  match xdr_getuint32 xs with
  | (None, xs1) => (false, xs1, cpp)
  | (Some size, xs1) =>
      if decide (maxsize < size) then (false, xs1, cpp)
      else
        let nodesize := u32 (size + 1) in
        if decide (nodesize < u32 (size + 1)) then (false, xs1, cpp)
        else
          let sp := default [] cpp in
          let '(ret, xs2, sp') := xdr_opaque_decode xs1 sp (Z.to_nat size) in
          if negb ret then (false, xs2, cpp)
          else (true, xs2, Some (take (Z.to_nat size) sp' ++ x00 :: drop (S (Z.to_nat size)) sp'))
  end.

Definition xdr_string_encode (maxsize : Z) : xdrproc P (option (list byte)) := fun xs cpp =>
  match cpp with
  | None => (false, xs, cpp)
  | Some s =>
      let size := Z.of_nat (strlen s) in
      if decide (maxsize < size) then (false, xs, cpp)
      else if decide (u32 (size + 1) < size + 1) then (false, xs, cpp)
      else
        let '(b, xs1) := xdr_putuint32 xs (u32 size) in
        if negb b then (false, xs1, cpp)
        else let '(b', xs2) := xdr_opaque_encode xs1 s (Z.to_nat size) in (b', xs2, cpp)
  end.

Definition xdr_string_free : xdrproc P (option (list byte)) := fun xs cpp =>
  match cpp with
  | Some _ => (true, xs, None)
  | None => (true, xs, cpp)
  end.

Definition xdr_string (maxsize : Z) : xdrproc P (option (list byte)) := fun xs cpp =>
  match x_op xs with
  | XDR_DECODE => xdr_string_decode maxsize xs cpp
  | XDR_ENCODE => xdr_string_encode maxsize xs cpp
  | XDR_FREE => xdr_string_free xs cpp
  end.

(** [xdr_elem] over the [size] elements at [target]; stops at the first that
    fails, which has been stepped over. *)
Fixpoint xdr_elems {A} (xdr_elem : xdrproc P A) (xs : XDR P) (target : list A)
  : bool * XDR P * list A :=
  match target with
  | [] => (true, xs, [])
  | a :: rest =>
      let '(stat, xs', a') := xdr_elem xs a in
      if stat then
        let '(stat', xs'', rest') := xdr_elems xdr_elem xs' rest in (stat', xs'', a' :: rest')
      else (false, xs', a' :: rest)
  end.

Definition UINT_MAX : Z := 2 ^ 32 - 1.

Definition xdr_array_decode {A} (zero : A) (maxsize selem : Z) (xdr_elem : xdrproc P A)
  : xdrproc P (array_t A) := fun xs o =>
  if decide (UINT_MAX / selem < maxsize) then (false, xs, o)
  else
    match xdr_getuint32 xs with
    | (None, xs1) => (false, xs1, o)
    | (Some size, xs1) =>
        if decide (maxsize < size) then (false, xs1, o)
        else if decide (size = 0) then (true, xs1, mk_array size (arr_val o))
        else
          let target := default (replicate (Z.to_nat size) zero) (arr_val o) in
          let '(stat, xs2, done) := xdr_elems xdr_elem xs1 (take (Z.to_nat size) target) in
          (stat, xs2, mk_array size (Some (done ++ drop (Z.to_nat size) target)))
    end.

Definition xdr_array_encode {A} (maxsize : Z) (xdr_elem : xdrproc P A)
  : xdrproc P (array_t A) := fun xs o =>
  let size := u32 (arr_len o) in
  if decide (maxsize < arr_len o) then (false, xs, o)
  else if decide (size < arr_len o) then (false, xs, o)
  else
    let '(b, xs1) := xdr_putuint32 xs size in
    if negb b then (false, xs1, o)
    else
      let target := default [] (arr_val o) in
      let '(stat, xs2, done) := xdr_elems xdr_elem xs1 (take (Z.to_nat size) target) in
      (stat, xs2, match arr_val o with
                  | None => o
                  | Some _ => mk_array (arr_len o) (Some (done ++ drop (Z.to_nat size) target))
                  end).

Definition xdr_array_free {A} (xdr_elem : xdrproc P A) : xdrproc P (array_t A) := fun xs o =>
  match arr_val o with
  | None => (true, xs, o)
  | Some target =>
      let '(stat, xs1, _) := xdr_elems xdr_elem xs (take (Z.to_nat (arr_len o)) target) in
      (stat, xs1, mk_array (arr_len o) None)
  end.

Definition xdr_array {A} (zero : A) (maxsize selem : Z) (xdr_elem : xdrproc P A)
  : xdrproc P (array_t A) := fun xs o =>
  match x_op xs with
  | XDR_DECODE => xdr_array_decode zero maxsize selem xdr_elem xs o
  | XDR_ENCODE => xdr_array_encode maxsize xdr_elem xs o
  | XDR_FREE => xdr_array_free xdr_elem xs o
  end.

(** [zero] is what [mem_zalloc] gives.  Encoding through NULL would dereference
    it; [xdr_pointer] never asks for that. *)
Definition xdr_reference {A} (zero : A) (proc : xdrproc P A) : xdrproc P (option A) := fun xs pp =>
  match pp, x_op xs with
  | None, XDR_FREE => (true, xs, None)
  | None, XDR_ENCODE => (false, xs, None)
  | None, XDR_DECODE => let '(stat, xs', a) := proc xs zero in (stat, xs', Some a)
  | Some loc, XDR_FREE => let '(stat, xs', _) := proc xs loc in (stat, xs', None)
  | Some loc, _ => let '(stat, xs', a) := proc xs loc in (stat, xs', Some a)
  end.

Definition xdr_pointer {A} (zero : A) (xdr_obj : xdrproc P A) : xdrproc P (option A) := fun xs objpp =>
  let more_data := match objpp with Some _ => 1 | None => 0 end in
  let '(b, xs', more_data) := xdr_bool xs more_data in
  if negb b then (false, xs', objpp)
  else if decide (more_data = 0) then (true, xs', None)
  else xdr_reference zero xdr_obj xs' objpp.

End Prim.

(** [xdr_free_null_stream]: the handle [xdr_nfree] runs a filter with. *)
Definition xdr_free_null_stream : XDR unit := mkXDR XDR_FREE None [] 0 0 0 0 tt.

Definition xdr_nfree {A} (proc : xdrproc unit A) (obj : A) : bool * A :=
  let '(b, _, obj') := proc xdr_free_null_stream obj in (b, obj').
