(* ===== verification/XdrSpec.v ===== *)
(** * What the XDR filters promise

    The reference description of the wire format and the rules that prove a
    filter against it: [xdr_spec] for the round trip through the bytes of
    RFC 4506, [xdr_safe] for decoding arbitrary input.  The rules follow the
    shape of the generated filters, so that a filter of the protocol is proved
    by applying the rules of its parts. *)
From S2P Require Import Prelude XdrStream XdrPrim.

Open Scope Z_scope.
Open Scope dnfs_scope.

(** ** What a filter promises

    [xdr_spec p dom wire ov]: on an object of [dom] the filter [p] encodes
    exactly the bytes [wire a], and decoding these bytes over any object [o]
    gives back [ov a o], leaving the rest of the input to the next filter.
    [ov a o = a] when the filter overwrites every field. *)
Record xdr_spec {P A} `{xdr_ops P} (p : xdrproc P A) (dom : A -> Prop) (wire : A -> list byte)
    (ov : A -> A -> A) : Prop := {
  spec_enc : forall (S : XdrSink P) xs a,
    snk_ok xs -> x_op xs = XDR_ENCODE -> dom a -> snk_fits xs (length (wire a)) ->
    exists xs', p xs a = (true, xs', a) /\ emits xs xs' (wire a);
  spec_dec : forall (S : XdrSource P) xs a o rest,
    src_ok xs -> x_op xs = XDR_DECODE -> dom a -> (length rest mod 4 = 0)%nat ->
    src_in xs = wire a ++ rest ->
    exists xs', p xs o = (true, xs', ov a o) /\
      src_ok xs' /\ src_in xs' = rest /\ stream_frame xs xs';
  spec_len : forall a, dom a -> (length (wire a) mod 4 = 0)%nat }.

(** The stream stays well formed and has only given up input. *)
Definition src_step {P} `{XdrSource P} (xs xs' : XDR P) : Prop :=
  src_ok xs' /\ (exists used, src_in xs = used ++ src_in xs') /\ stream_frame xs xs'.

(** [xdr_safe p]: whatever the input, decoding takes such a step. *)
Definition xdr_safe {P A} `{xdr_ops P} (p : xdrproc P A) : Prop :=
  forall (S : XdrSource P) xs a b xs' a',
    src_ok xs -> x_op xs = XDR_DECODE -> p xs a = (b, xs', a') -> src_step xs xs'.

(** The value decoded does not depend on what the object held. *)
Definition fresh {A} (a o : A) : A := a.

Create HintDb xdr discriminated.
#[export] Hint Constants Opaque : xdr.
#[export] Hint Variables Opaque : xdr.

Lemma mod4_add n m : (n mod 4 = 0 -> m mod 4 = 0 -> (n + m) mod 4 = 0)%nat.
Proof. intros ? ?. rewrite Nat.Div0.add_mod, H, H0. reflexivity. Qed.

Lemma mod4_app {A} (l k : list A) :
  (length l mod 4 = 0 -> length k mod 4 = 0 -> length (l ++ k) mod 4 = 0)%nat.
Proof. rewrite length_app. apply mod4_add. Qed.

Section Rules.
  Context {P : Type} `{xdr_ops P}.

Lemma emits_refl `{!XdrSink P} xs : snk_ok xs -> emits xs xs [].
Proof. intros. split_and!; rewrite ?app_nil_r; done. Qed.

Lemma emits_trans `{!XdrSink P} xs xs' xs'' bs bs' :
  emits xs xs' bs -> emits xs' xs'' bs' -> emits xs xs'' (bs ++ bs').
Proof.
  intros (? & Ho & Hf & Hr) (? & Ho' & Hf' & Hr'). split_and!; [done| | |].
  - by rewrite Ho', Ho, app_assoc.
  - unfold stream_frame in *. congruence.
  - intros n Hn. apply Hr', Hr. by rewrite length_app, <- Nat.add_assoc in Hn.
Qed.

Lemma emits_fits `{!XdrSink P} xs xs' bs bs' :
  emits xs xs' bs -> snk_fits xs (length (bs ++ bs')) -> snk_fits xs' (length bs').
Proof. intros (_ & _ & _ & Hr) Hf. apply Hr. by rewrite <- length_app. Qed.

Lemma spec_ext {A} (p : xdrproc P A) d w ov d' w' ov' :
  xdr_spec p d w ov -> (forall a, d' a -> d a) -> (forall a, d' a -> w a = w' a) ->
  (forall a o, d' a -> ov a o = ov' a o) -> xdr_spec p d' w' ov'.
Proof.
  intros [He Hd Hl] Hdom Hw Ho. split.
  - intros ? xs a. intros. rewrite <- Hw in * by done. eauto.
  - intros ? xs a o rest ? ? ? ? Hin. rewrite <- Hw in Hin by done. rewrite <- Ho by done. eauto.
  - intros a ?. rewrite <- Hw by done. eauto.
Qed.

Lemma xtrue_spec {A} : xdr_spec (P:=P) (@xtrue P A) (fun _ => True) (fun _ => []) (fun _ o => o).
Proof.
  split.
  - intros ? xs a; intros. exists xs. split; [done|]. by apply emits_refl.
  - intros ? xs a o rest ? ? ? ? Hin. exists xs. split_and!; done.
  - done.
Qed.

(** The object must be determined by the field and the rest of the object. *)
Lemma xfield_spec_on {A B} (f : A -> B) `{!Setter f} (p : xdrproc P B) (D : A -> Prop) d w ov :
  xdr_spec p d w ov -> (forall a, D a -> d (f a)) -> (forall a, D a -> a <| f := f a |> = a) ->
  xdr_spec (p on f) D (fun a => w (f a)) (fun a o => o <| f := ov (f a) (f o) |>).
Proof.
  intros [He Hd Hl] HD Hset. split.
  - intros ? xs a Hok Hop Hdom Hfit. destruct (He _ xs (f a)) as (xs' & Hp & Hemit); [eauto..|].
    exists xs'. unfold xfield. by rewrite Hp, Hset.
  - intros ? xs a o rest Hok Hop Hdom Hr Hin.
    destruct (Hd _ xs (f a) (f o) rest) as (xs' & Hp & Hrest); [eauto..|].
    exists xs'. unfold xfield. by rewrite Hp.
  - eauto.
Qed.

Lemma xfield_spec {A B} (f : A -> B) `{!Setter f} (p : xdrproc P B) d w ov :
  xdr_spec p d w ov -> (forall a, a <| f := f a |> = a) ->
  xdr_spec (p on f) (fun a => d (f a)) (fun a => w (f a)) (fun a o => o <| f := ov (f a) (f o) |>).
Proof. intros Hp Hset. by eapply xfield_spec_on. Qed.

Lemma xseq_spec {A} (p q : xdrproc P A) dp wp op dq wq oq :
  xdr_spec p dp wp op -> xdr_spec q dq wq oq ->
  xdr_spec (p ;;; q) (fun a => dp a /\ dq a) (fun a => wp a ++ wq a) (fun a o => oq a (op a o)).
Proof.
  intros [Hep Hdp Hlp] [Heq Hdq Hlq]. split.
  - intros ? xs a Hok Hop [Ha1 Ha2] Hfit.
    destruct (Hep _ xs a) as (xs1 & Hp & Hem); [done..| |].
    { eapply snk_fits_le; [|exact Hfit]. rewrite length_app. lia. }
    destruct (Heq _ xs1 a) as (xs2 & Hq & Hem'); [apply Hem| |done|by eapply emits_fits|].
    { transitivity (x_op xs); [apply Hem|done]. }
    exists xs2. unfold xseq. rewrite Hp, Hq. split; [done|]. by eapply emits_trans.
  - intros ? xs a o rest Hok Hop [Ha1 Ha2] Hr Hin. rewrite <- app_assoc in Hin.
    destruct (Hdp _ xs a o (wq a ++ rest)) as (xs1 & Hp & ? & ? & Hf);
      [done..|by apply mod4_app; eauto|done|].
    destruct (Hdq _ xs1 a (op a o) rest) as (xs2 & Hq & ? & ? & Hf'); [done|congruence|done..|].
    exists xs2. unfold xseq, stream_frame in *. rewrite Hp, Hq. split_and!; [done..|congruence].
  - intros a [? ?]. apply mod4_app; eauto.
Qed.

(** The arm run after decoding the discriminant is the arm of the encoded object. *)
Lemma xseq_switch_spec {A} (p : xdrproc P A) (f : A -> xdrproc P A) dp wp op df wf os :
  xdr_spec p dp wp op ->
  (forall a, dp a -> df a -> xdr_spec (f a) (fun b => b = a) wf os) ->
  (forall a o, dp a -> df a -> f (op a o) = f a) ->
  xdr_spec (p ;;; xswitch f) (fun a => dp a /\ df a) (fun a => wp a ++ wf a)
    (fun a o => os a (op a o)).
Proof.
  intros [Hep Hdp Hlp] Hf Hsel. split.
  - intros ? xs a Hok Hop [Ha1 Ha2] Hfit.
    destruct (Hep _ xs a) as (xs1 & Hp & Hem); [done..| |].
    { eapply snk_fits_le; [|exact Hfit]. rewrite length_app. lia. }
    destruct (spec_enc _ _ _ _ (Hf a Ha1 Ha2) _ xs1 a) as (xs2 & Hq & Hem');
      [apply Hem| |done|by eapply emits_fits|].
    { transitivity (x_op xs); [apply Hem|done]. }
    exists xs2. unfold xseq, xswitch. rewrite Hp, Hq. split; [done|]. by eapply emits_trans.
  - intros ? xs a o rest Hok Hop [Ha1 Ha2] Hr Hin. rewrite <- app_assoc in Hin.
    destruct (Hdp _ xs a o (wf a ++ rest)) as (xs1 & Hp & ? & ? & Hfr); [done..| |done|].
    { apply mod4_app; [by apply (spec_len _ _ _ _ (Hf a Ha1 Ha2))|done]. }
    destruct (spec_dec _ _ _ _ (Hf a Ha1 Ha2) _ xs1 a (op a o) rest) as (xs2 & Hq & ? & ? & Hfr');
      [done|congruence|done..|].
    exists xs2. unfold xseq, xswitch, stream_frame in *. rewrite Hp, Hsel, Hq by done.
    split_and!; [done..|congruence].
  - intros a [? ?]. apply mod4_app; [eauto|]. by apply (spec_len _ _ _ _ (Hf a H0 H1)).
Qed.

End Rules.

(** ** The wire format of the primitive types *)

Definition pad (n : nat) : nat := ((4 - n mod 4) mod 4)%nat.

(** Fixed-length opaque data, zero-padded to a multiple of four bytes. *)
Definition opaque_wire (bs : list byte) : list byte := bs ++ replicate (pad (length bs)) x00.

Definition u64_wire (v : Z) : list byte := be32 (Z.shiftr v 32) ++ be32 v.

(** The bytes a counted array stands for. *)
Definition bytes_content (b : bytes_t) : list byte :=
  take (Z.to_nat (data_len b)) (default [] (data_val b)).

Definition bytes_ok (max : Z) (b : bytes_t) : Prop :=
  0 <= data_len b <= max /\ is_u32 (data_len b) /\
  data_len b <= Z.of_nat (length (default [] (data_val b))).

Definition bytes_wire (b : bytes_t) : list byte := be32 (data_len b) ++ opaque_wire (bytes_content b).

(** Decoding reuses the buffer the object has. *)
Definition bytes_ov (b o : bytes_t) : bytes_t :=
  mk_bytes (data_len b)
    (if decide (data_len b = 0) then data_val o
     else Some (bytes_content b ++ drop (Z.to_nat (data_len b)) (default [] (data_val o)))).

Definition string_ok (max : Z) (s : option (list byte)) : Prop :=
  match s with
  | Some l => Z.of_nat (strlen l) <= max /\ Z.of_nat (strlen l) < 2 ^ 32 - 1
  | None => False
  end.

Definition string_content (s : option (list byte)) : list byte := cstr (default [] s).

Definition string_wire (s : option (list byte)) : list byte :=
  be32 (Z.of_nat (length (string_content s))) ++ opaque_wire (string_content s).

Definition string_ov (s o : option (list byte)) : option (list byte) :=
  Some (string_content s ++ x00 :: drop (S (length (string_content s))) (default [] o)).

(** A buffer as decoding into zeroed memory leaves it. *)
Definition bytes_canon (b : bytes_t) : Prop :=
  match data_val b with
  | None => data_len b = 0
  | Some l => data_len b = Z.of_nat (length l) /\ l <> []
  end.

Definition string_canon (s : option (list byte)) : Prop :=
  match s with Some l => l = cstr l ++ [x00] | None => False end.

Lemma bytes_ov_canon b : bytes_canon b -> bytes_ov b (mk_bytes 0 None) = b.
Proof.
  destruct b as [n [l|]]; unfold bytes_canon, bytes_ov, bytes_content; simpl.
  - intros [-> Hl]. case_decide as Hz; [by destruct l|].
    by rewrite Nat2Z.id, take_ge, drop_nil, app_nil_r.
  - intros ->. reflexivity.
Qed.

Lemma string_ov_canon s : string_canon s -> string_ov s None = s.
Proof.
  destruct s as [l|]; simpl; [|done]. unfold string_ov, string_content; simpl.
  intros Hl. by rewrite <- Hl.
Qed.

Lemma length_opaque_wire bs : (length (opaque_wire bs) mod 4 = 0)%nat.
Proof.
  unfold opaque_wire, pad. rewrite length_app, length_replicate.
  pose proof (Nat.mod_upper_bound (length bs) 4). pose proof (Nat.div_mod (length bs) 4).
  set (r := (length bs mod 4)%nat) in *. set (q := (length bs / 4)%nat) in *.
  destruct (decide (r = 0)%nat) as [Hr|Hr].
  - rewrite Hr in *. change ((4 - 0) mod 4)%nat with 0%nat.
    replace (length bs + 0)%nat with (q * 4)%nat by lia. apply Nat.Div0.mod_mul.
  - rewrite (Nat.mod_small (4 - r)) by lia.
    replace (length bs + (4 - r))%nat with ((q + 1) * 4)%nat by lia. apply Nat.Div0.mod_mul.
Qed.

Lemma land_pad n :
  (if decide (0 < Nat.land n 3)%nat then (4 - Nat.land n 3)%nat else 0%nat) = pad n.
Proof.
  unfold pad. replace (Nat.land n 3) with (n mod 4)%nat
    by (change 3%nat with (Nat.ones 2); by rewrite Nat.land_ones).
  pose proof (Nat.mod_upper_bound n 4). set (r := (n mod 4)%nat) in *.
  case_decide; [by rewrite (Nat.mod_small (4 - r)) by lia|].
  by replace r with 0%nat by lia.
Qed.

Section Leaves.
  Context {P : Type} `{xdr_ops P}.

Lemma opaque_encode_spec `{!XdrSink P} xs cp cnt :
  snk_ok xs -> (cnt <= length cp)%nat -> snk_fits xs (length (opaque_wire (take cnt cp))) ->
  exists xs', xdr_opaque_encode xs cp cnt = (true, xs') /\ emits xs xs' (opaque_wire (take cnt cp)).
Proof.
  intros Hok Hlen Hfit. unfold xdr_opaque_encode. case_decide as Hz.
  { subst. exists xs. split; [done|]. by apply emits_refl. }
  destruct (snk_putbytes xs (take cnt cp)) as (xs1 & -> & Hem); [done| |]; simpl.
  { eapply snk_fits_le; [|exact Hfit]. unfold opaque_wire. rewrite length_app. lia. }
  pose proof (land_pad cnt) as Hpad. unfold BYTES_PER_XDR_UNIT; simpl.
  unfold opaque_wire in *. rewrite length_take, Nat.min_l, <- Hpad in * by done.
  case_decide.
  - destruct (snk_putbytes xs1 (replicate (4 - Nat.land cnt 3) x00)) as (xs2 & -> & Hem').
    + apply Hem.
    + by eapply emits_fits.
    + exists xs2. split; [done|]. by eapply emits_trans.
  - exists xs1. simpl. by rewrite app_nil_r.
Qed.

Lemma opaque_decode_spec `{!XdrSource P} xs cp bs rest :
  src_ok xs -> src_in xs = opaque_wire bs ++ rest ->
  exists xs', xdr_opaque_decode xs cp (length bs) = (true, xs', bs ++ drop (length bs) cp) /\
    src_ok xs' /\ src_in xs' = rest /\ stream_frame xs xs'.
Proof.
  intros Hok Hin. unfold xdr_opaque_decode. case_decide as Hz.
  { destruct bs; [|done]. exists xs. by rewrite drop_0. }
  unfold opaque_wire in Hin. rewrite <- app_assoc in Hin.
  destruct (src_getbytes xs bs _ Hok Hin) as (xs1 & -> & ? & Hin1 & Hf); [by destruct bs|].
  rewrite <- land_pad in Hin1. unfold BYTES_PER_XDR_UNIT; simpl. case_decide.
  - edestruct (src_getbytes xs1 (replicate (4 - Nat.land (length bs) 3) x00)) as (xs2 & Hg & ? & ? & Hf').
    + done.
    + exact Hin1.
    + assert (Nat.land (length bs) 3 < 4)%nat; [|destruct (4 - _)%nat eqn:?; [lia|done]].
      change 3%nat with (Nat.ones 2). rewrite Nat.land_ones. by apply Nat.mod_upper_bound.
    + rewrite length_replicate in Hg. rewrite Hg. exists xs2. unfold stream_frame in *.
      split_and!; [done..|congruence].
  - exists xs1. split_and!; done.
Qed.

(** A filter that is one 32-bit word: [enc] gives the word, [ok] says for which
    objects the word determines the object. *)
Lemma word_spec {A} (p : xdrproc P A) (word : A -> Z) (ok : A -> Prop) :
  (forall (S : XdrSink P) xs a, snk_ok xs -> x_op xs = XDR_ENCODE -> ok a -> snk_fits xs 4 ->
     exists xs', p xs a = (true, xs', a) /\ emits xs xs' (be32 (word a))) ->
  (forall (S : XdrSource P) xs a o rest, src_ok xs -> x_op xs = XDR_DECODE -> ok a ->
     (length rest mod 4 = 0)%nat -> src_in xs = be32 (word a) ++ rest ->
     exists xs', p xs o = (true, xs', a) /\ src_ok xs' /\ src_in xs' = rest /\ stream_frame xs xs') ->
  xdr_spec p ok (fun a => be32 (word a)) fresh.
Proof. intros He Hd. split; [exact He|exact Hd|done]. Qed.

Lemma xdr_u_int_spec : xdr_spec xdr_u_int is_u32 be32 fresh.
Proof.
  apply (word_spec _ (fun v => v)); intros S xs a; intros.
  - unfold xdr_u_int. rewrite H1. destruct (snk_putlong xs a) as (xs' & -> & ?); eauto.
  - unfold xdr_u_int. rewrite H1.
    destruct (src_getlong xs a rest) as (l & xs' & -> & <- & ?); eauto.
Qed.

Lemma xdr_int_spec : xdr_spec xdr_int is_i32 be32 fresh.
Proof.
  apply (word_spec _ (fun v => v)); intros S xs a; intros.
  - unfold xdr_int. rewrite H1. destruct (snk_putlong xs a) as (xs' & -> & ?); eauto.
  - unfold xdr_int. rewrite H1. rewrite <- be32_u32 in H4.
    destruct (src_getlong xs (u32 a) rest) as (l & xs' & -> & Hl & ?); auto with dnfs.
    exists xs'. by rewrite <- (i32_u32 l), Hl, i32_u32, i32_small.
Qed.

Lemma xdr_uint32_t_spec : xdr_spec xdr_uint32_t is_u32 be32 fresh.
Proof.
  apply (word_spec _ (fun v => v)); intros S xs a; intros.
  - unfold xdr_uint32_t. rewrite H1. destruct (snk_putuint32 xs a) as (xs' & -> & ?); eauto.
  - unfold xdr_uint32_t. rewrite H1. destruct (src_getuint32 xs a rest) as (xs' & -> & ?); eauto.
Qed.

(** Reading back a signed word. *)
Lemma src_getint32 `{!XdrSource P} xs a rest :
  src_ok xs -> is_i32 a -> (length rest mod 4 = 0)%nat -> src_in xs = be32 a ++ rest ->
  exists xs', xdr_getint32 xs = (Some a, xs') /\ src_ok xs' /\ src_in xs' = rest /\ stream_frame xs xs'.
Proof.
  intros. rewrite <- be32_u32 in *. unfold xdr_getint32.
  destruct (src_getuint32 xs (u32 a) rest) as (xs' & -> & ?); auto with dnfs.
  exists xs'. by rewrite i32_u32, i32_small.
Qed.

Lemma xdr_enum_spec : xdr_spec xdr_enum is_i32 be32 fresh.
Proof.
  apply (word_spec _ (fun v => v)); intros S xs a; intros.
  - unfold xdr_enum, xdr_putenum, xdr_putint32. rewrite H1.
    destruct (snk_putuint32 xs (u32 a)) as (xs' & -> & ?); rewrite ?be32_u32 in *; eauto.
  - unfold xdr_enum, xdr_getenum. rewrite H1. destruct (src_getint32 xs a rest) as (xs' & -> & ?); eauto.
Qed.

Lemma xdr_bool_spec : xdr_spec xdr_bool is_bool be32 fresh.
Proof.
  apply (word_spec _ (fun v => v)); intros S xs a; intros.
  - unfold xdr_bool, xdr_putbool, xdr_putint32. rewrite H1.
    replace (if decide (a = 0) then XDR_FALSE else XDR_TRUE) with a by (by destruct H2 as [-> | ->]).
    destruct (snk_putuint32 xs (u32 a)) as (xs' & -> & ?); rewrite ?be32_u32 in *; eauto.
  - unfold xdr_bool, xdr_getbool. rewrite H1.
    destruct (src_getint32 xs a rest) as (xs' & -> & ?); auto with dnfs.
    exists xs'. destruct H2 as [-> | ->]; eauto.
Qed.

Lemma u64_halves v : is_u64 v -> Z.lor (u64 (Z.shiftl (u32 (Z.shiftr v 32)) 32)) (u32 v) = v.
Proof.
  intros Hv. rewrite <- (u64_small v) at 3 by done.
  apply Z.bits_inj'. intros i Hi. rewrite Z.lor_spec. unfold u64, u32.
  destruct (decide (i < 64)); [rewrite !(Z.mod_pow2_bits_low _ 64) by lia|
    rewrite !(Z.mod_pow2_bits_high _ _ i) by lia; done].
  rewrite Z.shiftl_spec by lia. destruct (decide (i < 32)).
  - rewrite Z.testbit_neg_r by lia. by rewrite Z.mod_pow2_bits_low.
  - rewrite (Z.mod_pow2_bits_high v) by lia. rewrite Z.mod_pow2_bits_low, Z.shiftr_spec by lia.
    rewrite orb_false_r. f_equal. lia.
Qed.

Lemma xdr_uint64_t_spec : xdr_spec xdr_uint64_t is_u64 u64_wire fresh.
Proof.
  assert (Hl : forall v, Z.land (u32 v) 0xffffffff = u32 v).
  { intros. change 0xffffffff with (Z.ones 32). rewrite Z.land_ones by lia. apply u32_idemp. }
  split.
  - intros S xs a Hok Hop Ha Hfit. unfold xdr_uint64_t. rewrite Hop, !Hl.
    destruct (snk_putuint32 xs (u32 (Z.shiftr a 32))) as (xs1 & -> & Hem); [done| |].
    { eapply snk_fits_le; [|exact Hfit]. simpl. lia. }
    destruct (snk_putuint32 xs1 (u32 a)) as (xs2 & Hp & Hem'); [apply Hem|by eapply (emits_fits _ _ _ (be32 a))|].
    simpl. rewrite Hp. rewrite be32_u32 in *. exists xs2. split; [done|]. by eapply emits_trans.
  - intros S xs a o rest Hok Hop Ha Hr Hin. unfold xdr_uint64_t. rewrite Hop.
    unfold u64_wire in Hin. rewrite <- app_assoc, <- (be32_u32 (Z.shiftr a 32)), <- (be32_u32 a) in Hin.
    destruct (src_getuint32 xs (u32 (Z.shiftr a 32)) (be32 (u32 a) ++ rest)) as (xs1 & -> & ? & ? & Hf);
      auto using mod4_app with dnfs.
    destruct (src_getuint32 xs1 (u32 a) rest) as (xs2 & -> & ? & ? & Hf'); auto with dnfs.
    exists xs2. rewrite u64_halves by done. unfold stream_frame in *. split_and!; [done..|congruence].
  - done.
Qed.

Lemma xdr_opaque_spec cnt :
  xdr_spec (xdr_opaque cnt) (fun a => length a = cnt) opaque_wire (fun a o => a ++ drop cnt o).
Proof.
  split.
  - intros S xs a Hok Hop Ha Hfit. unfold xdr_opaque. rewrite Hop.
    destruct (opaque_encode_spec xs a cnt) as (xs' & -> & Hem); rewrite ?take_ge in * by lia;
      eauto with lia.
  - intros S xs a o rest Hok Hop <- Hr Hin. unfold xdr_opaque. rewrite Hop.
    by apply opaque_decode_spec.
  - intros. apply length_opaque_wire.
Qed.

Lemma length_bytes_content max b :
  bytes_ok max b -> length (bytes_content b) = Z.to_nat (data_len b).
Proof. intros (? & ? & ?). unfold bytes_content. rewrite length_take. lia. Qed.

Lemma xdr_bytes_spec max : xdr_spec (xdr_bytes max) (bytes_ok max) bytes_wire bytes_ov.
Proof.
  split.
  - intros S xs a Hok Hop (Hr & Hu & Hl) Hfit. unfold xdr_bytes, xdr_bytes_encode.
    rewrite Hop, u32_small by done. repeat (case_decide; [lia|]).
    destruct (snk_putuint32 xs (data_len a)) as (xs1 & -> & Hem); [done| |]; simpl.
    { eapply snk_fits_le; [|exact Hfit]. unfold bytes_wire. rewrite length_app. simpl. lia. }
    destruct (opaque_encode_spec xs1 (default [] (data_val a)) (Z.to_nat (data_len a)))
      as (xs2 & Hp & Hem'); [apply Hem|lia|by eapply emits_fits|].
    rewrite Hp. exists xs2. split; [done|]. by eapply emits_trans.
  - intros S xs a o rest Hok Hop Ha Hr Hin. unfold xdr_bytes, xdr_bytes_decode. rewrite Hop.
    unfold bytes_wire in Hin. rewrite <- app_assoc in Hin. pose proof (length_bytes_content _ _ Ha) as Hlen.
    destruct Ha as (Hrg & Hu & Hl).
    destruct (src_getuint32 xs (data_len a) (opaque_wire (bytes_content a) ++ rest))
      as (xs1 & -> & ? & ? & Hf); auto using mod4_app, length_opaque_wire.
    case_decide; [lia|]. unfold bytes_ov; simpl.
    destruct (opaque_decode_spec xs1 (default [] (data_val o)) (bytes_content a) rest)
      as (xs2 & Hd & ? & ? & Hf'); [done..|]. rewrite Hlen in *. unfold stream_frame in *.
    case_decide as Hz.
    + rewrite Hz in *. simpl in Hd. unfold xdr_opaque_decode in Hd. simpl in Hd.
      simplify_eq. exists xs2. split_and!; [by destruct o|done..|congruence].
    + rewrite Hd. simpl. exists xs2. split_and!; [done..|congruence].
  - intros a _. apply mod4_app; [done|apply length_opaque_wire].
Qed.

Lemma xdr_string_spec max : xdr_spec (xdr_string max) (string_ok max) string_wire string_ov.
Proof.
  split.
  - intros S xs [l|] Hok Hop Ha Hfit; [|done]. destruct Ha as [Hm Hb].
    unfold xdr_string, xdr_string_encode. rewrite Hop, u32_small by (unfold_ints; lia).
    repeat (case_decide; [lia|]). rewrite u32_small by (unfold_ints; lia).
    assert (Htake : take (strlen l) l = string_content (Some l)) by apply take_cstr.
    destruct (snk_putuint32 xs (Z.of_nat (strlen l))) as (xs1 & -> & Hem); [done| |]; simpl.
    { eapply snk_fits_le; [|exact Hfit]. unfold string_wire. rewrite length_app. simpl. lia. }
    rewrite Nat2Z.id.
    destruct (opaque_encode_spec xs1 l (strlen l)) as (xs2 & Hp & Hem').
    + apply Hem.
    + apply cstr_length.
    + rewrite Htake. by eapply emits_fits.
    + rewrite Hp. rewrite Htake in *. exists xs2. split; [done|]. by eapply emits_trans.
  - intros Src xs [l|] o rest Hok Hop Ha Hr Hin; [|done]. destruct Ha as [Hm Hb].
    unfold xdr_string, xdr_string_decode. rewrite Hop.
    unfold string_wire, string_ov in *. rewrite <- app_assoc in Hin. simpl in *.
    change (string_content (Some l)) with (cstr l) in *. unfold strlen in *.
    destruct (src_getuint32 xs (Z.of_nat (length (cstr l))) (opaque_wire (cstr l) ++ rest))
      as (xs1 & -> & ? & ? & Hf); auto using mod4_app, length_opaque_wire; [unfold_ints; lia|].
    repeat (case_decide; [lia|]). rewrite Nat2Z.id.
    destruct (opaque_decode_spec xs1 (default [] o) (cstr l) rest) as (xs2 & -> & ? & ? & Hf'); [done..|].
    exists xs2. unfold stream_frame in *. simpl.
    rewrite take_app_length, drop_app_ge by lia. rewrite drop_drop.
    replace (length (cstr l) + (S (length (cstr l)) - length (cstr l)))%nat
      with (S (length (cstr l))) by lia.
    split_and!; [done..|congruence].
  - intros a _. apply mod4_app; [done|apply length_opaque_wire].
Qed.

(** A pointer: a flag, and the object where there is one. *)
Lemma xdr_pointer_spec {A} (zero : A) (p : xdrproc P A) d w ov :
  xdr_spec p d w ov ->
  xdr_spec (xdr_pointer zero p) (from_option d True)
    (fun o => match o with None => be32 0 | Some a => be32 1 ++ w a end)
    (fun a o => (fun x => ov x (default zero o)) <$> a).
Proof.
  intros [He Hd Hl]. unfold xdr_pointer. split.
  - intros S xs [a|] Hok Hop Ha Hfit; simpl in *.
    + destruct (spec_enc _ _ _ _ xdr_bool_spec S xs 1) as (xs1 & -> & Hem); [done..|by right| |].
      { eapply snk_fits_le; [|exact Hfit]. simpl. lia. }
      assert (Hop1 : x_op xs1 = XDR_ENCODE) by (rewrite <- Hop; apply Hem).
      destruct (He S xs1 a) as (xs2 & Hp & Hem'); [apply Hem|done|done|by eapply (emits_fits _ _ (be32 1))|].
      simpl. rewrite Hop1, Hp. exists xs2. split; [done|]. by eapply (emits_trans _ _ _ (be32 1)).
    + destruct (spec_enc _ _ _ _ xdr_bool_spec S xs 0) as (xs1 & -> & Hem); [done..|by left|done|].
      simpl. eauto.
  - intros S xs [a|] o rest Hok Hop Ha Hr Hin; simpl in *.
    + destruct (spec_dec _ _ _ _ xdr_bool_spec S xs 1 (match o with Some _ => 1 | None => 0 end) (w a ++ rest))
        as (xs1 & -> & ? & ? & Hf); [done..|by right|by apply mod4_app; eauto|done|].
      assert (Hop1 : x_op xs1 = XDR_DECODE) by (rewrite <- Hop; apply Hf). unfold fresh; simpl.
      destruct (Hd S xs1 a (default zero o) rest) as (xs2 & Hp & ? & ? & Hf'); [done..|].
      unfold stream_frame in *. destruct o; simpl in *; rewrite Hop1, Hp; exists xs2;
        (split_and!; [done..|congruence]).
    + destruct (spec_dec _ _ _ _ xdr_bool_spec S xs 0 (match o with Some _ => 1 | None => 0 end) rest)
        as (xs1 & -> & ? & ? & Hf); [done..|by left|done|done|]. simpl. eauto.
  - intros [a|] Ha; simpl; [|done]. apply (mod4_app (be32 1)); [done|]. by apply Hl.
Qed.

End Leaves.

#[export] Hint Resolve xdr_u_int_spec xdr_int_spec xdr_uint32_t_spec xdr_enum_spec xdr_bool_spec
  xdr_uint64_t_spec xdr_opaque_spec xdr_bytes_spec xdr_string_spec xtrue_spec : xdr.

(** ** Decoding arbitrary input *)

Section Safe.
  Context {P : Type} `{xdr_ops P}.

Lemma src_step_refl `{!XdrSource P} xs : src_ok xs -> src_step xs xs.
Proof. intros. split_and!; [done|by exists []|done]. Qed.

Lemma src_step_trans `{!XdrSource P} xs xs' xs'' : src_step xs xs' -> src_step xs' xs'' -> src_step xs xs''.
Proof.
  intros (? & [u Hu] & Hf) (? & [u' Hu'] & Hf'). split_and!; [done| |].
  - exists (u ++ u'). by rewrite Hu, Hu', app_assoc.
  - unfold stream_frame in *. congruence.
Qed.

Lemma src_step_next `{!XdrSource P} xs xs' xs'' :
  src_step xs xs' -> (src_ok xs' -> src_step xs' xs'') -> src_step xs xs''.
Proof. intros Hs Hn. eapply src_step_trans; [done|]. apply Hn, Hs. Qed.

Lemma src_step_op `{!XdrSource P} xs xs' : src_step xs xs' -> x_op xs' = x_op xs.
Proof. intros (_ & _ & ->). done. Qed.

(** What a filter is allowed to do with the handle when decoding. *)
Definition reads {A} `{!XdrSource P} (xs : XDR P) (r : A * XDR P) : Prop :=
  src_ok xs -> src_step xs r.2.

Lemma reads_getuint32 `{!XdrSource P} xs : reads xs (xdr_getuint32 xs).
Proof. intros ?. destruct (xdr_getuint32 xs) eqn:E. by eapply src_getuint32_mono. Qed.

Lemma reads_getlong `{!XdrSource P} xs : reads xs (xdr_getlong xs).
Proof. intros ?. destruct (xdr_getlong xs) eqn:E. by eapply src_getlong_mono. Qed.

Lemma reads_getbytes `{!XdrSource P} xs n : reads xs (x_getbytes xs n).
Proof. intros ?. destruct (x_getbytes xs n) eqn:E. by eapply src_getbytes_mono. Qed.

End Safe.

(** Follows one stream operation of an equation [... = (b, xs', a')]. *)
Ltac safe_step :=
  match goal with
  | H : context [xdr_getuint32 ?xs] |- _ =>
      let E := fresh in pose proof (reads_getuint32 xs) as E; unfold reads in E;
      destruct (xdr_getuint32 xs) as [[?|] ?]; simpl in *; simplify_eq
  | H : context [xdr_getlong ?xs] |- _ =>
      let E := fresh in pose proof (reads_getlong xs) as E; unfold reads in E;
      destruct (xdr_getlong xs) as [[?|] ?]; simpl in *; simplify_eq
  | H : context [x_getbytes ?xs ?n] |- _ =>
      let E := fresh in pose proof (reads_getbytes xs n) as E; unfold reads in E;
      destruct (x_getbytes xs n) as [[?|] ?]; simpl in *; simplify_eq
  | H : context [decide ?Q] |- _ => destruct (decide Q); simpl in *; simplify_eq
  end.

Ltac safe_done := solve [eauto using src_step_refl, src_step_next].

Section SafeRules.
  Context {P : Type} `{xdr_ops P}.

Lemma xdr_u_int_safe : xdr_safe xdr_u_int.
Proof. intros S xs a b xs' a' Hok Hop Hp. unfold xdr_u_int in Hp. rewrite Hop in Hp. repeat safe_step; safe_done. Qed.

Lemma xdr_int_safe : xdr_safe xdr_int.
Proof. intros S xs a b xs' a' Hok Hop Hp. unfold xdr_int in Hp. rewrite Hop in Hp. repeat safe_step; safe_done. Qed.

Lemma xdr_uint32_t_safe : xdr_safe xdr_uint32_t.
Proof. intros S xs a b xs' a' Hok Hop Hp. unfold xdr_uint32_t in Hp. rewrite Hop in Hp. repeat safe_step; safe_done. Qed.

Lemma xdr_enum_safe : xdr_safe xdr_enum.
Proof.
  intros S xs a b xs' a' Hok Hop Hp. unfold xdr_enum, xdr_getenum, xdr_getint32 in Hp. rewrite Hop in Hp.
  repeat safe_step; safe_done.
Qed.

Lemma xdr_bool_safe : xdr_safe xdr_bool.
Proof.
  intros S xs a b xs' a' Hok Hop Hp. unfold xdr_bool, xdr_getbool, xdr_getint32 in Hp. rewrite Hop in Hp.
  repeat safe_step; safe_done.
Qed.

Lemma xdr_uint64_t_safe : xdr_safe xdr_uint64_t.
Proof.
  intros S xs a b xs' a' Hok Hop Hp. unfold xdr_uint64_t in Hp. rewrite Hop in Hp.
  repeat safe_step; safe_done.
Qed.

Lemma opaque_decode_safe `{!XdrSource P} xs cp cnt b xs' cp' :
  src_ok xs -> xdr_opaque_decode xs cp cnt = (b, xs', cp') -> src_step xs xs'.
Proof. intros Hok Hp. unfold xdr_opaque_decode in Hp. repeat safe_step; safe_done. Qed.

Lemma xdr_opaque_safe cnt : xdr_safe (xdr_opaque cnt).
Proof.
  intros S xs a b xs' a' Hok Hop Hp. unfold xdr_opaque in Hp. rewrite Hop in Hp.
  by eapply opaque_decode_safe.
Qed.

Lemma xdr_bytes_safe max : xdr_safe (xdr_bytes max).
Proof.
  intros S xs a b xs' a' Hok Hop Hp. unfold xdr_bytes, xdr_bytes_decode in Hp. rewrite Hop in Hp.
  repeat safe_step; try safe_done.
  destruct (xdr_opaque_decode _ _ _) as [[r xs2] sp] eqn:E.
  assert (xs' = xs2) as -> by (by destruct r; simplify_eq/=).
  eapply src_step_next; [by eauto|]. intros. by eapply opaque_decode_safe.
Qed.

Lemma xdr_string_safe max : xdr_safe (xdr_string max).
Proof.
  intros S xs a b xs' a' Hok Hop Hp. unfold xdr_string, xdr_string_decode in Hp. rewrite Hop in Hp.
  repeat safe_step; try safe_done.
  destruct (xdr_opaque_decode _ _ _) as [[r xs2] sp] eqn:E.
  assert (xs' = xs2) as -> by (by destruct r; simplify_eq/=).
  eapply src_step_next; [by eauto|]. intros. by eapply opaque_decode_safe.
Qed.

Lemma xtrue_safe {A} : xdr_safe (@xtrue P A).
Proof. intros S xs a b xs' a' Hok Hop Hp. unfold xtrue in Hp. simplify_eq. by apply src_step_refl. Qed.

Lemma xfalse_safe {A} : xdr_safe (@xfalse P A).
Proof. intros S xs a b xs' a' Hok Hop Hp. unfold xfalse in Hp. simplify_eq. by apply src_step_refl. Qed.

Lemma xfield_safe {A B} (f : A -> B) `{!Setter f} (p : xdrproc P B) : xdr_safe p -> xdr_safe (p on f).
Proof.
  intros Hs S xs a b xs' a' Hok Hop Hp. unfold xfield in Hp.
  destruct (p xs (f a)) as [[r xs1] v] eqn:E. simplify_eq. by eapply Hs.
Qed.

Lemma xseq_safe {A} (p q : xdrproc P A) : xdr_safe p -> xdr_safe q -> xdr_safe (p ;;; q).
Proof.
  intros Hp Hq S xs a b xs' a' Hok Hop He. unfold xseq in He.
  destruct (p xs a) as [[r xs1] v] eqn:E.
  assert (Hs : src_step xs xs1) by (by eapply Hp). destruct r; simplify_eq; [|done].
  eapply src_step_next; [done|]. intros. eapply Hq; [done| |done].
  by rewrite (src_step_op _ _ Hs).
Qed.

Lemma xswitch_safe {A} (f : A -> xdrproc P A) : (forall a, xdr_safe (f a)) -> xdr_safe (xswitch f).
Proof. intros Hf S xs a b xs' a' Hok Hop He. by eapply (Hf a). Qed.

(** variable-length data longer than its limit is refused by the length alone:
    the filter fails, the object is as it was and nothing is allocated. *)
Theorem xdr_bytes_oversize `{!XdrSource P} max xs o n rest :
  src_ok xs -> x_op xs = XDR_DECODE -> is_u32 n -> (length rest mod 4 = 0)%nat ->
  src_in xs = be32 n ++ rest -> max < n ->
  exists xs', xdr_bytes max xs o = (false, xs', o).
Proof.
  intros Hok Hop Hn Hr Hin Hm. unfold xdr_bytes, xdr_bytes_decode. rewrite Hop.
  destruct (src_getuint32 xs n rest) as (xs' & -> & _); [done..|].
  exists xs'. case_decide; [done|lia].
Qed.

Lemma xdr_string_oversize `{!XdrSource P} max xs o n rest :
  src_ok xs -> x_op xs = XDR_DECODE -> is_u32 n -> (length rest mod 4 = 0)%nat ->
  src_in xs = be32 n ++ rest -> max < n ->
  exists xs', xdr_string max xs o = (false, xs', o).
Proof.
  intros Hok Hop Hn Hr Hin Hm. unfold xdr_string, xdr_string_decode. rewrite Hop.
  destruct (src_getuint32 xs n rest) as (xs' & -> & _); [done..|].
  exists xs'. case_decide; [done|lia].
Qed.

End SafeRules.

#[export] Hint Resolve xdr_u_int_safe xdr_int_safe xdr_uint32_t_safe xdr_enum_safe xdr_bool_safe
  xdr_uint64_t_safe xdr_opaque_safe xdr_bytes_safe xdr_string_safe xtrue_safe xfalse_safe
  xfield_safe xseq_safe xswitch_safe : xdr.

(** ** Records and optional arms *)

Section Optional.
  Context {P : Type} `{xdr_ops P}.

(** [p] on the discriminant, then one arm for the value [v] and nothing for the
    other values the discriminant can have. *)
Lemma optional_spec {A B} (pd : xdrproc P Z) (dd : Z -> Prop) (disc : A -> Z) `{!Setter disc}
    (arm : A -> B) `{!Setter arm} (p : xdrproc P B) d w ov (v : Z) (dflt : A -> xdrproc P A) :
  xdr_spec pd dd be32 fresh -> xdr_spec p d w ov ->
  (forall a, a <| disc := disc a |> = a) -> (forall a, a <| arm := arm a |> = a) ->
  (forall a z, disc (a <| disc := z |>) = z) ->
  (forall a, dd (disc a) -> disc a <> v -> dflt a = xtrue) ->
  xdr_spec (pd on disc ;;; xswitch (fun o => if decide (disc o = v) then p on arm else dflt o))
    (fun a => dd (disc a) /\ (disc a = v -> d (arm a)))
    (fun a => be32 (disc a) ++ if decide (disc a = v) then w (arm a) else [])
    (fun a o => let o := o <| disc := disc a |> in
                if decide (disc a = v) then o <| arm := ov (arm a) (arm o) |> else o).
Proof.
  intros Hd Hp Hs1 Hs2 Hg Hdf.
  eapply spec_ext; [eapply (xseq_switch_spec _ _ (fun a => dd (disc a)) _ (fun a o => o <| disc := disc a |>)
    (fun a => disc a = v -> d (arm a)) (fun a => if decide (disc a = v) then w (arm a) else [])
    (fun a o => if decide (disc a = v) then o <| arm := ov (arm a) (arm o) |> else o))|..].
  - by apply (xfield_spec disc pd dd be32 fresh).
  - intros a Ha Hda. destruct (decide (disc a = v)) as [Hv|Hv].
    + eapply spec_ext; [by apply (xfield_spec arm _ d w ov)|..]; intros ? **; subst;
        [by apply Hda|by rewrite decide_True|by rewrite decide_True].
    + rewrite Hdf by done. eapply spec_ext; [apply xtrue_spec|..]; intros ? **; subst;
        [done|by rewrite decide_False|by rewrite decide_False].
  - intros a o Ha Hda. simpl. rewrite Hg. case_decide; [done|].
    rewrite !Hdf; rewrite ?Hg; done.
  - done.
  - done.
  - done.
Qed.

End Optional.

(** Applies the rule that the head of the filter asks for. *)
Ltac xspec_step :=
  lazymatch goal with
  | |- xdr_spec (_ ;;; _) _ _ _ => eapply xseq_spec
  | |- xdr_spec (_ on _) _ _ _ => eapply xfield_spec; [|by intros []]
  | |- xdr_spec _ _ _ _ => solve [eauto with xdr nocore]
  end.

(** A filter that runs through the fields of a structure. *)
Ltac xspec_struct :=
  eapply spec_ext; [repeat xspec_step|
    by intros [] ?|
    intros []; simpl; intros; done|
    intros [] []; simpl; intros; done].

Ltac xsafe_step :=
  lazymatch goal with
  | |- xdr_safe (xseq _ _) => apply xseq_safe
  | |- xdr_safe (xfield _ _) => apply xfield_safe
  | |- xdr_safe (xswitch _) => apply xswitch_safe; intros ?
  | |- xdr_safe (if decide _ then _ else _) => case_decide
  | |- xdr_safe ?p => first [solve [eauto 2 with xdr nocore] | let h := head_of p in unfold h]
  end.
Ltac xsafe := repeat xsafe_step.
