(* ===== verification/Nfs3Types.v ===== *)
(** * Protocol data and its filters ([include/nfs/nfs_args.h],
    [include/file/file_handle.h], [src/nfs/nfs_xdr.cpp])

    The structures shared by the procedures and the filter of each.  An enum is
    a [Z]: its values come unchecked from the wire.  A [_wire] function is the
    encoding RFC 1813 prescribes, an [_ok] predicate the objects that have one;
    the [_spec] lemmas state that the filter implements them. *)
From S2P Require Import Prelude XdrStream XdrPrim XdrSpec.

Open Scope Z_scope.
Open Scope dnfs_scope.

(** ** Constants *)

Definition NFS3_FHSIZE : Z := 64.
Definition NFS3_COOKIEVERFSIZE : nat := 8.
Definition XDR_STRING_MAXLEN : Z := 8 * 1024.
Definition XDR_BYTES_MAXLEN_IO : Z := 64 * 1024 * 1024.
Definition WRITE_READ_MAX : Z := 64 * 1024 * 1024.
Definition READ_DIR_MAX : Z := 1024 * 16.
Definition BUF_SIZE : Z := 1024.
Definition NFS_LOOKAHEAD_READ : Z := 0x0008.
Definition NFS_LOOKAHEAD_WRITE : Z := 0x0010.
Definition NFS_LOOKAHEAD_CREATE : Z := 0x0040.
Definition FSF3_LINK : Z := 0x0001.
Definition FSF3_SYMLINK : Z := 0x0002.
Definition FSF3_HOMOGENEOUS : Z := 0x0008.
Definition FSF3_CANSETTIME : Z := 0x0010.

Definition TRUE : Z := 1.
Definition FALSE : Z := 0.

(** [enum nfsstat3] *)
Definition NFS3_OK : Z := 0.
Definition NFS3ERR_PERM : Z := 1.
Definition NFS3ERR_NOENT : Z := 2.
Definition NFS3ERR_IO : Z := 5.
Definition NFS3ERR_NXIO : Z := 6.
Definition NFS3ERR_ACCES : Z := 13.
Definition NFS3ERR_EXIST : Z := 17.
Definition NFS3ERR_XDEV : Z := 18.
Definition NFS3ERR_NODEV : Z := 19.
Definition NFS3ERR_NOTDIR : Z := 20.
Definition NFS3ERR_ISDIR : Z := 21.
Definition NFS3ERR_INVAL : Z := 22.
Definition NFS3ERR_FBIG : Z := 27.
Definition NFS3ERR_NOSPC : Z := 28.
Definition NFS3ERR_ROFS : Z := 30.
Definition NFS3ERR_MLINK : Z := 31.
Definition NFS3ERR_NAMETOOLONG : Z := 63.
Definition NFS3ERR_NOTEMPTY : Z := 66.
Definition NFS3ERR_DQUOT : Z := 69.
Definition NFS3ERR_STALE : Z := 70.
Definition NFS3ERR_REMOTE : Z := 71.
Definition NFS3ERR_BADHANDLE : Z := 10001.
Definition NFS3ERR_NOT_SYNC : Z := 10002.
Definition NFS3ERR_BAD_COOKIE : Z := 10003.
Definition NFS3ERR_NOTSUPP : Z := 10004.
Definition NFS3ERR_TOOSMALL : Z := 10005.
Definition NFS3ERR_SERVERFAULT : Z := 10006.
Definition NFS3ERR_BADTYPE : Z := 10007.
Definition NFS3ERR_JUKEBOX : Z := 10008.

(** [enum ftype3] *)
Definition NF3REG : Z := 1.
Definition NF3DIR : Z := 2.
Definition NF3BLK : Z := 3.
Definition NF3CHR : Z := 4.
Definition NF3LNK : Z := 5.
Definition NF3SOCK : Z := 6.
Definition NF3FIFO : Z := 7.

(** [enum time_how] *)
Definition DONT_CHANGE : Z := 0.
Definition SET_TO_SERVER_TIME : Z := 1.
Definition SET_TO_CLIENT_TIME : Z := 2.

(** What a service function tells the RPC layer. *)
Inductive nfs_req_result :=
  | NFS_REQ_OK | NFS_REQ_DROP | NFS_REQ_ERROR | NFS_REQ_REPLAY
  | NFS_REQ_ASYNC_WAIT | NFS_REQ_XPRT_DIED | NFS_REQ_AUTH_ERR.

#[global] Instance nfs_req_result_eq_dec : EqDecision nfs_req_result.
Proof. solve_decision. Defined.

(** ** Structures *)

Record nfstime3 := mk_nfstime3 { tv_sec : Z; tv_nsec : Z }.
#[global] Instance eta_nfstime3 : RecEta nfstime3 := fun r => mk_nfstime3 (tv_sec r) (tv_nsec r).

Record specdata3 := mk_specdata3 { specdata1 : Z; specdata2 : Z }.
#[global] Instance eta_specdata3 : RecEta specdata3 := fun r => mk_specdata3 (specdata1 r) (specdata2 r).

Record fattr3 := mk_fattr3 {
  fa_type : Z;
  fa_mode : Z;
  fa_nlink : Z;
  fa_uid : Z;
  fa_gid : Z;
  fa_size : Z;
  fa_used : Z;
  fa_rdev : specdata3;
  fa_fsid : Z;
  fa_fileid : Z;
  fa_atime : nfstime3;
  fa_mtime : nfstime3;
  fa_ctime : nfstime3 }.
#[global] Instance eta_fattr3 : RecEta fattr3 := fun r =>
  mk_fattr3 (fa_type r) (fa_mode r) (fa_nlink r) (fa_uid r) (fa_gid r) (fa_size r) (fa_used r)
    (fa_rdev r) (fa_fsid r) (fa_fileid r) (fa_atime r) (fa_mtime r) (fa_ctime r).

Record post_op_attr := mk_post_op_attr { poa_follow : Z; poa_attributes : fattr3 }.
#[global] Instance eta_post_op_attr : RecEta post_op_attr :=
  fun r => mk_post_op_attr (poa_follow r) (poa_attributes r).

Record nfs_fh3 := mk_nfs_fh3 { fh_data : bytes_t }.
#[global] Instance eta_nfs_fh3 : RecEta nfs_fh3 := fun r => mk_nfs_fh3 (fh_data r).

Record post_op_fh3 := mk_post_op_fh3 { handle_follows : Z; pof_handle : nfs_fh3 }.
#[global] Instance eta_post_op_fh3 : RecEta post_op_fh3 :=
  fun r => mk_post_op_fh3 (handle_follows r) (pof_handle r).

(** [filename3] and [nfspath3] are [char *]. *)
Abbreviation filename3 := (option (list byte)) (only parsing).
Abbreviation nfspath3 := (option (list byte)) (only parsing).

Record diropargs3 := mk_diropargs3 { do_dir : nfs_fh3; do_name : filename3 }.
#[global] Instance eta_diropargs3 : RecEta diropargs3 := fun r => mk_diropargs3 (do_dir r) (do_name r).

Record wcc_attr := mk_wcc_attr { wa_size : Z; wa_mtime : nfstime3; wa_ctime : nfstime3 }.
#[global] Instance eta_wcc_attr : RecEta wcc_attr :=
  fun r => mk_wcc_attr (wa_size r) (wa_mtime r) (wa_ctime r).

Record pre_op_attr := mk_pre_op_attr { pre_follow : Z; pre_attributes : wcc_attr }.
#[global] Instance eta_pre_op_attr : RecEta pre_op_attr :=
  fun r => mk_pre_op_attr (pre_follow r) (pre_attributes r).

Record wcc_data := mk_wcc_data { wcc_before : pre_op_attr; wcc_after : post_op_attr }.
#[global] Instance eta_wcc_data : RecEta wcc_data := fun r => mk_wcc_data (wcc_before r) (wcc_after r).

Record set_mode3 := mk_set_mode3 { sm_set_it : Z; sm_mode : Z }.
#[global] Instance eta_set_mode3 : RecEta set_mode3 := fun r => mk_set_mode3 (sm_set_it r) (sm_mode r).

Record set_uid3 := mk_set_uid3 { su_set_it : Z; su_uid : Z }.
#[global] Instance eta_set_uid3 : RecEta set_uid3 := fun r => mk_set_uid3 (su_set_it r) (su_uid r).

Record set_gid3 := mk_set_gid3 { sg_set_it : Z; sg_gid : Z }.
#[global] Instance eta_set_gid3 : RecEta set_gid3 := fun r => mk_set_gid3 (sg_set_it r) (sg_gid r).

Record set_size3 := mk_set_size3 { ss_set_it : Z; ss_size : Z }.
#[global] Instance eta_set_size3 : RecEta set_size3 := fun r => mk_set_size3 (ss_set_it r) (ss_size r).

Record set_atime := mk_set_atime { sa_set_it : Z; sa_atime : nfstime3 }.
#[global] Instance eta_set_atime : RecEta set_atime := fun r => mk_set_atime (sa_set_it r) (sa_atime r).

Record set_mtime := mk_set_mtime { st_set_it : Z; st_mtime : nfstime3 }.
#[global] Instance eta_set_mtime : RecEta set_mtime := fun r => mk_set_mtime (st_set_it r) (st_mtime r).

Record sattr3 := mk_sattr3 {
  sat_mode : set_mode3;
  sat_uid : set_uid3;
  sat_gid : set_gid3;
  sat_size : set_size3;
  sat_atime : set_atime;
  sat_mtime : set_mtime }.
#[global] Instance eta_sattr3 : RecEta sattr3 := fun r =>
  mk_sattr3 (sat_mode r) (sat_uid r) (sat_gid r) (sat_size r) (sat_atime r) (sat_mtime r).

(** ** Filters *)

Section Filters.
  Context {P : Type} `{xdr_ops P}.

Definition xdr_nfs3_uint32 : xdrproc P Z := xdr_u_int.
Definition xdr_nfs3_uint64 : xdrproc P Z := xdr_u_longlong_t.
Definition xdr_size3 : xdrproc P Z := xdr_nfs3_uint64.

Definition xdr_nfstime3 : xdrproc P nfstime3 :=
  xdr_nfs3_uint32 on tv_sec ;;;
  xdr_nfs3_uint32 on tv_nsec.

Definition xdr_nfsstat3 : xdrproc P Z := xdr_enum.
Definition xdr_ftype3 : xdrproc P Z := xdr_enum.
Definition xdr_uid3 : xdrproc P Z := xdr_nfs3_uint32.
Definition xdr_gid3 : xdrproc P Z := xdr_nfs3_uint32.

Definition xdr_specdata3 : xdrproc P specdata3 :=
  xdr_nfs3_uint32 on specdata1 ;;;
  xdr_nfs3_uint32 on specdata2.

Definition xdr_fileid3 : xdrproc P Z := xdr_nfs3_uint64.
Definition xdr_mode3 : xdrproc P Z := xdr_nfs3_uint32.

Definition xdr_fattr3 : xdrproc P fattr3 :=
  xdr_ftype3 on fa_type ;;;
  xdr_mode3 on fa_mode ;;;
  xdr_nfs3_uint32 on fa_nlink ;;;
  xdr_uid3 on fa_uid ;;;
  xdr_gid3 on fa_gid ;;;
  xdr_size3 on fa_size ;;;
  xdr_size3 on fa_used ;;;
  xdr_specdata3 on fa_rdev ;;;
  xdr_nfs3_uint64 on fa_fsid ;;;
  xdr_fileid3 on fa_fileid ;;;
  xdr_nfstime3 on fa_atime ;;;
  xdr_nfstime3 on fa_mtime ;;;
  xdr_nfstime3 on fa_ctime.

Definition xdr_post_op_attr : xdrproc P post_op_attr :=
  xdr_bool on poa_follow ;;;
  xswitch (fun o =>
    if decide (poa_follow o = TRUE) then xdr_fattr3 on poa_attributes
    else if decide (poa_follow o = FALSE) then xtrue else xfalse).

Definition xdr_nfs_fh3 : xdrproc P nfs_fh3 := xdr_bytes 64 on fh_data.

Definition xdr_cookie3 : xdrproc P Z := xdr_nfs3_uint64.
Definition xdr_cookieverf3 : xdrproc P (list byte) := xdr_opaque 8.
Definition xdr_count3 : xdrproc P Z := xdr_nfs3_uint32.
Definition xdr_filename3 : xdrproc P filename3 := xdr_string XDR_STRING_MAXLEN.

Definition xdr_post_op_fh3 : xdrproc P post_op_fh3 :=
  xdr_bool on handle_follows ;;;
  xswitch (fun o =>
    if decide (handle_follows o = TRUE) then xdr_nfs_fh3 on pof_handle
    else if decide (handle_follows o = FALSE) then xtrue else xfalse).

Definition xdr_diropargs3 : xdrproc P diropargs3 :=
  xdr_nfs_fh3 on do_dir ;;;
  xdr_filename3 on do_name.

Definition xdr_wcc_attr : xdrproc P wcc_attr :=
  xdr_size3 on wa_size ;;;
  xdr_nfstime3 on wa_mtime ;;;
  xdr_nfstime3 on wa_ctime.

Definition xdr_pre_op_attr : xdrproc P pre_op_attr :=
  xdr_bool on pre_follow ;;;
  xswitch (fun o =>
    if decide (pre_follow o = TRUE) then xdr_wcc_attr on pre_attributes
    else if decide (pre_follow o = FALSE) then xtrue else xfalse).

Definition xdr_wcc_data : xdrproc P wcc_data :=
  xdr_pre_op_attr on wcc_before ;;;
  xdr_post_op_attr on wcc_after.

Definition xdr_set_mode3 : xdrproc P set_mode3 :=
  xdr_bool on sm_set_it ;;;
  xswitch (fun o => if decide (sm_set_it o = TRUE) then xdr_mode3 on sm_mode else xtrue).

Definition xdr_set_uid3 : xdrproc P set_uid3 :=
  xdr_bool on su_set_it ;;;
  xswitch (fun o => if decide (su_set_it o = TRUE) then xdr_uid3 on su_uid else xtrue).

Definition xdr_set_gid3 : xdrproc P set_gid3 :=
  xdr_bool on sg_set_it ;;;
  xswitch (fun o => if decide (sg_set_it o = TRUE) then xdr_gid3 on sg_gid else xtrue).

Definition xdr_set_size3 : xdrproc P set_size3 :=
  xdr_bool on ss_set_it ;;;
  xswitch (fun o => if decide (ss_set_it o = TRUE) then xdr_size3 on ss_size else xtrue).

Definition xdr_time_how : xdrproc P Z := xdr_enum.

Definition xdr_set_atime : xdrproc P set_atime :=
  xdr_time_how on sa_set_it ;;;
  xswitch (fun o => if decide (sa_set_it o = SET_TO_CLIENT_TIME) then xdr_nfstime3 on sa_atime else xtrue).

Definition xdr_set_mtime : xdrproc P set_mtime :=
  xdr_time_how on st_set_it ;;;
  xswitch (fun o => if decide (st_set_it o = SET_TO_CLIENT_TIME) then xdr_nfstime3 on st_mtime else xtrue).

Definition xdr_sattr3 : xdrproc P sattr3 :=
  xdr_set_mode3 on sat_mode ;;;
  xdr_set_uid3 on sat_uid ;;;
  xdr_set_gid3 on sat_gid ;;;
  xdr_set_size3 on sat_size ;;;
  xdr_set_atime on sat_atime ;;;
  xdr_set_mtime on sat_mtime.

Definition xdr_nfspath3 : xdrproc P nfspath3 := xdr_string XDR_STRING_MAXLEN.
Definition xdr_offset3 : xdrproc P Z := xdr_nfs3_uint64.
Definition xdr_writeverf3 : xdrproc P (list byte) := xdr_opaque 8.

End Filters.

(** ** The encoding of RFC 1813 *)

Definition nfstime3_ok (t : nfstime3) : Prop := is_u32 (tv_sec t) /\ is_u32 (tv_nsec t).
Definition nfstime3_wire (t : nfstime3) : list byte := be32 (tv_sec t) ++ be32 (tv_nsec t).

Definition specdata3_ok (s : specdata3) : Prop := is_u32 (specdata1 s) /\ is_u32 (specdata2 s).
Definition specdata3_wire (s : specdata3) : list byte := be32 (specdata1 s) ++ be32 (specdata2 s).

Definition fattr3_ok (a : fattr3) : Prop :=
  is_i32 (fa_type a) /\ is_u32 (fa_mode a) /\ is_u32 (fa_nlink a) /\ is_u32 (fa_uid a) /\
  is_u32 (fa_gid a) /\ is_u64 (fa_size a) /\ is_u64 (fa_used a) /\ specdata3_ok (fa_rdev a) /\
  is_u64 (fa_fsid a) /\ is_u64 (fa_fileid a) /\ nfstime3_ok (fa_atime a) /\
  nfstime3_ok (fa_mtime a) /\ nfstime3_ok (fa_ctime a).
Definition fattr3_wire (a : fattr3) : list byte :=
  be32 (fa_type a) ++ be32 (fa_mode a) ++ be32 (fa_nlink a) ++ be32 (fa_uid a) ++
  be32 (fa_gid a) ++ u64_wire (fa_size a) ++ u64_wire (fa_used a) ++ specdata3_wire (fa_rdev a) ++
  u64_wire (fa_fsid a) ++ u64_wire (fa_fileid a) ++ nfstime3_wire (fa_atime a) ++
  nfstime3_wire (fa_mtime a) ++ nfstime3_wire (fa_ctime a).

Definition post_op_attr_ok (a : post_op_attr) : Prop :=
  is_bool (poa_follow a) /\ (poa_follow a = TRUE -> fattr3_ok (poa_attributes a)).
Definition post_op_attr_wire (a : post_op_attr) : list byte :=
  be32 (poa_follow a) ++ if decide (poa_follow a = TRUE) then fattr3_wire (poa_attributes a) else [].
Definition post_op_attr_ov (a o : post_op_attr) : post_op_attr :=
  mk_post_op_attr (poa_follow a)
    (if decide (poa_follow a = TRUE) then poa_attributes a else poa_attributes o).

Definition nfs_fh3_ok (h : nfs_fh3) : Prop := bytes_ok NFS3_FHSIZE (fh_data h).
Definition nfs_fh3_wire (h : nfs_fh3) : list byte := bytes_wire (fh_data h).
Definition nfs_fh3_ov (h o : nfs_fh3) : nfs_fh3 := mk_nfs_fh3 (bytes_ov (fh_data h) (fh_data o)).

Definition post_op_fh3_ok (h : post_op_fh3) : Prop :=
  is_bool (handle_follows h) /\ (handle_follows h = TRUE -> nfs_fh3_ok (pof_handle h)).
Definition post_op_fh3_wire (h : post_op_fh3) : list byte :=
  be32 (handle_follows h) ++ if decide (handle_follows h = TRUE) then nfs_fh3_wire (pof_handle h) else [].
Definition post_op_fh3_ov (h o : post_op_fh3) : post_op_fh3 :=
  mk_post_op_fh3 (handle_follows h)
    (if decide (handle_follows h = TRUE) then nfs_fh3_ov (pof_handle h) (pof_handle o) else pof_handle o).

Definition diropargs3_ok (d : diropargs3) : Prop :=
  nfs_fh3_ok (do_dir d) /\ string_ok XDR_STRING_MAXLEN (do_name d).
Definition diropargs3_wire (d : diropargs3) : list byte :=
  nfs_fh3_wire (do_dir d) ++ string_wire (do_name d).
Definition diropargs3_ov (d o : diropargs3) : diropargs3 :=
  mk_diropargs3 (nfs_fh3_ov (do_dir d) (do_dir o)) (string_ov (do_name d) (do_name o)).

Definition wcc_attr_ok (a : wcc_attr) : Prop :=
  is_u64 (wa_size a) /\ nfstime3_ok (wa_mtime a) /\ nfstime3_ok (wa_ctime a).
Definition wcc_attr_wire (a : wcc_attr) : list byte :=
  u64_wire (wa_size a) ++ nfstime3_wire (wa_mtime a) ++ nfstime3_wire (wa_ctime a).

Definition pre_op_attr_ok (a : pre_op_attr) : Prop :=
  is_bool (pre_follow a) /\ (pre_follow a = TRUE -> wcc_attr_ok (pre_attributes a)).
Definition pre_op_attr_wire (a : pre_op_attr) : list byte :=
  be32 (pre_follow a) ++ if decide (pre_follow a = TRUE) then wcc_attr_wire (pre_attributes a) else [].
Definition pre_op_attr_ov (a o : pre_op_attr) : pre_op_attr :=
  mk_pre_op_attr (pre_follow a)
    (if decide (pre_follow a = TRUE) then pre_attributes a else pre_attributes o).

Definition wcc_data_ok (w : wcc_data) : Prop :=
  pre_op_attr_ok (wcc_before w) /\ post_op_attr_ok (wcc_after w).
Definition wcc_data_wire (w : wcc_data) : list byte :=
  pre_op_attr_wire (wcc_before w) ++ post_op_attr_wire (wcc_after w).
Definition wcc_data_ov (w o : wcc_data) : wcc_data :=
  mk_wcc_data (pre_op_attr_ov (wcc_before w) (wcc_before o)) (post_op_attr_ov (wcc_after w) (wcc_after o)).

(** The optional settings of [sattr3]: discriminant and value. *)
Definition sattr3_ok (s : sattr3) : Prop :=
  (is_bool (sm_set_it (sat_mode s)) /\ (sm_set_it (sat_mode s) = TRUE -> is_u32 (sm_mode (sat_mode s)))) /\
  (is_bool (su_set_it (sat_uid s)) /\ (su_set_it (sat_uid s) = TRUE -> is_u32 (su_uid (sat_uid s)))) /\
  (is_bool (sg_set_it (sat_gid s)) /\ (sg_set_it (sat_gid s) = TRUE -> is_u32 (sg_gid (sat_gid s)))) /\
  (is_bool (ss_set_it (sat_size s)) /\ (ss_set_it (sat_size s) = TRUE -> is_u64 (ss_size (sat_size s)))) /\
  (is_i32 (sa_set_it (sat_atime s)) /\
    (sa_set_it (sat_atime s) = SET_TO_CLIENT_TIME -> nfstime3_ok (sa_atime (sat_atime s)))) /\
  (is_i32 (st_set_it (sat_mtime s)) /\
    (st_set_it (sat_mtime s) = SET_TO_CLIENT_TIME -> nfstime3_ok (st_mtime (sat_mtime s)))).

Definition opt_wire {A} (v : Z) (w : A -> list byte) (d : Z) (a : A) : list byte :=
  be32 d ++ if decide (d = v) then w a else [].

Definition sattr3_wire (s : sattr3) : list byte :=
  opt_wire TRUE be32 (sm_set_it (sat_mode s)) (sm_mode (sat_mode s)) ++
  opt_wire TRUE be32 (su_set_it (sat_uid s)) (su_uid (sat_uid s)) ++
  opt_wire TRUE be32 (sg_set_it (sat_gid s)) (sg_gid (sat_gid s)) ++
  opt_wire TRUE u64_wire (ss_set_it (sat_size s)) (ss_size (sat_size s)) ++
  opt_wire SET_TO_CLIENT_TIME nfstime3_wire (sa_set_it (sat_atime s)) (sa_atime (sat_atime s)) ++
  opt_wire SET_TO_CLIENT_TIME nfstime3_wire (st_set_it (sat_mtime s)) (st_mtime (sat_mtime s)).

Definition opt_ov {A} (v d : Z) (a o : A) : A := if decide (d = v) then a else o.

Definition sattr3_ov (s o : sattr3) : sattr3 :=
  mk_sattr3
    (mk_set_mode3 (sm_set_it (sat_mode s))
       (opt_ov TRUE (sm_set_it (sat_mode s)) (sm_mode (sat_mode s)) (sm_mode (sat_mode o))))
    (mk_set_uid3 (su_set_it (sat_uid s))
       (opt_ov TRUE (su_set_it (sat_uid s)) (su_uid (sat_uid s)) (su_uid (sat_uid o))))
    (mk_set_gid3 (sg_set_it (sat_gid s))
       (opt_ov TRUE (sg_set_it (sat_gid s)) (sg_gid (sat_gid s)) (sg_gid (sat_gid o))))
    (mk_set_size3 (ss_set_it (sat_size s))
       (opt_ov TRUE (ss_set_it (sat_size s)) (ss_size (sat_size s)) (ss_size (sat_size o))))
    (mk_set_atime (sa_set_it (sat_atime s))
       (opt_ov SET_TO_CLIENT_TIME (sa_set_it (sat_atime s)) (sa_atime (sat_atime s)) (sa_atime (sat_atime o))))
    (mk_set_mtime (st_set_it (sat_mtime s))
       (opt_ov SET_TO_CLIENT_TIME (st_set_it (sat_mtime s)) (st_mtime (sat_mtime s)) (st_mtime (sat_mtime o)))).

(** Proves an optional arm with [optional_spec]. *)
Ltac xspec_optional disc arm :=
  eapply spec_ext;
  [ eapply (optional_spec _ _ disc arm);
      [eauto with xdr nocore|eauto with xdr nocore|by intros []|by intros []|by intros []|]
  | | | ];
  [ intros [] Hd Hv; simpl in *; unfold TRUE, FALSE in *; first [done | destruct Hd as [-> | ->]; repeat case_decide; done]
  | by intros [] ?
  | by intros [] ?
  | intros [] [] ?; unfold post_op_attr_ov, pre_op_attr_ov, post_op_fh3_ov, opt_ov; simpl; by case_decide ].

Section TypeSpecs.
  Context {P : Type} `{xdr_ops P}.

Lemma xdr_nfs3_uint32_spec : xdr_spec xdr_nfs3_uint32 is_u32 be32 fresh.
Proof. apply xdr_u_int_spec. Qed.

Lemma xdr_nfs3_uint64_spec : xdr_spec xdr_nfs3_uint64 is_u64 u64_wire fresh.
Proof. apply xdr_uint64_t_spec. Qed.

Hint Resolve xdr_nfs3_uint32_spec xdr_nfs3_uint64_spec : xdr.
Hint Transparent xdr_size3 xdr_uid3 xdr_gid3 xdr_fileid3 xdr_mode3 xdr_ftype3 xdr_nfsstat3 xdr_time_how
  xdr_cookie3 xdr_count3 xdr_offset3 xdr_cookieverf3 xdr_writeverf3 xdr_filename3 xdr_nfspath3 : xdr.

Lemma xdr_nfstime3_spec : xdr_spec xdr_nfstime3 nfstime3_ok nfstime3_wire fresh.
Proof. unfold xdr_nfstime3. xspec_struct. Qed.

Lemma xdr_specdata3_spec : xdr_spec xdr_specdata3 specdata3_ok specdata3_wire fresh.
Proof. unfold xdr_specdata3. xspec_struct. Qed.

Hint Resolve xdr_nfstime3_spec xdr_specdata3_spec : xdr.

Lemma xdr_fattr3_spec : xdr_spec xdr_fattr3 fattr3_ok fattr3_wire fresh.
Proof. unfold xdr_fattr3. xspec_struct. Qed.

Hint Resolve xdr_fattr3_spec : xdr.

Lemma xdr_post_op_attr_spec : xdr_spec xdr_post_op_attr post_op_attr_ok post_op_attr_wire post_op_attr_ov.
Proof. xspec_optional poa_follow poa_attributes. Qed.

Lemma xdr_nfs_fh3_spec : xdr_spec xdr_nfs_fh3 nfs_fh3_ok nfs_fh3_wire nfs_fh3_ov.
Proof. unfold xdr_nfs_fh3. xspec_struct. Qed.

Hint Resolve xdr_post_op_attr_spec xdr_nfs_fh3_spec : xdr.

Lemma xdr_post_op_fh3_spec : xdr_spec xdr_post_op_fh3 post_op_fh3_ok post_op_fh3_wire post_op_fh3_ov.
Proof. xspec_optional handle_follows pof_handle. Qed.

Lemma xdr_diropargs3_spec : xdr_spec xdr_diropargs3 diropargs3_ok diropargs3_wire diropargs3_ov.
Proof. unfold xdr_diropargs3. xspec_struct. Qed.

Lemma xdr_wcc_attr_spec : xdr_spec xdr_wcc_attr wcc_attr_ok wcc_attr_wire fresh.
Proof. unfold xdr_wcc_attr. xspec_struct. Qed.

Hint Resolve xdr_wcc_attr_spec : xdr.

Lemma xdr_pre_op_attr_spec : xdr_spec xdr_pre_op_attr pre_op_attr_ok pre_op_attr_wire pre_op_attr_ov.
Proof. xspec_optional pre_follow pre_attributes. Qed.

Hint Resolve xdr_pre_op_attr_spec : xdr.

Lemma xdr_wcc_data_spec : xdr_spec xdr_wcc_data wcc_data_ok wcc_data_wire wcc_data_ov.
Proof. unfold xdr_wcc_data. xspec_struct. Qed.

(** The six optional settings of [sattr3]. *)
Lemma xdr_set_mode3_spec :
  xdr_spec xdr_set_mode3 (fun s => is_bool (sm_set_it s) /\ (sm_set_it s = TRUE -> is_u32 (sm_mode s)))
    (fun s => opt_wire TRUE be32 (sm_set_it s) (sm_mode s))
    (fun s o => mk_set_mode3 (sm_set_it s) (opt_ov TRUE (sm_set_it s) (sm_mode s) (sm_mode o))).
Proof. xspec_optional sm_set_it sm_mode. Qed.

Lemma xdr_set_uid3_spec :
  xdr_spec xdr_set_uid3 (fun s => is_bool (su_set_it s) /\ (su_set_it s = TRUE -> is_u32 (su_uid s)))
    (fun s => opt_wire TRUE be32 (su_set_it s) (su_uid s))
    (fun s o => mk_set_uid3 (su_set_it s) (opt_ov TRUE (su_set_it s) (su_uid s) (su_uid o))).
Proof. xspec_optional su_set_it su_uid. Qed.

Lemma xdr_set_gid3_spec :
  xdr_spec xdr_set_gid3 (fun s => is_bool (sg_set_it s) /\ (sg_set_it s = TRUE -> is_u32 (sg_gid s)))
    (fun s => opt_wire TRUE be32 (sg_set_it s) (sg_gid s))
    (fun s o => mk_set_gid3 (sg_set_it s) (opt_ov TRUE (sg_set_it s) (sg_gid s) (sg_gid o))).
Proof. xspec_optional sg_set_it sg_gid. Qed.

Lemma xdr_set_size3_spec :
  xdr_spec xdr_set_size3 (fun s => is_bool (ss_set_it s) /\ (ss_set_it s = TRUE -> is_u64 (ss_size s)))
    (fun s => opt_wire TRUE u64_wire (ss_set_it s) (ss_size s))
    (fun s o => mk_set_size3 (ss_set_it s) (opt_ov TRUE (ss_set_it s) (ss_size s) (ss_size o))).
Proof. xspec_optional ss_set_it ss_size. Qed.

Lemma xdr_set_atime_spec :
  xdr_spec xdr_set_atime
    (fun s => is_i32 (sa_set_it s) /\ (sa_set_it s = SET_TO_CLIENT_TIME -> nfstime3_ok (sa_atime s)))
    (fun s => opt_wire SET_TO_CLIENT_TIME nfstime3_wire (sa_set_it s) (sa_atime s))
    (fun s o => mk_set_atime (sa_set_it s) (opt_ov SET_TO_CLIENT_TIME (sa_set_it s) (sa_atime s) (sa_atime o))).
Proof. xspec_optional sa_set_it sa_atime. Qed.

Lemma xdr_set_mtime_spec :
  xdr_spec xdr_set_mtime
    (fun s => is_i32 (st_set_it s) /\ (st_set_it s = SET_TO_CLIENT_TIME -> nfstime3_ok (st_mtime s)))
    (fun s => opt_wire SET_TO_CLIENT_TIME nfstime3_wire (st_set_it s) (st_mtime s))
    (fun s o => mk_set_mtime (st_set_it s) (opt_ov SET_TO_CLIENT_TIME (st_set_it s) (st_mtime s) (st_mtime o))).
Proof. xspec_optional st_set_it st_mtime. Qed.

Hint Resolve xdr_set_mode3_spec xdr_set_uid3_spec xdr_set_gid3_spec xdr_set_size3_spec
  xdr_set_atime_spec xdr_set_mtime_spec : xdr.

Lemma xdr_sattr3_spec : xdr_spec xdr_sattr3 sattr3_ok sattr3_wire sattr3_ov.
Proof. unfold xdr_sattr3. xspec_struct. Qed.

End TypeSpecs.

#[export] Hint Transparent xdr_size3 xdr_uid3 xdr_gid3 xdr_fileid3 xdr_mode3 xdr_ftype3 xdr_nfsstat3
  xdr_time_how xdr_cookie3 xdr_count3 xdr_offset3 xdr_cookieverf3 xdr_writeverf3 xdr_filename3
  xdr_nfspath3 : xdr.
#[export] Hint Resolve xdr_nfs3_uint32_spec xdr_nfs3_uint64_spec xdr_nfstime3_spec xdr_specdata3_spec
  xdr_fattr3_spec xdr_post_op_attr_spec xdr_nfs_fh3_spec xdr_post_op_fh3_spec xdr_diropargs3_spec
  xdr_wcc_attr_spec xdr_pre_op_attr_spec xdr_wcc_data_spec xdr_sattr3_spec : xdr.
