(* ===== verification/Nfs3Msgs.v ===== *)
(** * Arguments and results of the procedures ([include/nfs/nfs_*.h], the
    [xdr_*] functions of [src/nfs/nfs_*.cpp])

    A structure with a single member is that member.  A result is a status and
    a union [{ resok; resfail }]; the union is represented by its larger member
    [resok].  Where [resfail] is an initial part of [resok] the members are
    shared in memory and so in the model.  Where it is not, what one member
    reads after the other was written depends on the ABI and is the parameter
    [UnionArm]. *)
From S2P Require Import Prelude XdrStream XdrPrim XdrSpec Nfs3Types.

Open Scope Z_scope.
Open Scope dnfs_scope.

(** ** Data *)

(** [struct X3res { nfsstat3 status; union { ... } X3res_u; }] *)
Record nfs3_res (U : Type) := mk_res { status : Z; res_u : U }.
Arguments mk_res {U}.
Arguments status {U}.
Arguments res_u {U}.
#[global] Instance eta_nfs3_res U : RecEta (nfs3_res U) := fun r => mk_res (status r) (res_u r).

(** A second member [B] of a union whose storage is [U]. *)
Class UnionArm (U B : Type) := {
  arm_get : U -> B;
  arm_put : B -> U -> U;
  arm_get_put : forall b u, arm_get (arm_put b u) = b;
  arm_put_get : forall u, arm_put (arm_get u) u = u }.

#[global] Instance arm_setter U B `{!UnionArm U B} : Setter (arm_get (U:=U) (B:=B)) :=
  fun f u => arm_put (f (arm_get u)) u.

Abbreviation GETATTR3args := nfs_fh3 (only parsing).
Abbreviation GETATTR3resok := fattr3 (only parsing).
Abbreviation GETATTR3res := (nfs3_res fattr3) (only parsing).

Record sattrguard3 := mk_sattrguard3 { check : Z; obj_ctime : nfstime3 }.
#[global] Instance eta_sattrguard3 : RecEta sattrguard3 := fun r => mk_sattrguard3 (check r) (obj_ctime r).

Record SETATTR3args := mk_SETATTR3args {
  sea_object : nfs_fh3;
  sea_new_attributes : sattr3;
  sea_guard : sattrguard3 }.
#[global] Instance eta_SETATTR3args : RecEta SETATTR3args :=
  fun r => mk_SETATTR3args (sea_object r) (sea_new_attributes r) (sea_guard r).

Abbreviation SETATTR3res := (nfs3_res wcc_data) (only parsing).

Abbreviation LOOKUP3args := diropargs3 (only parsing).
Record LOOKUP3resok := mk_LOOKUP3resok {
  lk_object : nfs_fh3;
  lk_obj_attributes : post_op_attr;
  lk_dir_attributes : post_op_attr }.
#[global] Instance eta_LOOKUP3resok : RecEta LOOKUP3resok :=
  fun r => mk_LOOKUP3resok (lk_object r) (lk_obj_attributes r) (lk_dir_attributes r).
Record LOOKUP3resfail := mk_LOOKUP3resfail { lkf_dir_attributes : post_op_attr }.
#[global] Instance eta_LOOKUP3resfail : RecEta LOOKUP3resfail :=
  fun r => mk_LOOKUP3resfail (lkf_dir_attributes r).
Abbreviation LOOKUP3res := (nfs3_res LOOKUP3resok) (only parsing).

Record ACCESS3args := mk_ACCESS3args { aca_object : nfs_fh3; aca_access : Z }.
#[global] Instance eta_ACCESS3args : RecEta ACCESS3args :=
  fun r => mk_ACCESS3args (aca_object r) (aca_access r).
Record ACCESS3resok := mk_ACCESS3resok { ac_obj_attributes : post_op_attr; ac_access : Z }.
#[global] Instance eta_ACCESS3resok : RecEta ACCESS3resok :=
  fun r => mk_ACCESS3resok (ac_obj_attributes r) (ac_access r).
Abbreviation ACCESS3res := (nfs3_res ACCESS3resok) (only parsing).

Abbreviation READLINK3args := nfs_fh3 (only parsing).
Record READLINK3resok := mk_READLINK3resok { rl_symlink_attributes : post_op_attr; rl_data : nfspath3 }.
#[global] Instance eta_READLINK3resok : RecEta READLINK3resok :=
  fun r => mk_READLINK3resok (rl_symlink_attributes r) (rl_data r).
Abbreviation READLINK3res := (nfs3_res READLINK3resok) (only parsing).

Record READ3args := mk_READ3args { rda_file : nfs_fh3; rda_offset : Z; rda_count : Z }.
#[global] Instance eta_READ3args : RecEta READ3args :=
  fun r => mk_READ3args (rda_file r) (rda_offset r) (rda_count r).
Record READ3resok := mk_READ3resok {
  rd_file_attributes : post_op_attr;
  rd_count : Z;
  rd_eof : Z;
  rd_data : bytes_t }.
#[global] Instance eta_READ3resok : RecEta READ3resok :=
  fun r => mk_READ3resok (rd_file_attributes r) (rd_count r) (rd_eof r) (rd_data r).
Abbreviation READ3res := (nfs3_res READ3resok) (only parsing).

(** [enum stable_how] *)
Definition UNSTABLE : Z := 0.
Definition DATA_SYNC : Z := 1.
Definition FILE_SYNC : Z := 2.

Record WRITE3args := mk_WRITE3args {
  wra_file : nfs_fh3;
  wra_offset : Z;
  wra_count : Z;
  wra_stable : Z;
  wra_data : bytes_t }.
#[global] Instance eta_WRITE3args : RecEta WRITE3args :=
  fun r => mk_WRITE3args (wra_file r) (wra_offset r) (wra_count r) (wra_stable r) (wra_data r).
Record WRITE3resok := mk_WRITE3resok {
  wr_file_wcc : wcc_data;
  wr_count : Z;
  wr_committed : Z;
  wr_verf : list byte }.
#[global] Instance eta_WRITE3resok : RecEta WRITE3resok :=
  fun r => mk_WRITE3resok (wr_file_wcc r) (wr_count r) (wr_committed r) (wr_verf r).
Abbreviation WRITE3res := (nfs3_res WRITE3resok) (only parsing).

(** [enum createmode3] *)
Definition UNCHECKED : Z := 0.
Definition GUARDED : Z := 1.
Definition EXCLUSIVE : Z := 2.

(** [createhow3_u]: the eight bytes of [verf] are the first eight of
    [obj_attributes], its member [mode]. *)
Record createhow3 := mk_createhow3 { how_mode : Z; how_attributes : sattr3 }.
#[global] Instance eta_createhow3 : RecEta createhow3 := fun r => mk_createhow3 (how_mode r) (how_attributes r).

(** A 32-bit word in memory (little-endian host). *)
Definition le32 (z : Z) : list byte := rev (be32 z).
Definition le32_val (l : list byte) : Z := be32_val (rev l).

Definition how_verf (h : createhow3) : list byte :=
  le32 (sm_set_it (sat_mode (how_attributes h))) ++ le32 (sm_mode (sat_mode (how_attributes h))).
#[global] Instance how_verf_setter : Setter how_verf := fun f h =>
  let b := f (how_verf h) in
  h <| how_attributes := (how_attributes h)
       <| sat_mode := mk_set_mode3 (i32 (le32_val (take 4 b))) (le32_val (take 4 (drop 4 b))) |> |>.

Record CREATE3args := mk_CREATE3args { cra_where : diropargs3; cra_how : createhow3 }.
#[global] Instance eta_CREATE3args : RecEta CREATE3args := fun r => mk_CREATE3args (cra_where r) (cra_how r).

(** The results of CREATE, MKDIR, SYMLINK and MKNOD have the same members. *)
Record CREATE3resok := mk_CREATE3resok {
  cr_obj : post_op_fh3;
  cr_obj_attributes : post_op_attr;
  cr_dir_wcc : wcc_data }.
#[global] Instance eta_CREATE3resok : RecEta CREATE3resok :=
  fun r => mk_CREATE3resok (cr_obj r) (cr_obj_attributes r) (cr_dir_wcc r).
Record CREATE3resfail := mk_CREATE3resfail { crf_dir_wcc : wcc_data }.
#[global] Instance eta_CREATE3resfail : RecEta CREATE3resfail := fun r => mk_CREATE3resfail (crf_dir_wcc r).
Abbreviation CREATE3res := (nfs3_res CREATE3resok) (only parsing).

Record MKDIR3args := mk_MKDIR3args { mka_where : diropargs3; mka_attributes : sattr3 }.
#[global] Instance eta_MKDIR3args : RecEta MKDIR3args := fun r => mk_MKDIR3args (mka_where r) (mka_attributes r).
Abbreviation MKDIR3resok := CREATE3resok (only parsing).
Abbreviation MKDIR3res := CREATE3res (only parsing).

Record symlinkdata3 := mk_symlinkdata3 { symlink_attributes : sattr3; symlink_data : nfspath3 }.
#[global] Instance eta_symlinkdata3 : RecEta symlinkdata3 :=
  fun r => mk_symlinkdata3 (symlink_attributes r) (symlink_data r).
Record SYMLINK3args := mk_SYMLINK3args { sya_where : diropargs3; sya_symlink : symlinkdata3 }.
#[global] Instance eta_SYMLINK3args : RecEta SYMLINK3args := fun r => mk_SYMLINK3args (sya_where r) (sya_symlink r).
Abbreviation SYMLINK3resok := CREATE3resok (only parsing).
Abbreviation SYMLINK3res := CREATE3res (only parsing).

(** [mknoddata3_u]: [pipe_attributes] is the first member of [device]. *)
Record devicedata3 := mk_devicedata3 { dev_attributes : sattr3; dev_spec : specdata3 }.
#[global] Instance eta_devicedata3 : RecEta devicedata3 := fun r => mk_devicedata3 (dev_attributes r) (dev_spec r).
Record mknoddata3 := mk_mknoddata3 { mn_type : Z; mn_device : devicedata3 }.
#[global] Instance eta_mknoddata3 : RecEta mknoddata3 := fun r => mk_mknoddata3 (mn_type r) (mn_device r).
Record MKNOD3args := mk_MKNOD3args { mna_where : diropargs3; mna_what : mknoddata3 }.
#[global] Instance eta_MKNOD3args : RecEta MKNOD3args := fun r => mk_MKNOD3args (mna_where r) (mna_what r).
Abbreviation MKNOD3resok := CREATE3resok (only parsing).
Abbreviation MKNOD3res := CREATE3res (only parsing).

Abbreviation REMOVE3args := diropargs3 (only parsing).
Abbreviation REMOVE3res := (nfs3_res wcc_data) (only parsing).
Abbreviation RMDIR3args := diropargs3 (only parsing).
Abbreviation RMDIR3res := (nfs3_res wcc_data) (only parsing).

Record RENAME3args := mk_RENAME3args { rna_from : diropargs3; rna_to : diropargs3 }.
#[global] Instance eta_RENAME3args : RecEta RENAME3args := fun r => mk_RENAME3args (rna_from r) (rna_to r).
Record RENAME3resok := mk_RENAME3resok { rn_fromdir_wcc : wcc_data; rn_todir_wcc : wcc_data }.
#[global] Instance eta_RENAME3resok : RecEta RENAME3resok :=
  fun r => mk_RENAME3resok (rn_fromdir_wcc r) (rn_todir_wcc r).
Abbreviation RENAME3res := (nfs3_res RENAME3resok) (only parsing).

Record LINK3args := mk_LINK3args { lna_file : nfs_fh3; lna_link : diropargs3 }.
#[global] Instance eta_LINK3args : RecEta LINK3args := fun r => mk_LINK3args (lna_file r) (lna_link r).
Record LINK3resok := mk_LINK3resok { ln_file_attributes : post_op_attr; ln_linkdir_wcc : wcc_data }.
#[global] Instance eta_LINK3resok : RecEta LINK3resok :=
  fun r => mk_LINK3resok (ln_file_attributes r) (ln_linkdir_wcc r).
Abbreviation LINK3res := (nfs3_res LINK3resok) (only parsing).

Record READDIR3args := mk_READDIR3args {
  dra_dir : nfs_fh3;
  dra_cookie : Z;
  dra_cookieverf : list byte;
  dra_count : Z }.
#[global] Instance eta_READDIR3args : RecEta READDIR3args :=
  fun r => mk_READDIR3args (dra_dir r) (dra_cookie r) (dra_cookieverf r) (dra_count r).
Scheme All for option.

Inductive entry3 := mk_entry3 {
  en_fileid : Z;
  en_name : filename3;
  en_cookie : Z;
  nextentry : option entry3 }.
#[global] Instance eta_entry3 : RecEta entry3 :=
  fun r => mk_entry3 (en_fileid r) (en_name r) (en_cookie r) (nextentry r).
Record dirlist3 := mk_dirlist3 { dl_entries : option entry3; dl_eof : Z }.
#[global] Instance eta_dirlist3 : RecEta dirlist3 := fun r => mk_dirlist3 (dl_entries r) (dl_eof r).
Record READDIR3resok := mk_READDIR3resok {
  dr_dir_attributes : post_op_attr;
  dr_cookieverf : list byte;
  dr_reply : dirlist3 }.
#[global] Instance eta_READDIR3resok : RecEta READDIR3resok :=
  fun r => mk_READDIR3resok (dr_dir_attributes r) (dr_cookieverf r) (dr_reply r).
Abbreviation READDIR3res := (nfs3_res READDIR3resok) (only parsing).

Record READDIRPLUS3args := mk_READDIRPLUS3args {
  rpa_dir : nfs_fh3;
  rpa_cookie : Z;
  rpa_cookieverf : list byte;
  rpa_dircount : Z;
  rpa_maxcount : Z }.
#[global] Instance eta_READDIRPLUS3args : RecEta READDIRPLUS3args :=
  fun r => mk_READDIRPLUS3args (rpa_dir r) (rpa_cookie r) (rpa_cookieverf r) (rpa_dircount r) (rpa_maxcount r).
Inductive entryplus3 := mk_entryplus3 {
  ep_fileid : Z;
  ep_name : filename3;
  ep_cookie : Z;
  ep_name_attributes : post_op_attr;
  ep_name_handle : post_op_fh3;
  ep_nextentry : option entryplus3 }.
#[global] Instance eta_entryplus3 : RecEta entryplus3 := fun r =>
  mk_entryplus3 (ep_fileid r) (ep_name r) (ep_cookie r) (ep_name_attributes r) (ep_name_handle r) (ep_nextentry r).
Record dirlistplus3 := mk_dirlistplus3 { dp_entries : option entryplus3; dp_eof : Z }.
#[global] Instance eta_dirlistplus3 : RecEta dirlistplus3 := fun r => mk_dirlistplus3 (dp_entries r) (dp_eof r).
Record READDIRPLUS3resok := mk_READDIRPLUS3resok {
  rp_dir_attributes : post_op_attr;
  rp_cookieverf : list byte;
  rp_reply : dirlistplus3 }.
#[global] Instance eta_READDIRPLUS3resok : RecEta READDIRPLUS3resok :=
  fun r => mk_READDIRPLUS3resok (rp_dir_attributes r) (rp_cookieverf r) (rp_reply r).
Abbreviation READDIRPLUS3res := (nfs3_res READDIRPLUS3resok) (only parsing).

Abbreviation FSSTAT3args := nfs_fh3 (only parsing).
Record FSSTAT3resok := mk_FSSTAT3resok {
  fs_obj_attributes : post_op_attr;
  fs_tbytes : Z;
  fs_fbytes : Z;
  fs_abytes : Z;
  fs_tfiles : Z;
  fs_ffiles : Z;
  fs_afiles : Z;
  fs_invarsec : Z }.
#[global] Instance eta_FSSTAT3resok : RecEta FSSTAT3resok := fun r =>
  mk_FSSTAT3resok (fs_obj_attributes r) (fs_tbytes r) (fs_fbytes r) (fs_abytes r) (fs_tfiles r)
    (fs_ffiles r) (fs_afiles r) (fs_invarsec r).
Abbreviation FSSTAT3res := (nfs3_res FSSTAT3resok) (only parsing).

Abbreviation FSINFO3args := nfs_fh3 (only parsing).
Record FSINFO3resok := mk_FSINFO3resok {
  fi_obj_attributes : post_op_attr;
  fi_rtmax : Z;
  fi_rtpref : Z;
  fi_rtmult : Z;
  fi_wtmax : Z;
  fi_wtpref : Z;
  fi_wtmult : Z;
  fi_dtpref : Z;
  fi_maxfilesize : Z;
  fi_time_delta : nfstime3;
  fi_properties : Z }.
#[global] Instance eta_FSINFO3resok : RecEta FSINFO3resok := fun r =>
  mk_FSINFO3resok (fi_obj_attributes r) (fi_rtmax r) (fi_rtpref r) (fi_rtmult r) (fi_wtmax r)
    (fi_wtpref r) (fi_wtmult r) (fi_dtpref r) (fi_maxfilesize r) (fi_time_delta r) (fi_properties r).
Abbreviation FSINFO3res := (nfs3_res FSINFO3resok) (only parsing).

Abbreviation PATHCONF3args := nfs_fh3 (only parsing).
Record PATHCONF3resok := mk_PATHCONF3resok {
  pc_obj_attributes : post_op_attr;
  pc_linkmax : Z;
  pc_name_max : Z;
  pc_no_trunc : Z;
  pc_chown_restricted : Z;
  pc_case_insensitive : Z;
  pc_case_preserving : Z }.
#[global] Instance eta_PATHCONF3resok : RecEta PATHCONF3resok := fun r =>
  mk_PATHCONF3resok (pc_obj_attributes r) (pc_linkmax r) (pc_name_max r) (pc_no_trunc r)
    (pc_chown_restricted r) (pc_case_insensitive r) (pc_case_preserving r).
Abbreviation PATHCONF3res := (nfs3_res PATHCONF3resok) (only parsing).

Record COMMIT3args := mk_COMMIT3args { coa_file : nfs_fh3; coa_offset : Z; coa_count : Z }.
#[global] Instance eta_COMMIT3args : RecEta COMMIT3args :=
  fun r => mk_COMMIT3args (coa_file r) (coa_offset r) (coa_count r).
Record COMMIT3resok := mk_COMMIT3resok { co_file_wcc : wcc_data; co_verf : list byte }.
#[global] Instance eta_COMMIT3resok : RecEta COMMIT3resok :=
  fun r => mk_COMMIT3resok (co_file_wcc r) (co_verf r).
Abbreviation COMMIT3res := (nfs3_res COMMIT3resok) (only parsing).

(** ** Filters *)

Section Filters.
  Context {P : Type} `{xdr_ops P}.
  Context `{!UnionArm LOOKUP3resok LOOKUP3resfail} `{!UnionArm CREATE3resok CREATE3resfail}.

Definition xdr_GETATTR3args : xdrproc P GETATTR3args := xdr_nfs_fh3.
Definition xdr_GETATTR3resok : xdrproc P GETATTR3resok := xdr_fattr3.

Definition xdr_GETATTR3res : xdrproc P GETATTR3res :=
  xdr_nfsstat3 on status ;;;
  xswitch (fun o => if decide (status o = NFS3_OK) then xdr_GETATTR3resok on res_u else xtrue).

Definition xdr_sattrguard3 : xdrproc P sattrguard3 :=
  xdr_bool on check ;;;
  xswitch (fun o =>
    if decide (check o = TRUE) then xdr_nfstime3 on obj_ctime
    else if decide (check o = FALSE) then xtrue else xfalse).

Definition xdr_SETATTR3args : xdrproc P SETATTR3args :=
  xdr_nfs_fh3 on sea_object ;;;
  xdr_sattr3 on sea_new_attributes ;;;
  xdr_sattrguard3 on sea_guard.

Definition xdr_SETATTR3resok : xdrproc P wcc_data := xdr_wcc_data.
Definition xdr_SETATTR3resfail : xdrproc P wcc_data := xdr_wcc_data.

Definition xdr_SETATTR3res : xdrproc P SETATTR3res :=
  xdr_nfsstat3 on status ;;;
  xswitch (fun o =>
    if decide (status o = NFS3_OK) then xdr_SETATTR3resok on res_u
    else xdr_SETATTR3resfail on res_u).

Definition xdr_LOOKUP3args : xdrproc P LOOKUP3args := xdr_diropargs3.

Definition xdr_LOOKUP3resok : xdrproc P LOOKUP3resok :=
  xdr_nfs_fh3 on lk_object ;;;
  xdr_post_op_attr on lk_obj_attributes ;;;
  xdr_post_op_attr on lk_dir_attributes.

Definition xdr_LOOKUP3resfail : xdrproc P LOOKUP3resfail := xdr_post_op_attr on lkf_dir_attributes.

Definition xdr_LOOKUP3res : xdrproc P LOOKUP3res :=
  xdr_nfsstat3 on status ;;;
  xswitch (fun o =>
    if decide (status o = NFS3_OK) then xdr_LOOKUP3resok on res_u
    else xdr_LOOKUP3resfail on arm_get on res_u).

Definition xdr_ACCESS3args : xdrproc P ACCESS3args :=
  xdr_nfs_fh3 on aca_object ;;;
  xdr_nfs3_uint32 on aca_access.

Definition xdr_ACCESS3resok : xdrproc P ACCESS3resok :=
  xdr_post_op_attr on ac_obj_attributes ;;;
  xdr_nfs3_uint32 on ac_access.

Definition xdr_ACCESS3resfail : xdrproc P ACCESS3resok := xdr_post_op_attr on ac_obj_attributes.

Definition xdr_ACCESS3res : xdrproc P ACCESS3res :=
  xdr_nfsstat3 on status ;;;
  xswitch (fun o =>
    if decide (status o = NFS3_OK) then xdr_ACCESS3resok on res_u
    else xdr_ACCESS3resfail on res_u).

Definition xdr_READLINK3args : xdrproc P READLINK3args := xdr_nfs_fh3.

Definition xdr_READLINK3resok : xdrproc P READLINK3resok :=
  xdr_post_op_attr on rl_symlink_attributes ;;;
  xdr_nfspath3 on rl_data.

Definition xdr_READLINK3resfail : xdrproc P READLINK3resok := xdr_post_op_attr on rl_symlink_attributes.

Definition xdr_READLINK3res : xdrproc P READLINK3res :=
  xdr_nfsstat3 on status ;;;
  xswitch (fun o =>
    if decide (status o = NFS3_OK) then xdr_READLINK3resok on res_u
    else xdr_READLINK3resfail on res_u).

Definition xdr_READ3args : xdrproc P READ3args :=
  xdr_nfs_fh3 on rda_file ;;;
  xdr_offset3 on rda_offset ;;;
  xdr_count3 on rda_count.

Definition xdr_READ3resok : xdrproc P READ3resok :=
  xdr_post_op_attr on rd_file_attributes ;;;
  xdr_count3 on rd_count ;;;
  xdr_bool on rd_eof ;;;
  xdr_bytes XDR_BYTES_MAXLEN_IO on rd_data.

Definition xdr_READ3resfail : xdrproc P READ3resok := xdr_post_op_attr on rd_file_attributes.

Definition xdr_READ3res : xdrproc P READ3res :=
  xdr_nfsstat3 on status ;;;
  xswitch (fun o =>
    if decide (status o = NFS3_OK) then xdr_READ3resok on res_u
    else xdr_READ3resfail on res_u).

Definition xdr_stable_how : xdrproc P Z := xdr_enum.

(** The end of the filter marks the request in the caller's lookahead record;
    without one it marks a record nobody reads. *)
Definition lookahead_mark {A} (f : nfs_request_lookahead -> nfs_request_lookahead) : xdrproc P A :=
  fun xs a => (true, xs <| x_public := f <$> x_public xs |>, a).

Definition xdr_WRITE3args : xdrproc P WRITE3args :=
  xdr_nfs_fh3 on wra_file ;;;
  xdr_offset3 on wra_offset ;;;
  xdr_count3 on wra_count ;;;
  xdr_stable_how on wra_stable ;;;
  xdr_bytes XDR_BYTES_MAXLEN_IO on wra_data ;;;
  lookahead_mark (fun l => l <| lk_flags := Z.lor (lk_flags l) NFS_LOOKAHEAD_WRITE |>
                             <| lk_write := u16 (lk_write l + 1) |>).

Definition xdr_WRITE3resok : xdrproc P WRITE3resok :=
  xdr_wcc_data on wr_file_wcc ;;;
  xdr_count3 on wr_count ;;;
  xdr_stable_how on wr_committed ;;;
  xdr_writeverf3 on wr_verf.

Definition xdr_WRITE3resfail : xdrproc P WRITE3resok := xdr_wcc_data on wr_file_wcc.

Definition xdr_WRITE3res : xdrproc P WRITE3res :=
  xdr_nfsstat3 on status ;;;
  xswitch (fun o =>
    if decide (status o = NFS3_OK) then xdr_WRITE3resok on res_u
    else xdr_WRITE3resfail on res_u).

Definition xdr_createmode3 : xdrproc P Z := xdr_enum.
Definition xdr_createverf3 : xdrproc P (list byte) := xdr_opaque 8.

Definition xdr_createhow3 : xdrproc P createhow3 :=
  xdr_createmode3 on how_mode ;;;
  xswitch (fun o =>
    if decide (how_mode o = UNCHECKED \/ how_mode o = GUARDED) then xdr_sattr3 on how_attributes
    else if decide (how_mode o = EXCLUSIVE) then xdr_createverf3 on how_verf
    else xfalse).

Definition xdr_CREATE3args : xdrproc P CREATE3args :=
  xdr_diropargs3 on cra_where ;;;
  xdr_createhow3 on cra_how ;;;
  lookahead_mark (fun l => l <| lk_flags := Z.lor (lk_flags l) NFS_LOOKAHEAD_CREATE |>).

Definition xdr_CREATE3resok : xdrproc P CREATE3resok :=
  xdr_post_op_fh3 on cr_obj ;;;
  xdr_post_op_attr on cr_obj_attributes ;;;
  xdr_wcc_data on cr_dir_wcc.

Definition xdr_CREATE3resfail : xdrproc P CREATE3resfail := xdr_wcc_data on crf_dir_wcc.

Definition xdr_CREATE3res : xdrproc P CREATE3res :=
  xdr_nfsstat3 on status ;;;
  xswitch (fun o =>
    if decide (status o = NFS3_OK) then xdr_CREATE3resok on res_u
    else xdr_CREATE3resfail on arm_get on res_u).

Definition xdr_MKDIR3args : xdrproc P MKDIR3args :=
  xdr_diropargs3 on mka_where ;;;
  xdr_sattr3 on mka_attributes.

Definition xdr_MKDIR3resok : xdrproc P MKDIR3resok :=
  xdr_post_op_fh3 on cr_obj ;;;
  xdr_post_op_attr on cr_obj_attributes ;;;
  xdr_wcc_data on cr_dir_wcc.

Definition xdr_MKDIR3resfail : xdrproc P CREATE3resfail := xdr_wcc_data on crf_dir_wcc.

Definition xdr_MKDIR3res : xdrproc P MKDIR3res :=
  xdr_nfsstat3 on status ;;;
  xswitch (fun o =>
    if decide (status o = NFS3_OK) then xdr_MKDIR3resok on res_u
    else xdr_MKDIR3resfail on arm_get on res_u).

Definition xdr_symlinkdata3 : xdrproc P symlinkdata3 :=
  xdr_sattr3 on symlink_attributes ;;;
  xdr_nfspath3 on symlink_data.

Definition xdr_SYMLINK3args : xdrproc P SYMLINK3args :=
  xdr_diropargs3 on sya_where ;;;
  xdr_symlinkdata3 on sya_symlink.

Definition xdr_SYMLINK3resok : xdrproc P SYMLINK3resok :=
  xdr_post_op_fh3 on cr_obj ;;;
  xdr_post_op_attr on cr_obj_attributes ;;;
  xdr_wcc_data on cr_dir_wcc.

Definition xdr_SYMLINK3resfail : xdrproc P CREATE3resfail := xdr_wcc_data on crf_dir_wcc.

Definition xdr_SYMLINK3res : xdrproc P SYMLINK3res :=
  xdr_nfsstat3 on status ;;;
  xswitch (fun o =>
    if decide (status o = NFS3_OK) then xdr_SYMLINK3resok on res_u
    else xdr_SYMLINK3resfail on arm_get on res_u).

Definition xdr_devicedata3 : xdrproc P devicedata3 :=
  xdr_sattr3 on dev_attributes ;;;
  xdr_specdata3 on dev_spec.

Definition xdr_mknoddata3 : xdrproc P mknoddata3 :=
  xdr_ftype3 on mn_type ;;;
  xswitch (fun o =>
    if decide (mn_type o = NF3CHR \/ mn_type o = NF3BLK) then xdr_devicedata3 on mn_device
    else if decide (mn_type o = NF3SOCK \/ mn_type o = NF3FIFO) then xdr_sattr3 on dev_attributes on mn_device
    else xtrue).

Definition xdr_MKNOD3args : xdrproc P MKNOD3args :=
  xdr_diropargs3 on mna_where ;;;
  xdr_mknoddata3 on mna_what.

Definition xdr_MKNOD3resok : xdrproc P MKNOD3resok :=
  xdr_post_op_fh3 on cr_obj ;;;
  xdr_post_op_attr on cr_obj_attributes ;;;
  xdr_wcc_data on cr_dir_wcc.

Definition xdr_MKNOD3resfail : xdrproc P CREATE3resfail := xdr_wcc_data on crf_dir_wcc.

Definition xdr_MKNOD3res : xdrproc P MKNOD3res :=
  xdr_nfsstat3 on status ;;;
  xswitch (fun o =>
    if decide (status o = NFS3_OK) then xdr_MKNOD3resok on res_u
    else xdr_MKNOD3resfail on arm_get on res_u).

Definition xdr_REMOVE3args : xdrproc P REMOVE3args := xdr_diropargs3.
Definition xdr_REMOVE3resok : xdrproc P wcc_data := xdr_wcc_data.
Definition xdr_REMOVE3resfail : xdrproc P wcc_data := xdr_wcc_data.

Definition xdr_REMOVE3res : xdrproc P REMOVE3res :=
  xdr_nfsstat3 on status ;;;
  xswitch (fun o =>
    if decide (status o = NFS3_OK) then xdr_REMOVE3resok on res_u
    else xdr_REMOVE3resfail on res_u).

Definition xdr_RMDIR3args : xdrproc P RMDIR3args := xdr_diropargs3.
Definition xdr_RMDIR3resok : xdrproc P wcc_data := xdr_wcc_data.
Definition xdr_RMDIR3resfail : xdrproc P wcc_data := xdr_wcc_data.

Definition xdr_RMDIR3res : xdrproc P RMDIR3res :=
  xdr_nfsstat3 on status ;;;
  xswitch (fun o =>
    if decide (status o = NFS3_OK) then xdr_RMDIR3resok on res_u
    else xdr_RMDIR3resfail on res_u).

Definition xdr_RENAME3args : xdrproc P RENAME3args :=
  xdr_diropargs3 on rna_from ;;;
  xdr_diropargs3 on rna_to.

Definition xdr_RENAME3resok : xdrproc P RENAME3resok :=
  xdr_wcc_data on rn_fromdir_wcc ;;;
  xdr_wcc_data on rn_todir_wcc.

Definition xdr_RENAME3resfail : xdrproc P RENAME3resok :=
  xdr_wcc_data on rn_fromdir_wcc ;;;
  xdr_wcc_data on rn_todir_wcc.

Definition xdr_RENAME3res : xdrproc P RENAME3res :=
  xdr_nfsstat3 on status ;;;
  xswitch (fun o =>
    if decide (status o = NFS3_OK) then xdr_RENAME3resok on res_u
    else xdr_RENAME3resfail on res_u).

Definition xdr_LINK3args : xdrproc P LINK3args :=
  xdr_nfs_fh3 on lna_file ;;;
  xdr_diropargs3 on lna_link.

Definition xdr_LINK3resok : xdrproc P LINK3resok :=
  xdr_post_op_attr on ln_file_attributes ;;;
  xdr_wcc_data on ln_linkdir_wcc.

Definition xdr_LINK3resfail : xdrproc P LINK3resok :=
  xdr_post_op_attr on ln_file_attributes ;;;
  xdr_wcc_data on ln_linkdir_wcc.

Definition xdr_LINK3res : xdrproc P LINK3res :=
  xdr_nfsstat3 on status ;;;
  xswitch (fun o =>
    if decide (status o = NFS3_OK) then xdr_LINK3resok on res_u
    else xdr_LINK3resfail on res_u).

Definition xdr_READDIR3args : xdrproc P READDIR3args :=
  xdr_nfs_fh3 on dra_dir ;;;
  xdr_cookie3 on dra_cookie ;;;
  xdr_cookieverf3 on dra_cookieverf ;;;
  xdr_count3 on dra_count.

(** What [mem_zalloc] gives for a list entry. *)
Definition zero_entry3 : entry3 := mk_entry3 0 None 0 None.

(** [fuel] bounds the length of the list, as the C stack does: the filter calls
    itself through [xdr_pointer]. *)
Fixpoint xdr_entry3 (fuel : nat) : xdrproc P entry3 :=
  match fuel with
  | O => xfalse
  | S n =>
      xdr_fileid3 on en_fileid ;;;
      xdr_filename3 on en_name ;;;
      xdr_cookie3 on en_cookie ;;;
      xdr_pointer zero_entry3 (xdr_entry3 n) on nextentry
  end.

Definition xdr_dirlist3 (fuel : nat) : xdrproc P dirlist3 :=
  xdr_pointer zero_entry3 (xdr_entry3 fuel) on dl_entries ;;;
  xdr_bool on dl_eof.

Definition xdr_READDIR3resok (fuel : nat) : xdrproc P READDIR3resok :=
  xdr_post_op_attr on dr_dir_attributes ;;;
  xdr_cookieverf3 on dr_cookieverf ;;;
  xdr_dirlist3 fuel on dr_reply.

Definition xdr_READDIR3resfail : xdrproc P READDIR3resok := xdr_post_op_attr on dr_dir_attributes.

Definition xdr_READDIR3res (fuel : nat) : xdrproc P READDIR3res :=
  xdr_nfsstat3 on status ;;;
  xswitch (fun o =>
    if decide (status o = NFS3_OK) then xdr_READDIR3resok fuel on res_u
    else xdr_READDIR3resfail on res_u).

Definition xdr_READDIRPLUS3args : xdrproc P READDIRPLUS3args :=
  xdr_nfs_fh3 on rpa_dir ;;;
  xdr_cookie3 on rpa_cookie ;;;
  xdr_cookieverf3 on rpa_cookieverf ;;;
  xdr_count3 on rpa_dircount ;;;
  xdr_count3 on rpa_maxcount.

Definition zero_fattr3 : fattr3 :=
  mk_fattr3 0 0 0 0 0 0 0 (mk_specdata3 0 0) 0 0 (mk_nfstime3 0 0) (mk_nfstime3 0 0) (mk_nfstime3 0 0).
Definition zero_fh3 : nfs_fh3 := mk_nfs_fh3 (mk_bytes 0 None).
Definition zero_entryplus3 : entryplus3 :=
  mk_entryplus3 0 None 0 (mk_post_op_attr 0 zero_fattr3) (mk_post_op_fh3 0 zero_fh3) None.

Fixpoint xdr_entryplus3 (fuel : nat) : xdrproc P entryplus3 :=
  match fuel with
  | O => xfalse
  | S n =>
      xdr_fileid3 on ep_fileid ;;;
      xdr_filename3 on ep_name ;;;
      xdr_cookie3 on ep_cookie ;;;
      xdr_post_op_attr on ep_name_attributes ;;;
      xdr_post_op_fh3 on ep_name_handle ;;;
      xdr_pointer zero_entryplus3 (xdr_entryplus3 n) on ep_nextentry
  end.

Definition xdr_dirlistplus3 (fuel : nat) : xdrproc P dirlistplus3 :=
  xdr_pointer zero_entryplus3 (xdr_entryplus3 fuel) on dp_entries ;;;
  xdr_bool on dp_eof.

Definition xdr_READDIRPLUS3resok (fuel : nat) : xdrproc P READDIRPLUS3resok :=
  xdr_post_op_attr on rp_dir_attributes ;;;
  xdr_cookieverf3 on rp_cookieverf ;;;
  xdr_dirlistplus3 fuel on rp_reply.

Definition xdr_READDIRPLUS3resfail : xdrproc P READDIRPLUS3resok := xdr_post_op_attr on rp_dir_attributes.

Definition xdr_READDIRPLUS3res (fuel : nat) : xdrproc P READDIRPLUS3res :=
  xdr_nfsstat3 on status ;;;
  xswitch (fun o =>
    if decide (status o = NFS3_OK) then xdr_READDIRPLUS3resok fuel on res_u
    else xdr_READDIRPLUS3resfail on res_u).

Definition xdr_FSSTAT3args : xdrproc P FSSTAT3args := xdr_nfs_fh3.

Definition xdr_FSSTAT3resok : xdrproc P FSSTAT3resok :=
  xdr_post_op_attr on fs_obj_attributes ;;;
  xdr_size3 on fs_tbytes ;;;
  xdr_size3 on fs_fbytes ;;;
  xdr_size3 on fs_abytes ;;;
  xdr_size3 on fs_tfiles ;;;
  xdr_size3 on fs_ffiles ;;;
  xdr_size3 on fs_afiles ;;;
  xdr_nfs3_uint32 on fs_invarsec.

Definition xdr_FSSTAT3resfail : xdrproc P FSSTAT3resok := xdr_post_op_attr on fs_obj_attributes.

Definition xdr_FSSTAT3res : xdrproc P FSSTAT3res :=
  xdr_nfsstat3 on status ;;;
  xswitch (fun o =>
    if decide (status o = NFS3_OK) then xdr_FSSTAT3resok on res_u
    else xdr_FSSTAT3resfail on res_u).

Definition xdr_FSINFO3args : xdrproc P FSINFO3args := xdr_nfs_fh3.

Definition xdr_FSINFO3resok : xdrproc P FSINFO3resok :=
  xdr_post_op_attr on fi_obj_attributes ;;;
  xdr_nfs3_uint32 on fi_rtmax ;;;
  xdr_nfs3_uint32 on fi_rtpref ;;;
  xdr_nfs3_uint32 on fi_rtmult ;;;
  xdr_nfs3_uint32 on fi_wtmax ;;;
  xdr_nfs3_uint32 on fi_wtpref ;;;
  xdr_nfs3_uint32 on fi_wtmult ;;;
  xdr_nfs3_uint32 on fi_dtpref ;;;
  xdr_size3 on fi_maxfilesize ;;;
  xdr_nfstime3 on fi_time_delta ;;;
  xdr_nfs3_uint32 on fi_properties.

Definition xdr_FSINFO3resfail : xdrproc P FSINFO3resok := xdr_post_op_attr on fi_obj_attributes.

Definition xdr_FSINFO3res : xdrproc P FSINFO3res :=
  xdr_nfsstat3 on status ;;;
  xswitch (fun o =>
    if decide (status o = NFS3_OK) then xdr_FSINFO3resok on res_u
    else xdr_FSINFO3resfail on res_u).

Definition xdr_PATHCONF3args : xdrproc P PATHCONF3args := xdr_nfs_fh3.

Definition xdr_PATHCONF3resok : xdrproc P PATHCONF3resok :=
  xdr_post_op_attr on pc_obj_attributes ;;;
  xdr_nfs3_uint32 on pc_linkmax ;;;
  xdr_nfs3_uint32 on pc_name_max ;;;
  xdr_bool on pc_no_trunc ;;;
  xdr_bool on pc_chown_restricted ;;;
  xdr_bool on pc_case_insensitive ;;;
  xdr_bool on pc_case_preserving.

Definition xdr_PATHCONF3resfail : xdrproc P PATHCONF3resok := xdr_post_op_attr on pc_obj_attributes.

Definition xdr_PATHCONF3res : xdrproc P PATHCONF3res :=
  xdr_nfsstat3 on status ;;;
  xswitch (fun o =>
    if decide (status o = NFS3_OK) then xdr_PATHCONF3resok on res_u
    else xdr_PATHCONF3resfail on res_u).

Definition xdr_COMMIT3args : xdrproc P COMMIT3args :=
  xdr_nfs_fh3 on coa_file ;;;
  xdr_offset3 on coa_offset ;;;
  xdr_count3 on coa_count.

Definition xdr_COMMIT3resok : xdrproc P COMMIT3resok :=
  xdr_wcc_data on co_file_wcc ;;;
  xdr_writeverf3 on co_verf.

Definition xdr_COMMIT3resfail : xdrproc P COMMIT3resok := xdr_wcc_data on co_file_wcc.

Definition xdr_COMMIT3res : xdrproc P COMMIT3res :=
  xdr_nfsstat3 on status ;;;
  xswitch (fun o =>
    if decide (status o = NFS3_OK) then xdr_COMMIT3resok on res_u
    else xdr_COMMIT3resfail on res_u).

End Filters.

#[export] Hint Transparent xdr_stable_how xdr_createmode3 xdr_createverf3 : xdr.
