(* ===== verification/Nfs3ArgSpecs.v ===== *)
(** * The arguments of the procedures on the wire

    For the arguments of each procedure: the bytes RFC 1813 prescribes, and that
    the filter encodes exactly these and decodes them into zeroed memory (which
    is what the server hands it) to the arguments sent. *)
From S2P Require Import Prelude XdrStream XdrPrim XdrSpec Nfs3Types Nfs3Msgs.

Open Scope Z_scope.
Open Scope dnfs_scope.

(** [codec p ok canon wire zero]: [p] encodes objects of [ok] as [wire]; of
    these it decodes those of [canon], over [zero], to themselves. *)
Record codec {P A} `{xdr_ops P} (p : xdrproc P A) (ok canon : A -> Prop) (wire : A -> list byte)
    (zero : A) : Prop := {
  codec_enc : forall (S : XdrSink P) xs a,
    snk_ok xs -> x_op xs = XDR_ENCODE -> ok a -> snk_fits xs (length (wire a)) ->
    exists xs', p xs a = (true, xs', a) /\ emits xs xs' (wire a);
  codec_dec : forall (S : XdrSource P) xs a rest,
    src_ok xs -> x_op xs = XDR_DECODE -> ok a -> canon a -> (length rest mod 4 = 0)%nat ->
    src_in xs = wire a ++ rest ->
    exists xs', p xs zero = (true, xs', a) /\ src_ok xs' /\ src_in xs' = rest /\ stream_frame xs xs' }.

Lemma spec_codec {P A} `{xdr_ops P} (p : xdrproc P A) d w ov ok canon wire zero :
  xdr_spec p d w ov -> (forall a, ok a -> d a) -> (forall a, ok a -> w a = wire a) ->
  (forall a, ok a -> canon a -> ov a zero = a) -> codec p ok canon wire zero.
Proof.
  intros [He Hd _] Hok Hw Hov. split.
  - intros. rewrite <- Hw in * by done. eauto.
  - intros S xs a rest ? ? ? ? ? Hin. rewrite <- Hw in Hin by done.
    destruct (Hd S xs a zero rest) as (xs' & Hp & ?); eauto. rewrite Hov in Hp by done. eauto.
Qed.

(** ** Zeroed objects and the values that decoding over them can produce *)

Definition zero_diropargs3 : diropargs3 := mk_diropargs3 zero_fh3 None.
Definition zero_time : nfstime3 := mk_nfstime3 0 0.
Definition zero_sattr3 : sattr3 :=
  mk_sattr3 (mk_set_mode3 0 0) (mk_set_uid3 0 0) (mk_set_gid3 0 0) (mk_set_size3 0 0)
    (mk_set_atime 0 zero_time) (mk_set_mtime 0 zero_time).

Definition fh3_canon (h : nfs_fh3) : Prop := bytes_canon (fh_data h).
Definition diropargs3_canon (d : diropargs3) : Prop := fh3_canon (do_dir d) /\ string_canon (do_name d).
Definition opt_canon {A} (v d : Z) (a zero : A) : Prop := d <> v -> a = zero.
Definition sattr3_canon (s : sattr3) : Prop :=
  opt_canon TRUE (sm_set_it (sat_mode s)) (sm_mode (sat_mode s)) 0 /\
  opt_canon TRUE (su_set_it (sat_uid s)) (su_uid (sat_uid s)) 0 /\
  opt_canon TRUE (sg_set_it (sat_gid s)) (sg_gid (sat_gid s)) 0 /\
  opt_canon TRUE (ss_set_it (sat_size s)) (ss_size (sat_size s)) 0 /\
  opt_canon SET_TO_CLIENT_TIME (sa_set_it (sat_atime s)) (sa_atime (sat_atime s)) zero_time /\
  opt_canon SET_TO_CLIENT_TIME (st_set_it (sat_mtime s)) (st_mtime (sat_mtime s)) zero_time.

Lemma fh3_ov_canon h : fh3_canon h -> nfs_fh3_ov h zero_fh3 = h.
Proof. destruct h. unfold fh3_canon, nfs_fh3_ov. simpl. intros. by rewrite bytes_ov_canon. Qed.

Lemma diropargs3_ov_canon d : diropargs3_canon d -> diropargs3_ov d zero_diropargs3 = d.
Proof.
  destruct d. intros [? ?]. unfold diropargs3_ov. simpl in *. by rewrite fh3_ov_canon, string_ov_canon.
Qed.

Lemma opt_ov_canon {A} (v d : Z) (a zero : A) : opt_canon v d a zero -> opt_ov v d a zero = a.
Proof. unfold opt_canon, opt_ov. intros Ho. case_decide; [done|]. symmetry. by apply Ho. Qed.

Lemma sattr3_ov_canon s : sattr3_canon s -> sattr3_ov s zero_sattr3 = s.
Proof.
  destruct s as [[] [] [] [] [] []]. unfold sattr3_canon, sattr3_ov; simpl.
  intros (? & ? & ? & ? & ? & ?). by rewrite !opt_ov_canon.
Qed.

Definition sattrguard3_ov (g o : sattrguard3) : sattrguard3 :=
  mk_sattrguard3 (check g) (opt_ov TRUE (check g) (obj_ctime g) (obj_ctime o)).
Definition zero_sattrguard3 : sattrguard3 := mk_sattrguard3 0 zero_time.

Lemma sattrguard3_ov_canon g :
  opt_canon TRUE (check g) (obj_ctime g) zero_time -> sattrguard3_ov g zero_sattrguard3 = g.
Proof. destruct g. unfold sattrguard3_ov; simpl. intros. by rewrite opt_ov_canon. Qed.

Lemma eight_app_drop (a o : list byte) : length o = 8%nat -> a ++ drop 8 o = a.
Proof. intros. rewrite drop_ge by lia. apply app_nil_r. Qed.

Create Rewrite HintDb canon.
#[export] Hint Rewrite fh3_ov_canon diropargs3_ov_canon sattrguard3_ov_canon sattr3_ov_canon bytes_ov_canon
  string_ov_canon eight_app_drop using (first [eassumption | reflexivity]) : canon.

(** ** The encodings *)

Definition sattrguard3_wire (g : sattrguard3) : list byte :=
  opt_wire TRUE nfstime3_wire (check g) (obj_ctime g).
Definition SETATTR3args_wire (a : SETATTR3args) : list byte :=
  nfs_fh3_wire (sea_object a) ++ sattr3_wire (sea_new_attributes a) ++ sattrguard3_wire (sea_guard a).
Definition SETATTR3args_ok (a : SETATTR3args) : Prop :=
  nfs_fh3_ok (sea_object a) /\ sattr3_ok (sea_new_attributes a) /\
  (is_bool (check (sea_guard a)) /\ (check (sea_guard a) = TRUE -> nfstime3_ok (obj_ctime (sea_guard a)))).
Definition SETATTR3args_canon (a : SETATTR3args) : Prop :=
  fh3_canon (sea_object a) /\ sattr3_canon (sea_new_attributes a) /\
  opt_canon TRUE (check (sea_guard a)) (obj_ctime (sea_guard a)) zero_time.
Definition zero_SETATTR3args : SETATTR3args := mk_SETATTR3args zero_fh3 zero_sattr3 zero_sattrguard3.

Definition ACCESS3args_wire (a : ACCESS3args) : list byte := nfs_fh3_wire (aca_object a) ++ be32 (aca_access a).
Definition ACCESS3args_ok (a : ACCESS3args) : Prop := nfs_fh3_ok (aca_object a) /\ is_u32 (aca_access a).
Definition zero_ACCESS3args : ACCESS3args := mk_ACCESS3args zero_fh3 0.

Definition READ3args_wire (a : READ3args) : list byte :=
  nfs_fh3_wire (rda_file a) ++ u64_wire (rda_offset a) ++ be32 (rda_count a).
Definition READ3args_ok (a : READ3args) : Prop :=
  nfs_fh3_ok (rda_file a) /\ is_u64 (rda_offset a) /\ is_u32 (rda_count a).
Definition zero_READ3args : READ3args := mk_READ3args zero_fh3 0 0.

Definition WRITE3args_wire (a : WRITE3args) : list byte :=
  nfs_fh3_wire (wra_file a) ++ u64_wire (wra_offset a) ++ be32 (wra_count a) ++ be32 (wra_stable a) ++
  bytes_wire (wra_data a).
Definition WRITE3args_ok (a : WRITE3args) : Prop :=
  nfs_fh3_ok (wra_file a) /\ is_u64 (wra_offset a) /\ is_u32 (wra_count a) /\ is_i32 (wra_stable a) /\
  bytes_ok XDR_BYTES_MAXLEN_IO (wra_data a).
Definition WRITE3args_canon (a : WRITE3args) : Prop := fh3_canon (wra_file a) /\ bytes_canon (wra_data a).
Definition zero_WRITE3args : WRITE3args := mk_WRITE3args zero_fh3 0 0 0 (mk_bytes 0 None).

Definition createhow3_wire (h : createhow3) : list byte :=
  be32 (how_mode h) ++ if decide (how_mode h = EXCLUSIVE) then how_verf h else sattr3_wire (how_attributes h).
Definition createhow3_ok (h : createhow3) : Prop :=
  ((how_mode h = UNCHECKED \/ how_mode h = GUARDED) /\ sattr3_ok (how_attributes h)) \/
  (how_mode h = EXCLUSIVE /\ is_i32 (sm_set_it (sat_mode (how_attributes h))) /\
   is_u32 (sm_mode (sat_mode (how_attributes h)))).
Definition createhow3_canon (h : createhow3) : Prop :=
  if decide (how_mode h = EXCLUSIVE)
  then how_attributes h = zero_sattr3 <| sat_mode := sat_mode (how_attributes h) |>
  else sattr3_canon (how_attributes h).
Definition CREATE3args_wire (a : CREATE3args) : list byte :=
  diropargs3_wire (cra_where a) ++ createhow3_wire (cra_how a).
Definition CREATE3args_ok (a : CREATE3args) : Prop := diropargs3_ok (cra_where a) /\ createhow3_ok (cra_how a).
Definition CREATE3args_canon (a : CREATE3args) : Prop :=
  diropargs3_canon (cra_where a) /\ createhow3_canon (cra_how a).
Definition zero_CREATE3args : CREATE3args := mk_CREATE3args zero_diropargs3 (mk_createhow3 0 zero_sattr3).

Definition MKDIR3args_wire (a : MKDIR3args) : list byte :=
  diropargs3_wire (mka_where a) ++ sattr3_wire (mka_attributes a).
Definition MKDIR3args_ok (a : MKDIR3args) : Prop := diropargs3_ok (mka_where a) /\ sattr3_ok (mka_attributes a).
Definition MKDIR3args_canon (a : MKDIR3args) : Prop :=
  diropargs3_canon (mka_where a) /\ sattr3_canon (mka_attributes a).
Definition zero_MKDIR3args : MKDIR3args := mk_MKDIR3args zero_diropargs3 zero_sattr3.

Definition SYMLINK3args_wire (a : SYMLINK3args) : list byte :=
  diropargs3_wire (sya_where a) ++ sattr3_wire (symlink_attributes (sya_symlink a)) ++
  string_wire (symlink_data (sya_symlink a)).
Definition SYMLINK3args_ok (a : SYMLINK3args) : Prop :=
  diropargs3_ok (sya_where a) /\ sattr3_ok (symlink_attributes (sya_symlink a)) /\
  string_ok XDR_STRING_MAXLEN (symlink_data (sya_symlink a)).
Definition SYMLINK3args_canon (a : SYMLINK3args) : Prop :=
  diropargs3_canon (sya_where a) /\ sattr3_canon (symlink_attributes (sya_symlink a)) /\
  string_canon (symlink_data (sya_symlink a)).
Definition zero_SYMLINK3args : SYMLINK3args := mk_SYMLINK3args zero_diropargs3 (mk_symlinkdata3 zero_sattr3 None).

(** The arms of [mknoddata3]. *)
Definition is_device (t : Z) : Prop := t = NF3CHR \/ t = NF3BLK.
Definition is_pipe (t : Z) : Prop := t = NF3SOCK \/ t = NF3FIFO.
#[global] Instance is_device_dec t : Decision (is_device t).
Proof. unfold is_device. apply _. Defined.
#[global] Instance is_pipe_dec t : Decision (is_pipe t).
Proof. unfold is_pipe. apply _. Defined.

Definition mknoddata3_wire (m : mknoddata3) : list byte :=
  be32 (mn_type m) ++
  if decide (is_device (mn_type m))
  then sattr3_wire (dev_attributes (mn_device m)) ++ specdata3_wire (dev_spec (mn_device m))
  else if decide (is_pipe (mn_type m)) then sattr3_wire (dev_attributes (mn_device m)) else [].
Definition mknoddata3_ok (m : mknoddata3) : Prop :=
  is_i32 (mn_type m) /\
  (is_device (mn_type m) \/ is_pipe (mn_type m) -> sattr3_ok (dev_attributes (mn_device m))) /\
  (is_device (mn_type m) -> specdata3_ok (dev_spec (mn_device m))).
Definition mknoddata3_canon (m : mknoddata3) : Prop :=
  (is_device (mn_type m) \/ is_pipe (mn_type m) -> sattr3_canon (dev_attributes (mn_device m))) /\
  (~ (is_device (mn_type m) \/ is_pipe (mn_type m)) -> dev_attributes (mn_device m) = zero_sattr3) /\
  (~ is_device (mn_type m) -> dev_spec (mn_device m) = mk_specdata3 0 0).
Definition MKNOD3args_wire (a : MKNOD3args) : list byte :=
  diropargs3_wire (mna_where a) ++ mknoddata3_wire (mna_what a).
Definition MKNOD3args_ok (a : MKNOD3args) : Prop := diropargs3_ok (mna_where a) /\ mknoddata3_ok (mna_what a).
Definition MKNOD3args_canon (a : MKNOD3args) : Prop :=
  diropargs3_canon (mna_where a) /\ mknoddata3_canon (mna_what a).
Definition zero_MKNOD3args : MKNOD3args :=
  mk_MKNOD3args zero_diropargs3 (mk_mknoddata3 0 (mk_devicedata3 zero_sattr3 (mk_specdata3 0 0))).

Definition RENAME3args_wire (a : RENAME3args) : list byte :=
  diropargs3_wire (rna_from a) ++ diropargs3_wire (rna_to a).
Definition RENAME3args_ok (a : RENAME3args) : Prop := diropargs3_ok (rna_from a) /\ diropargs3_ok (rna_to a).
Definition RENAME3args_canon (a : RENAME3args) : Prop :=
  diropargs3_canon (rna_from a) /\ diropargs3_canon (rna_to a).
Definition zero_RENAME3args : RENAME3args := mk_RENAME3args zero_diropargs3 zero_diropargs3.

Definition LINK3args_wire (a : LINK3args) : list byte := nfs_fh3_wire (lna_file a) ++ diropargs3_wire (lna_link a).
Definition LINK3args_ok (a : LINK3args) : Prop := nfs_fh3_ok (lna_file a) /\ diropargs3_ok (lna_link a).
Definition LINK3args_canon (a : LINK3args) : Prop := fh3_canon (lna_file a) /\ diropargs3_canon (lna_link a).
Definition zero_LINK3args : LINK3args := mk_LINK3args zero_fh3 zero_diropargs3.

Definition zero_verf : list byte := replicate 8 x00.

Definition READDIR3args_wire (a : READDIR3args) : list byte :=
  nfs_fh3_wire (dra_dir a) ++ u64_wire (dra_cookie a) ++ opaque_wire (dra_cookieverf a) ++ be32 (dra_count a).
Definition READDIR3args_ok (a : READDIR3args) : Prop :=
  nfs_fh3_ok (dra_dir a) /\ is_u64 (dra_cookie a) /\ length (dra_cookieverf a) = 8%nat /\ is_u32 (dra_count a).
Definition zero_READDIR3args : READDIR3args := mk_READDIR3args zero_fh3 0 zero_verf 0.

Definition READDIRPLUS3args_wire (a : READDIRPLUS3args) : list byte :=
  nfs_fh3_wire (rpa_dir a) ++ u64_wire (rpa_cookie a) ++ opaque_wire (rpa_cookieverf a) ++
  be32 (rpa_dircount a) ++ be32 (rpa_maxcount a).
Definition READDIRPLUS3args_ok (a : READDIRPLUS3args) : Prop :=
  nfs_fh3_ok (rpa_dir a) /\ is_u64 (rpa_cookie a) /\ length (rpa_cookieverf a) = 8%nat /\
  is_u32 (rpa_dircount a) /\ is_u32 (rpa_maxcount a).
Definition zero_READDIRPLUS3args : READDIRPLUS3args := mk_READDIRPLUS3args zero_fh3 0 zero_verf 0 0.

Definition COMMIT3args_wire (a : COMMIT3args) : list byte :=
  nfs_fh3_wire (coa_file a) ++ u64_wire (coa_offset a) ++ be32 (coa_count a).
Definition COMMIT3args_ok (a : COMMIT3args) : Prop :=
  nfs_fh3_ok (coa_file a) /\ is_u64 (coa_offset a) /\ is_u32 (coa_count a).
Definition zero_COMMIT3args : COMMIT3args := mk_COMMIT3args zero_fh3 0 0.

(** ** The filters implement the encodings *)

(** Runs through a structure, then compares with the prescribed form. *)
Ltac codec_struct :=
  match goal with |- codec ?p _ _ _ _ => let h := head_of p in unfold h end;
  eapply spec_codec;
  [ repeat xspec_step
  | let Ho := fresh in intros [] Ho; first [exact Ho | hnf in Ho; simpl in *; tauto]
  | intros [] ?; simpl; rewrite ?app_nil_r; reflexivity
  | let Hc := fresh in intros [] _ Hc; simpl in *; unfold fresh; hnf in Hc; simpl in Hc;
    destruct_and?; autorewrite with canon; by rewrite ?app_nil_r ].

Section ArgCodecs.
  Context {P : Type} `{xdr_ops P}.

Lemma xdr_sattrguard3_spec :
  xdr_spec xdr_sattrguard3 (fun g => is_bool (check g) /\ (check g = TRUE -> nfstime3_ok (obj_ctime g)))
    sattrguard3_wire
    sattrguard3_ov.
Proof. unfold sattrguard3_ov. xspec_optional check obj_ctime. Qed.

Hint Resolve xdr_sattrguard3_spec : xdr.

Lemma lookahead_mark_spec {A} f :
  xdr_spec (P:=P) (@lookahead_mark P A f) (fun _ => True) (fun _ => []) (fun _ o => o).
Proof.
  split.
  - intros S xs a; intros. eexists; split; [done|]. by apply snk_public.
  - intros S xs a o rest Hok Hop _ _ Hin. eexists; split; [done|].
    destruct (src_public xs (f <$> x_public xs) Hok) as [? Hp].
    split_and!; [done|by etransitivity|done].
  - done.
Qed.

Hint Resolve lookahead_mark_spec : xdr.

Lemma fh3_args_codec : codec xdr_GETATTR3args nfs_fh3_ok fh3_canon nfs_fh3_wire zero_fh3.
Proof. eapply spec_codec; [apply xdr_nfs_fh3_spec|done..|]. intros. by apply fh3_ov_canon. Qed.

Lemma dirop_args_codec : codec xdr_LOOKUP3args diropargs3_ok diropargs3_canon diropargs3_wire zero_diropargs3.
Proof. eapply spec_codec; [apply xdr_diropargs3_spec|done..|]. intros. by apply diropargs3_ov_canon. Qed.

(** the arguments of SETATTR round-trip, with all optional attributes and the guard. *)
Theorem SETATTR3args_codec :
  codec xdr_SETATTR3args SETATTR3args_ok SETATTR3args_canon SETATTR3args_wire zero_SETATTR3args.
Proof. codec_struct. Qed.

Lemma ACCESS3args_codec :
  codec xdr_ACCESS3args ACCESS3args_ok (fun a => fh3_canon (aca_object a)) ACCESS3args_wire zero_ACCESS3args.
Proof. codec_struct. Qed.

Lemma READ3args_codec :
  codec xdr_READ3args READ3args_ok (fun a => fh3_canon (rda_file a)) READ3args_wire zero_READ3args.
Proof. codec_struct. Qed.

(** the arguments of WRITE round-trip: they are encoded to the bytes of RFC 1813 and decoded
    from them into zeroed memory to the same arguments, on every stream. *)
Theorem WRITE3args_codec :
  codec xdr_WRITE3args WRITE3args_ok WRITE3args_canon WRITE3args_wire zero_WRITE3args.
Proof. codec_struct. Qed.

Lemma MKDIR3args_codec :
  codec xdr_MKDIR3args MKDIR3args_ok MKDIR3args_canon MKDIR3args_wire zero_MKDIR3args.
Proof. codec_struct. Qed.

Lemma SYMLINK3args_codec :
  codec xdr_SYMLINK3args SYMLINK3args_ok SYMLINK3args_canon SYMLINK3args_wire zero_SYMLINK3args.
Proof.
  unfold xdr_SYMLINK3args, xdr_symlinkdata3.
  eapply spec_codec; [repeat xspec_step|by intros [] ?|by intros [] ?|].
  intros [? []] _ (? & ? & ?); simpl in *. by autorewrite with canon.
Qed.

Lemma RENAME3args_codec :
  codec xdr_RENAME3args RENAME3args_ok RENAME3args_canon RENAME3args_wire zero_RENAME3args.
Proof. codec_struct. Qed.

Lemma LINK3args_codec :
  codec xdr_LINK3args LINK3args_ok LINK3args_canon LINK3args_wire zero_LINK3args.
Proof. codec_struct. Qed.

Lemma READDIR3args_codec :
  codec xdr_READDIR3args READDIR3args_ok (fun a => fh3_canon (dra_dir a)) READDIR3args_wire zero_READDIR3args.
Proof. codec_struct. Qed.

(** the arguments of READDIRPLUS round-trip. *)
Theorem READDIRPLUS3args_codec :
  codec xdr_READDIRPLUS3args READDIRPLUS3args_ok (fun a => fh3_canon (rpa_dir a)) READDIRPLUS3args_wire
    zero_READDIRPLUS3args.
Proof. codec_struct. Qed.

Lemma COMMIT3args_codec :
  codec xdr_COMMIT3args COMMIT3args_ok (fun a => fh3_canon (coa_file a)) COMMIT3args_wire zero_COMMIT3args.
Proof. codec_struct. Qed.

(** The eight bytes of the verifier are those of the word pair they overlay. *)
Lemma le32_val_le32 z rest : le32_val (take 4 (le32 z ++ rest)) = u32 z.
Proof.
  unfold le32_val. change 4%nat with (length (le32 z)). rewrite take_app_length.
  unfold le32. by rewrite rev_involutive, be32_val_be32.
Qed.

Lemma drop_le32 z rest : drop 4 (le32 z ++ rest) = rest.
Proof. change 4%nat with (length (le32 z)). apply drop_app_length. Qed.

Lemma how_verf_set h v :
  is_i32 (sm_set_it (sat_mode (how_attributes h))) -> is_u32 (sm_mode (sat_mode (how_attributes h))) ->
  v <| how_verf := how_verf h |> =
    v <| how_attributes := (how_attributes v) <| sat_mode := sat_mode (how_attributes h) |> |>.
Proof.
  intros Hs Hm. unfold upd, how_verf_setter. unfold how_verf.
  rewrite drop_le32, le32_val_le32. rewrite <- (app_nil_r (le32 (sm_mode _))), le32_val_le32.
  rewrite i32_u32, i32_small, u32_small by done. by destruct h as [? [[] ? ? ? ? ?]].
Qed.

(** The members of the union that [xdr_createhow3] runs through. *)
Definition createhow3_ov (h o : createhow3) : createhow3 :=
  mk_createhow3 (how_mode h)
    (if decide (how_mode h = EXCLUSIVE)
     then (how_attributes o) <| sat_mode := sat_mode (how_attributes h) |>
     else sattr3_ov (how_attributes h) (how_attributes o)).

Lemma xdr_createhow3_spec : xdr_spec xdr_createhow3 createhow3_ok createhow3_wire createhow3_ov.
Proof.
  unfold xdr_createhow3. eapply spec_ext; [eapply (xseq_switch_spec _ _ (fun h => is_i32 (how_mode h))
    (fun h => be32 (how_mode h)) (fun h o => o <| how_mode := how_mode h |>) createhow3_ok
    (fun h => if decide (how_mode h = EXCLUSIVE) then how_verf h else sattr3_wire (how_attributes h))
    (fun h o => if decide (how_mode h = EXCLUSIVE)
       then o <| how_attributes := (how_attributes o) <| sat_mode := sat_mode (how_attributes h) |> |>
       else o <| how_attributes := sattr3_ov (how_attributes h) (how_attributes o) |>))|..].
  - apply (xfield_spec how_mode _ is_i32 be32 fresh); [apply xdr_enum_spec|by intros []].
  - intros a _ [[Hm Hs]|(Hm & Hi & Hu)].
    + rewrite decide_True by done. eapply spec_ext; [apply (xfield_spec how_attributes); [apply xdr_sattr3_spec|by intros []]|..];
        intros ? **; subst; [done|..]; rewrite decide_False by (destruct Hm as [-> | ->]; done); done.
    + rewrite Hm. rewrite decide_False by (intros [? | ?]; done). rewrite decide_True by done.
      eapply spec_ext; [apply (xfield_spec_on how_verf _ (fun b => b = a) _ _ _ (xdr_opaque_spec 8)); [by intros ? ->|]|..];
        intros ? **; subst.
      * rewrite how_verf_set by done. by destruct a as [? []].
      * done.
      * rewrite decide_True by done. apply app_nil_r.
      * rewrite decide_True by done. rewrite eight_app_drop by done. by apply how_verf_set.
  - done.
  - intros h Hok; split; [|exact Hok]. by destruct Hok as [[[-> | ->] ?]|(-> & ?)].
  - done.
  - intros [] [] ?; unfold createhow3_ov; simpl. by case_decide.
Qed.

Hint Resolve xdr_createhow3_spec : xdr.

(** the arguments of CREATE round-trip, with the attributes or the verifier as the mode selects. *)
Theorem CREATE3args_codec :
  codec xdr_CREATE3args CREATE3args_ok CREATE3args_canon CREATE3args_wire zero_CREATE3args.
Proof.
  unfold xdr_CREATE3args.
  eapply spec_codec; [repeat xspec_step|by intros [] []|intros [] ?; simpl; by rewrite app_nil_r|].
  intros [? h] _ [? Hc]; unfold createhow3_canon in Hc; simpl in *. autorewrite with canon. f_equal.
  unfold createhow3_ov. destruct h; simpl in *. case_decide; [by f_equal|]. by autorewrite with canon.
Qed.

Definition mknod_arm_ov (m : mknoddata3) (o : devicedata3) : devicedata3 :=
  if decide (is_device (mn_type m))
  then mk_devicedata3 (sattr3_ov (dev_attributes (mn_device m)) (dev_attributes o)) (dev_spec (mn_device m))
  else if decide (is_pipe (mn_type m))
  then o <| dev_attributes := sattr3_ov (dev_attributes (mn_device m)) (dev_attributes o) |>
  else o.

Lemma xdr_mknoddata3_spec :
  xdr_spec xdr_mknoddata3 mknoddata3_ok mknoddata3_wire
    (fun m o => mk_mknoddata3 (mn_type m) (mknod_arm_ov m (mn_device o))).
Proof.
  eapply spec_ext; [eapply (xseq_switch_spec _ _ (fun m => is_i32 (mn_type m))
    (fun m => be32 (mn_type m)) (fun m o => o <| mn_type := mn_type m |>) mknoddata3_ok
    (fun m => if decide (is_device (mn_type m))
       then sattr3_wire (dev_attributes (mn_device m)) ++ specdata3_wire (dev_spec (mn_device m))
       else if decide (is_pipe (mn_type m)) then sattr3_wire (dev_attributes (mn_device m)) else [])
    (fun m o => o <| mn_device := mknod_arm_ov m (mn_device o) |>))|..].
  - apply (xfield_spec mn_type _ is_i32 be32 fresh); [apply xdr_enum_spec|by intros []].
  - intros m _ (_ & Ha & Hs). fold (is_device (mn_type m)) (is_pipe (mn_type m)).
    destruct (decide (is_device (mn_type m))) as [Hd|Hd];
      [|destruct (decide (is_pipe (mn_type m))) as [Hp|Hp]].
    + unfold xdr_devicedata3. eapply spec_ext; [repeat xspec_step|..]; intros ? **; subst;
        [by split; eauto|by rewrite decide_True|unfold mknod_arm_ov; by rewrite decide_True].
    + eapply spec_ext; [repeat xspec_step|..]; intros ? **; subst;
        [by apply Ha; right|by rewrite decide_False, decide_True
        |unfold mknod_arm_ov; by rewrite decide_False, decide_True].
    + eapply spec_ext; [apply xtrue_spec|..]; intros ? **; subst;
        [done|by rewrite !decide_False|unfold mknod_arm_ov; rewrite !decide_False by done; by destruct o].
  - done.
  - intros m Hok; split; [apply Hok|done].
  - done.
  - done.
Qed.

Hint Resolve xdr_mknoddata3_spec : xdr.

(** the arguments of MKNOD round-trip, with the arm of the union the type selects. *)
Theorem MKNOD3args_codec :
  codec xdr_MKNOD3args MKNOD3args_ok MKNOD3args_canon MKNOD3args_wire zero_MKNOD3args.
Proof.
  unfold xdr_MKNOD3args. eapply spec_codec; [repeat xspec_step|by intros [] []|done|].
  intros [? [t [a sp]]] _ [? (Ha & Hz & Hs)]; unfold mknod_arm_ov; simpl in *. autorewrite with canon.
  do 2 f_equal. repeat case_decide; rewrite ?sattr3_ov_canon by auto; simpl; [done|..];
    rewrite ?Hs by done; rewrite ?Hz by tauto; done.
Qed.

End ArgCodecs.
