(* ===== verification/Nfs3ResSpecs.v ===== *)
(** * The results of the procedures on the wire

    The bytes RFC 1813 prescribes for the result of each procedure, and that the
    filter the server replies with emits exactly these. *)
From S2P Require Import Prelude XdrStream XdrPrim XdrSpec Nfs3Types Nfs3Msgs.

Open Scope Z_scope.
Open Scope dnfs_scope.

Definition encodes {P A} `{xdr_ops P} (p : xdrproc P A) (ok : A -> Prop) (wire : A -> list byte) : Prop :=
  forall (S : XdrSink P) xs a,
    snk_ok xs -> x_op xs = XDR_ENCODE -> ok a -> snk_fits xs (length (wire a)) ->
    exists xs', p xs a = (true, xs', a) /\ emits xs xs' (wire a).

Lemma spec_encodes {P A} `{xdr_ops P} (p : xdrproc P A) d w ov ok wire :
  xdr_spec p d w ov -> (forall a, ok a -> d a) -> (forall a, ok a -> w a = wire a) -> encodes p ok wire.
Proof. intros [He _ _] Hok Hw S xs a; intros. rewrite <- Hw in * by done. eauto. Qed.

(** A status, then the member of the union it selects. *)
Definition res_wire {U} (wok wfail : U -> list byte) (r : nfs3_res U) : list byte :=
  be32 (status r) ++ if decide (status r = NFS3_OK) then wok (res_u r) else wfail (res_u r).
Definition res_ok {U} (dok dfail : U -> Prop) (r : nfs3_res U) : Prop :=
  is_i32 (status r) /\ if decide (status r = NFS3_OK) then dok (res_u r) else dfail (res_u r).

Lemma res_encodes {P U} `{xdr_ops P} (p q : xdrproc P U) dok wok ovok dfail wfail ovfail :
  xdr_spec p dok wok ovok -> xdr_spec q dfail wfail ovfail ->
  encodes (xdr_nfsstat3 on status ;;;
           xswitch (fun o => if decide (status o = NFS3_OK) then p on res_u else q on res_u))
    (res_ok dok dfail) (res_wire wok wfail).
Proof.
  intros Hp Hq. eapply spec_encodes;
    [eapply (xseq_switch_spec _ _ (fun r => is_i32 (status r)) (fun r => be32 (status r))
       (fun r o => o <| status := status r |>) (res_ok dok dfail)
       (fun r => if decide (status r = NFS3_OK) then wok (res_u r) else wfail (res_u r))
       (fun r o => if decide (status r = NFS3_OK) then o <| res_u := ovok (res_u r) (res_u o) |>
                   else o <| res_u := ovfail (res_u r) (res_u o) |>))|..].
  - apply (xfield_spec status _ is_i32 be32 fresh); [apply xdr_enum_spec|by intros []].
  - intros r _ [_ Hr]. destruct (decide (status r = NFS3_OK)) as [Hs|Hs].
    + eapply spec_ext; [apply (xfield_spec res_u _ dok wok ovok); [done|by intros []]|..];
        intros ? **; subst; [done|by rewrite decide_True..].
    + eapply spec_ext; [apply (xfield_spec res_u _ dfail wfail ovfail); [done|by intros []]|..];
        intros ? **; subst; [done|by rewrite decide_False..].
  - done.
  - intros r Hr. split; [apply Hr|done].
  - done.
Qed.

(** ** The encodings *)

Definition LOOKUP3resok_ok (r : LOOKUP3resok) : Prop :=
  nfs_fh3_ok (lk_object r) /\ post_op_attr_ok (lk_obj_attributes r) /\ post_op_attr_ok (lk_dir_attributes r).
Definition LOOKUP3resok_wire (r : LOOKUP3resok) : list byte :=
  nfs_fh3_wire (lk_object r) ++ post_op_attr_wire (lk_obj_attributes r) ++ post_op_attr_wire (lk_dir_attributes r).

Definition ACCESS3resok_ok (r : ACCESS3resok) : Prop :=
  post_op_attr_ok (ac_obj_attributes r) /\ is_u32 (ac_access r).
Definition ACCESS3resok_wire (r : ACCESS3resok) : list byte :=
  post_op_attr_wire (ac_obj_attributes r) ++ be32 (ac_access r).

Definition READLINK3resok_ok (r : READLINK3resok) : Prop :=
  post_op_attr_ok (rl_symlink_attributes r) /\ string_ok XDR_STRING_MAXLEN (rl_data r).
Definition READLINK3resok_wire (r : READLINK3resok) : list byte :=
  post_op_attr_wire (rl_symlink_attributes r) ++ string_wire (rl_data r).

Definition READ3resok_ok (r : READ3resok) : Prop :=
  post_op_attr_ok (rd_file_attributes r) /\ is_u32 (rd_count r) /\ is_bool (rd_eof r) /\
  bytes_ok XDR_BYTES_MAXLEN_IO (rd_data r).
Definition READ3resok_wire (r : READ3resok) : list byte :=
  post_op_attr_wire (rd_file_attributes r) ++ be32 (rd_count r) ++ be32 (rd_eof r) ++ bytes_wire (rd_data r).

Definition WRITE3resok_ok (r : WRITE3resok) : Prop :=
  wcc_data_ok (wr_file_wcc r) /\ is_u32 (wr_count r) /\ is_i32 (wr_committed r) /\ length (wr_verf r) = 8%nat.
Definition WRITE3resok_wire (r : WRITE3resok) : list byte :=
  wcc_data_wire (wr_file_wcc r) ++ be32 (wr_count r) ++ be32 (wr_committed r) ++ opaque_wire (wr_verf r).

Definition CREATE3resok_ok (r : CREATE3resok) : Prop :=
  post_op_fh3_ok (cr_obj r) /\ post_op_attr_ok (cr_obj_attributes r) /\ wcc_data_ok (cr_dir_wcc r).
Definition CREATE3resok_wire (r : CREATE3resok) : list byte :=
  post_op_fh3_wire (cr_obj r) ++ post_op_attr_wire (cr_obj_attributes r) ++ wcc_data_wire (cr_dir_wcc r).

Definition RENAME3resok_ok (r : RENAME3resok) : Prop :=
  wcc_data_ok (rn_fromdir_wcc r) /\ wcc_data_ok (rn_todir_wcc r).
Definition RENAME3resok_wire (r : RENAME3resok) : list byte :=
  wcc_data_wire (rn_fromdir_wcc r) ++ wcc_data_wire (rn_todir_wcc r).

Definition LINK3resok_ok (r : LINK3resok) : Prop :=
  post_op_attr_ok (ln_file_attributes r) /\ wcc_data_ok (ln_linkdir_wcc r).
Definition LINK3resok_wire (r : LINK3resok) : list byte :=
  post_op_attr_wire (ln_file_attributes r) ++ wcc_data_wire (ln_linkdir_wcc r).

Definition FSSTAT3resok_ok (r : FSSTAT3resok) : Prop :=
  post_op_attr_ok (fs_obj_attributes r) /\ is_u64 (fs_tbytes r) /\ is_u64 (fs_fbytes r) /\
  is_u64 (fs_abytes r) /\ is_u64 (fs_tfiles r) /\ is_u64 (fs_ffiles r) /\ is_u64 (fs_afiles r) /\
  is_u32 (fs_invarsec r).
Definition FSSTAT3resok_wire (r : FSSTAT3resok) : list byte :=
  post_op_attr_wire (fs_obj_attributes r) ++ u64_wire (fs_tbytes r) ++ u64_wire (fs_fbytes r) ++
  u64_wire (fs_abytes r) ++ u64_wire (fs_tfiles r) ++ u64_wire (fs_ffiles r) ++ u64_wire (fs_afiles r) ++
  be32 (fs_invarsec r).

Definition FSINFO3resok_ok (r : FSINFO3resok) : Prop :=
  post_op_attr_ok (fi_obj_attributes r) /\ is_u32 (fi_rtmax r) /\ is_u32 (fi_rtpref r) /\
  is_u32 (fi_rtmult r) /\ is_u32 (fi_wtmax r) /\ is_u32 (fi_wtpref r) /\ is_u32 (fi_wtmult r) /\
  is_u32 (fi_dtpref r) /\ is_u64 (fi_maxfilesize r) /\ nfstime3_ok (fi_time_delta r) /\
  is_u32 (fi_properties r).
Definition FSINFO3resok_wire (r : FSINFO3resok) : list byte :=
  post_op_attr_wire (fi_obj_attributes r) ++ be32 (fi_rtmax r) ++ be32 (fi_rtpref r) ++ be32 (fi_rtmult r) ++
  be32 (fi_wtmax r) ++ be32 (fi_wtpref r) ++ be32 (fi_wtmult r) ++ be32 (fi_dtpref r) ++
  u64_wire (fi_maxfilesize r) ++ nfstime3_wire (fi_time_delta r) ++ be32 (fi_properties r).

Definition PATHCONF3resok_ok (r : PATHCONF3resok) : Prop :=
  post_op_attr_ok (pc_obj_attributes r) /\ is_u32 (pc_linkmax r) /\ is_u32 (pc_name_max r) /\
  is_bool (pc_no_trunc r) /\ is_bool (pc_chown_restricted r) /\ is_bool (pc_case_insensitive r) /\
  is_bool (pc_case_preserving r).
Definition PATHCONF3resok_wire (r : PATHCONF3resok) : list byte :=
  post_op_attr_wire (pc_obj_attributes r) ++ be32 (pc_linkmax r) ++ be32 (pc_name_max r) ++
  be32 (pc_no_trunc r) ++ be32 (pc_chown_restricted r) ++ be32 (pc_case_insensitive r) ++
  be32 (pc_case_preserving r).

Definition COMMIT3resok_ok (r : COMMIT3resok) : Prop :=
  wcc_data_ok (co_file_wcc r) /\ length (co_verf r) = 8%nat.
Definition COMMIT3resok_wire (r : COMMIT3resok) : list byte :=
  wcc_data_wire (co_file_wcc r) ++ opaque_wire (co_verf r).

(** Directory listings: every entry is preceded by TRUE, the end is FALSE. *)
Fixpoint entry3_wire (e : entry3) : list byte :=
  match e with
  | mk_entry3 fileid name cookie next =>
      u64_wire fileid ++ string_wire name ++ u64_wire cookie ++
      match next with None => be32 0 | Some e' => be32 1 ++ entry3_wire e' end
  end.
Fixpoint entry3_ok (fuel : nat) (e : entry3) : Prop :=
  match fuel with
  | O => False
  | S n => is_u64 (en_fileid e) /\ string_ok XDR_STRING_MAXLEN (en_name e) /\ is_u64 (en_cookie e) /\
           from_option (entry3_ok n) True (nextentry e)
  end.
Definition dirlist3_wire (d : dirlist3) : list byte :=
  match dl_entries d with None => be32 0 | Some e => be32 1 ++ entry3_wire e end ++ be32 (dl_eof d).
Definition READDIR3resok_ok (fuel : nat) (r : READDIR3resok) : Prop :=
  post_op_attr_ok (dr_dir_attributes r) /\ length (dr_cookieverf r) = 8%nat /\
  from_option (entry3_ok fuel) True (dl_entries (dr_reply r)) /\ is_bool (dl_eof (dr_reply r)).
Definition READDIR3resok_wire (r : READDIR3resok) : list byte :=
  post_op_attr_wire (dr_dir_attributes r) ++ opaque_wire (dr_cookieverf r) ++ dirlist3_wire (dr_reply r).

Fixpoint entryplus3_wire (e : entryplus3) : list byte :=
  match e with
  | mk_entryplus3 fileid name cookie attrs handle next =>
      u64_wire fileid ++ string_wire name ++ u64_wire cookie ++ post_op_attr_wire attrs ++
      post_op_fh3_wire handle ++
      match next with None => be32 0 | Some e' => be32 1 ++ entryplus3_wire e' end
  end.
Fixpoint entryplus3_ok (fuel : nat) (e : entryplus3) : Prop :=
  match fuel with
  | O => False
  | S n => is_u64 (ep_fileid e) /\ string_ok XDR_STRING_MAXLEN (ep_name e) /\ is_u64 (ep_cookie e) /\
           post_op_attr_ok (ep_name_attributes e) /\ post_op_fh3_ok (ep_name_handle e) /\
           from_option (entryplus3_ok n) True (ep_nextentry e)
  end.
Definition dirlistplus3_wire (d : dirlistplus3) : list byte :=
  match dp_entries d with None => be32 0 | Some e => be32 1 ++ entryplus3_wire e end ++ be32 (dp_eof d).
Definition READDIRPLUS3resok_ok (fuel : nat) (r : READDIRPLUS3resok) : Prop :=
  post_op_attr_ok (rp_dir_attributes r) /\ length (rp_cookieverf r) = 8%nat /\
  from_option (entryplus3_ok fuel) True (dp_entries (rp_reply r)) /\ is_bool (dp_eof (rp_reply r)).
Definition READDIRPLUS3resok_wire (r : READDIRPLUS3resok) : list byte :=
  post_op_attr_wire (rp_dir_attributes r) ++ opaque_wire (rp_cookieverf r) ++ dirlistplus3_wire (rp_reply r).

(** ** The filters emit the encodings *)

(** Unfolds the filter of a result and proves its two members as structures. *)
Ltac member_spec :=
  lazymatch goal with |- xdr_spec ?p _ _ _ => let h := head_of p in try unfold h end;
  eapply spec_ext;
  [repeat xspec_step | by intros [] ? | by intros [] ? | intros; reflexivity].

Ltac res_encodes_struct :=
  match goal with |- encodes ?p _ _ => let h := head_of p in unfold h end;
  eapply res_encodes; member_spec.

Section ResEncodes.
  Context {P : Type} `{xdr_ops P}.
  Context `{!UnionArm LOOKUP3resok LOOKUP3resfail} `{!UnionArm CREATE3resok CREATE3resfail}.

Lemma GETATTR3res_encodes :
  encodes xdr_GETATTR3res (res_ok fattr3_ok (fun _ => True)) (res_wire fattr3_wire (fun _ => [])).
Proof.
  unfold xdr_GETATTR3res. eapply spec_encodes;
    [apply (optional_spec xdr_nfsstat3 is_i32 status res_u xdr_GETATTR3resok fattr3_ok fattr3_wire fresh NFS3_OK
              (fun _ => xtrue));
     [apply xdr_enum_spec|apply xdr_fattr3_spec|by intros []|by intros []|by intros []|done]|..].
  - intros r [Hs Hr]. split; [done|]. intros Hz. by rewrite decide_True in Hr.
  - done.
Qed.

Lemma SETATTR3res_encodes :
  encodes xdr_SETATTR3res (res_ok wcc_data_ok wcc_data_ok) (res_wire wcc_data_wire wcc_data_wire).
Proof. eapply res_encodes; apply xdr_wcc_data_spec. Qed.

Lemma LOOKUP3res_encodes :
  encodes xdr_LOOKUP3res
    (res_ok LOOKUP3resok_ok (fun u => post_op_attr_ok (lkf_dir_attributes (arm_get u))))
    (res_wire LOOKUP3resok_wire (fun u => post_op_attr_wire (lkf_dir_attributes (arm_get u)))).
Proof.
  eapply res_encodes; [member_spec|].
  eapply (xfield_spec (arm_get (U:=LOOKUP3resok)) xdr_LOOKUP3resfail
            (fun f => post_op_attr_ok (lkf_dir_attributes f)) (fun f => post_op_attr_wire (lkf_dir_attributes f)));
    [member_spec|apply arm_put_get].
Qed.

Lemma ACCESS3res_encodes :
  encodes xdr_ACCESS3res (res_ok ACCESS3resok_ok (fun u => post_op_attr_ok (ac_obj_attributes u)))
    (res_wire ACCESS3resok_wire (fun u => post_op_attr_wire (ac_obj_attributes u))).
Proof. res_encodes_struct. Qed.

Lemma READLINK3res_encodes :
  encodes xdr_READLINK3res (res_ok READLINK3resok_ok (fun u => post_op_attr_ok (rl_symlink_attributes u)))
    (res_wire READLINK3resok_wire (fun u => post_op_attr_wire (rl_symlink_attributes u))).
Proof. res_encodes_struct. Qed.

(** the reply to READ is encoded to the bytes of RFC 1813, for success and for failure. *)
Theorem READ3res_encodes :
  encodes xdr_READ3res (res_ok READ3resok_ok (fun u => post_op_attr_ok (rd_file_attributes u)))
    (res_wire READ3resok_wire (fun u => post_op_attr_wire (rd_file_attributes u))).
Proof. res_encodes_struct. Qed.

Lemma WRITE3res_encodes :
  encodes xdr_WRITE3res (res_ok WRITE3resok_ok (fun u => wcc_data_ok (wr_file_wcc u)))
    (res_wire WRITE3resok_wire (fun u => wcc_data_wire (wr_file_wcc u))).
Proof. res_encodes_struct. Qed.

(** CREATE, MKDIR, SYMLINK and MKNOD share their members. *)
Lemma newobj_encodes (p : xdrproc P CREATE3resok) (q : xdrproc P CREATE3resfail) :
  p = xdr_CREATE3resok -> q = xdr_CREATE3resfail ->
  encodes (xdr_nfsstat3 on status ;;;
           xswitch (fun o => if decide (status o = NFS3_OK) then p on res_u else q on arm_get on res_u))
    (res_ok CREATE3resok_ok (fun u => wcc_data_ok (crf_dir_wcc (arm_get u))))
    (res_wire CREATE3resok_wire (fun u => wcc_data_wire (crf_dir_wcc (arm_get u)))).
Proof.
  intros -> ->. eapply res_encodes; [member_spec|].
  eapply (xfield_spec (arm_get (U:=CREATE3resok)) xdr_CREATE3resfail
            (fun f => wcc_data_ok (crf_dir_wcc f)) (fun f => wcc_data_wire (crf_dir_wcc f)));
    [member_spec|apply arm_put_get].
Qed.

Lemma REMOVE3res_encodes :
  encodes xdr_REMOVE3res (res_ok wcc_data_ok wcc_data_ok) (res_wire wcc_data_wire wcc_data_wire).
Proof. eapply res_encodes; apply xdr_wcc_data_spec. Qed.

Lemma RENAME3res_encodes :
  encodes xdr_RENAME3res (res_ok RENAME3resok_ok RENAME3resok_ok) (res_wire RENAME3resok_wire RENAME3resok_wire).
Proof. res_encodes_struct. Qed.

Lemma LINK3res_encodes :
  encodes xdr_LINK3res (res_ok LINK3resok_ok LINK3resok_ok) (res_wire LINK3resok_wire LINK3resok_wire).
Proof. res_encodes_struct. Qed.

Lemma FSSTAT3res_encodes :
  encodes xdr_FSSTAT3res (res_ok FSSTAT3resok_ok (fun u => post_op_attr_ok (fs_obj_attributes u)))
    (res_wire FSSTAT3resok_wire (fun u => post_op_attr_wire (fs_obj_attributes u))).
Proof. res_encodes_struct. Qed.

Lemma FSINFO3res_encodes :
  encodes xdr_FSINFO3res (res_ok FSINFO3resok_ok (fun u => post_op_attr_ok (fi_obj_attributes u)))
    (res_wire FSINFO3resok_wire (fun u => post_op_attr_wire (fi_obj_attributes u))).
Proof. res_encodes_struct. Qed.

Lemma PATHCONF3res_encodes :
  encodes xdr_PATHCONF3res (res_ok PATHCONF3resok_ok (fun u => post_op_attr_ok (pc_obj_attributes u)))
    (res_wire PATHCONF3resok_wire (fun u => post_op_attr_wire (pc_obj_attributes u))).
Proof. res_encodes_struct. Qed.

Lemma COMMIT3res_encodes :
  encodes xdr_COMMIT3res (res_ok COMMIT3resok_ok (fun u => wcc_data_ok (co_file_wcc u)))
    (res_wire COMMIT3resok_wire (fun u => wcc_data_wire (co_file_wcc u))).
Proof. res_encodes_struct. Qed.

(** The listings, by induction on the number of entries. *)
Lemma xdr_entry3_spec n : exists ov, xdr_spec (xdr_entry3 n) (entry3_ok n) entry3_wire ov.
Proof.
  induction n as [|n [ov IH]]; [by exists fresh; split|].
  eexists. simpl. eapply spec_ext; [repeat (xspec_step || (apply xdr_pointer_spec; exact IH))|..];
    [by intros [] ?|by intros [? ? ? []] ?|intros; reflexivity].
Qed.

Lemma xdr_entryplus3_spec n : exists ov, xdr_spec (xdr_entryplus3 n) (entryplus3_ok n) entryplus3_wire ov.
Proof.
  induction n as [|n [ov IH]]; [by exists fresh; split|].
  eexists. simpl. eapply spec_ext; [repeat (xspec_step || (apply xdr_pointer_spec; exact IH))|..];
    [by intros [] ?|by intros [? ? ? ? ? []] ?|intros; reflexivity].
Qed.

Lemma READDIR3res_encodes n :
  encodes (xdr_READDIR3res n) (res_ok (READDIR3resok_ok n) (fun u => post_op_attr_ok (dr_dir_attributes u)))
    (res_wire READDIR3resok_wire (fun u => post_op_attr_wire (dr_dir_attributes u))).
Proof.
  destruct (xdr_entry3_spec n) as [ov Hov]. eapply res_encodes; [|member_spec].
  unfold xdr_READDIR3resok, xdr_dirlist3.
  eapply spec_ext; [repeat (xspec_step || (apply xdr_pointer_spec; exact Hov))|..];
    [by intros [? ? []] ?|by intros [? ? [[] ?]] ?|intros; reflexivity].
Qed.

(** the reply to READDIRPLUS, with its chain of up to [n] entries, is encoded to the bytes of
    RFC 1813. *)
Theorem READDIRPLUS3res_encodes n :
  encodes (xdr_READDIRPLUS3res n)
    (res_ok (READDIRPLUS3resok_ok n) (fun u => post_op_attr_ok (rp_dir_attributes u)))
    (res_wire READDIRPLUS3resok_wire (fun u => post_op_attr_wire (rp_dir_attributes u))).
Proof.
  destruct (xdr_entryplus3_spec n) as [ov Hov]. eapply res_encodes; [|member_spec].
  unfold xdr_READDIRPLUS3resok, xdr_dirlistplus3.
  eapply spec_ext; [repeat (xspec_step || (apply xdr_pointer_spec; exact Hov))|..];
    [by intros [? ? []] ?|by intros [? ? [[] ?]] ?|intros; reflexivity].
Qed.

End ResEncodes.
