(* ===== verification/Posix.v ===== *)
(** * The system calls the server makes

    The kernel and the C library are not part of the program: their calls are the
    class [Posix] over an arbitrary state [FS], which may also hold what other
    threads and processes do between two calls.  A call is logged in the trace of
    the [world], over which the properties of the handlers are stated.  A path is
    the bytes of a C string without its NUL. *)
From S2P Require Import Prelude XdrPrim Nfs3Types.

Open Scope Z_scope.
Open Scope dnfs_scope.

(** ** Data of the C library *)

Record timespec := mk_timespec { ts_sec : Z; ts_nsec : Z }.
Record timeval := mk_timeval { tm_sec : Z; tm_usec : Z }.

(** [struct stat] *)
Record stat_t := mk_stat {
  st_mode : Z;
  st_nlink : Z;
  st_uid : Z;
  st_gid : Z;
  st_size : Z;
  st_blocks : Z;
  st_rdev : Z;
  st_dev : Z;
  st_ino : Z;
  st_atim : timespec;
  st_mtim : timespec;
  st_ctim : timespec }.

(** [struct statvfs] *)
Record statvfs_t := mk_statvfs {
  f_frsize : Z;
  f_blocks : Z;
  f_bfree : Z;
  f_bavail : Z;
  f_files : Z;
  f_ffree : Z;
  f_favail : Z }.

(** [struct dirent], as [scandir] gives it. *)
Record dirent := mk_dirent { d_ino : Z; d_name : list byte }.

Definition ENOENT : Z := 2.
Definition EACCES : Z := 13.
Definition ENOTDIR : Z := 20.

Definition S_IFMT : Z := 0xF000.
Definition S_IFSOCK : Z := 0xC000.
Definition S_IFLNK : Z := 0xA000.
Definition S_IFREG : Z := 0x8000.
Definition S_IFBLK : Z := 0x6000.
Definition S_IFDIR : Z := 0x4000.
Definition S_IFCHR : Z := 0x2000.
Definition S_IFIFO : Z := 0x1000.
Definition S_IRWXUGO : Z := 0x1FF.
Definition S_BLKSIZE : Z := 512.
Definition DEV_BSIZE : Z := 512.
Definition UTIME_NOW : Z := 2 ^ 30 - 1.
Definition NAME_MAX : Z := 255.
Definition LONG_MAX : Z := 2 ^ 63 - 1.

Definition O_RDONLY : Z := 0.
Definition O_WRONLY : Z := 1.
Definition O_CREAT : Z := 64.
Definition O_DIRECTORY : Z := 0x10000.

(** [gnu_dev_major], [gnu_dev_minor], [gnu_dev_makedev] *)
Definition major (dev : Z) : Z :=
  u32 (Z.lor (Z.land (Z.shiftr dev 8) 0xfff) (Z.land (Z.shiftr dev 32) 0xfffff000)).
Definition minor (dev : Z) : Z :=
  u32 (Z.lor (Z.land dev 0xff) (Z.land (Z.shiftr dev 12) 0xffffff00)).
Definition makedev (ma mi : Z) : Z :=
  Z.lor (Z.lor (Z.shiftl (Z.land ma 0xfff) 8) (Z.shiftl (Z.land ma 0xfffff000) 32))
        (Z.lor (Z.land mi 0xff) (Z.shiftl (Z.land mi 0xffffff00) 12)).

(** ** The calls *)

Abbreviation path := (list byte) (only parsing).

(** [inl errno] or the result; a [Z] result is the integer returned; [None] is a
    returned -1.  [heap_behind] is no call but the memory of the process where the
    source reads past the end of an object: the bytes up to the first NUL that
    lie behind a block of [malloc] (behind a block the allocator keeps the size of
    the next one, whose upper bytes are zero, so that there is such a NUL), and
    the bytes behind the NUL of a [std::string]. *)
Class Posix (FS : Type) := {
  sys_lstat : path -> FS -> (Z + stat_t) * FS;
  sys_chmod : path -> Z -> FS -> Z * FS;
  sys_chown : path -> Z -> Z -> FS -> Z * FS;
  sys_utimes : path -> option (timeval * timeval) -> FS -> Z * FS;
  sys_open : path -> Z -> FS -> Z * FS;
  sys_close : Z -> FS -> Z * FS;
  sys_preadv : Z -> Z -> Z -> FS -> option (list byte) * FS;
  sys_pwritev : Z -> list byte -> Z -> FS -> option Z * FS;
  sys_fsync : Z -> FS -> Z * FS;
  sys_mkdir : path -> Z -> FS -> Z * FS;
  sys_mknod : path -> Z -> Z -> FS -> Z * FS;
  sys_symlink : path -> path -> FS -> Z * FS;
  sys_link : path -> path -> FS -> Z * FS;
  sys_rename : path -> path -> FS -> Z * FS;
  sys_rmdir : path -> FS -> Z * FS;
  sys_remove : path -> FS -> Z * FS;
  sys_readlink : path -> Z -> FS -> option (list byte) * FS;
  sys_statvfs : path -> FS -> option statvfs_t * FS;
  sys_scandir : path -> FS -> option (list dirent) * FS;
  sys_lseek : Z -> Z -> FS -> Z * FS;
  sys_getdents64 : Z -> Z -> FS -> option (list byte) * FS;
  heap_behind : FS -> list byte * list byte }.

(** One call with its arguments and its result. *)
Inductive event :=
  | EvLstat (p : path) (r : Z + stat_t)
  | EvChmod (p : path) (mode r : Z)
  | EvChown (p : path) (uid gid r : Z)
  | EvUtimes (p : path) (tv : option (timeval * timeval)) (r : Z)
  | EvOpen (p : path) (flags r : Z)
  | EvClose (fd r : Z)
  | EvPreadv (fd len off : Z) (r : option (list byte))
  | EvPwritev (fd : Z) (data : list byte) (off : Z) (r : option Z)
  | EvFsync (fd r : Z)
  | EvMkdir (p : path) (mode r : Z)
  | EvMknod (p : path) (mode dev r : Z)
  | EvSymlink (target p : path) (r : Z)
  | EvLink (old new : path) (r : Z)
  | EvRename (old new : path) (r : Z)
  | EvRmdir (p : path) (r : Z)
  | EvRemove (p : path) (r : Z)
  | EvReadlink (p : path) (n : Z) (r : option (list byte))
  | EvStatvfs (p : path) (r : option statvfs_t)
  | EvScandir (p : path) (r : option (list dirent))
  | EvLseek (fd off r : Z)
  | EvGetdents64 (fd n : Z) (r : option (list byte)).

(** ** The state of the server *)

(** [struct fsal_share]: counters of open modes, [unsigned int]. *)
Record fsal_share := mk_share {
  share_access_read : Z;
  share_access_write : Z;
  share_deny_read : Z;
  share_deny_write : Z;
  share_deny_write_mand : Z }.
#[global] Instance eta_share : RecEta fsal_share := fun r =>
  mk_share (share_access_read r) (share_access_write r) (share_deny_read r) (share_deny_write r)
    (share_deny_write_mand r).

(** [struct f_handle].  [rwlock] counts how often the lock is held for writing:
    1 inside a critical section, 0 outside; an unlock of a free lock makes it
    negative.  [want_read], [want_write] and [fd_work] are only initialised. *)
Record f_handle := mk_f_handle {
  handle : Z;
  rwlock : Z;
  io_work : Z;
  fh_share : fsal_share }.
#[global] Instance eta_f_handle : RecEta f_handle := fun r =>
  mk_f_handle (handle r) (rwlock r) (io_work r) (fh_share r).

(** The table of open files, [class FsalHandle]. *)
Record FsalHandle := mk_FsalHandle {
  handle_map : gmap (list byte) f_handle;
  n_handle : f_handle }.
#[global] Instance eta_FsalHandle : RecEta FsalHandle := fun r => mk_FsalHandle (handle_map r) (n_handle r).

Record world (FS : Type) := mk_world {
  w_fs : FS;
  w_trace : list event;
  fsal_handle : FsalHandle }.
Arguments mk_world {FS}.
Arguments w_fs {FS}.
Arguments w_trace {FS}.
Arguments fsal_handle {FS}.
#[global] Instance eta_world FS : RecEta (world FS) := fun r =>
  mk_world (w_fs r) (w_trace r) (fsal_handle r).

Section Calls.
  Context {FS : Type} `{Posix FS}.

(** Runs a call and appends it to the trace. *)
Definition syscall {A} (f : FS -> A * FS) (ev : A -> event) : ST (world FS) A := fun w =>
  let '(a, fs') := f (w_fs w) in
  Some (a, w <| w_fs := fs' |> <| w_trace := w_trace w ++ [ev a] |>).

Definition lstat p := syscall (sys_lstat p) (EvLstat p).
Definition chmod p m := syscall (sys_chmod p m) (EvChmod p m).
Definition chown p u g := syscall (sys_chown p u g) (EvChown p u g).
Definition utimes p tv := syscall (sys_utimes p tv) (EvUtimes p tv).
Definition open p fl := syscall (sys_open p fl) (EvOpen p fl).
Definition close fd := syscall (sys_close fd) (EvClose fd).
Definition preadv fd len off := syscall (sys_preadv fd len off) (EvPreadv fd len off).
Definition pwritev fd data off := syscall (sys_pwritev fd data off) (EvPwritev fd data off).
Definition fsync fd := syscall (sys_fsync fd) (EvFsync fd).
Definition mkdir p m := syscall (sys_mkdir p m) (EvMkdir p m).
Definition mknod p m d := syscall (sys_mknod p m d) (EvMknod p m d).
Definition symlink t p := syscall (sys_symlink t p) (EvSymlink t p).
Definition link p q := syscall (sys_link p q) (EvLink p q).
Definition rename p q := syscall (sys_rename p q) (EvRename p q).
Definition rmdir p := syscall (sys_rmdir p) (EvRmdir p).
Definition remove p := syscall (sys_remove p) (EvRemove p).
Definition readlink p n := syscall (sys_readlink p n) (EvReadlink p n).
Definition statvfs p := syscall (sys_statvfs p) (EvStatvfs p).
Definition scandir p := syscall (sys_scandir p) (EvScandir p).
Definition lseek fd off := syscall (sys_lseek fd off) (EvLseek fd off).
Definition getdents64 fd n := syscall (sys_getdents64 fd n) (EvGetdents64 fd n).

End Calls.

(** ** Reasoning about handlers *)

(** [runs m h Q]: started with the table [h], [m] ends (without abort) with a
    result [a], a table [h'] and calls [evs] such that [Q a evs h'], whatever the
    system calls answer. *)
Definition runs {FS A} (m : ST (world FS) A) (h : FsalHandle)
    (Q : A -> list event -> FsalHandle -> Prop) : Prop :=
  forall w, fsal_handle w = h ->
  exists a w' evs, m w = Some (a, w') /\ w_trace w' = w_trace w ++ evs /\ Q a evs (fsal_handle w').

(** The calls that changed the file system. *)
Definition mutation (e : event) : bool :=
  match e with
  | EvChmod _ _ r | EvChown _ _ _ r | EvUtimes _ _ r | EvMkdir _ _ r | EvMknod _ _ _ r
  | EvSymlink _ _ r | EvLink _ _ r | EvRename _ _ r | EvRmdir _ r | EvRemove _ r => bool_decide (r = 0)
  | EvOpen _ fl r => bool_decide (Z.land fl O_CREAT <> 0 /\ r <> -1)
  | EvPwritev _ _ _ r => bool_decide (r <> None)
  | _ => false
  end.
Definition mutations (evs : list event) : list event := List.filter mutation evs.

Create HintDb runs discriminated.
#[export] Hint Constants Opaque : runs.

Section Runs.
  Context {FS : Type} `{Posix FS}.

Lemma runs_ret {A} (a : A) h Q : Q a [] h -> runs (FS:=FS) (ret a) h Q.
Proof. intros HQ w <-. exists a, w, []. by rewrite app_nil_r. Qed.

Lemma runs_bind {A B} (m : ST (world FS) A) (k : A -> ST (world FS) B) h Q1 Q :
  runs m h Q1 ->
  (forall a evs h', Q1 a evs h' -> runs (k a) h' (fun b evs' h'' => Q b (evs ++ evs') h'')) ->
  runs (bind m k) h Q.
Proof.
  intros Hm Hk w Hw. destruct (Hm w Hw) as (a & w1 & evs & Hm1 & Ht & HQ).
  destruct (Hk a evs _ HQ w1 eq_refl) as (b & w2 & evs' & Hk1 & Ht' & HQ').
  exists b, w2, (evs ++ evs'). unfold bind. rewrite Hm1, Hk1, Ht', Ht. by rewrite app_assoc.
Qed.

Lemma runs_mono {A} (m : ST (world FS) A) h (Q Q' : A -> list event -> FsalHandle -> Prop) :
  runs m h Q -> (forall a evs h', Q a evs h' -> Q' a evs h') -> runs m h Q'.
Proof. intros Hm HQ w Hw. destruct (Hm w Hw) as (a & w' & evs & ? & ? & ?). eauto 10. Qed.

Lemma runs_syscall {A} (f : FS -> A * FS) ev h Q :
  (forall a, Q a [ev a] h) -> runs (syscall f ev) h Q.
Proof.
  intros HQ w <-. unfold syscall. destruct (f (w_fs w)) as [a fs']. eexists _, _, _. by split_and!.
Qed.

Lemma runs_sys {A} (f : FS -> A * FS) ev h :
  runs (syscall f ev) h (fun a evs h' => evs = [ev a] /\ h' = h).
Proof. by apply runs_syscall. Qed.

Lemma runs_gets {A} (f : FsalHandle -> A) h Q :
  Q (f h) [] h -> runs (FS:=FS) (gets (fun w => f (fsal_handle w))) h Q.
Proof. intros HQ w <-. eexists _, w, []. by rewrite app_nil_r. Qed.

Lemma runs_modify (f : FsalHandle -> FsalHandle) h Q :
  Q tt [] (f h) -> runs (FS:=FS) (modify (fun w => w <| fsal_handle := f (fsal_handle w) |>)) h Q.
Proof. intros HQ w <-. eexists _, _, []. simpl. by rewrite app_nil_r. Qed.

End Runs.

Lemma mutations_app evs evs' : mutations (evs ++ evs') = mutations evs ++ mutations evs'.
Proof. apply List.filter_app. Qed.

Lemma mutations_cons e evs : mutations (e :: evs) = (if mutation e then [e] else []) ++ mutations evs.
Proof. simpl. by destruct (mutation e). Qed.

Lemma mutations_nil : mutations [] = [].
Proof. done. Qed.

(** A call that is only made under a condition, its result 0 when skipped. *)
Lemma runs_optional {FS} `{Posix FS} (C : Prop) `{!Decision C} (f : FS -> Z * FS) ev h :
  (forall r, mutation (ev r) = bool_decide (r = 0)) ->
  runs (if decide C then syscall f ev else ret 0) h (fun r evs h' =>
    (r = 0 /\ evs = (if decide C then [ev 0] else []) \/ r <> 0 /\ mutations evs = []) /\ h' = h).
Proof.
  intros Hm. case_decide; [|apply runs_ret; auto]. apply runs_syscall. intros r. split; [|done].
  destruct (decide (r = 0)) as [->|Hr]; [by left|right]. split; [done|].
  by rewrite mutations_cons, Hm, bool_decide_eq_false_2.
Qed.

(** What a run means for one start state. *)
Lemma runs_at {FS A} (m : ST (world FS) A) w Q :
  runs m (fsal_handle w) Q ->
  exists a w' evs, m w = Some (a, w') /\ w_trace w' = w_trace w ++ evs /\ Q a evs (fsal_handle w').
Proof. intros Hm. by apply Hm. Qed.
