(* ===== verification/NfsUtils.v ===== *)
(** * Helpers of the handlers ([src/nfs/nfs_utils.cpp])

    Attributes, path handles and the file-type test.  A file handle is the path
    of the file. *)
From S2P Require Import Prelude XdrPrim Nfs3Types Nfs3Msgs Posix.

Open Scope Z_scope.
Open Scope dnfs_scope.

(** ** Paths and handles *)

(** The C string a handle holds. *)
Definition path_of (h : nfs_fh3) : path := cstr (default [] (data_val (fh_data h))).

Definition slash : byte := x2f.

(** [string(dir) + "/" + name] *)
Definition join_path (dir : path) (name : filename3) : path := dir ++ slash :: cstr (default [] name).

(** [set_file_handle] *)
Definition set_file_handle (file_path : path) : nfs_fh3 :=
  mk_nfs_fh3 (mk_bytes (u32 (Z.of_nat (length file_path))) (Some (file_path ++ [x00]))).

(** ** Attributes *)

(** The type of a file from [st_mode & S_IFMT]. *)
Definition ftype3_of_mode (fmt : Z) : option Z :=
  if decide (fmt = S_IFIFO) then Some NF3FIFO
  else if decide (fmt = S_IFCHR) then Some NF3CHR
  else if decide (fmt = S_IFDIR) then Some NF3DIR
  else if decide (fmt = S_IFBLK) then Some NF3BLK
  else if decide (fmt = S_IFREG \/ fmt = S_IFMT) then Some NF3REG
  else if decide (fmt = S_IFLNK) then Some NF3LNK
  else if decide (fmt = S_IFSOCK) then Some NF3SOCK
  else None.

Definition S_ISCHR (mode : Z) : Prop := Z.land mode S_IFMT = S_IFCHR.
Definition S_ISBLK (mode : Z) : Prop := Z.land mode S_IFMT = S_IFBLK.

Definition time_of (t : timespec) : nfstime3 := mk_nfstime3 (u32 (ts_sec t)) (u32 (ts_nsec t)).

Definition fsid_of (dev : Z) : Z :=
  let ma := major dev in
  let mi := minor dev in
  Z.lxor ma (Z.lor (u64 (Z.shiftl mi 32)) (Z.shiftr mi 32)).

(** The assignments to [fattr->post_op_attr_u.attributes]; [rdev] keeps its value
    unless the file is a device. *)
Definition fattr3_of_stat (buf : stat_t) (type : Z) (old : fattr3) : fattr3 :=
  mk_fattr3 type (Z.land (st_mode buf) S_IRWXUGO) (u32 (st_nlink buf)) (u32 (st_uid buf))
    (u32 (st_gid buf)) (u64 (st_size buf)) (u64 (st_blocks buf * S_BLKSIZE))
    (if decide (S_ISCHR (st_mode buf) \/ S_ISBLK (st_mode buf))
     then mk_specdata3 (major (st_rdev buf)) (minor (st_rdev buf)) else fa_rdev old)
    (fsid_of (st_dev buf)) (u64 (st_ino buf))
    (time_of (st_atim buf)) (time_of (st_mtim buf)) (time_of (st_ctim buf)).

(** The status of a failed [lstat]. *)
Definition lstat_error (errno : Z) : Z :=
  if decide (errno = ENOENT) then NFS3ERR_NOENT
  else if decide (errno = ENOTDIR) then NFS3ERR_NOTDIR
  else if decide (errno = EACCES) then NFS3ERR_ACCES
  else NFS3ERR_BADHANDLE.

(** [struct post_op_attr get_a{};] and [pre_op_attr pre{};] *)
Definition zero_post_op_attr : post_op_attr := mk_post_op_attr 0 zero_fattr3.
Definition zero_pre_op_attr : pre_op_attr :=
  mk_pre_op_attr 0 (mk_wcc_attr 0 (mk_nfstime3 0 0) (mk_nfstime3 0 0)).

Section Utils.
  Context {FS : Type} `{Posix FS}.
  Abbreviation M := (ST (world FS)).

(** Copies the path to a buffer of its own, cut at [data_len].  A NULL pointer
    makes [std::string] throw.  The decoder allocates [data_len] bytes and puts no
    NUL behind them, so the string is built from the block and, when the block
    holds no NUL, from what lies behind it; and where the string is shorter than
    [data_len], [memcpy] reads on behind its NUL.  A block has at least [data_len]
    bytes. *)
Definition get_file_handle (request_handle : nfs_fh3) : M nfs_fh3 :=
  match data_val (fh_data request_handle) with
  | None => abort
  | Some val =>
      behind <- gets (fun w => heap_behind (w_fs w)) ;;
      let n := Z.to_nat (data_len (fh_data request_handle)) in
      let block := val ++ replicate (n - length val) x00 in
      let save_handle := cstr (block ++ fst behind ++ [x00]) in
      ret (mk_nfs_fh3 (mk_bytes (data_len (fh_data request_handle))
             (Some (take n (save_handle ++ [x00] ++ snd behind ++ replicate n x00) ++ [x00]))))
  end.

Definition nfs_set_post_op_attr (file_path : path) (fattr : post_op_attr) : M (Z * post_op_attr) :=
  stat_res <- lstat file_path ;;
  match stat_res with
  | inl errno => ret (lstat_error errno, fattr)
  | inr buf =>
      match ftype3_of_mode (Z.land (st_mode buf) S_IFMT) with
      | None => ret (NFS3ERR_BADHANDLE, fattr)
      | Some type =>
          ret (NFS3_OK, mk_post_op_attr TRUE (fattr3_of_stat buf type (poa_attributes fattr)))
      end
  end.

Definition get_pre_op_attr (file_path : path) (pre_attr : pre_op_attr) : M (Z * pre_op_attr) :=
  let! (status, get_a) := nfs_set_post_op_attr file_path zero_post_op_attr in
  if decide (status <> NFS3_OK) then ret (status, pre_attr)
  else
    let a := poa_attributes get_a in
    ret (NFS3_OK, mk_pre_op_attr TRUE (mk_wcc_attr (fa_size a) (fa_mtime a) (fa_ctime a))).

Definition judge_file_exit (file_path : path) (judge_mode : Z) : M bool :=
  r <- lstat file_path ;;
  match r with
  | inl _ => ret false
  | inr info => if decide (Z.land (st_mode info) judge_mode = 0) then ret false else ret true
  end.

Definition get_wcc_data (file_path : path) (pre_attr : pre_op_attr) (wccData : wcc_data)
  : M (Z * wcc_data) :=
  let! (status, get_a) := nfs_set_post_op_attr file_path zero_post_op_attr in
  if decide (status <> NFS3_OK) then ret (status, wccData)
  else ret (NFS3_OK, mk_wcc_data pre_attr get_a).

Definition remove_directory (p : path) : M bool :=
  r <- rmdir p ;; if decide (r <> 0) then ret false else ret true.

Definition remove_file (p : path) : M bool :=
  r <- remove p ;; if decide (r <> 0) then ret false else ret true.

(** What [nfs_set_sattr3] puts into [ts[0]] or [ts[1]]: nothing, the client's
    time, [UTIME_NOW], or the error return. *)
Definition time_setting (set_it : Z) (client : nfstime3) (ts : timespec) : option timespec :=
  if decide (set_it = DONT_CHANGE) then Some ts
  else if decide (set_it = SET_TO_CLIENT_TIME) then Some (mk_timespec (tv_sec client) (tv_nsec client))
  else if decide (set_it = SET_TO_SERVER_TIME) then Some (mk_timespec 0 UTIME_NOW)
  else None.

Definition TIMESPEC_TO_TIMEVAL (ts : timespec) : timeval := mk_timeval (ts_sec ts) (ts_nsec ts / 1000).

(** [junk] is what the uninitialised array [ts] holds on entry. *)
Definition nfs_set_sattr3 (junk : timespec * timespec) (file_path : path) (new_attr : sattr3) : M Z :=
  chmod_res <- (if decide (sm_set_it (sat_mode new_attr) <> 0)
                then chmod file_path (sm_mode (sat_mode new_attr)) else ret 0) ;;
  if decide (chmod_res <> 0) then ret NFS3ERR_INVAL
  else
    chown_res <- (if decide (sg_set_it (sat_gid new_attr) <> 0 \/ su_set_it (sat_uid new_attr) <> 0)
                  then chown file_path
                         (if decide (su_set_it (sat_uid new_attr) <> 0) then su_uid (sat_uid new_attr) else u32 (-1))
                         (if decide (sg_set_it (sat_gid new_attr) <> 0) then sg_gid (sat_gid new_attr) else u32 (-1))
                  else ret 0) ;;
    if decide (chown_res <> 0) then ret NFS3ERR_INVAL
    else
      match time_setting (sa_set_it (sat_atime new_attr)) (sa_atime (sat_atime new_attr)) (fst junk) with
      | None => ret NFS3ERR_INVAL
      | Some ts0 =>
          match time_setting (st_set_it (sat_mtime new_attr)) (st_mtime (sat_mtime new_attr)) (snd junk) with
          | None => ret NFS3ERR_INVAL
          | Some ts1 =>
              if decide (sa_set_it (sat_atime new_attr) <> DONT_CHANGE \/
                         st_set_it (sat_mtime new_attr) <> DONT_CHANGE)
              then
                utimes_res <- utimes file_path
                  (if decide (ts_nsec ts0 = UTIME_NOW \/ ts_nsec ts1 = UTIME_NOW) then None
                   else Some (TIMESPEC_TO_TIMEVAL ts0, TIMESPEC_TO_TIMEVAL ts1)) ;;
                if decide (utimes_res <> 0) then ret NFS3ERR_INVAL else ret NFS3_OK
              else ret NFS3_OK
          end
      end.

End Utils.

(** ** What the helpers do *)

(** The path a request handle names: its bytes up to the first NUL. *)
Definition handle_path (h : nfs_fh3) : path :=
  take (Z.to_nat (data_len (fh_data h))) (cstr (default [] (data_val (fh_data h)))).

(** What follows the NUL of a string is not part of a copy's string. *)
Lemma cstr_take_behind n (s rest : list byte) :
  no_nul s -> cstr (take n (s ++ x00 :: rest) ++ [x00]) = take n s.
Proof.
  intros Hs. destruct (decide (n <= length s)%nat) as [Hn|Hn].
  - rewrite take_app_le by done. apply cstr_app_nul. by apply Forall_take.
  - rewrite take_app_ge, (take_ge s) by lia. rewrite <- app_assoc.
    destruct (n - length s)%nat eqn:E; [lia|]. simpl. by apply cstr_app_nul.
Qed.

(** What lies behind a block of at least [n] bytes is not in the first [n] bytes
    of the string that starts with the block. *)
Lemma take_cstr_block n (v rest : list byte) :
  take n (cstr (v ++ replicate (n - length v) x00 ++ rest)) = take n (cstr v).
Proof.
  revert n. induction v as [|b v IH]; intros [|n]; simpl; try done; case_decide; try done.
  cbn [take]. by rewrite <- IH.
Qed.

(** The status, the attributes, and the file-type test as functions of what
    [lstat] answered. *)
Definition attr_status (r : Z + stat_t) : Z :=
  match r with
  | inl errno => lstat_error errno
  | inr buf => match ftype3_of_mode (Z.land (st_mode buf) S_IFMT) with
               | None => NFS3ERR_BADHANDLE | Some _ => NFS3_OK end
  end.

Definition attr_value (r : Z + stat_t) (old : post_op_attr) : post_op_attr :=
  match r with
  | inl _ => old
  | inr buf => match ftype3_of_mode (Z.land (st_mode buf) S_IFMT) with
               | None => old
               | Some type => mk_post_op_attr TRUE (fattr3_of_stat buf type (poa_attributes old)) end
  end.

Definition pre_value (r : Z + stat_t) (old : pre_op_attr) : pre_op_attr :=
  if decide (attr_status r = NFS3_OK)
  then let a := poa_attributes (attr_value r zero_post_op_attr) in
       mk_pre_op_attr TRUE (mk_wcc_attr (fa_size a) (fa_mtime a) (fa_ctime a))
  else old.

Definition wcc_value (r : Z + stat_t) (pre : pre_op_attr) (old : wcc_data) : wcc_data :=
  if decide (attr_status r = NFS3_OK) then mk_wcc_data pre (attr_value r zero_post_op_attr) else old.

Lemma wcc_value_ok r pre old :
  attr_status r = NFS3_OK -> wcc_value r pre old = mk_wcc_data pre (attr_value r zero_post_op_attr).
Proof. intros Hs. unfold wcc_value. by rewrite decide_True. Qed.

Definition file_is (mode : Z) (r : Z + stat_t) : bool :=
  match r with
  | inl _ => false
  | inr info => bool_decide (Z.land (st_mode info) mode <> 0)
  end.

Lemma handle_path_no_nul h : no_nul (handle_path h).
Proof. apply Forall_take, cstr_no_nul. Qed.

Lemma join_path_no_nul dir name : no_nul dir -> no_nul (join_path dir name).
Proof. intros Hd. apply Forall_app. split; [done|]. constructor; [done|]. apply cstr_no_nul. Qed.

(** A handle made from a path names that path. *)
Lemma path_of_set_file_handle p : no_nul p -> path_of (set_file_handle p) = p.
Proof. intros Hp. unfold path_of; simpl. by apply cstr_app_nul. Qed.

#[export] Hint Resolve handle_path_no_nul join_path_no_nul : runs.

Section UtilSpecs.
  Context {FS : Type} `{Posix FS}.

Lemma get_file_handle_runs h t :
  data_val (fh_data h) <> None ->
  runs (FS:=FS) (get_file_handle h) t (fun h' evs t' => path_of h' = handle_path h /\ evs = [] /\ t' = t).
Proof.
  destruct h as [[n [v|]]]; simpl; [|done]. intros _ w <-.
  eexists _, w, []. split_and!; [by cbv [get_file_handle bind gets ret]|by rewrite app_nil_r| |done..].
  unfold path_of, handle_path; simpl. rewrite cstr_take_behind by apply cstr_no_nul.
  by rewrite <- app_assoc, take_cstr_block.
Qed.

(** Without a buffer the process goes down. *)
Lemma get_file_handle_null h (w : world FS) : data_val (fh_data h) = None -> get_file_handle h w = None.
Proof. intros Hn. unfold get_file_handle. by rewrite Hn. Qed.

Lemma nfs_set_post_op_attr_runs p a t :
  runs (nfs_set_post_op_attr p a) t (fun x evs t' => exists r,
    x = (attr_status r, attr_value r a) /\ evs = [EvLstat p r] /\ t' = t).
Proof.
  eapply runs_bind; [apply runs_sys|]. intros r evs t' [-> ->]. unfold attr_status, attr_value.
  destruct r; [|destruct (ftype3_of_mode _) eqn:E]; apply runs_ret; eexists; split_and!; try done;
    simpl; by rewrite ?E.
Qed.

Lemma get_pre_op_attr_runs p pre t :
  runs (get_pre_op_attr p pre) t (fun x evs t' => exists r,
    x = (attr_status r, pre_value r pre) /\ evs = [EvLstat p r] /\ t' = t).
Proof.
  eapply runs_bind; [apply nfs_set_post_op_attr_runs|]. intros x evs t' (r & -> & -> & ->).
  case_decide as Hs; apply runs_ret; exists r; unfold pre_value.
  - by rewrite decide_False.
  - by rewrite Hs.
Qed.

Lemma get_wcc_data_runs p pre w t :
  runs (get_wcc_data p pre w) t (fun x evs t' => exists r,
    x = (attr_status r, wcc_value r pre w) /\ evs = [EvLstat p r] /\ t' = t).
Proof.
  eapply runs_bind; [apply nfs_set_post_op_attr_runs|]. intros x evs t' (r & -> & -> & ->).
  case_decide as Hs; apply runs_ret; exists r; unfold wcc_value.
  - by rewrite decide_False.
  - by rewrite Hs.
Qed.

Lemma judge_file_exit_runs p mode t :
  runs (judge_file_exit p mode) t (fun b evs t' => exists r,
    b = file_is mode r /\ evs = [EvLstat p r] /\ t' = t).
Proof.
  eapply runs_bind; [apply runs_sys|]. intros r evs t' [-> ->].
  destruct r as [e|info]; [apply runs_ret; by exists (inl e)|].
  case_decide as Hm; apply runs_ret; exists (inr info); simpl;
    by rewrite ?bool_decide_eq_false_2, ?bool_decide_eq_true_2 by tauto.
Qed.

Lemma remove_file_runs p t :
  runs (remove_file p) t (fun b evs t' => exists r,
    b = bool_decide (r = 0) /\ evs = [EvRemove p r] /\ t' = t).
Proof.
  eapply runs_bind; [apply runs_sys|]. intros r evs t' [-> ->].
  case_decide as Hm; apply runs_ret; exists r; split_and!; try done.
  - by rewrite bool_decide_eq_false_2.
  - rewrite bool_decide_eq_true_2; [done|lia].
Qed.

Lemma remove_directory_runs p t :
  runs (remove_directory p) t (fun b evs t' => exists r,
    b = bool_decide (r = 0) /\ evs = [EvRmdir p r] /\ t' = t).
Proof.
  eapply runs_bind; [apply runs_sys|]. intros r evs t' [-> ->].
  case_decide as Hm; apply runs_ret; exists r; split_and!; try done.
  - by rewrite bool_decide_eq_false_2.
  - rewrite bool_decide_eq_true_2; [done|lia].
Qed.

(** The calls that apply all the settings of [a], in order. *)
Definition sattr_chmod (p : path) (a : sattr3) : list event :=
  if decide (sm_set_it (sat_mode a) <> 0) then [EvChmod p (sm_mode (sat_mode a)) 0] else [].
Definition sattr_chown (p : path) (a : sattr3) : list event :=
  if decide (sg_set_it (sat_gid a) <> 0 \/ su_set_it (sat_uid a) <> 0)
  then [EvChown p (if decide (su_set_it (sat_uid a) <> 0) then su_uid (sat_uid a) else u32 (-1))
                  (if decide (sg_set_it (sat_gid a) <> 0) then sg_gid (sat_gid a) else u32 (-1)) 0]
  else [].
Definition sattr_times (junk : timespec * timespec) (a : sattr3) : option (timespec * timespec) :=
  match time_setting (sa_set_it (sat_atime a)) (sa_atime (sat_atime a)) (fst junk),
        time_setting (st_set_it (sat_mtime a)) (st_mtime (sat_mtime a)) (snd junk) with
  | Some ts0, Some ts1 => Some (ts0, ts1)
  | _, _ => None
  end.
Definition sattr_utimes (p : path) (a : sattr3) (ts : timespec * timespec) : list event :=
  if decide (sa_set_it (sat_atime a) <> DONT_CHANGE \/ st_set_it (sat_mtime a) <> DONT_CHANGE)
  then [EvUtimes p (if decide (ts_nsec (fst ts) = UTIME_NOW \/ ts_nsec (snd ts) = UTIME_NOW) then None
                    else Some (TIMESPEC_TO_TIMEVAL (fst ts), TIMESPEC_TO_TIMEVAL (snd ts))) 0]
  else [].

(** All settings applied, or an error after some of them, in order. *)
Definition sattr_done junk p a (x : Z) (evs : list event) : Prop :=
  match sattr_times junk a with
  | Some ts =>
      let all := sattr_chmod p a ++ sattr_chown p a ++ sattr_utimes p a ts in
      (x = NFS3_OK /\ evs = all) \/ (x = NFS3ERR_INVAL /\ mutations evs `prefix_of` all)
  | None => x = NFS3ERR_INVAL /\ mutations evs `prefix_of` sattr_chmod p a ++ sattr_chown p a
  end.

Lemma sattr_chmod_mutations p a : mutations (sattr_chmod p a) = sattr_chmod p a.
Proof. unfold sattr_chmod. by case_decide. Qed.

Lemma sattr_chown_mutations p a : mutations (sattr_chown p a) = sattr_chown p a.
Proof. unfold sattr_chown. by case_decide. Qed.

Lemma sattr_done_err junk p a evs :
  mutations evs `prefix_of` sattr_chmod p a ++ sattr_chown p a -> sattr_done junk p a NFS3ERR_INVAL evs.
Proof.
  intros Hp. unfold sattr_done. destruct (sattr_times junk a); [|done]. right. split; [done|].
  rewrite app_assoc. by apply prefix_app_r.
Qed.

Lemma nfs_set_sattr3_runs junk p a t :
  runs (nfs_set_sattr3 junk p a) t (fun x evs t' => sattr_done junk p a x evs /\ t' = t).
Proof.
  eapply runs_bind; [by apply runs_optional|]. fold (sattr_chmod p a).
  intros r evs t' [[[-> ->]|[Hr Hm]] ->]; case_decide; try done; cycle 1.
  { apply runs_ret; split; [|done]. apply sattr_done_err. rewrite app_nil_r, Hm. apply prefix_nil. }
  eapply runs_bind; [by apply runs_optional|]. fold (sattr_chown p a).
  intros r evs t' [[[-> ->]|[Hr Hm]] ->]; case_decide; try done; cycle 1.
  { apply runs_ret; split; [|done]. apply sattr_done_err.
    rewrite app_nil_r, mutations_app, Hm, sattr_chmod_mutations. apply prefix_app, prefix_nil. }
  assert (Hboth : forall evs, evs = sattr_chmod p a ++ sattr_chown p a -> sattr_done junk p a NFS3ERR_INVAL evs).
  { intros evs ->. apply sattr_done_err. by rewrite mutations_app, sattr_chmod_mutations, sattr_chown_mutations. }
  destruct (time_setting (sa_set_it _) _ _) as [ts0|] eqn:E0; cycle 1.
  { apply runs_ret; split; [|done]. apply Hboth. by rewrite app_nil_r. }
  destruct (time_setting (st_set_it _) _ _) as [ts1|] eqn:E1; cycle 1.
  { apply runs_ret; split; [|done]. apply Hboth. by rewrite app_nil_r. }
  assert (Ht : sattr_times junk a = Some (ts0, ts1)) by (unfold sattr_times; by rewrite E0, E1).
  case_decide as Hset; [|apply runs_ret; split; [|done]; unfold sattr_done, sattr_utimes; rewrite Ht;
    rewrite decide_False by done; left; by rewrite ?app_nil_r].
  eapply runs_bind; [apply runs_sys|]. intros r evs t' [-> ->].
  case_decide as Hr; apply runs_ret; (split; [|done]).
  - apply sattr_done_err. rewrite !mutations_app, mutations_cons, sattr_chmod_mutations, sattr_chown_mutations.
    simpl. rewrite bool_decide_eq_false_2, app_nil_r by done. reflexivity.
  - rewrite Hr. unfold sattr_done, sattr_utimes. rewrite Ht, (decide_True _ _ Hset). by left.
Qed.

End UtilSpecs.

#[export] Hint Resolve get_file_handle_runs nfs_set_post_op_attr_runs get_pre_op_attr_runs get_wcc_data_runs
  judge_file_exit_runs remove_file_runs remove_directory_runs nfs_set_sattr3_runs runs_sys : runs.
#[export] Hint Transparent lstat chmod chown utimes open close preadv pwritev fsync mkdir mknod symlink link
  rename rmdir remove readlink statvfs scandir lseek getdents64 : runs.

(** One step of a handler: a call through its specification, a branch, the end. *)
Ltac run_call :=
  eapply runs_bind; [solve [eauto with runs nocore]|];
  let a := fresh "x" in let evs := fresh "evs" in let t := fresh "t" in let Hq := fresh "Hq" in
  intros a evs t Hq; cbv beta in Hq;
  repeat match type of Hq with
  | exists _, _ => let r := fresh "r" in destruct Hq as [r Hq]
  end;
  destruct_and? Hq; subst;
  repeat match goal with Hp : path_of _ = handle_path _ |- _ => rewrite !Hp; clear Hp end.

(** A call whose result is the handler's. *)
Ltac run_tail :=
  eapply runs_mono; [solve [eauto with runs nocore]|];
  let rc := fresh "rc" in let res := fresh "res'" in let evs := fresh "evs" in let t := fresh "t" in
  let Hq := fresh "Hq" in
  intros [rc res] evs t Hq; cbv beta iota in Hq; destruct_and? Hq;
  repeat match goal with
  | Hx : exists _, _ |- _ => let r := fresh "r" in destruct Hx as [r Hx]; destruct_and? Hx
  end; subst.

Ltac run_step :=
  cbv beta iota zeta;
  lazymatch goal with
  | |- runs (ret _) _ _ => apply runs_ret
  | |- runs (bind _ _) _ _ => run_call
  | |- runs (if decide ?P then _ else _) _ _ => destruct (decide P)
  | |- runs (if negb ?b then _ else _) _ _ => destruct b eqn:?; [change (negb true) with false|change (negb false) with true]
  | |- runs (match ?x with _ => _ end) _ _ => destruct x eqn:?
  | |- runs _ _ _ => run_tail
  end.

(** Turns the tests a handler made into equations on the answers. *)
Ltac run_facts :=
  repeat match goal with
  | Hb : bool_decide (?r = 0) = true |- _ => apply bool_decide_eq_true in Hb; subst
  | Hb : ~ (_ <> _) |- _ => apply dec_stable in Hb; subst
  end.

(** Closes [mutations evs = []] and its like by evaluation. *)
Ltac run_mutations :=
  unfold mutations; simpl; rewrite ?bool_decide_eq_false_2 by first [assumption | tauto | done];
  repeat match goal with Hb : bool_decide _ = _ |- _ => rewrite Hb end; reflexivity.

(** Closes [status res' <> NFS3_OK]. *)
Ltac run_status :=
  simpl in *; try match goal with Hs : status ?r = _ |- status ?r <> _ => rewrite Hs end; done.

(** The outcome in which nothing was changed. *)
Ltac run_unchanged := right; split_and!; [simpl; run_mutations|run_status|done].

Ltac run_all := repeat run_step; run_facts.
