(* ===== verification/Fsal.v ===== *)
(** * Open files and share reservations ([src/file/fsal_handle.cpp],
    [include/file/fsal_handle.h], the share functions of [src/nfs/nfs_utils.cpp])

    One [f_handle] per path that was written to, with its descriptor, the number
    of running I/O operations and the share counters. *)
From S2P Require Import Prelude Posix.

Open Scope Z_scope.
Open Scope dnfs_scope.

Definition FSAL_O_CLOSED : Z := 0x0000.
Definition FSAL_O_READ : Z := 0x0001.
Definition FSAL_O_WRITE : Z := 0x0002.
Definition FSAL_O_ANY : Z := 0x0020.
Definition FSAL_O_DENY_READ : Z := 0x0100.
Definition FSAL_O_DENY_WRITE : Z := 0x0200.
Definition FSAL_O_DENY_WRITE_MAND : Z := 0x0400.

(** The error codes the share functions return. *)
Inductive fsal_errors := ERR_FSAL_NO_ERROR | ERR_FSAL_SHARE_DENIED.
#[global] Instance fsal_errors_eq_dec : EqDecision fsal_errors.
Proof. solve_decision. Defined.

Definition FSAL_IS_ERROR (e : fsal_errors) : bool := bool_decide (e <> ERR_FSAL_NO_ERROR).

(** [(flags & f) != 0] *)
Definition has (flags f : Z) : bool := bool_decide (Z.land flags f <> 0).

(** ** Share counters *)

Definition inc (new old f : Z) : Z := Z.b2z (has new f) - Z.b2z (has old f).

Definition update_share_counters (share : fsal_share) (old_openflags new_openflags : Z) : fsal_share :=
  let access_read_inc := inc new_openflags old_openflags FSAL_O_READ in
  let access_write_inc := inc new_openflags old_openflags FSAL_O_WRITE in
  let deny_read_inc := inc new_openflags old_openflags FSAL_O_DENY_READ in
  let deny_write_inc := inc new_openflags old_openflags FSAL_O_DENY_WRITE +
                        inc new_openflags old_openflags FSAL_O_DENY_WRITE_MAND in
  let deny_write_mand_inc := inc new_openflags old_openflags FSAL_O_DENY_WRITE_MAND in
  mk_share (u32 (share_access_read share + access_read_inc))
    (u32 (share_access_write share + access_write_inc))
    (u32 (share_deny_read share + deny_read_inc))
    (u32 (share_deny_write share + deny_write_inc))
    (u32 (share_deny_write_mand share + deny_write_mand_inc)).

Definition check_share_conflict (share : fsal_share) (openflags : Z) (bypass : bool) : fsal_errors :=
  if has openflags FSAL_O_READ && bool_decide (0 < share_deny_read share) && negb bypass
  then ERR_FSAL_SHARE_DENIED
  else if has openflags FSAL_O_WRITE &&
          (bool_decide (0 < share_deny_write_mand share) ||
           (negb bypass && bool_decide (0 < share_deny_write share)))
  then ERR_FSAL_SHARE_DENIED
  else if has openflags FSAL_O_DENY_READ && bool_decide (0 < share_access_read share)
  then ERR_FSAL_SHARE_DENIED
  else if (has openflags FSAL_O_DENY_WRITE || has openflags FSAL_O_DENY_WRITE_MAND) &&
          bool_decide (0 < share_access_write share)
  then ERR_FSAL_SHARE_DENIED
  else ERR_FSAL_NO_ERROR.

Definition check_share_conflict_and_update (share : fsal_share) (old_openflags new_openflags : Z)
    (bypass : bool) : fsal_errors * fsal_share :=
  let status := check_share_conflict share new_openflags bypass in
  if negb (FSAL_IS_ERROR status)
  then (status, update_share_counters share old_openflags new_openflags)
  else (status, share).

(** ** One handle *)

Definition pthread_lock_write (h : f_handle) : f_handle := h <| rwlock := rwlock h + 1 |>.
Definition pthread_unlock_rw (h : f_handle) : f_handle := h <| rwlock := rwlock h - 1 |>.

Definition check_share_conflict_and_update_locked (h : f_handle) (old_openflags new_openflags : Z)
    (bypass : bool) : fsal_errors * f_handle :=
  let h := pthread_lock_write h in
  let '(status, share) := check_share_conflict_and_update (fh_share h) old_openflags new_openflags bypass in
  (status, pthread_unlock_rw (h <| fh_share := share |>)).

Definition wait_to_start_io (h : f_handle) : fsal_errors * f_handle :=
  (ERR_FSAL_NO_ERROR, h <| io_work := i32 (io_work h + 1) |>).

(** [share]: whether the [share] pointer is not NULL.  On a conflict the lock,
    already released, is released again. *)
Definition fsal_start_global_io (h : f_handle) (openflags : Z) (bypass share : bool)
  : fsal_errors * f_handle :=
  let open_any := bool_decide (openflags = FSAL_O_ANY) in
  if negb open_any && share then
    let '(status, h) := check_share_conflict_and_update_locked h FSAL_O_CLOSED openflags bypass in
    if FSAL_IS_ERROR status then (status, pthread_unlock_rw h) else wait_to_start_io h
  else wait_to_start_io h.

(** [state]: whether there is a [state_t]. *)
Definition fsal_start_io (h : f_handle) (state : bool) (openflags : Z) (bypass share : bool)
  : fsal_errors * f_handle :=
  let h := if state then (wait_to_start_io h).2 else h in
  fsal_start_global_io h openflags bypass (if state then false else share).

(** One thread: the compare-and-exchange succeeds at once. *)
Definition atomic_add_unless_int32_t (var addend unless : Z) : bool * Z :=
  if decide (var = unless) then (false, var) else (true, i32 (var + addend)).

(** The flag says whether the mutex is held on return. *)
Definition PTHREAD_MUTEX_dec_int32_t_and_lock (var : Z) : bool * Z :=
  let '(added, var) := atomic_add_unless_int32_t var (-1) 1 in
  if added then (false, var)
  else
    let var := i32 (var + -1) in
    if decide (var = 0) then (true, var) else (false, var).

Definition fsal_complete_io (h : f_handle) : fsal_errors * f_handle :=
  let '(got_mutex, w) := PTHREAD_MUTEX_dec_int32_t_and_lock (io_work h) in
  (ERR_FSAL_NO_ERROR, h <| io_work := w |>).

Definition update_share_counters_locked (h : f_handle) (old_openflags new_openflags : Z) : f_handle :=
  let h := pthread_lock_write h in
  pthread_unlock_rw (h <| fh_share := update_share_counters (fh_share h) old_openflags new_openflags |>).

(** ** The table *)

(** [f_handle *]: an entry of the map, or [&n_handle]. *)
Abbreviation f_ref := (option (list byte)) (only parsing).

(** [f_handle n_handle = {-1};] *)
Definition zero_share : fsal_share := mk_share 0 0 0 0 0.
Definition empty_table : FsalHandle := mk_FsalHandle ∅ (mk_f_handle (-1) 0 0 zero_share).

Definition deref (t : FsalHandle) (r : f_ref) : f_handle :=
  match r with
  | Some p => default (n_handle t) (handle_map t !! p)
  | None => n_handle t
  end.

Definition store (r : f_ref) (h : f_handle) (t : FsalHandle) : FsalHandle :=
  match r with
  | Some p => t <| handle_map := <[p := h]> (handle_map t) |>
  | None => t <| n_handle := h |>
  end.

Section Table.
  Context {FS : Type} `{Posix FS}.
  Abbreviation M := (ST (world FS)).

Definition get_table : M FsalHandle := gets (fun w => fsal_handle w).
Definition load (r : f_ref) : M f_handle := gets (fun w => deref (fsal_handle w) r).
Definition save (r : f_ref) (h : f_handle) : M unit :=
  modify (fun w => w <| fsal_handle := store r h (fsal_handle w) |>).

Definition judge_handle_exist (p : path) : M bool :=
  t <- get_table ;; ret (bool_decide (handle_map t !! p <> None)).

Definition push_handle (p : path) : M bool :=
  there <- judge_handle_exist p ;;
  if negb there then
    file_handle <- open p (Z.lor O_CREAT O_WRONLY) ;;
    if decide (file_handle = -1) then ret false
    else save (Some p) (mk_f_handle file_handle 0 0 zero_share) ;; ret true
  else ret true.

Definition get_handle (p : path) : M f_ref :=
  there <- judge_handle_exist p ;;
  if (there : bool) then
    h <- load (Some p) ;;
    (if decide (handle h = -1) then
       fd <- open p (Z.lor O_CREAT O_WRONLY) ;; save (Some p) (h <| handle := fd |>)
     else ret tt) ;;
    ret (Some p)
  else
    pushed <- push_handle p ;;
    if (pushed : bool) then ret (Some p) else ret None.

Definition just_get_handle (p : path) : M f_ref :=
  there <- judge_handle_exist p ;;
  if (there : bool) then ret (Some p) else ret None.

Definition close_handle (r : f_ref) : M unit :=
  h <- load r ;;
  if decide (handle h <> -1) then
    close (handle h) ;; save r (h <| handle := -1 |>)
  else ret tt.

End Table.

(** ** Share reservations: what the counters mean *)

(** The abstract state is the list of the modes held open.  [count f opens] is
    how many of them have the flag [f]. *)
Definition count (f : Z) (opens : list Z) : Z := Z.of_nat (length (List.filter (fun o => has o f) opens)).

(** The counters represent the opens, at the width of [unsigned int]. *)
Definition represents (share : fsal_share) (opens : list Z) : Prop :=
  share_access_read share = u32 (count FSAL_O_READ opens) /\
  share_access_write share = u32 (count FSAL_O_WRITE opens) /\
  share_deny_read share = u32 (count FSAL_O_DENY_READ opens) /\
  share_deny_write share = u32 (count FSAL_O_DENY_WRITE opens + count FSAL_O_DENY_WRITE_MAND opens) /\
  share_deny_write_mand share = u32 (count FSAL_O_DENY_WRITE_MAND opens).

Definition denies_write (o : Z) : bool := has o FSAL_O_DENY_WRITE || has o FSAL_O_DENY_WRITE_MAND.

(** A new open mode against one that is held.  [bypass] lets it pass the deny
    modes that are not mandatory. *)
Definition conflicts (bypass : bool) (new held : Z) : bool :=
  (has new FSAL_O_READ && has held FSAL_O_DENY_READ && negb bypass) ||
  (has new FSAL_O_WRITE && (has held FSAL_O_DENY_WRITE_MAND || (negb bypass && denies_write held))) ||
  (has new FSAL_O_DENY_READ && has held FSAL_O_READ) ||
  (denies_write new && has held FSAL_O_WRITE).

Lemma count_cons f o opens : count f (o :: opens) = Z.b2z (has o f) + count f opens.
Proof. unfold count. simpl. destruct (has o f); simpl; lia. Qed.

Lemma count_bounds f opens : 0 <= count f opens <= Z.of_nat (length opens).
Proof. induction opens as [|o l IH]; [done|]. rewrite count_cons. simpl. destruct (has o f); simpl; lia. Qed.

Lemma count_pos f opens : bool_decide (0 < count f opens) = existsb (fun o => has o f) opens.
Proof.
  induction opens as [|o l IH]; [done|]. simpl. rewrite <- IH, count_cons.
  pose proof (count_bounds f l). destruct (has o f); simpl; [|done]. rewrite bool_decide_eq_true_2; [done|lia].
Qed.

Lemma u32_add_l a b : u32 (u32 a + b) = u32 (a + b).
Proof. unfold u32. by rewrite Zplus_mod_idemp_l. Qed.

Lemma represents_nil : represents zero_share [].
Proof. done. Qed.

(** Changing one open from [old] to [new]; [FSAL_O_CLOSED] counts nowhere. *)
Lemma update_represents share old new opens :
  represents share (old :: opens) -> represents (update_share_counters share old new) (new :: opens).
Proof.
  intros (Hr & Hw & Hdr & Hdw & Hm). unfold represents, update_share_counters, inc; cbn.
  rewrite Hr, Hw, Hdr, Hdw, Hm, !u32_add_l, !count_cons. split_and!; f_equal; lia.
Qed.

Lemma represents_closed share opens : represents share (FSAL_O_CLOSED :: opens) <-> represents share opens.
Proof. unfold represents. rewrite !count_cons. done. Qed.

Lemma existsb_orb {A} (f g : A -> bool) l : existsb (fun x => f x || g x) l = existsb f l || existsb g l.
Proof. induction l as [|x l IH]; [done|]. simpl. rewrite IH. by destruct (f x), (g x), (existsb f l). Qed.

Lemma existsb_andb {A} (b : bool) (f : A -> bool) l : existsb (fun x => b && f x) l = b && existsb f l.
Proof. induction l as [|x l IH]; [by destruct b|]. simpl. rewrite IH. by destruct b. Qed.

(** As long as the counters cannot have wrapped, the test against them is the
    test against every open held. *)
Lemma check_share_conflict_spec share opens new bypass :
  represents share opens -> Z.of_nat (length opens) < 2 ^ 31 ->
  check_share_conflict share new bypass =
    if existsb (conflicts bypass new) opens then ERR_FSAL_SHARE_DENIED else ERR_FSAL_NO_ERROR.
Proof.
  intros (Hr & Hw & Hdr & Hdw & Hm) Hlen.
  pose proof (fun f => count_bounds f opens) as Hb.
  assert (Hpos : bool_decide (0 < count FSAL_O_DENY_WRITE opens + count FSAL_O_DENY_WRITE_MAND opens) =
                 existsb denies_write opens).
  { unfold denies_write. rewrite existsb_orb, <- !count_pos.
    pose proof (Hb FSAL_O_DENY_WRITE). pose proof (Hb FSAL_O_DENY_WRITE_MAND).
    repeat case_bool_decide; simpl; try done; lia. }
  unfold check_share_conflict. rewrite Hr, Hw, Hdr, Hdw, Hm.
  rewrite !u32_small by (unfold is_u32; pose proof (Hb FSAL_O_READ); pose proof (Hb FSAL_O_WRITE);
    pose proof (Hb FSAL_O_DENY_READ); pose proof (Hb FSAL_O_DENY_WRITE);
    pose proof (Hb FSAL_O_DENY_WRITE_MAND); lia).
  rewrite Hpos, !count_pos.
  assert (He : existsb (conflicts bypass new) opens =
    (has new FSAL_O_READ && negb bypass && existsb (fun o => has o FSAL_O_DENY_READ) opens) ||
    (has new FSAL_O_WRITE && (existsb (fun o => has o FSAL_O_DENY_WRITE_MAND) opens ||
                              (negb bypass && existsb denies_write opens))) ||
    (has new FSAL_O_DENY_READ && existsb (fun o => has o FSAL_O_READ) opens) ||
    (denies_write new && existsb (fun o => has o FSAL_O_WRITE) opens)).
  { rewrite <- !existsb_andb, <- existsb_orb, <- existsb_andb, <- !existsb_orb.
    clear. induction opens as [|o l IH]; [done|]. simpl. rewrite <- IH. f_equal. unfold conflicts.
    by destruct (has new FSAL_O_READ), (has o FSAL_O_DENY_READ), bypass. }
  rewrite He. change (denies_write new) with (has new FSAL_O_DENY_WRITE || has new FSAL_O_DENY_WRITE_MAND).
  clear.
  by destruct (has new FSAL_O_READ), (has new FSAL_O_WRITE), (has new FSAL_O_DENY_READ),
    (has new FSAL_O_DENY_WRITE), (has new FSAL_O_DENY_WRITE_MAND), bypass,
    (existsb (fun o => has o FSAL_O_DENY_READ) opens), (existsb (fun o => has o FSAL_O_DENY_WRITE_MAND) opens),
    (existsb denies_write opens), (existsb (fun o => has o FSAL_O_READ) opens),
    (existsb (fun o => has o FSAL_O_WRITE) opens).
Qed.

(** ** Share reservations as a state machine *)

(** A handle and the modes held on it: an open is granted or refused as
    [check_share_conflict_and_update] says, one of the opens is closed. *)
Inductive share_step : fsal_share * list Z -> fsal_share * list Z -> Prop :=
  | ShareOpen share share' opens new :
      check_share_conflict_and_update share FSAL_O_CLOSED new false = (ERR_FSAL_NO_ERROR, share') ->
      Z.of_nat (length opens) < 2 ^ 31 ->
      share_step (share, opens) (share', new :: opens)
  | ShareDenied share share' opens new :
      check_share_conflict_and_update share FSAL_O_CLOSED new false = (ERR_FSAL_SHARE_DENIED, share') ->
      share_step (share, opens) (share', opens)
  | ShareClose share opens1 old opens2 :
      share_step (share, opens1 ++ old :: opens2)
        (update_share_counters share old FSAL_O_CLOSED, opens1 ++ opens2).

Definition share_reachable : fsal_share * list Z -> Prop := rtc share_step (zero_share, []).

(** No two opens held at once conflict, in either order. *)
Definition compatible (o1 o2 : Z) : Prop := conflicts false o1 o2 = false /\ conflicts false o2 o1 = false.
Definition share_inv (s : fsal_share * list Z) : Prop := represents s.1 s.2 /\ ForallOrdPairs compatible s.2.

Lemma conflicts_sym o1 o2 : conflicts false o1 o2 = conflicts false o2 o1.
Proof.
  unfold conflicts, denies_write. simpl.
  by destruct (has o1 FSAL_O_READ), (has o1 FSAL_O_WRITE), (has o1 FSAL_O_DENY_READ), (has o1 FSAL_O_DENY_WRITE),
    (has o1 FSAL_O_DENY_WRITE_MAND), (has o2 FSAL_O_READ), (has o2 FSAL_O_WRITE), (has o2 FSAL_O_DENY_READ),
    (has o2 FSAL_O_DENY_WRITE), (has o2 FSAL_O_DENY_WRITE_MAND).
Qed.

Lemma count_app f l1 l2 : count f (l1 ++ l2) = count f l1 + count f l2.
Proof. unfold count. rewrite List.filter_app, length_app. lia. Qed.

Lemma represents_swap share l1 o l2 : represents share (l1 ++ o :: l2) <-> represents share (o :: l1 ++ l2).
Proof.
  assert (Hc : forall f, count f (l1 ++ o :: l2) = count f (o :: l1 ++ l2)).
  { intros f. rewrite count_cons, !count_app, count_cons. lia. }
  unfold represents. by rewrite !Hc.
Qed.

Lemma compatible_remove l1 o l2 :
  ForallOrdPairs compatible (l1 ++ o :: l2) -> ForallOrdPairs compatible (l1 ++ l2).
Proof.
  induction l1 as [|x l1 IH]; simpl; intros Hp; inversion Hp as [|? ? Hx Hl]; subst; [done|].
  constructor; [|by apply IH]. apply Forall_app in Hx as [Hx1 Hx2]. apply Forall_app. split; [done|].
  by inversion Hx2.
Qed.

Lemma share_step_inv s s' : share_inv s -> share_step s s' -> share_inv s'.
Proof.
  intros [Hr Hp] Hs. inversion Hs as [sh sh' opens new Hc Hlen|sh sh' opens new Hc|sh l1 old l2];
    subst; simpl in *; unfold check_share_conflict_and_update in *.
  - rewrite (check_share_conflict_spec _ _ _ _ Hr Hlen) in Hc.
    destruct (existsb _ _) eqn:E; simpl in Hc; simplify_eq. split; simpl.
    + by apply update_represents, (proj2 (represents_closed _ _)).
    + constructor; [|done]. apply List.Forall_forall. intros o Ho.
      assert (Hf : conflicts false new o = false).
      { apply not_true_is_false. intros Ht. apply not_true_iff_false in E. apply E, existsb_exists. eauto. }
      split; [done|]. by rewrite conflicts_sym.
  - destruct (check_share_conflict sh new false); simpl in Hc; by simplify_eq.
  - split; simpl; [|by eapply compatible_remove].
    apply (proj1 (represents_closed _ _)), update_represents. by apply (proj1 (represents_swap _ _ _ _)).
Qed.

Lemma share_reachable_inv s : share_reachable s -> share_inv s.
Proof.
  intros Hs. assert (H0 : share_inv (zero_share, [])) by (split; [done|constructor]).
  induction Hs as [|a b c Hab Hbc IH]; [done|]. eapply IH, share_step_inv; eauto.
Qed.

(** ** Start and completion of an operation *)

(** The work counter, while it does not overflow. *)
Definition io_room (h : f_handle) : Prop := 0 <= io_work h < 2 ^ 31 - 1.

Lemma dec_and_lock_spec v :
  0 < v < 2 ^ 31 -> PTHREAD_MUTEX_dec_int32_t_and_lock v = (bool_decide (v = 1), v - 1).
Proof.
  intros Hv. unfold PTHREAD_MUTEX_dec_int32_t_and_lock, atomic_add_unless_int32_t.
  destruct (decide (v = 1)) as [->|Hne]; [done|].
  rewrite i32_small by (unfold is_i32; lia). by rewrite bool_decide_eq_false_2.
Qed.

Lemma fsal_complete_io_spec h :
  0 < io_work h < 2 ^ 31 -> fsal_complete_io h = (ERR_FSAL_NO_ERROR, h <| io_work := io_work h - 1 |>).
Proof. intros Hw. unfold fsal_complete_io. by rewrite dec_and_lock_spec. Qed.

(** ** The invariant of the table *)

(** Nobody asks for a deny mode and no lock is held between requests. *)
Definition handle_ok (h : f_handle) : Prop :=
  rwlock h = 0 /\ share_deny_read (fh_share h) = 0 /\ share_deny_write (fh_share h) = 0 /\
  share_deny_write_mand (fh_share h) = 0.

(** Between requests every descriptor is closed. *)
Definition table_idle (t : FsalHandle) : Prop :=
  handle (n_handle t) = -1 /\ map_Forall (fun _ h => handle h = -1 /\ handle_ok h) (handle_map t).

Lemma empty_table_idle : table_idle empty_table.
Proof. split; [done|]. apply map_Forall_empty. Qed.

(** Without deny modes a write is never refused, and the lock is left free. *)
Lemma start_write_ok h :
  handle_ok h -> exists h', fsal_start_io h false FSAL_O_WRITE false true = (ERR_FSAL_NO_ERROR, h') /\
    handle_ok h' /\ handle h' = handle h /\ io_work h' = i32 (io_work h + 1) /\
    fh_share h' = update_share_counters (fh_share h) FSAL_O_CLOSED FSAL_O_WRITE.
Proof.
  intros (Hl & Hr & Hw & Hm). unfold fsal_start_io, fsal_start_global_io.
  unfold check_share_conflict_and_update_locked, check_share_conflict_and_update, check_share_conflict; simpl.
  rewrite Hw, Hm; simpl. eexists. split; [done|]. unfold handle_ok; simpl. rewrite Hl, Hr, Hw, Hm. done.
Qed.

Lemma complete_ok h : handle_ok h -> handle_ok (fsal_complete_io h).2 /\
  handle (fsal_complete_io h).2 = handle h /\ fh_share (fsal_complete_io h).2 = fh_share h.
Proof. unfold fsal_complete_io. by destruct (PTHREAD_MUTEX_dec_int32_t_and_lock _). Qed.

Lemma end_write_ok h :
  handle_ok h -> handle_ok (update_share_counters_locked h FSAL_O_WRITE FSAL_O_CLOSED).
Proof. intros (Hl & Hr & Hw & Hm). unfold handle_ok; simpl. by rewrite Hl, Hr, Hw, Hm. Qed.

(** Start and completion of a write leave the handle as it was. *)
Lemma write_balanced h h' :
  handle_ok h -> io_room h -> is_u32 (share_access_read (fh_share h)) -> is_u32 (share_access_write (fh_share h)) ->
  fsal_start_io h false FSAL_O_WRITE false true = (ERR_FSAL_NO_ERROR, h') ->
  update_share_counters_locked (fsal_complete_io h').2 FSAL_O_WRITE FSAL_O_CLOSED = h.
Proof.
  intros Hok Hio Har Haw Hs. destruct (start_write_ok h Hok) as (h1 & Hs1 & Hok1 & Hh & Hw & Hsh).
  rewrite Hs in Hs1; simplify_eq. unfold io_room in Hio. rewrite i32_small in Hw by (unfold is_i32; lia).
  rewrite fsal_complete_io_spec by lia. simpl. destruct h as [fd l w sh], h1 as [fd1 l1 w1 sh1], sh as [a b c d e].
  destruct Hok as (Hl & Hr & Hdw & Hm), Hok1 as (Hl1 & _); simpl in *; subst.
  unfold update_share_counters_locked, update_share_counters, pthread_lock_write, pthread_unlock_rw; cbn.
  rewrite !u32_add_l. unfold inc; simpl. unfold is_u32 in *.
  f_equal; [lia|]. f_equal; try done; rewrite u32_small by (unfold is_u32; lia); lia.
Qed.

(** ** What the table operations do *)

(** The entry of a path before it is opened; a new one is zeroed memory. *)
Definition entry (t : FsalHandle) (p : path) : f_handle :=
  default (mk_f_handle (-1) 0 0 zero_share) (handle_map t !! p).

Lemma entry_idle t p : table_idle t -> handle (entry t p) = -1 /\ handle_ok (entry t p).
Proof.
  intros [_ Hm]. unfold entry. destruct (handle_map t !! p) as [h|] eqn:E; [by apply (Hm p)|done].
Qed.

Lemma deref_store r h t : deref (store r h t) r = h.
Proof. destruct r as [p|]; simpl; [|done]. by rewrite lookup_insert_eq. Qed.

Lemma store_store r h h' t : store r h' (store r h t) = store r h' t.
Proof. destruct r as [p|], t; unfold store; simpl; [|done]. by rewrite insert_insert_eq. Qed.

Lemma deref_idle t r : table_idle t -> handle (deref t r) = -1.
Proof.
  intros [Hn Hm]. destruct r as [p|]; simpl; [|done].
  destruct (handle_map t !! p) as [h|] eqn:E; simpl; [by apply (Hm p)|done].
Qed.

Lemma store_idle t p h : table_idle t -> handle h = -1 -> handle_ok h -> table_idle (store (Some p) h t).
Proof. intros [Hn Hm] Hh Hok. split; [done|]. simpl. by apply map_Forall_insert_2. Qed.

Section TableSpecs.
  Context {FS : Type} `{Posix FS}.

Lemma load_runs r t : runs (FS:=FS) (load r) t (fun h evs t' => h = deref t r /\ evs = [] /\ t' = t).
Proof. by apply (runs_gets (fun t => deref t r)). Qed.

Lemma save_runs r h t : runs (FS:=FS) (save r h) t (fun _ evs t' => evs = [] /\ t' = store r h t).
Proof. by apply (runs_modify (store r h)). Qed.

Lemma judge_handle_exist_runs p t :
  runs (FS:=FS) (judge_handle_exist p) t (fun b evs t' =>
    b = bool_decide (handle_map t !! p <> None) /\ evs = [] /\ t' = t).
Proof.
  eapply runs_bind; [by apply (runs_gets (fun t => t)); instantiate (1 := fun a evs t' => a = t /\ evs = [] /\ t' = t)|].
  intros a evs t' (-> & -> & ->). by apply runs_ret.
Qed.

Lemma just_get_handle_runs p t :
  runs (FS:=FS) (just_get_handle p) t (fun r evs t' =>
    r = (if decide (handle_map t !! p <> None) then Some p else None) /\ evs = [] /\ t' = t).
Proof.
  eapply runs_bind; [apply judge_handle_exist_runs|]. intros b evs t' (-> & -> & ->).
  case_bool_decide; apply runs_ret; by case_decide.
Qed.

(** Reopening an entry whose descriptor is closed. *)
Lemma reopen_runs p h t :
  runs (fd <- open p (Z.lor O_CREAT O_WRONLY) ;; save (Some p) (h <| handle := fd |>)) t (fun _ evs t' =>
    exists fd, evs = [EvOpen p (Z.lor O_CREAT O_WRONLY) fd] /\ t' = store (Some p) (h <| handle := fd |>) t).
Proof.
  eapply runs_bind; [apply runs_sys|]. intros fd evs t' [-> ->]. eapply runs_mono; [apply save_runs|].
  intros u evs t' [-> ->]. by exists fd.
Qed.

Lemma push_handle_runs p t :
  handle_map t !! p = None ->
  runs (push_handle p) t (fun b evs t' => exists fd, evs = [EvOpen p (Z.lor O_CREAT O_WRONLY) fd] /\
    ((fd = -1 /\ b = false /\ t' = t) \/
     (fd <> -1 /\ b = true /\ t' = store (Some p) (mk_f_handle fd 0 0 zero_share) t))).
Proof.
  intros E. eapply runs_bind; [apply judge_handle_exist_runs|]. intros b evs t' (-> & -> & ->).
  rewrite E, bool_decide_eq_false_2 by auto. change (negb false) with true. cbv iota.
  eapply runs_bind; [apply runs_sys|]. intros fd evs t' [-> ->].
  case_decide; [apply runs_ret; eauto 10|].
  eapply runs_bind; [apply save_runs|]. intros u evs t' [-> ->]. apply runs_ret. eauto 10.
Qed.

(** On an idle table the file is always opened: [WRITE] finds no descriptor of an
    earlier request. *)
Lemma get_handle_runs p t :
  table_idle t ->
  runs (get_handle p) t (fun r evs t' => exists fd, evs = [EvOpen p (Z.lor O_CREAT O_WRONLY) fd] /\
    ((fd = -1 /\ table_idle t') \/
     (fd <> -1 /\ r = Some p /\ t' = store (Some p) ((entry t p) <| handle := fd |>) t))).
Proof.
  intros Hi. eapply runs_bind; [apply judge_handle_exist_runs|]. intros b evs t' (-> & -> & ->).
  unfold entry. destruct (handle_map t !! p) as [h|] eqn:E.
  - rewrite bool_decide_eq_true_2 by done. eapply runs_bind; [apply load_runs|].
    intros h0 evs t' (-> & -> & ->). cbn [deref]. rewrite E. cbn [default].
    destruct (proj2 Hi p h E) as [Hh Hok]. rewrite (decide_True _ _ Hh).
    eapply runs_bind; [apply reopen_runs|]. intros u evs t' (fd & -> & ->). apply runs_ret.
    exists fd. split; [done|]. destruct (decide (fd = -1)) as [->|Hfd]; [left|right]; (split; [done|]).
    + by apply store_idle.
    + done.
  - rewrite bool_decide_eq_false_2 by auto. eapply runs_bind; [by apply push_handle_runs|].
    intros b evs t' (fd & -> & [(-> & -> & ->)|(Hfd & -> & ->)]); apply runs_ret; eexists; split; eauto 10.
Qed.

Lemma close_handle_runs r t :
  runs (FS:=FS) (close_handle r) t (fun _ evs t' =>
    (handle (deref t r) = -1 /\ evs = [] /\ t' = t) \/
    (handle (deref t r) <> -1 /\ (exists rc, evs = [EvClose (handle (deref t r)) rc]) /\
     t' = store r ((deref t r) <| handle := -1 |>) t)).
Proof.
  eapply runs_bind; [apply load_runs|]. intros h evs t' (-> & -> & ->).
  case_decide as Hh; [|apply runs_ret; by left].
  eapply runs_bind; [apply runs_sys|]. intros rc evs t' [-> ->].
  eapply runs_mono; [apply save_runs|]. intros u evs t' [-> ->]. right. eauto.
Qed.

End TableSpecs.

#[export] Hint Resolve load_runs save_runs just_get_handle_runs get_handle_runs close_handle_runs : runs.
