(* ===== verification/Nfs3Attr.v ===== *)
(** * Procedures that read or set attributes ([src/nfs/nfs_getattr.cpp],
    [nfs_setattr.cpp], [nfs_lookup.cpp], [nfs_access.cpp], [nfs_readlink.cpp],
    [nfs_fsstat.cpp], [nfs_fsinfo.cpp], [nfs_pathconf.cpp], [nfs_null.cpp])

    A handler gets the decoded arguments and a result in whatever state its memory
    is in, and gives what it tells the RPC layer and the result. *)
From S2P Require Import Prelude XdrPrim XdrSpec Nfs3Types Nfs3Msgs Nfs3ArgSpecs Posix NfsUtils.

Open Scope Z_scope.
Open Scope dnfs_scope.

(** The length test every handler starts with. *)
Definition no_handle (h : nfs_fh3) : Prop := data_len (fh_data h) = 0.
#[global] Instance no_handle_dec h : Decision (no_handle h).
Proof. unfold no_handle. apply _. Defined.

(** [16*1024*1024*1024*1024] is an [int] expression; it wraps. *)
Definition MAX_FILE_SIZE : Z := i32 (i32 (i32 (i32 (16 * 1024) * 1024) * 1024) * 1024).

(** The file types the masks of the handlers name. *)
Definition S_IFANY : Z :=
  Z.lor S_IFDIR (Z.lor S_IFCHR (Z.lor S_IFREG (Z.lor S_IFLNK (Z.lor S_IFIFO (Z.lor S_IFBLK S_IFSOCK))))).

Section Handlers.
  Context {FS : Type} `{Posix FS}.
  Context `{!UnionArm LOOKUP3resok LOOKUP3resfail}.
  Abbreviation M := (ST (world FS)).

Definition nfs_null {R} (res : R) : M (nfs_req_result * R) := ret (NFS_REQ_OK, res).

Definition nfs3_getattr (arg : GETATTR3args) (res : GETATTR3res) : M (nfs_req_result * GETATTR3res) :=
  if decide (no_handle arg) then ret (NFS_REQ_ERROR, res)
  else
    object <- get_file_handle arg ;;
    let! (st, get_a) := nfs_set_post_op_attr (path_of object) zero_post_op_attr in
    let res := res <| status := st |> in
    if decide (st <> NFS3_OK) then ret (NFS_REQ_ERROR, res)
    else ret (NFS_REQ_OK, res <| res_u := poa_attributes get_a |>).

(** [resok] and [resfail] are both the one [wcc_data] of the union. *)
Definition nfs3_setattr (junk : timespec * timespec) (arg : SETATTR3args) (res : SETATTR3res)
  : M (nfs_req_result * SETATTR3res) :=
  let wcc := res_u res in
  let wcc := wcc <| wcc_before := (wcc_before wcc) <| pre_follow := FALSE |> |> in
  let wcc := wcc <| wcc_after := (wcc_after wcc) <| poa_follow := FALSE |> |> in
  let res := res <| res_u := wcc |> in
  if decide (no_handle (sea_object arg)) then ret (NFS_REQ_ERROR, res)
  else
    object <- get_file_handle (sea_object arg) ;;
    let! (st, pre_attr) := get_pre_op_attr (path_of object) zero_pre_op_attr in
    let res := res <| status := st |> in
    if decide (st <> NFS3_OK) then ret (NFS_REQ_ERROR, res)
    else if decide (check (sea_guard arg) <> 0 /\
                    (tv_sec (obj_ctime (sea_guard arg)) <> tv_sec (wa_ctime (pre_attributes pre_attr)) \/
                     tv_nsec (obj_ctime (sea_guard arg)) <> tv_nsec (wa_ctime (pre_attributes pre_attr))))
    then ret (NFS_REQ_OK, res <| status := NFS3ERR_NOT_SYNC |>)
    else
      st <- nfs_set_sattr3 junk (path_of object) (sea_new_attributes arg) ;;
      let res := res <| status := st |> in
      let! (st', wcc) := get_wcc_data (path_of object) pre_attr (res_u res) in
      if decide (st <> NFS3_OK)
      then (* outfail *) ret (NFS_REQ_ERROR, mk_res st' wcc)
      else ret (if decide (st' <> NFS3_OK) then NFS_REQ_ERROR else NFS_REQ_OK, mk_res st' wcc).

Definition nfs3_lookup (arg : LOOKUP3args) (res : LOOKUP3res) : M (nfs_req_result * LOOKUP3res) :=
  if decide (no_handle (do_dir arg)) then ret (NFS_REQ_ERROR, res)
  else
    dir <- get_file_handle (do_dir arg) ;;
    isdir <- judge_file_exit (path_of dir) S_IFDIR ;;
    if negb isdir then ret (NFS_REQ_ERROR, res <| status := NFS3ERR_NOTDIR |>)
    else
      let filepath := join_path (path_of dir) (do_name arg) in
      exists_ <- judge_file_exit filepath S_IFANY ;;
      if negb exists_ then
        (* outfail *)
        let res := res <| status := NFS3ERR_NOENT |> in
        let fail := arm_get (res_u res) in
        let! (_, a) := nfs_set_post_op_attr (path_of dir) (lkf_dir_attributes fail) in
        ret (NFS_REQ_ERROR, res <| res_u := arm_put (fail <| lkf_dir_attributes := a |>) (res_u res) |>)
      else
        let ok := (res_u res) <| lk_object := set_file_handle filepath |> in
        let! (st, dir_a) := nfs_set_post_op_attr (path_of dir) (lk_dir_attributes ok) in
        let rc := if decide (st <> NFS3_OK) then NFS_REQ_ERROR else NFS_REQ_OK in
        let ok := ok <| lk_dir_attributes := dir_a |> in
        let! (st', obj_a) := nfs_set_post_op_attr (path_of (lk_object ok)) (lk_obj_attributes ok) in
        let rc := if decide (st' <> NFS3_OK) then NFS_REQ_ERROR else rc in
        ret (rc, mk_res st' (ok <| lk_obj_attributes := obj_a |>)).

Definition nfs3_access (arg : ACCESS3args) (res : ACCESS3res) : M (nfs_req_result * ACCESS3res) :=
  if decide (no_handle (aca_object arg)) then ret (NFS_REQ_ERROR, res)
  else
    object <- get_file_handle (aca_object arg) ;;
    let! (st, a) := nfs_set_post_op_attr (path_of object) (ac_obj_attributes (res_u res)) in
    let res := mk_res st ((res_u res) <| ac_obj_attributes := a |>) in
    if decide (st <> NFS3_OK) then ret (NFS_REQ_ERROR, res)
    else ret (NFS_REQ_OK, res <| res_u := (res_u res) <| ac_access := 0xff |> |>).

(** [heap] is the memory at the address [gsh_calloc(0, data_len)] returns: the
    buffer has no size, and [readlink] writes no NUL behind what it writes. *)
Definition nfs3_readlink (heap : list byte) (arg : READLINK3args) (res : READLINK3res)
  : M (nfs_req_result * READLINK3res) :=
  if decide (no_handle arg) then ret (NFS_REQ_ERROR, res)
  else
    symlink <- get_file_handle arg ;;
    islnk <- judge_file_exit (path_of symlink) S_IFLNK ;;
    if negb islnk then ret (NFS_REQ_ERROR, res <| status := NFS3ERR_NOENT |>)
    else
      let! (st, pos_a) := nfs_set_post_op_attr (path_of symlink) zero_post_op_attr in
      let res := res <| status := st |> in
      if decide (st <> NFS3_OK) then ret (NFS_REQ_ERROR, res)
      else
        let res := res <| res_u := (res_u res) <| rl_data := Some heap |> |> in
        content <- readlink (path_of symlink) (fa_size (poa_attributes pos_a)) ;;
        match content with
        | None =>
            (* outfail *)
            ret (NFS_REQ_ERROR,
                 mk_res NFS3ERR_IO ((res_u res) <| rl_symlink_attributes := pos_a |>))
        | Some bs =>
            ret (NFS_REQ_OK,
                 res <| res_u := (res_u res) <| rl_data := Some (bs ++ drop (length bs) heap) |>
                                             <| rl_symlink_attributes := pos_a |> |>)
        end.

Definition nfs3_fsstat (arg : FSSTAT3args) (res : FSSTAT3res) : M (nfs_req_result * FSSTAT3res) :=
  if decide (no_handle arg) then ret (NFS_REQ_ERROR, res)
  else
    fsroot <- get_file_handle arg ;;
    let attrs := (fs_obj_attributes (res_u res)) <| poa_follow := FALSE |> in
    let! (st, a) := nfs_set_post_op_attr (path_of fsroot) attrs in
    let res := mk_res st ((res_u res) <| fs_obj_attributes := a |>) in
    if decide (st <> NFS3_OK) then ret (NFS_REQ_ERROR, res)
    else
      retval <- statvfs (path_of fsroot) ;;
      match retval with
      | None => ret (NFS_REQ_ERROR, res)
      | Some v =>
          ret (NFS_REQ_OK,
            mk_res NFS3_OK
              (mk_FSSTAT3resok a (u64 (f_frsize v * f_blocks v)) (u64 (f_frsize v * f_bfree v))
                 (u64 (f_frsize v * f_bavail v)) (f_files v) (f_ffree v) (f_favail v) 0))
      end.

Definition nfs3_fsinfo (arg : FSINFO3args) (res : FSINFO3res) : M (nfs_req_result * FSINFO3res) :=
  if decide (no_handle arg) then ret (NFS_REQ_ERROR, res)
  else
    fsroot <- get_file_handle arg ;;
    let attrs := (fi_obj_attributes (res_u res)) <| poa_follow := FALSE |> in
    let! (st, a) := nfs_set_post_op_attr (path_of fsroot) attrs in
    let res := mk_res st ((res_u res) <| fi_obj_attributes := a |>) in
    if decide (st <> NFS3_OK) then ret (NFS_REQ_ERROR, res)
    else
      ret (NFS_REQ_OK,
        mk_res NFS3_OK
          (mk_FSINFO3resok a WRITE_READ_MAX WRITE_READ_MAX DEV_BSIZE WRITE_READ_MAX WRITE_READ_MAX DEV_BSIZE
             READ_DIR_MAX (u64 MAX_FILE_SIZE) (mk_nfstime3 1 0)
             (Z.lor FSF3_LINK (Z.lor FSF3_SYMLINK (Z.lor FSF3_HOMOGENEOUS FSF3_CANSETTIME))))).

Definition nfs3_pathconf (arg : PATHCONF3args) (res : PATHCONF3res) : M (nfs_req_result * PATHCONF3res) :=
  if decide (no_handle arg) then ret (NFS_REQ_ERROR, res)
  else
    object <- get_file_handle arg ;;
    let attrs := (pc_obj_attributes (res_u res)) <| poa_follow := FALSE |> in
    let! (st, a) := nfs_set_post_op_attr (path_of object) attrs in
    let res := mk_res st ((res_u res) <| pc_obj_attributes := a |>) in
    if decide (st <> NFS3_OK) then ret (NFS_REQ_ERROR, res)
    else
      let ok := (res_u res) <| pc_linkmax := 1024 |> <| pc_name_max := NAME_MAX |> <| pc_name_max := 1024 |>
                  <| pc_no_trunc := 1 |> <| pc_chown_restricted := 1 |> <| pc_case_insensitive := 0 |>
                  <| pc_case_preserving := 1 |> in
      ret (NFS_REQ_OK, mk_res NFS3_OK ok).

End Handlers.

(** ** What the handlers do *)

(** A decoded handle that is not empty points to its bytes. *)
Lemma canon_data_val h : fh3_canon h -> ~ no_handle h -> data_val (fh_data h) <> None.
Proof. unfold fh3_canon, bytes_canon, no_handle. destruct (data_val _); [done|]. tauto. Qed.
#[export] Hint Resolve canon_data_val : runs.

(** Readable attributes: the reply is what [lstat] found. *)
Lemma attr_status_ok r old :
  attr_status r = NFS3_OK -> exists buf type, r = inr buf /\
    ftype3_of_mode (Z.land (st_mode buf) S_IFMT) = Some type /\
    attr_value r old = mk_post_op_attr TRUE (fattr3_of_stat buf type (poa_attributes old)).
Proof.
  unfold attr_status, attr_value. destruct r as [e|buf].
  - unfold lstat_error. by repeat case_decide.
  - destruct (ftype3_of_mode _) eqn:E; [|done]. intros _. eexists _, _. by rewrite E.
Qed.

Section Specs.
  Context {FS : Type} `{Posix FS}.
  Context `{!UnionArm LOOKUP3resok LOOKUP3resfail}.

Lemma getattr_runs arg res t :
  fh3_canon arg -> ~ no_handle arg ->
  runs (nfs3_getattr arg res) t (fun '(rc, res') evs t' => t' = t /\ exists r,
    evs = [EvLstat (handle_path arg) r] /\ status res' = attr_status r /\
    (status res' = NFS3_OK -> rc = NFS_REQ_OK /\ exists buf type,
       r = inr buf /\ ftype3_of_mode (Z.land (st_mode buf) S_IFMT) = Some type /\
       res_u res' = fattr3_of_stat buf type zero_fattr3) /\
    (status res' <> NFS3_OK -> rc = NFS_REQ_ERROR)).
Proof.
  intros Hc Hn. unfold nfs3_getattr. rewrite decide_False by done.
  run_all; (split; [done|]); eexists; split_and!; simpl; try done; intros Hs.
  split; [done|]. destruct (attr_status_ok _ zero_post_op_attr Hs) as (buf & type & -> & Hty & Hv).
  rewrite Hv. by eexists _, _.
Qed.

(** The outcomes of SETATTR: the object cannot be read; the guard's time is not
    the object's; the settings were applied as far as [x] says, and the status is
    that of reading the attributes back. *)
Inductive setattr_outcome (junk : timespec * timespec) (file : path) (arg : SETATTR3args) (res' : SETATTR3res)
  : nfs_req_result -> list event -> Prop :=
  | SetattrUnreadable before :
      attr_status before <> NFS3_OK -> status res' = attr_status before ->
      setattr_outcome junk file arg res' NFS_REQ_ERROR [EvLstat file before]
  | SetattrNotSync buf :
      attr_status (inr buf) = NFS3_OK -> check (sea_guard arg) <> 0 ->
      time_of (st_ctim buf) <> obj_ctime (sea_guard arg) -> status res' = NFS3ERR_NOT_SYNC ->
      setattr_outcome junk file arg res' NFS_REQ_OK [EvLstat file (inr buf)]
  | SetattrApplied buf x calls after rc :
      attr_status (inr buf) = NFS3_OK ->
      (check (sea_guard arg) <> 0 -> time_of (st_ctim buf) = obj_ctime (sea_guard arg)) ->
      sattr_done junk file (sea_new_attributes arg) x calls -> status res' = attr_status after ->
      (status res' = NFS3_OK -> res_u res' =
         mk_wcc_data (pre_value (inr buf) zero_pre_op_attr) (attr_value after zero_post_op_attr)) ->
      rc = (if decide (x <> NFS3_OK \/ attr_status after <> NFS3_OK) then NFS_REQ_ERROR else NFS_REQ_OK) ->
      setattr_outcome junk file arg res' rc (EvLstat file (inr buf) :: calls ++ [EvLstat file after]).

Lemma pre_value_ctime buf :
  attr_status (inr buf) = NFS3_OK ->
  wa_ctime (pre_attributes (pre_value (inr buf) zero_pre_op_attr)) = time_of (st_ctim buf).
Proof.
  intros Hs. unfold pre_value. rewrite decide_True by done. simpl.
  destruct (attr_status_ok _ zero_post_op_attr Hs) as (b & type & Hb & _ & Hv). simplify_eq.
  simpl in Hv. by rewrite Hv.
Qed.

(** SETATTR: an object that cannot be examined or a guard time that differs changes nothing;
    otherwise the settings are applied in the order mode, owner, times, up to the first failure,
    and the reply has the attributes before and after. *)
Theorem setattr_runs junk arg res t :
  fh3_canon (sea_object arg) -> ~ no_handle (sea_object arg) ->
  runs (nfs3_setattr junk arg res) t (fun '(rc, res') evs t' => t' = t /\
    setattr_outcome junk (handle_path (sea_object arg)) arg res' rc evs).
Proof.
  intros Hc Hn. unfold nfs3_setattr. rewrite decide_False by done.
  run_step. run_step. run_step.
  { run_step. split; [done|]. by eapply SetattrUnreadable. }
  run_facts. destruct r as [e|buf]; [by destruct (attr_status_ok (inl e) zero_post_op_attr) as (? & ? & ? & _)|].
  rewrite pre_value_ctime by done. run_step.
  { run_step. split; [done|]. destruct a as [Hg Ht]. eapply SetattrNotSync; try done.
    intros Heq. rewrite <- Heq in Ht. by destruct Ht. }
  assert (Hg : check (sea_guard arg) <> 0 -> time_of (st_ctim buf) = obj_ctime (sea_guard arg)).
  { intros Hg. destruct (time_of (st_ctim buf)), (obj_ctime (sea_guard arg)); simpl in *.
    f_equal; apply dec_stable; intros ?; apply n0; (split; [done|]); [left|right]; congruence. }
  run_step. run_step. run_step; run_step; (split; [done|]); simpl; eapply SetattrApplied; try done;
    try (intros; by apply wcc_value_ok).
  - by rewrite decide_True by auto.
  - run_facts. case_decide; [by rewrite decide_True by auto|by rewrite decide_False by tauto].
Qed.

(** LOOKUP changes nothing and replies NFS3ERR_NOTDIR for what is no directory,
    NFS3ERR_NOENT for a name that is not in it, and otherwise the handle of the
    file, its attributes and those of the directory, the status being that of
    reading the file's attributes. *)
Theorem lookup_runs arg res t :
  fh3_canon (do_dir arg) -> ~ no_handle (do_dir arg) ->
  let dir := handle_path (do_dir arg) in
  let file := join_path dir (do_name arg) in
  runs (nfs3_lookup arg res) t (fun '(rc, res') evs t' => t' = t /\
    ((exists rd, evs = [EvLstat dir rd] /\ file_is S_IFDIR rd = false /\
        status res' = NFS3ERR_NOTDIR /\ rc = NFS_REQ_ERROR) \/
     (exists rd rf ra, evs = [EvLstat dir rd; EvLstat file rf; EvLstat dir ra] /\
        file_is S_IFDIR rd = true /\ file_is S_IFANY rf = false /\
        status res' = NFS3ERR_NOENT /\ rc = NFS_REQ_ERROR) \/
     (exists rd rf rdir robj,
        evs = [EvLstat dir rd; EvLstat file rf; EvLstat dir rdir; EvLstat file robj] /\
        file_is S_IFDIR rd = true /\ file_is S_IFANY rf = true /\ status res' = attr_status robj /\
        res_u res' = mk_LOOKUP3resok (set_file_handle file)
          (attr_value robj (lk_obj_attributes (res_u res))) (attr_value rdir (lk_dir_attributes (res_u res)))))).
Proof.
  intros Hc Hn dir file. unfold nfs3_lookup. rewrite decide_False by done.
  run_all; (split; [done|]); simpl; rewrite ?path_of_set_file_handle by auto with runs.
  - right; right. do 4 eexists. by split_and!.
  - right; left. do 3 eexists. by split_and!.
  - left. eexists. by split_and!.
Qed.

Lemma access_runs arg res t :
  fh3_canon (aca_object arg) -> ~ no_handle (aca_object arg) ->
  runs (nfs3_access arg res) t (fun '(rc, res') evs t' => t' = t /\ exists r,
    evs = [EvLstat (handle_path (aca_object arg)) r] /\ status res' = attr_status r /\
    (status res' = NFS3_OK -> rc = NFS_REQ_OK /\ ac_access (res_u res') = 0xff) /\
    (status res' <> NFS3_OK -> rc = NFS_REQ_ERROR)).
Proof.
  intros Hc Hn. unfold nfs3_access. rewrite decide_False by done.
  run_all; (split; [done|]); eexists; by split_and!.
Qed.

Lemma readlink_runs heap arg res t :
  fh3_canon arg -> ~ no_handle arg ->
  let file := handle_path arg in
  runs (nfs3_readlink heap arg res) t (fun '(rc, res') evs t' => t' = t /\
    ((exists rl ra bs, evs = [EvLstat file rl; EvLstat file ra;
          EvReadlink file (fa_size (poa_attributes (attr_value ra zero_post_op_attr))) (Some bs)] /\
        file_is S_IFLNK rl = true /\ attr_status ra = NFS3_OK /\ status res' = NFS3_OK /\ rc = NFS_REQ_OK /\
        res_u res' = mk_READLINK3resok (attr_value ra zero_post_op_attr) (Some (bs ++ drop (length bs) heap))) \/
     (status res' <> NFS3_OK /\ rc = NFS_REQ_ERROR))).
Proof.
  intros Hc Hn file. unfold nfs3_readlink. rewrite decide_False by done.
  run_all; (split; [done|]); simpl; try (right; by split); left. do 3 eexists. by split_and!.
Qed.

(** FSSTAT: the status is that of reading the attributes; when [statvfs] fails
    after that the figures of the reply are left as they were. *)
Theorem fsstat_runs arg res t :
  fh3_canon arg -> ~ no_handle arg ->
  let root := handle_path arg in
  runs (nfs3_fsstat arg res) t (fun '(rc, res') evs t' => t' = t /\ exists r,
    status res' = attr_status r /\
    ((attr_status r <> NFS3_OK /\ evs = [EvLstat root r] /\ rc = NFS_REQ_ERROR) \/
     (evs = [EvLstat root r; EvStatvfs root None] /\ rc = NFS_REQ_ERROR /\
      fs_tbytes (res_u res') = fs_tbytes (res_u res) /\ fs_abytes (res_u res') = fs_abytes (res_u res)) \/
     (exists v, evs = [EvLstat root r; EvStatvfs root (Some v)] /\ rc = NFS_REQ_OK /\
        fs_tbytes (res_u res') = u64 (f_frsize v * f_blocks v) /\
        fs_fbytes (res_u res') = u64 (f_frsize v * f_bfree v) /\
        fs_abytes (res_u res') = u64 (f_frsize v * f_bavail v) /\
        fs_tfiles (res_u res') = f_files v /\ fs_ffiles (res_u res') = f_ffree v /\
        fs_afiles (res_u res') = f_favail v /\ fs_invarsec (res_u res') = 0))).
Proof.
  intros Hc Hn root. unfold nfs3_fsstat. rewrite decide_False by done.
  run_all; (split; [done|]); simpl; eexists; (split; [try reflexivity|]).
  - by left.
  - by symmetry.
  - right; right. eexists. by split_and!.
  - right; left. by split_and!.
Qed.

End Specs.
