(* ===== verification/Nfs3Dir.v ===== *)
(** * Procedures that change directories ([src/nfs/nfs_create.cpp],
    [nfs_mkdir.cpp], [nfs_symlink.cpp], [nfs_mknod.cpp], [nfs_remove.cpp],
    [nfs_rmdir.cpp], [nfs_rename.cpp], [nfs_link.cpp]) *)
From S2P Require Import Prelude XdrPrim XdrSpec Nfs3Types Nfs3Msgs Nfs3ArgSpecs Posix NfsUtils Nfs3Attr.

Open Scope Z_scope.
Open Scope dnfs_scope.

Section Handlers.
  Context {FS : Type} `{Posix FS}.
  Context `{!UnionArm CREATE3resok CREATE3resfail}.
  Abbreviation M := (ST (world FS)).

(** [rc] after a status that was just stored. *)
Definition rc_if (st : Z) (rc : nfs_req_result) : nfs_req_result :=
  if decide (st <> NFS3_OK) then NFS_REQ_ERROR else rc.

(** What CREATE, MKDIR and SYMLINK reply once the object is there: its handle,
    its attributes, and the directory's attributes before and after. *)
Definition created_reply (dir file_path : path) (pre : pre_op_attr) (res : CREATE3res)
  : M (nfs_req_result * CREATE3res) :=
  let ok := res_u res in
  let ok := ok <| cr_obj := (cr_obj ok) <| pof_handle := set_file_handle file_path |> |> in
  let ok := ok <| cr_obj := (cr_obj ok) <| handle_follows := 1 |> |> in
  let! (st, a) := nfs_set_post_op_attr (path_of (pof_handle (cr_obj ok))) (cr_obj_attributes ok) in
  let ok := ok <| cr_obj_attributes := a |> in
  let! (st', wcc) := get_wcc_data dir pre (cr_dir_wcc ok) in
  ret (rc_if st' (rc_if st NFS_REQ_OK), mk_res st' (ok <| cr_dir_wcc := wcc |>)).

(** [outfail]: the weak cache data goes to [resfail]; the status stays. *)
Definition failed_reply (dir : path) (pre : pre_op_attr) (res : CREATE3res)
  : M (nfs_req_result * CREATE3res) :=
  let fail := arm_get (res_u res) in
  let! (_, wcc) := get_wcc_data dir pre (crf_dir_wcc fail) in
  ret (NFS_REQ_ERROR, res <| res_u := arm_put (fail <| crf_dir_wcc := wcc |>) (res_u res) |>).

Definition nfs3_create (arg : CREATE3args) (res : CREATE3res) : M (nfs_req_result * CREATE3res) :=
  if decide (no_handle (do_dir (cra_where arg))) then ret (NFS_REQ_ERROR, res)
  else
    dir <- get_file_handle (do_dir (cra_where arg)) ;;
    isdir <- judge_file_exit (path_of dir) S_IFDIR ;;
    if negb isdir then ret (NFS_REQ_ERROR, res <| status := NFS3ERR_NOTDIR |>)
    else
      let! (st, pre) := get_pre_op_attr (path_of dir) zero_pre_op_attr in
      let res := res <| status := st |> in
      if decide (st <> NFS3_OK) then ret (NFS_REQ_ERROR, res)
      else
        let file_path := join_path (path_of dir) (do_name (cra_where arg)) in
        file_handle <- open file_path O_CREAT ;;
        if decide (file_handle = -1)
        then failed_reply (path_of dir) pre (res <| status := NFS3ERR_NOENT |>)
        else
          close file_handle ;;
          created_reply (path_of dir) file_path pre res.

Definition nfs3_mkdir (arg : MKDIR3args) (res : MKDIR3res) : M (nfs_req_result * MKDIR3res) :=
  if decide (no_handle (do_dir (mka_where arg))) then ret (NFS_REQ_ERROR, res)
  else
    dir <- get_file_handle (do_dir (mka_where arg)) ;;
    isdir <- judge_file_exit (path_of dir) S_IFDIR ;;
    if negb isdir then ret (NFS_REQ_ERROR, res <| status := NFS3ERR_NOTDIR |>)
    else
      let! (st, pre) := get_pre_op_attr (path_of dir) zero_pre_op_attr in
      let res := res <| status := st |> in
      if decide (st <> NFS3_OK) then ret (NFS_REQ_ERROR, res)
      else
        let dir_path := join_path (path_of dir) (do_name (mka_where arg)) in
        r <- mkdir dir_path (sm_mode (sat_mode (mka_attributes arg))) ;;
        if decide (r <> 0)
        then failed_reply (path_of dir) pre (res <| status := NFS3ERR_NOTDIR |>)
        else created_reply (path_of dir) dir_path pre res.

Definition nfs3_symlink (arg : SYMLINK3args) (res : SYMLINK3res) : M (nfs_req_result * SYMLINK3res) :=
  if decide (no_handle (do_dir (sya_where arg))) then ret (NFS_REQ_ERROR, res)
  else
    dir <- get_file_handle (do_dir (sya_where arg)) ;;
    isdir <- judge_file_exit (path_of dir) S_IFDIR ;;
    if negb isdir then ret (NFS_REQ_ERROR, res <| status := NFS3ERR_NOTDIR |>)
    else
      let! (st, pre) := get_pre_op_attr (path_of dir) zero_pre_op_attr in
      let res := res <| status := st |> in
      if decide (st <> NFS3_OK) then ret (NFS_REQ_ERROR, res)
      else
        let file_path := join_path (path_of dir) (do_name (sya_where arg)) in
        r <- symlink (cstr (default [] (symlink_data (sya_symlink arg)))) file_path ;;
        if decide (r <> 0)
        then failed_reply (path_of dir) pre (res <| status := NFS3ERR_NOENT |>)
        else created_reply (path_of dir) file_path pre res.

(** The type bits [mknod] gets; [None] is the default branch of the switch. *)
Definition mknod_fmt (type : Z) : option Z :=
  if decide (type = NF3CHR) then Some S_IFCHR
  else if decide (type = NF3BLK) then Some S_IFBLK
  else if decide (type = NF3FIFO) then Some S_IFIFO
  else if decide (type = NF3SOCK) then Some S_IFSOCK
  else None.

Definition nfs3_mknod (junk : timespec * timespec) (arg : MKNOD3args) (res : MKNOD3res)
  : M (nfs_req_result * MKNOD3res) :=
  let fail := arm_get (res_u res) in
  let wcc := crf_dir_wcc fail in
  let wcc := wcc <| wcc_before := (wcc_before wcc) <| pre_follow := FALSE |> |>
                 <| wcc_after := (wcc_after wcc) <| poa_follow := FALSE |> |> in
  let res := res <| res_u := arm_put (fail <| crf_dir_wcc := wcc |>) (res_u res) |> in
  if decide (no_handle (do_dir (mna_where arg))) then ret (NFS_REQ_ERROR, res)
  else
    dir <- get_file_handle (do_dir (mna_where arg)) ;;
    isdir <- judge_file_exit (path_of dir) S_IFDIR ;;
    if negb isdir then ret (NFS_REQ_ERROR, res <| status := NFS3ERR_NOTDIR |>)
    else if decide (cstr (default [] (do_name (mna_where arg))) = [])
    then ret (NFS_REQ_ERROR, res <| status := NFS3ERR_INVAL |>)
    else
      let! (st, pre) := get_pre_op_attr (path_of dir) zero_pre_op_attr in
      let res := res <| status := st |> in
      if decide (st <> NFS3_OK) then ret (NFS_REQ_ERROR, res)
      else
        let file_path := join_path (path_of dir) (do_name (mna_where arg)) in
        match mknod_fmt (mn_type (mna_what arg)) with
        | None => ret (NFS_REQ_OK, res <| status := NFS3ERR_BADTYPE |>)
        | Some fmt =>
            let device := mn_device (mna_what arg) in
            (* [pipe_attributes] is [dev_attributes] *)
            let new_attr := dev_attributes device in
            let dev := if decide (fmt = S_IFCHR \/ fmt = S_IFBLK)
                       then makedev (specdata1 (dev_spec device)) (specdata2 (dev_spec device)) else 0 in
            make_res <- mknod file_path (Z.lor fmt (sm_mode (sat_mode new_attr))) dev ;;
            if decide (make_res <> 0)
            then
              (* outfail *)
              let fail := arm_get (res_u res) in
              let! (st, wcc) := get_wcc_data (path_of dir) pre (crf_dir_wcc fail) in
              ret (NFS_REQ_ERROR, mk_res st (arm_put (fail <| crf_dir_wcc := wcc |>) (res_u res)))
            else
              st <- nfs_set_sattr3 junk file_path new_attr ;;
              let res := res <| status := st |> in
              if decide (st <> NFS3_OK) then ret (NFS_REQ_ERROR, res)
              else
                let ok := res_u res in
                let ok := ok <| cr_obj := (cr_obj ok) <| pof_handle := set_file_handle file_path |> |> in
                let! (st, a) := nfs_set_post_op_attr (path_of (pof_handle (cr_obj ok))) (cr_obj_attributes ok) in
                let ok := ok <| cr_obj_attributes := a |> in
                let! (st', wcc) := get_wcc_data (path_of dir) pre (cr_dir_wcc ok) in
                ret (rc_if st' (rc_if st NFS_REQ_OK), mk_res st' (ok <| cr_dir_wcc := wcc |>))
        end.

(** [resok] and [resfail] of REMOVE and RMDIR are the one [wcc_data]. *)
Definition nfs3_remove (arg : REMOVE3args) (res : REMOVE3res) : M (nfs_req_result * REMOVE3res) :=
  if decide (no_handle (do_dir arg)) then ret (NFS_REQ_ERROR, res)
  else
    dir <- get_file_handle (do_dir arg) ;;
    isdir <- judge_file_exit (path_of dir) S_IFDIR ;;
    if negb isdir then ret (NFS_REQ_ERROR, res <| status := NFS3ERR_NOTDIR |>)
    else
      let! (st, pre) := get_pre_op_attr (path_of dir) zero_pre_op_attr in
      let res := res <| status := st |> in
      if decide (st <> NFS3_OK) then ret (NFS_REQ_ERROR, res)
      else
        let filepath := join_path (path_of dir) (do_name arg) in
        let outfail (res : REMOVE3res) :=
          let! (_, wcc) := get_wcc_data (path_of dir) pre (res_u res) in
          ret (NFS_REQ_ERROR, res <| res_u := wcc |>) in
        isfile <- judge_file_exit filepath (Z.lor S_IFREG S_IFLNK) ;;
        if negb isfile then outfail (res <| status := NFS3ERR_NOENT |>)
        else
          removed <- remove_file filepath ;;
          if negb removed then outfail (res <| status := NFS3ERR_IO |>)
          else
            let! (st, wcc) := get_wcc_data (path_of dir) pre (res_u res) in
            ret (rc_if st NFS_REQ_OK, mk_res st wcc).

Definition nfs3_rmdir (arg : RMDIR3args) (res : RMDIR3res) : M (nfs_req_result * RMDIR3res) :=
  if decide (no_handle (do_dir arg)) then ret (NFS_REQ_ERROR, res)
  else
    dir <- get_file_handle (do_dir arg) ;;
    isdir <- judge_file_exit (path_of dir) S_IFDIR ;;
    if negb isdir then ret (NFS_REQ_ERROR, res <| status := NFS3ERR_NOTDIR |>)
    else
      let! (st, pre) := get_pre_op_attr (path_of dir) zero_pre_op_attr in
      let res := res <| status := st |> in
      if decide (st <> NFS3_OK) then ret (NFS_REQ_ERROR, res)
      else
        let dir_path := join_path (path_of dir) (do_name arg) in
        let outfail (res : RMDIR3res) :=
          let! (_, wcc) := get_wcc_data (path_of dir) pre (res_u res) in
          ret (NFS_REQ_ERROR, res <| res_u := wcc |>) in
        isdir <- judge_file_exit dir_path S_IFDIR ;;
        if negb isdir then outfail (res <| status := NFS3ERR_NOENT |>)
        else
          removed <- remove_directory dir_path ;;
          if negb removed then outfail (res <| status := NFS3ERR_IO |>)
          else
            let! (st, wcc) := get_wcc_data (path_of dir) pre (res_u res) in
            ret (rc_if st NFS_REQ_OK, mk_res st wcc).

Definition nfs3_rename (arg : RENAME3args) (res : RENAME3res) : M (nfs_req_result * RENAME3res) :=
  if decide (no_handle (do_dir (rna_from arg))) then ret (NFS_REQ_ERROR, res)
  else
    from <- get_file_handle (do_dir (rna_from arg)) ;;
    isdir <- judge_file_exit (path_of from) S_IFDIR ;;
    if negb isdir then ret (NFS_REQ_ERROR, res <| status := NFS3ERR_NOTDIR |>)
    else
      let! (st, from_pre) := get_pre_op_attr (path_of from) zero_pre_op_attr in
      let res := res <| status := st |> in
      if decide (st <> NFS3_OK) then ret (NFS_REQ_ERROR, res)
      else
        let from_file_path := join_path (path_of from) (do_name (rna_from arg)) in
        exists_ <- judge_file_exit from_file_path S_IFANY ;;
        if negb exists_ then ret (NFS_REQ_ERROR, res <| status := NFS3ERR_NOENT |>)
        else
          to <- get_file_handle (do_dir (rna_to arg)) ;;
          isdir <- judge_file_exit (path_of to) S_IFDIR ;;
          if negb isdir then ret (NFS_REQ_ERROR, res <| status := NFS3ERR_NOTDIR |>)
          else
            let! (st, to_pre) := get_pre_op_attr (path_of to) zero_pre_op_attr in
            let res := res <| status := st |> in
            if decide (st <> NFS3_OK) then ret (NFS_REQ_ERROR, res)
            else
              let to_file_path := join_path (path_of to) (do_name (rna_to arg)) in
              r <- rename from_file_path to_file_path ;;
              let! (st, from_wcc) := get_wcc_data (path_of from) from_pre (rn_fromdir_wcc (res_u res)) in
              let! (st', to_wcc) := get_wcc_data (path_of to) to_pre (rn_todir_wcc (res_u res)) in
              let res' := mk_res st' (mk_RENAME3resok from_wcc to_wcc) in
              if decide (r <> 0) then (* outfail *) ret (NFS_REQ_ERROR, res')
              else ret (rc_if st' (rc_if st NFS_REQ_OK), res').

Definition nfs3_link (arg : LINK3args) (res : LINK3res) : M (nfs_req_result * LINK3res) :=
  if decide (no_handle (lna_file arg)) then ret (NFS_REQ_ERROR, res)
  else if decide (no_handle (do_dir (lna_link arg))) then ret (NFS_REQ_ERROR, res)
  else
    dir <- get_file_handle (do_dir (lna_link arg)) ;;
    file <- get_file_handle (lna_file arg) ;;
    isdir <- judge_file_exit (path_of dir) S_IFDIR ;;
    if negb isdir then ret (NFS_REQ_ERROR, res <| status := NFS3ERR_NOTDIR |>)
    else
      let! (st, pre) := get_pre_op_attr (path_of dir) zero_pre_op_attr in
      let res := res <| status := st |> in
      if decide (st <> NFS3_OK) then ret (NFS_REQ_ERROR, res)
      else
        let file_path := join_path (path_of dir) (do_name (lna_link arg)) in
        r <- link (path_of file) file_path ;;
        let! (st, a) := nfs_set_post_op_attr (path_of file) (ln_file_attributes (res_u res)) in
        let! (st', wcc) := get_wcc_data (path_of dir) pre (ln_linkdir_wcc (res_u res)) in
        if decide (r <> 0)
        then (* outfail *) ret (NFS_REQ_ERROR, mk_res NFS3ERR_NOENT (mk_LINK3resok a wcc))
        else ret (rc_if st' (rc_if st NFS_REQ_OK), mk_res st' (mk_LINK3resok a wcc)).

End Handlers.

(** ** What the handlers do *)

(** The reply carries the attributes of the directory read before and after. *)
Definition wcc_of (before after : Z + stat_t) : wcc_data :=
  mk_wcc_data (pre_value before zero_pre_op_attr) (attr_value after zero_post_op_attr).

Section Specs.
  Context {FS : Type} `{Posix FS}.
  Context `{!UnionArm CREATE3resok CREATE3resfail}.

(** REMOVE: either exactly the named file, regular or a link, is removed from an existing
    directory and the reply has the directory's attributes before and after, or nothing is
    changed and the status is an error. *)
Theorem remove_runs arg res t :
  fh3_canon (do_dir arg) -> ~ no_handle (do_dir arg) ->
  let dir := handle_path (do_dir arg) in
  let file := join_path dir (do_name arg) in
  runs (nfs3_remove arg res) t (fun '(rc, res') evs t' => t' = t /\
    ((exists rd before rf after,
        evs = [EvLstat dir rd; EvLstat dir before; EvLstat file rf; EvRemove file 0; EvLstat dir after] /\
        file_is S_IFDIR rd = true /\ file_is (Z.lor S_IFREG S_IFLNK) rf = true /\
        status res' = attr_status after /\ rc = rc_if (status res') NFS_REQ_OK /\
        (status res' = NFS3_OK -> res_u res' = wcc_of before after)) \/
     (mutations evs = [] /\ status res' <> NFS3_OK /\ rc = NFS_REQ_ERROR))).
Proof.
  intros Hc Hn dir file. unfold nfs3_remove. rewrite decide_False by done.
  run_all; (split; [done|]); try run_unchanged; simpl.
  left. eexists _, _, _, _. split_and!; try done. intros Hs. by rewrite wcc_value_ok.
Qed.

Lemma rmdir_runs arg res t :
  fh3_canon (do_dir arg) -> ~ no_handle (do_dir arg) ->
  let dir := handle_path (do_dir arg) in
  let sub := join_path dir (do_name arg) in
  runs (nfs3_rmdir arg res) t (fun '(rc, res') evs t' => t' = t /\
    ((exists rd before rf after,
        evs = [EvLstat dir rd; EvLstat dir before; EvLstat sub rf; EvRmdir sub 0; EvLstat dir after] /\
        file_is S_IFDIR rd = true /\ file_is S_IFDIR rf = true /\
        status res' = attr_status after /\ rc = rc_if (status res') NFS_REQ_OK /\
        (status res' = NFS3_OK -> res_u res' = wcc_of before after)) \/
     (mutations evs = [] /\ status res' <> NFS3_OK /\ rc = NFS_REQ_ERROR))).
Proof.
  intros Hc Hn dir sub. unfold nfs3_rmdir. rewrite decide_False by done.
  run_all; (split; [done|]); try run_unchanged; simpl.
  left. eexists _, _, _, _. split_and!; try done. intros Hs. by rewrite wcc_value_ok.
Qed.

(** The object a reply describes: its handle and its attributes. *)
Definition describes (file : path) (ro : Z + stat_t) (res : CREATE3res) (ok : CREATE3resok) : Prop :=
  cr_obj ok = mk_post_op_fh3 1 (set_file_handle file) /\
  cr_obj_attributes ok = attr_value ro (cr_obj_attributes (res_u res)).

Lemma created_reply_runs dir file pre res t :
  no_nul file ->
  runs (created_reply dir file pre res) t (fun '(rc, res') evs t' => t' = t /\ exists ro after,
    evs = [EvLstat file ro; EvLstat dir after] /\ status res' = attr_status after /\
    rc = rc_if (attr_status after) (rc_if (attr_status ro) NFS_REQ_OK) /\
    describes file ro res (res_u res') /\
    (status res' = NFS3_OK -> cr_dir_wcc (res_u res') = mk_wcc_data pre (attr_value after zero_post_op_attr))).
Proof.
  intros Hf. unfold created_reply. repeat run_step. split; [done|]. eexists _, _.
  simpl. rewrite path_of_set_file_handle by done. split_and!; try done.
  intros Hs. by rewrite wcc_value_ok.
Qed.

Lemma failed_reply_runs dir pre res t :
  runs (failed_reply dir pre res) t (fun '(rc, res') evs t' => t' = t /\
    rc = NFS_REQ_ERROR /\ status res' = status res /\ exists r, evs = [EvLstat dir r]).
Proof. unfold failed_reply. repeat run_step. split_and!; try done. by eexists. Qed.

End Specs.

#[export] Hint Resolve created_reply_runs failed_reply_runs : runs.

Section NewObjectSpecs.
  Context {FS : Type} `{Posix FS}.
  Context `{!UnionArm CREATE3resok CREATE3resfail}.

(** [made] is the call that makes the object: on success the reply describes the
    object and the directory before and after; otherwise nothing changed. *)
Definition new_object (dir file : path) (made : list event) (res : CREATE3res)
    (rc : nfs_req_result) (res' : CREATE3res) (evs : list event) : Prop :=
  (exists rd before ro after,
     evs = [EvLstat dir rd; EvLstat dir before] ++ made ++ [EvLstat file ro; EvLstat dir after] /\
     file_is S_IFDIR rd = true /\ status res' = attr_status after /\
     rc = rc_if (attr_status after) (rc_if (attr_status ro) NFS_REQ_OK) /\
     describes file ro res (res_u res') /\
     (status res' = NFS3_OK -> cr_dir_wcc (res_u res') = wcc_of before after)) \/
  (mutations evs = [] /\ status res' <> NFS3_OK /\ rc = NFS_REQ_ERROR).

(** MKDIR: either exactly the named directory is made with the mode of the request and the
    reply describes it and its parent, or nothing is changed and the status is an error. *)
Theorem mkdir_runs arg res t :
  fh3_canon (do_dir (mka_where arg)) -> ~ no_handle (do_dir (mka_where arg)) ->
  let dir := handle_path (do_dir (mka_where arg)) in
  let sub := join_path dir (do_name (mka_where arg)) in
  runs (nfs3_mkdir arg res) t (fun '(rc, res') evs t' => t' = t /\
    new_object dir sub [EvMkdir sub (sm_mode (sat_mode (mka_attributes arg))) 0] res rc res' evs).
Proof.
  intros Hc Hn dir sub. unfold nfs3_mkdir. rewrite decide_False by done.
  run_all; (split; [done|]); try run_unchanged.
  left. eexists _, _, _, _. by split_and!.
Qed.

(** SYMLINK: either exactly the link with the content of the request is made and the reply
    describes it and its directory, or nothing is changed and the status is an error. *)
Theorem symlink_runs arg res t :
  fh3_canon (do_dir (sya_where arg)) -> ~ no_handle (do_dir (sya_where arg)) ->
  let dir := handle_path (do_dir (sya_where arg)) in
  let file := join_path dir (do_name (sya_where arg)) in
  runs (nfs3_symlink arg res) t (fun '(rc, res') evs t' => t' = t /\
    new_object dir file [EvSymlink (string_content (symlink_data (sya_symlink arg))) file 0] res rc res' evs).
Proof.
  intros Hc Hn dir file. unfold nfs3_symlink. rewrite decide_False by done.
  run_all; (split; [done|]); try run_unchanged.
  left. eexists _, _, _, _. by split_and!.
Qed.

(** CREATE: either the named file is opened with O_CREAT and closed again and the reply has its
    handle, its attributes and the directory's before and after, or nothing is changed and the
    status is an error. *)
Theorem create_runs arg res t :
  fh3_canon (do_dir (cra_where arg)) -> ~ no_handle (do_dir (cra_where arg)) ->
  let dir := handle_path (do_dir (cra_where arg)) in
  let file := join_path dir (do_name (cra_where arg)) in
  runs (nfs3_create arg res) t (fun '(rc, res') evs t' => t' = t /\ exists fd c,
    fd <> -1 /\ new_object dir file [EvOpen file O_CREAT fd; EvClose fd c] res rc res' evs).
Proof.
  intros Hc Hn dir file. unfold nfs3_create. rewrite decide_False by done.
  run_all; (split; [done|]); try (exists 0, 0; split; [done|]; run_unchanged).
  eexists _, _. split; [done|]. left. eexists _, _, _, _. by split_and!.
Qed.

(** MKNOD: the node is made and its attributes set; or made, with an error when
    setting them; or [mknod] failed, which the status does not show; or refused. *)
Theorem mknod_runs junk arg res t :
  fh3_canon (do_dir (mna_where arg)) -> ~ no_handle (do_dir (mna_where arg)) ->
  let dir := handle_path (do_dir (mna_where arg)) in
  let file := join_path dir (do_name (mna_where arg)) in
  let attrs := dev_attributes (mn_device (mna_what arg)) in
  runs (nfs3_mknod junk arg res) t (fun '(rc, res') evs t' => t' = t /\
    ((exists rd before fmt dev r x mid rest,
        mknod_fmt (mn_type (mna_what arg)) = Some fmt /\ file_is S_IFDIR rd = true /\
        evs = [EvLstat dir rd; EvLstat dir before;
               EvMknod file (Z.lor fmt (sm_mode (sat_mode attrs))) dev r] ++ mid ++ rest /\
        ((r = 0 /\ sattr_done junk file attrs x mid /\
          (x <> NFS3_OK /\ rest = [] /\ status res' = x /\ rc = NFS_REQ_ERROR \/
           x = NFS3_OK /\ exists ro after, rest = [EvLstat file ro; EvLstat dir after] /\
             status res' = attr_status after /\
             rc = rc_if (attr_status after) (rc_if (attr_status ro) NFS_REQ_OK) /\
             pof_handle (cr_obj (res_u res')) = set_file_handle file)) \/
         (r <> 0 /\ mid = [] /\ rc = NFS_REQ_ERROR /\ exists after,
            rest = [EvLstat dir after] /\ status res' = attr_status after))) \/
     (mutations evs = [] /\ status res' <> NFS3_OK))).
Proof.
  intros Hc Hn dir file attrs. unfold nfs3_mknod. rewrite decide_False by done.
  run_all; (split; [done|]); try (right; split; [simpl; run_mutations|run_status]); left;
    simpl in *; rewrite ?path_of_set_file_handle by auto with runs; do 5 eexists.
  - exists 0, [], [EvLstat dir r1]. split_and!; try done. right. split_and!; try done. by eexists.
  - eexists _, evs, []. split_and!; try done. left. split_and!; try done. by left.
  - eexists _, evs, _. split_and!; try done. left. split_and!; try done. right. split; [done|]. eexists _, _.
    by split_and!.
Qed.

End NewObjectSpecs.

Section LinkSpecs.
  Context {FS : Type} `{Posix FS}.

(** C38: RENAME with both handles: either nothing is changed and the status is an
    error, or exactly the old name is renamed to the new one and the reply has both
    directories before and after.  [r] is what [rename] answered; the status is that
    of reading the target directory's attributes afterwards, whatever [r] is. *)
Theorem rename_runs arg res t :
  fh3_canon (do_dir (rna_from arg)) -> ~ no_handle (do_dir (rna_from arg)) ->
  fh3_canon (do_dir (rna_to arg)) -> ~ no_handle (do_dir (rna_to arg)) ->
  let from := handle_path (do_dir (rna_from arg)) in
  let to := handle_path (do_dir (rna_to arg)) in
  let old := join_path from (do_name (rna_from arg)) in
  let new := join_path to (do_name (rna_to arg)) in
  runs (nfs3_rename arg res) t (fun '(rc, res') evs t' => t' = t /\
    ((exists rd bfrom rf rd' bto r afrom ato,
        evs = [EvLstat from rd; EvLstat from bfrom; EvLstat old rf; EvLstat to rd'; EvLstat to bto;
               EvRename old new r; EvLstat from afrom; EvLstat to ato] /\
        file_is S_IFDIR rd = true /\ file_is S_IFANY rf = true /\ file_is S_IFDIR rd' = true /\
        status res' = attr_status ato /\
        rc = (if decide (r <> 0) then NFS_REQ_ERROR
              else rc_if (attr_status ato) (rc_if (attr_status afrom) NFS_REQ_OK)) /\
        (status res' = NFS3_OK -> rn_todir_wcc (res_u res') = wcc_of bto ato) /\
        (attr_status afrom = NFS3_OK -> rn_fromdir_wcc (res_u res') = wcc_of bfrom afrom)) \/
     (mutations evs = [] /\ status res' <> NFS3_OK /\ rc = NFS_REQ_ERROR))).
Proof.
  intros Hc Hn Hc' Hn' from to old new. unfold nfs3_rename. rewrite decide_False by done.
  run_all; (split; [done|]); try run_unchanged; left; simpl; do 8 eexists;
    (split_and!; try solve [done | by rewrite decide_True]; intros Hs; by rewrite wcc_value_ok).
Qed.

(** LINK: either exactly the link from the new name to the file is made and the reply has the
    file's and the directory's attributes, or nothing is changed and the status is an error. *)
Theorem link_runs arg res t :
  fh3_canon (lna_file arg) -> ~ no_handle (lna_file arg) ->
  fh3_canon (do_dir (lna_link arg)) -> ~ no_handle (do_dir (lna_link arg)) ->
  let dir := handle_path (do_dir (lna_link arg)) in
  let old := handle_path (lna_file arg) in
  let new := join_path dir (do_name (lna_link arg)) in
  runs (nfs3_link arg res) t (fun '(rc, res') evs t' => t' = t /\
    ((exists rd before ro after,
        evs = [EvLstat dir rd; EvLstat dir before; EvLink old new 0; EvLstat old ro; EvLstat dir after] /\
        file_is S_IFDIR rd = true /\ status res' = attr_status after /\
        rc = rc_if (attr_status after) (rc_if (attr_status ro) NFS_REQ_OK) /\
        ln_file_attributes (res_u res') = attr_value ro (ln_file_attributes (res_u res)) /\
        (status res' = NFS3_OK -> ln_linkdir_wcc (res_u res') = wcc_of before after)) \/
     (mutations evs = [] /\ status res' <> NFS3_OK /\ rc = NFS_REQ_ERROR))).
Proof.
  intros Hc Hn Hc' Hn' dir old new. unfold nfs3_link. rewrite !decide_False by done.
  run_all; (split; [done|]); try run_unchanged; left; simpl; do 4 eexists;
    (split_and!; try done; intros Hs; by rewrite wcc_value_ok).
Qed.

End LinkSpecs.
