(* ===== verification/Nfs3Io.v ===== *)
(** * READ, WRITE and COMMIT ([src/nfs/nfs_read.cpp], [nfs_write.cpp],
    [nfs_commit.cpp])

    Requests run one after the other: the table of open files changes only by the
    handler itself, the file system also by others. *)
From S2P Require Import Prelude XdrPrim XdrSpec Nfs3Types Nfs3Msgs Nfs3ArgSpecs Posix NfsUtils Fsal Nfs3Attr.

Open Scope Z_scope.
Open Scope dnfs_scope.

(** [uint64_t MaxRead = 512 * 1024;] *)
Definition MaxRead : Z := 512 * 1024.

(** [static writeverf3 NFS3_write_verifier;] of a header: each source file has a
    copy of its own, and nothing assigns the copies of [nfs_write.cpp] and
    [nfs_commit.cpp]. *)
Definition NFS3_write_verifier : list byte := replicate 8 x00.

(** [struct nfs3_write_data] with its [fsal_io_arg]; [state] is always NULL and
    there is one [iovec]. *)
Record nfs3_write_data := mk_write_data {
  wd_res : WRITE3res;
  wd_obj : f_ref;
  wd_rc : nfs_req_result;
  wd_file_path : path;
  io_amount : Z;
  fsal_stable : bool;
  wd_offset : Z;
  wd_iov : list byte }.
#[global] Instance eta_write_data : RecEta nfs3_write_data := fun r =>
  mk_write_data (wd_res r) (wd_obj r) (wd_rc r) (wd_file_path r) (io_amount r) (fsal_stable r)
    (wd_offset r) (wd_iov r).

Section Handlers.
  Context {FS : Type} `{Posix FS}.
  Abbreviation M := (ST (world FS)).

(** ** READ *)

(** The status [nfs_set_post_op_attr] returns is not looked at. *)
Definition nfs_read_ok (res : READ3res) (data : option (list byte)) (read_size : Z) (file_path : path) (eof : Z)
  : M READ3res :=
  let data := if decide (read_size = 0) then None else data in
  let! (_, a) := nfs_set_post_op_attr file_path (rd_file_attributes (res_u res)) in
  ret (res <| res_u := mk_READ3resok a read_size eof (mk_bytes read_size data) |>).

(** [outfail:] *)
Definition read_outfail (file_path : path) (res : READ3res) : M (nfs_req_result * READ3res) :=
  let! (_, a) := nfs_set_post_op_attr file_path (rd_file_attributes (res_u res)) in
  ret (NFS_REQ_ERROR, res <| res_u := (res_u res) <| rd_file_attributes := a |> |>).

(** [logs]: whether the module logs at level [D_ERROR].  Then a failed [preadv]
    prints [errno], an [int], as a string; what that does is undefined, and here it
    ends the process.  [MaxOffsetRead] is [UINT64_MAX], so its test never holds. *)
Definition nfs3_read (logs : bool) (arg : READ3args) (res : READ3res) : M (nfs_req_result * READ3res) :=
  let offset := i64 (rda_offset arg) in
  let attrs := (rd_file_attributes (res_u res)) <| poa_follow := FALSE |> in
  let res := mk_res NFS3_OK (mk_READ3resok attrs 0 FALSE (mk_bytes 0 None)) in
  if decide (no_handle (rda_file arg)) then ret (NFS_REQ_OK, res <| status := NFS3ERR_BADHANDLE |>)
  else
    file <- get_file_handle (rda_file arg) ;;
    let! (st, a) := nfs_set_post_op_attr (path_of file) (rd_file_attributes (res_u res)) in
    let res := mk_res st ((res_u res) <| rd_file_attributes := a |>) in
    if decide (st <> NFS3_OK) then ret (NFS_REQ_OK, res <| status := NFS3ERR_BADHANDLE |>)
    else if decide (fa_type (poa_attributes a) <> NF3REG) then
      ret (NFS_REQ_OK, res <| status := if decide (fa_type (poa_attributes a) = NF3DIR)
                                        then NFS3ERR_ISDIR else NFS3ERR_INVAL |>)
    else
      let size := if decide (MaxRead < rda_count arg) then MaxRead else rda_count arg in
      if decide (size = 0) then
        res <- nfs_read_ok res None 0 (path_of file) 0 ;; ret (NFS_REQ_OK, res)
      else
        fd <- open (path_of file) O_RDONLY ;;
        if decide (fd = -1) then read_outfail (path_of file) (res <| status := NFS3ERR_NOENT |>)
        else
          nb_read <- preadv fd size offset ;;
          close fd ;;
          match (if decide (offset = -1) then None else nb_read) with
          | None =>
              if logs then abort else read_outfail (path_of file) (res <| status := NFS3ERR_IO |>)
          | Some bs =>
              let n := Z.of_nat (length bs) in
              let end_of_file := Z.b2z (bool_decide (fa_size (poa_attributes a) <= u64 (offset + n))) in
              res <- nfs_read_ok res (Some bs) (u32 n) (path_of file) end_of_file ;;
              ret (NFS_REQ_OK, res)
          end.

(** ** WRITE *)

Definition nfs3_complete_write (data : nfs3_write_data) : M (nfs_req_result * WRITE3res) :=
  let res := wd_res data in
  match wd_rc data with
  | NFS_REQ_OK =>
      let! (st, wcc) := get_wcc_data (wd_file_path data) zero_pre_op_attr (wr_file_wcc (res_u res)) in
      ret (NFS_REQ_OK,
        mk_res st (mk_WRITE3resok wcc (u32 (io_amount data))
                     (if fsal_stable data then FILE_SYNC else UNSTABLE) NFS3_write_verifier))
  | NFS_REQ_ERROR =>
      let! (st, wcc) := get_wcc_data (wd_file_path data) zero_pre_op_attr (wr_file_wcc (res_u res)) in
      ret (NFS_REQ_OK, mk_res st ((res_u res) <| wr_file_wcc := wcc |>))
  | rc => ret (rc, res)
  end.

(** A failure leaves without [fsal_complete_io] and without giving the share
    reservation back. *)
Definition nfs_write_buff (data : nfs3_write_data) : M nfs3_write_data :=
  h <- load (wd_obj data) ;;
  let '(st, h) := fsal_start_io h false FSAL_O_WRITE false true in
  save (wd_obj data) h ;;
  if FSAL_IS_ERROR st then ret data
  else
    n <- pwritev (handle h) (wd_iov data) (i64 (wd_offset data)) ;;
    let data := data <| io_amount := match n with None => u64 (-1) | Some k => u64 k end |> in
    let failed := data <| wd_res := (wd_res data) <| status := NFS3ERR_IO |> |> <| wd_rc := NFS_REQ_ERROR |> in
    if decide (io_amount data = u64 (-1)) then ret failed
    else
      retval <- (if fsal_stable data then fsync (handle h) else ret 0) ;;
      if decide (retval = -1) then ret failed
      else
        h <- load (wd_obj data) ;;
        save (wd_obj data)
          (update_share_counters_locked (fsal_complete_io h).2 FSAL_O_WRITE FSAL_O_CLOSED) ;;
        ret data.

(** [get_wcc_data] and [goto return_res], the reply of three branches. *)
Definition write_wcc (file_path : path) (res : WRITE3res) : M WRITE3res :=
  let! (st, wcc) := get_wcc_data file_path zero_pre_op_attr (wr_file_wcc (res_u res)) in
  ret (mk_res st ((res_u res) <| wr_file_wcc := wcc |>)).

Definition nfs3_write (arg : WRITE3args) (res : WRITE3res) : M (nfs_req_result * WRITE3res) :=
  if decide (no_handle (wra_file arg)) then ret (NFS_REQ_OK, res)
  else
    file <- get_file_handle (wra_file arg) ;;
    isreg <- judge_file_exit (path_of file) S_IFREG ;;
    if negb isreg then ret (NFS_REQ_OK, res <| status := NFS3ERR_INVAL |>)
    else if decide (data_len (wra_data arg) < wra_count arg) then
      ret (NFS_REQ_OK, res <| status := NFS3ERR_INVAL |>)
    else
      let count := if decide (WRITE_READ_MAX < wra_count arg) then WRITE_READ_MAX else wra_count arg in
      if decide (count = 0) then
        res <- write_wcc (path_of file) res ;; ret (NFS_REQ_OK, res)
      else
        file_handle <- get_handle (path_of file) ;;
        h <- load file_handle ;;
        if decide (handle h = -1) then
          res <- write_wcc (path_of file) (res <| status := NFS3ERR_NOENT |>) ;;
          close_handle file_handle ;;
          ret (NFS_REQ_OK, res)
        else
          write_data <- nfs_write_buff
            (mk_write_data res file_handle NFS_REQ_OK (path_of file) 0
               (bool_decide (wra_stable arg <> UNSTABLE)) (wra_offset arg)
               (take (Z.to_nat count) (default [] (data_val (wra_data arg))))) ;;
          let! (rc, res) := nfs3_complete_write write_data in
          close_handle file_handle ;;
          ret (rc, res).

(** ** COMMIT *)

(** [out:] *)
Definition commit_out (file_handle : option f_ref) (rc : nfs_req_result) (res : COMMIT3res)
  : M (nfs_req_result * COMMIT3res) :=
  match file_handle with Some r => close_handle r | None => ret tt end ;;
  ret (rc, res <| res_u := (res_u res) <| co_verf := NFS3_write_verifier |> |>).

(** [get_wcc_data] for [resok] or, behind [outfail:], for [resfail]. *)
Definition commit_wcc (file_path : path) (file_handle : f_ref) (rc : nfs_req_result) (res : COMMIT3res)
  : M (nfs_req_result * COMMIT3res) :=
  let! (st, wcc) := get_wcc_data file_path zero_pre_op_attr (co_file_wcc (res_u res)) in
  commit_out (Some file_handle) rc (mk_res st ((res_u res) <| co_file_wcc := wcc |>)).

Definition nfs3_commit (arg : COMMIT3args) (res : COMMIT3res) : M (nfs_req_result * COMMIT3res) :=
  if decide (no_handle (coa_file arg)) then commit_out None NFS_REQ_ERROR res
  else
    file <- get_file_handle (coa_file arg) ;;
    isreg <- judge_file_exit (path_of file) S_IFREG ;;
    if negb isreg then commit_out None NFS_REQ_ERROR (res <| status := NFS3ERR_NOENT |>)
    else
      file_handle <- just_get_handle (path_of file) ;;
      h <- load file_handle ;;
      if decide (handle h = -1) then
        commit_wcc (path_of file) file_handle NFS_REQ_ERROR (res <| status := NFS3ERR_IO |>)
      else
        let '(st, h) := fsal_start_global_io h FSAL_O_ANY false false in
        save file_handle h ;;
        if FSAL_IS_ERROR st then
          commit_wcc (path_of file) file_handle NFS_REQ_OK (res <| status := NFS3ERR_IO |>)
        else
          retval <- fsync (handle h) ;;
          if decide (retval = -1) then
            commit_wcc (path_of file) file_handle NFS_REQ_OK (res <| status := NFS3ERR_IO |>)
          else
            h <- load file_handle ;;
            save file_handle (fsal_complete_io h).2 ;;
            commit_wcc (path_of file) file_handle NFS_REQ_OK res.

End Handlers.

(** ** What READ does *)

Definition read_size (arg : READ3args) : Z := Z.min MaxRead (rda_count arg).

(** The branches of READ: the file cannot be examined, is not a regular file, is
    not to be read at all, cannot be opened, cannot be read, or is read. *)
Inductive read_outcome (file : path) (arg : READ3args) (res' : READ3res)
  : nfs_req_result -> list event -> Prop :=
  | ReadUnreadable a :
      attr_status a <> NFS3_OK -> status res' = NFS3ERR_BADHANDLE ->
      read_outcome file arg res' NFS_REQ_OK [EvLstat file a]
  | ReadNotFile buf type :
      ftype3_of_mode (Z.land (st_mode buf) S_IFMT) = Some type -> type <> NF3REG ->
      status res' = (if decide (type = NF3DIR) then NFS3ERR_ISDIR else NFS3ERR_INVAL) ->
      read_outcome file arg res' NFS_REQ_OK [EvLstat file (inr buf)]
  | ReadNothing buf b :
      ftype3_of_mode (Z.land (st_mode buf) S_IFMT) = Some NF3REG -> read_size arg = 0 ->
      status res' = NFS3_OK -> rd_count (res_u res') = 0 -> rd_eof (res_u res') = FALSE ->
      rd_data (res_u res') = mk_bytes 0 None ->
      read_outcome file arg res' NFS_REQ_OK [EvLstat file (inr buf); EvLstat file b]
  | ReadNoOpen buf b :
      read_size arg <> 0 -> status res' = NFS3ERR_NOENT ->
      read_outcome file arg res' NFS_REQ_ERROR [EvLstat file (inr buf); EvOpen file O_RDONLY (-1); EvLstat file b]
  | ReadFailed buf fd r c b :
      fd <> -1 -> i64 (rda_offset arg) = -1 \/ r = None -> status res' = NFS3ERR_IO ->
      read_outcome file arg res' NFS_REQ_ERROR
        [EvLstat file (inr buf); EvOpen file O_RDONLY fd;
         EvPreadv fd (read_size arg) (i64 (rda_offset arg)) r; EvClose fd c; EvLstat file b]
  | ReadDone buf fd bs c b :
      ftype3_of_mode (Z.land (st_mode buf) S_IFMT) = Some NF3REG -> read_size arg <> 0 -> fd <> -1 ->
      status res' = NFS3_OK -> rd_count (res_u res') = u32 (Z.of_nat (length bs)) ->
      rd_eof (res_u res') = Z.b2z (bool_decide
        (u64 (st_size buf) <= u64 (i64 (rda_offset arg) + Z.of_nat (length bs)))) ->
      rd_data (res_u res') = mk_bytes (u32 (Z.of_nat (length bs)))
        (if decide (u32 (Z.of_nat (length bs)) = 0) then None else Some bs) ->
      read_outcome file arg res' NFS_REQ_OK
        [EvLstat file (inr buf); EvOpen file O_RDONLY fd;
         EvPreadv fd (read_size arg) (i64 (rda_offset arg)) (Some bs); EvClose fd c; EvLstat file b].

Section ReadSpec.
  Context {FS : Type} `{Posix FS}.

Lemma nfs_read_ok_runs res data n p eof t :
  runs (nfs_read_ok res data n p eof) t (fun res' evs t' => exists b,
    res' = res <| res_u := mk_READ3resok (attr_value b (rd_file_attributes (res_u res))) n eof
                             (mk_bytes n (if decide (n = 0) then None else data)) |> /\
    evs = [EvLstat p b] /\ t' = t).
Proof. unfold nfs_read_ok. run_all. eexists. by split_and!. Qed.

Lemma read_outfail_runs p res t :
  runs (read_outfail p res) t (fun '(rc, res') evs t' =>
    rc = NFS_REQ_ERROR /\ status res' = status res /\ (exists b, evs = [EvLstat p b]) /\ t' = t).
Proof. unfold read_outfail. run_all. split_and!; eauto. Qed.

#[local] Hint Resolve nfs_read_ok_runs read_outfail_runs : runs.

Lemma read_size_eq arg : (if decide (MaxRead < rda_count arg) then MaxRead else rda_count arg) = read_size arg.
Proof. unfold read_size. case_decide; lia. Qed.

(** A handle that names a path, errors not being logged. *)
Lemma read_unlogged arg res t :
  fh3_canon (rda_file arg) -> ~ no_handle (rda_file arg) ->
  runs (nfs3_read false arg res) t (fun '(rc, res') evs t' =>
    t' = t /\ read_outcome (handle_path (rda_file arg)) arg res' rc evs).
Proof.
  intros Hc Hn. unfold nfs3_read. rewrite (decide_False _ _ Hn). run_step. run_step. run_step.
  { run_step. split; [done|]. by eapply ReadUnreadable. }
  run_facts. rewrite read_size_eq.
  destruct (attr_status_ok r ((rd_file_attributes (res_u res)) <| poa_follow := FALSE |>))
    as (buf & type & -> & Hty & Hv); [done|]. cbn [res_u rd_file_attributes]. rewrite Hv.
  cbn [poa_attributes fattr3_of_stat fa_type fa_size]. run_step.
  { run_step. split; [done|]. by eapply ReadNotFile. }
  run_facts. run_step.
  { run_step. run_step. split; [done|]. by eapply ReadNothing. }
  run_step. run_step.
  { subst. run_step. split; [done|]. by eapply ReadNoOpen. }
  run_step. run_step. run_step; cycle 1.
  { run_step. split; [done|]. eapply ReadFailed; try done. case_decide; auto. }
  case_decide; simplify_eq. run_step. run_step. split; [done|]. by eapply ReadDone.
Qed.

Lemma nfs_read_ok_status res data n p eof (w : world FS) res' w' :
  nfs_read_ok res data n p eof w = Some (res', w') -> status res' = status res.
Proof.
  unfold nfs_read_ok, bind, ret. destruct (nfs_set_post_op_attr _ _ w) as [[[st a] w1]|]; [|done]. by intros [= <- _].
Qed.

Lemma read_outfail_status p res (w : world FS) rc res' w' :
  read_outfail p res w = Some ((rc, res'), w') -> status res' = status res.
Proof.
  unfold read_outfail, bind, ret. destruct (nfs_set_post_op_attr _ _ w) as [[[st a] w1]|]; [|done]. by intros [= _ <- _].
Qed.

(** Logging makes a difference where [preadv] failed, and only there. *)
Lemma read_logged arg res (w : world FS) rc res' w' :
  nfs3_read false arg res w = Some ((rc, res'), w') ->
  nfs3_read true arg res w = if decide (status res' = NFS3ERR_IO) then None else Some ((rc, res'), w').
Proof.
  unfold nfs3_read. case_decide; [by intros [= <- <- <-]|]. unfold bind.
  destruct (get_file_handle _ w) as [[file w1]|]; [|done].
  destruct (nfs_set_post_op_attr _ _ w1) as [[[st a] w2]|]; [|done]. cbv zeta beta iota.
  case_decide as Hst; [by intros [= <- <- <-]|]. case_decide as Hty.
  { intros [= <- <- <-]. rewrite (decide_False (P:=status _ = _)); [done|].
    cbn [status upd]. simpl. by destruct (decide (fa_type (poa_attributes a) = NF3DIR)). }
  rewrite Hst. set (size := if decide (MaxRead < _) then _ else _). case_decide.
  { destruct (nfs_read_ok _ _ _ _ _ w2) as [[r w3]|] eqn:E; [|done]. apply nfs_read_ok_status in E. intros [= <- <- <-]. by rewrite decide_False by (rewrite E; simpl; done). }
  destruct (open _ _ w2) as [[fd w3]|]; [|done]. case_decide.
  { intros Hr. rewrite Hr. apply read_outfail_status in Hr. by rewrite decide_False by (rewrite Hr; simpl; done). }
  destruct (preadv _ _ _ w3) as [[nb w4]|]; [|done]. destruct (close _ w4) as [[c w5]|]; [|done].
  destruct (if decide (i64 (rda_offset arg) = -1) then None else nb) as [bs|].
  - destruct (nfs_read_ok _ _ _ _ _ w5) as [[r w6]|] eqn:E; [|done]. apply nfs_read_ok_status in E. intros [= <- <- <-]. by rewrite decide_False by (rewrite E; simpl; done).
  - intros Hr. apply read_outfail_status in Hr. by rewrite decide_True by (rewrite Hr; done).
Qed.

(** C37: READ, for any handle, with errors logged or not.  Without logging it returns and
    leaves the table alone; a handle that is empty gets NFS3ERR_BADHANDLE without a call, and
    any other does one of the branches of [read_outcome], in which a reply with status 0 and
    data carries exactly the bytes one [preadv] of [min count 512K] bytes at the client's
    offset delivered, and its end-of-file flag compares the end of what was read with the
    size of the file.  With logging it does the same, except that a failed [preadv] (the only
    branch with NFS3ERR_IO) formats a number as a string, which is undefined. *)
Theorem read_runs arg res :
  fh3_canon (rda_file arg) ->
  (forall t, runs (nfs3_read false arg res) t (fun '(rc, res') evs t' => t' = t /\
     if decide (no_handle (rda_file arg)) then rc = NFS_REQ_OK /\ status res' = NFS3ERR_BADHANDLE /\ evs = []
     else read_outcome (handle_path (rda_file arg)) arg res' rc evs)) /\
  (forall (w : world FS) rc res' w', nfs3_read false arg res w = Some ((rc, res'), w') ->
     nfs3_read true arg res w = if decide (status res' = NFS3ERR_IO) then None else Some ((rc, res'), w')).
Proof.
  intros Hc. split; [|intros w rc res' w'; apply read_logged]. intros t. destruct (decide (no_handle (rda_file arg))) as [Hn|Hn].
  - unfold nfs3_read. rewrite decide_True by done. by apply runs_ret.
  - by apply read_unlogged.
Qed.

End ReadSpec.

(** ** What WRITE does *)

Definition write_count (arg : WRITE3args) : Z := Z.min WRITE_READ_MAX (wra_count arg).
Definition write_bytes (arg : WRITE3args) : list byte :=
  take (Z.to_nat (write_count arg)) (default [] (data_val (wra_data arg))).
Definition stable (arg : WRITE3args) : bool := bool_decide (wra_stable arg <> UNSTABLE).

(** The handle while an operation is counted, and after a write that was not
    completed. *)
Definition started (h : f_handle) : f_handle := (fsal_start_io h false FSAL_O_WRITE false true).2.
Definition finished (h : f_handle) : f_handle :=
  update_share_counters_locked (fsal_complete_io h).2 FSAL_O_WRITE FSAL_O_CLOSED.

(** What happens to an opened file: the calls, how many bytes are reported
    ([None]: the write or the flush failed), and the handle. *)
Inductive write_calls (arg : WRITE3args) (fd : Z) (h : f_handle) : option Z -> list event -> f_handle -> Prop :=
  | WriteFailed r :
      match r with None => True | Some k => u64 k = u64 (-1) end ->
      write_calls arg fd h None [EvPwritev fd (write_bytes arg) (i64 (wra_offset arg)) r] (started h)
  | WriteNotFlushed k :
      u64 k <> u64 (-1) -> stable arg = true ->
      write_calls arg fd h None
        [EvPwritev fd (write_bytes arg) (i64 (wra_offset arg)) (Some k); EvFsync fd (-1)] (started h)
  | WriteFlushed k r :
      u64 k <> u64 (-1) -> stable arg = true -> r <> -1 ->
      write_calls arg fd h (Some k)
        [EvPwritev fd (write_bytes arg) (i64 (wra_offset arg)) (Some k); EvFsync fd r] (finished (started h))
  | WriteUnstable k :
      u64 k <> u64 (-1) -> stable arg = false ->
      write_calls arg fd h (Some k)
        [EvPwritev fd (write_bytes arg) (i64 (wra_offset arg)) (Some k)] (finished (started h)).

Inductive write_outcome (file : path) (arg : WRITE3args) (t : FsalHandle) (res' : WRITE3res)
  : list event -> FsalHandle -> Prop :=
  | WriteNotFile r :
      file_is S_IFREG r = false -> status res' = NFS3ERR_INVAL ->
      write_outcome file arg t res' [EvLstat file r] t
  | WriteShort r :
      file_is S_IFREG r = true -> data_len (wra_data arg) < wra_count arg -> status res' = NFS3ERR_INVAL ->
      write_outcome file arg t res' [EvLstat file r] t
  | WriteNothing r a :
      file_is S_IFREG r = true -> write_count arg = 0 -> status res' = attr_status a ->
      write_outcome file arg t res' [EvLstat file r; EvLstat file a] t
  | WriteNoOpen r a t' :
      file_is S_IFREG r = true -> write_count arg <> 0 -> status res' = attr_status a -> table_idle t' ->
      write_outcome file arg t res'
        [EvLstat file r; EvOpen file (Z.lor O_CREAT O_WRONLY) (-1); EvLstat file a] t'
  | WriteOpened r fd k calls h a c :
      file_is S_IFREG r = true -> wra_count arg <= data_len (wra_data arg) -> write_count arg <> 0 -> fd <> -1 ->
      write_calls arg fd ((entry t file) <| handle := fd |>) k calls h ->
      status res' = attr_status a ->
      match k with
      | None => True
      | Some k => wr_count (res_u res') = u32 (u64 k) /\ wr_verf (res_u res') = NFS3_write_verifier /\
                  wr_committed (res_u res') = if stable arg then FILE_SYNC else UNSTABLE
      end ->
      write_outcome file arg t res'
        (EvLstat file r :: EvOpen file (Z.lor O_CREAT O_WRONLY) fd :: calls ++ [EvLstat file a; EvClose fd c])
        (store (Some file) (h <| handle := -1 |>) t).

Lemma started_ok h : handle_ok h -> handle_ok (started h) /\ handle (started h) = handle h.
Proof. intros Hok. unfold started. destruct (start_write_ok h Hok) as (h' & -> & ? & ? & _). by split. Qed.

Lemma finished_ok h : handle_ok h -> handle_ok (finished h) /\ handle (finished h) = handle h.
Proof.
  intros Hok. destruct (complete_ok h Hok) as (Hok' & Hh & _). unfold finished.
  split; [by apply end_write_ok|]. simpl. done.
Qed.

Lemma write_calls_ok arg fd h k calls h' :
  handle_ok h -> write_calls arg fd h k calls h' -> handle_ok h' /\ handle h' = handle h.
Proof.
  intros Hok Hw. destruct (started_ok h Hok) as [Hs Hh]. destruct (finished_ok _ Hs) as [Hf Hh'].
  destruct Hw; (split; [done|]); congruence.
Qed.

Section WriteSpec.
  Context {FS : Type} `{Posix FS}.

Lemma write_wcc_runs p res t :
  runs (write_wcc p res) t (fun res' evs t' => exists a,
    status res' = attr_status a /\ evs = [EvLstat p a] /\ t' = t).
Proof. unfold write_wcc. run_all. eexists. by split_and!. Qed.

Lemma write_buff_runs arg fd p res h t :
  handle_ok h -> handle h = fd ->
  runs (nfs_write_buff (mk_write_data res (Some p) NFS_REQ_OK p 0 (stable arg) (wra_offset arg) (write_bytes arg)))
    (store (Some p) h t) (fun d evs t' => exists k h', write_calls arg fd h k evs h' /\ t' = store (Some p) h' t /\
      wd_file_path d = p /\ fsal_stable d = stable arg /\
      match k with None => wd_rc d = NFS_REQ_ERROR | Some k => wd_rc d = NFS_REQ_OK /\ io_amount d = u64 k end).
Proof.
  intros Hok Hfd. unfold nfs_write_buff. cbn [wd_obj wd_iov wd_offset fsal_stable].
  eapply runs_bind; [apply load_runs|]. intros h0 evs t0 (-> & -> & ->). rewrite deref_store.
  destruct (start_write_ok h Hok) as (h1 & Hs & Hok1 & Hh1 & _). rewrite Hs.
  assert (Hst : started h = h1) by (unfold started; by rewrite Hs).
  eapply runs_bind; [apply save_runs|]. intros u evs t0 [-> ->]. rewrite store_store.
  change (FSAL_IS_ERROR ERR_FSAL_NO_ERROR) with false. cbv iota. rewrite Hh1, Hfd.
  eapply runs_bind; [apply runs_sys|]. intros n evs t0 [-> ->]. cbn [io_amount fsal_stable wd_obj].
  rewrite <- Hst. case_decide as Hn.
  { apply runs_ret. exists None, (started h). split_and!; try done. apply WriteFailed.
    by destruct n. }
  destruct n as [k|]; [|done]. destruct (stable arg) eqn:Es.
  - eapply runs_bind; [apply runs_sys|]. intros r evs t0 [-> ->]. case_decide as Hr.
    { subst r. apply runs_ret. exists None, (started h). split_and!; try done. by apply WriteNotFlushed. }
    eapply runs_bind; [apply load_runs|]. intros h0 evs t0 (-> & -> & ->). rewrite deref_store.
    eapply runs_bind; [apply save_runs|]. intros u0 evs t0 [-> ->]. rewrite store_store.
    apply runs_ret. exists (Some k), (finished (started h)). split_and!; try done. by apply WriteFlushed.
  - eapply runs_bind; [apply runs_ret; by instantiate (1 := fun a evs t' => a = 0 /\ evs = [] /\ t' = store (Some p) (started h) t)|].
    intros r evs t0 (-> & -> & ->). rewrite (decide_False (P := 0 = -1)) by done.
    eapply runs_bind; [apply load_runs|]. intros h0 evs t0 (-> & -> & ->). rewrite deref_store.
    eapply runs_bind; [apply save_runs|]. intros u0 evs t0 [-> ->]. rewrite store_store.
    apply runs_ret. exists (Some k), (finished (started h)). split_and!; try done. by apply WriteUnstable.
Qed.

(** The status a failed write has set is overwritten. *)
Lemma complete_write_runs d k t :
  match k with None => wd_rc d = NFS_REQ_ERROR | Some k => wd_rc d = NFS_REQ_OK /\ io_amount d = u64 k end ->
  runs (nfs3_complete_write d) t (fun '(rc, res') evs t' => rc = NFS_REQ_OK /\ t' = t /\
    exists a, evs = [EvLstat (wd_file_path d) a] /\ status res' = attr_status a /\
    match k with
    | None => True
    | Some k => wr_count (res_u res') = u32 (u64 k) /\ wr_verf (res_u res') = NFS3_write_verifier /\
                wr_committed (res_u res') = if fsal_stable d then FILE_SYNC else UNSTABLE
    end).
Proof.
  intros Hk. unfold nfs3_complete_write. destruct k as [k|]; [destruct Hk as [Hrc Hio]|rename Hk into Hrc];
    rewrite Hrc; run_all; (split_and!; [done..|]); eexists; split_and!; try done. simpl. by rewrite Hio.
Qed.

Lemma write_count_eq arg :
  (if decide (WRITE_READ_MAX < wra_count arg) then WRITE_READ_MAX else wra_count arg) = write_count arg.
Proof. unfold write_count. case_decide; lia. Qed.

#[local] Hint Resolve write_wcc_runs : runs.

Lemma write_runs arg res t :
  data_val (fh_data (wra_file arg)) <> None -> ~ no_handle (wra_file arg) -> table_idle t ->
  runs (nfs3_write arg res) t (fun '(rc, res') evs t' =>
    rc = NFS_REQ_OK /\ write_outcome (handle_path (wra_file arg)) arg t res' evs t').
Proof.
  intros Hc Hn Hi. unfold nfs3_write. rewrite (decide_False _ _ Hn). run_step. run_step. run_step; cycle 1.
  { run_step. split; [done|]. by eapply WriteNotFile. }
  run_step.
  { run_step. split; [done|]. by eapply WriteShort. }
  rewrite write_count_eq. fold (write_bytes arg) (stable arg). run_step.
  { run_step. run_step. split; [done|]. by eapply WriteNothing. }
  eapply runs_bind; [by apply get_handle_runs|]. intros fr evs t' (fd & -> & [[-> Hi']|(Hfd & -> & ->)]);
    (eapply runs_bind; [apply load_runs|]); intros h0 evs t0 (-> & -> & ->).
  { rewrite (decide_True _ _ (deref_idle _ _ Hi')). run_step.
    eapply runs_bind; [apply close_handle_runs|].
    intros u evs t0 [(_ & -> & ->)|(Hh & _)]; [|by rewrite deref_idle in Hh].
    run_step. split; [done|]. by eapply WriteNoOpen. }
  set (file := handle_path (wra_file arg)) in *. set (h := (entry t file) <| handle := fd |>).
  assert (Hok : handle_ok h) by apply (entry_idle t file Hi).
  rewrite deref_store, (decide_False (P := handle h = -1)) by done.
  eapply runs_bind; [by apply write_buff_runs|].
  intros d evs t0 (k & h' & Hw & -> & Hp & Hst & Hk).
  destruct (write_calls_ok _ _ _ _ _ _ Hok Hw) as [_ Hh'].
  eapply runs_bind; [by apply complete_write_runs|].
  intros [rc res'] evs' t0 (-> & -> & a & -> & Hs & Hres). rewrite Hp. rewrite Hst in Hres.
  eapply runs_bind; [apply close_handle_runs|].
  intros u evs0 t0 [(Hh & _)|(_ & [c ->] & ->)]; rewrite deref_store in *; [by rewrite Hh' in Hh|].
  rewrite store_store, Hh'. apply runs_ret. split; [done|]. rewrite app_nil_r.
  by eapply (WriteOpened _ _ _ _ r fd k evs h' a c); [| lia|..].
Qed.

(** Every request leaves the table idle. *)
Lemma write_outcome_idle file arg t res' evs t' :
  table_idle t -> write_outcome file arg t res' evs t' -> table_idle t'.
Proof.
  intros Hi Ho. destruct Ho as [| | | |r fd k calls h a c ? ? ? ? Hw]; try done.
  apply store_idle; [done..|].
  assert (Hok : handle_ok ((entry t file) <| handle := fd |>)) by apply (entry_idle t file Hi).
  apply (write_calls_ok _ _ _ _ _ _ Hok Hw).
Qed.

End WriteSpec.

(** ** What COMMIT does *)

Section CommitSpec.
  Context {FS : Type} `{Posix FS}.

(** On an idle table: whatever the client wrote before, there is no descriptor to
    flush, and the status is that of reading the attributes. *)
Lemma commit_runs arg res t :
  data_val (fh_data (coa_file arg)) <> None -> ~ no_handle (coa_file arg) -> table_idle t ->
  let file := handle_path (coa_file arg) in
  runs (nfs3_commit arg res) t (fun '(rc, res') evs t' =>
    t' = t /\ rc = NFS_REQ_ERROR /\ co_verf (res_u res') = NFS3_write_verifier /\
    ((exists r, evs = [EvLstat file r] /\ file_is S_IFREG r = false /\ status res' = NFS3ERR_NOENT) \/
     (exists r a, evs = [EvLstat file r; EvLstat file a] /\ file_is S_IFREG r = true /\
        status res' = attr_status a))).
Proof.
  intros Hc Hn Hi file. unfold nfs3_commit. rewrite (decide_False _ _ Hn). run_step. run_step. run_step; cycle 1.
  { unfold commit_out. eapply runs_bind; [apply runs_ret; by instantiate (1 := fun _ evs t' => evs = [] /\ t' = t)|].
    intros u evs t0 [-> ->]. apply runs_ret. split_and!; [done..|]. left. eexists. by split_and!. }
  eapply runs_bind; [apply just_get_handle_runs|]. intros fr evs t0 (-> & -> & ->).
  eapply runs_bind; [apply load_runs|]. intros h evs t0 (-> & -> & ->).
  rewrite (decide_True _ _ (deref_idle _ _ Hi)). unfold commit_wcc, commit_out. run_step. cbv beta iota zeta.
  eapply runs_bind; [apply close_handle_runs|].
  intros u evs t0 [(_ & -> & ->)|(Hh & _)]; [|by rewrite deref_idle in Hh].
  apply runs_ret. split_and!; [done..|]. right. eexists _, _. by split_and!.
Qed.

End CommitSpec.
