(* ===== verification/Nfs3Readdir.v ===== *)
(** * READDIR and READDIRPLUS ([src/nfs/nfs_readdir.cpp], [nfs_readdirplus.cpp],
    [vfs_readents] and [to_vfs_dirent] of [src/nfs/nfs_utils.cpp]) *)
From S2P Require Import Prelude XdrStream XdrPrim XdrSpec Nfs3Types Nfs3Msgs Nfs3ArgSpecs Posix NfsUtils Nfs3Attr.

Open Scope Z_scope.
Open Scope dnfs_scope.

(** ** Words in memory, low byte first *)

Fixpoint le_bytes (n : nat) (z : Z) : list byte :=
  match n with
  | O => []
  | S n' => byte_of z :: le_bytes n' (Z.shiftr z 8)
  end.

Fixpoint le_val (l : list byte) : Z :=
  match l with
  | [] => 0
  | b :: l' => byte_val b + 256 * le_val l'
  end.

(** ** Directory entries of the kernel *)

(** [struct vfs_dirent] *)
Record vfs_dirent := mk_vfs_dirent {
  vd_ino : Z;
  vd_reclen : Z;
  vd_type : Z;
  vd_offset : Z;
  vd_name : list byte }.

(** [n] bytes at [pos]. *)
Definition field (buf : list byte) (pos n : nat) : list byte := take n (drop pos buf).

(** A [char]. *)
Definition i8 (z : Z) : Z := (z + 128) mod 256 - 128.

(** [struct dirent64]: inode 8 bytes, offset 8, record length 2, type 1, name.  The
    type is taken from [buf[d_reclen - 1]], counted from the start of the buffer, a
    [char] that becomes a [uint32_t]. *)
Definition to_vfs_dirent (buf : list byte) (bpos : nat) : vfs_dirent :=
  let d_reclen := le_val (field buf (bpos + 16) 2) in
  mk_vfs_dirent (le_val (field buf bpos 8)) d_reclen
    (u32 (i8 (byte_val (default x00 (buf !! Z.to_nat (d_reclen - 1))))))
    (i64 (le_val (field buf (bpos + 8) 8)))
    (cstr (drop (bpos + 19) buf)).

Definition NS_PER_SEC : Z := 1000000000.
(** [sizeof(fattr3)], [sizeof(cookieverf3)], [sizeof(node)] (a pointer) *)
Definition sizeof_fattr3 : Z := 88.
Definition sizeof_cookieverf3 : Z := 8.
Definition sizeof_node : Z := 8.

(** The two settings of [nfs_core_parameter_t] the handlers read. *)
Record core_param := mk_core_param { readdir_res_size : Z; readdir_max_count : Z }.
(** The values it is initialised with. *)
Definition default_core_param : core_param := mk_core_param (64 * 1024 * 1024) (1 * 1024 * 1024).

Definition timespec_to_nsecs (sec nsec : Z) : Z := u64 (u64 (sec * NS_PER_SEC) + nsec).

(** The subtractions of 4 are on [uint32_t], those of [sizeof] on [size_t]. *)
Definition mem_avail (cfg : core_param) (maxcount : Z) : Z :=
  let max_res_size := if decide (readdir_res_size cfg < maxcount) then readdir_res_size cfg else maxcount in
  Z.min WRITE_READ_MAX
    (let unit := Z.of_nat BYTES_PER_XDR_UNIT in
     u64 (u32 (u32 (max_res_size - unit) - unit) - sizeof_fattr3 - sizeof_cookieverf3)).

Definition max_entry_count (cfg : core_param) (dircount : Z) : Z :=
  if decide (dircount < readdir_max_count cfg) then dircount else readdir_max_count cfg.

(** The nodes chained by [nextentry]. *)
Definition link_entries (l : list entry3) : option entry3 :=
  foldr (fun e next => Some (e <| nextentry := next |>)) None l.
Definition link_entriesplus (l : list entryplus3) : option entryplus3 :=
  foldr (fun e next => Some (e <| ep_nextentry := next |>)) None l.

(** The list under construction with [entry_count] and [used_mem]. *)
Record scan := mk_scan { sc_nodes : list entryplus3; entry_count : Z; used_mem : Z }.

(** How the scan of a buffer ends: with its last entry, with a full page, or at an
    entry that cannot be examined. *)
Inductive scan_end := ScanOn (s : scan) | ScanPage (s : scan) | ScanStat.

Section Handlers.
  Context {FS : Type} `{Posix FS}.
  Abbreviation M := (ST (world FS)).

(** [heap k] is the memory [new entry3] returns the [k]-th time; [cookie] is never
    set in it.  [logs]: whether level [D_ERROR] is logged; then the type of what is
    not a directory, an [int], is printed as a string, which is undefined and here
    ends the process.  The limit [maxcount] is computed and not used. *)
Definition nfs3_readdir (logs : bool) (heap : nat -> entry3) (arg : READDIR3args) (res : READDIR3res)
  : M (nfs_req_result * READDIR3res) :=
  let reply := (dr_reply (res_u res)) <| dl_entries := None |> in
  let res := res <| res_u := (res_u res) <| dr_reply := reply |> |> in
  if decide (no_handle (dra_dir arg)) then ret (NFS_REQ_ERROR, res)
  else
    dir <- get_file_handle (dra_dir arg) ;;
    let attrs := (dr_dir_attributes (res_u res)) <| poa_follow := FALSE |> in
    let! (st, a) := nfs_set_post_op_attr (path_of dir) attrs in
    let res := mk_res st ((res_u res) <| dr_dir_attributes := a |>) in
    if decide (st <> NFS3_OK) then ret (NFS_REQ_ERROR, res)
    else if decide (fa_type (poa_attributes a) <> NF3DIR) then
      if logs then abort else ret (NFS_REQ_OK, res <| status := NFS3ERR_NOTDIR |>)
    else
      namelist <- scandir (path_of dir) ;;
      match namelist with
      | None => ret (NFS_REQ_ERROR, res <| status := NFS3ERR_BADHANDLE |>)
      | Some l =>
          let nodes := imap (fun k d => (heap (S k)) <| en_name := Some (d_name d ++ [x00]) |>
                                                     <| en_fileid := d_ino d |>) l in
          ret (NFS_REQ_OK,
            res <| res_u := (res_u res) <| dr_reply := mk_dirlist3 (link_entries nodes) TRUE |> |>)
      end.

Definition dot (name : list byte) : Prop := name = [x2e] \/ name = [x2e; x2e].
#[global] Instance dot_dec name : Decision (dot name).
Proof. unfold dot. apply _. Defined.

(** One entry: its node, or [None] when its attributes cannot be read. *)
Definition make_node (node : entryplus3) (dir : path) (d : vfs_dirent) : M (option entryplus3) :=
  let node := node <| ep_name := Some (vd_name d ++ [x00]) |> <| ep_fileid := vd_ino d |>
                   <| ep_cookie := u64 (vd_offset d) |> <| ep_nextentry := None |> in
  if decide (dot (vd_name d)) then
    ret (Some (node <| ep_name_attributes := (ep_name_attributes node) <| poa_follow := FALSE |> |>
                    <| ep_name_handle := (ep_name_handle node) <| handle_follows := FALSE |> |>))
  else
    let file_path := dir ++ slash :: vd_name d in
    let! (st, a) := nfs_set_post_op_attr file_path (ep_name_attributes node) in
    if decide (st <> NFS3_OK) then ret None
    else ret (Some (node <| ep_name_handle := mk_post_op_fh3 TRUE (set_file_handle file_path) |>
                         <| ep_name_attributes := a |>)).

(** The node is appended; [limit] is [max_entry_count], [avail] is [mem_avail].  A full
    page ends the scan, unless the entry is the last of the directory: then only
    the loop over the buffer is left. *)
Definition add_node (limit avail : Z) (s : scan) (node : entryplus3) : scan * option scan_end :=
  let s := mk_scan (sc_nodes s ++ [node]) (u32 (entry_count s + 1)) (u64 (used_mem s + sizeof_node)) in
  if decide (limit <= entry_count s \/ avail <= u64 (used_mem s + Z.of_nat BYTES_PER_XDR_UNIT))
  then (s, Some (if decide (ep_cookie node = LONG_MAX) then ScanOn s else ScanPage s))
  else (s, None).

(** [for (bpos = 0; bpos < nread;)].  One unit of fuel per record; a record of
    length 0 would be read for ever, out of fuel is no result. *)
Fixpoint scan_buf (heap : nat -> entryplus3) (limit avail : Z) (dir : path) (fuel : nat) (buf : list byte)
    (bpos : nat) (s : scan) : M scan_end :=
  if decide (length buf <= bpos)%nat then ret (ScanOn s)
  else
    match fuel with
    | O => abort
    | S fuel =>
        let d := to_vfs_dirent buf bpos in
        node <- make_node (heap (S (length (sc_nodes s)))) dir d ;;
        match node with
        | None => ret ScanStat
        | Some node =>
            let '(s, stop) := add_node limit avail s node in
            match stop with
            | Some e => ret e
            | None => scan_buf heap limit avail dir fuel buf (bpos + Z.to_nat (vd_reclen d)) s
            end
        end
    end.

(** How [do ... while (true)] is left. *)
Inductive dir_end := DirEof (s : scan) | DirPage (s : scan) | DirStat | DirError.

Fixpoint scan_dir (heap : nat -> entryplus3) (limit avail : Z) (dir : path) (dir_fh : Z) (fuel : nat) (s : scan)
  : M dir_end :=
  match fuel with
  | O => abort
  | S fuel =>
      nread <- getdents64 dir_fh BUF_SIZE ;;
      match nread with
      | None => ret DirError
      | Some [] => ret (DirEof s)
      | Some buf =>
          e <- scan_buf heap limit avail dir (length buf) buf 0 s ;;
          match e with
          | ScanOn s => scan_dir heap limit avail dir dir_fh fuel s
          | ScanPage s => ret (DirPage s)
          | ScanStat => ret DirStat
          end
      end
  end.

(** The cookie verifier: the change time of the directory. *)
Definition cookie_verifier (a : fattr3) : list byte :=
  le_bytes 8 (timespec_to_nsecs (tv_sec (fa_ctime a)) (tv_nsec (fa_ctime a))).

(** [SEEK_SET] is the only mode of [lseek]. *)
Definition nfs3_readdirplus (logs : bool) (heap : nat -> entryplus3) (cfg : core_param) (fuel : nat)
    (arg : READDIRPLUS3args) (res : READDIRPLUS3res) : M (nfs_req_result * READDIRPLUS3res) :=
  let res := res <| res_u := (res_u res) <| rp_reply := mk_dirlistplus3 None FALSE |> |> in
  if decide (no_handle (rpa_dir arg)) then ret (NFS_REQ_ERROR, res)
  else
    dir <- get_file_handle (rpa_dir arg) ;;
    let attrs := (rp_dir_attributes (res_u res)) <| poa_follow := FALSE |> in
    let! (st, a) := nfs_set_post_op_attr (path_of dir) attrs in
    let res := mk_res st ((res_u res) <| rp_dir_attributes := a |>) in
    if decide (st <> NFS3_OK) then ret (NFS_REQ_ERROR, res)
    else if decide (fa_type (poa_attributes a) <> NF3DIR) then
      if logs then abort else ret (NFS_REQ_OK, res <| status := NFS3ERR_NOTDIR |>)
    else
      let verf := cookie_verifier (poa_attributes a) in
      if decide (rpa_cookie arg <> 0 /\ verf <> rpa_cookieverf arg) then
        ret (NFS_REQ_OK, res <| status := NFS3ERR_BAD_COOKIE |>)
      else
        let cookie := if decide (2 < rpa_cookie arg) then rpa_cookie arg else 0 in
        let bad := (NFS_REQ_ERROR, res <| status := NFS3ERR_BADHANDLE |>) in
        dir_fh <- open (path_of dir) (Z.lor O_RDONLY O_DIRECTORY) ;;
        out <- (if decide (dir_fh < 0) then ret bad
                else
                  seekloc <- lseek dir_fh (i64 cookie) ;;
                  if decide (seekloc < 0) then ret bad
                  else
                    e <- scan_dir heap (max_entry_count cfg (rpa_dircount arg)) (mem_avail cfg (rpa_maxcount arg))
                           (path_of dir) dir_fh fuel (mk_scan [] 0 0) ;;
                    let reply s eof := (NFS_REQ_OK,
                      res <| res_u := mk_READDIRPLUS3resok a verf (mk_dirlistplus3 (link_entriesplus (sc_nodes s)) eof) |>) in
                    match e with
                    | DirEof s => ret (reply s TRUE)
                    | DirPage s => ret (reply s FALSE)
                    | DirStat => ret (NFS_REQ_ERROR, res)
                    | DirError => ret bad
                    end) ;;
        close dir_fh ;;
        ret out.

End Handlers.

(** ** Walking the kernel's buffer *)

Lemma le_val_bytes n z : le_val (le_bytes n z) = z mod 256 ^ Z.of_nat n.
Proof.
  revert z; induction n as [|n IH]; intros z; [by rewrite Z.mod_1_r|]. cbn [le_bytes le_val].
  rewrite IH, byte_val_of, Z.shiftr_div_pow2 by lia. unfold u8. change (2 ^ 8) with 256.
  rewrite Nat2Z.inj_succ, Z.pow_succ_r, (Z.rem_mul_r z 256) by lia. done.
Qed.

Lemma length_le_bytes n z : length (le_bytes n z) = n.
Proof. revert z; induction n as [|n IH]; intros z; simpl; [done|]. by rewrite IH. Qed.

(** A record as [getdents64] lays it out: [pad] fills it to [d_reclen] bytes. *)
Record kdirent := mk_kdirent { k_ino : Z; k_off : Z; k_type : byte; k_name : list byte; k_pad : nat }.

Definition k_reclen (e : kdirent) : nat := 20 + length (k_name e) + k_pad e.
Definition kdirent_bytes (e : kdirent) : list byte :=
  le_bytes 8 (k_ino e) ++ le_bytes 8 (k_off e) ++ le_bytes 2 (Z.of_nat (k_reclen e)) ++ [k_type e] ++
  k_name e ++ x00 :: replicate (k_pad e) x00.
Definition kdirent_ok (e : kdirent) : Prop :=
  is_u64 (k_ino e) /\ 0 <= k_off e < 2 ^ 63 /\ no_nul (k_name e) /\ Z.of_nat (k_reclen e) < 2 ^ 16.

Lemma length_kdirent e : length (kdirent_bytes e) = k_reclen e.
Proof.
  unfold kdirent_bytes, k_reclen. rewrite !length_app, !length_le_bytes. simpl. rewrite length_replicate. lia.
Qed.

Lemma field_skip l1 l2 pos n : field (l1 ++ l2) (length l1 + pos) n = field l2 pos n.
Proof. unfold field. by rewrite drop_app_add. Qed.

Lemma field_here l1 l2 n : length l1 = n -> field (l1 ++ l2) 0 n = l1.
Proof. intros <-. unfold field. by rewrite drop_0, take_app_length. Qed.

(** What [to_vfs_dirent] finds at the start of a record, [vd_type] apart. *)
Lemma to_vfs_dirent_spec pre e post :
  kdirent_ok e ->
  let d := to_vfs_dirent (pre ++ kdirent_bytes e ++ post) (length pre) in
  vd_ino d = k_ino e /\ vd_offset d = k_off e /\ vd_name d = k_name e /\ vd_reclen d = Z.of_nat (k_reclen e).
Proof.
  intros (Hi & Ho & Hn & Hl). unfold to_vfs_dirent, kdirent_bytes; cbn [vd_ino vd_offset vd_name vd_reclen].
  rewrite <- (Nat.add_0_r (length pre)) at 1. rewrite !field_skip, drop_app_add, <- !app_assoc.
  split_and!.
  - rewrite field_here by apply length_le_bytes. rewrite le_val_bytes. by apply Z.mod_small.
  - rewrite (field_skip (le_bytes 8 (k_ino e)) _ 0), field_here by apply length_le_bytes.
    rewrite le_val_bytes. change (256 ^ Z.of_nat 8) with (2 ^ 64). rewrite (Z.mod_small (k_off e)) by lia.
    unfold i64. rewrite Z.mod_small by lia. lia.
  - rewrite (app_assoc (le_bytes 8 _)), (app_assoc (_ ++ _) (le_bytes 2 _)), (app_assoc (_ ++ _) [_]).
    rewrite drop_app_length' by (rewrite !length_app, !length_le_bytes; done).
    simpl. by apply cstr_app_nul.
  - rewrite (app_assoc (le_bytes 8 _)), (field_skip (le_bytes 8 (k_ino e) ++ le_bytes 8 (k_off e)) _ 0).
    rewrite field_here by apply length_le_bytes. rewrite le_val_bytes. apply Z.mod_small. lia.
Qed.

(** The same scan over the records themselves. *)
Section ScanSpec.
  Context {FS : Type} `{Posix FS}.
  Variable heap : nat -> entryplus3.
  Variables limit avail : Z.
  Variable dir : path.

Definition vfs_of (e : kdirent) : vfs_dirent :=
  mk_vfs_dirent (k_ino e) (Z.of_nat (k_reclen e)) (u32 (i8 (byte_val (k_type e)))) (k_off e) (k_name e).

Fixpoint scan_list (es : list kdirent) (s : scan) : ST (world FS) scan_end :=
  match es with
  | [] => ret (ScanOn s)
  | e :: es =>
      node <- make_node (heap (S (length (sc_nodes s)))) dir (vfs_of e) ;;
      match node with
      | None => ret ScanStat
      | Some node =>
          let '(s, stop) := add_node limit avail s node in
          match stop with Some e => ret e | None => scan_list es s end
      end
  end.

Lemma make_node_ext node d d' :
  vd_ino d = vd_ino d' -> vd_offset d = vd_offset d' -> vd_name d = vd_name d' ->
  make_node (FS:=FS) node dir d = make_node node dir d'.
Proof. intros Hi Ho Hn. unfold make_node. by rewrite Hi, Ho, Hn. Qed.

Definition records (es : list kdirent) : list byte := flat_map kdirent_bytes es.

Lemma length_records es : (length es <= length (records es))%nat.
Proof.
  induction es as [|e es IH]; [done|]. change (records (e :: es)) with (kdirent_bytes e ++ records es).
  rewrite length_app, length_kdirent. unfold k_reclen. simpl. lia.
Qed.

Lemma scan_buf_at es : Forall kdirent_ok es -> forall pre fuel s w, (length es <= fuel)%nat ->
  scan_buf heap limit avail dir fuel (pre ++ records es) (length pre) s w = scan_list es s w.
Proof.
  induction 1 as [|e es He Hes IH]; intros pre fuel s w Hf.
  { destruct fuel; cbn [scan_buf records flat_map]; rewrite app_nil_r, decide_True by lia; done. }
  change (records (e :: es)) with (kdirent_bytes e ++ records es). cbn [scan_list].
  assert (Hlen : ~ (length (pre ++ kdirent_bytes e ++ records es) <= length pre)%nat).
  { rewrite !length_app, length_kdirent. unfold k_reclen. lia. }
  destruct fuel as [|fuel]; simpl in Hf; [lia|]. cbn [scan_buf]. rewrite (decide_False _ _ Hlen).
  destruct (to_vfs_dirent_spec pre e (records es) He) as (Hi & Ho & Hn & Hr).
  rewrite (make_node_ext _ _ (vfs_of e) Hi Ho Hn), Hr. unfold bind.
  destruct (make_node _ dir (vfs_of e) w) as [[[node|] w']|]; [|done..].
  destruct (add_node limit avail s node) as [s' [stop|]]; [done|]. rewrite Nat2Z.id.
  rewrite app_assoc, <- (length_kdirent e), <- length_app. apply IH. lia.
Qed.

(** The scan of a buffer visits the kernel's records, each once and in order. *)
Lemma scan_buf_records es s w :
  Forall kdirent_ok es ->
  scan_buf heap limit avail dir (length (records es)) (records es) 0 s w = scan_list es s w.
Proof. intros Hes. apply (scan_buf_at es Hes [] _ s w), length_records. Qed.

End ScanSpec.

(** ** What READDIR does *)

(** The entries of a reply as (inode, name). *)
Fixpoint entry_names (e : entry3) : list (Z * filename3) :=
  (en_fileid e, en_name e) :: match nextentry e with None => [] | Some e' => entry_names e' end.
Definition reply_names (l : option entry3) : list (Z * filename3) := from_option entry_names [] l.

Lemma reply_names_link l : reply_names (link_entries l) = map (fun e => (en_fileid e, en_name e)) l.
Proof. induction l as [|e l IH]; simpl; [done|]. rewrite <- IH. by destruct (link_entries l). Qed.

Lemma map_imap {A B C} (f : nat -> A -> B) (g : B -> C) (h : A -> C) l :
  (forall k x, g (f k x) = h x) -> map g (imap f l) = map h l.
Proof.
  intros Hg. revert f Hg. induction l as [|x l IH]; intros f Hg; simpl; [done|]. rewrite Hg. f_equal.
  apply IH. intros k y. apply Hg.
Qed.

Section ReaddirSpec.
  Context {FS : Type} `{Posix FS}.

(** READDIR: the reply lists what [scandir] found and says it is all, whatever cookie and
    size the client gave; an error lists nothing. *)
Theorem readdir_runs heap arg res t :
  fh3_canon (dra_dir arg) -> ~ no_handle (dra_dir arg) ->
  let dir := handle_path (dra_dir arg) in
  runs (nfs3_readdir false heap arg res) t (fun '(rc, res') evs t' => t' = t /\
    ((exists a l, evs = [EvLstat dir a; EvScandir dir (Some l)] /\ status res' = NFS3_OK /\ rc = NFS_REQ_OK /\
        dl_eof (dr_reply (res_u res')) = TRUE /\
        reply_names (dl_entries (dr_reply (res_u res'))) =
          map (fun d => (d_ino d, Some (d_name d ++ [x00]))) l) \/
     (status res' <> NFS3_OK /\ dl_entries (dr_reply (res_u res')) = None /\ mutations evs = []))).
Proof.
  intros Hc Hn dir. unfold nfs3_readdir. rewrite (decide_False _ _ Hn).
  run_all; (split; [done|]); simpl; try (right; by split_and!).
  left. eexists _, _. split_and!; try done. by rewrite reply_names_link, (map_imap _ _ (fun d => (d_ino d, Some (d_name d ++ [x00])))).
Qed.

(** ** READDIRPLUS ends and fills at most a page *)

(** What the kernel documents of [getdents64]: it delivers whole records, and after the
    record with the largest offset, which is the last of a directory, there is nothing
    more to read; [ended] are the states in which a directory has been read up to it, and
    examining a file does not change that. *)
Definition getdents_ok : Prop := exists ended : Z -> FS -> Prop,
  (forall fd n fs buf fs', sys_getdents64 fd n fs = (Some buf, fs') ->
     exists es, buf = records es /\ Forall kdirent_ok es /\ (Exists (fun e => k_off e = LONG_MAX) es -> ended fd fs')) /\
  (forall fd n fs, ended fd fs -> (sys_getdents64 fd n fs).1 = Some []) /\
  (forall fd p fs, ended fd fs -> ended fd (sys_lstat p fs).2).

Variable heap : nat -> entryplus3.
Variables limit avail : Z.
Variable dir : path.

(** A list that is not a full page. *)
Definition scan_ok (s : scan) : Prop :=
  entry_count s = Z.of_nat (length (sc_nodes s)) /\ (entry_count s = 0 \/ entry_count s < limit).
Definition page (s : scan) : Prop :=
  entry_count s = Z.of_nat (length (sc_nodes s)) /\ Z.of_nat (length (sc_nodes s)) <= Z.max 1 limit.

Lemma make_node_runs node d t :
  runs (make_node node dir d) t (fun x evs t' => t' = t /\ mutations evs = [] /\
    forall n, x = Some n -> ep_cookie n = u64 (vd_offset d)).
Proof.
  unfold make_node. run_all; split_and!; try done; intros n' Hn'; by simplify_eq.
Qed.

(** A scan ends on a list that is not a full page, or with the last record of the directory. *)
Lemma scan_list_runs es : Forall kdirent_ok es -> is_u32 limit -> forall s t, scan_ok s ->
  runs (scan_list heap limit avail dir es s) t (fun e evs t' => t' = t /\ mutations evs = [] /\
    match e with
    | ScanOn s' => (length (sc_nodes s) + min 1 (length es) <= length (sc_nodes s'))%nat /\
        (scan_ok s' \/ page s' /\ Exists (fun e => k_off e = LONG_MAX) es)
    | ScanPage s' => page s'
    | ScanStat => True
    end).
Proof.
  intros Hes Hlim. induction Hes as [|e es He Hes IH]; intros s t [Hc Hs]; cbn [scan_list].
  { apply runs_ret. split_and!; [done..|simpl; lia|by left]. }
  eapply runs_bind; [apply make_node_runs|]. intros x evs t' (-> & Hm & Hck).
  destruct x as [node|]; [|apply runs_ret; split_and!; [done|by rewrite app_nil_r|done]].
  assert (Hcount : u32 (entry_count s + 1) = Z.of_nat (length (sc_nodes s ++ [node]))).
  { rewrite length_app, u32_small; unfold is_u32 in *; simpl; lia. }
  unfold add_node. cbn [entry_count used_mem]. rewrite Hcount. case_decide as Hfull.
  - assert (Hp : forall m, page (mk_scan (sc_nodes s ++ [node]) (Z.of_nat (length (sc_nodes s ++ [node]))) m)).
    { intros m. split; [done|]. cbn [sc_nodes]. rewrite length_app. simpl. destruct Hs; lia. }
    case_decide as Hmax; apply runs_ret; (split; [done|]; split; [by rewrite app_nil_r|]); [|apply Hp].
    split; [cbn [sc_nodes]; rewrite length_app; simpl; lia|]. right. split; [apply Hp|]. left.
    rewrite (Hck node eq_refl) in Hmax. destruct He as (_ & Hoe & _). cbn [vd_offset vfs_of] in Hmax.
    rewrite u64_small in Hmax; [done|]. unfold is_u64. lia.
  - eapply runs_mono; [apply IH|].
    + split; [done|]. simpl. right. lia.
    + intros r evs' t' (-> & Hm' & Hr). split_and!; [done|by rewrite mutations_app, Hm, Hm'|].
      destruct r as [s'|s'|]; try done. cbn [sc_nodes] in Hr. rewrite length_app in Hr. simpl in Hr.
      destruct Hr as [Hl Hr]. split; [simpl; lia|]. destruct Hr as [?|[? ?]]; [by left|right; split; [done|by right]].
Qed.

(** Examining files keeps what [lstat] keeps. *)
Lemma scan_list_keeps (I : FS -> Prop) es : (forall p fs, I fs -> I (sys_lstat p fs).2) ->
  forall s w x w', I (w_fs w) -> scan_list heap limit avail dir es s w = Some (x, w') -> I (w_fs w').
Proof.
  intros HI. induction es as [|e es IH]; intros s w x w' Hw; cbn [scan_list]; [by intros [= _ <-]|]. unfold bind, make_node.
  assert (Hat : forall p a st a' w1, nfs_set_post_op_attr p a w = Some ((st, a'), w1) -> I (w_fs w1)).
  { intros p a st a' w1. unfold nfs_set_post_op_attr, lstat, syscall, bind, ret. specialize (HI p _ Hw).
    destruct (sys_lstat p (w_fs w)) as [r fs']. destruct r; [by intros [= _ _ <-]|]. destruct (ftype3_of_mode _); by intros [= _ _ <-]. }
  assert (Hadd : forall (o : option entryplus3) w1, I (w_fs w1) ->
    match o with
    | None => ret ScanStat
    | Some node => let '(s, stop) := add_node limit avail s node in
        match stop with Some e => ret e | None => scan_list heap limit avail dir es s end
    end w1 = Some (x, w') -> I (w_fs w')).
  { intros [node|] w1 H1; [|by intros [= _ <-]]. destruct (add_node limit avail s node) as [s' [stop|]]; [by intros [= _ <-]|by apply IH]. }
  case_decide; [by apply (Hadd (Some _))|]. unfold bind. destruct (nfs_set_post_op_attr _ _ w) as [[[st a'] w1]|] eqn:E; [|done].
  apply Hat in E. destruct (decide (st <> NFS3_OK)); [by apply (Hadd None)|by apply (Hadd (Some _))].
Qed.

Lemma runs_ext {A} (m m' : ST (world FS) A) t Q : (forall w, m w = m' w) -> runs m' t Q -> runs m t Q.
Proof. intros He Hm w Hw. rewrite He. by apply Hm. Qed.

(** A directory that was read up to its end. *)
Lemma scan_dir_ended fd fuel s (w : world FS) :
  (sys_getdents64 fd BUF_SIZE (w_fs w)).1 = Some [] -> (0 < fuel)%nat -> exists w' fs',
  scan_dir heap limit avail dir fd fuel s w = Some (DirEof s, w') /\
  w' = w <| w_fs := fs' |> <| w_trace := w_trace w ++ [EvGetdents64 fd BUF_SIZE (Some [])] |>.
Proof.
  intros He Hf. destruct fuel as [|fuel]; [lia|]. cbn [scan_dir]. unfold bind, getdents64, syscall.
  destruct (sys_getdents64 fd BUF_SIZE (w_fs w)) as [r fs']. simpl in He. subst r. by eexists _, fs'.
Qed.

(** Each read of the directory brings an entry, so the page is full before the
    fuel is used up. *)
Lemma scan_dir_runs fd fuel s t :
  getdents_ok -> is_u32 limit -> scan_ok s -> Z.max 1 limit < Z.of_nat fuel + entry_count s ->
  runs (scan_dir heap limit avail dir fd fuel s) t (fun e evs t' => t' = t /\ mutations evs = [] /\
    match e with DirEof s' | DirPage s' => page s' | _ => True end).
Proof.
  intros (ended & Hg & Hend & Hkeep) Hlim. revert s t. induction fuel as [|fuel IH]; intros s t Hs Hf.
  { destruct Hs as [Hc [Hs|Hs]]; lia. }
  assert (Hpage : page s) by (destruct Hs as [Hc Hs]; split; [done|lia]).
  intros w Hw. cbn [scan_dir]. unfold bind at 1, getdents64, syscall.
  destruct (sys_getdents64 fd BUF_SIZE (w_fs w)) as [r fs'] eqn:Hr. set (w1 := w <| w_fs := fs' |> <| w_trace := _ |>).
  destruct r as [[|b buf]|]; [by eexists _, w1, _| |by eexists _, w1, _].
  destruct (Hg _ _ _ _ _ Hr) as (es & Hb & Hes & Hmax). rewrite Hb. cbv beta iota.
  assert (Hne : (0 < length es)%nat) by (destruct es; [done|simpl; lia]). unfold bind.
  rewrite scan_buf_records by done.
  destruct (scan_list_runs es Hes Hlim s t Hs w1 Hw) as (e & w2 & evs & He & Htr & Ht & Hm & Hcase). rewrite He.
  assert (Htr' : w_trace w2 = w_trace w ++ EvGetdents64 fd BUF_SIZE (Some (records es)) :: evs).
  { rewrite Htr. subst w1. simpl. by rewrite Hb, <- app_assoc. }
  destruct e as [s'|s'|]; [|eexists _, w2, _; split_and!; [done|exact Htr'|done|done|done]..].
  destruct Hcase as [Hl [Hs'|[Hp Hlast]]].
  - destruct (IH s' t Hs') with (w := w2) as (x & w3 & evs' & Hx & Htr3 & Ht3 & Hm' & Hres); [|done|].
    { destruct Hs as [Hc _], Hs' as [Hc' _]. lia. }
    exists x, w3. eexists. split_and!; [done|by rewrite Htr3, Htr', <- app_assoc|done| |done].
    rewrite mutations_app, Hm'. rewrite app_nil_r. exact Hm.
  - assert (He2 : ended fd (w_fs w2)) by (eapply (scan_list_keeps (ended fd)); [apply Hkeep| |exact He]; by apply Hmax).
    destruct (scan_dir_ended fd fuel s' w2 (Hend _ _ _ He2)) as (w3 & fs3 & Hx & ->).
    { destruct Hs as [Hc _], Hp as [Hc' ?]. lia. }
    eexists _, _, _. split_and!; [exact Hx|simpl; rewrite Htr', <- app_assoc; reflexivity|done| |done].
    rewrite mutations_app. simpl. rewrite app_nil_r. exact Hm.
Qed.

End ReaddirSpec.

Fixpoint entryplus_count (e : entryplus3) : nat :=
  S match ep_nextentry e with None => 0 | Some e' => entryplus_count e' end.

Lemma link_entriesplus_count l : from_option entryplus_count 0%nat (link_entriesplus l) = length l.
Proof. induction l as [|e l IH]; simpl; [done|]. rewrite <- IH. by destruct (link_entriesplus l). Qed.

Section ReaddirplusSpec.
  Context {FS : Type} `{Posix FS}.

(** Fuel for every page the client may ask for. *)
Definition page_fuel (limit : Z) : nat := S (S (Z.to_nat limit)).

(** Directory types not being logged. *)
Lemma readdirplus_unlogged heap cfg arg res t :
  fh3_canon (rpa_dir arg) -> getdents_ok ->
  is_u32 (readdir_max_count cfg) -> is_u32 (rpa_dircount arg) ->
  let limit := max_entry_count cfg (rpa_dircount arg) in
  runs (nfs3_readdirplus false heap cfg (page_fuel limit) arg res) t (fun '(rc, res') evs t' =>
    t' = t /\ mutations evs = [] /\
    Z.of_nat (from_option entryplus_count 0%nat (dp_entries (rp_reply (res_u res')))) <= Z.max 1 limit).
Proof.
  intros Hc Hg Hcfg Hdc limit. assert (Hlim : is_u32 limit) by (unfold limit, max_entry_count; by case_decide).
  assert (Hnil : 0 <= Z.max 1 limit) by lia.
  unfold nfs3_readdirplus. run_step; [run_step; by split_and!|]. run_step. run_step.
  run_step; [run_step; by split_and!|]. run_step; [run_step; by split_and!|]. run_step; [run_step; by split_and!|].
  run_step.
  assert (Hopen : forall fd, mutation (EvOpen (handle_path (rpa_dir arg)) (Z.lor O_RDONLY O_DIRECTORY) fd) = false) by done.
  eapply runs_bind with (Q1 := fun '(rc, res') evs t' => t' = t /\ mutations evs = [] /\
    Z.of_nat (from_option entryplus_count 0%nat (dp_entries (rp_reply (res_u res')))) <= Z.max 1 limit).
  - case_decide; [by apply runs_ret|]. eapply runs_bind; [apply runs_sys|]. intros sk evs t' [-> ->].
    case_decide; [by apply runs_ret|].
    eapply runs_bind; [apply scan_dir_runs; try done; [by split; auto|unfold page_fuel; fold limit; simpl; unfold is_u32 in *; lia]|].
    intros e evs t' (-> & Hm & He). fold limit in He.
    destruct e; apply runs_ret; (split_and!; [done|by rewrite !mutations_app, Hm|]); simpl; try done;
      rewrite link_entriesplus_count; apply He.
  - intros [rc res'] evs t' (-> & Hm & Hp). eapply runs_bind; [apply runs_sys|]. intros c evs' t' [-> ->].
    apply runs_ret. split_and!; [done| |done]. rewrite app_nil_r, !mutations_app, Hm. done.
Qed.

(** The second run is undefined where the first says that there is no directory. *)
Definition but_for_notdir (o1 o2 : option (nfs_req_result * READDIRPLUS3res * world FS)) : Prop :=
  match o1 with
  | Some ((rc, res'), w') => rc = NFS_REQ_OK /\ status res' = NFS3ERR_NOTDIR /\ o2 = None \/ o2 = Some ((rc, res'), w')
  | None => o2 = None
  end.

Lemma but_for_notdir_refl o : but_for_notdir o o.
Proof. destruct o as [[[? ?] ?]|]; [by right|done]. Qed.

Lemma but_for_notdir_bind {A} (m : ST (world FS) A) k1 k2 w :
  (forall a w', but_for_notdir (k1 a w') (k2 a w')) -> but_for_notdir (bind m k1 w) (bind m k2 w).
Proof. intros Hk. unfold bind. destruct (m w) as [[a w']|]; [apply Hk|done]. Qed.

(** Logging makes a difference for what is not a directory, and only there. *)
Lemma readdirplus_logged heap cfg fuel arg res (w : world FS) :
  but_for_notdir (nfs3_readdirplus false heap cfg fuel arg res w) (nfs3_readdirplus true heap cfg fuel arg res w).
Proof.
  unfold nfs3_readdirplus. case_decide; [by right|]. apply but_for_notdir_bind. intros h w1.
  apply but_for_notdir_bind. intros [st a] w2. cbv beta iota zeta.
  case_decide; [by right|]. case_decide; [by left|]. apply but_for_notdir_refl.
Qed.

(** C39: READDIRPLUS, for any handle and every page size, when [getdents64] delivers whole
    records and nothing after the one with the largest offset: it returns, the fuel
    [page_fuel] being enough, lists at most [max 1 limit] entries, where [limit] is the lesser
    of what the client asks for and the server's limit, and changes nothing.  This is without
    the logging of errors; with it the same happens, except that for a handle that is no
    directory a number is formatted as a string, which is undefined. *)
Theorem readdirplus_runs heap cfg arg res :
  fh3_canon (rpa_dir arg) -> getdents_ok ->
  is_u32 (readdir_max_count cfg) -> is_u32 (rpa_dircount arg) ->
  let limit := max_entry_count cfg (rpa_dircount arg) in
  (forall t, runs (nfs3_readdirplus false heap cfg (page_fuel limit) arg res) t (fun '(rc, res') evs t' =>
    t' = t /\ mutations evs = [] /\
    Z.of_nat (from_option entryplus_count 0%nat (dp_entries (rp_reply (res_u res')))) <= Z.max 1 limit)) /\
  forall w rc res' w', nfs3_readdirplus false heap cfg (page_fuel limit) arg res w = Some ((rc, res'), w') ->
    rc = NFS_REQ_OK /\ status res' = NFS3ERR_NOTDIR /\ nfs3_readdirplus true heap cfg (page_fuel limit) arg res w = None \/
    nfs3_readdirplus true heap cfg (page_fuel limit) arg res w = Some ((rc, res'), w').
Proof.
  intros Hc Hg Hcfg Hdc limit. split; [intros t; by apply readdirplus_unlogged|]. intros w rc res' w' Hr.
  pose proof (readdirplus_logged heap cfg (page_fuel limit) arg res w) as Hl. by rewrite Hr in Hl.
Qed.

End ReaddirplusSpec.
