(* ===== verification/Nfs3Free.v ===== *)
(** * The functions that free results

    The [free_function]s of the table: [nfs3_*_free] in [src/nfs/nfs_*.cpp].  Each is the
    list of the blocks it gives back, in their order; the blocks a result points to
    are what the handler allocated for it. *)
From S2P Require Import Prelude XdrStream XdrPrim XdrSpec Nfs3Types Nfs3Msgs Nfs3ArgSpecs Posix NfsUtils Nfs3Attr Nfs3Dir Nfs3Io.

Open Scope Z_scope.
Open Scope dnfs_scope.

(** A block of memory: a buffer or string, or an entry of a directory. *)
Inductive block :=
  | BlockBytes (s : list byte)
  | BlockEntry (e : entry3)
  | BlockPlus (e : entryplus3).

(** [gsh_free]: nothing for NULL. *)
Definition gsh_free (p : option (list byte)) : list block := match p with Some s => [BlockBytes s] | None => [] end.

Definition nfs3_lookup_free (res : LOOKUP3res) : list block :=
  if decide (status res = NFS3_OK) then gsh_free (data_val (fh_data (lk_object (res_u res)))) else [].

Definition nfs3_readlink_free (res : READLINK3res) : list block :=
  if decide (status res = NFS3_OK) then gsh_free (rl_data (res_u res)) else [].

Definition nfs3_read_free (res : READ3res) : list block :=
  if decide (status res = NFS3_OK /\ data_len (rd_data (res_u res)) <> 0) then gsh_free (data_val (rd_data (res_u res))) else [].

Definition nfs3_create_free (res : CREATE3res) : list block :=
  if decide (status res = NFS3_OK /\ handle_follows (cr_obj (res_u res)) <> 0)
  then gsh_free (data_val (fh_data (pof_handle (cr_obj (res_u res))))) else [].

Definition nfs3_mkdir_free (res : MKDIR3res) : list block :=
  if decide (status res = NFS3_OK /\ handle_follows (cr_obj (res_u res)) <> 0)
  then gsh_free (data_val (fh_data (pof_handle (cr_obj (res_u res))))) else [].

Definition nfs3_symlink_free (res : SYMLINK3res) : list block :=
  if decide (status res = NFS3_OK /\ handle_follows (cr_obj (res_u res)) <> 0)
  then gsh_free (data_val (fh_data (pof_handle (cr_obj (res_u res))))) else [].

(** [while (cur != nullptr and cur->nextentry != nullptr)] *)
Fixpoint free_entries (cur : entry3) : list block :=
  match cur with
  | mk_entry3 _ _ _ (Some nxt) => BlockEntry cur :: free_entries nxt
  | mk_entry3 _ _ _ None => []
  end.

Definition nfs3_readdir_free (res : READDIR3res) : list block :=
  match dl_entries (dr_reply (res_u res)) with Some cur => free_entries cur | None => [] end.

Fixpoint free_entriesplus (cur : entryplus3) : list block :=
  match cur with
  | mk_entryplus3 _ name _ _ name_handle (Some nxt) =>
      (if decide (handle_follows name_handle <> 0) then gsh_free name ++ gsh_free (data_val (fh_data (pof_handle name_handle))) else [])
        ++ BlockPlus cur :: free_entriesplus nxt
  | mk_entryplus3 _ _ _ _ _ None => []
  end.

Definition nfs3_readdirplus_free (res : READDIRPLUS3res) : list block :=
  match dp_entries (rp_reply (res_u res)) with Some cur => free_entriesplus cur | None => [] end.

(** The other procedures have nothing to free; that of MKNOD is empty too. *)
Definition nfs3_mknod_free (res : MKNOD3res) : list block := [].

(** ** What a result points to *)

Definition handle_blocks (h : nfs_fh3) : list block := gsh_free (data_val (fh_data h)).

(** The names of READDIR belong to [scandir], those of READDIRPLUS to the entries. *)
Fixpoint entry_blocks (e : entry3) : list block :=
  match e with
  | mk_entry3 _ _ _ (Some nxt) => BlockEntry e :: entry_blocks nxt
  | mk_entry3 _ _ _ None => [BlockEntry e]
  end.

(** The blocks of one entry of READDIRPLUS: a handle is allocated where one follows. *)
Definition plus_own (e : entryplus3) : list block :=
  gsh_free (ep_name e) ++
  (if decide (handle_follows (ep_name_handle e) <> 0) then handle_blocks (pof_handle (ep_name_handle e)) else []) ++ [BlockPlus e].

Fixpoint plus_chain (e : entryplus3) : list entryplus3 :=
  match e with
  | mk_entryplus3 _ _ _ _ _ (Some nxt) => e :: plus_chain nxt
  | mk_entryplus3 _ _ _ _ _ None => [e]
  end.

Definition plus_blocks (e : entryplus3) : list block := flat_map plus_own (plus_chain e).

(** What the destructor of READDIRPLUS leaves: the names of the entries without a
    handle, and everything of the last entry. *)
Fixpoint plus_lost (e : entryplus3) : list block :=
  match e with
  | mk_entryplus3 _ name _ _ name_handle (Some nxt) =>
      (if decide (handle_follows name_handle <> 0) then [] else gsh_free name) ++ plus_lost nxt
  | mk_entryplus3 _ _ _ _ _ None => plus_own e
  end.

(** ** What is given back *)

Lemma free_entries_all_but_last e : exists l, entry_blocks e = free_entries e ++ [BlockEntry l].
Proof.
  revert e. fix IH 1. intros [id name ck [nxt|]]; cbn [entry_blocks free_entries]; [|by exists (mk_entry3 id name ck None)].
  destruct (IH nxt) as [l ->]. by exists l.
Qed.

Lemma free_plus_exact e : plus_blocks e ≡ₚ free_entriesplus e ++ plus_lost e.
Proof.
  revert e. fix IH 1. intros [id name ck at_ h [nxt|]].
  - specialize (IH nxt). unfold plus_blocks in *. cbn [plus_chain flat_map free_entriesplus plus_lost]. rewrite IH.
    unfold plus_own at 1. cbn [ep_name ep_name_handle]. unfold handle_blocks. case_decide; simpl; solve_Permutation.
  - unfold plus_blocks. cbn [plus_chain flat_map free_entriesplus plus_lost]. by rewrite app_nil_r.
Qed.

(** ** The results of the handlers *)

Section Results.
  Context {FS : Type} `{Posix FS} `{!UnionArm LOOKUP3resok LOOKUP3resfail} `{!UnionArm CREATE3resok CREATE3resfail}.

(** A destructor gives back [bs] after success, and nothing otherwise. *)
Definition frees {R} (free : nfs3_res R -> list block) (bs : list block) (res : nfs3_res R) : Prop :=
  free res = if decide (status res = NFS3_OK) then bs else [].

Lemma lookup_frees arg res t :
  fh3_canon (do_dir arg) -> ~ no_handle (do_dir arg) ->
  runs (nfs3_lookup arg res) t (fun '(rc, res') evs t' =>
    frees nfs3_lookup_free (handle_blocks (set_file_handle (join_path (handle_path (do_dir arg)) (do_name arg)))) res').
Proof.
  intros Hc Hn. unfold nfs3_lookup. rewrite decide_False by done.
  run_all; unfold frees, nfs3_lookup_free; simpl; try done.
Qed.

(** The destructors of CREATE, MKDIR and SYMLINK are the same. *)
Lemma object_failed bs (res' : CREATE3res) : status res' <> NFS3_OK -> frees nfs3_create_free bs res'.
Proof. intros Hs. unfold frees, nfs3_create_free. by rewrite !decide_False by tauto. Qed.

Lemma object_frees file r res (res' : CREATE3res) :
  describes file r res (res_u res') -> frees nfs3_create_free (handle_blocks (set_file_handle file)) res'.
Proof.
  intros [Hd _]. unfold frees, nfs3_create_free. rewrite Hd. cbn [handle_follows pof_handle].
  destruct (decide (status res' = NFS3_OK)) as [Hs|Hs]; [by rewrite decide_True|by rewrite decide_False by tauto].
Qed.

Ltac object_done := first [eapply object_frees; eassumption | apply object_failed; run_status].

Lemma create_frees arg res t :
  fh3_canon (do_dir (cra_where arg)) -> ~ no_handle (do_dir (cra_where arg)) ->
  runs (nfs3_create arg res) t (fun '(rc, res') evs t' =>
    frees nfs3_create_free (handle_blocks (set_file_handle (join_path (handle_path (do_dir (cra_where arg))) (do_name (cra_where arg))))) res').
Proof. intros Hc Hn. unfold nfs3_create. rewrite decide_False by done. run_all; object_done. Qed.

Lemma mkdir_frees arg res t :
  fh3_canon (do_dir (mka_where arg)) -> ~ no_handle (do_dir (mka_where arg)) ->
  runs (nfs3_mkdir arg res) t (fun '(rc, res') evs t' =>
    frees nfs3_mkdir_free (handle_blocks (set_file_handle (join_path (handle_path (do_dir (mka_where arg))) (do_name (mka_where arg))))) res').
Proof. intros Hc Hn. unfold nfs3_mkdir. rewrite decide_False by done. run_all; object_done. Qed.

Lemma symlink_frees arg res t :
  fh3_canon (do_dir (sya_where arg)) -> ~ no_handle (do_dir (sya_where arg)) ->
  runs (nfs3_symlink arg res) t (fun '(rc, res') evs t' =>
    frees nfs3_symlink_free (handle_blocks (set_file_handle (join_path (handle_path (do_dir (sya_where arg))) (do_name (sya_where arg))))) res').
Proof. intros Hc Hn. unfold nfs3_symlink. rewrite decide_False by done. run_all; object_done. Qed.

(** READLINK frees the block it allocated, with what it wrote there. *)
Lemma readlink_frees heap arg res t :
  fh3_canon arg -> ~ no_handle arg ->
  runs (nfs3_readlink heap arg res) t (fun '(rc, res') evs t' =>
    frees nfs3_readlink_free (gsh_free (rl_data (res_u res'))) res' /\
    (status res' = NFS3_OK -> exists bs, rl_data (res_u res') = Some (bs ++ drop (length bs) heap))).
Proof.
  intros Hc Hn. unfold nfs3_readlink. rewrite decide_False by done. run_all; (split; [done|]); simpl; eauto.
  all: intros; congruence || done.
Qed.

Lemma read_freed (res' : READ3res) :
  (status res' = NFS3_OK -> data_len (rd_data (res_u res')) = 0 -> data_val (rd_data (res_u res')) = None) ->
  frees nfs3_read_free (gsh_free (data_val (rd_data (res_u res')))) res'.
Proof.
  intros Hz. unfold frees, nfs3_read_free. destruct (decide (status res' = NFS3_OK)) as [Hs|Hs].
  - destruct (decide (data_len (rd_data (res_u res')) = 0)) as [Hl|Hl]; [|by rewrite decide_True].
    rewrite decide_False by tauto. by rewrite Hz.
  - by rewrite decide_False by tauto.
Qed.

#[local] Hint Resolve nfs_read_ok_runs read_outfail_runs : runs.

(** READ frees its buffer, which it keeps only if something was read. *)
Lemma read_frees arg res t :
  fh3_canon (rda_file arg) -> ~ no_handle (rda_file arg) ->
  runs (nfs3_read false arg res) t (fun '(rc, res') evs t' =>
    frees nfs3_read_free (gsh_free (data_val (rd_data (res_u res')))) res').
Proof.
  intros Hc Hn. unfold nfs3_read. rewrite decide_False by done.
  run_all; apply read_freed; simpl; intros Hst; try done.
  all: first [intros; by rewrite decide_True | match goal with Hr : status ?r = _ |- _ => rewrite Hst in Hr; done end].
Qed.

(** The memory of results.  A destructor never frees what the handler did not
    allocate: after success LOOKUP, CREATE, MKDIR and SYMLINK give back the handle they
    made for the path of the object, READLINK and READ their buffer; after an error
    nothing is given back.  READDIR and READDIRPLUS give back every entry but the
    last, READDIRPLUS with the names and handles of those that have a handle; what is
    left is lost. *)
Theorem results_freed :
  (forall arg res t, fh3_canon (do_dir arg) -> ~ no_handle (do_dir arg) ->
     runs (nfs3_lookup arg res) t (fun '(rc, res') evs t' =>
       frees nfs3_lookup_free (handle_blocks (set_file_handle (join_path (handle_path (do_dir arg)) (do_name arg)))) res')) /\
  (forall arg res t, fh3_canon (do_dir (cra_where arg)) -> ~ no_handle (do_dir (cra_where arg)) ->
     runs (nfs3_create arg res) t (fun '(rc, res') evs t' => frees nfs3_create_free
       (handle_blocks (set_file_handle (join_path (handle_path (do_dir (cra_where arg))) (do_name (cra_where arg))))) res')) /\
  (forall arg res t, fh3_canon (do_dir (mka_where arg)) -> ~ no_handle (do_dir (mka_where arg)) ->
     runs (nfs3_mkdir arg res) t (fun '(rc, res') evs t' => frees nfs3_mkdir_free
       (handle_blocks (set_file_handle (join_path (handle_path (do_dir (mka_where arg))) (do_name (mka_where arg))))) res')) /\
  (forall arg res t, fh3_canon (do_dir (sya_where arg)) -> ~ no_handle (do_dir (sya_where arg)) ->
     runs (nfs3_symlink arg res) t (fun '(rc, res') evs t' => frees nfs3_symlink_free
       (handle_blocks (set_file_handle (join_path (handle_path (do_dir (sya_where arg))) (do_name (sya_where arg))))) res')) /\
  (forall heap arg res t, fh3_canon arg -> ~ no_handle arg ->
     runs (nfs3_readlink heap arg res) t (fun '(rc, res') evs t' =>
       frees nfs3_readlink_free (gsh_free (rl_data (res_u res'))) res' /\
       (status res' = NFS3_OK -> exists bs, rl_data (res_u res') = Some (bs ++ drop (length bs) heap)))) /\
  (forall arg res t, fh3_canon (rda_file arg) -> ~ no_handle (rda_file arg) ->
     runs (nfs3_read false arg res) t (fun '(rc, res') evs t' =>
       frees nfs3_read_free (gsh_free (data_val (rd_data (res_u res')))) res')) /\
  (forall res e, dl_entries (dr_reply (res_u res)) = Some e ->
     exists l, entry_blocks e = nfs3_readdir_free res ++ [BlockEntry l]) /\
  (forall res e, dp_entries (rp_reply (res_u res)) = Some e -> plus_blocks e ≡ₚ nfs3_readdirplus_free res ++ plus_lost e).
Proof.
  split_and!; [exact lookup_frees|exact create_frees|exact mkdir_frees|exact symlink_frees|exact readlink_frees|exact read_frees|..].
  - intros res e He. unfold nfs3_readdir_free. rewrite He. apply free_entries_all_but_last.
  - intros res e He. unfold nfs3_readdirplus_free. rewrite He. apply free_plus_exact.
Qed.

End Results.
