(* ===== verification/Dispatch.v ===== *)
(** * Dispatch of a request ([nfs_rpc_valid_NFS] of [src/nfs/nfs_init.cpp], the table
    [nfs3_func_desc] of [include/nfs/nfs_base.h], [nfs_rpc_process_request] and
    [complete_request] of [src/dnfsd/dnfs_ntirpc.cpp]) *)
From S2P Require Import Prelude XdrStream XdrPrim XdrSpec Nfs3Types Nfs3Msgs Nfs3ArgSpecs Nfs3ResSpecs.
From S2P Require Import Posix NfsUtils Fsal Nfs3Attr Nfs3Dir Nfs3Io Nfs3Readdir.

Open Scope Z_scope.
Open Scope dnfs_scope.

Definition NFS_PROGRAM : Z := 100003.
Definition NFS_V3 : Z := 3.
Definition NFSPROC_NULL : Z := 0.
Definition NFSPROC3_COMMIT : Z := 21.

Definition NOTHING_SPECIAL : Z := 0x0000.
Definition MAKES_WRITE : Z := 0x0001.
Definition NEEDS_CRED : Z := 0x0002.
Definition CAN_BE_DUP : Z := 0x0004.
Definition SUPPORTS_GSS : Z := 0x0008.
Definition MAKES_IO : Z := 0x0010.

(** What the handlers find in memory they do not initialise, the settings, and
    how deep a list of directory entries may be encoded. *)
Record server_env := mk_env {
  env_junk : timespec * timespec;
  env_link : list byte;
  env_logs : bool;
  env_entry : nat -> entry3;
  env_entryplus : nat -> entryplus3;
  env_cfg : core_param;
  env_depth : nat }.

Section Dispatch.
  Context {FS : Type} `{Posix FS} {P : Type} `{xdr_ops P}.
  Context `{!UnionArm LOOKUP3resok LOOKUP3resfail} `{!UnionArm CREATE3resok CREATE3resfail}.
  Variable env : server_env.
  Abbreviation M := (ST (world FS)).

(** [nfs_function_desc_t]; [zero_arg] is the zeroed [nfs_arg_t]. *)
Record nfs_function_desc := mk_desc {
  fd_arg : Type;
  fd_res : Type;
  service_function : fd_arg -> fd_res -> M (nfs_req_result * fd_res);
  xdr_decode_func : xdrproc P fd_arg;
  xdr_encode_func : xdrproc P fd_res;
  zero_arg : fd_arg;
  dispatch_behaviour : Z }.

Definition flags (l : list Z) : Z := foldr Z.lor NOTHING_SPECIAL l.
Definition changes : Z := flags [MAKES_WRITE; NEEDS_CRED; CAN_BE_DUP; SUPPORTS_GSS].
Definition looks : Z := flags [NEEDS_CRED; SUPPORTS_GSS].

Definition nfs3_func_desc : list nfs_function_desc :=
  [ mk_desc unit unit (fun _ => nfs_null) xdr_void xdr_void tt NOTHING_SPECIAL;
    mk_desc _ _ nfs3_getattr xdr_GETATTR3args xdr_GETATTR3res zero_fh3 looks;
    mk_desc _ _ (nfs3_setattr (env_junk env)) xdr_SETATTR3args xdr_SETATTR3res zero_SETATTR3args changes;
    mk_desc _ _ nfs3_lookup xdr_LOOKUP3args xdr_LOOKUP3res zero_diropargs3 looks;
    mk_desc _ _ nfs3_access xdr_ACCESS3args xdr_ACCESS3res zero_ACCESS3args looks;
    mk_desc _ _ (nfs3_readlink (env_link env)) xdr_READLINK3args xdr_READLINK3res zero_fh3 looks;
    mk_desc _ _ (nfs3_read (env_logs env)) xdr_READ3args xdr_READ3res zero_READ3args
      (flags [NEEDS_CRED; SUPPORTS_GSS; MAKES_IO]);
    mk_desc _ _ nfs3_write xdr_WRITE3args xdr_WRITE3res zero_WRITE3args
      (flags [MAKES_WRITE; NEEDS_CRED; CAN_BE_DUP; SUPPORTS_GSS; MAKES_IO]);
    mk_desc _ _ nfs3_create xdr_CREATE3args xdr_CREATE3res zero_CREATE3args changes;
    mk_desc _ _ nfs3_mkdir xdr_MKDIR3args xdr_MKDIR3res zero_MKDIR3args changes;
    mk_desc _ _ nfs3_symlink xdr_SYMLINK3args xdr_SYMLINK3res zero_SYMLINK3args changes;
    mk_desc _ _ (nfs3_mknod (env_junk env)) xdr_MKNOD3args xdr_MKNOD3res zero_MKNOD3args changes;
    mk_desc _ _ nfs3_remove xdr_REMOVE3args xdr_REMOVE3res zero_diropargs3 changes;
    mk_desc _ _ nfs3_rmdir xdr_RMDIR3args xdr_RMDIR3res zero_diropargs3 changes;
    mk_desc _ _ nfs3_rename xdr_RENAME3args xdr_RENAME3res zero_RENAME3args changes;
    mk_desc _ _ nfs3_link xdr_LINK3args xdr_LINK3res zero_LINK3args changes;
    mk_desc _ _ (nfs3_readdir (env_logs env) (env_entry env)) xdr_READDIR3args
      (xdr_READDIR3res (env_depth env)) zero_READDIR3args looks;
    mk_desc _ _ (fun arg => nfs3_readdirplus (env_logs env) (env_entryplus env) (env_cfg env)
                              (page_fuel (max_entry_count (env_cfg env) (rpa_dircount arg))) arg)
      xdr_READDIRPLUS3args (xdr_READDIRPLUS3res (env_depth env)) zero_READDIRPLUS3args looks;
    mk_desc _ _ nfs3_fsstat xdr_FSSTAT3args xdr_FSSTAT3res zero_fh3 looks;
    mk_desc _ _ nfs3_fsinfo xdr_FSINFO3args xdr_FSINFO3res zero_fh3 NEEDS_CRED;
    mk_desc _ _ nfs3_pathconf xdr_PATHCONF3args xdr_PATHCONF3res zero_fh3 looks;
    mk_desc _ _ nfs3_commit xdr_COMMIT3args xdr_COMMIT3res zero_COMMIT3args
      (flags [MAKES_WRITE; NEEDS_CRED; SUPPORTS_GSS]) ].

(** What [nfs_rpc_valid_NFS] does with the three numbers of a call: an RPC error,
    or the entry it hands to [nfs_rpc_process_request]; [RouteBad] would be an
    access outside of the table. *)
Inductive route :=
  | RouteNoProg
  | RouteNoVers (low high : Z)
  | RouteNoProc
  | RouteProcess (d : nfs_function_desc)
  | RouteBad.

Definition nfs_rpc_valid_NFS (cb_prog cb_vers cb_proc : Z) : route :=
  if decide (cb_prog <> NFS_PROGRAM) then RouteNoProg
  else if decide (cb_vers = NFS_V3) then
    if decide (cb_proc <= NFSPROC3_COMMIT) then
      match nfs3_func_desc !! Z.to_nat cb_proc with
      | Some d => RouteProcess d
      | None => RouteBad
      end
    else RouteNoProc
  else RouteNoVers NFS_V3 NFS_V3.

(** How a request that passed authentication ends. *)
Inductive reply :=
  | ReplyDecodeError
  | ReplySuspended
  | ReplyDropped
  | ReplySent (out : XDR P)
  | ReplyNotSent.

(** [complete_request]: the encoding of the result into [out]. *)
Definition complete_request (d : nfs_function_desc) (rc : nfs_req_result) (res : fd_res d) (out : XDR P) : reply :=
  if decide (rc = NFS_REQ_DROP) then ReplyDropped
  else
    let '(sent, out, _) := xdr_encode_func d out res in
    if sent then ReplySent out else ReplyNotSent.

(** The part of [nfs_rpc_process_request] behind authentication, [retry] being
    false; [res] is the memory [malloc] returned for the result.  What happens when
    the arguments are not decoded, when the request is suspended, and when it is
    complete, is up to the caller. *)
Definition process_with {A} (d : nfs_function_desc) (cb_proc : Z) (res : fd_res d) (xs : XDR P)
    (undecoded suspended : A) (complete : nfs_req_result -> fd_res d -> A) : M A :=
  let '(decoded, _, arg) := xdr_decode_func d xs (zero_arg d) in
  if negb decoded then ret undecoded
  else
    let! (rc, res) := (if decide (cb_proc <> NFSPROC_NULL) then service_function d arg res
                       else ret (NFS_REQ_OK, res)) in
    if decide (rc = NFS_REQ_ASYNC_WAIT) then ret suspended
    else ret (complete rc res).

Definition process_authenticated (d : nfs_function_desc) (cb_proc : Z) (res : fd_res d) (xs out : XDR P) : M reply :=
  process_with d cb_proc res xs ReplyDecodeError ReplySuspended (fun rc res => complete_request d rc res out).

End Dispatch.

(** ** What a handler may do to the outside *)

(** Whenever [m] returns, every call it made satisfies [I], and the table of open
    files is as it was. *)
Definition obeys {FS A} (I : event -> bool) (m : ST (world FS) A) : Prop := forall w a w',
  m w = Some (a, w') ->
  exists evs, w_trace w' = w_trace w ++ evs /\ forallb I evs = true /\ fsal_handle w' = fsal_handle w.

Create HintDb obeys discriminated.
#[export] Hint Constants Opaque : obeys.

Section Obeys.
  Context {FS : Type} `{Posix FS}.
  Variable I : event -> bool.

Lemma obeys_ret {A} (a : A) : obeys (FS:=FS) I (ret a).
Proof. intros w b w' Hr. unfold ret in Hr. simplify_eq. exists []. by rewrite app_nil_r. Qed.

Lemma obeys_abort {A} : obeys (FS:=FS) (A:=A) I abort.
Proof. by intros w b w' Hr. Qed.

Lemma obeys_bind {A B} (m : ST (world FS) A) (k : A -> ST (world FS) B) :
  obeys I m -> (forall a, obeys I (k a)) -> obeys I (bind m k).
Proof.
  intros Hm Hk w b w' Hb. unfold bind in Hb. destruct (m w) as [[a w1]|] eqn:E; [|done].
  destruct (Hm _ _ _ E) as (evs & Ht & Hi & Hf). destruct (Hk _ _ _ _ Hb) as (evs' & Ht' & Hi' & Hf').
  exists (evs ++ evs'). split_and!; [by rewrite Ht', Ht, app_assoc|by rewrite forallb_app, Hi, Hi'|congruence].
Qed.

Lemma obeys_syscall {A} (f : FS -> A * FS) ev : (forall a, I (ev a) = true) -> obeys I (syscall f ev).
Proof.
  intros HI w a w' Hs. unfold syscall in Hs. destruct (f (w_fs w)) as [a' fs']. simplify_eq.
  exists [ev a]. simpl. by rewrite HI.
Qed.

Lemma obeys_gets {A} (f : world FS -> A) : obeys I (gets f).
Proof. intros w a w' Hg. unfold gets in Hg. simplify_eq. exists []. by rewrite app_nil_r. Qed.

End Obeys.

(** Follows the shape of a handler. *)
Ltac obeys_step :=
  cbv beta iota zeta;
  lazymatch goal with
  | |- obeys _ (ret _) => apply obeys_ret
  | |- obeys _ abort => apply obeys_abort
  | |- obeys _ (bind _ _) => apply obeys_bind; [|intros ?]
  | |- obeys _ (gets _) => apply obeys_gets
  | |- obeys _ (if ?b then _ else _) => destruct b
  | |- obeys _ (match ?x with _ => _ end) => destruct x
  | |- obeys _ _ => first [solve [eauto with obeys nocore] | apply obeys_syscall; intros ?; reflexivity]
  end.
Ltac obeys_all := repeat obeys_step.

(** Calls that change nothing. *)
Definition harmless (e : event) : bool := negb (mutation e).
Definition anything (e : event) : bool := true.

Section Services.
  Context {FS : Type} `{Posix FS}.
  Context `{!UnionArm LOOKUP3resok LOOKUP3resfail} `{!UnionArm CREATE3resok CREATE3resfail}.

Lemma set_post_op_attr_obeys p a : obeys (FS:=FS) harmless (nfs_set_post_op_attr p a).
Proof. unfold nfs_set_post_op_attr, lstat. obeys_all. Qed.

Lemma judge_file_exit_obeys p m : obeys (FS:=FS) harmless (judge_file_exit p m).
Proof. unfold judge_file_exit, lstat. obeys_all. Qed.

Lemma get_file_handle_obeys I h : obeys (FS:=FS) I (get_file_handle h).
Proof. unfold get_file_handle. obeys_all. Qed.

End Services.
#[export] Hint Resolve set_post_op_attr_obeys judge_file_exit_obeys get_file_handle_obeys : obeys.
#[export] Hint Transparent lstat open close preadv readlink statvfs scandir lseek getdents64 : obeys.

Section Mutating.
  Context {FS : Type} `{Posix FS}.

Lemma harmless_anything {A} (m : ST (world FS) A) : obeys harmless m -> obeys anything m.
Proof.
  intros Hm w a w' Hr. destruct (Hm _ _ _ Hr) as (evs & Ht & _ & Hf). exists evs. split_and!; [done| |done].
  clear. by induction evs as [|e l IH].
Qed.

Lemma set_post_op_attr_any p a : obeys (FS:=FS) anything (nfs_set_post_op_attr p a).
Proof. apply harmless_anything, set_post_op_attr_obeys. Qed.

Lemma judge_file_exit_any p m : obeys (FS:=FS) anything (judge_file_exit p m).
Proof. apply harmless_anything, judge_file_exit_obeys. Qed.

#[local] Hint Resolve set_post_op_attr_any : obeys.

Lemma get_pre_op_attr_any p a : obeys (FS:=FS) anything (get_pre_op_attr p a).
Proof. unfold get_pre_op_attr. obeys_all. Qed.

Lemma get_wcc_data_any p pre a : obeys (FS:=FS) anything (get_wcc_data p pre a).
Proof. unfold get_wcc_data. obeys_all. Qed.

Lemma remove_file_any p : obeys (FS:=FS) anything (remove_file p).
Proof. unfold remove_file, remove. obeys_all. Qed.

Lemma remove_directory_any p : obeys (FS:=FS) anything (remove_directory p).
Proof. unfold remove_directory, rmdir. obeys_all. Qed.

Lemma nfs_set_sattr3_any junk p a : obeys (FS:=FS) anything (nfs_set_sattr3 junk p a).
Proof. unfold nfs_set_sattr3, chmod, chown, utimes. obeys_all. Qed.

End Mutating.
#[export] Hint Resolve set_post_op_attr_any judge_file_exit_any get_pre_op_attr_any get_wcc_data_any
  remove_file_any remove_directory_any nfs_set_sattr3_any : obeys.

Section ReadOnly.
  Context {FS : Type} `{Posix FS}.
  Context `{!UnionArm LOOKUP3resok LOOKUP3resfail}.

Lemma make_node_obeys node dir d : obeys (FS:=FS) harmless (make_node node dir d).
Proof. unfold make_node. obeys_all. Qed.

Lemma scan_buf_obeys heap limit avail dir fuel buf : forall pos s,
  obeys (FS:=FS) harmless (scan_buf heap limit avail dir fuel buf pos s).
Proof.
  induction fuel as [|fuel IH]; intros pos s; cbn [scan_buf]; [obeys_all|].
  case_decide; [obeys_all|]. apply obeys_bind; [apply make_node_obeys|]. intros [n|]; [|obeys_all].
  destruct (add_node limit avail s n) as [s' [e|]]; [obeys_all|apply IH].
Qed.

Lemma scan_dir_obeys heap limit avail dir fd fuel : forall s,
  obeys (FS:=FS) harmless (scan_dir heap limit avail dir fd fuel s).
Proof.
  induction fuel as [|fuel IH]; intros s; cbn [scan_dir]; [obeys_all|].
  apply obeys_bind; [by apply obeys_syscall|]. intros [[|b l]|]; [obeys_all| |obeys_all].
  apply obeys_bind; [apply scan_buf_obeys|]. intros [s'|s'|]; [apply IH|obeys_all..].
Qed.

Lemma nfs_read_ok_obeys res data n p eof : obeys (FS:=FS) harmless (nfs_read_ok res data n p eof).
Proof. unfold nfs_read_ok. obeys_all. Qed.

Lemma read_outfail_obeys p res : obeys (FS:=FS) harmless (read_outfail p res).
Proof. unfold read_outfail. obeys_all. Qed.

#[local] Hint Resolve make_node_obeys scan_dir_obeys nfs_read_ok_obeys read_outfail_obeys : obeys.

Lemma nfs3_read_obeys logs arg res : obeys (FS:=FS) harmless (nfs3_read logs arg res).
Proof. unfold nfs3_read, open, preadv, close. obeys_all. Qed.

Lemma nfs3_readdirplus_obeys logs heap cfg fuel arg res :
  obeys (FS:=FS) harmless (nfs3_readdirplus logs heap cfg fuel arg res).
Proof. unfold nfs3_readdirplus, open, lseek, close. obeys_all. Qed.

End ReadOnly.
#[export] Hint Resolve nfs3_read_obeys nfs3_readdirplus_obeys : obeys.

(** ** The whole table *)

(** Splits a statement about every entry into one per procedure. *)
Ltac each_procedure :=
  repeat (apply List.Forall_cons; [|]); [..|apply List.Forall_nil];
  cbn [fd_arg fd_res service_function dispatch_behaviour xdr_decode_func zero_arg].

Section Table.
  Context {FS : Type} `{Posix FS} {P : Type} `{xdr_ops P}.
  Context `{!UnionArm LOOKUP3resok LOOKUP3resfail} `{!UnionArm CREATE3resok CREATE3resfail}.
  Variable env : server_env.

Lemma read_only_services :
  List.Forall (fun d : nfs_function_desc (FS:=FS) (P:=P) => Z.land (dispatch_behaviour d) MAKES_WRITE = 0 ->
    forall arg res, obeys harmless (service_function d arg res)) (nfs3_func_desc env).
Proof.
  each_procedure; intros Hb arg res; try (exfalso; by vm_compute in Hb); clear Hb.
  - apply obeys_ret.
  - unfold nfs3_getattr. obeys_all.
  - unfold nfs3_lookup. obeys_all.
  - unfold nfs3_access. obeys_all.
  - unfold nfs3_readlink, readlink. obeys_all.
  - apply nfs3_read_obeys.
  - unfold nfs3_readdir, scandir. obeys_all.
  - apply nfs3_readdirplus_obeys.
  - unfold nfs3_fsstat, statvfs. obeys_all.
  - unfold nfs3_fsinfo. obeys_all.
  - unfold nfs3_pathconf. obeys_all.
Qed.

Lemma xdr_void_safe {A} : xdr_safe (P:=P) (@xdr_void P A).
Proof. intros S xs a b xs' a' Hok Hop He. unfold xdr_void in He. simplify_eq. split_and!; [done|by exists []|done]. Qed.

Lemma lookahead_mark_safe {A} f : xdr_safe (P:=P) (@lookahead_mark P A f).
Proof.
  intros S xs a b xs' a' Hok Hop He. unfold lookahead_mark in He. simplify_eq.
  destruct (src_public xs (f <$> x_public xs) Hok) as [Hok' Hin]. split_and!; [done| |done].
  exists []. by rewrite Hin.
Qed.

#[local] Hint Resolve xdr_void_safe lookahead_mark_safe : xdr.

(** Decoding takes the same care whatever arrives, for every procedure. *)
Lemma decode_safe :
  List.Forall (fun d : nfs_function_desc (FS:=FS) (P:=P) => xdr_safe (xdr_decode_func d)) (nfs3_func_desc env).
Proof. each_procedure; xsafe. Qed.

(** *** The table of open files stays idle *)

Definition keeps_idle {A} (m : ST (world FS) A) : Prop := forall w a w',
  m w = Some (a, w') -> table_idle (fsal_handle w) -> table_idle (fsal_handle w').

Lemma obeys_keeps_idle {A} I (m : ST (world FS) A) : obeys I m -> keeps_idle m.
Proof. intros Hm w a w' Hr Hi. destruct (Hm _ _ _ Hr) as (_ & _ & _ & ->). done. Qed.

Lemma runs_keeps_idle {A} (m : ST (world FS) A) :
  (forall t, table_idle t -> runs m t (fun _ _ t' => table_idle t')) -> keeps_idle m.
Proof.
  intros Hm w a w' Hr Hi. destruct (Hm _ Hi w eq_refl) as (a1 & w1 & evs & Hr1 & _ & Ht).
  rewrite Hr in Hr1. by simplify_eq.
Qed.

Lemma write_keeps_idle arg res : keeps_idle (nfs3_write arg res).
Proof.
  destruct (decide (no_handle (wra_file arg))) as [Hn|Hn].
  { unfold nfs3_write. rewrite (decide_True _ _ Hn). apply (obeys_keeps_idle anything), obeys_ret. }
  destruct (data_val (fh_data (wra_file arg))) as [v|] eqn:Hv.
  - apply runs_keeps_idle. intros t Hi. eapply runs_mono; [apply write_runs; [by rewrite Hv|done..]|].
    intros [rc res'] evs t' [_ Ho]. by eapply write_outcome_idle.
  - intros w a w' Hr. unfold nfs3_write in Hr. rewrite (decide_False _ _ Hn) in Hr. unfold bind in Hr.
    by rewrite get_file_handle_null in Hr.
Qed.

Lemma commit_keeps_idle arg res : keeps_idle (nfs3_commit arg res).
Proof.
  destruct (decide (no_handle (coa_file arg))) as [Hn|Hn].
  { unfold nfs3_commit, commit_out. rewrite (decide_True _ _ Hn). apply (obeys_keeps_idle anything). obeys_all. }
  destruct (data_val (fh_data (coa_file arg))) as [v|] eqn:Hv.
  - apply runs_keeps_idle. intros t Hi. eapply runs_mono; [apply commit_runs; [by rewrite Hv|done..]|].
    by intros [rc res'] evs t' [-> _].
  - intros w a w' Hr. unfold nfs3_commit in Hr. rewrite (decide_False _ _ Hn) in Hr. unfold bind in Hr.
    by rewrite get_file_handle_null in Hr.
Qed.

Lemma services_keep_idle :
  List.Forall (fun d : nfs_function_desc (FS:=FS) (P:=P) => forall arg res, keeps_idle (service_function d arg res))
    (nfs3_func_desc env).
Proof.
  assert (Hmut : forall A (m : ST (world FS) A), obeys anything m -> keeps_idle m) by (intros A m; apply obeys_keeps_idle).
  pose proof read_only_services as Hro. rewrite List.Forall_forall in Hro |- *. intros d Hd arg res.
  destruct (decide (Z.land (dispatch_behaviour d) MAKES_WRITE = 0)) as [Hb|Hb].
  { eapply obeys_keeps_idle. by apply Hro. }
  clear Hro. revert arg res Hb. revert d Hd. rewrite <- List.Forall_forall.
  each_procedure; intros arg res Hb; try (exfalso; apply Hb; reflexivity); clear Hb;
    try apply write_keeps_idle; try apply commit_keeps_idle; apply Hmut.
  - unfold nfs3_setattr. obeys_all.
  - unfold nfs3_create, created_reply, failed_reply. obeys_all.
  - unfold nfs3_mkdir, created_reply, failed_reply. obeys_all.
  - unfold nfs3_symlink, created_reply, failed_reply. obeys_all.
  - unfold nfs3_mknod, created_reply, failed_reply. obeys_all.
  - unfold nfs3_remove. obeys_all.
  - unfold nfs3_rmdir. obeys_all.
  - unfold nfs3_rename. obeys_all.
  - unfold nfs3_link. obeys_all.
Qed.

End Table.

(** ** Requests one after the other *)

Section Server.
  Context {FS : Type} `{Posix FS} {P : Type} `{xdr_ops P}.
  Context `{!UnionArm LOOKUP3resok LOOKUP3resfail} `{!UnionArm CREATE3resok CREATE3resfail}.
  Variable env : server_env.

(** A step serves a call of any program, version and procedure, with anything
    behind the header, or the file system changes under the server. *)
Inductive server_step (w : world FS) : world FS -> Prop :=
  | StepServe prog vers proc (d : nfs_function_desc (FS:=FS) (P:=P)) res xs out r w' :
      nfs_rpc_valid_NFS env prog vers proc = RouteProcess d ->
      process_authenticated d proc res xs out w = Some (r, w') -> server_step w w'
  | StepOutside fs : server_step w (w <| w_fs := fs |>).

Definition server_reachable (w : world FS) : Prop :=
  exists fs, rtc server_step (mk_world fs [] empty_table) w.

Lemma route_in_table prog vers proc d :
  nfs_rpc_valid_NFS (FS:=FS) (P:=P) env prog vers proc = RouteProcess d -> d ∈ nfs3_func_desc env.
Proof.
  unfold nfs_rpc_valid_NFS. repeat case_decide; try done. destruct (_ !! _) as [d'|] eqn:E; [|done].
  intros Heq. simplify_eq. by eapply list_elem_of_lookup_2.
Qed.

(** A request that is processed is decoded and run, or not run at all. *)
Lemma process_inv {A} (d : nfs_function_desc (FS:=FS) (P:=P)) proc res xs (u s : A) k w r w' :
  process_with d proc res xs u s k w = Some (r, w') ->
  w' = w \/ exists arg x, service_function d arg res w = Some (x, w').
Proof.
  unfold process_with, bind, ret. destruct (xdr_decode_func d xs (zero_arg d)) as [[[] xs1] arg]; simpl.
  2: { intros ?. simplify_eq. by left. }
  case_decide as Hp; simpl.
  - destruct (service_function d arg res w) as [[[rc res1] w1]|] eqn:E; [|done].
    intros Hr. right. exists arg, (rc, res1). rewrite E. case_decide; by simplify_eq.
  - intros ?. simplify_eq. by left.
Qed.

Lemma step_keeps_idle w w' : server_step w w' -> table_idle (fsal_handle w) -> table_idle (fsal_handle w').
Proof.
  intros [prog vers proc d res xs out r w1 Hroute Hp|fs] Hi; [|done].
  destruct (process_inv _ _ _ _ _ _ _ _ _ _ Hp) as [->|(arg & x & Hs)]; [done|].
  pose proof (services_keep_idle (FS:=FS) (P:=P) env) as Hall. rewrite List.Forall_forall in Hall.
  eapply Hall; [|exact Hs|done]. apply list_elem_of_In. by eapply route_in_table.
Qed.

Lemma reachable_idle w : server_reachable w -> table_idle (fsal_handle w).
Proof.
  intros [fs Hr]. assert (Hi : table_idle (fsal_handle (mk_world fs [] empty_table))) by apply empty_table_idle.
  induction Hr as [|w1 w2 w3 Hs Hr IH]; [done|]. by apply IH, (step_keeps_idle w1).
Qed.

(** ** From bytes to bytes *)

Lemma process_decoded {A} (d : nfs_function_desc (FS:=FS) (P:=P)) ok canon wire proc res
    `{!XdrSource P} xs a rest w rc res' w' (u s : A) k :
  codec (xdr_decode_func d) ok canon wire (zero_arg d) ->
  src_ok xs -> x_op xs = XDR_DECODE -> ok a -> canon a -> (length rest mod 4 = 0)%nat ->
  src_in xs = wire a ++ rest -> proc <> NFSPROC_NULL ->
  service_function d a res w = Some ((rc, res'), w') -> rc <> NFS_REQ_ASYNC_WAIT ->
  process_with d proc res xs u s k w = Some (k rc res', w').
Proof.
  intros Hc Hok Hop Ha Hca Hr Hin Hp Hs Hrc. destruct (codec_dec _ _ _ _ _ Hc _ xs a rest) as (xs' & Hd & _); [done..|].
  unfold process_with. rewrite Hd. simpl. rewrite (decide_True _ _ Hp). unfold bind. rewrite Hs.
  by rewrite decide_False by done.
Qed.

Lemma process_wire (d : nfs_function_desc (FS:=FS) (P:=P)) ok canon wire okr wirer proc res
    `{!XdrSource P} `{!XdrSink P} xs out a rest w rc res' w' :
  codec (xdr_decode_func d) ok canon wire (zero_arg d) -> encodes (xdr_encode_func d) okr wirer ->
  src_ok xs -> x_op xs = XDR_DECODE -> ok a -> canon a -> (length rest mod 4 = 0)%nat ->
  src_in xs = wire a ++ rest -> proc <> NFSPROC_NULL ->
  service_function d a res w = Some ((rc, res'), w') -> rc = NFS_REQ_OK \/ rc = NFS_REQ_ERROR ->
  snk_ok out -> x_op out = XDR_ENCODE -> okr res' -> snk_fits out (length (wirer res')) ->
  exists out', process_authenticated d proc res xs out w = Some (ReplySent out', w') /\ emits out out' (wirer res').
Proof.
  intros Hc He Hok Hop Ha Hca Hr Hin Hp Hs Hrc Hso Hsop Hres Hfit.
  destruct (He _ out res') as (out' & Hout & Hem); [done..|]. exists out'. split; [|done].
  unfold process_authenticated. erewrite process_decoded; [|done..|by destruct Hrc; subst].
  unfold complete_request. rewrite decide_False by (by destruct Hrc; subst). by rewrite Hout.
Qed.

End Server.

(** ** The attributes of a reply can be encoded *)

Lemma fsid_range dev : is_u64 (fsid_of dev).
Proof.
  unfold fsid_of, is_u64. assert (Hmi : is_u32 (minor dev)) by apply u32_range.
  assert (Hma : is_u32 (major dev)) by apply u32_range. unfold is_u32 in *.
  rewrite (Z.shiftr_div_pow2 (minor dev) 32), (Z.div_small (minor dev)), Z.lor_0_r by lia.
  apply lxor_range; [done|lia|]. apply u64_range.
Qed.

Lemma ftype3_range fmt type : ftype3_of_mode fmt = Some type -> is_i32 type.
Proof. unfold ftype3_of_mode. repeat case_decide; intros ?; by simplify_eq. Qed.

Lemma time_of_ok t : nfstime3_ok (time_of t).
Proof. split; apply u32_range. Qed.

Lemma fattr3_of_stat_ok buf type old :
  ftype3_of_mode (Z.land (st_mode buf) S_IFMT) = Some type -> specdata3_ok (fa_rdev old) ->
  fattr3_ok (fattr3_of_stat buf type old).
Proof.
  intros Ht Ho. unfold fattr3_ok, fattr3_of_stat; cbn.
  split_and!; try apply u32_range; try apply u64_range; try apply time_of_ok; try apply fsid_range.
  - by eapply ftype3_range.
  - by apply (land_range _ S_IRWXUGO 32).
  - case_decide; [split; apply u32_range|done].
Qed.
