(* ===== verification/DemoFs.v ===== *)
(** * A small file system

    A concrete instance of [Posix] and of the union layouts, at which the general
    theorems are applied: files and directories in a map, open descriptors, and a
    directory stream that delivers its records once. *)
From S2P Require Import Prelude XdrStream XdrPrim Nfs3Types Nfs3Msgs Nfs3ArgSpecs Posix NfsUtils.
From S2P Require Import Fsal Nfs3Attr Nfs3Readdir Dispatch.

Open Scope Z_scope.
Open Scope dnfs_scope.

(** A file is its mode and its bytes. *)
Record node := mk_node { n_mode : Z; n_data : list byte }.

Record demo := mk_demo {
  files : gmap (list byte) node;
  fds : gmap Z (list byte);
  next_fd : Z;
  dir_read : bool }.
#[global] Instance eta_demo : RecEta demo := fun r => mk_demo (files r) (fds r) (next_fd r) (dir_read r).

Definition demo_time : timespec := mk_timespec 1600000000 5.
Definition demo_stat (n : node) : stat_t :=
  mk_stat (n_mode n) 1 1000 100 (Z.of_nat (length (n_data n))) 8 0 2049 77 demo_time demo_time demo_time.

(** The records of the one directory. *)
Definition demo_entries : list kdirent :=
  [mk_kdirent 77 1 x04 [x2e] 3; mk_kdirent 78 LONG_MAX x08 [x66] 3].

(** [pwrite] on a file: zeros up to the offset, then the data. *)
Definition overwrite (off : nat) (bs old : list byte) : list byte :=
  take off (old ++ replicate off x00) ++ bs ++ drop (off + length bs) old.

Definition on_file {A} (fs : demo) (p : path) (missing : A) (f : node -> A * demo) : A * demo :=
  match files fs !! p with None => (missing, fs) | Some n => f n end.
Definition on_fd {A} (fs : demo) (fd : Z) (missing : A) (f : path -> node -> A * demo) : A * demo :=
  match fds fs !! fd with None => (missing, fs) | Some p => on_file fs p missing (f p) end.
Definition put (fs : demo) (p : path) (n : node) : demo := fs <| files := <[p := n]> (files fs) |>.
Definition add (fs : demo) (p : path) (n : node) : Z * demo :=
  match files fs !! p with None => (0, put fs p n) | Some _ => (-1, fs) end.

Definition demo_open (p : path) (fl : Z) (fs : demo) : Z * demo :=
  let opened fs := (next_fd fs, fs <| fds := <[next_fd fs := p]> (fds fs) |> <| next_fd := next_fd fs + 1 |>) in
  match files fs !! p with
  | Some _ => opened fs
  | None => if decide (Z.land fl O_CREAT <> 0) then opened (put fs p (mk_node (Z.lor S_IFREG 0x1a4) []))
            else (-1, fs)
  end.

#[global] Instance demo_posix : Posix demo := {|
  sys_lstat p fs := on_file fs p (inl ENOENT) (fun n => (inr (demo_stat n), fs));
  sys_chmod p m fs := on_file fs p (-1) (fun n => (0, put fs p (mk_node (Z.lor (Z.land (n_mode n) S_IFMT) m) (n_data n))));
  sys_chown p u g fs := on_file fs p (-1) (fun _ => (0, fs));
  sys_utimes p tv fs := on_file fs p (-1) (fun _ => (0, fs));
  sys_open := demo_open;
  sys_close fd fs := (0, fs <| fds := base.delete fd (fds fs) |>);
  sys_preadv fd len off fs := on_fd fs fd None (fun _ n =>
    if decide (off < 0) then (None, fs)
    else (Some (take (Z.to_nat len) (drop (Z.to_nat off) (n_data n))), fs));
  sys_pwritev fd bs off fs := on_fd fs fd None (fun p n =>
    if decide (off < 0) then (None, fs)
    else (Some (Z.of_nat (length bs)), put fs p (mk_node (n_mode n) (overwrite (Z.to_nat off) bs (n_data n)))));
  sys_fsync fd fs := on_fd fs fd (-1) (fun _ _ => (0, fs));
  sys_mkdir p m fs := add fs p (mk_node (Z.lor S_IFDIR m) []);
  sys_mknod p m dev fs := add fs p (mk_node m []);
  sys_symlink t p fs := add fs p (mk_node (Z.lor S_IFLNK 0x1ff) t);
  sys_link p q fs := on_file fs p (-1) (fun n => add fs q n);
  sys_rename p q fs := on_file fs p (-1) (fun n => (0, fs <| files := <[q := n]> (base.delete p (files fs)) |>));
  sys_rmdir p fs := on_file fs p (-1) (fun _ => (0, fs <| files := base.delete p (files fs) |>));
  sys_remove p fs := on_file fs p (-1) (fun _ => (0, fs <| files := base.delete p (files fs) |>));
  sys_readlink p n fs := on_file fs p None (fun nd => (Some (take (Z.to_nat n) (n_data nd)), fs));
  sys_statvfs p fs := (None, fs);
  sys_scandir p fs := (Some [mk_dirent 77 [x2e]; mk_dirent 78 [x66]], fs);
  sys_lseek fd off fs := (off, fs);
  sys_getdents64 fd n fs :=
    (Some (if dir_read fs then [] else records demo_entries), fs <| dir_read := true |>);
  heap_behind fs := ([x21; x2f], [x3f; x00; x3f]) |}.

(** The other member of a union is laid over its first field of the same type. *)
#[global] Instance demo_lookup_arm : UnionArm LOOKUP3resok LOOKUP3resfail.
Proof.
  refine {| arm_get u := mk_LOOKUP3resfail (lk_dir_attributes u);
            arm_put b u := u <| lk_dir_attributes := lkf_dir_attributes b |> |}.
  - by intros [] [].
  - by intros [].
Defined.

#[global] Instance demo_create_arm : UnionArm CREATE3resok CREATE3resfail.
Proof.
  refine {| arm_get u := mk_CREATE3resfail (cr_dir_wcc u);
            arm_put b u := u <| cr_dir_wcc := crf_dir_wcc b |> |}.
  - by intros [] [].
  - by intros [].
Defined.

(** ** A server with the directory [/d] and the file [/d/f] *)

Definition dir_path : path := [x2f; x64].
Definition file_path : path := [x2f; x64; x2f; x66].
Definition demo_fs : demo :=
  mk_demo {[ dir_path := mk_node (Z.lor S_IFDIR 0x1ed) []; file_path := mk_node (Z.lor S_IFREG 0x1a4) [x61; x62; x63] ]}
    ∅ 3 false.
Definition demo_world : world demo := mk_world demo_fs [] empty_table.

Definition fh_of (p : path) : nfs_fh3 := mk_nfs_fh3 (mk_bytes (Z.of_nat (length p)) (Some p)).
Definition dir_fh3 : nfs_fh3 := fh_of dir_path.
Definition file_fh3 : nfs_fh3 := fh_of file_path.

Definition demo_env : server_env :=
  mk_env (mk_timespec 0 0, mk_timespec 0 0) (replicate 64 x00) false (fun _ => zero_entry3)
    (fun _ => zero_entryplus3) default_core_param 10.

Lemma demo_getdents_ok : getdents_ok (FS:=demo).
Proof.
  exists (fun _ fs => dir_read fs = true). split_and!.
  - intros fd n fs buf fs' [= Hb <-]. destruct (dir_read fs).
    + exists []. by split_and!.
    + exists demo_entries. split_and!; [done|repeat constructor; vm_compute; intuition congruence|done].
  - intros fd n fs He. simpl. by rewrite He.
  - intros fd p fs. simpl. unfold on_file. by destruct (files fs !! p).
Qed.
