(* ===== verification/Properties.v ===== *)
(** * The properties of the server

    The main theorems, proved from the lemmas of the components, each with its
    application to the file system of [DemoFs]. *)
From S2P Require Import Prelude XdrStream XdrPrim XdrSpec Nfs3Types Nfs3Msgs Nfs3ArgSpecs Nfs3ResSpecs.
From S2P Require Import Posix NfsUtils Fsal Nfs3Attr Nfs3Dir Nfs3Io Nfs3Readdir Dispatch.
From S2P Require Import DemoFs.

Open Scope Z_scope.
Open Scope dnfs_scope.

(** Started in [w], [m] returns; [Q] holds of its result, its calls and the table. *)
Definition served {FS A} (m : ST (world FS) A) (w : world FS) (Q : A -> list event -> FsalHandle -> Prop) : Prop :=
  exists a w' evs, m w = Some (a, w') /\ w_trace w' = w_trace w ++ evs /\ Q a evs (fsal_handle w').

(** Discharges the conditions on a concrete handle. *)
Ltac demo_handle :=
  first [by vm_compute | split; [reflexivity|discriminate] | intros Hdemo; vm_compute in Hdemo; discriminate].

Definition zero_wcc : wcc_data := mk_wcc_data zero_pre_op_attr zero_post_op_attr.

(** ** A request from its bytes to the bytes of the reply *)

(** The reply to GETATTR for what [lstat] answered. *)
Definition getattr_wire (r : Z + stat_t) : list byte :=
  be32 (attr_status r) ++
  match r with
  | inr buf => match ftype3_of_mode (Z.land (st_mode buf) S_IFMT) with
               | Some type => fattr3_wire (fattr3_of_stat buf type zero_fattr3)
               | None => []
               end
  | inl _ => []
  end.

Lemma getattr_reply_wire r (res' : GETATTR3res) :
  status res' = attr_status r ->
  (status res' = NFS3_OK -> exists buf type, r = inr buf /\
     ftype3_of_mode (Z.land (st_mode buf) S_IFMT) = Some type /\ res_u res' = fattr3_of_stat buf type zero_fattr3) ->
  res_ok fattr3_ok (fun _ => True) res' /\ res_wire fattr3_wire (fun _ => []) res' = getattr_wire r.
Proof.
  intros Hs Hok. unfold res_ok, res_wire, getattr_wire. rewrite Hs in *. destruct (decide _) as [He|He].
  - destruct (Hok He) as (buf & type & -> & Ht & Hu). rewrite Ht, Hu. split; [|done].
    split; [by rewrite He|]. by apply fattr3_of_stat_ok.
  - destruct r as [e|buf]; simpl in *; [|destruct (ftype3_of_mode _); [done|]]; (split; [|done]);
      (split; [|done]); unfold lstat_error; repeat case_decide; done.
Qed.

Lemma getattr_wire_length r : (length (getattr_wire r) <= 88)%nat.
Proof.
  unfold getattr_wire. rewrite length_app. destruct r as [|buf]; [simpl; lia|].
  destruct (ftype3_of_mode _); [|simpl; lia]. reflexivity.
Qed.

(** a GETATTR call, from the bytes of its arguments to the bytes of its reply,
    on any stream: the dispatcher finds the procedure, the handle is decoded, one
    [lstat] of the path it names is made, and the reply is the status of that call
    followed, if it is 0, by the attributes it delivered, as RFC 1813 lays them
    out.  Nothing else happens. *)
Theorem getattr_served {FS} `{Posix FS} {P} `{xdr_ops P} `{!XdrSource P} `{!XdrSink P}
    `{!UnionArm LOOKUP3resok LOOKUP3resfail} `{!UnionArm CREATE3resok CREATE3resfail}
    env (w : world FS) h rest (xs out : XDR P) :
  nfs_fh3_ok h -> fh3_canon h -> ~ no_handle h ->
  src_ok xs -> x_op xs = XDR_DECODE -> (length rest mod 4 = 0)%nat -> src_in xs = nfs_fh3_wire h ++ rest ->
  snk_ok out -> x_op out = XDR_ENCODE -> snk_fits out 88 ->
  exists d, nfs_rpc_valid_NFS env NFS_PROGRAM NFS_V3 1 = RouteProcess d /\ forall garbage : fd_res d,
  exists r w' out', process_authenticated d 1 garbage xs out w = Some (ReplySent out', w') /\
    w_trace w' = w_trace w ++ [EvLstat (handle_path h) r] /\ fsal_handle w' = fsal_handle w /\
    emits out out' (getattr_wire r).
Proof.
  intros Hok Hc Hn Hso Hop Hr Hin Hsk Hsop Hfit. eexists. split; [reflexivity|]. intros garbage.
  destruct (runs_at _ w _ (getattr_runs h garbage (fsal_handle w) Hc Hn))
    as ([rc res'] & w' & evs & Hrun & Ht & Htab & r & -> & Hs & Hres & Herr).
  destruct (getattr_reply_wire r res' Hs) as [Hrok Hw]; [intros He; by apply Hres|].
  destruct (process_wire _ _ _ _ _ _ 1 garbage xs out h rest w rc res' w' fh3_args_codec GETATTR3res_encodes)
    as (out' & Hp & Hem); try done.
  - destruct (decide (status res' = NFS3_OK)); [left; by apply Hres|right; by apply Herr].
  - rewrite Hw. eapply snk_fits_le; [apply getattr_wire_length|done].
  - exists r, w', out'. by rewrite <- Hw.
Qed.

Definition mem_decode (bs : list byte) : XDR unit := mkXDR XDR_DECODE None bs 0 0 (length bs) (length bs) tt.
Definition mem_encode (n : nat) : XDR unit := mkXDR XDR_ENCODE None (replicate n x00) 0 0 0 n tt.

Lemma mem_decode_ok bs : mem_ok (mem_decode bs).
Proof. unfold mem_ok; simpl. lia. Qed.

Lemma mem_encode_ok n : mem_snk_ok (mem_encode n).
Proof. unfold mem_snk_ok, mem_ok; simpl. rewrite length_replicate. lia. Qed.

Lemma getattr_served_witness :
  exists d, nfs_rpc_valid_NFS (FS:=demo) demo_env NFS_PROGRAM NFS_V3 1 = RouteProcess d /\
  forall garbage : fd_res d, exists r w' out',
    process_authenticated d 1 garbage (mem_decode (nfs_fh3_wire file_fh3)) (mem_encode 128) demo_world =
      Some (ReplySent out', w') /\
    w_trace w' = w_trace demo_world ++ [EvLstat (handle_path file_fh3) r] /\
    fsal_handle w' = fsal_handle demo_world /\ emits (mem_encode 128) out' (getattr_wire r).
Proof.
  apply (getattr_served demo_env demo_world file_fh3 [] (mem_decode (nfs_fh3_wire file_fh3)) (mem_encode 128));
    try reflexivity; try demo_handle.
  - apply mem_decode_ok.
  - apply mem_encode_ok.
  - unfold snk_fits; simpl. unfold mem_fits. simpl. lia.
Defined.

(** ** The table of open files *)

(** C2: after any sequence of requests, with any bytes and with the file system
    changing in between, every descriptor of the table is closed, no lock is held
    and no deny mode is set; so no descriptor is lost and no share conflict can
    arise between requests. *)
Theorem table_stays_idle {FS} `{Posix FS} {P} `{xdr_ops P}
    `{!UnionArm LOOKUP3resok LOOKUP3resfail} `{!UnionArm CREATE3resok CREATE3resfail} env (w : world FS) :
  server_reachable (P:=P) env w -> table_idle (fsal_handle w).
Proof. apply reachable_idle. Qed.

(** A write of two bytes to [/d/f]. *)
Definition demo_write : WRITE3args := mk_WRITE3args file_fh3 1 2 UNSTABLE (mk_bytes 2 (Some [x78; x79])).
Definition zero_WRITE3res : WRITE3res := mk_res 0 (mk_WRITE3resok zero_wcc 0 0 zero_verf).

(** The server after it has served that write. *)
Definition after_write : world demo :=
  from_option snd demo_world (nfs3_write demo_write zero_WRITE3res demo_world).

Lemma after_write_reachable : server_reachable (P:=unit) demo_env after_write.
Proof.
  exists demo_fs. eapply rtc_once.
  eapply (StepServe (P:=unit) demo_env _ NFS_PROGRAM NFS_V3 7
            (mk_desc _ _ nfs3_write xdr_WRITE3args xdr_WRITE3res zero_WRITE3args _) zero_WRITE3res
            (mem_decode (WRITE3args_wire demo_write)) (mem_encode 256)); [reflexivity|].
  vm_compute. reflexivity.
Qed.

Lemma table_stays_idle_witness :
  table_idle (fsal_handle after_write) /\ handle_map (fsal_handle after_write) !! file_path <> None.
Proof.
  split; [apply (table_stays_idle (P:=unit) demo_env after_write), after_write_reachable|].
  vm_compute. discriminate.
Defined.

(** ** WRITE and COMMIT *)

(** C3: WRITE to a handle that names a path returns, and what it did is one of the
    branches of [write_outcome]: the file is not a regular file, fewer bytes came
    than [count] says, nothing is to be written, the file cannot be opened, or
    [min count 64M] bytes of the request are written at its offset by one
    [pwritev], flushed if the request is not UNSTABLE, and the descriptor is closed
    again; then the count, the stability and the verifier of the reply are those
    of the write. *)
Theorem write_served {FS} `{Posix FS} arg res (w : world FS) :
  fh3_canon (wra_file arg) -> ~ no_handle (wra_file arg) -> table_idle (fsal_handle w) ->
  served (nfs3_write arg res) w (fun '(rc, res') evs t' =>
    rc = NFS_REQ_OK /\ write_outcome (handle_path (wra_file arg)) arg (fsal_handle w) res' evs t').
Proof. intros Hc Hn Hi. apply runs_at, write_runs; auto with runs. Qed.

Lemma write_served_witness :
  served (nfs3_write demo_write zero_WRITE3res) demo_world (fun '(rc, res') evs t' =>
    rc = NFS_REQ_OK /\ write_outcome file_path demo_write empty_table res' evs t') /\
  files (w_fs after_write) !! file_path = Some (mk_node (Z.lor S_IFREG 0x1a4) [x61; x78; x79]).
Proof.
  split; [|by vm_compute].
  apply (write_served demo_write zero_WRITE3res demo_world); [demo_handle|demo_handle|apply empty_table_idle].
Defined.

Definition no_flush (e : event) : bool := match e with EvFsync _ _ => false | _ => true end.

(** C4: in every state the server can reach, COMMIT of a regular file never calls
    [fsync]: the write that came before has closed the descriptor, so nothing is
    flushed, and yet the status of the reply is 0 whenever the attributes can be
    read. *)
Theorem commit_never_flushes {FS} `{Posix FS} {P} `{xdr_ops P}
    `{!UnionArm LOOKUP3resok LOOKUP3resfail} `{!UnionArm CREATE3resok CREATE3resfail} env arg res (w : world FS) :
  server_reachable (P:=P) env w -> fh3_canon (coa_file arg) -> ~ no_handle (coa_file arg) ->
  let file := handle_path (coa_file arg) in
  served (nfs3_commit arg res) w (fun '(rc, res') evs t' =>
    forallb no_flush evs = true /\
    ((exists r, evs = [EvLstat file r] /\ file_is S_IFREG r = false /\ status res' = NFS3ERR_NOENT) \/
     (exists r a, evs = [EvLstat file r; EvLstat file a] /\ file_is S_IFREG r = true /\
        status res' = attr_status a))).
Proof.
  intros Hw Hc Hn file. apply runs_at. eapply runs_mono; [apply commit_runs; auto with runs; by eapply reachable_idle|].
  intros [rc res'] evs t' (_ & _ & _ & Ho). split; [|done]. by destruct Ho as [(r & -> & _)|(r & a & -> & _)].
Qed.

Definition demo_commit : COMMIT3args := mk_COMMIT3args file_fh3 0 0.
Definition zero_COMMIT3res : COMMIT3res := mk_res 0 (mk_COMMIT3resok zero_wcc zero_verf).

Lemma commit_never_flushes_witness :
  served (nfs3_commit demo_commit zero_COMMIT3res) after_write (fun '(rc, res') evs t' =>
    forallb no_flush evs = true /\
    ((exists r, evs = [EvLstat file_path r] /\ file_is S_IFREG r = false /\ status res' = NFS3ERR_NOENT) \/
     (exists r a, evs = [EvLstat file_path r; EvLstat file_path a] /\ file_is S_IFREG r = true /\
        status res' = attr_status a))) /\
  (fun x => status x.1.2) <$> nfs3_commit demo_commit zero_COMMIT3res after_write = Some NFS3_OK.
Proof.
  split; [|by vm_compute].
  apply (commit_never_flushes (P:=unit) demo_env demo_commit zero_COMMIT3res after_write);
    [apply after_write_reachable|demo_handle|demo_handle].
Defined.

(** ** Share reservations *)

(** C17: the counters decide exactly: as long as fewer than 2^31 opens are held, an
    open is refused if and only if its access or deny mode conflicts with one of
    the opens the counters stand for, [bypass] passing the deny modes that are not
    mandatory. *)
Theorem share_conflict_exact share opens new bypass :
  represents share opens -> Z.of_nat (length opens) < 2 ^ 31 ->
  check_share_conflict share new bypass =
    if existsb (conflicts bypass new) opens then ERR_FSAL_SHARE_DENIED else ERR_FSAL_NO_ERROR.
Proof. apply check_share_conflict_spec. Qed.

(** A reader that denies writing, and a writer. *)
Definition demo_deny : fsal_share := update_share_counters zero_share FSAL_O_CLOSED (Z.lor FSAL_O_READ FSAL_O_DENY_WRITE).

Lemma share_conflict_exact_witness :
  check_share_conflict demo_deny FSAL_O_WRITE false = ERR_FSAL_SHARE_DENIED /\
  check_share_conflict demo_deny FSAL_O_WRITE true = ERR_FSAL_NO_ERROR.
Proof.
  split; by rewrite (share_conflict_exact demo_deny [Z.lor FSAL_O_READ FSAL_O_DENY_WRITE]); [|vm_compute|].
Defined.

(** whatever opens and closes are made on a handle, the opens held at any time
    are pairwise free of conflict and the counters count exactly these. *)
Theorem share_opens_compatible share opens :
  share_reachable (share, opens) -> represents share opens /\ ForallOrdPairs compatible opens.
Proof. intros Hr. apply (share_reachable_inv _ Hr). Qed.

Lemma share_opens_compatible_witness :
  represents demo_deny [Z.lor FSAL_O_READ FSAL_O_DENY_WRITE] /\
  ForallOrdPairs compatible [Z.lor FSAL_O_READ FSAL_O_DENY_WRITE].
Proof.
  apply (share_opens_compatible demo_deny [Z.lor FSAL_O_READ FSAL_O_DENY_WRITE]).
  eapply rtc_once. apply (ShareOpen zero_share demo_deny []); by vm_compute.
Defined.

(** a write that completes gives back all it took: start, completion and the
    release of the share leave the handle as it was. *)
Theorem completed_write_balanced h h' :
  handle_ok h -> io_room h -> is_u32 (share_access_read (fh_share h)) -> is_u32 (share_access_write (fh_share h)) ->
  fsal_start_io h false FSAL_O_WRITE false true = (ERR_FSAL_NO_ERROR, h') ->
  update_share_counters_locked (fsal_complete_io h').2 FSAL_O_WRITE FSAL_O_CLOSED = h.
Proof. apply write_balanced. Qed.

Definition demo_handle_1 : f_handle := mk_f_handle 3 0 1 (mk_share 0 1 0 0 0).

Lemma completed_write_balanced_witness :
  exists h', fsal_start_io demo_handle_1 false FSAL_O_WRITE false true = (ERR_FSAL_NO_ERROR, h') /\
    update_share_counters_locked (fsal_complete_io h').2 FSAL_O_WRITE FSAL_O_CLOSED = demo_handle_1.
Proof.
  eexists. split; [reflexivity|].
  apply (completed_write_balanced demo_handle_1); [by vm_compute| | | |reflexivity]; vm_compute; intuition discriminate.
Defined.

(** ** All procedures *)

(** C35: a procedure whose table entry lacks MAKES_WRITE changes nothing: whatever
    its arguments and whatever the system answers, none of its calls is a
    successful change of the file system, and the table of open files is as it
    was. *)
Theorem read_only_procedures {FS} `{Posix FS} {P} `{xdr_ops P}
    `{!UnionArm LOOKUP3resok LOOKUP3resfail} `{!UnionArm CREATE3resok CREATE3resfail}
    env (d : nfs_function_desc (FS:=FS) (P:=P)) arg res w x w' :
  d ∈ nfs3_func_desc env -> Z.land (dispatch_behaviour d) MAKES_WRITE = 0 ->
  service_function d arg res w = Some (x, w') ->
  exists evs, w_trace w' = w_trace w ++ evs /\ forallb harmless evs = true /\ fsal_handle w' = fsal_handle w.
Proof.
  intros Hd Hb Hs. pose proof (read_only_services (FS:=FS) (P:=P) env) as Hall. rewrite List.Forall_forall in Hall.
  apply (Hall d) in Hs; [done| |done]. by apply list_elem_of_In.
Qed.

Definition demo_getattr : nfs_function_desc (FS:=demo) (P:=unit) :=
  mk_desc _ _ nfs3_getattr xdr_GETATTR3args xdr_GETATTR3res zero_fh3 looks.

Lemma read_only_procedures_witness :
  exists x w' evs, nfs3_getattr file_fh3 (mk_res 0 zero_fattr3) demo_world = Some (x, w') /\
    w_trace w' = w_trace demo_world ++ evs /\ forallb harmless evs = true /\ fsal_handle w' = fsal_handle demo_world.
Proof.
  destruct (runs_at _ demo_world _ (getattr_runs file_fh3 (mk_res 0 zero_fattr3) (fsal_handle demo_world)
    ltac:(demo_handle) ltac:(demo_handle))) as (x & w' & _ & E & _).
  destruct (read_only_procedures demo_env demo_getattr file_fh3 (mk_res 0 zero_fattr3) demo_world x w')
    as (evs & Hevs); [by do 1 apply list_elem_of_further; left|reflexivity|exact E|].
  exists x, w', evs. split; [exact E|exact Hevs].
Defined.

(** C36: decoding the arguments of any procedure is safe on any input: accepted or
    not, the stream stays well formed, its direction is kept and it has only
    consumed bytes from the front of its input. *)
Theorem decoding_is_safe {FS} `{Posix FS} {P} `{xdr_ops P} `{!XdrSource P}
    `{!UnionArm LOOKUP3resok LOOKUP3resfail} `{!UnionArm CREATE3resok CREATE3resfail}
    env (d : nfs_function_desc (FS:=FS) (P:=P)) xs o b xs' a :
  d ∈ nfs3_func_desc env -> src_ok xs -> x_op xs = XDR_DECODE -> xdr_decode_func d xs o = (b, xs', a) ->
  src_ok xs' /\ (exists used, src_in xs = used ++ src_in xs') /\ x_op xs' = XDR_DECODE.
Proof.
  intros Hd Hok Hop He. pose proof (decode_safe (FS:=FS) (P:=P) env) as Hall. rewrite List.Forall_forall in Hall.
  destruct (Hall d) with (xs := xs) (a := o) (b := b) (xs' := xs') (a' := a) (S := XdrSource0) as (? & ? & Hf);
    try done; [by apply list_elem_of_In|]. split_and!; [done..|]. by rewrite Hf.
Qed.

(** Ten bytes that are no handle. *)
Definition demo_garbage : list byte := replicate 10 xff.

Lemma decoding_is_safe_witness :
  exists b xs' a, xdr_GETATTR3args (mem_decode demo_garbage) zero_fh3 = (b, xs', a) /\
    src_ok xs' /\ (exists used, src_in (mem_decode demo_garbage) = used ++ src_in xs') /\ x_op xs' = XDR_DECODE.
Proof.
  destruct (xdr_GETATTR3args (mem_decode demo_garbage) zero_fh3) as [[b xs'] a] eqn:E.
  exists b, xs', a. split; [reflexivity|].
  apply (decoding_is_safe demo_env demo_getattr (mem_decode demo_garbage) zero_fh3 b xs' a);
    [by do 1 apply list_elem_of_further; left|apply mem_decode_ok|reflexivity|exact E].
Defined.

(** dispatch is total and never reads outside of the table: another program,
    another version and an unknown procedure get their RPC errors, and each of the
    22 procedures of version 3 has its entry. *)
Theorem routing_total {FS} `{Posix FS} {P} `{xdr_ops P}
    `{!UnionArm LOOKUP3resok LOOKUP3resfail} `{!UnionArm CREATE3resok CREATE3resfail} env prog vers proc :
  0 <= proc ->
  match nfs_rpc_valid_NFS (FS:=FS) (P:=P) env prog vers proc with
  | RouteNoProg => prog <> NFS_PROGRAM
  | RouteNoVers low high => prog = NFS_PROGRAM /\ vers <> NFS_V3 /\ low = NFS_V3 /\ high = NFS_V3
  | RouteNoProc => prog = NFS_PROGRAM /\ vers = NFS_V3 /\ NFSPROC3_COMMIT < proc
  | RouteProcess d => prog = NFS_PROGRAM /\ vers = NFS_V3 /\ proc <= NFSPROC3_COMMIT /\
                      nfs3_func_desc env !! Z.to_nat proc = Some d
  | RouteBad => False
  end.
Proof.
  intros Hp. unfold nfs_rpc_valid_NFS. destruct (decide (prog <> NFS_PROGRAM)) as [?|Hprog]; [done|].
  apply dec_stable in Hprog. case_decide; [|done]. case_decide as Hle; [|split_and!; [done..|lia]].
  destruct (nfs3_func_desc env !! Z.to_nat proc) eqn:E; [done|].
  apply lookup_ge_None in E. unfold NFSPROC3_COMMIT in Hle. simpl in E. lia.
Qed.

Lemma routing_total_witness :
  match nfs_rpc_valid_NFS (FS:=demo) (P:=unit) demo_env NFS_PROGRAM NFS_V3 22 with
  | RouteNoProc => NFSPROC3_COMMIT < 22
  | _ => False
  end.
Proof. apply (routing_total (FS:=demo) (P:=unit) demo_env NFS_PROGRAM NFS_V3 22). lia. Defined.
