(* ===== verification/ProcProperties.v ===== *)
(** * Properties of single procedures

    Failures and limits of single procedures, and the application of the
    specifications of the handlers to the file system of [DemoFs]. *)
From S2P Require Import Prelude XdrStream XdrPrim XdrSpec Nfs3Types Nfs3Msgs Nfs3ArgSpecs Nfs3ResSpecs.
From S2P Require Import Posix NfsUtils Fsal Nfs3Attr Nfs3Dir Nfs3Io Nfs3Readdir Dispatch.
From S2P Require Import DemoFs Properties.

Open Scope Z_scope.
Open Scope dnfs_scope.

(** ** Handles *)

Lemma handle_path_fh_of p : no_nul p -> handle_path (fh_of p) = p.
Proof. intros Hp. unfold handle_path, fh_of; simpl. by rewrite Nat2Z.id, cstr_id, take_ge. Qed.

(** The bytes of the handle the server makes of a path. *)
Lemma set_file_handle_wire p :
  Z.of_nat (length p) <= 64 -> nfs_fh3_wire (set_file_handle p) = nfs_fh3_wire (fh_of p).
Proof.
  intros Hl. unfold nfs_fh3_wire, bytes_wire, bytes_content, set_file_handle, fh_of; simpl.
  rewrite u32_small by (unfold is_u32; lia). by rewrite Nat2Z.id, take_app_length, firstn_all.
Qed.

(** a handle the server gives out for a path of at most 64 bytes names the same
    path when a client sends it back: decoded from the bytes it was encoded to, it
    is taken for that path. *)
Theorem handle_roundtrip {P} `{xdr_ops P} `{!XdrSource P} (xs : XDR P) p rest :
  no_nul p -> 0 < Z.of_nat (length p) <= 64 ->
  src_ok xs -> x_op xs = XDR_DECODE -> (length rest mod 4 = 0)%nat ->
  src_in xs = nfs_fh3_wire (set_file_handle p) ++ rest ->
  exists xs' h, xdr_nfs_fh3 xs zero_fh3 = (true, xs', h) /\ handle_path h = p /\ src_in xs' = rest.
Proof.
  intros Hp Hl Hok Hop Hr Hin. rewrite set_file_handle_wire in Hin by lia.
  destruct (codec_dec _ _ _ _ _ fh3_args_codec _ xs (fh_of p) rest) as (xs' & Hd & _ & Hin' & _); try done.
  - unfold nfs_fh3_ok, bytes_ok, NFS3_FHSIZE, is_u32; simpl. lia.
  - split; [done|]. destruct p; [simpl in Hl; lia|done].
  - exists xs', (fh_of p). split_and!; [done|by apply handle_path_fh_of|done].
Qed.

Lemma handle_roundtrip_witness :
  exists xs' h, xdr_nfs_fh3 (mem_decode (nfs_fh3_wire (set_file_handle file_path))) zero_fh3 = (true, xs', h) /\
    handle_path h = file_path /\ src_in xs' = [].
Proof.
  apply (handle_roundtrip (mem_decode (nfs_fh3_wire (set_file_handle file_path))) file_path []);
    [repeat constructor; discriminate|by vm_compute|apply mem_decode_ok|reflexivity..].
Defined.

(** for a path of more than 64 bytes there is no handle: the server makes one,
    and encoding any reply that has to carry it fails, on every stream. *)
Theorem long_path_not_encodable {P} `{xdr_ops P} (xs : XDR P) p :
  x_op xs = XDR_ENCODE -> 64 < Z.of_nat (length p) < 2 ^ 32 ->
  xdr_nfs_fh3 xs (set_file_handle p) = (false, xs, set_file_handle p).
Proof.
  intros Hop Hl. unfold xdr_nfs_fh3, xfield, xdr_bytes, xdr_bytes_encode, set_file_handle. rewrite Hop. simpl.
  rewrite u32_small by (unfold is_u32; lia). by rewrite decide_True by lia.
Qed.

Lemma long_path_not_encodable_witness :
  xdr_nfs_fh3 (mem_encode 256) (set_file_handle (replicate 65 x61)) =
    (false, mem_encode 256, set_file_handle (replicate 65 x61)).
Proof. apply (long_path_not_encodable (mem_encode 256) (replicate 65 x61)); [reflexivity|by vm_compute]. Defined.

(** ** Failures of WRITE *)

(** a write that fails at [pwritev] or at [fsync] keeps what it took: the work
    counter and the count of writers of the handle stay one too high. *)
Theorem failed_write_leaks {FS} `{Posix FS} arg p res h t (w : world FS) :
  handle_ok h -> fsal_handle w = store (Some p) h t ->
  served (nfs_write_buff (mk_write_data res (Some p) NFS_REQ_OK p 0 (stable arg) (wra_offset arg) (write_bytes arg)))
    w (fun d evs t' => wd_rc d = NFS_REQ_ERROR ->
      io_work (deref t' (Some p)) = i32 (io_work h + 1) /\
      share_access_write (fh_share (deref t' (Some p))) = u32 (share_access_write (fh_share h) + 1)).
Proof.
  intros Hok Hw. apply runs_at. rewrite Hw. eapply runs_mono; [by apply (write_buff_runs arg (handle h))|].
  intros d evs t' (k & h' & Hc & -> & _ & _ & Hk) Hrc. rewrite deref_store.
  destruct (start_write_ok h Hok) as (h1 & Hs & _ & _ & Hio & Hsh).
  assert (Hst : started h = h1) by (unfold started; by rewrite Hs).
  destruct Hc; rewrite ?Hst; rewrite ?Hio, ?Hsh; try done; destruct Hk as [Hk _]; congruence.
Qed.

(** The table with an entry whose descriptor is not open in the demo. *)
Definition stale_entry : f_handle := mk_f_handle 9 0 0 zero_share.
Definition stale_world : world demo := mk_world demo_fs [] (store (Some file_path) stale_entry empty_table).
Definition stale_data : nfs3_write_data :=
  mk_write_data zero_WRITE3res (Some file_path) NFS_REQ_OK file_path 0 (stable demo_write) (wra_offset demo_write)
    (write_bytes demo_write).

Lemma failed_write_leaks_witness :
  served (nfs_write_buff stale_data) stale_world (fun d evs t' => wd_rc d = NFS_REQ_ERROR ->
    io_work (deref t' (Some file_path)) = 1 /\ share_access_write (fh_share (deref t' (Some file_path))) = 1) /\
  (fun x => bool_decide (wd_rc x.1 = NFS_REQ_ERROR)) <$> nfs_write_buff stale_data stale_world = Some true.
Proof.
  split; [|by vm_compute].
  apply (failed_write_leaks demo_write file_path zero_WRITE3res stale_entry empty_table stale_world);
    [by vm_compute|reflexivity].
Defined.

(** the reply to a write that failed does not say so: the status is that of
    reading the attributes afterwards, 0 as a rule, and the request counts as
    served. *)
Theorem failed_write_masked {FS} `{Posix FS} d (w : world FS) :
  wd_rc d = NFS_REQ_ERROR ->
  served (nfs3_complete_write d) w (fun '(rc, res') evs t' => rc = NFS_REQ_OK /\ t' = fsal_handle w /\
    exists a, evs = [EvLstat (wd_file_path d) a] /\ status res' = attr_status a).
Proof.
  intros Hd. apply runs_at. eapply runs_mono; [by apply (complete_write_runs d None)|].
  intros [rc res'] evs t' (-> & -> & a & -> & Hs & _). eauto.
Qed.

Definition failed_data : nfs3_write_data :=
  stale_data <| wd_rc := NFS_REQ_ERROR |> <| wd_res := zero_WRITE3res <| status := NFS3ERR_IO |> |>.

Lemma failed_write_masked_witness :
  served (nfs3_complete_write failed_data) demo_world (fun '(rc, res') evs t' => rc = NFS_REQ_OK /\
    t' = empty_table /\ exists a, evs = [EvLstat file_path a] /\ status res' = attr_status a) /\
  (fun x => status x.1.2) <$> nfs3_complete_write failed_data demo_world = Some NFS3_OK.
Proof. split; [apply (failed_write_masked failed_data demo_world); reflexivity|by vm_compute]. Defined.

(** ** Requests that end the process *)

Definition dir_name (b : byte) : diropargs3 := mk_diropargs3 dir_fh3 (Some [b; x00]).
Definition nowhere : diropargs3 := mk_diropargs3 zero_fh3 (Some [x67; x00]).
Definition demo_crash_rename : RENAME3args := mk_RENAME3args (dir_name x66) nowhere.
Definition zero_RENAME3res : RENAME3res := mk_res 0 (mk_RENAME3resok zero_wcc zero_wcc).

(** a RENAME whose target directory handle is empty passes decoding and, when
    the source exists, ends the process: only the source handle is tested for
    length 0, and a string is made of the NULL pointer of the other. *)
Theorem rename_empty_target_aborts :
  (exists xs', xdr_RENAME3args (mem_decode (RENAME3args_wire demo_crash_rename)) zero_RENAME3args =
     (true, xs', demo_crash_rename)) /\
  nfs3_rename demo_crash_rename zero_RENAME3res demo_world = None.
Proof. split; [eexists; vm_compute; reflexivity|by vm_compute]. Qed.

(** A read at the offset -1. *)
Definition demo_crash_read : READ3args := mk_READ3args file_fh3 (2 ^ 64 - 1) 10.
Definition zero_READ3res : READ3res := mk_res 0 (mk_READ3resok zero_post_op_attr 0 0 (mk_bytes 0 None)).

(** with errors logged, a READ at offset 2^64 - 1 of an existing file passes
    decoding and runs into the formatting of [errno] as a string, which is
    undefined; without logging the same request gets NFS3ERR_IO. *)
Theorem read_failure_undefined :
  (exists xs', xdr_READ3args (mem_decode (READ3args_wire demo_crash_read)) zero_READ3args =
     (true, xs', demo_crash_read)) /\
  nfs3_read true demo_crash_read zero_READ3res demo_world = None /\
  (fun x => status x.1.2) <$> nfs3_read false demo_crash_read zero_READ3res demo_world = Some NFS3ERR_IO.
Proof. split_and!; [eexists; vm_compute; reflexivity|by vm_compute..]. Qed.

(** ** READDIRPLUS *)

(** C40: walking the buffer of [getdents64] by record lengths visits exactly the
    kernel's records, each once and in order: it does what the walk over the list
    of records does, and its fuel, the length of the buffer, always suffices. *)
Theorem buffer_walk_exact {FS} `{Posix FS} heap limit avail dir es s (w : world FS) :
  Forall kdirent_ok es ->
  scan_buf heap limit avail dir (length (records es)) (records es) 0 s w = scan_list heap limit avail dir es s w.
Proof. apply scan_buf_records. Qed.

Lemma demo_entries_ok : Forall kdirent_ok demo_entries.
Proof. repeat constructor; vm_compute; intuition congruence. Qed.

Lemma buffer_walk_exact_witness :
  scan_buf (fun _ => zero_entryplus3) 100 4096 dir_path (length (records demo_entries)) (records demo_entries) 0
    (mk_scan [] 0 0) demo_world =
  scan_list (fun _ => zero_entryplus3) 100 4096 dir_path demo_entries (mk_scan [] 0 0) demo_world.
Proof.
  apply (buffer_walk_exact (fun _ => zero_entryplus3) 100 4096 dir_path demo_entries (mk_scan [] 0 0) demo_world).
  apply demo_entries_ok.
Defined.

(** the space a READDIRPLUS reply may use does not follow the client's limit:
    below 104 bytes the unsigned subtractions wrap, and the reply gets the largest
    space there is. *)
Theorem small_maxcount_wraps maxcount :
  0 <= maxcount < 104 -> mem_avail default_core_param maxcount = WRITE_READ_MAX.
Proof.
  intros Hm. unfold mem_avail, default_core_param, sizeof_fattr3, sizeof_cookieverf3, WRITE_READ_MAX; cbn [readdir_res_size].
  rewrite decide_False by lia. cbv zeta. change (Z.of_nat BYTES_PER_XDR_UNIT) with 4. apply Z.min_l. zsolve.
Qed.

Lemma small_maxcount_wraps_witness : mem_avail default_core_param 64 = WRITE_READ_MAX.
Proof. apply (small_maxcount_wraps 64). lia. Defined.

(** ** The handlers on the demo *)

Ltac keeps_table := by intros [? ?] ? ? [? _].

Definition demo_res {U} (u : U) : nfs3_res U := mk_res 0 u.
Definition no_times : timespec * timespec := (mk_timespec 0 0, mk_timespec 0 0).
Definition new_object_res : CREATE3res :=
  demo_res (mk_CREATE3resok (mk_post_op_fh3 0 zero_fh3) zero_post_op_attr zero_wcc).
(** The status of a finished run. *)
Definition run_status_of {U} (x : option (nfs_req_result * nfs3_res U * world demo)) : option Z :=
  (fun x => status x.1.2) <$> x.

Lemma read_witness :
  runs (nfs3_read (FS:=demo) false (mk_READ3args file_fh3 1 10) zero_READ3res) empty_table
    (fun '(rc, res') evs t' => t' = empty_table) /\
  (fun x => rd_data (res_u x.1.2)) <$> nfs3_read false (mk_READ3args file_fh3 1 10) zero_READ3res demo_world =
    Some (mk_bytes 2 (Some [x62; x63])).
Proof.
  split; [|by vm_compute]. eapply runs_mono.
  - apply (proj1 (read_runs (FS:=demo) (mk_READ3args file_fh3 1 10) zero_READ3res ltac:(demo_handle)) empty_table).
  - keeps_table.
Defined.

Definition demo_setattr : SETATTR3args :=
  mk_SETATTR3args file_fh3 (zero_sattr3 <| sat_mode := mk_set_mode3 1 0x180 |>) zero_sattrguard3.

Lemma setattr_witness :
  runs (nfs3_setattr (FS:=demo) no_times demo_setattr (demo_res zero_wcc)) empty_table
    (fun '(rc, res') evs t' => t' = empty_table) /\
  run_status_of (nfs3_setattr no_times demo_setattr (demo_res zero_wcc) demo_world) = Some NFS3_OK.
Proof.
  split; [|by vm_compute]. eapply runs_mono.
  - apply (setattr_runs no_times demo_setattr (demo_res zero_wcc) empty_table); demo_handle.
  - keeps_table.
Defined.

Definition demo_rename : RENAME3args := mk_RENAME3args (dir_name x66) (dir_name x67).

Lemma rename_witness :
  runs (nfs3_rename (FS:=demo) demo_rename zero_RENAME3res) empty_table (fun '(rc, res') evs t' => t' = empty_table) /\
  run_status_of (nfs3_rename demo_rename zero_RENAME3res demo_world) = Some NFS3_OK.
Proof.
  split; [|by vm_compute]. eapply runs_mono.
  - apply (rename_runs demo_rename zero_RENAME3res empty_table); demo_handle.
  - keeps_table.
Defined.

Lemma remove_witness :
  runs (nfs3_remove (FS:=demo) (dir_name x66) (demo_res zero_wcc)) empty_table
    (fun '(rc, res') evs t' => t' = empty_table) /\
  run_status_of (nfs3_remove (dir_name x66) (demo_res zero_wcc) demo_world) = Some NFS3_OK.
Proof.
  split; [|by vm_compute]. eapply runs_mono.
  - apply (remove_runs (dir_name x66) (demo_res zero_wcc) empty_table); demo_handle.
  - keeps_table.
Defined.

Definition demo_create : CREATE3args := mk_CREATE3args (dir_name x67) (mk_createhow3 0 zero_sattr3).

Lemma create_witness :
  runs (nfs3_create (FS:=demo) demo_create new_object_res) empty_table (fun '(rc, res') evs t' => t' = empty_table) /\
  run_status_of (nfs3_create demo_create new_object_res demo_world) = Some NFS3_OK.
Proof.
  split; [|by vm_compute]. eapply runs_mono.
  - apply (create_runs demo_create new_object_res empty_table); demo_handle.
  - keeps_table.
Defined.

Definition demo_mkdir : MKDIR3args := mk_MKDIR3args (dir_name x67) zero_sattr3.

Lemma mkdir_witness :
  runs (nfs3_mkdir (FS:=demo) demo_mkdir new_object_res) empty_table (fun '(rc, res') evs t' => t' = empty_table) /\
  run_status_of (nfs3_mkdir demo_mkdir new_object_res demo_world) = Some NFS3_OK.
Proof.
  split; [|by vm_compute]. eapply runs_mono.
  - apply (mkdir_runs demo_mkdir new_object_res empty_table); demo_handle.
  - keeps_table.
Defined.

Definition demo_symlink : SYMLINK3args :=
  mk_SYMLINK3args (dir_name x67) (mk_symlinkdata3 zero_sattr3 (Some [x66; x00])).

Lemma symlink_witness :
  runs (nfs3_symlink (FS:=demo) demo_symlink new_object_res) empty_table (fun '(rc, res') evs t' => t' = empty_table) /\
  run_status_of (nfs3_symlink demo_symlink new_object_res demo_world) = Some NFS3_OK.
Proof.
  split; [|by vm_compute]. eapply runs_mono.
  - apply (symlink_runs demo_symlink new_object_res empty_table); demo_handle.
  - keeps_table.
Defined.

Definition demo_mknod : MKNOD3args :=
  mk_MKNOD3args (dir_name x67) (zero_MKNOD3args.(mna_what) <| mn_type := NF3FIFO |>).

Lemma mknod_witness :
  runs (nfs3_mknod (FS:=demo) no_times demo_mknod new_object_res) empty_table
    (fun '(rc, res') evs t' => t' = empty_table) /\
  run_status_of (nfs3_mknod no_times demo_mknod new_object_res demo_world) = Some NFS3_OK.
Proof.
  split; [|by vm_compute]. eapply runs_mono.
  - apply (mknod_runs no_times demo_mknod new_object_res empty_table); demo_handle.
  - keeps_table.
Defined.

Definition demo_link : LINK3args := mk_LINK3args file_fh3 (dir_name x67).
Definition zero_LINK3res : LINK3res := demo_res (mk_LINK3resok zero_post_op_attr zero_wcc).

Lemma link_witness :
  runs (nfs3_link (FS:=demo) demo_link zero_LINK3res) empty_table (fun '(rc, res') evs t' => t' = empty_table) /\
  run_status_of (nfs3_link demo_link zero_LINK3res demo_world) = Some NFS3_OK.
Proof.
  split; [|by vm_compute]. eapply runs_mono.
  - apply (link_runs demo_link zero_LINK3res empty_table); demo_handle.
  - keeps_table.
Defined.

Definition zero_LOOKUP3res : LOOKUP3res := demo_res (mk_LOOKUP3resok zero_fh3 zero_post_op_attr zero_post_op_attr).

Lemma lookup_witness :
  runs (nfs3_lookup (FS:=demo) (dir_name x66) zero_LOOKUP3res) empty_table
    (fun '(rc, res') evs t' => t' = empty_table) /\
  (fun x => lk_object (res_u x.1.2)) <$> nfs3_lookup (dir_name x66) zero_LOOKUP3res demo_world =
    Some (set_file_handle file_path).
Proof.
  split; [|by vm_compute]. eapply runs_mono.
  - apply (lookup_runs (dir_name x66) zero_LOOKUP3res empty_table); demo_handle.
  - keeps_table.
Defined.

Definition demo_readdir : READDIR3args := mk_READDIR3args dir_fh3 0 zero_verf 512.
Definition zero_READDIR3res : READDIR3res :=
  demo_res (mk_READDIR3resok zero_post_op_attr zero_verf (mk_dirlist3 None 0)).

Lemma readdir_witness :
  runs (nfs3_readdir (FS:=demo) false (fun _ => zero_entry3) demo_readdir zero_READDIR3res) empty_table
    (fun '(rc, res') evs t' => t' = empty_table) /\
  (fun x => reply_names (dl_entries (dr_reply (res_u x.1.2)))) <$>
    nfs3_readdir false (fun _ => zero_entry3) demo_readdir zero_READDIR3res demo_world =
    Some [(77, Some [x2e; x00]); (78, Some [x66; x00])].
Proof.
  split; [|by vm_compute]. eapply runs_mono.
  - apply (readdir_runs (fun _ => zero_entry3) demo_readdir zero_READDIR3res empty_table); demo_handle.
  - keeps_table.
Defined.

Definition demo_readdirplus : READDIRPLUS3args := mk_READDIRPLUS3args dir_fh3 0 zero_verf 2 4096.
Definition zero_READDIRPLUS3res : READDIRPLUS3res :=
  demo_res (mk_READDIRPLUS3resok zero_post_op_attr zero_verf (mk_dirlistplus3 None 0)).

(** The page is full with the last record. *)
Lemma readdirplus_witness :
  runs (nfs3_readdirplus (FS:=demo) false (fun _ => zero_entryplus3) default_core_param (page_fuel 2)
          demo_readdirplus zero_READDIRPLUS3res) empty_table (fun '(rc, res') evs t' => t' = empty_table) /\
  (fun x => from_option entryplus_count 0%nat (dp_entries (rp_reply (res_u x.1.2)))) <$>
    nfs3_readdirplus false (fun _ => zero_entryplus3) default_core_param (page_fuel 2)
      demo_readdirplus zero_READDIRPLUS3res demo_world = Some 2%nat.
Proof.
  split; [|by vm_compute]. eapply runs_mono.
  - apply (proj1 (readdirplus_runs (FS:=demo) (fun _ => zero_entryplus3) default_core_param demo_readdirplus zero_READDIRPLUS3res
      ltac:(demo_handle) demo_getdents_ok ltac:(by vm_compute) ltac:(by vm_compute)) empty_table).
  - keeps_table.
Defined.

Definition zero_FSSTAT3res : FSSTAT3res := demo_res (mk_FSSTAT3resok zero_post_op_attr 0 0 0 0 0 0 0).

Lemma fsstat_witness :
  runs (nfs3_fsstat (FS:=demo) dir_fh3 zero_FSSTAT3res) empty_table (fun '(rc, res') evs t' => t' = empty_table) /\
  run_status_of (nfs3_fsstat dir_fh3 zero_FSSTAT3res demo_world) = Some NFS3_OK.
Proof.
  split; [|by vm_compute]. eapply runs_mono.
  - apply (fsstat_runs dir_fh3 zero_FSSTAT3res empty_table); demo_handle.
  - keeps_table.
Defined.

(** A handle that announces 65 bytes. *)
Definition long_handle : list byte := be32 65 ++ replicate 68 x61.

Lemma oversize_witness :
  exists xs', xdr_bytes 64 (mem_decode long_handle) (mk_bytes 0 None) = (false, xs', mk_bytes 0 None).
Proof.
  apply (xdr_bytes_oversize 64 (mem_decode long_handle) (mk_bytes 0 None) 65 (replicate 68 x61));
    [apply mem_decode_ok|reflexivity|by vm_compute|reflexivity|reflexivity|lia].
Defined.
