(* ===== verification/IoqPos.v ===== *)
(** * Positions and vectors of an I/O queue (libntirpc [src/xdr_ioq.c])

    The queue as one sequence of bytes: [xdr_ioq_getpos] and [xdr_ioq_setpos]
    count in it, [xdr_ioq_iovcount] and [xdr_ioq_fillbufs] cut a part out of it.
    The invariant of the queue and that the operations keep it. *)
From S2P Require Import Prelude XdrStream XdrIoq.

Open Scope Z_scope.
Open Scope dnfs_scope.

(** The bytes of buffers in a row. *)
Definition uvs_data (uvs : list xdr_ioq_uv) : list byte := concat (map uv_data uvs).

Definition total_length (uvs : list xdr_ioq_uv) : nat := sum_list (map ioquv_length uvs).

(** All bytes of the queue. *)
Definition ioq_bytes (xs : IOQ) : list byte := uvs_data (ioq_queue xs).

(** The queue is well formed: every buffer is, the position lies in the current
    one, and the counters count the buffers. *)
Definition ioq_wf (xs : IOQ) : Prop :=
  Forall uv_ok (ioq_queue xs) /\ (vio_head xs <= x_data xs <= vio_wrap xs)%nat /\
  plength (x_priv xs) = total_length (ioq_prev (x_priv xs)) /\
  pcount (x_priv xs) = length (ioq_prev (x_priv xs)) /\
  qcount (x_priv xs) = length (ioq_queue xs).

Lemma uvs_data_length uvs : Forall uv_ok uvs -> length (uvs_data uvs) = total_length uvs.
Proof.
  unfold uvs_data, total_length. induction 1 as [|uv l Huv _ IH]; [done|]. cbn [map concat sum_list foldr].
  rewrite length_app, uv_data_length by done. simpl. lia.
Qed.

Lemma uvs_data_app l k : uvs_data (l ++ k) = uvs_data l ++ uvs_data k.
Proof. unfold uvs_data. by rewrite map_app, concat_app. Qed.

Lemma uvs_data_one uv : uvs_data [uv] = uv_data uv.
Proof. apply app_nil_r. Qed.

Lemma total_length_app l k : total_length (l ++ k) = (total_length l + total_length k)%nat.
Proof. unfold total_length. rewrite map_app. apply sum_list_with_app. Qed.

Lemma length_queue xs : length (ioq_queue xs) = (length (ioq_prev (x_priv xs)) + S (length (ioq_next (x_priv xs))))%nat.
Proof. unfold ioq_queue. by rewrite length_app. Qed.

(** ** The operations keep the queue well formed *)

Lemma tail_update_wf xs : ioq_wf xs -> ioq_wf (xdr_tail_update xs).
Proof.
  intros (Hq & Hp & ? & ? & Hc). unfold xdr_tail_update. case_decide; [|done].
  unfold ioq_wf. rewrite length_queue in *. unfold ioq_queue in *. simpl in *. split_and!; try done; try lia.
  apply Forall_app in Hq as [Hprev Hq]. apply List.Forall_cons_iff in Hq as [[? ?] Hnext]. simpl in *.
  apply Forall_app; split; [done|]. apply List.Forall_cons_iff; split; [|done]. unfold uv_ok; simpl. lia.
Qed.

Lemma queue_reset xs prev uv next : ioq_queue (xdr_ioq_uv_reset xs prev uv next) = prev ++ uv :: next.
Proof. by destruct uv. Qed.

Lemma queue_enter xs uv next :
  ioq_queue (enter_uv xs uv next) = ioq_prev (x_priv xs) ++ cur_uv xs :: uv :: next.
Proof.
  transitivity ((ioq_prev (x_priv xs) ++ [cur_uv xs]) ++ uv :: next); [by destruct uv|].
  by rewrite <- app_assoc.
Qed.

Lemma queue_push xs uv : ioq_queue (push_uv xs uv) = ioq_queue xs ++ [uv].
Proof. by destruct uv. Qed.

(** Leaving the current buffer behind for the next one. *)
Lemma enter_wf xs uv next xs' :
  ioq_wf xs -> xdr_ioq_uv_advance xs = (Some (uv, next), xs') ->
  ioq_wf (enter_uv xs' uv next) /\ x_op (enter_uv xs' uv next) = x_op xs /\
  ioq_bytes (enter_uv xs' uv next) = ioq_bytes (xdr_tail_update xs) /\
  ioq_next (x_priv xs) = uv :: next /\ x_data (enter_uv xs' uv next) = uv_head uv /\
  vio_wrap (enter_uv xs' uv next) = uv_wrap uv.
Proof.
  intros Hwf Ha. unfold xdr_ioq_uv_advance in Ha. set (ys := xdr_tail_update xs) in *.
  assert (ioq_wf ys) as (Hq & Hp & Hpl & Hpc & Hqc) by by apply tail_update_wf.
  assert (x_op ys = x_op xs /\ x_priv ys = x_priv xs) as [Hop Hpr]
    by (subst ys; unfold xdr_tail_update; by case_decide).
  rewrite <- Hpr, <- Hop. simpl in Ha. destruct (ioq_next (x_priv ys)) as [|uv' next'] eqn:En; [done|].
  injection Ha as <- <- <-. rewrite length_queue in Hqc. unfold ioq_queue in Hq. rewrite En in *.
  assert (uv_ok uv') as [? ?].
  { apply Forall_app in Hq as [_ Hq]. by do 2 apply List.Forall_cons_iff in Hq as [? Hq]. }
  unfold ioq_wf, ioq_bytes. rewrite queue_enter. simpl. split_and!; try done; try lia.
  - rewrite total_length_app, Hpl. unfold total_length at 3. simpl. unfold cur_uv; simpl. lia.
  - rewrite length_app. simpl. lia.
  - rewrite Hqc, length_app. simpl. lia.
  - unfold ioq_queue. by rewrite En.
Qed.

(** The queue grows by buffers that hold a unit. *)
Definition growable (xs : IOQ) : Prop :=
  Forall (fun uv => Z.land (uv_flags uv) UIO_FLAG_REALLOC = 0) (ioq_queue xs) /\
  (forall n, length (ioq_heap (x_priv xs) n) = n) /\ (4 <= min_bsize (x_priv xs))%nat.

Lemma advance_shape xs r xs' :
  xdr_ioq_uv_advance xs = (r, xs') ->
  r = match ioq_next (x_priv xs) with [] => None | uv :: next => Some (uv, next) end /\
  cur_uv xs' = cur_uv (xdr_tail_update xs) /\ x_op xs' = x_op xs /\
  x_priv xs' = (x_priv xs) <| plength := (plength (x_priv xs) + ioquv_length (cur_uv (xdr_tail_update xs)))%nat |>.
Proof.
  unfold xdr_ioq_uv_advance. intros Ha. injection Ha as <- <-.
  unfold xdr_tail_update. by case_decide.
Qed.

(** A fresh buffer at the end. *)
Lemma append_wf xs xs' :
  ioq_wf xs -> growable xs -> xdr_ioq_uv_advance xs = (None, xs') ->
  exists ys, xdr_ioq_uv_append xs' IOQ_FLAG_BALLOC = Some ys /\
  ioq_wf ys /\ growable ys /\ x_op ys = x_op xs /\ ioq_bytes ys = ioq_bytes (xdr_tail_update xs) /\
  x_data ys = 0%nat /\ vio_wrap ys = min_bsize (x_priv xs) /\ ioq_next (x_priv ys) = [].
Proof.
  intros Hwf (Hf & Hh & Hm) Ha. apply advance_shape in Ha as (En & Hcur & Hop & Hpr).
  destruct (ioq_next (x_priv xs)) eqn:Hnx; [clear En|done].
  pose proof (tail_update_wf xs Hwf) as (Hq & Hp & Hpl & Hpc & Hqc). rewrite length_queue in Hqc.
  assert (x_priv (xdr_tail_update xs) = x_priv xs) as Htp by (unfold xdr_tail_update; by case_decide).
  unfold ioq_bytes, ioq_queue in *. rewrite Htp, Hnx, <- Hcur in *.
  apply Forall_app in Hf as [Hfp Hfc]. apply List.Forall_cons_iff in Hfc as [Hfc _].
  assert (uv_flags (cur_uv xs') = uv_flags (cur_uv xs)) as Hfl by (rewrite Hcur; unfold xdr_tail_update; by case_decide).
  unfold xdr_ioq_uv_append. rewrite decide_True by done. rewrite (decide_False (P:=_ <> 0)) by (by rewrite Hfl, Hfc; intros []).
  set (uv := xdr_ioq_uv_create (ioq_heap (x_priv xs)) (min_bsize (x_priv xs)) UIO_FLAG_FREE).
  exists (push_uv xs' uv). split; [by rewrite Hpr|].
  assert (uv_ok uv /\ uv_head uv = 0 /\ uv_wrap uv = min_bsize (x_priv xs) /\ uv_data uv = [] /\
    Z.land (uv_flags uv) UIO_FLAG_REALLOC = 0%Z)%nat as (Huv & H0 & Hw & Hd & Hfu).
  { subst uv. unfold xdr_ioq_uv_create, uv_ok. case_decide; simpl; rewrite ?Hh; by split_and!; try lia. }
  unfold ioq_wf, growable, ioq_bytes. rewrite queue_push. unfold ioq_queue. simpl. rewrite Hpr. simpl. rewrite Hnx.
  split_and!; try done; try lia; rewrite ?Forall_app, ?Forall_singleton, ?length_app, ?uvs_data_app, ?total_length_app; simpl.
  - apply Forall_app in Hq as [? Hq]. apply List.Forall_cons_iff in Hq as [? _]. done.
  - rewrite Hpl. unfold total_length at 3. simpl. lia.
  - lia.
  - simpl in Hqc. lia.
  - split_and!; [done|by rewrite Hpr|done].
  - replace (cur_uv (push_uv xs' uv)) with uv by (by destruct uv).
    unfold uvs_data at 3. simpl. by rewrite Hd, !app_nil_r.
Qed.

Lemma next_or_append_wf xs :
  ioq_wf xs -> growable xs ->
  let ys := next_or_append xs in
  ioq_wf ys /\ growable ys /\ x_op ys = x_op xs /\ ioq_bytes ys = ioq_bytes (xdr_tail_update xs) /\
  ((length (ioq_next (x_priv ys)) < length (ioq_next (x_priv xs)))%nat \/
   (ioq_next (x_priv ys) = [] /\ x_data ys = 0%nat /\ vio_wrap ys = min_bsize (x_priv xs))).
Proof.
  intros Hwf Hg. unfold next_or_append. destruct (xdr_ioq_uv_advance xs) as [[[uv next]|] xs'] eqn:Ha.
  - destruct (enter_wf xs uv next xs' Hwf Ha) as (? & ? & Hb & Hn & _). split_and!; try done.
    + destruct Hg as (Hf & Hh & Hm). apply advance_shape in Ha as (_ & Hcur & _ & Hpr).
      assert (ioq_prev (x_priv xs') = ioq_prev (x_priv xs)) as Hpv by by rewrite Hpr.
      unfold growable. rewrite queue_enter, Hpv, Hcur. simpl. rewrite Hpr. split_and!; try done.
      unfold ioq_queue in Hf. rewrite Hn in Hf. apply Forall_app in Hf as [? Hf].
      apply List.Forall_cons_iff in Hf as [? Hf]. apply Forall_app; split; [done|].
      apply List.Forall_cons_iff; split; [|done]. unfold xdr_tail_update. by case_decide.
    + left. rewrite Hn. simpl. lia.
  - destruct (append_wf xs xs' Hwf Hg Ha) as (ys & -> & ? & ? & ? & ? & ? & ? & ?). simpl. split_and!; auto.
Qed.

(** Overwriting bytes of the current buffer. *)
Lemma splice_wf xs bs :
  ioq_wf xs -> (x_data xs + length bs <= vio_wrap xs)%nat ->
  let ys := xs <| x_buf := splice (x_data xs) bs (x_buf xs) |> <| x_data := (x_data xs + length bs)%nat |> in
  ioq_wf ys.
Proof.
  intros (Hq & Hp & ? & ? & Hc) Hfit. unfold ioq_wf. rewrite length_queue in *. unfold ioq_queue in *. simpl.
  apply Forall_app in Hq as [Hprev Hq]. apply List.Forall_cons_iff in Hq as [[? Hl] Hnext]. simpl in *.
  split_and!; try done; try lia. apply Forall_app; split; [done|]. apply List.Forall_cons_iff; split; [|done].
  unfold uv_ok; simpl. rewrite splice_length; lia.
Qed.

Lemma splice_growable xs bs n :
  growable xs -> growable (xs <| x_buf := splice (x_data xs) bs (x_buf xs) |> <| x_data := n |>).
Proof.
  intros (Hf & ? & ?). split_and!; try done. unfold ioq_queue in *. simpl. apply Forall_app in Hf as [? Hf].
  apply List.Forall_cons_iff in Hf as [? Hf]. apply Forall_app; split; [done|]. by constructor.
Qed.

Definition ioq_inv (xs : IOQ) : Prop := ioq_wf xs /\ growable xs.

Lemma putunit_loop_inv fuel xs v :
  ioq_inv xs ->
  (if decide (x_data xs + 4 <= vio_wrap xs) then 1 <= fuel else length (ioq_next (x_priv xs)) + 2 <= fuel)%nat ->
  exists ys, putunit_loop fuel xs v = Some (true, ys) /\ ioq_inv ys /\ x_op ys = x_op xs.
Proof.
  revert xs. induction fuel as [|fuel IH]; intros xs [Hwf Hg] Hf; [case_decide; lia|]. cbn [putunit_loop].
  destruct (decide (x_data xs + 4 <= vio_wrap xs)%nat).
  - rewrite decide_False by lia. eexists. split; [reflexivity|]. split; [|done].
    split; [by apply (splice_wf xs (be32 v))|by apply splice_growable].
  - rewrite decide_True by lia. destruct (next_or_append_wf xs Hwf Hg) as (? & ? & Hop & _ & Hcase).
    destruct (IH (next_or_append xs)) as (ys & -> & ? & ?); [done| |].
    { destruct Hg as (_ & _ & ?). destruct Hcase as [?|(Hn & Hd & Hw)]; case_decide; lia. }
    exists ys. split_and!; [done..|congruence].
Qed.

Lemma putbytes_loop_inv fuel xs addr :
  ioq_inv xs ->
  (2 * (length addr + length (ioq_next (x_priv xs))) +
    (if decide (x_data xs = vio_wrap xs) then 2 else 1) <= fuel)%nat ->
  exists ys, putbytes_loop fuel xs addr = Some (true, ys) /\ ioq_inv ys /\ x_op ys = x_op xs.
Proof.
  revert xs addr. induction fuel as [|fuel IH]; intros xs addr [Hwf Hg] Hf; [case_decide; lia|].
  set (N := length (ioq_next (x_priv xs))) in *.
  assert ((2 * (length addr + N) + 1 <= S fuel)%nat /\
    (x_data xs = vio_wrap xs -> (2 * (length addr + N) + 2 <= S fuel)%nat)) as [Hf1 Hf2] by (case_decide; lia).
  clear Hf. cbn [putbytes_loop]. assert (x_data xs <= vio_wrap xs)%nat by (destruct Hwf as (_ & ? & _); lia).
  assert (Hcopy : forall k, (k <= length addr)%nat -> (k <= vio_wrap xs - x_data xs)%nat ->
    ioq_inv (xs <| x_buf := splice (x_data xs) (take k addr) (x_buf xs) |> <| x_data := (x_data xs + k)%nat |>)).
  { intros k ? ?. split; [|by apply splice_growable]. assert (Hk : length (take k addr) = k) by (rewrite length_take; lia).
    pose proof (splice_wf xs (take k addr) Hwf) as Hs. rewrite Hk in Hs. apply Hs. lia. }
  destruct (decide (0 < length addr)%nat); [|exists xs; done].
  destruct (decide (length addr < vio_wrap xs - x_data xs)%nat); [|destruct (decide (vio_wrap xs - x_data xs = 0)%nat)].
  - destruct (IH _ (drop (length addr) addr) (Hcopy (length addr) ltac:(lia) ltac:(lia))) as (ys & -> & ? & ?);
      [rewrite length_drop; simpl; fold N; case_decide; lia|]. eauto.
  - destruct (next_or_append_wf xs Hwf Hg) as (? & ? & Hop & _ & Hcase).
    destruct (IH (next_or_append xs) addr) as (ys & -> & ? & ?); [done| |exists ys; split_and!; [done..|congruence]].
    destruct Hg as (_ & _ & ?). destruct Hcase as [?|(Hn & Hd & Hw)]; [case_decide; lia|].
    rewrite Hn, Hd, Hw. simpl. case_decide; lia.
  - destruct (IH _ (drop (vio_wrap xs - x_data xs) addr) (Hcopy (vio_wrap xs - x_data xs)%nat ltac:(lia) ltac:(lia)))
      as (ys & -> & ? & ?); [rewrite length_drop; simpl; fold N; case_decide; lia|]. eauto.
Qed.

Lemma move_wf xs n :
  ioq_wf xs -> (vio_head xs <= n <= vio_wrap xs)%nat -> ioq_wf (xs <| x_data := n |>).
Proof. intros (Hq & _ & Hc) Hn. repeat split; try apply Hn; try apply Hc. exact Hq. Qed.

Lemma enter_inv xs uv next xs' :
  ioq_inv xs -> xdr_ioq_uv_advance xs = (Some (uv, next), xs') ->
  ioq_inv (enter_uv xs' uv next) /\ x_op (enter_uv xs' uv next) = x_op xs.
Proof.
  intros [Hwf Hg] Ha. destruct (next_or_append_wf xs Hwf Hg) as (H1 & H2 & H3 & _).
  unfold next_or_append in *. by rewrite Ha in *.
Qed.

Lemma tail_update_inv xs : ioq_inv xs -> ioq_inv (xdr_tail_update xs).
Proof.
  intros [Hwf Hg]. split; [by apply tail_update_wf|]. unfold xdr_tail_update. case_decide; [|done].
  destruct Hg as (Hq & Hh & Hm). split_and!; [|done..]. apply Forall_app in Hq as [Hp Hq].
  apply List.Forall_cons_iff in Hq as [Hc Hn]. apply Forall_app. split; [done|]. by constructor.
Qed.

(** What a read leaves that has found the end of the queue: the current buffer is counted
    with those before it, although the position is still in it. *)
Definition ioq_overcounted (xs : IOQ) : Prop :=
  plength (x_priv xs) = total_length (ioq_queue xs) /\
  ioq_inv (set_priv (fun q => q <| plength := total_length (ioq_prev q) |>) xs).

Lemma advance_end xs xs' : ioq_inv xs -> xdr_ioq_uv_advance xs = (None, xs') -> ioq_overcounted xs' /\ x_op xs' = x_op xs.
Proof.
  intros Hi Ha. pose proof (tail_update_inv xs Hi) as Hu. unfold xdr_ioq_uv_advance in Ha.
  assert (x_op (xdr_tail_update xs) = x_op xs) as Hop by (unfold xdr_tail_update; by case_decide).
  revert Hu Hop Ha. generalize (xdr_tail_update xs). intros us Hu Hop Ha.
  assert (ioq_next (x_priv us) = []) as Hn by (cbn in Ha; by destruct (ioq_next (x_priv us))).
  injection Ha as _ <-. split; [|done]. destruct Hu as [(Hq & Hx & Hl & Hc & Hqc) Hg]. split.
  - change (plength (x_priv us) + ioquv_length (cur_uv us) = total_length (ioq_prev (x_priv us) ++ cur_uv us :: ioq_next (x_priv us)))%nat.
    rewrite Hn, Hl, total_length_app. f_equal. unfold total_length. simpl. lia.
  - split; [|exact Hg]. exact (conj Hq (conj Hx (conj eq_refl (conj Hc Hqc)))).
Qed.

(** What a read leaves: a well-formed queue, but for the count when it fails at the end. *)
Definition read_leaves {A} (xs : IOQ) (r : option A) (ys : IOQ) : Prop :=
  x_op ys = x_op xs /\ match r with Some _ => ioq_inv ys | None => ioq_inv ys \/ ioq_overcounted ys end.

Lemma getunit_loop_inv fuel xs r ys :
  ioq_inv xs -> getunit_loop fuel xs = Some (r, ys) -> read_leaves xs r ys.
Proof.
  revert xs. induction fuel as [|fuel IH]; intros xs Hi; [done|]. cbn [getunit_loop].
  case_decide; [case_decide|].
  - intros Hr. simplify_eq. split; [done|by left].
  - destruct (xdr_ioq_uv_advance xs) as [[[uv next]|] xs'] eqn:Ha; intros Hr.
    + destruct (enter_inv xs uv next xs' Hi Ha) as [Hi' Hop]. apply IH in Hr as [? ?]; [|done]. split; [congruence|done].
    + simplify_eq. destruct (advance_end _ _ Hi Ha). split; [done|by right].
  - intros Hr. simplify_eq. split; [done|]. destruct Hi as [Hwf Hg]. split; [|done].
    apply move_wf; [done|]. destruct Hwf as (Hq & ? & _). apply Forall_app in Hq as [_ Hq].
    apply List.Forall_cons_iff in Hq as [[? ?] _]. simpl in *. lia.
Qed.

Lemma getbytes_loop_inv fuel xs len acc r ys :
  ioq_inv xs -> getbytes_loop fuel xs len acc = Some (r, ys) -> read_leaves xs r ys.
Proof.
  revert xs len acc. induction fuel as [|fuel IH]; intros xs len acc Hi; [done|]. cbn [getbytes_loop].
  assert (Hcopy : forall k, (k <= vio_tail xs - x_data xs)%nat -> (0 < vio_tail xs - x_data xs)%nat ->
    ioq_inv (xs <| x_data := (x_data xs + k)%nat |>)).
  { destruct Hi as [Hwf Hg]. intros k ? ?. split; [|done]. apply move_wf; [done|]. destruct Hwf as (Hq & ? & _).
    apply Forall_app in Hq as [_ Hq]. apply List.Forall_cons_iff in Hq as [[? ?] _]. simpl in *. lia. }
  destruct (decide (0 < len /\ _)%nat); [|intros; by simplify_eq].
  destruct (decide (len < _)%nat); [|destruct (decide (_ = 0)%nat)].
  - intros Hr. apply IH in Hr; [done|]. apply Hcopy; lia.
  - destruct (xdr_ioq_uv_advance xs) as [[[uv next]|] xs'] eqn:Ha; intros Hr.
    + destruct (enter_inv xs uv next xs' Hi Ha) as [Hi' Hop]. apply IH in Hr as [? ?]; [|done]. split; [congruence|done].
    + simplify_eq. destruct (advance_end _ _ Hi Ha). split; [done|by right].
  - intros Hr. apply IH in Hr; [done|]. apply Hcopy; lia.
Qed.

(** ** Positions *)

(** The loop of [xdr_ioq_setpos] stops in the buffer that holds byte [pos]. *)
Lemma setpos_loop_spec full uvs : forall xs prev pos,
  plength (x_priv xs) = total_length prev -> pcount (x_priv xs) = length prev ->
  Forall uv_ok uvs -> (pos < total_length uvs)%nat ->
  exists pre uv rest k ys, setpos_loop xs full prev uvs pos = (true, ys) /\
    uvs = pre ++ uv :: rest /\ pos = (total_length pre + k)%nat /\ (k < ioquv_length uv)%nat /\
    ys = (xdr_ioq_uv_reset xs (prev ++ pre) uv rest)
           <| x_data := (uv_head uv + k)%nat |>
           <| x_priv := (x_priv (xdr_ioq_uv_reset xs (prev ++ pre) uv rest))
                <| plength := total_length (prev ++ pre) |> <| pcount := length (prev ++ pre) |> |>.
Proof.
  induction uvs as [|uv uvs IH]; intros xs prev pos Hl Hc Hok Hpos; [unfold total_length in Hpos; simpl in Hpos; lia|].
  cbn [setpos_loop]. apply List.Forall_cons_iff in Hok as [_ Hok].
  assert (total_length (uv :: uvs) = ioquv_length uv + total_length uvs)%nat as Ht by reflexivity.
  destruct (decide (pos < ioquv_length uv)%nat).
  - rewrite decide_True by (by left). exists [], uv, uvs, pos. eexists.
    rewrite !app_nil_r, <- Hl, <- Hc. split_and!; try done.
  - rewrite decide_False; cycle 1. { intros [?|[-> ?]]; [lia|]. unfold total_length in Ht at 2. simpl in Ht. lia. }
    edestruct (IH (set_priv (fun q => q <| plength := (plength q + ioquv_length uv)%nat |> <| pcount := S (pcount q) |>) xs)
      (prev ++ [uv]) (pos - ioquv_length uv)%nat) as (pre & uv' & rest & k & ys & Hr & Hu & Hp & Hk & Hys);
      [simpl; rewrite Hl, total_length_app; unfold total_length at 3; simpl; lia
      |simpl; rewrite Hc, length_app; simpl; lia|done|lia|].
    exists (uv :: pre), uv', rest, k, ys. rewrite Hr, Hu. split_and!; try done.
    + change (total_length (uv :: pre)) with (ioquv_length uv + total_length pre)%nat. lia.
    + rewrite Hys, <- app_assoc. by destruct xs as [? ? ? ? ? ? ? []].
Qed.

(** A position that is found leaves the buffers as they are. *)
Lemma setpos_loop_queue full uvs : forall xs prev pos ys, setpos_loop xs full prev uvs pos = (true, ys) ->
  ioq_queue ys = prev ++ uvs /\ ioq_heap (x_priv ys) = ioq_heap (x_priv xs) /\ min_bsize (x_priv ys) = min_bsize (x_priv xs).
Proof.
  induction uvs as [|uv uvs IH]; intros xs prev pos ys; [done|]. cbn [setpos_loop]. case_decide; intros Hr.
  - simplify_eq. split_and!; [by destruct uv|done|done].
  - apply IH in Hr as (-> & ? & ?). by rewrite <- app_assoc.
Qed.

Lemma setpos_growable xs pos ys : ioq_inv xs -> xdr_ioq_setpos xs pos = (true, ys) -> growable ys.
Proof.
  intros Hi Hs. apply tail_update_inv in Hi as [_ (Hq & Hh & Hm)]. apply setpos_loop_queue in Hs as (Hqy & Hhy & Hmy).
  unfold growable. rewrite Hqy, Hhy, Hmy. by split_and!.
Qed.

(** Seeking to a byte of the queue: the position is the one asked for, no byte
    changes, and reading goes on from there. *)
Lemma setpos_spec xs pos :
  ioq_wf xs -> let us := xdr_tail_update xs in
  (pos < length (ioq_bytes us))%nat ->
  exists ys, xdr_ioq_setpos xs pos = (true, ys) /\ ioq_wf ys /\ x_op ys = x_op xs /\
    ioq_bytes ys = ioq_bytes us /\ xdr_ioq_getpos ys = (u32 (Z.of_nat pos), ys) /\
    ioq_in ys = drop pos (ioq_bytes us).
Proof.
  intros Hwf us Hpos. pose proof (tail_update_wf xs Hwf) as (Hq & _ & _ & _ & Hqc). fold us in Hq, Hqc.
  unfold ioq_bytes in Hpos. rewrite uvs_data_length in Hpos by done.
  unfold xdr_ioq_setpos. fold us.
  destruct (setpos_loop_spec (vio_wrap us - vio_head us) (ioq_queue us)
    (set_priv (fun q => q <| plength := 0%nat |> <| pcount := 0%nat |>) us) [] pos)
    as (pre & uv & rest & k & ys & -> & Hu & Hp & Hk & Hys); [done..|].
  assert (uv_ok uv /\ Forall uv_ok pre) as [[Ho Hb] Hpre].
  { rewrite Hu in Hq. apply Forall_app in Hq as [? Hq]. by apply List.Forall_cons_iff in Hq as [? _]. }
  unfold ioquv_length in Hk. assert (x_op us = x_op xs) as Hop by (subst us; unfold xdr_tail_update; by case_decide).
  assert (Hqy : ioq_queue ys = ioq_queue us) by (rewrite Hys, Hu; by destruct uv).
  exists ys. unfold ioq_bytes. rewrite Hqy. split_and!; try done.
  - unfold ioq_wf. rewrite Hqy. rewrite Hys. simpl. split_and!; try done; lia.
  - by rewrite Hys.
  - unfold xdr_ioq_getpos. rewrite Hys, tail_update_src by (simpl; lia). simpl. f_equal. f_equal. lia.
  - rewrite Hu, uvs_data_app, Hp, drop_app_ge by (rewrite uvs_data_length by done; lia).
    rewrite uvs_data_length by done.
    replace (total_length pre + k - total_length pre)%nat with k by lia.
    change (uvs_data (uv :: rest)) with (uv_data uv ++ uvs_data rest).
    rewrite drop_app_le by (rewrite uv_data_length by done; unfold ioquv_length; lia).
    rewrite Hys. unfold ioq_in, uv_data, slice, ioquv_length. simpl. f_equal.
    rewrite skipn_firstn_comm, drop_drop. f_equal. lia.
Qed.

(** ** Vectors *)

Lemma slice_app_l (off n : nat) (a b : list byte) :
  (off + n <= length a)%nat -> slice off n (a ++ b) = slice off n a.
Proof. intros. unfold slice. rewrite drop_app_le by lia. rewrite take_app_le; [done|]. rewrite length_drop. lia. Qed.

Lemma slice_app_r (off n : nat) (a b : list byte) :
  (length a <= off)%nat -> slice off n (a ++ b) = slice (off - length a) n b.
Proof. intros. unfold slice. by rewrite drop_app_ge by lia. Qed.

(** The part of [uv] that the vector names. *)
Lemma cut_data uv (start n : nat) :
  uv_ok uv -> (start + n <= ioquv_length uv)%nat ->
  uv_data (uv <| uv_head := (uv_head uv + start)%nat |> <| uv_tail := (uv_head uv + start + n)%nat |>)
    = slice start n (uv_data uv) /\
  ((start + n)%nat = ioquv_length uv -> uv_data (uv <| uv_head := (uv_head uv + start)%nat |>) = slice start n (uv_data uv)).
Proof.
  unfold ioquv_length. intros [? ?] ?. unfold uv_data, slice, ioquv_length. simpl.
  rewrite skipn_firstn_comm, drop_drop, take_take. split; [|intros]; f_equal; lia.
Qed.

Lemma slice_cons uv uvs (start datalen : nat) :
  uv_ok uv -> (start <= ioquv_length uv)%nat -> (ioquv_length uv - start <= datalen)%nat ->
  slice start datalen (uvs_data (uv :: uvs)) =
    slice start (ioquv_length uv - start) (uv_data uv) ++ slice 0 (datalen - (ioquv_length uv - start)) (uvs_data uvs).
Proof.
  intros Huv ? ?. replace datalen with ((ioquv_length uv - start) + (datalen - (ioquv_length uv - start)))%nat at 1 by lia.
  unfold slice at 1. rewrite <- take_take_drop, drop_drop. fold (slice start (ioquv_length uv - start) (uvs_data (uv :: uvs))).
  fold (slice (start + (ioquv_length uv - start)) (datalen - (ioquv_length uv - start)) (uvs_data (uv :: uvs))).
  change (uvs_data (uv :: uvs)) with (uv_data uv ++ uvs_data uvs).
  rewrite slice_app_l, slice_app_r by (rewrite uv_data_length by done; lia).
  rewrite uv_data_length by done. do 2 f_equal; lia.
Qed.

(** From the first buffer that holds a wanted byte on. *)
Lemma fillbufs_loop_found uvs : forall (start datalen : nat) (n : Z),
  Forall uv_ok uvs -> (0 < datalen)%nat -> (start + datalen <= total_length uvs)%nat ->
  (start = 0%nat /\ 0 < n \/ exists uv l, uvs = uv :: l /\ (start < ioquv_length uv)%nat) ->
  exists vector, fillbufs_loop uvs true start datalen = (true, vector, 0%nat) /\
    uvs_data vector = slice start datalen (uvs_data uvs) /\
    iovcount_loop uvs n start datalen = (Z.max 0 n + Z.of_nat (length vector), 0%nat).
Proof.
  induction uvs as [|uv uvs IH]; intros start datalen n Hok Hd Ht Hs; [unfold total_length in Ht; simpl in Ht; lia|].
  apply List.Forall_cons_iff in Hok as [Huv Hok]. assert (start <= ioquv_length uv)%nat.
  { destruct Hs as [?|(? & ? & ? & ?)]; simplify_eq; lia. }
  change (total_length (uv :: uvs)) with (ioquv_length uv + total_length uvs)%nat in Ht.
  cbn [fillbufs_loop iovcount_loop].
  replace (if decide (0 < n) then _ else _) with (Z.max 0 n + 1, start); cycle 1.
  { case_decide; [f_equal; lia|]. destruct Hs as [?|(? & ? & ? & ?)]; simplify_eq; [lia|].
    rewrite decide_True by done. f_equal; lia. }
  rewrite (decide_True (P:=0 < Z.max 0 n + 1)) by lia.
  destruct (decide (datalen < ioquv_length uv - start)%nat);
    [|destruct (decide (datalen = ioquv_length uv - start)%nat)].
  - eexists. split; [reflexivity|]. rewrite decide_True by lia. split; [|done].
    rewrite uvs_data_one.
    rewrite (proj1 (cut_data uv start datalen Huv ltac:(lia))).
    change (uvs_data (uv :: uvs)) with (uv_data uv ++ uvs_data uvs).
    rewrite slice_app_l; [done|]. rewrite uv_data_length by done. lia.
  - eexists. split; [reflexivity|]. rewrite decide_True by lia. split; [|done].
    rewrite uvs_data_one.
    rewrite (proj2 (cut_data uv start datalen Huv ltac:(lia)) ltac:(lia)).
    change (uvs_data (uv :: uvs)) with (uv_data uv ++ uvs_data uvs).
    rewrite slice_app_l; [done|]. rewrite uv_data_length by done. lia.
  - destruct (IH 0%nat (datalen - (ioquv_length uv - start))%nat (Z.max 0 n + 1)) as (v & Hf & Hv & Hc); [done|lia..|left; lia|].
    rewrite Hf. eexists. split; [reflexivity|]. rewrite decide_False, Hc by lia. split; [|f_equal; simpl; lia].
    rewrite slice_cons by (done || lia).
    rewrite <- (proj2 (cut_data uv start (ioquv_length uv - start) Huv ltac:(lia)) ltac:(lia)), <- Hv. done.
Qed.

Lemma fillbufs_loop_spec uvs : forall (start datalen : nat),
  Forall uv_ok uvs -> (0 < datalen)%nat -> (start + datalen <= total_length uvs)%nat ->
  exists vector, fillbufs_loop uvs false start datalen = (true, vector, 0%nat) /\
    uvs_data vector = slice start datalen (uvs_data uvs) /\
    iovcount_loop uvs (-1) start datalen = (Z.of_nat (length vector), 0%nat).
Proof.
  induction uvs as [|uv uvs IH]; intros start datalen Hok Hd Ht; [unfold total_length in Ht; simpl in Ht; lia|].
  destruct (decide (start < ioquv_length uv)%nat).
  - destruct (fillbufs_loop_found (uv :: uvs) start datalen (-1)) as (v & Hf & Hv & Hc); eauto.
    exists v. split_and!; try done. rewrite <- Hf. cbn [fillbufs_loop]. by rewrite decide_True by done.
  - cbn [fillbufs_loop iovcount_loop]. rewrite !(decide_False (P:=start < _)%nat) by done. cbn.
    apply List.Forall_cons_iff in Hok as [Huv Hok].
    change (total_length (uv :: uvs)) with (ioquv_length uv + total_length uvs)%nat in Ht.
    destruct (IH (start - ioquv_length uv)%nat datalen) as (v & Hf & Hv & Hc); [done|lia..|].
    exists v. split_and!; try done. rewrite Hv. change (uvs_data (uv :: uvs)) with (uv_data uv ++ uvs_data uvs).
    rewrite slice_app_r by (rewrite uv_data_length by done; lia). by rewrite uv_data_length.
Qed.

Lemma vectors_spec xs start datalen :
  ioq_wf xs -> (0 < datalen)%nat -> (start + datalen <= length (ioq_bytes (xdr_tail_update xs)))%nat ->
  exists vector, xdr_ioq_fillbufs xs start datalen = (true, vector) /\
    uvs_data vector = slice start datalen (ioq_bytes (xdr_tail_update xs)) /\
    xdr_ioq_iovcount xs start datalen = Z.of_nat (length vector).
Proof.
  intros Hwf Hd Hl. pose proof (tail_update_wf xs Hwf) as (Hq & _). unfold ioq_bytes in *.
  rewrite uvs_data_length in Hl by done.
  destruct (fillbufs_loop_spec _ start datalen Hq Hd Hl) as (v & Hf & Hv & Hc).
  exists v. unfold xdr_ioq_fillbufs, xdr_ioq_iovcount. by rewrite Hf, Hc.
Qed.

(** ** The properties *)


(** Seeking in a queue: the position is the one asked for, no byte changes, and
    reading goes on with the bytes from there, across the buffers. *)
Theorem ioq_seek xs pos :
  ioq_wf xs -> (pos < length (ioq_bytes (xdr_tail_update xs)))%nat ->
  exists ys, xdr_ioq_setpos xs pos = (true, ys) /\ ioq_wf ys /\
    ioq_bytes ys = ioq_bytes (xdr_tail_update xs) /\
    xdr_ioq_getpos ys = (u32 (Z.of_nat pos), ys) /\
    ioq_in ys = drop pos (ioq_bytes (xdr_tail_update xs)).
Proof. intros Hwf Hp. destruct (setpos_spec xs pos Hwf Hp) as (ys & ? & ? & _ & ?). eauto. Qed.

(** The vector over [datalen] bytes from [start] holds these bytes and nothing
    else, and [xdr_ioq_iovcount] tells its length beforehand. *)
Theorem ioq_vectors xs start datalen :
  ioq_wf xs -> (0 < datalen)%nat -> (start + datalen <= length (ioq_bytes (xdr_tail_update xs)))%nat ->
  exists vector, xdr_ioq_fillbufs xs start datalen = (true, vector) /\
    uvs_data vector = slice start datalen (ioq_bytes (xdr_tail_update xs)) /\
    xdr_ioq_iovcount xs start datalen = Z.of_nat (length vector).
Proof. apply vectors_spec. Qed.

(** *** A queue for the witnesses: two buffers, the position in the first *)

Definition demo_heap (n : nat) : list byte := repeat x00 n.

Definition demo_queue : IOQ :=
  mkXDR XDR_ENCODE None [x01; x02; x03; x04; x05; x06; x07; x08] 4 0 4 8
    (mk_ioq [] [mk_uv [x0a; x0b; x0c; x0d; x00; x00; x00; x00] 0 4 8 UIO_FLAG_FREE] UIO_FLAG_FREE 8 64 0 0 2 demo_heap).

Lemma demo_queue_inv : ioq_inv demo_queue.
Proof.
  split; [|split_and!; [|intros; apply repeat_length|simpl; lia]].
  - split_and!; try reflexivity; simpl; [|lia..]. repeat constructor; simpl; lia.
  - repeat constructor.
Qed.


Lemma ioq_seek_witness :
  exists ys, xdr_ioq_setpos demo_queue 6 = (true, ys) /\ ioq_in ys = [x0c; x0d].
Proof.
  destruct (ioq_seek demo_queue 6 (proj1 demo_queue_inv)) as (ys & Hp & _ & _ & _ & Hin); [vm_compute; lia|].
  exists ys. split; [done|]. rewrite Hin. reflexivity.
Defined.

Lemma ioq_vectors_witness :
  exists vector, xdr_ioq_fillbufs demo_queue 2 5 = (true, vector) /\ uvs_data vector = [x03; x04; x0a; x0b; x0c].
Proof.
  destruct (ioq_vectors demo_queue 2 5 (proj1 demo_queue_inv)) as (v & Hf & Hv & _); [lia|vm_compute; lia|].
  exists v. split; [done|]. rewrite Hv. reflexivity.
Defined.

(** ** Where the code falls short *)

(** A buffer that may only be reallocated and has its full size already: the
    NULL of [xdr_ioq_uv_append] is not looked at and putting a unit never ends,
    however often the loop is run. *)
Theorem putunit_never_ends fuel xs v :
  Z.land (ioq_uflags (x_priv xs)) UIO_FLAG_REALLOC <> 0 -> (max_bsize (x_priv xs) <= vio_wrap xs)%nat ->
  ioq_next (x_priv xs) = [] -> (vio_wrap xs < x_data xs + 4)%nat ->
  putunit_loop fuel xs v = None.
Proof.
  revert xs. induction fuel as [|fuel IH]; intros xs Hf Hm Hn Hfull; [done|].
  cbn [putunit_loop]. rewrite decide_True by lia. unfold next_or_append.
  destruct (xdr_ioq_uv_advance xs) as [r xs'] eqn:Ha.
  assert (x_data xs' = x_data xs) as Hd.
  { unfold xdr_ioq_uv_advance in Ha. injection Ha as _ <-. unfold xdr_tail_update. by case_decide. }
  apply advance_shape in Ha as (-> & Hcur & _ & Hpr). rewrite Hn.
  assert (vio_wrap xs' = vio_wrap xs /\ uv_flags (cur_uv xs') = ioq_uflags (x_priv xs)) as [Hw Hfl].
  { change (vio_wrap xs') with (uv_wrap (cur_uv xs')). rewrite Hcur. unfold xdr_tail_update. by case_decide. }
  replace (xdr_ioq_uv_append xs' IOQ_FLAG_BALLOC) with (@None IOQ); cycle 1.
  { unfold xdr_ioq_uv_append. rewrite decide_True by done. rewrite Hfl, decide_True by done.
    rewrite Hpr. simpl. by rewrite decide_True by (unfold ioquv_size; simpl; lia). }
  simpl. apply IH; rewrite ?Hpr, ?Hw, ?Hd; done.
Qed.

(** The end of the data is a position too, but the room is taken from the buffer
    that was current: with a smaller one current the last buffer's end is not
    found, although the position is within that buffer. *)
Lemma setpos_end_not_found :
  exists xs : IOQ, ioq_inv xs /\ length (ioq_bytes (xdr_tail_update xs)) = 8%nat /\
    fst (xdr_ioq_setpos xs 8) = false /\ fst (xdr_ioq_setpos (snd (xdr_ioq_setpos xs 7)) 8) = true.
Proof.
  exists (mkXDR XDR_ENCODE None [x01] 0 0 1 1
    (mk_ioq [] [mk_uv (repeat x02 16) 0 7 16 UIO_FLAG_FREE] UIO_FLAG_FREE 8 64 0 0 2 demo_heap)).
  split_and!; [|reflexivity..].
  split; [|split_and!; [|intros; apply repeat_length|simpl; lia]].
  - split_and!; try reflexivity; simpl; [|lia..]. repeat constructor; simpl; lia.
  - repeat constructor.
Qed.
