(* ===== verification/RpcMsg.v ===== *)
(** * RPC messages (libntirpc [ntirpc/rpc/rpc_msg.h], [auth_inline.h],
    [src/rpc_callmsg.c], [src/rpc_dplx_msg.c], [src/rpc_prot.c])

    The header of a call and of a reply.  The fast paths read and write words in
    the current buffer of the stream ([buf], an offset); the slow paths go through
    the accessors of the stream.  The members of a union are fields of their own:
    the code only reads the member that the discriminant names.  Enumerations are
    signed words.  The results of a reply are of a type [R] with a filter of their
    own ([struct xdrpair]). *)
From S2P Require Import Prelude XdrStream XdrPrim XdrSpec.

Open Scope Z_scope.
Open Scope dnfs_scope.

Definition RPC_MSG_VERSION : Z := 2.
Definition MAX_AUTH_BYTES : Z := 400.

(** [enum msg_type], [reply_stat], [accept_stat], [reject_stat]. *)
Definition CALL : Z := 0.
Definition REPLY : Z := 1.
Definition MSG_ACCEPTED : Z := 0.
Definition MSG_DENIED : Z := 1.
Definition SUCCESS : Z := 0.
Definition PROG_UNAVAIL : Z := 1.
Definition PROG_MISMATCH : Z := 2.
Definition PROC_UNAVAIL : Z := 3.
Definition GARBAGE_ARGS : Z := 4.
Definition SYSTEM_ERR : Z := 5.
Definition RPC_MISMATCH : Z := 0.
Definition AUTH_ERROR : Z := 1.

(** [RNDUP]. *)
Definition RNDUP (x : nat) : nat := Z.to_nat (Z.land (Z.of_nat x + 4 - 1) (Z.lnot (4 - 1))).

(** ** The structures *)

(** [oa_body] is an array of [MAX_AUTH_BYTES] characters. *)
Record opaque_auth := mk_auth {
  oa_flavor : Z;
  oa_length : Z;
  oa_body : list byte }.
#[global] Instance eta_auth : RecEta opaque_auth :=
  fun r => mk_auth (oa_flavor r) (oa_length r) (oa_body r).

Definition _null_auth : opaque_auth := mk_auth 0 0 (replicate (Z.to_nat MAX_AUTH_BYTES) x00).

Record rpcversions := mk_versions {
  low : Z;
  high : Z }.
#[global] Instance eta_versions : RecEta rpcversions := fun r => mk_versions (low r) (high r).

Record accepted_reply (R : Type) := mk_accepted {
  ar_stat : Z;
  ar_vers : rpcversions;
  ar_results : R;
  ar_verf : opaque_auth }.
Arguments mk_accepted {R}.
Arguments ar_stat {R}.
Arguments ar_vers {R}.
Arguments ar_results {R}.
Arguments ar_verf {R}.
#[global] Instance eta_accepted R : RecEta (accepted_reply R) :=
  fun r => mk_accepted (ar_stat r) (ar_vers r) (ar_results r) (ar_verf r).

Record rejected_reply := mk_rejected {
  rj_stat : Z;
  rj_vers : rpcversions;
  rj_why : Z }.
#[global] Instance eta_rejected : RecEta rejected_reply :=
  fun r => mk_rejected (rj_stat r) (rj_vers r) (rj_why r).

Record reply_body (R : Type) := mk_reply_body {
  rp_stat : Z;
  rp_acpt : accepted_reply R;
  rp_rjct : rejected_reply }.
Arguments mk_reply_body {R}.
Arguments rp_stat {R}.
Arguments rp_acpt {R}.
Arguments rp_rjct {R}.
#[global] Instance eta_reply_body R : RecEta (reply_body R) :=
  fun r => mk_reply_body (rp_stat r) (rp_acpt r) (rp_rjct r).

(** [struct authunix_parms] with the arrays its pointers point to, the
    [struct area] that [_svcauth_unix] lays over [rq_cred_body]. *)
Record authunix_parms := mk_aup {
  aup_machname : list byte;
  aup_gids : list Z;
  aup_len : Z;
  aup_uid : Z;
  aup_gid : Z;
  aup_time : Z }.
#[global] Instance eta_aup : RecEta authunix_parms :=
  fun r => mk_aup (aup_machname r) (aup_gids r) (aup_len r) (aup_uid r) (aup_gid r) (aup_time r).

(** [struct rpc_msg]; [call_body] is the one field [cb_rpcvers]. *)
Record rpc_msg (R : Type) := mk_msg {
  rm_xid : Z;
  rm_direction : Z;
  cb_rpcvers : Z;
  rm_reply : reply_body R;
  rm_flags : Z;
  cb_prog : Z;
  cb_vers : Z;
  cb_proc : Z;
  cb_cred : opaque_auth;
  cb_verf : opaque_auth;
  rq_cred_body : authunix_parms }.
Arguments mk_msg {R}.
Arguments rm_xid {R}.
Arguments rm_direction {R}.
Arguments cb_rpcvers {R}.
Arguments rm_reply {R}.
Arguments rm_flags {R}.
Arguments cb_prog {R}.
Arguments cb_vers {R}.
Arguments cb_proc {R}.
Arguments cb_cred {R}.
Arguments cb_verf {R}.
Arguments rq_cred_body {R}.
#[global] Instance eta_msg R : RecEta (rpc_msg R) :=
  fun r => mk_msg (rm_xid r) (rm_direction r) (cb_rpcvers r) (rm_reply r) (rm_flags r)
                  (cb_prog r) (cb_vers r) (cb_proc r) (cb_cred r) (cb_verf r) (rq_cred_body r).

(** [RPCM_ack] and [RPCM_rej]. *)
Definition RPCM_ack {R} (m : rpc_msg R) : accepted_reply R := rp_acpt (rm_reply m).
Definition RPCM_rej {R} (m : rpc_msg R) : rejected_reply := rp_rjct (rm_reply m).

(** ** Words at [buf] *)

Section Words.
  Context {P : Type} `{xdr_ops P}.

(** [IXDR_PUT_INT32] and [IXDR_PUT_ENUM]. *)
Definition ixdr_put (xs : XDR P) (buf : nat) (v : Z) : XDR P * nat :=
  (xs <| x_buf := splice buf (be32 v) (x_buf xs) |>, (buf + 4)%nat).

(** [if (oa_length) { memcpy(buf, oa_body, oa_length); buf += RNDUP(oa_length)/4; }]. *)
Definition ixdr_put_body (xs : XDR P) (buf : nat) (oa : opaque_auth) : XDR P * nat :=
  let len := Z.to_nat (oa_length oa) in
  if decide (oa_length oa <> 0)
  then (xs <| x_buf := splice buf (take len (oa_body oa)) (x_buf xs) |>, (buf + RNDUP len)%nat)
  else (xs, buf).

(** [if (buf != NULL) x = IXDR_GET_U_INT32(buf); else if (!xdr_getuint32(xdrs, &x)) return false;] *)
Definition get_u32 (buf : option nat) : xdrproc P Z := fun xs v =>
  match buf with
  | Some b => (true, xs, be32_val (slice b 4 (x_buf xs)))
  | None =>
      match xdr_getuint32 xs with
      | (None, xs') => (false, xs', v)
      | (Some u, xs') => (true, xs', u)
      end
  end.

(** The same with [IXDR_GET_ENUM] and [xdr_getenum]. *)
Definition get_enum (buf : option nat) : xdrproc P Z := fun xs v =>
  match buf with
  | Some b => (true, xs, i32 (be32_val (slice b 4 (x_buf xs))))
  | None =>
      match xdr_getenum xs with
      | (None, xs') => (false, xs', v)
      | (Some u, xs') => (true, xs', u)
      end
  end.

(** [buf] after one of the macros. *)
Definition next_word (buf : option nat) : option nat := (fun b => b + 4)%nat <$> buf.

(** [xdr_putuint32] and [xdr_putenum] of a value. *)
Definition put_u32 (v : Z) : XDR P -> bool * XDR P := fun xs => xdr_putuint32 xs v.
Definition put_enum (v : Z) : XDR P -> bool * XDR P := fun xs => xdr_putenum xs v.

(** [if (!p) return false; q]. *)
Definition and_then (p q : XDR P -> bool * XDR P) : XDR P -> bool * XDR P :=
  fun xs => let '(b, xs') := p xs in if b then q xs' else (false, xs').

(** ** Credentials and verifiers *)

Definition xdr_opaque_auth_encode_it (oa : opaque_auth) (xs : XDR P) : bool * XDR P :=
  if decide (MAX_AUTH_BYTES < oa_length oa) then (false, xs)
  else xdr_opaque_encode xs (oa_body oa) (Z.to_nat (oa_length oa)).

Definition xdr_opaque_auth_encode (oa : opaque_auth) : XDR P -> bool * XDR P :=
  and_then (put_enum (oa_flavor oa)) (and_then (put_u32 (oa_length oa))
    (fun xs => if decide (oa_length oa <> 0) then xdr_opaque_auth_encode_it oa xs else (true, xs))).

Definition xdr_opaque_auth_decode_it : xdrproc P opaque_auth := fun xs oa =>
  if decide (MAX_AUTH_BYTES < oa_length oa) then (false, xs, oa)
  else
    let '(b, xs', body) := xdr_opaque_decode xs (oa_body oa) (Z.to_nat (oa_length oa)) in
    (b, xs', oa <| oa_body := body |>).

(** [buf]: 2 more inline. *)
Definition xdr_opaque_auth_decode (buf : option nat) : xdrproc P opaque_auth :=
  get_enum buf on oa_flavor ;;; get_u32 (next_word buf) on oa_length ;;;
  xswitch (fun oa => if decide (oa_length oa <> 0) then xdr_opaque_auth_decode_it else xtrue).

Definition xdr_opaque_auth : xdrproc P opaque_auth := fun xs oa =>
  match x_op xs with
  | XDR_ENCODE => let '(b, xs') := xdr_opaque_auth_encode oa xs in (b, xs', oa)
  | XDR_DECODE => xdr_opaque_auth_decode None xs oa
  | XDR_FREE => (true, xs, oa)
  end.

End Words.

(** [xdr_union]: an arm is a filter on the object that holds the union. *)
Section Union.
  Context {P : Type} `{xdr_ops P}.

Fixpoint choose {A} (choices : list (Z * xdrproc P A)) (dfault : option (xdrproc P A)) (dscm : Z) : xdrproc P A :=
  match choices with
  | [] => default xfalse dfault
  | (value, proc) :: choices' => if decide (value = dscm) then proc else choose choices' dfault dscm
  end.

Definition xdr_union {A} (dscmp : A -> Z) `{!Setter dscmp} (choices : list (Z * xdrproc P A))
    (dfault : option (xdrproc P A)) : xdrproc P A :=
  xdr_enum on dscmp ;;; xswitch (fun a => choose choices dfault (dscmp a)).

End Union.

(** ** Calls *)

Section Msg.
  Context {P : Type} `{xdr_ops P} {R : Type}.
  (** The filter of the results of a reply, [ar_results.proc]. *)
  Variable results : xdrproc P R.

(** The path of [xdr_call_encode] that handles several buffers. *)
Definition call_encode_slow (cmsg : rpc_msg R) : XDR P -> bool * XDR P :=
  and_then (put_u32 (rm_xid cmsg)) (and_then (put_enum (rm_direction cmsg)) (and_then (put_u32 (cb_rpcvers cmsg))
    (fun xs =>
       if decide (cb_rpcvers cmsg <> RPC_MSG_VERSION) then (false, xs)
       else
         and_then (put_u32 (cb_prog cmsg)) (and_then (put_u32 (cb_vers cmsg)) (and_then (put_u32 (cb_proc cmsg))
           (and_then (xdr_opaque_auth_encode (cb_cred cmsg)) (xdr_opaque_auth_encode (cb_verf cmsg))))) xs))).

Definition xdr_call_encode (cmsg : rpc_msg R) (xs : XDR P) : bool * XDR P :=
  if decide (MAX_AUTH_BYTES < oa_length (cb_cred cmsg)) then (false, xs)
  else if decide (MAX_AUTH_BYTES < oa_length (cb_verf cmsg)) then (false, xs)
  else
    match xdr_inline_encode xs
            (8 * 4 + RNDUP (Z.to_nat (oa_length (cb_cred cmsg))) + 2 * 4 +
             RNDUP (Z.to_nat (oa_length (cb_verf cmsg)))) with
    | (Some buf, xs) =>
        let '(xs, buf) := ixdr_put xs buf (rm_xid cmsg) in
        let '(xs, buf) := ixdr_put xs buf (rm_direction cmsg) in
        let '(xs, buf) := ixdr_put xs buf (cb_rpcvers cmsg) in
        if decide (cb_rpcvers cmsg <> RPC_MSG_VERSION) then (false, xs)
        else
          let '(xs, buf) := ixdr_put xs buf (cb_prog cmsg) in
          let '(xs, buf) := ixdr_put xs buf (cb_vers cmsg) in
          let '(xs, buf) := ixdr_put xs buf (cb_proc cmsg) in
          let oa := cb_cred cmsg in
          let '(xs, buf) := ixdr_put xs buf (oa_flavor oa) in
          let '(xs, buf) := ixdr_put xs buf (oa_length oa) in
          let '(xs, buf) := ixdr_put_body xs buf oa in
          let oa := cb_verf cmsg in
          let '(xs, buf) := ixdr_put xs buf (oa_flavor oa) in
          let '(xs, buf) := ixdr_put xs buf (oa_length oa) in
          let '(xs, buf) := ixdr_put_body xs buf oa in
          (true, xs)
    | (None, xs) =>
        call_encode_slow cmsg xs
    end.

(** [buf]: 3 more inline. *)
Definition xdr_call_decode (buf : option nat) : xdrproc P (rpc_msg R) :=
  get_u32 buf on cb_rpcvers ;;;
  xswitch (fun m =>
    if decide (cb_rpcvers m <> RPC_MSG_VERSION) then xfalse
    else
      get_u32 (next_word buf) on cb_prog ;;; get_u32 (next_word (next_word buf)) on cb_vers ;;;
      (fun xs m =>
         let '(buf, xs) := xdr_inline_decode xs (3 * 4) in
         (get_u32 buf on cb_proc ;;; xdr_opaque_auth_decode (next_word buf) on cb_cred ;;;
          xdr_opaque_auth_decode None on cb_verf) xs m)).

(** The static part of a call header. *)
Definition xdr_ncallhdr : xdrproc P (rpc_msg R) := fun xs m =>
  let m := m <| rm_direction := CALL |> <| cb_rpcvers := RPC_MSG_VERSION |> in
  match x_op xs with
  | XDR_ENCODE =>
      (xdr_uint32_t on rm_xid ;;; xdr_enum on rm_direction ;;; xdr_uint32_t on cb_rpcvers ;;;
       xdr_uint32_t on cb_prog ;;; xdr_uint32_t on cb_vers) xs m
  | _ => (false, xs, m)
  end.

(** ** Replies *)

Definition xdr_naccepted_reply : xdrproc P (accepted_reply R) :=
  xdr_opaque_auth on ar_verf ;;; xdr_enum on ar_stat ;;;
  xswitch (fun ar =>
    if decide (ar_stat ar = SUCCESS) then results on ar_results
    else if decide (ar_stat ar = PROG_MISMATCH)
    then xdr_uint32_t on low on ar_vers ;;; xdr_uint32_t on high on ar_vers
    else xtrue).

(** An unknown [rj_stat] fails (after an assertion, where these are compiled in). *)
Definition xdr_nrejected_reply : xdrproc P rejected_reply :=
  xdr_enum on rj_stat ;;;
  xswitch (fun rr =>
    if decide (rj_stat rr = RPC_MISMATCH)
    then xdr_uint32_t on low on rj_vers ;;; xdr_uint32_t on high on rj_vers
    else if decide (rj_stat rr = AUTH_ERROR) then xdr_enum on rj_why
    else xfalse).

Definition reply_dscrm : list (Z * xdrproc P (reply_body R)) :=
  [(MSG_ACCEPTED, xdr_naccepted_reply on rp_acpt); (MSG_DENIED, xdr_nrejected_reply on rp_rjct)].

Definition xdr_nreplymsg : xdrproc P (rpc_msg R) :=
  xdr_uint32_t on rm_xid ;;; xdr_enum on rm_direction ;;;
  xswitch (fun m =>
    if decide (rm_direction m = REPLY) then xdr_union rp_stat reply_dscrm None on rm_reply else xfalse).

(** The versions of a mismatch, inline or not. *)
Definition put_versions (v : rpcversions) (xs : XDR P) : bool * XDR P :=
  match xdr_inline_encode xs (2 * 4) with
  | (Some buf, xs) =>
      let '(xs, buf) := ixdr_put xs buf (low v) in
      let '(xs, buf) := ixdr_put xs buf (high v) in
      (true, xs)
  | (None, xs) => and_then (put_u32 (low v)) (put_u32 (high v)) xs
  end.

Definition xdr_reply_encode_accepted (dmsg : rpc_msg R) (xs : XDR P) : bool * XDR P * rpc_msg R :=
  let ar := RPCM_ack dmsg in
  let oa := ar_verf ar in
  if decide (MAX_AUTH_BYTES < oa_length oa) then (false, xs, dmsg)
  else
    match xdr_inline_encode xs (6 * 4 + RNDUP (Z.to_nat (oa_length oa))) with
    | (Some buf, xs) =>
        let '(xs, buf) := ixdr_put xs buf (rm_xid dmsg) in
        let '(xs, buf) := ixdr_put xs buf (rm_direction dmsg) in
        let '(xs, buf) := ixdr_put xs buf (rp_stat (rm_reply dmsg)) in
        let '(xs, buf) := ixdr_put xs buf (oa_flavor oa) in
        let '(xs, buf) := ixdr_put xs buf (oa_length oa) in
        let '(xs, buf) := ixdr_put_body xs buf oa in
        let '(xs, buf) := ixdr_put xs buf (ar_stat ar) in
        if decide (ar_stat ar = PROG_MISMATCH)
        then let '(b, xs) := put_versions (ar_vers ar) xs in (b, xs, dmsg)
        else (true, xs, dmsg)
    | (None, xs) =>
        let '(b, xs) := and_then (put_u32 (rm_xid dmsg)) (put_enum (rm_direction dmsg)) xs in
        if b then (xdr_union rp_stat reply_dscrm None on rm_reply) xs dmsg else (false, xs, dmsg)
    end.

Definition xdr_reply_encode_denied (dmsg : rpc_msg R) : XDR P -> bool * XDR P :=
  let rr := RPCM_rej dmsg in
  and_then
    (fun xs =>
       match xdr_inline_encode xs (3 * 4) with
       | (Some buf, xs) =>
           let '(xs, buf) := ixdr_put xs buf (rm_xid dmsg) in
           let '(xs, buf) := ixdr_put xs buf (rm_direction dmsg) in
           let '(xs, buf) := ixdr_put xs buf (rp_stat (rm_reply dmsg)) in
           (true, xs)
       | (None, xs) =>
           and_then (put_u32 (rm_xid dmsg)) (and_then (put_enum (rm_direction dmsg))
             (put_enum (rp_stat (rm_reply dmsg)))) xs
       end)
    (fun xs =>
       if decide (rj_stat rr = RPC_MISMATCH) then
         match xdr_inline_encode xs (3 * 4) with
         | (Some buf, xs) =>
             let '(xs, buf) := ixdr_put xs buf (rj_stat rr) in
             let '(xs, buf) := ixdr_put xs buf (low (rj_vers rr)) in
             let '(xs, buf) := ixdr_put xs buf (high (rj_vers rr)) in
             (true, xs)
         | (None, xs) =>
             and_then (put_enum (rj_stat rr)) (and_then (put_u32 (low (rj_vers rr)))
               (put_u32 (high (rj_vers rr)))) xs
         end
       else if decide (rj_stat rr = AUTH_ERROR) then
         match xdr_inline_encode xs (2 * 4) with
         | (Some buf, xs) =>
             let '(xs, buf) := ixdr_put xs buf (rj_stat rr) in
             let '(xs, buf) := ixdr_put xs buf (rj_why rr) in
             (true, xs)
         | (None, xs) => and_then (put_enum (rj_stat rr)) (put_enum (rj_why rr)) xs
         end
       else (false, xs)).

Definition xdr_reply_encode (dmsg : rpc_msg R) (xs : XDR P) : bool * XDR P * rpc_msg R :=
  if decide (rp_stat (rm_reply dmsg) = MSG_ACCEPTED) then xdr_reply_encode_accepted dmsg xs
  else if decide (rp_stat (rm_reply dmsg) = MSG_DENIED)
  then let '(b, xs) := xdr_reply_encode_denied dmsg xs in (b, xs, dmsg)
  else (false, xs, dmsg).

Definition xdr_reply_decode_accepted (buf : option nat) : xdrproc P (accepted_reply R) :=
  xdr_opaque_auth_decode buf on ar_verf ;;; get_enum None on ar_stat ;;;
  xswitch (fun ar =>
    if decide (ar_stat ar = SUCCESS) then xtrue
    else if decide (ar_stat ar = PROG_MISMATCH)
    then get_u32 None on low on ar_vers ;;; get_u32 None on high on ar_vers
    else xtrue).

Definition xdr_reply_decode_denied (buf : option nat) : xdrproc P rejected_reply :=
  get_enum buf on rj_stat ;;;
  xswitch (fun rr =>
    if decide (rj_stat rr = RPC_MISMATCH)
    then get_u32 (next_word buf) on low on rj_vers ;;; get_u32 None on high on rj_vers
    else if decide (rj_stat rr = AUTH_ERROR) then get_enum (next_word buf) on rj_why
    else xtrue).

(** [buf]: 3 more inline. *)
Definition xdr_reply_decode (buf : option nat) : xdrproc P (reply_body R) :=
  get_enum buf on rp_stat ;;;
  xswitch (fun rp =>
    if decide (rp_stat rp = MSG_ACCEPTED) then xdr_reply_decode_accepted (next_word buf) on rp_acpt
    else if decide (rp_stat rp = MSG_DENIED) then xdr_reply_decode_denied (next_word buf) on rp_rjct
    else xfalse).

(** ** Either *)

Definition xdr_dplx_decode : xdrproc P (rpc_msg R) := fun xs m =>
  let '(buf, xs) := xdr_inline_decode xs (5 * 4) in
  (get_u32 buf on rm_xid ;;; get_enum (next_word buf) on rm_direction ;;;
   xswitch (fun m =>
     if decide (rm_direction m = CALL) then xdr_call_decode (next_word (next_word buf))
     else if decide (rm_direction m = REPLY) then xdr_reply_decode (next_word (next_word buf)) on rm_reply
     else xfalse)) xs m.

Definition xdr_dplx_msg : xdrproc P (rpc_msg R) := fun xs m =>
  match x_op xs with
  | XDR_ENCODE =>
      if decide (rm_direction m = CALL) then let '(b, xs) := xdr_call_encode m xs in (b, xs, m)
      else if decide (rm_direction m = REPLY) then xdr_reply_encode m xs
      else (false, xs, m)
  | XDR_DECODE => xdr_dplx_decode xs m
  | XDR_FREE => (true, xs, m)
  end.

Definition xdr_ncallmsg : xdrproc P (rpc_msg R) := fun xs m =>
  match x_op xs with
  | XDR_ENCODE =>
      if decide (rm_direction m <> CALL) then (false, xs, m)
      else let '(b, xs) := xdr_call_encode m xs in (b, xs, m)
  | XDR_DECODE =>
      let '(b, xs, m) := xdr_dplx_decode xs m in
      if b then (if decide (rm_direction m <> CALL) then (false, xs, m) else (true, xs, m))
      else (false, xs, m)
  | XDR_FREE => (true, xs, m)
  end.

End Msg.

(** ** Errors of a call, for the client *)

(** [enum clnt_stat], the values used here. *)
Definition RPC_SUCCESS : Z := 0.
Definition RPC_VERSMISMATCH : Z := 6.
Definition RPC_AUTHERROR : Z := 7.
Definition RPC_PROGUNAVAIL : Z := 8.
Definition RPC_PROGVERSMISMATCH : Z := 9.
Definition RPC_PROCUNAVAIL : Z := 10.
Definition RPC_CANTDECODEARGS : Z := 11.
Definition RPC_SYSTEMERROR : Z := 12.
Definition RPC_FAILED : Z := 16.

(** [struct rpc_err]. *)
Record rpc_err := mk_rpc_err {
  re_status : Z;
  re_why : Z;
  re_vers : rpcversions;
  re_lb_s1 : Z;
  re_lb_s2 : Z }.
#[global] Instance eta_rpc_err : RecEta rpc_err :=
  fun r => mk_rpc_err (re_status r) (re_why r) (re_vers r) (re_lb_s1 r) (re_lb_s2 r).

Definition accepted (acpt_stat : Z) (error : rpc_err) : rpc_err :=
  if decide (acpt_stat = PROG_UNAVAIL) then error <| re_status := RPC_PROGUNAVAIL |>
  else if decide (acpt_stat = PROG_MISMATCH) then error <| re_status := RPC_PROGVERSMISMATCH |>
  else if decide (acpt_stat = PROC_UNAVAIL) then error <| re_status := RPC_PROCUNAVAIL |>
  else if decide (acpt_stat = GARBAGE_ARGS) then error <| re_status := RPC_CANTDECODEARGS |>
  else if decide (acpt_stat = SYSTEM_ERR) then error <| re_status := RPC_SYSTEMERROR |>
  else if decide (acpt_stat = SUCCESS) then error <| re_status := RPC_SUCCESS |>
  else error <| re_status := RPC_FAILED |> <| re_lb_s1 := MSG_ACCEPTED |> <| re_lb_s2 := acpt_stat |>.

Definition rejected (rjct_stat : Z) (error : rpc_err) : rpc_err :=
  if decide (rjct_stat = RPC_MISMATCH) then error <| re_status := RPC_VERSMISMATCH |>
  else if decide (rjct_stat = AUTH_ERROR) then error <| re_status := RPC_AUTHERROR |>
  else error <| re_status := RPC_FAILED |> <| re_lb_s1 := MSG_DENIED |> <| re_lb_s2 := rjct_stat |>.

Definition _seterr_reply {R} (msg : rpc_msg R) (error : rpc_err) : rpc_err :=
  let fill (error : rpc_err) :=
    if decide (re_status error = RPC_VERSMISMATCH) then error <| re_vers := rj_vers (RPCM_rej msg) |>
    else if decide (re_status error = RPC_AUTHERROR) then error <| re_why := rj_why (RPCM_rej msg) |>
    else if decide (re_status error = RPC_PROGVERSMISMATCH) then error <| re_vers := ar_vers (RPCM_ack msg) |>
    else error in
  if decide (rp_stat (rm_reply msg) = MSG_ACCEPTED) then
    if decide (ar_stat (RPCM_ack msg) = SUCCESS) then error <| re_status := RPC_SUCCESS |>
    else fill (accepted (ar_stat (RPCM_ack msg)) error)
  else if decide (rp_stat (rm_reply msg) = MSG_DENIED) then fill (rejected (rj_stat (RPCM_rej msg)) error)
  else fill (error <| re_status := RPC_FAILED |> <| re_lb_s1 := rp_stat (rm_reply msg) |>).

(** ** The bytes of a message *)

(** The padding that follows the body of a credential is [p]. *)
Definition auth_body (oa : opaque_auth) (p : list byte) : list byte :=
  take (Z.to_nat (oa_length oa)) (oa_body oa) ++ p.

Definition auth_wire (oa : opaque_auth) (p : list byte) : list byte :=
  be32 (oa_flavor oa) ++ be32 (oa_length oa) ++ auth_body oa p.

Definition auth_ok (oa : opaque_auth) : Prop :=
  is_i32 (oa_flavor oa) /\ 0 <= oa_length oa <= MAX_AUTH_BYTES /\ Z.of_nat (length (oa_body oa)) = MAX_AUTH_BYTES.

Definition auth_pad (oa : opaque_auth) (p : list byte) : Prop := length p = pad (Z.to_nat (oa_length oa)).

(** What decoding over [o] gives: the array keeps what lies behind the body. *)
Definition auth_over (oa o : opaque_auth) : opaque_auth :=
  mk_auth (oa_flavor oa) (oa_length oa)
    (take (Z.to_nat (oa_length oa)) (oa_body oa) ++ drop (Z.to_nat (oa_length oa)) (oa_body o)).

Definition call_ok {R} (m : rpc_msg R) : Prop :=
  is_u32 (rm_xid m) /\ rm_direction m = CALL /\ cb_rpcvers m = RPC_MSG_VERSION /\
  is_u32 (cb_prog m) /\ is_u32 (cb_vers m) /\ is_u32 (cb_proc m) /\ auth_ok (cb_cred m) /\ auth_ok (cb_verf m).

Definition call_wire {R} (m : rpc_msg R) (p q : list byte) : list byte :=
  be32 (rm_xid m) ++ be32 (rm_direction m) ++ be32 (cb_rpcvers m) ++
  be32 (cb_prog m) ++ be32 (cb_vers m) ++ be32 (cb_proc m) ++ auth_wire (cb_cred m) p ++ auth_wire (cb_verf m) q.

Definition call_over {R} (m o : rpc_msg R) : rpc_msg R :=
  o <| rm_xid := rm_xid m |> <| rm_direction := rm_direction m |> <| cb_rpcvers := cb_rpcvers m |>
    <| cb_prog := cb_prog m |> <| cb_vers := cb_vers m |> <| cb_proc := cb_proc m |>
    <| cb_cred := auth_over (cb_cred m) (cb_cred o) |> <| cb_verf := auth_over (cb_verf m) (cb_verf o) |>.

Definition versions_ok (v : rpcversions) : Prop := is_u32 (low v) /\ is_u32 (high v).
Definition versions_wire (v : rpcversions) : list byte := be32 (low v) ++ be32 (high v).

Definition accepted_ok {R} (ar : accepted_reply R) : Prop :=
  auth_ok (ar_verf ar) /\ is_i32 (ar_stat ar) /\ versions_ok (ar_vers ar).

(** The results are not part of it. *)
Definition accepted_wire {R} (ar : accepted_reply R) (p : list byte) : list byte :=
  auth_wire (ar_verf ar) p ++ be32 (ar_stat ar) ++
  (if decide (ar_stat ar = PROG_MISMATCH) then versions_wire (ar_vers ar) else []).

Definition rejected_ok (rr : rejected_reply) : Prop :=
  (rj_stat rr = RPC_MISMATCH \/ rj_stat rr = AUTH_ERROR) /\ versions_ok (rj_vers rr) /\ is_i32 (rj_why rr).

Definition rejected_wire (rr : rejected_reply) : list byte :=
  be32 (rj_stat rr) ++
  (if decide (rj_stat rr = RPC_MISMATCH) then versions_wire (rj_vers rr) else be32 (rj_why rr)).

Definition reply_ok {R} (m : rpc_msg R) : Prop :=
  is_u32 (rm_xid m) /\ rm_direction m = REPLY /\
  (rp_stat (rm_reply m) = MSG_ACCEPTED /\ accepted_ok (RPCM_ack m) \/
   rp_stat (rm_reply m) = MSG_DENIED /\ rejected_ok (RPCM_rej m)).

Definition reply_wire {R} (m : rpc_msg R) (p : list byte) : list byte :=
  be32 (rm_xid m) ++ be32 (rm_direction m) ++ be32 (rp_stat (rm_reply m)) ++
  (if decide (rp_stat (rm_reply m) = MSG_ACCEPTED) then accepted_wire (RPCM_ack m) p else rejected_wire (RPCM_rej m)).

Definition reply_pad {R} (m : rpc_msg R) (p : list byte) : Prop :=
  rp_stat (rm_reply m) = MSG_ACCEPTED -> auth_pad (ar_verf (RPCM_ack m)) p.

Lemma RNDUP_pad n : RNDUP n = (n + pad n)%nat.
Proof.
  unfold RNDUP, pad. change (Z.lnot (4 - 1)) with (Z.lnot (Z.ones 2)). rewrite <- Z.ldiff_land, Z.ldiff_ones_r by lia.
  rewrite Z.shiftl_mul_pow2, Z.shiftr_div_pow2 by lia. change (2 ^ 2) with 4.
  apply Nat2Z.inj. rewrite Z2Nat.id by zsolve.
  rewrite Nat2Z.inj_add, Nat2Z.inj_mod, Nat2Z.inj_sub by (pose proof (Nat.mod_upper_bound n 4); lia).
  rewrite Nat2Z.inj_mod. zsolve.
Qed.

Lemma length_auth_body oa p :
  auth_ok oa -> auth_pad oa p -> length (auth_body oa p) = RNDUP (Z.to_nat (oa_length oa)).
Proof. intros (_ & Hl & Hb) Hp. unfold auth_body. rewrite !length_app, Hp, RNDUP_pad, length_take. lia. Qed.

Lemma length_auth_wire oa p :
  auth_ok oa -> auth_pad oa p -> length (auth_wire oa p) = (8 + RNDUP (Z.to_nat (oa_length oa)))%nat.
Proof. intros. unfold auth_wire. by rewrite !length_app, length_auth_body by done. Qed.

Lemma mod4_RNDUP n : (RNDUP n mod 4 = 0)%nat.
Proof.
  rewrite RNDUP_pad. pose proof (length_opaque_wire (replicate n x00)) as Hl. unfold opaque_wire in Hl.
  by rewrite length_app, !length_replicate in Hl.
Qed.

Lemma mod4_auth oa p : auth_ok oa -> auth_pad oa p -> (length (auth_wire oa p) mod 4 = 0)%nat.
Proof. intros. rewrite length_auth_wire by done. by apply (mod4_add 8), mod4_RNDUP. Qed.

(** ** Encoding *)

Section Encode.
  Context {P : Type} `{XdrSink P}.

(** [xs'] is [xs] with [bs] at [off] of its buffer. *)
Definition written (xs xs' : XDR P) (off : nat) (bs : list byte) : Prop :=
  xs' = xs <| x_buf := x_buf xs' |> /\ length (x_buf xs') = length (x_buf xs) /\
  take off (x_buf xs') = take off (x_buf xs) /\ slice off (length bs) (x_buf xs') = bs.

Lemma written_nil xs off : written xs xs off [].
Proof. split_and!; try done. by destruct xs. Qed.

Lemma written_splice xs xs' off bs cs :
  written xs xs' off bs -> (off + length bs + length cs <= length (x_buf xs))%nat ->
  written xs (xs' <| x_buf := splice (off + length bs) cs (x_buf xs') |>) off (bs ++ cs).
Proof.
  intros (-> & Hl & Ht & Hs) Hr. simpl in *. rewrite <- Hl in Hr. split_and!; simpl; [done| | |].
  - rewrite splice_length; lia.
  - rewrite <- Ht. unfold splice. rewrite take_app_le by (rewrite length_take; lia). rewrite take_take. f_equal. lia.
  - rewrite length_app. pose proof (slice_splice off (off + length bs) cs (x_buf xs')) as Hsl.
    replace (off + length bs + length cs - off)%nat with (length bs + length cs)%nat in Hsl by lia.
    rewrite Hsl by lia. f_equal. rewrite <- Hs at 2. f_equal. lia.
Qed.

(** Bytes that are skipped keep what they held. *)
Lemma written_skip xs xs' off bs n :
  written xs xs' off bs -> (off + length bs + n <= length (x_buf xs))%nat ->
  exists p, length p = n /\ written xs xs' off (bs ++ p).
Proof.
  intros (Hx & Hl & Ht & Hs) Hr. exists (slice (off + length bs) n (x_buf xs')).
  assert (Hn : length (slice (off + length bs) n (x_buf xs')) = n) by (apply slice_length; lia).
  split_and!; try done. split_and!; try done.
  by rewrite length_app, Hn, slice_split, Hs by lia.
Qed.

Lemma written_put xs xs' off bs b v :
  written xs xs' off bs -> b = (off + length bs)%nat -> (off + length bs + 4 <= length (x_buf xs))%nat ->
  exists ys, ixdr_put xs' b v = (ys, (off + length (bs ++ be32 v))%nat) /\
    written xs ys off (bs ++ be32 v).
Proof.
  intros Hw -> Hr. eexists. split; [|by apply written_splice]. unfold ixdr_put. f_equal. rewrite length_app. simpl. lia.
Qed.

Lemma written_body xs xs' off bs b oa :
  written xs xs' off bs -> auth_ok oa -> b = (off + length bs)%nat ->
  (off + length bs + RNDUP (Z.to_nat (oa_length oa)) <= length (x_buf xs))%nat ->
  exists ys p, auth_pad oa p /\ ixdr_put_body xs' b oa = (ys, (off + length (bs ++ auth_body oa p))%nat) /\
    written xs ys off (bs ++ auth_body oa p).
Proof.
  intros Hw (_ & Hl & Hb) -> Hr. unfold auth_pad, auth_body, ixdr_put_body. rewrite RNDUP_pad in *.
  set (n := Z.to_nat (oa_length oa)) in *. case_decide as Hz.
  - assert (Hlen : length (take n (oa_body oa)) = n) by (rewrite length_take; lia).
    assert (Hw2 := written_splice _ _ _ _ (take n (oa_body oa)) Hw ltac:(lia)).
    destruct (written_skip _ _ _ _ (pad n) Hw2) as (p & Hp & Hw3); [rewrite length_app, Hlen; lia|].
    eexists _, p. rewrite app_assoc. split_and!; [done| |exact Hw3]. f_equal. rewrite !length_app, Hlen, Hp. lia.
  - exists xs', []. assert (n = 0%nat) as -> by lia. split_and!; [done|by rewrite app_nil_r|by rewrite app_nil_r].
Qed.

Lemma written_emits xs n off xs' ys bs :
  snk_ok xs -> xdr_inline_encode xs n = (Some off, xs') -> written xs' ys off bs -> length bs = n -> emits xs ys bs.
Proof.
  intros Hok Hi (-> & Hl & Ht & Hs) Hn. simpl in *.
  destruct (snk_inline xs n off xs' (x_buf ys) Hok Hi Hl Ht) as [_ He]. by rewrite <- Hn, Hs in He.
Qed.

Lemma inline_room xs n off xs' :
  snk_ok xs -> xdr_inline_encode xs n = (Some off, xs') -> (off + n <= length (x_buf xs'))%nat.
Proof. intros Hok Hi. by destruct (snk_inline xs n off xs' (x_buf xs') Hok Hi) as [? _]. Qed.

Lemma inline_none (xs : XDR P) n xs' : xdr_inline_encode xs n = (None, xs') -> xs' = xs.
Proof. unfold xdr_inline_encode. case_decide; [done|]. by intros [=]. Qed.

(** The slow path. *)
Definition writes (p : XDR P -> bool * XDR P) (bs : list byte) : Prop := forall xs,
  snk_ok xs -> snk_fits xs (length bs) -> exists xs', p xs = (true, xs') /\ emits xs xs' bs.

Lemma writes_then p q bs cs : writes p bs -> writes q cs -> writes (and_then p q) (bs ++ cs).
Proof.
  intros Hp Hq xs Hok Hf. destruct (Hp xs Hok) as (xs1 & E1 & He1).
  { eapply snk_fits_le; [|exact Hf]. rewrite length_app. lia. }
  destruct (Hq xs1) as (xs2 & E2 & He2); [apply He1|by eapply emits_fits|].
  exists xs2. unfold and_then. rewrite E1, E2. split; [done|]. by eapply emits_trans.
Qed.

Lemma writes_u32 v : writes (put_u32 v) (be32 v).
Proof. intros xs Hok Hf. by apply snk_putuint32. Qed.

Lemma writes_enum v : writes (put_enum v) (be32 v).
Proof. intros xs Hok Hf. rewrite <- be32_u32. by apply snk_putuint32. Qed.

Lemma writes_auth oa :
  auth_ok oa -> writes (xdr_opaque_auth_encode oa) (auth_wire oa (replicate (pad (Z.to_nat (oa_length oa))) x00)).
Proof.
  intros (Hf & Hl & Hb). unfold xdr_opaque_auth_encode, auth_wire, auth_body.
  apply writes_then; [apply writes_enum|]. apply writes_then; [apply writes_u32|].
  set (n := Z.to_nat (oa_length oa)).
  assert (Hw : take n (oa_body oa) ++ replicate (pad n) x00 = opaque_wire (take n (oa_body oa))).
  { unfold opaque_wire. by rewrite length_take, Nat.min_l by lia. }
  rewrite Hw. intros xs Hok Hfit. case_decide as Hz.
  - unfold xdr_opaque_auth_encode_it. rewrite decide_False by lia. apply opaque_encode_spec; [done|lia|done].
  - assert (n = 0%nat) as Hn by lia. rewrite Hn in *. exists xs. split; [done|]. by apply emits_refl.
Qed.

End Encode.

(** Follows the macros that write at [buf]. *)
Ltac room := repeat rewrite ?length_app; cbn [length be32]; lia.
Ltac put_word :=
  match goal with
  | Hw : written ?xs ?xs' ?off ?bs |- context [ixdr_put ?xs' ?b ?v] =>
      let ys := fresh "ys" in let Hn := fresh "Hn" in
      destruct (written_put xs xs' off bs b v Hw) as (ys & -> & Hn);
      [cbn [length]; lia|room|clear Hw; rename Hn into Hw; cbv beta iota]
  | Hw : written ?xs ?xs' ?off ?bs |- context [ixdr_put_body ?xs' ?b ?oa] =>
      let ys := fresh "ys" in let p := fresh "p" in let Hp := fresh "Hp" in let Hn := fresh "Hn" in
      destruct (written_body xs xs' off bs b oa Hw) as (ys & p & Hp & -> & Hn);
      [assumption|lia|room|clear Hw; rename Hn into Hw; pose proof (length_auth_body oa p ltac:(assumption) Hp); cbv beta iota]
  end.

Section EncodeMsg.
  Context {P : Type} `{XdrSink P} {R : Type}.
  Variable results : xdrproc P R.

Lemma call_slow_writes (m : rpc_msg R) :
  call_ok m ->
  writes (call_encode_slow m)
    (call_wire m (replicate (pad (Z.to_nat (oa_length (cb_cred m)))) x00)
                 (replicate (pad (Z.to_nat (oa_length (cb_verf m)))) x00)).
Proof.
  intros (_ & _ & Hv & _ & _ & _ & Hc & Hf). unfold call_encode_slow, call_wire.
  do 3 (apply writes_then; [first [apply writes_u32|apply writes_enum]|]).
  intros xs. rewrite decide_False by (intros Hne; by apply Hne). revert xs.
  do 3 (apply writes_then; [apply writes_u32|]). apply writes_then; by apply writes_auth.
Qed.

(** A call is encoded as RFC 5531 says, except that the padding of the
    credential and of the verifier is whatever the buffer held. *)
Lemma call_encode_wire (m : rpc_msg R) xs :
  snk_ok xs -> call_ok m ->
  snk_fits xs (length (call_wire m (replicate (pad (Z.to_nat (oa_length (cb_cred m)))) x00)
                                   (replicate (pad (Z.to_nat (oa_length (cb_verf m)))) x00))) ->
  exists xs' p q, auth_pad (cb_cred m) p /\ auth_pad (cb_verf m) q /\
    xdr_call_encode m xs = (true, xs') /\ emits xs xs' (call_wire m p q).
Proof.
  intros Hok Hm Hfit. pose proof Hm as (_ & _ & Hv & _ & _ & _ & Hc & Hf). unfold xdr_call_encode.
  pose proof Hc as (_ & Hcl & _). pose proof Hf as (_ & Hfl & _). rewrite 2 decide_False by lia.
  destruct (xdr_inline_encode xs _) as [[off|] xs1] eqn:Hi.
  - pose proof (inline_room _ _ _ _ Hok Hi) as Hroom. pose proof (written_nil xs1 off) as Hw.
    do 3 put_word. rewrite decide_False by (intros Hne; by apply Hne). repeat put_word.
    eexists _, p, p0. split_and!; [done..|]. unfold call_wire. eapply written_emits; [done|exact Hi| |].
    + unfold auth_wire. rewrite app_nil_l in Hw. repeat rewrite <- app_assoc in Hw. repeat rewrite <- app_assoc. exact Hw.
    + rewrite !length_app, !length_auth_wire by done. cbn [length be32]. lia.
  - apply inline_none in Hi as ->. destruct (call_slow_writes m Hm xs Hok Hfit) as (xs' & ? & ?).
    exists xs'. do 2 eexists. split_and!; [apply length_replicate..|done|done].
Qed.

(** The pieces of a reply that are written at once where they fit. *)
Ltac writes_piece :=
  let xs := fresh "xs" in let ys := fresh "ys" in let off := fresh "off" in
  let Hok := fresh "Hok" in let Hi := fresh "Hi" in let Hw := fresh "Hw" in let Hroom := fresh "Hroom" in
  intros xs Hok ?;
  match goal with |- context [xdr_inline_encode xs ?n] => destruct (xdr_inline_encode xs n) as [[off|] ys] eqn:Hi end;
  [pose proof (inline_room _ _ _ _ Hok Hi) as Hroom; pose proof (written_nil ys off) as Hw;
   repeat put_word; eexists; split; [reflexivity|]; eapply written_emits; [exact Hok|exact Hi| |reflexivity];
   rewrite app_nil_l in Hw; repeat rewrite <- app_assoc in Hw; exact Hw
  |apply inline_none in Hi as ->;
   match goal with |- exists xs', ?p xs = _ /\ emits _ _ ?bs =>
     let Hc := fresh in cut (writes p bs); [by intros Hc; apply Hc|] end;
   repeat (first [apply writes_then|apply writes_u32|apply writes_enum])].

Lemma versions_writes v : writes (put_versions v) (versions_wire v).
Proof. unfold put_versions, versions_wire. writes_piece. Qed.

Lemma denied_writes (m : rpc_msg R) :
  reply_ok m -> rp_stat (rm_reply m) = MSG_DENIED -> writes (xdr_reply_encode_denied m) (reply_wire m []).
Proof.
  intros (_ & _ & Hs) Hd. destruct Hs as [[Hs _]|(_ & Hr & _)]; [by rewrite Hd in Hs|].
  unfold reply_wire. rewrite (decide_False (P:=rp_stat _ = _)) by (by rewrite Hd).
  rewrite !app_assoc, <- (app_assoc (be32 _) (be32 _)). unfold xdr_reply_encode_denied, rejected_wire, versions_wire.
  apply writes_then; [writes_piece|]. case_decide; [writes_piece|].
  destruct (decide (rj_stat (RPCM_rej m) = AUTH_ERROR)); [writes_piece|by destruct Hr].
Qed.

End EncodeMsg.

(** ** Decoding *)

Section Decode.
  Context {P : Type} `{XdrSource P}.

(** [bs] is what the macros find at [buf], or what the stream has next; [rest]
    follows in the stream. *)
Definition ahead (xs : XDR P) (buf : option nat) (bs rest : list byte) : Prop :=
  match buf with
  | Some b => slice b (length bs) (x_buf xs) = bs /\ src_in xs = rest
  | None => src_in xs = bs ++ rest
  end.

Lemma inline_ahead xs bs rest :
  src_ok xs -> src_in xs = bs ++ rest ->
  exists buf xs', xdr_inline_decode xs (length bs) = (buf, xs') /\ src_ok xs' /\ stream_frame xs xs' /\ ahead xs' buf bs rest.
Proof.
  intros Hok Hin. destruct (xdr_inline_decode xs (length bs)) as [[b|] xs'] eqn:Hi.
  - destruct (src_inline xs _ b xs' Hok Hi) as (? & Hs & Hl & ?). exists (Some b), xs'. split_and!; try done.
    rewrite Hin in Hs. apply app_inj_1 in Hs as [? ?]; [by split|by rewrite Hl].
  - exists None, xs'. unfold xdr_inline_decode in Hi. case_decide; [done|]. injection Hi as <-. by split_and!.
Qed.

Lemma ahead_word xs b w bs rest :
  ahead xs (Some b) (be32 w ++ bs) rest ->
  be32_val (slice b 4 (x_buf xs)) = u32 w /\ ahead xs (Some (b + 4)%nat) bs rest.
Proof.
  unfold ahead. intros [Hs Hr]. rewrite length_app in Hs. change (length (be32 w)) with 4%nat in Hs.
  unfold slice in *. rewrite <- take_take_drop, drop_drop in Hs.
  apply app_inj_1 in Hs as [Hw Hb].
  - rewrite Hw, be32_val_be32. done.
  - assert (Hl : length (take 4 (drop b (x_buf xs)) ++ take (length bs) (drop (b + 4) (x_buf xs))) = (4 + length bs)%nat)
      by (rewrite Hs; by rewrite length_app).
    rewrite length_app, !length_take in *. cbn [length be32]. lia.
Qed.

Lemma get_u32_ahead xs buf w bs rest o :
  src_ok xs -> is_u32 w -> (length (bs ++ rest) mod 4 = 0)%nat -> ahead xs buf (be32 w ++ bs) rest ->
  exists xs', get_u32 buf xs o = (true, xs', w) /\ src_ok xs' /\ stream_frame xs xs' /\ ahead xs' (next_word buf) bs rest.
Proof.
  intros Hok Hw Hm Ha. destruct buf as [b|].
  - apply ahead_word in Ha as [Hv Ha]. exists xs. simpl. by rewrite Hv, u32_small.
  - unfold ahead in Ha. rewrite <- app_assoc in Ha. unfold get_u32. destruct (src_getuint32 xs w (bs ++ rest)) as (xs' & -> & ? & ? & ?); [done..|].
    exists xs'. by split_and!.
Qed.

Lemma get_enum_ahead xs buf w bs rest o :
  src_ok xs -> is_i32 w -> (length (bs ++ rest) mod 4 = 0)%nat -> ahead xs buf (be32 w ++ bs) rest ->
  exists xs', get_enum buf xs o = (true, xs', w) /\ src_ok xs' /\ stream_frame xs xs' /\ ahead xs' (next_word buf) bs rest.
Proof.
  intros Hok Hw Hm Ha. destruct buf as [b|].
  - apply ahead_word in Ha as [Hv Ha]. exists xs. simpl. by rewrite Hv, i32_u32, i32_small.
  - unfold ahead in Ha. rewrite <- app_assoc in Ha. unfold get_enum, xdr_getenum.
    destruct (src_getint32 xs w (bs ++ rest)) as (xs' & -> & ? & ? & ?); [done..|]. exists xs'. by split_and!.
Qed.

(** The end of what was fetched inline: the rest is read from the stream. *)
Lemma ahead_end xs buf rest : ahead xs buf [] rest -> src_in xs = rest.
Proof. destruct buf; simpl; [by intros [_ ?]|done]. Qed.

(** Opaque data with any padding. *)
Lemma opaque_decode_any xs cp bs p rest :
  src_ok xs -> length p = pad (length bs) -> bs <> [] -> src_in xs = bs ++ p ++ rest ->
  exists xs', xdr_opaque_decode xs cp (length bs) = (true, xs', bs ++ drop (length bs) cp) /\
    src_ok xs' /\ src_in xs' = rest /\ stream_frame xs xs'.
Proof.
  intros Hok Hp Hne Hin. unfold xdr_opaque_decode. rewrite decide_False by (by destruct bs).
  destruct (src_getbytes xs bs (p ++ rest) Hok Hin Hne) as (xs1 & -> & ? & Hin1 & Hf).
  rewrite <- land_pad in Hp. unfold BYTES_PER_XDR_UNIT; simpl. case_decide as Hz.
  - assert (p <> []).
    { intros ->. simpl in Hp. assert (Nat.land (length bs) 3 < 4)%nat; [|lia].
      change 3%nat with (Nat.ones 2). rewrite Nat.land_ones. by apply Nat.mod_upper_bound. }
    destruct (src_getbytes xs1 p rest) as (xs2 & Hg & ? & ? & Hf'); [done..|].
    rewrite <- Hp, Hg. exists xs2. unfold stream_frame in *. split_and!; [done..|congruence].
  - destruct p; [|done]. exists xs1. by split_and!.
Qed.

(** A credential or a verifier, its two words at [buf] or in the stream. *)
Lemma auth_decode_ahead xs buf oa p bs rest o :
  src_ok xs -> auth_ok oa -> auth_pad oa p -> (length rest mod 4 = 0)%nat ->
  bs = be32 (oa_flavor oa) ++ be32 (oa_length oa) ->
  ahead xs buf bs (auth_body oa p ++ rest) ->
  exists xs', xdr_opaque_auth_decode buf xs o = (true, xs', auth_over oa o) /\ src_ok xs' /\ stream_frame xs xs' /\
    src_in xs' = rest.
Proof.
  intros Hok Ha Hp Hm -> Hah. pose proof (length_auth_body oa p Ha Hp) as Hb. destruct Ha as (Hf & Hl & Hlb).
  assert (Hm2 : (length (auth_body oa p ++ rest) mod 4 = 0)%nat) by (apply mod4_app; [rewrite Hb; apply mod4_RNDUP|done]).
  unfold xdr_opaque_auth_decode, xseq, xfield.
  destruct (get_enum_ahead xs buf (oa_flavor oa) (be32 (oa_length oa)) (auth_body oa p ++ rest) (oa_flavor o))
    as (xs1 & -> & Hok1 & Hf1 & Ha1); [done|done|by apply mod4_app|done|].
  rewrite <- (app_nil_r (be32 (oa_length oa))) in Ha1.
  destruct (get_u32_ahead xs1 (next_word buf) (oa_length oa) [] (auth_body oa p ++ rest)
    (oa_length (o <| oa_flavor := oa_flavor oa |>))) as (xs2 & Hg & Hok2 & Hf2 & Ha2);
    [done|unfold is_u32, MAX_AUTH_BYTES in *; lia|done|done|]. rewrite Hg. apply ahead_end in Ha2.
  unfold xswitch, auth_over, auth_body, stream_frame in *. cbn [upd oa_length oa_flavor oa_body] in *. case_decide as Hz.
  - unfold xdr_opaque_auth_decode_it. cbn [upd oa_length oa_body]. rewrite decide_False by lia.
    set (n := Z.to_nat (oa_length oa)) in *. assert (Hn : length (take n (oa_body oa)) = n) by (rewrite length_take; lia).
    rewrite <- app_assoc in Ha2.
    destruct (opaque_decode_any xs2 (oa_body o) (take n (oa_body oa)) p rest) as (xs3 & Hd & ? & ? & Hf3);
      [done|by rewrite Hn|intros E; rewrite E in Hn; simpl in Hn; lia|done|].
    rewrite Hn in Hd. rewrite Hd. exists xs3. split_and!; [done..|unfold stream_frame in *; congruence|done].
  - assert (Z.to_nat (oa_length oa) = 0%nat) as E by lia. unfold auth_pad in Hp. rewrite E in *. destruct p; [|done].
    exists xs2. split_and!; [done..|congruence|done].
Qed.

End Decode.

Ltac solve_mod4 :=
  match goal with
  | H : ?G |- ?G => exact H
  | |- (length (be32 _) mod 4)%nat = _ => reflexivity
  | |- (length [] mod 4)%nat = _ => reflexivity
  | |- (length (auth_wire _ _) mod 4)%nat = _ => apply mod4_auth; assumption
  | |- (length (_ ++ _) mod 4)%nat = _ => apply mod4_app; [solve_mod4|solve_mod4]
  end.

(** Follows the words that are read. *)
Ltac get_word :=
  match goal with
  | Ha : ahead ?xs ?buf (be32 ?w ++ ?bs) ?rest, Hok : src_ok ?xs |- context [get_u32 ?buf ?xs ?o] =>
      let xs' := fresh "xs" in let Hg := fresh "Hg" in let Hok' := fresh "Hok" in let Hf := fresh "Hf" in let Ha' := fresh "Ha" in
      destruct (get_u32_ahead xs buf w bs rest o) as (xs' & Hg & Hok' & Hf & Ha');
      [exact Hok|assumption|solve_mod4|exact Ha|rewrite Hg; clear Hg Ha Hok; rename Ha' into Ha, Hok' into Hok; cbn -[be32 decide get_u32 get_enum next_word Z.to_nat]]
  | Ha : ahead ?xs ?buf (be32 ?w ++ ?bs) ?rest, Hok : src_ok ?xs |- context [get_enum ?buf ?xs ?o] =>
      let xs' := fresh "xs" in let Hg := fresh "Hg" in let Hok' := fresh "Hok" in let Hf := fresh "Hf" in let Ha' := fresh "Ha" in
      destruct (get_enum_ahead xs buf w bs rest o) as (xs' & Hg & Hok' & Hf & Ha');
      [exact Hok|assumption|solve_mod4|exact Ha|rewrite Hg; clear Hg Ha Hok; rename Ha' into Ha, Hok' into Hok; cbn -[be32 decide get_u32 get_enum next_word Z.to_nat]]
  end.

Section DecodeMsg.
  Context {P : Type} `{XdrSource P} {R : Type}.

(** What is behind the direction of a call. *)
Lemma call_body_decode (m o : rpc_msg R) buf xs p q rest :
  src_ok xs -> call_ok m -> auth_pad (cb_cred m) p -> auth_pad (cb_verf m) q -> (length rest mod 4 = 0)%nat ->
  ahead xs buf (be32 (cb_rpcvers m) ++ be32 (cb_prog m) ++ be32 (cb_vers m) ++ [])
    (be32 (cb_proc m) ++ auth_wire (cb_cred m) p ++ auth_wire (cb_verf m) q ++ rest) ->
  exists xs', xdr_call_decode buf xs o =
      (true, xs', (call_over m o) <| rm_xid := rm_xid o |> <| rm_direction := rm_direction o |>) /\
    src_ok xs' /\ src_in xs' = rest /\ stream_frame xs xs'.
Proof.
  intros Hok (Hx & Hd & Hv & Hpg & Hvs & Hpc & Hc & Hvf) Hp Hq Hm Ha.
  assert (is_u32 (cb_rpcvers m)) by by rewrite Hv.
  unfold xdr_call_decode, xseq, xfield, xswitch. get_word. rewrite decide_False by (intros E; by apply E).
  unfold xseq, xfield. do 2 get_word. apply ahead_end in Ha.
  destruct (inline_ahead xs2 (be32 (cb_proc m) ++ be32 (oa_flavor (cb_cred m)) ++ be32 (oa_length (cb_cred m)))
    (auth_body (cb_cred m) p ++ auth_wire (cb_verf m) q ++ rest)) as (buf1 & xs3 & Hi & Hok3 & Hf3 & Ha3);
    [done|rewrite Ha; unfold auth_wire; by rewrite <- !app_assoc|].
  change 12%nat with (length (be32 (cb_proc m) ++ be32 (oa_flavor (cb_cred m)) ++ be32 (oa_length (cb_cred m)))).
  rewrite Hi. assert (length (auth_body (cb_cred m) p) mod 4 = 0)%nat
    by (rewrite length_auth_body by done; apply mod4_RNDUP). get_word.
  edestruct (auth_decode_ahead xs4) as (xs5 & Hg & Hok5 & Hf5 & Hin5); [done|exact Hc|exact Hp| |reflexivity|exact Ha3|].
  { solve_mod4. }
  rewrite Hg. cbn -[be32 decide xdr_opaque_auth_decode].
  edestruct (auth_decode_ahead xs5 None) as (xs6 & Hg6 & Hok6 & Hf6 & Hin6); [done|exact Hvf|exact Hq|exact Hm|reflexivity| |].
  { unfold ahead. rewrite Hin5. unfold auth_wire. by rewrite <- !app_assoc. }
  rewrite Hg6. exists xs6. unfold stream_frame in *. split_and!; [by destruct o|done|done|congruence].
Qed.

(** Decoding any encoding of a call, whatever the padding. *)
Lemma call_decode_wire (m o : rpc_msg R) xs p q rest :
  src_ok xs -> call_ok m -> auth_pad (cb_cred m) p -> auth_pad (cb_verf m) q -> (length rest mod 4 = 0)%nat ->
  src_in xs = call_wire m p q ++ rest ->
  exists xs', xdr_dplx_decode xs o = (true, xs', call_over m o) /\ src_ok xs' /\ src_in xs' = rest /\ stream_frame xs xs'.
Proof.
  intros Hok Hm Hp Hq Hr Hin. pose proof Hm as (Hx & Hd & Hv & _ & _ & _ & Hc & Hvf).
  assert (is_i32 (rm_direction m)) by by rewrite Hd.
  set (ws := be32 (rm_xid m) ++ be32 (rm_direction m) ++ be32 (cb_rpcvers m) ++ be32 (cb_prog m) ++ be32 (cb_vers m) ++ []).
  destruct (inline_ahead xs ws (be32 (cb_proc m) ++ auth_wire (cb_cred m) p ++ auth_wire (cb_verf m) q ++ rest))
    as (buf & xs1 & Hi & Hok1 & Hf1 & Ha); [done|rewrite Hin; subst ws; unfold call_wire; by repeat rewrite <- app_assoc|].
  unfold xdr_dplx_decode. change (5 * 4)%nat with (length ws). rewrite Hi. unfold xseq, xfield, xswitch. subst ws.
  do 2 get_word. rewrite decide_True by done.
  edestruct (call_body_decode m) as (xs' & Hg & ? & ? & ?); [done..|exact Ha|]. rewrite Hg.
  exists xs'. unfold stream_frame in *. split_and!; [by destruct o|done|done|congruence].
Qed.

(** The fields that decoding a reply sets. *)
Definition accepted_over (ar o : accepted_reply R) : accepted_reply R :=
  mk_accepted (ar_stat ar) (if decide (ar_stat ar = PROG_MISMATCH) then ar_vers ar else ar_vers o)
    (ar_results o) (auth_over (ar_verf ar) (ar_verf o)).

Definition rejected_over (rr o : rejected_reply) : rejected_reply :=
  if decide (rj_stat rr = RPC_MISMATCH) then mk_rejected (rj_stat rr) (rj_vers rr) (rj_why o)
  else mk_rejected (rj_stat rr) (rj_vers o) (rj_why rr).

Definition reply_over (m o : rpc_msg R) : rpc_msg R :=
  o <| rm_xid := rm_xid m |> <| rm_direction := rm_direction m |>
    <| rm_reply :=
         if decide (rp_stat (rm_reply m) = MSG_ACCEPTED)
         then mk_reply_body MSG_ACCEPTED (accepted_over (RPCM_ack m) (RPCM_ack o)) (RPCM_rej o)
         else mk_reply_body MSG_DENIED (RPCM_ack o) (rejected_over (RPCM_rej m) (RPCM_rej o)) |>.

Lemma accepted_decode (ar o : accepted_reply R) buf xs p rest :
  src_ok xs -> accepted_ok ar -> auth_pad (ar_verf ar) p -> (length rest mod 4 = 0)%nat ->
  ahead xs buf (be32 (oa_flavor (ar_verf ar)) ++ be32 (oa_length (ar_verf ar)))
    (auth_body (ar_verf ar) p ++ be32 (ar_stat ar) ++
     (if decide (ar_stat ar = PROG_MISMATCH) then versions_wire (ar_vers ar) else []) ++ rest) ->
  exists xs', xdr_reply_decode_accepted buf xs o = (true, xs', accepted_over ar o) /\
    src_ok xs' /\ src_in xs' = rest /\ stream_frame xs xs'.
Proof.
  intros Hok (Hv & Hs & Hl & Hh) Hp Hm Ha. unfold xdr_reply_decode_accepted, xseq, xfield.
  assert (Hm2 : (length ((if decide (ar_stat ar = PROG_MISMATCH) then versions_wire (ar_vers ar) else []) ++ rest) mod 4 = 0)%nat)
    by (apply mod4_app; [by case_decide|done]).
  edestruct (auth_decode_ahead xs) as (xs1 & Hg & Hok1 & Hf1 & Hin1); [done|exact Hv|exact Hp| |reflexivity|exact Ha|].
  { by apply mod4_app. }
  rewrite Hg. cbn -[be32 decide get_enum get_u32]. clear Ha Hg.
  assert (Ha : ahead xs1 None (be32 (ar_stat ar) ++ []) ((if decide (ar_stat ar = PROG_MISMATCH) then versions_wire (ar_vers ar) else []) ++ rest))
    by (unfold ahead; by rewrite Hin1, app_nil_r).
  get_word. apply ahead_end in Ha. unfold xswitch, accepted_over, stream_frame in *. cbn [ar_stat].
  destruct (decide (ar_stat ar = SUCCESS)) as [E|E]; [rewrite E in *|destruct (decide (ar_stat ar = PROG_MISMATCH)) as [E2|E2]].
  - exists xs0. split_and!; [done..|congruence].
  - unfold versions_wire in Ha. rewrite <- app_assoc in Ha.
    assert (Hah : ahead xs0 None (be32 (low (ar_vers ar)) ++ be32 (high (ar_vers ar)) ++ []) rest)
      by (unfold ahead; by rewrite Ha, app_nil_r, app_assoc).
    unfold xseq, xfield. cbn -[be32 decide get_enum get_u32]. get_word. change (@None nat) with (next_word None) at 1.
    get_word. apply ahead_end in Hah. exists xs3. unfold stream_frame in *. destruct (ar_vers ar).
    split_and!; [done..|congruence].
  - exists xs0. split_and!; [done..|congruence].
Qed.

Lemma rejected_decode (rr o : rejected_reply) buf xs rest :
  src_ok xs -> rejected_ok rr -> (length rest mod 4 = 0)%nat ->
  (if decide (rj_stat rr = RPC_MISMATCH)
   then ahead xs buf (be32 (rj_stat rr) ++ be32 (low (rj_vers rr)) ++ []) (be32 (high (rj_vers rr)) ++ rest)
   else ahead xs buf (be32 (rj_stat rr) ++ be32 (rj_why rr) ++ []) rest) ->
  exists xs', xdr_reply_decode_denied buf xs o = (true, xs', rejected_over rr o) /\
    src_ok xs' /\ src_in xs' = rest /\ stream_frame xs xs'.
Proof.
  intros Hok (Hs & [Hl Hh] & Hw) Hm Ha. assert (is_i32 (rj_stat rr)) by (destruct Hs as [-> | ->]; done).
  unfold xdr_reply_decode_denied, rejected_over, xseq, xfield, xswitch, stream_frame.
  destruct (decide (rj_stat rr = RPC_MISMATCH)) as [E|E].
  - get_word. rewrite decide_True by done. unfold xseq, xfield. cbn -[be32 decide get_enum get_u32]. get_word.
    apply ahead_end in Ha. assert (Hah : ahead xs1 None (be32 (high (rj_vers rr)) ++ []) rest)
      by (unfold ahead; by rewrite Ha, app_nil_r).
    get_word. apply ahead_end in Hah. exists xs2. unfold stream_frame in *. destruct (rj_vers rr). split_and!; [done..|congruence].
  - get_word. rewrite decide_False, decide_True by (try done; by destruct Hs). cbn -[be32 decide get_enum get_u32]. get_word.
    apply ahead_end in Ha. exists xs1. unfold stream_frame in *. split_and!; [done..|congruence].
Qed.

(** The five words that are fetched at once. *)
Lemma reply_split (m : rpc_msg R) p rest :
  reply_ok m -> exists a b tl, reply_wire m p ++ rest =
    (be32 (rm_xid m) ++ be32 (rm_direction m) ++ be32 (rp_stat (rm_reply m)) ++ be32 a ++ be32 b ++ []) ++ tl /\
    if decide (rp_stat (rm_reply m) = MSG_ACCEPTED)
    then a = oa_flavor (ar_verf (RPCM_ack m)) /\ b = oa_length (ar_verf (RPCM_ack m)) /\
         tl = auth_body (ar_verf (RPCM_ack m)) p ++ be32 (ar_stat (RPCM_ack m)) ++
              (if decide (ar_stat (RPCM_ack m) = PROG_MISMATCH) then versions_wire (ar_vers (RPCM_ack m)) else []) ++ rest
    else a = rj_stat (RPCM_rej m) /\
         if decide (rj_stat (RPCM_rej m) = RPC_MISMATCH)
         then b = low (rj_vers (RPCM_rej m)) /\ tl = be32 (high (rj_vers (RPCM_rej m))) ++ rest
         else b = rj_why (RPCM_rej m) /\ tl = rest.
Proof.
  intros _. unfold reply_wire, accepted_wire, rejected_wire, auth_wire, versions_wire.
  destruct (decide (rp_stat (rm_reply m) = MSG_ACCEPTED)); [|destruct (decide (rj_stat (RPCM_rej m) = RPC_MISMATCH))];
    do 3 eexists; (split; [|split_and!; reflexivity]); repeat rewrite <- app_assoc; done.
Qed.

(** Decoding any encoding of the header of a reply, whatever the padding; the
    results follow. *)
Lemma reply_decode_wire (m o : rpc_msg R) xs p rest :
  src_ok xs -> reply_ok m -> reply_pad m p -> (length rest mod 4 = 0)%nat ->
  src_in xs = reply_wire m p ++ rest ->
  exists xs', xdr_dplx_decode xs o = (true, xs', reply_over m o) /\ src_ok xs' /\ src_in xs' = rest /\ stream_frame xs xs'.
Proof.
  intros Hok Hm Hp Hr Hin. destruct (reply_split m p rest Hm) as (a & b & tl & Hs & Htl). rewrite Hs in Hin.
  pose proof Hm as (Hx & Hd & Hcase). assert (is_i32 (rm_direction m)) by by rewrite Hd.
  assert (is_i32 (rp_stat (rm_reply m))) by (destruct Hcase as [[-> _]|[-> _]]; done).
  assert (Hmt : (length tl mod 4 = 0)%nat).
  { destruct Hcase as [[E (Hv & _)]|[E _]].
    - rewrite decide_True in Htl by done. destruct Htl as (_ & _ & ->).
      assert (length (auth_body (ar_verf (RPCM_ack m)) p) mod 4 = 0)%nat
        by (rewrite length_auth_body by auto; apply mod4_RNDUP).
      do 2 (apply mod4_app; [done|]). apply mod4_app; [by case_decide|done].
    - rewrite decide_False in Htl by (by rewrite E). destruct Htl as [_ Htl].
      case_decide; destruct Htl as [_ ->]; [by apply mod4_app|done]. }
  edestruct (inline_ahead xs) as (buf & xs1 & Hi & Hok1 & Hf1 & Ha); [done|exact Hin|].
  unfold xdr_dplx_decode. change (5 * 4)%nat with (length (be32 (rm_xid m) ++ be32 (rm_direction m) ++ be32 (rp_stat (rm_reply m)) ++ be32 a ++ be32 b ++ [])).
  rewrite Hi. unfold xseq, xfield, xswitch. do 2 get_word. rewrite decide_False, decide_True by (by rewrite Hd).
  unfold xdr_reply_decode, xseq, xfield, xswitch, reply_over. get_word.
  destruct Hcase as [[E Hao]|[E Hro]].
  - rewrite !decide_True in * by done. destruct Htl as (-> & -> & ->). rewrite app_nil_r in Ha.
    edestruct (accepted_decode (RPCM_ack m)) as (xs' & Hg & ? & ? & ?); [exact Hok1|exact Hao|by apply Hp|exact Hr|exact Ha|].
    cbn [rp_stat rp_acpt rp_rjct]. change (rp_acpt (rm_reply o)) with (RPCM_ack o). rewrite Hg, E.
    exists xs'. unfold stream_frame in *. split_and!; [done..|congruence].
  - rewrite decide_False in Htl by (by rewrite E). rewrite decide_False by (by rewrite E).
    rewrite (decide_True (P:=_ = MSG_DENIED)) by done. rewrite decide_False by (by rewrite E).
    destruct Htl as [-> Htl]. edestruct (rejected_decode (RPCM_rej m)) as (xs' & Hg & ? & ? & ?); [exact Hok1|exact Hro|exact Hr| |].
    { case_decide; destruct Htl as [-> ->]; exact Ha. }
    cbn [rp_stat rp_acpt rp_rjct]. change (rp_rjct (rm_reply o)) with (RPCM_rej o). rewrite Hg, E.
    exists xs'. unfold stream_frame in *. split_and!; [done..|congruence].
Qed.

End DecodeMsg.

(** ** What a decoded call says about the bytes *)

Section SoundMsg.
  Context {P : Type} `{XdrSource P} {R : Type}.

(** The bytes that are still to be read, [n] of them at [buf] if there is one. *)
Definition pending (xs : XDR P) (buf : option nat) (n : nat) : list byte :=
  match buf with Some b => slice b n (x_buf xs) ++ src_in xs | None => src_in xs end.
Definition fetched (xs : XDR P) (buf : option nat) (n : nat) : Prop :=
  match buf with Some b => length (slice b n (x_buf xs)) = n | None => True end.

Lemma inline_pending xs n buf xs' :
  src_ok xs -> xdr_inline_decode xs n = (buf, xs') ->
  src_ok xs' /\ stream_frame xs xs' /\ fetched xs' buf n /\ src_in xs = pending xs' buf n.
Proof.
  intros Hok Hi. destruct buf as [b|].
  - destruct (src_inline xs n b xs' Hok Hi) as (? & ? & ? & ?). by split_and!.
  - unfold xdr_inline_decode in Hi. case_decide; simplify_eq. by split_and!.
Qed.

Lemma pending_0 xs buf : pending xs buf 0 = src_in xs.
Proof. by destruct buf. Qed.

(** A word at [buf]. *)
Lemma fetched_word xs b n :
  fetched xs (Some b) (4 + n) ->
  pending xs (Some b) (4 + n) = be32 (be32_val (slice b 4 (x_buf xs))) ++ pending xs (Some (b + 4)%nat) n /\
  fetched xs (Some (b + 4)%nat) n.
Proof.
  unfold fetched, pending, slice. rewrite <- take_take_drop, drop_drop, length_app. intros Hl.
  assert (length (take 4 (drop b (x_buf xs))) = 4)%nat by (rewrite !length_take in *; lia).
  split; [rewrite be32_of_val by done; by rewrite <- app_assoc|lia].
Qed.

(** A word that was read is the next one. *)
Lemma get_u32_sound xs buf n o xs' v :
  src_ok xs -> fetched xs buf (4 + n) -> get_u32 buf xs o = (true, xs', v) ->
  is_u32 v /\ src_ok xs' /\ pending xs buf (4 + n) = be32 v ++ pending xs' (next_word buf) n /\ fetched xs' (next_word buf) n.
Proof.
  intros Hok Hl Hg. destruct buf as [b|]; simpl in Hg.
  - injection Hg as <- <-. split; [apply be32_val_range|]. split; [done|]. by apply fetched_word.
  - destruct (xdr_getuint32 xs) as [[u|] xs1] eqn:E; [|done]. injection Hg as <- <-.
    destruct (src_getuint32_sound _ _ _ Hok E) as [? ?]. destruct (src_getuint32_mono _ _ _ Hok E) as (? & _ & _). by split_and!.
Qed.

Lemma get_enum_sound xs buf n o xs' v :
  src_ok xs -> fetched xs buf (4 + n) -> get_enum buf xs o = (true, xs', v) ->
  is_i32 v /\ src_ok xs' /\ pending xs buf (4 + n) = be32 v ++ pending xs' (next_word buf) n /\ fetched xs' (next_word buf) n.
Proof.
  intros Hok Hl Hg. assert (exists u, get_u32 buf xs o = (true, xs', u) /\ v = i32 u) as (u & Hu & ->).
  { destruct buf as [b|]; simpl in *; [injection Hg as <- <-; eauto|]. unfold xdr_getenum, xdr_getint32 in Hg.
    destruct (xdr_getuint32 xs) as [[u|] xs1]; [|done]. injection Hg as <- <-. eauto. }
  destruct (get_u32_sound _ _ _ _ _ _ Hok Hl Hu) as (_ & ? & Hp & ?).
  rewrite be32_i32. split_and!; [apply i32_range|done..].
Qed.

Lemma opaque_decode_sound xs cp n xs' cp' :
  src_ok xs -> (n <= length cp)%nat -> xdr_opaque_decode xs cp n = (true, xs', cp') ->
  exists bs p, length bs = n /\ length p = pad n /\ cp' = bs ++ drop n cp /\ src_ok xs' /\ src_in xs = bs ++ p ++ src_in xs'.
Proof.
  intros Hok Hn Hd. unfold xdr_opaque_decode in Hd. case_decide as Hz.
  { simplify_eq. by exists [], []. }
  destruct (x_getbytes xs n) as [[bs|] xs1] eqn:E1; [|done]. destruct (src_getbytes_sound _ _ _ _ Hok E1) as [Hl Hin].
  destruct (src_getbytes_mono _ _ _ _ Hok E1) as (Hok1 & _ & _). unfold BYTES_PER_XDR_UNIT in Hd. simpl in Hd.
  pose proof (land_pad n) as Hp. unfold BYTES_PER_XDR_UNIT in Hp. simpl in Hp. case_decide as Hr.
  - destruct (x_getbytes xs1 _) as [[q|] xs2] eqn:E2; [|done]. injection Hd as <- <-.
    destruct (src_getbytes_sound _ _ _ _ Hok1 E2) as [Hl2 Hin2]. destruct (src_getbytes_mono _ _ _ _ Hok1 E2) as (? & _ & _).
    exists bs, q. split_and!; [done| |done|done|by rewrite Hin, Hin2]. congruence.
  - injection Hd as <- <-. exists bs, []. by split_and!.
Qed.

(** A credential or a verifier that was read, over an array of full size. *)
Lemma auth_decode_sound xs buf o xs' oa :
  src_ok xs -> fetched xs buf 8 -> Z.of_nat (length (oa_body o)) = MAX_AUTH_BYTES ->
  xdr_opaque_auth_decode buf xs o = (true, xs', oa) ->
  exists p, auth_ok oa /\ auth_pad oa p /\ oa = auth_over oa o /\ src_ok xs' /\ pending xs buf 8 = auth_wire oa p ++ src_in xs'.
Proof.
  intros Hok Hl Ho Hd. unfold xdr_opaque_auth_decode, xseq, xfield in Hd.
  destruct (get_enum buf xs (oa_flavor o)) as [[[|] xs1] f] eqn:E1; [|done].
  destruct (get_enum_sound _ _ 4 _ _ _ Hok Hl E1) as (Hf & Hok1 & Hp1 & Hl1). cbn [oa_length upd] in Hd. simpl in Hd.
  destruct (get_u32 (next_word buf) xs1 (oa_length o)) as [[[|] xs2] l] eqn:E2; [|done].
  destruct (get_u32_sound _ _ 0 _ _ _ Hok1 Hl1 E2) as (Hu & Hok2 & Hp2 & _). rewrite pending_0 in Hp2.
  change (4 + 4)%nat with 8%nat in Hp1. change (4 + 0)%nat with 4%nat in Hp2. rewrite Hp1, Hp2. clear Hp1 Hp2.
  unfold xswitch in Hd. simpl in Hd. case_decide as Hz.
  - unfold xdr_opaque_auth_decode_it in Hd. simpl in Hd. case_decide; [done|].
    destruct (xdr_opaque_decode xs2 (oa_body o) (Z.to_nat l)) as [[b xs3] body] eqn:E3. simplify_eq.
    assert (Hn : (Z.to_nat l <= length (oa_body o))%nat) by (unfold is_u32 in *; lia).
    destruct (opaque_decode_sound xs2 _ _ _ _ Hok2 Hn E3) as (bs & p & Hb & Hp & -> & ? & Hin).
    exists p. unfold auth_ok, auth_pad, auth_over, auth_wire, auth_body. cbn [oa_flavor oa_length oa_body].
    rewrite take_app_length', Hin by done. split_and!; [done|unfold is_u32 in Hu; lia|lia| |done|done|done|by rewrite <- !app_assoc].
    rewrite length_app, length_drop. unfold is_u32 in Hu. lia.
  - unfold xtrue in Hd. simplify_eq. exists []. unfold auth_ok, auth_pad, auth_over, auth_wire, auth_body. cbn [oa_flavor oa_length oa_body].
    split_and!; done.
Qed.

(** What is behind the direction of a call that was read. *)
Lemma call_body_sound buf xs o xs' (m : rpc_msg R) :
  src_ok xs -> fetched xs buf 12 -> auth_ok (cb_cred o) -> auth_ok (cb_verf o) ->
  is_u32 (rm_xid o) -> rm_direction o = CALL -> xdr_call_decode buf xs o = (true, xs', m) ->
  exists p q, call_ok m /\ auth_pad (cb_cred m) p /\ auth_pad (cb_verf m) q /\ m = call_over m o /\ src_ok xs' /\
    rm_xid m = rm_xid o /\ be32 (rm_xid m) ++ be32 (rm_direction m) ++ pending xs buf 12 = call_wire m p q ++ src_in xs'.
Proof.
  intros Hok Hl (_ & _ & Hc) (_ & _ & Hv) Hx Hdir Hd. destruct o. cbn in Hx, Hdir, Hc, Hv. subst.
  unfold xdr_call_decode, xseq, xfield, xswitch in Hd.
  destruct (get_u32 buf xs _) as [[[|] xs1] v1] eqn:E1; [|done].
  destruct (get_u32_sound _ _ 8 _ _ _ Hok Hl E1) as (Hu1 & Hok1 & Hp1 & Hl1). simpl in Hd. case_decide as Hver; [done|].
  unfold xseq, xfield in Hd. simpl in Hd.
  destruct (get_u32 (next_word buf) xs1 _) as [[[|] xs2] v2] eqn:E2; [|done].
  destruct (get_u32_sound _ _ 4 _ _ _ Hok1 Hl1 E2) as (Hu2 & Hok2 & Hp2 & Hl2). simpl in Hd.
  destruct (get_u32 (next_word (next_word buf)) xs2 _) as [[[|] xs3] v3] eqn:E3; [|done].
  destruct (get_u32_sound _ _ 0 _ _ _ Hok2 Hl2 E3) as (Hu3 & Hok3 & Hp3 & _). simpl in Hd. rewrite pending_0 in Hp3.
  destruct (xdr_inline_decode xs3 12) as [buf' xs4] eqn:Ei. destruct (inline_pending _ _ _ _ Hok3 Ei) as (Hok4 & _ & Hl4 & Hp4).
  destruct (get_u32 buf' xs4 _) as [[[|] xs5] v5] eqn:E5; [|done].
  destruct (get_u32_sound _ _ 8 _ _ _ Hok4 Hl4 E5) as (Hu5 & Hok5 & Hp5 & Hl5). simpl in Hd.
  destruct (xdr_opaque_auth_decode (next_word buf') xs5 _) as [[[|] xs6] c] eqn:E6; [|done].
  destruct (auth_decode_sound _ _ _ _ _ Hok5 Hl5 Hc E6) as (p & Hca & Hpa & Hov & Hok6 & Hp6). simpl in Hd.
  destruct (xdr_opaque_auth_decode None xs6 _) as [[b xs7] v] eqn:E7. simplify_eq.
  destruct (auth_decode_sound xs6 None _ _ _ Hok6 I Hv E7) as (q & Hva & Hqa & Hov' & Hok7 & Hp7). simpl in Hp7.
  exists p, q. unfold call_ok, call_over, call_wire. cbn. split_and!; try done.
  - by rewrite <- Hov, <- Hov'.
  - cbn [plus] in *. rewrite Hp1, Hp2, Hp3, Hp4, Hp5, Hp6, Hp7. by repeat rewrite <- app_assoc.
Qed.

(** Whatever the stream holds: a call that is decoded is what the bytes say. *)
Lemma call_decode_sound xs o xs' (m : rpc_msg R) :
  src_ok xs -> auth_ok (cb_cred o) -> auth_ok (cb_verf o) ->
  xdr_dplx_decode xs o = (true, xs', m) -> rm_direction m = CALL ->
  exists p q, call_ok m /\ auth_pad (cb_cred m) p /\ auth_pad (cb_verf m) q /\ m = call_over m o /\ src_ok xs' /\
    src_in xs = call_wire m p q ++ src_in xs'.
Proof.
  intros Hok Hc Hv Hd Hdir. unfold xdr_dplx_decode in Hd. destruct (xdr_inline_decode xs _) as [buf xs1] eqn:Ei.
  destruct (inline_pending _ _ _ _ Hok Ei) as (Hok1 & _ & Hl1 & Hp1). unfold xseq, xfield, xswitch in Hd.
  destruct (get_u32 buf xs1 _) as [[[|] xs2] x] eqn:E1; [|done].
  destruct (get_u32_sound _ _ 16 _ _ _ Hok1 Hl1 E1) as (Hu & Hok2 & Hp2 & Hl2). simpl in Hd.
  destruct (get_enum (next_word buf) xs2 _) as [[[|] xs3] dir] eqn:E2; [|done].
  destruct (get_enum_sound _ _ 12 _ _ _ Hok2 Hl2 E2) as (Hi & Hok3 & Hp3 & Hl3). simpl in Hd. case_decide as Hcall.
  - edestruct call_body_sound as (p & q & Hm & Hp & Hq & Hov & Hok' & Hx & Hb); [exact Hok3|exact Hl3| | | | |exact Hd|];
      [done..|]. exists p, q. split_and!; [done..| |done|].
    + etransitivity; [exact Hov|]. by destruct o.
    + rewrite Hp1. cbn [plus Nat.mul] in *. rewrite Hp2, Hp3, <- Hb, Hx. by rewrite Hdir, <- Hcall.
  - exfalso. case_decide; [|done].
    destruct (xdr_reply_decode _ xs3 _) as [[b xs4] r]. by simplify_eq.
Qed.

End SoundMsg.


(** ** The filters of [rpc_prot.c] *)

Definition zeros (oa : opaque_auth) : list byte := replicate (pad (Z.to_nat (oa_length oa))) x00.

Lemma zeros_pad oa : auth_pad oa (zeros oa).
Proof. apply length_replicate. Qed.

Section Filters.
  Context {P : Type} `{xdr_ops P} {R : Type}.
  Variable results : xdrproc P R.

Lemma xdr_opaque_auth_spec :
  xdr_spec (P:=P) xdr_opaque_auth auth_ok (fun oa => auth_wire oa (zeros oa)) auth_over.
Proof.
  split.
  - intros S xs oa Hok Hop Ha Hfit. unfold xdr_opaque_auth. rewrite Hop.
    destruct (writes_auth oa Ha xs Hok Hfit) as (xs' & -> & ?). eauto.
  - intros S xs oa o rest Hok Hop Ha Hm Hin. unfold xdr_opaque_auth. rewrite Hop.
    edestruct (auth_decode_ahead xs None oa (zeros oa)) as (xs' & -> & ? & ? & ?);
      [done..|apply zeros_pad|exact Hm|reflexivity| |eauto].
    unfold ahead. rewrite Hin. unfold auth_wire. by rewrite <- !app_assoc.
  - intros oa Ha. apply mod4_auth; [done|apply zeros_pad].
Qed.

Lemma ar_vers_spec :
  xdr_spec (P:=P) (xdr_uint32_t on low on ar_vers ;;; xdr_uint32_t on high on ar_vers)
    (fun ar : accepted_reply R => versions_ok (ar_vers ar)) (fun ar => versions_wire (ar_vers ar))
    (fun ar o => o <| ar_vers := ar_vers ar |>).
Proof. eapply spec_ext; [repeat xspec_step|by intros [? [] ? ?] ?|done|by intros [? [] ? ?] [? [] ? ?] ?]. Qed.

Lemma rj_vers_spec :
  xdr_spec (P:=P) (xdr_uint32_t on low on rj_vers ;;; xdr_uint32_t on high on rj_vers)
    (fun rr => versions_ok (rj_vers rr)) (fun rr => versions_wire (rj_vers rr)) (fun rr o => o <| rj_vers := rj_vers rr |>).
Proof. eapply spec_ext; [repeat xspec_step|by intros [? [] ?] ?|done|by intros [? [] ?] [? [] ?] ?]. Qed.

Definition results_over (ov : R -> R -> R) (ar o : accepted_reply R) : accepted_reply R :=
  (accepted_over ar o) <| ar_results :=
     if decide (ar_stat ar = SUCCESS) then ov (ar_results ar) (ar_results o) else ar_results o |>.

Lemma xdr_naccepted_reply_spec d w ov :
  xdr_spec results d w ov ->
  xdr_spec (xdr_naccepted_reply results) (fun ar => accepted_ok ar /\ (ar_stat ar = SUCCESS -> d (ar_results ar)))
    (fun ar => accepted_wire ar (zeros (ar_verf ar)) ++ if decide (ar_stat ar = SUCCESS) then w (ar_results ar) else [])
    (results_over ov).
Proof.
  intros Hres. unfold xdr_naccepted_reply.
  eapply spec_ext; [eapply xseq_spec; [eapply xfield_spec; [apply xdr_opaque_auth_spec|by intros []]|
    eapply (xseq_switch_spec _ _ (fun ar => is_i32 (ar_stat ar)) _ _
      (fun ar => versions_ok (ar_vers ar) /\ (ar_stat ar = SUCCESS -> d (ar_results ar)))
      (fun ar => if decide (ar_stat ar = SUCCESS) then w (ar_results ar)
                 else if decide (ar_stat ar = PROG_MISMATCH) then versions_wire (ar_vers ar) else [])
      (fun ar o => if decide (ar_stat ar = SUCCESS) then o <| ar_results := ov (ar_results ar) (ar_results o) |>
                   else if decide (ar_stat ar = PROG_MISMATCH) then o <| ar_vers := ar_vers ar |> else o));
    [by eapply xfield_spec; [apply xdr_enum_spec|intros []]|..]]|..].
  - intros a _ [Hv Hd]. destruct (decide (ar_stat a = SUCCESS)) as [E|E]; [|destruct (decide (ar_stat a = PROG_MISMATCH)) as [E2|E2]].
    + eapply spec_ext; [eapply xfield_spec; [exact Hres|by intros []]|..]; intros b **; subst; [auto|by rewrite decide_True..].
    + eapply spec_ext; [apply ar_vers_spec|..]; intros b **; subst; [done|by rewrite decide_False, decide_True..].
    + eapply spec_ext; [apply xtrue_spec|..]; intros b **; subst; [done|by rewrite !decide_False..].
  - done.
  - intros a [(? & ? & ?) ?]. by split_and!.
  - intros a _. unfold accepted_wire. repeat rewrite <- app_assoc. do 2 f_equal.
    repeat case_decide; simpl; rewrite ?app_nil_r; try done. unfold SUCCESS, PROG_MISMATCH in *. lia.
  - intros [] [] _. unfold results_over, accepted_over. cbn. repeat case_decide; try done. unfold SUCCESS, PROG_MISMATCH in *. lia.
Qed.

Lemma xdr_nrejected_reply_spec :
  xdr_spec (P:=P) xdr_nrejected_reply rejected_ok rejected_wire rejected_over.
Proof.
  unfold xdr_nrejected_reply.
  eapply spec_ext; [eapply (xseq_switch_spec _ _ (fun rr => is_i32 (rj_stat rr)) _ _ rejected_ok
      (fun rr => if decide (rj_stat rr = RPC_MISMATCH) then versions_wire (rj_vers rr) else be32 (rj_why rr))
      (fun rr o => if decide (rj_stat rr = RPC_MISMATCH) then o <| rj_vers := rj_vers rr |> else o <| rj_why := rj_why rr |>));
    [by eapply xfield_spec; [apply xdr_enum_spec|intros []]|..]|..].
  - intros a _ (Hs & Hv & Hw). destruct (decide (rj_stat a = RPC_MISMATCH)) as [E|E].
    + eapply spec_ext; [apply rj_vers_spec|..]; intros b **; subst; [done|by rewrite decide_True..].
    + rewrite decide_True by (by destruct Hs).
      eapply spec_ext; [eapply xfield_spec; [apply xdr_enum_spec|by intros []]|..]; intros b **; subst; [done|by rewrite decide_False..].
  - done.
  - intros a Ha. split; [|done]. destruct Ha as [[-> | ->] _]; done.
  - done.
  - intros [] [] _. unfold rejected_over. cbn. by case_decide.
Qed.

(** The body of a reply with its results. *)
Definition body_ok (d : R -> Prop) (rp : reply_body R) : Prop :=
  rp_stat rp = MSG_ACCEPTED /\ accepted_ok (rp_acpt rp) /\ (ar_stat (rp_acpt rp) = SUCCESS -> d (ar_results (rp_acpt rp))) \/
  rp_stat rp = MSG_DENIED /\ rejected_ok (rp_rjct rp).

Definition body_wire (w : R -> list byte) (rp : reply_body R) : list byte :=
  if decide (rp_stat rp = MSG_ACCEPTED)
  then accepted_wire (rp_acpt rp) (zeros (ar_verf (rp_acpt rp))) ++
       if decide (ar_stat (rp_acpt rp) = SUCCESS) then w (ar_results (rp_acpt rp)) else []
  else rejected_wire (rp_rjct rp).

Lemma reply_union_spec d w ov :
  xdr_spec results d w ov ->
  xdr_spec (xdr_union rp_stat (reply_dscrm results) None) (body_ok d)
    (fun rp => be32 (rp_stat rp) ++ body_wire w rp)
    (fun rp o => if decide (rp_stat rp = MSG_ACCEPTED)
                 then mk_reply_body (rp_stat rp) (results_over ov (rp_acpt rp) (rp_acpt o)) (rp_rjct o)
                 else mk_reply_body (rp_stat rp) (rp_acpt o) (rejected_over (rp_rjct rp) (rp_rjct o))).
Proof.
  intros Hres. unfold xdr_union.
  eapply spec_ext; [eapply (xseq_switch_spec _ _ (fun rp => is_i32 (rp_stat rp)) _ _ (body_ok d) (body_wire w)
      (fun rp o => if decide (rp_stat rp = MSG_ACCEPTED) then o <| rp_acpt := results_over ov (rp_acpt rp) (rp_acpt o) |>
                   else o <| rp_rjct := rejected_over (rp_rjct rp) (rp_rjct o) |>));
    [by eapply xfield_spec; [apply xdr_enum_spec|intros []]|..]|..].
  - intros a _ [(E & Hs)|[E Hr]]; rewrite E; cbn [choose reply_dscrm].
    + rewrite decide_True by done. eapply spec_ext; [eapply xfield_spec; [by apply xdr_naccepted_reply_spec|by intros []]|..];
        intros b **; subst; [done|unfold body_wire; by rewrite (decide_True (P:=rp_stat _ = _))..].
    + rewrite decide_False, decide_True by done. eapply spec_ext; [eapply xfield_spec; [apply xdr_nrejected_reply_spec|by intros []]|..];
        intros b **; subst; [done|unfold body_wire; by rewrite (decide_False (P:=rp_stat _ = _)) by (by rewrite E)..].
  - done.
  - intros a Ha. split; [|done]. destruct Ha as [[-> _]|[-> _]]; done.
  - done.
  - intros [] [] _. cbn. by case_decide.
Qed.

(** A whole reply with its results. *)
Lemma xdr_nreplymsg_spec d w ov :
  xdr_spec results d w ov ->
  xdr_spec (xdr_nreplymsg results) (fun m => is_u32 (rm_xid m) /\ rm_direction m = REPLY /\ body_ok d (rm_reply m))
    (fun m => be32 (rm_xid m) ++ be32 (rm_direction m) ++ be32 (rp_stat (rm_reply m)) ++ body_wire w (rm_reply m))
    (fun m o => o <| rm_xid := rm_xid m |> <| rm_direction := rm_direction m |>
                  <| rm_reply := if decide (rp_stat (rm_reply m) = MSG_ACCEPTED)
                       then mk_reply_body (rp_stat (rm_reply m)) (results_over ov (RPCM_ack m) (RPCM_ack o)) (RPCM_rej o)
                       else mk_reply_body (rp_stat (rm_reply m)) (RPCM_ack o) (rejected_over (RPCM_rej m) (RPCM_rej o)) |>).
Proof.
  intros Hres. unfold xdr_nreplymsg.
  eapply spec_ext; [eapply xseq_spec; [by eapply xfield_spec; [apply xdr_uint32_t_spec|intros []]|
    eapply (xseq_switch_spec _ _ (fun m => is_i32 (rm_direction m)) _ _
      (fun m => rm_direction m = REPLY /\ body_ok d (rm_reply m)));
    [by eapply xfield_spec; [apply xdr_enum_spec|intros []]|..]]|..].
  - intros m _ [Hd Hb]. rewrite decide_True by done.
    eapply spec_ext; [eapply (xfield_spec (rm_reply (R:=R))); [by apply reply_union_spec|by intros []]|..];
      intros b **; subst; [done|reflexivity|reflexivity].
  - intros m o' _ [Hd _]. cbn. by rewrite Hd.
  - intros m (? & Hd & ?). split_and!; try done. by rewrite Hd.
  - done.
  - intros [] [] _. cbn. by case_decide.
Qed.

End Filters.

Section EncodeReply.
  Context {P : Type} `{XdrSink P} {R : Type}.
  Variable results : xdrproc P R.

Lemma length_reply_wire (m : rpc_msg R) p q :
  rp_stat (rm_reply m) = MSG_ACCEPTED -> auth_ok (ar_verf (RPCM_ack m)) ->
  auth_pad (ar_verf (RPCM_ack m)) p -> auth_pad (ar_verf (RPCM_ack m)) q ->
  length (reply_wire m p) = length (reply_wire m q).
Proof.
  intros Hs Ha Hp Hq. unfold reply_wire. rewrite !(decide_True (P:=rp_stat _ = _)) by done. unfold accepted_wire.
  rewrite !length_app, !length_auth_wire by done. done.
Qed.

(** The results behind the header of a successful call. *)
Definition results_wire (w : R -> list byte) (m : rpc_msg R) : list byte :=
  if decide (rp_stat (rm_reply m) = MSG_ACCEPTED /\ ar_stat (RPCM_ack m) = SUCCESS) then w (ar_results (RPCM_ack m)) else [].

(** The header of an accepted reply fits into the current buffer. *)
Definition header_room (m : rpc_msg R) (xs : XDR P) : Prop :=
  is_Some (fst (xdr_inline_encode xs (6 * 4 + RNDUP (Z.to_nat (oa_length (ar_verf (RPCM_ack m))))))).
#[global] Instance header_room_dec m xs : Decision (header_room m xs) := _.

Lemma body_wire_split (m : rpc_msg R) w :
  be32 (rm_xid m) ++ be32 (rm_direction m) ++ be32 (rp_stat (rm_reply m)) ++ body_wire w (rm_reply m) =
  reply_wire m (zeros (ar_verf (RPCM_ack m))) ++ results_wire w m.
Proof.
  unfold reply_wire, body_wire, results_wire. repeat rewrite <- app_assoc. do 3 f_equal.
  destruct (decide (rp_stat (rm_reply m) = MSG_ACCEPTED)) as [E|E].
  - f_equal. destruct (decide (ar_stat (rp_acpt (rm_reply m)) = SUCCESS)) as [E2|E2];
      [by rewrite decide_True|by rewrite decide_False by (by intros [])].
  - rewrite decide_False by (by intros []). by rewrite app_nil_r.
Qed.

(** The slow path of an accepted reply, which writes the results as well. *)
Lemma accepted_slow d w ov (m : rpc_msg R) xs :
  xdr_spec results d w ov -> snk_ok xs -> x_op xs = XDR_ENCODE -> rp_stat (rm_reply m) = MSG_ACCEPTED -> accepted_ok (RPCM_ack m) ->
  (ar_stat (RPCM_ack m) = SUCCESS -> d (ar_results (RPCM_ack m))) ->
  snk_fits xs (length (reply_wire m (zeros (ar_verf (RPCM_ack m))) ++ results_wire w m)) ->
  exists xs', (let '(b, xs) := and_then (put_u32 (rm_xid m)) (put_enum (rm_direction m)) xs in
      if b then (xdr_union rp_stat (reply_dscrm results) None on rm_reply) xs m else (false, xs, m)) = (true, xs', m) /\
    emits xs xs' (reply_wire m (zeros (ar_verf (RPCM_ack m))) ++ results_wire w m).
Proof.
  intros Hres Hok Hop Hs Ha Hd Hfit. rewrite <- body_wire_split in *. rewrite app_assoc in *.
  destruct (writes_then _ _ _ _ (writes_u32 (rm_xid m)) (writes_enum (rm_direction m)) xs Hok) as (xs1 & -> & He).
  { eapply snk_fits_le; [|exact Hfit]. rewrite (length_app (_ ++ _)). lia. }
  assert (x_op xs1 = XDR_ENCODE) by (destruct He as (_ & _ & Hf & _); by rewrite Hf).
  destruct (spec_enc _ _ _ _ (xfield_spec (rm_reply (R:=R)) _ _ _ _ (reply_union_spec results _ _ _ Hres) ltac:(by intros []))
    _ xs1 m) as (xs2 & Hp & He2); [apply He|done|by left|by eapply emits_fits|].
  exists xs2. rewrite Hp. split; [done|]. by eapply emits_trans.
Qed.

(** The accepted reply without the results, where the header fits into the current
    buffer or there are no results. *)
Lemma accepted_encode_wire (m : rpc_msg R) xs :
  snk_ok xs -> x_op xs = XDR_ENCODE -> reply_ok m -> rp_stat (rm_reply m) = MSG_ACCEPTED ->
  (ar_stat (RPCM_ack m) = SUCCESS -> header_room m xs) ->
  snk_fits xs (length (reply_wire m (zeros (ar_verf (RPCM_ack m))))) ->
  exists xs' p, reply_pad m p /\ xdr_reply_encode results m xs = (true, xs', m) /\ emits xs xs' (reply_wire m p).
Proof.
  intros Hok Hop Hm Hs Hfast Hfit. pose proof Hm as (_ & _ & Hcase).
  destruct Hcase as [(_ & Ha & Hi32 & Hv)|[Hd _]]; [|by rewrite Hs in Hd].
  unfold xdr_reply_encode. rewrite decide_True by done. unfold xdr_reply_encode_accepted.
  pose proof Ha as (_ & Hl & _). rewrite decide_False by lia.
  unfold header_room in Hfast. destruct (xdr_inline_encode xs _) as [[off|] xs1] eqn:Hi; simpl in Hfast.
  - pose proof (inline_room _ _ _ _ Hok Hi) as Hroom. pose proof (written_nil xs1 off) as Hw. repeat put_word.
    assert (He : emits xs ys5 (be32 (rm_xid m) ++ be32 (rm_direction m) ++ be32 (rp_stat (rm_reply m)) ++
      auth_wire (ar_verf (RPCM_ack m)) p ++ be32 (ar_stat (RPCM_ack m)))).
    { eapply written_emits; [done|exact Hi| |].
      - unfold auth_wire. rewrite app_nil_l in Hw. repeat rewrite <- app_assoc in Hw. repeat rewrite <- app_assoc. exact Hw.
      - rewrite !length_app, !length_auth_wire by done. cbn [length be32]. lia. }
    pose proof (length_reply_wire m p _ Hs Ha Hp (zeros_pad _)) as Hlen. rewrite <- Hlen in Hfit. clear Hlen.
    exists (if decide (ar_stat (RPCM_ack m) = PROG_MISMATCH) then snd (put_versions (ar_vers (RPCM_ack m)) ys5) else ys5), p.
    split; [by intros _|]. assert (Hw2 : reply_wire m p = (be32 (rm_xid m) ++ be32 (rm_direction m) ++ be32 (rp_stat (rm_reply m)) ++
      auth_wire (ar_verf (RPCM_ack m)) p ++ be32 (ar_stat (RPCM_ack m))) ++
      (if decide (ar_stat (RPCM_ack m) = PROG_MISMATCH) then versions_wire (ar_vers (RPCM_ack m)) else [])).
    { unfold reply_wire, accepted_wire. rewrite (decide_True (P:=rp_stat _ = _)) by done. by repeat rewrite <- app_assoc. }
    rewrite Hw2 in *. destruct (decide (ar_stat (RPCM_ack m) = PROG_MISMATCH)) as [Hpm|Hpm].
    + destruct (versions_writes (ar_vers (RPCM_ack m)) ys5) as (ys6 & -> & He2); [apply He|by eapply emits_fits|].
      split; [done|]. by eapply emits_trans.
    + by rewrite app_nil_r.
  - apply inline_none in Hi as ->. destruct (decide (ar_stat (RPCM_ack m) = SUCCESS)) as [E|E]; [by destruct (Hfast E)|].
    assert (Hnone : results_wire (fun _ => []) m = []) by (unfold results_wire; by case_decide).
    destruct (accepted_slow (fun _ => False) (fun _ => []) fresh m xs) as (xs' & Hr & He); [by split|done..|by rewrite Hnone, app_nil_r|].
    rewrite Hnone, app_nil_r in He.
    exists xs', (zeros (ar_verf (RPCM_ack m))). split_and!; [intros _; apply zeros_pad|done|done].
Qed.

(** Every reply through the hand-written path. *)
Lemma reply_encode_paths d w ov (m : rpc_msg R) xs :
  xdr_spec results d w ov -> snk_ok xs -> x_op xs = XDR_ENCODE -> reply_ok m ->
  (rp_stat (rm_reply m) = MSG_ACCEPTED -> ar_stat (RPCM_ack m) = SUCCESS -> d (ar_results (RPCM_ack m))) ->
  snk_fits xs (length (reply_wire m (zeros (ar_verf (RPCM_ack m))) ++ results_wire w m)) ->
  exists xs' p, reply_pad m p /\ xdr_reply_encode results m xs = (true, xs', m) /\
    emits xs xs' (reply_wire m p ++ if decide (header_room m xs) then [] else results_wire w m).
Proof.
  intros Hres Hok Hop Hm Hd Hfit. pose proof Hm as (_ & _ & [[E Ha]|[E _]]).
  - assert (Hfit' : snk_fits xs (length (reply_wire m (zeros (ar_verf (RPCM_ack m)))))).
    { eapply snk_fits_le; [|exact Hfit]. rewrite length_app. lia. }
    destruct (decide (header_room m xs)) as [Hr|Hr].
    { destruct (accepted_encode_wire m xs) as (xs' & p & ? & ? & ?); [done..|]. exists xs', p. by rewrite app_nil_r. }
    exists (snd (fst (xdr_reply_encode results m xs))), (zeros (ar_verf (RPCM_ack m))). split; [intros _; apply zeros_pad|].
    unfold xdr_reply_encode. rewrite decide_True by done. unfold xdr_reply_encode_accepted. pose proof Ha as ((_ & Hl & _) & _).
    rewrite decide_False by lia. unfold header_room in Hr. destruct (xdr_inline_encode xs _) as [[off|] xs1] eqn:Hi; simpl in Hr; [by destruct Hr|].
    apply inline_none in Hi as ->. destruct (accepted_slow d w ov m xs) as (xs' & -> & He); [done..|by apply Hd|done|]. by split.
  - assert (Hn : results_wire w m = []) by (unfold results_wire; rewrite decide_False; [done|intros [E2 _]; by rewrite E in E2]).
    rewrite Hn, app_nil_r in *. destruct (denied_writes m Hm E xs Hok) as (xs' & Hw & Hem).
    { unfold reply_wire in *. by rewrite !(decide_False (P:=rp_stat _ = _)) in * by (by rewrite E). }
    exists xs', []. split_and!; [intros E2; by rewrite E in E2| |by destruct (decide (header_room m xs)); rewrite app_nil_r].
    unfold xdr_reply_encode. by rewrite decide_False, decide_True, Hw by (by rewrite E).
Qed.

Lemma nreplymsg_writes d w ov (m : rpc_msg R) xs :
  xdr_spec results d w ov -> snk_ok xs -> x_op xs = XDR_ENCODE -> reply_ok m ->
  (rp_stat (rm_reply m) = MSG_ACCEPTED -> ar_stat (RPCM_ack m) = SUCCESS -> d (ar_results (RPCM_ack m))) ->
  snk_fits xs (length (reply_wire m (zeros (ar_verf (RPCM_ack m))) ++ results_wire w m)) ->
  exists xs', xdr_nreplymsg results xs m = (true, xs', m) /\
    emits xs xs' (reply_wire m (zeros (ar_verf (RPCM_ack m))) ++ results_wire w m).
Proof.
  intros Hres Hok Hop (Hx & Hdir & Hcase) Hd Hfit. rewrite <- body_wire_split in *.
  apply (spec_enc _ _ _ _ (xdr_nreplymsg_spec results _ _ _ Hres)); [done..| |done].
  split_and!; [done..|]. destruct Hcase as [[E ?]|?]; [left|by right]. split_and!; [done..|by apply Hd].
Qed.

End EncodeReply.

(** ** Decoding arbitrary input *)

Section SafeMsg.
  Context {P : Type} `{xdr_ops P} {R : Type}.

Lemma get_u32_safe buf : xdr_safe (P:=P) (get_u32 buf).
Proof.
  intros S xs a b xs' a' Hok Hop Hp. unfold get_u32 in Hp. destruct buf; simplify_eq; [by apply src_step_refl|].
  repeat safe_step; safe_done.
Qed.

Lemma get_enum_safe buf : xdr_safe (P:=P) (get_enum buf).
Proof.
  intros S xs a b xs' a' Hok Hop Hp. unfold get_enum, xdr_getenum, xdr_getint32 in Hp.
  destruct buf; simplify_eq; [by apply src_step_refl|]. repeat safe_step; safe_done.
Qed.

Lemma opaque_auth_it_safe : xdr_safe (P:=P) xdr_opaque_auth_decode_it.
Proof.
  intros S xs a b xs' a' Hok Hop Hp. unfold xdr_opaque_auth_decode_it in Hp.
  case_decide; simplify_eq; [by apply src_step_refl|].
  destruct (xdr_opaque_decode xs _ _) as [[r xs1] body] eqn:E. simplify_eq. by eapply opaque_decode_safe.
Qed.

(** Fetching words inline before a filter. *)
Lemma inline_safe {A} n (k : option nat -> xdrproc P A) :
  (forall buf, xdr_safe (k buf)) -> xdr_safe (fun xs a => let '(buf, xs) := xdr_inline_decode xs n in k buf xs a).
Proof.
  intros Hk S xs a b xs' a' Hok Hop Hp. destruct (xdr_inline_decode xs n) as [[buf|] xs1] eqn:Hi.
  - destruct (src_inline xs n buf xs1 Hok Hi) as (? & Hs & _ & Hf).
    eapply src_step_next; [by split_and!; [|eexists|]|]. intros. eapply Hk; [done| |exact Hp]. by rewrite Hf.
  - unfold xdr_inline_decode in Hi. case_decide; simplify_eq. by eapply Hk.
Qed.

#[local] Hint Resolve get_u32_safe get_enum_safe opaque_auth_it_safe : xdr.

Lemma opaque_auth_decode_safe buf : xdr_safe (P:=P) (xdr_opaque_auth_decode buf).
Proof. xsafe. Qed.

#[local] Hint Resolve opaque_auth_decode_safe : xdr.

Lemma call_decode_safe buf : xdr_safe (P:=P) (xdr_call_decode (R:=R) buf).
Proof.
  unfold xdr_call_decode. repeat xsafe_step.
  apply (inline_safe 12 (fun buf => get_u32 buf on cb_proc ;;; xdr_opaque_auth_decode (next_word buf) on cb_cred ;;;
    xdr_opaque_auth_decode None on cb_verf)). intros. xsafe.
Qed.

#[local] Hint Resolve call_decode_safe : xdr.

Lemma dplx_decode_safe : xdr_safe (P:=P) (xdr_dplx_decode (R:=R)).
Proof.
  apply (inline_safe 20 (fun buf => get_u32 buf on rm_xid ;;; get_enum (next_word buf) on rm_direction ;;;
   xswitch (fun m =>
     if decide (rm_direction m = CALL) then xdr_call_decode (next_word (next_word buf))
     else if decide (rm_direction m = REPLY) then xdr_reply_decode (next_word (next_word buf)) on rm_reply
     else xfalse))). intros. xsafe.
Qed.

End SafeMsg.

(** ** The properties *)

Section MsgProperties.
  Context {P Q R : Type} `{XdrSink P} `{XdrSource Q}.

(** C21: A call that one side encodes, on any kind of stream, is understood by the
    other side, on any kind of stream: every field of the header arrives, whichever
    of the paths through the buffers the two sides take. *)
Theorem rpc_call_roundtrip (m o : rpc_msg R) (xs : XDR P) :
  snk_ok xs -> x_op xs = XDR_ENCODE -> call_ok m ->
  snk_fits xs (length (call_wire m (zeros (cb_cred m)) (zeros (cb_verf m)))) ->
  exists xs' bs, xdr_ncallmsg xs m = (true, xs', m) /\ emits xs xs' bs /\
    forall (ys : XDR Q) rest, src_ok ys -> x_op ys = XDR_DECODE -> (length rest mod 4 = 0)%nat -> src_in ys = bs ++ rest ->
    exists ys', xdr_ncallmsg ys o = (true, ys', call_over m o) /\ src_in ys' = rest.
Proof.
  intros Hok Hop Hm Hfit. pose proof Hm as (_ & Hd & _).
  destruct (call_encode_wire m xs Hok Hm Hfit) as (xs' & p & q & Hp & Hq & He & Hem).
  exists xs', (call_wire m p q). split_and!; [|done|].
  - unfold xdr_ncallmsg. rewrite Hop, decide_False by (intros E; by apply E). by rewrite He.
  - intros ys rest Hys Hyo Hr Hin. destruct (call_decode_wire m o ys p q rest) as (ys' & Hy & ? & ? & ?); [done..|].
    exists ys'. unfold xdr_ncallmsg. rewrite Hyo, Hy. split; [|done]. by rewrite decide_False by (intros E; by apply E).
Qed.

(** C22: The hand-written paths for replies against the filters of [rpc_prot.c], for
    every reply and any filter of results: [xdr_reply_encode] writes the header
    that [xdr_nreplymsg] writes but for the padding of the verifier; behind the
    header of a successful call [xdr_nreplymsg] writes the results, and
    [xdr_reply_encode] writes none when the header fits into the current buffer and
    writes them when it does not; and [xdr_dplx_msg] decodes both headers alike, on
    any stream, leaving the results where they are. *)
Theorem rpc_reply_paths (results : xdrproc P R) (results' : xdrproc Q R) d w ov (m o : rpc_msg R) (xs xs0 : XDR P) :
  xdr_spec results d w ov -> snk_ok xs -> x_op xs = XDR_ENCODE -> snk_ok xs0 -> x_op xs0 = XDR_ENCODE -> reply_ok m ->
  (rp_stat (rm_reply m) = MSG_ACCEPTED -> ar_stat (RPCM_ack m) = SUCCESS -> d (ar_results (RPCM_ack m))) ->
  snk_fits xs (length (reply_wire m (zeros (ar_verf (RPCM_ack m))) ++ results_wire w m)) ->
  snk_fits xs0 (length (reply_wire m (zeros (ar_verf (RPCM_ack m))) ++ results_wire w m)) ->
  exists xs' xs0' p, reply_pad m p /\
    xdr_dplx_msg results xs m = (true, xs', m) /\
    emits xs xs' (reply_wire m p ++ if decide (header_room m xs) then [] else results_wire w m) /\
    xdr_nreplymsg results xs0 m = (true, xs0', m) /\
    emits xs0 xs0' (reply_wire m (zeros (ar_verf (RPCM_ack m))) ++ results_wire w m) /\
    forall (ys : XDR Q) q rest, (q = p \/ q = zeros (ar_verf (RPCM_ack m))) ->
      src_ok ys -> x_op ys = XDR_DECODE -> (length rest mod 4 = 0)%nat -> src_in ys = reply_wire m q ++ rest ->
      exists ys', xdr_dplx_msg results' ys o = (true, ys', reply_over m o) /\ src_in ys' = rest.
Proof.
  intros Hres Hok Hop Hok0 Hop0 Hm Hd Hfit Hfit0. pose proof Hm as (_ & Hdir & _).
  destruct (reply_encode_paths results d w ov m xs) as (xs' & p & Hp & He & Hem); [done..|].
  destruct (nreplymsg_writes results d w ov m xs0) as (xs0' & He0 & Hem0); [done..|].
  exists xs', xs0', p. split_and!; [done| |done|done|done|].
  - unfold xdr_dplx_msg. rewrite Hop. by rewrite decide_False, decide_True by (by rewrite Hdir).
  - intros ys q rest Hq Hys Hyo Hr Hin.
    destruct (reply_decode_wire m o ys q rest) as (ys' & Hy & ? & ? & ?); [done|done| |done|done|].
    { intros E. destruct Hq as [-> | ->]; [by apply Hp|apply zeros_pad]. }
    exists ys'. unfold xdr_dplx_msg. by rewrite Hyo, Hy.
Qed.

End MsgProperties.

(** The client takes a reply for a success exactly when the server accepted the
    call and reports success, whatever the other fields hold. *)
Lemma seterr_success {R} (msg : rpc_msg R) error :
  re_status (_seterr_reply msg error) = RPC_SUCCESS <->
  rp_stat (rm_reply msg) = MSG_ACCEPTED /\ ar_stat (RPCM_ack msg) = SUCCESS.
Proof.
  unfold _seterr_reply, accepted, rejected. repeat (case_decide; cbn); split; try done; try (by intros [? ?]).
  all: unfold RPC_SUCCESS, RPC_FAILED, RPC_VERSMISMATCH, RPC_AUTHERROR, RPC_PROGVERSMISMATCH, MSG_ACCEPTED, MSG_DENIED in *;
    intros; try lia; try done.
Qed.

(** *** A call and a reply for the witnesses *)

Definition demo_auth : opaque_auth := mk_auth 1 5 ([x01; x02; x03; x04; x05] ++ repeat x00 395).

Definition demo_reply_body : reply_body unit :=
  mk_reply_body MSG_ACCEPTED (mk_accepted PROG_MISMATCH (mk_versions 3 3) tt demo_auth) (mk_rejected 0 (mk_versions 0 0) 0).

Definition demo_call : rpc_msg unit :=
  mk_msg 77 CALL RPC_MSG_VERSION demo_reply_body 0 100003 3 1 demo_auth _null_auth (mk_aup [] [] 0 0 0 0).

Definition demo_stream : XDR unit := mkXDR XDR_ENCODE None (repeat xff 64) 0 0 0 64 tt.

Lemma demo_stream_ok : snk_ok demo_stream.
Proof. split; [split_and!|]; simpl; lia. Qed.

Lemma demo_auth_ok : auth_ok demo_auth.
Proof. split_and!; vm_compute; done. Qed.

(** The padding of the five bytes of the credential is what the buffer held. *)
Lemma rpc_call_roundtrip_witness :
  exists xs' bs, xdr_ncallmsg demo_stream demo_call = (true, xs', demo_call) /\ emits demo_stream xs' bs /\
    slice 37 3 (x_buf xs') = [xff; xff; xff] /\
    exists ys', xdr_ncallmsg (mkXDR XDR_DECODE None bs 0 0 (length bs) (length bs) tt) demo_call = (true, ys', demo_call).
Proof.
  destruct (rpc_call_roundtrip (P:=unit) (Q:=unit) demo_call demo_call demo_stream demo_stream_ok eq_refl)
    as (xs' & bs & He & Hem & Hd).
  { split_and!; try (vm_compute; done); apply demo_auth_ok. }
  { vm_compute. lia. }
  exists xs', bs. split_and!; [done|done| |].
  - vm_compute in He. injection He as <-. reflexivity.
  - destruct (Hd (mkXDR XDR_DECODE None bs 0 0 (length bs) (length bs) tt) []) as (ys' & Hy & _).
    + split_and!; simpl; lia.
    + reflexivity.
    + reflexivity.
    + unfold src_in; simpl. unfold mem_in, slice; simpl. rewrite Nat.sub_0_r, drop_0, take_ge, app_nil_r by lia. done.
    + exists ys'. exact Hy.
Defined.

(** A successful call with one word of results: the hand-written path leaves them
    to its caller. *)
Definition demo_success : rpc_msg Z :=
  mk_msg 77 REPLY RPC_MSG_VERSION
    (mk_reply_body MSG_ACCEPTED (mk_accepted SUCCESS (mk_versions 0 0) 42 demo_auth) (mk_rejected 0 (mk_versions 0 0) 0))
    0 0 0 0 demo_auth _null_auth (mk_aup [] [] 0 0 0 0).

Lemma rpc_reply_paths_witness :
  exists xs' xs0' p, reply_pad demo_success p /\
    xdr_dplx_msg xdr_uint32_t demo_stream demo_success = (true, xs', demo_success) /\
    emits demo_stream xs' (reply_wire demo_success p ++ []) /\
    xdr_nreplymsg xdr_uint32_t demo_stream demo_success = (true, xs0', demo_success) /\
    emits demo_stream xs0' (reply_wire demo_success (zeros demo_auth) ++ be32 42).
Proof.
  destruct (rpc_reply_paths (P:=unit) (Q:=unit) xdr_uint32_t xdr_uint32_t _ _ _ demo_success demo_success demo_stream demo_stream
    xdr_uint32_t_spec demo_stream_ok eq_refl demo_stream_ok eq_refl) as (xs' & xs0' & p & Hp & He & Hem & He0 & Hem0 & _).
  - split_and!; try (vm_compute; done). left. split; [done|]. split_and!; vm_compute; done.
  - by intros _ _.
  - vm_compute. lia.
  - vm_compute. lia.
  - exists xs', xs0', p. exact (conj Hp (conj He (conj Hem (conj He0 Hem0)))).
Defined.
