(* ===== verification/SvcAuth.v ===== *)
(** * Authentication of a call (libntirpc [src/svc_auth_unix.c], [src/svc_auth_none.c],
    [src/svc_auth.c], [src/authunix_prot.c]; [src/dnfsd/dnfs_auth.cpp])

    The credential of a call is 400 bytes of which the client has filled
    [oa_length].  An access outside of an array is [None].  The flavors of the
    server are AUTH_NONE, AUTH_SYS and AUTH_SHORT. *)
From S2P Require Import Prelude XdrStream XdrPrim XdrSpec RpcMsg.

Open Scope Z_scope.
Open Scope dnfs_scope.

Definition AUTH_NONE : Z := 0.
Definition AUTH_SYS : Z := 1.
Definition AUTH_SHORT : Z := 2.
Definition RPCSEC_GSS : Z := 6.

(** [enum auth_stat]. *)
Definition AUTH_OK : Z := 0.
Definition AUTH_BADCRED : Z := 1.
Definition AUTH_REJECTEDCRED : Z := 2.
Definition AUTH_BADVERF : Z := 3.
Definition AUTH_REJECTEDVERF : Z := 4.
Definition AUTH_TOOWEAK : Z := 5.

Definition MAX_MACHINE_NAME : Z := 255.
Definition NGRPS : Z := 16.
Definition ID_NONE : Z := 2 ^ 32 - 1.

(** [struct svc_req]: [rq_auth] tells whether it points to [svc_auth_none]. *)
Record svc_req (R : Type) := mk_req {
  rq_msg : rpc_msg R;
  rq_auth : bool;
  rq_cksum : Z }.
Arguments mk_req {R}.
Arguments rq_msg {R}.
Arguments rq_auth {R}.
Arguments rq_cksum {R}.
#[global] Instance eta_req R : RecEta (svc_req R) := fun r => mk_req (rq_msg r) (rq_auth r) (rq_cksum r).

(** ** Access to the arrays *)

(** [IXDR_GET_U_INT32] at [off] of [body]. *)
Definition body_word (body : list byte) (off : nat) : option Z :=
  if decide (off + 4 <= length body)%nat then Some (be32_val (slice off 4 body)) else None.

(** [n] bytes at [off]. *)
Definition body_bytes (body : list byte) (off n : nat) : option (list byte) :=
  if decide (off + n <= length body)%nat then Some (slice off n body) else None.

(** [memmove] to the start of an array. *)
Definition store_bytes (arr bs : list byte) : option (list byte) :=
  if decide (length bs <= length arr)%nat then Some (bs ++ drop (length bs) arr) else None.

(** [arr[i] = v]. *)
Definition store_at {A} (arr : list A) (i : nat) (v : A) : option (list A) :=
  if decide (i < length arr)%nat then Some (<[i := v]> arr) else None.

(** A name and the NUL behind it. *)
Definition store_name (arr name : list byte) : option (list byte) :=
  arr ← store_bytes arr name; store_at arr (length name) x00.

(** ** AUTH_SYS *)

(** The loop over the groups: whether they are all valid. *)
Fixpoint gids_loop (body : list byte) (buf i n : nat) (gids : list Z) : option (bool * list Z) :=
  match n with
  | O => Some (true, gids)
  | S n' =>
      g ← body_word body buf;
      gids ← store_at gids i g;
      if decide (g = ID_NONE) then Some (false, gids) else gids_loop body (buf + 4) (S i) n' gids
  end.

(** [_svcauth_unix] without the parts that handle the request.  The stream is
    created over [oa_length] bytes, so fetching [oa_length] bytes inline always
    succeeds and the macros read from the array from then on. *)
Definition parse_unix (oa : opaque_auth) (aup : authunix_parms) : option (Z * authunix_parms) :=
  let body := oa_body oa in
  let auth_len := Z.to_nat (oa_length oa) in
  time ← body_word body 0;
  let aup := aup <| aup_time := i32 time |> in
  str_len ← body_word body 4;
  if decide (MAX_MACHINE_NAME < str_len) then Some (AUTH_BADCRED, aup)
  else
    let str_len := Z.to_nat str_len in
    name ← body_bytes body 8 str_len;
    machname ← store_name (aup_machname aup) name;
    let aup := aup <| aup_machname := machname |> in
    let str_len := RNDUP str_len in
    let buf := (8 + str_len)%nat in
    uid ← body_word body buf;
    gid ← body_word body (buf + 4);
    gid_len ← body_word body (buf + 8);
    let aup := aup <| aup_uid := uid |> <| aup_gid := gid |> in
    if decide (NGRPS < gid_len \/ uid = ID_NONE \/ gid = ID_NONE) then Some (AUTH_BADCRED, aup)
    else
      let aup := aup <| aup_len := gid_len |> in
      '(valid, gids) ← gids_loop body (buf + 12) 0 (Z.to_nat gid_len) (aup_gids aup);
      let aup := aup <| aup_gids := gids |> in
      if negb valid then Some (AUTH_BADCRED, aup)
      else if decide (auth_len < (5 + Z.to_nat gid_len) * 4 + str_len)%nat then Some (AUTH_BADCRED, aup)
      else Some (AUTH_OK, aup).

Section Auth.
  Context {R : Type}.

Definition set_verf (v : opaque_auth) (m : rpc_msg R) : rpc_msg R :=
  m <| rm_reply := (rm_reply m) <| rp_acpt := (RPCM_ack m) <| ar_verf := v |> |> |>.

Definition _svcauth_unix (req : svc_req R) : option (Z * svc_req R) :=
  let req := req <| rq_auth := true |> in
  let m := rq_msg req in
  '(stat, aup) ← parse_unix (cb_cred m) (rq_cred_body m);
  let m := m <| rq_cred_body := aup |> in
  let m := if decide (stat = AUTH_OK) then set_verf (cb_verf m) m else m in
  Some (stat, req <| rq_msg := m |>).

Definition _svcauth_short (req : svc_req R) : Z * svc_req R := (AUTH_REJECTEDCRED, req <| rq_auth := true |>).

Definition _svcauth_none (req : svc_req R) : Z * svc_req R := (AUTH_OK, req <| rq_auth := true |>).

(** What both versions of [svc_auth_authenticate] start with. *)
Definition prepare_verf (req : svc_req R) : svc_req R :=
  req <| rq_msg := set_verf (_null_auth <| oa_flavor := oa_flavor (cb_cred (rq_msg req)) |>) (rq_msg req) |>.

(** [svc_auth_authenticate] of [dnfs_auth.cpp]. *)
Definition svc_auth_authenticate (req : svc_req R) : option (Z * svc_req R) :=
  let req := prepare_verf req in
  let cred_flavor := oa_flavor (cb_cred (rq_msg req)) in
  if decide (cred_flavor = AUTH_NONE) then Some (_svcauth_none req)
  else if decide (cred_flavor = AUTH_SYS) then _svcauth_unix req
  else if decide (cred_flavor = AUTH_SHORT) then Some (_svcauth_short req)
  else Some (AUTH_REJECTEDCRED, req).

(** ** Flavors that a program registers (libntirpc [svc_auth.c], built without GSS) *)

Record authsvc := mk_authsvc {
  asp_flavor : Z;
  asp_handler : svc_req R -> option (Z * svc_req R) }.

Fixpoint find_flavor (Auths : list authsvc) (cred_flavor : Z) : option authsvc :=
  match Auths with
  | [] => None
  | asp :: next => if decide (asp_flavor asp = cred_flavor) then Some asp else find_flavor next cred_flavor
  end.

Definition svc_auth_reg (Auths : list authsvc) (cred_flavor : Z) (handler : svc_req R -> option (Z * svc_req R))
  : Z * list authsvc :=
  if decide (cred_flavor = AUTH_NONE \/ cred_flavor = AUTH_SYS \/ cred_flavor = AUTH_SHORT \/ cred_flavor = RPCSEC_GSS)
  then (1, Auths)
  else
    match find_flavor Auths cred_flavor with
    | Some _ => (1, Auths)
    | None => (0, mk_authsvc cred_flavor handler :: Auths)
    end.

Definition lib_svc_auth_authenticate (Auths : list authsvc) (req : svc_req R) : option (Z * svc_req R) :=
  let req := prepare_verf req in
  let cred_flavor := oa_flavor (cb_cred (rq_msg req)) in
  if decide (cred_flavor = AUTH_NONE) then Some (_svcauth_none req)
  else if decide (cred_flavor = AUTH_SYS) then _svcauth_unix req
  else if decide (cred_flavor = AUTH_SHORT) then Some (_svcauth_short req)
  else
    match find_flavor Auths cred_flavor with
    | Some asp => asp_handler asp req
    | None => Some (AUTH_REJECTEDCRED, req)
    end.

End Auth.

(** ** The filter of the client side *)

Section Parms.
  Context {P : Type} `{xdr_ops P}.

(** The structure as the filter sees it: its pointers are allocated when NULL. *)
Record authunix_ptrs := mk_aptrs {
  ap_time : Z;
  ap_machname : option (list byte);
  ap_uid : Z;
  ap_gid : Z;
  ap_gids : array_t Z }.
#[global] Instance eta_aptrs : RecEta authunix_ptrs :=
  fun r => mk_aptrs (ap_time r) (ap_machname r) (ap_uid r) (ap_gid r) (ap_gids r).

Definition xdr_int32_t : xdrproc P Z := fun xs ip =>
  match x_op xs with
  | XDR_ENCODE => let '(b, xs') := xdr_putint32 xs ip in (b, xs', ip)
  | XDR_DECODE =>
      match xdr_getint32 xs with
      | (None, xs') => (false, xs', ip)
      | (Some l, xs') => (true, xs', l)
      end
  | XDR_FREE => (true, xs, ip)
  end.

Definition xdr_authunix_parms : xdrproc P authunix_ptrs :=
  xdr_int32_t on ap_time ;;; xdr_string MAX_MACHINE_NAME on ap_machname ;;;
  xdr_uint32_t on ap_uid ;;; xdr_uint32_t on ap_gid ;;;
  xdr_array 0 NGRPS 4 xdr_uint32_t on ap_gids.

End Parms.

(** ** What an AUTH_SYS credential is (RFC 5531, appendix A) *)

Definition sys_wire (time : Z) (name p : list byte) (uid gid : Z) (gids : list Z) : list byte :=
  be32 time ++ be32 (Z.of_nat (length name)) ++ name ++ p ++
  be32 uid ++ be32 gid ++ be32 (Z.of_nat (length gids)) ++ concat (map be32 gids).

Definition id_ok (id : Z) : Prop := is_u32 id /\ id <> ID_NONE.

Definition sys_ok (time : Z) (name p : list byte) (uid gid : Z) (gids : list Z) : Prop :=
  is_i32 time /\ Z.of_nat (length name) <= MAX_MACHINE_NAME /\ length p = pad (length name) /\
  id_ok uid /\ id_ok gid /\ Z.of_nat (length gids) <= NGRPS /\ Forall id_ok gids.

(** The credential after decoding a call, and the arrays of [struct area]. *)
Definition area_ok (aup : authunix_parms) : Prop :=
  Z.of_nat (length (aup_machname aup)) = MAX_MACHINE_NAME + 1 /\ Z.of_nat (length (aup_gids aup)) = NGRPS.

Lemma body_word_app A w B : body_word (A ++ be32 w ++ B) (length A) = Some (u32 w).
Proof.
  unfold body_word. rewrite decide_True by (rewrite !length_app; cbn [length be32]; lia).
  unfold slice. rewrite drop_app_length. change 4%nat with (length (be32 w)). by rewrite take_app_length, be32_val_be32.
Qed.

Lemma body_bytes_app A bs B : body_bytes (A ++ bs ++ B) (length A) (length bs) = Some bs.
Proof.
  unfold body_bytes. rewrite decide_True by (rewrite !length_app; lia).
  unfold slice. by rewrite drop_app_length, take_app_length.
Qed.

Lemma body_word_at body off A w B :
  body = A ++ be32 w ++ B -> off = length A -> body_word body off = Some (u32 w).
Proof. intros -> ->. apply body_word_app. Qed.

Lemma concat_be32_length l : length (concat (map be32 l)) = (4 * length l)%nat.
Proof. induction l as [|z l IH]; [done|]. cbn [map concat length]. rewrite length_app, IH. cbn [length be32]. lia. Qed.

Lemma body_word_total body off : (off + 4 <= length body)%nat -> exists w, body_word body off = Some w /\ is_u32 w.
Proof. intros. unfold body_word. rewrite decide_True by done. eexists. split; [done|apply be32_val_range]. Qed.

Lemma store_name_spec arr name :
  (length name < length arr)%nat ->
  store_name arr name = Some (name ++ x00 :: drop (S (length name)) arr).
Proof.
  intros Hl. unfold store_name, store_bytes. rewrite decide_True by lia. simpl. unfold store_at.
  rewrite decide_True by (rewrite length_app, length_drop; lia). f_equal.
  rewrite insert_take_drop by (rewrite length_app, length_drop; lia). rewrite take_app_length. f_equal. f_equal.
  rewrite drop_app_ge, drop_drop by lia. f_equal. lia.
Qed.

Lemma gids_loop_total body n : forall buf i gids,
  (buf + 4 * n <= length body)%nat -> (i + n <= length gids)%nat ->
  exists b gids', gids_loop body buf i n gids = Some (b, gids').
Proof.
  induction n as [|n IH]; intros buf i gids Hb Hi; cbn [gids_loop]; [eauto|].
  destruct (body_word_total body buf) as (w & -> & _); [lia|]. simpl. unfold store_at. rewrite decide_True by lia. simpl.
  case_decide; [eauto|]. apply IH; [lia|]. rewrite length_insert. lia.
Qed.

Lemma parse_unix_total oa aup :
  Z.of_nat (length (oa_body oa)) = MAX_AUTH_BYTES -> area_ok aup -> exists stat aup', parse_unix oa aup = Some (stat, aup').
Proof.
  unfold MAX_AUTH_BYTES, area_ok, MAX_MACHINE_NAME, NGRPS. intros Hb [Hm Hg]. unfold parse_unix.
  destruct (body_word_total (oa_body oa) 0) as (time & -> & _); [lia|]. simpl.
  destruct (body_word_total (oa_body oa) 4) as (sl & -> & Hsl); [lia|]. simpl. unfold MAX_MACHINE_NAME, is_u32 in *.
  case_decide; [eauto|]. set (n := Z.to_nat sl). assert (n <= 255)%nat by lia.
  assert (HR : (RNDUP n <= 256)%nat).
  { rewrite RNDUP_pad. unfold pad. pose proof (Nat.div_mod_eq n 4). pose proof (Nat.mod_upper_bound n 4).
    assert ((4 - n mod 4) mod 4 <= 4 - n mod 4)%nat by (apply Nat.Div0.mod_le). zify. lia. }
  unfold body_bytes. rewrite decide_True by lia. simpl.
  rewrite store_name_spec by (rewrite slice_length; lia). simpl.
  destruct (body_word_total (oa_body oa) (8 + RNDUP n)) as (uid & Hu & _); [lia|]. simpl in Hu. rewrite Hu. simpl.
  destruct (body_word_total (oa_body oa) (8 + RNDUP n + 4)) as (gid & Hgd & _); [lia|]. simpl in Hgd. rewrite Hgd. simpl.
  destruct (body_word_total (oa_body oa) (8 + RNDUP n + 8)) as (gl & Hgl & Hglr); [lia|]. simpl in Hgl. rewrite Hgl. simpl.
  unfold is_u32 in Hglr. unfold NGRPS. case_decide as Hd; [eauto|].
  destruct (gids_loop_total (oa_body oa) (Z.to_nat gl) (8 + RNDUP n + 12) 0 (aup_gids aup)) as (b & gids' & Hgs); [lia..|].
  simpl in Hgs. rewrite Hgs. simpl. destruct b; simpl; [|eauto]. case_decide; eauto.
Qed.

(** Every valid credential is accepted, and its fields are stored. *)
Lemma gids_loop_complete gids : forall A B i arr,
  Forall id_ok gids -> (i + length gids <= length arr)%nat ->
  gids_loop (A ++ concat (map be32 gids) ++ B) (length A) i (length gids) arr =
    Some (true, take i arr ++ gids ++ drop (i + length gids) arr).
Proof.
  induction gids as [|g gids IH]; intros A B i arr Hok Hi; cbn [gids_loop length map concat].
  { by rewrite Nat.add_0_r, app_nil_l, take_drop. }
  apply List.Forall_cons_iff in Hok as [[Hg Hn] Hok]. cbn [length] in Hi.
  rewrite <- app_assoc, body_word_app, u32_small by done. cbn [mbind option_bind]. unfold store_at.
  rewrite decide_True by lia. cbn [mbind option_bind]. rewrite decide_False by done. specialize (IH (A ++ be32 g) B (S i) (<[i := g]> arr) Hok).
  rewrite length_insert, length_app in IH. rewrite <- !app_assoc in IH. change (length (be32 g)) with 4%nat in IH.
  rewrite IH by lia. do 2 f_equal. rewrite insert_take_drop by lia.
  rewrite drop_app_ge, take_app_ge by (rewrite length_take; lia). rewrite length_take, Nat.min_l by lia.
  rewrite <- app_assoc. f_equal. replace (S i - i)%nat with 1%nat by lia.
  replace (S i + length gids - i)%nat with (S (length gids)) by lia. simpl. f_equal. f_equal. rewrite drop_drop. f_equal. lia.
Qed.

Definition cooked (aup : authunix_parms) (time : Z) (name : list byte) (uid gid : Z) (gids : list Z) : authunix_parms :=
  mk_aup (name ++ x00 :: drop (S (length name)) (aup_machname aup)) (gids ++ drop (length gids) (aup_gids aup))
    (Z.of_nat (length gids)) uid gid time.

(** Where the fields lie. *)
Lemma sys_wire_fields body time name p uid gid gids T arr :
  sys_ok time name p uid gid gids -> (length gids <= length arr)%nat -> body = sys_wire time name p uid gid gids ++ T ->
  let buf := (8 + RNDUP (length name))%nat in
  body_word body 0 = Some (u32 time) /\ body_word body 4 = Some (Z.of_nat (length name)) /\
  body_bytes body 8 (length name) = Some name /\ body_word body buf = Some uid /\ body_word body (buf + 4) = Some gid /\
  body_word body (buf + 8) = Some (Z.of_nat (length gids)) /\
  gids_loop body (buf + 12) 0 (length gids) arr = Some (true, gids ++ drop (length gids) arr).
Proof.
  intros (Ht & Hn & Hp & [Hu _] & [Hgi _] & Hl & Hgs) Ha Hbody buf. unfold MAX_MACHINE_NAME, NGRPS in *.
  unfold sys_wire in Hbody. repeat rewrite <- app_assoc in Hbody.
  assert (Hw : forall A w off B, body = A ++ be32 w ++ B -> off = length A -> is_u32 w -> body_word body off = Some w).
  { intros A w off B Hb Ho ?. by rewrite (body_word_at _ _ A w B Hb Ho), u32_small. }
  set (A := be32 time ++ be32 (Z.of_nat (length name)) ++ name ++ p).
  assert (HA : length A = buf).
  { subst A buf. rewrite RNDUP_pad, <- Hp, !length_app. cbn [length be32]. lia. }
  split_and!.
  - apply (body_word_at body 0 [] time _ Hbody eq_refl).
  - apply (Hw (be32 time) _ _ _ Hbody eq_refl). zsolve.
  - rewrite Hbody, app_assoc. apply (body_bytes_app (be32 time ++ be32 (Z.of_nat (length name)))).
  - eapply (Hw A uid); [by rewrite Hbody; subst A; rewrite <- !app_assoc|lia|done].
  - eapply (Hw (A ++ be32 uid) gid); [by rewrite Hbody; subst A; rewrite <- !app_assoc|rewrite length_app; cbn [length be32]; lia|done].
  - eapply (Hw (A ++ be32 uid ++ be32 gid) (Z.of_nat (length gids)));
      [by rewrite Hbody; subst A; rewrite <- !app_assoc|rewrite !length_app; cbn [length be32]; lia|zsolve].
  - pose proof (gids_loop_complete gids (A ++ be32 uid ++ be32 gid ++ be32 (Z.of_nat (length gids))) T 0 arr Hgs Ha) as Hgl.
    rewrite !length_app, HA, <- !app_assoc in Hgl. cbn [length be32] in Hgl. subst A. rewrite <- !app_assoc in Hgl. rewrite Hbody. exact Hgl.
Qed.

Lemma parse_unix_complete oa aup time name p uid gid gids rest :
  area_ok aup -> sys_ok time name p uid gid gids ->
  take (Z.to_nat (oa_length oa)) (oa_body oa) = sys_wire time name p uid gid gids ++ rest ->
  parse_unix oa aup = Some (AUTH_OK, cooked aup time name uid gid gids).
Proof.
  intros [Hm Hg] Hs Hin. pose proof Hs as (Ht & Hn & Hp & [_ Hu'] & [_ Hgi'] & Hl & _). unfold MAX_MACHINE_NAME, NGRPS in *.
  assert (Hlen : (20 + RNDUP (length name) + 4 * length gids <= Z.to_nat (oa_length oa))%nat).
  { assert (length (sys_wire time name p uid gid gids ++ rest) <= Z.to_nat (oa_length oa))%nat as Hle
      by (rewrite <- Hin, length_take; lia).
    unfold sys_wire in Hle. rewrite !length_app, concat_be32_length, Hp in Hle. rewrite RNDUP_pad. cbn [length be32] in Hle. lia. }
  set (T := rest ++ drop (Z.to_nat (oa_length oa)) (oa_body oa)).
  assert (Hbody : oa_body oa = sys_wire time name p uid gid gids ++ T).
  { rewrite <- (take_drop (Z.to_nat (oa_length oa)) (oa_body oa)) at 1. rewrite Hin. subst T. by rewrite <- app_assoc. }
  destruct (sys_wire_fields _ _ _ _ _ _ _ _ (aup_gids aup) Hs ltac:(lia) Hbody) as (W0 & W4 & Bn & Wu & Wg & Wl & Wgs).
  unfold parse_unix. rewrite W0. cbn [mbind option_bind]. rewrite W4. cbn [mbind option_bind].
  rewrite decide_False by (unfold MAX_MACHINE_NAME; lia). rewrite Nat2Z.id, Bn. cbn [mbind option_bind].
  rewrite store_name_spec by (cbn; lia). cbn [mbind option_bind].
  rewrite Wu. cbn [mbind option_bind]. rewrite Wg. cbn [mbind option_bind]. rewrite Wl. cbn [mbind option_bind].
  rewrite decide_False by (unfold NGRPS; intros [?|[?|?]]; [lia|done|done]). rewrite Nat2Z.id.
  match goal with |- context [gids_loop _ _ 0 _ ?g] => change g with (aup_gids aup) end. rewrite Wgs.
  cbn [mbind option_bind negb]. rewrite decide_False by lia. rewrite i32_u32, i32_small by done. reflexivity.
Qed.

(** Nothing else is accepted. *)
Lemma gids_loop_sound body n : forall buf i arr arr',
  gids_loop body buf i n arr = Some (true, arr') -> (buf <= length body)%nat ->
  exists gids, length gids = n /\ Forall id_ok gids /\ slice buf (4 * n) body = concat (map be32 gids) /\
    (buf + 4 * n <= length body)%nat.
Proof.
  induction n as [|n IH]; intros buf i arr arr'; cbn [gids_loop]; [intros; exists []; split_and!; [done|done|done|lia]|].
  unfold body_word. case_decide as Hb; [|done]. cbn [mbind option_bind]. set (w := be32_val (slice buf 4 body)).
  destruct (store_at arr i w) as [arr1|]; [|done]. cbn [mbind option_bind]. case_decide as Hw; [done|].
  intros Hl _. apply IH in Hl as (gids & Hlen & Hg & Hs & Hle); [|lia].
  exists (w :: gids). split_and!.
  - by simpl; rewrite Hlen.
  - constructor; [|done]. split; [apply be32_val_range|done].
  - cbn [map concat]. rewrite <- Hs. subst w. rewrite be32_of_val by (apply slice_length; lia).
    replace (4 * S n)%nat with (4 + 4 * n)%nat by lia. rewrite slice_split by lia. done.
  - lia.
Qed.

Lemma body_word_inv body off w : body_word body off = Some w -> is_u32 w /\ slice off 4 body = be32 w /\ (off + 4 <= length body)%nat.
Proof.
  unfold body_word. case_decide; [|done]. intros Hw. simplify_eq. split_and!; [apply be32_val_range| |done].
  by rewrite be32_of_val by (apply slice_length; lia).
Qed.

Lemma parse_unix_sound oa aup aup' :
  Z.of_nat (length (oa_body oa)) = MAX_AUTH_BYTES -> parse_unix oa aup = Some (AUTH_OK, aup') ->
  exists time name p uid gid gids rest, sys_ok time name p uid gid gids /\
    take (Z.to_nat (oa_length oa)) (oa_body oa) = sys_wire time name p uid gid gids ++ rest.
Proof.
  intros Hb. unfold parse_unix. set (body := oa_body oa) in *.
  destruct (body_word body 0) as [time|] eqn:W0; [|done]. destruct (body_word body 4) as [sl|] eqn:W4; [|done].
  cbn [mbind option_bind]. case_decide as Hsl; [done|]. set (n := Z.to_nat sl).
  unfold body_bytes. case_decide as Hn; [|done]. cbn [mbind option_bind].
  destruct (store_name _ _) as [mach|]; [|done]. cbn [mbind option_bind].
  destruct (body_word body (8 + RNDUP n)) as [uid|] eqn:Wu; [|done]. destruct (body_word body (8 + RNDUP n + 4)) as [gid|] eqn:Wg; [|done].
  destruct (body_word body (8 + RNDUP n + 8)) as [gl|] eqn:Wl; [|done]. cbn [mbind option_bind].
  case_decide as Hids; [done|].
  destruct (gids_loop _ _ _ _ _) as [[[] arr]|] eqn:Hgl; [|done|done]. cbn [mbind option_bind negb].
  case_decide as Hlen; [done|]. intros _.
  apply body_word_inv in W0 as (_ & W0 & _), W4 as (Hslr & W4 & _), Wu as (Hur & Wu & _), Wg as (Hgr & Wg & _), Wl as (Hlr & Wl & Hle).
  apply gids_loop_sound in Hgl as (gids & Hgn & Hgo & Hgs & Hge); [|lia].
  unfold is_u32, MAX_MACHINE_NAME, NGRPS, MAX_AUTH_BYTES in *. pose proof (RNDUP_pad n) as HR.
  assert (Hnl : length (slice 8 n body) = n) by (apply slice_length; lia).
  exists (i32 time), (slice 8 n body), (slice (8 + n) (pad n) body), uid, gid, gids,
    (drop (20 + RNDUP n + 4 * length gids) (take (Z.to_nat (oa_length oa)) body)).
  split; [|rewrite <- (take_drop (20 + RNDUP n + 4 * length gids) (take _ body)) at 1; f_equal].
  - assert (id_ok uid /\ id_ok gid) as [? ?] by (unfold id_ok, is_u32; tauto).
    split_and!; try done; [apply i32_range|unfold MAX_MACHINE_NAME; lia|rewrite slice_length by lia; by rewrite Hnl|unfold NGRPS; lia].
  - rewrite take_take, Nat.min_l by lia. unfold sys_wire. rewrite Hnl, be32_i32.
    change (take (20 + RNDUP n + 4 * length gids) body) with (slice 0 (20 + RNDUP n + 4 * length gids) body).
    replace (20 + RNDUP n + 4 * length gids)%nat with (4 + (4 + (n + (pad n + (4 + (4 + (4 + 4 * length gids)))))))%nat by lia.
    do 7 (rewrite slice_split by lia). rewrite Nat.add_0_l in *. change (4 + 4)%nat with 8%nat.
    replace (8 + n + pad n)%nat with (8 + RNDUP n)%nat by lia. rewrite <- !(Nat.add_assoc (8 + RNDUP n)).
    cbn [Nat.add] in *. rewrite W0, W4, Wu, Wg, Wl, Hgn, Hgs, Z2Nat.id by lia. by replace (Z.of_nat n) with sl by lia.
Qed.

(** ** The properties *)


(** The credential of the witness: machine "nfs", user 1000, group 100, one more group. *)
Definition demo_cred : opaque_auth :=
  mk_auth AUTH_SYS 28 (sys_wire 7 [x6e; x66; x73] [x00] 1000 100 [4] ++ repeat x00 372).

Definition demo_area : authunix_parms := mk_aup (repeat x00 256) (repeat 0 16) 0 0 0 0.

