(* ===== verification/City.v ===== *)
(** * CityHash (libntirpc [src/city.c])

    The hash that [svc_vc_checksum] puts on a request, with the parts that the
    later version in [CityHash] shares with it.  A pointer is an offset [s] into [data]; a
    read outside of [data] is [None].  The functions for processors with CRC
    instructions are not modelled. *)
From S2P Require Import Prelude XdrStream.

Open Scope Z_scope.

(** ** 64-bit and 32-bit arithmetic *)

Declare Scope city_scope.
Delimit Scope city_scope with city.
Notation "a +! b" := (u64 (a + b)) (at level 50, left associativity) : city_scope.
Notation "a -! b" := (u64 (a - b)) (at level 50, left associativity) : city_scope.
Notation "a *! b" := (u64 (a * b)) (at level 40, left associativity) : city_scope.
Notation "a ^! b" := (Z.lxor a b) (at level 52, left associativity) : city_scope.
Notation "a >>! n" := (Z.shiftr a n) (at level 45, left associativity) : city_scope.
Notation "a <<! n" := (u64 (Z.shiftl a n)) (at level 45, left associativity) : city_scope.
Notation "a +? b" := (u32 (a + b)) (at level 50, left associativity) : city_scope.
Notation "a *? b" := (u32 (a * b)) (at level 40, left associativity) : city_scope.
Open Scope city_scope.

(** Little-endian words. *)
Fixpoint le_val (l : list byte) : Z :=
  match l with
  | [] => 0
  | b :: l' => byte_val b + 256 * le_val l'
  end.

Definition Fetch64 (data : list byte) (p : nat) : option Z :=
  if decide (p + 8 <= length data)%nat then Some (le_val (slice p 8 data)) else None.

Definition Fetch32 (data : list byte) (p : nat) : option Z :=
  if decide (p + 4 <= length data)%nat then Some (le_val (slice p 4 data)) else None.

Definition Fetch8 (data : list byte) (p : nat) : option Z := byte_val <$> data !! p.

Definition k0 : Z := 0xc3a5c85c97cb3127.
Definition k1 : Z := 0xb492b66fbe98f273.
Definition k2 : Z := 0x9ae16a3b2f90404f.
Definition k3 : Z := 0xc949d7c7509e6557.

(** [uint128]. *)
Definition uint128 : Type := Z * Z.

Definition Rotate (val shift : Z) : Z :=
  if decide (shift = 0) then val else Z.lor (val >>! shift) (val <<! (64 - shift)).

Definition RotateByAtLeast1 (val shift : Z) : Z := Z.lor (val >>! shift) (val <<! (64 - shift)).

Definition ShiftMix (val : Z) : Z := val ^! (val >>! 47).

Definition Hash128to64 (x : uint128) : Z :=
  let kMul := 0x9ddfea08eb382d69 in
  let a := (x.1 ^! x.2) *! kMul in
  let a := a ^! (a >>! 47) in
  let b := (x.2 ^! a) *! kMul in
  let b := b ^! (b >>! 47) in
  b *! kMul.

Definition HashLen16 (u v : Z) : Z := Hash128to64 (u, v).

Definition WeakHashLen32WithSeeds6 (w x y z a b : Z) : uint128 :=
  let a := a +! w in
  let b := Rotate (b +! a +! z) 21 in
  let c := a in
  let a := a +! x in
  let a := a +! y in
  let b := b +! Rotate a 44 in
  (a +! z, b +! c).

Definition WeakHashLen32WithSeeds (data : list byte) (s : nat) (a b : Z) : option uint128 :=
  w ← Fetch64 data s; x ← Fetch64 data (s + 8); y ← Fetch64 data (s + 16); z ← Fetch64 data (s + 24);
  Some (WeakHashLen32WithSeeds6 w x y z a b).

(** ** The state of the loops *)

Record city := mk_city {
  cx : Z;
  cy : Z;
  cz : Z;
  cv : uint128;
  cw : uint128 }.

(** One round over 64 bytes at [s]; both versions of the code have it. *)
Definition city_round (data : list byte) (s : nat) (t : city) : option city :=
  f8 ← Fetch64 data (s + 8);
  let x := Rotate (cx t +! cy t +! (cv t).1 +! f8) 37 *! k1 in
  f48 ← Fetch64 data (s + 48);
  let y := Rotate (cy t +! (cv t).2 +! f48) 42 *! k1 in
  let x := x ^! (cw t).2 in
  f40 ← Fetch64 data (s + 40);
  let y := y +! ((cv t).1 +! f40) in
  let z := Rotate (cz t +! (cw t).1) 33 *! k1 in
  v ← WeakHashLen32WithSeeds data s ((cv t).2 *! k1) (x +! (cw t).1);
  f16 ← Fetch64 data (s + 16);
  w ← WeakHashLen32WithSeeds data (s + 32) (z +! (cw t).2) (y +! f16);
  Some (mk_city z y x v w).

(** [do ... while (len != 0)] over [n] chunks. *)
Fixpoint city_rounds (data : list byte) (n s : nat) (t : city) : option (city * nat) :=
  match n with
  | O => Some (t, s)
  | S n' => t ← city_round data s t; city_rounds data n' (s + 64) t
  end.

(** What [CityHash64] of both versions does with more than 64 bytes.  [len] is
    rounded down to [64 * n] with [n > 0]. *)
Definition city64_long (data : list byte) (s len : nat) : option Z :=
  let l := Z.of_nat len in
  x ← Fetch64 data (s + len - 40);
  f16 ← Fetch64 data (s + len - 16); f56 ← Fetch64 data (s + len - 56);
  let y := f16 +! f56 in
  f48 ← Fetch64 data (s + len - 48); f24 ← Fetch64 data (s + len - 24);
  let z := HashLen16 (f48 +! l) f24 in
  v ← WeakHashLen32WithSeeds data (s + len - 64) l z;
  w ← WeakHashLen32WithSeeds data (s + len - 32) (y +! k1) x;
  f0 ← Fetch64 data s;
  let x := x *! k1 +! f0 in
  '(t, _) ← city_rounds data ((len - 1) / 64) s (mk_city x y z v w);
  Some (HashLen16 (HashLen16 (cv t).1 (cw t).1 +! ShiftMix (cy t) *! k1 +! cz t)
                  (HashLen16 (cv t).2 (cw t).2 +! cx t)).

(** The rounds of [CityHash128WithSeed], two at a time while 128 bytes are left. *)
Definition city128_start (data : list byte) (s len : nat) (seed : uint128) : option city :=
  let x := seed.1 in
  let y := seed.2 in
  let z := Z.of_nat len *! k1 in
  f0 ← Fetch64 data s;
  let v1 := Rotate (y ^! k1) 49 *! k1 +! f0 in
  f8 ← Fetch64 data (s + 8);
  let v2 := Rotate v1 42 *! k1 +! f8 in
  let w1 := Rotate (y +! z) 35 *! k1 +! x in
  f88 ← Fetch64 data (s + 88);
  let w2 := Rotate (x +! f88) 53 *! k1 in
  Some (mk_city x y z (v1, v2) (w1, w2)).

Definition city128_end (t : city) : uint128 :=
  let x := HashLen16 (cx t) (cv t).1 in
  let y := HashLen16 (cy t +! cz t) (cw t).1 in
  (HashLen16 (x +! (cv t).2) (cw t).2 +! y, HashLen16 (x +! (cw t).2) (y +! (cv t).2)).

(** The loop of [CityMurmur] over 16 bytes at a time. *)
Fixpoint murmur_rounds (data : list byte) (n s : nat) (a b c d : Z) : option (Z * Z * Z * Z) :=
  match n with
  | O => Some (a, b, c, d)
  | S n' =>
      f0 ← Fetch64 data s;
      let a := (a ^! (ShiftMix (f0 *! k1) *! k1)) *! k1 in
      let b := b ^! a in
      f8 ← Fetch64 data (s + 8);
      let c := (c ^! (ShiftMix (f8 *! k1) *! k1)) *! k1 in
      let d := d ^! c in
      murmur_rounds data n' (s + 16) a b c d
  end.

(** [CityMurmur], given how short strings are hashed: [l = len - 16] bytes, the
    loop runs while [l > 0]. *)
Definition CityMurmur_with (short : list byte -> nat -> nat -> option Z) (data : list byte) (s len : nat) (seed : uint128)
  : option uint128 :=
  let a := seed.1 in
  let b := seed.2 in
  '(a, b, c, d) ←
    (if decide (len <= 16)%nat then
       let a := ShiftMix (a *! k1) *! k1 in
       h ← short data s len;
       let c := b *! k1 +! h in
       f ← (if decide (8 <= len)%nat then Fetch64 data s else Some c);
       Some (a, b, c, ShiftMix (a +! f))
     else
       e8 ← Fetch64 data (s + len - 8);
       let c := HashLen16 (e8 +! k1) a in
       e16 ← Fetch64 data (s + len - 16);
       let d := HashLen16 (b +! Z.of_nat len) (c +! e16) in
       let a := a +! d in
       murmur_rounds data ((len - 1) / 16) s a b c d);
  let a := HashLen16 a c in
  let b := HashLen16 d b in
  Some (a ^! b, HashLen16 b a).

(** ** [city.c] *)

Definition HashLen0to16 (data : list byte) (s len : nat) : option Z :=
  let l := Z.of_nat len in
  if decide (8 < len)%nat then
    a ← Fetch64 data s; b ← Fetch64 data (s + len - 8);
    Some (HashLen16 a (RotateByAtLeast1 (b +! l) l) ^! b)
  else if decide (4 <= len)%nat then
    a ← Fetch32 data s; e ← Fetch32 data (s + len - 4);
    Some (HashLen16 (l +! (a <<! 3)) e)
  else if decide (0 < len)%nat then
    a ← Fetch8 data s; b ← Fetch8 data (s + Nat.div2 len); c ← Fetch8 data (s + len - 1);
    let y := a +? u32 (Z.shiftl b 8) in
    let z := u32 l +? u32 (Z.shiftl c 2) in
    Some (ShiftMix ((y *! k2) ^! (z *! k3)) *! k2)
  else Some k2.

Definition HashLen17to32 (data : list byte) (s len : nat) : option Z :=
  f0 ← Fetch64 data s; b ← Fetch64 data (s + 8);
  e8 ← Fetch64 data (s + len - 8); e16 ← Fetch64 data (s + len - 16);
  let a := f0 *! k1 in
  let c := e8 *! k2 in
  let d := e16 *! k0 in
  Some (HashLen16 (Rotate (a -! b) 43 +! Rotate c 30 +! d)
                  (a +! Rotate (b ^! k3) 20 -! c +! Z.of_nat len)).

Definition HashLen33to64 (data : list byte) (s len : nat) : option Z :=
  z ← Fetch64 data (s + 24); f0 ← Fetch64 data s; e16 ← Fetch64 data (s + len - 16);
  let a := f0 +! (Z.of_nat len +! e16) *! k0 in
  let b := Rotate (a +! z) 52 in
  let c := Rotate a 37 in
  f8 ← Fetch64 data (s + 8);
  let a := a +! f8 in
  let c := c +! Rotate a 7 in
  f16 ← Fetch64 data (s + 16);
  let a := a +! f16 in
  let vf := a +! z in
  let vs := b +! Rotate a 31 +! c in
  e32 ← Fetch64 data (s + len - 32);
  let a := f16 +! e32 in
  z ← Fetch64 data (s + len - 8);
  let b := Rotate (a +! z) 52 in
  let c := Rotate a 37 in
  e24 ← Fetch64 data (s + len - 24);
  let a := a +! e24 in
  let c := c +! Rotate a 7 in
  let a := a +! e16 in
  let wf := a +! z in
  let ws := b +! Rotate a 31 +! c in
  let r := ShiftMix ((vf +! ws) *! k2 +! (wf +! vs) *! k0) in
  Some (ShiftMix (r *! k0 +! vs) *! k2).

Definition CityHash64 (data : list byte) (s len : nat) : option Z :=
  if decide (len <= 32)%nat then
    if decide (len <= 16)%nat then HashLen0to16 data s len else HashLen17to32 data s len
  else if decide (len <= 64)%nat then HashLen33to64 data s len
  else city64_long data s len.

Definition CityHash64WithSeeds (data : list byte) (s len : nat) (seed0 seed1 : Z) : option Z :=
  h ← CityHash64 data s len; Some (HashLen16 (h -! seed0) seed1).

Definition CityHash64WithSeed (data : list byte) (s len : nat) (seed : Z) : option Z :=
  CityHash64WithSeeds data s len k2 seed.

Definition CityMurmur : list byte -> nat -> nat -> uint128 -> option uint128 := CityMurmur_with HashLen0to16.

(** The chunks of 32 bytes from the end; [n] are left, [tail_done] bytes are. *)
Fixpoint city128_tail (data : list byte) (n s len tail_done : nat) (t : city) : option city :=
  match n with
  | O => Some t
  | S n' =>
      if decide (tail_done < len)%nat then
        let tail_done := (tail_done + 32)%nat in
        let y := Rotate (cx t +! cy t) 42 *! k0 +! (cv t).2 in
        f16 ← Fetch64 data (s + len - tail_done + 16);
        let w1 := (cw t).1 +! f16 in
        let x := cx t *! k0 +! w1 in
        f0 ← Fetch64 data (s + len - tail_done);
        let z := cz t +! ((cw t).2 +! f0) in
        let w2 := (cw t).2 +! (cv t).1 in
        v ← WeakHashLen32WithSeeds data (s + len - tail_done) ((cv t).1 +! z) (cv t).2;
        city128_tail data n' s len tail_done (mk_city x y z v (w1, w2))
      else Some t
  end.

Definition CityHash128WithSeed (data : list byte) (s len : nat) (seed : uint128) : option uint128 :=
  if decide (len < 128)%nat then CityMurmur data s len seed
  else
    t ← city128_start data s len seed;
    '(t, s) ← city_rounds data (2 * (len / 128)) s t;
    let len := (len mod 128)%nat in
    let x := cx t +! Rotate ((cv t).1 +! cz t) 49 *! k0 in
    let z := cz t +! Rotate (cw t).1 37 *! k0 in
    t ← city128_tail data 4 s len 0 (mk_city x (cy t) z (cv t) (cw t));
    Some (city128_end t).

Definition CityHash128 (data : list byte) (s len : nat) : option uint128 :=
  if decide (16 <= len)%nat then
    f0 ← Fetch64 data s; f8 ← Fetch64 data (s + 8);
    CityHash128WithSeed data (s + 16) (len - 16) (f0 ^! k3, f8)
  else if decide (8 <= len)%nat then
    f0 ← Fetch64 data s; e8 ← Fetch64 data (s + len - 8);
    CityHash128WithSeed [] 0 0 (f0 ^! (Z.of_nat len *! k0), e8 ^! k1)
  else CityHash128WithSeed data s len (k0, k1).


(** ** The hashes are always defined *)

Lemma le_val_range l : 0 <= le_val l < 256 ^ Z.of_nat (length l).
Proof.
  induction l as [|b l IH]; [done|]. cbn [le_val length]. rewrite Nat2Z.inj_succ, Z.pow_succ_r by lia.
  pose proof (byte_val_range b) as Hb. unfold is_u8 in Hb. lia.
Qed.

Lemma Fetch64_total data p : (p + 8 <= length data)%nat -> exists v, Fetch64 data p = Some v /\ is_u64 v.
Proof.
  intros Hp. unfold Fetch64. rewrite decide_True by done. eexists. split; [done|].
  pose proof (le_val_range (slice p 8 data)) as Hr. rewrite slice_length in Hr by done. exact Hr.
Qed.

Lemma Fetch32_total data p : (p + 4 <= length data)%nat -> exists v, Fetch32 data p = Some v.
Proof. intros Hp. unfold Fetch32. rewrite decide_True by done. eauto. Qed.

Lemma Fetch8_total data p : (p < length data)%nat -> exists v, Fetch8 data p = Some v.
Proof. intros Hp. unfold Fetch8. destruct (lookup_lt_is_Some_2 data p Hp) as [b ->]. eauto. Qed.

Lemma Weak_total data s a b : (s + 32 <= length data)%nat -> exists v, WeakHashLen32WithSeeds data s a b = Some v.
Proof.
  intros Hs. unfold WeakHashLen32WithSeeds.
  destruct (Fetch64_total data s) as (? & -> & _); [lia|]. destruct (Fetch64_total data (s + 8)) as (? & -> & _); [lia|].
  destruct (Fetch64_total data (s + 16)) as (? & -> & _); [lia|]. destruct (Fetch64_total data (s + 24)) as (? & -> & _); [lia|].
  simpl. eauto.
Qed.

(** Follows the reads of a function that all succeed. *)
Ltac fetch :=
  repeat
    (cbn [mbind option_bind];
     match goal with
     | |- context [Fetch64 ?d ?p] =>
         let v := fresh "v" in let Hv := fresh "Hv" in
         destruct (Fetch64_total d p) as (v & -> & Hv); [lia|]
     | |- context [Fetch32 ?d ?p] => let v := fresh "v" in destruct (Fetch32_total d p) as (v & ->); [lia|]
     | |- context [Fetch8 ?d ?p] => let v := fresh "v" in destruct (Fetch8_total d p) as (v & ->); [lia|]
     | |- context [WeakHashLen32WithSeeds ?d ?p ?a ?b] =>
         let v := fresh "v" in destruct (Weak_total d p a b) as (v & ->); [lia|]
     end); cbn [mbind option_bind].

Lemma HashLen16_range u v : is_u64 (HashLen16 u v).
Proof. apply u64_range. Qed.

Lemma round_total data s t : (s + 64 <= length data)%nat -> exists t', city_round data s t = Some t'.
Proof. intros Hs. unfold city_round. fetch. eauto. Qed.

Lemma rounds_total data n : forall s t,
  (s + 64 * n <= length data)%nat -> exists t', city_rounds data n s t = Some (t', (s + 64 * n)%nat).
Proof.
  induction n as [|n IH]; intros s t Hs; cbn [city_rounds]; [exists t; do 2 f_equal; lia|].
  destruct (round_total data s t) as [t1 ->]; [lia|]. cbn [mbind option_bind].
  destruct (IH (s + 64)%nat t1) as [t2 ->]; [lia|]. exists t2. do 2 f_equal. lia.
Qed.

Lemma city64_long_total data s len :
  (64 < len)%nat -> (s + len <= length data)%nat -> exists h, city64_long data s len = Some h /\ is_u64 h.
Proof.
  intros Hl Hs. unfold city64_long. fetch.
  pose proof (Nat.div_mod_eq (len - 1) 64).
  match goal with |- context [city_rounds ?d ?n ?p ?t] => destruct (rounds_total d n p t) as [t' ->]; [lia|] end.
  cbn [mbind option_bind]. eexists. split; [done|apply HashLen16_range].
Qed.

Lemma start_total data s len seed :
  (96 <= len)%nat -> (s + len <= length data)%nat -> exists t, city128_start data s len seed = Some t.
Proof. intros Hl Hs. unfold city128_start. fetch. eauto. Qed.

Lemma murmur_rounds_total data n : forall s a b c d,
  (s + 16 * n <= length data)%nat -> exists r, murmur_rounds data n s a b c d = Some r.
Proof.
  induction n as [|n IH]; intros s a b c d Hs; cbn [murmur_rounds]; [eauto|]. fetch. apply IH. lia.
Qed.

(** What a hash of strings promises. *)
Definition hash_total (h : list byte -> nat -> nat -> option Z) (w : Z -> Prop) : Prop := forall data s len,
  (s + len <= length data)%nat -> exists v, h data s len = Some v /\ w v.

Definition hash128_total (h : list byte -> nat -> nat -> option uint128) : Prop := forall data s len,
  (s + len <= length data)%nat -> exists v, h data s len = Some v /\ is_u64 v.1 /\ is_u64 v.2.

Lemma CityMurmur_total short seed :
  (forall data s len, (s + len <= length data)%nat -> (len <= 16)%nat -> exists v, short data s len = Some v) ->
  hash128_total (fun data s len => CityMurmur_with short data s len seed).
Proof.
  intros Hshort data s len Hs. unfold CityMurmur_with.
  assert (Hx : forall a b c d : Z, exists v : uint128, Some (HashLen16 a c ^! HashLen16 d b, HashLen16 (HashLen16 d b) (HashLen16 a c)) = Some v /\
    is_u64 v.1 /\ is_u64 v.2).
  { intros. eexists. split; [done|]. split; [apply lxor_range; [done|apply HashLen16_range..]|apply HashLen16_range]. }
  case_decide as Hl.
  - destruct (Hshort data s len Hs Hl) as [h ->]. cbn [mbind option_bind]. case_decide; [fetch|]; apply Hx.
  - fetch. pose proof (Nat.div_mod_eq (len - 1) 16).
    match goal with |- context [murmur_rounds ?d ?n ?p ?a ?b ?c ?e] =>
      destruct (murmur_rounds_total d n p a b c e) as [[[[a' b'] c'] d'] ->]; [lia|] end.
    apply Hx.
Qed.

Lemma end_range t : is_u64 (city128_end t).1 /\ is_u64 (city128_end t).2.
Proof. split; apply u64_range. Qed.

(** *** The functions of [city.c] *)

Lemma lib_HashLen0to16_total data s len :
  (s + len <= length data)%nat -> exists v, HashLen0to16 data s len = Some v /\ is_u64 v.
Proof.
  intros Hs. unfold HashLen0to16. case_decide; [|case_decide; [|case_decide]]; fetch.
  - eexists. split; [done|]. by apply lxor_range; [|apply HashLen16_range|].
  - eexists. split; [done|apply HashLen16_range].
  - assert (Nat.div2 len < len)%nat by (apply Nat.lt_div2; lia). fetch. eexists. split; [done|apply u64_range].
  - eexists. split; [done|]. done.
Qed.

Lemma lib_CityHash64_total : hash_total CityHash64 is_u64.
Proof.
  intros data s len Hs. unfold CityHash64. case_decide; [case_decide|case_decide].
  - by apply lib_HashLen0to16_total.
  - unfold HashLen17to32. fetch. eexists. split; [done|apply HashLen16_range].
  - unfold HashLen33to64. fetch. eexists. split; [done|apply u64_range].
  - apply city64_long_total; lia.
Qed.

Lemma lib_tail_total data n s len : forall done t,
  (128 <= s)%nat -> (len < 128)%nat -> (s + len <= length data)%nat -> (n <= 4)%nat -> (done = 32 * (4 - n))%nat ->
  exists t', city128_tail data n s len done t = Some t'.
Proof.
  induction n as [|n IH]; intros dn t Hs Hl Hd Hn4 Hn; cbn [city128_tail]; [eauto|].
  case_decide; [|eauto]. fetch. apply IH; lia.
Qed.

Lemma lib_CityHash128WithSeed_total seed : hash128_total (fun data s len => CityHash128WithSeed data s len seed).
Proof.
  intros data s len Hs. unfold CityHash128WithSeed. case_decide.
  - apply CityMurmur_total; [|done]. intros d p l Hp _. destruct (lib_HashLen0to16_total d p l Hp) as (v & ? & _). eauto.
  - destruct (start_total data s len seed) as [t ->]; [lia|done|]. cbn [mbind option_bind].
    pose proof (Nat.div_mod_eq len 128). pose proof (Nat.mod_upper_bound len 128).
    destruct (rounds_total data (2 * (len / 128)) s t) as [t' ->]; [lia|]. cbn [mbind option_bind].
    match goal with |- context [city128_tail ?d ?n ?p ?l ?k ?t] => destruct (lib_tail_total d n p l k t) as [t'' ->]; [lia..|] end.
    eexists. split; [done|apply end_range].
Qed.

Lemma lib_CityHash128_total : hash128_total CityHash128.
Proof.
  intros data s len Hs. unfold CityHash128. case_decide; [|case_decide].
  - fetch. apply lib_CityHash128WithSeed_total. lia.
  - fetch. apply lib_CityHash128WithSeed_total. simpl. lia.
  - by apply lib_CityHash128WithSeed_total.
Qed.

(** ** The vectors of [city-test.c]

    The test fills [data] with pseudorandom bytes and hashes [i] bytes at offset
    [i * i]; the expected values are the first seven columns of its table. *)

Module Vectors.

(** [setup]: the first [n] bytes of [data].  The other sequence it computes is
    not used.  The mask is the wrap-around at 64 bits. *)
Fixpoint setup (n : nat) (i b : Z) : list byte :=
  match n with
  | O => []
  | S n' =>
      let b := Z.land ((b ^! (b >>! 41)) * k0 + i) 0xffffffffffffffff in
      byte_of (b >>! 37) :: setup n' (i + 1) b
  end.

Definition kSeed0 : Z := 1234567.
Definition kSeed1 : Z := 0xc3a5c85c97cb3127.

(** [Test]: the values for the [len] bytes of [s]. *)
Definition test (s : list byte) (len : nat) : option (list Z) :=
  h ← CityHash64 s 0 len;
  h1 ← CityHash64WithSeed s 0 len kSeed0;
  h2 ← CityHash64WithSeeds s 0 len kSeed0 kSeed1;
  u ← CityHash128 s 0 len;
  v ← CityHash128WithSeed s 0 len (kSeed0, kSeed1);
  Some [h; h1; h2; u.1; u.2; v.1; v.2].

(** Rows of [testdata], with the index of the row. *)
Definition testdata : list (nat * list Z) :=
  [(0%nat, [0x9ae16a3b2f90404f; 0x75106db890237a4a; 0x3feac5f636039766; 0x3df09dfc64c09a2b; 0x3cb540c392e51e29; 0x6b56343feac0663; 0x5b7bc50fd8e8ad92]);
   (1%nat, [0x75e9dee28ded761d; 0x931992c1b14334c5; 0x245eeb25ba2c172e; 0x1290f0e8a5caa74d; 0xca4c6bf7583f5cda; 0xe1d60d51632c536d; 0xcbc54a1db641910a]);
   (3%nat, [0x69cfe9fca1cc683a; 0xe65f2a81e19b8067; 0x20575ea6370a9d14; 0x8f52532fc6f005b7; 0x4ebe60df371ec129; 0xc6ef8a7f8deb8116; 0x83df17e3c9bb9a67]);
   (4%nat, [0x675b04c582a34966; 0x53624b5ef8cd4f45; 0xc412e0931ac8c9b1; 0x798637e677c65a3; 0x83e3b06adc4cd3ff; 0xf3e76e8a7135852f; 0x111e66cfbb05366d]);
   (7%nat, [0x46663908b4169b95; 0x4e7e90b5c426bf1d; 0xdc660b58daaf8b2c; 0xb298265ebd1bd55f; 0x4a5f6838b55c0b08; 0xfc003c97aa05d397; 0x2fb5adad3380c3bc]);
   (8%nat, [0xf214b86cffeab596; 0x5fccb0b132da564f; 0x86e7aa8b4154b883; 0x763529c8d4189ea8; 0x860d77e7fef74ca3; 0x3b1ba41191219b6b; 0x722b25dfa6d0a04b]);
   (9%nat, [0xeba670441d1a4f7d; 0xeb6b272502d975fa; 0x69f8d424d50c083e; 0x313d49cb51b8cd2c; 0x6e982d8b4658654a; 0xdd59629a17e5492d; 0x81cb23bdab95e30e]);
   (15%nat, [0xe1dd010487d2d647; 0x12352858295d2167; 0xacc5e9b6f6b02dbb; 0x1c66ceea473413df; 0xdc3f70a124b25a40; 0x66a6dfe54c441cd8; 0xb436dabdaaa37121]);
   (16%nat, [0x2994f9245194a7e2; 0xb7cd7249d6db6c0c; 0x2170a7d119c5c6c3; 0x8505c996b70ee9fc; 0xb92bba6b5d778eb7; 0x4db4c57f3a7a4aee; 0x3cfd441cb222d06f]);
   (17%nat, [0x32e2ed6fa03e5b22; 0x58baf09d7c71c62b; 0xa9c599f3f8f50b5b; 0x1660a2c4972d0fa1; 0x1a1538d6b50a57c; 0x8a5362485bbc9363; 0xe8eec3c84fd9f2f8]);
   (24%nat, [0xc0a86ed83908560b; 0x440c8b6f97bd1749; 0xa99bf2891726ea93; 0xac0c0b84df66df9d; 0x3ee2337b437eb264; 0x8a341daed9a25f98; 0xcc665499aa38c78c]);
   (31%nat, [0x61d95225bc2293e; 0xf6c52cb6be9889a8; 0x91a0667a7ed6a113; 0x441133d221486a3d; 0xfb9c5a40e19515b; 0x6c967b6c69367c2d; 0x145bd9ef258c4099]);
   (32%nat, [0x81247c01ab6a9cc1; 0xfbccea953e810636; 0xae18965000c31be0; 0x15bb46383daec2a5; 0x716294063b4ba089; 0xf3bd691ce02c3014; 0x14ccaad685a20764]);
   (33%nat, [0xc17f3ebd3257cb8b; 0xe9e68c939c118c8d; 0x72a5572be35bfc1b; 0xf6916c341cb31f2a; 0x591da1353ee5f31c; 0xf1313c98a836b407; 0xe0b8473eada48cd1]);
   (48%nat, [0x33c0128e62122440; 0xb23a588c8c37ec2b; 0xf2608199ca14c26a; 0xacab0139dc4f36df; 0x9502b1605ca1345a; 0x32174ef1e06a5e9c; 0xd824b7869258192b]);
   (63%nat, [0x91c89971b3c20a8a; 0x87b82b1d55780b5; 0xbc47bb80dfdaefcd; 0x87e11c0f44454863; 0x2df1aedb5871cc4b; 0xba72fd91536382c8; 0x52cebef9e6ea865d]);
   (64%nat, [0x16468c55a1b3f2b4; 0x40b1e8d6c63c9ff4; 0x143adc6fee592576; 0x4caf4deeda66a6ee; 0x264720f6f35f7840; 0x71c3aef9e59e4452; 0x97886ca1cb073c55]);
   (65%nat, [0x1a2bd6641870b0e4; 0xe4126e928f4a7314; 0x1e9227d52aab00b2; 0xd82489179f16d4e8; 0xa3c59f65e2913cc5; 0x36cbaecdc3532b3b; 0xf1b454616cfeca41])].

Lemma city_vectors :
  let data := setup (66 * 66) 0 777 in
  forallb (fun '(i, expected) => bool_decide (test (slice (i * i) i data) i = Some expected)) testdata = true.
Proof. vm_compute. reflexivity. Qed.

End Vectors.
