(* ===== verification/CityHash.v ===== *)
(** * CityHash, the later version ([src/utils/city_hash.cpp])

    The server's own copy of the hash functions, for 32, 64 and 128 bits.  The
    rounds over long strings are those of [City]. *)
From S2P Require Import Prelude XdrStream City.

Open Scope Z_scope.
Open Scope city_scope.

(** Swapping the bytes of a word. *)
Fixpoint le_bytes (n : nat) (z : Z) : list byte :=
  match n with O => [] | S n' => byte_of z :: le_bytes n' (z >>! 8) end.
Definition bswap_64 (z : Z) : Z := le_val (rev (le_bytes 8 z)).
Definition bswap_32 (z : Z) : Z := le_val (rev (le_bytes 4 z)).

(** *** 32 bits *)

Definition c1 : Z := 0xcc9e2d51.
Definition c2 : Z := 0x1b873593.

Definition fmix (h : Z) : Z :=
  let h := h ^! (h >>! 16) in
  let h := h *? 0x85ebca6b in
  let h := h ^! (h >>! 13) in
  let h := h *? 0xc2b2ae35 in
  h ^! (h >>! 16).

Definition Rotate32 (val shift : Z) : Z :=
  if decide (shift = 0) then val else Z.lor (val >>! shift) (u32 (Z.shiftl val (32 - shift))).

(** [x = Rotate32(x, r); x = x * 5 + 0xe6546b64]. *)
Definition mix5 (x r : Z) : Z := Rotate32 x r *? 5 +? 0xe6546b64.

Definition Mur (a h : Z) : Z :=
  let a := a *? c1 in
  let a := Rotate32 a 17 in
  let a := a *? c2 in
  mix5 (h ^! a) 19.

Definition Hash32Len13to24 (data : list byte) (s len : nat) : option Z :=
  a ← Fetch32 data (s + Nat.div2 len - 4); b ← Fetch32 data (s + 4);
  c ← Fetch32 data (s + len - 8); d ← Fetch32 data (s + Nat.div2 len);
  e ← Fetch32 data s; f ← Fetch32 data (s + len - 4);
  Some (fmix (Mur f (Mur e (Mur d (Mur c (Mur b (Mur a (u32 (Z.of_nat len)))))))) ).

Fixpoint len0to4_loop (data : list byte) (n s : nat) (b c : Z) : option (Z * Z) :=
  match n with
  | O => Some (b, c)
  | S n' =>
      v ← Fetch8 data s;
      let v := if decide (v < 128) then v else v - 256 in
      let b := b *? c1 +? u32 v in
      len0to4_loop data n' (S s) b (c ^! b)
  end.

Definition Hash32Len0to4 (data : list byte) (s len : nat) : option Z :=
  '(b, c) ← len0to4_loop data len s 0 9;
  Some (fmix (Mur b (Mur (u32 (Z.of_nat len)) c))).

Definition Hash32Len5to12 (data : list byte) (s len : nat) : option Z :=
  let a := u32 (Z.of_nat len) in
  let b := a *? 5 in
  let d := b in
  f0 ← Fetch32 data s; e4 ← Fetch32 data (s + len - 4); m ← Fetch32 data (s + Nat.land (Nat.div2 len) 4);
  Some (fmix (Mur (9 +? m) (Mur (b +? e4) (Mur (a +? f0) d)))).

(** A word mixed as the blocks do it. *)
Definition block (w : Z) : Z := Rotate32 (w *? c1) 17 *? c2.

(** The loop over 20 bytes at a time. *)
Fixpoint city32_rounds (data : list byte) (iters s : nat) (h g f : Z) : option (Z * Z * Z) :=
  match iters with
  | O => Some (h, g, f)
  | S iters' =>
      w0 ← Fetch32 data s; a1 ← Fetch32 data (s + 4); w2 ← Fetch32 data (s + 8);
      w3 ← Fetch32 data (s + 12); a4 ← Fetch32 data (s + 16);
      let a0 := block w0 in
      let a2 := block w2 in
      let a3 := block w3 in
      let h := mix5 (h ^! a0) 18 in
      let f := Rotate32 (f +? a1) 19 *? c1 in
      let g := mix5 (g +? a2) 18 in
      let h := mix5 (h ^! (a3 +? a1)) 19 in
      let g := bswap_32 (g ^! a4) *? 5 in
      let h := bswap_32 (h +? (a4 *? 5)) in
      let f := f +? a0 in
      city32_rounds data iters' (s + 20) f h g
  end.

Definition CityHash32 (data : list byte) (s len : nat) : option Z :=
  if decide (len <= 24)%nat then
    if decide (len <= 12)%nat
    then (if decide (len <= 4)%nat then Hash32Len0to4 data s len else Hash32Len5to12 data s len)
    else Hash32Len13to24 data s len
  else
    let h := u32 (Z.of_nat len) in
    let g := c1 *? h in
    let f := g in
    e4 ← Fetch32 data (s + len - 4); e8 ← Fetch32 data (s + len - 8); e16 ← Fetch32 data (s + len - 16);
    e12 ← Fetch32 data (s + len - 12); e20 ← Fetch32 data (s + len - 20);
    let h := mix5 (h ^! block e4) 19 in
    let h := mix5 (h ^! block e16) 19 in
    let g := mix5 (g ^! block e8) 19 in
    let g := mix5 (g ^! block e12) 19 in
    let f := mix5 (f +? block e20) 19 in
    '(h, g, f) ← city32_rounds data ((len - 1) / 20) s h g f;
    let g := Rotate32 g 11 *? c1 in
    let g := Rotate32 g 17 *? c1 in
    let f := Rotate32 f 11 *? c1 in
    let f := Rotate32 f 17 *? c1 in
    let h := mix5 (h +? g) 19 in
    let h := Rotate32 h 17 *? c1 in
    let h := mix5 (h +? f) 19 in
    Some (Rotate32 h 17 *? c1).

(** *** 64 bits *)

Definition HashLen16_mul (u v mul : Z) : Z :=
  let a := (u ^! v) *! mul in
  let a := a ^! (a >>! 47) in
  let b := (v ^! a) *! mul in
  let b := b ^! (b >>! 47) in
  b *! mul.

Definition HashLen0to16 (data : list byte) (s len : nat) : option Z :=
  let l := Z.of_nat len in
  if decide (8 <= len)%nat then
    let mul := k2 +! l *! 2 in
    f0 ← Fetch64 data s; b ← Fetch64 data (s + len - 8);
    let a := f0 +! k2 in
    let c := Rotate b 37 *! mul +! a in
    let d := (Rotate a 25 +! b) *! mul in
    Some (HashLen16_mul c d mul)
  else if decide (4 <= len)%nat then
    let mul := k2 +! l *! 2 in
    a ← Fetch32 data s; e ← Fetch32 data (s + len - 4);
    Some (HashLen16_mul (l +! (a <<! 3)) e mul)
  else if decide (0 < len)%nat then
    a ← Fetch8 data s; b ← Fetch8 data (s + Nat.div2 len); c ← Fetch8 data (s + len - 1);
    let y := a +? u32 (Z.shiftl b 8) in
    let z := u32 l +? u32 (Z.shiftl c 2) in
    Some (ShiftMix ((y *! k2) ^! (z *! k0)) *! k2)
  else Some k2.

Definition HashLen17to32 (data : list byte) (s len : nat) : option Z :=
  let mul := k2 +! Z.of_nat len *! 2 in
  f0 ← Fetch64 data s; b ← Fetch64 data (s + 8);
  e8 ← Fetch64 data (s + len - 8); e16 ← Fetch64 data (s + len - 16);
  let a := f0 *! k1 in
  let c := e8 *! mul in
  let d := e16 *! k2 in
  Some (HashLen16_mul (Rotate (a +! b) 43 +! Rotate c 30 +! d) (a +! Rotate (b +! k2) 18 +! c) mul).

Definition HashLen33to64 (data : list byte) (s len : nat) : option Z :=
  let mul := k2 +! Z.of_nat len *! 2 in
  f0 ← Fetch64 data s; b ← Fetch64 data (s + 8);
  c ← Fetch64 data (s + len - 24); d ← Fetch64 data (s + len - 32);
  f16 ← Fetch64 data (s + 16); f24 ← Fetch64 data (s + 24);
  g ← Fetch64 data (s + len - 8); e16 ← Fetch64 data (s + len - 16);
  let a := f0 *! k2 in
  let e := f16 *! k2 in
  let f := f24 *! 9 in
  let h := e16 *! mul in
  let u := Rotate (a +! g) 43 +! (Rotate b 30 +! c) *! 9 in
  let v := ((a +! g) ^! d) +! f +! 1 in
  let w := bswap_64 ((u +! v) *! mul) +! h in
  let x := Rotate (e +! f) 42 +! c in
  let y := (bswap_64 ((v +! w) *! mul) +! g) *! mul in
  let z := e +! f +! c in
  let a := bswap_64 ((x +! z) *! mul +! y) +! b in
  let b := ShiftMix ((z +! a) *! mul +! d +! h) *! mul in
  Some (b +! x).

Definition CityHash64 (data : list byte) (s len : nat) : option Z :=
  if decide (len <= 32)%nat then
    if decide (len <= 16)%nat then HashLen0to16 data s len else HashLen17to32 data s len
  else if decide (len <= 64)%nat then HashLen33to64 data s len
  else city64_long data s len.

Definition CityHash64WithSeeds (data : list byte) (s len : nat) (seed0 seed1 : Z) : option Z :=
  h ← CityHash64 data s len; Some (HashLen16 (h -! seed0) seed1).

Definition CityHash64WithSeed (data : list byte) (s len : nat) (seed : Z) : option Z :=
  CityHash64WithSeeds data s len k2 seed.

Definition CityMurmur : list byte -> nat -> nat -> uint128 -> option uint128 := CityMurmur_with HashLen0to16.

Fixpoint city128_tail (data : list byte) (n s len tail_done : nat) (t : city) : option city :=
  match n with
  | O => Some t
  | S n' =>
      if decide (tail_done < len)%nat then
        let tail_done := (tail_done + 32)%nat in
        let y := Rotate (cx t +! cy t) 42 *! k0 +! (cv t).2 in
        f16 ← Fetch64 data (s + len - tail_done + 16);
        let w1 := (cw t).1 +! f16 in
        let x := cx t *! k0 +! w1 in
        f0 ← Fetch64 data (s + len - tail_done);
        let z := cz t +! ((cw t).2 +! f0) in
        let w2 := (cw t).2 +! (cv t).1 in
        v ← WeakHashLen32WithSeeds data (s + len - tail_done) ((cv t).1 +! z) (cv t).2;
        city128_tail data n' s len tail_done (mk_city x y z (v.1 *! k0, v.2) (w1, w2))
      else Some t
  end.

Definition CityHash128WithSeed (data : list byte) (s len : nat) (seed : uint128) : option uint128 :=
  if decide (len < 128)%nat then CityMurmur data s len seed
  else
    t ← city128_start data s len seed;
    '(t, s) ← city_rounds data (2 * (len / 128)) s t;
    let len := (len mod 128)%nat in
    let x := cx t +! Rotate ((cv t).1 +! cz t) 49 *! k0 in
    let y := cy t *! k0 +! Rotate (cw t).2 37 in
    let z := cz t *! k0 +! Rotate (cw t).1 27 in
    t ← city128_tail data 4 s len 0 (mk_city x y z ((cv t).1 *! k0, (cv t).2) ((cw t).1 *! 9, (cw t).2));
    Some (city128_end t).

Definition CityHash128 (data : list byte) (s len : nat) : option uint128 :=
  if decide (16 <= len)%nat then
    f0 ← Fetch64 data s; f8 ← Fetch64 data (s + 8);
    CityHash128WithSeed data (s + 16) (len - 16) (f0, f8 +! k0)
  else CityHash128WithSeed data s len (k0, k1).

(** ** The hashes are always defined *)

Lemma util_HashLen0to16_total data s len :
  (s + len <= length data)%nat -> exists v, HashLen0to16 data s len = Some v /\ is_u64 v.
Proof.
  intros Hs. unfold HashLen0to16. case_decide; [|case_decide; [|case_decide]]; fetch.
  - eexists. split; [done|apply u64_range].
  - eexists. split; [done|apply u64_range].
  - assert (Nat.div2 len < len)%nat by (apply Nat.lt_div2; lia). fetch. eexists. split; [done|apply u64_range].
  - eexists. split; [done|]. done.
Qed.

Lemma util_CityHash64_total : hash_total CityHash64 is_u64.
Proof.
  intros data s len Hs. unfold CityHash64. case_decide; [case_decide|case_decide].
  - by apply util_HashLen0to16_total.
  - unfold HashLen17to32. fetch. eexists. split; [done|apply u64_range].
  - unfold HashLen33to64. fetch. eexists. split; [done|apply u64_range].
  - apply city64_long_total; lia.
Qed.

Lemma util_tail_total data n s len : forall done t,
  (128 <= s)%nat -> (len < 128)%nat -> (s + len <= length data)%nat -> (n <= 4)%nat -> (done = 32 * (4 - n))%nat ->
  exists t', city128_tail data n s len done t = Some t'.
Proof.
  induction n as [|n IH]; intros dn t Hs Hl Hd Hn4 Hn; cbn [city128_tail]; [eauto|].
  case_decide; [|eauto]. fetch. apply IH; lia.
Qed.

Lemma util_CityHash128WithSeed_total seed : hash128_total (fun data s len => CityHash128WithSeed data s len seed).
Proof.
  intros data s len Hs. unfold CityHash128WithSeed. case_decide.
  - apply CityMurmur_total; [|done]. intros d p l Hp _. destruct (util_HashLen0to16_total d p l Hp) as (v & ? & _). eauto.
  - destruct (start_total data s len seed) as [t ->]; [lia|done|]. cbn [mbind option_bind].
    pose proof (Nat.div_mod_eq len 128). pose proof (Nat.mod_upper_bound len 128).
    destruct (rounds_total data (2 * (len / 128)) s t) as [t' ->]; [lia|]. cbn [mbind option_bind].
    match goal with |- context [city128_tail ?d ?n ?p ?l ?k ?t] => destruct (util_tail_total d n p l k t) as [t'' ->]; [lia..|] end.
    eexists. split; [done|apply end_range].
Qed.

Lemma util_CityHash128_total : hash128_total CityHash128.
Proof.
  intros data s len Hs. unfold CityHash128. case_decide.
  - fetch. apply util_CityHash128WithSeed_total. lia.
  - by apply util_CityHash128WithSeed_total.
Qed.

Lemma shiftr_u32 z n : is_u32 z -> 0 <= n -> is_u32 (z >>! n).
Proof.
  unfold is_u32. intros Hz Hn. rewrite Z.shiftr_div_pow2 by done.
  pose proof (Z.pow_pos_nonneg 2 n ltac:(lia) Hn). split; [apply Z.div_pos; lia|].
  apply Z.div_lt_upper_bound; [done|]. nia.
Qed.

Lemma fmix_range h : is_u32 (fmix h).
Proof.
  unfold fmix. set (x := _ *? 0xc2b2ae35). assert (is_u32 x) by apply u32_range.
  apply lxor_range; [done|done|]. by apply shiftr_u32.
Qed.

Lemma len0to4_total data n : forall s b c, (s + n <= length data)%nat -> exists r, len0to4_loop data n s b c = Some r.
Proof.
  induction n as [|n IH]; intros s b c Hs; cbn [len0to4_loop]; [eauto|]. fetch. apply IH. lia.
Qed.

Lemma city32_rounds_total data n : forall s h g f,
  (s + 20 * n <= length data)%nat -> exists r, city32_rounds data n s h g f = Some r.
Proof.
  induction n as [|n IH]; intros s h g f Hs; cbn [city32_rounds]; [eauto|]. fetch. apply IH. lia.
Qed.

Lemma CityHash32_total : hash_total CityHash32 is_u32.
Proof.
  intros data s len Hs. unfold CityHash32. pose proof (Nat.div2_decr len len ltac:(lia)).
  assert (Hd : (len = 2 * Nat.div2 len + Nat.b2n (Nat.odd len))%nat) by apply Nat.div2_odd.
  assert (Nat.b2n (Nat.odd len) <= 1)%nat by (destruct (Nat.odd len); simpl; lia).
  case_decide; [case_decide; [case_decide|]|].
  - unfold Hash32Len0to4. destruct (len0to4_total data len s 0 9 Hs) as [[b c] ->]. eexists. split; [done|apply fmix_range].
  - unfold Hash32Len5to12. assert (Nat.land (Nat.div2 len) 4 + 4 <= len)%nat.
    { assert (Hc : forallb (fun l => (l <=? 4) || (Nat.land (Nat.div2 l) 4 + 4 <=? l))%nat (seq 0 13) = true) by reflexivity.
      rewrite forallb_forall in Hc. specialize (Hc len). rewrite in_seq in Hc. specialize (Hc ltac:(lia)).
      apply orb_true_iff in Hc as [Hc|Hc]; apply Nat.leb_le in Hc; lia. }
    fetch. eexists. split; [done|apply fmix_range].
  - unfold Hash32Len13to24. fetch. eexists. split; [done|apply fmix_range].
  - fetch. pose proof (Nat.div_mod_eq (len - 1) 20).
    match goal with |- context [city32_rounds ?d ?n ?p ?h ?g ?f] =>
      destruct (city32_rounds_total d n p h g f) as [[[h' g'] f'] ->]; [lia|] end.
    eexists. split; [done|apply u32_range].
Qed.

(** Both versions of CityHash, for 64 and for 128 bits and, in the server's own
    version, for 32 bits: whatever the bytes and their number, the hash exists,
    every read is within the string, and the result fits its type. *)
Theorem city_hashes_total :
  hash_total City.CityHash64 is_u64 /\ hash128_total City.CityHash128 /\
  hash_total CityHash64 is_u64 /\ hash128_total CityHash128 /\ hash_total CityHash32 is_u32.
Proof.
  split_and!; [apply lib_CityHash64_total|apply lib_CityHash128_total|apply util_CityHash64_total
    |apply util_CityHash128_total|apply CityHash32_total].
Qed.
