(* ===== verification/SvcVc.v ===== *)
(** * Records on a stream socket (libntirpc [svc_vc_recv] of [src/svc_vc.c],
    [src/svc_ioq.c])

    A message travels as a record of fragments, each behind a word with its length
    and the flag of the last one (RFC 5531, section 11).  The receiver collects the
    fragments of a record in a queue, the sender writes a queue as a record.  What
    the socket does is an argument: the answers of [recv] and [sendmsg] in the
    order of the calls. *)
From S2P Require Import Prelude XdrStream XdrIoq IoqPos.

Open Scope Z_scope.
Open Scope dnfs_scope.

Definition EAGAIN : Z := 11.
Definition UIO_FLAG_MORE : Z := 0x0008.
Definition LAST_FRAG : Z := 0x80000000.
Definition LAST_FRAG_XDR_UNITS : Z := Z.land (LAST_FRAG - 1) (Z.lnot (4 - 1)).
Definition PRESUMED_UIO_MAXIOV : nat := Z.to_nat 1024.

Definition PP2_SIG_UINT32 : Z := 0x0d0a0d0a.
Definition PP2_SIG_UINT32_2 : Z := 0x000d0a51.
Definition PP2_SIG_UINT32_3 : Z := 0x5549540a.
Definition PP2_VERSION2_CMD_LOCAL : Z := 0x20.
Definition PP2_VERSIOB2_CMD_PROXY : Z := 0x21.
Definition PP2_TRANS_STREAM_FAM_INET : Z := 0x11.
Definition PP2_TRANS_STREAM_FAM_INET6 : Z := 0x21.

(** ** Receiving *)

(** The answer of a call of [recv]: an error, or bytes; none at the end. *)
Inductive recv_result :=
  | RecvErr (code : Z)
  | RecvData (bs : list byte).

(** [recv] of at most [n] bytes; a call that has no answer would block. *)
Definition recv (n : nat) (ans : list recv_result) : recv_result * list recv_result :=
  match ans with
  | [] => (RecvErr EAGAIN, [])
  | RecvErr code :: ans => (RecvErr code, ans)
  | RecvData bs :: ans => (RecvData (take n bs), ans)
  end.

Inductive sockaddr :=
  | AF_INET (addr port : list byte)
  | AF_INET6 (addr port : list byte).

(** [struct svc_vc_xprt] and the parts of [SVCXPRT] that receiving changes; of
    [rec->ioq] the buffers of the one queue that is being filled. *)
Record svc_vc := mk_vc {
  sx_fbtbc : Z;
  vc_ioq : option (list xdr_ioq_uv);
  xp_destroyed : bool;
  xp_remote : sockaddr;
  xp_proxy : option sockaddr }.
#[global] Instance eta_vc : RecEta svc_vc :=
  fun r => mk_vc (sx_fbtbc r) (vc_ioq r) (xp_destroyed r) (xp_remote r) (xp_proxy r).

Definition svc_destroy (vc : svc_vc) : svc_vc := vc <| xp_destroyed := true |>.

(** [if (svc_rqst_rearm_events(...)) SVC_DESTROY(xprt);] *)
Definition rearm_events (rearmed : bool) (vc : svc_vc) : svc_vc := if rearmed then vc else svc_destroy vc.

(** The word [old] of a little-endian host with [bs] stored over its first bytes,
    through [ntohl]. *)
Definition received_word (old : Z) (bs : list byte) : Z :=
  be32_val (bs ++ drop (length bs) (rev (be32 old))).

(** What reading the header of a fragment leads to: the call ends, or a fragment
    follows whose flags these are. *)
Inductive header :=
  | HeaderReturn (vc : svc_vc) (ans : list recv_result)
  | HeaderAgain (vc : svc_vc) (ans : list recv_result)
  | HeaderFragment (vc : svc_vc) (ans : list recv_result) (flags : Z).

(** A header of the PROXY protocol, its first word being read.  [None] is a read
    behind the end of the address that was allocated with the length the peer sent. *)
Definition proxy_header (rearmed : bool) (vc : svc_vc) (ans : list recv_result) : option header :=
  match recv 8 ans with
  | (RecvData rest, ans) =>
      if decide (length rest <> 8)%nat then Some (HeaderReturn (svc_destroy vc) ans)
      else
        let vc :=
          if decide (be32_val (slice 0 4 rest) <> PP2_SIG_UINT32_2 \/ be32_val (slice 4 4 rest) <> PP2_SIG_UINT32_3)
          then svc_destroy vc else vc in
        match recv 4 ans with
        | (RecvData s, ans) =>
            if decide (length s <> 4)%nat then Some (HeaderReturn (svc_destroy vc) ans)
            else
              let ver_cmd := be32_val ([x00; x00; x00] ++ slice 0 1 s) in
              let fam := be32_val ([x00; x00; x00] ++ slice 1 1 s) in
              let len := Z.to_nat (be32_val ([x00; x00] ++ slice 2 2 s)) in
              match recv len ans with
              | (RecvData pa, ans) =>
                  if decide (length pa <> len) then Some (HeaderReturn (svc_destroy vc) ans)
                  else if decide (ver_cmd = PP2_VERSIOB2_CMD_PROXY) then
                    if decide (fam = PP2_TRANS_STREAM_FAM_INET) then
                      if decide (10 <= len)%nat then
                        Some (HeaderAgain (vc <| xp_proxy := Some (xp_remote vc) |>
                                              <| xp_remote := AF_INET (slice 0 4 pa) (slice 8 2 pa) |>) ans)
                      else None
                    else if decide (fam = PP2_TRANS_STREAM_FAM_INET6) then
                      if decide (34 <= len)%nat then
                        Some (HeaderAgain (vc <| xp_proxy := Some (xp_remote vc) |>
                                              <| xp_remote := AF_INET6 (slice 0 16 pa) (slice 32 2 pa) |>) ans)
                      else None
                    else Some (HeaderReturn (svc_destroy vc) ans)
                  else if decide (ver_cmd = PP2_VERSION2_CMD_LOCAL) then
                    Some (HeaderReturn (rearm_events rearmed vc) ans)
                  else Some (HeaderReturn (svc_destroy vc) ans)
              | (RecvErr _, ans) => Some (HeaderReturn (svc_destroy vc) ans)
              end
        | (RecvErr _, ans) => Some (HeaderReturn (svc_destroy vc) ans)
        end
  | (RecvErr _, ans) => Some (HeaderReturn (svc_destroy vc) ans)
  end.

(** The word in front of a fragment. *)
Definition fragment_header (rearmed : bool) (vc : svc_vc) (ans : list recv_result) : option header :=
  match recv 4 ans with
  | (RecvErr code, ans) =>
      Some (HeaderReturn (if decide (code = EAGAIN) then rearm_events rearmed vc else svc_destroy vc) ans)
  | (RecvData [], ans) => Some (HeaderReturn (svc_destroy vc) ans)
  | (RecvData bs, ans) =>
      let vc := vc <| sx_fbtbc := i32 (received_word (sx_fbtbc vc) bs) |> in
      if decide (sx_fbtbc vc = PP2_SIG_UINT32) then proxy_header rearmed vc ans
      else
        let '(vc, flags) :=
          if decide (Z.land (u32 (sx_fbtbc vc)) LAST_FRAG <> 0)
          then (vc <| sx_fbtbc := i32 (Z.land (u32 (sx_fbtbc vc)) (Z.lnot LAST_FRAG)) |>, UIO_FLAG_FREE)
          else (vc, Z.lor UIO_FLAG_FREE UIO_FLAG_MORE) in
        if decide (sx_fbtbc vc = 0) then Some (HeaderReturn (svc_destroy vc) ans)
        else Some (HeaderFragment vc ans flags)
  end.

(** [again]: each round takes an answer, the fuel is their number and one. *)
Fixpoint read_header (fuel : nat) (rearmed : bool) (vc : svc_vc) (ans : list recv_result) : option header :=
  match fuel with
  | O => None
  | S fuel =>
      match fragment_header rearmed vc ans with
      | Some (HeaderAgain vc ans) => read_header fuel rearmed vc ans
      | h => h
      end
  end.

Section Recv.
  (** What fresh memory holds, [sx_dr.pagesz] and [sx_dr.maxrec]. *)
  Variable heap : nat -> list byte.
  Variables pagesz maxrec : nat.

(** [xdr_ioq_reset] of the queue that [xdr_ioq_create] made for [uvs]. *)
Definition request_queue (uvs : list xdr_ioq_uv) : option IOQ :=
  match uvs with
  | [] => None
  | uv :: rest =>
      let xs := xdr_ioq_create heap pagesz maxrec UIO_FLAG_BUFQ in
      let xs := set_priv (fun q => q <| qcount := length uvs |>) xs in
      Some (xdr_ioq_reset (xdr_ioq_uv_reset xs [] uv rest) 0)
  end.

(** From [recv] into the last buffer on; [uvs] are the buffers before it. *)
Definition read_fragment (rearmed : bool) (vc : svc_vc) (ans : list recv_result) (uvs : list xdr_ioq_uv) (uv : xdr_ioq_uv)
    (flags : Z) : option (svc_vc * list recv_result * option IOQ) :=
  let queued uv vc := vc <| vc_ioq := Some (uvs ++ [uv]) |> in
  match recv (Z.to_nat (sx_fbtbc vc)) ans with
  | (RecvErr code, ans) =>
      Some (queued uv (if decide (code = EAGAIN) then rearm_events rearmed vc else svc_destroy vc), ans, None)
  | (RecvData [], ans) => Some (queued uv (svc_destroy vc), ans, None)
  | (RecvData bs, ans) =>
      let uv := uv <| uv_buf := splice (uv_tail uv) bs (uv_buf uv) |> <| uv_tail := (uv_tail uv + length bs)%nat |> in
      let vc := vc <| sx_fbtbc := sx_fbtbc vc - Z.of_nat (length bs) |> in
      if decide (sx_fbtbc vc <> 0 \/ Z.land flags UIO_FLAG_MORE <> 0) then
        Some (queued uv (rearm_events rearmed vc), ans, None)
      else
        let vc := rearm_events rearmed (vc <| vc_ioq := None |>) in
        q ← request_queue (uvs ++ [uv]);
        Some (vc, ans, if rearmed then Some q else None)
  end.

(** [svc_vc_recv]: the request it hands to [svc_request], if any.  [None] is an
    access outside of the memory, or to the last buffer of a queue without one. *)
Definition svc_vc_recv (rearmed : bool) (vc : svc_vc) (ans : list recv_result) : option (svc_vc * list recv_result * option IOQ) :=
  let uvs := default [] (vc_ioq vc) in
  let vc := vc <| vc_ioq := Some uvs |> in
  if decide (sx_fbtbc vc = 0) then
    match read_header (S (length ans)) rearmed vc ans with
    | Some (HeaderFragment vc ans flags) =>
        read_fragment rearmed vc ans uvs (xdr_ioq_uv_create heap (Z.to_nat (sx_fbtbc vc)) flags) flags
    | Some (HeaderReturn vc ans) | Some (HeaderAgain vc ans) => Some (vc, ans, None)
    | None => None
    end
  else
    uv ← uvs !! (length uvs - 1)%nat;
    read_fragment rearmed vc ans (take (length uvs - 1) uvs) uv (uv_flags uv).

(** The calls of [svc_vc_recv] up to the first request; [None] when the transport
    is destroyed or the calls are used up. *)
Fixpoint recv_calls (calls : nat) (vc : svc_vc) (ans : list recv_result) : option (svc_vc * list recv_result * IOQ) :=
  match calls with
  | O => None
  | S calls =>
      '(vc, ans, q) ← svc_vc_recv true vc ans;
      match q with
      | Some q => Some (vc, ans, q)
      | None => if xp_destroyed vc then None else recv_calls calls vc ans
      end
  end.

End Recv.

(** ** Sending *)

(** The answer of a call of [sendmsg]: an error, or how many bytes were taken. *)
Inductive send_result :=
  | SendErr (code : Z)
  | Sent (n : nat).

(** The fields of [struct xdr_ioq] that remember how far a record is written. *)
Record write_state := mk_ws {
  write_start : Z;
  frag_hdr_bytes_sent : nat;
  has_blocked : bool }.
#[global] Instance eta_ws : RecEta write_state :=
  fun r => mk_ws (write_start r) (frag_hdr_bytes_sent r) (has_blocked r).

(** The variables of [svc_ioq_flushv] that live through its loop. *)
Record flush_vars := mk_fv {
  fv_ws : write_state;
  remaining : Z;
  fbytes : Z;
  last_frag : Z;
  frag_needed : bool }.
#[global] Instance eta_fv : RecEta flush_vars :=
  fun r => mk_fv (fv_ws r) (remaining r) (fbytes r) (last_frag r) (frag_needed r).

(** What [sendmsg] is called with: what is left of the header in [iov[0]], the
    bytes of the other vectors, and [frag_hdr_size]. *)
Record sending := mk_sending {
  iov_hdr : list byte;
  iov_data : list byte;
  frag_hdr_size : nat }.
#[global] Instance eta_sending : RecEta sending :=
  fun r => mk_sending (iov_hdr r) (iov_data r) (frag_hdr_size r).

(** [fbytes] and [last_frag] before the loop; a record has up to three fragments. *)
Definition first_fbytes (end_ start rem : Z) : Z * Z :=
  if decide (2 * LAST_FRAG_XDR_UNITS < end_) then
    if decide (start < LAST_FRAG_XDR_UNITS) then (LAST_FRAG_XDR_UNITS - start, 0)
    else if decide (start < 2 * LAST_FRAG_XDR_UNITS) then (2 * LAST_FRAG_XDR_UNITS - start, 0)
    else (end_ - start, LAST_FRAG)
  else if decide (LAST_FRAG_XDR_UNITS < end_) then
    if decide (start < LAST_FRAG_XDR_UNITS) then (LAST_FRAG_XDR_UNITS - start, 0)
    else (end_ - start, LAST_FRAG)
  else (rem, LAST_FRAG).

(** The loop up to [again]. *)
Inductive prepared :=
  | LoopEnds
  | NoBuffers
  | Prepared (v : flush_vars) (s : sending)
  | StaleHeader.

Definition prepare (xs : IOQ) (v : flush_vars) : prepared :=
  if decide (remaining v = 0) then LoopEnds
  else
    let start := write_start (fv_ws v) in
    let iov_count := Z.to_nat (xdr_ioq_iovcount xs (Z.to_nat start) (Z.to_nat (fbytes v))) in
    let boundary := bool_decide (start = 0 \/ start = LAST_FRAG_XDR_UNITS \/ start = 2 * LAST_FRAG_XDR_UNITS) in
    if negb boundary && frag_needed v then StaleHeader
    else
      let v := v <| frag_needed := boundary |> in
      let hdr :=
        if boundary then drop (frag_hdr_bytes_sent (fv_ws v)) (be32 (Z.lor (fbytes v) (last_frag v))) else [] in
      match xdr_ioq_fillbufs xs (Z.to_nat start) (Z.to_nat (fbytes v)) with
      | (false, _) => NoBuffers
      | (true, vio) =>
          let iov_count := Nat.min iov_count (PRESUMED_UIO_MAXIOV - (if boundary then 1 else 0)) in
          Prepared v (mk_sending hdr (uvs_data (take iov_count vio)) (length hdr))
      end.

(** The bookkeeping after a call of [sendmsg] that took the header and [result]
    bytes behind it. *)
Definition progress (v : flush_vars) (result : nat) : flush_vars :=
  let ws := (fv_ws v) <| frag_hdr_bytes_sent := 4%nat |> <| write_start := write_start (fv_ws v) + Z.of_nat result |> in
  let v := v <| fv_ws := ws |> <| remaining := remaining v - Z.of_nat result |> <| fbytes := fbytes v - Z.of_nat result |> in
  if decide (fbytes v = 0) then
    v <| fv_ws := ws <| frag_hdr_bytes_sent := 0%nat |> |>
      <| fbytes := if decide (LAST_FRAG_XDR_UNITS < remaining v) then LAST_FRAG_XDR_UNITS else remaining v |>
      <| frag_needed := true |>
  else v <| frag_needed := false |>.

(** From [again] on: the result of [svc_ioq_flushv], the state of the queue, the
    answers that are left and the bytes that were taken.  [None] is a vector whose
    length has wrapped around, or a header that is not set. *)
Fixpoint send_loop (xs : IOQ) (ans : list send_result) (v : flush_vars) (s : sending) (out : list byte)
  : option (Z * write_state * list send_result * list byte) :=
  match ans with
  | [] => Some (EAGAIN, (fv_ws v) <| has_blocked := true |>, [], out)
  | SendErr code :: ans =>
      if decide (code = EAGAIN) then Some (EAGAIN, (fv_ws v) <| has_blocked := true |>, ans, out)
      else Some (-1, fv_ws v, ans, out)
  | Sent n :: ans =>
      let bytes := iov_hdr s ++ iov_data s in
      let out := out ++ take n bytes in
      let result := length (take n bytes) in
      if decide (result < frag_hdr_size s)%nat then
        if decide (length (iov_hdr s) < result)%nat then None
        else
          let ws := (fv_ws v) <| frag_hdr_bytes_sent := (frag_hdr_bytes_sent (fv_ws v) + result)%nat |> in
          send_loop xs ans (v <| fv_ws := ws |>) (s <| iov_hdr := drop result (iov_hdr s) |>) out
      else
        let v := progress v (result - frag_hdr_size s) in
        match prepare xs v with
        | LoopEnds => Some (0, fv_ws v, ans, out)
        | NoBuffers => Some (-1, fv_ws v, ans, out)
        | Prepared v s => send_loop xs ans v s out
        | StaleHeader => None
        end
  end.

(** [svc_ioq_flushv]. *)
Definition svc_ioq_flushv (xs : IOQ) (ws : write_state) (ans : list send_result)
  : option (Z * write_state * list send_result * list byte) :=
  let '(end_, xs) := xdr_ioq_getpos (xdr_tail_update xs) in
  let rem := u32 (end_ - write_start ws) in
  let '(fb, lf) := first_fbytes end_ (write_start ws) rem in
  let v := mk_fv ws rem fb lf false in
  match prepare xs v with
  | LoopEnds => Some (0, ws, ans, [])
  | NoBuffers => Some (-1, ws, ans, [])
  | Prepared v s => send_loop xs ans v s []
  | StaleHeader => None
  end.

(** The queue that [svc_vc_reply] hands over is fresh. *)
Definition fresh_write : write_state := mk_ws 0 0 false.

(** [svc_ioq_write] is called again whenever the socket can be written, until the
    record is; what each call of it finds are the elements of [calls]. *)
Fixpoint write_calls (xs : IOQ) (ws : write_state) (calls : list (list send_result)) (out : list byte)
  : option (Z * write_state * list byte) :=
  match calls with
  | [] => Some (EAGAIN, ws, out)
  | ans :: calls =>
      '(rc, ws, _, bs) ← svc_ioq_flushv xs ws ans;
      if decide (rc = EAGAIN) then write_calls xs ws calls (out ++ bs) else Some (rc, ws, out ++ bs)
  end.

(** ** A record arrives *)

(** [arrival cur frags ans rest]: the answers [ans] bring the rest of a record, in
    any portions and with any waiting, up to the answers [rest]: what is left of a
    fragment whose header was read ([cur]), and the fragments behind it. *)
Inductive arrival : option (list byte) -> list (list byte) -> list recv_result -> list recv_result -> Prop :=
  | ArrHeaderWait frags ans rest :
      arrival None frags ans rest -> arrival None frags (RecvErr EAGAIN :: ans) rest
  | ArrHeader f frags ans rest :
      f <> [] -> Z.of_nat (length f) < 2 ^ 31 -> (frags <> [] -> Z.of_nat (length f) <> PP2_SIG_UINT32) ->
      arrival (Some f) frags ans rest ->
      arrival None (f :: frags)
        (RecvData (be32 (Z.of_nat (length f) + if decide (frags = []) then LAST_FRAG else 0)) :: ans) rest
  | ArrWait cur frags ans rest :
      arrival (Some cur) frags ans rest -> arrival (Some cur) frags (RecvErr EAGAIN :: ans) rest
  | ArrData bs cur frags ans rest :
      bs <> [] -> cur <> [] -> arrival (Some cur) frags ans rest ->
      arrival (Some (bs ++ cur)) frags (RecvData bs :: ans) rest
  | ArrMore bs frags ans rest :
      bs <> [] -> frags <> [] -> arrival None frags ans rest -> arrival (Some bs) frags (RecvData bs :: ans) rest
  | ArrDone bs rest :
      bs <> [] -> arrival (Some bs) [] (RecvData bs :: rest) rest.

Section Arrival.
  Variable heap : nat -> list byte.
  Variables pagesz maxrec : nat.
  Hypothesis heap_length : forall n, length (heap n) = n.

(** The flags of a fragment. *)
Definition frag_flags (frags : list (list byte)) : Z :=
  if decide (frags = []) then UIO_FLAG_FREE else Z.lor UIO_FLAG_FREE UIO_FLAG_MORE.

(** A buffer that holds [got] and has room for [n] more bytes. *)
Definition filling (uv : xdr_ioq_uv) (got : list byte) (n : nat) (flags : Z) : Prop :=
  uv_head uv = 0%nat /\ uv_tail uv = length got /\ uv_wrap uv = length (uv_buf uv) /\
  (length got + n)%nat = uv_wrap uv /\ take (length got) (uv_buf uv) = got /\ uv_flags uv = flags.

(** Between two fragments: [got] are complete. *)
Definition between (vc : svc_vc) (uvs : list xdr_ioq_uv) : Prop :=
  sx_fbtbc vc = 0 /\ default [] (vc_ioq vc) = uvs /\ xp_destroyed vc = false.

(** The buffers hold exactly [frags]. *)
Definition holds (uvs : list xdr_ioq_uv) (frags : list (list byte)) : Prop :=
  Forall2 (fun uv f => exists flags, filling uv f 0 flags) uvs frags.

Lemma created_filling n flags : (0 < n)%nat -> filling (xdr_ioq_uv_create heap n flags) [] n flags.
Proof using heap_length.
  intros. unfold xdr_ioq_uv_create. rewrite decide_False by lia. unfold filling. cbn. rewrite heap_length. by split_and!.
Qed.

Lemma filling_more uv got bs n flags :
  filling uv got (length bs + n) flags ->
  filling (uv <| uv_buf := splice (uv_tail uv) bs (uv_buf uv) |> <| uv_tail := (uv_tail uv + length bs)%nat |>)
    (got ++ bs) n flags.
Proof.
  intros (Hh & Ht & Hw & Hl & Hg & Hf). unfold filling. simpl. rewrite Ht, length_app.
  assert (Hsp : length (splice (length got) bs (uv_buf uv)) = length (uv_buf uv)) by (apply splice_length; lia).
  split_and!; [done|done|by rewrite Hsp|lia| |done].
  unfold splice. rewrite Hg. rewrite (app_assoc got), take_app_le, firstn_all2 by (rewrite length_app; lia). done.
Qed.

(** The flag of the last fragment and the length do not share a bit. *)
Lemma land_last L : 0 <= L < 2 ^ 31 -> Z.land L LAST_FRAG = 0.
Proof.
  intros HL. apply Z.bits_inj'. intros n Hn. rewrite Z.land_spec, Z.bits_0. change LAST_FRAG with (2 ^ 31).
  rewrite Z.pow2_bits_eqb by lia. destruct (Z.eqb_spec 31 n) as [<-|]; [|by rewrite andb_false_r].
  rewrite andb_true_r. destruct (decide (L = 0)) as [->|]; [apply Z.bits_0|]. apply Z.bits_above_log2; [lia|].
  apply Z.log2_lt_pow2; lia.
Qed.

Lemma last_bits L :
  0 <= L < 2 ^ 31 -> Z.land (L + LAST_FRAG) LAST_FRAG = LAST_FRAG /\ Z.land (L + LAST_FRAG) (Z.lnot LAST_FRAG) = L.
Proof.
  intros HL. pose proof (land_last L HL) as H0. pose proof (Z.add_lor_land L LAST_FRAG) as Ha. rewrite H0, Z.add_0_r in Ha.
  rewrite <- Ha, !Z.land_lor_distr_l, H0, Z.land_diag, Z.lor_0_l, Z.land_lnot_diag, Z.lor_0_r. split; [done|].
  pose proof (Z.lor_ldiff_and L LAST_FRAG) as Hd. rewrite H0, Z.lor_0_r in Hd. by rewrite <- Z.ldiff_land.
Qed.

(** The header of a fragment is understood. *)
Lemma header_read n vc (f : list byte) (frags : list (list byte)) ans :
  sx_fbtbc vc = 0 -> f <> [] -> Z.of_nat (length f) < 2 ^ 31 -> (frags <> [] -> Z.of_nat (length f) <> PP2_SIG_UINT32) ->
  read_header (S n) true vc
    (RecvData (be32 (Z.of_nat (length f) + if decide (frags = []) then LAST_FRAG else 0)) :: ans) =
  Some (HeaderFragment (vc <| sx_fbtbc := Z.of_nat (length f) |>) ans (frag_flags frags)).
Proof.
  intros Hz Hf Hl Hs. assert (0 < Z.of_nat (length f)) by (destruct f; [done|simpl; lia]).
  set (L := Z.of_nat (length f)) in *. cbn [read_header]. unfold fragment_header, recv.
  set (w := L + _). assert (Hw : received_word (sx_fbtbc vc) (take 4 (be32 w)) = u32 w).
  { unfold received_word. change (take 4 (be32 w)) with (be32 w). change (drop _ _) with (@nil byte). by rewrite app_nil_r, be32_val_be32. }
  unfold frag_flags. destruct (take 4 (be32 w)) as [|b0 bs] eqn:Et; [discriminate Et|]. rewrite Hw. subst w. clear Et Hw.
  cbn [sx_fbtbc upd]. simpl sx_fbtbc. rewrite i32_u32, u32_i32. destruct (decide (frags = [])) as [_|Hm].
  - destruct (last_bits L) as [H1 H2]; [lia|]. rewrite (u32_small (L + LAST_FRAG)) by (unfold is_u32, LAST_FRAG; lia).
    assert (i32 (L + LAST_FRAG) < 0) by (unfold i32, LAST_FRAG; zify; Z.to_euclidean_division_equations; lia).
    rewrite decide_False by (unfold PP2_SIG_UINT32; lia). rewrite H1, H2, decide_True by done. simpl.
    rewrite i32_small, decide_False by (unfold is_i32; lia). by destruct vc.
  - rewrite Z.add_0_r, i32_small by (unfold is_i32; lia). rewrite decide_False by (by apply Hs).
    rewrite u32_small by (unfold is_u32; lia). rewrite land_last by lia. rewrite decide_False by (intros E; by apply E).
    simpl. rewrite decide_False by lia. by destruct vc.
Qed.

(** What follows a call of [svc_vc_recv]. *)
Definition then_calls (calls : nat) (r : option (svc_vc * list recv_result * option IOQ))
  : option (svc_vc * list recv_result * IOQ) :=
  '(vc, ans, q) ← r;
  match q with
  | Some q => Some (vc, ans, q)
  | None => if xp_destroyed vc then None else recv_calls heap pagesz maxrec calls vc ans
  end.

(** The record [frags] is delivered and the transport is ready for the next one. *)
Definition delivered (r : option (svc_vc * list recv_result * IOQ)) (frags : list (list byte)) (rest : list recv_result)
    (peer : sockaddr) : Prop :=
  exists vc q uvs, r = Some (vc, rest, q) /\ request_queue heap pagesz maxrec uvs = Some q /\ holds uvs frags /\
    between vc [] /\ xp_remote vc = peer.

Lemma recv_calls_S calls vc ans :
  recv_calls heap pagesz maxrec (S calls) vc ans = then_calls calls (svc_vc_recv heap pagesz maxrec true vc ans).
Proof. reflexivity. Qed.

(** Inside a fragment the next call goes on with its buffer. *)
Lemma recv_inside vc ans uvs uv :
  vc_ioq vc = Some (uvs ++ [uv]) -> sx_fbtbc vc <> 0 ->
  svc_vc_recv heap pagesz maxrec true vc ans = read_fragment heap pagesz maxrec true vc ans uvs uv (uv_flags uv).
Proof.
  intros Hq Hn. unfold svc_vc_recv. rewrite Hq. simpl. rewrite decide_False by done.
  rewrite length_app. simpl. replace (length uvs + 1 - 1)%nat with (length uvs) by lia.
  rewrite lookup_app_r, Nat.sub_diag by lia. simpl. rewrite take_app_length. f_equal. destruct vc. simpl in *. by subst.
Qed.

Lemma arrival_nonempty cur frags ans rest : arrival cur frags ans rest -> (0 < length ans)%nat.
Proof. destruct 1; simpl; lia. Qed.

Lemma arrival_cur cur frags ans rest : arrival (Some cur) frags ans rest -> (0 < length cur)%nat.
Proof.
  remember (Some cur) as c eqn:E. intros Ha. revert cur E.
  induction Ha as [| |cur' frags ans rest Ha IH|bs cur' frags ans rest Hb|bs frags ans rest Hb|bs rest Hb]; intros c' E;
    try discriminate E; injection E as <-; [by apply IH|rewrite length_app|..]; (destruct bs; [done|simpl; lia]).
Qed.

(** The buffer after [bs] was received into it. *)
Definition filled (uv : xdr_ioq_uv) (bs : list byte) : xdr_ioq_uv :=
  uv <| uv_buf := splice (uv_tail uv) bs (uv_buf uv) |> <| uv_tail := (uv_tail uv + length bs)%nat |>.

Lemma fragment_data vc bs n ans uvs uv flags :
  sx_fbtbc vc = Z.of_nat (length bs + n) -> bs <> [] -> n <> 0%nat \/ Z.land flags UIO_FLAG_MORE <> 0 ->
  read_fragment heap pagesz maxrec true vc (RecvData bs :: ans) uvs uv flags =
    Some (vc <| sx_fbtbc := Z.of_nat n |> <| vc_ioq := Some (uvs ++ [filled uv bs]) |>, ans, None).
Proof.
  intros Hsx Hb Hn. unfold read_fragment, recv. rewrite Hsx, Nat2Z.id, take_ge by lia. destruct bs as [|b bs]; [done|].
  replace (Z.of_nat (length (b :: bs) + n) - Z.of_nat (length (b :: bs))) with (Z.of_nat n) by lia.
  simpl sx_fbtbc. rewrite decide_True by (destruct Hn; [left; lia|by right]). done.
Qed.

Lemma fragment_done vc bs ans uvs uv flags q :
  sx_fbtbc vc = Z.of_nat (length bs) -> bs <> [] -> Z.land flags UIO_FLAG_MORE = 0 ->
  request_queue heap pagesz maxrec (uvs ++ [filled uv bs]) = Some q ->
  read_fragment heap pagesz maxrec true vc (RecvData bs :: ans) uvs uv flags =
    Some (vc <| sx_fbtbc := 0 |> <| vc_ioq := None |>, ans, Some q).
Proof.
  intros Hsx Hb Hn Hq. unfold read_fragment, recv. rewrite Hsx, Nat2Z.id, take_ge by lia. destruct bs as [|b bs]; [done|].
  rewrite Z.sub_diag. simpl sx_fbtbc. rewrite decide_False by (intros [E|E]; [by apply E|by apply E]).
  cbv zeta. fold (filled uv (b :: bs)). rewrite Hq. done.
Qed.

Lemma holds_snoc uvs frags uv f flags : holds uvs frags -> filling uv f 0 flags -> holds (uvs ++ [uv]) (frags ++ [f]).
Proof. intros Hh Hf. apply Forall2_app; [done|]. constructor; [eauto|constructor]. Qed.

Lemma request_queue_some uvs uv : exists q, request_queue heap pagesz maxrec (uvs ++ [uv]) = Some q.
Proof. destruct uvs; simpl; eauto. Qed.

Lemma frag_more frags : frags <> [] -> Z.land (frag_flags frags) UIO_FLAG_MORE <> 0.
Proof. intros. unfold frag_flags. rewrite decide_False by done. by vm_compute. Qed.

(** What the answers of an arrival lead to, from between two fragments and from
    inside of one of which [got] is there. *)
Definition arrives (cur : option (list byte)) (frags : list (list byte)) (ans rest : list recv_result) : Prop :=
  match cur with
  | None => forall vc uvs done calls, between vc uvs -> holds uvs done -> (length ans <= calls)%nat ->
      delivered (recv_calls heap pagesz maxrec calls vc ans) (done ++ frags) rest (xp_remote vc)
  | Some cur => forall vc uvs done uv got calls,
      sx_fbtbc vc = Z.of_nat (length cur) -> xp_destroyed vc = false -> holds uvs done ->
      filling uv got (length cur) (frag_flags frags) -> (length ans <= S calls)%nat ->
      delivered (then_calls calls (read_fragment heap pagesz maxrec true vc ans uvs uv (frag_flags frags)))
        (done ++ (got ++ cur) :: frags) rest (xp_remote vc)
  end.

Lemma arrival_arrives cur frags ans rest : arrival cur frags ans rest -> arrives cur frags ans rest.
Proof using heap_length.
  induction 1 as [frags ans rest Ha IH|f frags ans rest Hf Hl Hs Ha IH|cur frags ans rest Ha IH
    |bs cur frags ans rest Hb Hcn Ha IH|bs frags ans rest Hb Hfr Ha IH|bs rest Hb]; simpl in *.
  - intros [sx ioq dst peer prx] uvs dn calls (Hz & Hq & Hd) Hh Hc. simpl in *. subst sx dst.
    destruct calls as [|calls]; [lia|]. rewrite recv_calls_S. rewrite <- Hq in Hh.
    apply (IH (mk_vc 0 (Some (default [] ioq)) false peer prx) (default [] ioq)); [by split_and!|done|lia].
  - intros [sx ioq dst peer prx] uvs dn calls (Hz & Hq & Hd) Hh Hc. simpl in *. subst sx dst.
    destruct calls as [|calls]; [lia|]. rewrite recv_calls_S. unfold svc_vc_recv. simpl sx_fbtbc. rewrite decide_True by done.
    rewrite header_read by done. assert (0 < length f)%nat by (destruct f; [done|simpl; lia]).
    simpl. rewrite Hq, Nat2Z.id. apply (IH (mk_vc (Z.of_nat (length f)) (Some uvs) false peer prx) uvs dn _ [] calls);
      [done|done|done|by apply created_filling|lia].
  - intros [sx ioq dst peer prx] uvs dn uv got calls Hsx Hd Hh Hfl Hc. simpl in *. subst sx dst.
    pose proof (arrival_nonempty _ _ _ _ Ha). destruct calls as [|calls]; [lia|].
    set (vc := mk_vc (Z.of_nat (length cur)) (Some (uvs ++ [uv])) false peer prx).
    change (delivered (recv_calls heap pagesz maxrec (S calls) vc ans) (dn ++ (got ++ cur) :: frags) rest (xp_remote vc)).
    rewrite recv_calls_S, (recv_inside vc ans uvs uv); [|done|simpl; pose proof (arrival_cur _ _ _ _ Ha); lia].
    assert (uv_flags uv = frag_flags frags) as -> by apply Hfl. apply IH; [done|done|done|done|lia].
  - intros [sx ioq dst peer prx] uvs dn uv got calls Hsx Hd Hh Hfl Hc. simpl in *. subst sx dst.
    pose proof (arrival_nonempty _ _ _ _ Ha). destruct calls as [|calls]; [lia|]. rewrite length_app in *.
    rewrite (fragment_data _ bs (length cur)); [|done|done|left; destruct cur; [done|simpl; lia]].
    set (vc := mk_vc (Z.of_nat (length cur)) (Some (uvs ++ [filled uv bs])) false peer prx).
    change (delivered (recv_calls heap pagesz maxrec (S calls) vc ans) (dn ++ (got ++ bs ++ cur) :: frags) rest (xp_remote vc)).
    apply filling_more in Hfl. fold (filled uv bs) in Hfl.
    rewrite recv_calls_S, (recv_inside vc ans uvs (filled uv bs)); [|done|simpl; pose proof (arrival_cur _ _ _ _ Ha); lia].
    assert (uv_flags (filled uv bs) = frag_flags frags) as -> by apply Hfl. rewrite app_assoc. apply IH; [done|done|done|done|lia].
  - intros [sx ioq dst peer prx] uvs dn uv got calls Hsx Hd Hh Hfl Hc. simpl in *. subst sx dst.
    rewrite (fragment_data _ bs 0); [|by rewrite Nat.add_0_r|done|right; by apply frag_more].
    set (vc := mk_vc 0 (Some (uvs ++ [filled uv bs])) false peer prx).
    change (delivered (recv_calls heap pagesz maxrec calls vc ans) (dn ++ (got ++ bs) :: frags) rest (xp_remote vc)).
    rewrite <- (Nat.add_0_r (length bs)) in Hfl. apply filling_more in Hfl. fold (filled uv bs) in Hfl.
    rewrite cons_middle, app_assoc. apply (IH vc (uvs ++ [filled uv bs])); [by split_and!|by eapply holds_snoc|lia].
  - intros [sx ioq dst peer prx] uvs dn uv got calls Hsx Hd Hh Hfl Hc. simpl in *. subst sx dst.
    destruct (request_queue_some uvs (filled uv bs)) as [q Hq].
    rewrite (fragment_done _ bs _ _ _ _ q); [|done|done|done|done].
    rewrite <- (Nat.add_0_r (length bs)) in Hfl. apply filling_more in Hfl. fold (filled uv bs) in Hfl.
    eexists _, q, (uvs ++ [filled uv bs]). split_and!; [reflexivity|done|by eapply holds_snoc|by split_and!|done].
Qed.

(** ** The queue of a record *)

Lemma filling_data uv f flags : filling uv f 0 flags -> uv_data uv = f /\ uv_ok uv /\ ioquv_length uv = length f /\ uv_head uv = 0%nat.
Proof.
  intros (Hh & Ht & Hw & Hl & Hg & _). unfold uv_data, uv_ok, ioquv_length, slice. rewrite Hh, Ht, drop_0, Nat.sub_0_r.
  split_and!; [done|lia|lia|lia|done|done].
Qed.

Lemma holds_data uvs frags : holds uvs frags -> uvs_data uvs = concat frags /\ Forall uv_ok uvs /\ map ioquv_length uvs = map length frags.
Proof.
  induction 1 as [|uv f uvs frags [flags Hf] _ (IH1 & IH2 & IH3)]; [done|].
  destruct (filling_data _ _ _ Hf) as (Hd & Hok & Hl & _). split_and!.
  - change (uvs_data (uv :: uvs)) with (uv_data uv ++ uvs_data uvs). by rewrite Hd, IH1.
  - by constructor.
  - cbn [map]. by rewrite Hl, IH3.
Qed.

Lemma request_queue_holds uvs frags q :
  holds uvs frags -> request_queue heap pagesz maxrec uvs = Some q ->
  ioq_bytes q = concat frags /\
  (Forall (fun f => length f mod 4 = 0)%nat (tail frags) -> ioq_src_ok q /\ ioq_in q = concat frags).
Proof.
  intros Hh Hq. destruct Hh as [|uv f uvs frags [flags Hf] Hh]; [done|].
  destruct (filling_data _ _ _ Hf) as (Hd & [Hok1 Hok2] & Hl & Hz). destruct (holds_data _ _ Hh) as (Hds & Hoks & Hls).
  assert (q = xdr_ioq_uv_reset (mkXDR XDR_ENCODE None [] 0 0 0 0 (mk_ioq [] [] UIO_FLAG_NONE pagesz maxrec 0 0 (S (length uvs)) heap))
    [] uv uvs) as ->.
  { injection Hq as <-. unfold xdr_ioq_reset. simpl. destruct uv as [b h t w fl]. simpl in *. subst h. unfold cur_uv. simpl. by case_decide. }
  split; [unfold ioq_bytes; rewrite queue_reset; cbn [app concat]; rewrite <- Hds, <- Hd; done|].
  intros Hm. cbn [tail] in Hm. split.
  - unfold ioq_src_ok, uv_ok. simpl. split_and!; try lia. rewrite List.Forall_forall in *. intros v Hv. split; [by apply Hoks|].
    assert (In (ioquv_length v) (map length frags)) as Hin by (rewrite <- Hls; by apply in_map).
    apply in_map_iff in Hin as (g & <- & Hg). by apply Hm.
  - unfold ioq_in. simpl. rewrite <- Hds, <- Hd, Hz. unfold uv_data, ioquv_length. by rewrite Hz.
Qed.

End Arrival.

(** C5: However the bytes of a record arrive, in portions of any size with any number
    of waits in between, the calls of [svc_vc_recv] end with one request whose queue
    holds exactly the bytes of its fragments, and the transport is ready for the
    next record.  At most one call per answer of the socket is needed.  When the
    fragments but the first hold whole units, the queue can be decoded. *)
Theorem record_delivered heap pagesz maxrec vc frags ans rest :
  (forall n, length (heap n) = n) -> between vc [] -> arrival None frags ans rest ->
  exists vc' q, recv_calls heap pagesz maxrec (length ans) vc ans = Some (vc', rest, q) /\
    between vc' [] /\ xp_remote vc' = xp_remote vc /\ ioq_bytes q = concat frags /\
    (Forall (fun f => length f mod 4 = 0)%nat (tail frags) -> ioq_src_ok q /\ ioq_in q = concat frags).
Proof.
  intros Hheap Hvc Ha.
  destruct (arrival_arrives heap pagesz maxrec Hheap _ _ _ _ Ha vc [] [] (length ans) Hvc) as (vc' & q & uvs & Hr & Hq & Hh & Hb & Hp);
    [constructor|done|].
  exists vc', q. destruct (request_queue_holds _ _ _ _ _ _ Hh Hq) as [Hby Hsrc]. by split_and!.
Qed.

(** ** A record is sent *)

(** The record of one fragment that holds [bs]. *)
Definition record (bs : list byte) : list byte := be32 (Z.of_nat (length bs) + LAST_FRAG) ++ bs.

(** A queue that was written to its end and holds [bs]. *)
Definition written_queue (xs : IOQ) (bs : list byte) : Prop :=
  ioq_wf xs /\ ioq_next (x_priv xs) = [] /\ vio_tail xs = x_data xs /\ ioq_bytes xs = bs.

(** [k] bytes of the record of [bs] have been sent. *)
Definition sent_upto (bs : list byte) (ws : write_state) (k : nat) : Prop :=
  (write_start ws = 0 /\ frag_hdr_bytes_sent ws = k /\ (k <= 4)%nat) \/
  (0 < write_start ws < Z.of_nat (length bs) /\ frag_hdr_bytes_sent ws = 4%nat /\ Z.of_nat k = 4 + write_start ws) \/
  (write_start ws = Z.of_nat (length bs) /\ frag_hdr_bytes_sent ws = 0%nat /\ k = (4 + length bs)%nat).

(** No call of [sendmsg] follows one that took a part of the header only. *)
Definition header_whole (k : nat) (ans : list send_result) : Prop :=
  (k < 4)%nat ->
  match ans with
  | Sent n :: ans' => (4 - k <= n)%nat \/ match ans' with Sent _ :: _ => False | _ => True end
  | _ => True
  end.

Lemma header_whole_later k ans : header_whole 0 ans -> header_whole k ans.
Proof.
  intros Hh Hk. specialize (Hh ltac:(lia)). destruct ans as [|[|n] ans]; [done|done|]. destruct Hh; [left; lia|by right].
Qed.

Section Flush.
  Variable xs : IOQ.
  Variable bs : list byte.
  Hypothesis xs_written : written_queue xs bs.
  Hypothesis bs_length : 0 < Z.of_nat (length bs) <= LAST_FRAG_XDR_UNITS.

Lemma units_value : LAST_FRAG_XDR_UNITS = 2 ^ 31 - 4.
Proof. reflexivity. Qed.

(** The variables when [k] bytes have been sent and some are left. *)
Definition flushing (v : flush_vars) (k : nat) : Prop :=
  sent_upto bs (fv_ws v) k /\ (k < 4 + length bs)%nat /\
  remaining v = Z.of_nat (length bs) - write_start (fv_ws v) /\ fbytes v = remaining v /\ last_frag v = LAST_FRAG /\
  (4 < k -> frag_needed v = false)%nat.

(** What [sendmsg] is called with then. *)
Definition ready (v : flush_vars) (s : sending) (k : nat) : Prop :=
  flushing v k /\ frag_hdr_size s = length (iov_hdr s) /\ length (iov_hdr s) = (4 - k)%nat /\
  exists m, iov_hdr s ++ iov_data s = take m (drop k (record bs)).

(** The vectors that fit into one call hold the first bytes. *)
Lemma uvs_data_take n uvs : exists m, uvs_data (take n uvs) = take m (uvs_data uvs).
Proof.
  exists (length (uvs_data (take n uvs))). rewrite <- (take_drop n uvs) at 3. by rewrite uvs_data_app, take_app_length.
Qed.

Lemma record_header : be32 (Z.lor (Z.of_nat (length bs)) LAST_FRAG) = be32 (Z.of_nat (length bs) + LAST_FRAG).
Proof using bs_length.
  pose proof units_value. pose proof (Z.add_lor_land (Z.of_nat (length bs)) LAST_FRAG) as Ha.
  rewrite land_last, Z.add_0_r in Ha by lia. by rewrite Ha.
Qed.

Lemma prepare_ready v k :
  flushing v k -> exists v' s, prepare xs v = Prepared v' s /\ fv_ws v' = fv_ws v /\ ready v' s k.
Proof using xs_written bs_length.
  destruct v as [ws rem fb lf fn]. intros (Hs & Hk & Hr & Hf & Hl & Hn). cbn [fv_ws remaining fbytes last_frag frag_needed] in *.
  pose proof units_value as HU.
  destruct xs_written as (Hwf & Hnx & Ht & Hb).
  assert (Hws : 0 <= write_start ws < Z.of_nat (length bs)).
  { destruct Hs as [(? & ? & ?)|[(? & ? & ?)|(? & ? & ?)]]; lia. }
  unfold prepare. cbn [fv_ws remaining fbytes last_frag frag_needed upd]. rewrite decide_False by lia.
  destruct (vectors_spec xs (Z.to_nat (write_start ws)) (Z.to_nat fb) Hwf) as (vio & Hfill & Hvio & Hcnt); [lia| |].
  { rewrite tail_update_src by lia. rewrite Hb. lia. }
  rewrite tail_update_src, Hb in Hvio by lia. rewrite Hfill, Hcnt, Nat2Z.id.
  destruct (decide (write_start ws = 0)) as [Hz|Hz].
  - rewrite bool_decide_true by auto. cbn [negb andb].
    assert (k <= 4 /\ frag_hdr_bytes_sent ws = k)%nat as [Hk4 Hhs] by (destruct Hs as [(? & ? & ?)|[(? & ? & ?)|(? & ? & ?)]]; lia).
    eexists _, _. split; [reflexivity|]. split; [done|]. split_and!; try done.
    { unfold flushing. simpl. split_and!; try done. lia. }
    { cbn [iov_hdr]. rewrite length_drop. simpl. by rewrite Hhs. }
    destruct (uvs_data_take (Nat.min (length vio) (PRESUMED_UIO_MAXIOV - 1)) vio) as [m Hm].
    cbn [iov_hdr iov_data].
    rewrite Hm, Hvio, Hl, Hf, Hr, Hhs, Hz, Z.sub_0_r, record_header.
    exists (length (drop k (be32 (Z.of_nat (length bs) + LAST_FRAG))) + m)%nat.
    unfold record. rewrite skipn_app. change (length (be32 _)) with 4%nat. replace (k - 4)%nat with 0%nat by lia.
    rewrite drop_0, take_app_add' by done. unfold slice. rewrite Nat2Z.id. simpl (Z.to_nat 0). by rewrite drop_0, firstn_all.
  - rewrite bool_decide_false by lia. cbn [negb andb].
    assert (Z.of_nat k = 4 + write_start ws) as Hk4 by (destruct Hs as [(? & ? & ?)|[(? & ? & ?)|(? & ? & ?)]]; lia).
    rewrite Hn by lia. eexists _, _. split; [reflexivity|]. split; [done|]. split_and!; try done.
    { simpl. lia. }
    destruct (uvs_data_take (Nat.min (length vio) (PRESUMED_UIO_MAXIOV - 0)) vio) as [m Hm].
    cbn [iov_hdr iov_data]. rewrite Hm, Hvio, Hf, Hr. exists m. simpl. f_equal. unfold record.
    rewrite skipn_app. change (length (be32 _)) with 4%nat. rewrite (drop_ge (be32 _)) by (change (length (be32 _)) with 4%nat; lia).
    unfold slice. rewrite take_ge by (rewrite length_drop; lia). simpl. f_equal. lia.
Qed.

(** After a call that took the rest of the header and [r] bytes behind it. *)
Lemma progress_flushing v k r :
  flushing v k -> (Nat.max k 4 + r <= 4 + length bs)%nat ->
  let v' := progress v r in
  sent_upto bs (fv_ws v') (Nat.max k 4 + r) /\
  (if decide (Nat.max k 4 + r = 4 + length bs)%nat then remaining v' = 0 else flushing v' (Nat.max k 4 + r)).
Proof using bs_length.
  destruct v as [ws rem fb lf fn]. intros (Hs & Hk & Hr & Hf & Hl & Hn) Hle.
  unfold progress. cbn [fv_ws remaining fbytes last_frag frag_needed upd] in *.
  assert (Hws : Z.of_nat (Nat.max k 4) = 4 + write_start ws).
  { destruct Hs as [(? & ? & ?)|[(? & ? & ?)|(? & ? & ?)]]; lia. }
  destruct (decide (fb - Z.of_nat r = 0)) as [Hz|Hz].
  - rewrite (decide_True (P:=(Nat.max k 4 + r = _)%nat)) by lia. cbn [fv_ws remaining]. split; [|lia]. right. right. cbn [write_start frag_hdr_bytes_sent]. split_and!; lia.
  - rewrite (decide_False (P:=(Nat.max k 4 + r = _)%nat)) by lia. cbn [fv_ws remaining].
    assert (sent_upto bs (mk_ws (write_start ws + Z.of_nat r) 4 (has_blocked ws)) (Nat.max k 4 + r)) as Hup.
    { destruct (decide (write_start ws + Z.of_nat r = 0)) as [H0|H0].
      - left. cbn [write_start frag_hdr_bytes_sent]. split_and!; lia.
      - right. left. cbn [write_start frag_hdr_bytes_sent]. split_and!; lia. }
    split; [exact Hup|]. unfold flushing. cbn [fv_ws remaining fbytes last_frag frag_needed write_start].
    split_and!; [exact Hup|lia|lia|lia|done|done].
Qed.

(** The outcome of a call that starts with [k] bytes sent. *)
Definition flushed (k : nat) (ans : list send_result) (out : list byte)
    (r : option (Z * write_state * list send_result * list byte)) : Prop :=
  exists rc ws ans' bs' k', r = Some (rc, ws, ans', out ++ bs') /\ sent_upto bs ws k' /\
    take k' (record bs) = take k (record bs) ++ bs' /\
    (rc = 0 /\ k' = (4 + length bs)%nat \/ rc = EAGAIN /\ (k' < 4 + length bs)%nat \/
     rc = -1 /\ exists code, SendErr code ∈ ans /\ code <> EAGAIN).

Lemma blocked_flushed v k ans out ans' :
  flushing v k -> flushed k ans out (Some (EAGAIN, (fv_ws v) <| has_blocked := true |>, ans', out)).
Proof.
  intros (Hs & Hk & _). exists EAGAIN, ((fv_ws v) <| has_blocked := true |>), ans', [], k. rewrite !app_nil_r.
  split_and!; [done|done|done|right; left; done].
Qed.

Lemma failed_flushed v k ans out ans' code :
  flushing v k -> SendErr code ∈ ans -> code <> EAGAIN -> flushed k ans out (Some (-1, fv_ws v, ans', out)).
Proof.
  intros (Hs & Hk & _) Hin Hc. exists (-1), (fv_ws v), ans', [], k. rewrite !app_nil_r. split_and!; [done..|]. right; right; eauto.
Qed.

(** An error, or no answer. *)
Lemma stop_flushed v s k ans out :
  flushing v k -> match ans with Sent _ :: _ => False | _ => True end -> flushed k ans out (send_loop xs ans v s out).
Proof.
  intros Hf Ha. destruct ans as [|[code|n] ans]; [by apply blocked_flushed| |done].
  cbn [send_loop]. destruct (decide (code = EAGAIN)); [by apply blocked_flushed|].
  eapply failed_flushed; [done|by left|done].
Qed.

Lemma flushed_trans k k' a ans out r :
  (k <= k')%nat -> flushed k' ans (out ++ slice k (k' - k) (record bs)) r -> flushed k (a :: ans) out r.
Proof.
  intros Hk (rc & ws & ans' & bs' & k2 & -> & Hs & Ht & Hcase).
  exists rc, ws, ans', (slice k (k' - k) (record bs) ++ bs'), k2. split_and!; [by rewrite app_assoc|done| |].
  - rewrite Ht, app_assoc. f_equal. unfold slice. rewrite take_take_drop. f_equal. lia.
  - destruct Hcase as [?|[?|(? & code & Hin & ?)]]; auto. right; right. split; [done|]. exists code. split; [by right|done].
Qed.

Lemma take_taken {A} i (l : list A) : take (length (take i l)) l = take i l.
Proof. rewrite <- (take_drop i l) at 2. apply take_app_length. Qed.

Lemma send_loop_flushed ans : forall v s k out,
  ready v s k -> header_whole k ans -> flushed k ans out (send_loop xs ans v s out).
Proof using xs_written bs_length.
  induction ans as [|[code|n] ans IH]; intros v s k out Hrdy Hh; [apply stop_flushed; [apply Hrdy|done]..|].
  destruct Hrdy as (Hf & Hsz & Hlen & m & Hm). cbn [send_loop]. rewrite Hsz, Hlen, Hm.
  pose proof Hf as (Hs & Hk & _). set (t := take n (take m (drop k (record bs)))).
  assert (HL : length (record bs) = (4 + length bs)%nat) by reflexivity.
  assert (Ht : t = slice k (length t) (record bs) /\ (length t <= 4 + length bs - k)%nat).
  { unfold t, slice. rewrite take_take. split; [symmetry; apply take_taken|]. rewrite length_take, length_drop, HL. lia. }
  destruct Ht as [Ht Htl]. assert (Hge : (4 - k <= length (iov_hdr s ++ iov_data s))%nat) by (rewrite length_app; lia).
  rewrite Hm in Hge.
  assert (Hout : out ++ t = out ++ slice k (k + length t - k) (record bs)).
  { f_equal. rewrite Ht at 1. f_equal. lia. }
  destruct (decide (length t < 4 - k)%nat) as [Hp|Hp].
  - rewrite decide_False by lia. rewrite Hout. apply (flushed_trans k (k + length t)); [lia|].
    apply stop_flushed.
    + destruct Hf as (_ & _ & Hr & Hfb & Hlf & Hn). destruct v as [ws rem fb lf fn]. cbn in *.
      assert (write_start ws = 0 /\ frag_hdr_bytes_sent ws = k) as [H0 H1].
      { destruct Hs as [(? & ? & ?)|[(? & ? & ?)|(? & ? & ?)]]; lia. }
      unfold flushing. cbn. split_and!; try done; [|lia|lia]. left. cbn. split_and!; lia.
    + destruct (Hh ltac:(lia)) as [Hn|]; [|done]. exfalso. unfold t in Hp. rewrite length_take in Hp. lia.
  - rewrite Hout. apply (flushed_trans k (k + length t)); [lia|].
    assert (Hmax : (Nat.max k 4 + (length t - (4 - k)) = k + length t)%nat) by lia.
    destruct (progress_flushing v k (length t - (4 - k)) Hf) as [Hup Hnext]; [lia|]. rewrite Hmax in Hup, Hnext.
    set (v' := progress v (length t - (4 - k))) in *. destruct (decide (k + length t = 4 + length bs)%nat) as [E|E].
    + unfold prepare. rewrite decide_True by done.
      eexists 0, _, _, [], (k + length t)%nat. rewrite !app_nil_r. split_and!; [reflexivity|done|done|by left].
    + destruct (prepare_ready v' (k + length t) Hnext) as (v2 & s2 & -> & _ & Hr2). apply IH; [done|]. intros ?. lia.
Qed.

Lemma flushv_flushed ws k ans :
  sent_upto bs ws k -> (k < 4 + length bs)%nat -> header_whole k ans -> flushed k ans [] (svc_ioq_flushv xs ws ans).
Proof using xs_written bs_length.
  intros Hs Hk Hh. pose proof xs_written as ((Hq & _ & Hpl & _) & Hnx & Ht & Hb). pose proof units_value as HU.
  unfold svc_ioq_flushv, xdr_ioq_getpos. rewrite !(tail_update_src xs) by lia.
  assert (Hlen : (plength (x_priv xs) + (x_data xs - vio_head xs))%nat = length bs).
  { rewrite <- Hb. unfold ioq_bytes. rewrite uvs_data_length by done. unfold ioq_queue. rewrite Hnx, total_length_app, Hpl, <- Ht.
    unfold total_length at 3. simpl. unfold ioquv_length. simpl. lia. }
  rewrite Hlen, (u32_small (Z.of_nat (length bs))) by (unfold is_u32; lia).
  assert (Hws : 0 <= write_start ws < Z.of_nat (length bs)).
  { destruct Hs as [(? & ? & ?)|[(? & ? & ?)|(? & ? & ?)]]; lia. }
  rewrite u32_small by (unfold is_u32; lia). unfold first_fbytes. rewrite !decide_False by lia.
  destruct (prepare_ready (mk_fv ws (Z.of_nat (length bs) - write_start ws) (Z.of_nat (length bs) - write_start ws) LAST_FRAG false) k)
    as (v & s & -> & _ & Hr); [by split_and!|]. by apply send_loop_flushed.
Qed.

Lemma write_calls_flushed calls : forall ws k,
  Forall (header_whole 0) calls -> sent_upto bs ws k -> (k < 4 + length bs)%nat ->
  exists rc ws' k', write_calls xs ws calls (take k (record bs)) = Some (rc, ws', take k' (record bs)) /\
    (rc = 0 /\ k' = (4 + length bs)%nat \/ rc = EAGAIN /\ (k' < 4 + length bs)%nat \/
     rc = -1 /\ exists ans code, ans ∈ calls /\ SendErr code ∈ ans /\ code <> EAGAIN).
Proof using xs_written bs_length.
  induction calls as [|ans calls IH]; intros ws k Hc Hs Hk; cbn [write_calls]; [eexists _, _, k; split; [done|auto]|].
  apply List.Forall_cons_iff in Hc as [Ha Hc].
  destruct (flushv_flushed ws k ans Hs Hk (header_whole_later k ans Ha)) as (rc & ws' & ans' & bs' & k' & -> & Hs' & Ht & Hcase).
  cbn [mbind option_bind app]. rewrite <- Ht. case_decide as E.
  - destruct Hcase as [[E0 _]|[[_ Hk']|[E1 _]]]; [subst; done| |subst; done].
    destruct (IH ws' k' Hc Hs' Hk') as (rc2 & ws2 & k2 & Hw & Hcase2). exists rc2, ws2, k2. split; [done|].
    destruct Hcase2 as [?|[?|(? & a & code & Hin & ?)]]; auto. right; right. split; [done|]. exists a, code. split; [by right|done].
  - exists rc, ws', k'. split; [done|]. destruct Hcase as [?|[?|(? & code & ? & ?)]]; auto.
    right; right. split; [done|]. exists ans, code. split; [by left|done].
Qed.

End Flush.

(** The queue of a reply is one. *)
Lemma snk_written xs : ioq_snk_ok xs -> written_queue (xdr_tail_update xs) (ioq_out xs).
Proof.
  intros (? & ? & Hl & Hn & _ & _ & _ & Hp & Hpl & Hpc & Hqc). rewrite tail_update_snk by lia.
  unfold written_queue, ioq_wf, ioq_bytes, ioq_queue. simpl. rewrite Hn.
  split_and!; try done; try lia.
  - apply Forall_app. split; [done|]. constructor; [|constructor]. split; simpl; lia.
  - rewrite length_app. simpl. lia.
  - by rewrite uvs_data_app, uvs_data_one.
Qed.

(** C6: A message of less than 2^31 bytes is sent as one record: whatever parts
    of it the socket takes in each call, and however often it is full, what was sent
    is at any time the beginning of the record, and all of it when the sender
    reports success; an error is reported only when the socket reported one.  The
    one condition is that no call of [sendmsg] that took only a part of the header
    is followed by another within the same call of [svc_ioq_flushv]. *)
Theorem record_sent xs bs calls :
  written_queue xs bs -> 0 < Z.of_nat (length bs) <= LAST_FRAG_XDR_UNITS -> Forall (header_whole 0) calls ->
  exists rc ws k, write_calls xs fresh_write calls [] = Some (rc, ws, take k (record bs)) /\
    (rc = 0 /\ take k (record bs) = record bs \/ rc = EAGAIN /\ (k < length (record bs))%nat \/
     rc = -1 /\ exists ans code, ans ∈ calls /\ SendErr code ∈ ans /\ code <> EAGAIN).
Proof.
  intros Hw Hl Hc. destruct (write_calls_flushed xs bs Hw Hl calls fresh_write 0 Hc) as (rc & ws & k & Hr & Hcase);
    [left; simpl; split_and!; lia|lia|].
  exists rc, ws, k. split; [exact Hr|]. destruct Hcase as [[-> ->]|[?|?]]; auto.
  left. split; [done|]. apply take_ge. simpl. lia.
Qed.

(** ** The theorems at concrete answers *)

Definition demo_peer : sockaddr := AF_INET [x7f; x00; x00; x01] [x03; xe8].
Definition idle_vc : svc_vc := mk_vc 0 None false demo_peer None.

(** A record of two fragments, with a wait and the second one in two portions. *)
Lemma record_delivered_witness :
  exists vc q, recv_calls demo_heap 4096 4096 6 idle_vc
      [RecvData (be32 4); RecvData [x01; x02; x03; x04]; RecvErr EAGAIN; RecvData (be32 (4 + LAST_FRAG));
       RecvData [x05]; RecvData [x06; x07; x08]] = Some (vc, [], q) /\
    between vc [] /\ xp_remote vc = demo_peer /\ ioq_bytes q = [x01; x02; x03; x04; x05; x06; x07; x08] /\
    (Forall (fun f => length f mod 4 = 0)%nat [[x05; x06; x07; x08]] ->
       ioq_src_ok q /\ ioq_in q = [x01; x02; x03; x04; x05; x06; x07; x08]).
Proof.
  apply (record_delivered demo_heap 4096 4096 idle_vc [[x01; x02; x03; x04]; [x05; x06; x07; x08]]
    [RecvData (be32 4); RecvData [x01; x02; x03; x04]; RecvErr EAGAIN; RecvData (be32 (4 + LAST_FRAG));
     RecvData [x05]; RecvData [x06; x07; x08]] []).
  - intros n. apply repeat_length.
  - done.
  - apply (ArrHeader [x01; x02; x03; x04] [[x05; x06; x07; x08]]); [done|done|done|]. apply ArrMore; [done|done|].
    apply ArrHeaderWait. apply (ArrHeader [x05; x06; x07; x08] []); [done|done|done|].
    apply (ArrData [x05] [x06; x07; x08]); [done|done|]. by apply ArrDone.
Defined.

(** A queue that holds four bytes. *)
Definition written_demo : IOQ :=
  mkXDR XDR_ENCODE None [x61; x62; x63; x64; x00; x00; x00; x00] 4 0 4 8 (mk_ioq [] [] UIO_FLAG_FREE 8 64 0 0 1 demo_heap).

Lemma written_demo_ok : written_queue written_demo [x61; x62; x63; x64].
Proof.
  split; [|by split_and!]. split_and!; [|simpl; lia|simpl; lia|done..]. constructor; [|constructor]. split; simpl; lia.
Qed.

Lemma record_sent_witness :
  exists rc ws k, write_calls written_demo fresh_write [[Sent 6; SendErr EAGAIN]; [Sent 2]] [] =
      Some (rc, ws, take k (record [x61; x62; x63; x64])) /\
    (rc = 0 /\ take k (record [x61; x62; x63; x64]) = record [x61; x62; x63; x64] \/
     rc = EAGAIN /\ (k < 8)%nat \/
     rc = -1 /\ exists ans code, ans ∈ [[Sent 6; SendErr EAGAIN]; [Sent 2]] /\ SendErr code ∈ ans /\ code <> EAGAIN).
Proof.
  apply (record_sent written_demo [x61; x62; x63; x64] [[Sent 6; SendErr EAGAIN]; [Sent 2]]).
  - apply written_demo_ok.
  - rewrite units_value. simpl. lia.
  - repeat constructor; intros _; cbn; lia.
Defined.

(** ** Where the code falls short *)

(** When a call of [sendmsg] takes two bytes of the header and the next one the
    rest of the record, [frag_hdr_size] is still 4: the last two bytes of the message
    are sent a second time, behind the end of the record, and success is reported. *)
Lemma split_header_resends :
  exists ws, write_calls written_demo fresh_write [[Sent 2; Sent 6; Sent 2]] [] =
    Some (0, ws, record [x61; x62; x63; x64] ++ [x63; x64]).
Proof. eexists. vm_compute. reflexivity. Qed.

(** After a PROXY header with the command LOCAL the first word of the header is
    taken for the length of a fragment that is being read: the next call goes to the
    last buffer of a queue that has none. *)
Definition local_header : list recv_result :=
  [RecvData (be32 PP2_SIG_UINT32); RecvData (be32 PP2_SIG_UINT32_2 ++ be32 PP2_SIG_UINT32_3);
   RecvData [x20; x00; x00; x00]; RecvData []].

Lemma proxy_local_breaks :
  exists vc, svc_vc_recv demo_heap 4096 4096 true idle_vc local_header = Some (vc, [], None) /\
    xp_destroyed vc = false /\ svc_vc_recv demo_heap 4096 4096 true vc [] = None.
Proof. eexists. split_and!; vm_compute; reflexivity. Qed.

(** A PROXY header that announces an IPv4 address and no bytes for it makes the
    server read the address behind the memory it allocated. *)
Lemma proxy_short_address :
  svc_vc_recv demo_heap 4096 4096 true idle_vc
    [RecvData (be32 PP2_SIG_UINT32); RecvData (be32 PP2_SIG_UINT32_2 ++ be32 PP2_SIG_UINT32_3);
     RecvData [x21; x11; x00; x00]; RecvData []] = None.
Proof. vm_compute. reflexivity. Qed.
