(* ===== verification/Svc.v ===== *)
(** * A call from its message to the message of the reply (libntirpc [src/svc.c],
    [src/svc_vc.c], [src/svc_auth_none.c], [svc_request] of [src/svc_rqst.c];
    [src/dnfsd/dnfs_ntirpc.cpp])

    A received record is a queue of buffers.  [svc_request] decodes the header of
    the call, [nfs_rpc_valid_NFS] routes it, [nfs_rpc_process_request]
    authenticates it, decodes the arguments and runs the procedure, and the reply
    is encoded into a fresh queue, which goes to the writer of the transport. *)
From S2P Require Import Prelude XdrStream XdrIoq XdrPrim XdrSpec Nfs3Types Nfs3Msgs Nfs3ArgSpecs Nfs3ResSpecs.
From S2P Require Import Posix NfsUtils Fsal Nfs3Attr Nfs3Dir Nfs3Io Nfs3Readdir Dispatch.
From S2P Require Import IoqPos RpcMsg SvcAuth City SvcVc.

Open Scope Z_scope.
Open Scope dnfs_scope.

Definition RPC_MAXDATA_DEFAULT : nat := Z.to_nat 8192.

(** [struct xdrpair]: a filter of the streams [P] and the object it is applied to. *)
Record xdrpair (P : Type) := mk_pair {
  xp_type : Type;
  xp_proc : xdrproc P xp_type;
  xp_where : xp_type }.
Arguments mk_pair {P}.
Arguments xp_type {P}.
Arguments xp_proc {P}.
Arguments xp_where {P}.

(** [( *pair.proc)(xdrs, pair.where)]. *)
Definition run_pair {P} : xdrproc P (xdrpair P) := fun xs pair =>
  let '(b, xs, obj) := xp_proc pair xs (xp_where pair) in (b, xs, mk_pair (xp_type pair) (xp_proc pair) obj).

Abbreviation message P := (rpc_msg (xdrpair P)).
Abbreviation request P := (svc_req (xdrpair P)).

Definition void_pair {P} : xdrpair P := mk_pair unit xdr_void tt.

(** [rpc_msg_init]. *)
Definition rpc_msg_init {P} (msg : message P) : message P :=
  msg <| rm_reply := (rm_reply msg) <| rp_acpt :=
    (RPCM_ack msg) <| ar_verf := _null_auth |> <| ar_results := void_pair |> |> |>.

(** The zeroed request of [alloc_dnfs_request]; a message without results holds
    the empty pair. *)
Definition zero_aup : authunix_parms :=
  mk_aup (replicate (Z.to_nat (MAX_MACHINE_NAME + 1)) x00) (replicate (Z.to_nat NGRPS) 0) 0 0 0 0.

Definition zero_versions : rpcversions := mk_versions 0 0.

Definition alloc_dnfs_request {P} : request P :=
  mk_req (mk_msg 0 0 0
            (mk_reply_body 0 (mk_accepted 0 zero_versions void_pair _null_auth) (mk_rejected 0 zero_versions 0))
            0 0 0 0 _null_auth _null_auth zero_aup) false 0.

(** [svcauth_none_wrap]. *)
Definition svcauth_none_wrap {P} (req : request P) (xs : XDR P) : bool * XDR P :=
  let '(b, xs, _) := run_pair xs (ar_results (RPCM_ack (rq_msg req))) in (b, xs).

(** [svc_vc_reply]: the queue handed to [svc_ioq_write_now], or [None] for XPRT_DIED.
    [heap] is what fresh memory holds, [send_max] is [__svc_params->ioq.send_max]. *)
Definition svc_vc_reply (heap : nat -> list byte) (send_max : nat) (req : request xdr_ioq) : option IOQ :=
  let xioq := xdr_ioq_create heap RPC_MAXDATA_DEFAULT (send_max + RPC_MAXDATA_DEFAULT) UIO_FLAG_FREE in
  let '(b, xioq, msg) := xdr_reply_encode run_pair (rq_msg req) xioq in
  let req := req <| rq_msg := msg |> in
  if negb b then None
  else
    let xioq := xdr_tail_update xioq in
    let '(b, xioq) :=
      if decide (rp_stat (rm_reply (rq_msg req)) = MSG_ACCEPTED /\ ar_stat (RPCM_ack (rq_msg req)) = SUCCESS)
      then if rq_auth req then svcauth_none_wrap req xioq else (true, xioq)
      else (true, xioq) in
    if negb b then None else Some (xdr_tail_update xioq).

(** ** The service, over any transport *)

Section Svc.
  Context {FS P Q : Type} `{xdr_ops P}.
  (** [xp_ops->xp_reply] of the transport, with what it hands over to be sent. *)
  Variable xp_reply : request P -> option Q.
  Abbreviation M := (ST (world FS)).
  Abbreviation message := (message P).
  Abbreviation request := (request P).
  Abbreviation xdrpair := (xdrpair P).

(** ** Replies *)

(** [rm_direction = REPLY] and a change of the reply. *)
Definition set_reply (f : reply_body xdrpair -> reply_body xdrpair) (req : request) : request :=
  req <| rq_msg := (rq_msg req) <| rm_direction := REPLY |> <| rm_reply := f (rm_reply (rq_msg req)) |> |>.

(** [rp_stat = MSG_ACCEPTED] and [ar_stat]. *)
Definition accept (stat : Z) (rp : reply_body xdrpair) : reply_body xdrpair :=
  rp <| rp_stat := MSG_ACCEPTED |> <| rp_acpt := (rp_acpt rp) <| ar_stat := stat |> |>.

Definition svc_sendreply (req : request) : option Q := xp_reply (set_reply (accept SUCCESS) req).
Definition svcerr_noproc (req : request) : option Q := xp_reply (set_reply (accept PROC_UNAVAIL) req).
Definition svcerr_decode (req : request) : option Q := xp_reply (set_reply (accept GARBAGE_ARGS) req).
Definition svcerr_systemerr (req : request) : option Q := xp_reply (set_reply (accept SYSTEM_ERR) req).

Definition svcerr_auth (req : request) (why : Z) : option Q :=
  xp_reply (set_reply (fun rp => rp <| rp_stat := MSG_DENIED |>
    <| rp_rjct := (rp_rjct rp) <| rj_stat := AUTH_ERROR |> <| rj_why := why |> |>) req).

Definition svcerr_weakauth (req : request) : option Q := svcerr_auth req AUTH_TOOWEAK.
Definition svcerr_noprog (req : request) : option Q := xp_reply (set_reply (accept PROG_UNAVAIL) req).

Definition svcerr_progvers (req : request) (low_vers high_vers : Z) : option Q :=
  xp_reply (set_reply (fun rp => (accept PROG_MISMATCH rp)
    <| rp_acpt := (rp_acpt (accept PROG_MISMATCH rp)) <| ar_vers := mk_versions low_vers high_vers |> |>) req).

(** ** Processing *)

(** How the handling of a request ends: what is sent, or that nothing could be
    made to be sent; the request is suspended or dropped; the transport is destroyed
    because the message is not one; the message is the reply to a call of this
    host ([clnt_req_process_reply]). *)
Inductive outcome :=
  | Replied (q : Q)
  | ReplyDied
  | Suspended
  | Dropped
  | Unsynchronised
  | ForClient (msg : message).

Definition sent (r : option Q) : outcome := match r with Some q => Replied q | None => ReplyDied end.

(** [complete_request]. *)
Definition complete_dnfs_request (req : request) (d : nfs_function_desc (FS:=FS) (P:=P)) (rc : nfs_req_result)
    (res : fd_res d) : outcome :=
  if decide (rc = NFS_REQ_DROP) then Dropped
  else
    sent (svc_sendreply (req <| rq_msg := (rq_msg req) <| rm_reply := (rm_reply (rq_msg req)) <| rp_acpt :=
      (RPCM_ack (rq_msg req)) <| ar_results := mk_pair (fd_res d) (xdr_encode_func d) res |> |> |> |>)).

(** [svc_vc_checksum]; [svc_dg_checksum] is the same. *)
Definition svc_vc_checksum (req : request) (data : list byte) (off length : nat) : option request :=
  h ← CityHash64WithSeed data off (Nat.min 256 length) 103; Some (req <| rq_cksum := h |>).

(** [nfs_rpc_process_request] of a new request.  The flag tells whether the result
    that [nfs_dupreq_start] has allocated is given back, by [free_args] here or,
    of a suspended request, by [nfs_rpc_complete_async_request]. *)
Definition nfs_rpc_process_request (d : nfs_function_desc (FS:=FS) (P:=P)) (res : fd_res d) (req : request) (xs : XDR P)
  : M (outcome * bool) :=
  match svc_auth_authenticate req with
  | None => abort
  | Some (auth_rc, req) =>
      if decide (auth_rc <> AUTH_OK) then ret (sent (svcerr_auth req auth_rc), false)
      else
        let xs := xs <| x_public := Some (mk_lookahead 0 0 0) |> in
        match svc_vc_checksum req (x_buf xs) (x_data xs) (xdr_size_inline xs) with
        | None => abort
        | Some req =>
            process_with d (cb_proc (rq_msg req)) res xs
              (sent (svcerr_decode req), false)
              (Suspended, true)
              (fun rc res => (complete_dnfs_request req d rc res, true))
        end
  end.

(** [nfs_rpc_valid_NFS] and [nfs_rpc_valid_MNT] with what the error routines do: the
    table of procedures, the route a call takes, and the memory [nfs_dupreq_start]
    gets for the result of a procedure.  A request that is not processed has no
    result. *)
Definition process_cb (table : list (nfs_function_desc (FS:=FS) (P:=P))) (valid : Z -> Z -> Z -> route)
    (valid_lookup : forall prog vers proc d, valid prog vers proc = RouteProcess d -> table !! Z.to_nat proc = Some d)
    (malloc_res : forall i d, table !! i = Some d -> fd_res d) (req : request) (xs : XDR P) : M (outcome * bool) :=
  let m := rq_msg req in
  match valid (cb_prog m) (cb_vers m) (cb_proc m) as r
    return valid (cb_prog m) (cb_vers m) (cb_proc m) = r -> M (outcome * bool) with
  | RouteNoProg => fun _ => ret (sent (svcerr_noprog req), true)
  | RouteNoVers low high => fun _ => ret (sent (svcerr_progvers req low high), true)
  | RouteNoProc => fun _ => ret (sent (svcerr_noproc req), true)
  | RouteProcess d => fun E => nfs_rpc_process_request d (malloc_res _ d (valid_lookup _ _ _ d E)) req xs
  | RouteBad => fun _ => abort
  end eq_refl.

(** [svc_vc_decode]; [cb] is [xp_dispatch.process_cb]. *)
Definition svc_vc_decode (cb : request -> XDR P -> M (outcome * bool)) (req : request) (xs : XDR P) : M (outcome * bool) :=
  let xs := xs <| x_op := XDR_DECODE |> in
  let msg := rpc_msg_init (rq_msg req) in
  let '(b, xs, msg) := xdr_dplx_decode xs msg in
  let req := req <| rq_msg := msg |> in
  if negb b then ret (Unsynchronised, true)
  else if decide (rm_direction msg = CALL) then cb req xs
  else if decide (rm_direction msg = REPLY) then ret (ForClient msg, true)
  else ret (Unsynchronised, true).

(** [svc_request]; [xp_decode] is that of the transport. *)
Definition svc_request (xp_decode : (request -> XDR P -> M (outcome * bool)) -> request -> XDR P -> M (outcome * bool))
    (cb : request -> XDR P -> M (outcome * bool)) (xs : XDR P) : M (outcome * bool) :=
  xp_decode cb alloc_dnfs_request xs.

End Svc.

Arguments outcome P Q : clear implicits.

Section Nfs.
  Context {FS : Type} `{Posix FS}.
  Context `{!UnionArm LOOKUP3resok LOOKUP3resfail} `{!UnionArm CREATE3resok CREATE3resfail}.
  Context {P Q : Type} `{xdr_ops P}.
  Variable env : server_env.

Lemma route_lookup prog vers proc d :
  nfs_rpc_valid_NFS env prog vers proc = RouteProcess d -> nfs3_func_desc (FS:=FS) (P:=P) env !! Z.to_nat proc = Some d.
Proof.
  unfold nfs_rpc_valid_NFS. repeat case_decide; try done. destruct (_ !! _) as [d'|] eqn:E; [|done]. by intros [= ->].
Qed.

Lemma route_total prog vers proc : nfs_rpc_valid_NFS (FS:=FS) (P:=P) env prog vers proc <> RouteBad.
Proof.
  unfold nfs_rpc_valid_NFS. repeat case_decide; try done.
  destruct (lookup_lt_is_Some_2 (nfs3_func_desc (FS:=FS) (P:=P) env) (Z.to_nat proc)) as [d ->]; [|done].
  unfold NFSPROC3_COMMIT in *. simpl. lia.
Qed.

(** The callback of the NFS transports. *)
Definition nfs_process_cb (xp_reply : request P -> option Q)
    (malloc_res : forall i (d : nfs_function_desc (FS:=FS) (P:=P)), nfs3_func_desc env !! i = Some d -> fd_res d)
  : request P -> XDR P -> ST (world FS) (outcome P Q * bool) :=
  process_cb xp_reply (nfs3_func_desc env) (nfs_rpc_valid_NFS env) route_lookup malloc_res.

End Nfs.

(** ** The queue of a reply *)

Section Queue.
  Variable heap : nat -> list byte.
  Hypothesis heap_length : forall n, length (heap n) = n.

Lemma reply_queue max :
  let q := xdr_ioq_create heap RPC_MAXDATA_DEFAULT max UIO_FLAG_FREE in
  ioq_snk_ok q /\ ioq_out q = [] /\ x_op q = XDR_ENCODE /\
  forall n, (n <= RPC_MAXDATA_DEFAULT)%nat -> is_Some (fst (xdr_inline_encode q n)).
Proof using heap_length.
  unfold xdr_ioq_create, xdr_ioq_uv_create. rewrite decide_True by done.
  rewrite decide_False by (unfold RPC_MAXDATA_DEFAULT; lia).
  unfold xdr_inline_encode, ioq_snk_ok. cbn -[RPC_MAXDATA_DEFAULT decide]. unfold RPC_MAXDATA_DEFAULT.
  rewrite heap_length. split_and!; try done; try lia.
  intros n Hn. rewrite decide_True by lia. eauto.
Qed.

Lemma tail_update_ok xs :
  ioq_snk_ok xs -> ioq_snk_ok (xdr_tail_update xs) /\ ioq_out (xdr_tail_update xs) = ioq_out xs /\
  x_op (xdr_tail_update xs) = x_op xs.
Proof.
  intros (? & ? & Hrest). rewrite tail_update_snk by lia. unfold ioq_snk_ok. simpl.
  split_and!; try lia; try apply Hrest; done.
Qed.

(** The header of a reply fits into the first buffer of its queue. *)
Lemma reply_header (max : nat) (req : request xdr_ioq) :
  reply_ok (rq_msg req) ->
  let q0 := xdr_ioq_create heap RPC_MAXDATA_DEFAULT (max + RPC_MAXDATA_DEFAULT) UIO_FLAG_FREE in
  exists q p, xdr_reply_encode run_pair (rq_msg req) q0 = (true, q, rq_msg req) /\ reply_pad (rq_msg req) p /\
    ioq_snk_ok (xdr_tail_update q) /\ x_op (xdr_tail_update q) = XDR_ENCODE /\
    ioq_out (xdr_tail_update q) = reply_wire (rq_msg req) p.
Proof using heap_length.
  intros Hm. destruct (reply_queue (max + RPC_MAXDATA_DEFAULT)) as (Hok & Hout & Hop & Hroom).
  cbv zeta. set (q0 := xdr_ioq_create _ _ _ _) in *.
  assert (exists q p, xdr_reply_encode run_pair (rq_msg req) q0 = (true, q, rq_msg req) /\ reply_pad (rq_msg req) p /\
    emits q0 q (reply_wire (rq_msg req) p)) as (q1 & p & He & Hp & Hok1 & Hout1 & Hop1 & _).
  { pose proof Hm as (_ & _ & [[E Ha]|[E _]]).
    - destruct (accepted_encode_wire run_pair (rq_msg req) q0) as (q & p & ? & ? & ?); [done..| |done|eauto].
      intros _. apply Hroom. destruct Ha as [(_ & Hl & _) _]. rewrite RNDUP_pad. unfold pad, MAX_AUTH_BYTES, RPC_MAXDATA_DEFAULT in *.
      pose proof (Nat.mod_upper_bound (4 - Z.to_nat (oa_length (ar_verf (RPCM_ack (rq_msg req)))) mod 4) 4). lia.
    - destruct (denied_writes (P:=xdr_ioq) (rq_msg req) Hm E q0) as (q & Hw & Hem); [exact Hok|exact I|].
      exists q, []. split_and!; [|intros E2; by rewrite E in E2|done].
      unfold xdr_reply_encode. by rewrite decide_False, decide_True, Hw by (by rewrite E). }
  destruct (tail_update_ok q1 Hok1) as (Hok2 & Hout2 & Hop2). exists q1, p. split_and!; [done|done|done| |].
  - rewrite Hop2. etransitivity; [exact Hop1|done].
  - by rewrite Hout2, (Hout1 : ioq_out q1 = ioq_out q0 ++ _), Hout.
Qed.

(** [svc_vc_reply] writes the header and, of a successful call, the results. *)
Lemma vc_reply_wire send_max (req : request xdr_ioq) bs :
  reply_ok (rq_msg req) ->
  (if decide (rp_stat (rm_reply (rq_msg req)) = MSG_ACCEPTED /\ ar_stat (RPCM_ack (rq_msg req)) = SUCCESS)
   then rq_auth req = true /\ forall xs, ioq_snk_ok xs -> x_op xs = XDR_ENCODE ->
     exists xs' r, run_pair xs (ar_results (RPCM_ack (rq_msg req))) = (true, xs', r) /\ emits xs xs' bs
   else bs = []) ->
  exists q p, svc_vc_reply heap send_max req = Some q /\ reply_pad (rq_msg req) p /\
    written_queue q (reply_wire (rq_msg req) p ++ bs).
Proof using heap_length.
  intros Hm Hres. unfold svc_vc_reply.
  destruct (reply_header send_max req Hm) as (q1 & p & -> & Hp & Hok & Hop & Hout).
  cbn -[decide xdr_tail_update svcauth_none_wrap]. case_decide as E; cbn -[decide xdr_tail_update svcauth_none_wrap].
  - destruct Hres as [-> Hres]. destruct (Hres (xdr_tail_update q1) Hok Hop) as (q3 & r & Hr & Hok3 & Hout3 & _).
    unfold svcauth_none_wrap. cbn -[run_pair xdr_tail_update]. rewrite Hr. simpl.
    eexists _, p. split_and!; [done|done|]. pose proof (snk_written q3 Hok3) as Hw.
    by rewrite (Hout3 : ioq_out q3 = ioq_out (xdr_tail_update q1) ++ bs), Hout in Hw.
  - simpl. eexists _, p. split_and!; [done|done|]. rewrite Hres, app_nil_r.
    pose proof (snk_written _ Hok) as Hw. by rewrite Hout in Hw.
Qed.

(** Results that cannot be encoded: there is no reply. *)
Lemma vc_reply_dies send_max (req : request xdr_ioq) :
  reply_ok (rq_msg req) -> rp_stat (rm_reply (rq_msg req)) = MSG_ACCEPTED -> ar_stat (RPCM_ack (rq_msg req)) = SUCCESS ->
  rq_auth req = true -> (forall xs, ioq_snk_ok xs -> x_op xs = XDR_ENCODE -> (run_pair xs (ar_results (RPCM_ack (rq_msg req)))).1.1 = false) ->
  svc_vc_reply heap send_max req = None.
Proof using heap_length.
  intros Hm Hs Ha Hau Hres. unfold svc_vc_reply.
  destruct (reply_header send_max req Hm) as (q1 & p & -> & Hp & Hok & Hop & Hout).
  cbn -[decide xdr_tail_update svcauth_none_wrap]. rewrite decide_True by done. unfold svcauth_none_wrap.
  specialize (Hres (xdr_tail_update q1) Hok Hop). rewrite Hau.
  destruct (run_pair (xdr_tail_update q1) _) as [[b q2] r] eqn:E. simpl in Hres. by subst b.
Qed.

End Queue.

(** ** Authentication of a decoded call *)

(** The bytes of the credential are those of an AUTH_SYS credential with valid ids. *)
Definition sys_valid (oa : opaque_auth) : Prop :=
  exists time name p uid gid gids rest, sys_ok time name p uid gid gids /\
    take (Z.to_nat (oa_length oa)) (oa_body oa) = sys_wire time name p uid gid gids ++ rest.

(** The credentials the server accepts. *)
Definition cred_valid (oa : opaque_auth) : Prop :=
  oa_flavor oa = AUTH_NONE \/ (oa_flavor oa = AUTH_SYS /\ sys_valid oa).

(** What it answers to the others. *)
Definition cred_refused (oa : opaque_auth) (why : Z) : Prop :=
  if decide (oa_flavor oa = AUTH_SYS) then why = AUTH_BADCRED /\ ~ sys_valid oa
  else oa_flavor oa <> AUTH_NONE /\ why = AUTH_REJECTEDCRED.

(** The verifier of the reply: none, or with AUTH_SYS the one of the call. *)
Definition reply_verf {R} (m : rpc_msg R) : opaque_auth :=
  if decide (oa_flavor (cb_cred m) = AUTH_SYS) then cb_verf m else _null_auth.

Lemma parse_unix_stat oa aup stat aup' :
  parse_unix oa aup = Some (stat, aup') -> stat = AUTH_OK \/ stat = AUTH_BADCRED.
Proof.
  unfold parse_unix. intros Hp.
  repeat match goal with
  | Hp : mbind _ ?x = Some _ |- _ => destruct x; cbn [mbind option_bind] in Hp; [|done]
  | Hp : context [if decide ?P then _ else _] |- _ => destruct (decide P)
  | Hp : (let '(_, _) := ?x in _) = _ |- _ => destruct x
  | Hp : (if ?b then _ else _) = _ |- _ => destruct b
  end; simplify_eq; auto.
Qed.

Lemma auth_over_take oa o :
  auth_ok oa -> take (Z.to_nat (oa_length oa)) (oa_body (auth_over oa o)) = take (Z.to_nat (oa_length oa)) (oa_body oa).
Proof.
  intros (_ & ? & ?). unfold auth_over; cbn [oa_body]. rewrite take_app_le by (rewrite length_take; lia).
  by rewrite take_take, Nat.min_id.
Qed.

Lemma auth_wire_over oa o p : auth_ok oa -> auth_wire (auth_over oa o) p = auth_wire oa p.
Proof. intros. unfold auth_wire, auth_body. cbn [oa_length oa_flavor auth_over]. by rewrite auth_over_take. Qed.

Lemma auth_over_ok oa o : auth_ok oa -> Z.of_nat (length (oa_body o)) = MAX_AUTH_BYTES -> auth_ok (auth_over oa o).
Proof.
  intros (? & ? & ?) Ho. do 2 (split; [done|]). cbn [oa_body auth_over]. rewrite length_app, length_take, length_drop. lia.
Qed.

Lemma null_auth_ok : auth_ok _null_auth.
Proof. split_and!; by vm_compute. Qed.

(** The request with its call decoded. *)
Definition decoded {P} (m : message P) : request P :=
  alloc_dnfs_request <| rq_msg := call_over m (rpc_msg_init (rq_msg alloc_dnfs_request)) |>.

Lemma decoded_xid {P} (m : message P) : rm_xid (rq_msg (decoded m)) = rm_xid m.
Proof. reflexivity. Qed.

Lemma decoded_verf {P} (m : message P) : ar_verf (RPCM_ack (rq_msg (decoded m))) = _null_auth.
Proof. reflexivity. Qed.

(** What authentication leaves of the request. *)
Definition auth_frame {P} (m : message P) (req : request P) : Prop :=
  rm_xid (rq_msg req) = rm_xid m /\ cb_proc (rq_msg req) = cb_proc m /\
  auth_ok (ar_verf (RPCM_ack (rq_msg req))) /\ ar_vers (RPCM_ack (rq_msg req)) = zero_versions /\
  rj_vers (RPCM_rej (rq_msg req)) = zero_versions.

Lemma zero_aup_ok : area_ok zero_aup.
Proof. split_and!; by vm_compute. Qed.

Lemma prepared_ok oa : is_i32 (oa_flavor oa) -> auth_ok (_null_auth <| oa_flavor := oa_flavor oa |>).
Proof. intros. split_and!; [done|by vm_compute..]. Qed.

Lemma svcauth_unix_run {P} (req : request P) stat aup :
  parse_unix (cb_cred (rq_msg req)) (rq_cred_body (rq_msg req)) = Some (stat, aup) ->
  exists req', _svcauth_unix req = Some (stat, req') /\ rq_auth req' = true /\
    rm_xid (rq_msg req') = rm_xid (rq_msg req) /\ cb_proc (rq_msg req') = cb_proc (rq_msg req) /\
    ar_vers (RPCM_ack (rq_msg req')) = ar_vers (RPCM_ack (rq_msg req)) /\
    rj_vers (RPCM_rej (rq_msg req')) = rj_vers (RPCM_rej (rq_msg req)) /\
    ar_verf (RPCM_ack (rq_msg req')) =
      if decide (stat = AUTH_OK) then cb_verf (rq_msg req) else ar_verf (RPCM_ack (rq_msg req)).
Proof.
  intros Hp. unfold _svcauth_unix. cbn [rq_msg upd]. simpl. rewrite Hp. simpl. eexists. split; [reflexivity|].
  by case_decide.
Qed.

Lemma prepared_cred {P} (m : message P) : cb_cred (rq_msg (prepare_verf (decoded m))) = auth_over (cb_cred m) _null_auth.
Proof. reflexivity. Qed.

Lemma prepared_verf {P} (m : message P) : cb_verf (rq_msg (prepare_verf (decoded m))) = auth_over (cb_verf m) _null_auth.
Proof. reflexivity. Qed.

Lemma prepared_area {P} (m : message P) : rq_cred_body (rq_msg (prepare_verf (decoded m))) = zero_aup.
Proof. reflexivity. Qed.

Lemma prepared_frame {P} (m : message P) : is_i32 (oa_flavor (cb_cred m)) -> auth_frame m (prepare_verf (decoded m)).
Proof. intros Hf. split_and!; [reflexivity|reflexivity|by apply prepared_ok|reflexivity|reflexivity]. Qed.

Lemma authenticate_sys {P} (m : message P) :
  call_ok m -> oa_flavor (cb_cred m) = AUTH_SYS ->
  exists stat req, _svcauth_unix (prepare_verf (decoded m)) = Some (stat, req) /\ auth_frame m req /\
    (stat = AUTH_OK /\ sys_valid (cb_cred m) /\ rq_auth req = true /\
       ar_verf (RPCM_ack (rq_msg req)) = auth_over (cb_verf m) _null_auth \/
     stat = AUTH_BADCRED /\ ~ sys_valid (cb_cred m)).
Proof.
  intros Hm Hs. pose proof Hm as (_ & _ & _ & _ & _ & _ & Hc & Hv). pose proof Hc as [Hi _].
  assert (Hnull : Z.of_nat (length (oa_body _null_auth)) = MAX_AUTH_BYTES) by (by vm_compute).
  set (oa := auth_over (cb_cred m) _null_auth). assert (Hoa : auth_ok oa) by (by apply auth_over_ok).
  pose proof Hoa as (_ & _ & Hb). destruct (parse_unix_total oa zero_aup Hb zero_aup_ok) as (stat & aup & Hp).
  assert (Hval : stat = AUTH_OK <-> sys_valid (cb_cred m)).
  { unfold sys_valid. rewrite <- (auth_over_take _ _null_auth Hc). change (oa_length (cb_cred m)) with (oa_length oa).
    split; [intros ->; by eapply parse_unix_sound|]. intros (time & name & p & uid & gid & gids & rest & Hok & Hin).
    rewrite (parse_unix_complete _ _ _ _ _ _ _ _ _ zero_aup_ok Hok Hin) in Hp. congruence. }
  destruct (svcauth_unix_run (prepare_verf (decoded m)) stat aup) as (req & Hu & Ha & Hx & Hpc & Hvs & Hrj & Hvf).
  { by rewrite prepared_cred, prepared_area. }
  destruct (prepared_frame m Hi) as (Hx0 & Hpc0 & Hvo & Hvs0 & Hrj0). rewrite prepared_verf in Hvf.
  exists stat, req. split; [done|]. unfold auth_frame. rewrite Hx, Hpc, Hvs, Hrj, Hvf.
  destruct (parse_unix_stat _ _ _ _ Hp) as [-> | ->].
  - rewrite decide_True by done. split; [|left; split_and!; [done|by apply Hval|done|done]].
    split_and!; [done|done| |done|done]. by apply auth_over_ok.
  - rewrite decide_False by done. split; [by split_and!|right; split; [done|by rewrite <- Hval]].
Qed.

Lemma authenticate_decoded {P} (m : message P) :
  call_ok m ->
  exists stat req, svc_auth_authenticate (decoded m) = Some (stat, req) /\ auth_frame m req /\
    (stat = AUTH_OK /\ cred_valid (cb_cred m) /\ rq_auth req = true /\
       (forall p, auth_wire (ar_verf (RPCM_ack (rq_msg req))) p = auth_wire (reply_verf m) p) /\
       oa_length (ar_verf (RPCM_ack (rq_msg req))) = oa_length (reply_verf m) \/
     stat <> AUTH_OK /\ is_i32 stat /\ cred_refused (cb_cred m) stat).
Proof.
  intros Hm. pose proof Hm as (_ & _ & _ & _ & _ & _ & Hc & Hv).
  unfold cred_valid, cred_refused, reply_verf. destruct (decide (oa_flavor (cb_cred m) = AUTH_SYS)) as [Hs|Hs].
  - destruct (authenticate_sys m Hm Hs) as (stat & req & Ha & Hf & Hcase). exists stat, req. split_and!; [|done|].
    { unfold svc_auth_authenticate. rewrite prepared_cred. cbn [oa_flavor auth_over].
      by rewrite decide_False, decide_True by (by rewrite Hs). }
    destruct Hcase as [(? & ? & ? & ->)|[-> ?]]; [left|right; done]. split_and!; [done|by right|done| |done].
    intros p. by apply auth_wire_over.
  - unfold svc_auth_authenticate. rewrite prepared_cred. cbn [oa_flavor auth_over].
    pose proof (prepared_frame m ltac:(apply Hc)) as Hf.
    rewrite (decide_False (P:=_ = AUTH_SYS)) by done. destruct (decide (oa_flavor (cb_cred m) = AUTH_NONE)) as [Hn|Hn].
    + assert (Hvf : ar_verf (RPCM_ack (rq_msg (prepare_verf (decoded m)))) = _null_auth).
      { transitivity (_null_auth <| oa_flavor := oa_flavor (cb_cred m) |>); [reflexivity|]. by rewrite Hn. }
      revert Hf Hvf. generalize (prepare_verf (decoded m)). intros r Hf Hvf.
      exists AUTH_OK, (r <| rq_auth := true |>). split; [reflexivity|]. split; [exact Hf|]. left.
      change (rq_msg (r <| rq_auth := true |>)) with (rq_msg r). rewrite Hvf. split_and!; [reflexivity|by left|reflexivity..].
    + revert Hf. generalize (prepare_verf (decoded m)). intros r Hf.
      case_decide; eexists _, _; (split; [reflexivity|]); (split; [exact Hf|]); right; by split_and!.
Qed.

(** ** The replies as bytes (RFC 5531, section 9) *)

(** An accepted call up to its status, [p] being the padding of the verifier. *)
Definition accepted_head (xid : Z) (verf : opaque_auth) (p : list byte) (stat : Z) : list byte :=
  be32 xid ++ be32 REPLY ++ be32 MSG_ACCEPTED ++ auth_wire verf p ++ be32 stat.

(** A call whose credential is refused. *)
Definition auth_error (xid why : Z) : list byte :=
  be32 xid ++ be32 REPLY ++ be32 MSG_DENIED ++ be32 AUTH_ERROR ++ be32 why.

(** What a transport promises to the service: where there is room for it, a reply is
    sent as its header and, of a successful call, the results. *)
Class Transport {P Q : Type} `{XdrSink P} (xp_reply : request P -> option Q) (written : Q -> list byte -> Prop) (room : nat -> Prop)
  : Prop := {
  tr_reply : forall (req : request P) bs,
    reply_ok (rq_msg req) ->
    (if decide (rp_stat (rm_reply (rq_msg req)) = MSG_ACCEPTED /\ ar_stat (RPCM_ack (rq_msg req)) = SUCCESS)
     then rq_auth req = true /\ forall xs, snk_ok xs -> x_op xs = XDR_ENCODE -> snk_fits xs (length bs) ->
       exists xs' r, run_pair xs (ar_results (RPCM_ack (rq_msg req))) = (true, xs', r) /\ emits xs xs' bs
     else bs = []) ->
    (forall p, reply_pad (rq_msg req) p -> room (length (reply_wire (rq_msg req) p ++ bs))) ->
    exists q p, xp_reply req = Some q /\ reply_pad (rq_msg req) p /\ written q (reply_wire (rq_msg req) p ++ bs) }.

(** A connection has room for any reply. *)
Lemma vc_transport heap send_max :
  (forall n, length (heap n) = n) -> Transport (svc_vc_reply heap send_max) written_queue (fun _ => True).
Proof.
  intros Hh. split. intros req bs Hm Hres _. apply vc_reply_wire; [done|done|]. case_decide; [|done].
  destruct Hres as [Ha Hres]. split; [done|]. intros xs Hok Hop. by apply Hres.
Qed.

Section Replies.
  Context {P Q : Type} `{XdrSink P} {xp_reply : request P -> option Q} {written : Q -> list byte -> Prop} {room : nat -> Prop}.
  Context {transport : Transport xp_reply written room}.
  Abbreviation request := (request P).

(** The parts of a request that its replies copy. *)
Definition repliable (req : request) : Prop :=
  is_u32 (rm_xid (rq_msg req)) /\ auth_ok (ar_verf (RPCM_ack (rq_msg req))) /\
  ar_vers (RPCM_ack (rq_msg req)) = zero_versions /\ rj_vers (RPCM_rej (rq_msg req)) = zero_versions.

Lemma zero_versions_ok : versions_ok zero_versions.
Proof. done. Qed.

Lemma reply_accepted (req : request) stat bs :
  repliable req -> is_i32 stat -> stat <> PROG_MISMATCH ->
  (if decide (stat = SUCCESS)
   then rq_auth req = true /\ forall xs, snk_ok xs -> x_op xs = XDR_ENCODE -> snk_fits xs (length bs) ->
     exists xs' r, run_pair xs (ar_results (RPCM_ack (rq_msg req))) = (true, xs', r) /\ emits xs xs' bs
   else bs = []) ->
  (forall p, auth_pad (ar_verf (RPCM_ack (rq_msg req))) p ->
     room (length (accepted_head (rm_xid (rq_msg req)) (ar_verf (RPCM_ack (rq_msg req))) p stat ++ bs))) ->
  exists q p, xp_reply (set_reply (accept stat) req) = Some q /\
    auth_pad (ar_verf (RPCM_ack (rq_msg req))) p /\
    written q (accepted_head (rm_xid (rq_msg req)) (ar_verf (RPCM_ack (rq_msg req))) p stat ++ bs).
Proof using transport.
  intros (Hx & Hv & Hvs & _) Hi Hne Hres Hroom.
  assert (Hwire : forall p, reply_wire (rq_msg (set_reply (accept stat) req)) p =
    accepted_head (rm_xid (rq_msg req)) (ar_verf (RPCM_ack (rq_msg req))) p stat).
  { intros p. unfold reply_wire, accepted_wire. rewrite decide_True by done. change (ar_stat _) with stat.
    by rewrite decide_False, app_nil_r by done. }
  destruct (tr_reply (set_reply (accept stat) req) bs) as (q & p & Hq & Hp & Hb).
  - split_and!; [done|done|]. left. split; [done|]. split_and!; [done|done|].
    change (versions_ok (ar_vers (RPCM_ack (rq_msg req)))). rewrite Hvs. apply zero_versions_ok.
  - destruct (decide (stat = SUCCESS)) as [E|E].
    + rewrite decide_True by done. exact Hres.
    + rewrite decide_False; [done|]. by intros [_ ?].
  - intros p Hp. rewrite Hwire. apply Hroom. by apply Hp.
  - exists q, p. split_and!; [done|by apply Hp|]. by rewrite Hwire in Hb.
Qed.

Lemma reply_mismatch (req : request) low high :
  repliable req -> is_u32 low -> is_u32 high ->
  (forall p, auth_pad (ar_verf (RPCM_ack (rq_msg req))) p ->
     room (length (accepted_head (rm_xid (rq_msg req)) (ar_verf (RPCM_ack (rq_msg req))) p PROG_MISMATCH ++ be32 low ++ be32 high))) ->
  exists q p, svcerr_progvers xp_reply req low high = Some q /\
    auth_pad (ar_verf (RPCM_ack (rq_msg req))) p /\
    written q (accepted_head (rm_xid (rq_msg req)) (ar_verf (RPCM_ack (rq_msg req))) p PROG_MISMATCH ++ be32 low ++ be32 high).
Proof using transport.
  intros (Hx & Hv & _ & _) Hl Hh Hroom. unfold svcerr_progvers. set (req' := set_reply _ req).
  assert (Hwire : forall p, reply_wire (rq_msg req') p ++ [] =
    accepted_head (rm_xid (rq_msg req)) (ar_verf (RPCM_ack (rq_msg req))) p PROG_MISMATCH ++ be32 low ++ be32 high).
  { intros p. rewrite app_nil_r. unfold reply_wire, accepted_wire. rewrite decide_True, decide_True by done.
    unfold accepted_head. by rewrite <- !app_assoc. }
  destruct (tr_reply req' []) as (q & p & Hq & Hp & Hb).
  - split_and!; [done|done|]. left. by split_and!.
  - rewrite decide_False; [done|]. by intros [_ ?].
  - intros p Hp. rewrite Hwire. apply Hroom. by apply Hp.
  - exists q, p. split_and!; [done|by apply Hp|]. by rewrite Hwire in Hb.
Qed.

Lemma reply_refused (req : request) why :
  repliable req -> is_i32 why -> room (length (auth_error (rm_xid (rq_msg req)) why)) ->
  exists q, svcerr_auth xp_reply req why = Some q /\ written q (auth_error (rm_xid (rq_msg req)) why).
Proof using transport.
  intros (Hx & Hv & _ & Hvs) Hw Hroom. unfold svcerr_auth. set (req' := set_reply _ req).
  assert (Hwire : forall p, reply_wire (rq_msg req') p ++ [] = auth_error (rm_xid (rq_msg req)) why).
  { intros p. rewrite app_nil_r. unfold reply_wire, rejected_wire. by rewrite decide_False, decide_False by done. }
  destruct (tr_reply req' []) as (q & p & Hq & Hp & Hb).
  - split_and!; [done|done|]. right. split; [done|]. split_and!; [by right| |done].
    change (versions_ok (rj_vers (RPCM_rej (rq_msg req)))). rewrite Hvs. apply zero_versions_ok.
  - rewrite decide_False; [done|]. by intros [? _].
  - intros p _. by rewrite Hwire.
  - exists q. split; [done|]. by rewrite Hwire in Hb.
Qed.

End Replies.

(** ** Requests *)

Section Requests.
  Context {FS P Q : Type} `{XdrSource P}.
  Variable xp_reply : request P -> option Q.
  Abbreviation message := (message P).
  Abbreviation request := (request P).
  Abbreviation outcome := (outcome P Q).

(** The checksum reads within the buffer. *)
Lemma checksum_total (req : request) xs :
  src_ok xs -> exists h, svc_vc_checksum req (x_buf xs) (x_data xs) (xdr_size_inline xs) = Some (req <| rq_cksum := h |>).
Proof.
  intros Hok. pose proof (src_bounds xs Hok). unfold svc_vc_checksum, CityHash64WithSeed, CityHash64WithSeeds, xdr_size_inline.
  destruct (lib_CityHash64_total (x_buf xs) (x_data xs) (Nat.min 256 (vio_wrap xs - x_data xs))) as (v & -> & _); [lia|].
  cbn [mbind option_bind]. eauto.
Qed.

Lemma frame_repliable (m : message) (req : request) : call_ok m -> auth_frame m req -> repliable req.
Proof. intros (Hx & _) (Hxid & _ & Hv & Hvs & Hrj). split_and!; [by rewrite Hxid|done..]. Qed.

(** The header of a call is taken off the stream. *)
Lemma request_decoded (cb : request -> XDR P -> ST (world FS) (outcome * bool)) m p q rest xs w :
  src_ok (xs <| x_op := XDR_DECODE |>) -> call_ok m -> auth_pad (cb_cred m) p -> auth_pad (cb_verf m) q ->
  (length rest mod 4 = 0)%nat -> src_in (xs <| x_op := XDR_DECODE |>) = call_wire m p q ++ rest ->
  exists xs', svc_request svc_vc_decode cb xs w = cb (decoded m) xs' w /\
    src_ok xs' /\ src_in xs' = rest /\ x_op xs' = XDR_DECODE.
Proof.
  intros Hok Hm Hp Hq Hr Hin. pose proof Hm as (_ & Hd & _). unfold svc_request, svc_vc_decode.
  destruct (call_decode_wire m (rpc_msg_init (rq_msg alloc_dnfs_request)) (xs <| x_op := XDR_DECODE |>) p q rest)
    as (xs' & -> & Hok' & Hin' & Hf); [done..|].
  exists xs'. split_and!; [|done|done|exact Hf]. simpl negb. cbv iota.
  change (rm_direction (call_over m _)) with (rm_direction m). by rewrite decide_True by done.
Qed.

Section Callback.
  Variable table : list (nfs_function_desc (FS:=FS) (P:=P)).
  Variable valid : Z -> Z -> Z -> route (FS:=FS) (P:=P).
  Variable valid_lookup : forall prog vers proc d, valid prog vers proc = RouteProcess d -> table !! Z.to_nat proc = Some d.
  Variable malloc_res : forall i d, table !! i = Some d -> fd_res d.
  Hypothesis valid_total : forall prog vers proc, valid prog vers proc <> RouteBad.
  Abbreviation cb := (process_cb xp_reply table valid valid_lookup malloc_res).

(** What the callback does with each of the routes. *)
Lemma process_cb_route req xs w :
  match valid (cb_prog (rq_msg req)) (cb_vers (rq_msg req)) (cb_proc (rq_msg req)) with
  | RouteNoProg => cb req xs w = Some ((sent (svcerr_noprog xp_reply req), true), w)
  | RouteNoVers low high => cb req xs w = Some ((sent (svcerr_progvers xp_reply req low high), true), w)
  | RouteNoProc => cb req xs w = Some ((sent (svcerr_noproc xp_reply req), true), w)
  | RouteProcess d =>
      exists E, cb req xs w = nfs_rpc_process_request xp_reply d (malloc_res (Z.to_nat (cb_proc (rq_msg req))) d E) req xs w
  | RouteBad => False
  end.
Proof using valid_total.
  unfold process_cb. set (prog := cb_prog _). set (vers := cb_vers _). set (proc := cb_proc _).
  generalize (valid_lookup prog vers proc). pose proof (valid_total prog vers proc) as Hb.
  destruct (valid prog vers proc) as [|low high| |d|]; try done. intros f. by exists (f d eq_refl).
Qed.

Lemma process_cb_decoded (m : message) xs w :
  match valid (cb_prog m) (cb_vers m) (cb_proc m) with
  | RouteNoProg => cb (decoded m) xs w = Some ((sent (svcerr_noprog xp_reply (decoded m)), true), w)
  | RouteNoVers low high => cb (decoded m) xs w = Some ((sent (svcerr_progvers xp_reply (decoded m) low high), true), w)
  | RouteNoProc => cb (decoded m) xs w = Some ((sent (svcerr_noproc xp_reply (decoded m)), true), w)
  | RouteProcess d => exists res, cb (decoded m) xs w = nfs_rpc_process_request xp_reply d res (decoded m) xs w
  | RouteBad => False
  end.
Proof using valid_total.
  pose proof (process_cb_route (decoded m) xs w) as Hcb.
  change (cb_prog (rq_msg (decoded m))) with (cb_prog m) in Hcb. change (cb_vers (rq_msg (decoded m))) with (cb_vers m) in Hcb.
  change (cb_proc (rq_msg (decoded m))) with (cb_proc m) in Hcb.
  destruct (valid (cb_prog m) (cb_vers m) (cb_proc m)) as [|low high| |d|]; [exact Hcb..| |exact Hcb].
  destruct Hcb as [E Hcb]. eexists. exact Hcb.
Qed.

End Callback.

(** Authentication, checksum, and then the arguments. *)
Lemma process_decoded_call (d : nfs_function_desc (FS:=FS) (P:=P)) (res : fd_res d) m xs w :
  call_ok m -> src_ok xs ->
  exists req, repliable req /\ rm_xid (rq_msg req) = rm_xid m /\
    (cred_valid (cb_cred m) /\ rq_auth req = true /\
       (forall p, auth_wire (ar_verf (RPCM_ack (rq_msg req))) p = auth_wire (reply_verf m) p) /\
       oa_length (ar_verf (RPCM_ack (rq_msg req))) = oa_length (reply_verf m) /\
       nfs_rpc_process_request xp_reply d res (decoded m) xs w =
         process_with d (cb_proc m) res (xs <| x_public := Some (mk_lookahead 0 0 0) |>)
           (sent (svcerr_decode xp_reply req), false) (Suspended, true)
           (fun rc res => (complete_dnfs_request xp_reply req d rc res, true)) w \/
     exists why, cred_refused (cb_cred m) why /\ is_i32 why /\
       nfs_rpc_process_request xp_reply d res (decoded m) xs w =
         Some ((sent (svcerr_auth xp_reply req why), false), w)).
Proof.
  intros Hm Hok. destruct (authenticate_decoded m Hm) as (stat & req & Ha & Hf & Hcase).
  pose proof (frame_repliable _ _ Hm Hf) as Hrep. destruct Hf as (Hx & Hpc & _). unfold nfs_rpc_process_request.
  rewrite Ha. clear Ha. cbv beta iota zeta. destruct Hcase as [(-> & Hv & Hau & Hw & Hl)|(Hne & Hi & Href)].
  - rewrite decide_False by (intros E; by apply E). cbv zeta.
    set (ys := xs <| x_public := Some (mk_lookahead 0 0 0) |>). destruct (checksum_total req ys) as (h & ->); [by apply src_public|].
    exists (req <| rq_cksum := h |>). split_and!; [done|done|]. left. split_and!; [done..|].
    change (cb_proc (rq_msg (req <| rq_cksum := h |>))) with (cb_proc (rq_msg req)). by rewrite Hpc.
  - exists req. split_and!; [done|done|]. right. exists stat. split_and!; [done|exact Hi|]. by rewrite decide_True.
Qed.

(** The procedure [d] runs on the arguments [a] behind the header. *)
Lemma cb_processed (cb : request -> XDR P -> ST (world FS) (outcome * bool)) (m : message) rest xs w d ok canon wire a
    (R : nfs_req_result -> fd_res d -> world FS -> Prop) :
  src_ok xs -> call_ok m -> x_op xs = XDR_DECODE -> (length rest mod 4 = 0)%nat -> src_in xs = wire a ++ rest -> cred_valid (cb_cred m) ->
  (forall ys, exists res, cb (decoded m) ys w = nfs_rpc_process_request xp_reply d res (decoded m) ys w) ->
  cb_proc m <> NFSPROC_NULL -> codec (xdr_decode_func d) ok canon wire (zero_arg d) -> ok a -> canon a ->
  (forall res, exists rc res' w', service_function d a res w = Some ((rc, res'), w') /\ rc <> NFS_REQ_ASYNC_WAIT /\ R rc res' w') ->
  exists req rc res' w', R rc res' w' /\ repliable req /\ rm_xid (rq_msg req) = rm_xid m /\ rq_auth req = true /\
    (forall v, auth_wire (ar_verf (RPCM_ack (rq_msg req))) v = auth_wire (reply_verf m) v) /\
    oa_length (ar_verf (RPCM_ack (rq_msg req))) = oa_length (reply_verf m) /\
    cb (decoded m) xs w = Some ((complete_dnfs_request xp_reply req d rc res', true), w').
Proof.
  intros Hok1 Hm Hop1 Hr Hin1 Hcred Hroute Hnull Hc Ha Hca Hs.
  destruct (Hroute xs) as [res ->]. destruct (Hs res) as (rc & res' & w' & Hsv & Hrc & HR).
  destruct (process_decoded_call d res m xs w Hm Hok1) as (req & Hrep & Hx & [(_ & Hau & Hw & Hl & ->)|(why & Href & _)]).
  2: { exfalso. unfold cred_refused in Href. destruct Hcred as [Hn|[Hsys ?]].
       - rewrite decide_False in Href by (by rewrite Hn). by destruct Href.
       - rewrite decide_True in Href by done. by destruct Href. }
  exists req, rc, res', w'. split_and!; [done..|]. set (ys := xs <| x_public := Some (mk_lookahead 0 0 0) |>).
  assert (src_ok ys /\ src_in ys = wire a ++ rest) as [Hok2 Hin2].
  { destruct (src_public xs (Some (mk_lookahead 0 0 0)) Hok1) as [? E]. split; [done|]. by rewrite <- Hin1, <- E. }
  by rewrite (process_decoded d ok canon wire (cb_proc m) res ys a rest w rc res' w').
Qed.

(** The result of the procedure follows the header of the reply. *)
Lemma cb_served `{!XdrSink P} {written : Q -> list byte -> Prop} {room : nat -> Prop} `{!Transport xp_reply written room}
    (cb : request -> XDR P -> ST (world FS) (outcome * bool)) (m : message) rest xs w d ok canon wire okr wirer a
    (R : fd_res d -> world FS -> Prop) :
  src_ok xs -> call_ok m -> x_op xs = XDR_DECODE -> (length rest mod 4 = 0)%nat -> src_in xs = wire a ++ rest -> cred_valid (cb_cred m) ->
  (forall ys, exists res, cb (decoded m) ys w = nfs_rpc_process_request xp_reply d res (decoded m) ys w) ->
  cb_proc m <> NFSPROC_NULL ->
  codec (xdr_decode_func d) ok canon wire (zero_arg d) -> encodes (xdr_encode_func d) okr wirer -> ok a -> canon a ->
  (forall res, exists rc res' w', service_function d a res w = Some ((rc, res'), w') /\
     (rc = NFS_REQ_OK \/ rc = NFS_REQ_ERROR) /\ okr res' /\ R res' w' /\
     forall v, auth_pad (reply_verf m) v -> room (length (accepted_head (rm_xid m) (reply_verf m) v SUCCESS ++ wirer res'))) ->
  exists res' w' rq v, R res' w' /\ cb (decoded m) xs w = Some ((Replied rq, true), w') /\
    auth_pad (reply_verf m) v /\ written rq (accepted_head (rm_xid m) (reply_verf m) v SUCCESS ++ wirer res').
Proof.
  intros Hok Hm Hop Hr Hin Hcred Hroute Hnull Hc He Ha Hca Hs.
  destruct (cb_processed cb m rest xs w d ok canon wire a
    (fun rc res' w' => (rc = NFS_REQ_OK \/ rc = NFS_REQ_ERROR) /\ okr res' /\ R res' w' /\
      forall v, auth_pad (reply_verf m) v -> room (length (accepted_head (rm_xid m) (reply_verf m) v SUCCESS ++ wirer res'))))
    as (req & rc & res' & w' & (Hrc & Hres & HR & Hroom) & Hrep & Hx & Hau & Hw & Hl & ->); [done..| |].
  { intros res. destruct (Hs res) as (rc & res' & w' & ? & Hrc & ?). exists rc, res', w'.
    split_and!; [done|by destruct Hrc; subst|tauto..]. }
  exists res', w'. unfold complete_dnfs_request. rewrite decide_False by (by destruct Hrc; subst). unfold svc_sendreply.
  set (req' := req <| rq_msg := _ |>).
  assert (Hhead : forall v, accepted_head (rm_xid (rq_msg req')) (ar_verf (RPCM_ack (rq_msg req'))) v SUCCESS =
    accepted_head (rm_xid m) (reply_verf m) v SUCCESS).
  { intros v. change (rm_xid (rq_msg req')) with (rm_xid (rq_msg req)).
    change (ar_verf (RPCM_ack (rq_msg req'))) with (ar_verf (RPCM_ack (rq_msg req))). unfold accepted_head. by rewrite Hw, Hx. }
  assert (Hpad : forall v, auth_pad (ar_verf (RPCM_ack (rq_msg req'))) v -> auth_pad (reply_verf m) v).
  { intros v. unfold auth_pad. by rewrite <- Hl. }
  destruct (reply_accepted (xp_reply:=xp_reply) (written:=written) (room:=room) req' SUCCESS (wirer res')) as (rq & v & -> & Hv & Hb);
    [done|done|done| | |].
  { rewrite decide_True by done. split; [done|]. intros zs Hys Hyo Hyf. unfold run_pair.
    destruct (He _ zs res') as (zs' & Hy & Hem); [done..|]. cbn -[xdr_encode_func]. rewrite Hy. eauto. }
  { intros v Hv. rewrite Hhead. by apply Hroom, Hpad. }
  exists rq, v. rewrite Hhead in Hb. split_and!; [done|done|by apply Hpad|done].
Qed.

End Requests.

(** ** Requests of a connection *)

Section Connection.
  Context {FS : Type}.
  Variable heap : nat -> list byte.
  Variable send_max : nat.
  Hypothesis heap_length : forall n, length (heap n) = n.
  Abbreviation message := (message xdr_ioq).
  Abbreviation request := (request xdr_ioq).
  Abbreviation outcome := (outcome xdr_ioq IOQ).
  Abbreviation xp_reply := (svc_vc_reply heap send_max).

(** The procedure [d] runs on the arguments [a] behind the header. *)
Lemma call_processed (cb : request -> IOQ -> ST (world FS) (outcome * bool)) (m : message) p q rest xs w d ok canon wire a
    (Q : nfs_req_result -> fd_res d -> world FS -> Prop) :
  ioq_src_ok xs -> call_ok m -> auth_pad (cb_cred m) p -> auth_pad (cb_verf m) q -> (length rest mod 4 = 0)%nat ->
  (length (wire a) mod 4 = 0)%nat -> ioq_in xs = call_wire m p q ++ wire a ++ rest -> cred_valid (cb_cred m) ->
  (forall ys, exists res, cb (decoded m) ys w = nfs_rpc_process_request xp_reply d res (decoded m) ys w) ->
  cb_proc m <> NFSPROC_NULL -> codec (xdr_decode_func d) ok canon wire (zero_arg d) -> ok a -> canon a ->
  (forall res, exists rc res' w', service_function d a res w = Some ((rc, res'), w') /\ rc <> NFS_REQ_ASYNC_WAIT /\ Q rc res' w') ->
  exists req rc res' w', Q rc res' w' /\ repliable req /\ rm_xid (rq_msg req) = rm_xid m /\ rq_auth req = true /\
    (forall v, auth_wire (ar_verf (RPCM_ack (rq_msg req))) v = auth_wire (reply_verf m) v) /\
    oa_length (ar_verf (RPCM_ack (rq_msg req))) = oa_length (reply_verf m) /\
    svc_request svc_vc_decode cb xs w = Some ((complete_dnfs_request xp_reply req d rc res', true), w').
Proof.
  intros Hok Hm Hp Hq Hr Hwm Hin Hcred Hroute Hnull Hc Ha Hca Hs.
  destruct (request_decoded cb m p q (wire a ++ rest) xs w) as (xs1 & -> & Hok1 & Hin1 & Hop1);
    [exact Hok|done..|by apply mod4_app|exact Hin|]. by apply (cb_processed xp_reply cb m rest xs1 w d ok canon wire a Q).
Qed.

(** The result of the procedure follows the header of the reply. *)
Lemma call_served (cb : request -> IOQ -> ST (world FS) (outcome * bool)) (m : message) p q rest xs w d ok canon wire okr wirer a
    (Q : fd_res d -> world FS -> Prop) :
  ioq_src_ok xs -> call_ok m -> auth_pad (cb_cred m) p -> auth_pad (cb_verf m) q -> (length rest mod 4 = 0)%nat ->
  (length (wire a) mod 4 = 0)%nat -> ioq_in xs = call_wire m p q ++ wire a ++ rest -> cred_valid (cb_cred m) ->
  (forall ys, exists res, cb (decoded m) ys w = nfs_rpc_process_request xp_reply d res (decoded m) ys w) ->
  cb_proc m <> NFSPROC_NULL ->
  codec (xdr_decode_func d) ok canon wire (zero_arg d) -> encodes (xdr_encode_func d) okr wirer -> ok a -> canon a ->
  (forall res, exists rc res' w', service_function d a res w = Some ((rc, res'), w') /\
     (rc = NFS_REQ_OK \/ rc = NFS_REQ_ERROR) /\ okr res' /\ Q res' w') ->
  exists res' w' rq v, Q res' w' /\ svc_request svc_vc_decode cb xs w = Some ((Replied rq, true), w') /\
    auth_pad (reply_verf m) v /\ written_queue rq (accepted_head (rm_xid m) (reply_verf m) v SUCCESS ++ wirer res').
Proof using heap_length.
  intros Hok Hm Hp Hq Hr Hwm Hin Hcred Hroute Hnull Hc He Ha Hca Hs. pose proof (vc_transport heap send_max heap_length).
  destruct (request_decoded cb m p q (wire a ++ rest) xs w) as (xs1 & -> & Hok1 & Hin1 & Hop1);
    [exact Hok|done..|by apply mod4_app|exact Hin|]. apply (cb_served xp_reply cb m rest xs1 w d ok canon wire okr wirer a Q); [done..|].
  intros res. destruct (Hs res) as (rc & res' & w' & Hs'). exists rc, res', w'. tauto.
Qed.

(** A result that cannot be encoded: the transport is destroyed. *)
Lemma call_dies (req : request) (d : nfs_function_desc (FS:=FS) (P:=xdr_ioq)) rc res :
  repliable req -> rq_auth req = true -> rc = NFS_REQ_OK ->
  (forall xs, ioq_snk_ok xs -> x_op xs = XDR_ENCODE -> (xdr_encode_func d xs res).1.1 = false) ->
  complete_dnfs_request xp_reply req d rc res = ReplyDied.
Proof using heap_length.
  intros (Hx & Hv & Hvs & _) Hau -> Hres. unfold complete_dnfs_request. rewrite decide_False by done. unfold svc_sendreply.
  set (req' := req <| rq_msg := _ |>). rewrite (vc_reply_dies heap heap_length); [done| |done|done|done|].
  - split_and!; [done|done|]. left. split; [done|]. split_and!; [done|done|].
    change (versions_ok (ar_vers (RPCM_ack (rq_msg req)))). rewrite Hvs. apply zero_versions_ok.
  - intros xs Hok Hop. specialize (Hres xs Hok Hop). unfold run_pair. cbn -[xdr_encode_func].
    destruct (xdr_encode_func d xs res) as [[b ys] r]. exact Hres.
Qed.

End Connection.

Lemma nfs_cb_decoded {FS} `{Posix FS} `{!UnionArm LOOKUP3resok LOOKUP3resfail} `{!UnionArm CREATE3resok CREATE3resfail}
    env {P Q} `{XdrSource P} (xp_reply : request P -> option Q) malloc_res (m : message P) xs (w : world FS) :
  match nfs_rpc_valid_NFS env (cb_prog m) (cb_vers m) (cb_proc m) with
  | RouteNoProg =>
      nfs_process_cb env xp_reply malloc_res (decoded m) xs w = Some ((sent (svcerr_noprog xp_reply (decoded m)), true), w)
  | RouteNoVers low high =>
      nfs_process_cb env xp_reply malloc_res (decoded m) xs w =
        Some ((sent (svcerr_progvers xp_reply (decoded m) low high), true), w)
  | RouteNoProc =>
      nfs_process_cb env xp_reply malloc_res (decoded m) xs w = Some ((sent (svcerr_noproc xp_reply (decoded m)), true), w)
  | RouteProcess d =>
      exists res, nfs_process_cb env xp_reply malloc_res (decoded m) xs w =
        nfs_rpc_process_request xp_reply d res (decoded m) xs w
  | RouteBad => False
  end.
Proof. exact (process_cb_decoded xp_reply _ _ (route_lookup env) malloc_res (route_total env) m xs w). Qed.
