(* ===== verification/SvcProperties.v ===== *)
(** * What a client gets for the message it sends

    The theorems about [Svc]: a served call, the errors of the RPC layer, and that
    no message stops the server before it reaches a procedure. *)
From S2P Require Import Prelude XdrStream XdrIoq XdrPrim XdrSpec Nfs3Types Nfs3Msgs Nfs3ArgSpecs Nfs3ResSpecs.
From S2P Require Import Posix NfsUtils Fsal Nfs3Attr Nfs3Dir Nfs3Io Nfs3Readdir Dispatch.
From S2P Require Import DemoFs Properties IoqPos RpcMsg SvcAuth City SvcVc Svc.

Open Scope Z_scope.
Open Scope dnfs_scope.

(** ** Arbitrary messages *)

Section Messages.
  Context {FS : Type} `{Posix FS}.
  Context `{!UnionArm LOOKUP3resok LOOKUP3resfail} `{!UnionArm CREATE3resok CREATE3resfail}.
  Context {P Q : Type} `{XdrSource P}.
  Variable env : server_env.
  Variable xp_reply : request P -> option Q.
  Variable malloc_res : forall i (d : nfs_function_desc (FS:=FS) (P:=P)), nfs3_func_desc env !! i = Some d -> fd_res d.

(** What a procedure's result comes to. *)
Definition finished (req : request P) (d : nfs_function_desc (FS:=FS) (P:=P)) (x : nfs_req_result * fd_res d) : outcome P Q * bool :=
  if decide (fst x = NFS_REQ_ASYNC_WAIT) then (Suspended, true) else (complete_dnfs_request xp_reply req d (fst x) (snd x), true).

(** The bytes [bs] are a call of NFS version 3 with an accepted credential, and
    [r] is what the procedure of its number does on the arguments that the filter
    of this procedure finds behind the header, the reply having the transaction
    id of the call. *)
Definition served (bs : list byte) (r : option (outcome P Q * bool * world FS)) (w : world FS) : Prop :=
  exists (m : message P) p q d (E : nfs3_func_desc env !! Z.to_nat (cb_proc m) = Some d) arg ys ys' req,
    bs = call_wire m p q ++ src_in ys /\ call_ok m /\ auth_pad (cb_cred m) p /\ auth_pad (cb_verf m) q /\
    cb_prog m = NFS_PROGRAM /\ cb_vers m = NFS_V3 /\ NFSPROC_NULL < cb_proc m <= NFSPROC3_COMMIT /\ cred_valid (cb_cred m) /\
    src_ok ys /\ xdr_decode_func d ys (zero_arg d) = (true, ys', arg) /\
    repliable req /\ rm_xid (rq_msg req) = rm_xid m /\
    r = match service_function d arg (malloc_res (Z.to_nat (cb_proc m)) d E) w with
        | Some (x, w') => Some (finished req d x, w')
        | None => None
        end.

(** The request ends by itself, the files untouched, or exactly as the procedure
    that the bytes ask for. *)
Definition answered (bs : list byte) (r : option (outcome P Q * bool * world FS)) (w : world FS) : Prop :=
  (exists o, r = Some (o, w)) \/ served bs r w.

Lemma process_answered (d : nfs_function_desc (FS:=FS) (P:=P)) proc res xs u req w :
  (exists o, process_with d proc res xs u (Suspended, true) (fun rc res => (complete_dnfs_request xp_reply req d rc res, true)) w = Some (o, w)) \/
  exists xs' arg, proc <> NFSPROC_NULL /\ xdr_decode_func d xs (zero_arg d) = (true, xs', arg) /\
    process_with d proc res xs u (Suspended, true) (fun rc res => (complete_dnfs_request xp_reply req d rc res, true)) w =
    match service_function d arg res w with Some (x, w') => Some (finished req d x, w') | None => None end.
Proof.
  unfold process_with. destruct (xdr_decode_func d xs (zero_arg d)) as [[[|] xs'] arg]; simpl; [|left; by eexists].
  destruct (decide (proc <> NFSPROC_NULL)) as [Hn|Hn]; [right|left; by eexists]. exists xs', arg. split_and!; [done|done|].
  unfold bind, ret, finished. destruct (service_function d arg res w) as [[[rc r] w']|]; [|done]. simpl. by case_decide.
Qed.

Lemma route_process prog vers proc (d : nfs_function_desc (FS:=FS) (P:=P)) :
  nfs_rpc_valid_NFS env prog vers proc = RouteProcess d -> prog = NFS_PROGRAM /\ vers = NFS_V3 /\ proc <= NFSPROC3_COMMIT.
Proof. unfold nfs_rpc_valid_NFS. repeat case_decide; try done. Qed.

(** A call behind its header. *)
Lemma request_answered bs (m : message P) p q xs w :
  src_ok xs -> call_ok m -> auth_pad (cb_cred m) p -> auth_pad (cb_verf m) q -> bs = call_wire m p q ++ src_in xs ->
  answered bs (nfs_process_cb env xp_reply malloc_res (decoded m) xs w) w.
Proof.
  intros Hok Hm Hp Hq Hbs. pose proof (process_cb_route xp_reply _ _ (route_lookup env) malloc_res (route_total env) (decoded m) xs w) as Hcb.
  change (cb_prog (rq_msg (decoded m))) with (cb_prog m) in Hcb. change (cb_vers (rq_msg (decoded m))) with (cb_vers m) in Hcb.
  change (cb_proc (rq_msg (decoded m))) with (cb_proc m) in Hcb. unfold nfs_process_cb.
  destruct (nfs_rpc_valid_NFS env (cb_prog m) (cb_vers m) (cb_proc m)) as [|low high| |d|] eqn:Er; [left; eexists; exact Hcb..| |done].
  destruct Hcb as [E ->]. destruct (route_process _ _ _ _ Er) as (Hprog & Hvers & Hproc).
  destruct (process_decoded_call xp_reply d (malloc_res _ d E) m xs w Hm Hok) as (req & Hrep & Hx & [Hrun|Hrun]).
  - destruct Hrun as (Hcred & _ & _ & _ & ->). set (ys := xs <| x_public := Some (mk_lookahead 0 0 0) |>).
    destruct (src_public xs (Some (mk_lookahead 0 0 0)) Hok) as [Hok' Hin]. fold ys in Hok', Hin.
    edestruct (process_answered d (cb_proc m)) as [Ho|(xs' & arg & Hn & Hd & Hr)]; [left; exact Ho|right].
    rewrite Hr. exists m, p, q, d, E, arg, ys, xs', req. rewrite Hin. pose proof Hm as (_ & _ & _ & _ & _ & Hu & _).
    unfold is_u32, NFSPROC_NULL in *. by split_and!; try lia.
  - destruct Hrun as (why & _ & _ & ->). left. by eexists.
Qed.

(** Any message behind the direction of the handle. *)
Lemma decode_answered xs w :
  src_ok (xs <| x_op := XDR_DECODE |>) ->
  answered (src_in (xs <| x_op := XDR_DECODE |>)) (svc_request svc_vc_decode (nfs_process_cb env xp_reply malloc_res) xs w) w.
Proof.
  intros Hok. unfold svc_request, svc_vc_decode. set (ys := xs <| x_op := XDR_DECODE |>) in *.
  destruct (xdr_dplx_decode ys _) as [[b xs1] msg] eqn:E. cbv zeta.
  destruct b; cbn [negb]; [|left; by eexists]. case_decide as Hdir; [|case_decide; left; by eexists].
  destruct (call_decode_sound ys (rpc_msg_init (rq_msg alloc_dnfs_request)) xs1 msg Hok null_auth_ok null_auth_ok E Hdir) as (p & q & Hm & Hp & Hq & Hov & Hok1 & Hin).
  replace (alloc_dnfs_request <| rq_msg := msg |>) with (decoded msg) by (unfold decoded; by rewrite <- Hov).
  by eapply request_answered.
Qed.

End Messages.


(** ** Errors of the RPC layer *)

(** The calls that are answered without running a procedure, with the answer, and
    whether the memory for the result is given back or was never allocated. *)
Inductive rpc_error {FS} `{Posix FS} `{!UnionArm LOOKUP3resok LOOKUP3resfail} `{!UnionArm CREATE3resok CREATE3resfail}
    {P} `{XdrSource P} (env : server_env) (m : message P) (rest : list byte) : bool -> list byte -> Prop :=
  | ErrProgram :
      cb_prog m <> NFS_PROGRAM -> rpc_error env m rest true (accepted_head (rm_xid m) _null_auth [] PROG_UNAVAIL)
  | ErrVersion :
      cb_prog m = NFS_PROGRAM -> cb_vers m <> NFS_V3 ->
      rpc_error env m rest true (accepted_head (rm_xid m) _null_auth [] PROG_MISMATCH ++ be32 3 ++ be32 3)
  | ErrProcedure :
      cb_prog m = NFS_PROGRAM -> cb_vers m = NFS_V3 -> NFSPROC3_COMMIT < cb_proc m ->
      rpc_error env m rest true (accepted_head (rm_xid m) _null_auth [] PROC_UNAVAIL)
  | ErrCredential why :
      cb_prog m = NFS_PROGRAM -> cb_vers m = NFS_V3 -> cb_proc m <= NFSPROC3_COMMIT -> cred_refused (cb_cred m) why ->
      rpc_error env m rest false (auth_error (rm_xid m) why)
  | ErrArguments (d : nfs_function_desc (FS:=FS) (P:=P)) v :
      nfs_rpc_valid_NFS env (cb_prog m) (cb_vers m) (cb_proc m) = RouteProcess d -> cred_valid (cb_cred m) ->
      (forall ys, src_ok ys -> x_op ys = XDR_DECODE -> src_in ys = rest ->
         fst (fst (xdr_decode_func d ys (zero_arg d))) = false) ->
      auth_pad (reply_verf m) v -> rpc_error env m rest false (accepted_head (rm_xid m) (reply_verf m) v GARBAGE_ARGS).

Lemma decoded_repliable {P} (m : message P) : call_ok m -> repliable (decoded m).
Proof. intros (Hx & _). split_and!; [exact Hx|exact null_auth_ok|reflexivity|reflexivity]. Qed.

Lemma null_pad p : auth_pad _null_auth p -> p = [].
Proof. intros Hp. by destruct p. Qed.

Lemma refused_invalid oa why : cred_valid oa -> ~ cred_refused oa why.
Proof.
  unfold cred_refused. intros [Hn|[Hs ?]].
  - rewrite decide_False by (by rewrite Hn). by intros [? _].
  - rewrite decide_True by done. by intros [_ ?].
Qed.

Section Errors.
  Context {FS : Type} `{Posix FS}.
  Context `{!UnionArm LOOKUP3resok LOOKUP3resfail} `{!UnionArm CREATE3resok CREATE3resfail}.
  Variable env : server_env.
  Context {P Q : Type} `{XdrSource P} `{!XdrSink P}.
  Context {xp_reply : request P -> option Q} {written : Q -> list byte -> Prop} {room : nat -> Prop}.
  Context {transport : Transport xp_reply written room}.

Lemma noprog_reply req : svcerr_noprog xp_reply req = xp_reply (set_reply (accept PROG_UNAVAIL) req).
Proof. reflexivity. Qed.

Lemma noproc_reply req : svcerr_noproc xp_reply req = xp_reply (set_reply (accept PROC_UNAVAIL) req).
Proof. reflexivity. Qed.

(** An error before authentication. *)
Lemma early_error (m : message P) stat :
  call_ok m -> is_i32 stat -> stat <> PROG_MISMATCH -> stat <> SUCCESS ->
  room (length (accepted_head (rm_xid m) _null_auth [] stat)) ->
  exists q, xp_reply (set_reply (accept stat) (decoded m)) = Some q /\
    written q (accepted_head (rm_xid m) _null_auth [] stat).
Proof using transport.
  intros Hm Hi Hne Hns Hroom.
  destruct (reply_accepted (xp_reply:=xp_reply) (decoded m) stat []) as (q & p & Hq & Hp & Hb);
    [by apply decoded_repliable|done|done|by rewrite decide_False| |].
  { rewrite decoded_verf, decoded_xid. intros p Hp. apply null_pad in Hp as ->. by rewrite app_nil_r. }
  exists q. split; [exact Hq|]. rewrite decoded_verf in Hp, Hb. rewrite decoded_xid in Hb.
  apply null_pad in Hp as ->. by rewrite app_nil_r in Hb.
Qed.

(** An error at or behind authentication. *)
Lemma late_error (m : message P) (d : nfs_function_desc (FS:=FS) (P:=P)) res rest xs w freed bs :
  call_ok m -> src_ok xs -> x_op xs = XDR_DECODE -> src_in xs = rest ->
  nfs_rpc_valid_NFS env (cb_prog m) (cb_vers m) (cb_proc m) = RouteProcess d -> rpc_error env m rest freed bs ->
  (forall bs', rpc_error env m rest freed bs' -> room (length bs')) ->
  exists rq bs', nfs_rpc_process_request xp_reply d res (decoded m) xs w = Some ((Replied rq, freed), w) /\
    rpc_error env m rest freed bs' /\ written rq bs'.
Proof using transport.
  intros Hm Hok Hop Hin Hroute He Hroom. pose proof Hroute as Hr2. unfold nfs_rpc_valid_NFS in Hr2.
  case_decide; [done|]. case_decide; [|done]. case_decide; [|done].
  destruct (process_decoded_call xp_reply d res m xs w Hm Hok)
    as (req & Hrep & Hx & [(Hv & Hau & Hw & Hl & ->)|(why & Href & Hi & ->)]).
  - destruct He as [? | ? ? | ? ? ? | why ? ? ? Hno | d' v Hd _ Hfail Hpad]; [done|done|lia|by destruct (refused_invalid _ _ Hv Hno)|].
    rewrite Hroute in Hd. injection Hd as <-. unfold process_with. set (ys := xs <| x_public := _ |>).
    assert (src_ok ys /\ src_in ys = rest) as [Hoky Hiny] by (rewrite <- Hin; by apply src_public).
    pose proof (Hfail ys Hoky Hop Hiny) as Hno. destruct (xdr_decode_func d ys (zero_arg d)) as [[b ?] ?]. simpl in Hno. subst b.
    assert (Herr : forall p, auth_pad (ar_verf (RPCM_ack (rq_msg req))) p ->
      rpc_error env m rest false (accepted_head (rm_xid (rq_msg req)) (ar_verf (RPCM_ack (rq_msg req))) p GARBAGE_ARGS ++ [])).
    { intros p Hp. rewrite app_nil_r, Hx. unfold accepted_head. rewrite Hw.
      apply (ErrArguments _ _ _ d); [done|done|exact Hfail|unfold auth_pad in *; by rewrite <- Hl]. }
    destruct (reply_accepted (xp_reply:=xp_reply) req GARBAGE_ARGS []) as (q & p & Hq & Hp & Hb); [done..|by auto|].
    unfold svcerr_decode. rewrite Hq. eexists q, _. split; [reflexivity|]. split; [|exact Hb]. by apply Herr.
  - destruct He as [? | ? ? | ? ? ? | why' ? ? ? Hno | d' v ? Hv]; [done|done|lia| |by destruct (refused_invalid _ _ Hv Href)].
    assert (Herr : rpc_error env m rest false (auth_error (rm_xid (rq_msg req)) why)) by (rewrite Hx; by apply ErrCredential).
    destruct (reply_refused (xp_reply:=xp_reply) req why) as (q & Hq & Hb); [done|done|by apply Hroom|].
    rewrite Hq. eexists q, _. split; [reflexivity|]. by split.
Qed.

Lemma route_noprog prog vers proc :
  prog <> NFS_PROGRAM -> nfs_rpc_valid_NFS (FS:=FS) (P:=P) env prog vers proc = RouteNoProg.
Proof. intros. unfold nfs_rpc_valid_NFS. by rewrite decide_True. Qed.

Lemma route_novers vers proc :
  vers <> NFS_V3 -> nfs_rpc_valid_NFS (FS:=FS) (P:=P) env NFS_PROGRAM vers proc = RouteNoVers NFS_V3 NFS_V3.
Proof. intros. unfold nfs_rpc_valid_NFS. rewrite decide_False by (intros E; by apply E). by rewrite decide_False. Qed.

Lemma route_noproc proc :
  NFSPROC3_COMMIT < proc -> nfs_rpc_valid_NFS (FS:=FS) (P:=P) env NFS_PROGRAM NFS_V3 proc = RouteNoProc.
Proof.
  intros. unfold nfs_rpc_valid_NFS. rewrite decide_False by (intros E; by apply E). rewrite decide_True by done.
  by rewrite decide_False by lia.
Qed.

Lemma routed (m : message P) :
  cb_prog m = NFS_PROGRAM -> cb_vers m = NFS_V3 -> cb_proc m <= NFSPROC3_COMMIT ->
  exists d, nfs_rpc_valid_NFS (FS:=FS) (P:=P) env (cb_prog m) (cb_vers m) (cb_proc m) = RouteProcess d.
Proof.
  intros Hp Hv Hc. unfold nfs_rpc_valid_NFS. rewrite decide_False by (by rewrite Hp; intros E; apply E).
  rewrite decide_True, decide_True by done.
  destruct (lookup_lt_is_Some_2 (nfs3_func_desc (FS:=FS) (P:=P) env) (Z.to_nat (cb_proc m))) as [d ->]; [|by exists d].
  unfold NFSPROC3_COMMIT in *. simpl. lia.
Qed.

(** A decoded call that is in error. *)
Lemma cb_error malloc_res (m : message P) rest xs (w : world FS) freed bs :
  call_ok m -> src_ok xs -> x_op xs = XDR_DECODE -> src_in xs = rest -> rpc_error env m rest freed bs ->
  (forall bs', rpc_error env m rest freed bs' -> room (length bs')) ->
  exists rq bs', nfs_process_cb env xp_reply malloc_res (decoded m) xs w = Some ((Replied rq, freed), w) /\
    rpc_error env m rest freed bs' /\ written rq bs'.
Proof using transport.
  intros Hm Hok1 Hop1 Hin1 He Hroom. pose proof (nfs_cb_decoded env xp_reply malloc_res m xs w) as Hcb.
  assert (Hlate : forall d, nfs_rpc_valid_NFS env (cb_prog m) (cb_vers m) (cb_proc m) = RouteProcess d ->
    exists rq bs', nfs_process_cb env xp_reply malloc_res (decoded m) xs w = Some ((Replied rq, freed), w) /\
      rpc_error env m rest freed bs' /\ written rq bs').
  { intros d Hd. rewrite Hd in Hcb. destruct Hcb as [res ->]. by eapply late_error. }
  pose proof (Hroom _ He) as Hbs.
  destruct He as [Hprog | Hprog Hvers | Hprog Hvers Hproc | why Hprog Hvers Hproc _ | d v Hd _ _ _].
  - destruct (early_error m PROG_UNAVAIL) as (rq & Hrq & Hb); [done..|].
    rewrite route_noprog in Hcb by done. rewrite Hcb, noprog_reply, Hrq.
    eexists rq, _. split; [reflexivity|]. split; [by apply ErrProgram|exact Hb].
  - destruct (reply_mismatch (xp_reply:=xp_reply) (decoded m) NFS_V3 NFS_V3) as (rq & v & Hrq & Hv & Hb);
      [by apply decoded_repliable|done|done| |].
    { rewrite decoded_verf, decoded_xid. intros p Hp. by apply null_pad in Hp as ->. }
    rewrite Hprog, route_novers in Hcb by done. rewrite Hcb, Hrq. eexists rq, _. split; [reflexivity|]. split; [by apply ErrVersion|].
    rewrite decoded_verf in Hv, Hb. rewrite decoded_xid in Hb. apply null_pad in Hv as ->. exact Hb.
  - destruct (early_error m PROC_UNAVAIL) as (rq & Hrq & Hb); [done..|].
    rewrite Hprog, Hvers, route_noproc in Hcb by done. rewrite Hcb, noproc_reply, Hrq.
    eexists rq, _. split; [reflexivity|]. split; [by apply ErrProcedure|exact Hb].
  - destruct (routed m Hprog Hvers Hproc) as [d Hd]. by eapply Hlate.
  - by eapply Hlate.
Qed.

End Errors.

(** C20: A well-formed call that cannot be served is answered with exactly the error
    that RFC 5531 has for it: an unknown program, another version (with the range
    that is supported), an unknown procedure, a credential that is not accepted,
    arguments that cannot be decoded.  No file is touched.  In the last two cases
    the memory that was allocated for the result is never freed. *)
Theorem rpc_errors_answered {FS} `{Posix FS}
    `{!UnionArm LOOKUP3resok LOOKUP3resfail} `{!UnionArm CREATE3resok CREATE3resfail} env heap send_max malloc_res
    (m : message xdr_ioq) p q rest (xs : IOQ) (w : world FS) freed bs :
  (forall n, length (heap n) = n) -> ioq_src_ok xs -> call_ok m -> auth_pad (cb_cred m) p -> auth_pad (cb_verf m) q ->
  (length rest mod 4 = 0)%nat -> ioq_in xs = call_wire m p q ++ rest -> rpc_error env m rest freed bs ->
  exists rq bs', svc_request svc_vc_decode (nfs_process_cb env (svc_vc_reply heap send_max) malloc_res) xs w =
      Some ((Replied rq, freed), w) /\
    rpc_error env m rest freed bs' /\ written_queue rq bs'.
Proof.
  intros Hheap Hok Hm Hp Hq Hr Hin He. pose proof (vc_transport heap send_max Hheap).
  destruct (request_decoded (nfs_process_cb env (svc_vc_reply heap send_max) malloc_res) m p q rest xs w)
    as (xs1 & -> & Hok1 & Hin1 & Hop1); [done..|]. by eapply cb_error.
Qed.

(** ** A served call *)

(** A GETATTR call from its message to the message of the reply: the credential is
    AUTH_NONE or a valid AUTH_SYS one, the arguments are a file handle.  One [lstat]
    of the path in the handle is made and nothing else; the reply has the
    transaction id of the call, the verifier that goes with the flavor, SUCCESS, and
    behind it the status and the attributes that the call of [lstat] delivered. *)
Lemma getattr_dispatched {FS P Q} `{Posix FS} `{!UnionArm LOOKUP3resok LOOKUP3resfail} `{!UnionArm CREATE3resok CREATE3resfail}
    `{XdrSource P} `{!XdrSink P} {xp_reply : request P -> option Q} {written : Q -> list byte -> Prop} {room : nat -> Prop}
    `{!Transport xp_reply written room} env malloc_res (m : message P) h rest xs (w : world FS) :
  src_ok xs -> call_ok m -> x_op xs = XDR_DECODE ->
  cb_prog m = NFS_PROGRAM -> cb_vers m = NFS_V3 -> cb_proc m = 1 -> cred_valid (cb_cred m) ->
  nfs_fh3_ok h -> fh3_canon h -> ~ no_handle h -> (length rest mod 4 = 0)%nat -> src_in xs = nfs_fh3_wire h ++ rest ->
  (forall r v, auth_pad (reply_verf m) v -> room (length (accepted_head (rm_xid m) (reply_verf m) v SUCCESS ++ getattr_wire r))) ->
  exists r w' rq v, nfs_process_cb env xp_reply malloc_res (decoded m) xs w = Some ((Replied rq, true), w') /\
    w_trace w' = w_trace w ++ [EvLstat (handle_path h) r] /\ fsal_handle w' = fsal_handle w /\
    auth_pad (reply_verf m) v /\ written rq (accepted_head (rm_xid m) (reply_verf m) v SUCCESS ++ getattr_wire r).
Proof.
  intros Hok Hm Hop Hprog Hvers Hproc Hcred Hh Hca Hn Hr Hin Hroom.
  set (d := mk_desc (FS:=FS) (P:=P) nfs_fh3 GETATTR3res nfs3_getattr xdr_GETATTR3args xdr_GETATTR3res zero_fh3 looks).
  destruct (cb_served xp_reply (written:=written) (room:=room) (nfs_process_cb env xp_reply malloc_res) m rest xs w d
    nfs_fh3_ok fh3_canon nfs_fh3_wire (res_ok fattr3_ok (fun _ => True)) (res_wire fattr3_wire (fun _ => [])) h
    (fun res' w' => exists r, w_trace w' = w_trace w ++ [EvLstat (handle_path h) r] /\ fsal_handle w' = fsal_handle w /\
       res_wire fattr3_wire (fun _ => []) res' = getattr_wire r))
    as (res' & w' & rq & v & (r & Ht & Htab & Hw) & Hs & Hv & Hb); [done..| | | | |done|done| |].
  - intros ys. pose proof (nfs_cb_decoded env xp_reply malloc_res m ys w) as Hcb.
    rewrite Hprog, Hvers, Hproc in Hcb. exact Hcb.
  - by rewrite Hproc.
  - apply fh3_args_codec.
  - apply GETATTR3res_encodes.
  - intros res. destruct (runs_at _ w _ (getattr_runs h res (fsal_handle w) Hca Hn))
      as ([rc res'] & w' & evs & Hrun & Ht & Htab & r & -> & Hst & Hres & Herr).
    destruct (getattr_reply_wire r res' Hst) as [Hrok Hw]; [intros He; by apply Hres|].
    exists rc, res', w'. split_and!; [exact Hrun| |done|by exists r|rewrite Hw; by apply Hroom].
    destruct (decide (status res' = NFS3_OK)); [left; by apply Hres|right; by apply Herr].
  - exists r, w', rq, v. rewrite <- Hw. by split_and!.
Qed.

(** The same over a connection. *)
Lemma getattr_message {FS} `{Posix FS}
    `{!UnionArm LOOKUP3resok LOOKUP3resfail} `{!UnionArm CREATE3resok CREATE3resfail} env heap send_max malloc_res
    (m : message xdr_ioq) p q h rest (xs : IOQ) (w : world FS) :
  (forall n, length (heap n) = n) -> ioq_src_ok xs -> call_ok m -> auth_pad (cb_cred m) p -> auth_pad (cb_verf m) q ->
  cb_prog m = NFS_PROGRAM -> cb_vers m = NFS_V3 -> cb_proc m = 1 -> cred_valid (cb_cred m) ->
  nfs_fh3_ok h -> fh3_canon h -> ~ no_handle h -> (length rest mod 4 = 0)%nat ->
  ioq_in xs = call_wire m p q ++ nfs_fh3_wire h ++ rest ->
  exists r w' rq v, svc_request svc_vc_decode (nfs_process_cb env (svc_vc_reply heap send_max) malloc_res) xs w =
      Some ((Replied rq, true), w') /\
    w_trace w' = w_trace w ++ [EvLstat (handle_path h) r] /\ fsal_handle w' = fsal_handle w /\
    auth_pad (reply_verf m) v /\ written_queue rq (accepted_head (rm_xid m) (reply_verf m) v SUCCESS ++ getattr_wire r).
Proof.
  intros Hheap Hok Hm Hp Hq Hprog Hvers Hproc Hcred Hh Hca Hn Hr Hin. pose proof (vc_transport heap send_max Hheap).
  destruct (request_decoded (nfs_process_cb env (svc_vc_reply heap send_max) malloc_res) m p q (nfs_fh3_wire h ++ rest) xs w)
    as (xs1 & -> & Hok1 & Hin1 & Hop1); [done..| |done|by eapply getattr_dispatched].
  apply mod4_app; [|done]. apply (spec_len _ _ _ _ (xdr_nfs_fh3_spec (P:=xdr_ioq))). done.
Qed.

(** The length of a reply to GETATTR. *)
Lemma getattr_reply_length xid (verf : opaque_auth) v r :
  auth_ok verf -> auth_pad verf v ->
  0 < Z.of_nat (length (accepted_head xid verf v SUCCESS ++ getattr_wire r)) <= LAST_FRAG_XDR_UNITS.
Proof.
  intros Ho Hp. pose proof (getattr_wire_length r). pose proof Ho as (_ & Hl & _). unfold MAX_AUTH_BYTES in Hl.
  assert (length v <= 3)%nat. { rewrite Hp. unfold pad. pose proof (Nat.mod_upper_bound (4 - Z.to_nat (oa_length verf) mod 4) 4). lia. }
  rewrite units_value. unfold accepted_head, auth_wire, auth_body. rewrite !length_app, length_take. cbn [length be32]. lia.
Qed.

Lemma reply_verf_ok {P} (m : message P) : call_ok m -> auth_ok (reply_verf m).
Proof. intros (_ & _ & _ & _ & _ & _ & _ & Hv). unfold reply_verf. case_decide; [done|apply null_auth_ok]. Qed.

(** C1: A GETATTR call over a connection, from the bytes that the client sends to the
    bytes it receives.  The record of the call arrives in any fragments of whole
    units and in any portions; the calls of [svc_vc_recv] deliver it once; one
    [lstat] of the path in the handle is made and nothing else; and what is sent is
    the beginning of one record, and all of it when the sender reports success: the
    transaction id of the call, the verifier that goes with its flavor, SUCCESS, and
    the status and attributes that [lstat] delivered.  The calls of [sendmsg] may take any
    portions of the record from its fragment header on, but none ends inside of those four
    bytes ([header_whole]; [split_header_resends] shows what is sent otherwise). *)
Theorem getattr_over_tcp {FS} `{Posix FS}
    `{!UnionArm LOOKUP3resok LOOKUP3resfail} `{!UnionArm CREATE3resok CREATE3resfail} env heap send_max malloc_res pagesz maxrec
    (m : message xdr_ioq) p q h tl frags ans rest vc (w : world FS) calls :
  (forall n, length (heap n) = n) -> between vc [] -> arrival None frags ans rest ->
  Forall (fun f => length f mod 4 = 0)%nat (tail frags) -> concat frags = call_wire m p q ++ nfs_fh3_wire h ++ tl ->
  call_ok m -> auth_pad (cb_cred m) p -> auth_pad (cb_verf m) q ->
  cb_prog m = NFS_PROGRAM -> cb_vers m = NFS_V3 -> cb_proc m = 1 -> cred_valid (cb_cred m) ->
  nfs_fh3_ok h -> fh3_canon h -> ~ no_handle h -> (length tl mod 4 = 0)%nat -> Forall (header_whole 0) calls ->
  exists vc' xs r w' rq v rc ws k,
    recv_calls heap pagesz maxrec (length ans) vc ans = Some (vc', rest, xs) /\ between vc' [] /\
    svc_request svc_vc_decode (nfs_process_cb env (svc_vc_reply heap send_max) malloc_res) xs w = Some ((Replied rq, true), w') /\
    w_trace w' = w_trace w ++ [EvLstat (handle_path h) r] /\ fsal_handle w' = fsal_handle w /\ auth_pad (reply_verf m) v /\
    let reply := record (accepted_head (rm_xid m) (reply_verf m) v SUCCESS ++ getattr_wire r) in
    write_calls rq fresh_write calls [] = Some (rc, ws, take k reply) /\ (rc = 0 -> take k reply = reply).
Proof.
  intros Hheap Hvc Ha Hal Hcat Hm Hp Hq Hprog Hvers Hproc Hcred Hh Hca Hn Htl Hcalls.
  destruct (arrival_arrives heap pagesz maxrec Hheap _ _ _ _ Ha vc [] [] (length ans) Hvc)
    as (vc' & xs & uvs & Hr & Hrq & Hhold & Hb & _); [constructor|done|].
  change ([] ++ frags) with frags in Hhold.
  destruct (request_queue_holds _ _ _ _ _ _ Hhold Hrq) as [_ Hsrc]. destruct (Hsrc Hal) as [Hok Hin]. rewrite Hcat in Hin.
  destruct (getattr_message env heap send_max malloc_res m p q h tl xs w) as (r & w' & rq & v & Hs & Ht & Htab & Hv & Hw); [done..|].
  destruct (write_calls_flushed rq _ Hw (getattr_reply_length _ _ _ _ (reply_verf_ok m Hm) Hv) calls fresh_write 0 Hcalls)
    as (rc & ws & k & Hwr & Hcase); [left; simpl; split_and!; lia|lia|].
  exists vc', xs, r, w', rq, v, rc, ws, k. split_and!; [done..|]. cbv zeta. split; [exact Hwr|].
  intros ->. destruct Hcase as [[_ ->]|[[? _]|[? _]]]; [|done|done]. apply take_ge. simpl. lia.
Qed.

(** ** The theorems at concrete messages *)

(** Memory for the results that holds zeros. *)
Definition demo_malloc {P} `{xdr_ops P} : forall i (d : nfs_function_desc (FS:=demo) (P:=P)), nfs3_func_desc demo_env !! i = Some d -> fd_res d.
Proof.
  intros i d E. do 22 (try (destruct i as [|i]; [injection E as <-; cbn [fd_res]|])); [..|discriminate E].
  all: repeat first [exact 0 | exact None | exact (@nil byte) | exact tt | constructor].
Defined.

(** A record in one buffer. *)
Definition demo_record (bs : list byte) : IOQ :=
  mkXDR XDR_DECODE None bs 0 0 (length bs) (length bs)
    (mk_ioq [] [] UIO_FLAG_FREE RPC_MAXDATA_DEFAULT RPC_MAXDATA_DEFAULT 0 0 1 demo_heap).

Lemma demo_record_ok bs : ioq_src_ok (demo_record bs).
Proof. unfold ioq_src_ok, uv_ok. cbn. split_and!; [lia|lia|done|lia|lia|constructor|lia]. Qed.

Lemma demo_record_in bs : ioq_in (demo_record bs) = bs.
Proof. unfold ioq_in, slice. cbn. by rewrite Nat.sub_0_r, firstn_all, app_nil_r. Qed.

(** A call with AUTH_SYS credentials. *)
Definition demo_message {P} (prog vers proc : Z) (cred : opaque_auth) : message P :=
  mk_msg 7 CALL RPC_MSG_VERSION (rm_reply (rq_msg alloc_dnfs_request)) 0 prog vers proc cred _null_auth zero_aup.

Lemma demo_cred_ok : auth_ok demo_cred.
Proof. split_and!; by vm_compute. Qed.

Lemma demo_message_ok {P} prog vers proc :
  is_u32 prog -> is_u32 vers -> is_u32 proc -> call_ok (demo_message (P:=P) prog vers proc demo_cred).
Proof.
  intros Hp Hv Hc. refine (conj _ (conj eq_refl (conj eq_refl (conj Hp (conj Hv (conj Hc (conj demo_cred_ok null_auth_ok))))))).
  change (is_u32 7). unfold is_u32. lia.
Qed.

Lemma demo_cred_valid : cred_valid demo_cred.
Proof.
  right. split; [reflexivity|]. exists 7, [x6e; x66; x73], [x00], 1000, 100, [4], []. split; [|by vm_compute].
  unfold sys_ok, id_ok, is_i32, is_u32, ID_NONE, MAX_MACHINE_NAME, NGRPS. cbn [length].
  split_and!; try lia; [reflexivity|]. constructor; [unfold id_ok, is_u32, ID_NONE; lia|constructor].
Qed.

Lemma demo_heap_length n : length (demo_heap n) = n.
Proof. apply repeat_length. Qed.

Definition demo_getattr {P} : message P := demo_message NFS_PROGRAM NFS_V3 1 demo_cred.

(** The call of the witness arrives in two fragments, the second one in two portions. *)
Definition demo_call_bytes : list byte := call_wire (demo_getattr (P:=xdr_ioq)) [] [] ++ nfs_fh3_wire file_fh3 ++ [].
Definition demo_frags : list (list byte) := [take 40 demo_call_bytes; drop 40 demo_call_bytes].
Definition demo_answers : list recv_result :=
  [RecvErr EAGAIN; RecvData (be32 40); RecvData (take 40 demo_call_bytes);
   RecvData (be32 (Z.of_nat (length (drop 40 demo_call_bytes)) + LAST_FRAG)); RecvData (take 5 (drop 40 demo_call_bytes));
   RecvErr EAGAIN; RecvData (drop 5 (drop 40 demo_call_bytes))].
Definition demo_vc : svc_vc := mk_vc 0 None false (AF_INET [x7f; x00; x00; x01] [x03; xe8]) None.

Lemma demo_arrival : arrival None demo_frags demo_answers [].
Proof.
  apply ArrHeaderWait. apply (ArrHeader (take 40 demo_call_bytes) [drop 40 demo_call_bytes]); [done|by vm_compute|by vm_compute|].
  apply ArrMore; [done|done|]. apply (ArrHeader (drop 40 demo_call_bytes) []); [done|by vm_compute|done|].
  rewrite <- (take_drop 5 (drop 40 demo_call_bytes)) at 1. apply ArrData; [done|done|]. apply ArrWait. by apply ArrDone.
Qed.

Lemma getattr_over_tcp_witness :
  exists vc' xs r w' rq v rc ws k,
    recv_calls demo_heap 4096 4096 7 demo_vc demo_answers = Some (vc', [], xs) /\ between vc' [] /\
    svc_request svc_vc_decode (nfs_process_cb demo_env (svc_vc_reply demo_heap 0) demo_malloc) xs demo_world = Some ((Replied rq, true), w') /\
    w_trace w' = w_trace demo_world ++ [EvLstat (handle_path file_fh3) r] /\ fsal_handle w' = fsal_handle demo_world /\
    auth_pad (reply_verf (demo_getattr (P:=xdr_ioq))) v /\
    let reply := record (accepted_head 7 (reply_verf (demo_getattr (P:=xdr_ioq))) v SUCCESS ++ getattr_wire r) in
    write_calls rq fresh_write [[Sent 20; SendErr EAGAIN]; [Sent 200]] [] = Some (rc, ws, take k reply) /\
    (rc = 0 -> take k reply = reply).
Proof.
  apply (getattr_over_tcp demo_env demo_heap 0 demo_malloc 4096 4096 demo_getattr [] [] file_fh3 [] demo_frags demo_answers []
           demo_vc demo_world [[Sent 20; SendErr EAGAIN]; [Sent 200]]);
    [apply demo_heap_length|done|apply demo_arrival|by repeat constructor|reflexivity
    |apply demo_message_ok; unfold is_u32, NFS_PROGRAM, NFS_V3; lia
    |reflexivity..|apply demo_cred_valid|demo_handle|demo_handle|demo_handle|reflexivity|].
  repeat constructor; intros _; cbn; lia.
Defined.


(** A call of the program 100005. *)
Definition demo_mount_call {P} : message P := demo_message 100005 3 1 demo_cred.

Lemma rpc_errors_answered_witness :
  exists rq bs', svc_request svc_vc_decode (nfs_process_cb demo_env (svc_vc_reply demo_heap 0) demo_malloc) (demo_record (call_wire (demo_mount_call (P:=xdr_ioq)) [] [] ++ [])) demo_world =
      Some ((Replied rq, true), demo_world) /\
    rpc_error demo_env (demo_mount_call (P:=xdr_ioq)) [] true bs' /\ written_queue rq bs'.
Proof.
  apply (rpc_errors_answered demo_env demo_heap 0 demo_malloc demo_mount_call [] [] []
           (demo_record (call_wire (demo_mount_call (P:=xdr_ioq)) [] [] ++ [])) demo_world true (accepted_head 7 _null_auth [] PROG_UNAVAIL));
    [apply demo_heap_length|apply demo_record_ok|apply demo_message_ok; unfold is_u32; lia|reflexivity..|apply demo_record_in|].
  apply (ErrProgram demo_env demo_mount_call []). unfold NFS_PROGRAM. cbn [cb_prog demo_mount_call demo_message]. lia.
Defined.
