(* ===== verification/Mount.v ===== *)
(** * The MOUNT service, version 3

    [src/mnt] and [include/mnt]: the filters of the MOUNT protocol, the six
    procedures, their table and the callback of the MOUNT transports; what a client
    gets for a MNT, a DUMP and an EXPORT call. *)
From S2P Require Import Prelude XdrStream XdrIoq XdrPrim XdrSpec Nfs3Types Nfs3Msgs Nfs3ArgSpecs Nfs3ResSpecs.
From S2P Require Import Posix NfsUtils Fsal Nfs3Attr Nfs3Dir Nfs3Io Nfs3Readdir Dispatch.
From S2P Require Import DemoFs Properties IoqPos RpcMsg SvcAuth SvcVc Svc SvcProperties.

Open Scope Z_scope.
Open Scope dnfs_scope.

Definition MNT_PROGRAM : Z := 100005.
Definition MOUNT_V3 : Z := 3.
Definition MOUNTPROC3_EXPORT : Z := 5.
Definition XDR_ARRAY_MAXLEN : Z := 1024.
Definition MNTPATHLEN : Z := 1024.
Definition MNTNAMLEN : Z := 255.
Definition MNT3_OK : Z := 0.

(** A [char *]: NULL, or a string with its NUL. *)
Abbreviation mnt3_name := (option (list byte)) (only parsing).
Abbreviation mnt3_dirpath := (option (list byte)) (only parsing).

Record mountres3_ok := mk_mountres3_ok {
  mr_fhandle : bytes_t;
  mr_auth_flavors : array_t Z }.
#[global] Instance eta_mountres3_ok : RecEta mountres3_ok := fun r => mk_mountres3_ok (mr_fhandle r) (mr_auth_flavors r).

Record mountres3 := mk_mountres3 { fhs_status : Z; mountinfo : mountres3_ok }.
#[global] Instance eta_mountres3 : RecEta mountres3 := fun r => mk_mountres3 (fhs_status r) (mountinfo r).

(** The nodes of the lists; [next] is the rest of the list. *)
Record mountbody := mk_mountbody { ml_hostname : mnt3_name; ml_directory : mnt3_dirpath }.
#[global] Instance eta_mountbody : RecEta mountbody := fun r => mk_mountbody (ml_hostname r) (ml_directory r).

Record groupnode := mk_groupnode { gr_name : mnt3_name }.
#[global] Instance eta_groupnode : RecEta groupnode := fun r => mk_groupnode (gr_name r).

Record exportnode := mk_exportnode { ex_dir : mnt3_dirpath; ex_groups : list groupnode }.
#[global] Instance eta_exportnode : RecEta exportnode := fun r => mk_exportnode (ex_dir r) (ex_groups r).

(** ** Filters *)

Section Filters.
  Context {P : Type} `{xdr_ops P}.

Definition xdr_mountstat3 : xdrproc P Z := xdr_enum.
Definition xdr_fhandle3 : xdrproc P bytes_t := xdr_bytes NFS3_FHSIZE.
Definition xdr_dirpath : xdrproc P mnt3_dirpath := xdr_string MNTPATHLEN.
Definition xdr_name : xdrproc P mnt3_name := xdr_string MNTNAMLEN.

Definition xdr_mountres3_ok : xdrproc P mountres3_ok :=
  xdr_fhandle3 on mr_fhandle ;;; xdr_array 0 XDR_ARRAY_MAXLEN 4 xdr_int on mr_auth_flavors.

Definition xdr_mountres3 : xdrproc P mountres3 :=
  xdr_mountstat3 on fhs_status ;;;
  xswitch (fun r => if decide (fhs_status r = MNT3_OK) then xdr_mountres3_ok on mountinfo else xtrue).

(** The loop of [xdr_mountlist], [xdr_groups] and [xdr_exports] over the list from
    [*objp] on, at most [fuel] times.  The nodes that decoding finds are reused, and
    kept behind the last one decoded.  When it frees, the code goes on with the link
    in the node it has freed; the loop ends there. *)
Fixpoint xdr_linked {A} (fuel : nat) (zero : A) (xdr_node : xdrproc P A) (xs : XDR P) (objp : list A)
  : bool * XDR P * list A :=
  match fuel with
  | O => (false, xs, objp)
  | S fuel =>
      let more_elements := match objp with [] => 0 | _ => 1 end in
      let '(b, xs, more_elements) := xdr_bool xs more_elements in
      if negb b then (false, xs, objp)
      else if decide (more_elements = 0) then (true, xs, objp)
      else
        match xdr_reference zero xdr_node xs (head objp) with
        | (b, xs, Some node) =>
            if negb b then (false, xs, node :: tail objp)
            else let '(b, xs, rest) := xdr_linked fuel zero xdr_node xs (tail objp) in (b, xs, node :: rest)
        | (_, xs, None) => (false, xs, tail objp)
        end
  end.

Definition xdr_mountbody_x : xdrproc P mountbody := xdr_name on ml_hostname ;;; xdr_dirpath on ml_directory.
Definition xdr_mountlist (fuel : nat) : xdrproc P (list mountbody) := xdr_linked fuel (mk_mountbody None None) xdr_mountbody_x.
Definition xdr_groupnode_x : xdrproc P groupnode := xdr_name on gr_name.
Definition xdr_groups (fuel : nat) : xdrproc P (list groupnode) := xdr_linked fuel (mk_groupnode None) xdr_groupnode_x.
Definition xdr_exportnode_x (fuel : nat) : xdrproc P exportnode := xdr_dirpath on ex_dir ;;; xdr_groups fuel on ex_groups.
Definition xdr_exports (fuel : nat) : xdrproc P (list exportnode) :=
  xdr_linked fuel (mk_exportnode None []) (xdr_exportnode_x fuel).

End Filters.

(** ** Procedures *)

Section Procedures.
  Context {FS P : Type} `{xdr_ops P}.
  (** How many nodes the filters of the lists handle. *)
  Variable fuel : nat.
  Abbreviation M := (ST (world FS)).

Definition mnt_null {A B} (arg : A) (res : B) : M (nfs_req_result * B) := ret (NFS_REQ_OK, res).

(** [mount_dir] is the address of the argument and never null; a null argument
    goes to [strlen].  The handle points to the string of the argument.  The log calls are
    left out: with the level [D_INFO] on, the first one passes the address of the
    argument, a [char **], for [%s], and its line has the bytes of a pointer for the path. *)
Definition mnt_mnt (cb_vers : Z) (arg : mnt3_dirpath) (res : mountres3) : M (nfs_req_result * mountres3) :=
  if decide (cb_vers <> MOUNT_V3) then ret (NFS_REQ_ERROR, res)
  else
    match arg with
    | None => abort
    | Some path =>
        ret (NFS_REQ_OK, mk_mountres3 MNT3_OK
          (mk_mountres3_ok (mk_bytes (u32 (Z.of_nat (strlen path))) (Some path)) (mk_array 1 (Some [AUTH_NONE]))))
    end.

Definition mnt_dump {A} (arg : A) (res : list mountbody) : M (nfs_req_result * list mountbody) := ret (NFS_REQ_OK, []).
Definition mnt_umnt {B} (arg : mnt3_dirpath) (res : B) : M (nfs_req_result * B) := ret (NFS_REQ_OK, res).
Definition mnt_umntAll {A B} (arg : A) (res : B) : M (nfs_req_result * B) := ret (NFS_REQ_OK, res).

(** "/export_test" and its NUL. *)
Definition export_test : list byte :=
  [x2f; x65; x78; x70; x6f; x72; x74; x5f; x74; x65; x73; x74; x00].

Definition mnt_export {A} (arg : A) (res : list exportnode) : M (nfs_req_result * list exportnode) :=
  ret (NFS_REQ_OK, [mk_exportnode (Some export_test) []]).

(** The blocks that the [free_function]s give back, in their order. *)
Inductive mnt_block :=
  | BlockFlavors (v : list Z)
  | BlockName (s : list byte)
  | BlockGroup (g : groupnode)
  | BlockExport (e : exportnode).

Definition mnt3_mnt_free (res : mountres3) : list mnt_block :=
  if decide (fhs_status res = MNT3_OK)
  then match arr_val (mr_auth_flavors (mountinfo res)) with Some v => [BlockFlavors v] | None => [] end
  else [].

Fixpoint free_groups (grp : list groupnode) : list mnt_block :=
  match grp with
  | [] => []
  | g :: next_grp => match gr_name g with Some s => [BlockName s] | None => [] end ++ BlockGroup g :: free_groups next_grp
  end.

Fixpoint mnt_export_free (exp : list exportnode) : list mnt_block :=
  match exp with
  | [] => []
  | e :: next_exp => free_groups (ex_groups e) ++ BlockExport e :: mnt_export_free next_exp
  end.

(** Every request that gets to the table has the version 3. *)
Definition mnt3_func_desc : list (nfs_function_desc (FS:=FS) (P:=P)) :=
  [ mk_desc unit unit mnt_null xdr_void xdr_void tt NOTHING_SPECIAL;
    mk_desc _ _ (mnt_mnt MOUNT_V3) xdr_dirpath xdr_mountres3 None NOTHING_SPECIAL;
    mk_desc unit _ mnt_dump xdr_void (xdr_mountlist fuel) tt NOTHING_SPECIAL;
    mk_desc _ unit mnt_umnt xdr_dirpath xdr_void None NOTHING_SPECIAL;
    mk_desc unit unit mnt_umntAll xdr_void xdr_void tt NOTHING_SPECIAL;
    mk_desc unit _ mnt_export xdr_void (xdr_exports fuel) tt NOTHING_SPECIAL ].

Definition nfs_rpc_valid_MNT (cb_prog cb_vers cb_proc : Z) : route (FS:=FS) (P:=P) :=
  if decide (cb_prog <> MNT_PROGRAM) then RouteNoProg
  else if decide (cb_vers = MOUNT_V3) then
    if decide (cb_proc <= MOUNTPROC3_EXPORT) then
      match mnt3_func_desc !! Z.to_nat cb_proc with
      | Some d => RouteProcess d
      | None => RouteBad
      end
    else RouteNoProc
  else RouteNoVers NFS_V3 NFS_V3.

Lemma mnt_route_lookup prog vers proc d :
  nfs_rpc_valid_MNT prog vers proc = RouteProcess d -> mnt3_func_desc !! Z.to_nat proc = Some d.
Proof.
  unfold nfs_rpc_valid_MNT. repeat case_decide; try done. destruct (_ !! _) as [d'|] eqn:E; [|done]. by intros [= ->].
Qed.

Lemma mnt_route_total prog vers proc : nfs_rpc_valid_MNT prog vers proc <> RouteBad.
Proof.
  unfold nfs_rpc_valid_MNT. repeat case_decide; try done.
  destruct (lookup_lt_is_Some_2 mnt3_func_desc (Z.to_nat proc)) as [d ->]; [|done]. unfold MOUNTPROC3_EXPORT in *. simpl. lia.
Qed.

End Procedures.

(** The callback of the MOUNT transports. *)
Definition mnt_process_cb {FS} (fuel : nat) {P Q} `{xdr_ops P} (xp_reply : request P -> option Q)
    (malloc_res : forall i (d : nfs_function_desc (FS:=FS) (P:=P)), mnt3_func_desc fuel !! i = Some d -> fd_res d)
  : request P -> XDR P -> ST (world FS) (outcome P Q * bool) :=
  process_cb xp_reply (mnt3_func_desc fuel) (nfs_rpc_valid_MNT fuel) (mnt_route_lookup fuel) malloc_res.

(** ** The filters write and read what RFC 1813 prescribes *)

(** A list: each node behind a TRUE, and a FALSE at the end. *)
Fixpoint linked_wire {A} (wire : A -> list byte) (l : list A) : list byte :=
  match l with
  | [] => be32 FALSE
  | a :: l => be32 TRUE ++ wire a ++ linked_wire wire l
  end.

Definition array_wire {A} (wire : A -> list byte) (a : array_t A) : list byte :=
  be32 (arr_len a) ++ concat (map wire (default [] (arr_val a))).

Definition array_ok {A} (max : Z) (ok : A -> Prop) (a : array_t A) : Prop :=
  arr_len a = Z.of_nat (length (default [] (arr_val a))) /\ arr_len a <= max /\ Forall ok (default [] (arr_val a)).

(** Decoding nothing allocates nothing. *)
Definition array_canon {A} (a : array_t A) : Prop := arr_val a <> Some [].

Definition aligned {A} (ok : A -> Prop) (wire : A -> list byte) : Prop := forall a, ok a -> (length (wire a) mod 4 = 0)%nat.

Definition mountres3_ok_wire (r : mountres3_ok) : list byte := bytes_wire (mr_fhandle r) ++ array_wire be32 (mr_auth_flavors r).
Definition mountres3_wire (r : mountres3) : list byte :=
  be32 (fhs_status r) ++ if decide (fhs_status r = MNT3_OK) then mountres3_ok_wire (mountinfo r) else [].
Definition mountbody_wire (m : mountbody) : list byte := string_wire (ml_hostname m) ++ string_wire (ml_directory m).
Definition groupnode_wire (g : groupnode) : list byte := string_wire (gr_name g).
Definition exportnode_wire (e : exportnode) : list byte := string_wire (ex_dir e) ++ linked_wire groupnode_wire (ex_groups e).

Definition mountres3_ok_ok (r : mountres3_ok) : Prop :=
  bytes_ok NFS3_FHSIZE (mr_fhandle r) /\ array_ok XDR_ARRAY_MAXLEN is_i32 (mr_auth_flavors r).
Definition mountres3_ok_canon (r : mountres3_ok) : Prop := bytes_canon (mr_fhandle r) /\ array_canon (mr_auth_flavors r).
Definition groupnode_ok (g : groupnode) : Prop := string_ok MNTNAMLEN (gr_name g).
Definition groupnode_canon (g : groupnode) : Prop := string_canon (gr_name g).
Definition mountbody_ok (m : mountbody) : Prop := string_ok MNTNAMLEN (ml_hostname m) /\ string_ok MNTPATHLEN (ml_directory m).
Definition mountbody_canon (m : mountbody) : Prop := string_canon (ml_hostname m) /\ string_canon (ml_directory m).

(** A list of at most as many nodes as the loop is given rounds, but one. *)
Definition linked_ok {A} (fuel : nat) (ok : A -> Prop) (l : list A) : Prop := (length l < fuel)%nat /\ Forall ok l.

Definition exportnode_ok (fuel : nat) (e : exportnode) : Prop :=
  string_ok MNTPATHLEN (ex_dir e) /\ linked_ok fuel groupnode_ok (ex_groups e).
Definition exportnode_canon (e : exportnode) : Prop := string_canon (ex_dir e) /\ Forall groupnode_canon (ex_groups e).

Lemma string_aligned max : aligned (string_ok max) string_wire.
Proof. intros s. apply (spec_len _ _ _ _ (xdr_string_spec (P:=unit) max)). Qed.

Lemma words_aligned l : Forall is_i32 l -> (length (concat (map be32 l)) mod 4 = 0)%nat.
Proof. intros Hl. induction Hl; [done|]. by apply (mod4_app (be32 x)). Qed.

Section FilterSpecs.
  Context {P : Type} `{xdr_ops P}.

Lemma spec_aligned {A} (p : xdrproc P A) ok wire ov : xdr_spec p ok wire ov -> aligned ok wire.
Proof. intros Hs a. apply (spec_len _ _ _ _ Hs). Qed.

(** A structure of two members. *)
Lemma codec_pair {A B C} (mk : B -> C -> A) (f : A -> B) (g : A -> C) `{!Setter f} `{!Setter g}
    (p : xdrproc P B) (q : xdrproc P C) ok1 canon1 wire1 zero1 ok2 canon2 wire2 zero2 :
  (forall a, mk (f a) (g a) = a) ->
  (forall b c, f (mk b c) = b) -> (forall b c, g (mk b c) = c) ->
  (forall b c b', (mk b c) <| f := b' |> = mk b' c) -> (forall b c c', (mk b c) <| g := c' |> = mk b c') ->
  codec p ok1 canon1 wire1 zero1 -> aligned ok2 wire2 -> codec q ok2 canon2 wire2 zero2 ->
  codec (p on f ;;; q on g) (fun a => ok1 (f a) /\ ok2 (g a)) (fun a => canon1 (f a) /\ canon2 (g a))
    (fun a => wire1 (f a) ++ wire2 (g a)) (mk zero1 zero2).
Proof.
  intros Hmk Hf Hg Hsf Hsg [He1 Hd1] Ha [He2 Hd2]. split.
  - intros S xs a Hok Hop [Hb Hc] Hfit. rewrite <- (Hmk a) in *. set (b := f a) in *. set (c := g a) in *.
    rewrite Hf, Hg in *. destruct (He1 S xs b) as (xs1 & Hp & Hem1); [done..| |].
    { eapply snk_fits_le; [|exact Hfit]. rewrite length_app. lia. }
    pose proof Hem1 as (Hok1 & _ & Hfr & _). destruct (He2 S xs1 c) as (xs2 & Hq & Hem2); [done| |done| |].
    { unfold stream_frame in Hfr. congruence. }
    { by eapply emits_fits. }
    exists xs2. unfold xseq, xfield. rewrite Hf, Hp, Hsf, Hg, Hq, Hsg. split; [done|]. by eapply emits_trans.
  - intros S xs a rest Hok Hop [Hb Hc] [Hcb Hcc] Hr Hin. rewrite <- (Hmk a) in *. set (b := f a) in *. set (c := g a) in *.
    rewrite Hf, Hg in *. rewrite <- app_assoc in Hin.
    destruct (Hd1 S xs b (wire2 c ++ rest)) as (xs1 & Hp & Hok1 & Hin1 & Hfr1); [done..|apply mod4_app; [by apply Ha|done]|done|].
    destruct (Hd2 S xs1 c rest) as (xs2 & Hq & Hok2 & Hin2 & Hfr2); [done| |done..|].
    { unfold stream_frame in Hfr1. congruence. }
    exists xs2. unfold xseq, xfield. rewrite Hf, Hp, Hsf, Hg, Hq, Hsg. split_and!; [done..|].
    unfold stream_frame in *. congruence.
Qed.

Section Elements.
  Context {A : Type} (p : xdrproc P A) (ok : A -> Prop) (wire : A -> list byte).

Lemma elems_aligned l : aligned ok wire -> Forall ok l -> (length (concat (map wire l)) mod 4 = 0)%nat.
Proof. intros Hal Hl. induction Hl; [done|]. apply (mod4_app (wire x)); [by apply Hal|done]. Qed.

Lemma elems_encode ov (S : XdrSink P) l xs :
  xdr_spec p ok wire ov -> snk_ok xs -> x_op xs = XDR_ENCODE -> Forall ok l -> snk_fits xs (length (concat (map wire l))) ->
  exists xs', xdr_elems p xs l = (true, xs', l) /\ emits xs xs' (concat (map wire l)).
Proof.
  intros Hs. revert xs. induction l as [|a l IH]; intros xs Hok Hop Hl Hfit.
  - exists xs. split; [done|]. by apply emits_refl.
  - apply Forall_cons_1 in Hl as [Ha Hl]. simpl in *.
    destruct (spec_enc _ _ _ _ Hs S xs a) as (xs1 & Hp & Hem); [done..| |].
    { eapply snk_fits_le; [|exact Hfit]. rewrite length_app. lia. }
    destruct (IH xs1) as (xs2 & Hq & Hem'); [apply Hem| |done|by eapply emits_fits|].
    { destruct Hem as (_ & _ & Hf & _). unfold stream_frame in Hf. congruence. }
    exists xs2. rewrite Hp, Hq. split; [done|]. by eapply emits_trans.
Qed.

Lemma elems_decode (S : XdrSource P) l target xs rest :
  xdr_spec p ok wire fresh -> length target = length l -> src_ok xs -> x_op xs = XDR_DECODE -> Forall ok l ->
  (length rest mod 4 = 0)%nat -> src_in xs = concat (map wire l) ++ rest ->
  exists xs', xdr_elems p xs target = (true, xs', l) /\ src_ok xs' /\ src_in xs' = rest /\ stream_frame xs xs'.
Proof.
  intros Hs. revert xs target. induction l as [|a l IH]; intros xs [|t target] Hlen Hok Hop Hl Hr Hin; try done.
  - by exists xs.
  - apply Forall_cons_1 in Hl as [Ha Hl]. cbn [map concat] in Hin. rewrite <- app_assoc in Hin. injection Hlen as Hlen.
    destruct (spec_dec _ _ _ _ Hs S xs a t (concat (map wire l) ++ rest)) as (xs1 & Hp & Hok1 & Hin1 & Hf); [done..| |done|].
    { apply mod4_app; [|done]. apply elems_aligned; [by eapply spec_aligned|done]. }
    destruct (IH xs1 target) as (xs2 & Hq & Hok2 & Hin2 & Hf2); [done|done| |done..|].
    { unfold stream_frame in Hf. congruence. }
    exists xs2. cbn [xdr_elems]. rewrite Hp. unfold fresh. rewrite Hq. split_and!; [done..|]. unfold stream_frame in *. congruence.
Qed.

Lemma array_codec max selem zero :
  0 <= max < 2 ^ 32 - 1 -> 0 < selem -> max <= UINT_MAX / selem -> xdr_spec p ok wire fresh ->
  codec (xdr_array zero max selem p) (array_ok max ok) array_canon (array_wire wire) (mk_array 0 None).
Proof.
  intros Hmax Hsel Hdiv Hs. split.
  - intros S xs [n v] Hok Hop (Hn & Hle & Hl) Hfit. unfold array_wire in *. cbn [arr_len arr_val] in *. subst n.
    set (l := default [] v) in *. unfold xdr_array, xdr_array_encode. rewrite Hop. cbn [arr_len arr_val]. rewrite u32_small by (unfold_ints; lia).
    repeat (rewrite decide_False by lia).
    destruct (snk_putuint32 xs (Z.of_nat (length l))) as (xs1 & -> & Hem); [done| |].
    { eapply snk_fits_le; [|exact Hfit]. rewrite length_app. simpl. lia. }
    cbn [negb]. rewrite Nat2Z.id. fold l. rewrite (take_ge l) by done.
    destruct (elems_encode fresh S l xs1) as (xs2 & -> & Hem'); [done|apply Hem| |done|by eapply emits_fits|].
    { destruct Hem as (_ & _ & Hf & _). unfold stream_frame in Hf. congruence. }
    exists xs2. split; [|by eapply emits_trans]. rewrite drop_ge, app_nil_r by done. subst l. by destruct v.
  - intros S xs [n v] rest Hok Hop (Hn & Hle & Hl) Hc Hr Hin. unfold array_wire in *. cbn [arr_len arr_val] in *. subst n.
    unfold array_canon in Hc. cbn [arr_val] in Hc. unfold xdr_array, xdr_array_decode. rewrite Hop, decide_False by lia.
    rewrite <- app_assoc in Hin. set (l := default [] v) in *.
    destruct (src_getuint32 xs (Z.of_nat (length l)) (concat (map wire l) ++ rest)) as (xs1 & -> & Hok1 & Hin1 & Hf1);
      [done|unfold is_u32; lia| |done|].
    { apply mod4_app; [|done]. apply elems_aligned; [by eapply spec_aligned|done]. }
    rewrite decide_False by lia. destruct v as [[|a v]|]; simpl in l; subst l; [done| |].
    + rewrite decide_False by (simpl; lia). cbn [arr_val default]. rewrite Nat2Z.id.
      rewrite take_ge, drop_ge by (rewrite length_replicate; lia).
      destruct (elems_decode S (a :: v) (replicate (length (a :: v)) zero) xs1 rest) as (xs2 & -> & ?); [done|by rewrite length_replicate|done| |done..|].
      { unfold stream_frame in Hf1. congruence. }
      exists xs2. rewrite app_nil_r. unfold stream_frame in *. destruct_and!. split_and!; try done; congruence.
    + exists xs1. by rewrite decide_True by done.
Qed.

End Elements.

(** The lists. *)
Lemma linked_codec {A} (p : xdrproc P A) ok canon wire zero fuel :
  codec p ok canon wire zero -> aligned ok wire ->
  codec (xdr_linked fuel zero p) (linked_ok fuel ok) (Forall canon) (linked_wire wire) [].
Proof.
  intros [He Hd] Hal. split; induction fuel as [|fuel IH]; try (by intros ????? [? _]; lia); try (by intros ?????? [? _]; lia).
  - intros S xs l Hok Hop [Hlen Hl] Hfit. cbn [xdr_linked].
    destruct (spec_enc _ _ _ _ xdr_bool_spec S xs (match l with [] => 0 | _ => 1 end)) as (xs1 & Hb & Hem); [done|done|by destruct l; [left|right]| |].
    { eapply snk_fits_le; [|exact Hfit]. destruct l; cbn [linked_wire]; rewrite ?length_app; change (length (be32 _)) with 4%nat; lia. }
    destruct l as [|a l]; cbn [head tail linked_wire] in *; rewrite Hb; cbn [negb]; [by exists xs1|].
    rewrite decide_False by done. apply Forall_cons_1 in Hl as [Ha Hl]. cbn [length] in Hlen.
    pose proof Hem as (Hok1 & _ & Hf & _). assert (Hop1 : x_op xs1 = XDR_ENCODE) by (unfold stream_frame in Hf; congruence).
    assert (Hfit1 : snk_fits xs1 (length (wire a ++ linked_wire wire l))) by (by eapply emits_fits).
    destruct (He S xs1 a) as (xs2 & Hp & Hem2); [done..| |].
    { eapply snk_fits_le; [|exact Hfit1]. rewrite length_app. lia. }
    unfold xdr_reference. rewrite Hop1, Hp. cbn [negb].
    destruct (IH S xs2 l) as (xs3 & -> & Hem3); [apply Hem2| |split; [lia|done]|by eapply emits_fits|].
    { destruct Hem2 as (_ & _ & Hf2 & _). unfold stream_frame in Hf2. congruence. }
    exists xs3. split; [done|]. eapply emits_trans; [exact Hem|]. by eapply emits_trans.
  - intros S xs l rest Hok Hop [Hlen Hl] Hc Hr Hin. cbn [xdr_linked head tail].
    assert (Hall : aligned (linked_ok (Datatypes.S fuel) ok) (linked_wire wire)).
    { intros k [_ Hk]. clear - Hk Hal. induction Hk; [done|]. cbn [linked_wire]. repeat (apply mod4_app); [done|by apply Hal|done]. }
    destruct l as [|a l]; cbn [linked_wire] in Hin.
    + destruct (spec_dec _ _ _ _ xdr_bool_spec S xs FALSE 0 rest) as (xs1 & -> & Hrest); [done..|by left|done|done|]. by exists xs1.
    + apply Forall_cons_1 in Hl as [Ha Hl]. apply Forall_cons_1 in Hc as [Hca Hc]. rewrite <- !app_assoc in Hin. cbn [length] in Hlen.
      assert (Hr1 : (length (linked_wire wire l ++ rest) mod 4 = 0)%nat) by (apply mod4_app; [apply Hall; split; [lia|done]|done]).
      destruct (spec_dec _ _ _ _ xdr_bool_spec S xs TRUE 0 (wire a ++ linked_wire wire l ++ rest)) as (xs1 & -> & Hok1 & Hin1 & Hf1);
        [done..|by right|by apply mod4_app; [apply Hal|]|done|].
      cbn [negb fresh]. rewrite decide_False by done. assert (Hop1 : x_op xs1 = XDR_DECODE) by (unfold stream_frame in Hf1; congruence).
      unfold xdr_reference. rewrite Hop1. destruct (Hd S xs1 a (linked_wire wire l ++ rest)) as (xs2 & -> & Hok2 & Hin2 & Hf2); [done..|].
      destruct (IH S xs2 l rest) as (xs3 & Hq & Hok3 & Hin3 & Hf3); [done| |split; [lia|done]|done..|].
      { unfold stream_frame in Hf2. congruence. }
      cbn [negb]. rewrite Hq. exists xs3. split_and!; [done..|]. unfold stream_frame in *. congruence.
Qed.

Lemma string_codec max : codec (xdr_string max) (string_ok max) string_canon string_wire None.
Proof. eapply spec_codec; [apply xdr_string_spec|done..|]. intros. by apply string_ov_canon. Qed.

Lemma linked_aligned {A} fuel (ok : A -> Prop) wire : aligned ok wire -> aligned (linked_ok fuel ok) (linked_wire wire).
Proof. intros Hal l [_ Hl]. induction Hl; [done|]. cbn [linked_wire]. repeat (apply mod4_app); [done|by apply Hal|done]. Qed.

Lemma mountres3_ok_codec :
  codec xdr_mountres3_ok mountres3_ok_ok mountres3_ok_canon mountres3_ok_wire (mk_mountres3_ok (mk_bytes 0 None) (mk_array 0 None)).
Proof.
  apply (codec_pair mk_mountres3_ok); try done; [by intros []| | |].
  - eapply spec_codec; [apply xdr_bytes_spec|done..|]. intros. by apply bytes_ov_canon.
  - intros a (_ & _ & Ha). apply mod4_app; [done|]. by apply words_aligned.
  - apply array_codec; [done..|apply xdr_int_spec].
Qed.

Lemma mountlist_codec fuel :
  codec (xdr_mountlist fuel) (linked_ok fuel mountbody_ok) (Forall mountbody_canon) (linked_wire mountbody_wire) [].
Proof.
  apply linked_codec; [|intros a [? ?]; apply mod4_app; by eapply string_aligned].
  apply (codec_pair mk_mountbody); try done; [by intros []|apply string_codec|apply string_aligned|apply string_codec].
Qed.

Lemma exports_codec fuel :
  codec (xdr_exports fuel) (linked_ok fuel (exportnode_ok fuel)) (Forall exportnode_canon) (linked_wire exportnode_wire) [].
Proof.
  assert (Hg : aligned groupnode_ok groupnode_wire) by (intros a; apply string_aligned).
  apply linked_codec; [|intros a [? ?]; apply mod4_app; [by eapply string_aligned|by eapply linked_aligned]].
  apply (codec_pair mk_exportnode); try done; [by intros []|apply string_codec|by apply linked_aligned|].
  apply linked_codec; [|done]. split.
  - intros S xs [a] Hok Hop Ha Hfit. destruct (codec_enc _ _ _ _ _ (string_codec MNTNAMLEN) S xs a) as (xs' & Hp & ?); [done..|].
    exists xs'. unfold xdr_groupnode_x, xfield, xdr_name. simpl. by rewrite Hp.
  - intros S xs [a] rest Hok Hop Ha Hc Hr Hin. destruct (codec_dec _ _ _ _ _ (string_codec MNTNAMLEN) S xs a rest) as (xs' & Hp & ?); [done..|].
    exists xs'. unfold xdr_groupnode_x, xfield, xdr_name. simpl. by rewrite Hp.
Qed.

(** The result of MNT, whatever its status. *)
Definition mountres3_dom (r : mountres3) : Prop :=
  is_i32 (fhs_status r) /\ (fhs_status r = MNT3_OK -> mountres3_ok_ok (mountinfo r)).
Definition zero_mountres3 : mountres3 := mk_mountres3 0 (mk_mountres3_ok (mk_bytes 0 None) (mk_array 0 None)).
Definition mountres3_canon (r : mountres3) : Prop :=
  if decide (fhs_status r = MNT3_OK) then mountres3_ok_canon (mountinfo r) else mountinfo r = mountinfo zero_mountres3.

Lemma mountres3_codec : codec xdr_mountres3 mountres3_dom mountres3_canon mountres3_wire zero_mountres3.
Proof.
  destruct mountres3_ok_codec as [He Hd]. unfold mountres3_wire, mountres3_canon. split.
  - intros S xs [st i] Hok Hop [Hst Hi] Hfit. cbn [fhs_status mountinfo] in *.
    destruct (spec_enc _ _ _ _ xdr_enum_spec S xs st) as (xs1 & Hp & Hem); [done..| |].
    { eapply snk_fits_le; [|exact Hfit]. rewrite length_app. change (length (be32 _)) with 4%nat. lia. }
    unfold xdr_mountres3, xdr_mountstat3, xseq, xswitch, xfield. cbn [fhs_status]. rewrite Hp.
    change ((mk_mountres3 st i) <| fhs_status := st |>) with (mk_mountres3 st i). cbn [fhs_status mountinfo].
    destruct (decide (st = MNT3_OK)) as [E|E]; [|exists xs1; by rewrite app_nil_r].
    pose proof Hem as (Hok1 & _ & Hf & _). destruct (He S xs1 i) as (xs2 & Hq & Hem2); [done| |by apply Hi|by eapply emits_fits|].
    { unfold stream_frame in Hf. congruence. }
    exists xs2. cbn [mountinfo]. split; [by rewrite Hq|]. by eapply emits_trans.
  - intros S xs [st i] rest Hok Hop [Hst Hi] Hc Hr Hin. cbn [fhs_status mountinfo] in *. rewrite <- app_assoc in Hin.
    destruct (spec_dec _ _ _ _ xdr_enum_spec S xs st 0 ((if decide (st = MNT3_OK) then mountres3_ok_wire i else []) ++ rest))
      as (xs1 & Hp & Hok1 & Hin1 & Hf); [done..| |done|].
    { case_decide; [|done]. apply mod4_app; [|done]. destruct (Hi ltac:(done)) as [Hb Ha]. apply mod4_app.
      - by apply (spec_len _ _ _ _ (xdr_bytes_spec (P:=P) NFS3_FHSIZE)).
      - destruct Ha as (_ & _ & Ha). apply mod4_app; [done|]. by apply words_aligned. }
    unfold xdr_mountres3, xdr_mountstat3, xseq, xswitch, xfield. cbn [fhs_status zero_mountres3]. rewrite Hp. unfold fresh.
    set (z := mk_mountres3_ok (mk_bytes 0 None) (mk_array 0 None)) in *.
    change (zero_mountres3 <| fhs_status := st |>) with (mk_mountres3 st z). cbn [fhs_status mountinfo].
    destruct (decide (st = MNT3_OK)) as [E|E]; [|subst i; by exists xs1].
    cbn [mountinfo]. destruct (Hd S xs1 i rest) as (xs2 & -> & ? & ? & Hf2); [done| |by apply Hi|done..|].
    { unfold stream_frame in Hf. congruence. }
    exists xs2. split_and!; [done..|]. unfold stream_frame in *. congruence.
Qed.

End FilterSpecs.

(** ** What a client gets *)

(** The handle that MNT makes of a path. *)
Definition mount_handle (path : list byte) : nfs_fh3 := mk_nfs_fh3 (mk_bytes (Z.of_nat (length path)) (Some path)).

(** The reply: the handle, and AUTH_NONE as the only flavor. *)
Definition mount_reply (path : list byte) : list byte :=
  be32 MNT3_OK ++ nfs_fh3_wire (mount_handle path) ++ be32 1 ++ be32 AUTH_NONE.

(** A string on the wire. *)
Definition path_wire (path : list byte) : list byte := string_wire (Some (path ++ [x00])).

Lemma path_cstr path : no_nul path -> cstr (path ++ [x00]) = path.
Proof. intros. by apply cstr_app_nul. Qed.

Lemma path_ok path max : no_nul path -> Z.of_nat (length path) <= max -> max < 2 ^ 32 - 1 -> string_ok max (Some (path ++ [x00])).
Proof. intros Hn Hl Hm. unfold string_ok, strlen. rewrite path_cstr by done. lia. Qed.

Lemma path_canon path : no_nul path -> string_canon (Some (path ++ [x00])).
Proof. intros Hn. unfold string_canon. by rewrite path_cstr. Qed.

Lemma mount_handle_path path : no_nul path -> handle_path (mount_handle path) = path.
Proof.
  intros Hn. unfold handle_path. cbn. rewrite Nat2Z.id. by rewrite cstr_id, firstn_all.
Qed.

Section Service.
  Context {FS : Type}.
  Variable fuel : nat.
  Variable heap : nat -> list byte.
  Variable send_max : nat.
  Variable malloc_res : forall i (d : nfs_function_desc (FS:=FS) (P:=xdr_ioq)), mnt3_func_desc fuel !! i = Some d -> fd_res d.
  Hypothesis heap_length : forall n, length (heap n) = n.
  Abbreviation mnt_cb := (mnt_process_cb fuel (svc_vc_reply heap send_max) malloc_res).

(** A call of the MOUNT program, version 3, in [xs]: [proc] with the arguments [args]. *)
Definition mount_call (m : message xdr_ioq) (p q : list byte) (proc : Z) (args : list byte) (xs : IOQ) : Prop :=
  ioq_src_ok xs /\ call_ok m /\ auth_pad (cb_cred m) p /\ auth_pad (cb_verf m) q /\ cred_valid (cb_cred m) /\
  cb_prog m = MNT_PROGRAM /\ cb_vers m = MOUNT_V3 /\ cb_proc m = proc /\
  exists rest, (length rest mod 4 = 0)%nat /\ ioq_in xs = call_wire m p q ++ args ++ rest.

(** The reply to the call [m]. *)
Definition mount_answer (m : message xdr_ioq) (results : list byte) (xs : IOQ) (w : world FS) : Prop :=
  exists rq v, svc_request svc_vc_decode mnt_cb xs w = Some ((Replied rq, true), w) /\ auth_pad (reply_verf m) v /\
    written_queue rq (accepted_head (rm_xid m) (reply_verf m) v SUCCESS ++ results).

Lemma mnt_cb_process (m : message xdr_ioq) proc d w :
  cb_prog m = MNT_PROGRAM -> cb_vers m = MOUNT_V3 -> cb_proc m = proc -> nfs_rpc_valid_MNT fuel MNT_PROGRAM MOUNT_V3 proc = RouteProcess d ->
  forall ys, exists res, mnt_cb (decoded m) ys w = nfs_rpc_process_request (svc_vc_reply heap send_max) d res (decoded m) ys w.
Proof.
  intros Hprog Hvers Hproc Hd ys.
  pose proof (process_cb_decoded (svc_vc_reply heap send_max) _ _ (mnt_route_lookup fuel) malloc_res (mnt_route_total fuel) m ys w) as Hcb.
  rewrite Hprog, Hvers, Hproc, Hd in Hcb. exact Hcb.
Qed.

(** A procedure that looks at nothing but its arguments. *)
Lemma mount_served m p q proc d ok canon wire okr wirer a res' results xs w :
  mount_call m p q proc (wire a) xs -> proc <> NFSPROC_NULL -> nfs_rpc_valid_MNT fuel MNT_PROGRAM MOUNT_V3 proc = RouteProcess d ->
  aligned ok wire -> codec (xdr_decode_func d) ok canon wire (zero_arg d) -> encodes (xdr_encode_func d) okr wirer ->
  ok a -> canon a -> okr res' -> wirer res' = results ->
  (forall res, service_function d a res w = Some ((NFS_REQ_OK, res'), w)) ->
  mount_answer m results xs w.
Proof using heap_length.
  intros (Hok & Hm & Hp & Hq & Hcred & Hprog & Hvers & Hproc & rest & Hr & Hin) Hnull Hd Hal Hc He Ha Hca Hres <- Hs.
  destruct (call_served heap send_max heap_length mnt_cb m p q rest xs w d ok canon wire okr wirer a
    (fun res w' => res = res' /\ w' = w)) as (r & w' & rq & v & [-> ->] & Hrq & Hv & Hb); [done..|by apply Hal|done|done| |by rewrite Hproc|done|done|done|done| |].
  - by apply (mnt_cb_process m proc).
  - intros res. exists NFS_REQ_OK, res', w. split_and!; [apply Hs|by left|done..].
  - by exists rq, v.
Qed.

(** What MNT leaves in the result. *)
Definition mount_result (path : list byte) : mountres3 :=
  mk_mountres3 MNT3_OK (mk_mountres3_ok (mk_bytes (Z.of_nat (length path)) (Some (path ++ [x00]))) (mk_array 1 (Some [AUTH_NONE]))).

Lemma mnt_mnt_run path res (w : world FS) :
  no_nul path -> Z.of_nat (length path) <= MNTPATHLEN ->
  mnt_mnt MOUNT_V3 (Some (path ++ [x00])) res w = Some ((NFS_REQ_OK, mount_result path), w).
Proof.
  intros Hn Hl. unfold mnt_mnt, strlen. rewrite decide_False by (by intros ?). rewrite path_cstr by done.
  unfold MNTPATHLEN in Hl. by rewrite u32_small by (unfold_ints; lia).
Qed.

Lemma mount_result_ok path : Z.of_nat (length path) <= NFS3_FHSIZE -> mountres3_dom (mount_result path).
Proof.
  unfold NFS3_FHSIZE. intros Hl. split; [done|]. intros _. split.
  - unfold bytes_ok, NFS3_FHSIZE, is_u32. cbn. rewrite length_app. simpl. lia.
  - split_and!; [done..|]. by constructor.
Qed.

Lemma mount_result_wire path : mountres3_wire (mount_result path) = mount_reply path.
Proof.
  unfold mountres3_wire, mountres3_ok_wire, mount_reply, nfs_fh3_wire, bytes_wire, bytes_content, array_wire. cbn [mount_result fhs_status mountinfo].
  rewrite decide_True by done. cbn [mr_fhandle mr_auth_flavors data_len data_val arr_len arr_val mount_handle fh_data from_option id].
  rewrite Nat2Z.id, take_app_le, firstn_all, <- !app_assoc by lia. cbn [map concat]. by rewrite app_nil_r.
Qed.

Lemma path_aligned : aligned (string_ok MNTPATHLEN) string_wire.
Proof. apply string_aligned. Qed.

Lemma mount_answered m p q path xs w :
  mount_call m p q 1 (path_wire path) xs -> no_nul path -> Z.of_nat (length path) <= NFS3_FHSIZE ->
  mount_answer m (mount_reply path) xs w.
Proof using heap_length.
  intros Hcall Hn Hl. assert (Hl2 : Z.of_nat (length path) <= MNTPATHLEN) by (unfold NFS3_FHSIZE, MNTPATHLEN in *; lia).
  set (d := mk_desc (FS:=FS) (P:=xdr_ioq) _ _ (mnt_mnt MOUNT_V3) xdr_dirpath xdr_mountres3 None NOTHING_SPECIAL).
  eapply (mount_served m p q 1 d (string_ok MNTPATHLEN) string_canon string_wire mountres3_dom mountres3_wire (Some (path ++ [x00])) (mount_result path));
    [exact Hcall|done|reflexivity|apply path_aligned|apply string_codec| |by apply path_ok|by apply path_canon|by apply mount_result_ok|apply mount_result_wire|].
  - intros S ys a Hys Hop Ha Hfit. by apply (codec_enc _ _ _ _ _ mountres3_codec).
  - intros res. by apply mnt_mnt_run.
Qed.

Lemma void_codec : codec (P:=xdr_ioq) (@xdr_void xdr_ioq unit) (fun _ => True) (fun _ => True) (fun _ => []) tt.
Proof.
  split.
  - intros S xs [] Hok Hop _ _. exists xs. split; [done|]. by apply emits_refl.
  - intros S xs [] rest Hok Hop _ _ Hr Hin. by exists xs.
Qed.

End Service.

(** The procedures of the service: number, arguments, results (RFC 1813, appendix I). *)
Inductive mount_proc : Z -> list byte -> list byte -> Prop :=
  | ProcMnt path :
      no_nul path -> Z.of_nat (length path) <= NFS3_FHSIZE -> mount_proc 1 (path_wire path) (mount_reply path)
  | ProcDump : mount_proc 2 [] (be32 FALSE)
  | ProcUmnt path : no_nul path -> Z.of_nat (length path) <= MNTPATHLEN -> mount_proc 3 (path_wire path) []
  | ProcUmntAll : mount_proc 4 [] []
  | ProcExport : mount_proc 5 [] (be32 TRUE ++ string_wire (Some export_test) ++ be32 FALSE ++ be32 FALSE).

Lemma codec_encodes {P A} `{xdr_ops P} (p : xdrproc P A) ok canon wire zero : codec p ok canon wire zero -> encodes p ok wire.
Proof. intros Hc S xs a. apply (codec_enc _ _ _ _ _ Hc). Qed.

Lemma void_aligned {A} : aligned (fun _ : A => True) (fun _ => []).
Proof. by intros ? _. Qed.

(** C25: Every call of a procedure of the MOUNT service, other than NULL, whose arguments
    are encoded as RFC 1813 says and whose path, for MNT, has at most 64 bytes, is
    answered with the results of that procedure; no mount is recorded. *)
Theorem mount_procedures {FS} fuel heap send_max malloc_res proc args results (m : message xdr_ioq) p q xs (w : world FS) :
  (2 <= fuel)%nat -> (forall n, length (heap n) = n) -> mount_proc proc args results -> mount_call m p q proc args xs ->
  mount_answer fuel heap send_max malloc_res m results xs w.
Proof.
  intros Hfuel Hheap Hproc Hcall. destruct Hproc as [path Hn Hl| |path Hn Hl| |]; [by eapply mount_answered|..].
  - set (d := mk_desc (FS:=FS) (P:=xdr_ioq) unit _ mnt_dump xdr_void (xdr_mountlist fuel) tt NOTHING_SPECIAL).
    apply (mount_served fuel heap send_max malloc_res Hheap m p q 2 d (fun _ => True) (fun _ => True) (fun _ => [])
      (linked_ok fuel mountbody_ok) (linked_wire mountbody_wire) tt []);
      [done|done|done|apply void_aligned|apply void_codec|eapply codec_encodes, mountlist_codec|done|done| |done|done].
    split; [simpl; lia|done].
  - set (d := mk_desc (FS:=FS) (P:=xdr_ioq) _ unit mnt_umnt xdr_dirpath xdr_void None NOTHING_SPECIAL).
    apply (mount_served fuel heap send_max malloc_res Hheap m p q 3 d (string_ok MNTPATHLEN) string_canon string_wire
      (fun _ => True) (fun _ => []) (Some (path ++ [x00])) tt);
      [done|done|done|apply path_aligned|apply string_codec|eapply codec_encodes, void_codec|by apply path_ok|by apply path_canon
      |done|done|by intros []].
  - set (d := mk_desc (FS:=FS) (P:=xdr_ioq) unit unit mnt_umntAll xdr_void xdr_void tt NOTHING_SPECIAL).
    apply (mount_served fuel heap send_max malloc_res Hheap m p q 4 d (fun _ => True) (fun _ => True) (fun _ => [])
      (fun _ => True) (fun _ => []) tt tt);
      [done|done|done|apply void_aligned|apply void_codec|eapply codec_encodes, void_codec|done|done|done|done|by intros []].
  - set (d := mk_desc (FS:=FS) (P:=xdr_ioq) unit _ mnt_export xdr_void (xdr_exports fuel) tt NOTHING_SPECIAL).
    apply (mount_served fuel heap send_max malloc_res Hheap m p q 5 d (fun _ => True) (fun _ => True) (fun _ => [])
      (linked_ok fuel (exportnode_ok fuel)) (linked_wire exportnode_wire) tt [mk_exportnode (Some export_test) []]);
      [done|done|done|apply void_aligned|apply void_codec|eapply codec_encodes, exports_codec|done|done| | |done].
    + split; [simpl; lia|]. constructor; [|done]. split; [by vm_compute|split; [simpl; lia|done]].
    + unfold exportnode_wire. cbn [linked_wire ex_dir ex_groups]. by rewrite <- app_assoc.
Qed.

(** A client mounts a path of at most 64 bytes and asks for its attributes: the
    reply to MNT is the handle with the path and the flavor AUTH_NONE, the world is
    as it was; GETATTR with that handle makes one [lstat], of the path mounted, and
    is answered with what it delivers. *)
Theorem mount_then_getattr {FS} `{Posix FS}
    `{!UnionArm LOOKUP3resok LOOKUP3resfail} `{!UnionArm CREATE3resok CREATE3resfail} fuel env heap send_max malloc_mnt malloc_nfs
    path (m : message xdr_ioq) p q xs (m' : message xdr_ioq) p' q' rest' ys (w w1 : world FS) :
  (forall n, length (heap n) = n) -> no_nul path -> path <> [] -> Z.of_nat (length path) <= NFS3_FHSIZE ->
  mount_call m p q 1 (path_wire path) xs ->
  ioq_src_ok ys -> call_ok m' -> auth_pad (cb_cred m') p' -> auth_pad (cb_verf m') q' ->
  cb_prog m' = NFS_PROGRAM -> cb_vers m' = NFS_V3 -> cb_proc m' = 1 -> cred_valid (cb_cred m') ->
  (length rest' mod 4 = 0)%nat -> ioq_in ys = call_wire m' p' q' ++ nfs_fh3_wire (mount_handle path) ++ rest' ->
  mount_answer fuel heap send_max malloc_mnt m (mount_reply path) xs w /\
  exists r w' rq v, svc_request svc_vc_decode (nfs_process_cb env (svc_vc_reply heap send_max) malloc_nfs) ys w1 = Some ((Replied rq, true), w') /\
    w_trace w' = w_trace w1 ++ [EvLstat path r] /\ fsal_handle w' = fsal_handle w1 /\
    auth_pad (reply_verf m') v /\ written_queue rq (accepted_head (rm_xid m') (reply_verf m') v SUCCESS ++ getattr_wire r).
Proof.
  intros Hheap Hn Hne Hl Hcall Hys Hm Hp Hq Hprog Hvers Hproc Hcred Hr Hin. split; [by eapply mount_answered|].
  rewrite <- (mount_handle_path path Hn). eapply getattr_message; try done.
  - unfold nfs_fh3_ok, bytes_ok, NFS3_FHSIZE, is_u32 in *. cbn. lia.
  - unfold no_handle. cbn. intros Hz. destruct path; [done|]. simpl in Hz. lia.
Qed.

(** A longer path is decoded, but the handle cannot be encoded: there is no reply,
    the transport is destroyed. *)
Theorem mount_long_path {FS} fuel heap send_max malloc_res path (m : message xdr_ioq) p q xs (w : world FS) :
  (forall n, length (heap n) = n) -> no_nul path -> NFS3_FHSIZE < Z.of_nat (length path) <= MNTPATHLEN ->
  mount_call m p q 1 (path_wire path) xs ->
  svc_request svc_vc_decode (mnt_process_cb fuel (svc_vc_reply heap send_max) malloc_res) xs w = Some ((ReplyDied, true), w).
Proof.
  intros Hheap Hn [Hlo Hhi] (Hok & Hm & Hp & Hq & Hcred & Hprog & Hvers & Hproc & rest & Hr & Hin).
  set (d := mk_desc (FS:=FS) (P:=xdr_ioq) _ _ (mnt_mnt MOUNT_V3) xdr_dirpath xdr_mountres3 None NOTHING_SPECIAL).
  destruct (call_processed heap send_max (mnt_process_cb fuel (svc_vc_reply heap send_max) malloc_res) m p q rest xs w d
    (string_ok MNTPATHLEN) string_canon string_wire (Some (path ++ [x00])) (fun rc res' w' => rc = NFS_REQ_OK /\ res' = mount_result path /\ w' = w))
    as (req & rc & res' & w' & (-> & -> & ->) & Hrep & Hx & Hau & _ & _ & ->);
    [done..|by apply path_aligned, path_ok|exact Hin|done|by apply (mnt_cb_process fuel heap send_max malloc_res m 1)|by rewrite Hproc|apply string_codec
    |by apply path_ok|by apply path_canon| |].
  - intros res. exists NFS_REQ_OK, (mount_result path), w. split_and!; [by apply mnt_mnt_run|done..].
  - rewrite (call_dies heap send_max Hheap); [done..|]. intros zs Hzs Hop. cbn [xdr_encode_func d].
    unfold xdr_mountres3, xdr_mountstat3, xseq, xfield. cbn [fhs_status mount_result].
    destruct (spec_enc _ _ _ _ xdr_enum_spec xdr_ioq_sink zs MNT3_OK) as (zs1 & -> & _ & _ & Hf & _); [done..|].
    unfold xswitch. rewrite decide_True by done. unfold xdr_mountres3_ok, xseq, xfield, xdr_fhandle3, xdr_bytes, xdr_bytes_encode.
    unfold stream_frame in Hf. rewrite Hf, Hop. cbv zeta.
    by rewrite decide_True by exact Hlo.
Qed.

(** ** The theorems at concrete calls *)

Definition demo_mnt_malloc : forall i (d : nfs_function_desc (FS:=demo) (P:=xdr_ioq)), mnt3_func_desc 2 !! i = Some d -> fd_res d.
Proof.
  intros i d E. do 6 (try (destruct i as [|i]; [injection E as <-; cbn [fd_res]|])); [..|discriminate E].
  all: repeat first [exact 0 | exact None | exact (@nil byte) | exact (@nil mountbody) | exact (@nil exportnode) | exact tt | constructor].
Defined.

Definition demo_mount (proc : Z) (args : list byte) : IOQ :=
  demo_record (call_wire (demo_message (P:=xdr_ioq) MNT_PROGRAM MOUNT_V3 proc demo_cred) [] [] ++ args ++ []).

Lemma demo_mount_is_call proc args :
  is_u32 proc -> mount_call (demo_message MNT_PROGRAM MOUNT_V3 proc demo_cred) [] [] proc args (demo_mount proc args).
Proof.
  intros Hp. unfold mount_call.
  split_and!; [apply demo_record_ok|apply demo_message_ok; [by unfold is_u32, MNT_PROGRAM; lia|by unfold is_u32, MOUNT_V3; lia|done]
    |reflexivity|reflexivity|apply demo_cred_valid|done..|].
  exists []. split; [done|apply demo_record_in].
Qed.

(** "/e" *)
Definition demo_path : list byte := [x2f; x65].

Lemma demo_path_no_nul : no_nul demo_path.
Proof. by repeat constructor. Qed.

Lemma mount_procedures_witness :
  mount_answer 2 demo_heap 0 demo_mnt_malloc (demo_message MNT_PROGRAM MOUNT_V3 5 demo_cred)
    (be32 TRUE ++ string_wire (Some export_test) ++ be32 FALSE ++ be32 FALSE) (demo_mount 5 []) demo_world.
Proof.
  apply (mount_procedures 2 demo_heap 0 demo_mnt_malloc 5 [] _ _ [] []);
    [lia|apply demo_heap_length|apply ProcExport|apply demo_mount_is_call; unfold is_u32; lia].
Defined.

Definition demo_getattr_path : IOQ :=
  demo_record (call_wire (demo_getattr (P:=xdr_ioq)) [] [] ++ nfs_fh3_wire (mount_handle demo_path) ++ []).

Lemma mount_then_getattr_witness :
  mount_answer 2 demo_heap 0 demo_mnt_malloc (demo_message MNT_PROGRAM MOUNT_V3 1 demo_cred) (mount_reply demo_path)
    (demo_mount 1 (path_wire demo_path)) demo_world /\
  exists r w' rq v, svc_request svc_vc_decode (nfs_process_cb demo_env (svc_vc_reply demo_heap 0) demo_malloc) demo_getattr_path demo_world = Some ((Replied rq, true), w') /\
    w_trace w' = w_trace demo_world ++ [EvLstat demo_path r] /\ fsal_handle w' = fsal_handle demo_world /\
    auth_pad (reply_verf (demo_getattr (P:=xdr_ioq))) v /\
    written_queue rq (accepted_head (rm_xid (demo_getattr (P:=xdr_ioq))) (reply_verf (demo_getattr (P:=xdr_ioq))) v SUCCESS ++ getattr_wire r).
Proof.
  apply (mount_then_getattr 2 demo_env demo_heap 0 demo_mnt_malloc demo_malloc demo_path _ [] [] _ demo_getattr [] [] []);
    [apply demo_heap_length|apply demo_path_no_nul|done|by vm_compute|apply demo_mount_is_call; unfold is_u32; lia|apply demo_record_ok
    |apply demo_message_ok; unfold is_u32, NFS_PROGRAM, NFS_V3; lia|reflexivity..|apply demo_cred_valid|reflexivity|apply demo_record_in].
Defined.

Definition demo_long_path : list byte := replicate 65 x2f.

Lemma mount_long_path_witness :
  svc_request svc_vc_decode (mnt_process_cb 2 (svc_vc_reply demo_heap 0) demo_mnt_malloc) (demo_mount 1 (path_wire demo_long_path)) demo_world =
    Some ((ReplyDied, true), demo_world).
Proof.
  apply (mount_long_path 2 demo_heap 0 demo_mnt_malloc demo_long_path (demo_message MNT_PROGRAM MOUNT_V3 1 demo_cred) [] []);
    [apply demo_heap_length| |split; by vm_compute|apply demo_mount_is_call; unfold is_u32; lia].
  unfold demo_long_path. apply Forall_replicate. done.
Defined.
