(* ===== verification/SvcDg.v ===== *)
(** * The datagram transport ([src/svc_dg.c] of [libntirpc], [svc_ref_it],
    [svc_release_it] and [svc_destroy_it] of [ntirpc/rpc/svc.h], [free_dnfs_request])

    Every datagram gets a transport of its own: [svc_dg_rendezvous] receives it into
    zeroed memory behind the structure, a memory stream over all of that memory is
    decoded by [svc_dg_decode], and [svc_dg_reply] writes the reply over it.  The
    service behind it is that of [Svc].

    [recvmsg] and [sendmsg] are the environment: a list of answers, and a function
    from what is handed over to the count.  The reply is written into the stream as
    it was created; decoding moves the position, which [XDR_SETPOS] resets. *)
From S2P Require Import Prelude XdrStream XdrIoq XdrPrim XdrSpec Nfs3Types Nfs3Msgs Nfs3ArgSpecs Nfs3ResSpecs.
From S2P Require Import Posix NfsUtils Fsal Nfs3Attr Nfs3Dir Nfs3Io Nfs3Readdir Dispatch.
From S2P Require Import DemoFs Properties IoqPos RpcMsg SvcAuth City SvcVc Svc SvcProperties.

Open Scope Z_scope.
Open Scope dnfs_scope.

(** ** References *)

Definition SVC_XPRT_FLAG_INITIAL : Z := 4.
Definition SVC_XPRT_FLAG_INITIALIZED : Z := 8.
Definition SVC_XPRT_FLAG_CLOSE : Z := 16.
Definition SVC_XPRT_FLAG_DESTROYING : Z := 32.
Definition SVC_XPRT_FLAG_RELEASING : Z := 64.
Definition SVC_XPRT_FLAG_DESTROYED : Z := Z.lor SVC_XPRT_FLAG_DESTROYING SVC_XPRT_FLAG_RELEASING.

(** The counted part of [SVCXPRT], with the calls of [xp_unlink] and [xp_destroy]
    made so far. *)
Record xprt_refs := mk_refs {
  xp_refcnt : Z;
  xp_flags : Z;
  xp_unlinked : nat;
  xp_destroyed : nat }.
#[global] Instance eta_refs : RecEta xprt_refs := fun r => mk_refs (xp_refcnt r) (xp_flags r) (xp_unlinked r) (xp_destroyed r).

Definition svc_ref_it (r : xprt_refs) : xprt_refs := r <| xp_refcnt := i32 (xp_refcnt r + 1) |>.

Definition svc_release_it (r : xprt_refs) : xprt_refs :=
  let refs := i32 (xp_refcnt r - 1) in
  let r := r <| xp_refcnt := refs |> in
  if decide (0 < refs) then r
  else
    let flags := xp_flags r in
    let r := r <| xp_flags := Z.lor flags SVC_XPRT_FLAG_RELEASING |> in
    if decide (Z.land flags SVC_XPRT_FLAG_RELEASING <> 0) then r
    else r <| xp_destroyed := S (xp_destroyed r) |>.

Definition svc_destroy_it (r : xprt_refs) : xprt_refs :=
  let flags := xp_flags r in
  let r := r <| xp_flags := Z.lor flags SVC_XPRT_FLAG_DESTROYING |> in
  if decide (Z.land flags SVC_XPRT_FLAG_DESTROYING <> 0) then r
  else svc_release_it (r <| xp_unlinked := S (xp_unlinked r) |>).

(** ** Addresses and control messages *)

Definition AF_INET : Z := 2.
Definition AF_INET6 : Z := 10.
Definition IPPROTO_IP : Z := 0.
Definition IPPROTO_IPV6 : Z := 41.
Definition IP_PKTINFO : Z := 8.
Definition IPV6_PKTINFO : Z := 50.
Definition MSG_CTRUNC : Z := 8.
Definition sizeof_in_pktinfo : nat := 12.
Definition sizeof_in6_pktinfo : nat := 20.
Definition sizeof_cmsghdr : nat := 16.

(** [CMSG_LEN] and [CMSG_SPACE] with the alignment of 8 bytes. *)
Definition CMSG_LEN (n : nat) : nat := (sizeof_cmsghdr + n)%nat.
Definition CMSG_SPACE (n : nat) : nat := (sizeof_cmsghdr + (n + 7) / 8 * 8)%nat.

(** [struct cmsghdr] with the bytes at [CMSG_DATA]. *)
Record cmsghdr := mk_cmsg {
  cmsg_level : Z;
  cmsg_type : Z;
  cmsg_data : list byte }.

Definition cmsg_len (c : cmsghdr) : nat := CMSG_LEN (length (cmsg_data c)).

(** A socket address: the family and the bytes behind it. *)
Record dg_address := mk_sa {
  sa_family : Z;
  sa_data : list byte }.

(** [struct rpc_address]: [ss] and [nb.len]. *)
Record rpc_address := mk_address {
  ss : dg_address;
  nb_len : Z }.
#[global] Instance eta_address : RecEta rpc_address := fun a => mk_address (ss a) (nb_len a).

Definition sizeof_sockaddr_storage : Z := 128.
Definition zero_sa : dg_address := mk_sa 0 (replicate 126 x00).

Definition __rpc_address_setup (a : rpc_address) : rpc_address := a <| nb_len := sizeof_sockaddr_storage |>.

(** ** The transport *)

(** [struct svc_dg_xprt] with the memory behind it. *)
Record svc_dg_xprt := mk_su {
  su_refs : xprt_refs;
  xp_local : rpc_address;
  xp_remote : rpc_address;
  xp_pktinfo : list byte;
  sendsz : nat;
  recvsz : nat;
  maxrec : nat;
  ioq_xdrs : option (XDR unit);
  su_buf : list byte }.
#[global] Instance eta_su : RecEta svc_dg_xprt := fun su =>
  mk_su (su_refs su) (xp_local su) (xp_remote su) (xp_pktinfo su) (sendsz su) (recvsz su) (maxrec su) (ioq_xdrs su) (su_buf su).

(** [__rpc_get_t_size]. *)
Definition IPPROTO_TCP : Z := 6.
Definition IPPROTO_UDP : Z := 17.
Definition UDPMSGSIZE : Z := 8800.
Definition RPC_MAXDATASIZE : Z := 9000.

Definition __rpc_get_t_size (proto size : Z) : Z :=
  let maxsize := 256 * 1024 in
  let defsize := if decide (proto = IPPROTO_TCP) then 64 * 1024
                 else if decide (proto = IPPROTO_UDP) then UDPMSGSIZE else RPC_MAXDATASIZE in
  if decide (size = 0) then defsize else if decide (maxsize < size) then u32 maxsize else u32 size.

(** The sizes that [svc_dg_ncreatef] chooses; [None] is its failure. *)
Definition round4 (n : Z) : Z := u32 (u32 (n + 3) / 4 * 4).

Definition svc_dg_sizes (proto sendsz recvsz : Z) : option (Z * Z * Z) :=
  let sendsize := __rpc_get_t_size proto (i32 sendsz) in
  let recvsize := __rpc_get_t_size proto (i32 recvsz) in
  if decide (sendsize = 0 \/ recvsize = 0) then None
  else Some (round4 sendsize, round4 recvsize, round4 (Z.max sendsize recvsize)).

(** [svc_dg_xprt_zalloc]: one reference of [rpc_dplx_rec_init] and one more. *)
Definition svc_dg_xprt_zalloc (iosz : nat) : svc_dg_xprt :=
  mk_su (svc_ref_it (mk_refs 1 0 0 0)) (mk_address zero_sa 0) (mk_address zero_sa 0) (replicate sizeof_in6_pktinfo x00)
    0 0 0 None (replicate iosz x00).

(** [svc_dg_store_in_pktinfo] and [svc_dg_store_in6_pktinfo]. *)
Definition store_local (family len : Z) (size : nat) (c : cmsghdr) (su : svc_dg_xprt) : svc_dg_xprt :=
  su <| xp_pktinfo := splice 0 (take size (cmsg_data c)) (xp_pktinfo su) |>
     <| xp_local := mk_address (mk_sa family (sa_data (ss (xp_local su)))) len |>.

Definition svc_dg_store_in_pktinfo (c : cmsghdr) (su : svc_dg_xprt) : bool * svc_dg_xprt :=
  if decide (cmsg_level c = IPPROTO_IP /\ cmsg_type c = IP_PKTINFO /\ CMSG_LEN sizeof_in_pktinfo <= cmsg_len c)%nat
  then (true, store_local AF_INET 16 sizeof_in_pktinfo c su)
  else (false, su).

Definition svc_dg_store_in6_pktinfo (c : cmsghdr) (su : svc_dg_xprt) : bool * svc_dg_xprt :=
  if decide (cmsg_level c = IPPROTO_IPV6 /\ cmsg_type c = IPV6_PKTINFO /\ CMSG_LEN sizeof_in6_pktinfo <= cmsg_len c)%nat
  then (true, store_local AF_INET6 28 sizeof_in6_pktinfo c su)
  else (false, su).

(** The loop of [svc_dg_store_pktinfo]. *)
Fixpoint store_loop (cmsgs : list cmsghdr) (su : svc_dg_xprt) : bool * svc_dg_xprt :=
  match cmsgs with
  | [] => (false, su)
  | c :: cmsgs =>
      if decide (cmsg_level c = IPPROTO_IP) then
        let '(b, su) := if decide (cmsg_type c = IP_PKTINFO) then svc_dg_store_in_pktinfo c su else (false, su) in
        if (b : bool) then (true, su)
        else
          let '(b, su) := if decide (cmsg_type c = IPV6_PKTINFO) then svc_dg_store_in6_pktinfo c su else (false, su) in
          if (b : bool) then (true, su) else store_loop cmsgs su
      else store_loop cmsgs su
  end.

(** [msg_name] is the address of [xp_remote.ss] and never null. *)
Definition svc_dg_store_pktinfo (msg_flags : Z) (cmsgs : list cmsghdr) (su : svc_dg_xprt) : bool * svc_dg_xprt :=
  if decide (Z.land msg_flags MSG_CTRUNC <> 0) then (false, su) else store_loop cmsgs su.

(** ** Receiving *)

(** What [recvmsg] does: it fails, or stores a datagram, with the address of the
    sender if there is one, its length, the flags and the control messages. *)
Inductive recvmsg_answer :=
  | RecvFails (errno : Z)
  | Received (data : list byte) (name : option dg_address) (namelen msg_flags : Z) (cmsgs : list cmsghdr).

Definition EINTR : Z := 4.

(** How the rendezvous ends: the new transport is freed and the rendezvous is dead;
    the new transport is left behind, neither freed nor known to anyone; or it is
    handed to [rendezvous_cb], with another reference of the parent. *)
Inductive rendezvous :=
  | RdvDied
  | RdvLeft (su : svc_dg_xprt)
  | RdvCall (su : svc_dg_xprt) (parent : xprt_refs).

(** The part of [svc_dg_rendezvous] behind [recvmsg]: [rlen] bytes are in the memory,
    [rearm] says whether [svc_rqst_rearm_events] fails.  The memory behind the
    structure is aligned. *)
Definition rendezvous_end (rearm : bool) (parent : xprt_refs) (su : svc_dg_xprt) (sp : dg_address) (rlen namelen msg_flags : Z)
    (cmsgs : list cmsghdr) : option rendezvous :=
  if rearm then Some RdvDied
  else if decide (sa_family sp = 65535) then Some (RdvLeft su)
  else if decide (rlen = -1 \/ rlen < 4 * 4) then Some (RdvLeft su)
  else
    let su := su <| xp_local := __rpc_address_setup (xp_local su) |> <| xp_remote := mk_address sp namelen |> in
    let '(stored, su) := svc_dg_store_pktinfo msg_flags cmsgs su in
    let su := if (stored : bool) then su else su <| xp_local := (xp_local su) <| nb_len := 0 |> |> in
    match xdrmem_ncreate (su_buf su) true XDR_DECODE with
    | None => None
    | Some xdrs => Some (RdvCall (su <| ioq_xdrs := Some xdrs |>) (svc_ref_it parent))
    end.

(** The loop around [recvmsg]; [None] at its end is a call that has not returned, the
    inner [None] is [abort]. *)
Fixpoint recv_again (rearm : bool) (parent : xprt_refs) (su : svc_dg_xprt) (answers : list recvmsg_answer)
  : option (option rendezvous * list recvmsg_answer) :=
  match answers with
  | [] => None
  | RecvFails errno :: answers =>
      if decide (errno = EINTR) then recv_again rearm parent su answers
      else Some (rendezvous_end rearm parent su (mk_sa 65535 (sa_data (ss (xp_remote su)))) (-1) sizeof_sockaddr_storage 0 [], answers)
  | Received data name namelen msg_flags cmsgs :: answers =>
      let data := take (maxrec su) data in
      let sp := match name with Some sp => sp | None => mk_sa 65535 (sa_data (ss (xp_remote su))) end in
      Some (rendezvous_end rearm parent (su <| su_buf := splice 0 data (su_buf su) |>) sp (Z.of_nat (length data)) namelen
              msg_flags cmsgs, answers)
  end.

Definition svc_dg_rendezvous (rearm : bool) (req_su : svc_dg_xprt) (answers : list recvmsg_answer)
  : option (option rendezvous * list recvmsg_answer) :=
  let su := svc_dg_xprt_zalloc (maxrec req_su) in
  let su := su <| su_refs := (su_refs su) <| xp_flags := Z.lor SVC_XPRT_FLAG_INITIAL SVC_XPRT_FLAG_INITIALIZED |> |>
               <| sendsz := sendsz req_su |> <| recvsz := recvsz req_su |> <| maxrec := maxrec req_su |> in
  recv_again rearm (su_refs req_su) su answers.

(** ** Replying *)

(** What is handed to [sendmsg]: the bytes, the address, the control message with the
    bytes at [CMSG_DATA], and [msg_controllen]. *)
Record datagram := mk_dg {
  dg_data : list byte;
  dg_name : dg_address;
  dg_level : Z;
  dg_type : Z;
  dg_cmsg_len : nat;
  dg_pktinfo : list byte;
  dg_controllen : nat }.

(** [sizeof(msg_control)]. *)
Definition sizeof_msg_control : nat := (sizeof_cmsghdr + sizeof_in6_pktinfo)%nat.

Inductive dg_reply :=
  | NoRemote
  | Handed (d : datagram) (count : Z).

(** [svc_dg_reply]; [None] is XPRT_DIED before anything is sent. *)
Definition svc_dg_reply (sendmsg : datagram -> Z) (su : svc_dg_xprt) (xdrs : XDR unit) (req : request unit) : option dg_reply :=
  if decide (nb_len (xp_remote su) = 0) then Some NoRemote
  else
    let '(_, xdrs) := xdrmem_setpos (xdrs <| x_op := XDR_ENCODE |>) 0 in
    let '(b, xdrs, msg) := xdr_reply_encode run_pair (rq_msg req) xdrs in
    let req := req <| rq_msg := msg |> in
    if negb b then None
    else
      let '(b, xdrs) :=
        if decide (rp_stat (rm_reply (rq_msg req)) = MSG_ACCEPTED /\ ar_stat (RPCM_ack (rq_msg req)) = SUCCESS)
        then if rq_auth req then svcauth_none_wrap req xdrs else (true, xdrs)
        else (true, xdrs) in
      if negb b then None
      else
        let '(slen, xdrs) := xdrmem_getpos xdrs in
        let inet := bool_decide (sa_family (ss (xp_local su)) = AF_INET) in
        let size := if inet then sizeof_in_pktinfo else sizeof_in6_pktinfo in
        let d := mk_dg (take slen (x_buf xdrs)) (ss (xp_remote su))
                   (if inet then IPPROTO_IP else IPPROTO_IPV6) (if inet then IP_PKTINFO else IPV6_PKTINFO)
                   (CMSG_LEN size) (take size (xp_pktinfo su)) (CMSG_SPACE size) in
        Some (Handed d (sendmsg d)).

(** The status that [svc_dg_reply] returns. *)
Definition reply_idle (r : option dg_reply) : bool :=
  match r with
  | None => false
  | Some NoRemote => true
  | Some (Handed d count) => bool_decide (count = Z.of_nat (length (dg_data d)))
  end.

(** ** Requests *)

Section Requests.
  Context {FS Q : Type}.
  Abbreviation M := (ST (world FS)).
  Abbreviation process := (request unit -> XDR unit -> M (outcome unit Q * bool)).

(** [svc_dg_decode]. *)
Definition svc_dg_decode (cb : process) (req : request unit) (xs : XDR unit) : M (outcome unit Q * bool) :=
  let xs := xs <| x_op := XDR_DECODE |> in
  let '(_, xs) := xdrmem_setpos xs 0 in
  let msg := rpc_msg_init (rq_msg req) in
  let '(b, xs, msg) := xdr_dplx_decode xs msg in
  let req := req <| rq_msg := msg |> in
  if negb b then ret (Unsynchronised, true)
  else if decide (rm_direction msg = CALL) then cb req xs
  else if decide (rm_direction msg = REPLY) then ret (ForClient msg, true)
  else ret (Unsynchronised, true).

(** [svc_dg_recv], with the references that [alloc_dnfs_request] takes and, unless the
    request is suspended, [free_dnfs_request] gives back. *)
Definition svc_dg_recv (cb : process) (refs : xprt_refs) (xs : XDR unit) : M (outcome unit Q * bool * xprt_refs) :=
  let refs := svc_ref_it refs in
  o <- svc_request svc_dg_decode cb xs ;;
  let refs := match fst o with Suspended => refs | _ => svc_release_it refs end in
  if decide (Z.land (xp_flags refs) SVC_XPRT_FLAG_DESTROYED <> 0) then ret (o, refs)
  else ret (o, svc_release_it (svc_destroy_it refs)).

End Requests.

(** [svc_dg_destroy_task], which [svc_dg_destroy_it] submits: it submits itself again
    or frees the transport, after closing the socket if it has to. *)
Inductive destroy_end :=
  | Resubmitted
  | Freed (closed : bool) (parent : option xprt_refs).

Definition RPC_ANYFD : Z := -1.

Definition svc_dg_destroy_task (fd : Z) (refs : xprt_refs) (parent : option xprt_refs) : destroy_end :=
  if decide (xp_refcnt refs <> 0) then Resubmitted
  else
    let closed := bool_decide (Z.land (xp_flags refs) SVC_XPRT_FLAG_CLOSE <> 0 /\ fd <> RPC_ANYFD) in
    Freed closed (svc_release_it <$> parent).

(** ** References are counted down once *)

Inductive ref_op := OpRef | OpRelease | OpDestroy.

Definition run_op (r : xprt_refs) (o : ref_op) : xprt_refs :=
  match o with OpRef => svc_ref_it r | OpRelease => svc_release_it r | OpDestroy => svc_destroy_it r end.

(** The flags record which of the two calls were made. *)
Definition refs_ok (r : xprt_refs) : Prop :=
  xp_destroyed r = (if Z.testbit (xp_flags r) 6 then 1 else 0)%nat /\ xp_unlinked r = (if Z.testbit (xp_flags r) 5 then 1 else 0)%nat.

Lemma land_bit f k : 0 <= k -> Z.land f (2 ^ k) <> 0 <-> Z.testbit f k = true.
Proof.
  intros Hk. split; intros H.
  - destruct (Z.testbit f k) eqn:E; [done|]. destruct H. apply Z.bits_inj'. intros n Hn.
    rewrite Z.land_spec, Z.bits_0, Z.pow2_bits_eqb by done. destruct (Z.eqb_spec k n) as [->|]; [by rewrite E|by rewrite andb_false_r].
  - intros E. pose proof (Z.bits_0 k) as H0. rewrite <- E, Z.land_spec, Z.pow2_bits_true, andb_true_r in H0 by done. congruence.
Qed.

Lemma lor_bit f k n : 0 <= k -> 0 <= n -> Z.testbit (Z.lor f (2 ^ k)) n = Z.testbit f n || bool_decide (k = n).
Proof.
  intros Hk Hn. rewrite Z.lor_spec, Z.pow2_bits_eqb by done. f_equal.
  destruct (Z.eqb_spec k n); [by rewrite bool_decide_true|by rewrite bool_decide_false].
Qed.

Lemma releasing_bit f :
  (Z.land f SVC_XPRT_FLAG_RELEASING <> 0 <-> Z.testbit f 6 = true) /\
  Z.testbit (Z.lor f SVC_XPRT_FLAG_RELEASING) 6 = true /\ Z.testbit (Z.lor f SVC_XPRT_FLAG_RELEASING) 5 = Z.testbit f 5.
Proof.
  change SVC_XPRT_FLAG_RELEASING with (2 ^ 6). rewrite !lor_bit by lia.
  split_and!; [by apply land_bit|by rewrite orb_true_r|by rewrite orb_false_r].
Qed.

Lemma destroying_bit f :
  (Z.land f SVC_XPRT_FLAG_DESTROYING <> 0 <-> Z.testbit f 5 = true) /\
  Z.testbit (Z.lor f SVC_XPRT_FLAG_DESTROYING) 5 = true /\ Z.testbit (Z.lor f SVC_XPRT_FLAG_DESTROYING) 6 = Z.testbit f 6.
Proof.
  change SVC_XPRT_FLAG_DESTROYING with (2 ^ 5). rewrite !lor_bit by lia.
  split_and!; [by apply land_bit|by rewrite orb_true_r|by rewrite orb_false_r].
Qed.

Lemma release_ok r : refs_ok r -> refs_ok (svc_release_it r).
Proof.
  intros [Hd Hu]. unfold svc_release_it. cbv zeta. cbn [xp_flags xp_refcnt upd]. case_decide; [done|].
  destruct (releasing_bit (xp_flags r)) as (Hb & H6 & H5). unfold refs_ok.
  destruct (Z.testbit (xp_flags r) 6); case_decide as E; try tauto; cbn -[Z.testbit Z.lor]; rewrite H6, H5, Hd, Hu; try done.
  by apply Hb in E.
Qed.

Lemma destroy_ok r : refs_ok r -> refs_ok (svc_destroy_it r).
Proof.
  intros [Hd Hu]. unfold svc_destroy_it. cbv zeta. destruct (destroying_bit (xp_flags r)) as (Hb & H5 & H6).
  destruct (Z.testbit (xp_flags r) 5); case_decide as E; try tauto; [| |apply release_ok]; unfold refs_ok;
    cbn -[Z.testbit Z.lor]; rewrite H6, H5, Hd, ?Hu; try done. by apply Hb in E.
Qed.

Lemma ops_ok r ops : refs_ok r -> refs_ok (fold_left run_op ops r).
Proof.
  revert r. induction ops as [|o ops IH]; intros r Hr; [done|]. apply IH. destruct o; [exact Hr|by apply release_ok|by apply destroy_ok].
Qed.

(** ** The transport keeps its promise *)

(** The reply was handed to [sendmsg] with the bytes [bs], to the sender, and for IPv4
    with the packet information that came with the call. *)
Definition carries (sendmsg : datagram -> Z) (su : svc_dg_xprt) (q : dg_reply) (bs : list byte) : Prop :=
  exists d, q = Handed d (sendmsg d) /\ dg_data d = bs /\ dg_name d = ss (xp_remote su) /\
    (sa_family (ss (xp_local su)) = AF_INET ->
       dg_level d = IPPROTO_IP /\ dg_type d = IP_PKTINFO /\ dg_pktinfo d = take sizeof_in_pktinfo (xp_pktinfo su) /\
       (dg_controllen d <= sizeof_msg_control)%nat).

(** A fresh stream over the memory. *)
Definition over (buf : list byte) : XDR unit := mkXDR XDR_DECODE None buf 0 0 (length buf) (length buf) tt.

Lemma setpos_zero op buf : xdrmem_setpos ((over buf) <| x_op := op |>) 0 = (true, (over buf) <| x_op := op |>).
Proof. unfold xdrmem_setpos, xdr_tail_update, over. cbn. rewrite decide_False by lia. cbn. by rewrite decide_False by lia. Qed.

(** A stream that is written from its base. *)
Lemma over_sink buf :
  let xs := (over buf) <| x_op := XDR_ENCODE |> in
  snk_ok xs /\ snk_out xs = [] /\ forall n, (n <= length buf)%nat -> snk_fits xs n.
Proof. split_and!; [split; [split_and!|]; simpl; lia|done|]. intros n Hn. unfold snk_fits. simpl. unfold mem_fits. simpl. lia. Qed.

Lemma getpos_out (xs : XDR unit) :
  snk_ok xs -> exists xs', xdrmem_getpos xs = (length (snk_out xs), xs') /\ take (length (snk_out xs)) (x_buf xs') = snk_out xs.
Proof.
  intros [(? & ? & ?) Hh]. unfold xdrmem_getpos. exists (xdr_tail_update xs).
  assert (x_data (xdr_tail_update xs) = x_data xs /\ vio_head (xdr_tail_update xs) = vio_head xs /\ x_buf (xdr_tail_update xs) = x_buf xs)
    as (-> & -> & ->) by (unfold xdr_tail_update; by case_decide).
  cbn [snk_out xdrmem_sink]. unfold mem_out. rewrite slice_length, Hh, Nat.sub_0_r by lia. done.
Qed.

(** The header of a reply, where it fits. *)
Lemma dg_header buf (req : request unit) :
  reply_ok (rq_msg req) -> (forall p, reply_pad (rq_msg req) p -> (length (reply_wire (rq_msg req) p) <= length buf)%nat) ->
  let xs := (over buf) <| x_op := XDR_ENCODE |> in
  exists xs' p, xdr_reply_encode run_pair (rq_msg req) xs = (true, xs', rq_msg req) /\ reply_pad (rq_msg req) p /\
    emits xs xs' (reply_wire (rq_msg req) p).
Proof.
  intros Hm Hfit xs. destruct (over_sink buf) as (Hok & _ & Hf). fold xs in Hok, Hf. pose proof Hm as (_ & _ & [[E Ha]|[E _]]).
  - assert (Hz : reply_pad (rq_msg req) (zeros (ar_verf (RPCM_ack (rq_msg req))))) by (intros _; apply zeros_pad).
    pose proof (Hfit _ Hz) as Hlen.
    destruct (accepted_encode_wire run_pair (rq_msg req) xs) as (xs' & p & ? & ? & ?); [done..| |by apply Hf|eauto].
    intros Hs. unfold header_room, xdr_inline_encode. cbn -[RNDUP]. rewrite decide_True; [done|].
    unfold reply_wire, accepted_wire in Hlen. rewrite decide_True, !length_app, length_auth_wire in Hlen by (done || apply Ha || apply zeros_pad).
    cbn [length be32] in Hlen. lia.
  - destruct (denied_writes (P:=unit) (rq_msg req) Hm E xs) as (q & Hw & Hem); [exact Hok|apply Hf, Hfit; intros E2; by rewrite E in E2|].
    exists q, []. split_and!; [|intros E2; by rewrite E in E2|done].
    unfold xdr_reply_encode. by rewrite decide_False, decide_True, Hw by (by rewrite E).
Qed.

Lemma dg_transport sendmsg su buf :
  nb_len (xp_remote su) <> 0 ->
  Transport (svc_dg_reply sendmsg su (over buf)) (carries sendmsg su) (fun n => n <= length buf)%nat.
Proof.
  intros Hr. split. intros req bs Hm Hres Hroom. unfold svc_dg_reply. rewrite decide_False by done. rewrite setpos_zero.
  assert (Hhead : forall p, reply_pad (rq_msg req) p -> (length (reply_wire (rq_msg req) p) <= length buf)%nat).
  { intros p Hp. specialize (Hroom p Hp). rewrite length_app in Hroom. lia. }
  destruct (dg_header buf req Hm Hhead) as (xs1 & p & -> & Hp & Hok1 & Hout1 & Hop1 & Hfit1).
  specialize (Hroom p Hp). rewrite length_app in Hroom. destruct (over_sink buf) as (_ & Hout0 & Hfit0).
  rewrite Hout0, app_nil_l in Hout1. replace (req <| rq_msg := rq_msg req |>) with req by (by destruct req). cbn [negb].
  assert (exists xs2, (if decide (rp_stat (rm_reply (rq_msg req)) = MSG_ACCEPTED /\ ar_stat (RPCM_ack (rq_msg req)) = SUCCESS)
        then if rq_auth req then svcauth_none_wrap req xs1 else (true, xs1) else (true, xs1)) = (true, xs2) /\
      snk_ok xs2 /\ snk_out xs2 = reply_wire (rq_msg req) p ++ bs) as (xs2 & -> & Hok2 & Hout2).
  { case_decide; [|exists xs1; rewrite Hres, app_nil_r; done]. destruct Hres as [-> Hres].
    destruct (Hres xs1 Hok1) as (xs2 & r & Hrun & Hok2 & Hout2 & _); [exact Hop1|by apply Hfit1, Hfit0|].
    exists xs2. unfold svcauth_none_wrap. rewrite Hrun, Hout2, Hout1. done. }
  destruct (getpos_out xs2 Hok2) as (xs3 & -> & Htake). cbn [negb]. eexists _, p. split_and!; [reflexivity|done|].
  eexists. split; [reflexivity|]. cbn [dg_data dg_name dg_level dg_type dg_pktinfo dg_controllen]. rewrite Htake, Hout2.
  split_and!; [done|done|]. intros Hf. rewrite bool_decide_true by done. split_and!; [done..|]. by apply Nat.leb_le.
Qed.

(** ** Packet information *)

(** A control message that tells where an IPv4 datagram was received. *)
Definition is_pktinfo (c : cmsghdr) : Prop :=
  cmsg_level c = IPPROTO_IP /\ cmsg_type c = IP_PKTINFO /\ (sizeof_in_pktinfo <= length (cmsg_data c))%nat.
#[global] Instance is_pktinfo_dec c : Decision (is_pktinfo c).
Proof. unfold is_pktinfo. apply _. Defined.

Lemma store_loop_spec cmsgs su :
  store_loop cmsgs su =
    match filter is_pktinfo cmsgs with
    | c :: _ => (true, store_local AF_INET 16 sizeof_in_pktinfo c su)
    | [] => (false, su)
    end.
Proof.
  induction cmsgs as [|c cmsgs IH]; [done|]. cbn [store_loop]. rewrite filter_cons. revert IH.
  unfold svc_dg_store_in_pktinfo, svc_dg_store_in6_pktinfo, is_pktinfo, cmsg_len, CMSG_LEN, IP_PKTINFO, IPV6_PKTINFO, IPPROTO_IP, IPPROTO_IPV6.
  unfold sizeof_cmsghdr. repeat (case_decide; cbn [fst snd]); intros IH; try done; lia.
Qed.

(** ** From the datagram to the request *)

(** The memory that a datagram of [data] is received into. *)
Definition padded (n : nat) (data : list byte) : list byte := data ++ replicate (n - length data) x00.

Lemma splice_padded n data : (length data <= n)%nat -> splice 0 data (replicate n x00) = padded n data.
Proof. intros Hl. unfold splice, padded. by rewrite take_0, drop_replicate. Qed.

Lemma padded_length n data : (length data <= n)%nat -> length (padded n data) = n.
Proof. intros Hl. unfold padded. rewrite length_app, length_replicate. lia. Qed.

(** The transport that a rendezvous starts with. *)
Definition fresh_su (req_su : svc_dg_xprt) : svc_dg_xprt :=
  mk_su (mk_refs 2 12 0 0) (mk_address zero_sa 0) (mk_address zero_sa 0) (replicate sizeof_in6_pktinfo x00)
    (sendsz req_su) (recvsz req_su) (maxrec req_su) None (replicate (maxrec req_su) x00).

Lemma rendezvous_received rearm req_su k data name namelen flags cmsgs rest :
  (length data <= maxrec req_su)%nat ->
  svc_dg_rendezvous rearm req_su (replicate k (RecvFails EINTR) ++ Received data name namelen flags cmsgs :: rest) =
    Some (rendezvous_end rearm (su_refs req_su) ((fresh_su req_su) <| su_buf := padded (maxrec req_su) data |>)
            (match name with Some sp => sp | None => mk_sa 65535 (sa_data zero_sa) end) (Z.of_nat (length data)) namelen flags cmsgs, rest).
Proof.
  intros Hl. unfold svc_dg_rendezvous. cbv zeta.
  match goal with |- recv_again _ _ ?s _ = _ => change s with (fresh_su req_su) end.
  induction k as [|k IH]; cbn [replicate app recv_again].
  - cbn [maxrec su_buf fresh_su]. rewrite take_ge, splice_padded by done. reflexivity.
  - rewrite decide_True by done. exact IH.
Qed.

(** Where the datagram was received, as far as the control messages tell. *)
Definition local_info (flags : Z) (cmsgs : list cmsghdr) (su : svc_dg_xprt) : Prop :=
  match (if decide (Z.land flags MSG_CTRUNC <> 0) then [] else filter is_pktinfo cmsgs) with
  | c :: _ => sa_family (ss (xp_local su)) = AF_INET /\ take sizeof_in_pktinfo (xp_pktinfo su) = take sizeof_in_pktinfo (cmsg_data c)
  | [] => sa_family (ss (xp_local su)) = 0
  end.

Lemma store_local_info flags cmsgs su b su' :
  sa_family (ss (xp_local su)) = 0 -> svc_dg_store_pktinfo flags cmsgs su = (b, su') ->
  local_info flags cmsgs su' /\ su_refs su' = su_refs su /\ xp_remote su' = xp_remote su /\ su_buf su' = su_buf su.
Proof.
  intros Hf. unfold svc_dg_store_pktinfo, local_info. case_decide; [by intros [= <- <-]|]. rewrite store_loop_spec.
  destruct (filter is_pktinfo cmsgs) as [|c cs] eqn:E; [by intros [= <- <-]|]. intros [= <- <-]. split; [|done]. split; [done|].
  assert (is_pktinfo c) as (_ & _ & Hl). { apply (list_elem_of_filter is_pktinfo cmsgs). rewrite E. left. }
  cbn [xp_pktinfo store_local upd]. unfold splice. rewrite take_0, app_nil_l. rewrite take_app_le; [by rewrite take_take, Nat.min_id|].
  rewrite length_take. lia.
Qed.

Lemma rendezvous_call parent req_su data sp namelen flags cmsgs :
  (16 <= length data)%nat -> sa_family sp <> 65535 ->
  exists su, rendezvous_end false parent ((fresh_su req_su) <| su_buf := padded (maxrec req_su) data |>) sp (Z.of_nat (length data)) namelen
      flags cmsgs = Some (RdvCall su (svc_ref_it parent)) /\
    ioq_xdrs su = Some (over (padded (maxrec req_su) data)) /\ xp_remote su = mk_address sp namelen /\
    su_refs su = mk_refs 2 12 0 0 /\ local_info flags cmsgs su.
Proof.
  intros Hl Hsp. unfold rendezvous_end. rewrite decide_False, decide_False by lia. cbv zeta.
  destruct (svc_dg_store_pktinfo flags cmsgs _) as [b su'] eqn:E. apply store_local_info in E as (Hi & Hr & Hm & Hb); [|done].
  unfold xdrmem_ncreate. cbn [negb].
  assert (Hbuf : su_buf (if b then su' else su' <| xp_local := (xp_local su') <| nb_len := 0 |> |>) = padded (maxrec req_su) data)
    by (by destruct b).
  rewrite Hbuf. eexists. split_and!; [reflexivity|reflexivity|by destruct b|by destruct b|by destruct b].
Qed.

Section Recv.
  Context {FS Q : Type}.

(** Over a fresh stream there is nothing to rewind. *)
Lemma dg_decode_over (cb : request unit -> XDR unit -> ST (world FS) (outcome unit Q * bool)) buf w :
  svc_request svc_dg_decode cb (over buf) w = svc_request svc_vc_decode cb (over buf) w.
Proof. unfold svc_request, svc_dg_decode, svc_vc_decode. by rewrite setpos_zero. Qed.

(** The references of a request that is done with: the transport is unlinked and
    destroyed once. *)
Lemma dg_recv_done (cb : request unit -> XDR unit -> ST (world FS) (outcome unit Q * bool)) xs w o b w' :
  svc_request svc_dg_decode cb xs w = Some ((o, b), w') -> o <> Suspended ->
  svc_dg_recv cb (mk_refs 2 12 0 0) xs w = Some ((o, b, mk_refs 0 108 1 1), w').
Proof. intros Hr Ho. unfold svc_dg_recv, bind. rewrite Hr. by destruct o. Qed.

Lemma over_source buf : src_ok ((over buf) <| x_op := XDR_DECODE |>) /\ src_in ((over buf) <| x_op := XDR_DECODE |>) = buf.
Proof.
  split; [split_and!; simpl; lia|]. cbn [src_in xdrmem_source]. unfold mem_in, slice, over. cbn [x_data vio_tail x_buf upd].
  rewrite Nat.sub_0_r, drop_0. by apply take_ge.
Qed.

End Recv.

Lemma parent_released parent : 0 < xp_refcnt parent < 2 ^ 31 - 1 -> svc_release_it (svc_ref_it parent) = parent.
Proof.
  intros Hp. unfold svc_release_it, svc_ref_it. cbv zeta. cbn [xp_refcnt xp_flags upd].
  rewrite (i32_small (xp_refcnt parent + 1)), Z.add_simpl_r, i32_small by (unfold is_i32; lia). rewrite decide_True by lia.
  by destruct parent.
Qed.

Lemma mod4_rest {A} (xs ys : list A) : (length (xs ++ ys) mod 4 = 0)%nat -> (length xs mod 4 = 0)%nat -> (length ys mod 4 = 0)%nat.
Proof. rewrite length_app, Nat.Div0.add_mod. intros H Hx. by rewrite Hx, Nat.add_0_l, Nat.Div0.mod_mod in H. Qed.

Lemma call_wire_mod4 {R} (m : rpc_msg R) p q :
  call_ok m -> auth_pad (cb_cred m) p -> auth_pad (cb_verf m) q -> (length (call_wire m p q) mod 4 = 0)%nat.
Proof.
  intros (_ & _ & _ & _ & _ & _ & Hc & Hv) Hp Hq. unfold call_wire.
  do 6 (apply mod4_app; [done|]). apply mod4_app; rewrite length_auth_wire by done; change 8%nat with (length (be32 0 ++ be32 0)).
  all: rewrite Nat.Div0.add_mod, mod4_RNDUP; reflexivity.
Qed.

Lemma head_fits xid (verf : opaque_auth) v stat :
  auth_ok verf -> auth_pad verf v -> (length (accepted_head xid verf v stat) <= 432)%nat.
Proof.
  intros Ho Hp. pose proof Ho as (_ & Hl & _). unfold MAX_AUTH_BYTES in Hl.
  assert (length v <= 3)%nat. { rewrite Hp. unfold pad. pose proof (Nat.mod_upper_bound (4 - Z.to_nat (oa_length verf) mod 4) 4). lia. }
  unfold accepted_head, auth_wire, auth_body. rewrite !length_app, length_take. cbn [length be32]. lia.
Qed.

(** The reply to a GETATTR call fits into 520 bytes. *)
Lemma getattr_fits xid (verf : opaque_auth) v r :
  auth_ok verf -> auth_pad verf v -> (length (accepted_head xid verf v SUCCESS ++ getattr_wire r) <= 520)%nat.
Proof. intros Ho Hp. pose proof (getattr_wire_length r). pose proof (head_fits xid verf v SUCCESS Ho Hp). rewrite length_app. lia. Qed.

(** A datagram with a call, up to the callback: the arguments are followed by the
    zeros that the memory behind the datagram holds. *)
Lemma call_arrives {FS} sendmsg req_su k (m : message unit) p q args sp namelen flags cmsgs rest :
  let data := call_wire m p q ++ args in
  (maxrec req_su mod 4 = 0)%nat -> (length data <= maxrec req_su)%nat -> sa_family sp <> 65535 -> namelen <> 0 ->
  call_ok m -> auth_pad (cb_cred m) p -> auth_pad (cb_verf m) q ->
  exists su buf, length buf = maxrec req_su /\
    svc_dg_rendezvous false req_su (replicate k (RecvFails EINTR) ++ Received data (Some sp) namelen flags cmsgs :: rest) =
      Some (Some (RdvCall su (svc_ref_it (su_refs req_su))), rest) /\
    ioq_xdrs su = Some (over buf) /\ ss (xp_remote su) = sp /\ su_refs su = mk_refs 2 12 0 0 /\ local_info flags cmsgs su /\
    Transport (svc_dg_reply sendmsg su (over buf)) (carries sendmsg su) (fun n => n <= maxrec req_su)%nat /\
    let behind := args ++ replicate (maxrec req_su - length data) x00 in
    (length behind mod 4 = 0)%nat /\
    forall (cb : request unit -> XDR unit -> ST (world FS) (outcome unit dg_reply * bool)) w, exists xs,
      svc_request svc_dg_decode cb (over buf) w = cb (decoded m) xs w /\ src_ok xs /\ src_in xs = behind /\ x_op xs = XDR_DECODE.
Proof.
  intros data Hmod Hlen Hsp Hname Hm Hp Hq. rewrite rendezvous_received by done.
  assert (H16 : (16 <= length data)%nat) by (unfold data, call_wire; rewrite !length_app; cbn [length be32]; lia).
  destruct (rendezvous_call (su_refs req_su) req_su data sp namelen flags cmsgs H16 Hsp) as (su & -> & Hx & Hrem & Hrefs & Hi).
  set (buf := padded (maxrec req_su) data) in *. set (behind := args ++ replicate (maxrec req_su - length data) x00).
  assert (Hl : length buf = maxrec req_su) by (by apply padded_length).
  assert (Hbuf : buf = call_wire m p q ++ behind) by (unfold buf, padded, behind, data; by rewrite <- !app_assoc).
  assert (Hmr : (length behind mod 4 = 0)%nat).
  { apply (mod4_rest (call_wire m p q)); [by rewrite <- Hbuf, Hl|by apply call_wire_mod4]. }
  pose proof (dg_transport sendmsg su buf) as Htr. rewrite Hrem, Hl in Htr. specialize (Htr Hname).
  exists su, buf. split_and!; [done|done|done|by rewrite Hrem|done|done|done|]. cbv zeta. split; [done|]. intros cb w.
  destruct (over_source buf) as [Hsrc Hin]. rewrite dg_decode_over.
  destruct (request_decoded cb m p q behind (over buf) w) as (xs1 & Hdec & Hok1 & Hin1 & Hop1); [done..|by rewrite Hin|]. eauto.
Qed.

(** C12: A GETATTR call in a datagram, from the answer of [recvmsg] to what is handed to
    [sendmsg].  [recvmsg] may be interrupted any number of times.  One [lstat] of the
    path in the handle is made and nothing else; one datagram goes to the sender, with
    the transaction id of the call, the verifier that goes with its flavor, SUCCESS,
    and the status and attributes that [lstat] delivered; and the transport of the
    datagram is freed without closing the socket, its reference of the parent given
    back. *)
Theorem getattr_over_udp {FS} `{Posix FS} `{!UnionArm LOOKUP3resok LOOKUP3resfail} `{!UnionArm CREATE3resok CREATE3resfail}
    env malloc_res sendmsg req_su k (m : message unit) p q h tl sp namelen flags cmsgs rest fd (w : world FS) :
  let data := call_wire m p q ++ nfs_fh3_wire h ++ tl in
  (520 <= maxrec req_su)%nat -> (maxrec req_su mod 4 = 0)%nat -> (length data <= maxrec req_su)%nat ->
  0 < xp_refcnt (su_refs req_su) < 2 ^ 31 - 1 -> sa_family sp <> 65535 -> namelen <> 0 ->
  call_ok m -> auth_pad (cb_cred m) p -> auth_pad (cb_verf m) q ->
  cb_prog m = NFS_PROGRAM -> cb_vers m = NFS_V3 -> cb_proc m = 1 -> cred_valid (cb_cred m) ->
  nfs_fh3_ok h -> fh3_canon h -> ~ no_handle h ->
  exists su parent xdrs r w' d v refs,
    svc_dg_rendezvous false req_su (replicate k (RecvFails EINTR) ++ Received data (Some sp) namelen flags cmsgs :: rest) =
      Some (Some (RdvCall su parent), rest) /\ ioq_xdrs su = Some xdrs /\
    svc_dg_recv (nfs_process_cb env (svc_dg_reply sendmsg su xdrs) malloc_res) (su_refs su) xdrs w =
      Some ((Replied (Handed d (sendmsg d)), true, refs), w') /\
    w_trace w' = w_trace w ++ [EvLstat (handle_path h) r] /\ fsal_handle w' = fsal_handle w /\ auth_pad (reply_verf m) v /\
    dg_data d = accepted_head (rm_xid m) (reply_verf m) v SUCCESS ++ getattr_wire r /\ dg_name d = sp /\
    svc_dg_destroy_task fd refs (Some parent) = Freed false (Some (su_refs req_su)).
Proof.
  intros data Hmax Hmod Hlen Href Hsp Hname Hm Hp Hq Hprog Hvers Hproc Hcred Hh Hca Hn.
  destruct (call_arrives (FS:=FS) sendmsg req_su k m p q (nfs_fh3_wire h ++ tl) sp namelen flags cmsgs rest)
    as (su & buf & Hl & Hrdv & Hx & Hto & Hrefs & _ & Htr & Hmr & Hcb); [done..|].
  destruct (Hcb (nfs_process_cb env (svc_dg_reply sendmsg su (over buf)) malloc_res) w) as (xs & Hdec & Hok & Hin & Hop).
  rewrite <- app_assoc in Hin, Hmr. pose proof (mod4_rest _ _ Hmr (spec_len _ _ _ _ (xdr_nfs_fh3_spec (P:=unit)) h Hh)).
  destruct (getattr_dispatched (room:=fun n => (n <= maxrec req_su)%nat) env malloc_res m h (tl ++ replicate (maxrec req_su - length data) x00) xs w)
    as (r & w' & rq & v & Hs & Ht & Htab & Hv & d & -> & Hd & Hdto & _); [done..| |].
  { intros r v Hv. etransitivity; [|exact Hmax]. apply getattr_fits; [by apply reply_verf_ok|done]. }
  rewrite Hs in Hdec. eexists su, _, _, r, w', d, v, _.
  split_and!; [exact Hrdv|exact Hx|rewrite Hrefs; by apply dg_recv_done|done..|by rewrite Hdto|].
  unfold svc_dg_destroy_task. rewrite decide_False by (intros E; by apply E). cbn. by rewrite parent_released.
Qed.

(** The errors of the RPC layer fit as well. *)
Lemma rpc_error_fits {FS} `{Posix FS} `{!UnionArm LOOKUP3resok LOOKUP3resfail} `{!UnionArm CREATE3resok CREATE3resfail}
    env (m : message unit) rest freed bs : call_ok m -> rpc_error (FS:=FS) env m rest freed bs -> (length bs <= 520)%nat.
Proof.
  intros Hm He. pose proof (fun stat => head_fits (rm_xid m) _null_auth [] stat null_auth_ok eq_refl) as Hnull.
  destruct He as [|??|???|?????|d v ????].
  - pose proof (Hnull PROG_UNAVAIL). lia.
  - pose proof (Hnull PROG_MISMATCH). rewrite !length_app. cbn [length be32]. lia.
  - pose proof (Hnull PROC_UNAVAIL). lia.
  - unfold auth_error. rewrite !length_app. cbn [length be32]. lia.
  - pose proof (head_fits (rm_xid m) (reply_verf m) v GARBAGE_ARGS (reply_verf_ok m Hm) ltac:(done)). lia.
Qed.

(** The errors of the RPC layer over UDP: the same answers as over a connection, sent
    to the sender of the datagram; no file is touched. *)
Theorem udp_errors_answered {FS} `{Posix FS} `{!UnionArm LOOKUP3resok LOOKUP3resfail} `{!UnionArm CREATE3resok CREATE3resfail}
    env malloc_res sendmsg req_su k (m : message unit) p q args sp namelen flags cmsgs rest freed bs (w : world FS) :
  let data := call_wire m p q ++ args in
  let behind := args ++ replicate (maxrec req_su - length data) x00 in
  (520 <= maxrec req_su)%nat -> (maxrec req_su mod 4 = 0)%nat -> (length data <= maxrec req_su)%nat ->
  sa_family sp <> 65535 -> namelen <> 0 -> call_ok m -> auth_pad (cb_cred m) p -> auth_pad (cb_verf m) q ->
  rpc_error env m behind freed bs ->
  exists su parent xdrs d bs' refs,
    svc_dg_rendezvous false req_su (replicate k (RecvFails EINTR) ++ Received data (Some sp) namelen flags cmsgs :: rest) =
      Some (Some (RdvCall su parent), rest) /\ ioq_xdrs su = Some xdrs /\
    svc_dg_recv (nfs_process_cb env (svc_dg_reply sendmsg su xdrs) malloc_res) (su_refs su) xdrs w =
      Some ((Replied (Handed d (sendmsg d)), freed, refs), w) /\
    rpc_error env m behind freed bs' /\ dg_data d = bs' /\ dg_name d = sp.
Proof.
  intros data behind Hmax Hmod Hlen Hsp Hname Hm Hp Hq He.
  destruct (call_arrives (FS:=FS) sendmsg req_su k m p q args sp namelen flags cmsgs rest)
    as (su & buf & Hl & Hrdv & Hx & Hto & Hrefs & _ & Htr & Hmr & Hcb); [done..|].
  destruct (Hcb (nfs_process_cb env (svc_dg_reply sendmsg su (over buf)) malloc_res) w) as (xs & Hdec & Hok & Hin & Hop).
  destruct (cb_error (room:=fun n => (n <= maxrec req_su)%nat) env malloc_res m behind xs w freed bs)
    as (rq & bs' & Hs & He' & d & -> & Hd & Hdto & _); [done..| |].
  { intros bs' Hb. etransitivity; [by eapply rpc_error_fits|exact Hmax]. }
  rewrite Hs in Hdec. eexists su, _, _, d, bs', _.
  split_and!; [exact Hrdv|exact Hx|rewrite Hrefs; by apply dg_recv_done|done|done|by rewrite Hdto].
Qed.

(** The rendezvous behind [recvmsg], whatever was received. *)
Lemma rendezvous_end_cases rearm parent su sp rlen namelen flags cmsgs :
  exists rdv, rendezvous_end rearm parent su sp rlen namelen flags cmsgs = Some rdv /\
    if rearm then rdv = RdvDied
    else if decide (sa_family sp = 65535 \/ rlen < 16) then rdv = RdvLeft su
    else exists su', rdv = RdvCall su' (svc_ref_it parent) /\ xp_remote su' = mk_address sp namelen /\ ioq_xdrs su' = Some (over (su_buf su)).
Proof.
  unfold rendezvous_end. destruct rearm; [by eexists|].
  destruct (decide (sa_family sp = 65535)) as [Hf|Hf]; [eexists; split; [done|]; by rewrite decide_True by auto|].
  destruct (decide (rlen = -1 \/ rlen < 4 * 4)) as [Hl|Hl]; [eexists; split; [done|]; by rewrite decide_True by (right; lia)|].
  cbv zeta. unfold svc_dg_store_pktinfo. rewrite store_loop_spec.
  case_decide; [|destruct (filter is_pktinfo cmsgs)]; (eexists; split; [reflexivity|]);
    (rewrite decide_False by (intros []; [done|lia])); by eexists.
Qed.

(** Interrupted calls do not count. *)
Lemma recv_again_interrupted rearm parent su k a rest :
  a <> RecvFails EINTR ->
  recv_again rearm parent su (replicate k (RecvFails EINTR) ++ a :: rest) = recv_again rearm parent su (a :: rest).
Proof. intros Ha. induction k as [|k IH]; [done|]. cbn [replicate app recv_again]. by rewrite decide_True. Qed.

(** The datagram and its sender, when there is one to be handed on. *)
Definition delivers (n : nat) (a : recvmsg_answer) : option (list byte * dg_address * Z) :=
  match a with
  | Received data (Some sp) namelen _ _ =>
      if decide (sa_family sp = 65535 \/ (length (take n data) < 16)%nat) then None else Some (take n data, sp, namelen)
  | _ => None
  end.

Lemma rendezvous_cases rearm req_su k a rest :
  a <> RecvFails EINTR ->
  exists rdv, svc_dg_rendezvous rearm req_su (replicate k (RecvFails EINTR) ++ a :: rest) = Some (Some rdv, rest) /\
    if rearm then rdv = RdvDied
    else match delivers (maxrec req_su) a with
         | None => exists su, rdv = RdvLeft su
         | Some (data, sp, namelen) => exists su, rdv = RdvCall su (svc_ref_it (su_refs req_su)) /\
             xp_remote su = mk_address sp namelen /\ ioq_xdrs su = Some (over (padded (maxrec req_su) data))
         end.
Proof.
  intros Ha. unfold svc_dg_rendezvous. cbv zeta.
  match goal with |- context [recv_again _ _ ?s _] => change s with (fresh_su req_su) end. rewrite recv_again_interrupted by done.
  destruct a as [errno|data name namelen flags cmsgs]; cbn [recv_again]; [rewrite decide_False by congruence|].
  all: match goal with |- context [rendezvous_end ?r ?p ?s ?a ?l ?n ?f ?c] => destruct (rendezvous_end_cases r p s a l n f c) as (rdv & -> & Hr) end.
  all: exists rdv; split; [done|]; destruct rearm; [done|]; cbn [delivers].
  - rewrite decide_True in Hr by auto. by eexists.
  - cbn [maxrec fresh_su su_buf upd] in Hr. destruct name as [sp|]; [|rewrite decide_True in Hr by (by left); by eexists].
    rewrite splice_padded in Hr by (rewrite length_take; lia).
    destruct (decide (sa_family sp = 65535 \/ (length (take (maxrec req_su) data) < 16)%nat)) as [Hd|Hd].
    + rewrite decide_True in Hr by (destruct Hd; [by left|right; lia]). by eexists.
    + rewrite decide_False in Hr by (intros [?|?]; apply Hd; [by left|right; lia]). exact Hr.
Qed.

(** C32: Whatever the first call of [recvmsg] that is not interrupted delivers: the
    rendezvous returns, and it hands a transport on exactly when the events were
    armed again and a sender is known and at least 16 bytes came.  The reply of that
    transport goes to the sender, and the request on it, taken from the bytes that
    came with zeros behind them up to the size of the memory, ends without any effect
    on the files; or these bytes are a call of version 3 of NFS with an accepted
    credential and its server does exactly what the procedure of that number does on
    the arguments behind the header.  This holds for every way of replying. *)
Theorem any_datagram_answered {FS} `{Posix FS} `{!UnionArm LOOKUP3resok LOOKUP3resfail} `{!UnionArm CREATE3resok CREATE3resfail}
    env malloc_res (xp_reply : request unit -> option dg_reply) rearm req_su k a rest :
  a <> RecvFails EINTR ->
  exists rdv, svc_dg_rendezvous rearm req_su (replicate k (RecvFails EINTR) ++ a :: rest) = Some (Some rdv, rest) /\
    if rearm then rdv = RdvDied
    else match delivers (maxrec req_su) a with
         | None => exists su, rdv = RdvLeft su
         | Some (data, sp, namelen) =>
             exists su xdrs, rdv = RdvCall su (svc_ref_it (su_refs req_su)) /\ xp_remote su = mk_address sp namelen /\
               ioq_xdrs su = Some xdrs /\
               forall w : world FS, answered env xp_reply malloc_res (padded (maxrec req_su) data)
                 (svc_request svc_dg_decode (nfs_process_cb env xp_reply malloc_res) xdrs w) w
         end.
Proof.
  intros Ha. destruct (rendezvous_cases rearm req_su k a rest Ha) as (rdv & -> & Hr). exists rdv. split; [done|].
  destruct rearm; [done|]. destruct (delivers (maxrec req_su) a) as [[[data sp] namelen]|]; [|done].
  destruct Hr as (su & -> & Hto & Hx). exists su, (over (padded (maxrec req_su) data)). split_and!; [done..|].
  intros w. rewrite dg_decode_over. destruct (over_source (padded (maxrec req_su) data)) as [Hok Hin].
  set (buf := padded (maxrec req_su) data) in *. rewrite <- Hin at 1. exact (decode_answered env xp_reply malloc_res (over buf) w Hok).
Qed.

(** The length of a datagram is not used: the stream covers all of the memory, so a
    datagram of at least 16 bytes whose end was cut off is handled exactly as the one in
    which that end was zeros. *)
Theorem datagram_padded rearm req_su data n name namelen flags cmsgs rest :
  (16 <= length data)%nat -> (length data + n <= maxrec req_su)%nat ->
  svc_dg_rendezvous rearm req_su (Received data name namelen flags cmsgs :: rest) =
  svc_dg_rendezvous rearm req_su (Received (data ++ replicate n x00) name namelen flags cmsgs :: rest).
Proof.
  intros H16 Hl. pose proof (rendezvous_received rearm req_su 0) as Hr. cbn [replicate app] in Hr.
  rewrite !Hr by (rewrite ?length_app, ?length_replicate; lia). unfold padded, rendezvous_end.
  rewrite length_app, length_replicate, <- app_assoc, <- replicate_add.
  replace (n + (maxrec req_su - (length data + n)))%nat with (maxrec req_su - length data)%nat by lia.
  by rewrite !(decide_False (P:=_ = -1 \/ _)) by lia.
Qed.

(** A datagram that is too short, or has no sender: its transport is left behind with all
    of its memory. *)
Lemma short_datagram_left req_su data name namelen flags cmsgs rest :
  (length data < 16)%nat \/ name = None -> (length data <= maxrec req_su)%nat ->
  exists su, svc_dg_rendezvous false req_su (Received data name namelen flags cmsgs :: rest) = Some (Some (RdvLeft su), rest) /\
    length (su_buf su) = maxrec req_su.
Proof.
  intros Hs Hl. pose proof (rendezvous_received false req_su 0) as Hr. cbn [replicate app] in Hr. rewrite Hr by done.
  unfold rendezvous_end. case_decide as E; [|rewrite decide_True by (destruct Hs as [Hs| ->]; [lia|done])].
  all: eexists; split; [reflexivity|]; by apply padded_length.
Qed.

(** The control message of a reply.  If the call came with usable IPv4 packet
    information, the reply is sent with the first of it.  Otherwise, also for IPv6, it is
    sent with an IPv6 control message, and the length given for it exceeds the array. *)
Theorem reply_control sendmsg req_su k data sp namelen flags cmsgs rest rest' su parent xdrs req d n :
  (length data <= maxrec req_su)%nat ->
  svc_dg_rendezvous false req_su (replicate k (RecvFails EINTR) ++ Received data (Some sp) namelen flags cmsgs :: rest) =
    Some (Some (RdvCall su parent), rest') ->
  svc_dg_reply sendmsg su xdrs req = Some (Handed d n) ->
  match (if decide (Z.land flags MSG_CTRUNC <> 0) then [] else filter is_pktinfo cmsgs) with
  | c :: _ => dg_level d = IPPROTO_IP /\ dg_type d = IP_PKTINFO /\ dg_pktinfo d = take sizeof_in_pktinfo (cmsg_data c) /\
      (dg_controllen d <= sizeof_msg_control)%nat
  | [] => dg_level d = IPPROTO_IPV6 /\ dg_type d = IPV6_PKTINFO /\ (sizeof_msg_control < dg_controllen d)%nat
  end.
Proof.
  intros Hl Hrdv Hrep. rewrite rendezvous_received in Hrdv by done. unfold rendezvous_end in Hrdv.
  destruct (decide (sa_family sp = 65535)) as [|Hsp]; [done|]. case_decide as Hlen; [done|].
  destruct (rendezvous_call (su_refs req_su) req_su data sp namelen flags cmsgs) as (su' & Hrdv' & _ & _ & _ & Hi); [lia|done|].
  unfold rendezvous_end in Hrdv'. rewrite decide_False, decide_False in Hrdv' by done. rewrite Hrdv' in Hrdv. simplify_eq.
  unfold svc_dg_reply in Hrep. case_decide; [done|]. destruct (xdrmem_setpos _ 0) as [? xs0].
  destruct (xdr_reply_encode run_pair (rq_msg req) xs0) as [[b1 xs1] msg]. destruct b1; [|done]. cbv zeta in Hrep. cbn [negb] in Hrep.
  match type of Hrep with context [let '(_, _) := ?x in _] => destruct x as [b2 xs2] end. destruct b2; [|done]. cbn [negb] in Hrep.
  destruct (xdrmem_getpos xs2) as [slen xs3]. simplify_eq. cbn [dg_level dg_type dg_pktinfo dg_controllen]. unfold local_info in Hi.
  destruct (if decide (Z.land flags MSG_CTRUNC <> 0) then [] else filter is_pktinfo cmsgs) as [|c cs].
  - rewrite bool_decide_false by (by rewrite Hi). split_and!; [done|done|]. by apply Nat.ltb_lt.
  - destruct Hi as [Hi Hp]. rewrite bool_decide_true by done. split_and!; [done..|]. by apply Nat.leb_le.
Qed.

(** C33: However references are taken and given up and destruction is asked for: a
    transport is unlinked at most once and destroyed at most once, and destroyed only
    when its count has come down to zero. *)
Theorem destroyed_once ops :
  let r := fold_left run_op ops (mk_refs 1 0 0 0) in
  (xp_unlinked r <= 1)%nat /\ (xp_destroyed r <= 1)%nat /\
  ((0 < xp_destroyed r)%nat -> exists before behind, ops = before ++ behind /\ xp_refcnt (fold_left run_op before (mk_refs 1 0 0 0)) <= 0).
Proof.
  cbv zeta. destruct (ops_ok (mk_refs 1 0 0 0) ops) as [Hd Hu]; [by split|].
  split_and!; [rewrite Hu; destruct (Z.testbit _ 5); lia|rewrite Hd; destruct (Z.testbit _ 6); lia|]. clear Hd Hu.
  induction ops as [|o ops IH] using rev_ind; cbn; [lia|]. rewrite fold_left_app. cbn [fold_left].
  set (r := fold_left run_op ops _) in *. intros Hd. destruct (decide (0 < xp_destroyed r)%nat) as [Hr|Hr].
  - destruct (IH Hr) as (before & behind & -> & Hb). exists before, (behind ++ [o]). by rewrite app_assoc.
  - exists (ops ++ [o]), []. rewrite app_nil_r, fold_left_app. split; [done|]. cbn [fold_left]. fold r.
    destruct o; cbn [run_op] in *; [done|..].
    + unfold svc_release_it in *. cbv zeta in *. case_decide; [done|]. case_decide; cbn in *; lia.
    + unfold svc_destroy_it, svc_release_it in *. cbv zeta in *. repeat (case_decide; try done). all: cbn in *; lia.
Qed.

(** ** The theorems at concrete datagrams *)

(** A socket with room for 1024 bytes, and a sender. *)
Definition demo_rendezvous : svc_dg_xprt :=
  (svc_dg_xprt_zalloc 0) <| sendsz := 1024%nat |> <| recvsz := 1024%nat |> <| maxrec := 1024%nat |>.

Definition demo_sender : dg_address := mk_sa AF_INET (replicate 126 x00).

(** Everything that is sent arrives. *)
Definition demo_sendmsg (d : datagram) : Z := Z.of_nat (length (dg_data d)).

Definition demo_pktinfo : cmsghdr := mk_cmsg IPPROTO_IP IP_PKTINFO (replicate 12 x01).

(** The sizes are rounded up to whole units. *)
Lemma demo_sizes : svc_dg_sizes IPPROTO_UDP 1022 1024 = Some (1024, 1024, 1024).
Proof. reflexivity. Qed.

Definition demo_datagram : list byte := call_wire (demo_getattr (P:=unit)) [] [] ++ nfs_fh3_wire file_fh3 ++ [].

Lemma demo_datagram_length : (length demo_datagram <= 1024)%nat.
Proof. apply Nat.leb_le. by vm_compute. Qed.

Lemma getattr_over_udp_witness :
  exists su parent xdrs r w' d v refs,
    svc_dg_rendezvous false demo_rendezvous
      (replicate 2 (RecvFails EINTR) ++ [Received demo_datagram (Some demo_sender) 16 0 [demo_pktinfo]]) =
      Some (Some (RdvCall su parent), []) /\ ioq_xdrs su = Some xdrs /\
    svc_dg_recv (nfs_process_cb demo_env (svc_dg_reply demo_sendmsg su xdrs) demo_malloc) (su_refs su) xdrs demo_world =
      Some ((Replied (Handed d (demo_sendmsg d)), true, refs), w') /\
    w_trace w' = w_trace demo_world ++ [EvLstat (handle_path file_fh3) r] /\ fsal_handle w' = fsal_handle demo_world /\
    auth_pad (reply_verf (demo_getattr (P:=unit))) v /\
    dg_data d = accepted_head 7 (reply_verf (demo_getattr (P:=unit))) v SUCCESS ++ getattr_wire r /\ dg_name d = demo_sender /\
    svc_dg_destroy_task 5 refs (Some parent) = Freed false (Some (su_refs demo_rendezvous)).
Proof.
  apply (getattr_over_udp demo_env demo_malloc demo_sendmsg demo_rendezvous 2 demo_getattr [] [] file_fh3 [] demo_sender 16 0 [demo_pktinfo] [] 5);
    [apply Nat.leb_le; reflexivity|reflexivity|apply demo_datagram_length|split; by vm_compute|done|done
    |apply demo_message_ok; unfold is_u32, NFS_PROGRAM, NFS_V3; lia|reflexivity..|apply demo_cred_valid|demo_handle|demo_handle|demo_handle].
Defined.

(** A call of another program. *)
Lemma udp_errors_answered_witness :
  exists su parent xdrs d bs' refs,
    svc_dg_rendezvous false demo_rendezvous [Received (call_wire (demo_mount_call (P:=unit)) [] []) (Some demo_sender) 16 0 []] =
      Some (Some (RdvCall su parent), []) /\ ioq_xdrs su = Some xdrs /\
    svc_dg_recv (nfs_process_cb demo_env (svc_dg_reply demo_sendmsg su xdrs) demo_malloc) (su_refs su) xdrs demo_world =
      Some ((Replied (Handed d (demo_sendmsg d)), true, refs), demo_world) /\
    dg_data d = bs' /\ dg_name d = demo_sender.
Proof.
  destruct (udp_errors_answered demo_env demo_malloc demo_sendmsg demo_rendezvous 0 demo_mount_call [] [] [] demo_sender 16 0 [] [] true
      (accepted_head 7 _null_auth [] PROG_UNAVAIL) demo_world) as (su & parent & xdrs & d & bs' & refs & H1 & H2 & H3 & _ & H4 & H5);
    [apply Nat.leb_le; reflexivity|reflexivity|apply Nat.leb_le; by vm_compute|done|done
    |apply demo_message_ok; unfold is_u32; lia|reflexivity|reflexivity| |].
  - apply (ErrProgram demo_env demo_mount_call). unfold NFS_PROGRAM. cbn [cb_prog demo_mount_call demo_message]. lia.
  - rewrite app_nil_r in H1. by exists su, parent, xdrs, d, bs', refs.
Defined.

Definition no_reply (req : request unit) : option dg_reply := None.

(** A datagram that is no message, after an interrupted call. *)
Lemma any_datagram_answered_witness :
  exists su xdrs,
    svc_dg_rendezvous false demo_rendezvous [RecvFails EINTR; Received (replicate 20 xff) (Some demo_sender) 16 0 []] =
      Some (Some (RdvCall su (svc_ref_it (su_refs demo_rendezvous))), []) /\ ioq_xdrs su = Some xdrs /\
    answered demo_env no_reply demo_malloc (padded (maxrec demo_rendezvous) (replicate 20 xff))
      (svc_request svc_dg_decode (nfs_process_cb demo_env no_reply demo_malloc) xdrs demo_world) demo_world.
Proof.
  destruct (any_datagram_answered demo_env demo_malloc no_reply false demo_rendezvous 1
    (Received (replicate 20 xff) (Some demo_sender) 16 0 []) []) as (rdv & Hrdv & su & xdrs & -> & _ & Hx & Hans); [done|].
  exists su, xdrs. exact (conj Hrdv (conj Hx (Hans demo_world))).
Defined.

(** The call without the bytes of a handle of zeros. *)
Lemma datagram_padded_witness :
  svc_dg_rendezvous false demo_rendezvous [Received (call_wire (demo_getattr (P:=unit)) [] []) (Some demo_sender) 16 0 []] =
  svc_dg_rendezvous false demo_rendezvous [Received (call_wire (demo_getattr (P:=unit)) [] [] ++ replicate 4 x00) (Some demo_sender) 16 0 []].
Proof.
  apply (datagram_padded false demo_rendezvous (call_wire demo_getattr [] []) 4 (Some demo_sender) 16 0 [] []);
    apply Nat.leb_le; by vm_compute.
Defined.

(** The reply to a call of another program, with the packet information of the call. *)
Definition demo_noprog : request unit := set_reply (accept PROG_UNAVAIL) alloc_dnfs_request.

(** The transport of the call with the control messages [cmsgs], and its reply. *)
Definition demo_su (cmsgs : list cmsghdr) : svc_dg_xprt :=
  match svc_dg_rendezvous false demo_rendezvous [Received demo_datagram (Some demo_sender) 16 0 cmsgs] with
  | Some (Some (RdvCall su _), _) => su
  | _ => demo_rendezvous
  end.

Definition demo_control (cmsgs : list cmsghdr) : datagram :=
  match svc_dg_reply demo_sendmsg (demo_su cmsgs) (over demo_datagram) demo_noprog with
  | Some (Handed d _) => d
  | _ => mk_dg [] demo_sender 0 0 0 [] 0
  end.

Lemma demo_control_sent cmsgs :
  cmsgs = [demo_pktinfo] \/ cmsgs = [] ->
  svc_dg_rendezvous false demo_rendezvous [Received demo_datagram (Some demo_sender) 16 0 cmsgs] =
    Some (Some (RdvCall (demo_su cmsgs) (svc_ref_it (su_refs demo_rendezvous))), []) /\
  svc_dg_reply demo_sendmsg (demo_su cmsgs) (over demo_datagram) demo_noprog = Some (Handed (demo_control cmsgs) 24).
Proof. intros [-> | ->]; split; by vm_compute. Qed.

Lemma reply_control_witness :
  dg_level (demo_control [demo_pktinfo]) = IPPROTO_IP /\ dg_type (demo_control [demo_pktinfo]) = IP_PKTINFO /\
  dg_pktinfo (demo_control [demo_pktinfo]) = take sizeof_in_pktinfo (cmsg_data demo_pktinfo) /\
  (dg_controllen (demo_control [demo_pktinfo]) <= sizeof_msg_control)%nat.
Proof.
  destruct (demo_control_sent [demo_pktinfo]) as [Hr Hp]; [by left|].
  exact (reply_control demo_sendmsg demo_rendezvous 0 demo_datagram demo_sender 16 0 [demo_pktinfo] [] [] _ _ _ demo_noprog _ _
    demo_datagram_length Hr Hp).
Defined.

(** IPv6 packet information is not stored: the reply says that it is IPv6 and gives
    nothing but zeros. *)
Lemma in6_pktinfo_lost :
  dg_pktinfo (demo_control [mk_cmsg IPPROTO_IPV6 IPV6_PKTINFO (replicate 20 x01)]) = replicate 20 x00.
Proof. by vm_compute. Qed.
