(* ===== verification/Rbtree.v ===== *)
(** * Red-black trees

    [src/libntirpc/src/rbtree.c] and [ntirpc/misc/rbtree.h]: the nodes in memory with
    their links and parent pointers, every routine of the library as a sequence of
    loads and stores; [None] is an access through NULL or to memory that holds no
    node, or a loop that does not end within its fuel.  [RbtreeTree] says what the
    pointers stand for, [RbtreeProps] that the routines do what they are for. *)
From S2P Require Import Prelude.

Open Scope Z_scope.
Open Scope dnfs_scope.

(** The address of a node; a pointer is NULL or an address. *)
Abbreviation loc := positive (only parsing).
Abbreviation ptr := (option positive) (only parsing).

Record opr_rbtree_node := mk_node {
  nd_left : ptr;
  nd_right : ptr;
  nd_parent : ptr;
  nd_red : bool;
  nd_gen : Z }.
#[global] Instance eta_rbtree_node : RecEta opr_rbtree_node := fun n =>
  mk_node (nd_left n) (nd_right n) (nd_parent n) (nd_red n) (nd_gen n).

(** [struct opr_rbtree]; the comparison is an argument of the routines that use it. *)
Record opr_rbtree := mk_rbtree {
  rb_root : ptr;
  rb_size : Z;
  rb_gen : Z }.
#[global] Instance eta_rbtree : RecEta opr_rbtree := fun t => mk_rbtree (rb_root t) (rb_size t) (rb_gen t).

(** The tree and the memory of the nodes. *)
Record rbs := mk_rbs {
  rb_head : opr_rbtree;
  rb_mem : gmap positive opr_rbtree_node }.
#[global] Instance eta_rbs : RecEta rbs := fun s => mk_rbs (rb_head s) (rb_mem s).

Abbreviation R := (ST rbs).

(** ** Memory *)

Definition load (x : loc) : R opr_rbtree_node := fun s =>
  match rb_mem s !! x with Some n => Some (n, s) | None => None end.

(** [p->member] for a pointer. *)
Definition deref (p : ptr) : R loc := match p with Some x => ret x | None => abort end.

Definition store (x : loc) (f : opr_rbtree_node -> opr_rbtree_node) : R unit := fun s =>
  match rb_mem s !! x with
  | Some n => Some (tt, s <| rb_mem := <[x := f n]> (rb_mem s) |>)
  | None => None
  end.

Definition set_left (x : loc) (p : ptr) : R unit := store x (fun n => n <| nd_left := p |>).
Definition set_right (x : loc) (p : ptr) : R unit := store x (fun n => n <| nd_right := p |>).
Definition set_parent (x : loc) (p : ptr) : R unit := store x (fun n => n <| nd_parent := p |>).
Definition set_red (x : loc) (b : bool) : R unit := store x (fun n => n <| nd_red := b |>).
Definition set_root (p : ptr) : R unit := modify (fun s => s <| rb_head := (rb_head s) <| rb_root := p |> |>).
Definition get_root : R ptr := gets (fun s => rb_root (rb_head s)).

(** [if (p) p->parent = v]. *)
Definition set_parent_opt (p v : ptr) : R unit := match p with Some x => set_parent x v | None => ret tt end.

(** [p && p->red]. *)
Definition is_red (p : ptr) : R bool :=
  match p with Some x => n <- load x ;; ret (nd_red n) | None => ret false end.

(** ** Links *)

Definition update_parent_ptr (old : loc) (replacement : ptr) : R unit :=
  o <- load old ;;
  match nd_parent o with
  | Some parent =>
      p <- load parent ;;
      if decide (nd_left p = Some old) then set_left parent replacement else set_right parent replacement
  | None => set_root replacement
  end.

Definition opr_rbtree_init : opr_rbtree := mk_rbtree None 0 0.

Definition rotateright (node : loc) : R unit :=
  n <- load node ;;
  left <- deref (nd_left n) ;;
  l <- load left ;;
  set_left node (nd_right l) ;;
  l <- load left ;;
  set_parent_opt (nd_right l) (Some node) ;;
  set_right left (Some node) ;;
  n <- load node ;;
  set_parent left (nd_parent n) ;;
  update_parent_ptr node (Some left) ;;
  set_parent node (Some left).

Definition rotateleft (node : loc) : R unit :=
  n <- load node ;;
  right <- deref (nd_right n) ;;
  r <- load right ;;
  set_right node (nd_left r) ;;
  r <- load right ;;
  set_parent_opt (nd_left r) (Some node) ;;
  set_left right (Some node) ;;
  n <- load node ;;
  set_parent right (nd_parent n) ;;
  update_parent_ptr node (Some right) ;;
  set_parent node (Some right).

(** ** Walking *)

(** [while (node->left != NULL) node = node->left], and to the right. *)
Fixpoint leftmost (fuel : nat) (node : loc) : R loc :=
  match fuel with
  | O => abort
  | S fuel =>
      n <- load node ;;
      match nd_left n with
      | Some left' => leftmost fuel left'
      | None => ret node
      end
  end.

Fixpoint rightmost (fuel : nat) (node : loc) : R loc :=
  match fuel with
  | O => abort
  | S fuel =>
      n <- load node ;;
      match nd_right n with
      | Some right' => rightmost fuel right'
      | None => ret node
      end
  end.

Definition opr_rbtree_first (fuel : nat) : R ptr :=
  node <- get_root ;;
  match node with
  | None => ret None
  | Some node => node <- leftmost fuel node ;; ret (Some node)
  end.

Definition opr_rbtree_last (fuel : nat) : R ptr :=
  node <- get_root ;;
  match node with
  | None => ret None
  | Some node => node <- rightmost fuel node ;; ret (Some node)
  end.

(** [while ((parent = node->parent) != NULL && node == parent->right) node = parent],
    and for the left child. *)
Fixpoint climb_right (fuel : nat) (node : loc) : R ptr :=
  match fuel with
  | O => abort
  | S fuel =>
      n <- load node ;;
      match nd_parent n with
      | None => ret None
      | Some parent =>
          p <- load parent ;;
          if decide (nd_right p = Some node) then climb_right fuel parent else ret (Some parent)
      end
  end.

Fixpoint climb_left (fuel : nat) (node : loc) : R ptr :=
  match fuel with
  | O => abort
  | S fuel =>
      n <- load node ;;
      match nd_parent n with
      | None => ret None
      | Some parent =>
          p <- load parent ;;
          if decide (nd_left p = Some node) then climb_left fuel parent else ret (Some parent)
      end
  end.

Definition opr_rbtree_next (fuel : nat) (node : loc) : R ptr :=
  n <- load node ;;
  match nd_right n with
  | Some right' => node <- leftmost fuel right' ;; ret (Some node)
  | None => climb_right fuel node
  end.

Definition opr_rbtree_prev (fuel : nat) (node : loc) : R ptr :=
  n <- load node ;;
  match nd_left n with
  | Some left' => node <- rightmost fuel left' ;; ret (Some node)
  | None => climb_left fuel node
  end.

(** ** Insertion *)

(** The loop of [insert_recolour]. *)
Fixpoint insert_loop (fuel : nat) (node : loc) : R unit :=
  match fuel with
  | O => abort
  | S fuel =>
      n <- load node ;;
      match nd_parent n with
      | None => ret tt
      | Some parent =>
          p <- load parent ;;
          if negb (nd_red p) then ret tt
          else
            gramps <- deref (nd_parent p) ;;
            g <- load gramps ;;
            if decide (nd_left g = Some parent) then
              let uncle := nd_right g in
              red <- is_red uncle ;;
              if red then
                u <- deref uncle ;;
                set_red u false ;; set_red parent false ;; set_red gramps true ;;
                insert_loop fuel gramps
              else
                p <- load parent ;;
                let! (parent, node) :=
                  (if decide (nd_right p = Some node) then rotateleft parent ;; ret (node, parent)
                   else ret (parent, node)) in
                set_red parent false ;; set_red gramps true ;; rotateright gramps ;;
                insert_loop fuel node
            else
              let uncle := nd_left g in
              red <- is_red uncle ;;
              if red then
                u <- deref uncle ;;
                set_red u false ;; set_red parent false ;; set_red gramps true ;;
                insert_loop fuel gramps
              else
                p <- load parent ;;
                let! (parent, node) :=
                  (if decide (nd_left p = Some node) then rotateright parent ;; ret (node, parent)
                   else ret (parent, node)) in
                set_red parent false ;; set_red gramps true ;; rotateleft gramps ;;
                insert_loop fuel node
      end
  end.

Definition insert_recolour (fuel : nat) (node : loc) : R unit :=
  insert_loop fuel node ;;
  root <- get_root ;;
  root <- deref root ;;
  set_red root false.

(** [childptr] of [opr_rbtree_insert_at]: the root of the tree, or a link of a node. *)
Inductive slot := SlotRoot | SlotLeft (parent : loc) | SlotRight (parent : loc).

Definition set_slot (iter : slot) (p : ptr) : R unit :=
  match iter with
  | SlotRoot => set_root p
  | SlotLeft parent => set_left parent p
  | SlotRight parent => set_right parent p
  end.

(** [++head->gen], at 64 bits. *)
Definition next_gen : R Z := fun s =>
  let g := u64 (rb_gen (rb_head s) + 1) in Some (g, s <| rb_head := (rb_head s) <| rb_gen := g |> |>).

Definition opr_rbtree_insert_at (fuel : nat) (parent : ptr) (childptr : slot) (node : loc) : R unit :=
  set_parent node parent ;;
  set_right node None ;;
  set_left node None ;;
  set_red node true ;;
  g <- next_gen ;;
  store node (fun n => n <| nd_gen := u32 g |>) ;;
  n <- load node ;;
  (if decide (nd_gen n = 0) then g <- next_gen ;; store node (fun n => n <| nd_gen := u32 g |>) else ret tt) ;;
  set_slot childptr (Some node) ;;
  insert_recolour fuel node.

Section Compare.
  (** [head->cmpf]. *)
  Variable cmpf : loc -> loc -> Z.

(** The loop of [opr_rbtree_insert] at the link [iter], which holds [p]: the node
    that compares equal, or the link that is NULL, and its owner. *)
Fixpoint insert_search (fuel : nat) (node : loc) (parent : ptr) (iter : slot) (p : ptr) : R (loc + ptr * slot) :=
  match fuel with
  | O => abort
  | S fuel =>
      match p with
      | None => ret (inr (parent, iter))
      | Some parent =>
          n <- load parent ;;
          let c := cmpf node parent in
          if decide (c = -1) then insert_search fuel node (Some parent) (SlotLeft parent) (nd_left n)
          else if decide (c = 1) then insert_search fuel node (Some parent) (SlotRight parent) (nd_right n)
          else ret (inl parent)
      end
  end.

Definition opr_rbtree_insert (fuel : nat) (node : loc) : R ptr :=
  root <- get_root ;;
  found <- insert_search fuel node None SlotRoot root ;;
  match found with
  | inl parent => ret (Some parent)
  | inr (parent, iter) =>
      opr_rbtree_insert_at fuel parent iter node ;;
      modify (fun s => s <| rb_head := (rb_head s) <| rb_size := u64 (rb_size (rb_head s) + 1) |> |>) ;;
      ret None
  end.

Fixpoint lookup_loop (fuel : nat) (node : loc) (iter : ptr) : R ptr :=
  match fuel with
  | O => abort
  | S fuel =>
      match iter with
      | None => ret None
      | Some parent =>
          n <- load parent ;;
          let c := cmpf node parent in
          if decide (c = -1) then lookup_loop fuel node (nd_left n)
          else if decide (c = 1) then lookup_loop fuel node (nd_right n)
          else ret (Some parent)
      end
  end.

Definition opr_rbtree_lookup (fuel : nat) (node : loc) : R ptr :=
  root <- get_root ;; lookup_loop fuel node root.

End Compare.

(** ** Removal *)

(** The loop of [remove_recolour]: the node it leaves to be made black. *)
Fixpoint remove_loop (fuel : nat) (parent node : ptr) : R ptr :=
  match fuel with
  | O => abort
  | S fuel =>
      red <- is_red node ;;
      root <- get_root ;;
      if red || bool_decide (node = root) then ret node
      else
        parent <- deref parent ;;
        p <- load parent ;;
        if decide (nd_left p = node) then
          other <- deref (nd_right p) ;;
          o <- load other ;;
          other <- (if nd_red o then
                      set_red other false ;; set_red parent true ;; rotateleft parent ;;
                      p <- load parent ;; deref (nd_right p)
                    else ret other) ;;
          o <- load other ;;
          lred <- is_red (nd_left o) ;;
          rred <- is_red (nd_right o) ;;
          if negb lred && negb rred then
            set_red other true ;;
            p <- load parent ;;
            remove_loop fuel (nd_parent p) (Some parent)
          else
            other <- (if negb rred then
                        ol <- deref (nd_left o) ;;
                        set_red ol false ;; set_red other true ;; rotateright other ;;
                        p <- load parent ;; deref (nd_right p)
                      else ret other) ;;
            p <- load parent ;;
            set_red other (nd_red p) ;;
            set_red parent false ;;
            o <- load other ;;
            or <- deref (nd_right o) ;;
            set_red or false ;;
            rotateleft parent ;;
            get_root
        else
          other <- deref (nd_left p) ;;
          o <- load other ;;
          other <- (if nd_red o then
                      set_red other false ;; set_red parent true ;; rotateright parent ;;
                      p <- load parent ;; deref (nd_left p)
                    else ret other) ;;
          o <- load other ;;
          lred <- is_red (nd_left o) ;;
          rred <- is_red (nd_right o) ;;
          if negb lred && negb rred then
            set_red other true ;;
            p <- load parent ;;
            remove_loop fuel (nd_parent p) (Some parent)
          else
            other <- (if negb lred then
                        or <- deref (nd_right o) ;;
                        set_red or false ;; set_red other true ;; rotateleft other ;;
                        p <- load parent ;; deref (nd_left p)
                      else ret other) ;;
            p <- load parent ;;
            set_red other (nd_red p) ;;
            set_red parent false ;;
            o <- load other ;;
            ol <- deref (nd_left o) ;;
            set_red ol false ;;
            rotateright parent ;;
            get_root
  end.

Definition remove_recolour (fuel : nat) (parent node : ptr) : R unit :=
  node <- remove_loop fuel parent node ;;
  match node with Some node => set_red node false | None => ret tt end.

(** [done:] of [opr_rbtree_remove]. *)
Definition removed : R unit :=
  modify (fun s => s <| rb_head := (rb_head s) <| rb_size := u64 (rb_size (rb_head s) - 1) |> <| rb_gen := u64 (rb_gen (rb_head s) + 1) |> |>).

(** The removal of a node with two children: the next node takes its place. *)
Definition remove_inner (fuel : nat) (old : loc) : R unit :=
  o <- load old ;;
  right <- deref (nd_right o) ;;
  node <- leftmost fuel right ;;
  update_parent_ptr old (Some node) ;;
  n <- load node ;;
  let child := nd_right n in
  let parent := nd_parent n in
  let red := nd_red n in
  o <- load old ;;
  set_red node (nd_red o) ;;
  parent <- (if decide (parent = Some old) then ret (Some node)
             else
               set_parent_opt child parent ;;
               par <- deref parent ;;
               set_left par child ;;
               o <- load old ;;
               set_right node (nd_right o) ;;
               right <- deref (nd_right o) ;;
               set_parent right (Some node) ;;
               ret parent) ;;
  o <- load old ;;
  set_parent node (nd_parent o) ;;
  set_left node (nd_left o) ;;
  left <- deref (nd_left o) ;;
  set_parent left (Some node) ;;
  if negb red then remove_recolour fuel parent child else ret tt.

Definition opr_rbtree_remove (fuel : nat) (node : loc) : R unit :=
  n <- load node ;;
  if decide (nd_gen n = 0) then ret tt
  else
    store node (fun n => n <| nd_gen := 0 |>) ;;
    match nd_left n, nd_right n with
    | None, None =>
        update_parent_ptr node None ;;
        n <- load node ;;
        (if negb (nd_red n) then remove_recolour fuel (nd_parent n) None else ret tt) ;;
        removed
    | Some _, Some _ => remove_inner fuel node ;; removed
    | left', right' =>
        let child := match left' with None => right' | Some _ => left' end in
        c <- deref child ;;
        n <- load node ;;
        set_parent c (nd_parent n) ;;
        update_parent_ptr node child ;;
        n <- load node ;;
        (if negb (nd_red n) then remove_recolour fuel (nd_parent n) child else ret tt) ;;
        removed
    end.

Definition opr_rbtree_replace (old replacement : loc) : R unit :=
  update_parent_ptr old (Some replacement) ;;
  o <- load old ;;
  set_parent_opt (nd_left o) (Some replacement) ;;
  o <- load old ;;
  set_parent_opt (nd_right o) (Some replacement) ;;
  o <- load old ;;
  store replacement (fun _ => o).

Definition opr_rbtree_node_valid (node : loc) : R bool := n <- load node ;; ret (bool_decide (nd_gen n <> 0)).
Definition opr_rbtree_size : R Z := gets (fun s => rb_size (rb_head s)).
