(* ===== verification/RbtreeTree.v ===== *)
(** * What the pointers of a red-black tree stand for

    Trees and their contexts, when the nodes in memory form one, and what the moves
    of pointers of [Rbtree] (replacing a child, rotations, changes of colour) do to
    the tree. *)
From S2P Require Import Prelude Rbtree.

Open Scope Z_scope.
Open Scope dnfs_scope.

Inductive tree :=
  | E
  | T (red : bool) (l : tree) (x : positive) (r : tree).

(** A tree with a hole, from the hole up: the node above, and its other child. *)
Inductive frame :=
  | FL (red : bool) (x : positive) (r : tree)
  | FR (red : bool) (l : tree) (x : positive).
Abbreviation context := (list frame).

Definition fill (f : frame) (t : tree) : tree :=
  match f with FL c x r => T c t x r | FR c l x => T c l x t end.

Definition plug (k : context) (t : tree) : tree := foldl (fun t f => fill f t) t k.

Definition root (t : tree) : option positive := match t with E => None | T _ _ x _ => Some x end.
Definition frame_node (f : frame) : positive := match f with FL _ x _ | FR _ _ x => x end.
Definition frame_red (f : frame) : bool := match f with FL c _ _ | FR c _ _ => c end.
Definition above (k : context) : option positive := frame_node <$> head k.

(** The nodes from left to right. *)
Fixpoint elems (t : tree) : list positive :=
  match t with E => [] | T _ l x r => elems l ++ x :: elems r end.

(** The nodes of a context, in no particular order. *)
Definition frame_elems (f : frame) : list positive :=
  match f with FL _ x r => x :: elems r | FR _ l x => x :: elems l end.
Definition context_elems (k : context) : list positive := flat_map frame_elems k.

(** ** Memory *)

Abbreviation memory := (gmap positive opr_rbtree_node).

(** The node at [x]; nodes of a tree have a generation. *)
Definition node_at (m : memory) (x : positive) (l r p : option positive) (c : bool) : Prop :=
  exists g, g <> 0 /\ m !! x = Some (mk_node l r p c g).

Fixpoint tree_at (m : memory) (p : option positive) (t : tree) : Prop :=
  match t with
  | E => True
  | T c l x r => node_at m x (root l) (root r) p c /\ tree_at m (Some x) l /\ tree_at m (Some x) r
  end.

(** The context, [hole] being the pointer in the hole and [rt] the root. *)
Fixpoint context_at (m : memory) (k : context) (hole rt : option positive) : Prop :=
  match k with
  | [] => rt = hole
  | FL c x r :: k => node_at m x hole (root r) (above k) c /\ tree_at m (Some x) r /\ context_at m k (Some x) rt
  | FR c l x :: k => node_at m x (root l) hole (above k) c /\ tree_at m (Some x) l /\ context_at m k (Some x) rt
  end.

(** The nodes are distinct. *)
Definition apart (k : context) (t : tree) : Prop := NoDup (elems t ++ context_elems k).

Definition rep (s : rbs) (k : context) (t : tree) : Prop :=
  context_at (rb_mem s) k (root t) (rb_root (rb_head s)) /\ tree_at (rb_mem s) (above k) t /\ apart k t.

(** Two states with the same memory outside of [L] and the same counters. *)
Definition only (L : list positive) (s s' : rbs) : Prop :=
  rb_size (rb_head s') = rb_size (rb_head s) /\ rb_gen (rb_head s') = rb_gen (rb_head s) /\
  forall x, x ∉ L -> rb_mem s' !! x = rb_mem s !! x.

Lemma only_refl L s : only L s s.
Proof. done. Qed.

Lemma only_trans L s s' s'' : only L s s' -> only L s' s'' -> only L s s''.
Proof.
  intros (E1 & E2 & E3) (F1 & F2 & F3). split_and!; [congruence..|]. intros x Hx. by rewrite F3, E3.
Qed.

Lemma only_weaken L L' s s' : (forall x, x ∈ L -> x ∈ L') -> only L s s' -> only L' s s'.
Proof. intros HL (? & ? & Hm). split_and!; [done..|]. intros x Hx. apply Hm. auto. Qed.

(** ** Frame *)

Lemma node_at_insert m x n y l r p c : x <> y -> node_at m y l r p c -> node_at (<[x:=n]> m) y l r p c.
Proof. intros Hne (g & ? & ?). exists g. by rewrite lookup_insert_ne. Qed.

Lemma tree_at_insert m x n p t : x ∉ elems t -> tree_at m p t -> tree_at (<[x:=n]> m) p t.
Proof.
  revert p. induction t as [|c l IHl y r IHr]; intros p Hx Ht; [done|]. simpl in *.
  rewrite elem_of_app, elem_of_cons in Hx. destruct Ht as (Hy & Hl & Hr).
  split_and!; [apply node_at_insert; [by intros ->; tauto|done]|apply IHl; [tauto|done]|apply IHr; [tauto|done]].
Qed.

Lemma context_at_insert m x n k hole rt :
  x ∉ context_elems k -> context_at m k hole rt -> context_at (<[x:=n]> m) k hole rt.
Proof.
  revert hole. induction k as [|[c y r|c l y] k IH]; intros hole Hx Hk; [done|..]; simpl in *;
    rewrite not_elem_of_cons, not_elem_of_app in Hx; destruct Hk as (Hy & Ht & Hk); destruct Hx as (? & ? & ?);
    (split_and!; [by apply node_at_insert|by apply tree_at_insert|by apply IH]).
Qed.

(** ** The elementary moves *)

Lemma load_node s x l r p c : node_at (rb_mem s) x l r p c -> exists g, g <> 0 /\ load x s = Some (mk_node l r p c g, s).
Proof. intros (g & ? & Hx). exists g. unfold load. by rewrite Hx. Qed.

Lemma store_node s x l r p c f :
  node_at (rb_mem s) x l r p c ->
  exists g, g <> 0 /\ store x f s = Some (tt, mk_rbs (rb_head s) (<[x := f (mk_node l r p c g)]> (rb_mem s))).
Proof. intros (g & ? & Hx). exists g. unfold store. by rewrite Hx. Qed.

(** Memory that is the same at [L]. *)
Definition agree (L : list positive) (m m' : memory) : Prop := forall x, x ∈ L -> m' !! x = m !! x.

Lemma node_at_agree m m' x l r p c : m' !! x = m !! x -> node_at m x l r p c -> node_at m' x l r p c.
Proof. intros He (g & ? & ?). exists g. split; [done|congruence]. Qed.

Lemma tree_at_agree m m' p t : agree (elems t) m m' -> tree_at m p t -> tree_at m' p t.
Proof.
  revert p. induction t as [|c l IHl y r IHr]; intros p He Ht; [done|]. simpl in *. destruct Ht as (Hy & Hl & Hr).
  split_and!; [eapply node_at_agree; [apply He; set_solver|done]|apply IHl; [|done]|apply IHr; [|done]];
    intros z ?; apply He; rewrite ?elem_of_cons, ?elem_of_app, ?elem_of_cons; tauto.
Qed.

Lemma context_at_agree m m' k hole rt : agree (context_elems k) m m' -> context_at m k hole rt -> context_at m' k hole rt.
Proof.
  revert hole. induction k as [|[c y r|c l y] k IH]; intros hole He Hk; [done|..]; simpl in *;
    destruct Hk as (Hy & Ht & Hk);
    (split_and!; [eapply node_at_agree; [apply He; set_solver|done]|eapply tree_at_agree; [|done]|apply IH; [|done]]);
    intros z ?; apply He; rewrite ?elem_of_cons, ?elem_of_app, ?elem_of_cons; tauto.
Qed.

(** [if (t) t->parent = p]. *)
Lemma set_parent_opt_tree s p v t :
  tree_at (rb_mem s) p t -> NoDup (elems t) ->
  exists s', set_parent_opt (root t) v s = Some (tt, s') /\ rb_head s' = rb_head s /\ tree_at (rb_mem s') v t /\
    forall x, x ∉ elems t -> rb_mem s' !! x = rb_mem s !! x.
Proof.
  destruct t as [|c l x r]; simpl; [by exists s|]. intros (Hx & Hl & Hr) Hnd.
  apply list.NoDup_app in Hnd as (_ & Hxl & [Hxr _]%list.NoDup_cons).
  destruct (store_node _ _ _ _ _ _ (fun n => n <| nd_parent := v |>) Hx) as (g & Hg & Hs).
  eexists. split; [exact Hs|]. simpl. split_and!; [done| | | |].
  - exists g. by rewrite lookup_insert_eq.
  - apply tree_at_insert; [|done]. intros Hin. apply (Hxl x Hin). set_solver.
  - by apply tree_at_insert.
  - intros z Hz. apply lookup_insert_ne. set_solver.
Qed.

(** The node [old] in the hole is replaced. *)
Lemma update_parent_context s k old n new :
  rb_mem s !! old = Some n -> nd_parent n = above k -> old ∉ context_elems k -> NoDup (context_elems k) ->
  context_at (rb_mem s) k (Some old) (rb_root (rb_head s)) ->
  exists s', update_parent_ptr old new s = Some (tt, s') /\ context_at (rb_mem s') k new (rb_root (rb_head s')) /\
    rb_size (rb_head s') = rb_size (rb_head s) /\ rb_gen (rb_head s') = rb_gen (rb_head s) /\
    forall x, x ∉ context_elems k -> rb_mem s' !! x = rb_mem s !! x.
Proof.
  intros Ho Hp Hold Hnd Hk. unfold update_parent_ptr, bind, load at 1. rewrite Ho, Hp. clear Ho Hp. destruct k as [|[c' y t|c' t y] k]; simpl in *.
  - eexists. split; [done|]. by split_and!.
  - destruct Hk as (Hy & Ht & Hk). destruct (load_node _ _ _ _ _ _ Hy) as (gy & Hgy & ->). cbn [nd_left].
    rewrite decide_True by done.
    destruct (store_node _ _ _ _ _ _ (fun n => n <| nd_left := new |>) Hy) as (g' & Hg' & Hs). unfold set_left. rewrite Hs.
    apply list.NoDup_cons in Hnd as [Hny Hnd]. rewrite not_elem_of_app in Hny. destruct Hny as [Hyt Hyk].
    eexists. split; [done|]. simpl. split_and!; [|by apply tree_at_insert|by apply context_at_insert|done|done|].
    + exists g'. by rewrite lookup_insert_eq.
    + intros z Hz. apply lookup_insert_ne. set_solver.
  - destruct Hk as (Hy & Ht & Hk). destruct (load_node _ _ _ _ _ _ Hy) as (gy & Hgy & ->). cbn [nd_left].
    rewrite decide_False.
    2: { intros Heq. apply Hold. clear Ht. destruct t; simplify_eq/=. set_solver. }
    destruct (store_node _ _ _ _ _ _ (fun n => n <| nd_right := new |>) Hy) as (g' & Hg' & Hs). unfold set_right. rewrite Hs.
    apply list.NoDup_cons in Hnd as [Hny Hnd]. rewrite not_elem_of_app in Hny. destruct Hny as [Hyt Hyk].
    eexists. split; [done|]. simpl. split_and!; [|by apply tree_at_insert|by apply context_at_insert|done|done|].
    + exists g'. by rewrite lookup_insert_eq.
    + intros z Hz. apply lookup_insert_ne. set_solver.
Qed.

(** ** Rotations *)

Lemma load_eq s x n : rb_mem s !! x = Some n -> load x s = Some (n, s).
Proof. intros Hx. unfold load. by rewrite Hx. Qed.

Lemma store_eq s x n f : rb_mem s !! x = Some n -> store x f s = Some (tt, mk_rbs (rb_head s) (<[x := f n]> (rb_mem s))).
Proof. intros Hx. unfold store. by rewrite Hx. Qed.

(** Splits [NoDup] of a list into its parts, and membership in it. *)
Ltac split_nodup :=
  repeat match goal with
  | H : NoDup (_ :: _) |- _ => apply list.NoDup_cons in H as [? H]
  | H : NoDup (_ ++ _) |- _ => let H1 := fresh "Hdisj" in let H2 := fresh "Hnodup" in apply list.NoDup_app in H as (H2 & H1 & H)
  | H : _ ∉ _ ++ _ |- _ => apply not_elem_of_app in H as [? ?]
  | H : _ ∉ _ :: _ |- _ => apply not_elem_of_cons in H as [? ?]
  end.

Lemma nodup_focus (x y : positive) a b d k :
  NoDup (((a ++ y :: b) ++ x :: d) ++ k) <-> NoDup (x :: y :: a ++ b ++ d ++ k).
Proof. apply NoDup_Permutation_proper. solve_Permutation. Qed.

Lemma nodup_focus_left (x y : positive) a b d k :
  NoDup ((d ++ x :: b ++ y :: a) ++ k) <-> NoDup (x :: y :: a ++ b ++ d ++ k).
Proof. apply NoDup_Permutation_proper. solve_Permutation. Qed.

(** Uses that two lists of nodes are disjoint. *)
Ltac apart_solve :=
  repeat match goal with
  | H : forall x, x ∈ ?A -> x ∉ _, Hz : ?z ∈ ?A |- _ => specialize (H z Hz)
  | H : _ ∉ _ ++ _ |- _ => apply not_elem_of_app in H as [? ?]
  | H : _ ∉ _ :: _ |- _ => apply not_elem_of_cons in H as [? ?]
  | |- _ ∉ _ => intro
  | |- _ <> _ => intros ->
  | H : _ ∈ _ ++ _ |- _ => apply elem_of_app in H as [?|?]
  | H : _ ∈ _ :: _ |- _ => apply elem_of_cons in H as [->|?]
  end; first [done | contradiction].

(** Puts [NoDup] of a list together from what is known of its parts. *)
Ltac nodup_solve := rewrite ?list.NoDup_cons, ?list.NoDup_app; split_and!; intros; first [done | apart_solve].

Ltac lookups :=
  repeat first
    [ rewrite lookup_insert_eq
    | rewrite lookup_insert_ne by congruence ].

(** The memory was changed at other places only. *)
Lemma agree_insert L x n m m' : x ∉ L -> agree L m m' -> agree L m (<[x:=n]> m').
Proof. intros Hx He z Hz. rewrite lookup_insert_ne by (by intros ->). by apply He. Qed.

Lemma agree_refl L m : agree L m m.
Proof. by intros z Hz. Qed.

Lemma agree_outside (L L' : list positive) m m' m'' :
  agree L m m' -> (forall x, x ∉ L' -> m'' !! x = m' !! x) -> (forall x, x ∈ L -> x ∉ L') -> agree L m m''.
Proof. intros He Ho Hd z Hz. rewrite Ho by auto. by apply He. Qed.

Lemma rotateright_tree s k c c1 a y b x d :
  rep s k (T c (T c1 a y b) x d) ->
  exists s', rotateright x s = Some (tt, s') /\ rep s' k (T c1 a y (T c b x d)) /\
    only (elems (T c (T c1 a y b) x d) ++ context_elems k) s s'.
Proof.
  intros (Hk & (Hx & (Hy & Ha & Hb) & Hd) & Hnd). cbn [root] in *.
  pose proof Hx as (gx & Hgx & Mx). pose proof Hy as (gy & Hgy & My).
  pose proof Hnd as Hnd'. unfold apart in Hnd'. cbn [elems] in Hnd'. rewrite nodup_focus in Hnd'. split_nodup.
  unfold rotateright, bind. rewrite (load_eq s x _ Mx). cbn [nd_left deref ret]. rewrite (load_eq s y _ My). cbn [nd_right].
  unfold set_left. rewrite (store_eq s x _ _ Mx). set (s1 := mk_rbs _ _).
  assert (My1 : rb_mem s1 !! y = Some (mk_node (root a) (root b) (Some x) c1 gy)) by (simpl; by lookups).
  rewrite (load_eq s1 y _ My1). cbn [nd_right].
  destruct (set_parent_opt_tree s1 (Some y) (Some x) b) as (s2 & -> & Hh2 & Hb2 & Hm2); [by apply tree_at_insert|done|].
  rewrite <- Hm2 in My1 by done. unfold set_right. rewrite (store_eq s2 y _ _ My1). set (s3 := mk_rbs _ _).
  assert (Mx3 : rb_mem s3 !! x = Some (mk_node (root b) (root d) (above k) c gx)).
  { simpl. lookups. rewrite Hm2 by done. simpl. by lookups. }
  rewrite (load_eq s3 x _ Mx3). cbn [nd_parent]. unfold set_parent at 1.
  erewrite (store_eq s3 y) by (simpl; by lookups). set (s4 := mk_rbs _ _).
  assert (Mx4 : rb_mem s4 !! x = Some (mk_node (root b) (root d) (above k) c gx)).
  { rewrite <- Mx3. by apply lookup_insert_ne. }
  assert (Hout4 : forall z, z <> x -> z <> y -> z ∉ elems b -> rb_mem s4 !! z = rb_mem s !! z).
  { intros z ? ? ?. simpl. lookups. rewrite Hm2 by done. simpl. by lookups. }
  destruct (update_parent_context s4 k x _ (Some y) Mx4 eq_refl) as (s5 & -> & Hk5 & Hsz5 & Hgen5 & Hm5); [done|done| |].
  { simpl. rewrite Hh2. eapply context_at_agree; [|exact Hk]. intros z Hz.
    apply Hout4; [by intros ->|by intros ->|]. apart_solve. }
  unfold set_parent. erewrite (store_eq s5 x) by (rewrite Hm5 by done; exact Mx4). cbn [rb_head rb_mem].
  eexists. split; [reflexivity|]. set (s6 := mk_rbs _ _).
  assert (Hout : forall z, z <> x -> z <> y -> z ∉ elems b -> z ∉ context_elems k -> rb_mem s6 !! z = rb_mem s !! z).
  { intros z ? ? ? ?. simpl. lookups. rewrite Hm5 by done. by apply Hout4. }
  split.
  - split_and!; cbn [rb_head rb_mem root].
    + by apply context_at_insert.
    + cbn [tree_at root]. split_and!.
      * exists gy. split; [done|]. simpl. lookups. rewrite Hm5 by done. simpl. by lookups.
      * eapply tree_at_agree; [|exact Ha]. intros z Hz. apply Hout; apart_solve.
      * exists gx. split; [done|]. simpl. by lookups.
      * apply tree_at_insert; [done|]. eapply tree_at_agree; [|exact Hb2]. intros z Hz. rewrite Hm5 by apart_solve. simpl.
        by rewrite !lookup_insert_ne by (by intros ->).
      * eapply tree_at_agree; [|exact Hd]. intros z Hz. apply Hout; apart_solve.
    + eapply NoDup_Permutation_proper; [|exact Hnd]. cbn [elems]. solve_Permutation.
  - split_and!; cbn [rb_head rb_mem]; [by simpl; rewrite Hsz5; simpl; rewrite Hh2|by simpl; rewrite Hgen5; simpl; rewrite Hh2|].
    intros z Hz. cbn [elems] in Hz. apply Hout; apart_solve.
Qed.

Lemma rotateleft_tree s k c c1 a y b x d :
  rep s k (T c d x (T c1 b y a)) ->
  exists s', rotateleft x s = Some (tt, s') /\ rep s' k (T c1 (T c d x b) y a) /\
    only (elems (T c d x (T c1 b y a)) ++ context_elems k) s s'.
Proof.
  intros (Hk & (Hx & Hd & (Hy & Hb & Ha)) & Hnd). cbn [root] in *.
  pose proof Hx as (gx & Hgx & Mx). pose proof Hy as (gy & Hgy & My).
  pose proof Hnd as Hnd'. unfold apart in Hnd'. cbn [elems] in Hnd'. rewrite nodup_focus_left in Hnd'. split_nodup.
  unfold rotateleft, bind. rewrite (load_eq s x _ Mx). cbn [nd_right deref ret]. rewrite (load_eq s y _ My). cbn [nd_left].
  unfold set_right. rewrite (store_eq s x _ _ Mx). set (s1 := mk_rbs _ _).
  assert (My1 : rb_mem s1 !! y = Some (mk_node (root b) (root a) (Some x) c1 gy)) by (simpl; by lookups).
  rewrite (load_eq s1 y _ My1). cbn [nd_left].
  destruct (set_parent_opt_tree s1 (Some y) (Some x) b) as (s2 & -> & Hh2 & Hb2 & Hm2); [by apply tree_at_insert|done|].
  rewrite <- Hm2 in My1 by done. unfold set_left. rewrite (store_eq s2 y _ _ My1). set (s3 := mk_rbs _ _).
  assert (Mx3 : rb_mem s3 !! x = Some (mk_node (root d) (root b) (above k) c gx)).
  { simpl. lookups. rewrite Hm2 by done. simpl. by lookups. }
  rewrite (load_eq s3 x _ Mx3). cbn [nd_parent]. unfold set_parent at 1.
  erewrite (store_eq s3 y) by (simpl; by lookups). set (s4 := mk_rbs _ _).
  assert (Mx4 : rb_mem s4 !! x = Some (mk_node (root d) (root b) (above k) c gx)).
  { rewrite <- Mx3. by apply lookup_insert_ne. }
  assert (Hout4 : forall z, z <> x -> z <> y -> z ∉ elems b -> rb_mem s4 !! z = rb_mem s !! z).
  { intros z ? ? ?. simpl. lookups. rewrite Hm2 by done. simpl. by lookups. }
  destruct (update_parent_context s4 k x _ (Some y) Mx4 eq_refl) as (s5 & -> & Hk5 & Hsz5 & Hgen5 & Hm5); [done|done| |].
  { simpl. rewrite Hh2. eapply context_at_agree; [|exact Hk]. intros z Hz.
    apply Hout4; [by intros ->|by intros ->|]. apart_solve. }
  unfold set_parent. erewrite (store_eq s5 x) by (rewrite Hm5 by done; exact Mx4). cbn [rb_head rb_mem].
  eexists. split; [reflexivity|]. set (s6 := mk_rbs _ _).
  assert (Hout : forall z, z <> x -> z <> y -> z ∉ elems b -> z ∉ context_elems k -> rb_mem s6 !! z = rb_mem s !! z).
  { intros z ? ? ? ?. simpl. lookups. rewrite Hm5 by done. by apply Hout4. }
  split.
  - split_and!; cbn [rb_head rb_mem root].
    + by apply context_at_insert.
    + cbn [tree_at root]. split_and!.
      * exists gy. split; [done|]. simpl. lookups. rewrite Hm5 by done. simpl. by lookups.
      * exists gx. split; [done|]. simpl. by lookups.
      * eapply tree_at_agree; [|exact Hd]. intros z Hz. apply Hout; apart_solve.
      * apply tree_at_insert; [done|]. eapply tree_at_agree; [|exact Hb2]. intros z Hz. rewrite Hm5 by apart_solve. simpl.
        by rewrite !lookup_insert_ne by (by intros ->).
      * eapply tree_at_agree; [|exact Ha]. intros z Hz. apply Hout; apart_solve.
    + eapply NoDup_Permutation_proper; [|exact Hnd]. cbn [elems]. solve_Permutation.
  - split_and!; cbn [rb_head rb_mem]; [by simpl; rewrite Hsz5; simpl; rewrite Hh2|by simpl; rewrite Hgen5; simpl; rewrite Hh2|].
    intros z Hz. cbn [elems] in Hz. apply Hout; apart_solve.
Qed.

(** ** Moving the focus *)

(** What is left and right of the hole. *)
Fixpoint before (k : context) : list positive :=
  match k with
  | [] => []
  | FL _ _ _ :: k => before k
  | FR _ l x :: k => before k ++ elems l ++ [x]
  end.

Fixpoint after (k : context) : list positive :=
  match k with
  | [] => []
  | FL _ x r :: k => x :: elems r ++ after k
  | FR _ _ _ :: k => after k
  end.

Lemma plug_elems k t : elems (plug k t) = before k ++ elems t ++ after k.
Proof.
  revert t. induction k as [|[c x r|c l x] k IH]; intros t; simpl; [by rewrite app_nil_r|..]; rewrite IH; simpl;
    by rewrite <- ?app_assoc; simpl; rewrite <- ?app_assoc.
Qed.

Lemma plug_perm k t : elems (plug k t) ≡ₚ elems t ++ context_elems k.
Proof.
  revert t. induction k as [|[c x r|c l x] k IH]; intros t; simpl; [by rewrite app_nil_r|..]; rewrite IH; simpl; solve_Permutation.
Qed.

Lemma plug_cons f k t : plug (f :: k) t = plug k (fill f t).
Proof. done. Qed.

Lemma rep_nodup s k t : rep s k t -> NoDup (elems (plug k t)).
Proof. intros (_ & _ & Ha). by rewrite plug_perm. Qed.

Lemma rep_move s f k t : rep s (f :: k) t <-> rep s k (fill f t).
Proof.
  unfold rep, apart. rewrite <- !plug_perm, plug_cons. destruct f; simpl; split; intros (? & ? & ?); split_and!; tauto.
Qed.

Lemma rep_plug s k k' t : rep s (k ++ k') t <-> rep s k' (plug k t).
Proof. revert t. induction k as [|f k IH]; intros t; [done|]. simpl. by rewrite rep_move, IH. Qed.

Lemma rep_load s k c l x r :
  rep s k (T c l x r) -> exists g, g <> 0 /\ load x s = Some (mk_node (root l) (root r) (above k) c g, s).
Proof. intros (_ & (Hx & _) & _). by apply load_node. Qed.

(** [t->red], NULL being black. *)
Definition redness (t : tree) : bool := match t with E => false | T c _ _ _ => c end.

Definition paint (c : bool) (t : tree) : tree := match t with E => E | T _ l x r => T c l x r end.

Lemma rep_is_red s k t : rep s k t -> is_red (root t) s = Some (redness t, s).
Proof.
  destruct t as [|c l x r]; [done|]. intros Hr. destruct (rep_load _ _ _ _ _ _ Hr) as (g & _ & Hl). simpl. unfold bind. by rewrite Hl.
Qed.

Lemma rep_set_red s k c c' l x r :
  rep s k (T c l x r) ->
  exists s', set_red x c' s = Some (tt, s') /\ rep s' k (T c' l x r) /\ only (elems (plug k (T c l x r))) s s'.
Proof.
  intros (Hk & (Hx & Hl & Hr) & Ha). pose proof Hx as (g & Hg & Mx). unfold set_red. rewrite (store_eq _ _ _ _ Mx).
  eexists. split; [reflexivity|]. pose proof Ha as Ha'. unfold apart in Ha'. cbn [elems] in Ha'.
  apply list.NoDup_app in Ha' as (Hn & Hd & Hn'). split_nodup. split; [split_and!|split_and!; [done..|]].
  - simpl. apply context_at_insert; [|done]. intros Hin. apply (Hd x); [|done]. apply elem_of_app. right. by left.
  - simpl. split_and!; [exists g; by rewrite lookup_insert_eq|apply tree_at_insert; [|done]|by apply tree_at_insert].
    intros Hin. apply (Hdisj x Hin). by left.
  - done.
  - intros z Hz. simpl. apply lookup_insert_ne. rewrite plug_perm in Hz. cbn [elems] in Hz. apart_solve.
Qed.

Lemma rotateright_rep s k c c1 a y b x d :
  rep s k (T c (T c1 a y b) x d) ->
  exists s', rotateright x s = Some (tt, s') /\ rep s' k (T c1 a y (T c b x d)) /\
    only (elems (plug k (T c (T c1 a y b) x d))) s s'.
Proof.
  intros Hr. destruct (rotateright_tree s k c c1 a y b x d Hr) as (s' & Hs & Hr' & Ho). exists s'. split_and!; [done..|].
  eapply only_weaken; [|exact Ho]. intros z. by rewrite plug_perm.
Qed.

Lemma rotateleft_rep s k c c1 a y b x d :
  rep s k (T c d x (T c1 b y a)) ->
  exists s', rotateleft x s = Some (tt, s') /\ rep s' k (T c1 (T c d x b) y a) /\
    only (elems (plug k (T c d x (T c1 b y a)))) s s'.
Proof.
  intros Hr. destruct (rotateleft_tree s k c c1 a y b x d Hr) as (s' & Hs & Hr' & Ho). exists s'. split_and!; [done..|].
  eapply only_weaken; [|exact Ho]. intros z. by rewrite plug_perm.
Qed.
