(* ===== verification/RbtreeLogic.v ===== *)
(** * Red-black trees: reasoning about the routines

    Rules for the steps of the routines of [Rbtree] on the tree that the memory
    holds, and the colour rules of red-black trees. *)
From S2P Require Import Prelude Rbtree RbtreeTree.

Open Scope Z_scope.
Open Scope dnfs_scope.

(** ** Reasoning about programs *)

(** The memory holds the tree [t] in the context [k]; its nodes are [L], from left to right. *)
Definition shape (L : list positive) (s : rbs) (k : context) (t : tree) : Prop := rep s k t /\ elems (plug k t) = L.

(** [m] runs from [s], leaves what is not of [L] alone, and [Q] holds of its result. *)
Definition wp {A} (L : list positive) (m : ST rbs A) (s : rbs) (Q : A -> rbs -> Prop) : Prop :=
  exists a s', m s = Some (a, s') /\ only L s s' /\ Q a s'.

Lemma wp_ret {A} L s (a : A) (Q : A -> rbs -> Prop) : Q a s -> wp L (ret a) s Q.
Proof. intros HQ. exists a, s. split_and!; [done|apply only_refl|done]. Qed.

Lemma wp_bind {A B} L (m : ST rbs A) (f : A -> ST rbs B) s Q :
  wp L m s (fun a s' => wp L (f a) s' Q) -> wp L (bind m f) s Q.
Proof.
  intros (a & s' & Hm & Ho & b & s'' & Hf & Ho' & HQ). exists b, s''. unfold bind. rewrite Hm.
  split_and!; [done|by eapply only_trans|done].
Qed.

Lemma wp_mono {A} L (m : ST rbs A) s (Q Q' : A -> rbs -> Prop) :
  wp L m s Q -> (forall a s', Q a s' -> Q' a s') -> wp L m s Q'.
Proof. intros (a & s' & ? & ? & ?) HQ. exists a, s'. auto. Qed.

Lemma shape_move L s f k t : shape L s (f :: k) t <-> shape L s k (fill f t).
Proof. unfold shape. by rewrite rep_move. Qed.

Lemma shape_retree L s k t t' s' : rep s' k t' -> elems t' = elems t -> shape L s k t -> shape L s' k t'.
Proof. intros Hr He [_ HL]. split; [done|]. by rewrite plug_elems, He, <- plug_elems. Qed.

Section Rules.
  Variables (L : list positive) (s : rbs) (k : context).

Lemma wp_load c l x r (Q : opr_rbtree_node -> rbs -> Prop) :
  shape L s k (T c l x r) -> (forall g, g <> 0 -> Q (mk_node (root l) (root r) (above k) c g) s) -> wp L (load x) s Q.
Proof. intros [Hr _] HQ. destruct (rep_load _ _ _ _ _ _ Hr) as (g & Hg & Hl). exists (mk_node (root l) (root r) (above k) c g), s. auto using only_refl. Qed.

Lemma wp_is_red t (Q : bool -> rbs -> Prop) : shape L s k t -> Q (redness t) s -> wp L (is_red (root t)) s Q.
Proof. intros [Hr _] HQ. exists (redness t), s. split_and!; [by eapply rep_is_red|apply only_refl|done]. Qed.

Lemma wp_set_red c c' l x r (Q : unit -> rbs -> Prop) :
  shape L s k (T c l x r) -> (forall s', shape L s' k (T c' l x r) -> Q tt s') -> wp L (set_red x c') s Q.
Proof.
  intros Hs HQ. pose proof Hs as [Hr HL]. destruct (rep_set_red _ _ _ c' _ _ _ Hr) as (s' & Hrun & Hr' & Ho). rewrite HL in Ho.
  exists tt, s'. split_and!; [done..|]. apply HQ. eapply shape_retree; [done| |exact Hs]. done.
Qed.

Lemma wp_rotateright c c1 a y b x d (Q : unit -> rbs -> Prop) :
  shape L s k (T c (T c1 a y b) x d) -> (forall s', shape L s' k (T c1 a y (T c b x d)) -> Q tt s') -> wp L (rotateright x) s Q.
Proof.
  intros Hs HQ. pose proof Hs as [Hr HL]. destruct (rotateright_rep _ _ _ _ _ _ _ _ _ Hr) as (s' & Hrun & Hr' & Ho). rewrite HL in Ho.
  exists tt, s'. split_and!; [done..|]. apply HQ. eapply shape_retree; [done| |exact Hs]. simpl. by rewrite <- app_assoc.
Qed.

Lemma wp_rotateleft c c1 a y b x d (Q : unit -> rbs -> Prop) :
  shape L s k (T c d x (T c1 b y a)) -> (forall s', shape L s' k (T c1 (T c d x b) y a) -> Q tt s') -> wp L (rotateleft x) s Q.
Proof.
  intros Hs HQ. pose proof Hs as [Hr HL]. destruct (rotateleft_rep _ _ _ _ _ _ _ _ _ Hr) as (s' & Hrun & Hr' & Ho). rewrite HL in Ho.
  exists tt, s'. split_and!; [done..|]. apply HQ. eapply shape_retree; [done| |exact Hs]. simpl. by rewrite <- app_assoc.
Qed.

Lemma wp_get_root t (Q : option positive -> rbs -> Prop) : k = [] -> shape L s k t -> Q (root t) s -> wp L get_root s Q.
Proof.
  intros -> [(Hk & _) _] HQ. exists (rb_root (rb_head s)), s. split_and!; [done|apply only_refl|]. simpl in Hk. by rewrite Hk.
Qed.

End Rules.

Lemma shape_plug L s k t : shape L s k t <-> shape L s [] (plug k t).
Proof. unfold shape. rewrite <- (rep_plug s k []), app_nil_r. reflexivity. Qed.

(** The same tree seen from elsewhere. *)
Lemma shape_refocus L s k t k' t' : plug k t = plug k' t' -> shape L s k t -> shape L s k' t'.
Proof. intros He Hs%shape_plug. apply shape_plug. by rewrite <- He. Qed.

Ltac refocus H := refine (shape_refocus _ _ _ _ _ _ _ H); reflexivity.

(** The children of a node are different. *)
Lemma shape_children L s k c l x r y : shape L s k (T c l x r) -> root l = Some y -> root r = Some y -> False.
Proof.
  intros [(_ & _ & Ha) _] Hl Hr. unfold apart in Ha. cbn [elems] in Ha. split_nodup.
  destruct l as [|? ? yl ?], r as [|? ? yr ?]; simplify_eq/=.
  apply (Hdisj0 y); [|right]; apply elem_of_app; right; by left.
Qed.

Lemma wp_deref {A} L s (x : positive) (f : positive -> ST rbs A) Q : wp L (f x) s Q -> wp L (bind (deref (Some x)) f) s Q.
Proof. done. Qed.

(** ** The colour rules *)

(** [rb c h t]: the root of [t] has the colour [c], no red node has a red child, and
    every path down has [h] black nodes. *)
Inductive rb : bool -> nat -> tree -> Prop :=
  | rb_E : rb false 0 E
  | rb_red h l x r : rb false h l -> rb false h r -> rb true h (T true l x r)
  | rb_black c c' h l x r : rb c h l -> rb c' h r -> rb false (S h) (T false l x r).

(** [rb_context b h k]: the hole of [k] takes a tree with [h] black nodes on every path, and
    a red one if [b]. *)
Inductive rb_context : bool -> nat -> context -> Prop :=
  | rbc_nil h : rb_context false h []
  | rbc_red_l h x r k : rb false h r -> rb_context true h k -> rb_context false h (FL true x r :: k)
  | rbc_red_r h l x k : rb false h l -> rb_context true h k -> rb_context false h (FR true l x :: k)
  | rbc_black_l b c h x r k : rb c h r -> rb_context b (S h) k -> rb_context true h (FL false x r :: k)
  | rbc_black_r b c h l x k : rb c h l -> rb_context b (S h) k -> rb_context true h (FR false l x :: k).

Definition red_black (t : tree) : Prop := exists h, rb false h t.

Lemma rb_redness c h t : rb c h t -> redness t = c.
Proof. by destruct 1. Qed.

Lemma rb_paint c h t : rb c h t -> exists h', rb false h' (paint false t).
Proof. destruct 1; simpl; eauto using rb. Qed.

Lemma rb_plug k b c h t : rb_context b h k -> rb c h t -> (c = true -> b = true) -> red_black (plug k t).
Proof.
  revert b c h t. induction k as [|f k IH]; intros b c h t Hk Ht Hc; inversion Hk; subst; clear Hk.
  - destruct c; [naive_solver|by exists h].
  - destruct c; [naive_solver|]. simpl. eapply IH; [done|by constructor|done].
  - destruct c; [naive_solver|]. simpl. eapply IH; [done|by constructor|done].
  - simpl. eapply IH; [done|by econstructor|done].
  - simpl. eapply IH; [done|by econstructor|done].
Qed.

(** The other direction: any place in a red-black tree. *)
Lemma rb_unplug k t : red_black (plug k t) -> exists b c h, rb_context b h k /\ rb c h t /\ (c = true -> b = true).
Proof.
  revert t. induction k as [|f k IH]; intros t Ht.
  - destruct Ht as [h Ht]. exists false, false, h. split_and!; [constructor|done|done].
  - destruct (IH _ Ht) as (b & c & h & Hk & Hf & Hc). destruct f; simpl in Hf; inversion Hf; subst; clear Hf.
    + assert (b = true) as -> by auto. exists false, false, h. split_and!; [by constructor|done|done].
    + eexists true, _, _. split_and!; [by econstructor|done|done].
    + assert (b = true) as -> by auto. exists false, false, h. split_and!; [by constructor|done|done].
    + eexists true, _, _. split_and!; [by econstructor|done|done].
Qed.

(** ** Heights *)

Fixpoint height (t : tree) : nat := match t with E => 0 | T _ l _ r => S (Nat.max (height l) (height r)) end.

Lemma rb_height c h t : rb c h t -> (height t <= 2 * h + (if c then 1 else 0))%nat.
Proof. induction 1 as [|h l x r _ IHl _ IHr|c c' h l x r _ IHl _ IHr]; simpl in *; [lia|lia|]. destruct c, c'; lia. Qed.

Lemma rb_size_bound c h t : rb c h t -> (2 ^ h <= S (length (elems t)))%nat.
Proof.
  induction 1 as [|h l x r _ IHl _ IHr|c c' h l x r _ IHl _ IHr]; cbn [elems]; rewrite ?length_app; cbn [length Nat.pow] in *; lia.
Qed.

(** Twice the logarithm of the number of nodes, and one more for the end of a loop. *)
Definition steps (L : list positive) : nat := S (2 * Nat.log2 (S (length L))).

Lemma red_black_height t : red_black t -> (height t < steps (elems t))%nat.
Proof.
  intros [h Ht]. pose proof (rb_height _ _ _ Ht). pose proof (rb_size_bound _ _ _ Ht). unfold steps.
  pose proof (Nat.log2_le_pow2 (S (length (elems t))) h). simpl in *. lia.
Qed.

Lemma plug_height k t : (length k + height t <= height (plug k t))%nat.
Proof. revert t. induction k as [|[] k IH]; intros t; [done|..]; simpl; etrans; [|apply IH| |apply IH]; simpl; lia. Qed.
