(* ===== verification/RbtreeInsert.v ===== *)
(** * Red-black trees: insertion

    What insertion into a tree is, that it keeps the order of the nodes and the
    colour rules, and that the routines of [Rbtree] do it in memory. *)
From S2P Require Import Prelude Rbtree RbtreeTree RbtreeLogic.

Open Scope Z_scope.
Open Scope dnfs_scope.

(** ** Insertion on trees *)

(** [insert_recolour] below its last line: [t] is the node, red, in its context. *)
Fixpoint ins_fix (k : context) (t : tree) : tree :=
  match k with
  | FL true p r :: FL _ g u :: k =>
      if redness u then ins_fix k (T true (T false t p r) g (paint false u))
      else plug k (T false t p (T true r g u))
  | FR true l p :: FL _ g u :: k =>
      if redness u then ins_fix k (T true (T false l p t) g (paint false u))
      else match t with
           | T c a n b => plug k (T false (T true l p a) n (T true b g u))
           | E => E
           end
  | FR true l p :: FR _ u g :: k =>
      if redness u then ins_fix k (T true (paint false u) g (T false l p t))
      else plug k (T false (T true u g l) p t)
  | FL true p r :: FR _ u g :: k =>
      if redness u then ins_fix k (T true (paint false u) g (T false t p r))
      else match t with
           | T c a n b => plug k (T false (T true u g a) n (T true b p r))
           | E => E
           end
  | _ => plug k t
  end.

(** A red node has a node above it. *)
Fixpoint top_black (k : context) : Prop :=
  match k with
  | [] => True
  | [FL c _ _] | [FR c _ _] => c = false
  | _ :: k => top_black k
  end.


(** ** The loop *)

Lemma insert_loop_end L s k l x r :
  (forall f k', k = f :: k' -> frame_red f = false) -> shape L s k (T true l x r) ->
  forall fuel, (0 < fuel)%nat -> wp L (insert_loop fuel x) s (fun _ s' => shape L s' [] (plug k (T true l x r))).
Proof.
  intros Hf Hs [|fuel] Hfuel; [lia|]. cbn [insert_loop]. apply wp_bind. apply (wp_load L s k true l x r); [done|].
  intros g _. cbn [nd_parent]. destruct k as [|f k]; cbn [above head fmap option_fmap option_map].
  { by apply wp_ret. }
  specialize (Hf f k eq_refl). apply wp_bind. destruct f as [c p u|c u p]; simpl in Hf; subst c; cbn [frame_node].
  - apply (wp_load L s k false (T true l x r) p u); [refocus Hs|]. intros g' _. cbn [nd_red negb]. apply wp_ret. refocus Hs.
  - apply (wp_load L s k false u p (T true l x r)); [refocus Hs|]. intros g' _. cbn [nd_red negb]. apply wp_ret. refocus Hs.
Qed.

(** The loop up to the test of the uncle: the parent [p] is red and has the parent [g]. *)
Definition insert_left (fuel : nat) (node parent gramps : positive) (uncle : option positive) : ST rbs unit :=
  red <- is_red uncle ;;
  if red then
    u <- deref uncle ;;
    set_red u false ;; set_red parent false ;; set_red gramps true ;;
    insert_loop fuel gramps
  else
    p <- load parent ;;
    let! (parent, node) :=
      (if decide (nd_right p = Some node) then rotateleft parent ;; ret (node, parent) else ret (parent, node)) in
    set_red parent false ;; set_red gramps true ;; rotateright gramps ;;
    insert_loop fuel node.

Definition insert_right (fuel : nat) (node parent gramps : positive) (uncle : option positive) : ST rbs unit :=
  red <- is_red uncle ;;
  if red then
    u <- deref uncle ;;
    set_red u false ;; set_red parent false ;; set_red gramps true ;;
    insert_loop fuel gramps
  else
    p <- load parent ;;
    let! (parent, node) :=
      (if decide (nd_left p = Some node) then rotateright parent ;; ret (node, parent) else ret (parent, node)) in
    set_red parent false ;; set_red gramps true ;; rotateleft gramps ;;
    insert_loop fuel node.

Section Loop.
  Variable L : list positive.

(** The step up to the grandparent. *)
Lemma insert_loop_up fuel s f f' k l x r Q :
  frame_red f = true -> shape L s (f :: f' :: k) (T true l x r) ->
  wp L (match f' with
        | FL _ g u => insert_left fuel x (frame_node f) g (root u)
        | FR _ u g => insert_right fuel x (frame_node f) g (root u)
        end) s Q ->
  wp L (insert_loop (S fuel) x) s Q.
Proof.
  intros Hf Hs HQ. cbn [insert_loop]. apply wp_bind. apply (wp_load L s (f :: f' :: k) true l x r); [done|]. intros g1 _.
  cbn [nd_parent above head fmap option_fmap option_map].
  pose proof Hs as Hp. apply shape_move in Hp.
  assert (exists pl pr, fill f (T true l x r) = T true pl (frame_node f) pr) as (pl & pr & Hfill)
    by (destruct f; simpl in Hf; subst; eauto).
  rewrite Hfill in Hp. apply wp_bind. apply (wp_load L s (f' :: k) true pl (frame_node f) pr); [done|]. intros g2 _.
  cbn [nd_red negb nd_parent above head fmap option_fmap option_map]. apply wp_deref.
  apply shape_move in Hp. apply wp_bind. destruct f' as [c g u|c u g]; cbn [frame_node fill] in *.
  - eapply wp_load; [done|]. intros g3 _. cbn [nd_left nd_right root]. by rewrite decide_True.
  - eapply wp_load; [done|]. intros g3 _. cbn [nd_left nd_right root]. rewrite decide_False; [done|].
    intros Hu. eapply shape_children; [exact Hp|exact Hu|done].
Qed.

(** What the loop establishes for [k] and a red node. *)
Definition inserts (fuel : nat) (k : context) : Prop :=
  forall s l x r, shape L s k (T true l x r) ->
    wp L (insert_loop fuel x) s (fun _ s' => shape L s' [] (ins_fix k (T true l x r))).

Lemma insert_left_wp fuel s f c g u k l x r :
  (0 < fuel)%nat -> inserts fuel k -> frame_red f = true -> shape L s (f :: FL c g u :: k) (T true l x r) ->
  wp L (insert_left fuel x (frame_node f) g (root u)) s
    (fun _ s' => shape L s' [] (ins_fix (f :: FL c g u :: k) (T true l x r))).
Proof.
  intros Hfuel IH Hf Hs. unfold insert_left. apply wp_bind.
  apply (wp_is_red L s (FR c (fill f (T true l x r)) g :: k) u); [refocus Hs|]. destruct (redness u) eqn:Hu.
  - destruct u as [|? a y b]; [done|]. simpl in Hu. subst. apply wp_deref. apply wp_bind.
    apply (wp_set_red L s (FR c (fill f (T true l x r)) g :: k) true false a y b); [refocus Hs|]. intros s1 H1.
    destruct f as [? p pr|? pl p]; simpl in Hf; subst; cbn [frame_node].
    + apply wp_bind, (wp_set_red L s1 (FL c g (T false a y b) :: k) true false (T true l x r) p pr); [refocus H1|]. intros s2 H2.
      apply wp_bind, (wp_set_red L s2 k c true (T false (T true l x r) p pr) g (T false a y b)); [refocus H2|]. intros s3 H3.
      by apply IH.
    + apply wp_bind, (wp_set_red L s1 (FL c g (T false a y b) :: k) true false pl p (T true l x r)); [refocus H1|]. intros s2 H2.
      apply wp_bind, (wp_set_red L s2 k c true (T false pl p (T true l x r)) g (T false a y b)); [refocus H2|]. intros s3 H3.
      by apply IH.
  - apply wp_bind. destruct f as [? p pr|? pl p]; simpl in Hf; subst; cbn [frame_node ins_fix]; rewrite Hu.
    + apply (wp_load L s (FL c g u :: k) true (T true l x r) p pr); [refocus Hs|]. intros g1 _. cbn [nd_right].
      rewrite decide_False.
      2: { intros Hr. apply (shape_children L s (FL c g u :: k) true (T true l x r) p pr x); [refocus Hs|done|done]. }
      apply wp_bind, wp_ret.
      apply wp_bind, (wp_set_red L s (FL c g u :: k) true false (T true l x r) p pr); [refocus Hs|]. intros s2 H2.
      apply wp_bind, (wp_set_red L s2 k c true (T false (T true l x r) p pr) g u); [refocus H2|]. intros s3 H3.
      apply wp_bind, (wp_rotateright L s3 k true false (T true l x r) p pr g u); [done|]. intros s4 H4.
      apply (insert_loop_end L s4 (FL false p (T true pr g u) :: k) l x r); [naive_solver|refocus H4|done].
    + apply (wp_load L s (FL c g u :: k) true pl p (T true l x r)); [refocus Hs|]. intros g1 _. cbn [nd_right root].
      rewrite decide_True by done.
      apply wp_bind, wp_bind, (wp_rotateleft L s (FL c g u :: k) true true r x l p pl); [refocus Hs|]. intros s1 H1.
      apply wp_ret.
      apply wp_bind, (wp_set_red L s1 (FL c g u :: k) true false (T true pl p l) x r); [refocus H1|]. intros s2 H2.
      apply wp_bind, (wp_set_red L s2 k c true (T false (T true pl p l) x r) g u); [refocus H2|]. intros s3 H3.
      apply wp_bind, (wp_rotateright L s3 k true false (T true pl p l) x r g u); [done|]. intros s4 H4.
      apply (insert_loop_end L s4 (FL false x (T true r g u) :: k) pl p l); [naive_solver|refocus H4|done].
Qed.

Lemma insert_right_wp fuel s f c g u k l x r :
  (0 < fuel)%nat -> inserts fuel k -> frame_red f = true -> shape L s (f :: FR c u g :: k) (T true l x r) ->
  wp L (insert_right fuel x (frame_node f) g (root u)) s
    (fun _ s' => shape L s' [] (ins_fix (f :: FR c u g :: k) (T true l x r))).
Proof.
  intros Hfuel IH Hf Hs. unfold insert_right. apply wp_bind.
  apply (wp_is_red L s (FL c g (fill f (T true l x r)) :: k) u); [refocus Hs|]. destruct (redness u) eqn:Hu.
  - destruct u as [|? a y b]; [done|]. simpl in Hu. subst. apply wp_deref. apply wp_bind.
    apply (wp_set_red L s (FL c g (fill f (T true l x r)) :: k) true false a y b); [refocus Hs|]. intros s1 H1.
    destruct f as [? p pr|? pl p]; simpl in Hf; subst; cbn [frame_node].
    + apply wp_bind, (wp_set_red L s1 (FR c (T false a y b) g :: k) true false (T true l x r) p pr); [refocus H1|]. intros s2 H2.
      apply wp_bind, (wp_set_red L s2 k c true (T false a y b) g (T false (T true l x r) p pr)); [refocus H2|]. intros s3 H3.
      by apply IH.
    + apply wp_bind, (wp_set_red L s1 (FR c (T false a y b) g :: k) true false pl p (T true l x r)); [refocus H1|]. intros s2 H2.
      apply wp_bind, (wp_set_red L s2 k c true (T false a y b) g (T false pl p (T true l x r))); [refocus H2|]. intros s3 H3.
      by apply IH.
  - apply wp_bind. destruct f as [? p pr|? pl p]; simpl in Hf; subst; cbn [frame_node ins_fix]; rewrite Hu.
    + apply (wp_load L s (FR c u g :: k) true (T true l x r) p pr); [refocus Hs|]. intros g1 _. cbn [nd_left root].
      rewrite decide_True by done.
      apply wp_bind, wp_bind, (wp_rotateright L s (FR c u g :: k) true true l x r p pr); [refocus Hs|]. intros s1 H1.
      apply wp_ret.
      apply wp_bind, (wp_set_red L s1 (FR c u g :: k) true false l x (T true r p pr)); [refocus H1|]. intros s2 H2.
      apply wp_bind, (wp_set_red L s2 k c true u g (T false l x (T true r p pr))); [refocus H2|]. intros s3 H3.
      apply wp_bind, (wp_rotateleft L s3 k true false (T true r p pr) x l g u); [done|]. intros s4 H4.
      apply (insert_loop_end L s4 (FR false (T true u g l) x :: k) r p pr); [naive_solver|refocus H4|done].
    + apply (wp_load L s (FR c u g :: k) true pl p (T true l x r)); [refocus Hs|]. intros g1 _. cbn [nd_left].
      rewrite decide_False.
      2: { intros Hr. apply (shape_children L s (FR c u g :: k) true pl p (T true l x r) x); [refocus Hs|done|done]. }
      apply wp_bind, wp_ret.
      apply wp_bind, (wp_set_red L s (FR c u g :: k) true false pl p (T true l x r)); [refocus Hs|]. intros s2 H2.
      apply wp_bind, (wp_set_red L s2 k c true u g (T false pl p (T true l x r))); [refocus H2|]. intros s3 H3.
      apply wp_bind, (wp_rotateleft L s3 k true false (T true l x r) p pl g u); [done|]. intros s4 H4.
      apply (insert_loop_end L s4 (FR false (T true u g pl) p :: k) l x r); [naive_solver|refocus H4|done].
Qed.

Lemma insert_loop_wp fuel k : (length k < fuel)%nat -> top_black k -> inserts fuel k.
Proof.
  revert k. induction fuel as [fuel IH] using lt_wf_ind. intros k Hk Htop s l x r Hs. destruct fuel as [|fuel]; [lia|].
  destruct k as [|f [|f' k]].
  - apply insert_loop_end; [naive_solver|done|lia].
  - assert (frame_red f = false) as Hf by (destruct f; done).
    assert (ins_fix [f] (T true l x r) = plug [f] (T true l x r)) as -> by (destruct f; simpl in Hf; by subst).
    apply insert_loop_end; [naive_solver|done|lia].
  - destruct (frame_red f) eqn:Hf.
    + eapply insert_loop_up; [done|done|]. simpl in Hk. assert (inserts fuel k) as Hi by (apply IH; [lia|lia|by destruct f, f', k as [|[]]]).
      destruct f'; [apply insert_left_wp|apply insert_right_wp]; done || lia.
    + assert (ins_fix (f :: f' :: k) (T true l x r) = plug (f :: f' :: k) (T true l x r)) as ->
        by (destruct f; simpl in Hf; by subst).
      apply insert_loop_end; [naive_solver|done|lia].
Qed.

End Loop.

(** ** The colour rules *)

Lemma rb_top_black b h k : rb_context b h k -> top_black k.
Proof.
  induction 1 as [|h x r k _ Hk IH|h l x k _ Hk IH|b c h x r k _ Hk IH|b c h l x k _ Hk IH]; [done|..];
    destruct k; try done; by inversion Hk.
Qed.

Lemma ins_fix_rb n k b h t : (length k <= n)%nat -> rb true h t -> rb_context b h k -> exists c h', rb c h' (ins_fix k t).
Proof.
  revert k b h t. induction n as [n IH] using lt_wf_ind. intros k b h t Hn Ht Hk. destruct b.
  - assert (ins_fix k t = plug k t) as -> by (by inversion Hk). destruct (rb_plug k true true h t) as [h' ?]; eauto.
  - inversion Hk as [|? p r k' Hr Hk'|? l p k' Hl Hk'| |]; subst; clear Hk; [by eexists _, _| |];
      inversion Hk' as [| | |b c ? g u k Hu Hk|b c ? u g k Hu Hk]; subst; clear Hk'; cbn [ins_fix];
      rewrite (rb_redness _ _ _ Hu); simpl in Hn;
      (destruct c; [eapply (IH (length k)); [lia|done| |exact Hk]; inversion Hu; subst; cbn [paint]; eauto using rb|]);
      inversion Ht; subst;
      (match goal with |- exists c h', rb c h' (plug k ?t') => destruct (rb_plug k b false (S h) t') as [hh ?] end;
       [done|eauto using rb|done|eauto]).
Qed.

(** ** The routines *)

(** A new node in the hole of [k], the tree balanced and its root black. *)
Definition inserted (k : context) (x : positive) : tree := paint false (ins_fix k (T true E x E)).

Lemma inserted_rb k b x : rb_context b 0 k -> red_black (inserted k x).
Proof.
  intros Hk. destruct (ins_fix_rb (length k) k b 0 (T true E x E)) as (c & h & Hr); [done|eauto using rb|done|].
  by eapply rb_paint.
Qed.

Lemma insert_recolour_wp L fuel s k x :
  (length k < fuel)%nat -> top_black k -> shape L s k (T true E x E) ->
  wp L (insert_recolour fuel x) s (fun _ s' => shape L s' [] (inserted k x)).
Proof.
  intros Hk Ht Hs. unfold insert_recolour, inserted. apply wp_bind. eapply wp_mono; [by apply insert_loop_wp|].
  intros [] s1 H1. cbn beta in H1. apply wp_bind. eapply wp_get_root; [done|exact H1|].
  destruct (ins_fix k (T true E x E)) as [|c l y r] eqn:Ei.
  { exfalso. destruct Hs as [_ HL], H1 as [_ HL']. simpl in HL'. rewrite <- HL', plug_elems in HL. simpl in HL. by destruct (before k). }
  cbn [root]. apply wp_deref. by apply (wp_set_red L s1 [] c false l y r).
Qed.

(** The link that is the hole. *)
Definition hole (k : context) : slot :=
  match k with [] => SlotRoot | FL _ p _ :: _ => SlotLeft p | FR _ _ p :: _ => SlotRight p end.

(** A node that is not of the tree, its links set, enters the hole. *)
Lemma set_slot_rep s k x g :
  rep s k E -> x ∉ context_elems k -> g <> 0 -> rb_mem s !! x = Some (mk_node None None (above k) true g) ->
  exists s', set_slot (hole k) (Some x) s = Some (tt, s') /\ rep s' k (T true E x E) /\
    rb_size (rb_head s') = rb_size (rb_head s) /\ rb_gen (rb_head s') = rb_gen (rb_head s) /\
    forall z, z ∉ context_elems k -> rb_mem s' !! z = rb_mem s !! z.
Proof.
  intros (Hk & _ & Hnd) Hx Hg Mx. unfold apart in Hnd. simpl in Hnd. destruct k as [|[c p r|c l p] k]; cbn [hole set_slot].
  - eexists. split; [reflexivity|]. split; [|done]. split_and!; [done| |apply NoDup_singleton]. simpl. split_and!; [by exists g|done..].
  - destruct Hk as (Hp & Hr & Hk). simpl in Hx, Hnd. split_nodup.
    destruct (store_node _ _ _ _ _ _ (fun n => n <| nd_left := Some x |>) Hp) as (gp & Hgp & Hst). unfold set_left. rewrite Hst.
    eexists. split; [reflexivity|]. split; [|split_and!; [done..|intros z Hz; simpl in Hz; split_nodup; simpl; by lookups]].
    split_and!; simpl.
    + split_and!; [exists gp; by rewrite lookup_insert_eq|by apply tree_at_insert|by apply context_at_insert].
    + split_and!; [exists g; split; [done|]; by lookups|done..].
    + unfold apart. simpl. rewrite !list.NoDup_cons, !not_elem_of_cons, !not_elem_of_app. split_and!; try done. by apply list.NoDup_app.
  - destruct Hk as (Hp & Hl & Hk). simpl in Hx, Hnd. split_nodup.
    destruct (store_node _ _ _ _ _ _ (fun n => n <| nd_right := Some x |>) Hp) as (gp & Hgp & Hst). unfold set_right. rewrite Hst.
    eexists. split; [reflexivity|]. split; [|split_and!; [done..|intros z Hz; simpl in Hz; split_nodup; simpl; by lookups]].
    split_and!; simpl.
    + split_and!; [exists gp; by rewrite lookup_insert_eq|by apply tree_at_insert|by apply context_at_insert].
    + split_and!; [exists g; split; [done|]; by lookups|done..].
    + unfold apart. simpl. rewrite !list.NoDup_cons, !not_elem_of_cons, !not_elem_of_app. split_and!; try done. by apply list.NoDup_app.
Qed.

Lemma gen_nonzero g : u32 (u64 (g + 1)) = 0 -> u32 (u64 (u64 (g + 1) + 1)) <> 0.
Proof. zsolve. Qed.

(** Storing the links, the colour and a generation that is not 0 in a node, before [K]. *)
Lemma fresh_node_run {A} s x n p (K : ST rbs A) :
  rb_mem s !! x = Some n ->
  exists g gen, g <> 0 /\
    (set_parent x p ;; set_right x None ;; set_left x None ;; set_red x true ;;
     g <- next_gen ;; store x (fun n => n <| nd_gen := u32 g |>) ;;
     n <- load x ;;
     (if decide (nd_gen n = 0) then g <- next_gen ;; store x (fun n => n <| nd_gen := u32 g |>) else ret tt) ;; K) s =
    K (mk_rbs (mk_rbtree (rb_root (rb_head s)) (rb_size (rb_head s)) gen) (<[x := mk_node None None p true g]> (rb_mem s))).
Proof.
  intros Mx. destruct s as [[rt sz g0] m]. cbn [rb_mem rb_head rb_root rb_size] in *.
  unfold set_parent, set_right, set_left, set_red, next_gen, bind.
  erewrite store_eq by exact Mx. cbn [rb_mem rb_head].
  do 3 (erewrite store_eq by (cbn [rb_mem]; apply lookup_insert_eq); cbn [rb_mem rb_head]).
  cbn -[decide]. erewrite store_eq by (cbn [rb_mem]; apply lookup_insert_eq). cbn [rb_mem rb_head].
  erewrite load_eq by (cbn [rb_mem]; apply lookup_insert_eq). cbn -[decide u32 u64].
  rewrite !insert_insert_eq. case_decide as Hg.
  - erewrite store_eq by (cbn [rb_mem]; apply lookup_insert_eq). cbn -[u32 u64]. rewrite insert_insert_eq.
    eexists _, _. split; [|reflexivity]. by apply gen_nonzero.
  - by eexists _, _.
Qed.

Lemma context_elems_in k z : z ∈ context_elems k <-> z ∈ before k ++ after k.
Proof. pose proof (plug_perm k E) as Hp. rewrite plug_elems in Hp. simpl in Hp. by rewrite Hp. Qed.

Lemma insert_at_spec fuel s L k x n :
  shape L s k E -> x ∉ L -> rb_mem s !! x = Some n -> (length k < fuel)%nat -> top_black k ->
  exists s', opr_rbtree_insert_at fuel (above k) (hole k) x s = Some (tt, s') /\
    shape (before k ++ x :: after k) s' [] (inserted k x) /\ rb_size (rb_head s') = rb_size (rb_head s) /\
    forall z, z ∉ before k ++ x :: after k -> rb_mem s' !! z = rb_mem s !! z.
Proof.
  intros [Hr HL] Hx Mx Hf Ht. rewrite plug_elems in HL. simpl in HL. subst L. rewrite <- context_elems_in in Hx.
  unfold opr_rbtree_insert_at.
  destruct (fresh_node_run s x n (above k) (set_slot (hole k) (Some x) ;; insert_recolour fuel x) Mx) as (g & gen & Hg & ->).
  set (s1 := mk_rbs _ _). destruct (set_slot_rep s1 k x g) as (s2 & Hs2 & Hr2 & Hsz2 & Hgen2 & Hm2); [|done|done|apply lookup_insert_eq|].
  { destruct Hr as (Hk & _ & Ha). split_and!; [by apply context_at_insert|done|done]. }
  unfold bind at 1. rewrite Hs2.
  destruct (insert_recolour_wp (before k ++ x :: after k) fuel s2 k x Hf Ht) as ([] & s3 & Hs3 & (Hsz3 & _ & Hm3) & Hsh3).
  { split; [done|]. by rewrite plug_elems. }
  exists s3. split_and!; [done|done|by rewrite Hsz3, Hsz2|]. intros z Hz. rewrite Hm3 by done.
  rewrite elem_of_app, elem_of_cons in Hz. rewrite Hm2 by (rewrite context_elems_in, elem_of_app; tauto).
  apply lookup_insert_ne. intros ->. tauto.
Qed.
