(* ===== verification/RbtreeSearch.v ===== *)
(** * Red-black trees: search and iteration

    Descending with the comparison finds the node that compares equal, or the hole
    where a node belongs; the iterators follow the list of the nodes. *)
From Stdlib Require Import Sorting.Sorted.
From S2P Require Import Prelude Rbtree RbtreeTree RbtreeLogic RbtreeInsert.

Open Scope Z_scope.
Open Scope dnfs_scope.

(** ** The order *)

(** What the comparison of a tree has to be: -1 and 1 are each other's inverse, -1 is
    transitive, and what compares neither way stands for the same key. *)
Class CmpOrder (cmpf : positive -> positive -> Z) : Prop := {
  cmp_flip a b : cmpf a b = -1 <-> cmpf b a = 1;
  cmp_trans a b c : cmpf a b = -1 -> cmpf b c = -1 -> cmpf a c = -1;
  cmp_irrefl a : cmpf a a <> -1;
  cmp_same a b : cmpf a b <> -1 -> cmpf a b <> 1 -> forall c, cmpf a c = -1 <-> cmpf b c = -1 }.

Section Order.
  Context (cmpf : positive -> positive -> Z).

Definition less (a b : positive) : Prop := cmpf a b = -1.
Definition same (a b : positive) : Prop := cmpf a b <> -1 /\ cmpf a b <> 1.

(** The nodes of a tree are in strictly increasing order. *)
Abbreviation sorted := (StronglySorted less).

Lemma sorted_app L1 L2 : sorted (L1 ++ L2) <-> sorted L1 /\ sorted L2 /\ forall a b, a ∈ L1 -> b ∈ L2 -> less a b.
Proof.
  induction L1 as [|x L1 IH]; simpl.
  - split; [intros; split_and!; [constructor|done|set_solver]|tauto].
  - split.
    + intros [Hs Hf]%StronglySorted_inv. apply IH in Hs as (? & ? & Hx). apply list.Forall_app in Hf as [? Hf].
      rewrite list.Forall_forall in Hf.
      split_and!; [by constructor|done|]. intros a b [->|Ha]%elem_of_cons Hb; auto.
    + intros (Hs & Hs2 & Hx). apply StronglySorted_inv in Hs as [Hs Hf]. constructor.
      * apply IH. split_and!; [done|done|]. intros. apply Hx; [by right|done].
      * apply list.Forall_app. split; [done|]. rewrite list.Forall_forall. intros b Hb. apply Hx; [by left|done].
Qed.

Lemma sorted_cons x L : sorted (x :: L) <-> sorted L /\ forall b, b ∈ L -> less x b.
Proof.
  rewrite <- list.Forall_forall. split; [by intros ?%StronglySorted_inv|]. intros []. by constructor.
Qed.

(** A node goes between [L1] and [L2]. *)
Definition fits (x : positive) (L1 L2 : list positive) : Prop :=
  (forall a, a ∈ L1 -> less a x) /\ (forall b, b ∈ L2 -> less x b).

Lemma sorted_insert x L1 L2 : sorted (L1 ++ L2) -> fits x L1 L2 -> sorted (L1 ++ x :: L2).
Proof.
  rewrite !sorted_app, sorted_cons. intros (? & ? & Hx) [H1 H2]. split_and!; [done..|].
  intros a b Ha [->|Hb]%elem_of_cons; auto.
Qed.

(** ** Descending *)

(** The node of [t] that compares equal to [x], or the hole for it. *)
Fixpoint descend (x : positive) (k : context) (t : tree) : positive + context :=
  match t with
  | E => inr k
  | T c l y r =>
      if decide (cmpf x y = -1) then descend x (FL c y r :: k) l
      else if decide (cmpf x y = 1) then descend x (FR c l y :: k) r
      else inl y
  end.

Lemma insert_search_run L s fuel x k t :
  (height t < fuel)%nat -> shape L s k t ->
  insert_search cmpf fuel x (above k) (hole k) (root t) s =
    Some (match descend x k t with inl y => inl y | inr k' => inr (above k', hole k') end, s).
Proof.
  revert fuel k. induction t as [|c l IHl y r IHr]; intros [|fuel] k Hf Hs; simpl in Hf; try lia; [done|].
  pose proof Hs as [Hr _]. destruct (rep_load _ _ _ _ _ _ Hr) as (g & _ & Hl). cbn [insert_search root]. unfold bind. rewrite Hl.
  cbn [nd_left nd_right descend]. case_decide; [|case_decide; [|done]].
  - apply (IHl fuel (FL c y r :: k)); [lia|refocus Hs].
  - apply (IHr fuel (FR c l y :: k)); [lia|refocus Hs].
Qed.

Lemma lookup_loop_run L s fuel x k t :
  (height t < fuel)%nat -> shape L s k t ->
  lookup_loop cmpf fuel x (root t) s = Some (match descend x k t with inl y => Some y | inr _ => None end, s).
Proof.
  revert fuel k. induction t as [|c l IHl y r IHr]; intros [|fuel] k Hf Hs; simpl in Hf; try lia; [done|].
  pose proof Hs as [Hr _]. destruct (rep_load _ _ _ _ _ _ Hr) as (g & _ & Hl). cbn [lookup_loop root]. unfold bind. rewrite Hl.
  cbn [nd_left nd_right descend]. case_decide; [|case_decide; [|done]].
  - apply (IHl fuel (FL c y r :: k)); [lia|refocus Hs].
  - apply (IHr fuel (FR c l y :: k)); [lia|refocus Hs].
Qed.

Lemma descend_found x k t y : descend x k t = inl y -> y ∈ elems t /\ same x y.
Proof.
  revert k. induction t as [|c l IHl z r IHr]; intros k; simpl; [done|].
  case_decide; [|case_decide; [|intros; by simplify_eq; split; [apply elem_of_app; right; left|split]]].
  - intros [? ?]%IHl. split; [apply elem_of_app; by left|done].
  - intros [? ?]%IHr. split; [apply elem_of_app; right; by right|done].
Qed.

  Context {order : CmpOrder cmpf}.

Lemma less_gt a b : less a b <-> cmpf b a = 1.
Proof using order. apply cmp_flip. Qed.

Lemma same_less a b c : same a b -> less b c -> less a c.
Proof using order. intros [H1 H2]. apply (cmp_same a b H1 H2 c). Qed.

Lemma descend_hole x k t k' :
  sorted (elems (plug k t)) -> fits x (before k) (after k) -> descend x k t = inr k' ->
  plug k' E = plug k t /\ fits x (before k') (after k').
Proof using order.
  revert k. induction t as [|c l IHl z r IHr]; intros k Hs Hfit; simpl; [by intros [= ->]|].
  pose proof Hs as Hs'. rewrite plug_elems in Hs'. simpl in Hs'. rewrite !sorted_app, sorted_cons in Hs'.
  destruct Hs' as (_ & ((_ & (_ & Hzr) & Hlz) & _ & _) & _). destruct Hfit as [Hb Ha].
  case_decide as Hlt; [|case_decide as Hgt; [|done]].
  - intros Hd. apply (IHl (FL c z r :: k)) in Hd; [done|done|]. split; [done|]. simpl.
    intros b [->|[Hbr|Hba]%elem_of_app]%elem_of_cons; [done| |by apply Ha]. eapply cmp_trans; [exact Hlt|by apply Hzr].
  - intros Hd. apply (IHr (FR c l z :: k)) in Hd; [done|done|]. apply less_gt in Hgt. split; [|done]. simpl.
    intros a [Hab|[Hal|Hz%list_elem_of_singleton]%elem_of_app]%elem_of_app; [by apply Hb| |by subst].
    eapply cmp_trans; [|exact Hgt]. apply Hlz; [done|by left].
Qed.

End Order.

(** ** Iterating *)

Section Iterate.
  Variables (L : list positive) (s : rbs).

Lemma leftmost_run fuel k c l x r :
  (height (T c l x r) <= fuel)%nat -> shape L s k (T c l x r) ->
  exists y L', leftmost fuel x s = Some (y, s) /\ elems (T c l x r) = y :: L'.
Proof.
  revert fuel k c x r. induction l as [|cl ll IH y rl _]; intros [|fuel] k c x r Hf Hs; simpl in Hf; try lia;
    pose proof Hs as [Hr _]; destruct (rep_load _ _ _ _ _ _ Hr) as (g & _ & Hl); cbn [leftmost]; unfold bind; rewrite Hl;
    cbn [nd_left root].
  - by exists x, (elems r).
  - destruct (IH fuel (FL c x r :: k) cl y rl) as (z & L' & -> & He); [simpl; lia|refocus Hs|].
    exists z, (L' ++ x :: elems r). split; [done|]. cbn [elems] in *. by rewrite He.
Qed.

Lemma rightmost_run fuel k c l x r :
  (height (T c l x r) <= fuel)%nat -> shape L s k (T c l x r) ->
  exists y L', rightmost fuel x s = Some (y, s) /\ elems (T c l x r) = L' ++ [y].
Proof.
  revert fuel k c l x. induction r as [|cr lr _ y rr IH]; intros [|fuel] k c l x Hf Hs; simpl in Hf; try lia;
    pose proof Hs as [Hr _]; destruct (rep_load _ _ _ _ _ _ Hr) as (g & _ & Hl); cbn [rightmost]; unfold bind; rewrite Hl;
    cbn [nd_right root].
  - by exists x, (elems l).
  - destruct (IH fuel (FR c l x :: k) cr lr y) as (z & L' & -> & He); [simpl; lia|refocus Hs|].
    exists z, (elems l ++ x :: L'). split; [done|]. cbn [elems] in *. by rewrite He, <- app_assoc.
Qed.

Lemma climb_right_run fuel k c l x r :
  (length k < fuel)%nat -> shape L s k (T c l x r) -> climb_right fuel x s = Some (head (after k), s).
Proof.
  revert fuel c l x r. induction k as [|[cf p u|cf u p] k IH]; intros [|fuel] c l x r Hf Hs; simpl in Hf; try lia;
    pose proof Hs as [Hr _]; destruct (rep_load _ _ _ _ _ _ Hr) as (g & _ & Hl); cbn [climb_right]; unfold bind; rewrite Hl;
    cbn [nd_parent above head fmap option_fmap option_map frame_node]; [done|..].
  - pose proof Hs as Hp. apply shape_move in Hp. cbn [fill] in Hp. pose proof Hp as [Hrp _].
    destruct (rep_load _ _ _ _ _ _ Hrp) as (gp & _ & ->). cbn [nd_right]. rewrite decide_False; [done|].
    intros Hu. by eapply shape_children.
  - pose proof Hs as Hp. apply shape_move in Hp. cbn [fill] in Hp. pose proof Hp as [Hrp _].
    destruct (rep_load _ _ _ _ _ _ Hrp) as (gp & _ & ->). cbn [nd_right root]. rewrite decide_True by done.
    eapply IH; [lia|done].
Qed.

Lemma climb_left_run fuel k c l x r :
  (length k < fuel)%nat -> shape L s k (T c l x r) -> climb_left fuel x s = Some (list.last (before k), s).
Proof.
  revert fuel c l x r. induction k as [|[cf p u|cf u p] k IH]; intros [|fuel] c l x r Hf Hs; simpl in Hf; try lia;
    pose proof Hs as [Hr _]; destruct (rep_load _ _ _ _ _ _ Hr) as (g & _ & Hl); cbn [climb_left]; unfold bind; rewrite Hl;
    cbn [nd_parent above head fmap option_fmap option_map frame_node]; [done|..].
  - pose proof Hs as Hp. apply shape_move in Hp. cbn [fill] in Hp. pose proof Hp as [Hrp _].
    destruct (rep_load _ _ _ _ _ _ Hrp) as (gp & _ & ->). cbn [nd_left root]. rewrite decide_True by done.
    eapply IH; [lia|done].
  - pose proof Hs as Hp. apply shape_move in Hp. cbn [fill] in Hp. pose proof Hp as [Hrp _].
    destruct (rep_load _ _ _ _ _ _ Hrp) as (gp & _ & ->). cbn [nd_left]. rewrite decide_False.
    + cbn [before]. by rewrite app_assoc, list.last_snoc.
    + intros Hu. by eapply shape_children.
Qed.

Lemma next_run fuel k c l x r :
  (length k + height (T c l x r) <= fuel)%nat -> (length k < fuel)%nat -> shape L s k (T c l x r) ->
  opr_rbtree_next fuel x s = Some (head (elems r ++ after k), s).
Proof.
  intros Hf Hk Hs. pose proof Hs as [Hr _]. destruct (rep_load _ _ _ _ _ _ Hr) as (g & _ & Hl).
  unfold opr_rbtree_next, bind. rewrite Hl. cbn [nd_right]. destruct r as [|cr lr y rr]; cbn [root].
  - by apply (climb_right_run fuel k c l x E).
  - simpl in Hf. destruct (leftmost_run fuel (FR c l x :: k) cr lr y rr) as (z & L' & -> & ->); [simpl; lia|refocus Hs|done].
Qed.

Lemma prev_run fuel k c l x r :
  (length k + height (T c l x r) <= fuel)%nat -> (length k < fuel)%nat -> shape L s k (T c l x r) ->
  opr_rbtree_prev fuel x s = Some (list.last (before k ++ elems l), s).
Proof.
  intros Hf Hk Hs. pose proof Hs as [Hr _]. destruct (rep_load _ _ _ _ _ _ Hr) as (g & _ & Hl).
  unfold opr_rbtree_prev, bind. rewrite Hl. cbn [nd_left]. destruct l as [|cl ll y rl]; cbn [root].
  - simpl. rewrite app_nil_r. by apply (climb_left_run fuel k c E x r).
  - simpl in Hf. destruct (rightmost_run fuel (FL c x r :: k) cl ll y rl) as (z & L' & -> & ->); [simpl; lia|refocus Hs|].
    by rewrite app_assoc, list.last_snoc.
Qed.

Lemma first_run fuel t : (height t <= fuel)%nat -> shape L s [] t -> opr_rbtree_first fuel s = Some (head L, s).
Proof.
  intros Hf Hs. pose proof Hs as [(Hk & _) HL]. simpl in Hk, HL. unfold opr_rbtree_first, bind, get_root, gets. rewrite Hk.
  destruct t as [|c l x r]; cbn [root]; [by subst|].
  destruct (leftmost_run fuel [] c l x r Hf Hs) as (y & L' & -> & He). by rewrite <- HL, He.
Qed.

Lemma last_run fuel t : (height t <= fuel)%nat -> shape L s [] t -> opr_rbtree_last fuel s = Some (list.last L, s).
Proof.
  intros Hf Hs. pose proof Hs as [(Hk & _) HL]. simpl in Hk, HL. unfold opr_rbtree_last, bind, get_root, gets. rewrite Hk.
  destruct t as [|c l x r]; cbn [root]; [by subst|].
  destruct (rightmost_run fuel [] c l x r Hf Hs) as (y & L' & -> & He). by rewrite <- HL, He, list.last_snoc.
Qed.

End Iterate.

(** Every node of a tree is somewhere. *)
Lemma elem_focus t x : x ∈ elems t -> exists k c l r, t = plug k (T c l x r).
Proof.
  induction t as [|c l IHl y r IHr]; simpl; [by intros ?%elem_of_nil|].
  intros [Hx|[->|Hx]%elem_of_cons]%elem_of_app.
  - destruct (IHl Hx) as (k & c' & l' & r' & ->). exists (k ++ [FL c y r]), c', l', r'. unfold plug. by rewrite foldl_app.
  - by exists [], c, l, r.
  - destruct (IHr Hx) as (k & c' & l' & r' & ->). exists (k ++ [FR c l y]), c', l', r'. unfold plug. by rewrite foldl_app.
Qed.

Lemma nodup_split {A} (L1 L2 M1 M2 : list A) x : NoDup (L1 ++ x :: L2) -> L1 ++ x :: L2 = M1 ++ x :: M2 -> L1 = M1 /\ L2 = M2.
Proof.
  revert M1. induction L1 as [|a L1 IH]; intros [|b M1] Hn He; cbn [app] in *.
  - by injection He as ->.
  - injection He as <- ->. apply list.NoDup_cons in Hn as [[] _]. apply elem_of_app. right. by left.
  - injection He as -> He. apply list.NoDup_cons in Hn as [[] _]. apply elem_of_app. right. by left.
  - injection He as -> He. apply list.NoDup_cons in Hn as [_ Hn]. by destruct (IH M1 Hn He) as [-> ->].
Qed.
