(* ===== verification/RbtreeRemove.v ===== *)
(** * Red-black trees: removal

    What balancing a tree after a removal is, that it keeps the colour rules, and
    that the routines of [Rbtree] do it in memory. *)
From S2P Require Import Prelude Rbtree RbtreeTree RbtreeLogic.

Open Scope Z_scope.
Open Scope dnfs_scope.

(** ** Balancing on trees *)

(** The hole left of [p], of colour [c], is one black node short; [o] is black.  The
    sibling gives a node if one of its children is red, the right one first;
    otherwise it is made red and the parent is the next to look at. *)
Definition borrow_l (k : context) (c : bool) (p : positive) (t o : tree) (up : tree -> tree) : tree :=
  match o with
  | E => E
  | T _ ol y or =>
      if redness or then paint false (plug k (T c (T false t p ol) y (paint false or)))
      else
        match ol with
        | T true a z b => paint false (plug k (T c (T false t p a) z (T false b y or)))
        | _ => up (T c t p (T true ol y or))
        end
  end.

Definition borrow_r (k : context) (c : bool) (p : positive) (t o : tree) (up : tree -> tree) : tree :=
  match o with
  | E => E
  | T _ ol y or =>
      if redness ol then paint false (plug k (T c (paint false ol) y (T false or p t)))
      else
        match or with
        | T true a z b => paint false (plug k (T c (T false ol y a) z (T false b p t)))
        | _ => up (T c (T true ol y or) p t)
        end
  end.

(** [remove_recolour] at the tree [t] in its context. *)
Fixpoint rem_fix (k : context) (t : tree) : tree :=
  if redness t then plug k (paint false t)
  else
    match k with
    | [] => t
    | FL c p (T true ol y or) :: k =>
        borrow_l (FL false y or :: k) true p t ol (fun t => plug (FL false y or :: k) (paint false t))
    | FL c p o :: k => borrow_l k c p t o (rem_fix k)
    | FR c (T true ol y or) p :: k =>
        borrow_r (FR false ol y :: k) true p t or (fun t => plug (FR false ol y :: k) (paint false t))
    | FR c o p :: k => borrow_r k c p t o (rem_fix k)
    end.

(** ** The colour rules *)

(** The black nodes on the paths from a node of colour [c] whose children have [h]. *)
Definition over (c : bool) (h : nat) : nat := if c then h else S h.

Lemma rb_fill_paint k b c h t : rb_context b (over c h) k -> (c = true -> b = true) -> rb c (over c h) t -> red_black (paint false (plug k t)).
Proof. intros Hk Hb Ht. destruct (rb_plug k b c (over c h) t Hk Ht Hb) as [h' Hh]. by eapply rb_paint. Qed.

Lemma borrow_l_rb k b c p t o h up :
  rb_context b (over c (S h)) k -> (c = true -> b = true) -> rb false h t -> rb false (S h) o ->
  (forall t', redness t' = c -> rb false (S h) (paint false t') -> red_black (up t')) ->
  red_black (borrow_l k c p t o up).
Proof.
  intros Hk Hb Ht Ho Hup. inversion Ho as [| |cl cr ? ol y or Hol Hor]; subst. cbn [borrow_l].
  rewrite (rb_redness _ _ _ Hor). destruct cr.
  - eapply rb_fill_paint; [done|done|]. inversion Hor; subst. destruct c; eauto using rb.
  - inversion Hol; subst; [| |].
    + apply Hup; [done|]. eauto using rb.
    + eapply rb_fill_paint; [done|done|]. destruct c; eauto using rb.
    + apply Hup; [done|]. eauto using rb.
Qed.

Lemma borrow_r_rb k b c p t o h up :
  rb_context b (over c (S h)) k -> (c = true -> b = true) -> rb false h t -> rb false (S h) o ->
  (forall t', redness t' = c -> rb false (S h) (paint false t') -> red_black (up t')) ->
  red_black (borrow_r k c p t o up).
Proof.
  intros Hk Hb Ht Ho Hup. inversion Ho as [| |cl cr ? ol y or Hol Hor]; subst. cbn [borrow_r].
  rewrite (rb_redness _ _ _ Hol). destruct cl.
  - eapply rb_fill_paint; [done|done|]. inversion Hol; subst. destruct c; eauto using rb.
  - inversion Hor; subst; [| |].
    + apply Hup; [done|]. eauto using rb.
    + eapply rb_fill_paint; [done|done|]. destruct c; eauto using rb.
    + apply Hup; [done|]. eauto using rb.
Qed.

(** One black node short in the hole of [k]: the result is a red-black tree. *)
Lemma rem_fix_red k t : redness t = true -> rem_fix k t = plug k (paint false t).
Proof. intros Ht. destruct k; cbn [rem_fix]; by rewrite Ht. Qed.

Lemma rem_fix_up k b c h t' :
  rb_context b (over c (S h)) k -> (c = true -> b = true) ->
  (forall b h c t, rb_context b (S h) k -> rb c h t -> red_black (rem_fix k t)) ->
  redness t' = c -> rb false (S h) (paint false t') -> red_black (rem_fix k t').
Proof.
  intros Hk Hb IH Hc Ht. destruct c.
  - rewrite rem_fix_red by done. by eapply rb_plug.
  - assert (paint false t' = t') as He by (destruct t' as [|[] ? ? ?]; done). rewrite He in Ht. by eapply IH.
Qed.

Lemma rem_fix_rb k b h c t : rb_context b (S h) k -> rb c h t -> red_black (rem_fix k t).
Proof.
  revert b h c t. induction k as [|f k IH]; intros b h c t Hk Ht; pose proof (rb_redness _ _ _ Ht) as Hc;
    (destruct c; [rewrite rem_fix_red by done; eapply rb_plug; [done|inversion Ht; subst; by econstructor|done]|]).
  { cbn [rem_fix]. rewrite Hc. by exists h. }
  inversion Hk as [|? p o ? Ho Hk'|? o p ? Ho Hk'|b' co ? p o ? Ho Hk'|b' co ? o p ? Ho Hk']; subst; clear Hk;
    cbn [rem_fix]; rewrite Hc.
  - inversion Ho; subst. eapply (borrow_l_rb k true true); [done..|]. intros t'. by apply (rem_fix_up k true true h).
  - inversion Ho; subst. eapply (borrow_r_rb k true true); [done..|]. intros t'. by apply (rem_fix_up k true true h).
  - inversion Ho; subst.
    + eapply (borrow_l_rb _ true true); [by econstructor|done..|]. intros t' _ Ht'. eapply rb_plug; [by econstructor|done|done].
    + eapply (borrow_l_rb k b' false); [done..|]. intros t'. by apply (rem_fix_up k b' false h).
  - inversion Ho; subst.
    + eapply (borrow_r_rb _ true true); [by econstructor|done..|]. intros t' _ Ht'. eapply rb_plug; [by econstructor|done|done].
    + eapply (borrow_r_rb k b' false); [done..|]. intros t'. by apply (rem_fix_up k b' false h).
Qed.

(** ** The loop *)

(** The loop from the test of the children of [other] on, at a left and a right child. *)
Definition borrow_left (fuel : nat) (parent other : positive) : ST rbs (option positive) :=
  o <- load other ;;
  lred <- is_red (nd_left o) ;;
  rred <- is_red (nd_right o) ;;
  if negb lred && negb rred then
    set_red other true ;;
    p <- load parent ;;
    remove_loop fuel (nd_parent p) (Some parent)
  else
    other <- (if negb rred then
                ol <- deref (nd_left o) ;;
                set_red ol false ;; set_red other true ;; rotateright other ;;
                p <- load parent ;; deref (nd_right p)
              else ret other) ;;
    p <- load parent ;;
    set_red other (nd_red p) ;;
    set_red parent false ;;
    o <- load other ;;
    or <- deref (nd_right o) ;;
    set_red or false ;;
    rotateleft parent ;;
    get_root.

Definition borrow_right (fuel : nat) (parent other : positive) : ST rbs (option positive) :=
  o <- load other ;;
  lred <- is_red (nd_left o) ;;
  rred <- is_red (nd_right o) ;;
  if negb lred && negb rred then
    set_red other true ;;
    p <- load parent ;;
    remove_loop fuel (nd_parent p) (Some parent)
  else
    other <- (if negb lred then
                or <- deref (nd_right o) ;;
                set_red or false ;; set_red other true ;; rotateleft other ;;
                p <- load parent ;; deref (nd_left p)
              else ret other) ;;
    p <- load parent ;;
    set_red other (nd_red p) ;;
    set_red parent false ;;
    o <- load other ;;
    ol <- deref (nd_left o) ;;
    set_red ol false ;;
    rotateright parent ;;
    get_root.

Section Loop.
  Variable L : list positive.

(** The loop leaves a node that, made black, completes [goal]. *)
Definition leaves (goal : tree) (q : option positive) (s : rbs) : Prop :=
  exists k t, q = root t /\ shape L s k t /\ plug k (paint false t) = goal.

Lemma wp_root s k t (goal : tree) : shape L s k t -> paint false (plug k t) = goal -> wp L get_root s (leaves goal).
Proof.
  intros Hs Hg. apply shape_plug in Hs. eapply wp_get_root; [done|exact Hs|]. by exists [], (plug k t).
Qed.

Lemma borrow_left_wp fuel s k c p t o up :
  o <> E -> shape L s (FL c p o :: k) t ->
  (forall s' co ol y or, o = T co ol y or -> redness ol = false -> redness or = false ->
     shape L s' k (T c t p (T true ol y or)) ->
     wp L (remove_loop fuel (above k) (Some p)) s' (leaves (up (T c t p (T true ol y or))))) ->
  wp L (borrow_left fuel p (default p (root o))) s (leaves (borrow_l k c p t o up)).
Proof.
  intros Ho Hs Hup. destruct o as [|co ol y or]; [done|]. cbn [root default borrow_l]. unfold borrow_left.
  apply wp_bind, (wp_load L s (FR c t p :: k) co ol y or); [refocus Hs|]. intros g1 _. cbn [nd_left nd_right id].
  apply wp_bind, (wp_is_red L s (FL co y or :: FR c t p :: k) ol); [refocus Hs|].
  apply wp_bind, (wp_is_red L s (FR co ol y :: FR c t p :: k) or); [refocus Hs|].
  destruct (redness or) eqn:Hor; [|destruct ol as [|[] a z b]]; cbn [redness negb andb].
  - rewrite andb_false_r. destruct or as [|? oa oy ob]; [done|]. simpl in Hor. subst. apply wp_bind, wp_ret.
    apply wp_bind, (wp_load L s k c t p (T co ol y (T true oa oy ob))); [refocus Hs|]. intros g2 _. cbn [nd_red].
    apply wp_bind, (wp_set_red L s (FR c t p :: k) co c ol y (T true oa oy ob)); [refocus Hs|]. intros s1 H1.
    apply wp_bind, (wp_set_red L s1 k c false t p (T c ol y (T true oa oy ob))); [refocus H1|]. intros s2 H2.
    apply wp_bind, (wp_load L s2 (FR false t p :: k) c ol y (T true oa oy ob)); [refocus H2|]. intros g3 _. cbn [nd_right root].
    apply wp_deref.
    apply wp_bind, (wp_set_red L s2 (FR c ol y :: FR false t p :: k) true false oa oy ob); [refocus H2|]. intros s3 H3.
    apply wp_bind, (wp_rotateleft L s3 k false c (T false oa oy ob) y ol p t); [refocus H3|]. intros s4 H4.
    by eapply wp_root.
  - apply wp_bind, (wp_set_red L s (FR c t p :: k) co true E y or); [refocus Hs|]. intros s1 H1.
    apply wp_bind, (wp_load L s1 k c t p (T true E y or)); [refocus H1|]. intros g2 _. cbn [nd_parent].
    by eapply Hup; [done..|refocus H1].
  - apply wp_bind, wp_deref.
    apply wp_bind, (wp_set_red L s (FL co y or :: FR c t p :: k) true false a z b); [refocus Hs|]. intros s1 H1.
    apply wp_bind, (wp_set_red L s1 (FR c t p :: k) co true (T false a z b) y or); [refocus H1|]. intros s2 H2.
    apply wp_bind, (wp_rotateright L s2 (FR c t p :: k) true false a z b y or); [refocus H2|]. intros s3 H3.
    apply wp_bind, (wp_load L s3 k c t p (T false a z (T true b y or))); [refocus H3|]. intros g2 _. cbn [nd_right root].
    apply wp_ret.
    apply wp_bind, (wp_load L s3 k c t p (T false a z (T true b y or))); [refocus H3|]. intros g3 _. cbn [nd_red].
    apply wp_bind, (wp_set_red L s3 (FR c t p :: k) false c a z (T true b y or)); [refocus H3|]. intros s4 H4.
    apply wp_bind, (wp_set_red L s4 k c false t p (T c a z (T true b y or))); [refocus H4|]. intros s5 H5.
    apply wp_bind, (wp_load L s5 (FR false t p :: k) c a z (T true b y or)); [refocus H5|]. intros g4 _. cbn [nd_right root].
    apply wp_deref.
    apply wp_bind, (wp_set_red L s5 (FR c a z :: FR false t p :: k) true false b y or); [refocus H5|]. intros s6 H6.
    apply wp_bind, (wp_rotateleft L s6 k false c (T false b y or) z a p t); [refocus H6|]. intros s7 H7.
    by eapply wp_root.
  - apply wp_bind, (wp_set_red L s (FR c t p :: k) co true (T false a z b) y or); [refocus Hs|]. intros s1 H1.
    apply wp_bind, (wp_load L s1 k c t p (T true (T false a z b) y or)); [refocus H1|]. intros g2 _. cbn [nd_parent].
    by eapply Hup; [done..|refocus H1].
Qed.

Lemma borrow_right_wp fuel s k c p t o up :
  o <> E -> shape L s (FR c o p :: k) t ->
  (forall s' co ol y or, o = T co ol y or -> redness ol = false -> redness or = false ->
     shape L s' k (T c (T true ol y or) p t) ->
     wp L (remove_loop fuel (above k) (Some p)) s' (leaves (up (T c (T true ol y or) p t)))) ->
  wp L (borrow_right fuel p (default p (root o))) s (leaves (borrow_r k c p t o up)).
Proof.
  intros Ho Hs Hup. destruct o as [|co ol y or]; [done|]. cbn [root default borrow_r]. unfold borrow_right.
  apply wp_bind, (wp_load L s (FL c p t :: k) co ol y or); [refocus Hs|]. intros g1 _. cbn [nd_left nd_right id].
  apply wp_bind, (wp_is_red L s (FL co y or :: FL c p t :: k) ol); [refocus Hs|].
  apply wp_bind, (wp_is_red L s (FR co ol y :: FL c p t :: k) or); [refocus Hs|].
  destruct (redness ol) eqn:Hol; [|destruct or as [|[] a z b]]; cbn [redness negb andb].
  - destruct ol as [|? oa oy ob]; [done|]. simpl in Hol. subst. apply wp_bind, wp_ret.
    apply wp_bind, (wp_load L s k c (T co (T true oa oy ob) y or) p t); [refocus Hs|]. intros g2 _. cbn [nd_red].
    apply wp_bind, (wp_set_red L s (FL c p t :: k) co c (T true oa oy ob) y or); [refocus Hs|]. intros s1 H1.
    apply wp_bind, (wp_set_red L s1 k c false (T c (T true oa oy ob) y or) p t); [refocus H1|]. intros s2 H2.
    apply wp_bind, (wp_load L s2 (FL false p t :: k) c (T true oa oy ob) y or); [refocus H2|]. intros g3 _. cbn [nd_left root].
    apply wp_deref.
    apply wp_bind, (wp_set_red L s2 (FL c y or :: FL false p t :: k) true false oa oy ob); [refocus H2|]. intros s3 H3.
    apply wp_bind, (wp_rotateright L s3 k false c (T false oa oy ob) y or p t); [refocus H3|]. intros s4 H4.
    by eapply wp_root.
  - apply wp_bind, (wp_set_red L s (FL c p t :: k) co true ol y E); [refocus Hs|]. intros s1 H1.
    apply wp_bind, (wp_load L s1 k c (T true ol y E) p t); [refocus H1|]. intros g2 _. cbn [nd_parent].
    by eapply Hup; [done..|refocus H1].
  - apply wp_bind, wp_deref.
    apply wp_bind, (wp_set_red L s (FR co ol y :: FL c p t :: k) true false a z b); [refocus Hs|]. intros s1 H1.
    apply wp_bind, (wp_set_red L s1 (FL c p t :: k) co true ol y (T false a z b)); [refocus H1|]. intros s2 H2.
    apply wp_bind, (wp_rotateleft L s2 (FL c p t :: k) true false b z a y ol); [refocus H2|]. intros s3 H3.
    apply wp_bind, (wp_load L s3 k c (T false (T true ol y a) z b) p t); [refocus H3|]. intros g2 _. cbn [nd_left root].
    apply wp_ret.
    apply wp_bind, (wp_load L s3 k c (T false (T true ol y a) z b) p t); [refocus H3|]. intros g3 _. cbn [nd_red].
    apply wp_bind, (wp_set_red L s3 (FL c p t :: k) false c (T true ol y a) z b); [refocus H3|]. intros s4 H4.
    apply wp_bind, (wp_set_red L s4 k c false (T c (T true ol y a) z b) p t); [refocus H4|]. intros s5 H5.
    apply wp_bind, (wp_load L s5 (FL false p t :: k) c (T true ol y a) z b); [refocus H5|]. intros g4 _. cbn [nd_left root].
    apply wp_deref.
    apply wp_bind, (wp_set_red L s5 (FL c z b :: FL false p t :: k) true false ol y a); [refocus H5|]. intros s6 H6.
    apply wp_bind, (wp_rotateright L s6 k false c (T false ol y a) z b p t); [refocus H6|]. intros s7 H7.
    by eapply wp_root.
  - apply wp_bind, (wp_set_red L s (FL c p t :: k) co true ol y (T false a z b)); [refocus Hs|]. intros s1 H1.
    apply wp_bind, (wp_load L s1 k c (T true ol y (T false a z b)) p t); [refocus H1|]. intros g2 _. cbn [nd_parent].
    by eapply Hup; [done..|refocus H1].
Qed.

(** The tests at the head of the loop. *)
Lemma plug_root f k t : exists z, root (plug (f :: k) t) = Some z /\ z ∈ context_elems (f :: k).
Proof.
  revert f t. induction k as [|f' k IH]; intros f t.
  - exists (frame_node f). split; [by destruct f|]. destruct f; by left.
  - destruct (IH f' (fill f t)) as (z & Hz & Hin). exists z. split; [done|]. simpl. apply elem_of_app. by right.
Qed.

Lemma wp_get_root_plug s k t (Q : option positive -> rbs -> Prop) :
  shape L s k t -> Q (root (plug k t)) s -> wp L get_root s Q.
Proof. intros Hs%shape_plug. by apply (wp_get_root L s [] (plug k t)). Qed.

Lemma remove_loop_stop fuel s k t :
  redness t = true \/ k = [] -> shape L s k t -> wp L (remove_loop (S fuel) (above k) (root t)) s (leaves (plug k (paint false t))).
Proof.
  intros Ht Hs. cbn [remove_loop]. apply wp_bind, (wp_is_red L s k t); [done|].
  apply wp_bind, (wp_get_root_plug s k t); [done|].
  assert (redness t || bool_decide (root t = root (plug k t)) = true) as ->.
  { destruct Ht as [->| ->]; [done|]. simpl. rewrite bool_decide_true by done. apply orb_true_r. }
  apply wp_ret. by exists k, t.
Qed.

Lemma not_root s f k t : shape L s (f :: k) t -> root t <> root (plug (f :: k) t).
Proof.
  intros [(_ & _ & Ha) _]. destruct (plug_root f k t) as (z & -> & Hz). destruct t as [|c l x r]; [done|]. intros [= ->].
  unfold apart in Ha. apply list.NoDup_app in Ha as (_ & Hd & _). apply (Hd z); [|done]. simpl. apply elem_of_app. right. by left.
Qed.

(** Balancing is complete from the context [k] on. *)
Definition removes (fuel : nat) (k : context) : Prop :=
  forall s b h c t, rb_context b (S h) k -> rb c h t -> shape L s k t ->
    wp L (remove_loop fuel (above k) (root t)) s (leaves (rem_fix k t)).

Lemma remove_loop_left fuel s k b h c p t o :
  (0 < fuel)%nat -> removes fuel k -> rb_context b (S h) (FL c p o :: k) -> rb false h t -> shape L s (FL c p o :: k) t ->
  wp L (remove_loop (S fuel) (Some p) (root t)) s (leaves (rem_fix (FL c p o :: k) t)).
Proof.
  intros Hfuel IH Hk Ht Hs. pose proof (rb_redness _ _ _ Ht) as Hc. cbn [remove_loop rem_fix]. rewrite Hc.
  apply wp_bind, (wp_is_red L s (FL c p o :: k) t); [done|]. rewrite Hc.
  apply wp_bind, (wp_get_root_plug s (FL c p o :: k) t); [done|]. rewrite bool_decide_false by (by eapply not_root). cbn [orb].
  apply wp_deref. apply wp_bind, (wp_load L s k c t p o); [refocus Hs|]. intros g1 _. cbn [nd_left nd_right].
  rewrite decide_True by done.
  assert (exists b' co, rb co (S h) o /\ rb_context b' (over c (S h)) k /\ (c = true -> co = false)) as (b' & co & Ho & Hk' & Hco).
  { inversion Hk; subst; by eexists _, _. }
  inversion Ho as [|? ol y or Hol Hor|c1 c2 ? ol y or Hol Hor]; subst; cbn [root]; apply wp_deref.
  - apply wp_bind, (wp_load L s (FR c t p :: k) true ol y or); [refocus Hs|]. intros g2 _. cbn [nd_red].
    apply wp_bind, wp_bind, (wp_set_red L s (FR c t p :: k) true false ol y or); [refocus Hs|]. intros s1 H1.
    apply wp_bind, (wp_set_red L s1 k c true t p (T false ol y or)); [refocus H1|]. intros s2 H2.
    apply wp_bind, (wp_rotateleft L s2 k true false or y ol p t); [refocus H2|]. intros s3 H3.
    apply wp_bind, (wp_load L s3 (FL false y or :: k) true t p ol); [refocus H3|]. intros g3 _. cbn [nd_right].
    inversion Hol as [| |d1 d2 ? a z e Ha He]; subst. apply wp_ret.
    apply (borrow_left_wp fuel s3 (FL false y or :: k) true p t (T false a z e)); [done|refocus H3|].
    intros s4 co1 ol1 y1 or1 _ _ _ H4. destruct fuel as [|fuel]; [lia|].
    apply (remove_loop_stop fuel s4 (FL false y or :: k) (T true t p (T true ol1 y1 or1))); [by left|done].
  - apply wp_bind, (wp_load L s (FR c t p :: k) false ol y or); [refocus Hs|]. intros g2 _. cbn [nd_red].
    apply wp_bind, wp_ret.
    apply (borrow_left_wp fuel s k c p t (T false ol y or)); [done|done|].
    intros s4 co' ol' y' or' [= <- <- <- <-] Hol' Hor' H4.
    rewrite (rb_redness _ _ _ Hol) in Hol'. rewrite (rb_redness _ _ _ Hor) in Hor'. subst.
    destruct c.
    + rewrite rem_fix_red by done. destruct fuel as [|fuel]; [lia|]. apply (remove_loop_stop fuel s4 k (T true t p (T true ol y or))); [by left|done].
    + eapply (IH s4 b' (S h) false (T false t p (T true ol y or))); [done|eauto using rb|done].
Qed.

Lemma remove_loop_right fuel s k b h c p t o :
  (0 < fuel)%nat -> removes fuel k -> rb_context b (S h) (FR c o p :: k) -> rb false h t -> shape L s (FR c o p :: k) t ->
  wp L (remove_loop (S fuel) (Some p) (root t)) s (leaves (rem_fix (FR c o p :: k) t)).
Proof.
  intros Hfuel IH Hk Ht Hs. pose proof (rb_redness _ _ _ Ht) as Hc. cbn [remove_loop rem_fix]. rewrite Hc.
  apply wp_bind, (wp_is_red L s (FR c o p :: k) t); [done|]. rewrite Hc.
  apply wp_bind, (wp_get_root_plug s (FR c o p :: k) t); [done|]. rewrite bool_decide_false by (by eapply not_root). cbn [orb].
  apply wp_deref. apply wp_bind, (wp_load L s k c o p t); [refocus Hs|]. intros g1 _. cbn [nd_left nd_right].
  assert (exists b' co, rb co (S h) o /\ rb_context b' (over c (S h)) k /\ (c = true -> co = false)) as (b' & co & Ho & Hk' & Hco).
  { inversion Hk; subst; by eexists _, _. }
  rewrite decide_False.
  2: { intros Heq. destruct o as [|co' ol' y' or']; [by inversion Ho|].
       eapply (shape_children L s k c (T co' ol' y' or') p t y'); [refocus Hs|done|done]. }
  inversion Ho as [|? ol y or Hol Hor|c1 c2 ? ol y or Hol Hor]; subst; cbn [root]; apply wp_deref.
  - apply wp_bind, (wp_load L s (FL c p t :: k) true ol y or); [refocus Hs|]. intros g2 _. cbn [nd_red].
    apply wp_bind, wp_bind, (wp_set_red L s (FL c p t :: k) true false ol y or); [refocus Hs|]. intros s1 H1.
    apply wp_bind, (wp_set_red L s1 k c true (T false ol y or) p t); [refocus H1|]. intros s2 H2.
    apply wp_bind, (wp_rotateright L s2 k true false ol y or p t); [refocus H2|]. intros s3 H3.
    apply wp_bind, (wp_load L s3 (FR false ol y :: k) true or p t); [refocus H3|]. intros g3 _. cbn [nd_left].
    inversion Hor as [| |d1 d2 ? a z e Ha He]; subst. apply wp_ret.
    apply (borrow_right_wp fuel s3 (FR false ol y :: k) true p t (T false a z e)); [done|refocus H3|].
    intros s4 co1 ol1 y1 or1 _ _ _ H4. destruct fuel as [|fuel]; [lia|].
    apply (remove_loop_stop fuel s4 (FR false ol y :: k) (T true (T true ol1 y1 or1) p t)); [by left|done].
  - apply wp_bind, (wp_load L s (FL c p t :: k) false ol y or); [refocus Hs|]. intros g2 _. cbn [nd_red].
    apply wp_bind, wp_ret.
    apply (borrow_right_wp fuel s k c p t (T false ol y or)); [done|done|].
    intros s4 co' ol' y' or' [= <- <- <- <-] Hol' Hor' H4.
    rewrite (rb_redness _ _ _ Hol) in Hol'. rewrite (rb_redness _ _ _ Hor) in Hor'. subst.
    destruct c.
    + rewrite rem_fix_red by done. destruct fuel as [|fuel]; [lia|].
      apply (remove_loop_stop fuel s4 k (T true (T true ol y or) p t)); [by left|done].
    + eapply (IH s4 b' (S h) false (T false (T true ol y or) p t)); [done|eauto using rb|done].
Qed.

Lemma remove_loop_wp fuel k : (length k + 1 < fuel)%nat -> removes fuel k.
Proof.
  revert fuel. induction k as [|f k IH]; intros [|fuel] Hf s b h c t Hk Ht Hs; simpl in Hf; try lia.
  - assert (rem_fix [] t = plug [] (paint false t)) as -> by (cbn; by destruct t as [|[] ? ? ?]).
    apply (remove_loop_stop fuel s [] t); [by right|done].
  - destruct c.
    + rewrite rem_fix_red by (by eapply rb_redness). apply remove_loop_stop; [left; by eapply rb_redness|done].
    + assert (removes fuel k) as Hr by (apply IH; lia).
      destruct f as [c p o|c o p]; [eapply remove_loop_left|eapply remove_loop_right]; done || lia.
Qed.

Lemma remove_recolour_wp fuel s k b h c t :
  (length k + 1 < fuel)%nat -> rb_context b (S h) k -> rb c h t -> shape L s k t ->
  wp L (remove_recolour fuel (above k) (root t)) s (fun _ s' => shape L s' [] (rem_fix k t)).
Proof.
  intros Hf Hk Ht Hs. unfold remove_recolour. apply wp_bind. eapply wp_mono; [by eapply remove_loop_wp|].
  intros q s1 (k' & t' & -> & H1 & <-). destruct t' as [|c' l x r]; cbn [root paint].
  - apply wp_ret. by apply shape_plug in H1.
  - apply (wp_set_red L s1 k' c' false l x r); [done|]. intros s2 H2. by apply shape_plug in H2.
Qed.

End Loop.
