(* ===== verification/RbtreeUnlink.v ===== *)
(** * Red-black trees: taking a node out

    [opr_rbtree_remove]: a node with at most one child is replaced by it, a node with
    two children by the next node; the tree is balanced at the place that lost a
    node. *)
From S2P Require Import Prelude Rbtree RbtreeTree RbtreeLogic RbtreeRemove.

Open Scope Z_scope.
Open Scope dnfs_scope.

(** The same counters, and the same memory outside of [L]: what a routine may change. *)
Lemma only_head L s s' : rb_head s' = rb_head s -> (forall x, x ∉ L -> rb_mem s' !! x = rb_mem s !! x) -> only L s s'.
Proof. intros He Hm. split_and!; [by rewrite He|by rewrite He|done]. Qed.

(** ** At most one child *)

(** The child [t] takes the place of [x]. *)
Lemma unlink_spec s k x n t :
  rb_mem s !! x = Some n -> nd_parent n = above k -> context_at (rb_mem s) k (Some x) (rb_root (rb_head s)) ->
  tree_at (rb_mem s) (Some x) t -> NoDup (x :: elems t ++ context_elems k) ->
  exists s', (set_parent_opt (root t) (above k) ;; update_parent_ptr x (root t)) s = Some (tt, s') /\ rep s' k t /\
    rb_mem s' !! x = Some n /\ only (elems t ++ context_elems k) s s'.
Proof.
  intros Mx Hn Hk Ht Hnd. split_nodup. unfold bind.
  destruct (set_parent_opt_tree s (Some x) (above k) t Ht) as (s1 & -> & Hh1 & Ht1 & Hm1); [done|].
  assert (rb_mem s1 !! x = Some n) as Mx1 by (by rewrite Hm1).
  destruct (update_parent_context s1 k x n (root t) Mx1 Hn) as (s2 & -> & Hk2 & Hsz2 & Hgen2 & Hm2); [done|done| |].
  { rewrite Hh1. eapply context_at_agree; [|exact Hk]. intros z Hz. apply Hm1. apart_solve. }
  exists s2. split; [done|]. unfold rep, only. split_and!.
  - done.
  - eapply tree_at_agree; [|exact Ht1]. intros z Hz. apply Hm2. apart_solve.
  - by apply list.NoDup_app.
  - by rewrite Hm2.
  - by rewrite Hsz2, Hh1.
  - by rewrite Hgen2, Hh1.
  - intros z Hz. rewrite Hm2 by apart_solve. apply Hm1. apart_solve.
Qed.

(** ** Part of a tree *)

(** Frames up to a node with the parent [q]. *)
Definition above_or (k : context) (q : option positive) : option positive :=
  match k with [] => q | f :: _ => Some (frame_node f) end.

Fixpoint frames_at (m : memory) (k : context) (hole q : option positive) : Prop :=
  match k with
  | [] => True
  | FL c x r :: k => node_at m x hole (root r) (above_or k q) c /\ tree_at m (Some x) r /\ frames_at m k (Some x) q
  | FR c l x :: k => node_at m x (root l) hole (above_or k q) c /\ tree_at m (Some x) l /\ frames_at m k (Some x) q
  end.

Lemma tree_at_plug m q k t : tree_at m q (plug k t) <-> frames_at m k (root t) q /\ tree_at m (above_or k q) t.
Proof.
  revert t. induction k as [|[c x r|c l x] k IH]; intros t; simpl; [tauto|..]; rewrite IH; simpl; tauto.
Qed.

Lemma frames_at_agree m m' k hole q : agree (context_elems k) m m' -> frames_at m k hole q -> frames_at m' k hole q.
Proof.
  revert hole. induction k as [|[c y r|c l y] k IH]; intros hole He Hk; [done|..]; simpl in *;
    destruct Hk as (Hy & Ht & Hk);
    (split_and!; [eapply node_at_agree; [apply He; by left|done]|eapply tree_at_agree; [|done]|apply IH; [|done]]);
    intros z ?; apply He; rewrite ?elem_of_cons, ?elem_of_app, ?elem_of_cons; tauto.
Qed.

(** The node at the left end of a tree: all its frames are left ones. *)
Definition left_frame (f : frame) : Prop := match f with FL _ _ _ => True | FR _ _ _ => False end.

Lemma leftmost_focus s fuel q c l x r :
  (height (T c l x r) <= fuel)%nat -> tree_at (rb_mem s) q (T c l x r) ->
  exists kr cy y ry, leftmost fuel x s = Some (y, s) /\ T c l x r = plug kr (T cy E y ry) /\ Forall left_frame kr.
Proof.
  revert fuel q c x r. induction l as [|cl ll IH y rl _]; intros [|fuel] q c x r Hf (Hx & Hl & Hr); simpl in Hf; try lia;
    destruct (load_node _ _ _ _ _ _ Hx) as (g & _ & Hld); cbn [leftmost]; unfold bind; rewrite Hld; cbn [nd_left root].
  - by exists [], c, x, r.
  - destruct (IH fuel (Some x) cl y rl) as (kr & cy & z & ry & -> & He & Hkr); [simpl; lia|done|].
    exists (kr ++ [FL c x r]), cy, z, ry. split_and!; [done| |].
    + unfold plug. rewrite foldl_app. cbn [foldl fill]. f_equal. exact He.
    + apply list.Forall_app. split; [done|]. by constructor.
Qed.

(** ** Two children *)

Lemma plug_root_some k t : k <> [] -> exists z, root (plug k t) = Some z /\ forall t', root (plug k t') = Some z.
Proof.
  revert t. induction k as [|f k IH]; intros t Hk; [done|]. destruct k as [|f' k].
  - exists (frame_node f). destruct f; by split.
  - destruct (IH (fill f t)) as (z & Hz & Hz'); [done|]. exists z. split; [done|]. intros t'. apply (Hz' (fill f t')).
Qed.

Lemma elems_plug_perm k t : elems (plug k t) ≡ₚ context_elems k ++ elems t.
Proof. by rewrite plug_perm, Permutation_app_comm. Qed.

(** The next node [y] leaves the right subtree, which is not it alone, and takes the subtree
    as its right one. *)
Lemma detach_spec s x n y g cp p rp kr ry c :
  rb_mem s !! x = Some n -> nd_right n = root (plug (FL cp p rp :: kr) ry) ->
  rb_mem s !! y = Some (mk_node None (root ry) (Some p) c g) ->
  frames_at (rb_mem s) (FL cp p rp :: kr) (Some y) (Some x) -> tree_at (rb_mem s) (Some y) ry ->
  NoDup (x :: y :: elems ry ++ context_elems (FL cp p rp :: kr)) ->
  exists s', (set_parent_opt (root ry) (Some p) ;;
              par <- deref (Some p) ;;
              set_left par (root ry) ;;
              o <- load x ;;
              set_right y (nd_right o) ;;
              right <- deref (nd_right o) ;;
              set_parent right (Some y) ;;
              ret (Some p)) s = Some (Some p, s') /\
    rb_head s' = rb_head s /\
    rb_mem s' !! y = Some (mk_node None (root (plug (FL cp p rp :: kr) ry)) (Some p) c g) /\
    tree_at (rb_mem s') (Some y) (plug (FL cp p rp :: kr) ry) /\
    forall z, z <> y -> z ∉ elems ry ++ context_elems (FL cp p rp :: kr) -> rb_mem s' !! z = rb_mem s !! z.
Proof.
  intros Mx Hn My Hfr Hry Hnd. set (K := FL cp p rp :: kr) in *.
  assert (K <> []) as HK by done. destruct (plug_root_some K ry HK) as (z & Hz & _). rewrite Hz in Hn |- *.
  assert (NoDup (elems (plug K ry))) as HndK by (rewrite plug_perm; by apply list.NoDup_cons in Hnd as [_ [_ ?]%list.NoDup_cons]).
  subst K. simpl in Hnd. split_nodup. destruct Hfr as ((gp & Hgp & Mp) & Hrp & Hkr). unfold bind.
  destruct (set_parent_opt_tree s (Some y) (Some p) ry Hry) as (s3 & -> & Hh3 & Hry3 & Hm3); [done|]. cbn [deref ret].
  assert (p ∉ elems ry) as Hpry by (intros Hin; apply (Hdisj p Hin); by left).
  rewrite <- Hm3 in Mp by done. unfold set_left. rewrite (store_eq s3 p _ _ Mp). set (s4 := mk_rbs _ _).
  assert (rb_mem s4 !! x = Some n) as Mx4 by (simpl; lookups; by rewrite Hm3).
  assert (rb_mem s4 !! y = Some (mk_node None (root ry) (Some p) c g)) as My4 by (simpl; lookups; by rewrite Hm3).
  rewrite (load_eq s4 x n Mx4), Hn. unfold set_right. rewrite (store_eq s4 y _ _ My4).
  cbn [deref ret]. set (s5 := mk_rbs _ _).
  assert (Hout5 : forall v, v <> y -> v <> p -> v ∉ elems ry -> rb_mem s5 !! v = rb_mem s !! v).
  { intros v ? ? ?. simpl. lookups. by apply Hm3. }
  assert (tree_at (rb_mem s5) (Some x) (plug (FL cp p rp :: kr) ry)) as Ht5.
  { apply tree_at_plug. split; [split_and!|].
    - exists gp. split; [done|]. simpl. by lookups.
    - eapply tree_at_agree; [|exact Hrp]. intros v Hv. apply Hout5; apart_solve.
    - eapply frames_at_agree; [|exact Hkr]. intros v Hv. apply Hout5; apart_solve.
    - eapply tree_at_agree; [|exact Hry3]. intros v Hv. simpl. rewrite !lookup_insert_ne by apart_solve. done. }
  destruct (set_parent_opt_tree s5 (Some x) (Some y) _ Ht5) as (s6 & Hs6 & Hh6 & Ht6 & Hm6); [done|].
  rewrite Hz in Hs6. cbn [set_parent_opt] in Hs6. rewrite Hs6. eexists. split; [reflexivity|].
  assert (forall v, v ∉ elems ry ++ context_elems (FL cp p rp :: kr) -> rb_mem s6 !! v = rb_mem s5 !! v) as Hm6'.
  { intros v Hv. apply Hm6. by rewrite plug_perm. }
  split_and!; [by rewrite Hh6; simpl; rewrite Hh3| |done|].
  - rewrite Hm6'; [simpl; by lookups|]. simpl. apart_solve.
  - intros v Hvy Hv. rewrite Hm6' by done. simpl in Hv. apply Hout5; apart_solve.
Qed.

(** [y], out of the tree but for the link above, takes the place of [x]. *)
Lemma take_place_spec {A} s k x n y lf p g c l r (K : ST rbs A) :
  rb_mem s !! x = Some n -> nd_parent n = above k -> nd_left n = root l -> l <> E ->
  rb_mem s !! y = Some (mk_node lf (root r) p c g) -> g <> 0 ->
  context_at (rb_mem s) k (Some y) (rb_root (rb_head s)) -> tree_at (rb_mem s) (Some x) l -> tree_at (rb_mem s) (Some y) r ->
  NoDup (x :: y :: elems l ++ elems r ++ context_elems k) ->
  exists s', (o <- load x ;; set_parent y (nd_parent o) ;; set_left y (nd_left o) ;;
              left <- deref (nd_left o) ;; set_parent left (Some y) ;; K) s = K s' /\
    rep s' k (T c l y r) /\ only (y :: elems l) s s'.
Proof.
  intros Mx Hp Hl HlE My Hg Hk Htl Htr Hnd. split_nodup. unfold bind. rewrite (load_eq s x n Mx), Hp, Hl.
  destruct l as [|cl ll z rl]; [done|]. cbn [root deref ret]. unfold set_parent at 1. rewrite (store_eq s y _ _ My).
  unfold set_left. erewrite store_eq by apply lookup_insert_eq. set (s1 := mk_rbs _ _).
  assert (Hout1 : forall v, v <> y -> rb_mem s1 !! v = rb_mem s !! v) by (intros v ?; simpl; by lookups).
  destruct (set_parent_opt_tree s1 (Some x) (Some y) (T cl ll z rl)) as (s2 & Hs2 & Hh2 & Ht2 & Hm2); [|done|].
  { eapply tree_at_agree; [|exact Htl]. intros v Hv. apply Hout1. apart_solve. }
  cbn [root set_parent_opt] in Hs2. rewrite Hs2. exists s2. split; [done|]. unfold rep, only. split_and!.
  - rewrite Hh2. simpl. eapply context_at_agree; [|exact Hk]. intros v Hv. rewrite Hm2 by apart_solve. apply Hout1. apart_solve.
  - refine (conj _ (conj Ht2 _)).
    + exists g. split; [done|]. rewrite Hm2 by done. simpl. by lookups.
    + eapply tree_at_agree; [|exact Htr]. intros v Hv. rewrite Hm2 by apart_solve. apply Hout1. apart_solve.
  - unfold apart. eapply (NoDup_Permutation_proper _ (y :: elems (T cl ll z rl) ++ elems r ++ context_elems k)).
    + cbn [elems]. solve_Permutation.
    + constructor; [by rewrite !elem_of_app; intros [?|[?|?]]; apart_solve|]. rewrite !list.NoDup_app. split_and!; try done.
  - by rewrite Hh2.
  - by rewrite Hh2.
  - intros v Hv. apply not_elem_of_cons in Hv as [? ?]. rewrite Hm2 by done. by apply Hout1.
Qed.

(** [remove_inner] from the change of the links on. *)
Definition move_up (fuel : nat) (old node : positive) (child parent : option positive) (red : bool) : ST rbs unit :=
  parent <- (if decide (parent = Some old) then ret (Some node)
             else
               set_parent_opt child parent ;;
               par <- deref parent ;;
               set_left par child ;;
               o <- load old ;;
               set_right node (nd_right o) ;;
               right <- deref (nd_right o) ;;
               set_parent right (Some node) ;;
               ret parent) ;;
  o <- load old ;;
  set_parent node (nd_parent o) ;;
  set_left node (nd_left o) ;;
  left <- deref (nd_left o) ;;
  set_parent left (Some node) ;;
  if negb red then remove_recolour fuel parent child else ret tt.

(** [y] has the colour of [x] and hangs where [x] did; it is still at the left end of the
    right subtree. *)
Lemma move_up_run fuel s k x g c l r kr cy y gy ry :
  rb_mem s !! x = Some (mk_node (root l) (root r) (above k) c g) -> l <> E -> r = plug kr (T cy E y ry) -> Forall left_frame kr ->
  rb_mem s !! y = Some (mk_node None (root ry) (above_or kr (Some x)) c gy) -> gy <> 0 ->
  context_at (rb_mem s) k (Some y) (rb_root (rb_head s)) -> tree_at (rb_mem s) (Some x) l -> tree_at (rb_mem s) (Some y) ry ->
  frames_at (rb_mem s) kr (Some y) (Some x) ->
  NoDup (x :: y :: elems l ++ elems ry ++ context_elems kr ++ context_elems k) ->
  exists s', move_up fuel x y (root ry) (above_or kr (Some x)) cy s =
      (if negb cy then remove_recolour fuel (above (kr ++ FR c l y :: k)) (root ry) else ret tt) s' /\
    rep s' (kr ++ FR c l y :: k) ry /\ rb_mem s' !! x = rb_mem s !! x /\
    only (y :: elems l ++ elems ry ++ context_elems kr) s s'.
Proof.
  intros Mx Hl Hr Hkr My Hgy Hk Htl Hry Hfr Hnd. split_nodup. unfold move_up.
  destruct kr as [|[cp p rp|? ? ?] kr]; [| |by apply Forall_cons_1 in Hkr as [[] _]].
  - cbn [above_or]. rewrite decide_True by done. unfold bind at 1. cbn [ret].
    destruct (take_place_spec s k x _ y None (Some x) gy c l ry (if negb cy then remove_recolour fuel (Some y) (root ry) else ret tt)
      Mx eq_refl eq_refl Hl My Hgy Hk Htl Hry) as (s3 & Hs3 & Hr3 & Hsz3 & Hgen3 & Hm3); [nodup_solve|].
    exists s3. split; [exact Hs3|]. split; [by apply rep_move|]. unfold only. split_and!; [|done|done|].
    + apply Hm3. apart_solve.
    + intros v Hv. apply Hm3. apart_solve.
  - cbn [above_or frame_node] in *. set (K := FL cp p rp :: kr) in *.
    rewrite decide_False by (intros [= ->]; assert (x ∈ context_elems K) by (by left); done).
    assert (root r = root (plug K ry)) as Hrr.
    { rewrite Hr. destruct (plug_root_some K (T cy E y ry)) as (v & -> & Hv); [done|]. by rewrite Hv. }
    destruct (detach_spec s x _ y gy cp p rp kr ry c Mx Hrr My Hfr Hry) as (s3 & Hs3 & Hh3 & My3 & Ht3 & Hm3); [nodup_solve|].
    unfold bind at 1. rewrite Hs3. fold K in My3, Ht3, Hm3. rewrite <- (Hm3 x) in Mx |- * by (done || apart_solve).
    destruct (take_place_spec s3 k x _ y None (Some p) gy c l (plug K ry)
      (if negb cy then remove_recolour fuel (Some p) (root ry) else ret tt) Mx eq_refl eq_refl Hl My3 Hgy)
      as (s4 & Hs4 & Hr4 & Hsz4 & Hgen4 & Hm4).
    { rewrite Hh3. eapply context_at_agree; [|exact Hk]. intros v Hv. apply Hm3; apart_solve. }
    { eapply tree_at_agree; [|exact Htl]. intros v Hv. apply Hm3; apart_solve. }
    { done. }
    { rewrite (plug_perm K ry), <- app_assoc. nodup_solve. }
    exists s4. split; [exact Hs4|]. split; [by apply rep_plug, rep_move|]. unfold only. split_and!.
    + apply Hm4. apart_solve.
    + by rewrite Hsz4, Hh3.
    + by rewrite Hgen4, Hh3.
    + intros v Hv. rewrite Hm4 by apart_solve. apply Hm3; apart_solve.
Qed.

(** The next node [y], at the left end of the right subtree, takes the place of [x]; what
    is left to do is to balance the tree where [y] was. *)
Lemma remove_inner_run fuel s k x g c l r kr cy y ry :
  rb_mem s !! x = Some (mk_node (root l) (root r) (above k) c g) -> l <> E ->
  r = plug kr (T cy E y ry) -> Forall left_frame kr ->
  context_at (rb_mem s) k (Some x) (rb_root (rb_head s)) -> tree_at (rb_mem s) (Some x) l -> tree_at (rb_mem s) (Some x) r ->
  NoDup (x :: y :: elems l ++ elems ry ++ context_elems kr ++ context_elems k) ->
  (forall z, root r = Some z -> leftmost fuel z s = Some (y, s)) ->
  exists s', remove_inner fuel x s = (if negb cy then remove_recolour fuel (above (kr ++ FR c l y :: k)) (root ry) else ret tt) s' /\
    rep s' (kr ++ FR c l y :: k) ry /\ rb_mem s' !! x = rb_mem s !! x /\
    only (y :: elems l ++ elems ry ++ context_elems kr ++ context_elems k) s s'.
Proof.
  intros Mx Hl Hr Hkr Hk Htl Htr Hnd Hleft. pose proof Hnd as Hnd'. split_nodup.
  assert (exists z, root r = Some z) as [z Hz].
  { subst r. destruct kr; [by exists y|]. by destruct (plug_root_some (f :: kr) (T cy E y ry)) as (z & ? & _); [|exists z]. }
  specialize (Hleft z Hz). unfold remove_inner. unfold bind at 1. rewrite (load_eq s x _ Mx).
  cbn [nd_right]. rewrite Hz. unfold bind at 1. cbn [deref ret]. unfold bind at 1. rewrite Hleft.
  destruct (update_parent_context s k x _ (Some y) Mx eq_refl) as (s1 & Hs1 & Hk1 & Hsz1 & Hgen1 & Hm1); [done|done|done|].
  unfold bind at 1. rewrite Hs1. rewrite <- (Hm1 x) in Mx |- * by done.
  pose proof Htr as Htr1. rewrite Hr in Htr1. apply tree_at_plug in Htr1 as [Hfr ((gy & Hgy & My) & _ & Hry)]. cbn [root] in *.
  rewrite <- (Hm1 y) in My by done. unfold bind at 1. rewrite (load_eq s1 y _ My). cbn [nd_right nd_parent nd_red].
  unfold bind at 1. rewrite (load_eq s1 x _ Mx). cbn [nd_red]. unfold bind at 1, set_red at 1. rewrite (store_eq s1 y _ _ My).
  set (s2 := mk_rbs _ _).
  assert (Hout2 : forall v, v <> y -> v ∉ context_elems k -> rb_mem s2 !! v = rb_mem s !! v).
  { intros v ? ?. simpl. lookups. by apply Hm1. }
  assert (Mx2 : rb_mem s2 !! x = rb_mem s1 !! x) by (simpl; by lookups). rewrite <- Mx2 in Mx |- *.
  destruct (move_up_run fuel s2 k x g c l r kr cy y gy ry Mx Hl Hr Hkr) as (s3 & Hs3 & Hr3 & Mx3 & Hsz3 & Hgen3 & Hm3);
    [simpl; by lookups|done|simpl; by apply context_at_insert| | | |nodup_solve|].
  { eapply tree_at_agree; [|exact Htl]. intros v Hv. apply Hout2; apart_solve. }
  { eapply tree_at_agree; [|exact Hry]. intros v Hv. apply Hout2; apart_solve. }
  { eapply frames_at_agree; [|exact Hfr]. intros v Hv. apply Hout2; apart_solve. }
  exists s3. split; [exact Hs3|]. split; [done|]. unfold only. split_and!; [done|by rewrite Hsz3|by rewrite Hgen3|].
  intros v Hv. rewrite Hm3 by apart_solve. apply Hout2; apart_solve.
Qed.

(** ** Removal *)

Lemma left_frames_before k : Forall left_frame k -> before k = [].
Proof. induction 1 as [|[] k Hf Hk IH]; done. Qed.

Lemma rb_context_rename kr c l x y k b h :
  rb_context b h (kr ++ FR c l x :: k) -> rb_context b h (kr ++ FR c l y :: k).
Proof. revert b h. induction kr as [|f kr IH]; intros b h Hk; inversion Hk; subst; econstructor; eauto. Qed.

Lemma shape_head L s s' k t :
  rb_root (rb_head s') = rb_root (rb_head s) -> rb_mem s' = rb_mem s -> shape L s k t -> shape L s' k t.
Proof. intros Hh Hm [(Hk & Ht & Ha) HL]. split; [|done]. unfold rep. by rewrite Hh, Hm. Qed.

(** What is left of a removal when the child [t] stands where a node of colour [c] was. *)
Lemma rebalance_run fuel s k b h c ct t :
  (length k + 1 < fuel)%nat -> rb_context b (over c h) k -> (c = true -> b = true) -> rb ct h t -> (c = true -> ct = false) ->
  rep s k t ->
  exists s' t', (if negb c then remove_recolour fuel (above k) (root t) else ret tt) s = Some (tt, s') /\
    shape (elems (plug k t)) s' [] t' /\ red_black t' /\ only (elems (plug k t)) s s'.
Proof.
  intros Hf Hk Hb Ht Hct Hr. assert (shape (elems (plug k t)) s k t) as Hs by done. destruct c; cbn [negb over] in *.
  - exists s, (plug k t). split_and!; [done|by apply shape_plug in Hs| |apply only_refl]. eapply rb_plug; [done|done|].
    intros ->. by specialize (Hct eq_refl).
  - destruct (remove_recolour_wp _ fuel s k b h ct t Hf Hk Ht Hs) as ([] & s' & Hrun & Ho & Hs').
    exists s', (rem_fix k t). split_and!; [done|done|by eapply rem_fix_rb|done].
Qed.

(** The generation of [x] is cleared; its links stay. *)
Lemma clear_spec s k c l x r :
  rep s k (T c l x r) ->
  exists s', store x (fun n => n <| nd_gen := 0 |>) s = Some (tt, s') /\ rb_head s' = rb_head s /\
    rb_mem s' !! x = Some (mk_node (root l) (root r) (above k) c 0) /\
    context_at (rb_mem s') k (Some x) (rb_root (rb_head s')) /\ tree_at (rb_mem s') (Some x) l /\ tree_at (rb_mem s') (Some x) r /\
    forall z, z <> x -> rb_mem s' !! z = rb_mem s !! z.
Proof.
  intros (Hk & ((g & Hg & Mx) & Hl & Hr) & Ha). unfold apart in Ha. cbn [elems] in Ha. rewrite <- app_assoc in Ha.
  apply list.NoDup_app in Ha as (_ & Hd & [Hxr _]%list.NoDup_cons). apply not_elem_of_app in Hxr as [Hxr Hxk].
  assert (x ∉ elems l) as Hxl by (intros Hin; apply (Hd x Hin); by left).
  rewrite (store_eq _ _ _ _ Mx). eexists. split; [reflexivity|]. cbn [rb_head rb_mem].
  split_and!; [done|by rewrite lookup_insert_eq|by apply context_at_insert|by apply tree_at_insert|by apply tree_at_insert|].
  intros z Hz. by apply lookup_insert_ne.
Qed.

(** The result of a removal: the tree without [x], which is marked as out. *)
Definition taken_out (s : rbs) (k : context) (c : bool) (l : tree) (x : positive) (r : tree) (s' : rbs) : Prop :=
  (exists t, shape (before k ++ elems l ++ elems r ++ after k) s' [] t /\ red_black t) /\
  rb_mem s' !! x = Some (mk_node (root l) (root r) (above k) c 0) /\
  rb_size (rb_head s') = u64 (rb_size (rb_head s) - 1) /\
  forall z, z ∉ elems (plug k (T c l x r)) -> rb_mem s' !! z = rb_mem s !! z.

(** A node that has only the child [t]. *)
Lemma remove_single_run fuel s s1 k b h c ct l x r t :
  (length k + 1 < fuel)%nat -> rb_context b (over c h) k -> (c = true -> b = true) -> rb ct h t -> (c = true -> ct = false) ->
  elems t = elems l ++ elems r -> NoDup (elems (plug k (T c l x r))) ->
  rb_head s1 = rb_head s -> rb_mem s1 !! x = Some (mk_node (root l) (root r) (above k) c 0) ->
  context_at (rb_mem s1) k (Some x) (rb_root (rb_head s1)) -> tree_at (rb_mem s1) (Some x) t ->
  (forall z, z <> x -> rb_mem s1 !! z = rb_mem s !! z) ->
  exists s', (set_parent_opt (root t) (above k) ;; update_parent_ptr x (root t) ;; n <- load x ;;
              (if negb (nd_red n) then remove_recolour fuel (nd_parent n) (root t) else ret tt) ;; removed) s1 = Some (tt, s') /\
    taken_out s k c l x r s'.
Proof.
  intros Hf Hk Hb Ht Hct Het Hnd Hh1 Mx1 Hk1 Ht1 Hm1.
  assert (elems (plug k t) = before k ++ elems l ++ elems r ++ after k) as HL by (by rewrite plug_elems, Het, <- app_assoc).
  assert (NoDup (x :: elems t ++ context_elems k)) as Hnd'.
  { rewrite plug_perm in Hnd. eapply NoDup_Permutation_proper; [|exact Hnd]. cbn [elems]. rewrite Het. solve_Permutation. }
  assert (forall z, z ∉ elems (plug k (T c l x r)) -> z <> x /\ z ∉ elems t ++ context_elems k) as Hout.
  { intros z. rewrite plug_perm, Het. cbn [elems]. rewrite !elem_of_app, elem_of_cons. tauto. }
  destruct (unlink_spec s1 k x _ t Mx1 eq_refl Hk1 Ht1 Hnd') as (s2 & Hs2 & Hr2 & Mx2 & Hsz2 & Hgen2 & Hm2).
  destruct (rebalance_run fuel s2 k b h c ct t Hf Hk Hb Ht Hct Hr2) as (s3 & t' & Hs3 & Hsh3 & Hrb3 & Hsz3 & Hgen3 & Hm3).
  unfold bind in Hs2 |- *. destruct (set_parent_opt _ _ s1) as [[[] s1']|]; [|done]. rewrite Hs2.
  rewrite (load_eq s2 x _ Mx2). cbn [nd_red nd_parent]. rewrite Hs3. unfold removed, modify.
  eexists. split; [reflexivity|]. split; [|split_and!]; cbn [rb_mem rb_head rb_size].
  - exists t'. split; [|done]. rewrite <- HL. eapply shape_head; [..|exact Hsh3]; done.
  - change (rb_mem s3 !! x = Some (mk_node (root l) (root r) (above k) c 0)). rewrite Hm3, Mx2; [done|].
    rewrite plug_perm. by apply list.NoDup_cons in Hnd' as [? _].
  - simpl. by rewrite Hsz3, Hsz2, Hh1.
  - intros z [Hz Hz']%Hout. simpl. rewrite Hm3 by (by rewrite plug_perm). rewrite Hm2 by done. by apply Hm1.
Qed.

(** A node with two children. *)
Lemma remove_double_run fuel s s1 k c l x r :
  (height (plug k (T c l x r)) + 1 < fuel)%nat -> red_black (plug k (T c l x r)) -> l <> E -> r <> E ->
  NoDup (elems (plug k (T c l x r))) ->
  rb_head s1 = rb_head s -> rb_mem s1 !! x = Some (mk_node (root l) (root r) (above k) c 0) ->
  context_at (rb_mem s1) k (Some x) (rb_root (rb_head s1)) -> tree_at (rb_mem s1) (Some x) l -> tree_at (rb_mem s1) (Some x) r ->
  (forall z, z <> x -> rb_mem s1 !! z = rb_mem s !! z) ->
  exists s', (remove_inner fuel x ;; removed) s1 = Some (tt, s') /\ taken_out s k c l x r s'.
Proof.
  intros Hf Hrb Hl Hr Hnd Hh1 Mx1 Hk1 Htl1 Htr1 Hm1.
  pose proof (plug_height k (T c l x r)) as Hh. cbn [height] in Hh.
  destruct r as [|cr rl z rr]; [done|]. clear Hr.
  destruct (leftmost_focus s1 fuel (Some x) cr rl z rr) as (kr & cy & y & ry & Hleft & Hr & Hkr); [cbn [height] in *; lia|done|].
  set (r := T cr rl z rr) in *. set (K := kr ++ FR c l y :: k).
  assert (plug (kr ++ FR c l x :: k) (T cy E y ry) = plug k (T c l x r)) as Hplug.
  { rewrite Hr. unfold plug. by rewrite foldl_app. }
  assert (elems (plug K ry) = before k ++ elems l ++ elems r ++ after k) as HL.
  { unfold K, plug. rewrite foldl_app. change (elems (plug k (T c l y (plug kr ry))) = before k ++ elems l ++ elems r ++ after k).
    rewrite plug_elems, Hr. cbn [elems]. rewrite !plug_elems, (left_frames_before kr Hkr). cbn [elems app]. by rewrite <- app_assoc. }
  assert (elems (plug k (T c l x r)) ≡ₚ x :: y :: elems l ++ elems ry ++ context_elems kr ++ context_elems k) as Hperm.
  { rewrite plug_perm, Hr. cbn [elems]. rewrite plug_perm. cbn [elems app]. solve_Permutation. }
  assert (elems (plug K ry) ≡ₚ y :: elems l ++ elems ry ++ context_elems kr ++ context_elems k) as HpermK.
  { unfold K. rewrite plug_perm. unfold context_elems. rewrite flat_map_app. cbn [flat_map frame_elems]. solve_Permutation. }
  rewrite Hperm in Hnd. pose proof Hnd as [Hx _]%list.NoDup_cons.
  destruct (remove_inner_run fuel s1 k x 0 c l r kr cy y ry Mx1 Hl Hr Hkr Hk1 Htl1 Htr1 Hnd) as (s2 & Hs2 & Hr2 & Mx2 & Hsz2 & Hgen2 & Hm2).
  { by intros ? [= <-]. }
  rewrite <- Hplug in Hrb. apply rb_unplug in Hrb as (b & cy' & h & Hrbk & Hrby & Hb). apply (rb_context_rename _ _ _ _ y) in Hrbk.
  assert (exists h' ct, h = over cy h' /\ cy' = cy /\ rb ct h' ry /\ (cy = true -> ct = false)) as (h' & ct & -> & -> & Hrby' & Hct).
  { inversion Hrby; subst; by eexists _, _. }
  destruct (rebalance_run fuel s2 K b h' cy ct ry) as (s3 & t' & Hs3 & Hsh3 & Hrb3 & Hsz3 & Hgen3 & Hm3); [|done..|].
  { pose proof (plug_height (kr ++ FR c l x :: k) (T cy E y ry)) as Hp. rewrite Hplug in Hp. unfold K. rewrite length_app in *.
    simpl in *. lia. }
  unfold bind. rewrite Hs2. fold K. rewrite Hs3. unfold removed, modify. eexists. split; [reflexivity|]. split; [|split_and!].
  - exists t'. split; [|done]. rewrite <- HL. eapply shape_head; [..|exact Hsh3]; done.
  - change (rb_mem s3 !! x = Some (mk_node (root l) (root r) (above k) c 0)). rewrite Hm3, Mx2; [done|].
    by rewrite HpermK.
  - simpl. by rewrite Hsz3, Hsz2, Hh1.
  - intros v. rewrite Hperm. intros [Hvx Hv]%not_elem_of_cons. simpl. rewrite Hm3 by (by rewrite HpermK).
    rewrite Hm2 by done. by apply Hm1.
Qed.

Lemma remove_run fuel s k c l x r L :
  shape L s k (T c l x r) -> red_black (plug k (T c l x r)) -> (height (plug k (T c l x r)) + 1 < fuel)%nat ->
  exists s', opr_rbtree_remove fuel x s = Some (tt, s') /\ taken_out s k c l x r s'.
Proof.
  intros Hs Hrb Hf. pose proof Hs as [Hr _]. pose proof (rep_nodup _ _ _ Hr) as Hnd.
  destruct (rep_load _ _ _ _ _ _ Hr) as (g & Hg & Hld). unfold opr_rbtree_remove. unfold bind at 1. rewrite Hld.
  cbn [nd_gen nd_left nd_right]. rewrite decide_False by done.
  destruct (clear_spec s k c l x r Hr) as (s1 & Hs1 & Hh1 & Mx1 & Hk1 & Htl1 & Htr1 & Hm1). unfold bind at 1. rewrite Hs1.
  pose proof (plug_height k (T c l x r)) as Hph. pose proof Hrb as (b & c' & h & Hkb & Ht & Hb)%rb_unplug.
  assert (exists h' cl cr, h = over c h' /\ c' = c /\ rb cl h' l /\ rb cr h' r /\ (c = true -> cl = false /\ cr = false))
    as (h' & cl & cr & -> & -> & Hrl & Hrr & Hc) by (inversion Ht; subst; by eexists _, _, _).
  assert (Hk' : (length k + 1 < fuel)%nat) by (simpl in Hph; lia).
  destruct l as [|cl' ll y lr], r as [|cr' rl z rr]; cbn [root] in *.
  - apply (remove_single_run fuel s s1 k b h' c cr E x E E); first [done|by intros [? ?]%Hc].
  - unfold bind at 1. cbn [deref ret]. unfold bind at 1. rewrite (load_eq s1 x _ Mx1).
    apply (remove_single_run fuel s s1 k b h' c cr E x (T cr' rl z rr) (T cr' rl z rr)); first [done|by intros [? ?]%Hc].
  - unfold bind at 1. cbn [deref ret]. unfold bind at 1. rewrite (load_eq s1 x _ Mx1).
    apply (remove_single_run fuel s s1 k b h' c cl (T cl' ll y lr) x E (T cl' ll y lr)); first [done|by intros [? ?]%Hc|by cbn [elems]; rewrite app_nil_r].
  - by apply (remove_double_run fuel s s1 k c (T cl' ll y lr) x (T cr' rl z rr)).
Qed.

(** ** Replacement *)

(** [y] takes over the links, the colour and the generation of [x]; [x] keeps them too. *)
Lemma replace_run s k c l x r y n :
  rep s k (T c l x r) -> y ∉ elems (plug k (T c l x r)) -> rb_mem s !! y = Some n ->
  exists s', opr_rbtree_replace x y s = Some (tt, s') /\ rep s' k (T c l y r) /\ rb_mem s' !! x = rb_mem s !! x /\
    only (elems (plug k (T c l y r))) s s'.
Proof.
  intros (Hk & ((g & Hg & Mx) & Hl & Hr) & Ha) Hy My. rewrite plug_perm in Hy. cbn [elems] in Hy.
  assert (NoDup (x :: y :: elems l ++ elems r ++ context_elems k)) as Hnd.
  { eapply (NoDup_Permutation_proper _ (y :: (elems l ++ x :: elems r) ++ context_elems k)); [solve_Permutation|].
    by constructor. }
  split_nodup. unfold opr_rbtree_replace.
  destruct (update_parent_context s k x _ (Some y) Mx eq_refl) as (s1 & Hs1 & Hk1 & Hsz1 & Hgen1 & Hm1); [done..|].
  unfold bind at 1. rewrite Hs1. unfold bind at 1. rewrite <- (Hm1 x) in Mx |- * by done. rewrite (load_eq s1 x _ Mx). cbn [nd_left].
  destruct (set_parent_opt_tree s1 (Some x) (Some y) l) as (s2 & Hs2 & Hh2 & Hl2 & Hm2); [|done|].
  { eapply tree_at_agree; [|exact Hl]. intros v Hv. apply Hm1. apart_solve. }
  unfold bind at 1. rewrite Hs2. unfold bind at 1. rewrite <- (Hm2 x) in Mx |- * by done. rewrite (load_eq s2 x _ Mx). cbn [nd_right].
  destruct (set_parent_opt_tree s2 (Some x) (Some y) r) as (s3 & Hs3 & Hh3 & Hr3 & Hm3); [|done|].
  { eapply tree_at_agree; [|exact Hr]. intros v Hv. rewrite Hm2 by apart_solve. apply Hm1. apart_solve. }
  unfold bind at 1. rewrite Hs3. unfold bind at 1. rewrite <- (Hm3 x) in Mx |- * by done. rewrite (load_eq s3 x _ Mx).
  assert (rb_mem s3 !! y = Some n) as My3 by (by rewrite Hm3, Hm2, Hm1). rewrite (store_eq s3 y _ _ My3).
  eexists. split; [reflexivity|]. unfold rep, only. cbn [rb_head rb_mem]. split; [split; [|split]|split_and!].
  - rewrite Hh3, Hh2. apply context_at_insert; [done|]. eapply context_at_agree; [|exact Hk1]. intros v Hv.
    rewrite Hm3 by apart_solve. apply Hm2. apart_solve.
  - split; [exists g; split; [done|]; by rewrite lookup_insert_eq|]. split; apply tree_at_insert; [done| |done|done].
    eapply tree_at_agree; [|exact Hl2]. intros v Hv. apply Hm3. apart_solve.
  - unfold apart. cbn [elems]. rewrite <- app_assoc. cbn [app]. apply (NoDup_Permutation_proper _ (y :: elems l ++ elems r ++ context_elems k));
      [solve_Permutation|nodup_solve].
  - by apply lookup_insert_ne.
  - by rewrite Hh3, Hh2.
  - by rewrite Hh3, Hh2.
  - intros v Hv. rewrite plug_perm in Hv. cbn [elems] in Hv. rewrite lookup_insert_ne by apart_solve. rewrite Hm3 by apart_solve.
    rewrite Hm2 by apart_solve. apply Hm1. apart_solve.
Qed.
