(* ===== verification/RbtreeProps.v ===== *)
(** * Red-black trees: the library as a sorted set

    Any sequence of calls of the routines of [rbtree.c] answers as a sorted list of
    nodes would, within a number of steps of each loop that is logarithmic in the
    number of nodes. *)
From Stdlib Require Import Sorting.Sorted.
From S2P Require Import Prelude Rbtree RbtreeTree RbtreeLogic RbtreeInsert RbtreeSearch RbtreeRemove RbtreeUnlink.

Open Scope Z_scope.
Open Scope dnfs_scope.

(** ** The specification: a sorted list *)

Section Spec.
  Context (cmpf : positive -> positive -> Z).

(** The node that compares equal to [x]. *)
Fixpoint find_same (x : positive) (L : list positive) : option positive :=
  match L with
  | [] => None
  | y :: L => if decide (cmpf x y <> -1 /\ cmpf x y <> 1) then Some y else find_same x L
  end.

Fixpoint place (x : positive) (L : list positive) : list positive :=
  match L with
  | [] => [x]
  | y :: L' => if decide (cmpf x y = -1) then x :: L else y :: place x L'
  end.

(** The neighbours of [x]. *)
Fixpoint next_of (x : positive) (L : list positive) : option positive :=
  match L with
  | [] => None
  | y :: L => if decide (y = x) then head L else next_of x L
  end.

Fixpoint prev_of (x : positive) (L : list positive) : option positive :=
  match L with
  | y :: ((z :: _) as L') => if decide (z = x) then Some y else prev_of x L'
  | _ => None
  end.

(** The calls a program makes. *)
Inductive call :=
  | Insert (x : positive)
  | Remove (x : positive)
  | Lookup (x : positive)
  | First
  | Last
  | Next (x : positive)
  | Prev (x : positive)
  | Valid (x : positive)
  | Size.

Inductive answer :=
  | Node (p : option positive)
  | Done
  | Flag (b : bool)
  | Count (n : Z).

(** What a call does to the list of the nodes, and its answer. *)
Definition on_list (c : call) (L : list positive) : answer * list positive :=
  match c with
  | Insert x => match find_same x L with Some y => (Node (Some y), L) | None => (Node None, place x L) end
  | Remove x => (Done, base.filter (fun y => y <> x) L)
  | Lookup x => (Node (find_same x L), L)
  | First => (Node (head L), L)
  | Last => (Node (list.last L), L)
  | Next x => (Node (next_of x L), L)
  | Prev x => (Node (prev_of x L), L)
  | Valid x => (Flag (bool_decide (x ∈ L)), L)
  | Size => (Count (u64 (Z.of_nat (length L))), L)
  end.

(** The call of the library. *)
Definition exec (fuel : nat) (c : call) : ST rbs answer :=
  match c with
  | Insert x => p <- opr_rbtree_insert cmpf fuel x ;; ret (Node p)
  | Remove x => opr_rbtree_remove fuel x ;; ret Done
  | Lookup x => p <- opr_rbtree_lookup cmpf fuel x ;; ret (Node p)
  | First => p <- opr_rbtree_first fuel ;; ret (Node p)
  | Last => p <- opr_rbtree_last fuel ;; ret (Node p)
  | Next x => p <- opr_rbtree_next fuel x ;; ret (Node p)
  | Prev x => p <- opr_rbtree_prev fuel x ;; ret (Node p)
  | Valid x => b <- opr_rbtree_node_valid x ;; ret (Flag b)
  | Size => n <- opr_rbtree_size ;; ret (Count n)
  end.

(** What a program owes: the node is one of its nodes; only a node of the tree has
    neighbours. *)
Definition call_ok (nodes : gset positive) (c : call) (L : list positive) : Prop :=
  match c with
  | Insert x | Remove x | Valid x => x ∈ nodes
  | Next x | Prev x => x ∈ L
  | Lookup _ | First | Last | Size => True
  end.

End Spec.

(** ** The list as a specification *)

Section ListSpec.
  Context (cmpf : positive -> positive -> Z) {order : CmpOrder cmpf}.
  Abbreviation sorted := (StronglySorted (less cmpf)).

Lemma find_same_some x L y : find_same cmpf x L = Some y -> y ∈ L /\ same cmpf x y.
Proof.
  induction L as [|z L IH]; cbn [find_same]; [done|]. case_decide; [intros [= <-]; by split; [left|]|].
  intros [? ?]%IH. by split; [right|].
Qed.

Lemma find_same_none x L : find_same cmpf x L = None -> forall y, y ∈ L -> ~ same cmpf x y.
Proof.
  induction L as [|z L IH]; cbn [find_same]; [by intros _ y ?%elem_of_nil|]. case_decide; [done|].
  intros Hf y [->|Hy]%elem_of_cons; [done|by apply IH].
Qed.

(** Two nodes of a tree are not the same key. *)
Lemma sorted_same x L y z : sorted L -> y ∈ L -> z ∈ L -> same cmpf x y -> same cmpf x z -> y = z.
Proof using order.
  intros Hs Hy Hz Sy Sz. apply list_elem_of_split in Hy as (L1 & L2 & ->).
  apply sorted_app in Hs as (_ & [_ Hr]%sorted_cons & Hl).
  apply elem_of_app in Hz as [Hz|[->|Hz]%elem_of_cons]; [|done|]; exfalso.
  - apply (proj1 Sy). eapply (same_less cmpf x z y); [done|]. apply Hl; [done|by left].
  - apply (proj1 Sz). eapply (same_less cmpf x y z); [done|]. by apply Hr.
Qed.

Lemma find_same_eq x L y : sorted L -> y ∈ L -> same cmpf x y -> find_same cmpf x L = Some y.
Proof using order.
  intros Hs Hy Sy. destruct (find_same cmpf x L) as [z|] eqn:Hf.
  - apply find_same_some in Hf as [? ?]. f_equal. by eapply sorted_same.
  - by eapply find_same_none in Hf.
Qed.

Lemma fits_find x L1 L2 : fits cmpf x L1 L2 -> find_same cmpf x (L1 ++ L2) = None.
Proof using order.
  intros [H1 H2]. destruct (find_same cmpf x (L1 ++ L2)) as [y|] eqn:Hf; [|done].
  apply find_same_some in Hf as [[Hy|Hy]%elem_of_app [S1 S2]]; exfalso.
  - apply S2. by apply less_gt, H1.
  - by apply S1, H2.
Qed.

Lemma fits_place x L1 L2 : fits cmpf x L1 L2 -> place cmpf x (L1 ++ L2) = L1 ++ x :: L2.
Proof using order.
  induction L1 as [|y L1 IH]; intros [H1 H2]; cbn [app place].
  - destruct L2 as [|z L2]; [done|]. cbn [place]. rewrite decide_True; [done|]. apply H2. by left.
  - rewrite decide_False.
    + f_equal. apply IH. split; [|done]. intros a Ha. apply H1. by right.
    + assert (cmpf x y = 1) as ->; [|done]. apply less_gt, H1; [done|by left].
Qed.

Lemma next_of_split x L1 L2 : x ∉ L1 -> next_of x (L1 ++ x :: L2) = head L2.
Proof.
  induction L1 as [|y L1 IH]; intros Hx; cbn [app next_of]; [by rewrite decide_True|].
  apply not_elem_of_cons in Hx as [? ?]. rewrite decide_False by done. by apply IH.
Qed.

Lemma prev_of_absent x y L : x ∉ L -> prev_of x (y :: L) = None.
Proof.
  revert y. induction L as [|z L IH]; intros y Hx; [done|]. apply not_elem_of_cons in Hx as [? ?].
  cbn [prev_of] in *. rewrite decide_False by done. by apply IH.
Qed.

Lemma prev_of_split x L1 L2 : x ∉ L1 -> x ∉ L2 -> prev_of x (L1 ++ x :: L2) = list.last L1.
Proof.
  intros Hx1 Hx2. induction L1 as [|y L1 IH]; [by apply prev_of_absent|]. apply not_elem_of_cons in Hx1 as [? Hx]. specialize (IH Hx).
  destruct L1 as [|z L1]; cbn [app prev_of] in *; [by rewrite decide_True|].
  apply not_elem_of_cons in Hx as [? ?]. rewrite decide_False by done. by rewrite IH.
Qed.

Lemma filter_absent (x : positive) (L : list positive) : x ∉ L -> base.filter (fun y => y <> x) L = L.
Proof.
  induction L as [|y L IH]; [done|]. intros [? ?]%not_elem_of_cons. rewrite filter_cons_True by done. by rewrite IH.
Qed.

Lemma filter_split (x : positive) L1 L2 : NoDup (L1 ++ x :: L2) -> base.filter (fun y => y <> x) (L1 ++ x :: L2) = L1 ++ L2.
Proof.
  intros Hn. apply list.NoDup_app in Hn as (_ & Hd & [Hx _]%list.NoDup_cons).
  assert (x ∉ L1) by (intros Hin; apply (Hd x Hin); by left).
  rewrite list.filter_app, filter_cons_False by tauto. by rewrite !filter_absent.
Qed.

Lemma sorted_remove x L1 L2 : sorted (L1 ++ x :: L2) -> sorted (L1 ++ L2).
Proof.
  rewrite !sorted_app, sorted_cons. intros (? & [? ?] & Hl). split_and!; [done..|]. intros a b ? ?. apply Hl; [done|by right].
Qed.

End ListSpec.

(** ** The library keeps to the specification *)

Section Refine.
  Context (cmpf : positive -> positive -> Z) {order : CmpOrder cmpf} (nodes : gset positive).

(** The tree in memory, of the program's [nodes], is [L]: sorted, red and black, counted, and
    the generation of a node tells whether it is in the tree. *)
Definition holds (s : rbs) (L : list positive) : Prop :=
  (exists t, shape L s [] t /\ red_black t) /\ StronglySorted (less cmpf) L /\ dom (rb_mem s) = nodes /\
  rb_size (rb_head s) = u64 (Z.of_nat (length L)) /\
  forall z n, rb_mem s !! z = Some n -> z ∉ L -> nd_gen n = 0.

(** Steps that are enough for every loop of the library. *)
Definition enough (fuel : nat) : Prop := (2 * Nat.log2 (S (size nodes)) + 2 <= fuel)%nat.

Lemma tree_nodes m q t x : tree_at m q t -> x ∈ elems t -> is_Some (m !! x).
Proof.
  revert q. induction t as [|c l IHl y r IHr]; intros q; simpl; [by intros _ ?%elem_of_nil|].
  intros ((g & _ & Hy) & Hl & Hr) [Hx|[->|Hx]%elem_of_cons]%elem_of_app; eauto.
Qed.

Lemma enough_height s L t fuel :
  dom (rb_mem s) = nodes -> shape L s [] t -> red_black t -> enough fuel -> (height t + 1 < fuel)%nat.
Proof.
  intros Hd [Hr HL] Hrb Hf. pose proof (red_black_height t Hrb) as Hh. pose proof (rep_nodup _ _ _ Hr) as Hnd.
  simpl in HL, Hnd. unfold steps in Hh. unfold enough in Hf. rewrite HL in *.
  assert (length L <= size nodes)%nat as Hle.
  { rewrite <- (size_list_to_set (C:=gset positive) L) by done. apply subseteq_size. intros x Hx%elem_of_list_to_set.
    rewrite <- Hd. apply elem_of_dom. destruct Hr as (_ & Ht & _). eapply tree_nodes; [exact Ht|]. by rewrite HL. }
  pose proof (Nat.log2_le_mono (S (length L)) (S (size nodes))). lia.
Qed.

Lemma holds_nodes s L x : holds s L -> x ∈ L -> x ∈ nodes.
Proof.
  intros ((t & [(_ & Ht & _) HL] & _) & _ & Hd & _) Hx. rewrite <- Hd. apply elem_of_dom.
  eapply tree_nodes; [exact Ht|]. simpl in HL. by rewrite HL.
Qed.

Lemma dom_same s s' L t :
  shape L s' [] t -> (forall z, z ∈ L -> z ∈ nodes) -> (forall z, z ∉ L -> rb_mem s' !! z = rb_mem s !! z) ->
  dom (rb_mem s) = nodes -> dom (rb_mem s') = nodes.
Proof.
  intros [(_ & Ht & _) HL] Hn Hm Hd. apply set_eq. intros z. simpl in HL. destruct (decide (z ∈ L)) as [Hz|Hz].
  - split; [by intros _; apply Hn|]. intros _. apply elem_of_dom. eapply tree_nodes; [exact Ht|]. by rewrite HL.
  - rewrite <- Hd, !elem_of_dom. by rewrite Hm.
Qed.

Lemma u64_succ n : u64 (u64 (Z.of_nat n) + 1) = u64 (Z.of_nat (S n)).
Proof. zsolve. Qed.

Lemma u64_pred n : u64 (u64 (Z.of_nat (S n)) - 1) = u64 (Z.of_nat n).
Proof. zsolve. Qed.

Lemma get_root_run s L t : shape L s [] t -> get_root s = Some (root t, s).
Proof. intros [(Hk & _) _]. simpl in Hk. unfold get_root, gets. by rewrite Hk. Qed.

(** The search in a tree finds what the list has. *)
Lemma descend_list x t :
  StronglySorted (less cmpf) (elems t) ->
  match descend cmpf x [] t with
  | inl y => find_same cmpf x (elems t) = Some y
  | inr k => plug k E = t /\ fits cmpf x (before k) (after k) /\ elems t = before k ++ after k /\ find_same cmpf x (elems t) = None
  end.
Proof using order.
  intros Hs. destruct (descend cmpf x [] t) as [y|k] eqn:Hd.
  - apply descend_found in Hd as [? ?]. by apply find_same_eq.
  - apply (descend_hole cmpf) in Hd as [Hp Hf]; [|done|by split; intros ? ?%elem_of_nil].
    simpl in Hp. assert (elems t = before k ++ after k) as He by (by rewrite <- Hp, plug_elems).
    split_and!; [done..|]. rewrite He. by apply fits_find.
Qed.

Lemma insert_holds s L x fuel :
  holds s L -> x ∈ nodes -> enough fuel ->
  match find_same cmpf x L with
  | Some y => opr_rbtree_insert cmpf fuel x s = Some (Some y, s)
  | None => exists s', opr_rbtree_insert cmpf fuel x s = Some (None, s') /\ holds s' (place cmpf x L)
  end.
Proof using order.
  intros Hh Hx Hf. pose proof Hh as ((t & Hs & Hrb) & Hsort & Hdom & Hsz & Hgen).
  pose proof (enough_height s L t fuel Hdom Hs Hrb Hf) as Hht. assert (elems t = L) as HL by apply Hs.
  rewrite <- HL in Hsort. pose proof (descend_list x t Hsort) as Hd. rewrite HL in *.
  pose proof (insert_search_run cmpf L s fuel x [] t ltac:(lia) Hs) as Hrun. cbn [hole] in Hrun.
  unfold opr_rbtree_insert, bind. rewrite (get_root_run s L t Hs). change (above []) with (@None positive) in Hrun. rewrite Hrun.
  destruct (descend cmpf x [] t) as [y|k]; [by rewrite Hd|]. destruct Hd as (Hp & Hfit & He & ->).
  assert (x ∉ L) as HxL.
  { rewrite He. intros [Hin|Hin]%elem_of_app; [apply Hfit in Hin|apply Hfit in Hin]; by apply (cmp_irrefl x) in Hin. }
  pose proof Hx as Hx'. rewrite <- Hdom in Hx'. apply elem_of_dom in Hx' as [n Mx].
  rewrite <- Hp in Hrb. pose proof (rb_unplug k E Hrb) as (b & c & h & Hkb & HE & _). inversion HE; subst c h.
  destruct (insert_at_spec fuel s L k x n) as (s1 & -> & Hs1 & Hsz1 & Hm1).
  { by apply (shape_refocus L s [] t); [rewrite Hp|]. } { done. } { done. }
  { pose proof (plug_height k E) as Hph. rewrite Hp in Hph. lia. } { by eapply rb_top_black. }
  assert (place cmpf x L = before k ++ x :: after k) as -> by (rewrite He; by apply fits_place).
  eexists. split; [reflexivity|]. unfold modify, holds. split_and!.
  - exists (inserted k x). split; [eapply shape_head; [..|exact Hs1]; done|by eapply inserted_rb].
  - apply sorted_insert; [|done]. by rewrite <- He.
  - apply (dom_same s _ (before k ++ x :: after k) (inserted k x)); [done| |done|done].
    intros z [Hz|[->|Hz]%elem_of_cons]%elem_of_app; [|done|];
      (eapply holds_nodes; [exact Hh|rewrite He; apply elem_of_app; tauto]).
  - simpl. rewrite Hsz1, Hsz, u64_succ, He, !length_app. f_equal. simpl. lia.
  - intros z n' Hz HzL. simpl in Hz. rewrite Hm1 in Hz by done. eapply Hgen; [exact Hz|]. rewrite He. intros Hin. apply HzL.
    rewrite elem_of_app, elem_of_cons. apply elem_of_app in Hin. tauto.
Qed.

Lemma remove_holds s L x fuel :
  holds s L -> x ∈ nodes -> enough fuel ->
  exists s', opr_rbtree_remove fuel x s = Some (tt, s') /\ holds s' (base.filter (fun y => y <> x) L).
Proof.
  intros Hh Hx Hf. pose proof Hh as ((t & Hs & Hrb) & Hsort & Hdom & Hsz & Hgen).
  destruct (decide (x ∈ L)) as [HxL|HxL].
  - pose proof (enough_height s L t fuel Hdom Hs Hrb Hf) as Hht. assert (elems t = L) as HL by apply Hs.
    rewrite <- HL in HxL. apply elem_focus in HxL as (k & c & l & r & ->).
    assert (shape L s k (T c l x r)) as Hs' by (by apply shape_plug). rewrite plug_elems in HL. cbn [elems] in HL.
    pose proof (rep_nodup _ _ _ (proj1 Hs')) as Hnd. rewrite plug_elems in Hnd. cbn [elems] in Hnd.
    destruct (remove_run fuel s k c l x r L Hs' Hrb) as (s1 & Hs1 & (t1 & Ht1 & Hrb1) & Mx1 & Hsz1 & Hm1); [lia|].
    exists s1. split; [done|]. rewrite plug_elems in Hm1. cbn [elems] in Hm1.
    set (L1 := before k ++ elems l). set (L2 := elems r ++ after k).
    assert (L = L1 ++ x :: L2) as HL' by (rewrite <- HL; unfold L1, L2; by rewrite <- !app_assoc; simpl; rewrite <- ?app_assoc).
    rewrite HL in Hnd, Hm1. assert (base.filter (fun y => y <> x) L = L1 ++ L2) as -> by (rewrite HL' in Hnd |- *; by apply filter_split).
    assert (before k ++ elems l ++ elems r ++ after k = L1 ++ L2) as He by (unfold L1, L2; by rewrite <- !app_assoc).
    rewrite He in Ht1. assert (forall z, z ∈ L1 ++ L2 -> z ∈ L) as Hsub.
    { intros z. rewrite HL', !elem_of_app, elem_of_cons. tauto. }
    split_and!.
    + by exists t1.
    + apply (sorted_remove cmpf x). by rewrite <- HL'.
    + apply set_eq. intros z. rewrite <- Hdom, !elem_of_dom. destruct (decide (z ∈ L)) as [Hz|Hz]; [|by rewrite Hm1].
      assert (z ∈ nodes) as Hzn by (by eapply holds_nodes). rewrite <- Hdom in Hzn. apply elem_of_dom in Hzn.
      split; [done|]. intros _. destruct (decide (z = x)) as [->|Hzx]; [by eexists|].
      destruct Ht1 as [(_ & Ht1 & _) HL1]. eapply tree_nodes; [exact Ht1|]. simpl in HL1. rewrite HL1.
      rewrite HL', elem_of_app, elem_of_cons in Hz. apply elem_of_app. tauto.
    + rewrite Hsz1, Hsz, HL', !length_app. cbn [length]. rewrite Nat.add_succ_r, u64_pred. done.
    + intros z n Hz HzL. destruct (decide (z = x)) as [->|Hzx]; [rewrite Mx1 in Hz; by injection Hz as <-|].
      rewrite Hm1 in Hz; [eapply Hgen; [exact Hz|]|]; rewrite HL', elem_of_app, elem_of_cons; rewrite elem_of_app in HzL; tauto.
  - rewrite filter_absent by done. exists s. split; [|done]. pose proof Hx as Hx'. rewrite <- Hdom in Hx'.
    apply elem_of_dom in Hx' as [n Mx]. unfold opr_rbtree_remove, bind. rewrite (load_eq s x n Mx).
    by rewrite decide_True by (by eapply Hgen).
Qed.

Lemma neighbours s L x fuel :
  holds s L -> x ∈ L -> enough fuel ->
  opr_rbtree_next fuel x s = Some (next_of x L, s) /\ opr_rbtree_prev fuel x s = Some (prev_of x L, s).
Proof.
  intros ((t & Hs & Hrb) & _ & Hdom & _) HxL Hf.
  pose proof (enough_height s L t fuel Hdom Hs Hrb Hf) as Hht. assert (elems t = L) as HL by apply Hs.
  rewrite <- HL in HxL. apply elem_focus in HxL as (k & c & l & r & ->).
  assert (shape L s k (T c l x r)) as Hs' by (by apply shape_plug). rewrite plug_elems in HL. cbn [elems] in HL.
  pose proof (rep_nodup _ _ _ (proj1 Hs')) as Hnd. rewrite plug_elems in Hnd. cbn [elems] in Hnd.
  pose proof (plug_height k (T c l x r)) as Hph.
  rewrite (next_run L s fuel k c l x r), (prev_run L s fuel k c l x r) by (done || (simpl in *; lia)).
  rewrite <- HL. rewrite <- app_assoc in Hnd |- *. cbn [app] in *. rewrite app_assoc in Hnd |- *.
  apply list.NoDup_app in Hnd as (_ & Hd & [Hx _]%list.NoDup_cons).
  assert (x ∉ before k ++ elems l) by (intros Hin; apply (Hd x Hin); by left).
  by rewrite next_of_split, prev_of_split.
Qed.

Lemma valid_run s L x : holds s L -> x ∈ nodes -> opr_rbtree_node_valid x s = Some (bool_decide (x ∈ L), s).
Proof.
  intros ((t & Hs & _) & _ & Hdom & _ & Hgen) Hx. rewrite <- Hdom in Hx. apply elem_of_dom in Hx as [n Mx].
  unfold opr_rbtree_node_valid, bind. rewrite (load_eq s x n Mx). unfold ret. do 2 f_equal. apply bool_decide_ext.
  split; [|intros HxL].
  - intros Hn. destruct (decide (x ∈ L)) as [|HxL]; [done|]. destruct Hn. by eapply Hgen.
  - assert (elems t = L) as HL by apply Hs. rewrite <- HL in HxL. apply elem_focus in HxL as (k & c & l & r & ->).
    assert (shape L s k (T c l x r)) as [(_ & ((g & Hg & Mx') & _) & _) _] by (by apply shape_plug).
    rewrite Mx in Mx'. by injection Mx' as ->.
Qed.

(** One call. *)
Lemma exec_holds s L c fuel :
  holds s L -> call_ok nodes c L -> enough fuel ->
  exists s', exec cmpf fuel c s = Some ((on_list cmpf c L).1, s') /\ holds s' (on_list cmpf c L).2.
Proof using order.
  intros Hh Hc Hf. pose proof Hh as ((t & Hs & Hrb) & Hsort & Hdom & Hsz & _).
  pose proof (enough_height s L t fuel Hdom Hs Hrb Hf) as Hht. destruct c as [x|x|x| | |x|x|x|]; cbn [exec on_list call_ok] in *; unfold bind.
  - pose proof (insert_holds s L x fuel Hh Hc Hf) as Hi. destruct (find_same cmpf x L); [rewrite Hi; by exists s|].
    destruct Hi as (s' & -> & ?). by exists s'.
  - destruct (remove_holds s L x fuel Hh Hc Hf) as (s' & -> & ?). by exists s'.
  - exists s. split; [|done]. unfold opr_rbtree_lookup, bind. rewrite (get_root_run s L t Hs).
    rewrite (lookup_loop_run cmpf L s fuel x [] t) by (done || lia). assert (elems t = L) as HL by apply Hs.
    rewrite <- HL in Hsort |- *. pose proof (descend_list x t Hsort) as Hd. destruct (descend cmpf x [] t); [by rewrite Hd|].
    destruct Hd as (_ & _ & _ & ->). done.
  - exists s. split; [|done]. by rewrite (first_run L s fuel t) by (done || lia).
  - exists s. split; [|done]. by rewrite (last_run L s fuel t) by (done || lia).
  - exists s. split; [|done]. destruct (neighbours s L x fuel Hh Hc Hf) as [-> _]. done.
  - exists s. split; [|done]. destruct (neighbours s L x fuel Hh Hc Hf) as [_ ->]. done.
  - exists s. split; [|done]. by rewrite (valid_run s L x Hh Hc).
  - exists s. split; [|done]. unfold opr_rbtree_size, gets. by rewrite Hsz.
Qed.

End Refine.

(** ** The theorems *)

Section Sequences.
  Context (cmpf : positive -> positive -> Z).

Fixpoint exec_all (fuel : nat) (cs : list call) : ST rbs (list answer) :=
  match cs with
  | [] => ret []
  | c :: cs => a <- exec cmpf fuel c ;; rest <- exec_all fuel cs ;; ret (a :: rest)
  end.

Fixpoint on_list_all (cs : list call) (L : list positive) : list answer * list positive :=
  match cs with
  | [] => ([], L)
  | c :: cs => let '(a, L) := on_list cmpf c L in let '(rest, L) := on_list_all cs L in (a :: rest, L)
  end.

Fixpoint calls_ok (nodes : gset positive) (cs : list call) (L : list positive) : Prop :=
  match cs with
  | [] => True
  | c :: cs => call_ok nodes c L /\ calls_ok nodes cs (on_list cmpf c L).2
  end.

Lemma exec_all_holds {order : CmpOrder cmpf} nodes fuel cs s L :
  holds cmpf nodes s L -> calls_ok nodes cs L -> enough nodes fuel ->
  exists s', exec_all fuel cs s = Some ((on_list_all cs L).1, s') /\ holds cmpf nodes s' (on_list_all cs L).2.
Proof.
  revert s L. induction cs as [|c cs IH]; intros s L Hh Hc Hf; [by exists s|]. destruct Hc as [Hc Hcs].
  destruct (exec_holds cmpf nodes s L c fuel Hh Hc Hf) as (s1 & Hs1 & Hh1).
  cbn [exec_all on_list_all]. unfold bind. rewrite Hs1. destruct (on_list cmpf c L) as [a L1]. cbn [fst snd] in *.
  destruct (IH s1 L1 Hh1 Hcs Hf) as (s2 & -> & Hh2). exists s2. by destruct (on_list_all cs L1).
Qed.

#[global] Instance call_ok_dec nodes c L : Decision (call_ok nodes c L).
Proof. destruct c; unfold call_ok; apply _. Defined.

#[global] Instance calls_ok_dec nodes cs L : Decision (calls_ok nodes cs L).
Proof. revert L. induction cs; intros L; cbn [calls_ok]; apply _. Defined.

End Sequences.

(** C24: The red-black trees of libntirpc are sorted sets: from an initialised tree, and
    nodes that were never in one, any sequence of insertions, removals, searches and
    steps to neighbours runs to its end, within [2 log2 (n + 1) + 2] rounds of each loop
    for [n] nodes, with the answers of a sorted list; at the end the memory holds the
    tree of that list, in order, red and black, with the right size. *)
Theorem rbtree_refines_list cmpf nodes fuel cs m :
  CmpOrder cmpf -> enough nodes fuel -> calls_ok cmpf nodes cs [] ->
  dom m = nodes -> (forall z n, m !! z = Some n -> nd_gen n = 0) ->
  exists s', exec_all cmpf fuel cs (mk_rbs opr_rbtree_init m) = Some ((on_list_all cmpf cs []).1, s') /\
    holds cmpf nodes s' (on_list_all cmpf cs []).2.
Proof.
  intros Ho Hf Hc Hd Hg. apply exec_all_holds; [done| |done|done]. split_and!.
  - exists E. split; [|exists 0%nat; constructor]. split; [|done]. split; [done|split; [done|constructor]].
  - constructor.
  - done.
  - done.
  - intros z n Hz _. by eapply Hg.
Qed.

(** A node takes the place of one with the same key: the tree is the old one with the new
    node in it.  The node that was replaced still has a generation, so
    [opr_rbtree_node_valid] holds of it although no path leads to it. *)
Theorem rbtree_replace cmpf nodes s L1 x L2 y :
  CmpOrder cmpf -> holds cmpf nodes s (L1 ++ x :: L2) -> y ∈ nodes -> y ∉ L1 ++ x :: L2 -> fits cmpf y L1 L2 ->
  exists s', opr_rbtree_replace x y s = Some (tt, s') /\
    (exists t, shape (L1 ++ y :: L2) s' [] t /\ red_black t) /\ StronglySorted (less cmpf) (L1 ++ y :: L2) /\
    rb_size (rb_head s') = u64 (Z.of_nat (length (L1 ++ y :: L2))) /\
    opr_rbtree_node_valid x s' = Some (true, s') /\ opr_rbtree_node_valid y s' = Some (true, s').
Proof.
  intros Ho Hh Hy HyL Hfit. pose proof Hh as ((t & Hs & Hrb) & Hsort & Hdom & Hsz & _).
  rewrite <- Hdom in Hy. apply elem_of_dom in Hy as [n My]. assert (elems t = L1 ++ x :: L2) as HL by apply Hs.
  assert (x ∈ elems t) as Hx by (rewrite HL; apply elem_of_app; right; by left).
  apply elem_focus in Hx as (k & c & l & r & ->).
  assert (shape (L1 ++ x :: L2) s k (T c l x r)) as Hs' by (by apply shape_plug).
  pose proof (rep_nodup _ _ _ (proj1 Hs')) as Hnd. rewrite HL in Hnd.
  destruct (replace_run s k c l x r y n (proj1 Hs')) as (s1 & Hs1 & Hr1 & Mx1 & Hsz1 & _); [by rewrite HL|done|].
  rewrite plug_elems in HL. cbn [elems] in HL. rewrite <- app_assoc in HL. cbn [app] in HL. rewrite app_assoc in HL.
  destruct (nodup_split _ _ _ _ _ Hnd (eq_sym HL)) as [-> ->].
  exists s1. split; [done|]. split; [|split_and!].
  - exists (plug k (T c l y r)). split.
    + apply (proj1 (shape_plug _ _ _ _)). split; [done|]. rewrite plug_elems. cbn [elems]. rewrite <- !app_assoc. cbn [app].
      by rewrite <- ?app_assoc.
    + apply rb_unplug in Hrb as (b & c' & h & Hk & Ht & Hb). eapply rb_plug; [exact Hk| |exact Hb]. inversion Ht; subst; by econstructor.
  - eapply sorted_insert; [by eapply sorted_remove|done].
  - rewrite Hsz1, Hsz, !length_app. done.
  - destruct (proj1 Hs') as (_ & ((g & Hg & Mx) & _) & _). rewrite Mx in Mx1. unfold opr_rbtree_node_valid, bind.
    rewrite (load_eq s1 x _ Mx1). unfold ret. by rewrite bool_decide_true.
  - destruct Hr1 as (_ & ((g & Hg & My1) & _) & _). unfold opr_rbtree_node_valid, bind.
    rewrite (load_eq s1 y _ My1). unfold ret. by rewrite bool_decide_true.
Qed.

(** ** Examples *)

(** Nodes whose addresses are their keys. *)
Definition pos_cmp (a b : positive) : Z := match Pos.compare a b with Lt => -1 | Eq => 0 | Gt => 1 end.

#[global] Instance pos_cmp_order : CmpOrder pos_cmp.
Proof.
  split; unfold pos_cmp; intros *.
  - destruct (Pos.compare_spec a b), (Pos.compare_spec b a); lia.
  - destruct (Pos.compare_spec a b), (Pos.compare_spec b c), (Pos.compare_spec a c); lia.
  - destruct (Pos.compare_spec a a); lia.
  - intros H1 H2 c. destruct (Pos.compare_spec a b); [subst|lia..]. done.
Qed.

Definition unused : opr_rbtree_node := mk_node None None None false 0.
Definition demo_nodes : gset positive := {[1; 2; 3; 4; 5; 6; 7]}%positive.
Definition demo_memory : memory := gset_to_gmap unused demo_nodes.
Definition demo_calls : list call :=
  [Insert 4; Insert 2; Insert 6; Insert 1; Insert 3; Insert 5; Insert 7; Remove 4; Insert 3; Next 3; Prev 5; Remove 1; First;
   Last; Valid 1; Lookup 4; Size]%positive.

Lemma rbtree_refines_list_witness :
  exists s', exec_all pos_cmp 10 demo_calls (mk_rbs opr_rbtree_init demo_memory) =
    Some ([Node None; Node None; Node None; Node None; Node None; Node None; Node None; Done; Node (Some 3%positive);
           Node (Some 5%positive); Node (Some 3%positive); Done; Node (Some 2%positive); Node (Some 7%positive); Flag false;
           Node None; Count 5], s') /\ holds pos_cmp demo_nodes s' [2; 3; 5; 6; 7]%positive.
Proof.
  destruct (rbtree_refines_list pos_cmp demo_nodes 10 demo_calls demo_memory) as (s' & Hrun & Hh).
  - apply _.
  - apply Nat.leb_le. vm_compute. reflexivity.
  - apply (bool_decide_unpack _). vm_compute. reflexivity.
  - vm_compute. reflexivity.
  - intros z n. unfold demo_memory. rewrite lookup_gset_to_gmap_Some. by intros [_ <-].
  - exists s'. split; [rewrite Hrun; reflexivity|exact Hh].
Defined.
