(* ===== verification/WorkPool.v ===== *)
(** * The pool of worker threads

    [src/libntirpc/src/work_pool.c], [ntirpc/rpc/work_pool.h] and
    [ntirpc/rpc/pool_queue.h].  Unlike the rest of the development this file lets threads
    interleave: the pool and its threads are one state, and an [action] is what one
    thread does between two points at which others can run, that is from a lock of
    [qmutex] to its release or from a release to the next lock.  Everything the threads
    share is accessed with [qmutex] held, but for the test at the start of
    [work_pool_submit]. *)
From S2P Require Import Prelude.

Open Scope Z_scope.
Open Scope dnfs_scope.

(** ** Data *)

(** Pointers to [struct work_pool_entry] and to [struct work_pool_thread]. *)
Abbreviation work := positive (only parsing).
Abbreviation wptr := positive (only parsing).

(** [struct work_pool] with the [poolq_head] it starts with. *)
Record work_pool := mk_pool {
  qh : list work;
  qcount : Z;
  wptqh : list wptr;
  thrd_max : Z;
  thrd_min : Z;
  timeout_ms : Z;
  n_threads : Z;
  pool_index : Z }.
#[global] Instance eta_work_pool : RecEta work_pool := fun p =>
  mk_pool (qh p) (qcount p) (wptqh p) (thrd_max p) (thrd_min p) (timeout_ms p) (n_threads p) (pool_index p).

(** Where a thread is when it does not hold [qmutex]: about to lock it for the first
    time, about to spawn another thread, in [work->fun], about to lock after that, or in
    [pthread_cond_timedwait]. *)
Inductive point := AtStart | AtSpawn | AtCall | AtLock | AtWait.
#[global] Instance point_eq_dec : EqDecision point.
Proof. solve_decision. Defined.

(** [struct work_pool_thread]; [signalled] is the state of [pqcond]. *)
Record work_pool_thread := mk_wpt {
  wpt_work : option work;
  wpt_index : Z;
  wakeup : bool;
  signalled : bool;
  wpt_at : point }.
#[global] Instance eta_work_pool_thread : RecEta work_pool_thread := fun x =>
  mk_wpt (wpt_work x) (wpt_index x) (wakeup x) (signalled x) (wpt_at x).

(** How far [work_pool_shutdown] is. *)
Inductive phase := Open | Draining | Shut.
#[global] Instance phase_eq_dec : EqDecision phase.
Proof. solve_decision. Defined.

(** [submitting]: the entries of the calls of [work_pool_submit] between the test of
    [thrd_max] and the lock.  The last four only record what happened: the threads
    that could not be created, the entries put into the queue and taken from it, in
    this order, and those whose function has returned. *)
Record pool_state := mk_ps {
  pool : work_pool;
  wpts : gmap positive work_pool_thread;
  work_wpt : gmap positive positive;
  submitting : list work;
  shutdown : phase;
  failed : Z;
  accepted : list work;
  taken : list work;
  finished : list work }.
#[global] Instance eta_pool_state : RecEta pool_state := fun s =>
  mk_ps (pool s) (wpts s) (work_wpt s) (submitting s) (shutdown s) (failed s) (accepted s) (taken s) (finished s).

(** [None]: an assertion fails, a list is left that one is not in, or a mutex is used
    that does not exist any more. *)
Abbreviation P := (ST pool_state).

Definition get_pool : P work_pool := gets pool.
Definition set_pool (f : work_pool -> work_pool) : P unit := modify (fun s => s <| pool := f (pool s) |>).
Definition get_wpt (t : wptr) : P work_pool_thread := fun s =>
  match wpts s !! t with Some x => Some (x, s) | None => None end.
Definition set_wpt (t : wptr) (f : work_pool_thread -> work_pool_thread) : P unit :=
  x <- get_wpt t ;; modify (fun s => s <| wpts := <[t := f x]> (wpts s) |>).

(** [pthread_mutex_lock(&pool->pqh.qmutex)] *)
Definition lock : P unit := z <- gets shutdown ;; if decide (z = Shut) then abort else ret tt.

(** [TAILQ_REMOVE]; the entry is in the list. *)
Fixpoint TAILQ_REMOVE (x : positive) (l : list positive) : option (list positive) :=
  match l with
  | [] => None
  | y :: l => if decide (x = y) then Some l else cons y <$> TAILQ_REMOVE x l
  end.

Definition wptqh_remove (t : wptr) : P unit :=
  p <- get_pool ;;
  match TAILQ_REMOVE t (wptqh p) with
  | Some q => set_pool (fun p => p <| wptqh := q |>)
  | None => abort
  end.

(** ** The worker *)

Definition WORK_POOL_TIMEOUT_MS : Z := 31 * 1000.
Definition ETIMEDOUT : Z := 110.

(** From the test of [wpt->work] to the release of the mutex. *)
Definition serve (t : wptr) (w : work) : P unit :=
  modify (fun s => s <| work_wpt := <[w := t]> (work_wpt s) |>) ;;
  p <- get_pool ;;
  let spawn := bool_decide (qcount p < thrd_min p) && bool_decide (n_threads p < u32 (thrd_max p)) in
  (if (spawn : bool) then set_pool (fun p => p <| n_threads := u32 (n_threads p + 1) |>) else ret tt) ;;
  set_wpt t (fun x => x <| wpt_at := if spawn then AtSpawn else AtCall |>).

(** The rest of the body up to [pthread_cond_timedwait]: with an entry in the queue,
    [continue] leads to the top of the loop with [wpt->work] set. *)
Definition take_or_wait (t : wptr) : P unit :=
  p <- get_pool ;;
  match qh p with
  | have :: rest =>
      set_pool (fun p => p <| qh := rest |>) ;;
      modify (fun s => s <| taken := taken s ++ [have] |>) ;;
      set_wpt t (fun x => x <| wpt_work := Some have |>) ;;
      serve t have
  | [] =>
      set_pool (fun p => p <| qcount := i32 (qcount p + 1) |>) ;;
      set_pool (fun p => p <| wptqh := wptqh p ++ [t] |>) ;;
      set_wpt t (fun x => x <| wakeup := false |> <| signalled := false |> <| wpt_at := AtWait |>)
  end.

Definition loop_top (t : wptr) : P unit :=
  x <- get_wpt t ;;
  match wpt_work x with Some w => serve t w | None => take_or_wait t end.

(** Behind the loop: the thread ends. *)
Definition thread_end (t : wptr) : P unit :=
  set_pool (fun p => p <| n_threads := u32 (n_threads p - 1) |>) ;;
  modify (fun s => s <| wpts := delete t (wpts s) |>).

(** The condition of the loop, where [continue] goes. *)
Definition loop_test (t : wptr) : P unit :=
  x <- get_wpt t ;;
  p <- get_pool ;;
  if bool_decide (wpt_work x <> None) || wakeup x || bool_decide (qcount p < thrd_min p)
  then loop_top t else thread_end t.

(** The start of [work_pool_thread]. *)
Definition work_pool_thread_start (t : wptr) : P unit :=
  lock ;;
  set_pool (fun p => p <| pool_index := u32 (pool_index p + 1) |>) ;;
  p <- get_pool ;;
  set_wpt t (fun x => x <| wpt_index := pool_index p |>) ;;
  loop_top t.

(** [wpt->work->fun(wpt->work)] has returned. *)
Definition fun_returned (t : wptr) : P unit :=
  x <- get_wpt t ;;
  match wpt_work x with
  | Some w => modify (fun s => s <| finished := finished s ++ [w] |>)
  | None => abort
  end ;;
  set_wpt t (fun x => x <| wpt_work := None |> <| wpt_at := AtLock |>).

(** [pthread_cond_timedwait] has returned [rc], with the mutex locked again. *)
Definition waited (t : wptr) (rc : Z) : P unit :=
  lock ;;
  x <- get_wpt t ;;
  if decide (rc = 0 /\ wakeup x = true) then loop_test t
  else if negb (wakeup x) then
    set_pool (fun p => p <| qcount := i32 (qcount p - 1) |>) ;;
    wptqh_remove t ;;
    if decide (rc <> 0 /\ rc <> ETIMEDOUT) then thread_end t else loop_test t
  else loop_test t.

(** [mem_zalloc] gives the address [t], [pthread_create] returns [rc]. *)
Definition work_pool_spawn (t : wptr) (rc : Z) : P Z :=
  if decide (rc <> 0) then modify (fun s => s <| failed := failed s + 1 |>) ;; ret rc
  else modify (fun s => s <| wpts := <[t := mk_wpt None 0 false false AtStart]> (wpts s) |>) ;; ret 0.

(** The thread spawns another one, then calls the function of its entry. *)
Definition spawn_another (t : wptr) (new : wptr) (rc : Z) : P unit :=
  work_pool_spawn new rc ;;
  set_wpt t (fun x => x <| wpt_at := AtCall |>).

(** ** The interface *)

(** The return codes are those of the four calls on the attributes and of
    [pthread_create]. *)
Definition work_pool_init (max min : Z) (rc_init rc_scope rc_detach rc_stack : Z) (t : wptr) (rc_create : Z)
  : option (Z * pool_state) :=
  let min := if decide (min < 1) then 1 else min in
  let max := if decide (max < min) then min else max in
  let s := mk_ps (mk_pool [] 0 [] max min WORK_POOL_TIMEOUT_MS 0 0) ∅ ∅ [] Open 0 [] [] [] in
  if decide (rc_init <> 0) then Some (rc_init, s)
  else if decide (rc_scope <> 0) then Some (rc_scope, s)
  else if decide (rc_detach <> 0) then Some (rc_detach, s)
  else (set_pool (fun p => p <| n_threads := 1 |>) ;; work_pool_spawn t rc_create) s.

(** [work_pool_submit] up to the lock, and from there; it returns 0 in any case. *)
Definition submit_test (w : work) : P unit :=
  p <- get_pool ;;
  if decide (thrd_max p = 0) then ret tt
  else modify (fun s => s <| submitting := w :: submitting s |>).

(** The links of the queue are in the entry itself, so an entry that is still in the queue
    must not be submitted again: a [work] stands for one submission of an entry.  The callers
    keep to this: a transport's entry is submitted by the event that its re-arming allows
    once, and requests, replies and calls have an entry of their own. *)
Definition submit_locked (w : work) : P unit :=
  lock ;;
  modify (fun s => s <| submitting := default [] (TAILQ_REMOVE w (submitting s)) |> <| accepted := accepted s ++ [w] |>) ;;
  set_pool (fun p => p <| qh := qh p ++ [w] |>) ;;
  p <- get_pool ;;
  match list.last (wptqh p) with
  | Some t =>
      set_pool (fun p => p <| qcount := i32 (qcount p - 1) |>) ;;
      wptqh_remove t ;;
      x <- get_wpt t ;;
      (if wakeup x then abort else ret tt) ;;
      set_wpt t (fun x => x <| wakeup := true |> <| signalled := true |>)
  | None => if decide (qcount p = 0) then ret tt else abort
  end.

(** The loop that signals every waiting thread. *)
Fixpoint signal_all (q : list wptr) : P unit :=
  match q with
  | [] => ret tt
  | t :: q => set_wpt t (fun x => x <| signalled := true |>) ;; signal_all q
  end.

(** [work_pool_shutdown] up to the first sleep, and its end. *)
Definition shutdown_begin : P unit :=
  lock ;;
  set_pool (fun p => p <| timeout_ms := 1 |> <| thrd_max := 0 |> <| thrd_min := 0 |>) ;;
  p <- get_pool ;;
  signal_all (wptqh p) ;;
  modify (fun s => s <| shutdown := Draining |>).

Definition shutdown_end : P unit := modify (fun s => s <| shutdown := Shut |>).

(** ** Interleaving *)

Inductive action :=
  | Start (t : wptr)
  | Spawn (t new : wptr) (rc : Z)
  | Return (t : wptr)
  | Relock (t : wptr)
  | Waited (t : wptr) (rc : Z)
  | SubmitTest (w : work)
  | SubmitLocked (w : work)
  | ShutdownBegin
  | ShutdownEnd.

Definition exec (a : action) : P unit :=
  match a with
  | Start t => work_pool_thread_start t
  | Spawn t new rc => spawn_another t new rc
  | Return t => fun_returned t
  | Relock t => lock ;; take_or_wait t
  | Waited t rc => waited t rc
  | SubmitTest w => submit_test w
  | SubmitLocked w => submit_locked w
  | ShutdownBegin => shutdown_begin
  | ShutdownEnd => shutdown_end
  end.

Definition at_point (s : pool_state) (t : wptr) (q : point) : Prop := wpt_at <$> wpts s !! t = Some q.

(** When an action can happen.  A wait can end at any time: signalled, timed out, or
    for no reason. *)
Definition enabled (a : action) (s : pool_state) : Prop :=
  match a with
  | Start t => at_point s t AtStart
  | Spawn t new rc => at_point s t AtSpawn /\ wpts s !! new = None
  | Return t => at_point s t AtCall
  | Relock t => at_point s t AtLock
  | Waited t rc => at_point s t AtWait
  | SubmitTest w => True
  | SubmitLocked w => w ∈ submitting s
  | ShutdownBegin => shutdown s = Open
  | ShutdownEnd => shutdown s = Draining /\ n_threads (pool s) = 0
  end.
#[global] Instance enabled_dec a s : Decision (enabled a s).
Proof. destruct a; simpl; unfold at_point; apply _. Defined.

(** An execution in which every action is one that [ok] allows. *)
Definition pool_step (ok : pool_state -> action -> Prop) (s s' : pool_state) : Prop :=
  exists a, ok s a /\ enabled a s /\ exec a s = Some (tt, s').
Definition any_action (s : pool_state) (a : action) : Prop := True.

(** No thread fails to be created, no wait fails, and [work_pool_shutdown] is not called
    while a submission is under way. *)
Definition no_failure (s : pool_state) (a : action) : Prop :=
  match a with
  | Spawn t new rc => rc = 0
  | Waited t rc => rc = 0 \/ rc = ETIMEDOUT
  | ShutdownBegin => submitting s = []
  | _ => True
  end.

(** The states of a pool that [work_pool_init] has set up. *)
Definition pool_reachable (ok : pool_state -> action -> Prop) (max min : Z) (s : pool_state) : Prop :=
  exists t rc_stack s0, work_pool_init max min 0 0 0 rc_stack t 0 = Some (0, s0) /\ rtc (pool_step ok) s0 s.
