(* ===== verification/WorkPoolInv.v ===== *)
(** * The invariant of the pool of worker threads

    What holds of the pool of [WorkPool] between any two actions: how the counters, the
    list of waiting threads and the queue relate to what the threads are doing.  [effect]
    lists the outcomes of every action; the invariant, what holds besides without
    failures, and the effort that is left are shown over it. *)
From S2P Require Import Prelude WorkPool.

Open Scope Z_scope.
Open Scope dnfs_scope.

(** ** Counting threads *)

(** The sum of a weight over the threads, and the number of threads of a kind. *)
Definition total (g : work_pool_thread -> Z) (m : gmap positive work_pool_thread) : Z := map_fold (fun _ x n => g x + n) 0 m.
Definition cnt (f : work_pool_thread -> bool) : gmap positive work_pool_thread -> Z := total (fun x => Z.b2z (f x)).

Lemma total_new g m t x : m !! t = None -> total g (<[t := x]> m) = g x + total g m.
Proof. intros Ht. unfold total. rewrite map_fold_insert_L; [done|intros; lia|done]. Qed.

Lemma total_put g m t x : total g (<[t := x]> m) = g x + total g (delete t m).
Proof. rewrite <- insert_delete_eq. apply total_new, lookup_delete_eq. Qed.

Lemma total_out g m t x : m !! t = Some x -> total g m = g x + total g (delete t m).
Proof. intros Ht. by rewrite <- (insert_id m t x) at 1; [apply total_put|]. Qed.

Lemma cnt_new f m t x : m !! t = None -> cnt f (<[t := x]> m) = Z.b2z (f x) + cnt f m.
Proof. apply total_new. Qed.

Lemma cnt_put f m t x : cnt f (<[t := x]> m) = Z.b2z (f x) + cnt f (delete t m).
Proof. apply (total_put (fun x => Z.b2z (f x))). Qed.

Lemma cnt_out f m t x : m !! t = Some x -> cnt f m = Z.b2z (f x) + cnt f (delete t m).
Proof. apply total_out. Qed.

Lemma cnt_nonneg f m : 0 <= cnt f m.
Proof.
  induction m as [|t x m Ht IH] using map_ind; [done|]. rewrite cnt_new by done. pose proof (Z.b2z_bit0 (f x)).
  destruct (f x); simpl; lia.
Qed.

Lemma cnt_le f g m : (forall t x, m !! t = Some x -> f x = true -> g x = true) -> cnt f m <= cnt g m.
Proof.
  induction m as [|t x m Ht IH] using map_ind; intros Hfg; [done|]. rewrite !cnt_new by done.
  assert (cnt f m <= cnt g m).
  { apply IH. intros t' x' Hx. apply (Hfg t'). rewrite lookup_insert_ne; [done|]. by intros ->; rewrite Hx in Ht. }
  specialize (Hfg t x (lookup_insert_eq _ _ _)). destruct (f x), (g x); simpl in *; lia || by specialize (Hfg eq_refl).
Qed.

Lemma cnt_pos f m : 1 <= cnt f m <-> exists t x, m !! t = Some x /\ f x = true.
Proof.
  split.
  - induction m as [|t x m Ht IH] using map_ind; [done|]. rewrite cnt_new by done.
    intros Hp. destruct (f x) eqn:Hf; [by exists t, x; rewrite lookup_insert_eq|].
    simpl in Hp. destruct IH as (t' & x' & Hx & Hf'); [lia|]. exists t', x'. split; [|done].
    rewrite lookup_insert_ne; [done|]. by intros ->; rewrite Hx in Ht.
  - intros (t & x & Hx & Hf). rewrite (cnt_out _ _ _ _ Hx), Hf. pose proof (cnt_nonneg f (delete t m)). simpl. lia.
Qed.

Lemma cnt_zero f m : cnt f m = 0 <-> forall t x, m !! t = Some x -> f x = false.
Proof.
  pose proof (cnt_nonneg f m). split.
  - intros Hz t x Hx. destruct (f x) eqn:Hf; [|done]. assert (1 <= cnt f m) by (apply cnt_pos; eauto). lia.
  - intros Hz. destruct (decide (1 <= cnt f m)) as [(t & x & Hx & Hf)%cnt_pos|]; [|lia]. by rewrite (Hz t x Hx) in Hf.
Qed.

(** How often an entry is in a list. *)
Definition occ (k : work) (l : list work) : Z := Z.of_nat (count_occ Pos.eq_dec l k).

Lemma occ_app k l1 l2 : occ k (l1 ++ l2) = occ k l1 + occ k l2.
Proof. unfold occ. rewrite count_occ_app. lia. Qed.

Lemma occ_one k w : occ k [w] = Z.b2z (bool_decide (w = k)).
Proof. unfold occ. simpl. destruct (Pos.eq_dec w k); [by rewrite bool_decide_true|by rewrite bool_decide_false]. Qed.

(** ** What holds at every point *)

(** A thread in the list of waiting threads, one that was taken from it, and the others
    that can go on by themselves. *)
Definition waits (x : work_pool_thread) : bool := match wpt_at x with AtWait => negb (wakeup x) | _ => false end.
Definition woken (x : work_pool_thread) : bool := match wpt_at x with AtWait => wakeup x | _ => false end.
Definition awake (x : work_pool_thread) : bool := negb (waits x).
Definition spawning (x : work_pool_thread) : bool := match wpt_at x with AtSpawn => true | _ => false end.
Definition free_handed (x : work_pool_thread) : bool := match wpt_at x with AtCall => false | _ => true end.
Definition has_work (k : work) (x : work_pool_thread) : bool :=
  match wpt_work x with Some w => bool_decide (w = k) | None => false end.
Definition alive (x : work_pool_thread) : bool := true.
#[global] Arguments waits x /.
#[global] Arguments woken x /.
#[global] Arguments awake x /.
#[global] Arguments spawning x /.
#[global] Arguments free_handed x /.
#[global] Arguments has_work k x /.
#[global] Arguments alive x /.

(** A thread has an entry exactly from taking it to the return of its function. *)
Definition well (x : work_pool_thread) : Prop :=
  (wpt_work x <> None <-> wpt_at x = AtSpawn \/ wpt_at x = AtCall) /\ (woken x = true -> signalled x = true).

(** The list of waiting threads. *)
Definition queue_ok (q : list wptr) (m : gmap positive work_pool_thread) : Prop :=
  NoDup q /\ forall t, t ∈ q <-> exists x, m !! t = Some x /\ waits x = true.

Lemma remove_split t q : t ∈ q -> exists l1 l2, q = l1 ++ t :: l2 /\ TAILQ_REMOVE t q = Some (l1 ++ l2).
Proof.
  induction q as [|y q IH]; [by intros ?%not_elem_of_nil|]. intros Ht. simpl.
  destruct (decide (t = y)) as [->|Hne]; [by exists [], q|].
  destruct IH as (l1 & l2 & -> & Hr); [by apply elem_of_cons in Ht as [?|?]|]. exists (y :: l1), l2. by rewrite Hr.
Qed.

Lemma queue_ok_delete q m t x : queue_ok q m -> m !! t = Some x -> waits x = false -> queue_ok q (delete t m).
Proof.
  intros [Hn Hq] Hx Hw. split; [done|]. intros t'. rewrite Hq. destruct (decide (t' = t)) as [->|Hne].
  - rewrite lookup_delete_eq. split; intros (x' & Hx' & Hw'); congruence.
  - by rewrite lookup_delete_ne.
Qed.

Lemma queue_ok_put q m t x : queue_ok q (delete t m) -> waits x = false -> queue_ok q (<[t := x]> m).
Proof.
  intros [Hn Hq] Hw. split; [done|]. intros t'. rewrite Hq. destruct (decide (t' = t)) as [->|Hne].
  - rewrite lookup_delete_eq, lookup_insert_eq. split; intros (x' & Hx' & Hw'); congruence.
  - by rewrite lookup_delete_ne, lookup_insert_ne.
Qed.

Lemma queue_ok_push q m t x : queue_ok q (delete t m) -> waits x = true -> queue_ok (q ++ [t]) (<[t := x]> m).
Proof.
  intros [Hn Hq] Hw. assert (Ht : t ∉ q) by (rewrite Hq, lookup_delete_eq; by intros (? & ? & ?)).
  split.
  - apply list.NoDup_app. split_and!; [done| |apply NoDup_singleton]. by intros t' Ht' ->%list_elem_of_singleton.
  - intros t'. rewrite elem_of_app, list_elem_of_singleton, Hq. destruct (decide (t' = t)) as [->|Hne].
    + rewrite lookup_insert_eq. split; [eauto|by right].
    + rewrite lookup_delete_ne, lookup_insert_ne by done. split; [intros [?|?]; done|by left].
Qed.

Lemma queue_ok_pop q m t x :
  queue_ok q m -> m !! t = Some x -> waits x = true ->
  exists q', TAILQ_REMOVE t q = Some q' /\ length q = S (length q') /\ queue_ok q' (delete t m).
Proof.
  intros [Hn Hq] Hx Hw. destruct (remove_split t q) as (l1 & l2 & -> & Hr); [apply Hq; eauto|].
  apply list.NoDup_app in Hn as (Hn1 & Hd & [Ht Hn2]%list.NoDup_cons).
  exists (l1 ++ l2). rewrite !length_app; simpl. split_and!; [done|lia|]. split.
  - apply list.NoDup_app. split_and!; [done| |done]. intros y Hy1 Hy2. apply (Hd y Hy1). by right.
  - intros t'. specialize (Hq t'). rewrite elem_of_app, elem_of_cons in Hq. rewrite elem_of_app.
    destruct (decide (t' = t)) as [->|Hne].
    + rewrite lookup_delete_eq. split; [|by intros (? & ? & ?)].
      intros [H1|H2]; [|done]. exfalso. apply (Hd t H1). by left.
    + rewrite lookup_delete_ne by done. rewrite <- Hq. tauto.
Qed.

Lemma well_put (m : gmap positive work_pool_thread) t x :
  map_Forall (fun _ x => well x) (delete t m) -> well x -> map_Forall (fun _ x => well x) (<[t := x]> m).
Proof. intros Hm Hx. rewrite <- insert_delete_eq. by apply map_Forall_insert_2. Qed.

(** The two ways a critical section goes on: with the next entry, or waiting. *)
Definition spawns (p : work_pool) : bool := bool_decide (qcount p < thrd_min p) && bool_decide (n_threads p < u32 (thrd_max p)).

Definition serving (t : wptr) (x : work_pool_thread) (w : work) (rest : list work) (s : pool_state) : pool_state :=
  let spawn := spawns (pool s) in
  s <| pool := (pool s) <| qh := rest |> <| n_threads := if spawn then u32 (n_threads (pool s) + 1) else n_threads (pool s) |> |>
    <| wpts := <[t := x <| wpt_work := Some w |> <| wpt_at := if spawn then AtSpawn else AtCall |>]> (wpts s) |>
    <| work_wpt := <[w := t]> (work_wpt s) |> <| taken := taken s ++ [w] |>.

Definition waiting (t : wptr) (x : work_pool_thread) (s : pool_state) : pool_state :=
  s <| pool := (pool s) <| qcount := i32 (qcount (pool s) + 1) |> <| wptqh := wptqh (pool s) ++ [t] |> |>
    <| wpts := <[t := x <| wakeup := false |> <| signalled := false |> <| wpt_at := AtWait |>]> (wpts s) |>.

Definition onward (t : wptr) (x : work_pool_thread) (s : pool_state) : pool_state :=
  match qh (pool s) with w :: rest => serving t x w rest s | [] => waiting t x s end.

Lemma set_wpt_run t f x s : wpts s !! t = Some x -> set_wpt t f s = Some (tt, s <| wpts := <[t := f x]> (wpts s) |>).
Proof. intros Hx. unfold set_wpt, get_wpt, bind. by rewrite Hx. Qed.

Lemma take_or_wait_run t x s : wpts s !! t = Some x -> take_or_wait t s = Some (tt, onward t x s).
Proof.
  intros Hx. unfold take_or_wait, onward, bind, get_pool, gets. destruct (qh (pool s)) as [|w rest] eqn:Hq.
  - unfold set_pool, modify. by erewrite set_wpt_run by (simpl; exact Hx).
  - unfold set_pool, modify. erewrite set_wpt_run by (simpl; exact Hx). unfold serve, bind, modify, get_pool, gets, set_pool. cbn.
    unfold serving, spawns. destruct (_ && _); unfold modify, ret; erewrite set_wpt_run by apply lookup_insert_eq; cbn; by rewrite insert_insert_eq.
Qed.

Lemma loop_top_run t x s : wpts s !! t = Some x -> wpt_work x = None -> loop_top t s = Some (tt, onward t x s).
Proof. intros Hx Hw. unfold loop_top, bind, get_wpt. rewrite Hx, Hw. by apply take_or_wait_run. Qed.

(** A waiting thread leaves the list; a thread ends. *)
Definition dequeued (t : wptr) (s : pool_state) : pool_state :=
  s <| pool := (pool s) <| qcount := i32 (qcount (pool s) - 1) |> <| wptqh := default [] (TAILQ_REMOVE t (wptqh (pool s))) |> |>.
Definition ended (t : wptr) (s : pool_state) : pool_state :=
  s <| pool := (pool s) <| n_threads := u32 (n_threads (pool s) - 1) |> |> <| wpts := delete t (wpts s) |>.

(** How a wait goes on: a thread that nobody woke leaves, and stays only if too few wait. *)
Definition resumed (t : wptr) (x : work_pool_thread) (rc : Z) (s : pool_state) : pool_state :=
  if wakeup x then onward t x s
  else if decide (rc <> 0 /\ rc <> ETIMEDOUT) then ended t (dequeued t s)
  else if decide (qcount (pool (dequeued t s)) < thrd_min (pool s)) then onward t x (dequeued t s)
  else ended t (dequeued t s).

Lemma lock_run s : shutdown s <> Shut -> lock s = Some (tt, s).
Proof. intros Hs. unfold lock, bind, gets. by rewrite decide_False. Qed.

(** A new thread with its number. *)
Definition numbered (t : wptr) (x : work_pool_thread) (i : Z) (s : pool_state) : pool_state :=
  s <| pool := (pool s) <| pool_index := i |> |> <| wpts := <[t := x <| wpt_index := i |>]> (wpts s) |>.

Lemma start_run t x s :
  shutdown s <> Shut -> wpts s !! t = Some x -> wpt_work x = None -> exists i,
  work_pool_thread_start t s = Some (tt, onward t (x <| wpt_index := i |>) (numbered t x i s)).
Proof.
  intros Hs Hx Hw. exists (u32 (pool_index (pool s) + 1)). unfold work_pool_thread_start, bind. rewrite lock_run by done.
  unfold set_pool, modify, get_pool, gets. erewrite set_wpt_run by (simpl; exact Hx). apply loop_top_run; [apply lookup_insert_eq|done].
Qed.

Lemma loop_test_run t x s :
  wpts s !! t = Some x -> wpt_work x = None ->
  loop_test t s = Some (tt, if decide (wakeup x = true \/ qcount (pool s) < thrd_min (pool s)) then onward t x s else ended t s).
Proof.
  intros Hx Hw. unfold loop_test, bind, get_wpt, get_pool, gets. rewrite Hx, Hw. simpl.
  destruct (wakeup x); simpl; [by apply loop_top_run|].
  case_bool_decide; case_decide; try (exfalso; intuition congruence); [by apply loop_top_run|done].
Qed.

Lemma waited_run t x rc s :
  shutdown s <> Shut -> wpts s !! t = Some x -> wpt_work x = None -> (wakeup x = false -> t ∈ wptqh (pool s)) ->
  waited t rc s = Some (tt, resumed t x rc s).
Proof.
  intros Hs Hx Hw Hq. unfold waited, bind. rewrite lock_run by done. unfold get_wpt. rewrite Hx.
  unfold resumed. destruct (wakeup x) eqn:Hwake.
  - assert (Hl : loop_test t s = Some (tt, onward t x s)) by (erewrite loop_test_run by done; by rewrite decide_True by auto).
    by case_decide.
  - rewrite decide_False by intuition congruence. destruct (remove_split t _ (Hq eq_refl)) as (l1 & l2 & Hl & Hr).
    unfold dequeued, wptqh_remove, bind, get_pool, gets, set_pool, modify. simpl. rewrite Hr. simpl.
    destruct (decide (rc <> 0 /\ rc <> ETIMEDOUT)); [done|]. erewrite loop_test_run by (simpl; done). simpl.
    rewrite Hwake. repeat case_decide; try done; exfalso; intuition congruence.
Qed.

(** An entry is done. *)
Definition done_with (t : wptr) (x : work_pool_thread) (w : work) (s : pool_state) : pool_state :=
  s <| finished := finished s ++ [w] |> <| wpts := <[t := x <| wpt_work := None |> <| wpt_at := AtLock |>]> (wpts s) |>.

Lemma returned_run t x w s :
  wpts s !! t = Some x -> wpt_work x = Some w -> fun_returned t s = Some (tt, done_with t x w s).
Proof. intros Hx Hw. unfold fun_returned, bind, get_wpt. rewrite Hx, Hw. unfold modify. by erewrite set_wpt_run. Qed.

(** A submission that wakes a thread, and one that finds none. *)
Definition queued (w : work) (s : pool_state) : pool_state :=
  s <| submitting := default [] (TAILQ_REMOVE w (submitting s)) |> <| accepted := accepted s ++ [w] |>
    <| pool := (pool s) <| qh := qh (pool s) ++ [w] |> |>.
Definition wakes (t : wptr) (x : work_pool_thread) (s : pool_state) : pool_state :=
  dequeued t s <| wpts := <[t := x <| wakeup := true |> <| signalled := true |>]> (wpts s) |>.

Lemma submit_run w s :
  shutdown s <> Shut -> queue_ok (wptqh (pool s)) (wpts s) -> qcount (pool s) = Z.of_nat (length (wptqh (pool s))) ->
  exists s', submit_locked w s = Some (tt, s') /\
  ((wptqh (pool s) = [] /\ s' = queued w s) \/
   (exists t x, wpts s !! t = Some x /\ waits x = true /\ s' = wakes t x (queued w s))).
Proof.
  intros Hs [Hn Hq] Hc. unfold submit_locked, bind. rewrite lock_run by done. unfold modify, set_pool, get_pool, gets. simpl.
  destruct (list.last (wptqh (pool s))) as [t|] eqn:Hl.
  - assert (Ht : t ∈ wptqh (pool s)) by (apply last_Some in Hl as [l ->]; apply elem_of_app; right; by left).
    destruct (proj1 (Hq t) Ht) as (x & Hx & Hw). destruct (remove_split t _ Ht) as (l1 & l2 & _ & Hr).
    unfold modify, wptqh_remove, bind, get_pool, gets, set_pool, modify, get_wpt. simpl. rewrite Hr. simpl. rewrite Hx.
    assert (Hwk : wakeup x = false) by (revert Hw; simpl; destruct (wpt_at x), (wakeup x); done). rewrite Hwk.
    unfold ret. erewrite set_wpt_run by (simpl; exact Hx). eexists. split; [done|]. right. exists t, x.
    split_and!; [done..|]. unfold wakes, dequeued, queued. simpl. by rewrite Hr.
  - apply last_None in Hl. rewrite decide_True by (rewrite Hc, Hl; done). eexists. split; [done|]. by left.
Qed.

(** The signals of [work_pool_shutdown]. *)
Definition signal (x : work_pool_thread) : work_pool_thread := x <| signalled := true |>.

Lemma signal_all_run q s :
  (forall t, t ∈ q -> exists x, wpts s !! t = Some x) -> exists m,
  signal_all q s = Some (tt, s <| wpts := m |>) /\
  (forall f, (forall x, f (signal x) = f x) -> cnt f m = cnt f (wpts s)) /\
  (forall t, m !! t = wpts s !! t \/ m !! t = signal <$> wpts s !! t).
Proof.
  revert s. induction q as [|t q IH]; intros s Hq; simpl.
  - exists (wpts s). split_and!; [by destruct s|done|by left].
  - destruct (Hq t) as [x Hx]; [by left|]. unfold bind. erewrite set_wpt_run by done.
    destruct (IH (s <| wpts := <[t := x <| signalled := true |>]> (wpts s) |>)) as (m & Hr & Hc & Hm).
    { intros t' Ht'. simpl. destruct (decide (t' = t)) as [->|]; [by rewrite lookup_insert_eq; eauto|].
      rewrite lookup_insert_ne by done. apply Hq. by right. }
    simpl in Hr |- *. rewrite Hr. exists m. split_and!; [done| |].
    + intros f Hf. rewrite Hc by done. simpl. rewrite cnt_put, (cnt_out f (wpts s) t x Hx). by rewrite <- (Hf x).
    + intros t'. specialize (Hm t'). simpl in Hm. destruct (decide (t' = t)) as [->|].
      * rewrite lookup_insert_eq in Hm. right. rewrite Hx. by destruct Hm as [->| ->].
      * by rewrite lookup_insert_ne in Hm.
Qed.

(** A thread that spawned another one. *)
Definition fresh_wpt : work_pool_thread := mk_wpt None 0 false false AtStart.
Definition spawned (t : wptr) (x : work_pool_thread) (new : wptr) (s : pool_state) : pool_state :=
  s <| wpts := <[t := x <| wpt_at := AtCall |>]> (<[new := fresh_wpt]> (wpts s)) |>.
Definition not_spawned (t : wptr) (x : work_pool_thread) (s : pool_state) : pool_state :=
  s <| failed := failed s + 1 |> <| wpts := <[t := x <| wpt_at := AtCall |>]> (wpts s) |>.

Lemma spawn_run t x new rc s :
  wpts s !! t = Some x -> wpts s !! new = None ->
  spawn_another t new rc s = Some (tt, if decide (rc = 0) then spawned t x new s else not_spawned t x s).
Proof.
  intros Hx Hnew. assert (new <> t) by (intros ->; by rewrite Hx in Hnew). unfold spawn_another, work_pool_spawn, bind.
  destruct (decide (rc = 0)) as [->|Hrc]; [rewrite decide_False by tauto|rewrite decide_True by done];
    unfold modify, ret; erewrite set_wpt_run; try done; simpl. by rewrite lookup_insert_ne.
Qed.

Definition closing (s s' : pool_state) : Prop :=
  (forall f, (forall x, f (signal x) = f x) -> cnt f (wpts s') = cnt f (wpts s)) /\
  (forall t, wpts s' !! t = wpts s !! t \/ wpts s' !! t = signal <$> wpts s !! t) /\
  s' = s <| pool := (pool s) <| timeout_ms := 1 |> <| thrd_max := 0 |> <| thrd_min := 0 |> |> <| wpts := wpts s' |> <| shutdown := Draining |>.

(** What each action does, in every case. *)
Inductive effect (s : pool_state) : action -> pool_state -> Prop :=
  | EffStart t x i : wpts s !! t = Some x -> wpt_at x = AtStart -> wpt_work x = None ->
      effect s (Start t) (onward t (x <| wpt_index := i |>) (numbered t x i s))
  | EffSpawn t x new : wpts s !! t = Some x -> wpt_at x = AtSpawn -> wpts s !! new = None ->
      effect s (Spawn t new 0) (spawned t x new s)
  | EffNoSpawn t x new rc : wpts s !! t = Some x -> wpt_at x = AtSpawn -> rc <> 0 -> effect s (Spawn t new rc) (not_spawned t x s)
  | EffReturn t x w : wpts s !! t = Some x -> wpt_at x = AtCall -> wpt_work x = Some w -> effect s (Return t) (done_with t x w s)
  | EffRelock t x : wpts s !! t = Some x -> wpt_at x = AtLock -> wpt_work x = None -> effect s (Relock t) (onward t x s)
  | EffWoken t x rc : wpts s !! t = Some x -> woken x = true -> wpt_work x = None -> effect s (Waited t rc) (onward t x s)
  | EffStay t x rc : wpts s !! t = Some x -> waits x = true -> wpt_work x = None ->
      qcount (pool (dequeued t s)) < thrd_min (pool s) -> effect s (Waited t rc) (onward t x (dequeued t s))
  | EffLeave t x rc : wpts s !! t = Some x -> waits x = true -> wpt_work x = None ->
      (rc <> 0 /\ rc <> ETIMEDOUT \/ thrd_min (pool s) <= qcount (pool (dequeued t s))) ->
      effect s (Waited t rc) (ended t (dequeued t s))
  | EffDrop w : thrd_max (pool s) = 0 -> effect s (SubmitTest w) s
  | EffTest w : thrd_max (pool s) <> 0 -> effect s (SubmitTest w) (s <| submitting := w :: submitting s |>)
  | EffQueue w : w ∈ submitting s -> wptqh (pool s) = [] -> effect s (SubmitLocked w) (queued w s)
  | EffWake w t x : w ∈ submitting s -> wpts s !! t = Some x -> waits x = true -> effect s (SubmitLocked w) (wakes t x (queued w s))
  | EffBegin s' : shutdown s = Open -> closing s s' -> effect s ShutdownBegin s'
  | EffEnd : shutdown s = Draining -> n_threads (pool s) = 0 -> effect s ShutdownEnd (s <| shutdown := Shut |>).

Section Invariant.
  Context (max min : Z).

(** The threads [m]; [e] is the number of further ones, in a critical section, and [d]
    how many of these were woken. *)
Record pool_inv (e d : Z) (m : gmap positive work_pool_thread) (s : pool_state) : Prop := {
  pi_qcount : qcount (pool s) = Z.of_nat (length (wptqh (pool s)));
  pi_waits : cnt waits m = Z.of_nat (length (wptqh (pool s)));
  pi_queue : queue_ok (wptqh (pool s)) m;
  pi_threads : n_threads (pool s) = e + cnt alive m + cnt spawning m + failed s;
  pi_failed : 0 <= failed s;
  pi_max : n_threads (pool s) <= max;
  pi_well : map_Forall (fun _ x => well x) m;
  pi_fifo : accepted s = taken s ++ qh (pool s);
  pi_once : forall k, occ k (taken s) = occ k (finished s) + cnt (has_work k) m;
  pi_phase : if decide (shutdown s = Open) then thrd_max (pool s) = max /\ thrd_min (pool s) = min
             else thrd_max (pool s) = 0 /\ thrd_min (pool s) = 0;
  pi_shut : shutdown s = Shut -> n_threads (pool s) = 0;
  pi_signals : wptqh (pool s) = [] \/ Z.of_nat (length (qh (pool s))) <= d + cnt woken m }.

Definition inv (s : pool_state) : Prop := pool_inv 0 0 (wpts s) s.

(** The thread [t] is in a critical section. *)
Definition in_hand (d : Z) (t : wptr) (s : pool_state) : Prop := pool_inv 1 d (delete t (wpts s)) s.

Hypothesis bounds : 1 <= min /\ min <= max /\ max < 2 ^ 31.

Ltac pool_solve :=
  simpl; rewrite ?cnt_put; simpl; try done; try lia;
  try first
    [ apply queue_ok_put; done
    | apply queue_ok_push; done
    | apply well_put; [done|unfold well; simpl; intuition congruence]
    | intros k; rewrite ?occ_app, ?occ_one, ?cnt_put; simpl;
      match goal with Ho : forall _, occ _ _ = _ |- _ => specialize (Ho k) end; lia ].

Lemma inv_counts e d m s : pool_inv e d m s -> 0 <= e -> 0 <= qcount (pool s) < 2 ^ 31 /\ 0 <= n_threads (pool s) < 2 ^ 31 /\ e <= n_threads (pool s).
Proof using bounds.
  intros Hi He. destruct Hi. pose proof (cnt_nonneg alive m). pose proof (cnt_nonneg spawning m).
  pose proof (cnt_le waits alive m (fun _ _ _ _ => eq_refl)). lia.
Qed.

(** A thread in a critical section, or waiting, knows that the pool is not gone. *)
Lemma inv_not_shut e d m s : pool_inv e d m s -> 0 < e \/ m <> ∅ /\ 0 <= e -> shutdown s <> Shut.
Proof using bounds.
  intros Hi He Hs. pose proof (pi_shut _ _ _ _ Hi Hs). destruct (inv_counts _ _ _ _ Hi) as (_ & _ & ?); [lia|].
  destruct He as [?|[Hm He]]; [lia|]. destruct (map_choose m Hm) as (t & x & Hx).
  assert (1 <= cnt alive m) by (apply cnt_pos; eauto). destruct Hi. pose proof (cnt_nonneg spawning m). lia.
Qed.

Lemma spawns_below e d m s : pool_inv e d m s -> spawns (pool s) = true -> n_threads (pool s) < max.
Proof using bounds.
  intros [_ _ _ _ _ _ _ _ _ Hp _ _]. unfold spawns. intros [_ Hlt%bool_decide_eq_true]%andb_true_iff.
  revert Hlt Hp. case_decide as Ho; intros Hlt [Ht _]; rewrite Ht, u32_small in Hlt; unfold is_u32; lia.
Qed.

Lemma serving_inv d t x w rest s :
  in_hand d t s -> 0 <= d <= 1 -> qh (pool s) = w :: rest -> inv (serving t x w rest s).
Proof using bounds.
  intros Hi Hd Hq. destruct (inv_counts _ _ _ _ Hi) as (Hqc & Hn & _); [lia|]. pose proof (spawns_below _ _ _ _ Hi) as Hsp.
  pose proof (inv_not_shut _ _ _ _ Hi ltac:(left; lia)) as Hshut.
  destruct Hi. unfold inv, serving. destruct (spawns (pool s)) eqn:Hs; [specialize (Hsp eq_refl); rewrite u32_small by (unfold is_u32; lia)|];
    split; pool_solve; [by rewrite <- app_assoc, pi_fifo0, Hq| |by rewrite <- app_assoc, pi_fifo0, Hq|].
  all: destruct pi_signals0 as [?|Hl]; [by left|right]; rewrite Hq in Hl; simpl in Hl; lia.
Qed.

Lemma waiting_inv d t x s :
  in_hand d t s -> 0 <= d <= 1 -> qh (pool s) = [] -> wpt_work x = None -> inv (waiting t x s).
Proof using bounds.
  intros Hi Hd Hq Hw. destruct (inv_counts _ _ _ _ Hi) as (Hqc & Hn & _); [lia|].
  assert (Hlt : qcount (pool s) + 1 < 2 ^ 31).
  { pose proof (cnt_le waits alive (delete t (wpts s)) (fun _ _ _ _ => eq_refl)). pose proof (cnt_nonneg spawning (delete t (wpts s))).
    destruct Hi. lia. }
  destruct Hi. unfold inv, waiting. rewrite i32_small by (unfold is_i32; lia).
  split; pool_solve; rewrite ?length_app; simpl; try lia.
  - intros k. rewrite cnt_put. simpl. by rewrite Hw.
  - rewrite Hq. simpl. right. pose proof (cnt_nonneg woken (delete t (wpts s))). lia.
Qed.

Lemma onward_inv d t x s :
  in_hand d t s -> 0 <= d <= 1 -> wpt_work x = None -> inv (onward t x s).
Proof using bounds.
  intros Hi Hd Hw. unfold onward. destruct (qh (pool s)) eqn:Hq; [by eapply waiting_inv|by eapply serving_inv].
Qed.

Lemma ended_inv t s : in_hand 0 t s -> inv (ended t s).
Proof using bounds.
  intros Hi. destruct (inv_counts _ _ _ _ Hi) as (Hqc & Hn & Hn1); [lia|]. destruct Hi. unfold inv, ended.
  split; simpl; rewrite ?u32_small by (unfold is_u32; lia); try done; try lia.
  intros Hs. specialize (pi_shut0 Hs). lia.
Qed.

(** Entering a critical section. *)
Lemma hand_enter t x s :
  inv s -> wpts s !! t = Some x -> waits x = false -> spawning x = false -> wpt_work x = None ->
  in_hand (Z.b2z (woken x)) t s.
Proof.
  intros Hi Hx Hw Hs Hn. destruct Hi. unfold in_hand.
  assert (Hc : forall f, cnt f (wpts s) = Z.b2z (f x) + cnt f (delete t (wpts s))) by (intros; by apply cnt_out).
  rewrite !Hc in *. rewrite Hw, Hs in *. cbn [Z.b2z alive] in *.
  split; try done; try lia.
  - by eapply queue_ok_delete.
  - by apply map_Forall_delete.
  - intros k. rewrite pi_once0, Hc. simpl. by rewrite Hn.
Qed.

Lemma hand_dequeued t x s :
  inv s -> wpts s !! t = Some x -> waits x = true -> wpt_work x = None ->
  in_hand 0 t (dequeued t s) /\ Z.of_nat (length (qh (pool s))) <= cnt woken (delete t (wpts s)).
Proof using bounds.
  intros Hi Hx Hw Hn. destruct (inv_counts _ _ _ _ Hi) as (Hqc & _); [lia|]. destruct Hi. unfold in_hand.
  destruct (queue_ok_pop _ _ _ _ pi_queue0 Hx Hw) as (q' & Hr & Hl & Hq').
  assert (Hk : woken x = false /\ spawning x = false) by (revert Hw; simpl; destruct (wpt_at x), (wakeup x); done). destruct Hk as [Hk Hsp].
  assert (Hc : forall f, cnt f (wpts s) = Z.b2z (f x) + cnt f (delete t (wpts s))) by (intros; by apply cnt_out).
  rewrite !Hc in *. rewrite Hw, Hk, Hsp in *. cbn [Z.b2z alive] in *. unfold dequeued. rewrite Hr. simpl.
  rewrite i32_small by (unfold is_i32; lia).
  destruct pi_signals0 as [He|He]; [by rewrite He in Hl|]. split; [|lia].
  split; simpl; try done; try lia.
  - by apply map_Forall_delete.
  - intros k. rewrite pi_once0, Hc. simpl. by rewrite Hn.
Qed.

(** A waiting or starting thread has no entry yet. *)
Lemma inv_well s t x : inv s -> wpts s !! t = Some x -> well x.
Proof. intros Hi Hx. destruct Hi. exact (pi_well0 t x Hx). Qed.

Lemma inv_no_work s t x : inv s -> wpts s !! t = Some x -> wpt_at x <> AtSpawn -> wpt_at x <> AtCall -> wpt_work x = None.
Proof. intros Hi Hx H1 H2. destruct (inv_well _ _ _ Hi Hx) as [Hw _]. destruct (wpt_work x); [|done]. exfalso. by destruct (proj1 Hw). Qed.

Ltac no_work Ha := eapply inv_no_work; [eassumption..|by rewrite Ha|by rewrite Ha].

Lemma return_inv t x w s :
  inv s -> wpts s !! t = Some x -> wpt_work x = Some w -> wpt_at x = AtCall ->
  inv (done_with t x w s).
Proof using bounds.
  intros Hi Hx Hw Ha. destruct Hi. assert (Hc : forall f, cnt f (wpts s) = Z.b2z (f x) + cnt f (delete t (wpts s))) by (intros; by apply cnt_out).
  rewrite !Hc in *. cbn [waits woken spawning alive] in *. rewrite Ha in *. cbn [Z.b2z] in *.
  split; pool_solve.
  - apply queue_ok_put; [|done]. eapply queue_ok_delete; [done..|]. simpl. by rewrite Ha.
  - apply well_put; [by apply map_Forall_delete|]. unfold well; simpl; intuition congruence.
  - intros k. rewrite pi_once0, Hc, occ_app, occ_one, cnt_put. simpl. rewrite Hw. lia.
Qed.

Lemma spawned_cnt f t x new x' s :
  wpts s !! t = Some x -> wpts s !! new = None ->
  cnt f (<[t := x']> (<[new := fresh_wpt]> (wpts s))) = Z.b2z (f x') + Z.b2z (f fresh_wpt) + (cnt f (wpts s) - Z.b2z (f x)).
Proof.
  intros Hx Hnew. assert (new <> t) by (intros ->; by rewrite Hx in Hnew).
  rewrite cnt_put, delete_insert_ne by done. rewrite cnt_new by by rewrite lookup_delete_ne. rewrite (cnt_out f (wpts s) t x Hx). lia.
Qed.

Lemma spawned_inv t new x s :
  inv s -> wpts s !! t = Some x -> wpt_at x = AtSpawn -> wpts s !! new = None -> inv (spawned t x new s).
Proof using bounds.
  intros Hi Hx Ha Hnew. assert (Hne : new <> t) by (intros ->; by rewrite Hx in Hnew). pose proof (inv_well _ _ _ Hi Hx) as Hwx.
  destruct Hi. split; unfold spawned; simpl; rewrite ?(spawned_cnt _ t x new) by done; simpl; rewrite ?Ha; simpl; try done; try lia.
  - apply queue_ok_put; [|done]. rewrite delete_insert_ne by done. apply queue_ok_put; [|done].
    rewrite delete_id by by rewrite lookup_delete_ne. eapply queue_ok_delete; [done..|]. simpl. by rewrite Ha.
  - apply well_put; [|revert Hwx; unfold well; simpl; rewrite Ha; intuition congruence].
    rewrite delete_insert_ne by done. apply map_Forall_insert_2; [unfold well; simpl; intuition congruence|by apply map_Forall_delete].
  - intros k. rewrite (spawned_cnt _ t x new) by done. rewrite pi_once0. simpl. lia.
  - destruct pi_signals0; [by left|right; lia].
Qed.

Lemma not_spawned_inv t x s :
  inv s -> wpts s !! t = Some x -> wpt_at x = AtSpawn -> inv (not_spawned t x s).
Proof using bounds.
  intros Hi Hx Ha. pose proof (inv_well _ _ _ Hi Hx) as Hwx. destruct Hi.
  assert (Hc : forall f, cnt f (wpts s) = Z.b2z (f x) + cnt f (delete t (wpts s))) by (intros; by apply cnt_out).
  rewrite !Hc in *. cbn [waits woken spawning alive] in *. rewrite Ha in *. cbn [Z.b2z] in *.
  split; pool_solve.
  - apply queue_ok_put; [|done]. eapply queue_ok_delete; [done..|]. simpl. by rewrite Ha.
  - apply well_put; [by apply map_Forall_delete|]. revert Hwx; unfold well; simpl; rewrite Ha; intuition congruence.
  - intros k. rewrite pi_once0, Hc, cnt_put. done.
Qed.

Lemma queued_inv w s : inv s -> wptqh (pool s) = [] -> inv (queued w s).
Proof.
  intros Hi Hq. destruct Hi. split; unfold queued; simpl; try done; [by rewrite pi_fifo0, app_assoc|by left].
Qed.

Lemma wakes_inv w t x s : inv s -> wpts s !! t = Some x -> waits x = true -> inv (wakes t x (queued w s)).
Proof using bounds.
  intros Hi Hx Hw. assert (Ha : wpt_at x = AtWait) by (revert Hw; simpl; by destruct (wpt_at x)).
  assert (Hn : wpt_work x = None) by no_work Ha.
  destruct (hand_dequeued t x s) as [Hh Hl]; [done..|].
  destruct Hh. split; unfold wakes; simpl in *; rewrite ?cnt_put; simpl; rewrite ?Ha; simpl; try done; try lia.
  - by apply queue_ok_put.
  - apply well_put; [done|]. unfold well; simpl. intuition congruence.
  - by rewrite pi_fifo0, app_assoc.
  - intros k. rewrite cnt_put. simpl. rewrite Hn. done.
  - right. rewrite length_app. simpl. lia.
Qed.

Lemma closing_inv s s' : inv s -> closing s s' -> inv s'.
Proof.
  intros Hi (Hc & Hm & ->). destruct Hi. split; simpl; rewrite ?Hc by done; try done.
  - destruct pi_queue0 as [Hn Hq]. split; [done|]. intros t. rewrite Hq. destruct (Hm t) as [->| ->]; [done|].
    destruct (wpts s !! t) as [x|]; simpl; [|done].
    split; intros (x' & ? & ?); simplify_eq; eauto.
  - intros t x Hx. destruct (Hm t) as [He|He]; rewrite He in Hx; [by apply (pi_well0 t)|].
    destruct (wpts s !! t) as [x0|] eqn:H0; simplify_eq/=. destruct (pi_well0 t x0 H0) as [H1 _]. by split.
  - intros k. rewrite Hc by done. done.
Qed.

Lemma shutdown_begin_run s : inv s -> shutdown s = Open -> exists s', shutdown_begin s = Some (tt, s') /\ closing s s'.
Proof.
  intros Hi Hs. unfold shutdown_begin, bind. rewrite lock_run by by rewrite Hs. unfold set_pool, modify, get_pool, gets.
  edestruct (signal_all_run (wptqh (pool s)) (s <| pool := (pool s) <| timeout_ms := 1 |> <| thrd_max := 0 |> <| thrd_min := 0 |> |>))
    as (m & Hr & Hc & Hm).
  { intros t Ht. destruct Hi. apply pi_queue0 in Ht as (x & Hx & _). by exists x. }
  simpl in Hr |- *. rewrite Hr. eexists. by split.
Qed.

Lemma at_point_some s t q : at_point s t q <-> exists x, wpts s !! t = Some x /\ wpt_at x = q.
Proof. unfold at_point. rewrite fmap_Some. split; intros (x & ? & ?); eauto. Qed.

(** A thread that can act knows that the pool is not gone. *)
Lemma inv_thread_open s t x : inv s -> wpts s !! t = Some x -> shutdown s <> Shut.
Proof using bounds.
  intros Hi Hx. eapply inv_not_shut; [done|]. right. split; [|lia]. intros Hm. by rewrite Hm in Hx.
Qed.

Lemma start_hand t x i s :
  inv s -> wpts s !! t = Some x -> wpt_at x = AtStart ->
  in_hand 0 t (numbered t x i s).
Proof.
  intros Hi Hx Ha. assert (Hw : wpt_work x = None) by no_work Ha.
  destruct (hand_enter t x s) as []; [done|done|simpl; by rewrite Ha..|done|].
  unfold in_hand. split; simpl in *; rewrite ?delete_insert_eq, ?Ha in *; done.
Qed.

Lemma resumed_effect t x rc s :
  wpts s !! t = Some x -> wpt_at x = AtWait -> wpt_work x = None -> effect s (Waited t rc) (resumed t x rc s).
Proof.
  intros Hx Ha Hw. unfold resumed. destruct (wakeup x) eqn:Hk; [apply (EffWoken s t x); simpl; by rewrite ?Ha|].
  assert (waits x = true) by (simpl; by rewrite Ha, Hk).
  case_decide; [by apply (EffLeave s t x); auto|]. case_decide; [by apply (EffStay s t x)|]. apply (EffLeave s t x); [done..|]. right. lia.
Qed.

Lemma exec_effect a s :
  inv s -> enabled a s -> (shutdown s <> Shut \/ forall w, a <> SubmitLocked w) -> exists s', exec a s = Some (tt, s') /\ effect s a s'.
Proof using bounds.
  intros Hi He Hok. destruct a; simpl in *; rewrite ?at_point_some in He.
  - destruct He as (x & Hx & Ha). assert (Hw : wpt_work x = None) by no_work Ha.
    destruct (start_run t x s) as (i & ->); [by eapply inv_thread_open|done..|]. eexists. split; [done|]. by constructor.
  - destruct He as [(x & Hx & Ha) Hnew]. rewrite (spawn_run t x) by done. eexists. split; [done|]. case_decide; subst; by econstructor.
  - destruct He as (x & Hx & Ha). destruct (inv_well _ _ _ Hi Hx) as [Hw _].
    destruct (wpt_work x) as [w|] eqn:Hxw; [|by destruct Hw as [_ []]; [right|]].
    rewrite (returned_run t x w) by done. eexists. split; [done|]. by constructor.
  - destruct He as (x & Hx & Ha). assert (Hw : wpt_work x = None) by no_work Ha.
    unfold bind. rewrite lock_run by by eapply inv_thread_open. rewrite (take_or_wait_run t x) by done. eexists. split; [done|]. by constructor.
  - destruct He as (x & Hx & Ha). assert (Hw : wpt_work x = None) by no_work Ha.
    rewrite (waited_run t x); [|by eapply inv_thread_open|done..|]; [eexists; split; [done|]; by apply resumed_effect|].
    intros Hk. destruct Hi. apply pi_queue0. exists x. split; [done|]. simpl. by rewrite Ha, Hk.
  - unfold submit_test, bind, get_pool, gets. case_decide; eexists; (split; [done|]); by constructor.
  - destruct Hok as [Hs|Hs]; [|by destruct (Hs w)]. destruct (submit_run w s) as (s' & Hr & Hc); [done|apply Hi..|].
    exists s'. split; [done|]. destruct Hc as [[Hq ->]|(t & x & Hx & Hw & ->)]; by constructor.
  - destruct (shutdown_begin_run s) as (s' & Hr & Hs'); [done..|]. exists s'. split; [done|]. by constructor.
  - destruct He as [Hd Hz]. eexists. split; [done|]. by constructor.
Qed.

Lemma woken_waits x : woken x = true -> wpt_at x = AtWait /\ wakeup x = true.
Proof. simpl. by destruct (wpt_at x). Qed.

Lemma effect_inv a s s' : inv s -> effect s a s' -> inv s'.
Proof using bounds.
  intros Hi He. destruct He as
    [t x i Hx Ha Hw|t x new Hx Ha Hnew|t x new rc Hx Ha Hrc|t x w Hx Ha Hw|t x Hx Ha Hw|t x rc Hx Hk Hw|t x rc Hx Hk Hw Hlt|
    t x rc Hx Hk Hw Hrc|w Hz|w Hz|w Hin Hq|w t x Hin Hx Hk|s' Ho Hc|Hd Hz].
  - apply (onward_inv 0); [by apply start_hand|lia|done].
  - by apply spawned_inv.
  - by apply not_spawned_inv.
  - by apply return_inv.
  - eapply onward_inv; [apply (hand_enter t x); simpl; by rewrite ?Ha| |done]. simpl. rewrite Ha. simpl. lia.
  - destruct (woken_waits x Hk) as [Ha Hwk].
    eapply onward_inv; [apply (hand_enter t x); simpl; rewrite ?Ha, ?Hwk; done| |done]. rewrite Hk. simpl. lia.
  - apply (onward_inv 0); [by eapply hand_dequeued|lia|done].
  - apply ended_inv. by eapply hand_dequeued.
  - done.
  - destruct Hi. by split.
  - by apply queued_inv.
  - by apply wakes_inv.
  - by eapply closing_inv.
  - destruct Hi. split; simpl; try done. by rewrite Hd in pi_phase0.
Qed.

(** *** Without failures *)

(** There is always a thread that is free to take an entry, or the pool is as large as it
    may be; and an entry in the queue is never left to waiting threads alone. *)
Record smooth (s : pool_state) : Prop := {
  sm_failed : failed s = 0;
  sm_free : shutdown s = Open -> max <= n_threads (pool s) \/ 1 <= cnt free_handed (wpts s);
  sm_submits : shutdown s <> Open -> submitting s = [];
  sm_queue : qh (pool s) = [] \/ 1 <= cnt awake (wpts s) }.

Lemma cnt_awake m : cnt awake m = cnt alive m - cnt waits m.
Proof.
  induction m as [|t x m Ht IH] using map_ind; [done|]. rewrite !cnt_new by done. rewrite IH.
  change (awake x) with (negb (waits x)). destruct (waits x); cbn [Z.b2z negb alive]; lia.
Qed.

Lemma cnt_split f m t x : m !! t = Some x -> f x = true -> 1 <= cnt f m.
Proof. intros. apply cnt_pos. eauto. Qed.

Lemma cnt_waits_free m : cnt waits m <= cnt free_handed m.
Proof. apply cnt_le. intros t x _. simpl. by destruct (wpt_at x). Qed.

Lemma cnt_woken_awake m : cnt woken m <= cnt awake m.
Proof. apply cnt_le. intros t x _. simpl. destruct (wpt_at x), (wakeup x); done. Qed.

Lemma onward_smooth d t x s :
  in_hand d t s -> failed s = 0 -> (shutdown s <> Open -> submitting s = []) -> smooth (onward t x s).
Proof using bounds.
  intros Hi Hf Hs. pose proof (inv_counts _ _ _ _ Hi ltac:(lia)) as Hn. unfold onward. destruct (qh (pool s)) as [|w rest] eqn:Hq.
  - unfold waiting. split; simpl; try done; [|by left]. intros _. right. eapply cnt_split; [apply lookup_insert_eq|done].
  - unfold serving. split; simpl; try done.
    + intros Ho. destruct (spawns (pool s)) eqn:Hsp; [right; eapply cnt_split; [apply lookup_insert_eq|done]|].
      destruct Hi. rewrite decide_True in pi_phase0 by done. destruct pi_phase0 as [Hmx Hmn]. unfold spawns in Hsp.
      rewrite Hmx, Hmn, u32_small in Hsp by (unfold is_u32; lia). rewrite cnt_put. simpl.
      pose proof (cnt_waits_free (delete t (wpts s))). destruct (decide (qcount (pool s) < min)); [left|right; lia].
      rewrite bool_decide_true in Hsp by done. simpl in Hsp. apply bool_decide_eq_false in Hsp. lia.
    + right. eapply cnt_split; [apply lookup_insert_eq|]. simpl. by destruct (spawns (pool s)).
Qed.

(** A thread leaves only if enough others wait, and the queue is left to the woken ones. *)
Lemma leave_smooth t x s :
  inv s -> smooth s -> wpts s !! t = Some x -> waits x = true -> wpt_work x = None ->
  thrd_min (pool s) <= qcount (pool (dequeued t s)) -> smooth (ended t (dequeued t s)).
Proof using bounds.
  intros Hi [Hf Hfree Hsub Hqu] Hx Hk Hw Hge. destruct (hand_dequeued t x s) as [Hh Hl]; [done..|].
  pose proof (cnt_waits_free (delete t (wpts s))). pose proof (cnt_woken_awake (delete t (wpts s))).
  destruct Hh. unfold ended. simpl in *. split; simpl; try done.
  - intros Ho. rewrite decide_True in pi_phase0 by done. right. lia.
  - destruct (qh (pool s)); [by left|right]. simpl in *. lia.
Qed.

(** Somebody is there when an entry is submitted. *)
Lemma smooth_alive s : inv s -> smooth s -> shutdown s = Open -> 1 <= cnt alive (wpts s).
Proof using bounds.
  intros Hi [Hf Hfree _ _] Ho. pose proof (cnt_le spawning alive (wpts s) (fun _ _ _ _ => eq_refl)).
  pose proof (cnt_le free_handed alive (wpts s) (fun _ _ _ _ => eq_refl)). destruct (Hfree Ho); [|lia].
  destruct Hi. lia.
Qed.

Lemma submit_open s w : smooth s -> w ∈ submitting s -> shutdown s = Open.
Proof.
  intros Hs Hw. destruct (decide (shutdown s = Open)) as [|Ho]; [done|]. rewrite (sm_submits s Hs Ho) in Hw. by apply not_elem_of_nil in Hw.
Qed.

Lemma effect_smooth a s s' : inv s -> smooth s -> no_failure s a -> effect s a s' -> smooth s'.
Proof using bounds.
  intros Hi Hs Hok He. pose proof Hs as [Hf Hfree Hsub Hqu]. destruct He as
    [t x i Hx Ha Hw|t x new Hx Ha Hnew|t x new rc Hx Ha Hrc|t x w Hx Ha Hw|t x Hx Ha Hw|t x rc Hx Hk Hw|t x rc Hx Hk Hw Hlt|
    t x rc Hx Hk Hw Hrc|w Hz|w Hz|w Hin Hq|w t x Hin Hx Hk|s' Ho Hc|Hd Hz]; simpl in Hok.
  - eapply (onward_smooth 0); [by apply start_hand|done..].
  - unfold spawned. split; simpl; try done; rewrite !(spawned_cnt _ t x new) by done; simpl; rewrite Ha; simpl; intuition lia.
  - done.
  - unfold done_with. pose proof (cnt_out free_handed _ _ _ Hx) as H1. pose proof (cnt_out awake _ _ _ Hx) as H2.
    simpl in H1, H2. rewrite Ha in H1, H2. simpl in H1, H2. split; simpl; try done; rewrite cnt_put; simpl; intuition lia.
  - eapply onward_smooth; [apply (hand_enter t x); simpl; by rewrite ?Ha|done..].
  - destruct (woken_waits x Hk) as [Ha Hwk]. eapply onward_smooth; [apply (hand_enter t x); simpl; rewrite ?Ha, ?Hwk; done|done..].
  - eapply onward_smooth; [by eapply hand_dequeued|done..].
  - apply (leave_smooth t x); [done..|]. intuition congruence.
  - done.
  - split; simpl; try done. intros Ho. destruct Hi. rewrite decide_False in pi_phase0 by done. by destruct pi_phase0.
  - pose proof (submit_open s w Hs Hin) as Ho. pose proof (smooth_alive s Hi Hs Ho) as Hal.
    split; simpl; try done. right. rewrite cnt_awake. destruct Hi. rewrite pi_waits0, Hq. simpl. lia.
  - pose proof (submit_open s w Hs Hin) as Ho. assert (Ha : wpt_at x = AtWait) by (revert Hk; simpl; by destruct (wpt_at x)).
    split; simpl; try done; [intros _|]; right; (eapply cnt_split; [apply lookup_insert_eq|]); simpl; by rewrite Ha.
  - destruct Hc as (Hc & _ & ->). split; simpl; try done. destruct Hqu; [by left|right]. rewrite Hc by done. done.
  - split; simpl; try done. intros _. apply Hsub. by rewrite Hd.
Qed.

(** *** Progress *)

(** How far a thread is from waiting, with the thread it may spawn, and how much the pool
    has still to do. *)
Definition weight (x : work_pool_thread) : Z :=
  match wpt_at x with
  | AtStart | AtLock => 2
  | AtSpawn => 6
  | AtCall => 3
  | AtWait => if wakeup x then 2 else 1
  end.
Definition effort (s : pool_state) : Z := 5 * Z.of_nat (length (qh (pool s))) + total weight (wpts s).

(** What the threads do by themselves: all but the ends of waits that nobody woke. *)
Definition own_action (s : pool_state) (a : action) : Prop :=
  match a with
  | Start _ | Return _ | Relock _ => True
  | Spawn _ _ rc => rc = 0
  | Waited t rc => rc = 0 /\ exists x, wpts s !! t = Some x /\ woken x = true
  | _ => False
  end.

Lemma total_nonneg g m : (forall x, 0 <= g x) -> 0 <= total g m.
Proof.
  intros Hg. induction m as [|t x m Ht IH] using map_ind; [done|]. rewrite total_new by done. specialize (Hg x). lia.
Qed.

Lemma effort_nonneg s : 0 <= effort s.
Proof.
  unfold effort. assert (0 <= total weight (wpts s)); [|lia]. apply total_nonneg. intros x. unfold weight. by destruct (wpt_at x), (wakeup x).
Qed.

Lemma onward_effort t x s : effort (onward t x s) < 2 + total weight (delete t (wpts s)) + 5 * Z.of_nat (length (qh (pool s))).
Proof.
  unfold effort, onward. destruct (qh (pool s)) as [|w rest] eqn:Hq; simpl; rewrite ?total_put, ?Hq; simpl; [unfold weight at 1; simpl; lia|].
  unfold weight at 1. simpl. destruct (spawns (pool s)); lia.
Qed.

Lemma own_effort a s s' : effect s a s' -> own_action s a -> effort s' < effort s.
Proof.
  intros He Hown. destruct He as
    [t x i Hx Ha Hw|t x new Hx Ha Hnew|t x new rc Hx Ha Hrc|t x w Hx Ha Hw|t x Hx Ha Hw|t x rc Hx Hk Hw|t x rc Hx Hk Hw Hlt|
    t x rc Hx Hk Hw Hrc|w Hz|w Hz|w Hin Hq|w t x Hin Hx Hk|s' Ho Hc|Hd Hz]; simpl in Hown; try done.
  - eapply Z.lt_le_trans; [apply onward_effort|]. unfold effort. simpl. rewrite delete_insert_eq, (total_out weight _ _ _ Hx).
    unfold weight at 2. rewrite Ha. lia.
  - unfold effort, spawned. assert (new <> t) by (intros ->; by rewrite Hx in Hnew). simpl.
    rewrite total_put, delete_insert_ne, total_new by (done || by rewrite lookup_delete_ne).
    rewrite (total_out weight _ _ _ Hx). unfold weight at 1 2 4. simpl. rewrite Ha. lia.
  - unfold effort, done_with. simpl. rewrite total_put, (total_out weight _ _ _ Hx). unfold weight at 1 3. simpl. rewrite Ha. lia.
  - pose proof (onward_effort t x s) as Ho. unfold effort at 2. rewrite (total_out weight _ _ _ Hx). unfold weight at 1. rewrite Ha. lia.
  - pose proof (onward_effort t x s) as Ho. destruct (woken_waits x Hk) as [Ha Hwk].
    unfold effort at 2. rewrite (total_out weight _ _ _ Hx). unfold weight at 1. rewrite Ha, Hwk. lia.
  - destruct Hown as (_ & x' & Hx' & Hk'). simplify_eq. exfalso. revert Hk Hk'. simpl. destruct (wpt_at x), (wakeup x); done.
  - destruct Hown as (_ & x' & Hx' & Hk'). simplify_eq. exfalso. revert Hk Hk'. simpl. destruct (wpt_at x), (wakeup x); done.
Qed.

(** A thread that is awake can go on. *)
Lemma own_enabled s t x :
  wpts s !! t = Some x -> awake x = true -> exists a, own_action s a /\ enabled a s.
Proof.
  intros Hx Hk. assert (Hat : at_point s t (wpt_at x)) by (apply at_point_some; eauto). destruct (wpt_at x) eqn:Ha.
  - by exists (Start t).
  - exists (Spawn t (fresh (dom (wpts s))) 0). split; [done|]. split; [done|]. apply not_elem_of_dom. apply is_fresh.
  - by exists (Return t).
  - by exists (Relock t).
  - exists (Waited t 0). simpl in Hk. rewrite Ha in Hk. split; [|done]. split; [done|]. exists x. split; [done|]. simpl. rewrite Ha.
    by destruct (wakeup x).
Qed.

Lemma own_awake s a : own_action s a -> enabled a s -> exists t x, wpts s !! t = Some x /\ awake x = true.
Proof.
  clear. intros Ha He. destruct a; simpl in *; rewrite ?at_point_some in He; try done.
  - destruct He as (x & Hx & Hat). exists t, x. by rewrite Hat.
  - destruct He as [(x & Hx & Hat) _]. exists t, x. by rewrite Hat.
  - destruct He as (x & Hx & Hat). exists t, x. by rewrite Hat.
  - destruct He as (x & Hx & Hat). exists t, x. by rewrite Hat.
  - destruct Ha as (_ & x & Hx & Hk). destruct (woken_waits x Hk) as [Hat Hwk]. exists t, x. by rewrite Hat, Hwk.
Qed.

(** With nothing left to do by themselves, the threads have run every entry. *)
Lemma idle_finished s :
  inv s -> smooth s -> (forall a, own_action s a -> ~ enabled a s) -> qh (pool s) = [] /\ finished s ≡ₚ accepted s.
Proof.
  intros Hi Hs Hidle. assert (Haw : cnt awake (wpts s) = 0).
  { apply cnt_zero. intros t x Hx. destruct (awake x) eqn:Hk; [|done]. exfalso.
    destruct (own_enabled s t x Hx Hk) as (a & Ha & He). by apply (Hidle a). }
  assert (Hq : qh (pool s) = []) by (destruct (sm_queue s Hs); [done|lia]). split; [done|].
  apply (Permutation_count_occ Pos.eq_dec). intros k. destruct Hi. rewrite pi_fifo0, Hq, app_nil_r.
  specialize (pi_once0 k). assert (cnt (has_work k) (wpts s) = 0); [|unfold occ in pi_once0; lia].
  apply cnt_zero. intros t x Hx. destruct (pi_well0 t x Hx) as [Hw _]. pose proof (proj1 (cnt_zero _ _) Haw t x Hx) as Hk. revert Hk. simpl.
  destruct (wpt_work x) as [w|]; [|done]. destruct (proj1 Hw) as [-> | ->]; done.
Qed.

(** After [work_pool_shutdown] has begun, every thread can also leave. *)
Definition drain_action (s : pool_state) (a : action) : Prop :=
  match a with
  | Start _ | Return _ | Relock _ => True
  | Spawn _ _ rc => rc = 0
  | Waited t rc => rc = 0 \/ rc = ETIMEDOUT
  | _ => False
  end.

Lemma drain_effort a s s' : inv s -> shutdown s <> Open -> effect s a s' -> drain_action s a -> effort s' < effort s.
Proof using bounds.
  intros Hi Ho He Hd. destruct He as
    [t x i Hx Ha Hw|t x new Hx Ha Hnew|t x new rc Hx Ha Hrc|t x w Hx Ha Hw|t x Hx Ha Hw|t x rc Hx Hk Hw|t x rc Hx Hk Hw Hlt|
    t x rc Hx Hk Hw Hrc|w Hz|w Hz|w Hin Hq|w t x Hin Hx Hk|s' Hop Hc|Hdr Hz]; simpl in Hd; try done.
  - by eapply own_effort; [by constructor|].
  - by eapply own_effort; [by constructor|].
  - by eapply own_effort; [by constructor|].
  - by eapply own_effort; [by constructor|].
  - eapply (own_effort (Waited t 0)); [by constructor|]. simpl. eauto.
  - destruct (hand_dequeued t x s) as [Hh _]; [done..|]. destruct Hh. simpl in *. rewrite decide_False in pi_phase0 by done. lia.
  - unfold effort, ended. simpl. rewrite (total_out weight _ _ _ Hx). unfold weight at 2.
    assert (Ha : wpt_at x = AtWait) by (revert Hk; simpl; by destruct (wpt_at x)). rewrite Ha. destruct (wakeup x); lia.
Qed.

End Invariant.
