(* ===== verification/WorkPoolProps.v ===== *)
(** * Theorems on the pool of worker threads

    Safety of all interleavings, execution of every entry, and the end of the pool; with
    the two ways in which a failure or a race breaks the last. *)
From S2P Require Import Prelude WorkPool WorkPoolInv.

Open Scope Z_scope.
Open Scope dnfs_scope.

(** The bounds [work_pool_init] settles on. *)
Definition pool_min (min : Z) : Z := if decide (min < 1) then 1 else min.
Definition pool_max (max min : Z) : Z := if decide (max < pool_min min) then pool_min min else max.

Section Reachable.
  Context (max min : Z).
  Hypothesis widths : is_i32 max /\ is_i32 min.

Lemma pool_bounds : 1 <= pool_min min /\ pool_min min <= pool_max max min /\ pool_max max min < 2 ^ 31.
Proof using widths. unfold pool_max, pool_min, is_i32 in *. destruct (decide (min < 1)); case_decide; lia. Qed.

Let ok_inv := inv (pool_max max min) (pool_min min).
Let ok_smooth := smooth (pool_max max min).

Lemma init_inv t rc s : work_pool_init max min 0 0 0 rc t 0 = Some (0, s) -> ok_inv s /\ ok_smooth s.
Proof using widths.
  pose proof pool_bounds as Hb. unfold work_pool_init. rewrite !decide_False by tauto. intros Hr.
  fold (pool_min min) in Hr. fold (pool_max max min) in Hr. unfold work_pool_spawn, bind, set_pool, modify, ret in Hr. simplify_eq/=.
  split; split; simpl; rewrite ?cnt_put; try done; try lia; auto; try (by left).
  - apply queue_ok_put; [|done]. split; [apply NoDup_nil_2|]. intros t'. rewrite delete_empty.
    split; [by intros ?%not_elem_of_nil|by intros (? & ? & ?)].
  - apply well_put; [by rewrite delete_empty|]. unfold well; simpl; intuition congruence.
  - intros k. by rewrite cnt_put, delete_empty.
  - intros _. right. by rewrite delete_empty.
Qed.

Lemma step_effect ok s s' : ok_inv s -> pool_step ok s s' -> exists a, ok s a /\ effect s a s'.
Proof using widths.
  intros Hi (a & Ha & He & Hx). exists a. split; [done|].
  destruct (exec_effect _ _ pool_bounds a s Hi He) as (s1 & Hx1 & Heff); [|by rewrite Hx in Hx1; simplify_eq].
  destruct (decide (shutdown s = Shut)) as [Hs|]; [|by left]. right. intros w ->. simpl in Hx. unfold submit_locked, lock, bind, gets in Hx.
  by rewrite decide_True in Hx.
Qed.

Lemma steps_inv ok s s' : ok_inv s -> rtc (pool_step ok) s s' -> ok_inv s'.
Proof using widths.
  intros Hi Hr. induction Hr as [|s s1 s' Hs _ IH]; [done|]. apply IH.
  destruct (step_effect ok s s1 Hi Hs) as (a & _ & He). by eapply effect_inv; [apply pool_bounds| |].
Qed.

Lemma steps_smooth ok s s' :
  (forall s a, ok s a -> no_failure s a) -> ok_inv s -> ok_smooth s -> rtc (pool_step ok) s s' -> ok_smooth s'.
Proof using widths.
  intros Hok Hi Hm Hr. induction Hr as [|s s1 s' Hs _ IH]; [done|]. destruct (step_effect ok s s1 Hi Hs) as (a & Ha & He).
  apply IH; [by eapply effect_inv; [apply pool_bounds| |]|by eapply effect_smooth; [apply pool_bounds|..|apply Hok|]].
Qed.

Lemma reachable_inv ok s : pool_reachable ok max min s -> ok_inv s.
Proof using widths. intros (t & rc & s0 & H0 & Hr). eapply steps_inv; [|done]. by eapply init_inv. Qed.

Lemma reachable_smooth s : pool_reachable no_failure max min s -> ok_smooth s.
Proof using widths. intros (t & rc & s0 & H0 & Hr). eapply steps_smooth; [done|by eapply init_inv..|done]. Qed.

(** Every step of a bounded kind costs effort, so there are only finitely many. *)
Lemma steps_bounded ok (Q : pool_state -> Prop) s s' n :
  (forall s a s', ok_inv s -> Q s -> effect s a s' -> ok s a -> effort s' < effort s /\ Q s') ->
  ok_inv s -> Q s -> nsteps (pool_step ok) n s s' -> Z.of_nat n <= effort s - effort s'.
Proof using widths.
  intros Hd Hi HQ Hn. induction Hn as [|n s s1 s' Hs _ IH]; [lia|]. destruct (step_effect ok s s1 Hi Hs) as (a & Ha & He).
  destruct (Hd s a s1) as [Hlt HQ1]; [done..|]. specialize (IH ltac:(by eapply effect_inv; [apply pool_bounds| |]) HQ1). lia.
Qed.

Lemma own_no_failure s a : own_action s a -> no_failure s a.
Proof. clear. destruct a; simpl; intuition. Qed.

(** The entries accepted do not change while nobody submits. *)
Lemma own_accepted s s' : ok_inv s -> rtc (pool_step own_action) s s' -> accepted s' = accepted s.
Proof using widths.
  intros Hi Hr. induction Hr as [|s s1 s' Hs _ IH]; [done|]. destruct (step_effect _ s s1 Hi Hs) as (a & Ha & He).
  rewrite IH by (by eapply effect_inv; [apply pool_bounds| |]). destruct He; simpl in Ha; try done; unfold onward; by destruct (qh _).
Qed.

(** What stays during the shutdown. *)
Lemma drain_shutdown a s s' : effect s a s' -> drain_action s a -> shutdown s' = shutdown s.
Proof. clear. intros He Hd. destruct He; simpl in Hd; try done; unfold onward; by destruct (qh _). Qed.

Lemma drain_no_failure s a : drain_action s a -> no_failure s a.
Proof. clear. destruct a; simpl; intuition. Qed.

Lemma no_threads_left s : ok_inv s -> (n_threads (pool s) = 0 <-> wpts s = ∅ /\ failed s = 0).
Proof using widths.
  intros Hi. destruct Hi. pose proof (cnt_nonneg alive (wpts s)). pose proof (cnt_nonneg spawning (wpts s)). split.
  - intros Hz. split; [|lia]. apply map_eq. intros t. rewrite lookup_empty. destruct (wpts s !! t) as [x|] eqn:Hx; [|done].
    assert (1 <= cnt alive (wpts s)) by (apply cnt_pos; eauto). lia.
  - intros [Hm Hf]. rewrite Hm, Hf in *. done.
Qed.

Lemma drained_gone s : ok_inv s -> ok_smooth s -> (forall a, drain_action s a -> ~ enabled a s) -> n_threads (pool s) = 0.
Proof using widths.
  intros Hi Hs Hidle. apply no_threads_left; [done|]. split; [|apply Hs]. apply map_eq. intros t. rewrite lookup_empty.
  destruct (wpts s !! t) as [x|] eqn:Hx; [|done]. exfalso. destruct (awake x) eqn:Hk.
  - destruct (own_enabled s t x Hx Hk) as (a & Ha & He). apply (Hidle a); [|done]. destruct a; simpl in *; tauto.
  - apply (Hidle (Waited t 0)); [by left|]. apply at_point_some. exists x. split; [done|]. revert Hk. simpl. by destruct (wpt_at x).
Qed.

Lemma effect_failed a s s' : effect s a s' -> failed s <= failed s'.
Proof.
  clear. intros He. destruct He as [| | | | | | | | | | | |s1 Ho (_ & _ & ->)|]; simpl; try lia; unfold onward; destruct (qh _); simpl; lia.
Qed.

Lemma steps_failed ok s s' : ok_inv s -> rtc (pool_step ok) s s' -> failed s <= failed s'.
Proof using widths.
  intros Hi Hr. induction Hr as [|s s1 s' Hs _ IH]; [lia|]. destruct (step_effect _ s s1 Hi Hs) as (a & Ha & He).
  pose proof (effect_failed _ _ _ He). specialize (IH ltac:(by eapply effect_inv; [apply pool_bounds| |])). lia.
Qed.

End Reachable.

(** C7: Whatever the threads, the callers and the system do, and in whatever order: no
    assertion fails, no list is left that one is not in and no thread uses the pool after
    it is gone; only a submission can, if [work_pool_shutdown] overtook it.  Entries are
    taken in the order in which they were submitted, each by one thread, and each one
    taken is being run or was run.  The waiting threads are those in the list, and there
    are never more threads than the pool may have. *)
Theorem work_pool_safe max min s :
  is_i32 max -> is_i32 min -> pool_reachable any_action max min s ->
  (forall a, enabled a s -> (exists s', exec a s = Some (tt, s')) \/ (exists w, a = SubmitLocked w /\ shutdown s = Shut)) /\
  accepted s = taken s ++ qh (pool s) /\
  (forall k, occ k (taken s) = occ k (finished s) + cnt (has_work k) (wpts s)) /\
  (forall t, t ∈ wptqh (pool s) <-> exists x, wpts s !! t = Some x /\ waits x = true) /\
  qcount (pool s) = Z.of_nat (length (wptqh (pool s))) /\
  cnt alive (wpts s) <= n_threads (pool s) <= pool_max max min.
Proof.
  intros Hmax Hmin Hr. pose proof (pool_bounds max min (conj Hmax Hmin)) as Hb.
  pose proof (reachable_inv max min (conj Hmax Hmin) _ _ Hr) as Hi. pose proof (cnt_nonneg spawning (wpts s)). split_and!.
  - intros a He. destruct (decide (shutdown s = Shut)) as [Hs|Hs].
    + destruct a as [| | | | | |w| |]; try (left; edestruct exec_effect as (s' & Hx & _); [done|done|exact He|by right|by exists s']).
      right. by exists w.
    + left. edestruct exec_effect as (s' & Hx & _); [done|done|exact He|by left|by exists s'].
  - apply Hi.
  - apply Hi.
  - apply Hi.
  - apply Hi.
  - destruct Hi. lia.
  - apply Hi.
Qed.

(** C8: Without failures every entry is run.  Left to themselves, from any state, the threads
    come to rest after a bounded number of steps, whatever their order, and then the queue
    is empty and each entry that was accepted has been run once.  And as long as the pool
    may grow, no entry waits for another to return: a thread that is not running one is
    on its way to the queue. *)
Theorem pool_drains max min s :
  is_i32 max -> is_i32 min -> pool_reachable no_failure max min s ->
  (forall n s', nsteps (pool_step own_action) n s s' -> Z.of_nat n <= effort s) /\
  (forall s', rtc (pool_step own_action) s s' -> (forall a, own_action s' a -> ~ enabled a s') ->
     qh (pool s') = [] /\ finished s' ≡ₚ accepted s) /\
  (shutdown s = Open -> qh (pool s) <> [] -> n_threads (pool s) < pool_max max min ->
     exists t x, wpts s !! t = Some x /\ awake x = true /\ free_handed x = true).
Proof.
  intros Hmax Hmin Hr. pose proof (conj Hmax Hmin) as Hw. pose proof (pool_bounds max min Hw) as Hb.
  pose proof (reachable_inv max min Hw _ _ Hr) as Hi. pose proof (reachable_smooth max min Hw _ Hr) as Hs. split_and!.
  - intros n s' Hn. pose proof (effort_nonneg s').
    pose proof (steps_bounded max min Hw own_action (fun _ => True) s s' n) as Hd. simpl in Hd.
    specialize (Hd ltac:(intros; split; [by eapply own_effort|done]) Hi I Hn). lia.
  - intros s' Hrs Hidle. rewrite <- (own_accepted max min Hw s s' Hi Hrs).
    eapply idle_finished; [by eapply steps_inv|eapply (steps_smooth max min Hw); [apply own_no_failure|done..]|done].
  - intros Ho Hq Hn. destruct (sm_free _ _ Hs Ho) as [?|Hf]; [lia|].
    pose proof (pi_waits _ _ _ _ _ _ Hi) as Hwt. destruct (pi_signals _ _ _ _ _ _ Hi) as [He|He].
    + apply cnt_pos in Hf as (t & x & Hx & Hfx). exists t, x. split_and!; [done| |done].
      rewrite He in Hwt. pose proof (proj1 (cnt_zero _ _) Hwt t x Hx) as Hk. change (awake x) with (negb (waits x)). by rewrite Hk.
    + destruct (qh (pool s)) as [|w q]; [done|]. assert (1 <= cnt woken (wpts s)) as (t & x & Hx & Hk)%cnt_pos by (simpl in He; lia).
      exists t, x. destruct (woken_waits x Hk) as [Ha Hwk]. simpl. by rewrite Ha, Hwk.
Qed.

(** C31: The shutdown comes to its end.  Without failures, once it has begun, the threads end
    after a bounded number of steps, whatever their order, and when none of them can act
    any more the count the caller waits for is 0; when it has returned, no thread is left
    and each entry that was accepted has been run once. *)
Theorem shutdown_completes max min s :
  is_i32 max -> is_i32 min -> pool_reachable no_failure max min s -> shutdown s <> Open ->
  (forall n s', nsteps (pool_step drain_action) n s s' -> Z.of_nat n <= effort s) /\
  (forall s', rtc (pool_step drain_action) s s' -> (forall a, drain_action s' a -> ~ enabled a s') -> n_threads (pool s') = 0) /\
  (shutdown s = Shut -> wpts s = ∅ /\ finished s ≡ₚ accepted s).
Proof.
  intros Hmax Hmin Hr Ho. pose proof (conj Hmax Hmin) as Hw. pose proof (pool_bounds max min Hw) as Hb.
  pose proof (reachable_inv max min Hw _ _ Hr) as Hi. pose proof (reachable_smooth max min Hw _ Hr) as Hs. split_and!.
  - intros n s' Hn. pose proof (effort_nonneg s').
    pose proof (steps_bounded max min Hw drain_action (fun s => shutdown s <> Open) s s' n) as Hd. simpl in Hd.
    assert (Z.of_nat n <= effort s - effort s'); [|lia]. apply Hd; [|done..].
    intros s1 a s2 Hi1 Ho1 He Ha. split; [by eapply drain_effort|]. by erewrite drain_shutdown.
  - intros s' Hrs. apply (drained_gone max min Hw); [by eapply steps_inv|].
    eapply (steps_smooth max min Hw); [apply drain_no_failure|done..].
  - intros Hsh. destruct (proj1 (no_threads_left max min Hw s Hi) (pi_shut _ _ _ _ _ _ Hi Hsh)) as [Hm _]. split; [done|].
    eapply idle_finished; [done..|]. intros a Ha He. destruct (own_awake s a Ha He) as (t & x & Hx & _). by rewrite Hm in Hx.
Qed.

(** A thread that could not be created stays counted: the shutdown never returns. *)
Theorem failed_spawn_blocks max min s s' :
  is_i32 max -> is_i32 min -> pool_reachable any_action max min s -> 0 < failed s ->
  rtc (pool_step any_action) s s' -> 0 < n_threads (pool s') /\ shutdown s' <> Shut.
Proof.
  intros Hmax Hmin Hr Hf Hs. pose proof (conj Hmax Hmin) as Hw. pose proof (reachable_inv max min Hw _ _ Hr) as Hi.
  pose proof (steps_failed max min Hw _ _ _ Hi Hs) as Hle. pose proof (steps_inv max min Hw _ _ _ Hi Hs) as Hi'.
  assert (0 < n_threads (pool s')).
  { destruct Hi'. pose proof (cnt_nonneg alive (wpts s')). pose proof (cnt_nonneg spawning (wpts s')). lia. }
  split; [done|]. intros Hsh. pose proof (pi_shut _ _ _ _ _ _ Hi' Hsh). lia.
Qed.

(** ** At work *)

Fixpoint run_actions (l : list action) (s : pool_state) : option pool_state :=
  match l with
  | [] => Some s
  | a :: l => if decide (enabled a s) then match exec a s with Some (_, s') => run_actions l s' | None => None end else None
  end.

Lemma run_actions_steps ok l s s' :
  (forall s a, a ∈ l -> ok s a) -> run_actions l s = Some s' -> rtc (pool_step ok) s s'.
Proof.
  revert s. induction l as [|a l IH]; intros s Hok Hr; simpl in Hr; [by simplify_eq|]. case_decide as He; [|done].
  destruct (exec a s) as [[[] s1]|] eqn:Hx; [|done]. eapply rtc_l; [exists a; split_and!; [apply Hok; by left|done|done]|].
  apply IH; [|done]. intros s2 a2 Ha. apply Hok. by right.
Qed.

Definition demo_start : pool_state := mk_ps (mk_pool [] 0 [] 2 1 WORK_POOL_TIMEOUT_MS 1 0) {[1%positive := fresh_wpt]} ∅ [] Open 0 [] [] [].

(** One thread has run an entry, a second one runs the next, and a third entry is queued. *)
Definition demo_actions : list action :=
  [Start 1; SubmitTest 7; SubmitLocked 7; Waited 1 0; Spawn 1 2 0; SubmitTest 8; Start 2; SubmitLocked 8;
   Waited 2 ETIMEDOUT; SubmitTest 9; SubmitLocked 9; Return 1]%positive.
Definition demo_pool : pool_state := default demo_start (run_actions demo_actions demo_start).

Lemma demo_pool_reachable ok : (forall s a, a ∈ demo_actions -> ok s a) -> pool_reachable ok 2 1 demo_pool.
Proof.
  intros Hok. exists 1%positive, 0, demo_start. split; [by vm_compute|]. apply (run_actions_steps ok demo_actions); [done|]. by vm_compute.
Qed.

Lemma demo_no_failure s a : a ∈ demo_actions -> no_failure s a.
Proof. unfold demo_actions. rewrite !elem_of_cons, elem_of_nil. intros; destruct_or!; subst; simpl; auto. Qed.

Lemma work_pool_safe_witness :
  accepted demo_pool = taken demo_pool ++ qh (pool demo_pool) /\ taken demo_pool = [7; 8]%positive /\ qh (pool demo_pool) = [9]%positive.
Proof. split; [apply (work_pool_safe 2 1 demo_pool); [done|done|by apply demo_pool_reachable]|by vm_compute]. Defined.

(** The rest of the entries, by the threads themselves. *)
Definition demo_rest : list action := [Relock 1; Return 2; Relock 2; Return 1; Relock 1]%positive.
Definition demo_done : pool_state := default demo_start (run_actions demo_rest demo_pool).

Lemma demo_done_idle a : own_action demo_done a -> ~ enabled a demo_done.
Proof.
  assert (Hall : cnt awake (wpts demo_done) = 0) by by vm_compute.
  intros Ha He. destruct (own_awake _ _ Ha He) as (t & x & Hx & Hk). pose proof (proj1 (cnt_zero _ _) Hall t x Hx) as Hz.
  by rewrite Hz in Hk.
Qed.

Lemma pool_drains_witness : finished demo_done ≡ₚ [7; 8; 9]%positive.
Proof.
  destruct (pool_drains 2 1 demo_pool) as (_ & Hd & _); [done|done|apply demo_pool_reachable, demo_no_failure|].
  apply (Hd demo_done); [|apply demo_done_idle]. apply (run_actions_steps _ demo_rest); [|by vm_compute].
  intros s a. unfold demo_rest. rewrite !elem_of_cons, elem_of_nil. intros; destruct_or!; by subst.
Defined.

(** Both threads leave, and the shutdown returns. *)
Definition demo_closing : pool_state := default demo_start (run_actions [ShutdownBegin] demo_done).
Definition demo_leave : list action := [Waited 2 ETIMEDOUT; Waited 1 0; ShutdownEnd]%positive.
Definition demo_shut : pool_state := default demo_start (run_actions demo_leave demo_closing).

Lemma demo_shut_reachable : pool_reachable no_failure 2 1 demo_shut.
Proof.
  destruct (demo_pool_reachable no_failure demo_no_failure) as (t & rc & s0 & H0 & Hr). exists t, rc, s0. split; [done|].
  etrans; [exact Hr|]. etrans; [apply (run_actions_steps _ demo_rest _ demo_done); [|by vm_compute]|].
  { intros s a. unfold demo_rest. rewrite !elem_of_cons, elem_of_nil. intros; destruct_or!; by subst. }
  apply rtc_l with demo_closing; [exists ShutdownBegin; by vm_compute|]. apply (run_actions_steps _ demo_leave); [|by vm_compute].
  intros s a. unfold demo_leave. rewrite !elem_of_cons, elem_of_nil. intros; destruct_or!; subst; simpl; auto.
Qed.

Lemma shutdown_completes_witness : shutdown demo_shut = Shut /\ wpts demo_shut = ∅.
Proof.
  split; [by vm_compute|]. apply (shutdown_completes 2 1 demo_shut); [done|done|apply demo_shut_reachable|by vm_compute|by vm_compute].
Defined.

(** [pthread_create] fails for the second thread. *)
Definition demo_failed : pool_state :=
  default demo_start (run_actions [SubmitTest 7; SubmitLocked 7; Start 1; Spawn 1 2 11]%positive demo_start).

Lemma failed_spawn_blocks_witness : shutdown demo_failed <> Shut /\ failed demo_failed = 1.
Proof.
  split; [|by vm_compute]. apply (failed_spawn_blocks 2 1 demo_failed demo_failed); [done|done| |by vm_compute|done].
  exists 1%positive, 0, demo_start. split; [by vm_compute|].
  apply (run_actions_steps _ [SubmitTest 7; SubmitLocked 7; Start 1; Spawn 1 2 11]%positive); [done|by vm_compute].
Defined.

(** A submission that the shutdown overtakes goes on with a mutex that is gone. *)
Definition demo_late : pool_state :=
  default demo_start (run_actions [Start 1; SubmitTest 7; ShutdownBegin; Waited 1 0; ShutdownEnd]%positive demo_start).

Lemma late_submission_lost :
  pool_reachable any_action 2 1 demo_late /\ shutdown demo_late = Shut /\
  enabled (SubmitLocked 7) demo_late /\ exec (SubmitLocked 7) demo_late = None.
Proof.
  assert (Hs : submitting demo_late = [7%positive]) by by vm_compute.
  split_and!; [|by vm_compute|unfold enabled; rewrite Hs; by left|by vm_compute].
  exists 1%positive, 0, demo_start. split; [by vm_compute|].
  apply (run_actions_steps _ [Start 1; SubmitTest 7; ShutdownBegin; Waited 1 0; ShutdownEnd]%positive); [done|by vm_compute].
Qed.
