(* ===== verification/Cache.v ===== *)
(** * Caches

    [Lru]: the template [LRU] of [include/cache/lru.h], a list of values with a map from a
    value to its place in the list; it implements a list of the most recently used values
    as long as no value is added that is already there.
    [BinLog]: the buffers of [src/cache/bin_log.cpp], which record the latest information
    on a file until there are enough to be written out. *)
From S2P Require Import Prelude.

Open Scope Z_scope.
Open Scope dnfs_scope.

Lemma filter_all {A} (P : A -> Prop) `{!forall x, Decision (P x)} (l : list A) : Forall P l -> filter P l = l.
Proof. induction 1; [done|]. rewrite filter_cons_True by done. by f_equal. Qed.

Module Lru.

Section Lru.
Context {V : Type} `{Countable V}.

(** A node of [std::list] keeps its address: [m_list] has the nodes in their order, and an
    iterator is the address of a node.  [fresh] is an address not used before. *)
Record lru := mk_lru {
  m_list : list (nat * V);
  m_map : gmap V nat;
  capacity : Z;
  fresh : nat }.

#[global] Instance eta_lru : RecEta lru := fun r => mk_lru (m_list r) (m_map r) (capacity r) (fresh r).

Definition new_lru (cap : Z) : lru := mk_lru [] ∅ cap 0.

(** [add]: the value pushed out, and [None] when the back of an empty list is read. *)
Definition lru_add (value : V) (s : lru) : option (option V * lru) :=
  let full := Z.of_nat (length (m_list s)) =? u64 (capacity s) in
  match (if full then match list.last (m_list s) with
                      | None => None
                      | Some (_, e) => Some (Some e, s <| m_list := take (length (m_list s) - 1) (m_list s) |>
                                                       <| m_map := delete e (m_map s) |>)
                      end
         else Some (None, s)) with
  | None => None
  | Some (pop, s) =>
      Some (pop, s <| m_list := (fresh s, value) :: m_list s |> <| m_map := <[value := fresh s]> (m_map s) |>
                   <| fresh := S (fresh s) |>)
  end.

(** Nodes other than the one at an address. *)
Definition without (it : nat) (l : list (nat * V)) : list (nat * V) := filter (fun n => n.1 <> it) l.

(** [access]: the node moves to the front and gets the value. *)
Definition lru_access (value : V) (s : lru) : lru :=
  match m_map s !! value with
  | None => s
  | Some it => s <| m_list := (it, value) :: without it (m_list s) |>
  end.

(** [remove] *)
Definition lru_remove (value : V) (s : lru) : lru :=
  match m_map s !! value with
  | None => s
  | Some it => s <| m_list := without it (m_list s) |> <| m_map := delete value (m_map s) |>
  end.

(** ** Specification *)

(** The values, the most recently used first. *)
Definition spec_add (cap : nat) (v : V) (l : list V) : option V * list V :=
  if (length l <? cap)%nat then (None, v :: l) else (list.last l, v :: take (length l - 1) l).
Definition spec_access (v : V) (l : list V) : list V :=
  if bool_decide (v ∈ l) then v :: filter (fun x => x <> v) l else l.
Definition spec_remove (v : V) (l : list V) : list V := filter (fun x => x <> v) l.

(** The map leads to the one node of each value. *)
Record lru_ok (s : lru) : Prop := {
  ok_values : NoDup (m_list s).*2;
  ok_nodes : NoDup (m_list s).*1;
  ok_fresh : Forall (fun n => (n.1 < fresh s)%nat) (m_list s);
  ok_map : forall v it, m_map s !! v = Some it <-> (it, v) ∈ m_list s;
  ok_size : 0 < capacity s < 2 ^ 31 /\ Z.of_nat (length (m_list s)) <= capacity s }.

Lemma new_ok cap : 0 < cap < 2 ^ 31 -> lru_ok (new_lru cap).
Proof.
  intros Hc. split; simpl; try constructor; try lia.
  - rewrite lookup_empty. done.
  - intros []%list.not_elem_of_nil.
Qed.

(** A value has one node. *)
Lemma without_value l it v :
  NoDup l.*1 -> NoDup l.*2 -> (it, v) ∈ l -> (without it l).*2 = filter (fun x => x <> v) l.*2.
Proof.
  induction l as [|[i x] l IH]; intros Hi Hv Hin; [by apply list.not_elem_of_nil in Hin|].
  cbn [fmap list_fmap fst snd] in *. apply list.NoDup_cons in Hi as [Hi Hi'], Hv as [Hv Hv'].
  apply list.elem_of_cons in Hin as [[= -> ->]|Hin].
  - unfold without. rewrite filter_cons_False by (simpl; intros []; done).
    rewrite filter_cons_False by (intros []; done).
    rewrite !filter_all; [done|..]; apply list.Forall_forall.
    + intros y Hy ->. done.
    + intros [j y] Hy Hj. apply Hi. simpl in Hj. subst j. by apply (list_elem_of_fmap_2 fst) in Hy.
  - assert (i <> it) by (intros ->; apply Hi; by apply (list_elem_of_fmap_2 fst) in Hin).
    assert (x <> v) by (intros ->; apply Hv; by apply (list_elem_of_fmap_2 snd) in Hin).
    unfold without. rewrite filter_cons_True by done. rewrite filter_cons_True by done. simpl. f_equal. by apply IH.
Qed.

Lemma in_without l it n : n ∈ without it l <-> n ∈ l /\ n.1 <> it.
Proof. unfold without. rewrite list_elem_of_filter. tauto. Qed.

(** An address is the place of one value. *)
Lemma node_value (l : list (nat * V)) it x y : NoDup l.*1 -> (it, x) ∈ l -> (it, y) ∈ l -> x = y.
Proof.
  intros Hi [a Ha]%list_elem_of_lookup_1 [b Hb]%list_elem_of_lookup_1.
  assert (a = b) as -> by (eapply (NoDup_lookup l.*1); [done|..]; rewrite list_lookup_fmap, ?Ha, ?Hb; done). congruence.
Qed.

Lemma without_ok s it v :
  lru_ok s -> (it, v) ∈ m_list s ->
  NoDup (without it (m_list s)).*1 /\ Forall (fun n => (n.1 < fresh s)%nat) (without it (m_list s)) /\
  (length (without it (m_list s)) < length (m_list s))%nat.
Proof.
  intros [Hv Hi Hf Hm [Hc Hl]] Hin. split; [|split].
  - eapply sublist_NoDup; [exact Hi|]. apply fmap_sublist, sublist_filter.
  - rewrite list.Forall_forall in *. intros n [Hn _]%in_without. by apply Hf.
  - apply (length_filter_lt _ _ (it, v)); [done|simpl; tauto].
Qed.

Lemma access_ok v s : lru_ok s -> lru_ok (lru_access v s) /\ (m_list (lru_access v s)).*2 = spec_access v (m_list s).*2.
Proof.
  intros Hok. pose proof Hok as [Hv Hi Hf Hm [Hc Hl]].
  unfold lru_access, spec_access. destruct (m_map s !! v) as [it|] eqn:E.
  - pose proof (proj1 (Hm v it) E) as Hin. destruct (without_ok s it v Hok Hin) as (Wi & Wf & Wl). pose proof (without_value _ _ _ Hi Hv Hin) as Hw.
    rewrite bool_decide_eq_true_2 by (by apply (list_elem_of_fmap_2 snd) in Hin).
    cbn [m_list upd]. rewrite fmap_cons, Hw. split; [|done]. split; cbn [m_list m_map fresh capacity upd]; rewrite ?fmap_cons.
    + rewrite Hw. apply list.NoDup_cons. split; [|by apply list.NoDup_filter].
      rewrite list_elem_of_filter. intros [[] _]. done.
    + apply list.NoDup_cons. split; [|done]. intros [n [En Hn]]%list_elem_of_fmap. by apply in_without in Hn as [].
    + apply list.Forall_cons. split; [|done]. rewrite list.Forall_forall in Hf. by apply (Hf _ Hin).
    + intros x j. rewrite list.elem_of_cons, in_without, <- Hm. split.
      * intros Hx. destruct (decide (x = v)) as [->|Hne]; [left; congruence|]. right. split; [done|]. simpl. intros ->.
        apply Hne, (node_value (m_list s) it); [done|by apply Hm|done].
      * intros [[= -> ->]|[Hx _]]; done.
    + simpl. lia.
  - rewrite bool_decide_eq_false_2; [split; [|done]; by split|].
    intros [[j x] [-> Hx]]%list_elem_of_fmap. apply Hm in Hx. simpl in E. congruence.
Qed.

Lemma remove_ok v s : lru_ok s -> lru_ok (lru_remove v s) /\ (m_list (lru_remove v s)).*2 = spec_remove v (m_list s).*2.
Proof.
  intros Hok. pose proof Hok as [Hv Hi Hf Hm [Hc Hl]]. unfold lru_remove, spec_remove. destruct (m_map s !! v) as [it|] eqn:E.
  - pose proof (proj1 (Hm v it) E) as Hin. destruct (without_ok s it v Hok Hin) as (Wi & Wf & Wl).
    pose proof (without_value _ _ _ Hi Hv Hin) as Hw. cbn [m_list upd]. split; [|done].
    split; cbn [m_list m_map fresh capacity upd]; [|done|done| |lia].
    + rewrite Hw. by apply list.NoDup_filter.
    + intros x j. rewrite in_without, lookup_delete_Some, Hm. simpl. split.
      * intros [Hne Hx]. split; [done|]. intros ->. apply Hne. by apply (node_value (m_list s) it).
      * intros [Hx Hj]. split; [|done]. intros ->. apply Hj. apply Hm in Hx. congruence.
  - split; [done|]. rewrite filter_all; [done|]. apply list.Forall_forall.
    intros x [[j y] [Ex Hx]]%list_elem_of_fmap ->. simpl in Ex. subst y. apply Hm in Hx. congruence.
Qed.

(** Without its last node, a cache has a free place. *)
Lemma pop_ok s it e :
  lru_ok s -> list.last (m_list s) = Some (it, e) ->
  lru_ok (s <| m_list := take (length (m_list s) - 1) (m_list s) |> <| m_map := delete e (m_map s) |>) /\
  e ∉ (take (length (m_list s) - 1) (m_list s)).*2.
Proof.
  intros [Hv Hi Hf Hm [Hc Hl]] [l Hlast]%last_Some. rewrite Hlast in *. rewrite length_app in *. simpl length in *.
  rewrite Nat.add_sub, take_app_length. rewrite !fmap_app in *. simpl in Hv, Hi.
  apply list.NoDup_app in Hv as (Hv & Hve & _), Hi as (Hi & Hie & _). apply list.Forall_app in Hf as [Hf _].
  assert (Hn : e ∉ l.*2) by (intros He; apply (Hve e He); by left).
  split; [|done]. split; cbn [m_list m_map fresh capacity upd]; [done|done|done| |rewrite Nat2Z.inj_add in Hl; lia].
  intros x j. rewrite lookup_delete_Some, Hm, list.elem_of_app, list_elem_of_singleton. split.
  - intros [Hne [Hx|[= -> ->]]]; done.
  - intros Hx. split; [|by left]. intros <-. apply Hn. by apply (list_elem_of_fmap_2 snd) in Hx.
Qed.

(** [add] of a value that is not there, when there is a free place. *)
Lemma push_ok v s :
  lru_ok s -> v ∉ (m_list s).*2 -> Z.of_nat (length (m_list s)) < capacity s ->
  lru_ok (s <| m_list := (fresh s, v) :: m_list s |> <| m_map := <[v := fresh s]> (m_map s) |> <| fresh := S (fresh s) |>).
Proof.
  intros [Hv Hi Hf Hm [Hc Hl]] Hn Hlt. rewrite list.Forall_forall in Hf.
  assert (Hfr : fresh s ∉ (m_list s).*1) by (intros [n [En Hx]]%list_elem_of_fmap; specialize (Hf n Hx); lia).
  split; cbn [m_list m_map fresh capacity upd]; rewrite ?fmap_cons; simpl.
  - by apply list.NoDup_cons.
  - by apply list.NoDup_cons.
  - apply list.Forall_cons. split; [simpl; lia|]. apply list.Forall_forall. intros n Hx. specialize (Hf n Hx). lia.
  - intros x j. rewrite list.elem_of_cons, lookup_insert_Some, <- Hm. split.
    + intros [[-> ->]|[_ Hx]]; auto.
    + intros [[= -> ->]|Hx]; [by left|]. right. split; [|done]. intros ->. apply Hn.
      apply Hm in Hx. by apply (list_elem_of_fmap_2 snd) in Hx.
  - lia.
Qed.

Lemma add_ok v s :
  lru_ok s -> v ∉ (m_list s).*2 ->
  exists pop s', lru_add v s = Some (pop, s') /\ lru_ok s' /\ capacity s' = capacity s /\
    (pop, (m_list s').*2) = spec_add (Z.to_nat (capacity s)) v (m_list s).*2.
Proof.
  intros Hok Hn. pose proof (ok_size s Hok) as [Hc Hl]. unfold lru_add, spec_add. rewrite length_fmap.
  rewrite u64_small by (unfold is_u64; lia).
  destruct (Z.eqb_spec (Z.of_nat (length (m_list s))) (capacity s)) as [Hfull|Hfull].
  - destruct (list.last (m_list s)) as [[it e]|] eqn:El; [|apply last_None in El; rewrite El in Hfull; simpl in Hfull; lia].
    destruct (pop_ok s it e Hok El) as [Hp _]. rewrite (proj2 (Nat.ltb_ge _ _)) by lia.
    eexists _, _. split; [done|]. split; [|split; [done|]].
    + apply (push_ok v (s <| m_list := take (length (m_list s) - 1) (m_list s) |> <| m_map := delete e (m_map s) |>)); [done|..].
      * simpl. intros Hx. apply Hn. rewrite fmap_take in Hx. by apply (subseteq_take (length (m_list s) - 1)).
      * simpl. rewrite length_take. lia.
    + rewrite fmap_last, El. simpl. by rewrite fmap_take.
  - rewrite (proj2 (Nat.ltb_lt _ _)) by lia. eexists _, _. split; [done|]. split; [apply push_ok; auto; lia|]. done.
Qed.

(** ** Refinement *)

Inductive op := OpAdd (v : V) | OpAccess (v : V) | OpRemove (v : V).

Definition lru_run_op (o : op) (s : lru) : option (option V * lru) :=
  match o with
  | OpAdd v => lru_add v s
  | OpAccess v => Some (None, lru_access v s)
  | OpRemove v => Some (None, lru_remove v s)
  end.

Fixpoint lru_run_ops (os : list op) (s : lru) : option (list (option V) * lru) :=
  match os with
  | [] => Some ([], s)
  | o :: os' =>
      match lru_run_op o s with
      | None => None
      | Some (p, s') => match lru_run_ops os' s' with None => None | Some (ps, s'') => Some (p :: ps, s'') end
      end
  end.

(** The operations on the list of values; a value that is there is not added. *)
Definition spec_op (cap : nat) (o : op) (l : list V) : option (option V * list V) :=
  match o with
  | OpAdd v => if bool_decide (v ∈ l) then None else Some (spec_add cap v l)
  | OpAccess v => Some (None, spec_access v l)
  | OpRemove v => Some (None, spec_remove v l)
  end.

Fixpoint spec_ops (cap : nat) (os : list op) (l : list V) : option (list (option V) * list V) :=
  match os with
  | [] => Some ([], l)
  | o :: os' =>
      match spec_op cap o l with
      | None => None
      | Some (p, l') => match spec_ops cap os' l' with None => None | Some (ps, l'') => Some (p :: ps, l'') end
      end
  end.

Lemma run_ops_ok os s ps l :
  lru_ok s -> spec_ops (Z.to_nat (capacity s)) os (m_list s).*2 = Some (ps, l) ->
  exists s', lru_run_ops os s = Some (ps, s') /\ lru_ok s' /\ capacity s' = capacity s /\ (m_list s').*2 = l.
Proof.
  revert s ps. induction os as [|o os IH]; intros s ps Hok Hs; simpl in *; [simplify_eq; eauto|].
  assert (Hstep : forall p l', spec_op (Z.to_nat (capacity s)) o (m_list s).*2 = Some (p, l') ->
    exists s', lru_run_op o s = Some (p, s') /\ lru_ok s' /\ capacity s' = capacity s /\ (m_list s').*2 = l').
  { intros p l' Ho. destruct o as [v|v|v]; simpl in *.
    - case_bool_decide as Hv; [done|]. destruct (add_ok v s Hok Hv) as (pop & s' & Ha & Hok' & Hc & He).
      rewrite <- He in Ho. simplify_eq. eauto.
    - simplify_eq. destruct (access_ok v s Hok). eexists. split; [done|]. split; [done|]. split; [|done].
      unfold lru_access. by destruct (m_map s !! v).
    - simplify_eq. destruct (remove_ok v s Hok). eexists. split; [done|]. split; [done|]. split; [|done].
      unfold lru_remove. by destruct (m_map s !! v). }
  destruct (spec_op _ o _) as [[p l']|] eqn:Eo; [|done]. destruct (Hstep p l' eq_refl) as (s1 & -> & Hok1 & Hc1 & Hl1).
  destruct (spec_ops _ os l') as [[ps' l'']|] eqn:Es; simplify_eq. rewrite <- Hc1 in Es.
  destruct (IH s1 ps' Hok1 Es) as (s2 & -> & Hok2 & Hc2 & Hl2). eexists. rewrite Hc2. eauto.
Qed.

(** C30: on every sequence of operations that adds a value only when it is not there, the
    cache behaves as the list of its values, the most recently used first: it pushes out
    the least recently used one when it is full, and never holds more than its capacity. *)
Theorem lru_refines cap os ps l :
  0 < cap < 2 ^ 31 -> spec_ops (Z.to_nat cap) os [] = Some (ps, l) ->
  exists s, lru_run_ops os (new_lru cap) = Some (ps, s) /\ (m_list s).*2 = l /\ Z.of_nat (length (m_list s)) <= cap.
Proof.
  intros Hc Hs. destruct (run_ops_ok os (new_lru cap) ps l (new_ok cap Hc) Hs) as (s & Hr & Hok & Hcap & Hl).
  exists s. split; [done|]. split; [done|]. destruct (ok_size s Hok) as [_ Hsize]. rewrite Hcap in Hsize. exact Hsize.
Qed.

End Lru.

Lemma lru_refines_witness :
  exists s, lru_run_ops [OpAdd 1; OpAdd 2; OpAccess 1; OpAdd 3; OpRemove 1] (new_lru (V := Z) 2) = Some ([None; None; None; Some 2; None], s) /\
    (m_list s).*2 = [3].
Proof.
  destruct (lru_refines (V := Z) 2 [OpAdd 1; OpAdd 2; OpAccess 1; OpAdd 3; OpRemove 1] [None; None; None; Some 2; None] [3])
    as (s & Hr & Hl & _); [lia|vm_compute; reflexivity|]. exists s. split; [exact Hr|exact Hl].
Defined.

(** A value that is added twice has two nodes: when the older one is pushed out, the map
    forgets the newer, and the value cannot be found although it is in the list. *)
Lemma add_twice_lost :
  exists s, lru_run_ops [OpAdd 1; OpAdd 1; OpAdd 2] (new_lru (V := Z) 2) = Some ([None; None; Some 1], s) /\
    (m_list s).*2 = [2; 1] /\ m_map s !! 1 = None /\ (m_list (lru_remove 1 s)).*2 = [2; 1].
Proof. eexists. split; [reflexivity|]. vm_compute. repeat split; reflexivity. Qed.

End Lru.

Module BinLog.

(** A [LogBufferMap]: handles in the order of their addresses, each with the information
    on its file. *)
Fixpoint buf_set (k v : Z) (m : list (Z * Z)) : list (Z * Z) :=
  match m with
  | [] => [(k, v)]
  | (k', v') :: m' =>
      if k =? k' then (k, v) :: m' else if k <? k' then (k, v) :: m else (k', v') :: buf_set k v m'
  end.

Fixpoint buf_find (k : Z) (m : list (Z * Z)) : option Z :=
  match m with
  | [] => None
  | (k', v) :: m' => if k =? k' then Some v else buf_find k m'
  end.

Record binlog := mk_binlog {
  memery_buffer : list (Z * Z);
  disk_buffer : option (list (Z * Z));
  bin_log_fd : Z;
  buffer_lock : bool;
  buffer_change_count : Z }.

#[global] Instance eta_binlog : RecEta binlog := fun r =>
  mk_binlog (memery_buffer r) (disk_buffer r) (bin_log_fd r) (buffer_lock r) (buffer_change_count r).

Definition BIN_LOG_BUFFER_LIMIT : Z := 100.
Definition BUFFER_CHANGE_LIMIT : Z := 50.

(** How a method ends: it returns, waits for a lock that its own thread holds, ends the
    process, or uses a null pointer. *)
Inductive bl_outcome := Done | Deadlock | Exits | NullPointer.

(** [unique_lock] of [buffer_lock] around a block. *)
Definition with_lock (m : binlog -> bl_outcome * binlog) (s : binlog) : bl_outcome * binlog :=
  if buffer_lock s then (Deadlock, s)
  else
    let '(o, s') := m (s <| buffer_lock := true |>) in
    (o, match o with Done => s' <| buffer_lock := false |> | _ => s' end).

Definition need_switch (s : binlog) : bool :=
  (BIN_LOG_BUFFER_LIMIT <? Z.of_nat (length (memery_buffer s))) &&
  match disk_buffer s with None => true | Some _ => false end.

Section Methods.
(** The path of an information, [None] for a null pointer; and the system: whether
    [rename] succeeds, and what [open] returns. *)
Context (generate_file_save : Z -> option (list byte)) (rename_ok : bool) (open_fd : Z).

Fixpoint group (path : list byte) (h : Z) (m : list (list byte * list Z)) : list (list byte * list Z) :=
  match m with
  | [] => [(path, [h])]
  | (p, hs) :: m' => if bool_decide (p = path) then (p, hs ++ [h]) :: m' else (p, hs) :: group path h m'
  end.

(** [object_mapping]: the handles of every path. *)
Fixpoint object_mapping (buf : list (Z * Z)) (disk_m : list (list byte * list Z)) : option (list (list byte * list Z)) :=
  match buf with
  | [] => Some disk_m
  | (h, info) :: buf' =>
      match generate_file_save info with
      | None => None
      | Some path => object_mapping buf' (group path h disk_m)
      end
  end.

(** [dispatch_task] removes the file and gives the buffer up. *)
Definition dispatch_task (disk_m : list (list byte * list Z)) (s : binlog) : binlog := s <| disk_buffer := None |>.

Definition persist_old_binlog (s : binlog) : bl_outcome * binlog :=
  match disk_buffer s with
  | None => (NullPointer, s)
  | Some buf =>
      match object_mapping buf [] with
      | None => (NullPointer, s)
      | Some disk_m => (Done, dispatch_task disk_m s)
      end
  end.

Definition switch_buffer (s : binlog) : bl_outcome * binlog :=
  let '(o, s) :=
    with_lock (fun s =>
      let s := s <| disk_buffer := Some (memery_buffer s) |> in
      if negb rename_ok then (Exits, s)
      else
        let s := s <| bin_log_fd := open_fd |> in
        if open_fd =? -1 then (Exits, s) else (Done, s <| memery_buffer := [] |>)) s in
  match o with Done => persist_old_binlog s | _ => (o, s) end.

Definition push_info (handle obj_info : Z) (s : binlog) : bl_outcome * binlog :=
  with_lock (fun s =>
    let '(o, s) :=
      match buf_find handle (memery_buffer s) with
      | Some _ => (Done, s <| memery_buffer := buf_set handle obj_info (memery_buffer s) |>)
      | None =>
          let s := s <| memery_buffer := buf_set handle obj_info (memery_buffer s) |> in
          if need_switch s then switch_buffer s else (Done, s)
      end in
    match o with
    | Done => (Done, s <| buffer_change_count := i32 (buffer_change_count s + 1) |>)
    | _ => (o, s)
    end) s.

(** [find_info]: whether the handle is there; the information goes to a copy of the
    argument. *)
Definition find_info (handle : Z) (s : binlog) : bool :=
  match buf_find handle (memery_buffer s) with Some _ => true | None => false end.

(** The rounds of [sync_log]: [persist] does nothing yet. *)
Definition sync_round (s : binlog) : binlog :=
  if BUFFER_CHANGE_LIMIT <? buffer_change_count s then s <| buffer_change_count := 0 |> else s.

Fixpoint sync_log (fuel : nat) (s : binlog) : option binlog :=
  match fuel with
  | O => None
  | S fuel => sync_log fuel (sync_round s)
  end.

(** ** Properties *)

Lemma buf_find_set k v m k' : buf_find k' (buf_set k v m) = if k' =? k then Some v else buf_find k' m.
Proof.
  induction m as [|[k1 v1] m IH]; simpl; [done|].
  destruct (Z.eqb_spec k k1) as [->|Hk]; simpl; [by destruct (Z.eqb_spec k' k1)|].
  destruct (k <? k1); simpl; [done|]. rewrite IH.
  destruct (Z.eqb_spec k' k1) as [->|]; [|done]. destruct (Z.eqb_spec k1 k); [lia|done].
Qed.

Lemma length_buf_set k v m : buf_find k m = None -> length (buf_set k v m) = S (length m).
Proof.
  induction m as [|[k1 v1] m IH]; simpl; [done|]. destruct (k =? k1); [done|]. intros Hm.
  destruct (k <? k1); simpl; [done|]. by rewrite IH.
Qed.

(** Below the limit, [push_info] records the information and returns. *)
Lemma push_records h i s :
  buffer_lock s = false -> Z.of_nat (length (memery_buffer s)) < BIN_LOG_BUFFER_LIMIT ->
  exists s', push_info h i s = (Done, s') /\ buffer_lock s' = false /\
    forall h', buf_find h' (memery_buffer s') = if h' =? h then Some i else buf_find h' (memery_buffer s).
Proof.
  intros Hl Hn. unfold push_info, with_lock. rewrite Hl. cbn [memery_buffer upd].
  destruct (buf_find h (memery_buffer s)) eqn:Ef.
  - eexists. split; [done|]. split; [done|]. intros h'. apply buf_find_set.
  - unfold need_switch. cbn [memery_buffer upd]. rewrite length_buf_set by done.
    destruct (Z.ltb_spec BIN_LOG_BUFFER_LIMIT (Z.of_nat (S (length (memery_buffer s))))); [lia|]. simpl.
    eexists. split; [done|]. split; [done|]. intros h'. apply buf_find_set.
Qed.

(** A new handle in a full buffer: [push_info] holds the lock that [switch_buffer] waits
    for, and never returns. *)
Lemma push_deadlocks h i s :
  buffer_lock s = false -> disk_buffer s = None -> buf_find h (memery_buffer s) = None ->
  Z.of_nat (length (memery_buffer s)) = BIN_LOG_BUFFER_LIMIT -> (push_info h i s).1 = Deadlock.
Proof.
  intros Hl Hd Hf Hn. unfold push_info, with_lock. rewrite Hl. cbn [memery_buffer upd]. rewrite Hf.
  unfold need_switch. cbn [memery_buffer disk_buffer upd]. rewrite length_buf_set, Hd by done.
  destruct (Z.ltb_spec BIN_LOG_BUFFER_LIMIT (Z.of_nat (S (length (memery_buffer s))))); [done|lia].
Qed.

(** The constructor calls [sync_log], which does not return. *)
Lemma sync_log_never_returns fuel s : sync_log fuel s = None.
Proof. revert s. induction fuel as [|fuel IH]; intros s; [done|]. apply IH. Qed.

End Methods.
End BinLog.
