(* ===== verification/LogText.v ===== *)
(** * Text of the log

    The strings the logger works on: [std::string] searches and cuts, the helpers of
    [src/utils/common_utils.cpp] ([split_str], [judge_regex], [to_lower],
    [to_upper]), the level and format tables of [include/log/log_args.h],
    [Logger::decode_log_level] of [src/log/log.cpp], and the substitution of
    [std::regex_replace] for the literal patterns the log formats use.  A string is
    the list of its bytes; a thrown exception is the left of a sum. *)
From S2P Require Import Prelude.
From Stdlib Require Import Decimal DecimalPos DecimalN.

Open Scope Z_scope.
Open Scope dnfs_scope.

(** ** String literals *)

Inductive literal := Literal (l : list byte).
Definition literal_bytes (s : literal) : list byte := let 'Literal l := s in l.

Declare Scope literal_scope.
Delimit Scope literal_scope with literal.
Bind Scope literal_scope with literal.
String Notation literal Literal literal_bytes : literal_scope.

Abbreviation str s := (literal_bytes s%literal).

(** ** Exceptions *)

(** What is thrown: the project's exceptions with the place of the [throw], and those
    of the standard library.  [Aborted] and [Exited] are calls of [abort] and
    [exit], [Undefined] is behaviour that C++ leaves undefined, [OutOfFuel] a call nested deeper than the fuel. *)
Inductive log_exn :=
  | LogException (line : Z)
  | UtilException
  | OutOfRange
  | FilesystemError
  | Aborted
  | Exited (code : Z)
  | Undefined
  | OutOfFuel.

Definition ebind {E A B} (m : E + A) (k : A -> E + B) : E + B :=
  match m with inl e => inl e | inr a => k a end.

Notation "'let?' x := m 'in' k" := (ebind m (fun x => k))
  (at level 10, x name, m at level 200, k at level 200) : dnfs_scope.

(** ** Searching and cutting *)

(** [sub] is a prefix of [s]. *)
Fixpoint starts (sub s : list byte) : bool :=
  match sub, s with
  | [], _ => true
  | b :: sub', c :: s' => bool_decide (b = c) && starts sub' s'
  | _ :: _, [] => false
  end.

(** [std::string::find]: [None] is [npos]. *)
Fixpoint find_str (sub s : list byte) : option nat :=
  if starts sub s then Some 0%nat
  else match s with
       | [] => None
       | _ :: s' => S <$> find_str sub s'
       end.

Definition contains (sub s : list byte) : bool :=
  match find_str sub s with Some _ => true | None => false end.

(** [std::string::substr], both arguments [size_t]. *)
Definition substr (s : list byte) (pos n : Z) : log_exn + list byte :=
  if Z.of_nat (length s) <? pos then inl OutOfRange
  else inr (take (Z.to_nat (Z.min n (Z.of_nat (length s) - pos))) (drop (Z.to_nat pos) s)).

Definition is_empty (s : list byte) : bool := match s with [] => true | _ => false end.

(** The loop of [split_str]; [None] when the fuel is used up. *)
Fixpoint split_loop (fuel : nat) (split strs : list byte) (result : list (list byte)) : option (list (list byte)) :=
  match fuel with
  | O => None
  | S fuel =>
      match find_str split strs with
      | None => Some result
      | Some pos =>
          let temp := take pos strs in
          let result := if is_empty temp then result else result ++ [temp] in
          split_loop fuel split (drop (pos + length split) strs) result
      end
  end.

Definition split_str (fuel : nat) (s split : list byte) : option (list (list byte)) :=
  if is_empty s then Some [] else split_loop fuel split (s ++ split) [].

(** Rounds that are enough for a separator that is not empty. *)
Definition split_fuel (s split : list byte) : nat := S (length (s ++ split)).

(** [split_str] with a separator that is not empty, as all callers have. *)
Definition split_all (s split : list byte) : list (list byte) :=
  default [] (split_str (split_fuel s split) s split).

(** ** Classes of characters *)

Definition is_digit (b : byte) : bool := (48 <=? byte_val b) && (byte_val b <=? 57).
Definition is_upper (b : byte) : bool := (65 <=? byte_val b) && (byte_val b <=? 90).
Definition is_lower (b : byte) : bool := (97 <=? byte_val b) && (byte_val b <=? 122).
Definition is_word (b : byte) : bool := is_digit b || is_upper b || is_lower b || (byte_val b =? 95).
Definition is_slash (b : byte) : bool := byte_val b =? 47.

(** [judge_regex] with the pattern of numbers, one digit or more. *)
Definition number_regex (s : list byte) : bool := negb (is_empty s) && forallb is_digit s.

(** [judge_regex] with the pattern of directories: any number of parts, each a slash
    and word characters. *)
Definition path_regex (s : list byte) : bool :=
  match s with
  | [] => true
  | c :: _ => is_slash c && forallb (fun b => is_word b || is_slash b) s
  end.

Definition to_lower (s : list byte) : list byte :=
  map (fun b => if is_upper b then byte_of (byte_val b + 32) else b) s.
Definition to_upper (s : list byte) : list byte :=
  map (fun b => if is_lower b then byte_of (byte_val b - 32) else b) s.

(** ** Numbers *)

Fixpoint uint_bytes (u : uint) : list byte :=
  match u with
  | Nil => []
  | D0 u => byte_of 48 :: uint_bytes u
  | D1 u => byte_of 49 :: uint_bytes u
  | D2 u => byte_of 50 :: uint_bytes u
  | D3 u => byte_of 51 :: uint_bytes u
  | D4 u => byte_of 52 :: uint_bytes u
  | D5 u => byte_of 53 :: uint_bytes u
  | D6 u => byte_of 54 :: uint_bytes u
  | D7 u => byte_of 55 :: uint_bytes u
  | D8 u => byte_of 56 :: uint_bytes u
  | D9 u => byte_of 57 :: uint_bytes u
  end.

(** [std::to_string] *)
Definition to_string (z : Z) : list byte :=
  if z <? 0 then byte_of 45 :: uint_bytes (N.to_uint (Z.to_N (- z)))
  else uint_bytes (N.to_uint (Z.to_N z)).

(** The value of a string of digits. *)
Definition digits_from (a : Z) (s : list byte) : Z :=
  fold_left (fun a b => a * 10 + (byte_val b - 48)) s a.
Definition digits_val (s : list byte) : Z := digits_from 0 s.

(** [std::stoi] and [std::stoll] on strings of digits. *)
Definition stoi (s : list byte) : log_exn + Z :=
  if digits_val s <? 2 ^ 31 then inr (digits_val s) else inl OutOfRange.
Definition stoll (s : list byte) : log_exn + Z :=
  if digits_val s <? 2 ^ 63 then inr (digits_val s) else inl OutOfRange.

(** ** Levels and formats *)

Inductive log_level_t :=
  NOLOG | EXIT_ERROR | L_ERROR | L_WARN | L_BACKTRACE | L_INFO
  | D_ERROR | D_WARN | D_BACKTRACE | D_INFO | L_ALL.

#[global] Instance log_level_eq : EqDecision log_level_t.
Proof. solve_decision. Defined.

(** The value of the enumerator. *)
Definition level_num (l : log_level_t) : nat :=
  match l with
  | NOLOG => 0 | EXIT_ERROR => 1 | L_ERROR => 2 | L_WARN => 3 | L_BACKTRACE => 4 | L_INFO => 5
  | D_ERROR => 6 | D_WARN => 7 | D_BACKTRACE => 8 | D_INFO => 9 | L_ALL => 10
  end.

Definition LEVEL_COUNT : nat := level_num L_ALL.

(** The aliases of a level in [log_level_info_dict]. *)
Definition level_names (l : log_level_t) : list (list byte) :=
  match l with
  | L_INFO => [str "LOG_INFO"; str "LRUNTIME"]
  | L_WARN => [str "LOG_WARN"]
  | L_ERROR => [str "LOG_ERROR"]
  | L_BACKTRACE => [str "LOG_BACKTRACE"]
  | D_ERROR => [str "DEBUG_ERROR"]
  | D_WARN => [str "DEBUG_WARN"]
  | D_BACKTRACE => [str "DEBUG_BACKTRACE"]
  | D_INFO => [str "DEBUG_INFO"; str "LDEBUG"]
  | EXIT_ERROR => [str "EXIT_ERROR"; str "LEXIT"]
  | NOLOG => [str "NOLOG"]
  | L_ALL => [str "LOG_ALL"]
  end.

Definition level_name (l : log_level_t) : list byte := hd [] (level_names l).

(** The priority of [syslog] of a level: LOG_INFO is 6, LOG_WARNING 4, LOG_ERR 3,
    LOG_ALERT 1 and LOG_EMERG 0. *)
Definition level_priority (l : log_level_t) : Z :=
  match l with
  | L_INFO | D_INFO | L_ALL => 6
  | L_WARN | D_WARN => 4
  | L_ERROR | L_BACKTRACE | D_ERROR | D_BACKTRACE => 3
  | EXIT_ERROR => 1
  | NOLOG => 0
  end.

(** The keys of [log_level_info_dict] in the order of the map. *)
Definition log_levels : list log_level_t :=
  [NOLOG; EXIT_ERROR; L_ERROR; L_WARN; L_BACKTRACE; L_INFO; D_ERROR; D_WARN; D_BACKTRACE; D_INFO; L_ALL].

(** [all_log_level] of the logger. *)
Definition all_log_level : list log_level_t :=
  [EXIT_ERROR; L_ERROR; L_WARN; L_BACKTRACE; L_INFO; D_ERROR; D_WARN; D_BACKTRACE; D_INFO].

Fixpoint decode_from (levels : list log_level_t) (log_level_str : list byte) : log_level_t :=
  match levels with
  | [] => L_ALL
  | l :: levels' => if bool_decide (log_level_str ∈ level_names l) then l else decode_from levels' log_level_str
  end.

Definition decode_log_level (log_level_str : list byte) : log_level_t :=
  decode_from log_levels log_level_str.

(** [log_formatter_dict]: the keys of a log format, in the order of [log_format_t]. *)
Definition log_formatter_dict : list (list byte) :=
  [str "%(program_name)"; str "%(hostname)"; str "%(levelname)"; str "%(pathname)"; str "%(filename)";
   str "%(modulename)"; str "%(funcName)"; str "%(lineno)"; str "%(created)"; str "%(relativeCreated)";
   str "%(asctime)"; str "%(thread)"; str "%(threadName)"; str "%(process)"; str "%(message)"].

Definition FMT_LOG_MESSAGE : nat := 14.

(** ** Substitution *)

Definition dollar : byte := byte_of 36.

(** The replacement text for one match, in the format of ECMAScript that
    [regex_replace] uses by default; the patterns have no groups. *)
Fixpoint expand (fmt pre mat suf : list byte) : list byte :=
  match fmt with
  | [] => []
  | c :: fmt1 =>
      if bool_decide (c = dollar) then
        match fmt1 with
        | [] => [dollar]
        | d :: fmt2 =>
            if bool_decide (d = dollar) then dollar :: expand fmt2 pre mat suf
            else if byte_val d =? 38 then mat ++ expand fmt2 pre mat suf
            else if byte_val d =? 96 then pre ++ expand fmt2 pre mat suf
            else if byte_val d =? 39 then suf ++ expand fmt2 pre mat suf
            else if is_digit d then
              match fmt2 with
              | e :: fmt3 =>
                  if is_digit e then
                    (if (byte_val d =? 48) && (byte_val e =? 48) then mat else []) ++ expand fmt3 pre mat suf
                  else (if byte_val d =? 48 then mat else []) ++ expand fmt2 pre mat suf
              | [] => if byte_val d =? 48 then mat else []
              end
            else dollar :: expand fmt1 pre mat suf
        end
      else c :: expand fmt1 pre mat suf
  end.

(** [regex_replace] of a literal [key]; the fuel is the length of the text. *)
Fixpoint replace_loop (fuel : nat) (key fmt s : list byte) : list byte :=
  match fuel with
  | O => s
  | S fuel =>
      match find_str key s with
      | None => s
      | Some p =>
          let suf := drop (p + length key) s in
          take p s ++ expand fmt (take p s) key suf ++ replace_loop fuel key fmt suf
      end
  end.

Definition regex_replace (s key fmt : list byte) : list byte := replace_loop (S (length s)) key fmt s.

(** ** Lemmas on searches *)

Lemma starts_app sub s : starts sub (sub ++ s) = true.
Proof. induction sub as [|b sub IH]; simpl; [by destruct s|]. by rewrite bool_decide_eq_true_2. Qed.

Lemma starts_spec sub s : starts sub s = true <-> exists t, s = sub ++ t.
Proof.
  split; [|intros [t ->]; apply starts_app]. revert s.
  induction sub as [|b sub IH]; intros [|c s]; simpl; try done; eauto.
  intros [->%bool_decide_eq_true [t ->]%IH]%andb_prop. eauto.
Qed.

(** What is found is an occurrence. *)
Lemma find_str_sound sub s p :
  find_str sub s = Some p -> s = take p s ++ sub ++ drop (p + length sub) s.
Proof.
  revert p. induction s as [|c s IH]; intros p; simpl.
  - destruct sub; simpl; intros; simplify_eq/=; done.
  - destruct (starts sub (c :: s)) eqn:E.
    + intros [= <-]. apply starts_spec in E as [t ->]. cbn [Nat.add]. by rewrite take_0, drop_app_length.
    + destruct (find_str sub s) as [q|] eqn:F; simpl; [|done]. intros [= <-]. simpl. f_equal. by apply IH.
Qed.

Lemma find_str_bound sub s p : find_str sub s = Some p -> (p + length sub <= length s)%nat.
Proof.
  intros H. pose proof (find_str_sound _ _ _ H) as E. apply (f_equal length) in E.
  rewrite !length_app, length_take, length_drop in E. destruct (decide (p <= length s)%nat); [lia|].
  exfalso. clear E. revert p H n. induction s as [|c s IH]; intros p; simpl.
  - destruct sub; simpl; intros; simplify_eq/=; lia.
  - case_match; [intros [= <-]; lia|]. destruct (find_str sub s) eqn:F; simpl; [|done].
    intros [= <-] ?. apply (IH _ eq_refl). lia.
Qed.

Lemma find_byte_none c s : c ∉ s -> find_str [c] s = None.
Proof.
  induction s as [|d s IH]; simpl; [done|]. rewrite list.not_elem_of_cons. intros [Hd Hs].
  by rewrite bool_decide_eq_false_2, IH.
Qed.

Lemma find_byte_first c a b : c ∉ a -> find_str [c] (a ++ c :: b) = Some (length a).
Proof.
  induction a as [|d a IH]; simpl; [by rewrite bool_decide_eq_true_2|].
  rewrite list.not_elem_of_cons. intros [Hd Ha]. by rewrite bool_decide_eq_false_2, IH.
Qed.

(** ** [split_str] *)

(** Reference: the parts of [s] between the bytes [c]. *)
Fixpoint fields (c : byte) (s : list byte) : list (list byte) :=
  match s with
  | [] => [[]]
  | b :: s' =>
      if bool_decide (b = c) then [] :: fields c s'
      else match fields c s' with [] => [[b]] | f :: fs => (b :: f) :: fs end
  end.

Definition nonempty (s : list byte) : Prop := s <> [].
#[global] Instance nonempty_dec s : Decision (nonempty s).
Proof. unfold nonempty. apply _. Defined.

Lemma fields_free c s : c ∉ s -> fields c s = [s].
Proof.
  induction s as [|b s IH]; simpl; [done|]. rewrite list.not_elem_of_cons. intros [Hb Hs].
  by rewrite bool_decide_eq_false_2, IH.
Qed.

Lemma fields_app c a s : c ∉ a -> fields c (a ++ c :: s) = a :: fields c s.
Proof.
  induction a as [|b a IH]; simpl; [by rewrite bool_decide_eq_true_2|].
  rewrite list.not_elem_of_cons. intros [Hb Ha]. by rewrite bool_decide_eq_false_2, IH.
Qed.

(** A text has no [c], or a first one. *)
Lemma first_byte (c : byte) s : c ∉ s \/ exists a b, s = a ++ c :: b /\ c ∉ a.
Proof.
  destruct (decide (c ∈ s)) as [(a & b & -> & Ha)%list_elem_of_split_l|]; eauto.
Qed.

Lemma filter_nonempty_cons f fs :
  filter nonempty (f :: fs) = (if is_empty f then [] else [f]) ++ filter nonempty fs.
Proof. destruct f; [by rewrite filter_cons_False by (by intros [])|by rewrite filter_cons_True]. Qed.

Lemma split_loop_fields c fuel t result :
  (length t + 1 < fuel)%nat ->
  split_loop fuel [c] (t ++ [c]) result = Some (result ++ filter nonempty (fields c t)).
Proof.
  revert t result. induction fuel as [|fuel IH]; intros t result Hf; [lia|].
  cbn [split_loop]. destruct (first_byte c t) as [Ht|(a & b & -> & Ha)].
  - rewrite find_byte_first by done. rewrite take_app_length.
    rewrite drop_ge by (rewrite length_app; simpl; lia).
    rewrite fields_free, filter_nonempty_cons by done. destruct fuel; [lia|]. simpl.
    destruct t; simpl; by rewrite ?app_nil_r.
  - rewrite <- app_assoc, <- app_comm_cons, find_byte_first by done.
    rewrite take_app_length. rewrite fields_app, filter_nonempty_cons by done.
    rewrite drop_app_ge, Nat.add_comm, Nat.add_sub by (simpl; lia). cbn [drop length app]. rewrite drop_0.
    rewrite length_app in Hf. simpl in Hf. rewrite IH by lia.
    destruct a; simpl; by rewrite <- ?app_assoc.
Qed.

(** [split_str] by one byte gives the parts that are not empty, in their order. *)
Lemma split_str_fields s c : split_str (split_fuel s [c]) s [c] = Some (filter nonempty (fields c s)).
Proof.
  unfold split_str, split_fuel. destruct s as [|b s]; [done|].
  cbn [is_empty]. rewrite split_loop_fields; [done|]. rewrite length_app. simpl. lia.
Qed.

Lemma split_all_fields s c : split_all s [c] = filter nonempty (fields c s).
Proof. unfold split_all. by rewrite split_str_fields. Qed.

(** [split_str] ends for every separator that is not empty. *)
Lemma split_str_total s split :
  split <> [] -> exists result, split_str (split_fuel s split) s split = Some result.
Proof.
  intros Hs. unfold split_str, split_fuel. destruct (is_empty s); [eauto|].
  generalize (s ++ split) (@nil (list byte)). intros t r.
  assert (Hf : (length t < S (length t))%nat) by lia. revert Hf.
  generalize (S (length t)). intros fuel. revert t r.
  induction fuel as [|fuel IH]; intros t r Hf; [lia|]. simpl.
  destruct (find_str split t) as [p|] eqn:E; [|eauto]. apply IH.
  apply find_str_bound in E. rewrite length_drop. destruct split; simpl in *; [done|lia].
Qed.

(** It does not end for an empty one: what is cut off is empty. *)
Lemma split_str_empty_separator s fuel : s <> [] -> split_str fuel s [] = None.
Proof.
  intros Hs. unfold split_str. destruct s as [|b s]; [done|]. simpl. rewrite app_nil_r.
  generalize (@nil (list byte)). induction fuel as [|fuel IH]; intros r; [done|]. apply IH.
Qed.

(** A list of parts without [c], joined by [c] and split again. *)
Lemma split_join c fs :
  Forall (fun f => f <> [] /\ c ∉ f) fs -> split_all (concat ((fun f => f ++ [c]) <$> fs)) [c] = fs.
Proof.
  rewrite split_all_fields. induction 1 as [|f fs [Hf Hc] _ IH]; [done|]. cbn [fmap list_fmap concat].
  rewrite <- app_assoc. change ([c] ++ ?x) with (c :: x). rewrite fields_app, filter_nonempty_cons, IH by done. by destruct f.
Qed.

(** ** Numbers *)

Lemma digits_from_app a s t : digits_from a (s ++ t) = digits_from (digits_from a s) t.
Proof. apply fold_left_app. Qed.

Lemma digits_acc u p : digits_from (Zpos p) (uint_bytes u) = Zpos (Pos.of_uint_acc u p).
Proof.
  revert p. induction u; intros p; [done|..]; cbn [uint_bytes Pos.of_uint_acc]; rewrite <- IHu;
    unfold digits_from; cbn [fold_left]; f_equal; rewrite byte_val_of; cbn [u8]; vm_compute (u8 _); lia.
Qed.

Lemma digits_uint u : digits_val (uint_bytes u) = Z.of_N (N.of_uint u).
Proof.
  unfold digits_val. induction u; [done|exact IHu|..]; cbn [uint_bytes];
    unfold N.of_uint; cbn [Pos.of_uint Z.of_N]; rewrite <- (digits_acc u); unfold digits_from; cbn [fold_left];
    f_equal; by rewrite byte_val_of.
Qed.

(** [to_string] is undone by [stoi] and [stoll]. *)
Lemma digits_to_string n : 0 <= n -> digits_val (to_string n) = n.
Proof.
  intros Hn. unfold to_string. destruct (Z.ltb_spec n 0); [lia|].
  rewrite digits_uint, DecimalN.Unsigned.of_to. lia.
Qed.

Lemma uint_bytes_digits u : forallb is_digit (uint_bytes u) = true.
Proof. induction u; simpl; [done|..]; rewrite IHu; by vm_compute. Qed.

Lemma to_string_number n : 0 <= n -> number_regex (to_string n) = true.
Proof.
  intros Hn. unfold number_regex, to_string. destruct (Z.ltb_spec n 0); [lia|].
  rewrite uint_bytes_digits, andb_true_r. destruct (Z.to_N n) as [|p]; [done|]. simpl.
  pose proof (DecimalPos.Unsigned.to_uint_nonnil p). by destruct (Pos.to_uint p).
Qed.

(** ** Levels *)

(** Every alias of a level is read as that level, anything else as all levels. *)
Lemma decode_log_level_names l name : name ∈ level_names l -> decode_log_level name = l.
Proof.
  revert name. apply list.Forall_forall. destruct l; repeat (constructor; [vm_compute; reflexivity|]); constructor.
Qed.

Lemma decode_log_level_other name : (forall l, name ∉ level_names l) -> decode_log_level name = L_ALL.
Proof.
  intros Hn. unfold decode_log_level. generalize log_levels. intros ls.
  induction ls as [|l ls IH]; simpl; [done|]. by rewrite bool_decide_eq_false_2.
Qed.

(** ** Substitution *)

(** Text without a dollar sign stands for itself. *)
Lemma expand_plain fmt pre mat suf : dollar ∉ fmt -> expand fmt pre mat suf = fmt.
Proof.
  induction fmt as [|c fmt IH]; [done|]. rewrite list.not_elem_of_cons. intros [Hc Hf].
  cbn [expand]. rewrite bool_decide_eq_false_2 by done. by rewrite IH.
Qed.

Lemma replace_none key fmt s : find_str key s = None -> regex_replace s key fmt = s.
Proof. unfold regex_replace. cbn [replace_loop]. by intros ->. Qed.

(** The fuel of [regex_replace] is enough: each round uses up a key. *)
Lemma replace_loop_enough key fmt n m s :
  key <> [] -> (length s < n)%nat -> (length s < m)%nat -> replace_loop n key fmt s = replace_loop m key fmt s.
Proof.
  intros Hk. revert m s. induction n as [|n IH]; intros [|m] s Hn Hm; try lia. cbn [replace_loop].
  destruct (find_str key s) as [p|] eqn:E; [|done]. apply find_str_bound in E. do 2 f_equal.
  assert (0 < length key)%nat by (destruct key; simpl; [done|lia]). apply IH; rewrite length_drop; lia.
Qed.
