(* ===== verification/LogState.v ===== *)
(** * State of the logger

    The objects of [include/log] ([LogFile], [LogOutputAttr], [LoggerAttr],
    [LogMessage], [LogBuffer], [Logger]) and the calls they make to the system.  The
    process has one logger: its members, the static maps of [LogFile] and all
    [LogFile] objects are one record, and a pointer to a [LogFile] is its index, since
    outputs of several levels and modules share one object.  An operation can throw,
    and what it changed before stays changed. *)
From S2P Require Import Prelude LogText.

Open Scope Z_scope.
Open Scope dnfs_scope.

(** ** Operations that can throw *)

Definition EX (S A : Type) : Type := S -> (log_exn + A) * S.

#[global] Instance ex_ret S : MRet (EX S) := fun A a s => (inr a, s).
Definition ex_bind {S A B} (m : EX S A) (k : A -> EX S B) : EX S B := fun s =>
  match m s with
  | (inl e, s') => (inl e, s')
  | (inr a, s') => k a s'
  end.

Declare Scope log_scope.
Delimit Scope log_scope with log.
Notation "x ← y ; z" := (ex_bind y (fun x => z))
  (at level 20, y at level 100, z at level 200, only parsing) : log_scope.
Notation "y ;; z" := (ex_bind y (fun _ => z))
  (at level 100, z at level 200, only parsing, right associativity) : log_scope.
Open Scope log_scope.

Definition throw {S A} (e : log_exn) : EX S A := fun s => (inl e, s).
Definition lift {S A} (r : log_exn + A) : EX S A := fun s => (r, s).
Definition look {S A} (f : S -> A) : EX S A := fun s => (inr (f s), s).
Definition change {S} (f : S -> S) : EX S unit := fun s => (inr tt, f s).

(** A [for] loop over a list. *)
Fixpoint each {S A} (f : A -> EX S unit) (l : list A) : EX S unit :=
  match l with
  | [] => mret tt
  | a :: l' => f a;; each f l'
  end.

(** ** Objects *)

Inductive rotate_type_t := NOT | TIME | SIZE.
Inductive rotate_when_t := NEVER | SECOND | MINUTE | HOUR | DAY | MIDNIGHT | WEEK.
Inductive log_generate_t := L_JUST_ONE | L_MODULE | L_LOG_LEVEL | LMODULE_LOG_LEVEL.

Record LogFile := mk_LogFile {
  rotate_type : rotate_type_t;
  when : rotate_when_t;
  backup_count : Z;
  log_limit : Z;
  log_directory_path : list byte;
  log_files : Z;
  use_file_build_time : Z;
  file_handler : Z;
  file_name : list byte;
  log_file_path : list byte;
  file_path_list : list (list byte);
  lf_module_name : list byte;
  lf_log_level : log_level_t;
  error_flag : Z }.

#[global] Instance eta_LogFile : RecEta LogFile := fun r =>
  mk_LogFile (rotate_type r) (when r) (backup_count r) (log_limit r) (log_directory_path r) (log_files r)
    (use_file_build_time r) (file_handler r) (file_name r) (log_file_path r) (file_path_list r)
    (lf_module_name r) (lf_log_level r) (error_flag r).

Definition LOG_WRITE_ERROR : Z := 1.

(** The default constructor. *)
Definition new_LogFile : LogFile :=
  mk_LogFile NOT NEVER 0 0 [] 0 0 (-1) [] [] [] (str "default") NOLOG 0.

Record LogOutputAttr := mk_LogOutputAttr {
  oa_log_level : log_level_t;
  oa_module_name : list byte;
  stderr_on : bool;
  stdout_on : bool;
  syslog_on : bool;
  oa_log_files : list nat }.

#[global] Instance eta_LogOutputAttr : RecEta LogOutputAttr := fun r =>
  mk_LogOutputAttr (oa_log_level r) (oa_module_name r) (stderr_on r) (stdout_on r) (syslog_on r) (oa_log_files r).

Definition new_LogOutputAttr : LogOutputAttr := mk_LogOutputAttr NOLOG (str "default") false false false [].

Record LoggerAttr := mk_LoggerAttr {
  la_module_name : list byte;
  formatter : list byte;
  log_level_output : list LogOutputAttr;
  la_log_level : log_level_t;
  date_format : list byte;
  debug_on : bool;
  log_formatter_select : list bool }.

#[global] Instance eta_LoggerAttr : RecEta LoggerAttr := fun r =>
  mk_LoggerAttr (la_module_name r) (formatter r) (log_level_output r) (la_log_level r) (date_format r)
    (debug_on r) (log_formatter_select r).

(** The default constructor: only the message is selected. *)
Definition new_LoggerAttr : LoggerAttr :=
  mk_LoggerAttr (str "default") (str "%(message)") (replicate LEVEL_COUNT new_LogOutputAttr) L_INFO [] false
    (<[FMT_LOG_MESSAGE := true]> (replicate (length log_formatter_dict) false)).

(** The function of [set_exit_func]: [exit], or [exit_process] of the daemon. *)
Inductive exit_func_t := Exit | ExitProcess.

Record Time_T := mk_Time_T { seconds : Z; millseconds : Z; microseconds : Z }.

Record LogMessage := mk_LogMessage {
  log_message : list byte;
  lm_module_name : list byte;
  file_path : list byte;
  lm_file_name : list byte;
  line_no : Z;
  func_name : list byte;
  lm_log_level : log_level_t;
  tid : Z;
  pid : Z;
  record_time : Time_T }.

(** ** The system *)

(** The calls of the kernel and of the C and C++ libraries, over a state [H] that may
    also hold what other processes do.  A [bool] says that the call succeeded; the
    time zone is part of [h_midnight] (the second the day of a time starts at) and
    [h_strftime] (which gets a buffer of 30 bytes); [h_sort] is [std::sort] by the time of
    recording, and [h_backtrace] the call stack in a debug build. *)
Class LogHost (H : Type) := {
  h_stat : list byte -> H -> option Z * H;
  h_create_directories : list byte -> H -> bool * H;
  h_access : list byte -> Z -> H -> bool * H;
  h_open : list byte -> Z -> H -> Z * H;
  h_close : Z -> H -> Z * H;
  h_fstat : Z -> H -> option (Z * Z) * H;
  h_write : Z -> list byte -> H -> Z * H;
  h_rename : list byte -> list byte -> H -> Z * H;
  h_remove : list byte -> H -> Z * H;
  h_readdir : list byte -> H -> option (list (bool * list byte)) * H;
  h_time : H -> Z * H;
  h_microseconds : H -> Z * H;
  h_calloc : Z -> H -> bool * H;
  h_realloc : Z -> H -> bool * H;
  h_sort : list LogMessage -> list LogMessage;
  h_midnight : Z -> Z;
  h_strftime : list byte -> Z -> list byte;
  h_getpid : Z;
  h_backtrace : option (list byte) }.

(** What the logger does that can be seen from outside. *)
Inductive log_event :=
  | EvOpen (p : list byte) (flags fd : Z)
  | EvClose (fd : Z)
  | EvWrite (fd : Z) (data : list byte) (r : Z)
  | EvRename (from to : list byte) (r : Z)
  | EvRemove (p : list byte) (r : Z)
  | EvStdout (data : list byte)
  | EvStderr (data : list byte)
  | EvSyslog (priority : Z) (data : list byte).

(** ** The process *)

Section State.
Context {H : Type}.

(** [module_attr] is the [std::map] in the order of its keys; the buffers are the ten
    queues of [buffer_map]. *)
Record lworld := mk_lworld {
  lw_host : H;
  lw_trace : list log_event;
  lw_files : list LogFile;
  path_log_file_dict : gmap (list byte) nat;
  path_rotate_attr_dict : gmap (list byte) (list byte);
  default_attr : LoggerAttr;
  log_generate : log_generate_t;
  exit_func : exit_func_t;
  exit_code : Z;
  init_time : Z;
  module_attr : list (list byte * LoggerAttr);
  hostname : list byte;
  program_name : list byte;
  buffer_map : list (list LogMessage);
  log_massage_list : list LogMessage;
  log_num : Z;
  single_vector_size : Z;
  stop_buffer : bool;
  thread_id_name_map : gmap Z (list byte);
  thread_name_id_map : gmap (list byte) Z }.

#[global] Instance eta_lworld : RecEta lworld := fun r =>
  mk_lworld (lw_host r) (lw_trace r) (lw_files r) (path_log_file_dict r) (path_rotate_attr_dict r)
    (default_attr r) (log_generate r) (exit_func r) (exit_code r) (init_time r) (module_attr r) (hostname r) (program_name r)
    (buffer_map r) (log_massage_list r) (log_num r) (single_vector_size r) (stop_buffer r)
    (thread_id_name_map r) (thread_name_id_map r).

(** The logger before [Logger::init]. *)
Definition new_logger (h : H) (now : Z) : lworld :=
  mk_lworld h [] [] ∅ ∅ new_LoggerAttr L_JUST_ONE Exit 0 now [] (str "localhost") (str "Unknown")
    (replicate 10 []) [] 0 0 false ∅ ∅.

Abbreviation M := (EX lworld).

(** A call of the system. *)
Definition sys_call {A} (f : H -> A * H) : M A := fun w =>
  let '(a, h) := f (lw_host w) in (inr a, w <| lw_host := h |>).

Definition emit (e : log_event) : M unit := change (fun w => w <| lw_trace := lw_trace w ++ [e] |>).

(** The [LogFile] a pointer leads to. *)
Definition file_at (w : lworld) (this : nat) : LogFile := default new_LogFile (lw_files w !! this).
Definition get_file (this : nat) : M LogFile := look (fun w => file_at w this).
Definition set_file (this : nat) (f : LogFile -> LogFile) : M unit :=
  change (fun w => w <| lw_files := alter f this (lw_files w) |>).

End State.
Arguments lworld : clear implicits.
