(* ===== verification/LogFile.v ===== *)
(** * Files of the log

    [src/log/log_file.cpp]: reading the configuration of a log file, its name,
    rotation by time and by size, and writing; with [creat_directory] and [format] of
    [src/utils/common_utils.cpp].  A method takes the index of its object. *)
From S2P Require Import Prelude LogText LogState.

Open Scope Z_scope.
Open Scope dnfs_scope.
Open Scope log_scope.

Definition at_sign : byte := byte_of 64.
Definition comma : byte := byte_of 44.
Definition colon : byte := byte_of 58.
Definition newline : byte := byte_of 10.

Definition F_OK : Z := 0.
Definition W_OK : Z := 2.
Definition O_WRONLY : Z := 1.
Definition O_CREAT : Z := 64.
Definition O_APPEND : Z := 1024.
Definition S_IFDIR : Z := 0x4000.

(** ** Configuration *)

(** [config_str.substr(args_index + 2, config_str.size() - args_index - 3)] *)
Definition config_args (config_str : list byte) (args_index : nat) : log_exn + list byte :=
  substr config_str (Z.of_nat args_index + 2)
    (u64 (Z.of_nat (length config_str) - Z.of_nat args_index - 3)).

(** The limit of a rotation by size; [size_limit] has 32 bits. *)
Definition parse_size (arg : list byte) : log_exn + Z :=
  let size := Z.of_nat (length arg) in
  let? unit_b := substr arg (u64 (size - 2)) size in
  let unit_b := to_lower unit_b in
  let? size_str := substr arg 0 (u64 (size - 2)) in
  if negb (number_regex size_str) then inl (LogException 94)
  else
    let? n := stoll size_str in
    let size_limit := u32 n in
    if bool_decide (unit_b = str "kb") then inr (u32 (Z.shiftl size_limit 10))
    else if bool_decide (unit_b = str "mb") then inr (u32 (Z.shiftl size_limit 20))
    else if bool_decide (unit_b = str "gb") then
      if 3 <? size_limit then inl (LogException 107) else inr (u32 (Z.shiftl size_limit 30))
    else inl (LogException 113).

(** The interval of a rotation by time. *)
Definition parse_when (arg : list byte) : log_exn + rotate_when_t * Z :=
  let arg := to_upper arg in
  if bool_decide (arg = str "NEVER") then inr (NEVER, 0)
  else if bool_decide (arg = str "SECOND") then inr (SECOND, 1)
  else if bool_decide (arg = str "MINUTE") then inr (MINUTE, 60)
  else if bool_decide (arg = str "HOUR") then inr (HOUR, 3600)
  else if bool_decide (arg = str "DAY") then inr (DAY, 86400)
  else if bool_decide (arg = str "MIDNIGHT") then inr (MIDNIGHT, 86400)
  else if bool_decide (arg = str "WEEK") then inr (WEEK, 604800)
  else inl (LogException 151).

(** The three arguments of a rotation, set in the object [f]. *)
Definition parse_rotate (args_str : list byte) (f : LogFile) : log_exn + LogFile :=
  match split_all args_str [comma] with
  | [kind; limit; count] =>
      if negb (number_regex count) then inl (LogException 74)
      else
        let? n := stoi count in
        if bool_decide (kind = str "size") then
          let? size_limit := parse_size limit in
          inr (f <| backup_count := n |> <| rotate_type := SIZE |> <| log_limit := size_limit |>)
        else if bool_decide (kind = str "time") then
          let? wi := parse_when limit in
          inr (f <| backup_count := n |> <| rotate_type := TIME |> <| when := wi.1 |> <| log_limit := wi.2 |>)
        else inl (LogException 163)
  | _ => inl (LogException 67)
  end.

(** The configuration of a file: the directory, and the arguments after an at sign. *)
Definition parse_config (config_str : list byte) (f : LogFile) : log_exn + (list byte * LogFile) :=
  match find_str [at_sign] config_str with
  | None => inr (config_str, f)
  | Some args_index =>
      let? args_str := config_args config_str args_index in
      let? f := parse_rotate args_str f in
      inr (take args_index config_str, f)
  end.

(** ** Names *)

(** The name of the file of [generate_log_path]. *)
Definition log_name (program : list byte) (generate : log_generate_t) (f : LogFile) : list byte :=
  program ++
  match generate with
  | L_JUST_ONE => []
  | L_MODULE => str "_" ++ lf_module_name f
  | L_LOG_LEVEL => str "_" ++ level_name (lf_log_level f)
  | LMODULE_LOG_LEVEL => (str "_" ++ lf_module_name f) ++ (str "_" ++ level_name (lf_log_level f))
  end ++
  match rotate_type f with NOT => [] | TIME => str "_time" | SIZE => str "_size" end ++
  str ".log".

Definition with_log_path (program : list byte) (generate : log_generate_t) (f : LogFile) : LogFile :=
  let name := log_name program generate f in
  f <| file_name := name |> <| log_file_path := log_directory_path f ++ str "/" ++ name |>.

(** [time_format] *)
Definition time_format (w : rotate_when_t) : list byte :=
  match w with
  | NEVER => []
  | SECOND => str "%Y-%m-%d_%H:%M:%S"
  | MINUTE => str "%Y-%m-%d_%H:%M"
  | HOUR => str "%Y-%m-%d_%H"
  | DAY | MIDNIGHT | WEEK => str "%Y-%m-%d"
  end.

(** A number printed with at least three digits. *)
Definition print_3d (z : Z) : list byte :=
  let s := to_string z in replicate (3 - length s) (byte_of 48) ++ s.

(** The part of a name a search for rotated files matches: a dot of the name stands
    for any character but a line terminator.  The names of the program and of the
    modules have no other special characters. *)
Fixpoint match_name (name s : list byte) : option (list byte) :=
  match name, s with
  | [], _ => Some s
  | c :: name', d :: s' =>
      if (if byte_val c =? 46 then negb ((byte_val d =? 10) || (byte_val d =? 13)) else bool_decide (c = d))
      then match_name name' s' else None
  | _ :: _, [] => None
  end.

Fixpoint span (p : byte -> bool) (s : list byte) : list byte * list byte :=
  match s with
  | b :: s' => if p b then let '(d, r) := span p s' in (b :: d, r) else ([], s)
  | [] => ([], [])
  end.

(** A match of the name, any character and digits at the start of [s]: the matched
    text and what follows. *)
Definition match_rotated (name s : list byte) : option (list byte * list byte) :=
  match match_name (name ++ str ".") s with
  | None => None
  | Some rest =>
      let '(digits, rest') := span is_digit rest in
      if is_empty digits then None else Some (take (length s - length rest') s, rest')
  end.

Fixpoint search_rotated (name s : list byte) : option (list byte * list byte) :=
  match match_rotated name s with
  | Some r => Some r
  | None => match s with [] => None | _ :: s' => search_rotated name s' end
  end.

(** [strtol] of base 0 on a text that starts with a digit, or with a letter: a number
    that starts with 0 is octal. *)
Definition strtol (s : list byte) : Z :=
  match s with
  | [] => 0
  | b :: _ =>
      Z.min (2 ^ 63 - 1)
        (if byte_val b =? 48
         then fold_left (fun a c => a * 8 + (byte_val c - 48)) (span (fun c => is_digit c && (byte_val c <? 56)) s).1 0
         else digits_val (span is_digit s).1)
  end.

(** The loop of [get_file_number]; every round uses up a match. *)
Fixpoint number_loop (fuel : nat) (name s : list byte) (file_number : Z) : Z :=
  match fuel with
  | O => file_number
  | S fuel =>
      match search_rotated name s with
      | None => file_number
      | Some (mat, rest) =>
          let now_number := strtol (hd [] (split_all mat (name ++ str "."))) in
          number_loop fuel name rest (if file_number <? now_number then now_number else file_number)
      end
  end.

(** ** Methods *)

Section Methods.
Context {H : Type} `{LogHost H}.

Abbreviation M := (EX (lworld H)).

(** [creat_directory] *)
Definition creat_directory (judge_dir : list byte) : M unit :=
  info ← sys_call (h_stat judge_dir);
  match info with
  | None => made ← sys_call (h_create_directories judge_dir); if made then mret tt else throw FilesystemError
  | Some st_mode => if Z.land st_mode S_IFDIR =? 0 then throw UtilException else mret tt
  end.

(** [format] of a time, with its milliseconds when there is no format. *)
Definition format_time (time_stamp dis_millseconds : Z) (format : list byte) : list byte :=
  if is_empty format
  then h_strftime (str "%Y-%m-%d %H:%M:%S") time_stamp ++ str "," ++ print_3d (i32 dis_millseconds)
  else h_strftime format time_stamp.

Definition generate_log_path (this : nat) : M unit :=
  program ← look program_name;
  generate ← look log_generate;
  set_file this (with_log_path program generate).

Definition generate_data (this : nat) (config_str module_n : list byte) (log_l : log_level_t) : M unit :=
  f ← get_file this;
  r ← lift (parse_config config_str f);
  let '(dir_path, f) := r in
  set_file this (fun _ => f);;
  (if path_regex dir_path then mret tt else throw (LogException 170));;
  creat_directory dir_path;;
  writable ← sys_call (h_access dir_path W_OK);
  (if (writable : bool) then mret tt else throw (LogException 179));;
  set_file this (fun f => f <| log_directory_path := dir_path |> <| lf_module_name := module_n |> <| lf_log_level := log_l |>);;
  generate_log_path this.

Definition set_module_name (this : nat) (use_module_name : list byte) : M unit :=
  set_file this (fun f => f <| lf_module_name := use_module_name |>);;
  generate_log_path this.

Definition judge_and_create_log_file (this : nat) : M unit :=
  f ← get_file this;
  if is_empty (log_file_path f) then throw (LogException 331)
  else
    exists_ ← sys_call (h_access (log_file_path f) F_OK);
    if negb exists_ then
      fd ← sys_call (h_open (log_file_path f) (Z.lor O_CREAT O_WRONLY));
      emit (EvOpen (log_file_path f) (Z.lor O_CREAT O_WRONLY) fd);;
      set_file this (fun f => f <| file_handler := fd |>);;
      if fd =? -1 then throw (LogException 343)
      else now ← sys_call h_time; set_file this (fun f => f <| use_file_build_time := now |>)
    else
      writable ← sys_call (h_access (log_file_path f) W_OK);
      if negb writable then throw (LogException 355)
      else
        fd ← sys_call (h_open (log_file_path f) (Z.lor O_WRONLY O_APPEND));
        emit (EvOpen (log_file_path f) (Z.lor O_WRONLY O_APPEND) fd);;
        set_file this (fun f => f <| file_handler := fd |>);;
        if fd =? -1 then set_file this (fun f => f <| log_file_path := [] |>);; throw (LogException 366)
        else
          st ← sys_call (h_fstat fd);
          set_file this (fun f => f <| use_file_build_time := (default (0, 0) st).2 |>).

Definition get_dir_file (this : nat) : M (list byte) :=
  f ← get_file this;
  entries ← sys_call (h_readdir (log_directory_path f));
  mret (concat ((fun e : bool * list byte => if e.1 then str ":" ++ e.2 else []) <$> default [] entries)).

(** The next number is that of a [long]: there is none behind the largest. *)
Definition get_file_number (this : nat) (search_file_name : list byte) : M (list byte) :=
  file_str ← get_dir_file this;
  if is_empty file_str then mret (str "1")
  else
    let file_number := number_loop (length file_str) search_file_name file_str 0 in
    if file_number =? 2 ^ 63 - 1 then throw Undefined else mret (to_string (file_number + 1)).

Definition rotate_log_file (this : nat) (now_time : Z) : M unit :=
  f ← get_file this;
  (if file_handler f =? -1 then mret tt else sys_call (h_close (file_handler f));; emit (EvClose (file_handler f)));;
  suffix ← match rotate_type f with
           | TIME => mret (format_time now_time 0 (time_format (when f)))
           | _ => get_file_number this (file_name f)
           end;
  let rotate_path := log_directory_path f ++ str "/" ++ file_name f ++ str "." ++ suffix in
  r ← sys_call (h_rename (log_file_path f) rotate_path);
  emit (EvRename (log_file_path f) rotate_path r);;
  set_file this (fun f => f <| file_path_list := file_path_list f ++ [rotate_path] |> <| log_files := log_files f + 1 |>);;
  f ← get_file this;
  if (0 <? backup_count f) && (backup_count f <? log_files f) then
    let oldest := hd [] (file_path_list f) in
    r ← sys_call (h_remove oldest);
    emit (EvRemove oldest r);;
    (if r =? 0 then mret tt
     else emit (EvStderr (str "Failed to delete module '" ++ lf_module_name f ++ str "' log file '" ++ oldest ++ str "'")));;
    set_file this (fun f => f <| file_path_list := drop 1 (file_path_list f) |> <| log_files := log_files f - 1 |>)
  else mret tt.

Definition not_rotate (this : nat) : M unit := judge_and_create_log_file this.

Definition rotate_by_time (this : nat) : M unit :=
  now_time ← sys_call h_time;
  f ← get_file this;
  (if negb (use_file_build_time f =? 0) && (log_limit f <? now_time - use_file_build_time f) &&
      (negb (match when f with MIDNIGHT => true | _ => false end) || (h_midnight now_time =? now_time))
   then rotate_log_file this now_time else mret tt);;
  judge_and_create_log_file this.

Definition rotate_by_size (this : nat) : M unit :=
  f ← get_file this;
  st ← sys_call (h_fstat (file_handler f));
  now_time ← sys_call h_time;
  (if log_limit f <? (default (0, 0) st).1 then rotate_log_file this now_time else mret tt);;
  judge_and_create_log_file this.

(** [LogFile::out_message] *)
Definition file_out_message (this : nat) (message : list byte) : M unit :=
  f ← get_file this;
  (match rotate_type f with
   | NOT => not_rotate this
   | TIME => rotate_by_time this
   | SIZE => rotate_by_size this
   end);;
  f ← get_file this;
  result ← sys_call (h_write (file_handler f) message);
  emit (EvWrite (file_handler f) message result);;
  if (result =? -1) && (Z.land (error_flag f) LOG_WRITE_ERROR =? 0) then
    emit (EvStderr (str "Failed to write information to file '" ++ log_file_path f ++ str "' with module '" ++
                    lf_module_name f ++ str "' output level '" ++ level_name (lf_log_level f) ++ str "'"));;
    set_file this (fun f => f <| error_flag := Z.lor (error_flag f) LOG_WRITE_ERROR |>)
  else mret tt.

(** [LogFile::get_log_file]: the object of the path, made when there is none. *)
Definition get_log_file (config_str module_n : list byte) (log_l : log_level_t) : M nat :=
  args_str ← lift (match find_str [at_sign] config_str with
                   | None => inr []
                   | Some args_index => config_args config_str args_index
                   end);
  this ← look (fun w => length (lw_files w));
  change (fun w => w <| lw_files := lw_files w ++ [new_LogFile <| lf_module_name := module_n |>] |>);;
  generate_data this config_str module_n log_l;;
  f ← get_file this;
  known ← look (fun w => path_log_file_dict w !! log_file_path f);
  match known with
  | None =>
      change (fun w => w <| path_log_file_dict := <[log_file_path f := this]> (path_log_file_dict w) |>
                         <| path_rotate_attr_dict := <[log_file_path f := args_str]> (path_rotate_attr_dict w) |>);;
      mret this
  | Some other =>
      attr ← look (fun w => default [] (path_rotate_attr_dict w !! log_file_path f));
      if bool_decide (attr = args_str) then mret other else throw (LogException 586)
  end.

(** The destructor. *)
Definition destroy_LogFile (this : nat) : M unit :=
  f ← get_file this;
  if -1 <? file_handler f then sys_call (h_close (file_handler f));; emit (EvClose (file_handler f)) else mret tt.

End Methods.
