(* ===== verification/Log.v ===== *)
(** * The logger

    [src/log/log.cpp], [src/log/log_attr.cpp], [src/log/log_buffer.cpp],
    [src/log/log_message.cpp] and [src/log/log_output.cpp]; [Time_T] of
    [src/utils/time_utils.cpp], the names of threads of [src/utils/thread_util.cpp],
    and the users of the logger at start and exit: [init_logging] of
    [src/dnfsd/dnfs_init.cpp] and [exit_process] of [src/dnfsd/dnfsd_exit.cpp].

    A method runs to its end before the next one starts; that messages are neither
    lost nor repeated when threads add them while the buffer is being emptied is shown
    in [LogProps] on steps that interleave. *)
From S2P Require Import Prelude LogText LogState LogFile.

Open Scope Z_scope.
Open Scope dnfs_scope.
Open Scope log_scope.

(** ** Modules *)

(** The order of [std::string]. *)
Fixpoint str_lt (a b : list byte) : bool :=
  match a, b with
  | [], [] => false
  | [], _ :: _ => true
  | _ :: _, [] => false
  | x :: a', y :: b' => (byte_val x <? byte_val y) || (bool_decide (x = y) && str_lt a' b')
  end.

Fixpoint map_find {A} (k : list byte) (m : list (list byte * A)) : option A :=
  match m with
  | [] => None
  | (k', v) :: m' => if bool_decide (k = k') then Some v else map_find k m'
  end.

Fixpoint map_set {A} (k : list byte) (v : A) (m : list (list byte * A)) : list (list byte * A) :=
  match m with
  | [] => [(k, v)]
  | (k', v') :: m' =>
      if bool_decide (k = k') then (k, v) :: m'
      else if str_lt k k' then (k, v) :: m
      else (k', v') :: map_set k v m'
  end.

(** ** Text of a message *)

(** [LoggerAttr::judge_debug]: the last alias of the level decides. *)
Definition judge_debug (a : LoggerAttr) : LoggerAttr :=
  fold_left (fun a name => a <| debug_on := contains (str "DEBUG") name |>) (level_names (la_log_level a)) a.

(** [LoggerAttr::init_log_formatter]: the object, and whether it throws. *)
Definition init_log_formatter (a : LoggerAttr) : LoggerAttr * bool :=
  let select := (fun key => contains key (formatter a)) <$> log_formatter_dict in
  let a := a <| log_formatter_select := select |> in
  if existsb id select then (a, false) else (a <| formatter := str "%(message)" |>, true).

(** What [vsyslog] prints for a message that is its format: [None] when it would read
    an argument.  (Here [%m] counts as such.) *)
Fixpoint syslog_text (s : list byte) : option (list byte) :=
  match s with
  | [] => Some []
  | c :: s' =>
      if byte_val c =? 37 then
        match s' with
        | d :: s'' => if byte_val d =? 37 then cons d <$> syslog_text s'' else None
        | [] => None
        end
      else cons c <$> syslog_text s'
  end.

Definition INIT_MESSAGE_BUFFER : Z := 1024.
Definition MAX_BUFFER : Z := 65536.
Definition MAX_MESSAGE_BUFFER_COUNT : Z := 100.
Definition MAX_SINGLE_MESSAGE_COUNT : Z := 20.

(** [format] of a thread id. *)
Definition format_tid (t : Z) : list byte :=
  if t =? 0 then str "thread::id of a non-executing thread" else to_string t.

(** [vsnprintf] of a text into [size] bytes: what is in the buffer before the NUL. *)
Definition vsnprintf (size : Z) (text : list byte) : list byte := take (Z.to_nat (size - 1)) text.

(** The arguments of a log call: its module, level and place, and what [vsnprintf] makes of
    its format and arguments: the text, or (a failure) what is left in the buffer. *)
Record log_call := mk_log_call {
  lc_module : list byte;
  lc_level : log_level_t;
  lc_file : list byte;
  lc_line : Z;
  lc_func : list byte;
  lc_text : list byte + list byte }.

(** A log call inside the constructor of [LogMessage]. *)
Definition logger_call (level : log_level_t) (line : Z) (text : list byte) : log_call :=
  mk_log_call (str "logger") level (str "src/log/log_message.cpp") line (str "LogMessage") (inr text).

(** The calls that the constructor makes for a message of a module. *)
Definition format_failed (module_name : list byte) : log_call :=
  logger_call L_ERROR 56 (str "Formatting module " ++ module_name ++ str " information failed").
Definition too_long (module_name : list byte) : log_call :=
  logger_call L_WARN 73
    (str "The module " ++ module_name ++ str " log information exceeds the size limit, the limit size is " ++
     to_string MAX_BUFFER ++ str ", the information size is " ++ to_string MAX_BUFFER).
Definition no_memory (module_name : list byte) : log_call :=
  logger_call L_ERROR 91 (str "Module " ++ module_name ++ str " log information failed to apply for memory").

Section Logger.
Context {H : Type} `{LogHost H}.

Abbreviation M := (EX (lworld H)).

Definition judge_module_attr_exist (module_name : list byte) (w : lworld H) : bool :=
  match map_find module_name (module_attr w) with Some _ => true | None => false end.

(** [module_attr] at a name that is known, and its change. *)
Definition get_attr (module_name : list byte) : M LoggerAttr :=
  found ← look (fun w => map_find module_name (module_attr w));
  match found with Some a => mret a | None => throw Undefined end.
Definition set_attr (module_name : list byte) (a : LoggerAttr) : M unit :=
  change (fun w => w <| module_attr := map_set module_name a (module_attr w) |>).

(** The name of a thread: [ThreadPool::get_target_thread_name]. *)
Definition get_target_thread_name (t : Z) (w : lworld H) : list byte :=
  match thread_id_name_map w !! t with
  | Some name => name
  | None => str "Thread-" ++ format_tid t
  end.

(** ** [Time_T] *)

Definition new_Time_T : M Time_T :=
  us ← sys_call h_microseconds;
  mret (mk_Time_T (us / 1000000) (us / 1000) us).

Definition time_lt (x y : Time_T) : bool := microseconds x <? microseconds y.

(** [Time_T::format]; the arguments of [%03d] are wider than [int]. *)
Definition Time_T_format (t : Time_T) (format : list byte) : list byte :=
  if is_empty format
  then h_strftime (str "%Y-%m-%d %H:%M:%S") (seconds t) ++ str "," ++
       print_3d (i32 (i32 (millseconds t) - seconds t * 1000)) ++ str "," ++
       print_3d (i32 (i32 (microseconds t) - millseconds t * 1000))
  else h_strftime format (seconds t).

(** ** [LogOutputAttr] *)

(** One round of [generate_config]. *)
Definition add_output (o : LogOutputAttr) (param : list byte) : M LogOutputAttr :=
  if bool_decide (param = str "stderr") then mret (o <| stderr_on := true |>)
  else if bool_decide (param = str "syslog") then mret (o <| syslog_on := true |>)
  else if bool_decide (param = str "stdout") then mret (o <| stdout_on := true |>)
  else
    file ← get_log_file param (oa_module_name o) (oa_log_level o);
    mret (o <| oa_log_files := oa_log_files o ++ [file] |>).

(** [put] stores the object after every change, as a throw leaves it. *)
Fixpoint add_outputs (put : LogOutputAttr -> M unit) (o : LogOutputAttr) (params : list (list byte)) : M unit :=
  match params with
  | [] => mret tt
  | param :: params' => o ← add_output o param; put o;; add_outputs put o params'
  end.

Definition generate_config (put : LogOutputAttr -> M unit) (o : LogOutputAttr) (log_out_attr_str : list byte) : M unit :=
  let o := o <| oa_log_files := [] |> in
  put o;; add_outputs put o (split_all log_out_attr_str [colon]).

Definition set_module_name_log_level (module_n : list byte) (level : log_level_t) (o : LogOutputAttr) : LogOutputAttr :=
  o <| oa_log_level := level |> <| oa_module_name := module_n |>.

(** [LogOutputAttr::set_module_name] changes the shared files too. *)
Definition output_set_module_name (module_n : list byte) (o : LogOutputAttr) : M LogOutputAttr :=
  each (fun file => set_module_name file module_n) (oa_log_files o);;
  mret (o <| oa_module_name := module_n |>).

(** [LogOutputAttr::out_message] *)
Definition output_out_message (o : LogOutputAttr) (message : list byte) : M unit :=
  (if stderr_on o then emit (EvStderr message) else mret tt);;
  (if stdout_on o then emit (EvStdout message) else mret tt);;
  (if syslog_on o then
     match syslog_text message with
     | Some text => emit (EvSyslog (level_priority (oa_log_level o)) text)
     | None => throw Undefined
     end
   else mret tt);;
  each (fun file => file_out_message file message) (oa_log_files o).

(** ** [LoggerAttr] *)

(** [LoggerAttr::out_message]: there is no output for the last level. *)
Definition attr_out_message (a : LoggerAttr) (level : log_level_t) (message : list byte) : M unit :=
  match log_level_output a !! level_num level with
  | Some o => output_out_message o message
  | None => throw Undefined
  end.

Fixpoint outputs_set_module_name (name : list byte) (l : list LogOutputAttr) : M (list LogOutputAttr) :=
  match l with
  | [] => mret []
  | o :: l' =>
      o ← output_set_module_name name o;
      l' ← outputs_set_module_name name l';
      mret (o :: l')
  end.

(** [LoggerAttr::set_module_name] *)
Definition attr_set_module_name (name : list byte) (a : LoggerAttr) : M LoggerAttr :=
  l ← outputs_set_module_name name (log_level_output a);
  mret (a <| log_level_output := l |>).

(** ** [LogMessage] *)

(** What stands for a key of the format, by its number. *)
Definition field_value (m : LogMessage) (i : nat) : M (list byte) :=
  match i with
  | 0 | 1 => look program_name
  | 2 => mret (level_name (lm_log_level m))
  | 3 => mret (file_path m)
  | 4 => mret (lm_file_name m)
  | 5 => mret (lm_module_name m)
  | 6 => mret (func_name m)
  | 7 => mret (to_string (line_no m))
  | 8 => mret (to_string (seconds (record_time m)))
  | 9 => start ← look init_time; now ← sys_call h_time; mret (to_string (start - now))
  | 10 => a ← get_attr (lm_module_name m); mret (Time_T_format (record_time m) (date_format a))
  | 11 => mret (format_tid (tid m))
  | 12 => look (get_target_thread_name (tid m))
  | 13 => mret (to_string (pid m))
  | _ => mret (log_message m)
  end%nat.

Fixpoint replace_fields (m : LogMessage) (select : list bool) (i : nat) (keys : list (list byte)) (text : list byte) : M (list byte) :=
  match select, keys with
  | b :: select', key :: keys' =>
      if (b : bool) then
        value ← field_value m i;
        replace_fields m select' (S i) keys' (regex_replace text key value)
      else replace_fields m select' (S i) keys' text
  | _, _ => mret text
  end.

Definition ganerate_log_message (m : LogMessage) : M (list byte) :=
  a ← get_attr (lm_module_name m);
  replace_fields m (log_formatter_select a) 0 log_formatter_dict (formatter a ++ [newline]).

Definition judge_traceback (m : LogMessage) (format_message : list byte) : M (list byte) :=
  a ← get_attr (lm_module_name m);
  if debug_on a && contains (str "ERROR") (level_name (lm_log_level m)) then
    let save_message :=
      match h_backtrace with
      | Some trace => trace
      | None =>
          str "Traceback:" ++ [newline] ++
          str "  FILE " ++ file_path m ++ str ",  line " ++ to_string (line_no m) ++ [newline] ++
          str "       " ++ func_name m ++ [newline]
      end in
    mret (save_message ++ str "ErrorInfo: " ++ format_message)
  else mret format_message.

(** [LogMessage::out_message] *)
Definition message_out (m : LogMessage) (message : list byte) : M unit :=
  a ← get_attr (lm_module_name m);
  attr_out_message a (lm_log_level m) message.

(** ** [LogBuffer] *)

Definition add_log_buffer (thread_id : Z) (m : LogMessage) : M unit :=
  let hash_id := Z.to_nat (thread_id mod 10) in
  change (fun w => w <| buffer_map := alter (fun q => q ++ [m]) hash_id (buffer_map w) |>);;
  change (fun w => w <| single_vector_size :=
    Z.max (single_vector_size w) (Z.of_nat (length (default [] (buffer_map w !! hash_id)))) |>);;
  change (fun w => w <| log_num := i32 (log_num w + 1) |>).

(** Queue [i] moves to the list of messages. *)
Definition take_queue (i : nat) (w : lworld H) : lworld H :=
  w <| log_massage_list := log_massage_list w ++ default [] (buffer_map w !! i) |>
    <| buffer_map := <[i := []]> (buffer_map w) |>.

Definition out_one (m : LogMessage) : M unit :=
  result ← ganerate_log_message m;
  result ← judge_traceback m result;
  message_out m result.

(** The parts of [out], between which other threads can add messages. *)
Definition out_reset (w : lworld H) : lworld H := w <| log_num := 0 |> <| single_vector_size := 0 |>.
Definition out_sort (w : lworld H) : lworld H := w <| log_massage_list := h_sort (log_massage_list w) |>.
Definition out_clear (w : lworld H) : lworld H := w <| log_massage_list := [] |>.

Definition out : M unit :=
  change out_reset;;
  each (fun i => change (take_queue i)) (seq 0 10);;
  change out_sort;;
  messages ← look log_massage_list;
  each out_one messages;;
  change out_clear.

Definition flush : M unit := out.

(** One round of [output_thread]: whether the thread ends. *)
Definition output_round : M bool := out;; look stop_buffer.

(** ** [exit_process] *)

Definition exit_process (code : Z) : M unit := flush;; throw (Exited code).

Definition run_exit_func (code : Z) : M unit :=
  f ← look exit_func;
  match f with Exit => throw (Exited code) | ExitProcess => exit_process code end.

(** ** Recording a message *)

(** The constructor of [LogMessage]; [log] is the logger itself. *)
Definition new_LogMessage (log : log_call -> M unit) (c : log_call) (t : Z) : M LogMessage :=
  time ← new_Time_T;
  allocated ← sys_call (h_calloc INIT_MESSAGE_BUFFER);
  if negb allocated then throw Aborted else
  text ← match lc_text c with
         | inl kept =>
             log (format_failed (lc_module c));;
             mret kept
         | inr text =>
             let message_len := Z.of_nat (length text) in
             if message_len <? INIT_MESSAGE_BUFFER then mret (vsnprintf INIT_MESSAGE_BUFFER text)
             else
               let size := Z.min message_len MAX_BUFFER in
               grown ← sys_call (h_realloc size);
               (if message_len <? MAX_BUFFER then mret tt
                else log (too_long (lc_module c)));;
               if (grown : bool) then mret (vsnprintf size text)
               else
                 log (no_memory (lc_module c));;
                 mret (vsnprintf INIT_MESSAGE_BUFFER text)
         end;
  match list.last (split_all (lc_file c) [byte_of 47]) with
  | None => throw Undefined
  | Some name =>
      mret (mk_LogMessage text (lc_module c) (lc_file c) name (lc_line c) (lc_func c) (lc_level c) t h_getpid time)
  end.

(** [Logger::_log] on a thread [t], with the calls it makes of itself in the
    constructor as an argument. *)
Definition log_with (log : log_call -> M unit) (c : log_call) (t : Z) : M unit :=
  known ← look (judge_module_attr_exist (lc_module c));
  if negb known then throw (LogException 450)
  else
    a ← get_attr (lc_module c);
    (if (level_num NOLOG <? level_num (lc_level c))%nat && (level_num NOLOG <? level_num (la_log_level a))%nat &&
        (level_num (lc_level c) <=? level_num (la_log_level a))%nat
     then m ← new_LogMessage log c t; add_log_buffer (u32 t) m
     else mret tt);;
    if bool_decide (lc_level c = EXIT_ERROR) then
      flush;; code ← look exit_code; run_exit_func code
    else mret tt.

Fixpoint log_fuel (fuel : nat) (t : Z) (c : log_call) : M unit :=
  match fuel with
  | O => throw OutOfFuel
  | S fuel => log_with (log_fuel fuel t) c t
  end.

(** A message can log another, which can log a short one. *)
Definition _log (t : Z) (c : log_call) : M unit := log_fuel 3 t c.

(** ** Setting the logger up *)

Definition init_module (module_name : list byte) : M unit :=
  known ← look (judge_module_attr_exist module_name);
  if known then mret tt
  else
    a ← look default_attr;
    set_attr module_name (a <| la_module_name := module_name |>);;
    each (fun level =>
            a ← get_attr module_name;
            set_attr module_name (a <| log_level_output :=
              alter (set_module_name_log_level module_name level) (level_num level) (log_level_output a) |>))
         all_log_level.

(** [Logger::init], without starting the thread of the buffer. *)
Definition init (program_name_in hostname_in : list byte) : M unit :=
  change (fun w => w <| hostname := hostname_in |> <| program_name := program_name_in |>);;
  init_module (str "logger").

Definition set_exit_func (e_code : Z) (exit_f : exit_func_t) : M unit :=
  change (fun w => w <| exit_func := exit_f |> <| exit_code := e_code |>).

Definition set_default_attr_from (module_name : list byte) : M unit :=
  known ← look (judge_module_attr_exist module_name);
  if negb known then throw (LogException 107)
  else
    a ← get_attr module_name;
    a ← attr_set_module_name (str "default") (a <| la_module_name := str "default" |>);
    change (fun w => w <| default_attr := a |>).

(** The source is read after the target was deleted. *)
Definition copy_module_attr_from (target_module_name src_module_name : list byte) : M unit :=
  known ← look (judge_module_attr_exist src_module_name);
  if negb known then throw (LogException 129)
  else
    target ← look (judge_module_attr_exist target_module_name);
    if negb target then throw (LogException 152)
    else
      flush;;
      if bool_decide (target_module_name = src_module_name) then throw Undefined
      else
        a ← get_attr src_module_name;
        a ← attr_set_module_name target_module_name (a <| la_module_name := target_module_name |>);
        set_attr target_module_name a.

(** [generate_config] of the output of a level of a module. *)
Definition config_level (module_name log_file_config : list byte) (level : log_level_t) : M unit :=
  a ← get_attr module_name;
  match log_level_output a !! level_num level with
  | None => throw Undefined
  | Some o =>
      generate_config (fun o =>
        a ← get_attr module_name;
        set_attr module_name (a <| log_level_output := <[level_num level := o]> (log_level_output a) |>)) o log_file_config
  end.

Definition module_names (w : lworld H) : list (list byte) := fst <$> module_attr w.

(** [Logger::set_log_output] for a list of levels; the others call it. *)
Definition set_log_output (log_level_list : list log_level_t) (log_file_config : list byte) : M unit :=
  flush;;
  names ← look module_names;
  each (fun name => each (config_level name log_file_config) log_level_list) names.

Definition set_module_log_output (module_name : list byte) (log_level_list : list log_level_t) (log_file_config : list byte) : M unit :=
  known ← look (judge_module_attr_exist module_name);
  if negb known then throw (LogException 274)
  else flush;; each (config_level module_name log_file_config) log_level_list.

(** A change of the attributes of all modules, and of those of one. *)
Definition each_attr (f : LoggerAttr -> M LoggerAttr) : M unit :=
  flush;;
  names ← look module_names;
  each (fun name => a ← get_attr name; a ← f a; set_attr name a) names.

Definition one_attr (line : Z) (module_name : list byte) (f : LoggerAttr -> M LoggerAttr) : M unit :=
  known ← look (judge_module_attr_exist module_name);
  if negb known then throw (LogException line)
  else flush;; a ← get_attr module_name; a ← f a; set_attr module_name a.

Definition with_level (level : log_level_t) (a : LoggerAttr) : M LoggerAttr :=
  mret (judge_debug (a <| la_log_level := level |>)).

Definition set_log_level (level : log_level_t) : M unit := each_attr (with_level level).
Definition set_module_log_level (module_name : list byte) (level : log_level_t) : M unit :=
  one_attr 321 module_name (with_level level).

(** A format without a key: the object gets the default one before the throw. *)
Definition put_formatter (format_str module_name : list byte) : M unit :=
  a ← get_attr module_name;
  let '(a, thrown) := init_log_formatter (a <| formatter := format_str |>) in
  set_attr module_name a;;
  if (thrown : bool) then throw (LogException 53) else mret tt.

Definition set_formatter (format_str : list byte) : M unit :=
  flush;;
  names ← look module_names;
  each (put_formatter format_str) names.
Definition set_module_formatter (module_name format_str : list byte) : M unit :=
  known ← look (judge_module_attr_exist module_name);
  if negb known then throw (LogException 371)
  else flush;; put_formatter format_str module_name.

Definition set_date_format (format : list byte) : M unit :=
  each_attr (fun a => mret (a <| date_format := format |>)).
Definition set_module_date_format (module_name format : list byte) : M unit :=
  one_attr 418 module_name (fun a => mret (a <| date_format := format |>)).

Definition is_module_debug_on (module_name : list byte) (w : lworld H) : bool :=
  match map_find module_name (module_attr w) with Some a => debug_on a | None => false end.

Definition set_all_module_attr_default : M unit :=
  flush;;
  names ← look module_names;
  each (fun name =>
          a ← look default_attr;
          a ← attr_set_module_name name (a <| la_module_name := name |>);
          set_attr name a) names.

Definition set_log_generate (l_generate : log_generate_t) : M unit :=
  change (fun w => w <| log_generate := l_generate |>).

(** The destructor: the thread of the buffer empties it once more and ends. *)
Definition destroy_Logger : M unit :=
  change (fun w => w <| stop_buffer := true |>);;
  output_round;;
  change (fun w => w <| module_attr := [] |>).

(** ** Users of the logger *)

(** [ThreadPool::set_thread_name]; [emplace] keeps what is there. *)
Definition emplace {K V} `{Countable K} (k : K) (v : V) (m : gmap K V) : gmap K V :=
  match m !! k with Some _ => m | None => <[k := v]> m end.

Definition thread_call (level : log_level_t) (line : Z) (text : list byte) : log_call :=
  mk_log_call (str "thread_pool") level (str "src/utils/thread_util.cpp") line (str "set_thread_name") (inr text).

Definition set_thread_name (t : Z) (name : list byte) : M unit :=
  taken ← look (fun w => bool_decide (is_Some (thread_name_id_map w !! name)));
  (if (taken : bool) then _log t (thread_call EXIT_ERROR 35 (str "Thread named " ++ [byte_of 34] ++ name ++ [byte_of 34] ++ str " already exists"))
   else mret tt);;
  change (fun w => w <| thread_name_id_map := emplace name t (thread_name_id_map w) |>);;
  old ← look (fun w => thread_id_name_map w !! t);
  (match old with
   | Some old_name =>
       _log t (thread_call D_INFO 40 (str "Reset thread name from " ++ [byte_of 34] ++ old_name ++ [byte_of 34] ++
         str " to " ++ [byte_of 34] ++ name ++ [byte_of 34] ++ str " for thread-" ++ to_string (i32 t)))
   | None =>
       _log t (thread_call D_INFO 44 (str "Set thread " ++ to_string t ++ str " name as " ++ [byte_of 34] ++ name ++ [byte_of 34]))
   end);;
  change (fun w => w <| thread_id_name_map := emplace t name (thread_id_name_map w) |>).

(** [dnfs_logging_config] *)
Record dnfs_logging_config := mk_dnfs_logging_config {
  cfg_path : list byte;
  cfg_limit_type : list byte;
  cfg_limit_info : list byte;
  cfg_backup_count : Z;
  cfg_formatter : list byte }.

(** [catch] of a [LogException]: the process ends with -1.  (The text of the exception,
    which goes to the standard error, is not kept.) *)
Definition or_exit (m : M unit) : M unit := fun w =>
  match m w with
  | (inl (LogException _), w') => exit_process (-1) w'
  | r => r
  end.

Definition module_list : list (list byte) :=
  [str "main"; str "config"; str "rpc"; str "net"; str "thread_pool"; str "DNFS"; str "NFS"; str "MNT"; str "bin_log";
   str "meta"; str "cache"; str "storage"; str "storage_band"; str "volume"].

(** The configuration of the outputs; [format_message] has a buffer of 1024 bytes. *)
Definition log_path_config (arg_log_path : list byte) (cfg : dnfs_logging_config) : list byte :=
  let path := if is_empty arg_log_path then cfg_path cfg else arg_log_path in
  if is_empty path then []
  else vsnprintf INIT_MESSAGE_BUFFER (path ++ str "@(" ++ cfg_limit_type cfg ++ str "," ++ cfg_limit_info cfg ++
                                      str "," ++ to_string (cfg_backup_count cfg) ++ str ")").

Definition init_logging (exec_name nfs_host_name : list byte) (debug_level : log_level_t) (detach_flag : bool)
    (arg_log_path : list byte) (cfg : dnfs_logging_config) : M unit :=
  emit (EvStdout (str "Start init logging setup" ++ [newline]));;
  init exec_name nfs_host_name;;
  each init_module module_list;;
  set_log_level debug_level;;
  let log_path := log_path_config arg_log_path cfg in
  (if negb detach_flag then
     or_exit (set_log_output [L_INFO] (log_path ++ str ":stdout:syslog"));;
     set_log_output [EXIT_ERROR; L_ERROR; L_WARN] (log_path ++ str ":stderr:syslog");;
     set_log_output [D_INFO] (log_path ++ str ":stdout");;
     set_log_output [D_ERROR; D_WARN] (log_path ++ str ":stderr")
   else
     or_exit (set_log_output all_log_level log_path);;
     set_log_output [L_INFO] (log_path ++ str ":syslog");;
     set_log_output [EXIT_ERROR; L_ERROR; L_WARN] (log_path ++ str ":syslog"));;
  or_exit (set_formatter (cfg_formatter cfg));;
  set_default_attr_from (str "main").

End Logger.
