(* ===== verification/LogLine.v ===== *)
(** * The lines of the log

    A format of the log as text and keys, and what the code's fifteen rounds of
    [regex_replace] make of it: every key replaced by its field, at once and in place. *)
From S2P Require Import Prelude LogText LogState LogFile Log.

Open Scope Z_scope.
Open Scope dnfs_scope.
Open Scope log_scope.

(** ** Templates *)

Inductive piece := Text (s : list byte) | Field (i : nat).

#[global] Instance piece_eq : EqDecision piece.
Proof. solve_decision. Defined.

Definition percent : byte := byte_of 37.

Definition nkeys : nat := length log_formatter_dict.
Definition key (i : nat) : list byte := default [] (log_formatter_dict !! i).

Definition show_piece (p : piece) : list byte := match p with Text s => s | Field i => key i end.
(** The text of a template, and the text with its fields filled in. *)
Definition show (t : list piece) : list byte := concat (show_piece <$> t).
Definition fill (v : nat -> list byte) (t : list piece) : list byte :=
  concat ((fun p => match p with Text s => s | Field i => v i end) <$> t).

(** The key that a text starts with. *)
Definition key_at (s : list byte) : option nat :=
  fst <$> list_find (fun i => starts (key i) s = true) (seq 0 nkeys).

(** The pieces of a format; [skip] bytes belong to the key before. *)
Fixpoint pieces (skip : nat) (s : list byte) : list piece :=
  match s with
  | [] => []
  | c :: s' =>
      match skip with
      | S skip => pieces skip s'
      | O => match key_at s with
             | Some i => Field i :: pieces (length (key i) - 1) s'
             | None => Text [c] :: pieces 0 s'
             end
      end
  end.
Definition template (format : list byte) : list piece := pieces 0 format.

(** ** Keys *)

Lemma key_at_sound s i : key_at s = Some i -> (i < nkeys)%nat /\ starts (key i) s = true.
Proof.
  unfold key_at. destruct (list_find _ _) as [[j x]|] eqn:E; [|done]. simpl. intros [= ->].
  apply list_find_Some in E as (Hj & Hs & _). apply lookup_seq in Hj as [-> Hj]. by split; [lia|].
Qed.

(** A key is a per cent sign and text without one. *)
Lemma key_shape i : (i < nkeys)%nat -> exists r, key i = percent :: r /\ percent ∉ r.
Proof.
  intros Hi. assert (Hall : forallb (fun i => match key i with c :: r => bool_decide (c = percent /\ percent ∉ r) | [] => false end) (seq 0 nkeys) = true)
    by (vm_compute; reflexivity).
  rewrite forallb_forall in Hall. specialize (Hall i ltac:(apply in_seq; lia)).
  destruct (key i) as [|c r]; [done|]. apply bool_decide_eq_true in Hall as [-> ?]. eauto.
Qed.

Lemma key_nonempty i : (i < nkeys)%nat -> key i <> [].
Proof. intros (r & -> & _)%key_shape. done. Qed.

(** No key starts with another. *)
Lemma key_prefix i j : (i < nkeys)%nat -> (j < nkeys)%nat -> starts (key i) (key j) = true -> i = j.
Proof.
  intros Hi Hj Hs.
  assert (Hall : forallb (fun i => forallb (fun j => negb (starts (key i) (key j)) || (i =? j)%nat) (seq 0 nkeys)) (seq 0 nkeys) = true)
    by (vm_compute; reflexivity).
  rewrite forallb_forall in Hall. specialize (Hall i ltac:(apply in_seq; lia)).
  rewrite forallb_forall in Hall. specialize (Hall j ltac:(apply in_seq; lia)). rewrite Hs in Hall.
  by apply Nat.eqb_eq in Hall.
Qed.

Lemma starts_or a b r : starts a (b ++ r) = true -> starts a b = true \/ starts b a = true.
Proof.
  revert b. induction a as [|c a IH]; intros [|d b]; simpl; auto.
  intros [->%bool_decide_eq_true Hs]%andb_prop. rewrite bool_decide_eq_true_2 by done. by apply IH.
Qed.

Lemma other_key i j r : (i < nkeys)%nat -> (j < nkeys)%nat -> i <> j -> starts (key i) (key j ++ r) = false.
Proof.
  intros Hi Hj Hne. destruct (starts _ _) eqn:E; [|done].
  apply starts_or in E as [E|E]; apply key_prefix in E; congruence.
Qed.

(** ** Searching for a key *)

Lemma find_skip sub c a r :
  hd_error sub = Some c -> c ∉ a -> find_str sub (a ++ r) = Nat.add (length a) <$> find_str sub r.
Proof.
  intros Hs. destruct sub as [|d sub]; [done|]. injection Hs as ->.
  induction a as [|b a IH]; [simpl; by destruct (find_str (c :: sub) r)|]. rewrite list.not_elem_of_cons. intros [Hb Ha].
  cbn [app find_str starts]. rewrite bool_decide_eq_false_2 by done. simpl. rewrite IH by done.
  by destruct (find_str (c :: sub) r).
Qed.

Lemma find_text i a r : (i < nkeys)%nat -> percent ∉ a -> find_str (key i) (a ++ r) = Nat.add (length a) <$> find_str (key i) r.
Proof. intros (k & E & _)%key_shape Ha. apply (find_skip _ percent); [by rewrite E|done]. Qed.

Lemma find_other i j r :
  (i < nkeys)%nat -> (j < nkeys)%nat -> i <> j -> find_str (key i) (key j ++ r) = Nat.add (length (key j)) <$> find_str (key i) r.
Proof.
  intros Hi Hj Hne. pose proof (other_key i j r Hi Hj Hne) as Hs. destruct (key_shape j Hj) as (k & E & Hk). rewrite E in *.
  cbn [app find_str] in *. rewrite Hs. simpl. rewrite find_text by done. by destruct (find_str (key i) r).
Qed.

(** ** Replacing a key *)

Lemma replace_skip k v a r :
  dollar ∉ v -> k <> [] -> find_str k (a ++ r) = Nat.add (length a) <$> find_str k r ->
  regex_replace (a ++ r) k v = a ++ regex_replace r k v.
Proof.
  intros Hv Hk Hf. unfold regex_replace. cbn [replace_loop]. rewrite Hf. destruct (find_str k r) as [p|] eqn:E; simpl; [|done].
  rewrite !expand_plain by done. rewrite take_app_add', <- Nat.add_assoc, drop_app_add', <- app_assoc by done. do 3 f_equal.
  apply find_str_bound in E. assert (0 < length k)%nat by (destruct k; simpl; [done|lia]).
  apply replace_loop_enough; [done|rewrite ?length_app, length_drop; lia..].
Qed.

Lemma replace_hit k v r : dollar ∉ v -> k <> [] -> regex_replace (k ++ r) k v = v ++ regex_replace r k v.
Proof.
  intros Hv Hk. unfold regex_replace at 1. cbn [replace_loop].
  assert (Hf : find_str k (k ++ r) = Some 0%nat) by (destruct k; [done|]; cbn [app find_str]; by rewrite app_comm_cons, starts_app).
  rewrite Hf, take_0, expand_plain, drop_app_length' by done. simpl. f_equal.
  assert (0 < length k)%nat by (destruct k; simpl; [done|lia]).
  apply replace_loop_enough; [done|rewrite ?length_app; lia..].
Qed.

(** ** Replacing a field *)

(** The text of the template has no per cent signs but those of its keys. *)
Definition plain_piece (p : piece) : Prop := match p with Text s => percent ∉ s | Field i => (i < nkeys)%nat end.

Definition put (k : nat) (v : list byte) (p : piece) : piece :=
  match p with Field i => if (i =? k)%nat then Text v else p | Text _ => p end.

Lemma replace_field k v t :
  (k < nkeys)%nat -> dollar ∉ v -> Forall plain_piece t ->
  regex_replace (show t) (key k) v = show (put k v <$> t).
Proof.
  intros Hk Hv. pose proof (key_nonempty k Hk) as Hne. induction t as [|p t IH]; intros Ht.
  - apply replace_none. simpl. by destruct (key k).
  - apply list.Forall_cons in Ht as [Hp Ht]. unfold show in *. cbn [fmap list_fmap concat]. specialize (IH Ht).
    destruct p as [s|i]; simpl in *.
    + by rewrite replace_skip, IH by (done || by apply find_text).
    + destruct (Nat.eqb_spec i k) as [->|Hi]; simpl; [by rewrite replace_hit, IH|].
      by rewrite replace_skip, IH by (done || apply find_other; auto).
Qed.

(** A key is found in a template that has its field. *)
Lemma contains_field k t : (k < nkeys)%nat -> Forall plain_piece t -> contains (key k) (show t) = bool_decide (Field k ∈ t).
Proof.
  intros Hk. pose proof (key_nonempty k Hk) as Hne. unfold contains. induction t as [|p t IH]; intros Ht.
  - simpl. by destruct (key k).
  - apply list.Forall_cons in Ht as [Hp Ht]. unfold show in *. cbn [fmap list_fmap concat]. specialize (IH Ht).
    destruct p as [s|i]; simpl in *.
    + rewrite find_text by done. rewrite (bool_decide_ext (_ ∈ Text s :: t) (Field k ∈ t)) by (rewrite list.elem_of_cons; intuition congruence).
      rewrite <- IH. by destruct (find_str (key k) _).
    + destruct (decide (i = k)) as [->|Hi].
      * rewrite bool_decide_eq_true_2 by (by left). by destruct (key k); [|cbn [app find_str]; rewrite app_comm_cons, starts_app].
      * rewrite find_other by auto. rewrite (bool_decide_ext (_ ∈ Field i :: t) (Field k ∈ t)) by (rewrite list.elem_of_cons; intuition congruence).
        rewrite <- IH. by destruct (find_str (key k) _).
Qed.

(** ** All fields *)

(** The template of a format shows the format. *)
Lemma show_pieces skip s : (skip <= length s)%nat -> show (pieces skip s) = drop skip s.
Proof.
  revert skip. induction s as [|c s IH]; intros [|skip] Hs; simpl in *; try lia; try done; [|by rewrite IH by lia].
  destruct (key_at (c :: s)) as [i|] eqn:E; unfold show; cbn [fmap list_fmap concat show_piece]; fold (show (pieces 0 s)).
  - apply key_at_sound in E as [Hi [r Hr]%starts_spec]. destruct (key_shape i Hi) as (q & Hq & _).
    fold (show (pieces (length (key i) - 1) s)). rewrite Hq in *. injection Hr as -> ->. simpl. rewrite Nat.sub_0_r.
    rewrite IH by (rewrite length_app; lia). by rewrite drop_app_length.
  - fold (show (pieces 0 s)). rewrite IH by lia. by rewrite drop_0.
Qed.

Lemma show_template format : show (template format) = format.
Proof. apply show_pieces. lia. Qed.

Lemma put_none k v (t : list piece) : Field k ∉ t -> put k v <$> t = t.
Proof.
  induction t as [|p t IH]; [done|]. rewrite list.not_elem_of_cons. intros [Hp Ht]. rewrite fmap_cons, IH by done.
  destruct p as [s|i]; simpl; [done|]. destruct (Nat.eqb_spec i k); [by subst|done].
Qed.

(** The rounds from field [i] on, for the keys that a format has. *)
Fixpoint render (v : nat -> list byte) (select : list bool) (i : nat) (keys : list (list byte)) (text : list byte) : list byte :=
  match select, keys with
  | b :: select', key :: keys' =>
      render v select' (S i) keys' (if (b : bool) then regex_replace text key (v i) else text)
  | _, _ => text
  end.

(** The fields before [i] are filled in. *)
Definition filled (v : nat -> list byte) (i : nat) (p : piece) : piece :=
  match p with Field j => if (j <? i)%nat then Text (v j) else p | Text _ => p end.

Lemma filled_put v i (t : list piece) : put i (v i) <$> (filled v i <$> t) = filled v (S i) <$> t.
Proof.
  rewrite <- list_fmap_compose. apply list_fmap_ext. intros _ [s|j] _; simpl; [done|].
  destruct (Nat.ltb_spec j i), (Nat.ltb_spec j (S i)); simpl; try lia; try done;
    destruct (Nat.eqb_spec j i); subst; done || lia.
Qed.

Lemma filled_field v i (t : list piece) : Field i ∈ filled v i <$> t <-> Field i ∈ t.
Proof.
  rewrite list_elem_of_fmap. split.
  - intros ([s|j] & E & Hj); simpl in E; [done|]. destruct (Nat.ltb_spec j i); by simplify_eq.
  - intros Hi. exists (Field i). simpl. by rewrite Nat.ltb_irrefl.
Qed.

(** What a template needs of the values: no dollar sign, and no per cent sign except in
    the last field. *)
Definition fits (v : nat -> list byte) (p : piece) : Prop :=
  match p with
  | Text s => percent ∉ s
  | Field i => (i < nkeys)%nat /\ (dollar ∉ v i) /\ (i <> FMT_LOG_MESSAGE -> percent ∉ v i)
  end.
#[global] Instance fits_dec v p : Decision (fits v p).
Proof. destruct p; simpl; apply _. Defined.

Lemma filled_plain v i (t : list piece) : (i <= FMT_LOG_MESSAGE)%nat -> Forall (fits v) t -> Forall plain_piece ((filled v i) <$> t).
Proof.
  intros Hi Ht. rewrite list.Forall_fmap. eapply list.Forall_impl; [exact Ht|]. intros [s|j]; simpl; [done|].
  intros (Hj & _ & Hv). destruct (Nat.ltb_spec j i); simpl; [apply Hv; lia|done].
Qed.

(** One round. *)
Lemma render_round v (t : list piece) i :
  (i < nkeys)%nat -> Forall (fits v) t ->
  (if bool_decide (Field i ∈ t) then regex_replace (show (filled v i <$> t)) (key i) (v i) else show (filled v i <$> t)) =
  show (filled v (S i) <$> t).
Proof.
  intros Hi Ht.
  assert (Hle : (i <= FMT_LOG_MESSAGE)%nat) by (unfold nkeys in Hi; simpl in Hi; unfold FMT_LOG_MESSAGE; lia).
  rewrite <- filled_put. case_bool_decide as Hin.
  - apply replace_field; [done| |by apply filled_plain]. rewrite list.Forall_forall in Ht. apply (Ht _ Hin).
  - by rewrite put_none by (by rewrite filled_field).
Qed.

Lemma render_rounds v (t : list piece) n i :
  (i + n <= nkeys)%nat -> Forall (fits v) t ->
  render v ((fun i => bool_decide (Field i ∈ t)) <$> seq i n) i (key <$> seq i n) (show (filled v i <$> t)) =
  show (filled v (i + n) <$> t).
Proof.
  revert i. induction n as [|n IH]; intros i Hi Ht; [by rewrite Nat.add_0_r|].
  cbn [seq fmap list_fmap render]. rewrite render_round by (done || lia).
  rewrite IH by (done || lia). by rewrite Nat.add_succ_comm.
Qed.

Lemma fits_plain v (t : list piece) : Forall (fits v) t -> Forall plain_piece t.
Proof. intros Ht. eapply list.Forall_impl; [exact Ht|]. intros [s|i]; simpl; [done|]. by intros [? _]. Qed.

Lemma fill_show v (t : list piece) : Forall (fits v) t -> show (filled v nkeys <$> t) = fill v t.
Proof.
  intros Ht. unfold show, fill. rewrite <- list_fmap_compose. f_equal. apply list_fmap_ext.
  intros j p Hp. rewrite list.Forall_lookup in Ht. specialize (Ht _ _ Hp). destruct p as [s|i]; [done|].
  simpl. destruct Ht as [Hi _]. destruct (Nat.ltb_spec i nkeys); [done|lia].
Qed.

(** All rounds together fill in the template. *)
Lemma render_fill v format :
  Forall (fits v) (template format) ->
  render v ((fun key => contains key format) <$> log_formatter_dict) 0 log_formatter_dict (format ++ [newline]) =
  fill v (template format) ++ [newline].
Proof.
  intros Ht. set (t := template format ++ [Text [newline]]).
  assert (Ht' : Forall (fits v) t) by (apply list.Forall_app; split; [done|]; repeat constructor; by intros ?%list_elem_of_singleton).
  assert (Ek : log_formatter_dict = key <$> seq 0 nkeys) by reflexivity.
  assert (Es : (fun key => contains key format) <$> log_formatter_dict = (fun i => bool_decide (Field i ∈ t)) <$> seq 0 nkeys).
  { rewrite Ek, <- list_fmap_compose. apply list_fmap_ext. intros j i Hj. apply lookup_seq in Hj as [-> Hj]. simpl.
    rewrite <- (show_template format) at 1. rewrite contains_field by (done || by eapply fits_plain).
    apply bool_decide_ext. unfold t. rewrite list.elem_of_app, list_elem_of_singleton. intuition congruence. }
  assert (Ef : format ++ [newline] = show (filled v 0 <$> t)).
  { transitivity (show t); [unfold t, show; rewrite fmap_app, concat_app; fold (show (template format)); by rewrite show_template|].
    f_equal. rewrite <- (list_fmap_id t) at 1. apply list_fmap_ext. intros ? [] ?; done. }
  rewrite Es, Ef, Ek, render_rounds by done. rewrite Nat.add_0_l, (fill_show v t) by done.
  unfold t, fill. by rewrite fmap_app, concat_app.
Qed.

(** ** Printing *)

Section Printing.
Context {H : Type} `{LogHost H}.
Implicit Types w : lworld H.

(** The fields of a message, in the order of the keys: the host is the program's name,
    and the time since the start (which asks the system) is left out. *)
Definition field_text w (a : LoggerAttr) (m : LogMessage) (i : nat) : list byte :=
  default [] ([program_name w; program_name w; level_name (lm_log_level m); file_path m; lm_file_name m;
    lm_module_name m; func_name m; to_string (line_no m); to_string (seconds (record_time m)); [];
    Time_T_format (record_time m) (date_format a); format_tid (tid m); get_target_thread_name (tid m) w;
    to_string (pid m); log_message m] !! i).

(** Where an error was logged, for a module in debug mode. *)
Definition traceback (m : LogMessage) : list byte :=
  default (str "Traceback:" ++ [newline] ++
           str "  FILE " ++ file_path m ++ str ",  line " ++ to_string (line_no m) ++ [newline] ++
           str "       " ++ func_name m ++ [newline]) h_backtrace.

Definition is_error (l : log_level_t) : bool :=
  match l with EXIT_ERROR | L_ERROR | D_ERROR => true | _ => false end.

(** The line a message becomes: the format of its module with the fields filled in. *)
Definition message_line w (a : LoggerAttr) (m : LogMessage) : list byte :=
  (if debug_on a && is_error (lm_log_level m) then traceback m ++ str "ErrorInfo: " else []) ++
  fill (field_text w a m) (template (formatter a)) ++ [newline].

(** What an output without files does with a line. *)
Definition output_events (o : LogOutputAttr) (line : list byte) : list log_event :=
  (if stderr_on o then [EvStderr line] else []) ++
  (if stdout_on o then [EvStdout line] else []) ++
  (if syslog_on o then [EvSyslog (level_priority (oa_log_level o)) line] else []).

Definition message_events w (m : LogMessage) : list log_event :=
  match map_find (lm_module_name m) (module_attr w) with
  | Some a =>
      match log_level_output a !! level_num (lm_log_level m) with
      | Some o => output_events o (message_line w a m)
      | None => []
      end
  | None => []
  end.

(** A format that is used as it reads: the keys it has are those that are selected, the
    time since the start is not one of them, and neither its text nor its fields have
    characters that the replacement would take for something else. *)
Definition format_ok w (a : LoggerAttr) (m : LogMessage) : Prop :=
  log_formatter_select a = (fun key => contains key (formatter a)) <$> log_formatter_dict /\
  (Field 9 ∉ template (formatter a)) /\
  Forall (fits (field_text w a m)) (template (formatter a)).

(** A message that can be printed: its module is known, with such a format, and its
    output has no files and, for the system log, no per cent sign in the text. *)
Definition printable w (m : LogMessage) : Prop :=
  match map_find (lm_module_name m) (module_attr w) with
  | Some a =>
      format_ok w a m /\
      match log_level_output a !! level_num (lm_log_level m) with
      | Some o => oa_log_files o = [] /\ (syslog_on o = true -> percent ∉ message_line w a m)
      | None => False
      end
  | None => False
  end.

#[global] Instance printable_dec w m : Decision (printable w m).
Proof. unfold printable, format_ok. repeat case_match; apply _. Defined.

Lemma is_error_name l : contains (str "ERROR") (level_name l) = is_error l.
Proof. by destruct l. Qed.

Lemma syslog_plain s : percent ∉ s -> syslog_text s = Some s.
Proof.
  induction s as [|c s IH]; [done|]. rewrite list.not_elem_of_cons. intros [Hc Hs]. simpl.
  destruct (Z.eqb_spec (byte_val c) 37) as [E|E]; [|by rewrite IH].
  destruct Hc. unfold percent. by rewrite <- E, byte_of_val.
Qed.

(** The code asks for a field. *)
Lemma field_value_text w m i a :
  map_find (lm_module_name m) (module_attr w) = Some a -> i <> 9%nat -> (i < nkeys)%nat ->
  field_value m i w = (inr (field_text w a m i), w).
Proof.
  intros Ha Hi Hk. unfold nkeys in Hk. simpl in Hk.
  do 15 (destruct i as [|i]; [try done; unfold field_value, get_attr, ex_bind, look; by rewrite ?Ha|]). lia.
Qed.

Lemma replace_fields_render w m a select i keys text :
  map_find (lm_module_name m) (module_attr w) = Some a ->
  (i + length keys <= nkeys)%nat -> (forall j, select !! j = Some true -> (i + j)%nat <> 9%nat) ->
  replace_fields m select i keys text w = (inr (render (field_text w a m) select i keys text), w).
Proof.
  intros Ha. revert i keys text. induction select as [|b select IH]; intros i [|key keys] text Hk Hs; try done.
  assert (Hs' : forall j, select !! j = Some true -> (S i + j)%nat <> 9%nat)
    by (intros j Hj; specialize (Hs (S j) Hj); lia). simpl in Hk.
  simpl. destruct b; [|apply IH; [lia|done]]. unfold ex_bind.
  rewrite (field_value_text w m i a) by (done || lia || (specialize (Hs 0%nat eq_refl); lia)).
  apply IH; [lia|done].
Qed.

(** A key that is selected is in the format. *)
Lemma selected_field w a m j :
  format_ok w a m -> log_formatter_select a !! j = Some true -> Field j ∈ template (formatter a).
Proof.
  intros (Es & _ & Hf) Hj. rewrite Es, list_lookup_fmap in Hj.
  destruct (log_formatter_dict !! j) as [k|] eqn:Ek; [|done]. simpl in Hj. injection Hj as Hj.
  assert (Hk : (j < nkeys)%nat) by (by eapply lookup_lt_Some).
  assert (k = key j) as -> by (unfold key; by rewrite Ek).
  rewrite <- (show_template (formatter a)) in Hj at 1.
  rewrite contains_field in Hj by (done || by eapply fits_plain). by apply bool_decide_eq_true in Hj.
Qed.

(** The text of a message is the line. *)
Lemma message_text w m a :
  map_find (lm_module_name m) (module_attr w) = Some a -> format_ok w a m ->
  (result ← ganerate_log_message m; judge_traceback m result) w = (inr (message_line w a m), w).
Proof.
  intros Ha Hok. pose proof Hok as (Es & H9 & Hf).
  assert (Hg : get_attr (lm_module_name m) w = (inr a, w)) by (unfold get_attr, ex_bind, look; by rewrite Ha).
  unfold ganerate_log_message. unfold ex_bind at 1 2. rewrite Hg. rewrite (replace_fields_render w m a).
  2-4: done || (intros j Hj E9; simpl in E9; subst j; by eapply H9, selected_field).
  rewrite Es, render_fill by done. unfold judge_traceback, ex_bind. rewrite Hg, is_error_name. unfold message_line, traceback.
  destruct (debug_on a && is_error (lm_log_level m)); [|done]. unfold mret, ex_ret. do 2 f_equal. rewrite <- app_assoc. f_equal.
Qed.

Lemma out_one_prints w m :
  printable w m -> out_one m w = (inr tt, w <| lw_trace := lw_trace w ++ message_events w m |>).
Proof.
  unfold printable, message_events. destruct (map_find (lm_module_name m) (module_attr w)) as [a|] eqn:Ha; [|done].
  intros [Hok Ho]. destruct (log_level_output a !! level_num (lm_log_level m)) as [o|] eqn:El; [|done].
  destruct Ho as [Hf Hsys]. pose proof (message_text w m a Ha Hok) as Ht. unfold out_one. unfold ex_bind in Ht |- *.
  destruct (ganerate_log_message m w) as [[e|text] w1]; [done|]. rewrite Ht.
  unfold message_out, get_attr, ex_bind, look. rewrite Ha. unfold mret, ex_ret, attr_out_message. rewrite El.
  unfold output_out_message, output_events. rewrite Hf. revert Hsys. generalize (message_line w a m). intros line Hsys.
  destruct w. unfold ex_bind, emit, change, mret, ex_ret. simpl in *.
  destruct (stderr_on o), (stdout_on o), (syslog_on o); simpl; rewrite ?(syslog_plain line (Hsys eq_refl)); simpl;
    rewrite ?app_nil_r, <- ?app_assoc; reflexivity.
Qed.

(** What the text of a message depends on. *)
Definition same_view w w' : Prop :=
  program_name w' = program_name w /\ module_attr w' = module_attr w /\ thread_id_name_map w' = thread_id_name_map w.

Lemma same_field w w' a m : same_view w w' -> field_text w' a m = field_text w a m.
Proof. intros (E1 & _ & E3). unfold field_text, get_target_thread_name. by rewrite E1, E3. Qed.

Lemma same_line w w' a m : same_view w w' -> message_line w' a m = message_line w a m.
Proof. intros Hv. unfold message_line. by rewrite (same_field w w'). Qed.

Lemma same_events w w' m : same_view w w' -> message_events w' m = message_events w m.
Proof.
  intros Hv. unfold message_events. rewrite (proj1 (proj2 Hv)). case_match; [|done]. case_match; [|done].
  by rewrite (same_line w w').
Qed.

Lemma same_printable w w' m : same_view w w' -> printable w m -> printable w' m.
Proof.
  intros Hv. unfold printable, format_ok. rewrite (proj1 (proj2 Hv)). case_match; [|done]. case_match; [|by intros []].
  by rewrite (same_line w w'), (same_field w w').
Qed.

Lemma each_prints w ms :
  Forall (printable w) ms ->
  each out_one ms w = (inr tt, w <| lw_trace := lw_trace w ++ concat (message_events w <$> ms) |>).
Proof.
  intros Hms. revert w Hms. induction ms as [|m ms IH]; intros w Hms.
  - simpl. destruct w. simpl. by rewrite app_nil_r.
  - apply list.Forall_cons in Hms as [Hm Hms]. cbn [each]. unfold ex_bind. rewrite out_one_prints by done.
    rewrite IH by (eapply list.Forall_impl; [exact Hms|]; intros m' Hm'; apply (same_printable w); [repeat split|done]).
    cbn [fmap list_fmap concat]. rewrite (list_fmap_ext _ (message_events w)) by (intros; apply same_events; repeat split).
    simpl. rewrite <- app_assoc. reflexivity.
Qed.

End Printing.
