(* ===== verification/LogDemo.v ===== *)
(** * The log on a small system

    [DemoHost] is a system with a clock, a directory, a limit of open descriptors and the
    size and time of one file; the properties of the log are applied to it. *)
From S2P Require Import Prelude LogText LogState LogFile Log.
From stdpp Require Import sorting.

Open Scope Z_scope.
Open Scope dnfs_scope.
Open Scope log_scope.

Record demo_host (limit : Z) := mk_demo {
  dh_clock : Z;
  dh_names : list (list byte);
  dh_open : Z;
  dh_size : Z;
  dh_ctime : Z }.
Arguments mk_demo {limit}.
Arguments dh_clock {limit}.
Arguments dh_names {limit}.
Arguments dh_open {limit}.
Arguments dh_size {limit}.
Arguments dh_ctime {limit}.

#[global] Instance eta_demo_host limit : RecEta (demo_host limit) := fun r =>
  mk_demo (dh_clock r) (dh_names r) (dh_open r) (dh_size r) (dh_ctime r).

Definition earlier (x y : LogMessage) : Prop := time_lt (record_time y) (record_time x) = false.
#[global] Instance earlier_dec : RelDecision earlier.
Proof. intros x y. unfold earlier. apply _. Defined.

(** Every look at the clock takes ten seconds. *)
#[global] Instance demo_log_host limit : LogHost (demo_host limit) := {|
  h_stat p h := (Some S_IFDIR, h);
  h_create_directories p h := (true, h);
  h_access p mode h := ((if mode =? F_OK then bool_decide (p ∈ dh_names h) else true), h);
  h_open p flags h :=
    if dh_open h <? limit
    then (dh_open h + 3, h <| dh_open := dh_open h + 1 |> <| dh_names := (if bool_decide (p ∈ dh_names h) then [] else [p]) ++ dh_names h |>)
    else (-1, h);
  h_close fd h := (0, h <| dh_open := dh_open h - 1 |>);
  h_fstat fd h := ((if fd =? -1 then None else Some (dh_size h, dh_ctime h)), h);
  h_write fd data h :=
    (Z.of_nat (length data), h <| dh_size := dh_size h + Z.of_nat (length data) |> <| dh_ctime := dh_clock h |>);
  h_rename p q h := (0, h <| dh_names := q :: List.filter (fun x => negb (bool_decide (x = p))) (dh_names h) |> <| dh_size := 0 |>);
  h_remove p h := (0, h <| dh_names := List.filter (fun x => negb (bool_decide (x = p))) (dh_names h) |>);
  h_readdir p h := (Some ((fun n => (true, drop (length p + 1) n)) <$> dh_names h), h);
  h_time h := (dh_clock h, h <| dh_clock := dh_clock h + 10 |>);
  h_microseconds h := (dh_clock h * 1000000, h <| dh_clock := dh_clock h + 10 |>);
  h_calloc n h := (true, h);
  h_realloc n h := (true, h);
  h_sort := merge_sort earlier;
  h_midnight t := t - t mod 86400;
  h_strftime fmt t := to_string t;
  h_getpid := 42;
  h_backtrace := None |}.

Definition demo_system limit : demo_host limit := mk_demo 1000 [] 0 0 0.

(** A logger with one file, configured by [config]. *)
Definition demo_file limit (config : list byte) : lworld (demo_host limit) :=
  ((init (str "dnfsd") (str "host");; get_log_file config (str "main") L_INFO) (new_logger (demo_system limit) 0)).2.

Definition hello : list byte := str "hello".
