(* ===== verification/LogFileProps.v ===== *)
(** * Properties of the files of the log

    Reasoning on operations that throw, the bound on the number of rotated files, and
    the descriptors a log file uses up. *)
From S2P Require Import Prelude LogText LogState LogFile Log LogDemo.

Open Scope Z_scope.
Open Scope dnfs_scope.
Open Scope log_scope.

(** ** Weakest preconditions *)

(** [m] ends in [Q] when it returns and in [E] when it throws. *)
Definition lwp {S A} (m : EX S A) (Q : A -> S -> Prop) (E : S -> Prop) (s : S) : Prop :=
  match m s with
  | (inr a, s') => Q a s'
  | (inl _, s') => E s'
  end.

Lemma lwp_bind {S A B} (m : EX S A) (k : A -> EX S B) Q E s :
  lwp m (fun a => lwp (k a) Q E) E s -> lwp (ex_bind m k) Q E s.
Proof. unfold lwp, ex_bind. by destruct (m s) as [[e|a] s']. Qed.

Lemma lwp_mono {S A} (m : EX S A) (Q Q' : A -> S -> Prop) (E E' : S -> Prop) s :
  (forall a s', Q a s' -> Q' a s') -> (forall s', E s' -> E' s') -> lwp m Q E s -> lwp m Q' E' s.
Proof. unfold lwp. intros HQ HE. destruct (m s) as [[e|a] s']; auto. Qed.

Lemma lwp_ret {S A} (a : A) (Q : A -> S -> Prop) E s : Q a s -> lwp (mret a) Q E s.
Proof. done. Qed.

Lemma lwp_throw {S A} e (Q : A -> S -> Prop) E (s : S) : E s -> lwp (throw e) Q E s.
Proof. done. Qed.

Lemma lwp_look {S A} (f : S -> A) (Q : A -> S -> Prop) E s : Q (f s) s -> lwp (look f) Q E s.
Proof. done. Qed.

Lemma lwp_change {S} (f : S -> S) (Q : unit -> S -> Prop) E s : Q tt (f s) -> lwp (change f) Q E s.
Proof. done. Qed.

Lemma lwp_sys_call {H A} (f : H -> A * H) (Q : A -> lworld H -> Prop) E w :
  Q (f (lw_host w)).1 (w <| lw_host := (f (lw_host w)).2 |>) -> lwp (sys_call f) Q E w.
Proof. unfold lwp, sys_call. by destruct (f (lw_host w)). Qed.

(** A loop keeps what its rounds keep. *)
Lemma lwp_each {S A} (f : A -> EX S unit) (I : S -> Prop) l s :
  (forall a s, I s -> lwp (f a) (fun _ => I) I s) -> I s -> lwp (each f l) (fun _ => I) I s.
Proof.
  intros Hf. revert s. induction l as [|a l IH]; intros s Hs; [done|]. simpl.
  apply lwp_bind. eapply lwp_mono; [| |apply Hf, Hs]; simpl; auto.
Qed.

(** A step of a method. *)
Ltac lwp_step :=
  lazymatch goal with
  | |- lwp (ex_bind _ _) _ _ _ => apply lwp_bind
  | |- lwp (mret _) _ _ _ => apply lwp_ret
  | |- lwp (throw _) _ _ _ => apply lwp_throw
  | |- lwp (look _) _ _ _ => apply lwp_look
  | |- lwp (get_file _) _ _ _ => apply lwp_look
  | |- lwp (change _) _ _ _ => apply lwp_change
  | |- lwp (emit _) _ _ _ => apply lwp_change
  | |- lwp (set_file _ _) _ _ _ => apply lwp_change
  | |- lwp (sys_call _) _ _ _ => apply lwp_sys_call
  | |- lwp (if ?b then _ else _) _ _ _ => destruct b eqn:?
  | |- lwp (match ?x with _ => _ end) _ _ _ => destruct x eqn:?
  end.
Ltac lwp_steps := repeat (lwp_step; cbv beta).

(** ** Events and files *)

Definition is_rename (e : log_event) : bool := match e with EvRename _ _ _ => true | _ => false end.

Definition ev_count (p : log_event -> bool) (tr : list log_event) : Z := Z.of_nat (length (List.filter p tr)).

Lemma ev_count_snoc p tr e : ev_count p (tr ++ [e]) = ev_count p tr + (if p e then 1 else 0).
Proof. unfold ev_count. rewrite List.filter_app, length_app. simpl. destruct (p e); simpl; lia. Qed.

(** Where files were renamed to, which were removed and with which result, and what was
    said about removals. *)
Definition targets (tr : list log_event) : list (list byte) :=
  flat_map (fun e => match e with EvRename _ q _ => [q] | _ => [] end) tr.
Definition removals (tr : list log_event) : list (list byte * Z) :=
  flat_map (fun e => match e with EvRemove p r => [(p, r)] | _ => [] end) tr.
Definition complaints (tr : list log_event) : list (list byte) :=
  flat_map (fun e => match e with
                     | EvStderr s => if bool_decide (take 16 s = str "Failed to delete") then [s] else []
                     | _ => []
                     end) tr.

Definition failures (l : list (list byte * Z)) : list (list byte) :=
  fst <$> List.filter (fun x => negb (x.2 =? 0)) l.
Definition complaint (name p : list byte) : list byte :=
  str "Failed to delete module '" ++ name ++ str "' log file '" ++ p ++ str "'".

Lemma targets_app l k : targets (l ++ k) = targets l ++ targets k.
Proof. apply flat_map_app. Qed.
Lemma removals_app l k : removals (l ++ k) = removals l ++ removals k.
Proof. apply flat_map_app. Qed.
Lemma complaints_app l k : complaints (l ++ k) = complaints l ++ complaints k.
Proof. apply flat_map_app. Qed.
Lemma failures_snoc l p r : failures (l ++ [(p, r)]) = failures l ++ (if r =? 0 then [] else [p]).
Proof. unfold failures. rewrite List.filter_app, fmap_app. simpl. by destruct (r =? 0). Qed.

Section Files.
Context {H : Type}.
Implicit Types w : lworld H.

Lemma file_at_alter w i f :
  (i < length (lw_files w))%nat -> default new_LogFile (alter f i (lw_files w) !! i) = f (file_at w i).
Proof.
  intros [x Hx]%lookup_lt_is_Some_2. unfold file_at. by rewrite list_lookup_alter_eq, Hx.
Qed.

Lemma file_at_twice w i f g :
  (i < length (lw_files w))%nat -> default new_LogFile (alter g i (alter f i (lw_files w)) !! i) = g (f (file_at w i)).
Proof.
  intros [x Hx]%lookup_lt_is_Some_2. unfold file_at. by rewrite !list_lookup_alter_eq, Hx.
Qed.
End Files.

Section Rotation.
Context {H : Type} `{LogHost H}.
Implicit Types w : lworld H.

(** ** Rotated files *)

(** The rotated files an object remembers: of the targets of its renames, in the order
    they were made, the first ones were removed, one after the other, and the rest is
    remembered; with a limit [b], as many as there are up to the limit.  A removal that
    fails is complained about and counts as one that did not. *)
Definition rotated_ok (this : nat) (b : Z) (name : list byte) (w : lworld H) : Prop :=
  let f := file_at w this in
  let tr := lw_trace w in
  (this < length (lw_files w))%nat /\ (backup_count f = b /\ lf_module_name f = name) /\
  log_files f = Z.of_nat (length (file_path_list f)) /\
  (0 < b -> log_files f = Z.min b (Z.of_nat (length (targets tr)))) /\
  (b <= 0 -> removals tr = []) /\
  targets tr = (removals tr).*1 ++ file_path_list f /\
  complaints tr = complaint name <$> failures (removals tr).

Lemma rotated_host this b d w h : rotated_ok this b d w -> rotated_ok this b d (w <| lw_host := h |>).
Proof. done. Qed.

(** An event that is not about rotated files. *)
Definition elsewhere (e : log_event) : Prop := targets [e] = [] /\ removals [e] = [] /\ complaints [e] = [].

Lemma rotated_emit this b d w e :
  elsewhere e -> rotated_ok this b d w -> rotated_ok this b d (w <| lw_trace := lw_trace w ++ [e] |>).
Proof.
  intros (E1 & E2 & E3). unfold rotated_ok, file_at. simpl.
  by rewrite targets_app, removals_app, complaints_app, E1, E2, E3, !app_nil_r.
Qed.

(** Members that a change must keep. *)
Definition same_rotated (f : LogFile -> LogFile) : Prop :=
  forall x, backup_count (f x) = backup_count x /\ lf_module_name (f x) = lf_module_name x /\
            log_files (f x) = log_files x /\ file_path_list (f x) = file_path_list x.

Lemma rotated_set this b d w f :
  same_rotated f -> rotated_ok this b d w -> rotated_ok this b d (w <| lw_files := alter f this (lw_files w) |>).
Proof.
  intros Hf (Hl & Hw). unfold rotated_ok in *. cbv zeta in *.
  change (file_at (w <| lw_files := alter f this (lw_files w) |>) this) with (default new_LogFile (alter f this (lw_files w) !! this)).
  rewrite file_at_alter by done. destruct (Hf (file_at w this)) as (-> & -> & -> & ->).
  simpl. by rewrite length_alter.
Qed.

Ltac rotated :=
  repeat lazymatch goal with
  | |- rotated_ok _ _ _ (@upd _ _ (@lw_host _) _ _ _) => apply rotated_host
  | |- rotated_ok _ _ _ (@upd _ _ (@lw_trace _) _ _ _) => apply rotated_emit; [done|]
  | |- rotated_ok _ _ _ (@upd _ _ (@lw_files _) _ _ _) => apply rotated_set; [by intros []|]
  | |- rotated_ok _ _ _ _ => assumption
  end.

Lemma judge_and_create_keeps this b d w :
  rotated_ok this b d w ->
  lwp (judge_and_create_log_file this) (fun _ => rotated_ok this b d) (rotated_ok this b d) w.
Proof. intros Hw. unfold judge_and_create_log_file. lwp_steps; rotated. Qed.

(** One more rotated file. *)
Definition pushed (q : list byte) (f : LogFile) : LogFile :=
  f <| file_path_list := file_path_list f ++ [q] |> <| log_files := log_files f + 1 |>.
(** The oldest is forgotten. *)
Definition popped (f : LogFile) : LogFile :=
  f <| file_path_list := drop 1 (file_path_list f) |> <| log_files := log_files f - 1 |>.

(** There is no need to remove one. *)
Lemma rotated_push this b d w p q r :
  rotated_ok this b d w ->
  let f := pushed q (file_at w this) in
  (0 <? backup_count f) && (backup_count f <? log_files f) = false ->
  rotated_ok this b d (w <| lw_trace := lw_trace w ++ [EvRename p q r] |> <| lw_files := alter (pushed q) this (lw_files w) |>).
Proof.
  intros (Hl & [Hb Hd] & Hn & Hm & Hz & Ht & Hc) f Hf. unfold rotated_ok. cbv zeta.
  match goal with |- context [file_at ?w' this] => change (file_at w' this) with (default new_LogFile (alter (pushed q) this (lw_files w) !! this)) end.
  rewrite file_at_alter by done. simpl in Hf |- *.
  rewrite length_alter, targets_app, removals_app, complaints_app, !length_app. simpl. rewrite !app_nil_r, Ht, <- app_assoc.
  rewrite Ht, length_app in Hm. rewrite length_app, Hn. repeat split; auto; simpl; lia.
Qed.

(** The oldest is removed, or complained about. *)
Lemma rotated_pop this b d w p q r :
  rotated_ok this b d w ->
  let f := pushed q (file_at w this) in
  (0 <? backup_count f) && (backup_count f <? log_files f) = true ->
  let oldest := hd [] (file_path_list f) in
  forall r' w', lw_files w' = alter popped this (alter (pushed q) this (lw_files w)) ->
  let said := if r' =? 0 then [] else [EvStderr (complaint (lf_module_name f) oldest)] in
  lw_trace w' = lw_trace w ++ EvRename p q r :: EvRemove oldest r' :: said ->
  rotated_ok this b d w'.
Proof.
  intros (Hl & [Hb Hd] & Hn & Hm & Hz & Ht & Hc) f Hf oldest r' w' Ew said Et. unfold rotated_ok, file_at. cbv zeta.
  rewrite Ew, Et, file_at_twice by done.
  simpl in Hf |- *.
  set (k := drop 1 (file_path_list (file_at w this) ++ [q])).
  assert (Ef : file_path_list (file_at w this) ++ [q] = oldest :: k)
    by (unfold oldest, f, k; simpl; by destruct (file_path_list (file_at w this))).
  assert (E1 : targets (EvRename p q r :: EvRemove oldest r' :: said) = [q]) by (unfold said; by destruct (r' =? 0)).
  assert (E2 : removals (EvRename p q r :: EvRemove oldest r' :: said) = [(oldest, r')]) by (unfold said; by destruct (r' =? 0)).
  assert (E3 : complaints (EvRename p q r :: EvRemove oldest r' :: said) = complaint d <$> (if r' =? 0 then [] else [oldest]))
    by (unfold said; simpl; rewrite Hd; by destruct (r' =? 0)).
  rewrite !length_alter, targets_app, removals_app, complaints_app, E1, E2, E3, failures_snoc, !fmap_app, Hc, Ht, <- !app_assoc, Ef.
  rewrite Ht, length_app in Hm. apply (f_equal length) in Ef as El. rewrite length_app in El. simpl in El.
  rewrite !length_app. simpl. repeat split; auto; lia.
Qed.

Lemma file_number_keeps this name (Q : list byte -> lworld H -> Prop) (E : lworld H -> Prop) w :
  (forall s h, Q s (w <| lw_host := h |>)) -> (forall h, E (w <| lw_host := h |>)) -> lwp (get_file_number this name) Q E w.
Proof. intros HQ HE. unfold get_file_number, get_dir_file. lwp_steps; first [apply HQ|apply HE]. Qed.

Lemma rotate_log_file_keeps this b d now w :
  rotated_ok this b d w ->
  lwp (rotate_log_file this now) (fun _ => rotated_ok this b d) (rotated_ok this b d) w.
Proof.
  intros Hw. unfold rotate_log_file. lwp_step. lwp_step. cbv beta. generalize (file_at w this). intros f. lwp_step.
  eapply (lwp_mono _ (fun _ => rotated_ok this b d) _ (rotated_ok this b d)); [|done|lwp_steps; rotated].
  clear w Hw. intros _ w Hw. lwp_step.
  eapply (lwp_mono _ (fun _ => rotated_ok this b d) _ (rotated_ok this b d)); [|done|].
  2:{ lwp_steps; [apply file_number_keeps; intros; rotated|done|apply file_number_keeps; intros; rotated]. }
  clear w Hw. intros suffix w Hw. cbv zeta.
  generalize (log_directory_path f ++ str "/" ++ file_name f ++ str "." ++ suffix). intros q. do 3 (lwp_step; lwp_step). lwp_step. lwp_step.
  set (r := (h_rename (log_file_path f) q (lw_host w)).1). set (w1 := w <| lw_host := _ |>).
  assert (Hw1 : rotated_ok this b d w1) by done.
  set (w2 := w1 <| lw_trace := _ |>).
  assert (Ef : file_at (w2 <| lw_files := alter (pushed q) this (lw_files w2) |>) this = pushed q (file_at w1 this))
    by (apply (file_at_alter w2 this); apply Hw1).
  unfold pushed in Ef at 1. rewrite Ef. subst w2. clearbody w1 r. clear w Hw Ef.
  lwp_step; [|lwp_step; exact (rotated_push this b d w1 _ q r Hw1 ltac:(assumption))].
  cbv zeta. lwp_step. lwp_step. lwp_step. lwp_step. lwp_step.
  pose proof (rotated_pop this b d w1 (log_file_path f) q r Hw1 ltac:(assumption)) as Hp. cbv zeta in Hp. revert Hp.
  match goal with |- context [(h_remove ?p ?h).1] => set (r' := (h_remove p h).1) end. intros Hp.
  lwp_steps; (eapply (Hp r'); [reflexivity|]); cbn [lw_trace upd]; rewrite <- !app_assoc; 
   match goal with E : (r' =? 0) = _ |- _ => by rewrite E end.
Qed.

Lemma file_out_message_keeps this b d msg w :
  rotated_ok this b d w ->
  lwp (file_out_message this msg) (fun _ => rotated_ok this b d) (rotated_ok this b d) w.
Proof.
  intros Hw. unfold file_out_message. lwp_step. lwp_step. cbv beta. generalize (file_at w this). intros f. lwp_step.
  eapply (lwp_mono _ (fun _ => rotated_ok this b d) _ (rotated_ok this b d)); [|done|].
  - clear w f Hw. intros _ w Hw. lwp_steps; rotated.
  - unfold not_rotate, rotate_by_time, rotate_by_size.
    destruct (rotate_type f); [by apply judge_and_create_keeps|..].
    + lwp_step. lwp_step. lwp_step. lwp_step. lwp_step. 
      eapply (lwp_mono _ (fun _ => rotated_ok this b d) _ (rotated_ok this b d));
        [intros _ w'; apply judge_and_create_keeps|done|lwp_steps; [apply rotate_log_file_keeps|]; rotated].
    + do 3 (lwp_step; lwp_step). lwp_step.
      eapply (lwp_mono _ (fun _ => rotated_ok this b d) _ (rotated_ok this b d));
        [intros _ w'; apply judge_and_create_keeps|done|lwp_steps; [apply rotate_log_file_keeps|]; rotated].
Qed.

(** C29: a log file with a backup count [b] keeps at most [b] rotated files, whatever is
    written to it and whether or not a write throws.  Of the paths it renamed the file
    to, in the order of the renames, it told the system to remove the first ones, oldest
    first and each one once, and remembers exactly the others: with a limit, the last [b]
    of them, or all when there are fewer, and without one all of them.  A removal that
    fails only leads to a line on the standard error: its file is forgotten as well and
    stays in the directory.  The result of a rename is not looked at. *)
Theorem backups_bounded (this : nat) (msgs : list (list byte)) w :
  (this < length (lw_files w))%nat -> file_path_list (file_at w this) = [] -> log_files (file_at w this) = 0 ->
  lw_trace w = [] ->
  let w' := (each (file_out_message this) msgs w).2 in
  let b := backup_count (file_at w this) in
  let kept := file_path_list (file_at w' this) in
  let tried := removals (lw_trace w') in
  targets (lw_trace w') = tried.*1 ++ kept /\
  (0 < b -> Z.of_nat (length kept) = Z.min b (Z.of_nat (length (targets (lw_trace w'))))) /\
  (b <= 0 -> tried = []) /\
  complaints (lw_trace w') = complaint (lf_module_name (file_at w this)) <$> failures tried.
Proof.
  intros Hl Hp Hn Ht. set (b := backup_count (file_at w this)). set (d := lf_module_name (file_at w this)).
  assert (Hw : rotated_ok this b d w) by (unfold rotated_ok; rewrite Hp, Hn, Ht; simpl; repeat split; auto; lia).
  pose proof (lwp_each (file_out_message this) (rotated_ok this b d) msgs w
    (fun m w => file_out_message_keeps this b d m w) Hw) as Hwp.
  unfold lwp in Hwp. destruct (each (file_out_message this) msgs w) as [[e|[]] w'];
    destruct Hwp as (_ & _ & Hn' & Hb' & Hz' & Ht' & Hc'); simpl; rewrite <- Hn'; auto.
Qed.

End Rotation.

Lemma backups_bounded_witness :
  let w := demo_file 100 (str "/log@(size,0KB,2)") in
  let w' := (each (file_out_message 0) (replicate 6 hello) w).2 in
  targets (lw_trace w') = (fun n => str "/log/dnfsd_size.log." ++ to_string n) <$> [1; 2; 3; 4; 5] /\
  targets (lw_trace w') = (removals (lw_trace w')).*1 ++ file_path_list (file_at w' 0).
Proof.
  intros w w'. split; [vm_compute; reflexivity|].
  refine (proj1 (backups_bounded 0 (replicate 6 hello) w _ _ _ _)); vm_compute; first [reflexivity|lia].
Defined.

(** ** Descriptors *)

(** The limit of open descriptors of a process: [open] fails once it is reached, and
    only [open] and [close] change the number. *)
Class FdLimit (H : Type) `{LogHost H} (limit : Z) := {
  nopen : H -> Z;
  nopen_open : forall p flags h,
    (h_open p flags h).1 <> -1 -> nopen h < limit /\ nopen (h_open p flags h).2 = nopen h + 1;
  nopen_close : forall fd h, nopen h - 1 <= nopen (h_close fd h).2;
  nopen_access : forall p m h, nopen (h_access p m h).2 = nopen h;
  nopen_fstat : forall fd h, nopen (h_fstat fd h).2 = nopen h;
  nopen_time : forall h, nopen (h_time h).2 = nopen h;
  nopen_write : forall fd d h, nopen (h_write fd d h).2 = nopen h;
  nopen_rename : forall p q h, nopen (h_rename p q h).2 = nopen h;
  nopen_remove : forall p h, nopen (h_remove p h).2 = nopen h;
  nopen_readdir : forall p h, nopen (h_readdir p h).2 = nopen h }.

Section Descriptors.
Context {H : Type} `{LogHost H} (limit : Z) `{!FdLimit H limit}.
Implicit Types w : lworld H.

(** At least [n] descriptors are open or were closed by a rotation. *)
Definition used (n : Z) (w : lworld H) : Prop := n <= nopen (lw_host w) + ev_count is_rename (lw_trace w).

Lemma used_emit n w e : used n w -> used n (w <| lw_trace := lw_trace w ++ [e] |>).
Proof. unfold used. simpl. rewrite ev_count_snoc. destruct (is_rename e); lia. Qed.

Lemma used_rename n w p q r : used (n - 1) w -> used n (w <| lw_trace := lw_trace w ++ [EvRename p q r] |>).
Proof. unfold used. simpl. rewrite ev_count_snoc. simpl. lia. Qed.

Lemma used_set n w f this : used n w -> used n (w <| lw_files := alter f this (lw_files w) |>).
Proof. done. Qed.

Lemma used_host n w h : used n w -> nopen h = nopen (lw_host w) -> used n (w <| lw_host := h |>).
Proof. unfold used. simpl. by intros ? ->. Qed.

Lemma used_close n w fd : used n w -> used (n - 1) (w <| lw_host := (h_close fd (lw_host w)).2 |>).
Proof. unfold used. simpl. pose proof (nopen_close fd (lw_host w)). lia. Qed.

Lemma used_open n w p flags :
  used n w -> ((h_open p flags (lw_host w)).1 =? -1) = false ->
  used (n + 1) (w <| lw_host := (h_open p flags (lw_host w)).2 |>).
Proof. unfold used. simpl. intros Hw Hfd. destruct (nopen_open p flags (lw_host w)) as [? ->]; lia. Qed.

Lemma open_limit p flags h : ((h_open p flags h).1 =? -1) = false -> nopen (h_open p flags h).2 <= limit.
Proof. intros Hfd. destruct (nopen_open p flags h) as [? ->]; lia. Qed.

Ltac used :=
  repeat lazymatch goal with
  | |- used _ (@upd _ _ (@lw_trace _) _ (fun _ => _ ++ [EvRename _ _ _]) _) => apply used_rename
  | |- used _ (@upd _ _ (@lw_trace _) _ _ _) => apply used_emit
  | |- used _ (@upd _ _ (@lw_files _) _ _ _) => apply used_set
  | |- used _ (@upd _ _ (@lw_host _) _ (fun _ => (h_close _ _).2) _) => apply used_close
  | |- used _ (@upd _ _ (@lw_host _) _ (fun _ => (h_open _ _ _).2) _) => apply used_open; [|assumption]
  | |- used _ (@upd _ _ (@lw_host _) _ _ _) =>
      apply used_host; [|first [apply nopen_time|apply nopen_fstat|apply nopen_access|apply nopen_write
                               |apply nopen_rename|apply nopen_remove|apply nopen_readdir]]
  | |- used _ _ => assumption
  end.

(** A rotation closes one descriptor at most. *)
Lemma rotate_uses this n now w : used n w -> lwp (rotate_log_file this now) (fun _ => used n) (fun _ => True) w.
Proof.
  intros Hw. unfold rotate_log_file. lwp_step. lwp_step. cbv beta. generalize (file_at w this). intros f. lwp_step.
  eapply (lwp_mono _ (fun _ => used (n - 1)) _ (fun _ => True)); [|done|].
  2:{ lwp_steps; used. unfold used in *. lia. }
  clear w Hw. intros _ w Hw. lwp_step.
  eapply (lwp_mono _ (fun _ => used (n - 1)) _ (fun _ => True)); [|done|].
  2:{ unfold get_file_number, get_dir_file. lwp_steps; first [done|used]. }
  clear w Hw. intros suffix w Hw. cbv zeta.
  generalize (log_directory_path f ++ str "/" ++ file_name f ++ str "." ++ suffix). intros q. lwp_steps; used.
Qed.

(** The file is open when it was judged. *)
Lemma judge_uses this n w :
  used n w ->
  lwp (judge_and_create_log_file this) (fun _ w' => used (n + 1) w' /\ nopen (lw_host w') <= limit) (fun _ => True) w.
Proof.
  intros Hw. unfold judge_and_create_log_file.
  lwp_steps; try done; split; used; cbn [lw_host upd];
    rewrite ?nopen_time, ?nopen_fstat; by apply open_limit.
Qed.

Lemma out_uses this n msg w :
  used n w ->
  lwp (file_out_message this msg) (fun _ w' => used (n + 1) w' /\ nopen (lw_host w') <= limit) (fun _ => True) w.
Proof.
  intros Hw. unfold file_out_message. lwp_step. lwp_step. cbv beta. generalize (file_at w this). intros f. lwp_step.
  eapply (lwp_mono _ (fun _ w' => used (n + 1) w' /\ nopen (lw_host w') <= limit) _ (fun _ => True)); [|done|].
  - clear w Hw. intros _ w [Hw Hl]. lwp_steps; split; used; cbn [lw_host upd]; by rewrite nopen_write.
  - unfold not_rotate, rotate_by_time, rotate_by_size. destruct (rotate_type f); [by apply judge_uses|..];
      repeat lazymatch goal with
      | |- lwp (ex_bind (if _ then rotate_log_file _ _ else _) _) _ _ _ =>
          apply lwp_bind; eapply (lwp_mono _ (fun _ => used n) _ (fun _ => True)); [intros _ w'; apply judge_uses|done|]
      | |- lwp (rotate_log_file _ _) _ _ _ => apply rotate_uses
      | |- lwp _ _ _ _ => lwp_step; cbv beta
      end; used.
Qed.

Lemma exhausted_from this msgs n w :
  used n w -> nopen (lw_host w) <= limit ->
  limit + ev_count is_rename (lw_trace (each (file_out_message this) msgs w).2) < n + Z.of_nat (length msgs) ->
  exists e, (each (file_out_message this) msgs w).1 = inl e.
Proof.
  revert n w. induction msgs as [|m msgs IH]; intros n w Hw Hn; simpl; [unfold used in Hw; lia|].
  pose proof (out_uses this n m w Hw) as Ho. unfold lwp, ex_bind in *.
  destruct (file_out_message this m w) as [[e|[]] w1]; [by eexists|]. destruct Ho as [Hu Hl].
  intros Hlt. apply (IH (n + 1) w1 Hu Hl). lia.
Qed.

(** C28: every message written to a log file opens a descriptor, and only a rotation
    closes one: with a limit on open descriptors, writing more messages than the limit
    leaves room for, and than there are rotations, throws. *)
Theorem descriptors_exhausted (this : nat) (msgs : list (list byte)) w :
  nopen (lw_host w) <= limit ->
  let r := each (file_out_message this) msgs w in
  limit - nopen (lw_host w) + (ev_count is_rename (lw_trace r.2) - ev_count is_rename (lw_trace w)) < Z.of_nat (length msgs) ->
  exists e, r.1 = inl e.
Proof.
  intros Hn r Hlt. apply (exhausted_from this msgs (nopen (lw_host w) + ev_count is_rename (lw_trace w))); [|done|].
  - unfold used. lia.
  - unfold r in Hlt. lia.
Qed.

End Descriptors.

#[global] Instance demo_fd_limit limit : FdLimit (demo_host limit) limit.
Proof.
  refine {| nopen h := dh_open h |}; try done. intros p flags h. simpl.
  destruct (Z.ltb_spec (dh_open h) limit); simpl; [lia|done].
Defined.

Lemma descriptors_exhausted_witness :
  (each (file_out_message 0) (replicate 3 hello) (demo_file 3 (str "/log"))).1 = inr tt /\
  exists e, (each (file_out_message 0) (replicate 4 hello) (demo_file 3 (str "/log"))).1 = inl e.
Proof.
  split; [vm_compute; reflexivity|].
  apply (descriptors_exhausted 3 0 (replicate 4 hello) (demo_file 3 (str "/log"))); vm_compute; [discriminate|reflexivity].
Defined.
