(* ===== verification/LogProps.v ===== *)
(** * Properties of the log

    What the logger reads, records and prints: configurations of files, the text and
    the queue of a message, the order in which messages come out, and that none is lost
    when threads add messages while the buffer is emptied, or repeated but for a throw. *)
From S2P Require Import Prelude LogText LogState LogFile Log LogLine LogDemo LogFileProps.
From stdpp Require Import sorting.
From Stdlib Require Import Sorted.

Open Scope Z_scope.
Open Scope dnfs_scope.
Open Scope log_scope.

(** ** Configuration *)

(** A configuration as the daemon writes it. *)
Definition rotate_config (dir kind limit : list byte) (b : Z) : list byte :=
  dir ++ str "@(" ++ kind ++ str "," ++ limit ++ str "," ++ to_string b ++ str ")".

Lemma to_string_comma n : 0 <= n -> comma ∉ to_string n.
Proof.
  intros Hn Hin. pose proof (to_string_number n Hn) as [_ Hd]%andb_prop.
  rewrite forallb_forall in Hd. by specialize (Hd comma (proj1 (list_elem_of_In _ _) Hin)).
Qed.

Lemma to_string_nonempty n : 0 <= n -> to_string n <> [].
Proof. intros Hn E. pose proof (to_string_number n Hn) as Hr. by rewrite E in Hr. Qed.

(** The text between the parentheses. *)
Lemma config_args_body dir body :
  Z.of_nat (length (dir ++ str "@(" ++ body ++ str ")")) < 2 ^ 63 ->
  config_args (dir ++ str "@(" ++ body ++ str ")") (length dir) = inr body.
Proof.
  intros Hlen. unfold config_args, substr. rewrite !length_app in *. cbn [literal_bytes length] in *.
  destruct (Z.ltb_spec (Z.of_nat (length dir + (2 + (length body + 1)))) (Z.of_nat (length dir) + 2)); [lia|].
  rewrite u64_small by (unfold is_u64; lia).
  replace (Z.to_nat (Z.of_nat (length dir) + 2)) with (length dir + 2)%nat by lia.
  replace (Z.to_nat (Z.min _ _)) with (length body) by lia.
  rewrite <- drop_drop, drop_app_length. cbn [literal_bytes app drop]. rewrite drop_0. by rewrite take_app_length.
Qed.

Lemma split_three a b c :
  a <> [] -> b <> [] -> c <> [] -> comma ∉ a -> comma ∉ b -> comma ∉ c ->
  split_all (a ++ str "," ++ b ++ str "," ++ c) [comma] = [a; b; c].
Proof.
  intros Ha Hb Hc Ca Cb Cc. rewrite split_all_fields.
  change (a ++ str "," ++ b ++ str "," ++ c) with (a ++ comma :: b ++ comma :: c).
  rewrite (fields_app comma a), (fields_app comma b), fields_free by done. rewrite !filter_nonempty_cons. by destruct a, b, c.
Qed.

(** The parts of a configuration reach [parse_rotate]. *)
Lemma parse_config_parts dir kind limit b f :
  at_sign ∉ dir -> kind <> [] -> limit <> [] -> comma ∉ kind -> comma ∉ limit -> 0 <= b ->
  Z.of_nat (length (rotate_config dir kind limit b)) < 2 ^ 63 ->
  exists args, split_all args [comma] = [kind; limit; to_string b] /\
  parse_config (rotate_config dir kind limit b) f = (let? f' := parse_rotate args f in inr (dir, f')).
Proof.
  intros Hd Hk Hl Ck Cl Hb Hlen. exists (kind ++ str "," ++ limit ++ str "," ++ to_string b).
  split; [apply split_three; auto using to_string_comma, to_string_nonempty|].
  assert (E : rotate_config dir kind limit b = dir ++ str "@(" ++ (kind ++ str "," ++ limit ++ str "," ++ to_string b) ++ str ")")
    by (unfold rotate_config; by rewrite <- !app_assoc).
  unfold parse_config. rewrite E in Hlen |- *. pose proof (find_byte_first at_sign dir (byte_of 40 :: (kind ++ str "," ++ limit ++ str "," ++ to_string b) ++ str ")") Hd) as Ef.
  change (at_sign :: byte_of 40 :: ?x) with (str "@(" ++ x) in Ef. rewrite Ef.
  rewrite config_args_body by done. cbn [ebind]. by rewrite take_app_length.
Qed.

(** The units of a size: their name and their shift. *)
Definition size_units : list (list byte * Z) := [(str "KB", 10); (str "MB", 20); (str "GB", 30)].

Lemma parse_size_unit n u k :
  0 <= n < 2 ^ 63 -> (u, k) ∈ size_units -> (k = 30 -> u32 n <= 3) ->
  Z.of_nat (length (to_string n)) < 2 ^ 63 -> parse_size (to_string n ++ u) = inr (u32 (n * 2 ^ k)).
Proof.
  intros Hn Hu Hg Hlen.
  assert (Hu2 : length u = 2%nat) by (apply (proj1 (list.Forall_forall (fun p => length p.1 = 2%nat) size_units) ltac:(by repeat constructor) _ Hu)).
  unfold parse_size, substr. rewrite length_app, Hu2.
  rewrite (u64_small (_ - 2)) by (unfold is_u64; lia).
  replace (Z.of_nat (length (to_string n) + 2) - 2) with (Z.of_nat (length (to_string n))) by lia.
  destruct (Z.ltb_spec (Z.of_nat (length (to_string n) + 2)) (Z.of_nat (length (to_string n)))); [lia|].
  destruct (Z.ltb_spec (Z.of_nat (length (to_string n) + 2)) 0); [lia|]. cbn [ebind].
  rewrite Nat2Z.id, drop_app_length, Z.sub_0_r, Z.min_l, Nat2Z.id by lia.
  rewrite drop_0, take_app_length, take_ge by lia. rewrite to_string_number by lia. cbn [negb].
  unfold stoll. rewrite digits_to_string by lia. destruct (Z.ltb_spec n (2 ^ 63)); [|lia]. cbn [ebind].
  assert (Hs : forall k, 0 <= k -> u32 (Z.shiftl (u32 n) k) = u32 (n * 2 ^ k))
    by (intros; rewrite Z.shiftl_mul_pow2 by done; unfold u32; by rewrite Zmult_mod_idemp_l).
  repeat (apply list.elem_of_cons in Hu as [[= -> ->]|Hu]; [|]); [..|by apply list.not_elem_of_nil in Hu].
  - rewrite bool_decide_eq_true_2 by (vm_compute; reflexivity). by rewrite Hs.
  - rewrite bool_decide_eq_false_2 by (vm_compute; discriminate).
    rewrite bool_decide_eq_true_2 by (vm_compute; reflexivity). by rewrite Hs.
  - do 2 rewrite bool_decide_eq_false_2 by (vm_compute; discriminate).
    rewrite bool_decide_eq_true_2 by (vm_compute; reflexivity).
    destruct (Z.ltb_spec 3 (u32 n)); [specialize (Hg eq_refl); lia|]. by rewrite Hs.
Qed.

(** a rotation by size is read as it is written: the directory, the backup count, and
    the size times its unit, which keeps its low 32 bits only. *)
Theorem size_config_read dir n u k b f :
  at_sign ∉ dir -> 0 <= n < 2 ^ 63 -> 0 <= b < 2 ^ 31 -> (u, k) ∈ size_units -> (k = 30 -> u32 n <= 3) ->
  Z.of_nat (length (rotate_config dir (str "size") (to_string n ++ u) b)) < 2 ^ 63 ->
  parse_config (rotate_config dir (str "size") (to_string n ++ u) b) f =
  inr (dir, f <| backup_count := b |> <| rotate_type := SIZE |> <| log_limit := u32 (n * 2 ^ k) |>).
Proof.
  intros Hd Hn Hb Hu Hg Hlen.
  assert (Hc : comma ∉ u) by (apply (proj1 (list.Forall_forall (fun p => comma ∉ p.1) size_units)
    ltac:(apply (bool_decide_unpack _); vm_compute; exact I) _ Hu)).
  destruct (parse_config_parts dir (str "size") (to_string n ++ u) b f) as (args & Hs & ->);
    [done|done| |apply (bool_decide_unpack _); vm_compute; exact I| |lia|done|].
  - intros [E _]%app_eq_nil. apply (to_string_nonempty n); [lia|done].
  - rewrite list.elem_of_app. intros [Hx|Hx]; [by apply (to_string_comma n) in Hx; [|lia]|done].
  - unfold parse_rotate. rewrite Hs, to_string_number by lia. cbn [negb]. unfold stoi.
    rewrite digits_to_string by lia. destruct (Z.ltb_spec b (2 ^ 31)); [|lia]. cbn [ebind].
    rewrite bool_decide_eq_true_2 by done. rewrite (parse_size_unit n u k); try done.
    unfold rotate_config in Hlen. rewrite !length_app in Hlen. lia.
Qed.

(** ** Recording *)

(** The part of a text that a message keeps. *)
Definition kept_text (text : list byte) : list byte :=
  if (Z.of_nat (length text) <? 1024) then text else take (length text - 1) text.

(** A message of level [l] is recorded by a module at level [al]. *)
Definition log_enabled (l al : log_level_t) : bool :=
  (0 <? level_num l)%nat && (level_num l <=? level_num al)%nat.

Section Recording.
Context {H : Type} `{LogHost H}.
Implicit Types w : lworld H.

(** Memory is there when it is asked for. *)
Definition memory_ok : Prop := forall n h, (h_calloc n h).1 = true /\ (h_realloc n h).1 = true.

(** The constructor, for a text below the largest buffer. *)
Lemma new_LogMessage_text (log : log_call -> EX (lworld H) unit) c text name t w :
  memory_ok -> lc_text c = inr text -> Z.of_nat (length text) < MAX_BUFFER ->
  list.last (split_all (lc_file c) [byte_of 47]) = Some name ->
  exists time h, new_LogMessage log c t w =
    (inr (mk_LogMessage (kept_text text) (lc_module c) (lc_file c) name (lc_line c) (lc_func c) (lc_level c) t h_getpid time),
     w <| lw_host := h |>).
Proof.
  intros Hm Ht Hlen Hn. unfold new_LogMessage, new_Time_T. unfold ex_bind, sys_call, mret, ex_ret.
  destruct (h_microseconds (lw_host w)) as [us h1]. cbn [lw_host upd].
  destruct (h_calloc INIT_MESSAGE_BUFFER h1) as [ok h2] eqn:Ec.
  destruct (Hm INIT_MESSAGE_BUFFER h1) as [Hc _]. rewrite Ec in Hc. simpl in Hc. subst ok. cbn [negb].
  rewrite Ht, Hn. unfold kept_text, INIT_MESSAGE_BUFFER.
  destruct (Z.ltb_spec (Z.of_nat (length text)) 1024) as [Hs|Hs]; simpl.
  - unfold vsnprintf. rewrite take_ge by lia. by eexists _, _.
  - rewrite Z.min_l by lia. destruct (h_realloc (Z.of_nat (length text)) h2) as [ok h3] eqn:Er.
    destruct (Hm (Z.of_nat (length text)) h2) as [_ Hr]. rewrite Er in Hr. simpl in Hr. subst ok.
    destruct (Z.ltb_spec (Z.of_nat (length text)) MAX_BUFFER); [|lia]. simpl. unfold vsnprintf.
    replace (Z.to_nat (Z.of_nat (length text) - 1)) with (length text - 1)%nat by lia. by eexists _, _.
Qed.

(** The calls the constructor of a message can make of the logger. *)
Definition nested (c : log_call) : list log_call :=
  [format_failed (lc_module c); too_long (lc_module c); no_memory (lc_module c)].

Definition same_log (log1 log2 : log_call -> EX (lworld H) unit) (c : log_call) : Prop := forall w, log1 c w = log2 c w.

Definition is_short (c : log_call) : Prop :=
  match lc_text c with inr text => Z.of_nat (length text) < INIT_MESSAGE_BUFFER | inl _ => False end.

Lemma new_LogMessage_same log1 log2 c t w :
  is_short c \/ Forall (same_log log1 log2) (nested c) ->
  new_LogMessage log1 c t w = new_LogMessage log2 c t w.
Proof.
  intros Hc. unfold new_LogMessage, ex_bind.
  destruct (new_Time_T w) as [[e|time] w1]; [done|]. destruct (sys_call (h_calloc INIT_MESSAGE_BUFFER) w1) as [[e|ok] w2]; [done|].
  destruct ok; [|done]. cbn [negb]. unfold is_short in Hc. destruct (lc_text c) as [kept|text].
  - destruct Hc as [[]|Hn]. unfold nested in Hn. rewrite !list.Forall_cons in Hn. destruct Hn as (H1 & _). by rewrite H1.
  - destruct (Z.ltb_spec (Z.of_nat (length text)) INIT_MESSAGE_BUFFER); [done|]. destruct Hc as [|Hn]; [lia|].
    unfold nested in Hn. rewrite !list.Forall_cons in Hn. destruct Hn as (_ & H2 & H3 & _).
    destruct (sys_call _ w2) as [[e|grown] w3]; [done|].
    destruct (Z.of_nat (length text) <? MAX_BUFFER); [|rewrite H2; destruct (log2 _ w3) as [[e|[]] w4]; [done|]];
      destruct grown; try done; simpl; by rewrite H3.
Qed.

Lemma log_with_same log1 log2 c t w :
  is_short c \/ Forall (same_log log1 log2) (nested c) -> log_with log1 c t w = log_with log2 c t w.
Proof.
  intros Hc. unfold log_with, ex_bind, look. destruct (negb _); [done|].
  destruct (get_attr (lc_module c) w) as [[e|a] w1]; [done|]. destruct (andb _ _); [|done].
  by rewrite (new_LogMessage_same log1 log2).
Qed.

Lemma logger_nested_short c : lc_module c = str "logger" -> Forall is_short (nested c).
Proof. intros E. unfold nested. rewrite E. repeat constructor. Qed.

(** The three calls that [_log] allows are enough: no deeper one is made. *)
Lemma log_fuel_enough fuel t c w : log_fuel (3 + fuel) t c w = _log t c w.
Proof.
  unfold _log. cbn [log_fuel Nat.add]. apply log_with_same. right.
  assert (Hn : Forall (fun c' => lc_module c' = str "logger") (nested c)) by (repeat constructor).
  eapply list.Forall_impl; [exact Hn|]. intros c1 Hc1 w1. apply log_with_same. right.
  eapply list.Forall_impl; [apply (logger_nested_short c1 Hc1)|]. intros c2 Hc2 w2. apply log_with_same. by left.
Qed.

(** a log call below the level of its module adds one message to the queue of its
    thread, and prints nothing yet; any other changes nothing.  A text of 1024
    characters or more loses its last one. *)
Theorem log_recorded c text name t a w :
  memory_ok -> map_find (lc_module c) (module_attr w) = Some a -> lc_level c <> EXIT_ERROR ->
  lc_text c = inr text -> Z.of_nat (length text) < MAX_BUFFER ->
  list.last (split_all (lc_file c) [byte_of 47]) = Some name ->
  exists time w', _log t c w = (inr tt, w') /\
    lw_trace w' = lw_trace w /\ module_attr w' = module_attr w /\ log_massage_list w' = log_massage_list w /\
    buffer_map w' =
      if log_enabled (lc_level c) (la_log_level a)
      then alter (fun q => q ++ [mk_LogMessage (kept_text text) (lc_module c) (lc_file c) name (lc_line c)
                                   (lc_func c) (lc_level c) t h_getpid time])
             (Z.to_nat (u32 t mod 10)) (buffer_map w)
      else buffer_map w.
Proof.
  intros Hm Ha Hl Ht Hlen Hn. destruct (new_LogMessage_text (log_fuel 2 t) c text name t w Hm Ht Hlen Hn) as (time & h & Hnew).
  exists time. unfold _log. change (log_fuel 3 t c) with (log_with (log_fuel 2 t) c t). unfold log_with, get_attr.
  unfold ex_bind at 1. unfold look at 1. unfold judge_module_attr_exist. rewrite Ha. cbn [negb].
  unfold ex_bind, look, mret, ex_ret. rewrite Ha.
  rewrite bool_decide_eq_false_2 by done.
  assert (He : (level_num NOLOG <? level_num (lc_level c))%nat && (level_num NOLOG <? level_num (la_log_level a))%nat &&
    (level_num (lc_level c) <=? level_num (la_log_level a))%nat = log_enabled (lc_level c) (la_log_level a)).
  { unfold log_enabled. simpl. destruct (level_num (lc_level c)); [done|]. by destruct (level_num (la_log_level a)). }
  rewrite He. destruct (log_enabled _ _); [rewrite Hnew|]; eexists; repeat split.
Qed.

End Recording.

(** ** Printing *)

Section Printing.
Context {H : Type} `{LogHost H}.
Implicit Types w : lworld H.

(** A state with other queues and another list. *)
Definition with_queues w (ml : list LogMessage) (bm : list (list LogMessage)) : lworld H :=
  w <| log_massage_list := ml |> <| buffer_map := bm |>.

Lemma take_queue_with w ml bm i l :
  each (fun i => change (take_queue i)) (i :: l) (with_queues w ml bm) =
  each (fun i => change (take_queue i)) l (with_queues w (ml ++ default [] (bm !! i)) (<[i := []]> bm)).
Proof. reflexivity. Qed.

(** The ten queues, in their order, behind what is in the list. *)
Lemma take_all_queues w :
  length (buffer_map w) = 10%nat ->
  each (fun i => change (take_queue i)) (seq 0 10) w =
  (inr tt, with_queues w (log_massage_list w ++ concat (buffer_map w)) (replicate 10 [])).
Proof.
  intros Hlen. transitivity (each (fun i => change (take_queue i)) (seq 0 10) (with_queues w (log_massage_list w) (buffer_map w))).
  { by destruct w. }
  revert Hlen. generalize (log_massage_list w) (buffer_map w). intros ml bm.
  do 10 (destruct bm as [|? bm]; [done|]). destruct bm; [|done]. intros _. cbn [seq].
  rewrite !take_queue_with. cbn. by rewrite <- !app_assoc, ?app_nil_r.
Qed.

(** [std::sort] by the time of recording. *)
Definition sort_ok : Prop :=
  forall ms : list LogMessage, h_sort ms ≡ₚ ms /\
    StronglySorted (fun x y => time_lt (record_time y) (record_time x) = false) (h_sort ms).


End Printing.

(** ** What printing leaves alone *)

Section Frame.
Context {H : Type} `{LogHost H}.

(** The operation changes neither the queues nor the list, whether or not it throws. *)
Definition keeps {A} (m : EX (lworld H) A) : Prop :=
  forall w, buffer_map (m w).2 = buffer_map w /\ log_massage_list (m w).2 = log_massage_list w.

Lemma keeps_bind {A B} (m : EX (lworld H) A) (k : A -> EX (lworld H) B) :
  keeps m -> (forall a, keeps (k a)) -> keeps (ex_bind m k).
Proof.
  intros Hm Hk w. specialize (Hm w). unfold ex_bind. destruct (m w) as [[e|a] w1]; [done|]. simpl in Hm.
  destruct (Hk a w1) as [-> ->]. done.
Qed.

Lemma keeps_each {A} (f : A -> EX (lworld H) unit) l : (forall a, keeps (f a)) -> keeps (each f l).
Proof. intros Hf. induction l as [|a l IH]; [done|]. by apply keeps_bind. Qed.

Lemma keeps_sys_call {A} (f : H -> A * H) : keeps (sys_call f).
Proof. intros w. unfold sys_call. by destruct (f (lw_host w)). Qed.

Ltac keeps :=
  repeat lazymatch goal with
  | |- keeps (ex_bind _ _) => apply keeps_bind; [|intros ?]
  | |- keeps (each _ _) => apply keeps_each; intros ?
  | |- keeps (sys_call _) => apply keeps_sys_call
  | |- keeps (if ?b then _ else _) => destruct b
  | |- keeps (match ?x with _ => _ end) => destruct x
  | |- keeps _ => done
  end.

Lemma file_out_message_frame this msg : keeps (file_out_message this msg).
Proof.
  unfold file_out_message, not_rotate, rotate_by_time, rotate_by_size, rotate_log_file, judge_and_create_log_file,
    get_file_number, get_dir_file. cbv zeta. keeps.
Qed.

Lemma replace_fields_frame m select i keys text : keeps (replace_fields m select i keys text).
Proof.
  revert i keys text. induction select as [|b select IH]; intros i [|key keys] text; try done.
  simpl. destruct b; [|apply IH]. apply keeps_bind; [|intros; apply IH]. unfold field_value, get_attr. keeps.
Qed.

Lemma out_one_frame m : keeps (out_one m).
Proof.
  unfold out_one, ganerate_log_message, judge_traceback, message_out, get_attr, attr_out_message, output_out_message.
  cbv zeta. keeps; first [apply replace_fields_frame|apply file_out_message_frame].
Qed.

End Frame.

(** ** Threads *)

(** Where the thread that empties the buffer is: at queue [i], or in the list, with the
    messages of this emptying that are printed and those that are not. *)
Inductive out_pc := Idle | AtQueue (i : nat) | AtMessage (done rest : list LogMessage).

(** Threads add messages while another empties the buffer.  [br_added] are all messages so
    far, [br_before] those that were there when the last emptying started, [br_printed] all
    that were printed, and [br_again] those that were printed before a throw, which are
    in the list as if they had not been; [br_throws] counts the throws. *)
Record buffer_run {H : Type} := mk_run {
  br_world : lworld H;
  br_pc : out_pc;
  br_before : list LogMessage;
  br_added : list LogMessage;
  br_printed : list LogMessage;
  br_again : list LogMessage;
  br_throws : nat }.
Arguments buffer_run : clear implicits.

#[global] Instance eta_buffer_run H : RecEta (buffer_run H) := fun r =>
  mk_run _ (br_world r) (br_pc r) (br_before r) (br_added r) (br_printed r) (br_again r) (br_throws r).

Section Threads.
Context {H : Type} `{LogHost H}.
Implicit Types w : lworld H.
Implicit Types s : buffer_run H.

(** The lock of a queue makes adding to it and taking it atomic, and [flush_mtx] lets one
    thread at a time empty the buffer.  Printing a message reads nothing that adding
    one changes, so it is one step.  A printing that throws ends the emptying where it is.
    Other threads may change what is not in the buffer at any time. *)
Inductive buffer_step : buffer_run H -> buffer_run H -> Prop :=
  | step_add s t m w' :
      add_log_buffer (u32 t) m (br_world s) = (inr tt, w') ->
      buffer_step s (s <| br_world := w' |> <| br_added := br_added s ++ [m] |>)
  | step_other s w' :
      buffer_map w' = buffer_map (br_world s) -> log_massage_list w' = log_massage_list (br_world s) ->
      buffer_step s (s <| br_world := w' |>)
  | step_start s :
      br_pc s = Idle ->
      buffer_step s (s <| br_world := out_reset (br_world s) |> <| br_pc := AtQueue 0 |> <| br_before := br_added s |>)
  | step_take s i :
      br_pc s = AtQueue i -> (i < 10)%nat ->
      buffer_step s (s <| br_world := take_queue i (br_world s) |> <| br_pc := AtQueue (S i) |>)
  | step_sort s :
      br_pc s = AtQueue 10 ->
      buffer_step s (s <| br_world := out_sort (br_world s) |>
                       <| br_pc := AtMessage [] (log_massage_list (out_sort (br_world s))) |>)
  | step_print s done m rest w' :
      br_pc s = AtMessage done (m :: rest) -> out_one m (br_world s) = (inr tt, w') ->
      buffer_step s (s <| br_world := w' |> <| br_pc := AtMessage (done ++ [m]) rest |> <| br_printed := br_printed s ++ [m] |>)
  | step_throw s done m rest e w' :
      br_pc s = AtMessage done (m :: rest) -> out_one m (br_world s) = (inl e, w') ->
      buffer_step s (s <| br_world := w' |> <| br_pc := Idle |> <| br_again := br_again s ++ done |>
                       <| br_throws := S (br_throws s) |>)
  | step_finish s done :
      br_pc s = AtMessage done [] ->
      buffer_step s (s <| br_world := out_clear (br_world s) |> <| br_pc := Idle |>).

(** The logger, with what is in its buffer, before anybody empties it. *)
Definition at_rest w : buffer_run H := mk_run _ w Idle [] (log_massage_list w ++ concat (buffer_map w)) [] [] 0.

(** What is in the list and still to be printed. *)
Definition listed s : list LogMessage :=
  match br_pc s with AtMessage _ rest => rest | _ => log_massage_list (br_world s) end.

(** Queues that the emptying has still to take. *)
Definition still s : list LogMessage :=
  match br_pc s with AtQueue i => concat (drop i (buffer_map (br_world s))) | _ => [] end.

Definition run_ok s : Prop :=
  let w := br_world s in
  length (buffer_map w) = 10%nat /\
  br_added s ++ br_again s ≡ₚ br_printed s ++ listed s ++ concat (buffer_map w) /\
  br_before s ⊆+ br_printed s ++ listed s ++ still s /\
  (forall done rest, br_pc s = AtMessage done rest -> log_massage_list w = done ++ rest) /\
  (br_throws s = 0%nat -> br_again s = []).

Lemma concat_snoc (bm : list (list LogMessage)) j m :
  (j < length bm)%nat -> concat (alter (fun q => q ++ [m]) j bm) ≡ₚ concat bm ++ [m].
Proof.
  revert j. induction bm as [|q bm IH]; intros [|j] Hj; simpl in *; [lia|lia| |].
  - rewrite <- !app_assoc. apply Permutation_app_head, Permutation_app_comm.
  - rewrite (IH j) by lia. by rewrite app_assoc.
Qed.

Lemma concat_grow (bm : list (list LogMessage)) i j m :
  (j < length bm)%nat -> concat (drop i bm) ⊆+ concat (drop i (alter (fun q => q ++ [m]) j bm)).
Proof.
  intros Hj. destruct (decide (i <= j)%nat) as [Hi|Hi].
  - rewrite drop_alter_ge by done. rewrite concat_snoc by (rewrite length_drop; lia). by apply submseteq_inserts_r.
  - by rewrite drop_alter_lt by lia.
Qed.

Lemma concat_take (bm : list (list LogMessage)) i :
  (i < length bm)%nat -> concat bm ≡ₚ default [] (bm !! i) ++ concat (<[i := []]> bm).
Proof.
  revert i. induction bm as [|q bm IH]; intros [|i] Hi; simpl in *; [lia|lia|done|].
  rewrite (IH i) by lia. rewrite !app_assoc. apply Permutation_app_tail, Permutation_app_comm.
Qed.

Lemma drop_take_queue (bm : list (list LogMessage)) i :
  (i < length bm)%nat -> concat (drop i bm) = default [] (bm !! i) ++ concat (drop (S i) (<[i := []]> bm)).
Proof.
  intros [q Hq]%lookup_lt_is_Some_2. rewrite (drop_S bm q i Hq), Hq. simpl. by rewrite drop_insert_lt by lia.
Qed.

Lemma step_add_ok s t m w' :
  add_log_buffer (u32 t) m (br_world s) = (inr tt, w') -> run_ok s ->
  run_ok (s <| br_world := w' |> <| br_added := br_added s ++ [m] |>).
Proof.
  intros Ha (Hlen & Had & Hbe & Hpc & Hth). unfold run_ok, listed, still in *. injection Ha as <-. simpl in *.
  assert (Hj : (Z.to_nat (u32 t mod 10) < length (buffer_map (br_world s)))%nat)
    by (rewrite Hlen; pose proof (Z.mod_pos_bound (u32 t) 10); lia).
  rewrite length_alter. split; [done|split; [|split; [|by split]]].
  - rewrite concat_snoc, <- app_assoc, (Permutation_app_comm [m]), app_assoc, Had by done. by rewrite !app_assoc.
  - rewrite Hbe. destruct (br_pc s); simpl; [done| |done]. by do 2 (apply submseteq_app; [done|]); apply concat_grow.
Qed.

Lemma buffer_step_ok s s' : sort_ok -> buffer_step s s' -> run_ok s -> run_ok s'.
Proof.
  intros Hsort Hstep Hok. destruct Hstep as [s t m w' Ha|s w' E1 E2|s Ep|s i Ep Hi|s Ep|s done m rest w' Ep Ho|s done m rest e w' Ep Ho|s done Ep];
    [by eapply step_add_ok|..]; destruct Hok as (Hlen & Had & Hbe & Hpc & Hth); unfold run_ok, listed, still in *; simpl in *; rewrite ?Ep in *.
  - rewrite E1, E2. by split; [|split; [|split]].
  - split; [done|split; [done|split; [|done]]]. rewrite <- Had. by apply submseteq_inserts_r.
  - rewrite length_insert. split; [done|split; [|split; [|done]]].
    + rewrite Had, (concat_take _ i) by lia. by rewrite <- !app_assoc.
    + rewrite Hbe, (drop_take_queue _ i) by lia. by rewrite <- !app_assoc.
  - destruct (Hsort (log_massage_list (br_world s))) as [Hp _]. split; [done|split; [by rewrite Hp|split; [|split; [by intros ?? [= <- <-]|done]]]].
    rewrite Hbe, Hp, drop_ge by lia. done.
  - destruct (out_one_frame m (br_world s)) as [E1 E2]. rewrite Ho in E1, E2. simpl in *. rewrite E1, E2.
    split; [done|split; [by rewrite <- app_assoc|split; [by rewrite <- app_assoc|split; [|done]]]].
    intros ?? [= <- <-]. rewrite (Hpc _ _ eq_refl). by rewrite <- app_assoc.
  - destruct (out_one_frame m (br_world s)) as [E1 E2]. rewrite Ho in E1, E2. simpl in *. rewrite E1, E2, (Hpc _ _ eq_refl).
    split; [done|split; [|split; [|done]]].
    + rewrite app_assoc, Had, <- !app_assoc. apply Permutation_app_head.
      etrans; [|apply Permutation_app_comm]. reflexivity.
    + rewrite Hbe. apply submseteq_app; [done|]. rewrite !app_nil_r. by apply submseteq_inserts_l.
  - split; [done|split; [done|split; [done|done]]].
Qed.

(** ** A call of [out] is such a run *)

Lemma take_queues_run s i n :
  br_pc s = AtQueue i -> (i + n = 10)%nat ->
  rtc buffer_step s (s <| br_world := (each (fun i => change (take_queue i)) (seq i n) (br_world s)).2 |> <| br_pc := AtQueue 10 |>).
Proof.
  revert s i. induction n as [|n IH]; intros s i Ep Hn.
  - replace 10%nat with i by lia. simpl. rewrite <- Ep. destruct s. apply rtc_refl.
  - eapply rtc_l; [apply (step_take s i Ep); lia|].
    exact (IH (s <| br_world := take_queue i (br_world s) |> <| br_pc := AtQueue (S i) |>) (S i) eq_refl ltac:(lia)).
Qed.

Lemma take_queues_return l w :
  each (fun i => change (take_queue i)) l w = (inr tt, (each (fun i => change (take_queue i)) l w).2).
Proof. revert w. induction l as [|i l IH]; intros w; [done|]. simpl. unfold ex_bind, change. apply IH. Qed.

Lemma bind_inr {S A B} (m : EX S A) (k : A -> EX S B) x a y : m x = (inr a, y) -> ex_bind m k x = k a y.
Proof. unfold ex_bind. by intros ->. Qed.

Lemma out_after_queues w :
  exists w2, (each (fun i => change (take_queue i)) (seq 0 10) (out_reset w)).2 = w2 /\
    out w = ex_bind (each out_one (log_massage_list (out_sort w2))) (fun _ => change out_clear) (out_sort w2).
Proof.
  eexists. split; [reflexivity|]. unfold out. rewrite (bind_inr (change out_reset) _ w tt (out_reset w)) by reflexivity.
  rewrite (bind_inr _ _ _ _ _ (take_queues_return _ _)). by rewrite (bind_inr (change out_sort) _ _ tt _ eq_refl).
Qed.

(** The loop that prints, up to its end or a throw. *)
Lemma print_run s ms done :
  br_pc s = AtMessage done ms ->
  let r := each out_one ms (br_world s) in
  exists s', rtc buffer_step s s' /\ br_world s' = r.2 /\ br_before s' = br_before s /\ br_added s' = br_added s /\
    match r.1 with
    | inr _ => br_pc s' = AtMessage (done ++ ms) [] /\ br_throws s' = br_throws s
    | inl _ => br_pc s' = Idle /\ br_throws s' = S (br_throws s)
    end.
Proof.
  revert s done. induction ms as [|m ms IH]; intros s done Ep; simpl.
  - exists s. rewrite app_nil_r. split; [apply rtc_refl|done].
  - unfold ex_bind. destruct (out_one m (br_world s)) as [[e|[]] w1] eqn:Eo.
    + eexists. split; [apply rtc_once; by eapply step_throw|done].
    + set (s1 := s <| br_world := w1 |> <| br_pc := AtMessage (done ++ [m]) ms |> <| br_printed := br_printed s ++ [m] |>).
      destruct (IH s1 (done ++ [m]) eq_refl) as (s' & Hrun & Hw & Hb & Ha & Hr). simpl in *. rewrite <- app_assoc in Hr.
      exists s'. split; [eapply rtc_l; [by eapply step_print|exact Hrun]|done].
Qed.

Lemma out_run s :
  br_pc s = Idle ->
  let r := out (br_world s) in
  exists s', rtc buffer_step s s' /\ br_pc s' = Idle /\ br_world s' = r.2 /\ br_before s' = br_added s /\ br_added s' = br_added s /\
    match r.1 with
    | inr _ => log_massage_list (br_world s') = [] /\ br_throws s' = br_throws s
    | inl _ => br_throws s' = S (br_throws s)
    end.
Proof.
  intros Ep r.
  set (s1 := s <| br_world := out_reset (br_world s) |> <| br_pc := AtQueue 0 |> <| br_before := br_added s |>).
  pose proof (take_queues_run s1 0 10 eq_refl eq_refl) as H2.
  change (br_world s1) with (out_reset (br_world s)) in H2.
  pose proof (out_after_queues (br_world s)) as Er.
  destruct Er as (w2 & E2 & Er). fold r in Er. rewrite E2 in H2. set (s2 := s1 <| br_world := w2 |> <| br_pc := AtQueue 10 |>) in H2.
  set (s3 := s2 <| br_world := out_sort w2 |> <| br_pc := AtMessage [] (log_massage_list (out_sort w2)) |>).
  destruct (print_run s3 _ [] eq_refl) as (s4 & H4 & Hw & Hb & Ha & Hr).
  assert (Hrun : rtc buffer_step s s4).
  { eapply rtc_l; [by apply step_start|]. etrans; [exact H2|]. eapply rtc_l; [by apply (step_sort s2)|exact H4]. }
  unfold ex_bind in Er. change (br_world s3) with (out_sort w2) in *.
  destruct (each out_one _ (out_sort w2)) as [[e|[]] w4]; rewrite Er; simpl in Hw, Hr |- *; destruct Hr as [Hp Ht].
  - exists s4. done.
  - eexists. split; [eapply rtc_r; [exact Hrun|by eapply step_finish]|]. simpl. by rewrite Hw.
Qed.

(** C26: threads add messages while others, one at a time, empty the buffer, and printing a
    message may throw.  As long as nothing is thrown, every message that was added is
    printed, in the list or in a queue, exactly once.  A throw leaves the whole list as it
    is, so that those of its messages that were printed before the throw will be printed
    once more: counting them ([br_again]) twice, the account is exact, and no message
    is lost.  When an emptying is over and has left no list behind, all messages that
    were there when it started have been printed.  A call of [out] alone is such an
    emptying: one that returns leaves no list behind, and one that throws counts. *)
Theorem no_message_lost w s :
  sort_ok -> length (buffer_map w) = 10%nat -> rtc buffer_step (at_rest w) s ->
  br_added s ++ br_again s ≡ₚ br_printed s ++ listed s ++ concat (buffer_map (br_world s)) /\
  (br_throws s = 0%nat -> br_again s = []) /\
  (br_pc s = Idle -> log_massage_list (br_world s) = [] -> br_before s ⊆+ br_printed s) /\
  (br_pc s = Idle ->
   let r := out (br_world s) in
   exists s', rtc buffer_step s s' /\ br_pc s' = Idle /\ br_world s' = r.2 /\ br_before s' = br_added s /\ br_added s' = br_added s /\
     match r.1 with
     | inr _ => log_massage_list (br_world s') = [] /\ br_throws s' = br_throws s
     | inl _ => br_throws s' = S (br_throws s)
     end).
Proof.
  intros Hsort Hlen Hrun.
  assert (Hok : run_ok s).
  { eapply (rtc_ind_r run_ok); [|intros; by eapply buffer_step_ok|exact Hrun].
    unfold run_ok. simpl. split; [done|split; [by rewrite app_nil_r|split; [apply submseteq_nil_l|done]]]. }
  destruct Hok as (_ & Had & Hbe & _ & Hth). split; [done|split; [done|split; [|apply out_run]]].
  intros Ep El. unfold listed, still in Hbe. rewrite Ep, El in Hbe. by rewrite !app_nil_r in Hbe.
Qed.

End Threads.

(** ** On the small system *)

#[global] Instance earlier_trans : Transitive earlier.
Proof. intros x y z. unfold earlier, time_lt. rewrite !Z.ltb_ge. lia. Qed.

#[global] Instance earlier_total : Total earlier.
Proof. intros x y. unfold earlier, time_lt. rewrite !Z.ltb_ge. lia. Qed.

Lemma demo_memory limit : memory_ok (H := demo_host limit).
Proof. done. Qed.

Lemma demo_sort limit : sort_ok (H := demo_host limit).
Proof.
  intros ms. split; [apply merge_sort_Permutation|]. apply (StronglySorted_merge_sort earlier).
Qed.

(** A run of the logger from its start. *)
Definition run {A} (m : EX (lworld (demo_host 1000)) A) : (log_exn + A) * lworld (demo_host 1000) :=
  m (new_logger (demo_system 1000) 0).

(** A log call of a module on thread [t]. *)
Definition say (t : Z) (module_name : list byte) (level : log_level_t) (text : list byte) : EX (lworld (demo_host 1000)) unit :=
  _log t (mk_log_call module_name level (str "/src/main.cpp") 10 (str "main") (inr text)).

(** A module that logs to the standard output. *)
Definition demo_module : EX (lworld (demo_host 1000)) unit :=
  init (str "dnfsd") (str "host");; init_module (str "main");;
  set_module_log_output (str "main") [L_INFO] (str "stdout").

Definition two_waiting : lworld (demo_host 1000) :=
  (run (demo_module;; say 8 (str "main") L_INFO (str "one");; say 7 (str "main") L_INFO (str "two"))).2.

Lemma size_config_read_witness :
  parse_config (str "/log@(size,10MB,30)") new_LogFile =
  inr (str "/log", new_LogFile <| backup_count := 30 |> <| rotate_type := SIZE |> <| log_limit := 10485760 |>).
Proof.
  apply (size_config_read (str "/log") 10 (str "MB") 20 30 new_LogFile);
    first [vm_compute; reflexivity | apply (bool_decide_unpack _); vm_compute; exact I | lia].
Defined.

Lemma log_recorded_witness :
  exists time w', say 7 (str "main") L_INFO hello (run demo_module).2 = (inr tt, w') /\
    concat (buffer_map w') =
    [mk_LogMessage hello (str "main") (str "/src/main.cpp") (str "main.cpp") 10 (str "main") L_INFO 7 42 time].
Proof.
  destruct (log_recorded (mk_log_call (str "main") L_INFO (str "/src/main.cpp") 10 (str "main") (inr hello)) hello
    (str "main.cpp") 7 (default new_LoggerAttr (map_find (str "main") (module_attr (run demo_module).2))) (run demo_module).2)
    as (time & w' & Hlog & _ & _ & _ & Hb);
    [apply demo_memory | vm_compute; reflexivity | discriminate | reflexivity | vm_compute; reflexivity | vm_compute; reflexivity | ].
  exists time, w'. split; [exact Hlog|]. rewrite Hb. vm_compute. reflexivity.
Defined.

(** A module with a format of several keys, in debug mode. *)
Definition formatted_waiting : lworld (demo_host 1000) := Eval vm_compute in
  (run (demo_module;; set_module_log_output (str "main") [L_ERROR] (str "stderr:syslog");;
        set_module_log_level (str "main") D_INFO;;
        set_module_formatter (str "main") (str "[%(levelname)] %(filename):%(lineno) %(message)");;
        say 8 (str "main") L_INFO (str "100%");; say 7 (str "main") L_ERROR (str "two"))).2.


(** One more message comes, and [out] prints all three. *)
Lemma no_message_lost_witness :
  exists s, rtc buffer_step (at_rest two_waiting) s /\ length (br_added s) = 3%nat /\ br_added s ≡ₚ br_printed s.
Proof.
  set (m := hd (mk_LogMessage [] [] [] [] 0 [] L_INFO 0 0 (mk_Time_T 0 0 0)) (concat (buffer_map two_waiting))).
  set (w1 := (add_log_buffer (u32 10) m two_waiting).2).
  set (s1 := (at_rest two_waiting) <| br_world := w1 |> <| br_added := br_added (at_rest two_waiting) ++ [m] |>).
  assert (H1 : rtc buffer_step (at_rest two_waiting) s1) by (apply rtc_once, (step_add (at_rest two_waiting) 10 m w1); reflexivity).
  assert (Hlen : length (buffer_map two_waiting) = 10%nat) by (vm_compute; reflexivity).
  destruct (no_message_lost two_waiting s1 (demo_sort 1000) Hlen H1) as (_ & _ & _ & Hout).
  destruct (Hout eq_refl) as (s2 & H2 & Ep & Ew & _ & Ea & Hr).
  assert (H12 : rtc buffer_step (at_rest two_waiting) s2) by (etrans; [exact H1|exact H2]).
  destruct (no_message_lost two_waiting s2 (demo_sort 1000) Hlen H12) as (Had & Hth & _ & _).
  assert (Er : (out (br_world s1)).1 = inr tt) by (vm_compute; reflexivity). rewrite Er in Hr. destruct Hr as [El Et].
  assert (Eb : concat (buffer_map (br_world s2)) = []) by (rewrite Ew; vm_compute; reflexivity).
  exists s2. split; [exact H12|]. split; [rewrite Ea; vm_compute; reflexivity|].
  rewrite Hth in Had by (rewrite Et; reflexivity). unfold listed in Had. rewrite Ep, El, Eb in Had. by rewrite !app_nil_r in Had.
Defined.

(** ** At the edges *)

(** A size of 4 GB wraps to zero, and the file is rotated before every message. *)
Lemma size_limit_wraps :
  (snd <$> (match parse_config (str "/log@(size,4096MB,30)") new_LogFile with inr r => Some r | _ => None end)) =
  Some (new_LogFile <| backup_count := 30 |> <| rotate_type := SIZE |> <| log_limit := 0 |>).
Proof. vm_compute. reflexivity. Qed.

(** A rotation that is set to never happen happens. *)
Lemma never_is_rotated :
  ev_count is_rename (lw_trace (each (file_out_message 0) (replicate 5 hello) (demo_file 1000 (str "/log@(time,never,2)"))).2) = 4.
Proof. vm_compute. reflexivity. Qed.

(** An hourly rotation of a file that is written every ten seconds does not happen: the
    time since the last write is compared with the hour. *)
Lemma hourly_not_rotated :
  let w := (each (file_out_message 0) (replicate 400 hello) (demo_file 1000 (str "/log@(time,hour,2)"))).2 in
  3600 < dh_clock (lw_host w) - 1000 /\ ev_count is_rename (lw_trace w) = 0.
Proof. vm_compute. split; reflexivity. Qed.

(** A dollar sign of a message is read as a reference to the match. *)
Lemma dollar_lost :
  lw_trace (run (demo_module;; say 7 (str "main") L_INFO (str "costs $$5 and $1");; out)).2 =
  [EvStdout (str "costs $5 and " ++ [newline])].
Proof. vm_compute. reflexivity. Qed.

(** A per cent sign of a message makes [vsyslog] read an argument that is not there. *)
Lemma percent_undefined :
  (run (demo_module;; set_module_log_output (str "main") [L_INFO] (str "syslog");;
        say 7 (str "main") L_INFO (str "100%s");; out)).1 = inl Undefined.
Proof. vm_compute. reflexivity. Qed.

(** A message of 1024 characters loses its last one. *)
Lemma last_character_lost :
  concat ((fun e => match e with EvStdout d => [length d] | _ => [] end) <$>
    lw_trace (run (demo_module;; say 7 (str "main") L_INFO (replicate 1024 (byte_of 97));; out)).2) = [1024%nat].
Proof. vm_compute. reflexivity. Qed.

(** A copied module takes the log file of its source with it. *)
Lemma copy_renames_source :
  let w := (run (demo_module;; init_module (str "other");; set_log_generate L_MODULE;;
                 set_module_log_output (str "main") [L_INFO] (str "/log");;
                 copy_module_attr_from (str "other") (str "main"))).2 in
  (oa_log_files <$> (log_level_output (default new_LoggerAttr (map_find (str "main") (module_attr w))) !! level_num L_INFO)) = Some [0%nat] /\
  log_file_path (file_at w 0) = str "/log/dnfsd_other.log".
Proof. vm_compute. split; reflexivity. Qed.

(** A thread keeps its first name. *)
Lemma thread_name_kept :
  get_target_thread_name 7 (run (init_module (str "thread_pool");; set_thread_name 7 (str "a");; set_thread_name 7 (str "b"))).2 = str "a".
Proof. vm_compute. reflexivity. Qed.

(** A throw while messages are printed leaves all of them in the list: the next
    emptying prints those before it again. *)
Lemma throw_repeats :
  let w := (run (demo_module;; set_module_log_output (str "main") [L_WARN] (str "/log");;
                 say 7 (str "main") L_INFO hello;; say 7 (str "main") L_WARN hello)).2 in
  let full := w <| lw_host := (lw_host w) <| dh_open := 1000 |> |> in
  let w1 := (out full).2 in
  (out full).1 = inl (LogException 343) /\
  ev_count (fun e => match e with EvStdout _ => true | _ => false end) (lw_trace (out w1).2) = 2.
Proof. vm_compute. split; reflexivity. Qed.

(** The start of the daemon: the configuration, then a message on the standard output,
    in the system log and in the file. *)
Lemma logging_starts :
  let cfg := mk_dnfs_logging_config (str "/var/log/dnfs") (str "size") (str "100MB") 30
    (str "%(levelname) <PID-%(process)>: %(message)") in
  let line := str "LOG_INFO <PID-42>: ready" ++ [newline] in
  lw_trace (run (init_logging (str "dnfsd") (str "host") L_INFO false [] cfg;; say 7 (str "main") L_INFO (str "ready");; out)).2 =
  [EvStdout (str "Start init logging setup" ++ [newline]); EvStdout line; EvSyslog 6 line;
   EvOpen (str "/var/log/dnfs/dnfsd_size.log") 65 3; EvWrite 3 line 25].
Proof. vm_compute. reflexivity. Qed.
