(* ===== verification/SvcReg.v ===== *)
(** * The registry of programs

    The callout list of [src/libntirpc/src/svc.c]: [svc_reg], [svc_unreg], [svc_find] and
    [svc_lookup].  The list is [svc_head], the latest registration first; a dispatch
    routine is its address.  What the port mapper answers is a parameter. *)
From S2P Require Import Prelude.

Open Scope Z_scope.
Open Scope dnfs_scope.

Record svc_rec := mk_svc_rec {
  sc_prog : Z;
  sc_vers : Z;
  sc_netid : option (list byte);
  sc_dispatch : Z }.

#[global] Instance svc_rec_eq : EqDecision svc_rec.
Proof. solve_decision. Defined.

Record svc_vers_range := mk_vers_range { lowvers : Z; highvers : Z }.

Inductive svc_lookup_result :=
  SVC_LKP_SUCCESS | SVC_LKP_PROG_NOTFOUND | SVC_LKP_VERS_NOTFOUND | SVC_LKP_NETID_NOTFOUND | SVC_LKP_ERR.

(** ** Operations *)

(** Network ids agree when one is missing or they are equal. *)
Definition netid_match (n m : option (list byte)) : bool :=
  match n, m with
  | Some a, Some b => bool_decide (a = b)
  | _, _ => true
  end.

Definition callout_match (prog vers : Z) (netid : option (list byte)) (s : svc_rec) : bool :=
  (sc_prog s =? prog) && (sc_vers s =? vers) && netid_match netid (sc_netid s).

(** [svc_find]: the first match, and how many callouts are before it. *)
Fixpoint svc_find (prog vers : Z) (netid : option (list byte)) (l : list svc_rec) : option (nat * svc_rec) :=
  match l with
  | [] => None
  | s :: l' =>
      if callout_match prog vers netid s then Some (0%nat, s)
      else match svc_find prog vers netid l' with Some (i, r) => Some (S i, r) | None => None end
  end.

(** The network id that a registration uses: that of the transport, of the
    configuration, or of the socket. *)
Definition reg_netid (xp_netid nconf tnconf : option (list byte)) : option (list byte) :=
  match xp_netid with
  | Some n => Some n
  | None => match nconf with Some n => Some n | None => tnconf end
  end.

(** [svc_reg]: the result, the list and the network id of the transport; [rpcb_set] is
    the answer of the port mapper. *)
Definition svc_reg (xp_netid nconf tnconf : option (list byte)) (prog vers dispatch : Z) (rpcb_set : bool)
    (svc_head : list svc_rec) : bool * list svc_rec * option (list byte) :=
  let netid := reg_netid xp_netid nconf tnconf in
  let rpcb_it := match nconf with Some _ => rpcb_set | None => true end in
  match svc_find prog vers netid svc_head with
  | Some (_, s) =>
      if sc_dispatch s =? dispatch then (rpcb_it, svc_head, xp_netid) else (false, svc_head, xp_netid)
  | None =>
      (rpcb_it, mk_svc_rec prog vers netid dispatch :: svc_head, match xp_netid with None => netid | Some _ => xp_netid end)
  end.

(** The loop of [svc_unreg]. *)
Fixpoint unreg_loop (fuel : nat) (prog vers : Z) (l : list svc_rec) : option (list svc_rec) :=
  match fuel with
  | O => None
  | S fuel =>
      match svc_find prog vers None l with
      | None => Some l
      | Some (i, _) => unreg_loop fuel prog vers (take i l ++ drop (S i) l)
      end
  end.

Definition svc_unreg (prog vers : Z) (svc_head : list svc_rec) : option (list svc_rec) :=
  unreg_loop (S (length svc_head)) prog vers svc_head.

(** What the loop of [svc_lookup] has seen. *)
Record lookup_state := mk_lookup_state {
  prog_found : bool;
  vers_found : bool;
  vrange : svc_vers_range;
  found : option svc_rec }.

Definition lookup_step (prog vers : Z) (netid : option (list byte)) (st : lookup_state) (s : svc_rec) : lookup_state :=
  if sc_prog s =? prog then
    let r := vrange st in
    let r := if highvers r <? sc_vers s then mk_vers_range (lowvers r) (sc_vers s) else r in
    let r := if lowvers r <? sc_vers s then mk_vers_range (sc_vers s) (highvers r) else r in
    mk_lookup_state true (vers_found st || (sc_vers s =? vers)) r
      (if (sc_vers s =? vers) && netid_match netid (sc_netid s) then Some s else found st)
  else st.

Definition search_loop (prog vers : Z) (netid : option (list byte)) (l : list svc_rec) : lookup_state :=
  fold_left (lookup_step prog vers netid) l (mk_lookup_state false false (mk_vers_range 0 0) None).

(** [svc_lookup]: the code, the record and the range of versions. *)
Definition svc_lookup (prog vers : Z) (netid : option (list byte)) (svc_head : list svc_rec)
    : svc_lookup_result * option svc_rec * svc_vers_range :=
  let st := search_loop prog vers netid svc_head in
  (match found st with
   | Some _ => SVC_LKP_SUCCESS
   | None =>
       if negb (prog_found st) then SVC_LKP_PROG_NOTFOUND
       else if negb (vers_found st) then SVC_LKP_VERS_NOTFOUND
       else match netid with Some _ => SVC_LKP_NETID_NOTFOUND | None => SVC_LKP_ERR end
   end, found st, vrange st).

(** ** Finding *)

Lemma svc_find_none prog vers netid l :
  svc_find prog vers netid l = None <-> Forall (fun s => callout_match prog vers netid s = false) l.
Proof.
  induction l as [|s l IH]; simpl; [by split; [constructor|]|]. rewrite list.Forall_cons, <- IH.
  destruct (callout_match prog vers netid s); [by split; [|intros []]|].
  destruct (svc_find prog vers netid l) as [[]|]; by split; [|intros []].
Qed.

Lemma svc_find_some prog vers netid l i s :
  svc_find prog vers netid l = Some (i, s) -> l !! i = Some s /\ callout_match prog vers netid s = true.
Proof.
  revert i. induction l as [|r l IH]; intros i; simpl; [done|]. destruct (callout_match prog vers netid r) eqn:E.
  - intros [= <- <-]. done.
  - destruct (svc_find prog vers netid l) as [[j r']|]; [|done]. intros [= <- <-]. by apply IH.
Qed.

(** ** Registrations do not overlap *)

(** Two callouts that some call would match both. *)
Definition overlap (s r : svc_rec) : Prop :=
  sc_prog s = sc_prog r /\ sc_vers s = sc_vers r /\ netid_match (sc_netid s) (sc_netid r) = true.

Inductive registry : list svc_rec -> Prop :=
  | registry_nil : registry []
  | registry_reg xp nconf tnconf prog vers dispatch rpcb l ok l' xp' :
      registry l -> svc_reg xp nconf tnconf prog vers dispatch rpcb l = (ok, l', xp') -> registry l'
  | registry_unreg prog vers l l' : registry l -> svc_unreg prog vers l = Some l' -> registry l'.

Lemma callout_overlap prog vers netid s d :
  callout_match prog vers netid s = true <-> overlap (mk_svc_rec prog vers netid d) s.
Proof.
  unfold callout_match, overlap. simpl. rewrite !andb_true_iff, !Z.eqb_eq. split; [intros [[-> ->] ->]|intros (-> & -> & ->)]; auto.
Qed.

(** [svc_unreg] ends and removes all callouts of the version, and no other. *)
Lemma unreg_loop_filter fuel prog vers l :
  (length l < fuel)%nat ->
  unreg_loop fuel prog vers l = Some (filter (fun s => ~ (sc_prog s = prog /\ sc_vers s = vers)) l).
Proof.
  revert l. induction fuel as [|fuel IH]; intros l Hf; [lia|]. cbn [unreg_loop].
  assert (Hm : forall s, callout_match prog vers None s = true <-> sc_prog s = prog /\ sc_vers s = vers).
  { intros s. unfold callout_match. simpl. rewrite !andb_true_iff, !Z.eqb_eq. tauto. }
  destruct (svc_find prog vers None l) as [[i s]|] eqn:E.
  - apply svc_find_some in E as [Hi Hs]. rewrite IH.
    + f_equal. rewrite <- (take_drop_middle l i s Hi) at 3. rewrite !list.filter_app. f_equal.
      rewrite filter_cons_False; [done|]. intros Hn. by apply Hn, Hm.
    + rewrite length_app, length_take, length_drop. apply lookup_lt_Some in Hi. lia.
  - apply svc_find_none in E. f_equal. clear IH Hf. induction E as [|s l Hs _ IH]; [done|].
    rewrite filter_cons_True; [by f_equal|]. rewrite <- Hm. congruence.
Qed.

Lemma svc_unreg_exact prog vers l :
  svc_unreg prog vers l = Some (filter (fun s => ~ (sc_prog s = prog /\ sc_vers s = vers)) l).
Proof. apply unreg_loop_filter. lia. Qed.

Lemma registry_no_overlap l : registry l -> ForallOrdPairs (fun s r => ~ overlap s r) l.
Proof.
  induction 1 as [|xp nconf tnconf prog vers d rpcb l ok l' xp' _ IH Hr|prog vers l l' _ IH Hu]; [constructor|..].
  - unfold svc_reg in Hr. destruct (svc_find _ _ _ l) as [[i s]|] eqn:E; [by case_match; simplify_eq|]. simplify_eq.
    constructor; [|done]. apply svc_find_none in E. eapply list.Forall_impl; [exact E|]. intros s Hs Ho.
    apply callout_overlap in Ho. congruence.
  - rewrite svc_unreg_exact in Hu. simplify_eq. induction IH as [|s l Hs Hl IHl]; [constructor|].
    rewrite filter_cons. case_decide; [|done]. constructor; [|done].
    rewrite list.Forall_forall in *. intros r [_ Hr]%list_elem_of_filter. by apply Hs.
Qed.

(** ** Looking up *)

(** The callouts of a program and of a version of it, and the highest version. *)
Definition has_prog (prog : Z) (l : list svc_rec) : bool := existsb (fun s => sc_prog s =? prog) l.
Definition has_vers (prog vers : Z) (l : list svc_rec) : bool :=
  existsb (fun s => (sc_prog s =? prog) && (sc_vers s =? vers)) l.
Definition top_vers (prog : Z) (l : list svc_rec) : Z :=
  fold_left (fun v s => if sc_prog s =? prog then Z.max v (sc_vers s) else v) l 0.

Lemma lookup_fold prog vers netid l st v r :
  vrange st = mk_vers_range v v -> found st = r ->
  fold_left (lookup_step prog vers netid) l st =
  mk_lookup_state (prog_found st || has_prog prog l) (vers_found st || has_vers prog vers l)
    (let m := fold_left (fun v s => if sc_prog s =? prog then Z.max v (sc_vers s) else v) l v in mk_vers_range m m)
    (fold_left (fun r s => if callout_match prog vers netid s then Some s else r) l r).
Proof.
  revert st v r. induction l as [|s l IH]; intros st v r Hv Hr.
  - destruct st. simpl in *. subst. by rewrite !orb_false_r.
  - cbn [fold_left]. unfold lookup_step at 2. unfold has_prog, has_vers, callout_match. cbn [existsb].
    destruct (sc_prog s =? prog); cbn [andb].
    + rewrite Hv. cbn [lowvers highvers].
      rewrite (IH _ (Z.max v (sc_vers s)) (if (sc_vers s =? vers) && netid_match netid (sc_netid s) then Some s else r)).
      * simpl. by rewrite orb_true_r, orb_assoc.
      * simpl. destruct (Z.ltb_spec v (sc_vers s)); simpl; [destruct (Z.ltb_spec v (sc_vers s)); [|lia]|].
        -- by rewrite Z.max_r by lia.
        -- destruct (Z.ltb_spec v (sc_vers s)); [lia|]. by rewrite Z.max_l by lia.
      * simpl. by rewrite Hr.
    + apply IH; done.
Qed.

(** Two callouts that match a call with a network id overlap. *)
Lemma match_overlap prog vers n s r :
  callout_match prog vers (Some n) s = true -> callout_match prog vers (Some n) r = true -> overlap s r.
Proof.
  unfold callout_match, overlap. rewrite !andb_true_iff, !Z.eqb_eq. intros [[-> ->] Hs] [[-> ->] Hr].
  split; [done|split; [done|]]. unfold netid_match in *. destruct (sc_netid s), (sc_netid r); try done.
  apply bool_decide_eq_true in Hs, Hr. subst. by apply bool_decide_eq_true_2.
Qed.

(** Where registrations do not overlap, the last match is the first. *)
Lemma last_match_find prog vers n l r0 :
  ForallOrdPairs (fun s r => ~ overlap s r) l ->
  fold_left (fun r s => if callout_match prog vers (Some n) s then Some s else r) l r0 =
  match svc_find prog vers (Some n) l with Some (_, s) => Some s | None => r0 end.
Proof.
  intros Hl. revert r0. induction Hl as [|s l Hs Hl IH]; intros r0; [done|]. cbn [fold_left svc_find].
  destruct (callout_match prog vers (Some n) s) eqn:E; [|rewrite IH; by destruct (svc_find _ _ _ l) as [[]|]].
  rewrite IH. assert (Hn : svc_find prog vers (Some n) l = None).
  { apply svc_find_none. eapply list.Forall_impl; [exact Hs|]. intros r Hr. destruct (callout_match _ _ _ r) eqn:Er; [|done].
    destruct Hr. by eapply match_overlap. }
  by rewrite Hn.
Qed.

(** on a registry that registrations and removals have built, [svc_lookup] for a
    network id returns the callout that [svc_find] returns, or a code that says whether the
    program, its version or the network id is missing; both ends of the range of versions
    are the highest version. *)
Theorem svc_lookup_exact prog vers n l :
  registry l ->
  svc_lookup prog vers (Some n) l =
  (match svc_find prog vers (Some n) l with
   | Some _ => SVC_LKP_SUCCESS
   | None =>
       if negb (has_prog prog l) then SVC_LKP_PROG_NOTFOUND
       else if negb (has_vers prog vers l) then SVC_LKP_VERS_NOTFOUND
       else SVC_LKP_NETID_NOTFOUND
   end, snd <$> svc_find prog vers (Some n) l, mk_vers_range (top_vers prog l) (top_vers prog l)).
Proof.
  intros Hl%registry_no_overlap. unfold svc_lookup, search_loop.
  rewrite (lookup_fold prog vers (Some n) l _ 0 None) by done. cbn [found prog_found vers_found vrange orb].
  rewrite last_match_find by done. by destruct (svc_find prog vers (Some n) l) as [[]|].
Qed.

(** The registrations of the daemon: both transports of NFS and of MOUNT. *)
Definition daemon_registry : list svc_rec :=
  let reg netid prog vers l := (svc_reg (Some netid) (Some netid) None prog vers 1 true l).1.2 in
  reg [x74] 100005 3 (reg [x75] 100005 3 (reg [x74] 100003 3 (reg [x75] 100003 3 []))).

Lemma registry_svc_reg xp nconf tnconf prog vers d rpcb l :
  registry l -> registry (svc_reg xp nconf tnconf prog vers d rpcb l).1.2.
Proof. intros Hl. destruct (svc_reg xp nconf tnconf prog vers d rpcb l) as [[ok l'] xp'] eqn:E. by eapply registry_reg. Qed.

Lemma svc_lookup_exact_witness :
  svc_lookup 100003 3 (Some [x74]) daemon_registry =
    (SVC_LKP_SUCCESS, Some (mk_svc_rec 100003 3 (Some [x74]) 1), mk_vers_range 3 3) /\
  svc_lookup 100003 4 (Some [x74]) daemon_registry = (SVC_LKP_VERS_NOTFOUND, None, mk_vers_range 3 3).
Proof.
  assert (Hr : registry daemon_registry) by (do 4 apply registry_svc_reg; apply registry_nil).
  split.
  - rewrite (svc_lookup_exact 100003 3 [x74] daemon_registry Hr). vm_compute. reflexivity.
  - rewrite (svc_lookup_exact 100003 4 [x74] daemon_registry Hr). vm_compute. reflexivity.
Defined.

(** A registration that succeeds is found. *)
Lemma svc_reg_found xp nconf tnconf prog vers d l l' xp' :
  svc_reg xp nconf tnconf prog vers d true l = (true, l', xp') ->
  exists i s, svc_find prog vers (reg_netid xp nconf tnconf) l' = Some (i, s) /\ sc_dispatch s = d.
Proof.
  unfold svc_reg. destruct (svc_find prog vers (reg_netid xp nconf tnconf) l) as [[i s]|] eqn:E.
  - destruct (Z.eqb_spec (sc_dispatch s) d); [|intros [=]]. intros [= _ <- _]. eauto.
  - intros [= _ <- _]. exists 0%nat, (mk_svc_rec prog vers (reg_netid xp nconf tnconf) d). simpl. split; [|done].
    rewrite (proj2 (callout_overlap _ _ _ _ d)); [done|]. repeat split. simpl.
    destruct (reg_netid xp nconf tnconf); [by apply bool_decide_eq_true_2|done].
Qed.
