(* ===== verification/EvState.v ===== *)
(** * State of the event loop

    The transports ([struct rpc_dplx_rec] with its [SVCXPRT]), the table of
    [svc_xprt.c], the event channels of [svc_rqst.c], the entries submitted to the pool
    of workers, and the calls of the system.  A transport is a name; its record stays in
    the store after it was freed, marked as such, and every access to a freed record is
    [None], as is a lock that is never given back.  A work pool entry is what its function and
    its structure say. *)
From S2P Require Import Prelude SvcDg.

Open Scope Z_scope.
Open Scope dnfs_scope.

(** ** Transports *)

(** [struct epoll_event], whose data is a descriptor. *)
Record epoll_event := mk_event { ev_events : Z; ev_fd : Z }.

Definition SVC_XPRT_FLAG_ADDED_RECV : Z := 1.
Definition SVC_XPRT_FLAG_ADDED_SEND : Z := 2.
Definition SVC_XPRT_FLAG_UREG : Z := 128.

(** [fd_node] says that the node of the table is valid, [recv_locked] that the mutex
    [recv.lock] is held, and [ioq_working] is [IOQ_FLAG_WORKING] of the embedded [ioq]. *)
Record dplx_rec := mk_dplx {
  xp_fd : Z;
  xp_fd_send : Z;
  xp_refs : xprt_refs;
  xp_parent : option positive;
  has_ops : bool;
  fd_node : bool;
  recv_locked : bool;
  recv_sec : Z;
  ev_p : option nat;
  event_recv : epoll_event;
  event_send : epoll_event;
  xioq_send : option positive;
  ioq_working : bool;
  freed : bool }.

#[global] Instance eta_dplx : RecEta dplx_rec := fun r =>
  mk_dplx (xp_fd r) (xp_fd_send r) (xp_refs r) (xp_parent r) (has_ops r) (fd_node r) (recv_locked r) (recv_sec r)
    (ev_p r) (event_recv r) (event_send r) (xioq_send r) (ioq_working r) (freed r).

(** ** The table of transports *)

(** One red-black tree of the table: its nodes in their order, and its generation. *)
Record xprt_part := mk_part { part_nodes : list positive; part_gen : Z }.

(** [svc_xprt_fd]; the array of trees is [None] when it is not allocated. *)
Record xprt_table := mk_table {
  initialized : bool;
  connections : Z;
  trees : option (list xprt_part);
  xprts : gmap positive dplx_rec;
  next_xprt : positive }.

#[global] Instance eta_table : RecEta xprt_table := fun t =>
  mk_table (initialized t) (connections t) (trees t) (xprts t) (next_xprt t).

(** ** Event channels *)

Inductive svc_event_type := SVC_EVENT_FDSET | SVC_EVENT_EPOLL.

(** [events_held] says that the array for the events is allocated. *)
Record svc_rqst_rec := mk_rqst {
  call_expires : list positive;
  sv0 : Z;
  sv1 : Z;
  id_k : Z;
  ev_type : svc_event_type;
  epoll_fd : Z;
  ctrl_ev : Z * Z;
  events_held : bool;
  chan_max_events : Z;
  sv1_added : bool;
  ev_refcnt : Z;
  ev_flags : Z }.

#[global] Instance eta_rqst : RecEta svc_rqst_rec := fun r =>
  mk_rqst (call_expires r) (sv0 r) (sv1 r) (id_k r) (ev_type r) (epoll_fd r) (ctrl_ev r) (events_held r)
    (chan_max_events r) (sv1_added r) (ev_refcnt r) (ev_flags r).

(** A call of the client library that waits for its reply. *)
Record clnt_req := mk_clnt_req {
  cc_expire_ms : Z;
  cc_flags : Z;
  cc_refcnt : Z;
  cc_chan : nat }.

#[global] Instance eta_clnt_req : RecEta clnt_req := fun r =>
  mk_clnt_req (cc_expire_ms r) (cc_flags r) (cc_refcnt r) (cc_chan r).

(** [svc_rqst_set] with the globals beside it, and the queues that replies are sent from:
    whether [IOQ_FLAG_WORKING] is set, and the transport. *)
Record chan_set := mk_chans {
  srr : list svc_rqst_rec;
  max_id : Z;
  next_id : Z;
  evchan_id : Z;
  round_robin : Z;
  wakeups : Z;
  clean_active : Z;
  send_ioqs : gmap positive (bool * option positive);
  clnt_reqs : gmap positive clnt_req }.

#[global] Instance eta_chans : RecEta chan_set := fun c =>
  mk_chans (srr c) (max_id c) (next_id c) (evchan_id c) (round_robin c) (wakeups c) (clean_active c) (send_ioqs c) (clnt_reqs c).

(** ** The system *)

(** What was submitted to the pool of workers. *)
Inductive work :=
  | WLoop (chan : nat)
  | WRecv (x : positive)
  | WSend (x ioq : positive)
  | WDestroy (x : positive)
  | WExpire (cc : positive).

#[global] Instance work_eq_dec : EqDecision work.
Proof. solve_decision. Defined.

Inductive epoll_op := EPOLL_CTL_ADD | EPOLL_CTL_MOD | EPOLL_CTL_DEL.

(** The calls made, in order. *)
Inductive syscall :=
  | SysSocketpair (sv0 sv1 : Z)
  | SysEpollCreate (fd : Z)
  | SysEpollCtl (epfd : Z) (op : epoll_op) (fd events data code : Z)
  | SysEpollWait (epfd timeout : Z)
  | SysDup (fd new : Z)
  | SysClose (fd : Z)
  | SysSignal (fd sig : Z).

(** Their answers, over a state [E]: [inl] is an [errno], and the answer of [epoll_ctl] is
    an [errno] or 0.  The clock counts seconds and nanoseconds. *)
Class EvHost (E : Type) := {
  e_clock : E -> (Z * Z) * E;
  e_socketpair : E -> (Z + Z * Z) * E;
  e_epoll_create : Z -> E -> (Z + Z) * E;
  e_epoll_ctl : Z -> epoll_op -> Z -> epoll_event -> E -> Z * E;
  e_epoll_wait : Z -> Z -> Z -> E -> (Z + list epoll_event) * E;
  e_dup : Z -> E -> (Z + Z) * E;
  e_close : Z -> E -> E;
  e_signal : Z -> Z -> E -> E;
  e_consume : Z -> E -> E }.

(** The part of [__svc_params] that does not change. *)
Record svc_params := mk_params { max_connections : Z; idle_timeout : Z; max_events : Z }.

Record evworld (E : Type) := mk_ev {
  tab : xprt_table;
  chs : chan_set;
  queue : list work;
  sys : list syscall;
  host : E }.
Arguments mk_ev {E}.
Arguments tab {E}.
Arguments chs {E}.
Arguments queue {E}.
Arguments sys {E}.
Arguments host {E}.

(** The rest of a sequence whose first part is known. *)
Lemma bind_run {S A B} (m : ST S A) (k : A -> ST S B) s a s' : m s = Some (a, s') -> bind m k s = k a s'.
Proof. unfold bind. by intros ->. Qed.

Section State.
  Context {E : Type}.
  Abbreviation EV := (ST (evworld E)).

(** The parts of the world. *)
Definition on_tab (f : xprt_table -> xprt_table) (w : evworld E) : evworld E := mk_ev (f (tab w)) (chs w) (queue w) (sys w) (host w).
Definition on_chs (f : chan_set -> chan_set) (w : evworld E) : evworld E := mk_ev (tab w) (f (chs w)) (queue w) (sys w) (host w).
Definition on_xprts (f : gmap positive dplx_rec -> gmap positive dplx_rec) (t : xprt_table) : xprt_table :=
  mk_table (initialized t) (connections t) (trees t) (f (xprts t)) (next_xprt t).

(** An entry that a worker takes out of the queue. *)
Fixpoint take_once (k : work) (l : list work) : option (list work) :=
  match l with
  | [] => None
  | y :: l => if decide (y = k) then Some l else (y ::.) <$> take_once k l
  end.

Definition dequeue (k : work) : EV unit := fun w =>
  match take_once k (queue w) with
  | Some q => Some (tt, mk_ev (tab w) (chs w) q (sys w) (host w))
  | None => None
  end.

(** [work_pool_submit]. *)
Definition work_pool_submit (k : work) : EV unit := modify (fun w => mk_ev (tab w) (chs w) (queue w ++ [k]) (sys w) (host w)).

Definition note_call (c : syscall) : EV unit := modify (fun w => mk_ev (tab w) (chs w) (queue w) (sys w ++ [c]) (host w)).

Definition ask {A} (f : E -> A * E) : EV A := fun w =>
  let '(a, h) := f (host w) in Some (a, mk_ev (tab w) (chs w) (queue w) (sys w) h).

(** ** Access to a transport *)

Definition get_xprt (x : positive) : EV dplx_rec := fun w =>
  match xprts (tab w) !! x with
  | Some r => if freed r then None else Some (r, w)
  | None => None
  end.

Definition set_xprt (x : positive) (r : dplx_rec) : EV unit := modify (on_tab (on_xprts (<[x := r]>))).

Definition mod_xprt (x : positive) (f : dplx_rec -> dplx_rec) : EV unit := r <- get_xprt x ;; set_xprt x (f r).

(** [atomic_postset_uint16_t_bits] and [atomic_postclear_uint16_t_bits] on [xp_flags]. *)
Definition postset_flags (x : positive) (bits : Z) : EV Z :=
  r <- get_xprt x ;;
  let flags := xp_flags (xp_refs r) in
  set_xprt x (r <| xp_refs := (xp_refs r) <| xp_flags := Z.lor flags bits |> |>) ;;
  ret flags.

Definition postclear_flags (x : positive) (bits : Z) : EV Z :=
  r <- get_xprt x ;;
  let flags := xp_flags (xp_refs r) in
  set_xprt x (r <| xp_refs := (xp_refs r) <| xp_flags := Z.ldiff flags bits |> |>) ;;
  ret flags.

(** [rpc_dplx_rli] and [rpc_dplx_rui]. *)
Definition rpc_dplx_rli (x : positive) : EV unit :=
  r <- get_xprt x ;;
  if recv_locked r then abort else set_xprt x (r <| recv_locked := true |>).

Definition rpc_dplx_rui (x : positive) : EV unit := mod_xprt x (fun r => r <| recv_locked := false |>).

(** [IOQ_FLAG_WORKING] of the embedded queue: set, with its value before, and cleared. *)
Definition postset_working (x : positive) : EV bool :=
  r <- get_xprt x ;;
  set_xprt x (r <| ioq_working := true |>) ;;
  ret (ioq_working r).

Definition clear_working (x : positive) : EV unit := mod_xprt x (fun r => r <| ioq_working := false |>).

(** ** References *)

Definition svc_ref (x : positive) : EV unit := mod_xprt x (fun r => r <| xp_refs := svc_ref_it (xp_refs r) |>).

(** [svc_vc_destroy_it] and [svc_dg_destroy_it], behind [xp_destroy]: they wait until no
    task uses the entry of the transport. *)
Definition xp_destroy (x : positive) : EV unit :=
  r <- get_xprt x ;;
  if negb (has_ops r) || ioq_working r then abort
  else
    set_xprt x (r <| ioq_working := true |>) ;;
    work_pool_submit (WDestroy x).

(** [SVC_RELEASE]: the counting of [svc_release_it], and [xp_destroy] if it says so. *)
Definition svc_release (x : positive) : EV unit :=
  r <- get_xprt x ;;
  let refs := svc_release_it (xp_refs r) in
  set_xprt x (r <| xp_refs := refs |>) ;;
  if decide (xp_destroyed (xp_refs r) < xp_destroyed refs)%nat then xp_destroy x else ret tt.

(** [SVC_DESTROY] up to the call of [xp_unlink]: whether that is called. *)
Definition destroy_mark (x : positive) : EV bool :=
  r <- get_xprt x ;;
  let flags := xp_flags (xp_refs r) in
  let refs := (xp_refs r) <| xp_flags := Z.lor flags SVC_XPRT_FLAG_DESTROYING |> in
  if decide (Z.land flags SVC_XPRT_FLAG_DESTROYING <> 0) then set_xprt x (r <| xp_refs := refs |>) ;; ret false
  else
    set_xprt x (r <| xp_refs := refs <| xp_unlinked := S (xp_unlinked refs) |> |>) ;;
    if has_ops r then ret true else abort.

(** The rest, with [xp_unlink]. *)
Definition svc_destroy_with (xp_unlink : positive -> EV unit) (x : positive) : EV unit :=
  first <- destroy_mark x ;;
  if (first : bool) then xp_unlink x ;; svc_release x else ret tt.

(** [close]. *)
Definition close_fd `{EvHost E} (fd : Z) : EV unit := ask (fun h => (tt, e_close fd h)) ;; note_call (SysClose fd).

(** [svc_vc_destroy_task] and [svc_dg_destroy_task]. *)
Definition destroy_task `{EvHost E} (x : positive) : EV unit :=
  r <- get_xprt x ;;
  if decide (xp_refcnt (xp_refs r) <> 0) then work_pool_submit (WDestroy x)
  else
    flags <- postclear_flags x SVC_XPRT_FLAG_CLOSE ;;
    (if decide (Z.land flags SVC_XPRT_FLAG_CLOSE <> 0 /\ xp_fd r <> RPC_ANYFD) then
       close_fd (xp_fd r) ;; mod_xprt x (fun r => r <| xp_fd := RPC_ANYFD |>)
     else ret tt) ;;
    match xp_parent r with Some p => svc_release p | None => ret tt end ;;
    mod_xprt x (fun r => r <| freed := true |>).

End State.
