(* ===== verification/SvcXprt.v ===== *)
(** * The table of transports ([src/svc_xprt.c] of [libntirpc])

    Transports are found by their descriptor in one of 193 red-black trees.  A tree is
    the sorted list of its nodes that [RbtreeProps.rbtree_refines_list] shows it to be.
    The critical sections of [svc_xprt_lookup] are definitions of their own, since other
    threads run between them. *)
From S2P Require Import Prelude RbtreeProps SvcDg EvState.

Open Scope Z_scope.
Open Scope dnfs_scope.

Definition SVC_XPRT_PARTITIONS : Z := 193.

(** ** Trees *)

(** The key on the stack of a lookup is a node of its own. *)
Definition sk : positive := 1.

Definition node_fd (m : gmap positive dplx_rec) (key : Z) (p : positive) : Z :=
  if decide (p = sk) then key else match m !! p with Some r => xp_fd r | None => 0 end.

Definition svc_xprt_fd_cmpf (m : gmap positive dplx_rec) (key : Z) (lhs rhs : positive) : Z :=
  if decide (node_fd m key lhs < node_fd m key rhs) then -1
  else if decide (node_fd m key lhs = node_fd m key rhs) then 0
  else 1.

(** [rbtx_partition_of_scalar]; the number of partitions is unsigned. *)
Definition rbtx_idx_of_scalar (fd : Z) : nat := Z.to_nat (u32 fd mod SVC_XPRT_PARTITIONS).

(** The generation after an insertion ([opr_rbtree_insert] skips those whose lower half
    is zero) and after a removal. *)
Definition insert_gen (gen : Z) : Z := let g := u64 (gen + 1) in if decide (u32 g = 0) then u64 (g + 1) else g.
Definition remove_gen (gen : Z) : Z := u64 (gen + 1).

Definition set_part (ix : nat) (p : xprt_part) (t : xprt_table) : xprt_table :=
  t <| trees := (fun l => <[ix := p]> l) <$> trees t |>.

Section Table.
  Context {E : Type} `{EvHost E} (params : svc_params).
  Abbreviation EV := (ST (evworld E)).

Definition get_part (ix : nat) : EV xprt_part := fun w =>
  match trees (tab w) ≫= (fun l => l !! ix) with Some p => Some (p, w) | None => None end.

Definition tree_lookup (fd : Z) : EV (option positive) :=
  p <- get_part (rbtx_idx_of_scalar fd) ;;
  m <- gets (fun w => xprts (tab w)) ;;
  ret (find_same (svc_xprt_fd_cmpf m fd) sk (part_nodes p)).

Definition tree_insert (x : positive) : EV (option positive) :=
  r <- get_xprt x ;;
  p <- get_part (rbtx_idx_of_scalar (xp_fd r)) ;;
  m <- gets (fun w => xprts (tab w)) ;;
  match find_same (svc_xprt_fd_cmpf m 0) x (part_nodes p) with
  | Some y => ret (Some y)
  | None =>
      modify (on_tab (set_part (rbtx_idx_of_scalar (xp_fd r))
                (mk_part (place (svc_xprt_fd_cmpf m 0) x (part_nodes p)) (insert_gen (part_gen p))))) ;;
      set_xprt x (r <| fd_node := true |>) ;;
      ret None
  end.

Definition tree_remove (x : positive) : EV unit :=
  r <- get_xprt x ;;
  if fd_node r then
    p <- get_part (rbtx_idx_of_scalar (xp_fd r)) ;;
    modify (on_tab (set_part (rbtx_idx_of_scalar (xp_fd r))
              (mk_part (base.filter (fun y => y <> x) (part_nodes p)) (remove_gen (part_gen p))))) ;;
    set_xprt x (r <| fd_node := false |>)
  else ret tt.

Definition set_connections (f : Z -> Z) : EV unit :=
  modify (on_tab (fun t => t <| connections := u32 (f (connections t)) |>)).

(** ** Start *)

Definition svc_xprt_init : EV Z :=
  b <- gets (fun w => initialized (tab w)) ;;
  if (b : bool) then ret 0
  else
    modify (on_tab (fun t => t <| trees := Some (replicate (Z.to_nat SVC_XPRT_PARTITIONS) (mk_part [] 0)) |>
                               <| initialized := true |>)) ;;
    ret 0.

Definition svc_xprt_init_failure : EV bool :=
  b <- gets (fun w => initialized (tab w)) ;;
  if (b : bool) then ret false else c <- svc_xprt_init ;; ret (bool_decide (c <> 0)).

(** ** Lookup *)

Inductive svc_xprt_setup_t := svc_vc_xprt_setup | svc_dg_xprt_setup.

(** [svc_vc_xprt_zalloc] and [svc_dg_xprt_zalloc], with [rpc_dplx_rec_init]; a datagram
    transport has one more reference. *)
Definition setup_alloc (setup : svc_xprt_setup_t) : EV positive :=
  now <- ask e_clock ;;
  x <- gets (fun w => next_xprt (tab w)) ;;
  let refs := mk_refs 1 0 0 0 in
  let refs := match setup with svc_vc_xprt_setup => refs | svc_dg_xprt_setup => svc_ref_it refs end in
  modify (on_tab (fun t => t <| next_xprt := Pos.succ x |>)) ;;
  set_xprt x (mk_dplx 0 0 refs None false false false (fst now) None (mk_event 0 0) (mk_event 0 0) None false false) ;;
  ret x.

Definition setup_free (x : positive) : EV unit := mod_xprt x (fun r => r <| freed := true |>).

(** The section under the read lock: a transport that is found is referenced. *)
Definition lookup_read (fd : Z) : EV (option positive) :=
  nv <- tree_lookup fd ;;
  match nv with
  | Some x => svc_ref x ;; ret (Some x)
  | None => ret None
  end.

Inductive lookup_write_t := Refused | Created (x : positive) | Raced (x : positive).

(** A new transport for [fd], with a reference for the caller, and locked. *)
Definition lookup_alloc (fd : Z) (setup : svc_xprt_setup_t) : EV positive :=
  x <- setup_alloc setup ;;
  mod_xprt x (fun r => r <| xp_fd := fd |> <| xp_fd_send := -1 |>
                         <| xp_refs := (xp_refs r) <| xp_flags := SVC_XPRT_FLAG_INITIAL |> |>) ;;
  svc_ref x ;;
  rpc_dplx_rli x ;;
  ret x.

Definition lookup_create (fd : Z) (setup : svc_xprt_setup_t) : EV lookup_write_t :=
  set_connections (fun n => n + 1) ;;
  n <- gets (fun w => connections (tab w)) ;;
  if decide (max_connections params < n) then
    set_connections (fun n => n - 1) ;; ret Refused
  else
    x <- lookup_alloc fd setup ;;
    nv <- tree_insert x ;;
    match nv with
    | Some _ =>
        rpc_dplx_rui x ;;
        setup_free x ;;
        set_connections (fun n => n - 1) ;;
        ret Refused
    | None => ret (Created x)
    end.

(** The section under the write lock. *)
Definition lookup_write (fd : Z) (setup : svc_xprt_setup_t) : EV lookup_write_t :=
  nv <- tree_lookup fd ;;
  match nv with
  | Some x => svc_ref x ;; ret (Raced x)
  | None => lookup_create fd setup
  end.

(** The end for a transport that was found, outside of the lock of the tree. *)
Definition lookup_check (x : positive) : EV (option positive) :=
  rpc_dplx_rli x ;;
  flags <- postclear_flags x SVC_XPRT_FLAG_INITIAL ;;
  rpc_dplx_rui x ;;
  if decide (Z.land flags SVC_XPRT_FLAG_DESTROYED = 0) then ret (Some x)
  else svc_release x ;; ret None.

Definition svc_xprt_lookup (fd : Z) (setup : option svc_xprt_setup_t) : EV (option positive) :=
  failed <- svc_xprt_init_failure ;;
  if (failed : bool) then ret None
  else
    nv <- lookup_read fd ;;
    match nv with
    | Some x => lookup_check x
    | None =>
        match setup with
        | None => ret None
        | Some setup =>
            r <- lookup_write fd setup ;;
            match r with
            | Refused => ret None
            | Created x => ret (Some x)
            | Raced x => lookup_check x
            end
        end
    end.

(** [svc_validate_xprt_list] of [svc.c]. *)
Definition svc_validate_xprt_list (x : positive) : EV bool :=
  r <- get_xprt x ;;
  y <- svc_xprt_lookup (xp_fd r) None ;;
  if decide (y = Some x) then rpc_dplx_rui x ;; ret true else ret false.

(** ** Removal and walks *)

Definition svc_xprt_clear (x : positive) : EV unit :=
  failed <- svc_xprt_init_failure ;;
  if (failed : bool) then ret tt
  else
    r <- get_xprt x ;;
    if fd_node r then set_connections (fun n => n - 1) ;; tree_remove x else ret tt.

(** The walk over one tree from the node [n]: [false] starts the tree again. *)
Fixpoint foreach_walk (fuel : nat) (each_f : positive -> EV bool) (ix : nat) (tgen : Z) (n : option positive) : EV bool :=
  match n with
  | None => ret true
  | Some x =>
      match fuel with
      | O => abort
      | S fuel =>
          r <- get_xprt x ;;
          disposed <- each_f x ;;
          if (disposed : bool) then ret false
          else
            p <- get_part ix ;;
            m <- gets (fun w => xprts (tab w)) ;;
            let n := if decide (tgen <> part_gen p) then find_same (svc_xprt_fd_cmpf m (xp_fd r)) sk (part_nodes p) else Some x in
            match n with
            | None => ret false
            | Some y => foreach_walk fuel each_f ix tgen (next_of y (part_nodes p))
            end
      end
  end.

(** One tree, with the number of starts that are left. *)
Fixpoint foreach_part (starts : nat) (fuel : nat) (each_f : positive -> EV bool) (ix : nat) : EV bool :=
  match starts with
  | O => ret false
  | S starts =>
      p <- get_part ix ;;
      finished <- foreach_walk fuel each_f ix (part_gen p) (head (part_nodes p)) ;;
      if (finished : bool) then ret true else foreach_part starts fuel each_f ix
  end.

Fixpoint foreach_parts (fuel : nat) (each_f : positive -> EV bool) (l : list nat) : EV Z :=
  match l with
  | [] => ret 0
  | ix :: l =>
      b <- foreach_part 5 fuel each_f ix ;;
      if (b : bool) then foreach_parts fuel each_f l else ret 1
  end.

Definition all_parts : list nat := seq 0 (Z.to_nat SVC_XPRT_PARTITIONS).

Definition svc_xprt_foreach (fuel : nat) (each_f : positive -> EV bool) : EV Z :=
  failed <- svc_xprt_init_failure ;;
  if (failed : bool) then ret (-1) else foreach_parts fuel each_f all_parts.

(** ** Shutdown *)

Section Shutdown.
  Context (xp_unlink : positive -> EV unit).

(** One tree: the first node is removed and destroyed until there is none. *)
Fixpoint shutdown_part (fuel : nat) (ix : nat) : EV unit :=
  p <- get_part ix ;;
  match head (part_nodes p) with
  | None => ret tt
  | Some x =>
      match fuel with
      | O => abort
      | S fuel => tree_remove x ;; svc_destroy_with xp_unlink x ;; shutdown_part fuel ix
      end
  end.

Fixpoint shutdown_parts (fuel : nat) (l : list nat) : EV unit :=
  match l with
  | [] => ret tt
  | ix :: l => shutdown_part fuel ix ;; shutdown_parts fuel l
  end.

Definition svc_xprt_shutdown (fuel : nat) : EV unit :=
  b <- gets (fun w => initialized (tab w)) ;;
  if (b : bool) then
    shutdown_parts fuel all_parts ;;
    modify (on_tab (fun t => t <| trees := None |>))
  else ret tt.

End Shutdown.

End Table.
