(* ===== verification/SvcXprtProps.v ===== *)
(** * The table of transports: its properties

    The table as a finite map from descriptors to transports, and the transports under
    all interleavings of the threads that look them up, refer to them, work on them and destroy
    them. *)
From Stdlib Require Import Sorting.Sorted.
From S2P Require Import Prelude Rbtree RbtreeSearch RbtreeProps SvcDg EvState SvcXprt.

Open Scope Z_scope.
Open Scope dnfs_scope.

(** ** The order of the nodes *)

#[global] Instance fd_cmp_order m key : CmpOrder (svc_xprt_fd_cmpf m key).
Proof. split; unfold svc_xprt_fd_cmpf; intros; repeat case_decide; intuition lia. Qed.

Lemma fd_same m key a b : same (svc_xprt_fd_cmpf m key) a b <-> node_fd m key a = node_fd m key b.
Proof. unfold same, svc_xprt_fd_cmpf. repeat case_decide; intuition lia. Qed.

Lemma fd_less m key a b : less (svc_xprt_fd_cmpf m key) a b <-> node_fd m key a < node_fd m key b.
Proof. unfold less, svc_xprt_fd_cmpf. repeat case_decide; intuition lia. Qed.

Lemma place_perm cmpf x L : place cmpf x L ≡ₚ x :: L.
Proof. induction L as [|y L IH]; cbn [place]; [done|]. case_decide; [done|]. rewrite IH. constructor. Qed.

Lemma place_length cmpf x L : length (place cmpf x L) = S (length L).
Proof. by rewrite place_perm. Qed.

Lemma place_elem cmpf x L y : y ∈ place cmpf x L <-> y = x \/ y ∈ L.
Proof. rewrite place_perm. apply elem_of_cons. Qed.

Lemma place_sorted cmpf `{!CmpOrder cmpf} x L :
  StronglySorted (less cmpf) L -> (forall y, y ∈ L -> ~ same cmpf x y) -> StronglySorted (less cmpf) (place cmpf x L).
Proof.
  induction L as [|y L IH]; intros Hs Hn; cbn [place]; [by repeat constructor|]. pose proof Hs as Hs'. apply sorted_cons in Hs' as [HL Hy].
  case_decide as E.
  - apply sorted_cons. split; [done|]. intros b [->|Hb]%elem_of_cons; [done|]. eapply cmp_trans; [exact E|]. by apply Hy.
  - apply sorted_cons. split; [apply IH; [done|]; intros z Hz; apply Hn; by right|]. intros b Hb. apply place_elem in Hb as [->|Hb]; [|by apply Hy]. apply cmp_flip. destruct (decide (cmpf x y = 1)) as [|E']; [done|].
    by destruct (Hn y (list_elem_of_here _ _)).
Qed.

Lemma filter_sorted cmpf `{!CmpOrder cmpf} x L :
  StronglySorted (less cmpf) L -> StronglySorted (less cmpf) (base.filter (fun y => y <> x) L).
Proof.
  induction L as [|y L IH]; intros Hs; [done|]. apply sorted_cons in Hs as [HL Hy]. rewrite filter_cons. case_decide; [|by apply IH].
  apply sorted_cons. split; [by apply IH|]. intros b [_ Hb]%list_elem_of_filter. by apply Hy.
Qed.

Lemma sorted_nodup cmpf `{!CmpOrder cmpf} L : StronglySorted (less cmpf) L -> base.NoDup L.
Proof.
  induction L as [|y L IH]; intros Hs; [constructor|]. apply sorted_cons in Hs as [HL Hy]. constructor; [|by apply IH].
  intros Hin. by apply (cmp_irrefl y (cmpf := cmpf)), Hy.
Qed.

(** Only the descriptors of the nodes matter. *)
Lemma sorted_fds m m' key key' L :
  (forall y, y ∈ L -> node_fd m key y = node_fd m' key' y) ->
  StronglySorted (less (svc_xprt_fd_cmpf m key)) L -> StronglySorted (less (svc_xprt_fd_cmpf m' key')) L.
Proof.
  induction L as [|y L IH]; intros He Hs; [constructor|]. apply sorted_cons in Hs as [HL Hy]. apply sorted_cons.
  split; [apply IH; [|done]; intros z Hz; apply He; by right|]. intros b Hb. specialize (Hy b Hb).
  rewrite fd_less in *. rewrite <- !He by (by left || by right). done.
Qed.

(** ** The table as a map *)

Definition part_sum (l : list xprt_part) : nat := sum_list_with (fun p => length (part_nodes p)) l.

(** The table is well formed; [d] transports are counted and not yet in a tree. *)
Record table_ok (max d : Z) (t : xprt_table) (l : list xprt_part) : Prop := mk_table_ok {
  to_init : initialized t = true;
  to_trees : trees t = Some l;
  to_length : length l = Z.to_nat SVC_XPRT_PARTITIONS;
  to_sorted : forall ix p, l !! ix = Some p -> StronglySorted (less (svc_xprt_fd_cmpf (xprts t) 0)) (part_nodes p);
  to_nodes : forall ix p x, l !! ix = Some p -> x ∈ part_nodes p ->
    exists r, xprts t !! x = Some r /\ fd_node r = true /\ freed r = false /\ rbtx_idx_of_scalar (xp_fd r) = ix;
  to_in : forall x r, xprts t !! x = Some r -> fd_node r = true ->
    exists p, l !! rbtx_idx_of_scalar (xp_fd r) = Some p /\ x ∈ part_nodes p;
  to_names : forall x r, xprts t !! x = Some r -> (sk < x < next_xprt t)%positive;
  to_next : (sk < next_xprt t)%positive;
  to_count : connections t = Z.of_nat (part_sum l) + d;
  to_bound : Z.of_nat (part_sum l) + d <= max }.

(** The transport of a descriptor. *)
Definition registered (t : xprt_table) (fd : Z) (x : positive) : Prop :=
  exists r, xprts t !! x = Some r /\ fd_node r = true /\ xp_fd r = fd.

Lemma part_exists (l : list xprt_part) fd : length l = Z.to_nat SVC_XPRT_PARTITIONS -> exists p, l !! rbtx_idx_of_scalar fd = Some p.
Proof.
  intros Hl. apply lookup_lt_is_Some. rewrite Hl. unfold rbtx_idx_of_scalar, SVC_XPRT_PARTITIONS.
  pose proof (Z.mod_pos_bound (u32 fd) 193). lia.
Qed.

Lemma part_sum_update (l : list xprt_part) ix p p' : l !! ix = Some p ->
  (part_sum (<[ix := p']> l) + length (part_nodes p) = part_sum l + length (part_nodes p'))%nat.
Proof.
  revert ix. induction l as [|q l IH]; intros [|ix] Hp; simplify_eq/=; [lia|]. specialize (IH ix Hp). unfold part_sum in *. simpl. lia.
Qed.

Section TableMap.
  Context {E : Type} `{EvHost E} (params : svc_params).
  Abbreviation ok := (table_ok (max_connections params)).
  Context (Hmax : is_u32 (max_connections params)).

Lemma node_fd_eq d t l x ix p key : ok d t l -> l !! ix = Some p -> x ∈ part_nodes p ->
  exists r, xprts t !! x = Some r /\ fd_node r = true /\ freed r = false /\ node_fd (xprts t) key x = xp_fd r.
Proof.
  intros Ht Hp Hx. destruct (to_nodes _ _ _ _ Ht ix p x Hp Hx) as (r & Hr & Hn & Hf & _). exists r. split_and!; [done..|].
  unfold node_fd. rewrite decide_False; [by rewrite Hr|]. intros ->. apply (to_names _ _ _ _ Ht) in Hr. lia.
Qed.

(** At most one transport is registered for a descriptor. *)
Lemma registered_unique d t l fd x y : ok d t l -> registered t fd x -> registered t fd y -> x = y.
Proof.
  intros Ht (r & Hr & Hn & Hf) (r' & Hr' & Hn' & Hf'). destruct (to_in _ _ _ _ Ht x r Hr Hn) as (p & Hp & Hx).
  destruct (to_in _ _ _ _ Ht y r' Hr' Hn') as (p' & Hp' & Hy). rewrite Hf in Hp. rewrite Hf' in Hp'. rewrite Hp in Hp'. injection Hp' as <-.
  eapply (sorted_same (svc_xprt_fd_cmpf (xprts t) 0) x); [by eapply to_sorted|done..| |].
  all: rewrite fd_same. { done. }
  destruct (node_fd_eq d t l x _ p 0 Ht Hp Hx) as (? & ? & _ & _ & ->).
  destruct (node_fd_eq d t l y _ p 0 Ht Hp Hy) as (? & ? & _ & _ & ->). by simplify_eq.
Qed.

Lemma get_part_run (w : evworld E) l ix p : trees (tab w) = Some l -> l !! ix = Some p -> get_part ix w = Some (p, w).
Proof. intros Ht Hp. unfold get_part. rewrite Ht. simpl. by rewrite Hp. Qed.

(** A lookup finds the transport of its descriptor. *)
Lemma tree_lookup_run d fd (w : evworld E) l : ok d (tab w) l ->
  exists o, tree_lookup fd w = Some (o, w) /\
    match o with Some x => registered (tab w) fd x | None => forall x, ~ registered (tab w) fd x end.
Proof.
  intros Ht. destruct (part_exists l fd (to_length _ _ _ _ Ht)) as [p Hp]. unfold tree_lookup, bind.
  rewrite (get_part_run w l _ p (to_trees _ _ _ _ Ht) Hp). eexists. split; [reflexivity|].
  assert (forall y, y ∈ part_nodes p -> same (svc_xprt_fd_cmpf (xprts (tab w)) fd) sk y <-> registered (tab w) fd y) as Hs.
  { intros y Hy. rewrite fd_same. destruct (node_fd_eq d _ l y _ p fd Ht Hp Hy) as (r & Hr & Hn & _ & ->).
    unfold node_fd. rewrite decide_True by done. split; [intros ->; by exists r|]. intros (r' & Hr' & _ & <-). by simplify_eq. }
  destruct (find_same _ sk (part_nodes p)) as [x|] eqn:Hf.
  - apply find_same_some in Hf as [Hx Hsame]. by apply Hs.
  - intros x Hx. pose proof Hx as (r & Hr & Hn & Hfd). destruct (to_in _ _ _ _ Ht x r Hr Hn) as (p' & Hp' & Hin).
    rewrite Hfd in Hp'. simplify_eq. apply (find_same_none _ _ _ Hf x Hin). by apply Hs.
Qed.

(** A change of a record that does not concern the table. *)
Lemma table_update d t l x r r' :
  ok d t l -> xprts t !! x = Some r -> fd_node r' = fd_node r -> (fd_node r = true -> xp_fd r' = xp_fd r /\ freed r' = false) ->
  ok d (on_xprts (<[x := r']>) t) l.
Proof.
  intros Ht Hr Hn Hf. assert (forall ix p y, l !! ix = Some p -> y ∈ part_nodes p -> node_fd (xprts t) 0 y = node_fd (<[x := r']> (xprts t)) 0 y) as Hnf.
  { intros ix p y Hp Hy. destruct (to_nodes _ _ _ _ Ht ix p y Hp Hy) as (q & Hq & Hqn & _). unfold node_fd. case_decide; [done|].
    destruct (decide (y = x)) as [->|]; [|by rewrite lookup_insert_ne]. rewrite lookup_insert_eq, Hr. symmetry. apply Hf. congruence. }
  destruct Ht. split; cbn [on_xprts xprts trees initialized connections next_xprt]; try done.
  - intros ix p Hp. eapply sorted_fds; [|by eapply to_sorted0]. by eauto.
  - intros ix p y Hp Hy. destruct (to_nodes0 ix p y Hp Hy) as (q & Hq & Hqn & Hqf & Hix).
    destruct (decide (y = x)) as [->|]; simplify_map_eq; [|by exists q]. destruct (Hf Hqn) as [Hfd ?].
    exists r'. split_and!; [done|congruence|auto|congruence].
  - intros y q Hq Hqn. destruct (decide (y = x)) as [->|]; simplify_map_eq; [|by eauto]. rewrite Hn in Hqn. destruct (Hf Hqn) as [-> _]. by apply to_in0.
  - intros y q Hq. destruct (decide (y = x)) as [->|]; simplify_map_eq; eauto.
Qed.

(** A new record. *)
Lemma table_alloc d t l r :
  ok d t l -> fd_node r = false ->
  ok d (on_xprts (<[next_xprt t := r]>) (t <| next_xprt := Pos.succ (next_xprt t) |>)) l.
Proof.
  intros Ht Hn. assert (xprts t !! next_xprt t = None) as Hx.
  { destruct (xprts t !! next_xprt t) eqn:Hx; [|done]. apply (to_names _ _ _ _ Ht) in Hx. lia. }
  assert (forall ix p y, l !! ix = Some p -> y ∈ part_nodes p -> y <> next_xprt t) as Hne.
  { intros ix p y Hp Hy ->. destruct (to_nodes _ _ _ _ Ht ix p _ Hp Hy) as (q & Hq & _). congruence. }
  destruct Ht. split; cbn [on_xprts xprts trees initialized connections next_xprt upd]; try done.
  - intros ix p Hp. eapply sorted_fds; [|by eapply to_sorted0]. intros y Hy. unfold node_fd. case_decide; [done|].
    rewrite lookup_insert_ne; [done|]. intros <-. by eapply Hne.
  - intros ix p y Hp Hy. rewrite lookup_insert_ne; [by eauto|]. intros <-. by eapply Hne.
  - intros y q Hq Hqn. destruct (decide (y = next_xprt t)) as [->|]; simplify_map_eq; [congruence|eauto].
  - intros y q Hq. destruct (decide (y = next_xprt t)) as [->|]; simplify_map_eq; [lia|]. apply to_names0 in Hq. lia.
  - lia.
Qed.

(** Counting. *)
Lemma table_count d e t l :
  ok d t l -> 0 <= Z.of_nat (part_sum l) + d + e <= max_connections params ->
  ok (d + e) (t <| connections := u32 (connections t + e) |>) l.
Proof using Hmax.
  intros Ht Hb. destruct Ht. split; cbn [xprts trees initialized connections next_xprt upd]; try done; [|lia].
  rewrite u32_small; [lia|]. unfold is_u32 in *. lia.
Qed.

(** A tree in which the node of [x] was put or from which it was taken. *)
Lemma table_replace d t l x r p L g b :
  let ix := rbtx_idx_of_scalar (xp_fd r) in
  ok d t l -> xprts t !! x = Some r -> freed r = false -> l !! ix = Some p ->
  StronglySorted (less (svc_xprt_fd_cmpf (xprts t) 0)) L ->
  (forall y, y ∈ L <-> (y = x /\ b = true) \/ (y <> x /\ y ∈ part_nodes p)) ->
  ok (d + Z.of_nat (length (part_nodes p)) - Z.of_nat (length L))
    (on_xprts (<[x := (r <| fd_node := b |>)]>) (set_part ix (mk_part L g) t)) (<[ix := mk_part L g]> l).
Proof.
  intros ix Ht Hr Hf Hp HL Hin. pose proof (part_sum_update l ix p (mk_part L g) Hp) as Hsum. cbn [part_nodes] in Hsum.
  assert (forall y key, node_fd (<[x := (r <| fd_node := b |>)]> (xprts t)) key y = node_fd (xprts t) key y) as Hnf.
  { intros y key. unfold node_fd. case_decide; [done|]. destruct (decide (y = x)) as [->|]; [rewrite lookup_insert_eq, Hr|rewrite lookup_insert_ne]; done. }
  assert (ix < length l)%nat as Hlt by (by eapply lookup_lt_Some).
  destruct Ht. unfold set_part. split; cbn [on_xprts xprts trees initialized connections next_xprt upd]; try done; try lia.
  - by rewrite to_trees0.
  - by rewrite length_insert.
  - intros jx q Hq. apply list_lookup_insert_Some in Hq as [(<- & <- & _)|[_ Hq]]; (eapply sorted_fds; [intros; symmetry; apply Hnf|]);
      [done|by eapply to_sorted0].
  - intros jx q y Hq Hy. destruct (decide (y = x)) as [->|Hyx].
    + exists (r <| fd_node := b |>). rewrite lookup_insert_eq. apply list_lookup_insert_Some in Hq as [(<- & <- & _)|[Hne Hq]].
      * apply Hin in Hy as [[_ ->]|[? _]]; done.
      * destruct (to_nodes0 jx q x Hq Hy) as (r0 & ? & _ & _ & Hix). destruct Hne. unfold ix. congruence.
    + rewrite lookup_insert_ne by done. apply list_lookup_insert_Some in Hq as [(<- & <- & _)|[_ Hq]]; [|by eauto].
      apply Hin in Hy as [[? _]|[_ Hy]]; [done|]. by eauto.
  - intros y q Hq Hqn. destruct (decide (y = x)) as [->|Hyx].
    + rewrite lookup_insert_eq in Hq. injection Hq as <-. change (b = true) in Hqn. change (xp_fd (r <| fd_node := b |>)) with (xp_fd r). fold ix.
      rewrite list_lookup_insert_eq by done. eexists. split; [reflexivity|]. apply Hin. by left.
    + rewrite lookup_insert_ne in Hq by done. destruct (to_in0 y q Hq Hqn) as (p' & Hp' & Hy).
      destruct (decide (rbtx_idx_of_scalar (xp_fd q) = ix)) as [Heq|Hne].
      * rewrite Heq in *. rewrite list_lookup_insert_eq by done. eexists. split; [reflexivity|]. apply Hin. right. split; congruence.
      * rewrite list_lookup_insert_ne by done. by eauto.
  - intros y q Hq. destruct (decide (y = x)) as [->|]; [|rewrite lookup_insert_ne in Hq by done]; eauto.
Qed.

Lemma part_sum_pos d t l x r : ok d t l -> xprts t !! x = Some r -> fd_node r = true -> (0 < part_sum l)%nat.
Proof.
  intros Ht Hr Hn. destruct (to_in _ _ _ _ Ht x r Hr Hn) as (p & Hp & Hx). pose proof (part_sum_update l _ p (mk_part [] 0) Hp) as Hu. simpl in Hu.
  destruct (part_nodes p); [by apply elem_of_nil in Hx|]. simpl in Hu. lia.
Qed.

(** Insertion of a node whose descriptor is not in the table, and removal. *)
Lemma tree_insert_run d (w : evworld E) l x r :
  ok d (tab w) l -> xprts (tab w) !! x = Some r -> freed r = false -> fd_node r = false ->
  (forall y, ~ registered (tab w) (xp_fd r) y) ->
  exists t' l', tree_insert x w = Some (None, on_tab (fun _ => t') w) /\ ok (d - 1) t' l' /\
    xprts t' = <[x := (r <| fd_node := true |>)]> (xprts (tab w)) /\ next_xprt t' = next_xprt (tab w).
Proof.
  intros Ht Hr Hf Hn Hreg. destruct (part_exists l (xp_fd r) (to_length _ _ _ _ Ht)) as [p Hp].
  unfold tree_insert, bind. unfold get_xprt at 1. rewrite Hr, Hf. rewrite (get_part_run w l _ p (to_trees _ _ _ _ Ht) Hp).
  unfold gets. set (cmpf := svc_xprt_fd_cmpf (xprts (tab w)) 0).
  assert (forall y, y ∈ part_nodes p -> ~ same cmpf x y) as Hns.
  { intros y Hy. unfold cmpf. rewrite fd_same. destruct (node_fd_eq d _ l y _ p 0 Ht Hp Hy) as (q & Hq & Hqn & _ & ->).
    unfold node_fd. rewrite decide_False by (intros ->; apply (to_names _ _ _ _ Ht) in Hr; lia). rewrite Hr. intros Heq.
    apply (Hreg y). by exists q. }
  destruct (find_same cmpf x (part_nodes p)) as [y|] eqn:Hfs; [apply find_same_some in Hfs as [Hy Hs]; by destruct (Hns y Hy)|].
  eexists _, _. split; [reflexivity|]. split; [|by split].
  replace (d - 1) with (d + Z.of_nat (length (part_nodes p)) - Z.of_nat (length (place cmpf x (part_nodes p)))) by (rewrite place_length; lia).
  apply table_replace; [done..| |].
  - apply place_sorted; [apply _|by eapply to_sorted|done].
  - intros y. rewrite place_elem. destruct (decide (y = x)) as [->|]; [|tauto]. tauto.
Qed.

Lemma tree_remove_run d (w : evworld E) l x r :
  ok d (tab w) l -> xprts (tab w) !! x = Some r -> freed r = false -> fd_node r = true ->
  exists t' l', tree_remove x w = Some (tt, on_tab (fun _ => t') w) /\ ok (d + 1) t' l' /\
    xprts t' = <[x := (r <| fd_node := false |>)]> (xprts (tab w)) /\ next_xprt t' = next_xprt (tab w).
Proof.
  intros Ht Hr Hf Hn. destruct (to_in _ _ _ _ Ht x r Hr Hn) as (p & Hp & Hx).
  unfold tree_remove, bind. unfold get_xprt at 1. rewrite Hr, Hf, Hn. rewrite (get_part_run w l _ p (to_trees _ _ _ _ Ht) Hp).
  eexists _, _. split; [reflexivity|]. split; [|by split].
  pose proof (to_sorted _ _ _ _ Ht _ p Hp) as Hs. pose proof (sorted_nodup _ _ Hs) as Hnd.
  assert (length (part_nodes p) = S (length (base.filter (fun y => y <> x) (part_nodes p)))) as Hl.
  { apply list_elem_of_split in Hx as (L1 & L2 & HL). rewrite HL in *. rewrite filter_split by done. rewrite !length_app. simpl. lia. }
  replace (d + 1) with (d + Z.of_nat (length (part_nodes p)) - Z.of_nat (length (base.filter (fun y => y <> x) (part_nodes p)))) by lia.
  apply table_replace; [done..| |].
  - by apply filter_sorted; [apply _|].
  - intros y. rewrite list_elem_of_filter. split; [tauto|]. intros [[_ ?]|?]; [done|tauto].
Qed.

(** A transport leaves the table. *)
Lemma svc_xprt_clear_run (w : evworld E) l x r :
  ok 0 (tab w) l -> xprts (tab w) !! x = Some r -> freed r = false -> fd_node r = true ->
  exists t' l', svc_xprt_clear x w = Some (tt, on_tab (fun _ => t') w) /\ ok 0 t' l' /\
    xprts t' = <[x := (r <| fd_node := false |>)]> (xprts (tab w)).
Proof using Hmax.
  intros Ht Hr Hf Hn. pose proof (part_sum_pos 0 _ l x r Ht Hr Hn) as Hpos. pose proof (to_bound _ _ _ _ Ht) as Hb.
  assert (ok (0 + -1) ((tab w) <| connections := u32 (connections (tab w) + -1) |>) l) as Ht1 by (apply table_count; [done|lia]).
  unfold svc_xprt_clear, svc_xprt_init_failure. rewrite (bind_run _ _ w false w) by (unfold bind, gets; by rewrite (to_init _ _ _ _ Ht)).
  rewrite (bind_run _ _ w r w) by (unfold get_xprt; by rewrite Hr, Hf). rewrite Hn.
  set (w1 := on_tab (fun t => t <| connections := u32 (connections t + -1) |>) w).
  rewrite (bind_run (set_connections _) _ _ tt w1) by done.
  destruct (tree_remove_run (0 + -1) w1 l x r Ht1 Hr Hf Hn) as (t' & l' & -> & Ht' & Hx & _). by exists t', l'.
Qed.

End TableMap.
