(* ===== verification/EvDemo.v ===== *)
(** * A small system for the event loop

    Answers that are given in advance: the time, descriptors in increasing order, and
    lists of answers of [epoll_ctl], [epoll_wait], [accept] and [getsockname].  Examples
    run on it. *)
From S2P Require Import Prelude SvcDg EvState SvcXprt.

Open Scope Z_scope.
Open Scope dnfs_scope.

(** Without an answer [epoll_ctl] succeeds and [epoll_wait] times out. *)
Record ev_script := mk_script {
  es_now : Z * Z;
  es_next_fd : Z;
  es_pair : option Z;
  es_create : option Z;
  es_ctl : list Z;
  es_wait : list (Z + list epoll_event);
  es_dup : option Z;
  es_accept : list (Z + Z);
  es_sock : list (option Z) }.

#[global] Instance eta_script : RecEta ev_script := fun e =>
  mk_script (es_now e) (es_next_fd e) (es_pair e) (es_create e) (es_ctl e) (es_wait e) (es_dup e) (es_accept e) (es_sock e).

#[global] Instance script_host : EvHost ev_script := {
  e_clock e := (es_now e, e);
  e_socketpair e :=
    match es_pair e with
    | Some err => (inl err, e)
    | None => (inr (es_next_fd e, es_next_fd e + 1), e <| es_next_fd := es_next_fd e + 2 |>)
    end;
  e_epoll_create _ e :=
    match es_create e with Some err => (inl err, e) | None => (inr (es_next_fd e), e <| es_next_fd := es_next_fd e + 1 |>) end;
  e_epoll_ctl _ _ _ _ e := match es_ctl e with [] => (0, e) | a :: l => (a, e <| es_ctl := l |>) end;
  e_epoll_wait _ _ _ e := match es_wait e with [] => (inr [], e) | a :: l => (a, e <| es_wait := l |>) end;
  e_dup _ e := match es_dup e with Some err => (inl err, e) | None => (inr (es_next_fd e), e <| es_next_fd := es_next_fd e + 1 |>) end;
  e_close _ e := e;
  e_signal _ _ e := e;
  e_consume _ e := e }.

Definition demo_script : ev_script := mk_script (100, 0) 20 None None [] [] None [] [].

Definition demo_params : svc_params := mk_params 1024 300 16.

Definition no_chans : chan_set := mk_chans [] 0 0 0 0 0 0 ∅ ∅.

(** Nothing is initialised. *)
Definition no_table : xprt_table := mk_table false 0 None ∅ 2.

Definition fresh_world (e : ev_script) : evworld ev_script := mk_ev no_table no_chans [] [] e.
