(* ===== verification/SvcXprtSteps.v ===== *)
(** * Transports under all interleavings

    Threads look transports up, refer to them, hand them to tasks and destroy them; what
    one of them does between two points at which others can run is an action.  Whatever
    the order, the count of a transport is exact, and it is freed once, after the last use. *)
From S2P Require Import Prelude RbtreeProps SvcDg EvState SvcXprt SvcXprtProps EvDemo.

Open Scope Z_scope.
Open Scope dnfs_scope.

(** ** Interleavings *)

(** What a thread does at a time: the critical sections of a lookup, the end of a lookup
    that found something, the end of the setup by the thread that created a transport,
    the link of an accepted connection to its listener, references, the two halves of a
    destruction around [xp_unlink], an event that hands the transport to a task, the start
    of that task, and the task that frees. *)
Inductive xaction :=
  | ARead (fd : Z)
  | AWrite (fd : Z) (setup : svc_xprt_setup_t)
  | ACheck (x : positive)
  | AReady (x : positive)
  | AParent (x p : positive)
  | ARef (x : positive)
  | ARelease (x : positive)
  | AMark (x : positive)
  | AUnlink (x : positive)
  | AWork (x : positive)
  | AStart (x : positive)
  | AFree (x : positive).

(** The references that threads hold are counted beside the world, with those of accepted
    connections to their listener. *)
Record xsys (E : Type) := mk_xsys { xw : evworld E; held : gmap positive nat }.
Arguments mk_xsys {E}.
Arguments xw {E}.
Arguments held {E}.

Definition hold {E} (x : positive) (s : xsys E) : nat := default 0%nat (held s !! x).

Definition holding {E} (x : positive) (n : nat) (s : xsys E) (w : evworld E) : xsys E := mk_xsys w (<[x := n]> (held s)).

(** The references a new transport starts with, besides that of the table. *)
Definition setup_refs (setup : svc_xprt_setup_t) : nat :=
  match setup with svc_vc_xprt_setup => 1 | svc_dg_xprt_setup => 2 end.

Lemma destroyed_bits f : Z.land f SVC_XPRT_FLAG_DESTROYED = 0 <-> Z.testbit f 5 = false /\ Z.testbit f 6 = false.
Proof.
  destruct (destroying_bit f) as [H5 _]. destruct (releasing_bit f) as [H6 _]. unfold SVC_XPRT_FLAG_DESTROYED. rewrite Z.land_lor_distr_r, Z.lor_eq_0_iff.
  destruct (Z.testbit f 5), (Z.testbit f 6); destruct (decide (Z.land f SVC_XPRT_FLAG_DESTROYING = 0)), (decide (Z.land f SVC_XPRT_FLAG_RELEASING = 0)); intuition congruence.
Qed.

Section Steps.
  Context {E : Type} `{EvHost E} (params : svc_params).

Definition rec_of (x : positive) (s : xsys E) : option dplx_rec := xprts (tab (xw s)) !! x.

Definition parent_of (x : positive) (s : xsys E) : option positive := r ← rec_of x s; xp_parent r.

Definition fire (a : xaction) (s : xsys E) : option (xsys E) :=
  match a with
  | ARead fd =>
      '(o, w) ← lookup_read fd (xw s);
      Some match o with Some x => holding x (S (hold x s)) s w | None => mk_xsys w (held s) end
  | AWrite fd setup =>
      '(o, w) ← lookup_write params fd setup (xw s);
      Some match o with
           | Refused => mk_xsys w (held s)
           | Created x => holding x (setup_refs setup) s w
           | Raced x => holding x (S (hold x s)) s w
           end
  | ACheck x =>
      '(o, w) ← lookup_check x (xw s);
      Some match o with Some _ => mk_xsys w (held s) | None => holding x (hold x s - 1) s w end
  | AReady x => '(_, w) ← (mod_xprt x (fun r => r <| has_ops := true |>) ;; rpc_dplx_rui x) (xw s); Some (mk_xsys w (held s))
  | AParent x p => '(_, w) ← (svc_ref p ;; mod_xprt x (fun r => r <| xp_parent := Some p |>)) (xw s); Some (holding p (S (hold p s)) s w)
  | ARef x => '(_, w) ← svc_ref x (xw s); Some (holding x (S (hold x s)) s w)
  | ARelease x => '(_, w) ← svc_release x (xw s); Some (holding x (hold x s - 1) s w)
  | AMark x => '(_, w) ← destroy_mark x (xw s); Some (mk_xsys w (held s))
  | AUnlink x => '(_, w) ← svc_xprt_clear x (xw s); Some (holding x (S (hold x s)) s w)
  | AWork x =>
      '(busy, w) ← postset_working x (xw s);
      Some (if (busy : bool) then mk_xsys w (held s) else holding x (hold x s - 1) s w)
  | AStart x => '(_, w) ← clear_working x (xw s); Some (holding x (S (hold x s)) s w)
  | AFree x =>
      '(_, w) ← (dequeue (WDestroy x) ;; destroy_task x) (xw s);
      Some match parent_of x s with Some p => holding p (hold p s - 1) s w | None => mk_xsys w (held s) end
  end.

Definition destroying (r : dplx_rec) : bool := Z.testbit (xp_flags (xp_refs r)) 5.
Definition releasing (r : dplx_rec) : bool := Z.testbit (xp_flags (xp_refs r)) 6.

(** When a thread does it.  It uses, releases and hands to a task only what it refers to;
    it asks for destruction, after the setup, of what it refers to or of what is in the
    table at that moment, as the walk over idle transports does when it is in time; a lock is
    waited for; [xp_unlink] follows a first request for destruction, a task was handed over,
    and the reference of a connection to its listener is given back by the task that frees it. *)
Definition enabled (a : xaction) (s : xsys E) : Prop :=
  match a with
  | ARead _ | AWrite _ _ => True
  | ACheck x => (0 < hold x s)%nat /\ exists r, rec_of x s = Some r /\ recv_locked r = false
  | AReady x | ARef x | ARelease x | AWork x => (0 < hold x s)%nat
  | AParent x p => (0 < hold x s)%nat /\ (0 < hold p s)%nat /\ x <> p /\ parent_of x s = None
  | AMark x => exists r, rec_of x s = Some r /\ has_ops r = true /\ ((0 < hold x s)%nat \/ fd_node r = true)
  | AUnlink x => exists r, rec_of x s = Some r /\ destroying r = true /\ fd_node r = true
  | AStart x => exists r, rec_of x s = Some r /\ ioq_working r = true /\ releasing r = false
  | AFree x => WDestroy x ∈ queue (xw s) /\ forall p, parent_of x s = Some p -> (0 < hold p s)%nat
  end.

(** No counter is near its limit. *)
Definition room (s : xsys E) : Prop := forall x, (Z.of_nat (hold x s) < 2 ^ 30)%Z.

Fixpoint legal (acts : list xaction) (s : xsys E) : Prop :=
  match acts with
  | [] => True
  | a :: acts => enabled a s /\ room s /\ forall s', fire a s = Some s' -> legal acts s'
  end.

Fixpoint fire_all (acts : list xaction) (s : xsys E) : option (xsys E) :=
  match acts with
  | [] => Some s
  | a :: acts => s' ← fire a s; fire_all acts s'
  end.

(** ** The invariant *)

Definition occurrences (k : work) (q : list work) : nat := length (base.filter (fun y => y = k) q).

(** What holds of a transport to which threads have [h] references: the count is that of
    the threads, the table and the task; only a transport that is being destroyed can be
    out of the table; the last release submits the task that frees, once. *)
Record rec_ok (q : list work) (h : nat) (x : positive) (r : dplx_rec) : Prop := mk_rec_ok {
  ro_count : freed r = false ->
    xp_refcnt (xp_refs r) = Z.of_nat (h + Nat.b2n (fd_node r) + Nat.b2n (ioq_working r && negb (releasing r)));
  ro_freed : freed r = true -> h = 0%nat /\ fd_node r = false /\ releasing r = true;
  ro_listed : fd_node r = false -> destroying r = true;
  ro_zero : freed r = false -> releasing r = true <-> xp_refcnt (xp_refs r) = 0;
  ro_working : releasing r = true -> ioq_working r = true;
  ro_ops : destroying r = true -> has_ops r = true;
  ro_destroyed : xp_destroyed (xp_refs r) = Nat.b2n (releasing r);
  ro_unlinked : xp_unlinked (xp_refs r) = Nat.b2n (destroying r);
  ro_queue : occurrences (WDestroy x) q = Nat.b2n (releasing r && negb (freed r)) }.

Definition xsys_ok (s : xsys E) : Prop :=
  (exists l, table_ok (max_connections params) 0 (tab (xw s)) l) /\
  (forall x r, rec_of x s = Some r -> rec_ok (queue (xw s)) (hold x s) x r) /\
  (forall x, rec_of x s = None -> hold x s = 0%nat /\ occurrences (WDestroy x) (queue (xw s)) = 0%nat).

(** A world in which the record of [x] and the queue changed. *)
Definition wput (x : positive) (r : dplx_rec) (q : list work) (w : evworld E) : evworld E :=
  mk_ev (on_xprts (<[x := r]>) (tab w)) (chs w) q (sys w) (host w).

Lemma wput_wput x r q r' q' w : wput x r' q' (wput x r q w) = wput x r' q' w.
Proof. unfold wput, on_xprts. simpl. by rewrite insert_insert_eq. Qed.

Lemma set_xprt_run x r w : set_xprt x r w = Some (tt, wput x r (queue w) w).
Proof. done. Qed.

Lemma get_xprt_run x r (w : evworld E) : xprts (tab w) !! x = Some r -> freed r = false -> get_xprt x w = Some (r, w).
Proof. intros Hr Hf. unfold get_xprt. by rewrite Hr, Hf. Qed.

Lemma get_wput x r q w : freed r = false -> get_xprt x (wput x r q w) = Some (r, wput x r q w).
Proof. intros Hf. apply get_xprt_run; [|done]. unfold wput, on_xprts. simpl. by rewrite lookup_insert_eq. Qed.

Lemma hold_holding x n (s : xsys E) w : hold x (holding x n s w) = n.
Proof. unfold hold, holding. simpl. by rewrite lookup_insert_eq. Qed.

Lemma hold_other x y n (s : xsys E) w : y <> x -> hold y (holding x n s w) = hold y s.
Proof. intros. unfold hold, holding. simpl. by rewrite lookup_insert_ne. Qed.

(** The invariant after a change of one transport. *)
Lemma ok_change s w h x r l :
  xsys_ok s -> table_ok (max_connections params) 0 (tab w) l -> xprts (tab w) = <[x := r]> (xprts (tab (xw s))) ->
  (forall y, y <> x -> occurrences (WDestroy y) (queue w) = occurrences (WDestroy y) (queue (xw s))) ->
  rec_ok (queue w) h x r -> xsys_ok (holding x h s w).
Proof.
  intros (_ & Hrec & Hnone) Ht Hx Hq Hr. split_and!.
  - by exists l.
  - intros y r' Hy. unfold rec_of in *. simpl in Hy. rewrite Hx in Hy. destruct (decide (y = x)) as [->|Hne].
    + rewrite lookup_insert_eq in Hy. injection Hy as <-. by rewrite hold_holding.
    + rewrite lookup_insert_ne in Hy by done. rewrite hold_other by done. destruct (Hrec y r' Hy). split; try done.
      simpl. by rewrite Hq.
  - intros y Hy. unfold rec_of in *. simpl in Hy. rewrite Hx in Hy. destruct (decide (y = x)) as [->|Hne].
    + by rewrite lookup_insert_eq in Hy.
    + rewrite lookup_insert_ne in Hy by done. rewrite hold_other by done. simpl. rewrite Hq by done. by apply Hnone.
Qed.

Lemma ok_put s x r r' q h :
  xsys_ok s -> rec_of x s = Some r -> fd_node r' = fd_node r -> (fd_node r = true -> xp_fd r' = xp_fd r /\ freed r' = false) ->
  (forall y, y <> x -> occurrences (WDestroy y) q = occurrences (WDestroy y) (queue (xw s))) ->
  rec_ok q h x r' -> xsys_ok (holding x h s (wput x r' q (xw s))).
Proof.
  intros Hs Hr Hn Hf Hq Hok. destruct Hs as ([l Ht] & Hrest). eapply ok_change; [by split; [exists l|]| |done|done|done].
  by eapply table_update.
Qed.

(** The references of a system that did not change them. *)
Lemma ok_held s w x : xsys_ok (holding x (hold x s) s w) -> xsys_ok (mk_xsys w (held s)).
Proof.
  intros (Ht & Hr & Hn). assert (forall y, hold y (mk_xsys w (held s)) = hold y (holding x (hold x s) s w)) as He.
  { intros y. destruct (decide (y = x)) as [->|]; [by rewrite hold_holding|by rewrite hold_other]. }
  split_and!; [done|..]; intros y; rewrite He; eauto.
Qed.

Lemma occurrences_app k q q' : occurrences k (q ++ q') = (occurrences k q + occurrences k q')%nat.
Proof. unfold occurrences. by rewrite list.filter_app, length_app. Qed.

Lemma occurrences_one k j : occurrences k [j] = Nat.b2n (bool_decide (j = k)).
Proof. unfold occurrences. rewrite filter_cons, filter_nil. case_decide; [by rewrite bool_decide_true|by rewrite bool_decide_false]. Qed.

(** ** Changes of one transport *)

Lemma alive_counts q h x r : rec_ok q h x r -> (0 < h)%nat \/ fd_node r = true \/ (ioq_working r = true /\ releasing r = false) ->
  freed r = false /\ releasing r = false.
Proof.
  intros Hr Hp. destruct (freed r) eqn:Hf.
  - destruct (ro_freed _ _ _ _ Hr Hf) as (-> & Hn & Hl). rewrite Hn, Hl in Hp. destruct Hp as [?|[?|[_ ?]]]; [lia|done|done].
  - split; [done|]. pose proof (ro_count _ _ _ _ Hr Hf) as Hc. pose proof (ro_zero _ _ _ _ Hr Hf) as Hz.
    destruct (releasing r); [|done]. rewrite (proj1 Hz) in Hc by done. destruct Hp as [?|[Hn|[_ ?]]]; [lia| |done]. rewrite Hn in Hc. simpl in Hc. lia.
Qed.

(** A record whose flags, counts and marks are those of [r] otherwise. *)
Lemma rec_ok_same q h x r r' :
  rec_ok q h x r -> xp_refcnt (xp_refs r') = xp_refcnt (xp_refs r) -> destroying r' = destroying r -> releasing r' = releasing r ->
  xp_destroyed (xp_refs r') = xp_destroyed (xp_refs r) -> xp_unlinked (xp_refs r') = xp_unlinked (xp_refs r) ->
  fd_node r' = fd_node r -> ioq_working r' = ioq_working r -> freed r' = freed r -> (has_ops r = true -> has_ops r' = true) ->
  rec_ok q h x r'.
Proof.
  intros Hr E1 E2 E3 E4 E5 E6 E7 E8 E9. destruct Hr. split; rewrite ?E1, ?E2, ?E3, ?E4, ?E5, ?E6, ?E7, ?E8; auto.
Qed.

Lemma rec_ok_ref q h x r :
  rec_ok q h x r -> freed r = false -> releasing r = false -> Z.of_nat h < 2 ^ 30 ->
  rec_ok q (S h) x (r <| xp_refs := svc_ref_it (xp_refs r) |>).
Proof.
  intros Hr Hf Hl Hh. pose proof (ro_count _ _ _ _ Hr Hf) as Hc.
  assert (xp_refcnt (svc_ref_it (xp_refs r)) = xp_refcnt (xp_refs r) + 1) as He.
  { simpl. rewrite i32_small; [done|]. unfold is_i32. destruct (fd_node r), (ioq_working r && negb (releasing r)); simpl in Hc; lia. }
  destruct Hr. split; try done; change (xp_refs (r <| xp_refs := ?y |>)) with y; cbn [xp_refs freed fd_node ioq_working upd].
  - intros _. rewrite He, Hc. unfold releasing. simpl. lia.
  - congruence.
  - intros _. rewrite He. change (releasing _) with (releasing r). rewrite Hl. split; [done|]. rewrite Hc. lia.
Qed.

(** What a release does to the flags and the counts. *)
Lemma release_last refs : xp_refcnt refs = 1 -> Z.testbit (xp_flags refs) 6 = false ->
  svc_release_it refs = mk_refs 0 (Z.lor (xp_flags refs) SVC_XPRT_FLAG_RELEASING) (xp_unlinked refs) (S (xp_destroyed refs)).
Proof.
  intros Hc Hb. unfold svc_release_it. cbv zeta. cbn [xp_refcnt upd]. rewrite Hc. change (i32 (1 - 1)) with 0.
  rewrite decide_False by lia. rewrite decide_False; [done|]. destruct (releasing_bit (xp_flags refs)) as [Hr _]. cbn [xp_flags upd]. rewrite Hr. congruence.
Qed.

Lemma release_more refs : 1 < xp_refcnt refs < 2 ^ 31 -> svc_release_it refs = refs <| xp_refcnt := xp_refcnt refs - 1 |>.
Proof.
  intros Hc. unfold svc_release_it. cbv zeta. cbn [xp_refcnt upd]. rewrite i32_small by (unfold is_i32; lia). by rewrite decide_True by lia.
Qed.

(** A release of one of [S h] references. *)
Lemma svc_release_run s x r h :
  xsys_ok s -> rec_of x s = Some r -> hold x s = S h -> room s ->
  exists w, svc_release x (xw s) = Some (tt, w) /\ xsys_ok (holding x h s w) /\
    exists r' q', w = wput x r' q' (xw s) /\ fd_node r' = fd_node r /\ freed r' = false /\ recv_locked r' = recv_locked r /\ ev_p r' = ev_p r /\
      xp_refcnt (xp_refs r') = xp_refcnt (xp_refs r) - 1 /\ destroying r' = destroying r.
Proof.
  intros Hs Hr Hh Hroom. pose proof Hs as (_ & Hrec & _). specialize (Hrec x r Hr). specialize (Hroom x). rewrite Hh in *.
  destruct (alive_counts _ _ _ _ Hrec) as [Hf Hl]; [lia|]. pose proof (ro_count _ _ _ _ Hrec Hf) as Hc.
  unfold svc_release, bind. rewrite (get_xprt_run x r) by done. cbv zeta. rewrite set_xprt_run.
  destruct (decide (xp_refcnt (xp_refs r) = 1)) as [H1|H1].
  - assert (h = 0%nat /\ fd_node r = false /\ ioq_working r = false) as (-> & Hn & Hw).
    { rewrite Hl in Hc. destruct (fd_node r), (ioq_working r); simpl in Hc; split_and!; try done; lia. }
    pose proof (ro_listed _ _ _ _ Hrec Hn) as Hd. pose proof (ro_ops _ _ _ _ Hrec Hd) as Ho.
    rewrite release_last by done. cbn [xp_destroyed]. rewrite decide_True by lia. unfold xp_destroy, bind. rewrite get_wput by done.
    cbn [has_ops ioq_working upd xp_refs]. rewrite Ho, Hw. cbn [negb orb]. rewrite set_xprt_run, wput_wput.
    eexists. split; [reflexivity|]. split; [|eexists _, _; split_and!; [reflexivity|done|done|done|done|simpl; lia|apply (releasing_bit (xp_flags (xp_refs r)))]].
    eapply (ok_put s x r); [done|done|done|done| |].
    + intros y Hy. rewrite occurrences_app, occurrences_one, bool_decide_false; [apply Nat.add_0_r|congruence].
    + pose proof (releasing_bit (xp_flags (xp_refs r))) as (_ & H6 & H5). match goal with |- rec_ok _ _ _ ?y => set (r' := y) end.
      assert (releasing r' = true) as Hl' by exact H6. assert (destroying r' = destroying r) as Hd' by exact H5.
      destruct Hrec. split; rewrite ?Hl', ?Hd'; try done.
      * intros _. cbn [r' xp_refs fd_node ioq_working upd xp_refcnt]. by rewrite Hn.
      * cbn [r' xp_refs upd xp_destroyed Nat.b2n]. by rewrite ro_destroyed0, Hl.
      * cbn [r' freed upd queue wput]. rewrite occurrences_app, occurrences_one, bool_decide_true by done. rewrite ro_queue0, Hl, Hf. done.
  - rewrite release_more by (destruct (fd_node r), (ioq_working r && negb (releasing r)); simpl in Hc; lia).
    rewrite decide_False by (simpl; lia). eexists. split; [reflexivity|]. split; [|by eexists _, _].
    eapply (ok_put s x r); [done|done|done|done|done|].
    destruct Hrec. split; try done; cbn [xp_refs freed fd_node ioq_working upd xp_refcnt].
    + intros _. rewrite Hc. change (releasing _) with (releasing r). lia.
    + congruence.
    + intros _. change (releasing _) with (releasing r). rewrite Hl. split; [done|]. rewrite Hc in *. lia.
Qed.

(** A reference to a transport that has one. *)
Lemma svc_ref_run s x r :
  xsys_ok s -> rec_of x s = Some r -> (0 < hold x s)%nat \/ fd_node r = true -> room s ->
  exists w, svc_ref x (xw s) = Some (tt, w) /\ xsys_ok (holding x (S (hold x s)) s w).
Proof.
  intros Hs Hr Hp Hroom. pose proof Hs as (_ & Hrec & _). specialize (Hrec x r Hr). specialize (Hroom x).
  destruct (alive_counts _ _ _ _ Hrec) as [Hf Hl]; [tauto|]. unfold svc_ref, mod_xprt, bind. rewrite (get_xprt_run x r) by done.
  rewrite set_xprt_run. eexists. split; [reflexivity|]. eapply (ok_put s x r); [done|done|done|done|done|]. by apply rec_ok_ref.
Qed.

Lemma lookup_found s fd x : xsys_ok s -> registered (tab (xw s)) fd x -> exists r, rec_of x s = Some r /\ fd_node r = true.
Proof. intros _ (r & Hr & Hn & _). by exists r. Qed.

Lemma fire_read s fd : xsys_ok s -> room s -> exists s', fire (ARead fd) s = Some s' /\ xsys_ok s'.
Proof.
  intros Hs Hroom. pose proof Hs as ([l Ht] & _). destruct (tree_lookup_run params 0 fd (xw s) l Ht) as (o & Hlk & Ho).
  unfold fire, lookup_read, bind. rewrite Hlk. destruct o as [x|].
  - destruct (lookup_found s fd x Hs Ho) as (r & Hr & Hn). destruct (svc_ref_run s x r) as (w & -> & Hok); [done|done|by right|done|].
    by eexists.
  - eexists. split; [reflexivity|]. by destruct s.
Qed.

(** The record of a new transport. *)
Definition new_rec (fd : Z) (setup : svc_xprt_setup_t) (sec : Z) : dplx_rec :=
  mk_dplx fd (-1) (mk_refs (Z.of_nat (S (setup_refs setup))) SVC_XPRT_FLAG_INITIAL 0 0) None false false true sec None (mk_event 0 0) (mk_event 0 0) None false false.

Lemma rec_ok_new q x fd setup sec :
  occurrences (WDestroy x) q = 0%nat -> rec_ok q (setup_refs setup) x ((new_rec fd setup sec) <| fd_node := true |>).
Proof.
  intros Hq. split; try done.
  intros _. destruct setup; reflexivity.
Qed.

Lemma lookup_alloc_run fd setup (w : evworld E) :
  exists sec, lookup_alloc fd setup w =
    Some (next_xprt (tab w), mk_ev (on_xprts (<[next_xprt (tab w) := new_rec fd setup sec]>) ((tab w) <| next_xprt := Pos.succ (next_xprt (tab w)) |>))
      (chs w) (queue w) (sys w) (snd (e_clock (host w)))).
Proof.
  unfold lookup_alloc, setup_alloc, bind, ask, gets, modify. destruct (e_clock (host w)) as [[sec ns] e]. exists sec.
  cbn [tab next_xprt fst]. set (x := next_xprt (tab w)). rewrite set_xprt_run. cbn [ret]. unfold mod_xprt, svc_ref, mod_xprt, rpc_dplx_rli, bind.
  destruct setup.
  all: do 3 (rewrite get_wput by done; cbn [recv_locked];
    match goal with |- context [set_xprt _ ?r] => let r' := eval vm_compute in r in change r with r' end; rewrite set_xprt_run, ?wput_wput).
  all: reflexivity.
Qed.

  Context (Hmax : 0 <= max_connections params < 2 ^ 32 - 1).

Lemma lookup_create_run s fd setup :
  xsys_ok s -> (forall x, ~ registered (tab (xw s)) fd x) ->
  exists o w, lookup_create params fd setup (xw s) = Some (o, w) /\
    match o with
    | Refused => w = xw s /\ connections (tab (xw s)) = max_connections params
    | Created x => connections (tab (xw s)) < max_connections params /\ rec_of x s = None /\ xsys_ok (holding x (setup_refs setup) s w) /\
        exists t sec, w = mk_ev t (chs (xw s)) (queue (xw s)) (sys (xw s)) (snd (e_clock (host (xw s)))) /\
          xprts t = <[x := ((new_rec fd setup sec) <| fd_node := true |>)]> (xprts (tab (xw s)))
    | Raced _ => False
    end.
Proof using Hmax.
  intros Hs Hreg. pose proof Hs as ([l Ht] & Hrec & Hnone). pose proof (to_count _ _ _ _ Ht) as Hc. pose proof (to_bound _ _ _ _ Ht) as Hb.
  set (w1 := on_tab (fun t => t <| connections := u32 (connections t + 1) |>) (xw s)).
  assert (connections (tab w1) = connections (tab (xw s)) + 1) as Hu by (apply u32_small; unfold is_u32; lia).
  unfold lookup_create. rewrite (bind_run (set_connections _) _ _ tt w1) by done. rewrite (bind_run (gets _) _ _ (connections (tab w1)) w1) by done.
  case_decide as Hm.
  - eexists _, _. split; [reflexivity|]. cbv beta iota. split; [|lia]. destruct s as [[t c q y e] h], t.
    unfold w1, on_tab. simpl in *. repeat f_equal. rewrite Hu, u32_small; [lia|unfold is_u32; lia].
  - assert (table_ok (max_connections params) (0 + 1) (tab w1) l) as Ht1.
    { apply table_count; [unfold is_u32; lia|done|lia]. }
    destruct (lookup_alloc_run fd setup w1) as (sec & Ha). rewrite (bind_run _ _ _ _ _ Ha). set (x := next_xprt (tab w1)) in *.
    match type of Ha with _ = Some (_, ?y) => set (w2 := y) in * end. set (r := new_rec fd setup sec) in *.
    pose proof (table_alloc params _ _ l r Ht1 eq_refl) as Ht2. change (table_ok (max_connections params) (0 + 1) (tab w2) l) in Ht2.
    assert (rec_of x s = None) as Hx.
    { unfold rec_of. destruct (xprts (tab (xw s)) !! x) eqn:Hx; [|done]. apply (to_names _ _ _ _ Ht) in Hx. change x with (next_xprt (tab (xw s))) in Hx. lia. }
    destruct (tree_insert_run params _ w2 l x r Ht2) as (t' & l' & Hi & Ht' & Hx' & _); [apply lookup_insert_eq|done|done| |].
    { intros y (r' & Hr' & Hn & Hfd). change (xprts (tab w2)) with (<[x := r]> (xprts (tab (xw s)))) in Hr'.
      destruct (decide (y = x)) as [->|Hy]; [rewrite lookup_insert_eq in Hr'; by injection Hr' as <-|].
      rewrite lookup_insert_ne in Hr' by done. apply (Hreg y). by exists r'. }
    rewrite (bind_run _ _ _ _ _ Hi). eexists _, _. split; [reflexivity|]. cbv beta iota.
    change (xprts (tab w2)) with (<[x := r]> (xprts (tab (xw s)))) in Hx'. rewrite insert_insert_eq in Hx'. split_and!; [lia|done|..].
    + eapply (ok_change s _ _ _ _ l'); [done|exact Ht'|done|done|]. apply rec_ok_new. by apply Hnone.
    + by exists t', sec.
Qed.

Lemma fire_write s fd setup : xsys_ok s -> room s -> exists s', fire (AWrite fd setup) s = Some s' /\ xsys_ok s'.
Proof using Hmax.
  intros Hs Hroom. pose proof Hs as ([l Ht] & _). destruct (tree_lookup_run params 0 fd (xw s) l Ht) as (o & Hlk & Ho).
  unfold fire, lookup_write. rewrite (bind_run _ _ _ _ _ Hlk). destruct o as [x|].
  - destruct (lookup_found s fd x Hs Ho) as (r & Hr & Hn). destruct (svc_ref_run s x r) as (w & Hw & Hok); [done|done|by right|done|].
    rewrite (bind_run _ _ _ _ _ Hw). by eexists.
  - destruct (lookup_create_run s fd setup Hs Ho) as (o & w & -> & Hok). destruct o.
    + destruct Hok as [-> _]. eexists. split; [reflexivity|]. by destruct s.
    + destruct Hok as (_ & _ & Hok & _). by eexists.
    + done.
Qed.

(** The transport of a thread that refers to it. *)
Lemma held_rec s x : xsys_ok s -> (0 < hold x s)%nat ->
  exists r, rec_of x s = Some r /\ freed r = false /\ releasing r = false /\ rec_ok (queue (xw s)) (hold x s) x r.
Proof.
  intros (_ & Hrec & Hnone) Hh. destruct (rec_of x s) as [r|] eqn:Hr; [|destruct (Hnone x Hr); lia].
  specialize (Hrec x r Hr). destruct (alive_counts _ _ _ _ Hrec) as [? ?]; [by left|]. by exists r.
Qed.

Lemma holding_holding x n m (s : xsys E) w w' : holding x n (holding x m s w) w' = holding x n s w'.
Proof. unfold holding. simpl. by rewrite insert_insert_eq. Qed.

Lemma ldiff_bit f b n : 0 <= n -> Z.testbit b n = false -> Z.testbit (Z.ldiff f b) n = Z.testbit f n.
Proof. intros Hn Hb. rewrite Z.ldiff_spec, Hb. apply andb_true_r. Qed.

(** The end of a lookup that found [x]. *)
Lemma lookup_check_run s x r : xsys_ok s -> room s -> (0 < hold x s)%nat -> rec_of x s = Some r -> recv_locked r = false ->
  exists w, lookup_check x (xw s) = Some (if destroying r then None else Some x, w) /\ xsys_ok (holding x (hold x s - Nat.b2n (destroying r)) s w) /\
    (destroying r = false -> exists r', xprts (tab w) !! x = Some r' /\ recv_locked r' = false /\ xp_fd r' = xp_fd r /\ fd_node r' = fd_node r).
Proof using Hmax.
  intros Hs Hroom Hh Hr Hlock. destruct (held_rec s x Hs Hh) as (r0 & Hr0 & Hf & Hl & Hok). rewrite Hr in Hr0. injection Hr0 as <-.
  set (r1 := (r <| recv_locked := true |>)). set (r2 := (r1 <| xp_refs := (xp_refs r1) <| xp_flags := Z.ldiff (xp_flags (xp_refs r1)) SVC_XPRT_FLAG_INITIAL |> |>)).
  set (r3 := (r2 <| recv_locked := false |>)). set (w := wput x r3 (queue (xw s)) (xw s)).
  assert (xsys_ok (holding x (hold x s) s w)) as Hs1.
  { eapply (ok_put s x r); [done|done|done|done|done|]. apply (rec_ok_same _ _ _ r); [done|done|by apply ldiff_bit|by apply ldiff_bit|done..]. }
  unfold lookup_check. rewrite (bind_run (rpc_dplx_rli x) _ _ tt (wput x r1 (queue (xw s)) (xw s)))
    by (unfold rpc_dplx_rli; rewrite (bind_run _ _ _ _ _ (get_xprt_run x r _ Hr Hf)), Hlock; done).
  rewrite (bind_run (postclear_flags _ _) _ _ (xp_flags (xp_refs r1)) (wput x r2 (queue (xw s)) (xw s)))
    by (unfold postclear_flags; rewrite (bind_run _ _ _ _ _ (get_wput x r1 _ _ Hf)); cbv zeta; by rewrite (bind_run _ _ _ _ _ (set_xprt_run _ _ _)), wput_wput).
  rewrite (bind_run (rpc_dplx_rui x) _ _ tt w)
    by (unfold rpc_dplx_rui, mod_xprt; rewrite (bind_run _ _ _ _ _ (get_wput x r2 _ _ Hf)); by rewrite set_xprt_run, wput_wput).
  unfold destroying. destruct (Z.testbit (xp_flags (xp_refs r)) 5) eqn:Hd.
  - rewrite decide_False by (change (xp_flags (xp_refs r1)) with (xp_flags (xp_refs r)); rewrite destroyed_bits; intuition congruence).
    destruct (svc_release_run (holding x (hold x s) s w) x r3 (hold x s - 1)) as (w' & Hw' & Hok' & _); [done| | | |].
    + unfold rec_of. simpl. apply lookup_insert_eq.
    + rewrite hold_holding. lia.
    + intros y. destruct (decide (y = x)) as [->|]; [rewrite hold_holding|rewrite hold_other by done]; apply Hroom.
    + simpl in Hw'. rewrite (bind_run _ _ _ _ _ Hw'). eexists. split; [reflexivity|]. by rewrite holding_holding in Hok'.
  - rewrite decide_True by (by apply destroyed_bits). eexists. split; [reflexivity|]. cbn [Nat.b2n]. rewrite Nat.sub_0_r. split; [done|]. intros _. exists r3.
    split_and!; [apply lookup_insert_eq|done..].
Qed.

Lemma fire_check s x : xsys_ok s -> room s -> enabled (ACheck x) s -> exists s', fire (ACheck x) s = Some s' /\ xsys_ok s'.
Proof using Hmax.
  intros Hs Hroom [Hh (r & Hr & Hlock)]. destruct (lookup_check_run s x r Hs Hroom Hh Hr Hlock) as (w & Hw & Hok & _). unfold fire. rewrite Hw.
  eexists. split; [reflexivity|]. destruct (destroying r); [done|]. cbn [Nat.b2n] in Hok. rewrite Nat.sub_0_r in Hok. by apply (ok_held _ _ x).
Qed.

(** A change of the record alone. *)
Lemma put_ok s x r r' h : xsys_ok s -> rec_of x s = Some r -> fd_node r' = fd_node r -> xp_fd r' = xp_fd r -> freed r' = false ->
  rec_ok (queue (xw s)) h x r' -> xsys_ok (holding x h s (wput x r' (queue (xw s)) (xw s))).
Proof. intros. by eapply (ok_put s x r). Qed.

Lemma fire_ready s x : xsys_ok s -> enabled (AReady x) s -> exists s', fire (AReady x) s = Some s' /\ xsys_ok s'.
Proof using Hmax.
  intros Hs Hh. destruct (held_rec s x Hs Hh) as (r & Hr & Hf & Hl & Hok). unfold fire, rpc_dplx_rui, mod_xprt, bind.
  rewrite (get_xprt_run x r) by done. rewrite set_xprt_run, get_wput by done. rewrite set_xprt_run, wput_wput.
  eexists. split; [reflexivity|]. apply (ok_held _ _ x). apply (put_ok s x r); [done..|]. by apply (rec_ok_same _ _ _ r).
Qed.

(** The first request for destruction. *)
Lemma mark_run s x r : xsys_ok s -> rec_of x s = Some r -> freed r = false -> has_ops r = true ->
  exists r', destroy_mark x (xw s) = Some (negb (destroying r), wput x r' (queue (xw s)) (xw s)) /\
    xsys_ok (mk_xsys (wput x r' (queue (xw s)) (xw s)) (held s)) /\ destroying r' = true /\ releasing r' = releasing r /\
    xp_refcnt (xp_refs r') = xp_refcnt (xp_refs r) /\ r' = (r <| xp_refs := xp_refs r' |>).
Proof using Hmax.
  intros Hs Hr Hf Hops. pose proof Hs as (_ & Hrec & _). specialize (Hrec x r Hr).
  pose proof (destroying_bit (xp_flags (xp_refs r))) as (Hd & H5 & H6). unfold destroy_mark, bind. rewrite (get_xprt_run x r) by done. cbv zeta.
  case_decide as Hb; rewrite set_xprt_run; rewrite ?Hops; eexists; split.
  - unfold destroying. by rewrite (proj1 Hd Hb).
  - split; [|done]. apply (ok_held _ _ x). apply (put_ok s x r); try done. apply (rec_ok_same _ _ _ r); try done. unfold destroying at 2. by rewrite (proj1 Hd Hb).
  - assert (destroying r = false) as -> by (unfold destroying; destruct (Z.testbit _ 5); tauto). done.
  - split; [|done]. apply (ok_held _ _ x). apply (put_ok s x r); try done.
    match goal with |- rec_ok _ _ _ ?y => set (r' := y) end. assert (releasing r' = releasing r) as Hl' by exact H6. assert (destroying r' = true) as Hd' by exact H5.
    assert (destroying r = false) as Hd0 by (unfold destroying; destruct (Z.testbit _ 5); tauto).
    destruct Hrec. split; rewrite ?Hl', ?Hd'; try done. cbn. by rewrite ro_unlinked0, Hd0.
Qed.

Lemma fire_mark s x : xsys_ok s -> enabled (AMark x) s -> exists s', fire (AMark x) s = Some s' /\ xsys_ok s'.
Proof using Hmax.
  intros Hs (r & Hr & Hops & Hh). pose proof Hs as (_ & Hrec & _). destruct (alive_counts _ _ _ _ (Hrec x r Hr)) as [Hf _]; [tauto|].
  destruct (mark_run s x r Hs Hr Hf Hops) as (r' & Hm & Hok' & _). unfold fire. rewrite Hm. by eexists.
Qed.

(** A transport that is being destroyed leaves the table. *)
Lemma unlink_run s x r : xsys_ok s -> rec_of x s = Some r -> fd_node r = true -> destroying r = true ->
  exists t, svc_xprt_clear x (xw s) = Some (tt, on_tab (fun _ => t) (xw s)) /\ xsys_ok (holding x (S (hold x s)) s (on_tab (fun _ => t) (xw s))) /\
    xprts t = <[x := (r <| fd_node := false |>)]> (xprts (tab (xw s))).
Proof using Hmax.
  intros Hs Hr Hn Hd. pose proof Hs as ([l Ht] & Hrec & _). specialize (Hrec x r Hr).
  destruct (alive_counts _ _ _ _ Hrec) as [Hf Hl]; [tauto|].
  destruct (svc_xprt_clear_run params ltac:(unfold is_u32; lia) (xw s) l x r) as (t' & l' & Hc & Ht' & Hx'); [done..|].
  exists t'. split; [done|]. split; [|done]. eapply (ok_change s _ _ _ _ l'); [done|done|exact Hx'|done|].
  destruct Hrec. split; try done; [|cbn; congruence]. intros _. cbn [xp_refs fd_node ioq_working upd]. rewrite ro_count0, Hn by done.
  change (releasing _) with (releasing r). simpl. lia.
Qed.

Lemma fire_unlink s x : xsys_ok s -> enabled (AUnlink x) s -> exists s', fire (AUnlink x) s = Some s' /\ xsys_ok s'.
Proof using Hmax.
  intros Hs (r & Hr & Hd & Hn). destruct (unlink_run s x r Hs Hr Hn Hd) as (t & Hc & Hok & _). unfold fire. rewrite Hc. by eexists.
Qed.

Lemma fire_work s x : xsys_ok s -> enabled (AWork x) s -> exists s', fire (AWork x) s = Some s' /\ xsys_ok s'.
Proof using Hmax.
  intros Hs Hh. destruct (held_rec s x Hs Hh) as (r & Hr & Hf & Hl & Hok). unfold fire, postset_working, bind.
  rewrite (get_xprt_run x r) by done. rewrite set_xprt_run. cbn. destruct (ioq_working r) eqn:Hw; (eexists; split; [reflexivity|]).
  - apply (ok_held _ _ x). apply (put_ok s x r); [done..|]. by apply (rec_ok_same _ _ _ r).
  - apply (put_ok s x r); [done..|]. destruct Hok. split; try done.
    + intros _. cbn [xp_refs fd_node ioq_working upd]. rewrite ro_count0, Hw by done. change (releasing _) with (releasing r). rewrite Hl. simpl in *. lia.
    + cbn. congruence.
Qed.

Lemma fire_start s x : xsys_ok s -> enabled (AStart x) s -> exists s', fire (AStart x) s = Some s' /\ xsys_ok s'.
Proof using Hmax.
  intros Hs (r & Hr & Hw & Hl). pose proof Hs as (_ & Hrec & _). specialize (Hrec x r Hr).
  destruct (alive_counts _ _ _ _ Hrec) as [Hf _]; [tauto|]. unfold fire, clear_working, mod_xprt, bind. rewrite (get_xprt_run x r) by done.
  rewrite set_xprt_run. eexists. split; [reflexivity|]. apply (put_ok s x r); [done..|]. destruct Hrec. split; try done.
  - intros _. cbn [xp_refs fd_node ioq_working upd]. rewrite ro_count0, Hw, Hl by done. simpl. lia.
  - cbn. congruence.
  - change (releasing _) with (releasing r). congruence.
Qed.

Lemma take_once_run k q : k ∈ q ->
  exists q', take_once k q = Some q' /\ forall j, occurrences j q = (occurrences j q' + Nat.b2n (bool_decide (k = j)))%nat.
Proof using.
  induction q as [|y q IH]; intros Hk; [by apply elem_of_nil in Hk|]. cbn [take_once]. case_decide as Hy.
  - subst y. exists q. split; [done|]. intros j. change (k :: q) with ([k] ++ q). rewrite occurrences_app, occurrences_one. lia.
  - apply elem_of_cons in Hk as [?|Hk]; [done|]. destruct (IH Hk) as (q' & -> & Hq). exists (y :: q'). split; [done|]. intros j.
    change (y :: q) with ([y] ++ q). change (y :: q') with ([y] ++ q'). rewrite !occurrences_app, Hq. lia.
Qed.

(** The end of the task that frees. *)
Lemma freed_ok s w x r l :
  xsys_ok s -> hold x s = 0%nat -> table_ok (max_connections params) 0 (tab w) l -> xprts (tab w) = <[x := r]> (xprts (tab (xw s))) ->
  (forall j, occurrences j (queue (xw s)) = (occurrences j (queue w) + Nat.b2n (bool_decide (WDestroy x = j)))%nat) ->
  rec_ok (queue (xw s)) 0 x r -> releasing r = true -> freed r = false -> fd_node r = false ->
  let w' := wput x (r <| freed := true |>) (queue w) w in
  mod_xprt x (fun r => r <| freed := true |>) w = Some (tt, w') /\ xsys_ok (mk_xsys w' (held s)).
Proof using.
  intros Hs Hh Ht Hx Hq Hok Hl Hf Hn w'. unfold mod_xprt.
  rewrite (bind_run _ _ w r w) by (apply get_xprt_run; [by rewrite Hx, lookup_insert_eq|done]).
  rewrite set_xprt_run. split; [reflexivity|]. apply (ok_held _ _ x). eapply (ok_change s _ _ _ _ l); [done| | | |].
  - eapply table_update; [exact Ht|by rewrite Hx, lookup_insert_eq|done|congruence].
  - cbn. by rewrite Hx, insert_insert_eq.
  - intros y Hy. cbn [queue wput]. rewrite (Hq (WDestroy y)), bool_decide_false; [simpl; lia|congruence].
  - rewrite Hh. pose proof (Hq (WDestroy x)) as Hqx. rewrite bool_decide_true in Hqx by done. simpl in Hqx. destruct Hok. split; try done.
    cbn [queue wput freed upd negb]. rewrite andb_false_r. rewrite ro_queue0, Hl, Hf in Hqx. simpl in *. lia.
Qed.

(** A release depends only on the record and the queue. *)
Definition release_result (x : positive) (r : dplx_rec) (q : list work) : option (dplx_rec * list work) :=
  let refs := svc_release_it (xp_refs r) in
  if decide (xp_destroyed (xp_refs r) < xp_destroyed refs)%nat then
    if negb (has_ops r) || ioq_working r then None else Some (r <| xp_refs := refs |> <| ioq_working := true |>, q ++ [WDestroy x])
  else Some (r <| xp_refs := refs |>, q).

Lemma svc_release_eq x r (w : evworld E) : xprts (tab w) !! x = Some r -> freed r = false ->
  svc_release x w = '(r', q) ← release_result x r (queue w); Some (tt, wput x r' q w).
Proof using.
  intros Hr Hf. unfold svc_release. rewrite (bind_run _ _ _ _ _ (get_xprt_run x r w Hr Hf)). cbv zeta.
  rewrite (bind_run _ _ _ _ _ (set_xprt_run _ _ _)). unfold release_result. cbv zeta. case_decide; [|done].
  unfold xp_destroy, bind at 1. rewrite get_wput by done.
  change (has_ops (r <| xp_refs := _ |>)) with (has_ops r). change (ioq_working (r <| xp_refs := _ |>)) with (ioq_working r).
  destruct (negb (has_ops r) || ioq_working r); [done|]. rewrite (bind_run _ _ _ _ _ (set_xprt_run _ _ _)), wput_wput. done.
Qed.

(** Releasing another transport before this one is marked as freed is the same as after. *)
Lemma free_release_commute x p r rp (w w' : evworld E) :
  p <> x -> xprts (tab w) !! x = Some r -> freed r = false -> xprts (tab w) !! p = Some rp -> freed rp = false ->
  svc_release p (wput x (r <| freed := true |>) (queue w) w) = Some (tt, w') ->
  (svc_release p ;; mod_xprt x (fun r => r <| freed := true |>)) w = Some (tt, w').
Proof using.
  intros Hne Hr Hf Hrp Hfp Hrel. rewrite (svc_release_eq p rp) in Hrel by (done || (simpl; by rewrite lookup_insert_ne)).
  unfold bind. rewrite (svc_release_eq p rp w) by done. change (queue (wput x _ (queue w) w)) with (queue w) in Hrel.
  destruct (release_result p rp (queue w)) as [[rp' q]|]; [|done]. cbn in Hrel |- *. injection Hrel as <-.
  unfold mod_xprt, bind. rewrite (get_xprt_run x r) by (done || (simpl; by rewrite lookup_insert_ne)). rewrite set_xprt_run. do 2 f_equal.
  unfold wput, on_xprts. simpl. by rewrite insert_insert_ne.
Qed.

Lemma fire_free s x : xsys_ok s -> room s -> enabled (AFree x) s -> exists s', fire (AFree x) s = Some s' /\ xsys_ok s'.
Proof using Hmax.
  intros Hs Hroom [Hin Hpar]. pose proof Hs as ([l Ht] & Hrec & Hnone). destruct (take_once_run _ _ Hin) as (q' & Htk & Hq).
  pose proof (Hq (WDestroy x)) as Hqx. rewrite bool_decide_true in Hqx by done. simpl in Hqx.
  destruct (rec_of x s) as [r|] eqn:Hr; [|destruct (Hnone x Hr); lia]. specialize (Hrec x r Hr). rewrite (ro_queue _ _ _ _ Hrec) in Hqx.
  assert (releasing r = true /\ freed r = false) as [Hl Hf] by (destruct (releasing r), (freed r); simpl in Hqx; try lia; done). clear Hqx.
  pose proof (proj1 (ro_zero _ _ _ _ Hrec Hf) Hl) as Hz. pose proof (ro_count _ _ _ _ Hrec Hf) as Hc. rewrite Hz in Hc.
  assert (hold x s = 0%nat /\ fd_node r = false) as [Hh Hn] by (destruct (fd_node r); simpl in Hc; split; try done; lia). rewrite Hh in Hrec.
  set (w0 := mk_ev (tab (xw s)) (chs (xw s)) q' (sys (xw s)) (host (xw s))).
  unfold fire. rewrite (bind_run (dequeue _) _ _ tt w0) by (unfold dequeue; by rewrite Htk).
  unfold destroy_task. rewrite (bind_run _ _ w0 r w0) by (by apply get_xprt_run). rewrite decide_False by lia.
  set (r1 := (r <| xp_refs := (xp_refs r) <| xp_flags := Z.ldiff (xp_flags (xp_refs r)) SVC_XPRT_FLAG_CLOSE |> |>)).
  rewrite (bind_run (postclear_flags _ _) _ w0 (xp_flags (xp_refs r)) (wput x r1 q' w0))
    by (unfold postclear_flags; by rewrite (bind_run _ _ _ _ _ (get_xprt_run x r w0 Hr Hf))).
  assert (rec_ok (queue (xw s)) 0 x r1) as Hok1 by (apply (rec_ok_same _ _ _ r); [done|done|by apply ldiff_bit|by apply ldiff_bit|done..]).
  assert (releasing r1 = true) as Hl1 by (by rewrite <- Hl; apply ldiff_bit).
  assert (forall r2, fd_node r2 = false -> table_ok (max_connections params) 0 (on_xprts (<[x := r2]>) (tab (xw s))) l) as Ht2
    by (intros r2 Hn2; eapply table_update; [done|exact Hr|congruence|congruence]).
  match goal with |- context [bind (if ?d then ?a else ?b) ?k ?w] =>
    assert (exists w1 r2, (if d then a else b) w = Some (tt, w1) /\ tab w1 = on_xprts (<[x := r2]>) (tab (xw s)) /\ queue w1 = q' /\
      (r2 = r1 \/ r2 = (r1 <| xp_fd := RPC_ANYFD |>))) as (w1 & r2 & Hw1 & Htab & Hqueue & Hr2) end.
  { case_decide; [|by eexists _, r1; split_and!; [..|left]].
    set (w2 := mk_ev (tab (wput x r1 q' w0)) (chs w0) q' (sys w0 ++ [SysClose (xp_fd r)]) (e_close (xp_fd r) (host w0))).
    rewrite (bind_run (close_fd _) _ _ tt w2) by done. unfold mod_xprt. rewrite (bind_run _ _ w2 r1 w2) by (apply get_xprt_run; [apply lookup_insert_eq|done]).
    rewrite set_xprt_run. eexists _, _. split_and!; [reflexivity| |done|by right]. cbn. unfold on_xprts. cbn. by rewrite insert_insert_eq. }
  rewrite (bind_run _ _ _ _ _ Hw1).
  destruct (freed_ok s w1 x r2 l Hs Hh) as [Hfree Hok].
  1: rewrite Htab; apply Ht2; by destruct Hr2 as [-> | ->].
  1: by rewrite Htab.
  1: by rewrite Hqueue.
  1: destruct Hr2 as [-> | ->]; [done|]; by apply (rec_ok_same _ _ _ r1).
  1-3: by destruct Hr2 as [-> | ->].
  assert (parent_of x s = xp_parent r) as Hpo by (unfold parent_of; by rewrite Hr). rewrite Hpo in *.
  destruct (xp_parent r) as [p|]; [|rewrite (bind_run _ _ _ _ _ eq_refl), Hfree; by eexists].
  specialize (Hpar p eq_refl). assert (p <> x) as Hne by (intros ->; lia). set (w2 := wput x (r2 <| freed := true |>) (queue w1) w1) in *.
  destruct (held_rec (mk_xsys w2 (held s)) p Hok Hpar) as (rp & Hrp & Hfp & _).
  destruct (svc_release_run (mk_xsys w2 (held s)) p rp (hold p s - 1) Hok Hrp) as (w3 & Hrel & Hok3 & _); [change (hold p s = S (hold p s - 1)); lia|exact Hroom|].
  rewrite (free_release_commute x p r2 rp w1 w3 Hne); [by eexists|by rewrite Htab; apply lookup_insert_eq|by destruct Hr2 as [-> | ->]| |done|done].
  unfold rec_of in Hrp. simpl in Hrp. by rewrite lookup_insert_ne in Hrp.
Qed.

(** An accepted connection refers to its listener. *)
Lemma fire_parent s x p : xsys_ok s -> room s -> enabled (AParent x p) s -> exists s', fire (AParent x p) s = Some s' /\ xsys_ok s'.
Proof using.
  intros Hs Hroom (Hx & Hp & Hne & _). destruct (held_rec s x Hs Hx) as (r & Hr & Hf & Hl & Hrec). destruct (held_rec s p Hs Hp) as (rp & Hrp & _).
  destruct (svc_ref_run s p rp Hs Hrp (or_introl Hp) Hroom) as (w & Hw & Hok). unfold fire. rewrite (bind_run _ _ _ _ _ Hw).
  assert (xprts (tab w) !! x = Some r) as Hxw.
  { unfold svc_ref, mod_xprt in Hw. destruct (held_rec s p Hs Hp) as (rp' & Hrp' & Hfp & _). rewrite (bind_run _ _ _ _ _ (get_xprt_run p rp' (xw s) Hrp' Hfp)) in Hw.
    rewrite set_xprt_run in Hw. injection Hw as <-. simpl. by rewrite lookup_insert_ne. }
  set (s1 := holding p (S (hold p s)) s w) in *. unfold mod_xprt. rewrite (bind_run _ _ _ _ _ (get_xprt_run x r w Hxw Hf)), set_xprt_run.
  eexists. split; [reflexivity|]. change (xsys_ok (mk_xsys (wput x (r <| xp_parent := Some p |>) (queue (xw s1)) (xw s1)) (held s1))).
  apply (ok_held _ _ x). apply (put_ok s1 x r); [done..|]. apply (rec_ok_same _ _ _ r); try done. by apply Hok.
Qed.

(** ** Every order of actions *)

Lemma fire_ok a s : xsys_ok s -> room s -> enabled a s -> exists s', fire a s = Some s' /\ xsys_ok s'.
Proof using Hmax.
  intros Hs Hroom Ha. destruct a as [fd|fd setup|x|x|x p|x|x|x|x|x|x|x].
  - by apply fire_read.
  - by apply fire_write.
  - by apply fire_check.
  - by apply fire_ready.
  - by apply fire_parent.
  - destruct (held_rec s x Hs Ha) as (r & Hr & _). destruct (svc_ref_run s x r Hs Hr (or_introl Ha) Hroom) as (w & Hw & Hok).
    unfold fire. rewrite Hw. by eexists.
  - destruct (held_rec s x Hs Ha) as (r & Hr & _). simpl in Ha. destruct (svc_release_run s x r (hold x s - 1) Hs Hr) as (w & Hw & Hok & _); [lia|done|].
    unfold fire. rewrite Hw. by eexists.
  - by apply fire_mark.
  - by apply fire_unlink.
  - by apply fire_work.
  - by apply fire_start.
  - by apply fire_free.
Qed.

Lemma fire_all_ok acts s : xsys_ok s -> legal acts s -> exists s', fire_all acts s = Some s' /\ xsys_ok s'.
Proof using Hmax.
  revert s. induction acts as [|a acts IH]; intros s Hs Hl; [by exists s|]. destruct Hl as (Ha & Hroom & Hl).
  destruct (fire_ok a s Hs Hroom Ha) as (s1 & Hf & Hs1). cbn [fire_all]. rewrite Hf. by apply IH, Hl.
Qed.

End Steps.

(** ** The start *)

Section Start.
  Context {E : Type} `{EvHost E} (params : svc_params).

Lemma sum_replicate n p : part_nodes p = [] -> part_sum (replicate n p) = 0%nat.
Proof. intros Hp. induction n; [done|]. unfold part_sum in *. simpl. by rewrite Hp. Qed.

Lemma init_run (w : evworld E) : 0 <= max_connections params -> tab w = no_table -> queue w = [] ->
  exists w0, svc_xprt_init w = Some (0, w0) /\ xsys_ok params (mk_xsys w0 ∅).
Proof.
  intros Hm Ht Hq. unfold svc_xprt_init. rewrite (bind_run _ _ _ false w) by (unfold gets; by rewrite Ht). eexists. split; [reflexivity|].
  set (p := mk_part [] 0). assert (part_sum (replicate (Z.to_nat SVC_XPRT_PARTITIONS) p) = 0%nat) as Hsum by (by apply sum_replicate).
  split_and!.
  - exists (replicate (Z.to_nat SVC_XPRT_PARTITIONS) p). split; cbn [xw tab on_tab upd initialized trees xprts next_xprt connections]; rewrite ?Ht; try done.
    + intros ix q [-> _]%lookup_replicate. constructor.
    + intros ix q x [-> _]%lookup_replicate Hx. by apply elem_of_nil in Hx.
  - intros x r Hr. unfold rec_of in Hr. cbn in Hr. by rewrite Ht in Hr.
  - intros x _. cbn. by rewrite Hq.
Qed.


End Start.

(** ** Lookup *)

Section Lookup.
  Context {E : Type} `{EvHost E} (params : svc_params).

Lemma room_holding x n (s : xsys E) w : room s -> Z.of_nat n < 2 ^ 30 -> room (holding x n s w).
Proof. intros Hr Hn y. destruct (decide (y = x)) as [->|]; [by rewrite hold_holding|rewrite hold_other by done; apply Hr]. Qed.

(** A lookup that finds a transport refers to it first. *)
Lemma lookup_read_run (s : xsys E) fd x r : xsys_ok params s -> room s -> rec_of x s = Some r -> fd_node r = true -> xp_fd r = fd -> freed r = false ->
  let r' := (r <| xp_refs := svc_ref_it (xp_refs r) |>) in
  lookup_read fd (xw s) = Some (Some x, wput x r' (queue (xw s)) (xw s)) /\ xsys_ok params (holding x (S (hold x s)) s (wput x r' (queue (xw s)) (xw s))).
Proof.
  intros Hs Hroom Hr Hn Hfd Hf r'. pose proof Hs as ([l Ht] & _). destruct (tree_lookup_run params 0 fd (xw s) l Ht) as (o & Hlk & Ho).
  assert (registered (tab (xw s)) fd x) as Hreg by (by exists r). destruct o as [y|]; [|by destruct (Ho x)].
  assert (y = x) as -> by (by eapply registered_unique).
  destruct (svc_ref_run params s x r Hs Hr (or_intror Hn) Hroom) as (w & Hw & Hok).
  assert (svc_ref x (xw s) = Some (tt, wput x r' (queue (xw s)) (xw s))) as Hw'.
  { unfold svc_ref, mod_xprt. by rewrite (bind_run _ _ _ _ _ (get_xprt_run x r _ Hr Hf)). }
  rewrite Hw' in Hw. injection Hw as <-. split; [|done]. unfold lookup_read. rewrite (bind_run _ _ _ _ _ Hlk). by rewrite (bind_run _ _ _ _ _ Hw').
Qed.

(** C14: What a lookup returns.  The transport of the descriptor, with one more reference
    and not locked, unless it is being destroyed, then nothing and no reference; as long
    as it is locked the lookup waits.  For a descriptor without a transport: nothing, or with a
    setup function a new one, locked, unless the limit is reached. *)
Theorem lookup_exact (s : xsys E) fd setup :
  0 <= max_connections params < 2 ^ 32 - 1 -> xsys_ok params s -> (forall x, Z.of_nat (hold x s) < 2 ^ 30 - 1) ->
  (forall x r, rec_of x s = Some r -> fd_node r = true -> xp_fd r = fd ->
     if recv_locked r then svc_xprt_lookup params fd setup (xw s) = None
     else exists w, svc_xprt_lookup params fd setup (xw s) = Some (if destroying r then None else Some x, w) /\
       xsys_ok params (holding x (hold x s + Nat.b2n (negb (destroying r))) s w) /\
       (destroying r = false -> exists r', xprts (tab w) !! x = Some r' /\ recv_locked r' = false)) /\
  ((forall x, ~ registered (tab (xw s)) fd x) ->
     match setup with
     | None => svc_xprt_lookup params fd setup (xw s) = Some (None, xw s)
     | Some st =>
         if decide (connections (tab (xw s)) = max_connections params) then svc_xprt_lookup params fd setup (xw s) = Some (None, xw s)
         else exists x w r, svc_xprt_lookup params fd setup (xw s) = Some (Some x, w) /\ rec_of x s = None /\
           xsys_ok params (holding x (setup_refs st) s w) /\ xprts (tab w) !! x = Some r /\ fd_node r = true /\ xp_fd r = fd /\ recv_locked r = true
     end).
Proof.
  intros Hm Hs Hroom1. assert (room s) as Hroom by (intros x; specialize (Hroom1 x); lia).
  pose proof Hs as ([l Ht] & Hrec & _). unfold svc_xprt_lookup, svc_xprt_init_failure.
  rewrite !(bind_run _ _ (xw s) false (xw s)) by (unfold bind, gets; by rewrite (to_init _ _ _ _ Ht)). split.
  - intros x r Hr Hn Hfd. specialize (Hrec x r Hr). destruct (alive_counts _ _ _ _ Hrec) as [Hf Hl]; [tauto|].
    destruct (lookup_read_run s fd x r Hs Hroom Hr Hn Hfd Hf) as [Hrd Hs1]. rewrite (bind_run _ _ _ _ _ Hrd). set (r' := (r <| xp_refs := _ |>)) in *.
    destruct (recv_locked r) eqn:Hlock.
    + unfold lookup_check, rpc_dplx_rli, bind. rewrite get_wput by done. change (recv_locked r') with (recv_locked r). by rewrite Hlock.
    + destruct (lookup_check_run params Hm _ x r' Hs1) as (w & Hw & Hok & Hr'); [apply room_holding; [done|] |by rewrite hold_holding; lia|apply lookup_insert_eq|done|].
      { specialize (Hroom1 x). lia. }
      exists w. change (destroying r') with (destroying r) in *. split; [done|]. rewrite hold_holding, holding_holding in Hok. split.
      * destruct (destroying r); simpl in Hok |- *; [by rewrite Nat.sub_0_r in Hok; rewrite Nat.add_0_r|by rewrite Nat.add_1_r].
      * intros Hd. destruct (Hr' Hd) as (r2 & ? & ? & _). by exists r2.
  - intros Hreg. destruct (tree_lookup_run params 0 fd (xw s) l Ht) as (o & Hlk & Ho). destruct o as [y|]; [by destruct (Hreg y)|].
    rewrite (bind_run (lookup_read fd) _ _ None (xw s)) by (unfold lookup_read; by rewrite (bind_run _ _ _ _ _ Hlk)). destruct setup as [st|]; [|done].
    assert (lookup_write params fd st (xw s) = lookup_create params fd st (xw s)) as He by (unfold lookup_write; by rewrite (bind_run _ _ _ _ _ Hlk)).
    destruct (lookup_create_run params Hm s fd st Hs Hreg) as (o & w & Hc & Hres). rewrite <- He in Hc. rewrite !(bind_run _ _ _ _ _ Hc). destruct o as [|x|]; [|..].
    + destruct Hres as [-> Heq]. by rewrite decide_True.
    + destruct Hres as (Hlt & Hnone & Hok & t & sec & -> & Hx). rewrite decide_False by lia. eexists x, _, _.
      split_and!; [done|done|done|simpl; by rewrite Hx, lookup_insert_eq|done|done|done].
    + done.
Qed.

End Lookup.

(** ** The theorems at concrete actions *)

Section Checks.
  Context {E : Type} `{EvHost E} (params : svc_params).

Definition enabledb (a : xaction) (s : xsys E) : bool :=
  let h x := bool_decide (0 < hold x s)%nat in
  let rec x p := match rec_of x s with Some r => p r | None => false end in
  match a with
  | ARead _ | AWrite _ _ => true
  | ACheck x => h x && rec x (fun r => negb (recv_locked r))
  | AReady x | ARef x | ARelease x | AWork x => h x
  | AParent x p => h x && h p && bool_decide (x <> p) && bool_decide (parent_of x s = None)
  | AMark x => rec x (fun r => has_ops r && (h x || fd_node r))
  | AUnlink x => rec x (fun r => destroying r && fd_node r)
  | AStart x => rec x (fun r => ioq_working r && negb (releasing r))
  | AFree x => bool_decide (WDestroy x ∈ queue (xw s)) && match parent_of x s with Some p => h p | None => true end
  end.

Lemma enabledb_enabled a s : enabledb a s = true -> enabled a s.
Proof.
  destruct a; cbn [enabledb enabled]; rewrite ?andb_true_iff, ?bool_decide_eq_true; try done.
  all: try (destruct (rec_of x s) as [r|]; try (intuition congruence); rewrite ?andb_true_iff, ?orb_true_iff, ?bool_decide_eq_true, ?negb_true_iff; try (intros [? ?]); by eauto).
  intros [Hin Hp]. split; [done|]. intros p Hpar. rewrite Hpar in Hp. by apply bool_decide_eq_true in Hp.
Qed.

Definition roomb (s : xsys E) : bool := bool_decide (map_Forall (fun _ n => Z.of_nat n < 2 ^ 30) (held s)).

Lemma roomb_room s : roomb s = true -> room s.
Proof.
  intros Hr%bool_decide_eq_true x. unfold hold. destruct (held s !! x) as [n|] eqn:Hn; [by apply (Hr x)|]. simpl. lia.
Qed.

Fixpoint legalb (acts : list xaction) (s : xsys E) : bool :=
  match acts with
  | [] => true
  | a :: acts => enabledb a s && roomb s && match fire params a s with Some s' => legalb acts s' | None => true end
  end.

Lemma legalb_legal acts s : legalb acts s = true -> legal params acts s.
Proof.
  revert s. induction acts as [|a acts IH]; intros s; [done|]. cbn [legalb legal]. rewrite !andb_true_iff. intros [[Ha Hr] Hl].
  split_and!; [by apply enabledb_enabled|by apply roomb_room|]. intros s' Hs. rewrite Hs in Hl. by apply IH.
Qed.

End Checks.

(** A listener is set up and a connection that refers to it, which is found while it is
    destroyed and freed after its last use; then the listener goes. *)
Definition demo_actions : list xaction :=
  [AWrite 4 svc_vc_xprt_setup; AReady 2; AWrite 5 svc_vc_xprt_setup; AReady 3; AParent 3 2; ARelease 3; ARead 5; ACheck 3; AWork 3; AStart 3; AMark 3; ARead 5;
   AMark 2; AUnlink 2; ARelease 2; ARelease 2; AUnlink 3; ARelease 3; ACheck 3; ARelease 3; AFree 3; AFree 2].

Definition demo_started : evworld ev_script :=
  match svc_xprt_init (fresh_world demo_script) with Some (_, w) => w | None => fresh_world demo_script end.

Lemma demo_legal : legal demo_params demo_actions (mk_xsys demo_started ∅).
Proof. apply legalb_legal. by vm_compute. Qed.


(** A connection with a new descriptor. *)
Lemma lookup_exact_witness :
  exists x w r, svc_xprt_lookup demo_params 5 (Some svc_vc_xprt_setup) demo_started = Some (Some x, w) /\
    xprts (tab w) !! x = Some r /\ fd_node r = true /\ xp_fd r = 5 /\ recv_locked r = true.
Proof.
  destruct (init_run demo_params (fresh_world demo_script)) as (w0 & Hi & Hok); [cbn; lia|done..|].
  change (svc_xprt_init (fresh_world demo_script)) with (Some (0, demo_started)) in Hi. injection Hi as <-.
  destruct (lookup_exact demo_params (mk_xsys demo_started ∅) 5 (Some svc_vc_xprt_setup)) as [_ Hnew]; [cbn; lia|done|done|].
  destruct Hnew as (x & w & r & Hrun & _ & _ & Hr & Hn & Hfd & Hl); [|by exists x, w, r].
  intros x (r & Hr & _). by cbn in Hr.
Defined.

(** What has become of them. *)
Lemma demo_freed : (fire_all demo_params demo_actions (mk_xsys demo_started ∅) ≫= fun s => Some (freed <$> rec_of 2 s, freed <$> rec_of 3 s)) = Some (Some true, Some true).
Proof. by vm_compute. Qed.

(** An idle transport is destroyed by the walk over the table without a reference: in time,
    and after another thread has destroyed it, when what is marked has been freed. *)
Definition demo_idle : list xaction :=
  [AWrite 4 svc_vc_xprt_setup; AReady 2; ARelease 2; AMark 2; AUnlink 2; ARelease 2; AFree 2].

Lemma idle_destruction : legalb demo_params demo_idle (mk_xsys demo_started ∅) = true /\
  (fire_all demo_params demo_idle (mk_xsys demo_started ∅) ≫= fun s => Some (freed <$> rec_of 2 s)) = Some (Some true).
Proof. by vm_compute. Qed.

Lemma late_destruction : fire_all demo_params (demo_idle ++ [AMark 2]) (mk_xsys demo_started ∅) = None.
Proof. by vm_compute. Qed.
