(* ===== verification/SvcRqst.v ===== *)
(** * Event channels ([src/svc_rqst.c] of [libntirpc])

    An event channel is an [epoll] descriptor with a pair of sockets to wake it up.
    Transports are registered with a channel by their descriptor; the loop of the
    channel waits for events, looks the transports up, hands one event to the thread
    that waits and the others to the pool, and submits itself again.  [SVC_RECV] and
    [svc_ioq_write], which a task calls, are parameters here. *)
From S2P Require Import Prelude RbtreeProps Posix SvcDg EvState SvcXprt.

Open Scope Z_scope.
Open Scope dnfs_scope.

(** ** Constants *)

Definition SVC_RQST_TIMEOUT_MS : Z := 29 * 1000.
Definition SVC_RQST_WAKEUPS : Z := 1023.
Definition SVC_RQST_FLAG_NONE : Z := 0.
Definition SVC_RQST_FLAG_SHUTDOWN : Z := SVC_XPRT_FLAG_DESTROYING.
Definition SVC_RQST_FLAG_CHAN_AFFINITY : Z := 4096.
Definition SVC_RQST_FLAG_MASK : Z := SVC_RQST_FLAG_CHAN_AFFINITY.
Definition SVC_RQST_FLAG_EPOLL : Z := 524288.
Definition RPC_DPLX_LOCKED : Z := 1048576.

Definition EPOLLIN : Z := 1.
Definition EPOLLOUT : Z := 4.
Definition EPOLLRDHUP : Z := 8192.
Definition EPOLLONESHOT : Z := 2 ^ 30.
Definition EPOLLET : Z := 2 ^ 31.

Definition E_INVAL : Z := 22.
Definition E_INTR : Z := 4.

Definition flag (flags bits : Z) : bool := bool_decide (Z.land flags bits <> 0).

Definition timespec_ms (ts : Z * Z) : Z := fst ts * 1000 + (snd ts + 999999) `quot` 1000000.

Definition timespecadd (a b : Z * Z) : Z * Z :=
  let sec := fst a + fst b in
  let nsec := snd a + snd b in
  if decide (1000000000 <= nsec) then (sec + 1, nsec - 1000000000) else (sec, nsec).

(** [svc_rqst_rec_init], on zeroed memory. *)
Definition svc_rqst_rec_init : svc_rqst_rec := mk_rqst [] (-1) (-1) (2 ^ 32 - 1) SVC_EVENT_FDSET (-1) (0, 0) false 0 false 0 0.

Definition on_srr (f : list svc_rqst_rec -> list svc_rqst_rec) (c : chan_set) : chan_set :=
  mk_chans (f (srr c)) (max_id c) (next_id c) (evchan_id c) (round_robin c) (wakeups c) (clean_active c) (send_ioqs c) (clnt_reqs c).

Section Rqst.
  Context {E : Type} `{EvHost E} (params : svc_params).
  Abbreviation EV := (ST (evworld E)).

(** ** Access *)

Definition get_chan (c : nat) : EV svc_rqst_rec := fun w =>
  match srr (chs w) !! c with Some r => Some (r, w) | None => None end.

Definition set_chan (c : nat) (r : svc_rqst_rec) : EV unit := modify (on_chs (on_srr (<[c := r]>))).

Definition mod_chan (c : nat) (f : svc_rqst_rec -> svc_rqst_rec) : EV unit := r <- get_chan c ;; set_chan c (f r).

(** A pointer that is dereferenced. *)
Definition need {A} (o : option A) : EV A := match o with Some a => ret a | None => abort end.

Definition when (b : bool) (m : EV unit) : EV unit := if b then m else ret tt.

Definition epoll_ctl (epfd : Z) (op : epoll_op) (fd : Z) (ev : epoll_event) : EV Z :=
  code <- ask (e_epoll_ctl epfd op fd ev) ;;
  note_call (SysEpollCtl epfd op fd (ev_events ev) (ev_fd ev) code) ;;
  ret code.

Definition ev_sig (fd sig : Z) : EV unit :=
  ask (fun h => (tt, e_signal fd sig h)) ;; note_call (SysSignal fd sig).

Definition consume_ev_sig_nb (fd : Z) : EV unit := ask (fun h => (tt, e_consume fd h)).

(** ** Channels *)

Definition svc_rqst_rec_destroy (c : nat) : EV unit :=
  r <- get_chan c ;;
  when (sv1_added r) (code <- epoll_ctl (epoll_fd r) EPOLL_CTL_DEL (sv1 r) (mk_event (fst (ctrl_ev r)) (snd (ctrl_ev r))) ;; ret tt) ;;
  when (bool_decide (0 <= sv0 r)) (close_fd (sv0 r) ;; mod_chan c (fun r => r <| sv0 := -1 |>)) ;;
  when (bool_decide (0 <= sv1 r)) (close_fd (sv1 r) ;; mod_chan c (fun r => r <| sv1 := -1 |>)) ;;
  when (bool_decide (0 < epoll_fd r)) (close_fd (epoll_fd r) ;; mod_chan c (fun r => r <| epoll_fd := -1 |>)).

Definition svc_rqst_init (channels : Z) : EV unit :=
  l <- gets (fun w => srr (chs w)) ;;
  match l with
  | _ :: _ => ret tt
  | [] => modify (on_chs (fun c => c <| max_id := channels |> <| next_id := channels |>
                                     <| srr := replicate (Z.to_nat channels) svc_rqst_rec_init |>))
  end.

Definition add_refs (c : nat) (n : Z) : EV unit := mod_chan c (fun r => r <| ev_refcnt := i32 (ev_refcnt r + n) |>).

Definition svc_rqst_lookup_chan (chan_id : Z) : EV (option nat) :=
  max <- gets (fun w => max_id (chs w)) ;;
  if decide (max <= chan_id) then ret None
  else
    let c := Z.to_nat chan_id in
    r <- get_chan c ;;
    if decide (ev_refcnt r <= 0) then ret None else add_refs c 1 ;; ret (Some c).

Definition svc_rqst_release (c : nat) : EV unit :=
  add_refs c (-1) ;;
  r <- get_chan c ;;
  when (bool_decide (ev_refcnt r <= 0)) (svc_rqst_rec_destroy c).

Fixpoint release_times (n : nat) (c : nat) : EV unit :=
  match n with O => ret tt | S n => svc_rqst_release c ;; release_times n c end.

Definition set_next_id (n : Z) : EV unit := modify (on_chs (fun c => c <| next_id := u32 n |>)).

(** The system calls for a new channel: the error. *)
Definition open_evchan (c : nat) : EV Z :=
  sv <- ask e_socketpair ;;
  match sv with
  | inl errno => ret errno
  | inr (a, b) =>
      note_call (SysSocketpair a b) ;;
      mod_chan c (fun r => r <| sv0 := a |> <| sv1 := b |> <| ev_type := SVC_EVENT_EPOLL |>
                             <| chan_max_events := max_events params |> <| events_held := true |>) ;;
      epfd <- ask (e_epoll_create (max_events params)) ;;
      match epfd with
      | inl _ => mod_chan c (fun r => r <| epoll_fd := -1 |> <| events_held := false |>) ;; ret E_INVAL
      | inr fd =>
          note_call (SysEpollCreate fd) ;;
          mod_chan c (fun r => r <| epoll_fd := fd |> <| ctrl_ev := (Z.lor EPOLLIN EPOLLRDHUP, b) |>) ;;
          code <- epoll_ctl fd EPOLL_CTL_ADD b (mk_event (Z.lor EPOLLIN EPOLLRDHUP) b) ;;
          if decide (code <> 0) then ret code
          else mod_chan c (fun r => r <| sv1_added := true |>) ;; ret 0
      end
  end.

(** The error, and what is stored in [chan_id]. *)
Definition svc_rqst_new_evchan (flags : Z) : EV (Z * option Z) :=
  next <- gets (fun w => next_id (chs w)) ;;
  if decide (next = 0) then
    id <- gets (fun w => evchan_id (chs w)) ;;
    set_next_id id ;;
    ret (0, Some id)
  else
    let n_id := next - 1 in
    let c := Z.to_nat n_id in
    set_next_id n_id ;;
    r <- get_chan c ;;
    add_refs c 1 ;;
    if decide (0 < ev_refcnt r) then ret (0, Some n_id)
    else
      let ref_rec := ev_refcnt r + 1 in
      code <- open_evchan c ;;
      if decide (code = 0) then
        mod_chan c (fun r => r <| id_k := n_id |> <| ev_flags := Z.land (Z.lor flags SVC_RQST_FLAG_EPOLL) SVC_RQST_FLAG_MASK |>
                               <| call_expires := [] |>) ;;
        add_refs c 1 ;;
        work_pool_submit (WLoop c) ;;
        ret (0, Some n_id)
      else
        set_next_id (n_id + 1) ;;
        release_times (Z.to_nat ref_rec) c ;;
        ret (code, None).

(** ** Events of a transport *)

Definition svc_rqst_unhook_events (x : positive) (c : nat) (flags : Z) : EV Z :=
  r <- get_xprt x ;;
  ch <- get_chan c ;;
  match ev_type ch with
  | SVC_EVENT_FDSET => ret E_INVAL
  | SVC_EVENT_EPOLL =>
      code <- (if flag flags SVC_XPRT_FLAG_ADDED_RECV then
                 code <- epoll_ctl (epoll_fd ch) EPOLL_CTL_DEL (xp_fd r) (event_recv r) ;;
                 if decide (code <> 0) then ret code
                 else postclear_flags x SVC_XPRT_FLAG_ADDED_RECV ;; ret 0
               else ret E_INVAL) ;;
      if flag flags SVC_XPRT_FLAG_ADDED_SEND then
        code <- epoll_ctl (epoll_fd ch) EPOLL_CTL_DEL (xp_fd_send r) (event_send r) ;;
        if decide (code <> 0) then ret code
        else
          postclear_flags x SVC_XPRT_FLAG_ADDED_SEND ;;
          close_fd (xp_fd_send r) ;;
          mod_xprt x (fun r => r <| xp_fd_send := -1 |>) ;;
          ret 0
      else ret code
  end.

Definition svc_rqst_rearm_events_locked (x : positive) (flags : Z) : EV Z :=
  r <- get_xprt x ;;
  if flag (xp_flags (xp_refs r)) (Z.lor flags SVC_XPRT_FLAG_DESTROYED) then ret 0
  else
    c <- need (ev_p r) ;;
    ch <- get_chan c ;;
    if flag (ev_flags ch) SVC_RQST_FLAG_SHUTDOWN then ret 0
    else
      postset_flags x flags ;;
      match ev_type ch with
      | SVC_EVENT_FDSET => ret E_INVAL
      | SVC_EVENT_EPOLL =>
          code <- (if flag flags SVC_XPRT_FLAG_ADDED_RECV then
                     let ev := mk_event (Z.lor EPOLLIN EPOLLONESHOT) (ev_fd (event_recv r)) in
                     mod_xprt x (fun r => r <| event_recv := ev |>) ;;
                     code <- epoll_ctl (epoll_fd ch) EPOLL_CTL_MOD (xp_fd r) ev ;;
                     if decide (code <> 0) then postclear_flags x SVC_XPRT_FLAG_ADDED_RECV ;; svc_release x ;; ret code
                     else ret 0
                   else ret E_INVAL) ;;
          if flag flags SVC_XPRT_FLAG_ADDED_SEND then
            let ev := mk_event (Z.lor EPOLLONESHOT (Z.lor EPOLLOUT EPOLLET)) (ev_fd (event_send r)) in
            mod_xprt x (fun r => r <| event_send := ev |>) ;;
            code <- epoll_ctl (epoll_fd ch) EPOLL_CTL_MOD (xp_fd_send r) ev ;;
            if decide (code <> 0) then postclear_flags x SVC_XPRT_FLAG_ADDED_SEND ;; svc_release x ;; ret code
            else ret 0
          else ret code
      end.

(** [svc_rqst_rearm_events] of [svc_internal.h]. *)
Definition svc_rqst_rearm_events (x : positive) (flags : Z) : EV Z :=
  rpc_dplx_rli x ;;
  code <- svc_rqst_rearm_events_locked x flags ;;
  rpc_dplx_rui x ;;
  ret code.

Definition svc_rqst_hook_events (x : positive) (c : nat) (flags : Z) : EV Z :=
  postset_flags x flags ;;
  r <- get_xprt x ;;
  ch <- get_chan c ;;
  code <- match ev_type ch with
          | SVC_EVENT_FDSET => ret E_INVAL
          | SVC_EVENT_EPOLL =>
              code <- (if flag flags SVC_XPRT_FLAG_ADDED_RECV then
                         let ev := mk_event (Z.lor EPOLLONESHOT EPOLLIN) (xp_fd r) in
                         mod_xprt x (fun r => r <| event_recv := ev |>) ;;
                         code <- epoll_ctl (epoll_fd ch) EPOLL_CTL_ADD (xp_fd r) ev ;;
                         if decide (code <> 0) then postclear_flags x SVC_XPRT_FLAG_ADDED_RECV ;; ret code
                         else ret 0
                       else ret E_INVAL) ;;
              if flag flags SVC_XPRT_FLAG_ADDED_SEND then
                let ev := mk_event (Z.lor EPOLLONESHOT (Z.lor EPOLLOUT EPOLLET)) (xp_fd r) in
                mod_xprt x (fun r => r <| event_send := ev |>) ;;
                code <- epoll_ctl (epoll_fd ch) EPOLL_CTL_ADD (xp_fd_send r) ev ;;
                if decide (code <> 0) then postclear_flags x SVC_XPRT_FLAG_ADDED_SEND ;; ret code
                else ret 0
              else ret code
          end ;;
  ev_sig (sv0 ch) 0 ;;
  ret code.

Definition added : Z := Z.lor SVC_XPRT_FLAG_ADDED_RECV SVC_XPRT_FLAG_ADDED_SEND.

Definition svc_rqst_unhook (x : positive) : EV unit :=
  r <- get_xprt x ;;
  flags <- postclear_flags x added ;;
  when (flag flags added) (c <- need (ev_p r) ;; svc_rqst_unhook_events x c flags ;; ret tt).

Definition svc_rqst_unreg (x : positive) (c : nat) : EV unit :=
  svc_rqst_unhook x ;;
  r <- get_xprt x ;;
  when (bool_decide (ev_p r = Some c)) (mod_xprt x (fun r => r <| ev_p := None |>) ;; svc_rqst_release c).

Definition svc_rqst_xprt_send_complete (x : positive) : EV unit :=
  r <- get_xprt x ;;
  match ev_p r with
  | None => ret tt
  | Some c => svc_rqst_unhook_events x c SVC_XPRT_FLAG_ADDED_SEND ;; ret tt
  end.

Definition svc_rqst_evchan_write (x : positive) (xioq : positive) (has_blocked : bool) : EV Z :=
  r <- get_xprt x ;;
  match ev_p r with
  | None => ret ENOENT
  | Some c =>
      mod_xprt x (fun r => r <| xioq_send := Some xioq |>) ;;
      ch <- get_chan c ;;
      code <- match ev_type ch with
              | SVC_EVENT_EPOLL =>
                  if decide (xp_fd_send r = -1) then
                    new <- ask (e_dup (xp_fd r)) ;;
                    match new with
                    | inl errno => ret errno
                    | inr fd => note_call (SysDup (xp_fd r) fd) ;; mod_xprt x (fun r => r <| xp_fd_send := fd |>) ;; ret 0
                    end
                  else ret 0
              | SVC_EVENT_FDSET => ret 0
              end ;;
      if decide (code <> 0) then ret code
      else
        rpc_dplx_rli x ;;
        code <- (if has_blocked then svc_rqst_rearm_events_locked x SVC_XPRT_FLAG_ADDED_SEND
                 else svc_rqst_hook_events x c SVC_XPRT_FLAG_ADDED_SEND) ;;
        rpc_dplx_rui x ;;
        ret code
  end.

(** ** Registration *)

Definition svc_rqst_evchan_reg (chan_id : Z) (x : positive) (flags : Z) : EV Z :=
  let bits := Z.lor SVC_XPRT_FLAG_ADDED_RECV (Z.land flags SVC_XPRT_FLAG_UREG) in
  id <- (if decide (chan_id = 0) then
           res <- svc_rqst_new_evchan SVC_RQST_FLAG_CHAN_AFFINITY ;;
           match snd res with Some id => modify (on_chs (fun c => c <| evchan_id := id |>)) | None => ret tt end ;;
           if decide (fst res <> 0) then ret (inl (fst res))
           else id <- gets (fun w => evchan_id (chs w)) ;; ret (inr id)
         else ret (inr chan_id)) ;;
  match id with
  | inl code => ret code
  | inr id =>
      o <- svc_rqst_lookup_chan id ;;
      match o with
      | None => ret ENOENT
      | Some c =>
          when (negb (flag flags RPC_DPLX_LOCKED)) (rpc_dplx_rli x) ;;
          r <- get_xprt x ;;
          if decide (ev_p r = Some c) then
            when (negb (flag flags RPC_DPLX_LOCKED)) (rpc_dplx_rui x) ;; ret 0
          else
            match ev_p r with Some c' => svc_rqst_unreg x c' | None => ret tt end ;;
            mod_xprt x (fun r => r <| ev_p := Some c |>) ;;
            code <- svc_rqst_hook_events x c bits ;;
            when (negb (flag flags RPC_DPLX_LOCKED)) (rpc_dplx_rui x) ;;
            ret code
      end
  end.

Definition svc_rqst_xprt_register (newx : positive) (x : option positive) : EV Z :=
  c <- match x with Some x => r <- get_xprt x ;; ret (ev_p r) | None => ret None end ;;
  match c with
  | None =>
      id <- gets (fun w => evchan_id (chs w)) ;;
      svc_rqst_evchan_reg id newx SVC_RQST_FLAG_CHAN_AFFINITY
  | Some c =>
      ch <- get_chan c ;;
      if flag (ev_flags ch) SVC_RQST_FLAG_CHAN_AFFINITY then svc_rqst_evchan_reg (id_k ch) newx SVC_RQST_FLAG_NONE
      else
        id <- gets (fun w => round_robin (chs w)) ;;
        code <- svc_rqst_evchan_reg id newx SVC_RQST_FLAG_NONE ;;
        if decide (code <> 0) then ret code
        else
          res <- svc_rqst_new_evchan SVC_RQST_FLAG_NONE ;;
          match snd res with Some id => modify (on_chs (fun c => c <| round_robin := id |>)) | None => ret tt end ;;
          ret (fst res)
  end.

Definition svc_rqst_xprt_unregister (x : positive) (flags : Z) : EV unit :=
  r <- get_xprt x ;;
  when (negb (flag flags RPC_DPLX_LOCKED)) (rpc_dplx_rli x) ;;
  svc_xprt_clear x ;;
  when (negb (flag flags RPC_DPLX_LOCKED)) (rpc_dplx_rui x) ;;
  match ev_p r with
  | None => ret tt
  | Some c => svc_rqst_unreg x c
  end.

(** [svc_vc_unlink_it], called with the flags of the transport, which have 16 bits. *)
Definition svc_vc_unlink_it (x : positive) : EV unit := svc_rqst_xprt_unregister x 0.

(** [SVC_DESTROY]. *)
Definition svc_xprt_destroy (x : positive) : EV unit := svc_destroy_with svc_vc_unlink_it x.

(** How [svc_vc_recv] ends, and only that, as far as events go: after a failure of the
    connection it destroys the transport, otherwise it asks for the next event.  What it reads
    before and what it does with a record is in [SvcVc]. *)
Definition svc_vc_recv_end (died : bool) (x : positive) : EV unit :=
  if died then svc_xprt_destroy x
  else
    code <- svc_rqst_rearm_events x SVC_XPRT_FLAG_ADDED_RECV ;;
    when (bool_decide (code <> 0)) (svc_xprt_destroy x).

(** ** Idle transports *)

Definition svc_rqst_clean_func (now timeout : Z) (x : positive) : EV bool :=
  r <- get_xprt x ;;
  if negb (has_ops r) then ret false
  else if flag (xp_flags (xp_refs r)) (Z.lor SVC_XPRT_FLAG_DESTROYED SVC_XPRT_FLAG_UREG) then ret false
  else if decide (now - recv_sec r < timeout) then ret false
  else svc_xprt_destroy x ;; ret true.

Definition add_active (n : Z) : EV unit := modify (on_chs (fun c => c <| clean_active := u32 (clean_active c + n) |>)).

Definition svc_rqst_clean_idle (fuel : nat) (timeout : Z) : EV unit :=
  active <- gets (fun w => clean_active (chs w)) ;;
  (if decide (0 < active) then ret tt
   else
     add_active 1 ;;
     if decide (timeout <= 0) then ret tt
     else
       now <- ask e_clock ;;
       svc_xprt_foreach fuel (svc_rqst_clean_func (fst now) timeout) ;; ret tt) ;;
  add_active (-1).

(** ** Tasks *)

Section Tasks.
  Context (xp_recv svc_ioq_write : positive -> EV unit).

Definition svc_rqst_xprt_task_recv (x : positive) : EV unit :=
  clear_working x ;;
  r <- get_xprt x ;;
  when (bool_decide (1 < xp_refcnt (xp_refs r)) && negb (flag (xp_flags (xp_refs r)) SVC_XPRT_FLAG_DESTROYED))
    (now <- ask e_clock ;;
     mod_xprt x (fun r => r <| recv_sec := fst now |>) ;;
     xp_recv x) ;;
  svc_release x.

(** The flag [IOQ_FLAG_WORKING] of a queue of replies. *)
Definition get_send_ioq (q : positive) : EV (bool * option positive) := fun w =>
  match send_ioqs (chs w) !! q with Some i => Some (i, w) | None => None end.

Definition set_send_ioq (q : positive) (i : bool * option positive) : EV unit :=
  modify (on_chs (fun c => c <| send_ioqs := <[q := i]> (send_ioqs c) |>)).

Definition svc_rqst_xprt_task_send (q : positive) : EV unit :=
  i <- get_send_ioq q ;;
  x <- need (snd i) ;;
  set_send_ioq q (false, snd i) ;;
  r <- get_xprt x ;;
  when (bool_decide (1 < xp_refcnt (xp_refs r)) && negb (flag (xp_flags (xp_refs r)) SVC_XPRT_FLAG_DESTROYED)) (svc_ioq_write x) ;;
  svc_release x.

(** What an event is handed to: the entry of the transport or that of a queue of replies. *)
Inductive event_ioq := IoqRecv | IoqSend (q : option positive).

Definition svc_rqst_epoll_event (c : nat) (ev : epoll_event) : EV (option work) :=
  ch <- get_chan c ;;
  if decide (ev_fd ev = sv1 ch) then consume_ev_sig_nb (sv1 ch) ;; ret None
  else
    o <- svc_xprt_lookup params (ev_fd ev) None ;;
    match o with
    | None => ret None
    | Some x =>
        r <- get_xprt x ;;
        let kind := if flag (ev_events ev) EPOLLIN then Some (SVC_XPRT_FLAG_ADDED_RECV, IoqRecv)
                    else if flag (ev_events ev) EPOLLOUT then Some (SVC_XPRT_FLAG_ADDED_SEND, IoqSend (xioq_send r))
                    else None in
        match kind with
        | None => svc_release x ;; ret None
        | Some (ev_flag, ioq) =>
            flags <- postclear_flags x ev_flag ;;
            r <- get_xprt x ;;
            if bool_decide (1 < xp_refcnt (xp_refs r)) && flag flags ev_flag && negb (flag flags SVC_XPRT_FLAG_DESTROYED) then
              busy <- match ioq with
                      | IoqRecv => postset_working x
                      | IoqSend q => q <- need q ;; i <- get_send_ioq q ;; set_send_ioq q (true, snd i) ;; ret (fst i)
                      end ;;
              if (busy : bool) then svc_release x ;; ret None
              else
                match ioq with
                | IoqRecv => ret (Some (WRecv x))
                | IoqSend q => q <- need q ;; set_send_ioq q (true, Some x) ;; ret (Some (WSend x q))
                end
            else svc_release x ;; ret None
        end
    end.

(** Up to the first event that gives work: it and the events after it. *)
Fixpoint first_event (c : nat) (evs : list epoll_event) : EV (option (work * list epoll_event)) :=
  match evs with
  | [] => ret None
  | ev :: evs =>
      k <- svc_rqst_epoll_event c ev ;;
      match k with
      | Some k => ret (Some (k, evs))
      | None => first_event c evs
      end
  end.

Fixpoint more_events (c : nat) (evs : list epoll_event) : EV unit :=
  match evs with
  | [] => ret tt
  | ev :: evs =>
      k <- svc_rqst_epoll_event c ev ;;
      match k with Some k => work_pool_submit k | None => ret tt end ;;
      more_events c evs
  end.

Definition svc_rqst_epoll_events (c : nat) (evs : list epoll_event) : EV (option work) :=
  o <- first_event c evs ;;
  match o with
  | None => ret None
  | Some (k, evs) =>
      more_events c evs ;;
      add_refs c 1 ;;
      work_pool_submit (WLoop c) ;;
      ret (Some k)
  end.

(** ** The loop *)

Definition get_req (cc : positive) : EV clnt_req := fun w =>
  match clnt_reqs (chs w) !! cc with Some r => Some (r, w) | None => None end.

Definition set_req (cc : positive) (r : clnt_req) : EV unit :=
  modify (on_chs (fun c => c <| clnt_reqs := <[cc := r]> (clnt_reqs c) |>)).

Definition CLNT_REQ_FLAG_EXPIRING : Z := 1.

Definition svc_rqst_expire_cmpf (m : gmap positive clnt_req) (lhs rhs : positive) : Z :=
  let ms p := match m !! p with Some r => cc_expire_ms r | None => 0 end in
  if decide (ms lhs < ms rhs) then -1 else if decide (ms lhs = ms rhs) then 0 else 1.

(** Calls that have expired are handed on; the time to wait for the next one. *)
Fixpoint expire_calls (fuel : nat) (c : nat) (expire_ms : Z) : EV Z :=
  ch <- get_chan c ;;
  match head (call_expires ch) with
  | None => ret SVC_RQST_TIMEOUT_MS
  | Some cc =>
      r <- get_req cc ;;
      if decide (expire_ms < cc_expire_ms r) then ret (i32 (cc_expire_ms r - expire_ms))
      else
        match fuel with
        | O => abort
        | S fuel =>
            set_chan c (ch <| call_expires := base.filter (fun y => y <> cc) (call_expires ch) |>) ;;
            set_req cc (r <| cc_flags := Z.ldiff (cc_flags r) CLNT_REQ_FLAG_EXPIRING |> <| cc_expire_ms := 0 |>
                          <| cc_refcnt := i32 (cc_refcnt r + 1) |>) ;;
            work_pool_submit (WExpire cc) ;;
            expire_calls fuel c expire_ms
        end
  end.

(** [svc_rqst_expire_insert]: a call is put at the next time that is free. *)
Fixpoint expire_repeat (fuel : nat) (cc : positive) (c : nat) : EV unit :=
  ch <- get_chan c ;;
  m <- gets (fun w => clnt_reqs (chs w)) ;;
  match find_same (svc_rqst_expire_cmpf m) cc (call_expires ch) with
  | None => set_chan c (ch <| call_expires := place (svc_rqst_expire_cmpf m) cc (call_expires ch) |>)
  | Some _ =>
      match fuel with
      | O => abort
      | S fuel =>
          r <- get_req cc ;;
          set_req cc (r <| cc_expire_ms := i32 (cc_expire_ms r + 1) |>) ;;
          expire_repeat fuel cc c
      end
  end.

Definition svc_rqst_expire_ms (to : Z * Z) : EV Z :=
  now <- ask e_clock ;;
  ret (i32 (timespec_ms (timespecadd now to))).

Definition svc_rqst_expire_insert (fuel : nat) (cc : positive) (cc_timeout : Z * Z) : EV unit :=
  ms <- svc_rqst_expire_ms cc_timeout ;;
  r <- get_req cc ;;
  set_req cc (r <| cc_expire_ms := ms |> <| cc_flags := CLNT_REQ_FLAG_EXPIRING |>) ;;
  expire_repeat fuel cc (cc_chan r) ;;
  ch <- get_chan (cc_chan r) ;;
  ev_sig (sv0 ch) 0.

Definition svc_rqst_expire_remove (cc : positive) : EV unit :=
  r <- get_req cc ;;
  mod_chan (cc_chan r) (fun ch => ch <| call_expires := base.filter (fun y => y <> cc) (call_expires ch) |>) ;;
  ch <- get_chan (cc_chan r) ;;
  ev_sig (sv0 ch) 0.

(** One round of the loop: whether it goes on, or ends finished or not. *)
Inductive loop_next := Again | Ended (finished : bool).

Definition set_wakeups (f : Z -> Z) : EV unit := modify (on_chs (fun c => c <| wakeups := u32 (f (wakeups c)) |>)).

(** An event in the hands of the thread of the loop. *)
Definition run_event (k : work) : EV unit :=
  match k with
  | WRecv x => svc_rqst_xprt_task_recv x
  | WSend _ q => svc_rqst_xprt_task_send q
  | _ => ret tt
  end.

Definition epoll_round (fuel : nat) (c : nat) : EV loop_next :=
  now <- ask e_clock ;;
  ch <- get_chan c ;;
  timeout_ms <- expire_calls (length (call_expires ch)) c (i32 (timespec_ms now)) ;;
  note_call (SysEpollWait (epoll_fd ch) timeout_ms) ;;
  res <- ask (e_epoll_wait (epoll_fd ch) (chan_max_events ch) timeout_ms) ;;
  ch <- get_chan c ;;
  if flag (ev_flags ch) SVC_RQST_FLAG_SHUTDOWN then ret (Ended true)
  else
    match res with
    | inl errno => if decide (errno = E_INTR) then ret Again else ret (Ended true)
    | inr [] => set_wakeups (fun n => n + 1) ;; ret Again
    | inr evs =>
        set_wakeups (fun n => n + Z.of_nat (length evs)) ;;
        o <- svc_rqst_epoll_events c evs ;;
        match o with
        | None => ret Again
        | Some k =>
            run_event k ;;
            n <- gets (fun w => wakeups (chs w)) ;;
            set_wakeups (fun n => Z.land n SVC_RQST_WAKEUPS) ;;
            when (bool_decide (SVC_RQST_WAKEUPS < n)) (svc_rqst_clean_idle fuel (idle_timeout params)) ;;
            ret (Ended false)
        end
    end.

Fixpoint epoll_rounds (rounds fuel : nat) (c : nat) : EV (option bool) :=
  match rounds with
  | O => ret None
  | S rounds =>
      next <- epoll_round fuel c ;;
      match next with
      | Again => epoll_rounds rounds fuel c
      | Ended finished => ret (Some finished)
      end
  end.

Definition svc_complete_task (c : nat) (finished : bool) : EV unit :=
  when finished (add_refs c (-1)) ;;
  svc_rqst_release c.

(** The loop up to a number of rounds: whether it ended. *)
Definition svc_rqst_epoll_loop (rounds fuel : nat) (c : nat) : EV bool :=
  o <- epoll_rounds rounds fuel c ;;
  match o with
  | None => ret false
  | Some finished =>
      when finished (ch <- get_chan c ;; close_fd (epoll_fd ch) ;; mod_chan c (fun r => r <| events_held := false |>)) ;;
      svc_complete_task c finished ;;
      ret true
  end.

End Tasks.

(** ** Signals and shutdown *)

Definition svc_rqst_thrd_signal (chan_id flags : Z) : EV Z :=
  o <- svc_rqst_lookup_chan chan_id ;;
  match o with
  | None => ret ENOENT
  | Some c => ch <- get_chan c ;; ev_sig (sv0 ch) flags ;; svc_rqst_release c ;; ret 0
  end.

Definition svc_rqst_delete_evchan (chan_id : Z) : EV Z :=
  o <- svc_rqst_lookup_chan chan_id ;;
  match o with
  | None => ret ENOENT
  | Some c =>
      mod_chan c (fun r => r <| ev_flags := Z.lor (ev_flags r) SVC_RQST_FLAG_SHUTDOWN |>) ;;
      ch <- get_chan c ;;
      ev_sig (sv0 ch) SVC_RQST_FLAG_SHUTDOWN ;;
      svc_rqst_release c ;;
      ret 0
  end.

Fixpoint delete_evchans (n : nat) : EV unit :=
  match n with
  | O => ret tt
  | S n => svc_rqst_delete_evchan (Z.of_nat n) ;; delete_evchans n
  end.

Definition svc_rqst_shutdown : EV unit :=
  max <- gets (fun w => max_id (chs w)) ;;
  delete_evchans (Z.to_nat max).

(** [svc_shutdown] of [svc.c], without the shutdown of the pool. *)
Definition svc_shutdown (fuel : nat) : EV unit :=
  svc_xprt_shutdown svc_vc_unlink_it fuel ;;
  svc_rqst_shutdown.

End Rqst.
