(* ===== verification/EvRun.v ===== *)
(** * Running the code of the event loop

    Rewriting rules that run an operation on a world in which the record of one transport
    is known. *)
From S2P Require Import Prelude SvcDg EvState SvcXprt SvcXprtProps SvcXprtSteps SvcRqst.

Open Scope Z_scope.
Open Scope dnfs_scope.

Section Run.
  Context {E : Type} `{EvHost E}.
  Abbreviation EV := (ST (evworld E)).

(** The transport [x] has the record [r]. *)
Definition wst (x : positive) (r : dplx_rec) (t : xprt_table) (c : chan_set) (q : list work) (y : list syscall) (e : E) : evworld E :=
  mk_ev (on_xprts (<[x := r]>) t) c q y e.

Lemma wst_world x r (w : evworld E) : xprts (tab w) !! x = Some r -> w = wst x r (tab w) (chs w) (queue w) (sys w) (host w).
Proof. intros Hx. destruct w as [[i n t m nx] c q y e]. unfold wst, on_xprts. simpl in *. by rewrite insert_id. Qed.

Lemma wst_lookup x r t c q y e : xprts (tab (wst x r t c q y e)) !! x = Some r.
Proof. apply lookup_insert_eq. Qed.

Lemma bind_bind {A B C} (m : EV A) (k : A -> EV B) (l : B -> EV C) w : bind (bind m k) l w = bind m (fun a => bind (k a) l) w.
Proof. unfold bind. by destruct (m w) as [[]|]. Qed.

Lemma bind_ret {A B} (a : A) (k : A -> EV B) w : bind (ret a) k w = k a w.
Proof. done. Qed.

Lemma ret_end {A} (m : EV A) w : bind m ret w = m w.
Proof. unfold bind. by destruct (m w) as [[]|]. Qed.

Section Known.
  Context (x : positive) (r : dplx_rec) (t : xprt_table) (c : chan_set) (q : list work) (y : list syscall) (e : E).
  Abbreviation W r := (wst x r t c q y e).

Lemma run_get {B} (k : dplx_rec -> EV B) : freed r = false -> bind (get_xprt x) k (W r) = k r (W r).
Proof. intros Hf. apply bind_run. apply get_xprt_run; [apply wst_lookup|done]. Qed.

Lemma run_set {B} r' (k : unit -> EV B) : bind (set_xprt x r') k (W r) = k tt (W r').
Proof. apply bind_run. unfold set_xprt, modify, wst, on_tab, on_xprts. simpl. by rewrite insert_insert_eq. Qed.

Lemma run_mod {B} f (k : unit -> EV B) : freed r = false -> bind (mod_xprt x f) k (W r) = k tt (W (f r)).
Proof using t c q y e. intros Hf. unfold mod_xprt. rewrite bind_bind, run_get by done. apply run_set. Qed.

Lemma run_ask {A B} (f : E -> A * E) (k : A -> EV B) : bind (ask f) k (W r) = k (fst (f e)) (wst x r t c q y (snd (f e))).
Proof. unfold bind, ask, wst. simpl. by destruct (f e). Qed.

Lemma run_note {B} s (k : unit -> EV B) : bind (note_call s) k (W r) = k tt (wst x r t c q (y ++ [s]) e).
Proof. done. Qed.

Lemma run_submit {B} j (k : unit -> EV B) : bind (work_pool_submit j) k (W r) = k tt (wst x r t c (q ++ [j]) y e).
Proof. done. Qed.

Lemma run_chs {B} f (k : unit -> EV B) : bind (modify (on_chs f)) k (W r) = k tt (wst x r t (f c) q y e).
Proof. done. Qed.

Lemma run_get_chan {B} i ch (k : svc_rqst_rec -> EV B) : srr c !! i = Some ch -> bind (get_chan i) k (W r) = k ch (W r).
Proof. intros Hi. apply bind_run. unfold get_chan. simpl. by rewrite Hi. Qed.

Lemma run_rli {B} (k : unit -> EV B) : freed r = false -> recv_locked r = false -> bind (rpc_dplx_rli x) k (W r) = k tt (W (r <| recv_locked := true |>)).
Proof using t c q y e. intros Hf Hl. unfold rpc_dplx_rli. rewrite bind_bind, run_get, Hl by done. apply run_set. Qed.

Lemma run_rui {B} (k : unit -> EV B) : freed r = false -> bind (rpc_dplx_rui x) k (W r) = k tt (W (r <| recv_locked := false |>)).
Proof. intros Hf. by apply run_mod. Qed.

Lemma run_postset {B} b (k : Z -> EV B) : freed r = false ->
  bind (postset_flags x b) k (W r) = k (xp_flags (xp_refs r)) (W (r <| xp_refs := (xp_refs r) <| xp_flags := Z.lor (xp_flags (xp_refs r)) b |> |>)).
Proof using t c q y e. intros Hf. unfold postset_flags. rewrite bind_bind, run_get by done. cbv zeta. by rewrite bind_bind, run_set. Qed.

Lemma run_postclear {B} b (k : Z -> EV B) : freed r = false ->
  bind (postclear_flags x b) k (W r) = k (xp_flags (xp_refs r)) (W (r <| xp_refs := (xp_refs r) <| xp_flags := Z.ldiff (xp_flags (xp_refs r)) b |> |>)).
Proof using t c q y e. intros Hf. unfold postclear_flags. rewrite bind_bind, run_get by done. cbv zeta. by rewrite bind_bind, run_set. Qed.

Lemma run_release {B} (k : unit -> EV B) : freed r = false -> 1 < xp_refcnt (xp_refs r) < 2 ^ 31 ->
  bind (svc_release x) k (W r) = k tt (W (r <| xp_refs := (xp_refs r) <| xp_refcnt := xp_refcnt (xp_refs r) - 1 |> |>)).
Proof using t c q y e.
  intros Hf Hc. unfold svc_release. rewrite bind_bind, run_get by done. cbv zeta. rewrite bind_bind, run_set, release_more by done. by rewrite decide_False by (simpl; lia).
Qed.

Lemma run_epoll_ctl {B} epfd op fd ev (k : Z -> EV B) :
  bind (epoll_ctl epfd op fd ev) k (W r) =
  k (fst (e_epoll_ctl epfd op fd ev e))
    (wst x r t c q (y ++ [SysEpollCtl epfd op fd (ev_events ev) (ev_fd ev) (fst (e_epoll_ctl epfd op fd ev e))]) (snd (e_epoll_ctl epfd op fd ev e))).
Proof. unfold epoll_ctl, bind, ask, note_call, modify, wst. simpl. by destruct (e_epoll_ctl epfd op fd ev e). Qed.

End Known.

End Run.

(** ** Operations that change little *)

Section Similar.
  Context {E : Type} `{EvHost E}.

(** Only whether events are asked for, and the descriptor for sending, differ. *)
Record similar (r r' : dplx_rec) : Prop := mk_similar {
  si_fd : xp_fd r' = xp_fd r;
  si_refcnt : xp_refcnt (xp_refs r') = xp_refcnt (xp_refs r);
  si_bits : forall n, 2 <= n -> Z.testbit (xp_flags (xp_refs r')) n = Z.testbit (xp_flags (xp_refs r)) n;
  si_unlinked : xp_unlinked (xp_refs r') = xp_unlinked (xp_refs r);
  si_destroyed : xp_destroyed (xp_refs r') = xp_destroyed (xp_refs r);
  si_parent : xp_parent r' = xp_parent r;
  si_ops : has_ops r' = has_ops r;
  si_node : fd_node r' = fd_node r;
  si_locked : recv_locked r' = recv_locked r;
  si_ev_p : ev_p r' = ev_p r;
  si_working : ioq_working r' = ioq_working r;
  si_freed : freed r' = freed r }.

Lemma similar_refl r : similar r r.
Proof. by split. Qed.

Lemma similar_trans r1 r2 r3 : similar r1 r2 -> similar r2 r3 -> similar r1 r3.
Proof.
  intros H1 H2. destruct H1, H2. split; try congruence. intros n Hn. by rewrite si_bits1, si_bits0.
Qed.

Lemma similar_clear r b : (forall n, 2 <= n -> Z.testbit b n = false) ->
  similar r (r <| xp_refs := (xp_refs r) <| xp_flags := Z.ldiff (xp_flags (xp_refs r)) b |> |>).
Proof. intros Hb. split; try done. intros n Hn. apply ldiff_bit; [lia|by apply Hb]. Qed.

Lemma rec_ok_similar q h x r r' : rec_ok q h x r -> similar r r' -> rec_ok q h x r'.
Proof.
  intros Hok Hs. apply (rec_ok_same q h x r); [done|apply Hs|apply (si_bits _ _ Hs); lia|apply (si_bits _ _ Hs); lia|apply Hs..|].
  by rewrite (si_ops _ _ Hs).
Qed.

(** A small constant has no high bits. *)
Lemma added_bits b n : b = SVC_XPRT_FLAG_ADDED_RECV \/ b = SVC_XPRT_FLAG_ADDED_SEND \/ b = added -> 2 <= n -> Z.testbit b n = false.
Proof.
  intros Hb Hn. assert (0 <= b < 2 ^ 2) as Hr by (destruct Hb as [->|[->| ->]]; vm_compute; done).
  apply (Z.bounded_iff_bits_nonneg 2 b); lia.
Qed.

End Similar.

(** One step, and as many as possible. *)
Ltac ev_step :=
  first [ rewrite bind_bind | rewrite bind_ret | rewrite run_get by done | rewrite run_set | rewrite run_mod by done | rewrite run_ask | rewrite run_note
        | rewrite run_submit | rewrite run_chs | rewrite run_postset by done | rewrite run_postclear by done | rewrite run_epoll_ctl
        | rewrite run_rui by done | rewrite run_rli by done ].
Ltac ev_run := repeat ev_step.

Section Little.
  Context {E : Type} `{EvHost E}.

(** Whatever the answers, taking a transport out of a channel changes nothing else of it. *)
Lemma unhook_events_run x r t c q y (e : E) i ch flags : freed r = false -> srr c !! i = Some ch ->
  exists code r' y' e', svc_rqst_unhook_events x i flags (wst x r t c q y e) = Some (code, wst x r' t c q y' e') /\ similar r r'.
Proof.
  intros Hf Hch. unfold svc_rqst_unhook_events. ev_run. rewrite (run_get_chan _ _ _ _ _ _ _ i ch) by done.
  destruct (ev_type ch); [by eexists _, r, y, e|].
  assert (forall code r0 y0 e0, similar r r0 -> exists code' r' y' e',
    (if flag flags SVC_XPRT_FLAG_ADDED_SEND then
       code <- epoll_ctl (epoll_fd ch) EPOLL_CTL_DEL (xp_fd_send r) (event_send r) ;;
       if decide (code <> 0) then ret code
       else postclear_flags x SVC_XPRT_FLAG_ADDED_SEND ;; close_fd (xp_fd_send r) ;; mod_xprt x (fun r => r <| xp_fd_send := -1 |>) ;; ret 0
     else ret code) (wst x r0 t c q y0 e0) = Some (code', wst x r' t c q y' e') /\ similar r r') as Htail.
  { intros code r0 y0 e0 Hs. assert (freed r0 = false) as Hf0 by (by rewrite (si_freed _ _ Hs)).
    destruct (flag flags SVC_XPRT_FLAG_ADDED_SEND); [|by eexists _, r0, y0, e0]. ev_run. case_decide; [by eexists _, r0, _, _|].
    unfold close_fd. ev_run. eexists _, _, _, _. split; [reflexivity|]. eapply similar_trans; [exact Hs|].
    eapply similar_trans; [apply (similar_clear r0 SVC_XPRT_FLAG_ADDED_SEND); intros; apply added_bits; [tauto|done]|]. by split. }
  destruct (flag flags SVC_XPRT_FLAG_ADDED_RECV); ev_run; [|by apply Htail, similar_refl].
  case_decide; ev_run; apply Htail; [by apply similar_refl|]. apply similar_clear. intros. apply added_bits; [tauto|done].
Qed.

Lemma unhook_run x r t c q y (e : E) i ch : freed r = false -> ev_p r = Some i -> srr c !! i = Some ch ->
  exists r' y' e', svc_rqst_unhook x (wst x r t c q y e) = Some (tt, wst x r' t c q y' e') /\ similar r r'.
Proof.
  intros Hf Hp Hch. unfold svc_rqst_unhook. ev_run. set (r1 := (r <| xp_refs := _ |>)).
  assert (similar r r1) as Hs1 by (apply similar_clear; intros; apply added_bits; [tauto|done]).
  destruct (flag (xp_flags (xp_refs r)) added); cbn [when]; [|by eexists r1, y, e]. rewrite Hp. unfold need. ev_run.
  destruct (unhook_events_run x r1 t c q y e i ch (xp_flags (xp_refs r)) Hf Hch) as (code & r' & y' & e' & Hrun & Hs').
  rewrite (bind_run _ _ _ _ _ Hrun). eexists r', y', e'. split; [done|]. by eapply similar_trans.
Qed.

(** A channel loses a reference. *)
Definition same_chans (i : nat) (c c' : chan_set) : Prop :=
  (forall j, j <> i -> srr c' !! j = srr c !! j) /\ is_Some (srr c' !! i) /\ send_ioqs c' = send_ioqs c.

Lemma mod_chan_run {B} x r t c q y (e : E) i ch f (k : unit -> ST (evworld E) B) : srr c !! i = Some ch ->
  bind (mod_chan i f) k (wst x r t c q y e) = k tt (wst x r t (on_srr (<[i := f ch]>) c) q y e).
Proof. intros Hch. unfold mod_chan. rewrite bind_bind, (run_get_chan _ _ _ _ _ _ _ i ch) by done. done. Qed.

Lemma srr_insert c i ch ch' : srr c !! i = Some ch -> srr (on_srr (<[i := ch']>) c) !! i = Some ch'.
Proof. intros Hch. cbn. apply list_lookup_insert_eq. by eapply lookup_lt_Some. Qed.

Lemma same_chans_insert c i ch ch' : srr c !! i = Some ch -> same_chans i c (on_srr (<[i := ch']>) c).
Proof. intros Hch. split_and!; [|by rewrite (srr_insert c i ch ch')|done]. intros j Hj. cbn. by rewrite list_lookup_insert_ne. Qed.

Lemma same_chans_trans i c1 c2 c3 : same_chans i c1 c2 -> same_chans i c2 c3 -> same_chans i c1 c3.
Proof. intros (H1 & _ & H2) (H3 & H4 & H5). split_and!; [|done|congruence]. intros j Hj. by rewrite H3, H1. Qed.

Lemma same_chans_refl i c ch : srr c !! i = Some ch -> same_chans i c c.
Proof. intros Hch. split_and!; [done|by exists ch|done]. Qed.

Lemma close_mod_run {B} x r t c q y (e : E) i b fd f (k : unit -> ST (evworld E) B) : is_Some (srr c !! i) ->
  exists c' y' e', bind (when b (close_fd fd ;; mod_chan i f)) k (wst x r t c q y e) = k tt (wst x r t c' q y' e') /\ same_chans i c c'.
Proof.
  intros [ch Hch]. destruct b; cbn [when]; [|by eexists c, y, e; split; [|eapply same_chans_refl]].
  unfold close_fd. ev_run. rewrite (mod_chan_run _ _ _ _ _ _ _ i ch) by done. eexists _, _, _. split; [done|]. by eapply same_chans_insert.
Qed.

Lemma rec_destroy_run x r t c q y (e : E) i ch : srr c !! i = Some ch ->
  exists c' y' e', svc_rqst_rec_destroy i (wst x r t c q y e) = Some (tt, wst x r t c' q y' e') /\ same_chans i c c'.
Proof.
  intros Hch. unfold svc_rqst_rec_destroy. rewrite (run_get_chan _ _ _ _ _ _ _ i ch) by done.
  assert (exists y0 e0, forall (k : unit -> ST (evworld E) unit),
    bind (when (sv1_added ch) (code <- epoll_ctl (epoll_fd ch) EPOLL_CTL_DEL (sv1 ch) (mk_event (fst (ctrl_ev ch)) (snd (ctrl_ev ch))) ;; ret tt)) k (wst x r t c q y e) =
    k tt (wst x r t c q y0 e0)) as (y0 & e0 & H0).
  { destruct (sv1_added ch); cbn [when]; [|by exists y, e]. eexists _, _. intros k. ev_run. done. }
  rewrite H0. edestruct (close_mod_run (B:=unit)) as (c1 & y1 & e1 & -> & S1); [by exists ch|].
  edestruct (close_mod_run (B:=unit)) as (c2 & y2 & e2 & -> & S2); [apply S1|].
  rewrite <- (ret_end (when _ _)). edestruct (close_mod_run (B:=unit)) as (c3 & y3 & e3 & -> & S3); [apply S2|].
  eexists c3, y3, e3. split; [done|]. eapply same_chans_trans; [exact S1|]. by eapply same_chans_trans.
Qed.

Lemma chan_release_run x r t c q y (e : E) i : is_Some (srr c !! i) ->
  exists c' y' e', svc_rqst_release i (wst x r t c q y e) = Some (tt, wst x r t c' q y' e') /\ same_chans i c c'.
Proof.
  intros [ch Hch]. unfold svc_rqst_release, add_refs. rewrite (mod_chan_run _ _ _ _ _ _ _ i ch) by done. set (c1 := on_srr _ c).
  assert (srr c1 !! i = Some (ch <| ev_refcnt := i32 (ev_refcnt ch + -1) |>)) as Hc1 by (by eapply srr_insert).
  assert (same_chans i c c1) as S1 by (by eapply same_chans_insert).
  rewrite (run_get_chan _ _ _ _ _ _ _ i _ _ Hc1). destruct (bool_decide _); cbn [when]; [|by eexists c1, y, e].
  destruct (rec_destroy_run x r t c1 q y e i _ Hc1) as (c2 & y2 & e2 & -> & S2). eexists c2, y2, e2. split; [done|]. by eapply same_chans_trans.
Qed.

(** A transport leaves its channel. *)
Lemma unreg_run x r t c q y (e : E) i : freed r = false -> ev_p r = Some i -> is_Some (srr c !! i) ->
  exists r' c' y' e', svc_rqst_unreg x i (wst x r t c q y e) = Some (tt, wst x (r' <| ev_p := None |>) t c' q y' e') /\ similar r r' /\ same_chans i c c'.
Proof.
  intros Hf Hp [ch Hch]. unfold svc_rqst_unreg. destruct (unhook_run x r t c q y e i ch Hf Hp Hch) as (r' & y' & e' & Hrun & Hs).
  rewrite (bind_run _ _ _ _ _ Hrun). assert (freed r' = false) as Hf' by (by rewrite (si_freed _ _ Hs)). ev_run.
  rewrite bool_decide_true by (by rewrite (si_ev_p _ _ Hs)). cbn [when]. ev_run.
  destruct (chan_release_run x (r' <| ev_p := None |>) t c q y' e' i) as (c2 & y2 & e2 & -> & S2); [by exists ch|]. by eexists r', c2, y2, e2.
Qed.

End Little.
