(* ===== verification/SvcRqstProps.v ===== *)
(** * Event channels: their properties

    What an event does, with which references, and how the task it is handed to ends. *)
From S2P Require Import Prelude RbtreeProps Posix SvcDg EvState SvcXprt SvcXprtProps EvDemo SvcXprtSteps SvcRqst EvRun.

Open Scope Z_scope.
Open Scope dnfs_scope.

(** ** Flags *)

Lemma flag_true f b : flag f b = true <-> Z.land f b <> 0.
Proof. apply bool_decide_eq_true. Qed.

Lemma flag_false f b : flag f b = false <-> Z.land f b = 0.
Proof. unfold flag. rewrite bool_decide_eq_false. destruct (decide (Z.land f b = 0)); tauto. Qed.

Lemma flag_bit f k : 0 <= k -> flag f (2 ^ k) = Z.testbit f k.
Proof. intros Hk. pose proof (land_bit f k Hk) as Hb. destruct (Z.testbit f k); [apply flag_true|apply flag_false; destruct (decide (Z.land f (2 ^ k) = 0))]; intuition congruence. Qed.

Lemma flag_destroyed f : flag f SVC_XPRT_FLAG_DESTROYED = Z.testbit f 5 || Z.testbit f 6.
Proof.
  destruct (flag f SVC_XPRT_FLAG_DESTROYED) eqn:Hf; [apply flag_true in Hf|apply flag_false in Hf]; rewrite destroyed_bits in Hf;
    destruct (Z.testbit f 5), (Z.testbit f 6); intuition congruence.
Qed.

Lemma flag_lor f a b : flag f (Z.lor a b) = flag f a || flag f b.
Proof.
  unfold flag. rewrite Z.land_lor_distr_r. destruct (decide (Z.land f a = 0)) as [Ha|Ha].
  - rewrite Ha, Z.lor_0_l. by rewrite (bool_decide_false (0 <> 0)) by lia.
  - rewrite (bool_decide_true (Z.land f a <> 0)) by done. rewrite bool_decide_true; [done|]. by intros [? ?]%Z.lor_eq_0_iff.
Qed.

(** A record with other flags, counted [n] more. *)
Definition with_flags (r : dplx_rec) (n : Z) (f : Z) : dplx_rec :=
  r <| xp_refs := mk_refs (xp_refcnt (xp_refs r) + n) f (xp_unlinked (xp_refs r)) (xp_destroyed (xp_refs r)) |>.

Section Events.
  Context {E : Type} `{EvHost E} (params : svc_params).
  Implicit Types s : xsys E.

(** No counter is near its limit, and no thread holds the lock of a transport. *)
Definition quiet (s : xsys E) : Prop :=
  (forall x, Z.of_nat (hold x s) < 2 ^ 30 - 1) /\ (forall x r, rec_of x s = Some r -> recv_locked r = false).

Lemma counted s x r : xsys_ok params s -> quiet s -> rec_of x s = Some r -> fd_node r = true ->
  freed r = false /\ releasing r = false /\ 1 <= xp_refcnt (xp_refs r) < 2 ^ 30 + 2 /\ rec_ok (queue (xw s)) (hold x s) x r.
Proof.
  intros (_ & Hrec & _) [Hh _] Hr Hn. specialize (Hrec x r Hr). specialize (Hh x). destruct (alive_counts _ _ _ _ Hrec) as [Hf Hl]; [tauto|].
  split_and!; [done|done|..|done]; rewrite (ro_count _ _ _ _ Hrec Hf), Hn; destruct (ioq_working r && negb (releasing r)); simpl; lia.
Qed.

(** A release that is not the last. *)
Lemma release_some x r q (w : evworld E) : freed r = false -> 1 < xp_refcnt (xp_refs r) < 2 ^ 31 ->
  svc_release x (wput x r q w) = Some (tt, wput x (with_flags r (-1) (xp_flags (xp_refs r))) q w).
Proof.
  intros Hf Hc. unfold svc_release. rewrite (bind_run _ _ _ _ _ (get_wput x r _ _ Hf)). cbv zeta. rewrite release_more by done.
  rewrite (bind_run _ _ _ _ _ (set_xprt_run _ _ _)), decide_False by (simpl; lia). by rewrite wput_wput.
Qed.

Lemma with_flags_twice r n m f g : with_flags (with_flags r n f) m g = with_flags r (n + m) g.
Proof. unfold with_flags. simpl. by rewrite Z.add_assoc. Qed.

(** ** Lookup of an event *)

Definition not_initial (r : dplx_rec) : Z := Z.ldiff (xp_flags (xp_refs r)) SVC_XPRT_FLAG_INITIAL.

Lemma event_lookup s fd x r : xsys_ok params s -> quiet s -> rec_of x s = Some r -> fd_node r = true -> xp_fd r = fd ->
  svc_xprt_lookup params fd None (xw s) =
    Some (if destroying r then None else Some x, wput x (with_flags r (Z.b2z (negb (destroying r))) (not_initial r)) (queue (xw s)) (xw s)).
Proof.
  intros Hs Hq Hr Hn Hfd. destruct (counted s x r Hs Hq Hr Hn) as (Hf & Hl & Hc & Hok). destruct Hq as [Hroom Hlock].
  pose proof Hs as ([l Ht] & _). unfold svc_xprt_lookup, svc_xprt_init_failure.
  rewrite (bind_run _ _ (xw s) false (xw s)) by (unfold bind, gets; by rewrite (to_init _ _ _ _ Ht)).
  destruct (lookup_read_run params s fd x r) as [Hrd _]; [done|intros y; specialize (Hroom y); lia|done..|]. rewrite (bind_run _ _ _ _ _ Hrd). clear Hrd.
  set (r1 := (r <| xp_refs := svc_ref_it (xp_refs r) |>)).
  assert (r1 = with_flags r 1 (xp_flags (xp_refs r))) as Hr1.
  { unfold r1, with_flags, svc_ref_it. cbn. rewrite i32_small; [done|]. unfold is_i32. lia. }
  unfold lookup_check, rpc_dplx_rli. rewrite (bind_run _ _ _ tt (wput x (r1 <| recv_locked := true |>) (queue (xw s)) (xw s))).
  2: { rewrite (bind_run _ _ _ _ _ (get_wput x r1 _ _ Hf)). change (recv_locked r1) with (recv_locked r). rewrite (Hlock x r Hr). by rewrite set_xprt_run, wput_wput. }
  set (r2 := (r1 <| recv_locked := true |>)).
  rewrite (bind_run (postclear_flags _ _) _ _ (xp_flags (xp_refs r)) (wput x (r2 <| xp_refs := (xp_refs r2) <| xp_flags := not_initial r |> |>) (queue (xw s)) (xw s))).
  2: { unfold postclear_flags. rewrite (bind_run _ _ _ _ _ (get_wput x r2 _ _ Hf)). cbv zeta. by rewrite (bind_run _ _ _ _ _ (set_xprt_run _ _ _)), wput_wput. }
  set (r3 := (r2 <| xp_refs := _ |>)).
  assert ((r3 <| recv_locked := false |>) = with_flags r 1 (not_initial r)) as Hr3.
  { unfold r3, r2. rewrite Hr1. destruct r as [? ? [] ? ? ? lk ? ? ? ? ? ? ?]. specialize (Hlock x _ Hr). simpl in Hlock. by subst lk. }
  rewrite (bind_run (rpc_dplx_rui x) _ _ tt (wput x (with_flags r 1 (not_initial r)) (queue (xw s)) (xw s))).
  2: { unfold rpc_dplx_rui, mod_xprt. rewrite (bind_run _ _ _ _ _ (get_wput x r3 _ _ Hf)). by rewrite set_xprt_run, wput_wput, Hr3. }
  unfold destroying. destruct (Z.testbit (xp_flags (xp_refs r)) 5) eqn:Hd.
  - rewrite decide_False by (rewrite destroyed_bits; intuition congruence). rewrite (bind_run _ _ _ tt (wput x (with_flags r 0 (not_initial r)) (queue (xw s)) (xw s))); [done|].
    rewrite release_some by (simpl; lia || done). by rewrite with_flags_twice.
  - by rewrite decide_True by (by apply destroyed_bits).
Qed.

Lemma event_lookup_none s fd : xsys_ok params s -> (forall x, ~ registered (tab (xw s)) fd x) -> svc_xprt_lookup params fd None (xw s) = Some (None, xw s).
Proof.
  intros ([l Ht] & _) Hreg. destruct (tree_lookup_run params 0 fd (xw s) l Ht) as (o & Hlk & Ho). destruct o as [y|]; [by destruct (Hreg y)|].
  unfold svc_xprt_lookup, svc_xprt_init_failure. rewrite (bind_run _ _ (xw s) false (xw s)) by (unfold bind, gets; by rewrite (to_init _ _ _ _ Ht)).
  by rewrite (bind_run (lookup_read fd) _ _ None (xw s)) by (unfold lookup_read; by rewrite (bind_run _ _ _ _ _ Hlk)).
Qed.

(** ** Events *)

(** A record with other flags, of which neither [DESTROYING] nor [RELEASING] changed. *)
Lemma with_flags_ok q h x r f k :
  rec_ok q h x r -> freed r = false -> releasing r = false -> Z.testbit f 5 = Z.testbit (xp_flags (xp_refs r)) 5 ->
  Z.testbit f 6 = Z.testbit (xp_flags (xp_refs r)) 6 -> xp_refcnt (xp_refs r) + k <> 0 -> Z.of_nat h + k = Z.of_nat (Z.to_nat (Z.of_nat h + k)) ->
  rec_ok q (Z.to_nat (Z.of_nat h + k)) x (with_flags r k f).
Proof.
  intros Hok Hf Hl H5 H6 Hne Hk. assert (releasing (with_flags r k f) = releasing r) as Hl' by exact H6.
  assert (destroying (with_flags r k f) = destroying r) as Hd' by exact H5. destruct Hok. split; rewrite ?Hl', ?Hd'; try done.
  - intros _. change (xp_refcnt (xp_refs (with_flags r k f))) with (xp_refcnt (xp_refs r) + k). rewrite ro_count by done.
    change (fd_node (with_flags r k f)) with (fd_node r). change (ioq_working (with_flags r k f)) with (ioq_working r). lia.
  - change (freed (with_flags r k f)) with (freed r). congruence.
  - intros _. rewrite Hl. split; [done|]. by intros ?%Hne.
Qed.

Lemma ok_flags s x r f : xsys_ok params s -> rec_of x s = Some r -> freed r = false -> releasing r = false ->
  Z.testbit f 5 = Z.testbit (xp_flags (xp_refs r)) 5 -> Z.testbit f 6 = Z.testbit (xp_flags (xp_refs r)) 6 ->
  xsys_ok params (mk_xsys (wput x (with_flags r 0 f) (queue (xw s)) (xw s)) (held s)).
Proof.
  intros Hs Hr Hf Hl H5 H6. pose proof Hs as (_ & Hrec & _). specialize (Hrec x r Hr). apply (ok_held _ _ _ x). apply (put_ok params s x r); [done..|].
  replace (hold x s) with (Z.to_nat (Z.of_nat (hold x s) + 0)) by lia. apply with_flags_ok; [done..| |lia].
  rewrite Z.add_0_r. intros H0. apply (ro_zero _ _ _ _ Hrec Hf) in H0. congruence.
Qed.

Lemma two_clear f b n : 0 <= n -> Z.testbit b n = false -> Z.testbit SVC_XPRT_FLAG_INITIAL n = false -> Z.testbit (Z.ldiff (Z.ldiff f SVC_XPRT_FLAG_INITIAL) b) n = Z.testbit f n.
Proof. intros. by rewrite !ldiff_bit. Qed.

(** A transport that an event can hand to a task: it is registered for the descriptor,
    armed, not being destroyed and not in the hands of a task. *)
Definition recv_ready s (fd : Z) (x : positive) : Prop :=
  exists r, rec_of x s = Some r /\ fd_node r = true /\ xp_fd r = fd /\ Z.testbit (xp_flags (xp_refs r)) 0 = true /\ destroying r = false /\ ioq_working r = false.

(** The event is for [x], which is not being destroyed: the references while it is handled. *)
Lemma clear_run x r b q (w : evworld E) : freed r = false ->
  postclear_flags x b (wput x r q w) = Some (xp_flags (xp_refs r), wput x (with_flags r 0 (Z.ldiff (xp_flags (xp_refs r)) b)) q w).
Proof.
  intros Hf. unfold postclear_flags. rewrite (bind_run _ _ _ _ _ (get_wput x r _ _ Hf)). cbv zeta. rewrite (bind_run _ _ _ _ _ (set_xprt_run _ _ _)), wput_wput.
  unfold with_flags. by rewrite Z.add_0_r.
Qed.

Lemma recv_event_run s x r : xsys_ok params s -> quiet s -> rec_of x s = Some r -> fd_node r = true -> destroying r = false ->
  let r1 := with_flags r 1 (not_initial r) in
  let armed := Z.testbit (xp_flags (xp_refs r)) 0 && negb (ioq_working r) in
  exists w,
    (flags <- postclear_flags x SVC_XPRT_FLAG_ADDED_RECV ;;
     r <- get_xprt x ;;
     if bool_decide (1 < xp_refcnt (xp_refs r)) && flag flags SVC_XPRT_FLAG_ADDED_RECV && negb (flag flags SVC_XPRT_FLAG_DESTROYED) then
       busy <- postset_working x ;;
       if (busy : bool) then svc_release x ;; ret None else ret (Some (WRecv x))
     else svc_release x ;; ret None) (wput x r1 (queue (xw s)) (xw s)) = Some (if armed then Some (WRecv x) else None, w) /\
    xsys_ok params (mk_xsys w (held s)) /\
    exists r', xprts (tab w) = <[x := r']> (xprts (tab (xw s))) /\ recv_locked r' = false /\ Z.testbit (xp_flags (xp_refs r')) 0 = false /\
      ioq_working r' = ioq_working r || armed.
Proof.
  intros Hs Hq Hr Hn Hd r1 armed. destruct (counted s x r Hs Hq Hr Hn) as (Hf & Hl & Hc & Hok).
  set (f2 := Z.ldiff (not_initial r) SVC_XPRT_FLAG_ADDED_RECV). set (r2 := with_flags r 1 f2).
  assert (Z.testbit f2 5 = Z.testbit (xp_flags (xp_refs r)) 5) as H5 by (by apply two_clear).
  assert (Z.testbit f2 6 = Z.testbit (xp_flags (xp_refs r)) 6) as H6 by (by apply two_clear).
  assert (Z.testbit f2 0 = false) as H0 by (unfold f2; rewrite Z.ldiff_spec; apply andb_false_r).
  rewrite (bind_run _ _ _ _ _ (clear_run x r1 _ _ _ Hf)). change (Z.ldiff (xp_flags (xp_refs r1)) SVC_XPRT_FLAG_ADDED_RECV) with f2.
  change (with_flags r1 0 f2) with (with_flags (with_flags r 1 (not_initial r)) 0 f2). rewrite with_flags_twice. change (1 + 0) with 1. fold r2. rewrite (bind_run _ _ _ _ _ (get_wput x r2 _ _ Hf)).
  change (xp_flags (xp_refs r1)) with (not_initial r). rewrite flag_destroyed. rewrite (flag_bit _ 0) by lia. unfold not_initial. rewrite !ldiff_bit by done.
  change (Z.testbit (xp_flags (xp_refs r)) 5) with (destroying r). change (Z.testbit (xp_flags (xp_refs r)) 6) with (releasing r). rewrite Hd, Hl.
  rewrite bool_decide_true by (simpl; lia). rewrite andb_true_r. cbn [andb].
  assert (svc_release x (wput x r2 (queue (xw s)) (xw s)) = Some (tt, wput x (with_flags r 0 f2) (queue (xw s)) (xw s))) as Hrel.
  { rewrite release_some by (done || (simpl; lia)). unfold r2. by rewrite with_flags_twice. }
  pose proof (ok_flags s x r f2 Hs Hr Hf Hl H5 H6) as Hsame. pose proof (proj2 Hq x r Hr) as Hlock.
  destruct (Z.testbit (xp_flags (xp_refs r)) 0) eqn:Hb; cbn [andb negb] in armed |- *.
  - unfold postset_working. rewrite (bind_run _ _ _ (ioq_working r) (wput x (r2 <| ioq_working := true |>) (queue (xw s)) (xw s))).
    2: { rewrite (bind_run _ _ _ _ _ (get_wput x r2 _ _ Hf)). by rewrite (bind_run _ _ _ _ _ (set_xprt_run _ _ _)), wput_wput. }
    destruct (ioq_working r) eqn:Hw; subst armed; cbn [negb andb].
    + replace (r2 <| ioq_working := true |>) with r2 by (unfold r2, with_flags; cbn; by rewrite Hw). rewrite (bind_run _ _ _ _ _ Hrel).
      eexists. split; [reflexivity|]. split; [done|]. by exists (with_flags r 0 f2).
    + eexists. split; [reflexivity|]. split; [|by eexists]. apply (ok_held _ _ _ x). apply (put_ok params s x r); [done..|].
      assert (rec_ok (queue (xw s)) (S (hold x s)) x r2) as Hok2.
      { replace (S (hold x s)) with (Z.to_nat (Z.of_nat (hold x s) + 1)) by lia. apply with_flags_ok; [done..|lia|lia]. }
      destruct Hok2. split; try done.
      * intros _. change (xp_refcnt (xp_refs (r2 <| ioq_working := true |>))) with (xp_refcnt (xp_refs r2)). rewrite ro_count by done. change (releasing (r2 <| ioq_working := true |>)) with (releasing r2).
        assert (releasing r2 = false) as -> by (change (Z.testbit f2 6 = false); by rewrite H6). change (ioq_working r2) with (ioq_working r). rewrite Hw. simpl. lia.
      * cbn. congruence.
  - rewrite (bind_run _ _ _ _ _ Hrel). eexists. split; [reflexivity|]. split; [done|]. exists (with_flags r 0 f2). split_and!; [done..|]. by rewrite orb_false_r.
Qed.

(** The invariant concerns the table and the queue. *)
Lemma ok_world s (w : evworld E) : xsys_ok params s -> tab w = tab (xw s) -> queue w = queue (xw s) -> xsys_ok params (mk_xsys w (held s)).
Proof. intros (Ht & Hr & Hn) Etab Eq. unfold xsys_ok, rec_of in *. simpl. rewrite Etab, Eq. by split_and!. Qed.

Lemma ok_holding_world s x n (w w' : evworld E) : xsys_ok params (holding x n s w) -> tab w' = tab w -> queue w' = queue w -> xsys_ok params (holding x n s w').
Proof. intros Hok Et Eq. by apply (ok_world (holding x n s w)). Qed.

Lemma send_event_run s x r i0 : xsys_ok params s -> quiet s -> rec_of x s = Some r -> fd_node r = true -> destroying r = false ->
  (Z.testbit (xp_flags (xp_refs r)) 1 = true -> exists q, xioq_send r = Some q /\ send_ioqs (chs (xw s)) !! q = Some i0) ->
  let r1 := with_flags r 1 (not_initial r) in
  exists o w,
    (flags <- postclear_flags x SVC_XPRT_FLAG_ADDED_SEND ;;
     r' <- get_xprt x ;;
     if bool_decide (1 < xp_refcnt (xp_refs r')) && flag flags SVC_XPRT_FLAG_ADDED_SEND && negb (flag flags SVC_XPRT_FLAG_DESTROYED) then
       busy <- (q <- need (xioq_send r) ;; i <- get_send_ioq q ;; set_send_ioq q (true, snd i) ;; ret (fst i)) ;;
       if (busy : bool) then svc_release x ;; ret None else q <- need (xioq_send r) ;; set_send_ioq q (true, Some x) ;; ret (Some (WSend x q))
     else svc_release x ;; ret None) (wput x r1 (queue (xw s)) (xw s)) = Some (o, w) /\
    match o with
    | None => xsys_ok params (mk_xsys w (held s))
    | Some k => Z.testbit (xp_flags (xp_refs r)) 1 = true /\ (exists q, k = WSend x q /\ xioq_send r = Some q /\ send_ioqs (chs w) !! q = Some (true, Some x)) /\
        fst i0 = false /\ xsys_ok params (holding x (S (hold x s)) s w)
    end.
Proof.
  intros Hs Hq Hr Hn Hd Hsend r1. destruct (counted s x r Hs Hq Hr Hn) as (Hf & Hl & Hc & Hok).
  set (f2 := Z.ldiff (not_initial r) SVC_XPRT_FLAG_ADDED_SEND). set (r2 := with_flags r 1 f2).
  assert (Z.testbit f2 5 = Z.testbit (xp_flags (xp_refs r)) 5) as H5 by (by apply two_clear).
  assert (Z.testbit f2 6 = Z.testbit (xp_flags (xp_refs r)) 6) as H6 by (by apply two_clear).
  rewrite (bind_run _ _ _ _ _ (clear_run x r1 _ _ _ Hf)). change (Z.ldiff (xp_flags (xp_refs r1)) SVC_XPRT_FLAG_ADDED_SEND) with f2.
  change (with_flags r1 0 f2) with (with_flags (with_flags r 1 (not_initial r)) 0 f2). rewrite with_flags_twice. change (1 + 0) with 1. fold r2.
  rewrite (bind_run _ _ _ _ _ (get_wput x r2 _ _ Hf)).
  change (xp_flags (xp_refs r1)) with (not_initial r). rewrite flag_destroyed. rewrite (flag_bit _ 1) by lia. unfold not_initial. rewrite !ldiff_bit by done.
  change (Z.testbit (xp_flags (xp_refs r)) 5) with (destroying r). change (Z.testbit (xp_flags (xp_refs r)) 6) with (releasing r). rewrite Hd, Hl.
  rewrite bool_decide_true by (simpl; lia). rewrite andb_true_r. cbn [andb].
  pose proof (ok_flags s x r f2 Hs Hr Hf Hl H5 H6) as Hsame.
  assert (forall f, svc_release x (on_chs f (wput x r2 (queue (xw s)) (xw s))) = Some (tt, on_chs f (wput x (with_flags r 0 f2) (queue (xw s)) (xw s)))) as Hrel.
  { intros f. change (on_chs f (wput x ?y ?q ?w)) with (wput x y q (on_chs f w)). rewrite release_some by (done || (simpl; lia)). unfold r2. by rewrite with_flags_twice. }
  destruct (Z.testbit (xp_flags (xp_refs r)) 1) eqn:Hb; [|rewrite (bind_run (svc_release x) _ (wput x r2 (queue (xw s)) (xw s)) _ _ (Hrel id)); by eexists _, _].
  destruct (Hsend eq_refl) as (q & -> & Hi). rewrite (bind_run _ _ _ (fst i0) (on_chs (fun c => c <| send_ioqs := <[q := (true, snd i0)]> (send_ioqs c) |>) (wput x r2 (queue (xw s)) (xw s)))).
  2: { unfold need. rewrite (bind_run _ _ _ _ _ eq_refl). by rewrite (bind_run _ _ _ i0 (wput x r2 (queue (xw s)) (xw s))) by (unfold get_send_ioq; cbn [chs wput]; by rewrite Hi). }
  destruct (fst i0) eqn:Hbusy.
  - rewrite (bind_run _ _ _ _ _ (Hrel _)). eexists _, _. split; [reflexivity|]. cbn. by apply (ok_world (mk_xsys (wput x (with_flags r 0 f2) (queue (xw s)) (xw s)) (held s))).
  - unfold need. rewrite (bind_run _ _ _ _ _ eq_refl). eexists _, _. split; [reflexivity|]. cbv beta iota. split; [done|]. split; [|split; [done|]].
    + exists q. split_and!; [done|done|]. cbn. by rewrite lookup_insert_eq.
    + eapply (ok_holding_world s x _ (wput x r2 (queue (xw s)) (xw s))); [|done|done]. apply (put_ok params s x r); [done..|].
      replace (S (hold x s)) with (Z.to_nat (Z.of_nat (hold x s) + 1)) by lia. apply with_flags_ok; [done..|lia|lia].
Qed.

(** C10: What an event does, whatever [epoll_wait] reports.  Nothing freed is touched and
    the counts stay exact.  An event gives a task or nothing; a task has one reference to
    its transport, in the flag or beside it, and the event is disarmed.  For input, it
    gives a task exactly if the descriptor belongs to a transport that is armed, not being
    destroyed and not in the hands of a task. *)
Theorem event_exact s c ch ev :
  xsys_ok params s -> quiet s -> srr (chs (xw s)) !! c = Some ch ->
  (forall x r, rec_of x s = Some r -> Z.testbit (xp_flags (xp_refs r)) 1 = true ->
     exists q i, xioq_send r = Some q /\ send_ioqs (chs (xw s)) !! q = Some i) ->
  exists o w, svc_rqst_epoll_event params c ev (xw s) = Some (o, w) /\
    match o with
    | None => xsys_ok params (mk_xsys w (held s))
    | Some (WRecv x) => xsys_ok params (mk_xsys w (held s)) /\
        exists r, xprts (tab w) !! x = Some r /\ ioq_working r = true /\ Z.testbit (xp_flags (xp_refs r)) 0 = false
    | Some (WSend x q) => xsys_ok params (holding x (S (hold x s)) s w) /\ send_ioqs (chs w) !! q = Some (true, Some x)
    | Some _ => False
    end /\
    (ev_fd ev <> sv1 ch -> flag (ev_events ev) EPOLLIN = true -> forall x, o = Some (WRecv x) <-> recv_ready s (ev_fd ev) x).
Proof.
  intros Hs Hq Hch Hsend. unfold svc_rqst_epoll_event. rewrite (bind_run _ _ (xw s) ch (xw s)) by (unfold get_chan; by rewrite Hch).
  case_decide as Hsig.
  { eexists _, _. split; [reflexivity|]. split; [by apply (ok_world s)|]. by intros []. }
  pose proof Hs as ([l Ht] & _). destruct (tree_lookup_run params 0 (ev_fd ev) (xw s) l Ht) as (o & _ & Ho). destruct o as [x|].
  2: { rewrite (bind_run _ _ _ _ _ (event_lookup_none s _ Hs Ho)). eexists _, _. split; [reflexivity|]. split; [by apply (ok_world s)|].
       intros _ _ y. split; [done|]. intros (r & Hr & Hn & Hfd & _). destruct (Ho y). by exists r. }
  destruct Ho as (r & Hr & Hn & Hfd). rewrite (bind_run _ _ _ _ _ (event_lookup s _ x r Hs Hq Hr Hn Hfd)).
  destruct (counted s x r Hs Hq Hr Hn) as (Hf & Hl & Hc & Hok).
  assert (forall y, recv_ready s (ev_fd ev) y -> y = x /\ Z.testbit (xp_flags (xp_refs r)) 0 && negb (ioq_working r) = true /\ destroying r = false) as Honly.
  { intros y (r' & Hr' & Hn' & Hfd' & Hb & Hd & Hw). assert (y = x) as -> by (eapply (registered_unique params); [exact Ht|by exists r'|by exists r]).
    unfold rec_of in Hr'. rewrite Hr in Hr'. injection Hr' as <-. by rewrite Hb, Hw. }
  destruct (destroying r) eqn:Hd.
  { eexists _, _. split; [reflexivity|]. split; [by apply (ok_flags s x r); try done; apply ldiff_bit|]. intros _ _ y. split; [done|]. by intros (_ & _ & ?)%Honly. }
  cbn [negb Z.b2z]. rewrite (bind_run _ _ _ _ _ (get_wput x (with_flags r 1 (not_initial r)) _ _ Hf)). cbv zeta. destruct (flag (ev_events ev) EPOLLIN) eqn:Hin.
  - destruct (recv_event_run s x r Hs Hq Hr Hn Hd) as (w & Hrun & Hok' & r' & Hx & Hlk & Hb & Hw).
    eexists _, w. split; [exact Hrun|]. destruct (Z.testbit (xp_flags (xp_refs r)) 0 && negb (ioq_working r)) eqn:Harm.
    + split; [split; [done|]; exists r'; rewrite Hx, lookup_insert_eq, Hw, orb_true_r; done|]. apply andb_true_iff in Harm as [Hb0 Hw0%negb_true_iff].
      intros _ _ y. split; [intros [= <-]; by exists r|by intros (-> & _)%Honly].
    + split; [done|]. intros _ _ y. split; [done|]. by intros (_ & ? & _)%Honly.
  - destruct (flag (ev_events ev) EPOLLOUT).
    + assert (exists i0, Z.testbit (xp_flags (xp_refs r)) 1 = true -> exists q, xioq_send r = Some q /\ send_ioqs (chs (xw s)) !! q = Some i0) as [i0 Hi0].
      { destruct (Z.testbit (xp_flags (xp_refs r)) 1) eqn:Hb; [|by exists (false, None)]. destruct (Hsend x r Hr Hb) as (q & i & ? & ?). exists i. by exists q. }
      destruct (send_event_run s x r i0 Hs Hq Hr Hn Hd Hi0) as (o & w & Hrun & Hres). eexists o, w. split; [exact Hrun|]. split; [|done].
      destruct o as [k|]; [|done]. destruct Hres as (_ & (q & -> & _ & Hq') & _ & Hok'). done.
    + rewrite (bind_run _ _ _ tt (wput x (with_flags r 0 (not_initial r)) (queue (xw s)) (xw s))).
      2: { rewrite release_some by (done || (simpl; lia)). by rewrite with_flags_twice. }
      eexists _, _. split; [reflexivity|]. split; [|done]. apply (ok_flags s x r); try done; by apply ldiff_bit.
Qed.

End Events.

(** ** The task of an event *)

Section Task.
  Context {E : Type} `{EvHost E} (params : svc_params).

(** A channel that takes events. *)
Definition open_chan (ch : svc_rqst_rec) : Prop := ev_type ch = SVC_EVENT_EPOLL /\ flag (ev_flags ch) SVC_RQST_FLAG_SHUTDOWN = false.

Lemma rearm_run x r t c q y (e : E) i ch :
  freed r = false -> recv_locked r = false -> flag (xp_flags (xp_refs r)) (Z.lor SVC_XPRT_FLAG_ADDED_RECV SVC_XPRT_FLAG_DESTROYED) = false ->
  ev_p r = Some i -> srr c !! i = Some ch -> open_chan ch ->
  let ev := mk_event (Z.lor EPOLLIN EPOLLONESHOT) (ev_fd (event_recv r)) in
  fst (e_epoll_ctl (epoll_fd ch) EPOLL_CTL_MOD (xp_fd r) ev e) = 0 ->
  svc_rqst_rearm_events x SVC_XPRT_FLAG_ADDED_RECV (wst x r t c q y e) =
    Some (0, wst x (r <| xp_refs := (xp_refs r) <| xp_flags := Z.lor (xp_flags (xp_refs r)) SVC_XPRT_FLAG_ADDED_RECV |> |> <| event_recv := ev |>) t c q
      (y ++ [SysEpollCtl (epoll_fd ch) EPOLL_CTL_MOD (xp_fd r) (ev_events ev) (ev_fd ev) 0]) (snd (e_epoll_ctl (epoll_fd ch) EPOLL_CTL_MOD (xp_fd r) ev e))).
Proof.
  intros Hf Hl Hfl Hp Hch [Hty Hsd] ev Hctl. unfold svc_rqst_rearm_events, svc_rqst_rearm_events_locked. ev_run.
  change (xp_flags (xp_refs (r <| recv_locked := true |>))) with (xp_flags (xp_refs r)). rewrite Hfl. change (ev_p (r <| recv_locked := true |>)) with (ev_p r). rewrite Hp.
  unfold need. ev_run. rewrite (run_get_chan _ _ _ _ _ _ _ i ch) by done. rewrite Hsd. ev_run. rewrite Hty.
  change (flag SVC_XPRT_FLAG_ADDED_RECV SVC_XPRT_FLAG_ADDED_RECV) with true. change (flag SVC_XPRT_FLAG_ADDED_RECV SVC_XPRT_FLAG_ADDED_SEND) with false. cbv beta iota zeta. ev_run.
  change (mk_event _ (ev_fd (event_recv (r <| recv_locked := true |>)))) with ev. change (xp_fd (r <| recv_locked := true |>)) with (xp_fd r). rewrite Hctl.
  rewrite decide_False by (by intros []). ev_run. unfold ret. do 3 f_equal. destruct r; simpl in *. by subst.
Qed.

(** ** Destruction *)

(** The channels that transports are registered with exist. *)
Definition chans_ok (w : evworld E) : Prop := forall x r i, xprts (tab w) !! x = Some r -> ev_p r = Some i -> is_Some (srr (chs w) !! i).

Definition chans_kept (w w' : evworld E) : Prop :=
  (forall i, is_Some (srr (chs w) !! i) -> is_Some (srr (chs w') !! i)) /\ send_ioqs (chs w') = send_ioqs (chs w).

Lemma same_chans_kept i c c' : same_chans i c c' -> (forall j, is_Some (srr c !! j) -> is_Some (srr c' !! j)) /\ send_ioqs c' = send_ioqs c.
Proof. intros (H1 & H2 & H3). split; [|done]. intros j Hj. destruct (decide (j = i)) as [->|]; [done|by rewrite H1]. Qed.

(** The invariant with a similar record. *)
Lemma ok_similar s n x r r' t c q y e c' q' y' (e' : E) :
  xsys_ok params (holding x n s (wst x r t c q y e)) -> q' = q -> freed r = false ->
  (forall q h, rec_ok q h x r -> rec_ok q h x r') -> fd_node r' = fd_node r -> xp_fd r' = xp_fd r -> freed r' = false ->
  xsys_ok params (holding x n s (wst x r' t c' q' y' e')).
Proof.
  intros Hok -> Hf Hrec Hn Hfd Hf'. set (s1 := holding x n s (wst x r t c q y e)) in *. assert (rec_of x s1 = Some r) as Hr by apply wst_lookup.
  pose proof (proj1 (proj2 Hok) x r Hr) as Hrok. change (hold x s1) with (hold x (holding x n s (wst x r t c q y e))) in Hrok. rewrite hold_holding in Hrok.
  pose proof (put_ok params s1 x r r' n Hok Hr Hn Hfd Hf' (Hrec _ _ Hrok)) as Hput. unfold s1 in Hput. rewrite holding_holding in Hput.
  eapply ok_holding_world; [exact Hput| |done]. unfold wput, wst, on_xprts. simpl. by rewrite insert_insert_eq.
Qed.

Lemma destroy_run s x r :
  0 <= max_connections params < 2 ^ 32 - 1 -> xsys_ok params s -> quiet s -> chans_ok (xw s) ->
  rec_of x s = Some r -> fd_node r = true -> has_ops r = true -> destroying r = false ->
  exists w r', svc_xprt_destroy x (xw s) = Some (tt, w) /\ xsys_ok params (mk_xsys w (held s)) /\
    xprts (tab w) = <[x := r']> (xprts (tab (xw s))) /\ fd_node r' = false /\ destroying r' = true /\ recv_locked r' = false /\ ev_p r' = None /\
    xp_refcnt (xp_refs r') = xp_refcnt (xp_refs r) - 1 /\ freed r' = false /\ chans_kept (xw s) w.
Proof.
  intros Hm Hs Hq Hch Hr Hn Hops Hd. destruct (counted params s x r Hs Hq Hr Hn) as (Hf & Hl & Hc & Hok).
  destruct (mark_run params Hm s x r Hs Hr Hf Hops) as (r1 & Hmark & Hs1 & Hd1 & _ & Hc1 & Hr1). rewrite Hd in Hmark.
  unfold svc_xprt_destroy, svc_destroy_with. rewrite (bind_run _ _ _ _ _ Hmark). cbn [negb].
  set (r2 := (r1 <| recv_locked := true |>)). set (s2 := mk_xsys (wput x r2 (queue (xw s)) (xw s)) (held s)).
  assert (fd_node r1 = true /\ freed r1 = false /\ ev_p r1 = ev_p r /\ recv_locked r1 = false) as (Hn1 & Hf1 & Hp1 & Hlk1)
    by (rewrite Hr1; split_and!; [done|done|done|apply (proj2 Hq x r Hr)]).
  assert (xsys_ok params s2) as Hs2.
  { apply (ok_held params (mk_xsys (wput x r1 (queue (xw s)) (xw s)) (held s)) _ x).
    rewrite <- (wput_wput x r1 (queue (xw s)) r2 (queue (xw s)) (xw s)). apply (put_ok params (mk_xsys (wput x r1 (queue (xw s)) (xw s)) (held s)) x r1); try done.
    - apply lookup_insert_eq.
    - apply (rec_ok_same _ _ _ r1); try done. apply (proj1 (proj2 Hs1)). apply lookup_insert_eq. }
  destruct (unlink_run params Hm s2 x r2 Hs2) as (t & Hclear & Hs3 & Hx); [apply lookup_insert_eq|done|done|].
  set (r3 := (r2 <| fd_node := false |>)) in *. set (e := host (xw s)) in *. set (y := sys (xw s)) in *. set (c := chs (xw s)) in *. set (q := queue (xw s)) in *.
  assert (wput x r1 q (xw s) = wst x r1 (tab (xw s)) c q y e) as -> by done.
  assert (on_tab (fun _ => t) (xw s2) = wst x r3 t c q y e) as Hw3.
  { etransitivity; [apply (wst_world x r3); simpl; rewrite Hx; apply lookup_insert_eq|done]. }
  rewrite Hw3 in *. unfold svc_vc_unlink_it, svc_rqst_xprt_unregister. cbn [flag negb]. ev_run.
  change (flag 0 RPC_DPLX_LOCKED) with false. cbn [negb when]. ev_run.
  change (wst x (r1 <| recv_locked := true |>) (tab (xw s)) c q y e) with (xw s2). rewrite (bind_run _ _ _ _ _ Hclear). ev_run. set (r4 := (r3 <| recv_locked := false |>)).
  assert (exists r5 c5 y5 e5, match ev_p r1 with Some i => svc_rqst_unreg x i | None => ret tt end (wst x r4 t c q y e) = Some (tt, wst x r5 t c5 q y5 e5) /\
    (forall i, is_Some (srr c !! i) -> is_Some (srr c5 !! i)) /\ send_ioqs c5 = send_ioqs c /\ (forall q h, rec_ok q h x r3 -> rec_ok q h x r5) /\
    fd_node r5 = false /\ xp_fd r5 = xp_fd r3 /\ freed r5 = false /\ recv_locked r5 = false /\ destroying r5 = true /\ ev_p r5 = None /\
    xp_refcnt (xp_refs r5) = xp_refcnt (xp_refs r1)) as (r5 & c5 & y5 & e5 & Hrun & Hkept & Hsend & Hrec & Hn5 & Hfd5 & Hf5 & Hlk5 & Hd5 & Hp5 & Hc5).
  { destruct (ev_p r1) as [i|] eqn:Hp.
    - destruct (unreg_run x r4 t c q y e i Hf1 Hp) as (r' & c' & y' & e' & Hrun & Hsim & Hsame); [apply (Hch x r); [done|congruence]|].
      destruct (same_chans_kept _ _ _ Hsame) as [Hk1 Hk2]. eexists _, c', y', e'. split; [exact Hrun|]. pose proof (si_bits _ _ Hsim 5 ltac:(lia)) as Hbit. split_and!; [done|done| |exact (si_node _ _ Hsim)|exact (si_fd _ _ Hsim)
        |etransitivity; [exact (si_freed _ _ Hsim)|exact Hf1]|exact (si_locked _ _ Hsim)|etransitivity; [exact Hbit|exact Hd1]|done|exact (si_refcnt _ _ Hsim)].
      intros q0 h0 Hok0. apply (rec_ok_same _ _ _ r'); try done. apply (rec_ok_similar _ _ _ r4); [|done]. by apply (rec_ok_same _ _ _ r3).
    - eexists r4, c, y, e. split_and!; try done. intros q0 h0 Hok0. by apply (rec_ok_same _ _ _ r3). }
  rewrite (bind_run _ _ _ _ _ Hrun). change (hold x s2) with (hold x s) in Hs3. set (s5 := holding x (S (hold x s)) s (wst x r5 t c5 q y5 e5)).
  assert (xsys_ok params s5) as Hs5 by (apply (ok_similar s _ x r3 r5 t c q y e); [|done..]; eapply ok_holding_world; [exact Hs3|done|done]).
  destruct (svc_release_run params s5 x r5 (hold x s) Hs5) as (w & Hrel & Hok6 & r6 & q6 & -> & Hn6 & Hf6 & Hlk6 & Hp6 & Hc6 & Hd6); [apply wst_lookup|apply hold_holding| |].
  { intros z. unfold s5. pose proof (proj1 Hq z). pose proof (proj1 Hq x). destruct (decide (z = x)) as [->|]; [rewrite hold_holding|rewrite hold_other by done]; lia. }
  eexists _, r6. split; [exact Hrel|]. split_and!; [|..]; try congruence.
  - unfold s5 in Hok6. rewrite holding_holding in Hok6. by apply (ok_held params _ _ x) in Hok6.
  - unfold wput, on_xprts, s5. simpl. rewrite Hx. simpl. by rewrite !insert_insert_eq.
  - split; done.
Qed.

(** ** The task of an event for input *)

(** The call that asks for the next event. *)
Definition rearm_call (ch : svc_rqst_rec) (r : dplx_rec) : syscall :=
  SysEpollCtl (epoll_fd ch) EPOLL_CTL_MOD (xp_fd r) (Z.lor EPOLLIN EPOLLONESHOT) (ev_fd (event_recv r)) 0.

Definition rearm_answer (ch : svc_rqst_rec) (r : dplx_rec) (e : E) : Z :=
  fst (e_epoll_ctl (epoll_fd ch) EPOLL_CTL_MOD (xp_fd r) (mk_event (Z.lor EPOLLIN EPOLLONESHOT) (ev_fd (event_recv r))) e).

Lemma task_start s x r recv : xsys_ok params s -> (forall x, Z.of_nat (hold x s) < 2 ^ 29) -> rec_of x s = Some r -> ioq_working r = true -> releasing r = false ->
  destroying r = false ->
  let r2 := (r <| ioq_working := false |> <| recv_sec := fst (fst (e_clock (host (xw s)))) |>) in
  fd_node r = true /\ freed r = false /\ xp_refcnt (xp_refs r) = Z.of_nat (hold x s) + 2 /\
  xsys_ok params (holding x (S (hold x s)) s (wst x r2 (tab (xw s)) (chs (xw s)) (queue (xw s)) (sys (xw s)) (snd (e_clock (host (xw s)))))) /\
  svc_rqst_xprt_task_recv recv x (xw s) =
    (recv x ;; svc_release x) (wst x r2 (tab (xw s)) (chs (xw s)) (queue (xw s)) (sys (xw s)) (snd (e_clock (host (xw s))))).
Proof.
  intros Hs Hh Hr Hw Hl Hd r2. pose proof Hs as (_ & Hrec & _). specialize (Hrec x r Hr). specialize (Hh x). destruct (alive_counts _ _ _ _ Hrec) as [Hf _]; [tauto|].
  assert (fd_node r = true) as Hn. { destruct (fd_node r) eqn:Hn; [done|]. pose proof (ro_listed _ _ _ _ Hrec Hn). congruence. }
  assert (xp_refcnt (xp_refs r) = Z.of_nat (hold x s) + 2) as Hc. { rewrite (ro_count _ _ _ _ Hrec Hf), Hn, Hw, Hl. simpl. lia. }
  split_and!; [done..| |].
  - eapply (ok_holding_world _ s x _ (wput x r2 (queue (xw s)) (xw s))); [|done|done]. apply (put_ok params s x r); [done..|]. destruct Hrec. split; try done.
    + intros _. change (xp_refcnt (xp_refs r2)) with (xp_refcnt (xp_refs r)). change (fd_node r2) with (fd_node r). rewrite Hc, Hn. simpl. lia.
    + change (freed r2) with (freed r). congruence.
    + change (releasing r2) with (releasing r). congruence.
  - unfold svc_rqst_xprt_task_recv. rewrite (wst_world x r (xw s)) at 1 by done. unfold clear_working. ev_run.
    rewrite bool_decide_true by (simpl; lia). rewrite flag_destroyed. change (Z.testbit _ 5) with (destroying r). change (Z.testbit _ 6) with (releasing r). rewrite Hd, Hl.
    cbn [andb negb orb when]. ev_run. done.
Qed.

Lemma task_gone s x r died : xsys_ok params s -> (forall x, Z.of_nat (hold x s) < 2 ^ 29) -> rec_of x s = Some r -> ioq_working r = true -> releasing r = false ->
  destroying r = true ->
  exists w r', svc_rqst_xprt_task_recv (svc_vc_recv_end died) x (xw s) = Some (tt, w) /\ xsys_ok params (mk_xsys w (held s)) /\
    xprts (tab w) = <[x := r']> (xprts (tab (xw s))) /\ recv_locked r' = recv_locked r /\ fd_node r' = fd_node r /\ sys w = sys (xw s).
Proof.
  intros Hs Hh Hr Hw Hl Hd. pose proof Hs as (_ & Hrec & _). specialize (Hrec x r Hr). destruct (alive_counts _ _ _ _ Hrec) as [Hf _]; [tauto|].
  set (r1 := (r <| ioq_working := false |>)). set (s1 := holding x (S (hold x s)) s (wput x r1 (queue (xw s)) (xw s))).
  assert (xsys_ok params s1) as Hs1.
  { apply (put_ok params s x r); [done..|]. destruct Hrec. split; try done.
    - intros _. change (xp_refcnt (xp_refs r1)) with (xp_refcnt (xp_refs r)). rewrite ro_count, Hw, Hl by done. simpl. lia.
    - change (freed r1) with (freed r). congruence.
    - change (releasing r1) with (releasing r). congruence. }
  assert (svc_rqst_xprt_task_recv (svc_vc_recv_end died) x (xw s) = svc_release x (xw s1)) as ->.
  { unfold svc_rqst_xprt_task_recv. rewrite (wst_world x r (xw s)) at 1 by done. unfold clear_working. ev_run.
    rewrite flag_destroyed. change (Z.testbit _ 5) with (destroying r). rewrite Hd. rewrite andb_false_r. cbn [when]. by ev_run. }
  destruct (svc_release_run params s1 x r1 (hold x s) Hs1) as (w & Hrel & Hok & r' & q' & -> & Hn' & Hf' & Hlk' & _); [apply lookup_insert_eq|apply hold_holding| |].
  { intros z. unfold s1. pose proof (Hh z). pose proof (Hh x). destruct (decide (z = x)) as [->|]; [rewrite hold_holding|rewrite hold_other by done]; lia. }
  eexists _, r'. split; [exact Hrel|]. split_and!; try done.
  - unfold s1 in Hok. rewrite holding_holding in Hok. by apply (ok_held params _ _ x).
  - unfold s1, wput, on_xprts. simpl. by rewrite insert_insert_eq.
Qed.

(** Nothing is locked and every channel is there, in a world that differs in one record. *)
Lemma settled s n x r r' q y (e : E) :
  (forall x, Z.of_nat (hold x s) < 2 ^ 29) -> Z.of_nat n < 2 ^ 30 - 1 -> (forall y r, rec_of y s = Some r -> recv_locked r = false) -> chans_ok (xw s) ->
  rec_of x s = Some r -> recv_locked r' = recv_locked r -> ev_p r' = ev_p r ->
  let s' := holding x n s (wst x r' (tab (xw s)) (chs (xw s)) q y e) in quiet s' /\ chans_ok (xw s').
Proof.
  intros Hh Hn Hlock Hch Hr Hlk Hp s'. unfold s'. split; [split|].
  - intros z. pose proof (Hh z). destruct (decide (z = x)) as [->|]; [rewrite hold_holding|rewrite hold_other by done]; lia.
  - intros z rz. unfold rec_of. simpl. destruct (decide (z = x)) as [->|]; [rewrite lookup_insert_eq; intros [= <-]; rewrite Hlk; by apply (Hlock x r)|].
    rewrite lookup_insert_ne by done. apply Hlock.
  - intros z rz i. simpl. destruct (decide (z = x)) as [->|]; [rewrite lookup_insert_eq; intros [= <-]; rewrite Hp; by apply (Hch x r)|].
    rewrite lookup_insert_ne by done. apply Hch.
Qed.

Lemma task_died s x r :
  0 <= max_connections params < 2 ^ 32 - 1 -> xsys_ok params s -> (forall x, Z.of_nat (hold x s) < 2 ^ 29) ->
  (forall y r, rec_of y s = Some r -> recv_locked r = false) -> chans_ok (xw s) ->
  rec_of x s = Some r -> ioq_working r = true -> releasing r = false -> has_ops r = true -> destroying r = false ->
  exists w r', svc_rqst_xprt_task_recv (svc_vc_recv_end true) x (xw s) = Some (tt, w) /\ xsys_ok params (mk_xsys w (held s)) /\
    xprts (tab w) = <[x := r']> (xprts (tab (xw s))) /\ recv_locked r' = false /\ fd_node r' = false /\ destroying r' = true /\ ev_p r' = None.
Proof.
  intros Hm Hs Hh Hlock Hch Hr Hw Hl Ho Hd. destruct (task_start s x r (svc_vc_recv_end true) Hs Hh Hr Hw Hl Hd) as (Hn & Hf & Hc & Hs2 & ->).
  match type of Hs2 with xsys_ok _ ?y => set (s2 := y) in * end. set (r2 := (r <| ioq_working := false |> <| recv_sec := _ |>)) in *.
  assert (forall x, Z.of_nat (S (hold x s)) < 2 ^ 30 - 1) as Hroom2 by (intros z; pose proof (Hh z); lia).
  assert (forall z, Z.of_nat (hold z s2) < 2 ^ 30 - 1) as Hroom.
  { intros z. unfold s2. pose proof (Hh z). pose proof (Hh x). destruct (decide (z = x)) as [->|]; [rewrite hold_holding|rewrite hold_other by done]; lia. }
  destruct (settled s (S (hold x s)) x r r2 (queue (xw s)) (sys (xw s)) (snd (e_clock (host (xw s)))) Hh (Hroom2 x) Hlock Hch Hr eq_refl eq_refl) as [Hq2 Hch2].
  destruct (destroy_run s2 x r2 Hm Hs2 Hq2 Hch2) as (w3 & r3 & Hrun & Hs3 & Hx3 & Hn3 & Hd3 & Hlk3 & Hp3 & _ & _); [apply wst_lookup|done|done|done|].
  unfold svc_vc_recv_end. change (wst x r2 _ _ _ _ _) with (xw s2). rewrite (bind_run _ _ _ _ _ Hrun). set (s3 := mk_xsys w3 (held s2)) in *.
  destruct (svc_release_run params s3 x r3 (hold x s) Hs3) as (w & Hrel & Hok & r' & q' & -> & Hn' & Hf' & Hlk' & Hp' & _ & Hd').
  { unfold rec_of, s3. simpl. by rewrite Hx3, lookup_insert_eq. } { by apply (hold_holding x (S (hold x s)) s). } { intros z. specialize (Hroom z). change (hold z s3) with (hold z s2). lia. }
  eexists _, r'. split; [exact Hrel|]. split_and!; try congruence.
  - assert (holding x (hold x s) s3 (wput x r' q' (xw s3)) = holding x (hold x s) s (wput x r' q' (xw s3))) as He by (unfold holding, s3, s2; simpl; by rewrite insert_insert_eq).
    rewrite He in Hok. by apply (ok_held params _ _ x).
  - unfold wput, on_xprts, s3. simpl. rewrite Hx3. unfold s2. simpl. by rewrite !insert_insert_eq.
Qed.

Lemma task_rearmed s x r i ch :
  xsys_ok params s -> (forall x, Z.of_nat (hold x s) < 2 ^ 29) -> recv_locked r = false ->
  rec_of x s = Some r -> ioq_working r = true -> releasing r = false -> destroying r = false -> Z.testbit (xp_flags (xp_refs r)) 0 = false ->
  ev_p r = Some i -> srr (chs (xw s)) !! i = Some ch -> open_chan ch -> rearm_answer ch r (snd (e_clock (host (xw s)))) = 0 ->
  exists w r', svc_rqst_xprt_task_recv (svc_vc_recv_end false) x (xw s) = Some (tt, w) /\ xsys_ok params (mk_xsys w (held s)) /\
    xprts (tab w) = <[x := r']> (xprts (tab (xw s))) /\ recv_locked r' = false /\ fd_node r' = true /\ ioq_working r' = false /\
    Z.testbit (xp_flags (xp_refs r')) 0 = true /\ sys w = sys (xw s) ++ [rearm_call ch r].
Proof.
  intros Hs Hh Hlk Hr Hw Hl Hd Hb Hp Hch Hop Hans. destruct (task_start s x r (svc_vc_recv_end false) Hs Hh Hr Hw Hl Hd) as (Hn & Hf & Hc & _ & ->). specialize (Hh x).
  set (r2 := (r <| ioq_working := false |> <| recv_sec := _ |>)). set (f := Z.lor (xp_flags (xp_refs r)) SVC_XPRT_FLAG_ADDED_RECV).
  assert (forall n, 0 < n -> Z.testbit f n = Z.testbit (xp_flags (xp_refs r)) n) as Hf5.
  { intros n Hn0. unfold f. rewrite (lor_bit _ 0) by lia. rewrite bool_decide_false by lia. apply orb_false_r. }
  assert (flag (xp_flags (xp_refs r2)) (Z.lor SVC_XPRT_FLAG_ADDED_RECV SVC_XPRT_FLAG_DESTROYED) = false) as Hfl.
  { rewrite flag_lor, (flag_bit _ 0), flag_destroyed by lia. change (xp_flags (xp_refs r2)) with (xp_flags (xp_refs r)). rewrite Hb.
    change (Z.testbit _ 5) with (destroying r). change (Z.testbit _ 6) with (releasing r). by rewrite Hd, Hl. }
  unfold svc_vc_recv_end. rewrite bind_bind.
  rewrite (bind_run _ _ _ _ _ (rearm_run x r2 (tab (xw s)) (chs (xw s)) (queue (xw s)) (sys (xw s)) _ i ch Hf Hlk Hfl Hp Hch Hop Hans)).
  rewrite bool_decide_false by (by intros []). cbn [when]. ev_run. rewrite <- (ret_end (svc_release x)).
  rewrite run_release by (done || (simpl; lia)). eexists _, _. split; [reflexivity|]. split_and!; try done.
  - apply (ok_held params _ _ x). eapply (ok_holding_world _ s x _ (wput x _ (queue (xw s)) (xw s))); [|reflexivity|done]. apply (put_ok params s x r); [done..|].
    match goal with |- rec_ok _ _ _ ?y => set (r5 := y) end. assert (releasing r5 = false) as Hl5 by (rewrite <- Hl; apply (Hf5 6); lia).
    assert (destroying r5 = false) as Hd5 by (rewrite <- Hd; apply (Hf5 5); lia). assert (xp_refcnt (xp_refs r5) = Z.of_nat (hold x s) + 1) as Hc5 by (cbn; lia).
    pose proof (proj1 (proj2 Hs) x r Hr) as Hok. destruct Hok. split; rewrite ?Hl5, ?Hd5, ?Hc5; try done.
    + intros _. change (fd_node r5) with (fd_node r). rewrite Hn. simpl. lia.
    + change (freed r5) with (freed r). congruence.
    + change (fd_node r5) with (fd_node r). congruence.
    + intros _. split; [done|lia].
    + change (xp_destroyed (xp_refs r5)) with (xp_destroyed (xp_refs r)). by rewrite ro_destroyed, Hl.
    + change (xp_unlinked (xp_refs r5)) with (xp_unlinked (xp_refs r)). by rewrite ro_unlinked, Hd.
    + by rewrite ro_queue, Hl.
  - change (Z.testbit f 0 = true). unfold f. rewrite (lor_bit _ 0) by lia. by rewrite bool_decide_true, orb_true_r.
Qed.

(** C11: The task of an event for input.  If the connection goes on, the next event is
    asked for, once, and all is as before the event; if it failed, the transport is out
    of the table and of its channel.  Either way the task gives its reference back and can
    be submitted again.  A task that finds its transport being destroyed only gives the
    reference back. *)
Theorem recv_task_exact s x r died :
  0 <= max_connections params < 2 ^ 32 - 1 -> xsys_ok params s -> (forall x, Z.of_nat (hold x s) < 2 ^ 29) ->
  (forall y r, rec_of y s = Some r -> recv_locked r = false) -> chans_ok (xw s) ->
  rec_of x s = Some r -> ioq_working r = true -> releasing r = false -> has_ops r = true ->
  (destroying r = false -> died = false -> Z.testbit (xp_flags (xp_refs r)) 0 = false /\
     exists i ch, ev_p r = Some i /\ srr (chs (xw s)) !! i = Some ch /\ open_chan ch /\ rearm_answer ch r (snd (e_clock (host (xw s)))) = 0) ->
  exists w r', svc_rqst_xprt_task_recv (svc_vc_recv_end died) x (xw s) = Some (tt, w) /\ xsys_ok params (mk_xsys w (held s)) /\
    xprts (tab w) = <[x := r']> (xprts (tab (xw s))) /\ recv_locked r' = false /\
    if destroying r then fd_node r' = fd_node r /\ sys w = sys (xw s)
    else if died then fd_node r' = false /\ destroying r' = true /\ ev_p r' = None
    else fd_node r' = true /\ ioq_working r' = false /\ Z.testbit (xp_flags (xp_refs r')) 0 = true /\
      exists i ch, ev_p r = Some i /\ srr (chs (xw s)) !! i = Some ch /\ sys w = sys (xw s) ++ [rearm_call ch r].
Proof.
  intros Hm Hs Hh Hlock Hch Hr Hw Hl Ho Hgo. destruct (destroying r) eqn:Hd.
  - destruct (task_gone s x r died Hs Hh Hr Hw Hl Hd) as (w & r' & Hrun & Hok & Hx & Hlk & Hn & Hsys). exists w, r'. split_and!; try done. rewrite Hlk. by apply (Hlock x).
  - destruct died.
    + destruct (task_died s x r Hm Hs Hh Hlock Hch Hr Hw Hl Ho Hd) as (w & r' & Hrun & Hok & Hx & Hlk & Hn & Hd' & Hp). by exists w, r'.
    + destruct (Hgo eq_refl eq_refl) as (Hb & i & ch & Hp & Hi & Hop & Hans).
      destruct (task_rearmed s x r i ch Hs Hh (Hlock x r Hr) Hr Hw Hl Hd Hb Hp Hi Hop Hans) as (w & r' & Hrun & Hok & Hx & Hlk & Hn & Hw' & Hb' & Hsys).
      exists w, r'. split_and!; try done. by exists i, ch.
Qed.

(** ** The next event cannot be asked for *)

Lemma rearm_fails x r t c q y (e : E) i ch :
  freed r = false -> recv_locked r = false -> flag (xp_flags (xp_refs r)) (Z.lor SVC_XPRT_FLAG_ADDED_RECV SVC_XPRT_FLAG_DESTROYED) = false ->
  ev_p r = Some i -> srr c !! i = Some ch -> open_chan ch -> 1 < xp_refcnt (xp_refs r) < 2 ^ 31 -> rearm_answer ch r e <> 0 ->
  exists r' y' e', svc_rqst_rearm_events x SVC_XPRT_FLAG_ADDED_RECV (wst x r t c q y e) = Some (rearm_answer ch r e, wst x r' t c q y' e') /\
    similar (r <| xp_refs := (xp_refs r) <| xp_refcnt := xp_refcnt (xp_refs r) - 1 |> |>) r'.
Proof.
  intros Hf Hl Hfl Hp Hch [Hty Hsd] Hc Hans. unfold svc_rqst_rearm_events, svc_rqst_rearm_events_locked. ev_run.
  change (xp_flags (xp_refs (r <| recv_locked := true |>))) with (xp_flags (xp_refs r)). rewrite Hfl. change (ev_p (r <| recv_locked := true |>)) with (ev_p r). rewrite Hp.
  unfold need. ev_run. rewrite (run_get_chan _ _ _ _ _ _ _ i ch) by done. rewrite Hsd. ev_run. rewrite Hty.
  change (flag SVC_XPRT_FLAG_ADDED_RECV SVC_XPRT_FLAG_ADDED_RECV) with true. change (flag SVC_XPRT_FLAG_ADDED_RECV SVC_XPRT_FLAG_ADDED_SEND) with false. cbv beta iota zeta. ev_run.
  change (fst (e_epoll_ctl (epoll_fd ch) EPOLL_CTL_MOD (xp_fd (r <| recv_locked := true |>)) _ e)) with (rearm_answer ch r e).
  rewrite decide_True by done. ev_run. rewrite run_release by (done || (simpl; lia)). ev_run. eexists _, _, _. split; [reflexivity|].
  split; try done. intros n Hn. cbn -[Z.testbit Z.lor Z.ldiff]. rewrite ldiff_bit by (lia || (apply added_bits; [tauto|lia])).
  rewrite (lor_bit _ 0) by lia. rewrite bool_decide_false by lia. apply orb_false_r.
Qed.

(** A release when no reference is left. *)
Lemma release_below x r (w : evworld E) : xprts (tab w) !! x = Some r -> freed r = false -> xp_refcnt (xp_refs r) = 0 -> releasing r = true ->
  exists r', svc_release x w = Some (tt, wput x r' (queue w) w) /\ xp_refcnt (xp_refs r') = -1 /\ fd_node r' = fd_node r /\ freed r' = false.
Proof.
  intros Hr Hf Hc Hl. unfold svc_release. rewrite (bind_run _ _ _ _ _ (get_xprt_run x r w Hr Hf)). cbv zeta.
  assert (svc_release_it (xp_refs r) = (xp_refs r) <| xp_refcnt := -1 |> <| xp_flags := Z.lor (xp_flags (xp_refs r)) SVC_XPRT_FLAG_RELEASING |>) as ->.
  { unfold svc_release_it. cbv zeta. cbn [xp_refcnt upd]. rewrite Hc. change (i32 (0 - 1)) with (-1). rewrite decide_False by lia.
    rewrite decide_True; [done|]. apply flag_true. cbn [xp_flags upd]. change SVC_XPRT_FLAG_RELEASING with (2 ^ 6). by rewrite flag_bit. }
  rewrite (bind_run _ _ _ _ _ (set_xprt_run _ _ _)), decide_False by (simpl; lia). by eexists.
Qed.

Lemma occurrences_in k q : occurrences k q = 1%nat -> k ∈ q.
Proof.
  unfold occurrences. intros Ho. destruct (base.filter (fun y => y = k) q) as [|z l] eqn:Hf; [done|].
  assert (z ∈ base.filter (fun y => y = k) q) as Hz by (rewrite Hf; left). apply list_elem_of_filter in Hz. by destruct Hz as [-> Hz].
Qed.

(** The record after the refused call: the reference of the thread is used up. *)
Lemma unhooked_ok q x r2 r3 : rec_ok q 1 x r2 -> fd_node r2 = true -> freed r2 = false ->
  similar (r2 <| xp_refs := (xp_refs r2) <| xp_refcnt := xp_refcnt (xp_refs r2) - 1 |> |>) r3 -> rec_ok q 0 x r3.
Proof.
  intros Hok Hn Hf Hsim. destruct (alive_counts _ _ _ _ Hok) as [_ Hl]; [lia|]. apply (rec_ok_similar _ _ _ _ _) with (2 := Hsim).
  pose proof (ro_count _ _ _ _ Hok Hf) as Hc. destruct Hok. split; try done.
  - intros _. cbn [xp_refs upd xp_refcnt]. rewrite Hc.
    change (Z.of_nat (1 + Nat.b2n (fd_node r2) + Nat.b2n (ioq_working r2 && negb (releasing r2))) - 1 = Z.of_nat (0 + Nat.b2n (fd_node r2) + Nat.b2n (ioq_working r2 && negb (releasing r2)))). lia.
  - change (freed (r2 <| xp_refs := _ |>)) with (freed r2). congruence.
  - change (releasing (r2 <| xp_refs := _ |>)) with (releasing r2). intros _. rewrite Hl. cbn [xp_refs upd xp_refcnt]. rewrite Hc, Hn. split; [done|]. intros. exfalso. cbn [Nat.b2n] in *. lia.
Qed.

(** C15: If the kernel refuses to wait for the next event of a connection that only the
    table and the task refer to, a reference is given back that was never taken.  After
    the task the count is -1, the transport is out of the table, and the task that is to
    free it submits itself again for ever: neither memory nor descriptor come back. *)
Theorem rearm_failure s x r i ch :
  0 <= max_connections params < 2 ^ 32 - 1 -> xsys_ok params s -> (forall x, Z.of_nat (hold x s) < 2 ^ 29) ->
  (forall y r, rec_of y s = Some r -> recv_locked r = false) -> chans_ok (xw s) ->
  rec_of x s = Some r -> hold x s = 0%nat -> ioq_working r = true -> releasing r = false -> has_ops r = true -> destroying r = false ->
  Z.testbit (xp_flags (xp_refs r)) 0 = false -> ev_p r = Some i -> srr (chs (xw s)) !! i = Some ch -> open_chan ch ->
  rearm_answer ch r (snd (e_clock (host (xw s)))) <> 0 ->
  exists w r', svc_rqst_xprt_task_recv (svc_vc_recv_end false) x (xw s) = Some (tt, w) /\ xprts (tab w) !! x = Some r' /\
    xp_refcnt (xp_refs r') = -1 /\ fd_node r' = false /\ WDestroy x ∈ queue w /\
    forall w', xprts (tab w') !! x = Some r' -> destroy_task x w' = work_pool_submit (WDestroy x) w'.
Proof.
  intros Hm Hs Hh Hlock Hch Hr H0 Hw Hl Ho Hd Hb Hp Hi Hop Hans. destruct (task_start s x r (svc_vc_recv_end false) Hs Hh Hr Hw Hl Hd) as (Hn & Hf & Hc & Hs2 & ->). rewrite H0 in *.
  set (r2 := (r <| ioq_working := false |> <| recv_sec := _ |>)) in *.
  assert (flag (xp_flags (xp_refs r2)) (Z.lor SVC_XPRT_FLAG_ADDED_RECV SVC_XPRT_FLAG_DESTROYED) = false) as Hfl.
  { rewrite flag_lor, (flag_bit _ 0), flag_destroyed by lia. change (xp_flags (xp_refs r2)) with (xp_flags (xp_refs r)). rewrite Hb.
    change (Z.testbit _ 5) with (destroying r). change (Z.testbit _ 6) with (releasing r). by rewrite Hd, Hl. }
  destruct (rearm_fails x r2 (tab (xw s)) (chs (xw s)) (queue (xw s)) (sys (xw s)) (snd (e_clock (host (xw s)))) i ch Hf (Hlock x r Hr) Hfl Hp Hi Hop) as (r3 & y3 & e3 & Hrun & Hsim);
    [simpl; lia|done|].
  unfold svc_vc_recv_end. rewrite bind_bind, (bind_run _ _ _ _ _ Hrun). rewrite bool_decide_true by done. cbn [when].
  set (s3 := holding x 0 s (wst x r3 (tab (xw s)) (chs (xw s)) (queue (xw s)) y3 e3)).
  assert (xsys_ok params s3) as Hs3.
  { pose proof (proj1 (proj2 Hs2) x r2 (wst_lookup _ _ _ _ _ _ _)) as Hok2. rewrite hold_holding in Hok2.
    match type of Hs2 with xsys_ok _ ?z => pose proof (put_ok params z x r2 r3 0 Hs2 (wst_lookup _ _ _ _ _ _ _) (si_node _ _ Hsim) (si_fd _ _ Hsim)
      (eq_trans (si_freed _ _ Hsim) Hf) (unhooked_ok _ x r2 r3 Hok2 Hn Hf Hsim)) as Hput end.
    rewrite holding_holding in Hput. eapply ok_holding_world; [exact Hput| |done]. unfold wput, wst, on_xprts. simpl. by rewrite insert_insert_eq. }
  destruct (settled s 0 x r r3 (queue (xw s)) y3 e3 Hh ltac:(lia) Hlock Hch Hr (si_locked _ _ Hsim) (si_ev_p _ _ Hsim)) as [Hq3 Hch3].
  destruct (destroy_run s3 x r3 Hm Hs3 Hq3 Hch3 (wst_lookup _ _ _ _ _ _ _)) as (w4 & r4 & Hdes & Hs4 & Hx4 & Hn4 & Hd4 & _ & _ & Hc4 & Hf4 & _);
    [by rewrite (si_node _ _ Hsim)|by rewrite (si_ops _ _ Hsim)|etransitivity; [apply (si_bits _ _ Hsim); lia|done]|].
  change (wst x r3 _ _ _ _ _) with (xw s3). rewrite (bind_run _ _ _ _ _ Hdes). rewrite (si_refcnt _ _ Hsim) in Hc4. cbn [xp_refs upd xp_refcnt] in Hc4.
  assert (xprts (tab w4) !! x = Some r4) as Hr4 by (rewrite Hx4; apply lookup_insert_eq).
  pose proof (proj1 (proj2 Hs4) x r4 Hr4) as Hok4. assert (xp_refcnt (xp_refs r4) = 0) as Hz by (rewrite Hc4; change (xp_refcnt (xp_refs r2)) with (xp_refcnt (xp_refs r)); lia).
  pose proof (proj2 (ro_zero _ _ _ _ Hok4 Hf4) Hz) as Hl4. destruct (release_below x r4 w4 Hr4 Hf4 Hz Hl4) as (r5 & Hrel & Hc5 & Hn5 & Hf5).
  eexists _, r5. split; [exact Hrel|]. split_and!; [apply lookup_insert_eq|done|congruence| |].
  - apply occurrences_in. etransitivity; [exact (ro_queue _ _ _ _ Hok4)|]. by rewrite Hl4, Hf4.
  - intros w' Hw'. unfold destroy_task. rewrite (bind_run _ _ _ _ _ (get_xprt_run x r5 w' Hw' Hf5)). by rewrite decide_True by lia.
Qed.

End Task.

(** ** The theorems at a connection that is served *)

(** Descriptor 5 is accepted, set up and registered; the answers of [epoll_ctl] are given. *)
Definition demo_accepted : xsys ev_script :=
  Eval vm_compute in default (mk_xsys demo_started ∅) (fire_all demo_params [AWrite 5 svc_vc_xprt_setup; AReady 2; ARelease 2] (mk_xsys demo_started ∅)).

Definition demo_held : gmap positive nat := Eval vm_compute in held demo_accepted.

Definition demo_registered (answers : list Z) : evworld ev_script :=
  let w := xw demo_accepted in
  match (svc_rqst_init 16 ;; svc_rqst_xprt_register demo_params 2 None) (mk_ev (tab w) (chs w) (queue w) (sys w) (demo_script <| es_ctl := answers |>)) with
  | Some (_, w) => w
  | None => w
  end.

(** Its descriptor has input. *)
Definition demo_input : epoll_event := mk_event EPOLLIN 5.

Definition demo_served : evworld ev_script := Eval vm_compute in demo_registered [].

(** The third answer refuses to wait for more. *)
Definition demo_working (answers : list Z) : evworld ev_script :=
  match svc_rqst_epoll_event demo_params 15 demo_input (demo_registered answers) with Some (_, w) => w | None => demo_registered answers end.

Definition demo_read : evworld ev_script := Eval vm_compute in demo_working [].
Definition demo_refused : evworld ev_script := Eval vm_compute in demo_working [0; 0; 9].

Lemma demo_accepted_ok : xsys_ok demo_params demo_accepted.
Proof.
  destruct (init_run demo_params (fresh_world demo_script)) as (w0 & Hi & Hok); [cbn; lia|done..|].
  change (svc_xprt_init (fresh_world demo_script)) with (Some (0, demo_started)) in Hi. injection Hi as <-.
  destruct (fire_all_ok demo_params ltac:(cbn; lia) [AWrite 5 svc_vc_xprt_setup; AReady 2; ARelease 2] _ Hok) as (s & Hf & Hs); [apply legalb_legal; by vm_compute|].
  assert (fire_all demo_params [AWrite 5 svc_vc_xprt_setup; AReady 2; ARelease 2] (mk_xsys demo_started ∅) = Some demo_accepted) as He by (by vm_compute).
  rewrite He in Hf. by injection Hf as <-.
Qed.

Definition demo_rec (w : evworld ev_script) : option dplx_rec := xprts (tab w) !! 2%positive.

(** The invariant of a world in which only the record of the connection changed. *)
Lemma demo_ok (w : evworld ev_script) r : xprts (tab w) = <[2%positive := r]> (xprts (tab (xw demo_accepted))) -> tab w = on_xprts (fun _ => xprts (tab w)) (tab (xw demo_accepted)) ->
  queue w = [WLoop 15] -> fd_node r = true -> xp_fd r = 5 -> rec_ok (queue w) 0 2 r -> freed r = false -> xsys_ok demo_params (mk_xsys w demo_held).
Proof.
  intros Hx Ht Hq Hn Hfd Hok Hf. change demo_held with (held demo_accepted). apply (ok_held _ _ _ 2). change (hold 2 demo_accepted) with 0%nat.
  assert (exists r0, rec_of 2 demo_accepted = Some r0 /\ fd_node r0 = true /\ xp_fd r0 = 5) as (r0 & Hr0 & Hn0 & Hfd0) by (eexists; split; [by vm_compute|done]).
  eapply ok_holding_world; [apply (ok_put demo_params demo_accepted 2 r0 r (queue w) 0 demo_accepted_ok Hr0); [congruence|split; congruence| |done]| |done].
  - intros y _. by rewrite Hq.
  - rewrite Ht, Hx. done.
Qed.

Lemma check_all {A} (p : A -> bool) (m : gmap positive A) : bool_decide (map_Forall (fun _ a => p a = true) m) = true -> forall x a, m !! x = Some a -> p a = true.
Proof. intros H%bool_decide_eq_true x a. apply H. Qed.

(** The hypotheses on references, locks, channels and replies, evaluated. *)
Definition settledb (w : evworld ev_script) : bool :=
  bool_decide (map_Forall (fun _ r => (negb (recv_locked r) && match ev_p r with Some i => bool_decide (is_Some (srr (chs w) !! i)) | None => true end
    && negb (Z.testbit (xp_flags (xp_refs r)) 1)) = true) (xprts (tab w))).

Lemma settledb_sound w : settledb w = true ->
  (forall x r, xprts (tab w) !! x = Some r -> recv_locked r = false) /\ chans_ok w /\ (forall x r, xprts (tab w) !! x = Some r -> Z.testbit (xp_flags (xp_refs r)) 1 = false).
Proof.
  intros Hb. pose proof (check_all _ _ Hb) as Hall. split_and!.
  - intros x r Hr. specialize (Hall x r Hr). cbn beta in Hall. rewrite !andb_true_iff, !negb_true_iff in Hall. tauto.
  - intros x r i Hr Hp. specialize (Hall x r Hr). cbn beta in Hall. rewrite Hp, !andb_true_iff, bool_decide_eq_true in Hall. tauto.
  - intros x r Hr. specialize (Hall x r Hr). cbn beta in Hall. rewrite !andb_true_iff, !negb_true_iff in Hall. tauto.
Qed.

Lemma hold_mk {E} x (w : evworld E) h : hold x (mk_xsys w h) = default 0%nat (h !! x).
Proof. done. Qed.

Lemma demo_holds x (w : evworld ev_script) : hold x (mk_xsys w demo_held) = 0%nat.
Proof.
  assert (bool_decide (map_Forall (fun _ n => bool_decide (n = 0%nat) = true) demo_held) = true) as Hall by (by vm_compute).
  rewrite hold_mk.
  generalize dependent demo_held. intros m Hall. destruct (m !! x) as [n|] eqn:Hn; [|done]. by apply (check_all _ _ Hall), bool_decide_eq_true in Hn.
Qed.

Ltac solve_demo w :=
  let r := fresh "r" in let Hr := fresh "Hr" in
  destruct (demo_rec w) as [r|] eqn:Hr; [|by vm_compute in Hr]; vm_compute in Hr; injection Hr as <-; eapply demo_ok; [by vm_compute..| |done]; by split.

Lemma demo_served_ok : xsys_ok demo_params (mk_xsys demo_served demo_held).
Proof. solve_demo demo_served. Qed.

Lemma demo_read_ok : xsys_ok demo_params (mk_xsys demo_read demo_held).
Proof. solve_demo demo_read. Qed.

Lemma demo_refused_ok : xsys_ok demo_params (mk_xsys demo_refused demo_held).
Proof. solve_demo demo_refused. Qed.

Lemma demo_ready : recv_ready (mk_xsys demo_served demo_held) 5 2.
Proof.
  destruct (demo_rec demo_served) as [r|] eqn:Hr; [|by vm_compute in Hr]. exists r. split; [exact Hr|]. vm_compute in Hr. by injection Hr as <-.
Qed.

(** Input for a registered connection is given to a task. *)
Lemma event_exact_witness : exists w, svc_rqst_epoll_event demo_params 15 demo_input demo_served = Some (Some (WRecv 2), w) /\
  xsys_ok demo_params (mk_xsys w demo_held).
Proof.
  destruct (settledb_sound demo_served) as (Hl & _ & Hs); [by vm_compute|].
  destruct (srr (chs demo_served) !! 15%nat) as [ch|] eqn:Hch; [|by vm_compute in Hch].
  destruct (event_exact demo_params (mk_xsys demo_served demo_held) 15 ch demo_input demo_served_ok) as (o & w & Hrun & Ho & Hiff);
    [split; [intros x; by rewrite demo_holds|done]|done|intros x r Hr Hb; by rewrite (Hs x r Hr) in Hb|].
  assert (o = Some (WRecv 2)) as ->.
  { apply Hiff; [vm_compute in Hch; by injection Hch as <-|done|]. apply demo_ready. }
  exists w. split; [exact Hrun|exact (proj1 Ho)].
Defined.

(** The task of that input waits for more. *)
Lemma recv_task_exact_witness : exists w r, svc_rqst_xprt_task_recv (svc_vc_recv_end false) 2 demo_read = Some (tt, w) /\
  xprts (tab w) !! 2%positive = Some r /\ fd_node r = true /\ ioq_working r = false /\ sys w = sys demo_read ++ [SysEpollCtl 22 EPOLL_CTL_MOD 5 (Z.lor EPOLLIN EPOLLONESHOT) 5 0].
Proof.
  destruct (settledb_sound demo_read) as (Hl & Hch & _); [by vm_compute|].
  destruct (demo_rec demo_read) as [r|] eqn:Hr; [|by vm_compute in Hr]. pose proof Hr as Hr0. vm_compute in Hr0.
  destruct (recv_task_exact demo_params (mk_xsys demo_read demo_held) 2 r false) as (w & r' & Hrun & _ & Hx & _ & Hrest);
    [done|exact demo_read_ok|intros x; by rewrite demo_holds|done|done|done|by injection Hr0 as <-..| |].
  - injection Hr0 as <-. intros _ _. split; [done|]. eexists _, _. split; [done|]. by split; [vm_compute|].
  - assert (destroying r = false) as Hd by (by injection Hr0 as <-). rewrite Hd in Hrest. destruct Hrest as (Hn & Hw & _ & i & ch & Hi & Hc & Hs).
    exists w, r'. split_and!; [exact Hrun|rewrite Hx; apply lookup_insert_eq|done|done|]. etransitivity; [exact Hs|].
    injection Hr0 as <-. injection Hi as <-. vm_compute in Hc. by injection Hc as <-.
Defined.

(** The same with the refusal. *)
Lemma rearm_failure_witness : exists w r, svc_rqst_xprt_task_recv (svc_vc_recv_end false) 2 demo_refused = Some (tt, w) /\
  xprts (tab w) !! 2%positive = Some r /\ xp_refcnt (xp_refs r) = -1 /\ fd_node r = false.
Proof.
  destruct (settledb_sound demo_refused) as (Hl & Hch & _); [by vm_compute|].
  destruct (demo_rec demo_refused) as [r|] eqn:Hr; [|by vm_compute in Hr]. pose proof Hr as Hr0. vm_compute in Hr0.
  destruct (srr (chs demo_refused) !! 15%nat) as [ch|] eqn:Hc; [|by vm_compute in Hc]. pose proof Hc as Hc0. vm_compute in Hc0.
  destruct (rearm_failure demo_params (mk_xsys demo_refused demo_held) 2 r 15 ch) as (w & r' & Hrun & Hx & Hc' & Hn & _);
    [done|exact demo_refused_ok|intros x; by rewrite demo_holds|done|done|done|by rewrite demo_holds|by injection Hr0 as <-..|exact Hc|by injection Hc0 as <-| |].
  - injection Hr0 as <-. injection Hc0 as <-. by vm_compute.
  - exists w, r'. split_and!; [exact Hrun|done..].
Defined.
