(* ===== verification/SvcAccept.v ===== *)
(** * Accepting connections

    The listening transport of [svc_vc.c]: [svc_vc_rendezvous] and [makefd_xprt], with
    [__rpc_fd2sockinfo] and [__rpc_sockinfo2netid] of [rpc_generic.c] and the callback of
    the daemon ([src/nfs/nfs_init.cpp]).  Addresses, the sizes of buffers and the options
    of sockets are no part of the state of the event loop and left out. *)
From S2P Require Import Prelude Posix SvcDg EvState SvcXprt SvcXprtProps EvDemo SvcXprtSteps SvcRqst EvRun SvcRqstProps.

Open Scope Z_scope.
Open Scope dnfs_scope.

Definition AF_LOCAL : Z := 1.
Definition SOCK_STREAM : Z := 1.
Definition SOCK_DGRAM : Z := 2.
Definition E_NFILE : Z := 23.
Definition E_MFILE : Z := 24.

(** [enum xprt_stat]. *)
Inductive xprt_stat := XPRT_IDLE | XPRT_MOREREQS | XPRT_SUSPEND | XPRT_DIED | XPRT_DESTROYED.

#[global] Instance xprt_stat_eq : EqDecision xprt_stat.
Proof. solve_decision. Defined.

(** Sockets: [accept] gives an error or a descriptor, [getsockname] the family of the
    address, [getsockopt] the type, or nothing when they fail. *)
Class AcceptHost (E : Type) := {
  e_accept : Z -> E -> (Z + Z) * E;
  e_sockname : Z -> E -> option Z * E;
  e_socktype : Z -> E -> option Z * E }.

Record rpc_sockinfo := mk_si { si_af : Z; si_proto : Z; si_socktype : Z }.

(** The families and protocols of the table; IPv6 is configured, vsock is not. *)
Definition na_cvt : list (Z * Z) :=
  [(AF_INET, IPPROTO_UDP); (AF_INET, IPPROTO_TCP); (AF_INET6, IPPROTO_UDP); (AF_INET6, IPPROTO_TCP); (AF_LOCAL, 0)].

(** Whether there is a name. *)
Definition __rpc_sockinfo2netid (si : rpc_sockinfo) : bool := bool_decide ((si_af si, si_proto si) ∈ na_cvt).

Section Accept.
  Context {E : Type} `{EvHost E} `{AcceptHost E} (params : svc_params).
  Abbreviation EV := (ST (evworld E)).

Definition __rpc_fd2sockinfo (fd : Z) : EV (option rpc_sockinfo) :=
  af <- ask (e_sockname fd) ;;
  match af with
  | None => ret None
  | Some af =>
      type <- ask (e_socktype fd) ;;
      match type with
      | None => ret None
      | Some type =>
          if decide (af <> AF_LOCAL) then
            if decide (type = SOCK_STREAM) then
              ret (Some (mk_si af (if decide (af = AF_INET \/ af = AF_INET6) then IPPROTO_TCP else 0) type))
            else if decide (type = SOCK_DGRAM) then ret (Some (mk_si af IPPROTO_UDP type))
            else ret None
          else ret (Some (mk_si af 0 type))
      end
  end.

(** The transport for a new descriptor, and nothing after a failure. *)
Definition makefd_xprt (fd : Z) (flags : Z) : EV (option positive) :=
  o <- svc_xprt_lookup params fd (Some svc_vc_xprt_setup) ;;
  match o with
  | None => ret None
  | Some x =>
      xp_flags <- postset_flags x (Z.lor flags SVC_XPRT_FLAG_INITIALIZED) ;;
      if flag xp_flags SVC_XPRT_FLAG_INITIALIZED then rpc_dplx_rui x ;; ret (Some x)
      else
        si <- __rpc_fd2sockinfo fd ;;
        match si with
        | Some si =>
            if __rpc_sockinfo2netid si then rpc_dplx_rui x ;; ret (Some x)
            else postclear_flags x SVC_XPRT_FLAG_INITIALIZED ;; rpc_dplx_rui x ;; ret None
        | None => postclear_flags x SVC_XPRT_FLAG_INITIALIZED ;; rpc_dplx_rui x ;; ret None
        end
  end.

(** [svc_rendezvous_stat] of [svc.c]. *)
Definition svc_rendezvous_stat (x : option positive) : EV xprt_stat :=
  match x with
  | None => ret XPRT_IDLE
  | Some x =>
      r <- get_xprt x ;;
      ret (if flag (xp_flags (xp_refs r)) SVC_XPRT_FLAG_DESTROYED then XPRT_DESTROYED else XPRT_IDLE)
  end.

(** The callback of a listener of the daemon; what it sets is used by the requests. *)
Definition nfs_rpc_dispatch_tcp_NFS (x : positive) : EV xprt_stat :=
  r <- get_xprt x ;;
  svc_rendezvous_stat (xp_parent r).

(** The loop around [accept]: an error that is final, or a descriptor. *)
Fixpoint accept_again (fuel : nat) (fd : Z) : EV (option Z) :=
  match fuel with
  | O => abort
  | S fuel =>
      res <- ask (e_accept fd) ;;
      match res with
      | inr newfd => ret (Some newfd)
      | inl errno =>
          if decide (errno = EINTR) then accept_again fuel fd
          else if decide (errno = E_MFILE \/ errno = E_NFILE) then accept_again fuel fd
          else ret None
      end
  end.

(** What follows for the new transport. *)
Definition rendezvous_new (x y : positive) : EV xprt_stat :=
  mod_xprt y (fun r => r <| has_ops := true |>) ;;
  svc_ref x ;;
  mod_xprt y (fun r => r <| xp_parent := Some x |>) ;;
  stat <- nfs_rpc_dispatch_tcp_NFS y ;;
  failed <- (if decide (stat <> XPRT_IDLE) then ret true
             else code <- svc_rqst_xprt_register params y (Some x) ;; ret (bool_decide (code <> 0))) ;;
  if (failed : bool) then
    svc_xprt_destroy y ;;
    svc_release y ;;
    svc_release x ;;
    ret XPRT_DESTROYED
  else
    svc_release y ;;
    ret XPRT_IDLE.

Definition svc_vc_rendezvous (fuel : nat) (x : positive) : EV xprt_stat :=
  r <- get_xprt x ;;
  o <- accept_again fuel (xp_fd r) ;;
  match o with
  | None => ret XPRT_DIED
  | Some fd =>
      code <- svc_rqst_rearm_events x SVC_XPRT_FLAG_ADDED_RECV ;;
      if decide (code <> 0) then close_fd fd ;; ret XPRT_DIED
      else
        o <- makefd_xprt fd SVC_XPRT_FLAG_CLOSE ;;
        match o with
        | None => close_fd fd ;; ret XPRT_DIED
        | Some y =>
            r <- get_xprt y ;;
            if flag (xp_flags (xp_refs r)) SVC_XPRT_FLAG_INITIAL then rendezvous_new x y
            else svc_xprt_destroy y ;; svc_release y ;; ret XPRT_DIED
        end
  end.

(** [SVC_RECV] of a listener; the task does not look at the result. *)
Definition listener_recv (fuel : nat) (x : positive) : EV unit := svc_vc_rendezvous fuel x ;; ret tt.

End Accept.

(** ** A listener that stops listening *)

Section Listener.
  Context {E : Type} `{EvHost E} `{AcceptHost E} (params : svc_params).
  Implicit Types s : xsys E.

(** C16: When [accept] fails with an error other than EINTR, EMFILE and ENFILE, the task of a
    listener ends without asking for the next event: the listener stays in the table, not
    destroyed, and no event starts a task for it any more. *)
Theorem accept_error_deafens s x r err n (e : E) :
  xsys_ok params s -> (forall x, Z.of_nat (hold x s) < 2 ^ 29) -> rec_of x s = Some r -> ioq_working r = true -> releasing r = false -> destroying r = false ->
  Z.testbit (xp_flags (xp_refs r)) 0 = false ->
  e_accept (xp_fd r) (snd (e_clock (host (xw s)))) = (inl err, e) -> err <> EINTR -> err <> E_MFILE -> err <> E_NFILE ->
  exists w r', svc_rqst_xprt_task_recv (listener_recv params (S n)) x (xw s) = Some (tt, w) /\ xsys_ok params (mk_xsys w (held s)) /\
    xprts (tab w) !! x = Some r' /\ fd_node r' = true /\ destroying r' = false /\ sys w = sys (xw s) /\
    forall fd, ~ recv_ready (mk_xsys w (held s)) fd x.
Proof.
  intros Hs Hh Hr Hw Hl Hd Hb Hacc H1 H2 H3. destruct (task_start params s x r (listener_recv params (S n)) Hs Hh Hr Hw Hl Hd) as (Hn & Hf & Hc & Hs2 & ->).
  set (r2 := (r <| ioq_working := false |> <| recv_sec := _ |>)) in *. specialize (Hh x) as Hhx.
  unfold listener_recv, svc_vc_rendezvous. ev_run. cbn [accept_again]. ev_run. change (xp_fd r2) with (xp_fd r). rewrite Hacc. cbn [fst snd].
  rewrite decide_False by done. rewrite decide_False by (intros []; congruence). ev_run.
  match goal with |- context [svc_release x ?y] => set (w2 := y) in * end.
  assert (exists r3, svc_release x w2 = Some (tt, wst x r3 (tab (xw s)) (chs (xw s)) (queue (xw s)) (sys (xw s)) e) /\ fd_node r3 = true /\
    xp_flags (xp_refs r3) = xp_flags (xp_refs r)) as (r3 & Hrel & Hn3 & Hfl3).
  { rewrite <- (ret_end (svc_release x)). unfold w2. rewrite run_release by (done || (change (xp_refcnt (xp_refs r2)) with (xp_refcnt (xp_refs r)); lia)). by eexists. }
  assert (xsys_ok params (holding x (S (hold x s)) s w2)) as Hs3 by (eapply ok_holding_world; [exact Hs2|done|done]).
  destruct (svc_release_run params _ x r2 (hold x s) Hs3 (wst_lookup _ _ _ _ _ _ _) (hold_holding _ _ _ _)) as (w & Hw3 & Hok & _).
  { intros z. specialize (Hh z). destruct (decide (z = x)) as [->|]; [rewrite hold_holding|rewrite hold_other by done]; lia. }
  change (svc_release x w2 = Some (tt, w)) in Hw3. rewrite Hrel in Hw3. injection Hw3 as <-. eexists _, r3. split; [exact Hrel|]. split_and!.
  - rewrite holding_holding in Hok. by apply (ok_held params _ _ x).
  - apply wst_lookup.
  - done.
  - unfold destroying. by rewrite Hfl3.
  - done.
  - intros fd (r' & Hr' & _ & _ & Hb' & _). unfold rec_of in Hr'. cbn [xw] in Hr'. rewrite wst_lookup in Hr'. injection Hr' as <-. congruence.
Qed.

(** ** A new connection *)

(** The calls for a new descriptor succeed, as long as [P] holds of the host. *)
Record calm (P : E -> Prop) (fd : Z) : Prop := mk_calm {
  calm_clock e : P e -> P (snd (e_clock e));
  calm_ctl epfd op f ev e : P e -> fst (e_epoll_ctl epfd op f ev e) = 0 /\ P (snd (e_epoll_ctl epfd op f ev e));
  calm_signal f sig e : P e -> P (e_signal f sig e);
  calm_name e : P e -> fst (e_sockname fd e) = Some AF_INET /\ P (snd (e_sockname fd e));
  calm_type e : P e -> fst (e_socktype fd e) = Some SOCK_STREAM /\ P (snd (e_socktype fd e)) }.

(** A descriptor that is not in the table. *)
Lemma lookup_new_run s fd st :
  0 <= max_connections params < 2 ^ 32 - 1 -> xsys_ok params s -> (forall x, ~ registered (tab (xw s)) fd x) -> connections (tab (xw s)) < max_connections params ->
  exists y t sec, svc_xprt_lookup params fd (Some st) (xw s) = Some (Some y, mk_ev t (chs (xw s)) (queue (xw s)) (sys (xw s)) (snd (e_clock (host (xw s))))) /\
    rec_of y s = None /\ xsys_ok params (holding y (setup_refs st) s (mk_ev t (chs (xw s)) (queue (xw s)) (sys (xw s)) (snd (e_clock (host (xw s)))))) /\
    xprts t = <[y := ((new_rec fd st sec) <| fd_node := true |>)]> (xprts (tab (xw s))).
Proof.
  intros Hm Hs Hreg Hlt. pose proof Hs as ([l Ht] & _). destruct (tree_lookup_run params 0 fd (xw s) l Ht) as (o & Hlk & Ho). destruct o as [x|]; [by destruct (Hreg x)|].
  destruct (lookup_create_run params Hm s fd st Hs Hreg) as (o & w & Hc & Hres). destruct o as [|y|]; [lia| |done].
  destruct Hres as (_ & Hnone & Hok & t & sec & -> & Hx). exists y, t, sec. split; [|done]. unfold svc_xprt_lookup, svc_xprt_init_failure.
  rewrite (bind_run _ _ (xw s) false (xw s)) by (unfold bind, gets; by rewrite (to_init _ _ _ _ Ht)).
  rewrite (bind_run (lookup_read fd) _ _ None (xw s)) by (unfold lookup_read; by rewrite (bind_run _ _ _ _ _ Hlk)).
  unfold lookup_write. rewrite bind_bind, (bind_run _ _ _ _ _ Hlk), (bind_run _ _ _ _ _ Hc). done.
Qed.

(** Rules for a second transport. *)
Lemma run_get_other {B} x y r rx t c q z (e : E) (k : dplx_rec -> ST (evworld E) B) : x <> y -> xprts t !! x = Some rx -> freed rx = false ->
  bind (get_xprt x) k (wst y r t c q z e) = k rx (wst y r t c q z e).
Proof. intros Hne Hr Hf. apply bind_run, get_xprt_run; [|done]. simpl. by rewrite lookup_insert_ne. Qed.

Lemma run_ref_other {B} x y r rx t c q z (e : E) (k : unit -> ST (evworld E) B) : x <> y -> xprts t !! x = Some rx -> freed rx = false ->
  bind (svc_ref x) k (wst y r t c q z e) = k tt (wst y r (on_xprts (<[x := (rx <| xp_refs := svc_ref_it (xp_refs rx) |>)]>) t) c q z e).
Proof.
  intros Hne Hr Hf. unfold svc_ref, mod_xprt. rewrite bind_bind, (run_get_other x y r rx) by done. apply bind_run.
  unfold set_xprt, modify, wst, on_tab, on_xprts. simpl. by rewrite insert_insert_ne.
Qed.

(** The record of an accepted connection, after [makefd_xprt] and at the end. *)
Definition made_rec (fd sec : Z) : dplx_rec :=
  mk_dplx fd (-1) (mk_refs 2 (Z.lor SVC_XPRT_FLAG_INITIAL (Z.lor SVC_XPRT_FLAG_CLOSE SVC_XPRT_FLAG_INITIALIZED)) 0 0) None false true false sec None
    (mk_event 0 0) (mk_event 0 0) None false false.

Definition accepted_rec (fd sec : Z) (x : positive) (i : nat) : dplx_rec :=
  mk_dplx fd (-1) (mk_refs 1 (Z.lor (xp_flags (xp_refs (made_rec fd sec))) SVC_XPRT_FLAG_ADDED_RECV) 0 0) (Some x) true true false sec (Some i)
    (mk_event (Z.lor EPOLLONESHOT EPOLLIN) fd) (mk_event 0 0) None false false.

Lemma sockinfo_run {B} P y r t c q z (e : E) fd (k : option rpc_sockinfo -> ST (evworld E) B) : calm P fd -> P e ->
  exists e', bind (__rpc_fd2sockinfo fd) k (wst y r t c q z e) = k (Some (mk_si AF_INET IPPROTO_TCP SOCK_STREAM)) (wst y r t c q z e') /\ P e'.
Proof.
  intros Hcalm He. unfold __rpc_fd2sockinfo. ev_run. destruct (calm_name _ _ Hcalm e He) as [-> He1]. ev_run. destruct (calm_type _ _ Hcalm _ He1) as [-> He2].
  by eexists.
Qed.

Lemma makefd_run s P fd : 0 <= max_connections params < 2 ^ 32 - 1 -> xsys_ok params s -> (forall x, ~ registered (tab (xw s)) fd x) ->
  connections (tab (xw s)) < max_connections params -> calm P fd -> P (host (xw s)) ->
  exists y t sec e w0, makefd_xprt params fd SVC_XPRT_FLAG_CLOSE (xw s) = Some (Some y, wst y (made_rec fd sec) t (chs (xw s)) (queue (xw s)) (sys (xw s)) e) /\
    P e /\ rec_of y s = None /\ tab w0 = t /\ queue w0 = queue (xw s) /\ xsys_ok params (holding y 1 s w0) /\
    xprts t = <[y := ((new_rec fd svc_vc_xprt_setup sec) <| fd_node := true |>)]> (xprts (tab (xw s))).
Proof.
  intros Hm Hs Hreg Hlt Hcalm He. destruct (lookup_new_run s fd svc_vc_xprt_setup Hm Hs Hreg Hlt) as (y & t & sec & Hlk & Hnone & Hok & Hx).
  unfold makefd_xprt. rewrite (bind_run _ _ _ _ _ Hlk).
  match type of Hok with xsys_ok _ (holding _ _ _ ?w) => set (w0 := w) in *; rewrite (wst_world y ((new_rec fd svc_vc_xprt_setup sec) <| fd_node := true |>) w0)
    by (simpl; rewrite Hx; apply lookup_insert_eq) end.
  ev_run. change (flag _ SVC_XPRT_FLAG_INITIALIZED) with false. cbv beta iota.
  match goal with |- context [wst y ?r _ _ _ _ _] => set (r1 := r) end.
  destruct (sockinfo_run P y r1 (tab w0) (chs w0) (queue w0) (sys w0) (host w0) fd (fun si => match si with
    | Some si => if __rpc_sockinfo2netid si then rpc_dplx_rui y ;; ret (Some y) else postclear_flags y SVC_XPRT_FLAG_INITIALIZED ;; rpc_dplx_rui y ;; ret None
    | None => postclear_flags y SVC_XPRT_FLAG_INITIALIZED ;; rpc_dplx_rui y ;; ret None end) Hcalm) as (e & -> & He'); [by apply (calm_clock _ _ Hcalm)|].
  change (__rpc_sockinfo2netid _) with true. cbv beta iota. ev_run. by exists y, t, sec, e, w0.
Qed.

(** A channel that keeps the connections of its listener. *)
Definition own_chan (c : chan_set) (i : nat) (ch : svc_rqst_rec) : Prop :=
  srr c !! i = Some ch /\ open_chan ch /\ flag (ev_flags ch) SVC_RQST_FLAG_CHAN_AFFINITY = true /\ id_k ch = Z.of_nat i /\ (0 < i)%nat /\ Z.of_nat i < max_id c /\
  0 < ev_refcnt ch.

Lemma register_run P fd x y ry rx t c q z (e : E) i ch : calm P fd -> P e -> x <> y -> xprts t !! x = Some rx -> freed rx = false -> ev_p rx = Some i ->
  own_chan c i ch -> freed ry = false -> recv_locked ry = false -> ev_p ry = None ->
  exists c' z' e', svc_rqst_xprt_register params y (Some x) (wst y ry t c q z e) =
    Some (0, wst y (ry <| xp_refs := (xp_refs ry) <| xp_flags := Z.lor (xp_flags (xp_refs ry)) SVC_XPRT_FLAG_ADDED_RECV |> |> <| ev_p := Some i |>
      <| event_recv := mk_event (Z.lor EPOLLONESHOT EPOLLIN) (xp_fd ry) |>) t c' q z' e').
Proof.
  intros Hcalm He Hne Hx Hfx Hpx (Hch & [Hty Hsd] & Haff & Hid & Hi & Hmax & Href) Hf Hl Hp. unfold svc_rqst_xprt_register. rewrite bind_bind, (run_get_other x y ry rx) by done. ev_run.
  rewrite Hpx, (run_get_chan _ _ _ _ _ _ _ i ch), Haff, Hid by done. unfold svc_rqst_evchan_reg. rewrite decide_False by lia. ev_run.
  unfold svc_rqst_lookup_chan. rewrite bind_bind, (bind_run (gets _) _ _ (max_id c) _) by done. rewrite decide_False by lia. cbv zeta. rewrite Nat2Z.id.
  rewrite bind_bind, (run_get_chan _ _ _ _ _ _ _ i ch) by done. rewrite decide_False by lia. unfold add_refs. rewrite bind_bind, (mod_chan_run _ _ _ _ _ _ _ i ch) by done. ev_run.
  change (flag SVC_RQST_FLAG_NONE RPC_DPLX_LOCKED) with false. cbn [negb when]. ev_run. rewrite decide_False by (simpl; congruence).
  change (ev_p (ry <| recv_locked := true |>)) with (ev_p ry). rewrite Hp. ev_run. unfold svc_rqst_hook_events.
  change (Z.lor SVC_XPRT_FLAG_ADDED_RECV (Z.land SVC_RQST_FLAG_NONE SVC_XPRT_FLAG_UREG)) with SVC_XPRT_FLAG_ADDED_RECV. ev_run.
  rewrite (run_get_chan _ _ _ _ _ _ _ i (ch <| ev_refcnt := i32 (ev_refcnt ch + 1) |>)) by (by apply (srr_insert c i ch)).
  change (ev_type (ch <| ev_refcnt := _ |>)) with (ev_type ch). rewrite Hty. change (flag SVC_XPRT_FLAG_ADDED_RECV SVC_XPRT_FLAG_ADDED_RECV) with true.
  change (flag SVC_XPRT_FLAG_ADDED_RECV SVC_XPRT_FLAG_ADDED_SEND) with false. cbv beta iota zeta. ev_run.
  rewrite (proj1 (calm_ctl _ _ Hcalm _ _ _ _ e He)). rewrite decide_False by (by intros []). ev_run. unfold ev_sig. ev_run.
  eexists _, _, _. unfold ret. do 3 f_equal. destruct ry; simpl in *. by subst.
Qed.

(** The rest of the rendezvous, for a descriptor. *)
Definition rendezvous_fd (x : positive) (fd : Z) : ST (evworld E) xprt_stat :=
  code <- svc_rqst_rearm_events x SVC_XPRT_FLAG_ADDED_RECV ;;
  if decide (code <> 0) then close_fd fd ;; ret XPRT_DIED
  else
    o <- makefd_xprt params fd SVC_XPRT_FLAG_CLOSE ;;
    match o with
    | None => close_fd fd ;; ret XPRT_DIED
    | Some y =>
        r <- get_xprt y ;;
        if flag (xp_flags (xp_refs r)) SVC_XPRT_FLAG_INITIAL then rendezvous_new params x y
        else svc_xprt_destroy y ;; svc_release y ;; ret XPRT_DIED
    end.

Lemma rendezvous_start s x r fd n (e : E) : rec_of x s = Some r -> freed r = false -> e_accept (xp_fd r) (host (xw s)) = (inr fd, e) ->
  svc_vc_rendezvous params (S n) x (xw s) = rendezvous_fd x fd (wst x r (tab (xw s)) (chs (xw s)) (queue (xw s)) (sys (xw s)) e).
Proof.
  intros Hr Hf Hacc. unfold svc_vc_rendezvous. rewrite (wst_world x r (xw s)) at 1 by done. ev_run. cbn [accept_again]. ev_run. rewrite Hacc. done.
Qed.

(** What is done for the new connection. *)
Lemma rendezvous_new_run P fd sec x y rx t c q z (e : E) i ch : calm P fd -> P e -> x <> y -> xprts t !! x = Some rx -> freed rx = false -> ev_p rx = Some i ->
  flag (xp_flags (xp_refs rx)) SVC_XPRT_FLAG_DESTROYED = false -> own_chan c i ch ->
  exists c' z' e', rendezvous_new params x y (wst y (made_rec fd sec) t c q z e) =
    Some (XPRT_IDLE, wst y (accepted_rec fd sec x i) (on_xprts (<[x := (rx <| xp_refs := svc_ref_it (xp_refs rx) |>)]>) t) c' q z' e').
Proof.
  intros Hcalm He Hne Hx Hfx Hpx Hfl Hown. unfold rendezvous_new. ev_run. rewrite (run_ref_other x y _ rx) by done. ev_run.
  set (t' := on_xprts _ t). set (rx' := (rx <| xp_refs := svc_ref_it (xp_refs rx) |>)). assert (xprts t' !! x = Some rx') as Hx' by apply lookup_insert_eq.
  set (r1 := (made_rec fd sec) <| has_ops := true |> <| xp_parent := Some x |>).
  unfold nfs_rpc_dispatch_tcp_NFS. ev_run. change (xp_parent r1) with (Some x). cbn [svc_rendezvous_stat]. rewrite bind_bind, (run_get_other x y r1 rx') by done. ev_run.
  change (xp_flags (xp_refs rx')) with (xp_flags (xp_refs rx)). rewrite Hfl. rewrite decide_False by (by intros []). ev_run.
  destruct (register_run P fd x y r1 rx' t' c q z e i ch Hcalm He Hne Hx' Hfx Hpx Hown eq_refl eq_refl eq_refl) as (c' & z' & e' & Hreg).
  rewrite (bind_run _ _ _ _ _ Hreg). ev_run. rewrite bool_decide_false by (by intros []). cbv beta iota. rewrite run_release by (done || (vm_compute; done)).
  exists c', z', e'. done.
Qed.

(** The record of a listener that waits again. *)
Definition waiting (r : dplx_rec) : dplx_rec :=
  r <| xp_refs := (xp_refs r) <| xp_flags := Z.lor (xp_flags (xp_refs r)) SVC_XPRT_FLAG_ADDED_RECV |> |>
    <| event_recv := mk_event (Z.lor EPOLLIN EPOLLONESHOT) (ev_fd (event_recv r)) |>.

Lemma waiting_bit r n : 0 < n -> Z.testbit (xp_flags (xp_refs (waiting r))) n = Z.testbit (xp_flags (xp_refs r)) n.
Proof. intros Hn. simpl. rewrite (lor_bit _ 0), bool_decide_false by lia. apply orb_false_r. Qed.

Lemma waiting_ok s x r c z (e : E) : xsys_ok params s -> rec_of x s = Some r -> freed r = false ->
  xsys_ok params (mk_xsys (wst x (waiting r) (tab (xw s)) c (queue (xw s)) z e) (held s)).
Proof.
  intros Hs Hr Hf. apply (ok_held params _ _ x). eapply (ok_holding_world params s x _ (wput x (waiting r) (queue (xw s)) (xw s))); [|done|done].
  apply (put_ok params s x r); [done..|]. apply (rec_ok_same _ _ _ r); try done; [by apply Hs|by apply (waiting_bit r 5)|by apply (waiting_bit r 6)].
Qed.

(** The invariant with the new connection and its reference to the listener. *)
Lemma accepted_ok s x rx y fd sec i (w0 w : evworld E) :
  xsys_ok params (holding y 1 s w0) -> (forall z, Z.of_nat (hold z s) < 2 ^ 29) -> rec_of y s = None -> rec_of x s = Some rx -> (0 < hold x s)%nat -> x <> y ->
  xprts (tab w0) = <[y := ((new_rec fd svc_vc_xprt_setup sec) <| fd_node := true |>)]> (xprts (tab (xw s))) -> queue w0 = queue (xw s) ->
  tab w = on_xprts (<[y := accepted_rec fd sec x i]>) (on_xprts (<[x := (rx <| xp_refs := svc_ref_it (xp_refs rx) |>)]>) (tab w0)) -> queue w = queue w0 ->
  xsys_ok params s -> xsys_ok params (mk_xsys w (<[y := 0%nat]> (<[x := S (hold x s)]> (held s)))).
Proof.
  intros Hok Hh Hy Hx Hhx Hne Hx0 Hq0 Ht Hq Hs. set (sA := holding y 1 s w0) in *. set (rx' := (rx <| xp_refs := svc_ref_it (xp_refs rx) |>)) in *.
  assert (rec_of x sA = Some rx) as HxA by (unfold rec_of; simpl; by rewrite Hx0, lookup_insert_ne).
  assert (hold x sA = hold x s) as HhA by (by apply hold_other).
  destruct (svc_ref_run params sA x rx Hok HxA) as (wA & HrefA & HokA); [left; lia| |].
  { intros z. specialize (Hh z). unfold sA. destruct (decide (z = y)) as [->|]; [rewrite hold_holding|rewrite hold_other by done]; lia. }
  destruct (held_rec params sA x Hok) as (r0 & Hr0 & Hf & _); [lia|]. rewrite HxA in Hr0. injection Hr0 as <-.
  unfold svc_ref, mod_xprt in HrefA. rewrite (bind_run _ _ _ _ _ (get_xprt_run x rx (xw sA) HxA Hf)), set_xprt_run in HrefA. injection HrefA as <-. rewrite HhA in HokA.
  set (sB := holding x (S (hold x s)) sA (wput x rx' (queue (xw sA)) (xw sA))) in *.
  assert (rec_of y sB = Some ((new_rec fd svc_vc_xprt_setup sec) <| fd_node := true |>)) as HyB
    by (unfold rec_of; simpl; rewrite lookup_insert_ne by done; rewrite Hx0; apply lookup_insert_eq).
  assert (rec_ok (queue (xw sB)) 0 y (accepted_rec fd sec x i)) as Hrec.
  { destruct (proj2 (proj2 Hs) y Hy) as [_ Hocc]. split; try done. change (queue (xw sB)) with (queue w0). by rewrite Hq0. }
  pose proof (put_ok params sB y _ (accepted_rec fd sec x i) 0 HokA HyB eq_refl eq_refl eq_refl Hrec) as Hfin.
  assert (<[y := 0%nat]> (<[x := S (hold x s)]> (held s)) = <[y := 0%nat]> (held sB)) as ->.
  { simpl. rewrite (insert_insert_ne _ x y) by done. by rewrite !insert_insert_eq. }
  change (xsys_ok params (holding y 0 sB w)). eapply ok_holding_world; [exact Hfin| |done]. by rewrite Ht.
Qed.

(** C13: When [accept] delivers a descriptor that is not in the table, there is room and the
    calls for it succeed, the listener waits for the next connection, and the new
    connection is in the table, with the listener as its parent and registered for input
    on its channel; the table refers to it, it refers to the listener, and all counts of
    references are exact. *)
Theorem connection_accepted s x r fd i ch P n (e : E) :
  0 <= max_connections params < 2 ^ 32 - 1 -> xsys_ok params s -> (forall x, Z.of_nat (hold x s) < 2 ^ 29) -> rec_of x s = Some r -> (0 < hold x s)%nat ->
  recv_locked r = false -> destroying r = false -> Z.testbit (xp_flags (xp_refs r)) 0 = false -> ev_p r = Some i -> own_chan (chs (xw s)) i ch ->
  e_accept (xp_fd r) (host (xw s)) = (inr fd, e) -> P e -> calm P fd ->
  (forall y, ~ registered (tab (xw s)) fd y) -> connections (tab (xw s)) < max_connections params ->
  exists w y sec rx, svc_vc_rendezvous params (S n) x (xw s) = Some (XPRT_IDLE, w) /\ rec_of y s = None /\
    xsys_ok params (mk_xsys w (<[y := 0%nat]> (<[x := S (hold x s)]> (held s)))) /\ xprts (tab w) !! y = Some (accepted_rec fd sec x i) /\
    xprts (tab w) !! x = Some rx /\ Z.testbit (xp_flags (xp_refs rx)) 0 = true /\ fd_node rx = fd_node r /\ xp_refcnt (xp_refs rx) = xp_refcnt (xp_refs r) + 1.
Proof.
  intros Hm Hs Hh Hr Hhx Hlk Hd Hb Hp Hown Hacc He Hcalm Hreg Hlt. destruct (held_rec params s x Hs Hhx) as (r0 & Hr0 & Hf & Hl & Hrec).
  rewrite Hr in Hr0. injection Hr0 as <-. rewrite (rendezvous_start s x r fd n e) by done.
  unfold rendezvous_fd. pose proof Hown as (Hch & Hop & _).
  assert (flag (xp_flags (xp_refs r)) (Z.lor SVC_XPRT_FLAG_ADDED_RECV SVC_XPRT_FLAG_DESTROYED) = false /\ flag (xp_flags (xp_refs (waiting r))) SVC_XPRT_FLAG_DESTROYED = false) as [Hfl Hfl'].
  { rewrite flag_lor, (flag_bit _ 0), !flag_destroyed, !waiting_bit by lia. rewrite Hb. change (Z.testbit _ 5) with (destroying r). change (Z.testbit _ 6) with (releasing r).
    by rewrite Hd, Hl. }
  pose proof (calm_ctl _ _ Hcalm (epoll_fd ch) EPOLL_CTL_MOD (xp_fd r) (mk_event (Z.lor EPOLLIN EPOLLONESHOT) (ev_fd (event_recv r))) e He) as [Hctl He2].
  rewrite (bind_run _ _ _ _ _ (rearm_run x r (tab (xw s)) (chs (xw s)) (queue (xw s)) (sys (xw s)) e i ch Hf Hlk Hfl Hp Hch Hop Hctl)).
  rewrite decide_False by (by intros []). change (r <| xp_refs := _ |> <| event_recv := _ |>) with (waiting r).
  match goal with |- context [wst x (waiting r) _ ?c ?q ?z ?e] => set (s1 := mk_xsys (wst x (waiting r) (tab (xw s)) c q z e) (held s)) end.
  assert (xsys_ok params s1) as Hs1 by (by apply waiting_ok). assert (rec_of x s1 = Some (waiting r)) as Hx1 by apply wst_lookup.
  destruct (makefd_run s1 P fd Hm Hs1) as (y & t & sec & e3 & w0 & Hmk & He3 & Hy1 & <- & Hq0 & Hok0 & Hxt); [|done|done|done|].
  { intros y (ry & Hry & Hny & Hfdy). apply (Hreg y). simpl in Hry. destruct (decide (y = x)) as [->|]; [rewrite lookup_insert_eq in Hry; injection Hry as <-; by exists r|].
    rewrite lookup_insert_ne in Hry by done. by exists ry. }
  assert (x <> y) as Hne by congruence.
  change (wst x (waiting r) _ _ _ _ _) with (xw s1). rewrite (bind_run _ _ _ _ _ Hmk). ev_run. change (flag _ SVC_XPRT_FLAG_INITIAL) with true. cbv beta iota.
  assert (xprts (tab w0) !! x = Some (waiting r)) as Hxt' by (rewrite Hxt, lookup_insert_ne by done; exact Hx1).
  destruct (rendezvous_new_run P fd sec x y (waiting r) (tab w0) (chs (xw s1)) (queue (xw s1)) (sys (xw s1)) e3 i ch Hcalm He3 Hne Hxt' Hf Hp Hfl' Hown) as (c' & z' & e' & ->).
  eexists _, y, sec, _. split; [reflexivity|]. assert (rec_of y s = None) as Hy by (unfold rec_of in Hy1; simpl in Hy1; by rewrite lookup_insert_ne in Hy1).
  split_and!; [done|apply (accepted_ok s1 x (waiting r) y fd sec i w0); done|apply wst_lookup|simpl; rewrite lookup_insert_ne by done; apply lookup_insert_eq|..].
  - change (Z.testbit (Z.lor (xp_flags (xp_refs r)) SVC_XPRT_FLAG_ADDED_RECV) 0 = true). rewrite (lor_bit _ 0) by lia. by rewrite bool_decide_true, orb_true_r.
  - done.
  - simpl. rewrite i32_small; [done|]. unfold is_i32. pose proof (ro_count _ _ _ _ Hrec Hf). specialize (Hh x). destruct (fd_node r), (ioq_working r && negb (releasing r)); simpl in *; lia.
Qed.

End Listener.

(** ** The theorems at a listener *)

#[global] Instance script_accept : AcceptHost ev_script := {
  e_accept _ e := match es_accept e with [] => (inr (es_next_fd e), e <| es_next_fd := es_next_fd e + 1 |>) | a :: l => (a, e <| es_accept := l |>) end;
  e_sockname _ e := match es_sock e with [] => (Some AF_INET, e) | a :: l => (a, e <| es_sock := l |>) end;
  e_socktype _ e := (Some SOCK_STREAM, e) }.

(** The transport of descriptor 5 has input, with these answers to come. *)
Definition demo_listener (accepts : list (Z + Z)) (ctls : list Z) (socks : list (option Z)) : evworld ev_script :=
  mk_ev (tab demo_read) (chs demo_read) (queue demo_read) (sys demo_read) ((host demo_read) <| es_accept := accepts |> <| es_ctl := ctls |> <| es_sock := socks |>).

(** The client has closed the connection before it was accepted (ECONNABORTED). *)
Lemma accept_error_deafens_witness : exists w r,
  svc_rqst_xprt_task_recv (listener_recv demo_params 1) 2 (demo_listener [inl 103] [] []) = Some (tt, w) /\ xprts (tab w) !! 2%positive = Some r /\ fd_node r = true /\
  ~ recv_ready (mk_xsys w demo_held) 5 2.
Proof.
  destruct (demo_rec demo_read) as [r|] eqn:Hr; [|by vm_compute in Hr]. pose proof Hr as Hr0. vm_compute in Hr0.
  destruct (accept_error_deafens demo_params (mk_xsys (demo_listener [inl 103] [] []) demo_held) 2 r 103 0 (snd (e_accept 5 (host (demo_listener [inl 103] [] [])))))
    as (w & r' & Hrun & _ & Hx & Hn & _ & _ & Hno); [apply (ok_world demo_params (mk_xsys demo_read demo_held)); [exact demo_read_ok|done|done]|intros x; by rewrite demo_holds|exact Hr|by injection Hr0 as <-..|done|done|done|].
  exists w, r'. split; [exact Hrun|]. split; [exact Hx|]. split; [exact Hn|]. apply Hno.
Defined.

(** The task has started, and refers to the listener. *)
Definition demo_rendezvous : xsys ev_script := Eval vm_compute in default (mk_xsys demo_read demo_held) (fire demo_params (AStart 2) (mk_xsys demo_read demo_held)).

Lemma demo_rendezvous_ok : xsys_ok demo_params demo_rendezvous.
Proof.
  destruct (fire_ok demo_params ltac:(cbn; lia) (AStart 2) (mk_xsys demo_read demo_held) demo_read_ok) as (s & Hf & Hs); [apply roomb_room; by vm_compute|apply enabledb_enabled; by vm_compute|].
  assert (fire demo_params (AStart 2) (mk_xsys demo_read demo_held) = Some demo_rendezvous) as He by (by vm_compute). rewrite He in Hf. by injection Hf as <-.
Qed.

(** Without answers in advance everything succeeds. *)
Lemma calm_script fd : calm (fun e : ev_script => es_ctl e = [] /\ es_sock e = []) fd.
Proof.
  split; intros; match goal with H : _ = [] /\ _ = [] |- _ => destruct H as [Hc Hs] end; cbn; rewrite ?Hc, ?Hs; cbn; auto.
Qed.

Lemma connection_accepted_witness : exists w y sec, svc_vc_rendezvous demo_params 1 2 (xw demo_rendezvous) = Some (XPRT_IDLE, w) /\
  xsys_ok demo_params (mk_xsys w (<[y := 0%nat]> (<[2%positive := 2%nat]> (held demo_rendezvous)))) /\ xprts (tab w) !! y = Some (accepted_rec 23 sec 2 15).
Proof.
  destruct (rec_of 2 demo_rendezvous) as [r|] eqn:Hr; [|by vm_compute in Hr]. pose proof Hr as Hr0. vm_compute in Hr0.
  destruct (srr (chs (xw demo_rendezvous)) !! 15%nat) as [ch|] eqn:Hc; [|by vm_compute in Hc]. pose proof Hc as Hc0. vm_compute in Hc0.
  destruct (connection_accepted demo_params demo_rendezvous 2 r 23 15 ch (fun e => es_ctl e = [] /\ es_sock e = []) 0 (snd (e_accept 5 (host (xw demo_rendezvous)))))
    as (w & y & sec & rx & Hrun & _ & Hok & Hy & _).
  1: by cbn.
  1: exact demo_rendezvous_ok.
  1: { intros x. unfold hold. destruct (held demo_rendezvous !! x) as [k|] eqn:Hk; [|done].
       assert (bool_decide (map_Forall (fun _ n => bool_decide (Z.of_nat n < 2 ^ 29) = true) (held demo_rendezvous)) = true) as Hall by (by vm_compute).
       by apply (check_all _ _ Hall), bool_decide_eq_true in Hk. }
  1: exact Hr.
  1: by vm_compute; lia.
  1-4: by injection Hr0 as <-.
  1: { injection Hc0 as <-. unfold own_chan, open_chan. split_and!; [exact Hc|done..|lia|by vm_compute|done]. }
  1: by injection Hr0 as <-.
  1: done.
  1: apply calm_script.
  1: { intros x (rx & Hx & _ & Hfd).
       assert (bool_decide (map_Forall (fun _ r => bool_decide (xp_fd r <> 23) = true) (xprts (tab (xw demo_rendezvous)))) = true) as Hall by (by vm_compute).
       by apply (check_all _ _ Hall), bool_decide_eq_true in Hx. }
  1: done.
  exists w, y, sec. split; [exact Hrun|]. split; [exact Hok|exact Hy].
Defined.

(** A connection that cannot be registered (ENOSPC) costs the listener two references for
    one.  This one had only that of the table: it is freed while it is listed, and the next
    event for it uses freed memory. *)
Lemma listener_freed :
  (svc_rqst_xprt_task_recv (listener_recv demo_params 1) 2 ;; dequeue (WDestroy 3) ;; destroy_task 3 ;; dequeue (WDestroy 2) ;; destroy_task 2 ;;
   gets (fun w => (fun r => (fd_node r, freed r)) <$> demo_rec w)) (demo_listener [] [0; 28] []) ≫= (fun p => p.1) = Some (true, true) /\
  (svc_rqst_xprt_task_recv (listener_recv demo_params 1) 2 ;; dequeue (WDestroy 3) ;; destroy_task 3 ;; dequeue (WDestroy 2) ;; destroy_task 2 ;;
   svc_rqst_epoll_event demo_params 15 demo_input) (demo_listener [] [0; 28] []) = None.
Proof. by vm_compute. Qed.

(** A connection whose address cannot be read stays in the table; the next one with its
    descriptor is destroyed through operations that were never set. *)
Lemma stale_transport :
  (fst <$> svc_vc_rendezvous demo_params 1 2 (demo_listener [inr 23; inr 23] [] [None])) = Some XPRT_DIED /\
  (svc_vc_rendezvous demo_params 1 2 ;; svc_vc_rendezvous demo_params 1 2) (demo_listener [inr 23; inr 23] [] [None]) = None.
Proof. by vm_compute. Qed.
